(* ===== verification/_CoqProject ===== *)
-Q . S2P
Prelude.v
Verbs.v
Lib.v
ObjNum.v
Cq.v
Srq.v
Mr.v
MrSafe.v
State.v
Demo.v
Sched.v
Qp.v
QpInv.v
QpThm.v
QpTable.v
Packet.v
Wire.v
Port.v
Pma.v
PmaThm.v
SwitchSmp.v
SwitchThm.v
Netd.v
NetdThm.v
EasySw.v
EasySwThm.v
Mad.v
MadThm.v
Rc.v
RcThm.v
RcRsp.v
RcResp.v
RcInv.v
RcRspThm.v
Ud.v
UdThm.v
Requester.v
RequesterThm.v
RcRespThm.v
Multicast.v
Hca.v
Frame.v
HcaThm.v
Link.v
LinkThm.v
Load.v
LoadInv.v
LoadAcq.v
LoadThm.v
Trace.v
TraceThm.v
Device.v
DeviceThm.v
Objects.v
Text.v
Provider.v
ProviderThm.v
FabricThm.v
Transit.v
UdSendThm.v
DatagramThm.v
RcSendThm.v
RcRecvThm.v
MessageThm.v
Names.v
Inspect.v
InspectThm.v
TraceText.v
Dma.v
Layout.v
Start.v
