(* ===== verification/Prelude.v ===== *)
(** * A verification development for pib, the pseudo InfiniBand HCA

    pib is a Linux kernel module that emulates an InfiniBand host channel adapter
    over UDP sockets (src/driver), with a user-space provider (src/libpib) and a
    daemon that is the switch of a fabric of several hosts (src/pibnetd).  Programs
    post work requests to queue pairs; a kernel thread turns them into packets; the
    packets reach another HCA directly, through the switch inside the driver
    (pib_easy_sw.c) or through pibnetd; the receiving thread gives them to the queue
    pair they are for, which writes memory, completes requests and answers.
    Management datagrams go to agents in the HCA and in the switches.

    ** How the program is modelled

    Definitions are executable and keep the names of the source.  A handler is a
    computation of the monad [M st] of this file: explicit state, [None] where the C
    code hits BUG(), follows a null pointer or leaves an array.  Integers are [Z]
    with the conversion of their C type written out where it matters; memory is a
    function from addresses to bytes; a linked list of work queue entries is a list
    of entry numbers with the entries in a finite map, so that moving an entry between
    lists is visible.  A handler runs under the locks it takes, as one step.

    ** Files

    - Prelude: integers, the monad, its rules ([wp], [obeys], [keeps]) and tactics.
    - Verbs: constants, flags and enumerations (pib.h, and the rdma headers it uses).
    - Lib: opcode table, timers, packet counts, LIDs (pib_lib.c).
    - ObjNum: numbers of objects (pib_main.c: pib_alloc_obj_num).
    - Cq, Srq: completion queues and shared receive queues (pib_cq.c, pib_srq.c).
    - Mr, MrSafe: memory regions and every way of copying through them (pib_mr.c).
    - State: the device as a handler of one QP sees it (pib.h); Demo: an instance.
    - Sched: the due time of a QP and the tree of the scheduler (pib_thread.c:
      pib_util_reschedule_qp).
    - Qp, QpInv, QpThm: modify, post, flush, query (pib_qp.c).
    - QpTable: creation, destruction and lookup of queue pairs (pib_qp.c).
    - Packet, Wire: packet headers and members of packets (pib_packet.h,
      pib_thread.c: pib_parse_packet_header, pibnetd/byteorder.h).
    - Rc, RcThm: requests of the reliable connection transport (pib_rc.c).
    - RcRsp, RcResp, RcInv, RcRspThm: its responder and the responses.
    - Ud, UdThm: datagrams (pib_ud.c).
    - Requester, RequesterThm: a pass of the scheduler over a QP (pib_thread.c:
      process_on_qp_scheduler, process_new_send_wr, process_send_wr).
    - RcRespThm: acknowledges and responses at the requester (pib_rc.c).
    - Multicast: multicast groups (pib_multicast.c).
    - Hca, Frame, HcaThm: the device with all its queue pairs, its work queue and the
      errors of shared objects (pib_thread.c, pib_cq.c, pib_srq.c, pib_debugfs.c:
      pib_inject_err_handler); Frame: what a handler of one QP leaves alone.
    - Link, LinkThm: the device thread, packets in and out, the link to pibnetd
      (pib_thread.c).
    - Port: ports and the attribute PortInfo (pib_mad.c, pib.h).
    - Mad, MadThm: the agent of an HCA (pib_mad.c).
    - Pma, PmaThm: the performance agents of the driver and of pibnetd (pib_mad_pma.c,
      pibnetd/perf.c).
    - SwitchSmp, SwitchThm: the subnet management agent of pibnetd (pibnetd/smp.c).
    - Netd, NetdThm: the daemon (pibnetd/main.c).
    - EasySw, EasySwThm: the switch inside the driver (pib_easy_sw.c).
    - Load, LoadInv, LoadAcq, LoadThm: what loading the module acquires and unloading it
      releases (pib_main.c: pib_init, pib_cleanup and what they call).
    - Trace, TraceThm: the execution trace (pib_debugfs.c).
    - Device, DeviceThm: attributes and GUIDs of devices and ports, and the verbs that
      query and modify them (pib_main.c).
    - Objects: user contexts, protection domains, address handles (pib_ucontext.c, pib_pd.c,
      pib_ah.c).
    - Provider, ProviderThm: the user-space provider (libpib/src/pib.c).
    - FabricThm: HCAs and pibnetd together.
    - Transit: what every packet between two HCAs goes through.
    - UdSendThm, DatagramThm: a datagram from the send queue of one HCA through pibnetd into
      the memory of another.
    - RcSendThm, RcRecvThm, MessageThm: a message over a reliable connection and its
      acknowledge, from the post to the completion.
    - Text, Names: numbers as text, and the names of values (pib_lib.c).
    - Inspect, InspectThm: the files that show the objects of a device and the file that
      injects errors (pib_debugfs.c).
    - TraceText: the lines of the trace (pib_debugfs.c: trace_seq_show).
    - Dma: DMA addresses (pib_dma.c).
    - Layout: the packed structures of packets and their members (pibnetd_packet.h,
      pib_packet.h).
    - Start: the start of pibnetd (pibnetd/main.c: main, init_control).

    ** What the theorems show

    - Safety of the data path: whatever packet arrives, the responder and the
      datagram receiver do not fail, keep the queue-pair invariant ([qp_wf]: every
      entry on one list, counters exact, scheduler and queues consistent), and write
      memory only in regions that grant the access the packet needs; out of
      sequence packets have no effect.
    - Function of the data path: segmentation of messages, the opcodes of their
      packets, delivery of a datagram, atomics, scatter and gather, taking up
      requests and sending them again after a timeout, with the packet sequence
      numbers of the outstanding requests without gap.
    - Verbs: state machine of a QP, posting, flushing, creation and destruction, keys
      of regions, numbers of objects; completion queues and shared receive queues
      refine bounded queues.
    - The fabric: pibnetd forwards unicast, multicast and directed-route packets as its
      tables say, its port table is consistent, its agent and that of the internal
      switch give the same answers; the attributes set are the attributes read.
    - The device: errors of a completion queue or a shared receive queue stop exactly the
      queue pairs that use it; a handler of one queue pair leaves the others alone; the
      work queue is executed to its end; multicast groups are sets; loading the module
      acquires everything or leaves nothing behind.
    - Composition: a port asking pibnetd for a link gets one, and pibnetd knows the port
      by its GUID from then on; immediate data handed to the provider reaches the driver;
      a datagram posted at one HCA arrives in the memory of another, and so does a message
      over a reliable connection, whose acknowledge completes the request.
    - Diagnosis: the trace file shows the newest part of the log of all events; the files of
      the objects show each of them once, and a line of them names its object to the
      injection of errors.
    - Errors and limits: what the code does where it departs from the
      specification or from its own comments, each as a theorem about the code.

    ** Parameters, bounds and fuel

    [Params] holds the module parameters and what the kernel provides (HZ, random
    numbers, whether an allocation succeeds).  Red-black trees are sorted lists.  The
    loops of the source are structural recursions; where the source loops until a
    condition the fuel is the length of the data, which the theorems show to be
    enough.  What arrives at a socket and what the system calls return are arguments.
    Loading takes as arguments which acquisitions succeed; the provider takes the commands
    of libibverbs.  The loop over the work queue gets the fuel of [wq_measure].

    ** Not modelled

    The text of messages to the log, lock wrappers, the registration of the verbs
    with the kernel and with libibverbs, pibping and logging.  Interleavings inside a handler are excluded by the locks
    it holds and are not modelled. *)

From stdpp Require Export prelude gmap list.
From Stdlib Require Export ZArith Lia Zbitwise.

#[export] Set Default Goal Selector "!".
Global Open Scope Z_scope.

(** ** Machine integers

    An unsigned C integer of width [w] is a [Z] in [0, 2^w); every operation of
    the source that can leave the range is followed by the conversion the C
    type performs. *)

Definition wrap (w x : Z) : Z := x mod 2 ^ w.

Definition swrap (w x : Z) : Z :=
  let y := x mod 2 ^ w in if y <? 2 ^ (w - 1) then y else y - 2 ^ w.

Definition u8 (x : Z) : Z := wrap 8 x.
Definition u16 (x : Z) : Z := wrap 16 x.
Definition u32 (x : Z) : Z := wrap 32 x.
Definition u64 (x : Z) : Z := wrap 64 x.
Definition s32 (x : Z) : Z := swrap 32 x.
Definition s64 (x : Z) : Z := swrap 64 x.

(** C truth of a bit-field test [x & mask]. *)
Definition has_flag (x mask : Z) : bool := negb (Z.land x mask =? 0).

Definition Zlen {A} (l : list A) : Z := Z.of_nat (length l).
Arguments Zlen {A} l : simpl never.

(** C booleans used as integers. *)
Definition b2z (b : bool) : Z := if b then 1 else 0.

(** ** Record update

    [r <| f := v |>] replaces one field.  A record registers its eta expansion
    as an [Eta] instance; the setter of a projection is computed from it by
    abstracting the projection in the expansion. *)

Class Eta (R : Type) := eta_expand : R -> R.

Class Setter {R T : Type} (proj : R -> T) := set_field : (T -> T) -> R -> R.
Arguments set_field {R T} proj {Setter} f r /.

Ltac solve_setter :=
  lazymatch goal with
  | |- @Setter ?R ?T ?p =>
      let f := fresh "f" in
      let r := fresh "r" in
      intros f r;
      let e := constr:(_ : Eta R) in
      let e := eval hnf in e in
      let b := eval cbv beta in (e r) in
      lazymatch eval pattern (p r) in b with
      | ?g _ => let t := eval cbv beta in (g (f (p r))) in exact t
      end
  end.

#[export] Hint Extern 1 (Setter _) => solve_setter : typeclass_instances.

Declare Scope pib_scope.
Delimit Scope pib_scope with pib.
Global Open Scope pib_scope.

Notation "r '<|' f ':=' v '|>'" := (set_field f (fun _ => v) r)
  (at level 1, f at next level, v at level 200, left associativity) : pib_scope.
Notation "r '<|' f '::=' g '|>'" := (set_field f g r)
  (at level 1, f at next level, g at level 200, left associativity) : pib_scope.

(** ** The state and failure monad

    A stateful C function that may hit [BUG()] or undefined behaviour is a
    function [S -> option (A * S)]: [None] is that failure. *)

Definition M (S A : Type) : Type := S -> option (A * S).

Definition ret {S A} (a : A) : M S A := fun s => Some (a, s).
Definition bind {S A B} (m : M S A) (k : A -> M S B) : M S B :=
  fun s => match m s with Some (a, s') => k a s' | None => None end.
Definition bug {S A} : M S A := fun _ => None.
Definition get {S} : M S S := fun s => Some (s, s).
Definition gets {S A} (f : S -> A) : M S A := fun s => Some (f s, s).
Definition modify {S} (f : S -> S) : M S unit := fun s => Some (tt, f s).
Definition when {S} (b : bool) (m : M S unit) : M S unit := if b then m else ret tt.
Definition BUG_ON {S} (b : bool) : M S unit := if b then bug else ret tt.
Definition of_option {S A} (o : option A) : M S A :=
  match o with Some a => ret a | None => bug end.

Notation "'let!' x ':=' m 'in' k" := (bind m (fun x => k))
  (at level 10, x pattern, m at level 100, k at level 200,
   format "'[v' 'let!'  x  ':='  m  'in' '/' k ']'") : pib_scope.
Notation "m ';;' k" := (bind m (fun _ => k))
  (at level 100, k at level 200, right associativity,
   format "'[v' m ';;' '/' k ']'") : pib_scope.

(** [list_for_each_entry] over a snapshot of a list. *)
Fixpoint for_each {S A} (f : A -> M S unit) (l : list A) : M S unit :=
  match l with
  | [] => ret tt
  | x :: l' => f x ;; for_each f l'
  end.

(** Total-correctness predicate transformer: [m] does not fail from [s] and its
    result satisfies [Q]. *)
Definition wp {S A} (m : M S A) (Q : A -> S -> Prop) (s : S) : Prop :=
  match m s with Some (a, s') => Q a s' | None => False end.

Section Wp.
Context {S : Type}.

Lemma wp_ret {A} (a : A) Q (s : S) : Q a s -> wp (ret a) Q s.
Proof. done. Qed.

Lemma wp_bind {A B} (m : M S A) (k : A -> M S B) Q s :
  wp m (fun a s' => wp (k a) Q s') s -> wp (bind m k) Q s.
Proof. unfold wp, bind. destruct (m s) as [[a s']|]; done. Qed.

Lemma wp_get Q (s : S) : Q s s -> wp get Q s.
Proof. done. Qed.

Lemma wp_gets {A} (f : S -> A) Q s : Q (f s) s -> wp (gets f) Q s.
Proof. done. Qed.

Lemma wp_modify (f : S -> S) Q s : Q tt (f s) -> wp (modify f) Q s.
Proof. done. Qed.

Lemma wp_when b (m : M S unit) (Q : unit -> S -> Prop) s :
  (b = true -> wp m Q s) -> (b = false -> Q tt s) -> wp (when b m) Q s.
Proof. destruct b; intros H1 H2; [by apply H1|by apply H2]. Qed.

Lemma wp_BUG_ON b (Q : unit -> S -> Prop) s :
  b = false -> Q tt s -> wp (BUG_ON b) Q s.
Proof. by intros ->. Qed.

Lemma wp_mono {A} (m : M S A) (Q Q' : A -> S -> Prop) s :
  wp m Q s -> (forall a s', Q a s' -> Q' a s') -> wp m Q' s.
Proof. unfold wp. destruct (m s) as [[a s']|]; eauto. Qed.

Lemma wp_and {A} (m : M S A) (Q Q' : A -> S -> Prop) s :
  wp m Q s -> wp m Q' s -> wp m (fun a s' => Q a s' /\ Q' a s') s.
Proof. unfold wp. destruct (m s) as [[a s']|]; eauto. Qed.

(** A loop invariant for [for_each]. *)
Lemma wp_for_each {A} (f : A -> M S unit) l (I : list A -> S -> Prop) Q s :
  I l s ->
  (forall x l' s', I (x :: l') s' -> wp (f x) (fun _ s'' => I l' s'') s') ->
  (forall s', I [] s' -> Q tt s') ->
  wp (for_each f l) Q s.
Proof.
  revert s. induction l as [|x l IH]; intros s HI Hstep Hend; simpl; [by apply Hend|].
  apply wp_bind. eapply wp_mono; [by apply Hstep|]. simpl. eauto.
Qed.

Lemma bind_run {A B} (m : M S A) (k : A -> M S B) s a s' : m s = Some (a, s') -> bind m k s = k a s'.
Proof. unfold bind. by intros ->. Qed.

Lemma wp_elim {A} (m : M S A) Q s a s' : wp m Q s -> m s = Some (a, s') -> Q a s'.
Proof. unfold wp. intros H E. by rewrite E in H. Qed.
End Wp.

(** ** Transition relations

    [obeys R m]: every run of [m] goes from a state to one [R] relates it to, for
    a preorder [R].  [keeps f m] is the case where [R] says that [f] is unchanged.
    The tactic [obey] proves such facts by following the structure of [m]; it
    uses the database [obeys] at calls. *)

Definition obeys {S A} (R : relation S) (m : M S A) : Prop := forall s a s', m s = Some (a, s') -> R s s'.
Definition same {S T} (f : S -> T) : relation S := fun s s' => f s' = f s.
Abbreviation keeps f m := (obeys (same f) m).

#[export] Instance same_preorder {S T} (f : S -> T) : PreOrder (same f).
Proof. split; [done|]. intros x y z H1 H2. unfold same in *. congruence. Qed.

Section Obeys.
Context {S : Type} (R : relation S) `{!PreOrder R}.

Lemma obeys_ret {A} (a : A) : obeys R (ret a).
Proof. intros s b s' [= <- <-]. done. Qed.
Lemma obeys_bind {A B} (m : M S A) (k : A -> M S B) : obeys R m -> (forall a, obeys R (k a)) -> obeys R (bind m k).
Proof.
  intros Hm Hk s b s'. unfold bind. destruct (m s) as [[a s1]|] eqn:E; [|done]. intros H.
  transitivity s1; [by eapply Hm|by eapply Hk].
Qed.
Lemma obeys_bug {A} : obeys R (@bug S A).
Proof. done. Qed.
Lemma obeys_get : obeys R get.
Proof. intros s b s' [= <- <-]. done. Qed.
Lemma obeys_gets {A} (f : S -> A) : obeys R (gets f).
Proof. intros s b s' [= <- <-]. done. Qed.
Lemma obeys_modify (f : S -> S) : (forall s, R s (f s)) -> obeys R (modify f).
Proof. intros H s b s' [= <- <-]. apply H. Qed.
Lemma obeys_when b (m : M S unit) : obeys R m -> obeys R (when b m).
Proof. destruct b; [done|]. intros _. apply obeys_ret. Qed.
Lemma obeys_BUG_ON b : obeys R (BUG_ON b).
Proof. destruct b; [done|apply obeys_ret]. Qed.
Lemma obeys_of_option {A} (o : option A) : obeys R (of_option o).
Proof. destruct o; [apply obeys_ret|done]. Qed.
Lemma obeys_for_each {A} (f : A -> M S unit) l : (forall x, obeys R (f x)) -> obeys R (for_each f l).
Proof. intros H. induction l; simpl; [apply obeys_ret|]. by apply obeys_bind. Qed.

Lemma wp_obeys {A} (m : M S A) (Q Q' : A -> S -> Prop) s :
  obeys R m -> wp m Q s -> (forall a s', Q a s' -> R s s' -> Q' a s') -> wp m Q' s.
Proof. unfold wp. intros Ho. specialize (Ho s). destruct (m s) as [[a s']|]; [|done]. intros. eauto. Qed.

Lemma wp_with {A} (m : M S A) (Q : A -> S -> Prop) s : obeys R m -> wp m (fun a s' => R s s' -> Q a s') s -> wp m Q s.
Proof. intros Ho H. eapply wp_obeys; [exact Ho|exact H|]. simpl. eauto. Qed.
End Obeys.

Create HintDb obeys.
Ltac obey_step :=
  lazymatch goal with
  | |- obeys _ (ret _) => apply obeys_ret; exact _
  | |- obeys _ (bind _ _) => apply obeys_bind; [exact _| |intros ?]
  | |- obeys _ bug => apply obeys_bug
  | |- obeys _ get => apply obeys_get; exact _
  | |- obeys _ (gets _) => apply obeys_gets; exact _
  | |- obeys _ (when _ _) => apply obeys_when; [exact _|]
  | |- obeys _ (BUG_ON _) => apply obeys_BUG_ON; exact _
  | |- obeys _ (of_option _) => apply obeys_of_option; exact _
  | |- obeys _ (for_each _ _) => apply obeys_for_each; [exact _|intros ?]
  | |- obeys _ (if ?b then _ else _) => destruct b
  | |- obeys _ (match ?x with _ => _ end) => destruct x
  | |- obeys _ (let x := ?v in _) => cbv zeta
  end.
Ltac obey :=
  repeat (first [progress (cbv beta zeta) | obey_step | (solve [auto 1 with obeys nocore])]);
  try (apply obeys_modify; intros ?; reflexivity).

(** Symbolic execution of a monadic goal. *)
Ltac wp_step :=
  lazymatch goal with
  | |- wp (bind _ _) _ _ => apply wp_bind
  | |- wp (ret _) _ _ => apply wp_ret
  | |- wp (of_option (Some _)) _ _ => apply wp_ret
  | |- wp get _ _ => apply wp_get
  | |- wp (gets _) _ _ => apply wp_gets
  | |- wp (modify _) _ _ => apply wp_modify
  | |- wp (when _ _) _ _ => apply wp_when; intro
  | |- wp (if ?b then _ else _) _ _ => destruct b eqn:?
  | |- wp (match ?x with _ => _ end) _ _ => destruct x eqn:?
  | |- wp (let x := ?v in _) _ _ => cbv zeta
  end.
Ltac wp_run := repeat (wp_step; cbv beta).

(** ** Integer lemmas *)

Lemma pow2_pos w : 0 <= w -> 0 < 2 ^ w.
Proof. intros. by apply Z.pow_pos_nonneg. Qed.

Lemma wrap_range w x : 0 <= w -> 0 <= wrap w x < 2 ^ w.
Proof. intros Hw. apply Z.mod_pos_bound. by apply pow2_pos. Qed.

Lemma wrap_small w x : 0 <= x < 2 ^ w -> wrap w x = x.
Proof. intros. by apply Z.mod_small. Qed.

Lemma wrap_idem w x : 0 <= w -> wrap w (wrap w x) = wrap w x.
Proof. intros. apply wrap_small. by apply wrap_range. Qed.

(** Members of a word that do not overlap. *)
Lemma land_low a b k : 0 <= k -> 0 <= b < 2 ^ k -> Z.land (Z.shiftl a k) b = 0.
Proof.
  intros Hk Hb. apply Z.bits_inj'. intros n Hn. rewrite Z.land_spec, Z.bits_0, Z.shiftl_spec by done.
  destruct (Z.ltb_spec n k) as [Hlt|Hge]; [by rewrite (Z.testbit_neg_r _ (n - k)) by lia|].
  destruct (decide (b = 0)) as [->|Hne]; [by rewrite Z.bits_0, andb_false_r|].
  rewrite (Z.bits_above_log2 b n), andb_false_r; [done|lia|]. apply Z.log2_lt_pow2; [lia|]. assert (2 ^ k <= 2 ^ n) by (apply Z.pow_le_mono_r; lia). lia.
Qed.

Lemma lor_low a b k : 0 <= k -> 0 <= b < 2 ^ k -> Z.lor (Z.shiftl a k) b = a * 2 ^ k + b.
Proof.
  intros Hk Hb. pose proof (land_low a b k Hk Hb) as Hl. rewrite <-Z.lxor_lor, <-Z.add_nocarry_lxor by done. by rewrite Z.shiftl_mul_pow2.
Qed.

Lemma swrap_range w x : 0 < w -> - 2 ^ (w - 1) <= swrap w x < 2 ^ (w - 1).
Proof.
  intros Hw. unfold swrap.
  assert (2 ^ w = 2 * 2 ^ (w - 1)) as E.
  { replace w with (Z.succ (w - 1)) at 1 by lia. rewrite Z.pow_succ_r by lia. done. }
  pose proof (Z.mod_pos_bound x (2 ^ w) ltac:(apply pow2_pos; lia)).
  destruct (Z.ltb_spec (x mod 2 ^ w) (2 ^ (w - 1))); lia.
Qed.

Lemma swrap_small w x : 0 < w -> - 2 ^ (w - 1) <= x < 2 ^ (w - 1) -> swrap w x = x.
Proof.
  intros Hw Hx. unfold swrap.
  assert (2 ^ w = 2 * 2 ^ (w - 1)) as E.
  { replace w with (Z.succ (w - 1)) at 1 by lia. rewrite Z.pow_succ_r by lia. done. }
  destruct (decide (0 <= x)).
  - rewrite Z.mod_small by lia. by rewrite (proj2 (Z.ltb_lt _ _)) by lia.
  - assert (x mod 2 ^ w = x + 2 ^ w) as ->.
    { symmetry. apply (Z.mod_unique_pos _ _ (-1)); lia. }
    rewrite (proj2 (Z.ltb_ge _ _)) by lia. lia.
Qed.

Lemma swrap_mod w x y : x mod 2 ^ w = y mod 2 ^ w -> swrap w x = swrap w y.
Proof. unfold swrap. by intros ->. Qed.

Lemma swrap_congr w x : 0 <= w -> swrap w x mod 2 ^ w = x mod 2 ^ w.
Proof.
  intros Hw. pose proof (pow2_pos w Hw). unfold swrap.
  destruct (_ <? _); [by rewrite Z.mod_mod by lia|].
  rewrite Zminus_mod, Z_mod_same_full, Z.sub_0_r, !Z.mod_mod by lia. done.
Qed.

Lemma land_mask x w : 0 <= w -> Z.land x (Z.ones w) = x mod 2 ^ w.
Proof. apply Z.land_ones. Qed.

Lemma mod_mod_pow x a b : 0 <= a <= b -> (x mod 2 ^ b) mod 2 ^ a = x mod 2 ^ a.
Proof.
  intros. apply Z.mod_mod_divide.
  exists (2 ^ (b - a)). rewrite <- Z.pow_add_r by lia. f_equal. lia.
Qed.

Lemma Zlen_nonneg {A} (l : list A) : 0 <= Zlen l.
Proof. unfold Zlen. lia. Qed.
Lemma Zlen_nil {A} : Zlen (@nil A) = 0.
Proof. done. Qed.
Lemma Zlen_cons {A} (x : A) l : Zlen (x :: l) = Zlen l + 1.
Proof. unfold Zlen. simpl. lia. Qed.
Lemma Zlen_app {A} (l k : list A) : Zlen (l ++ k) = Zlen l + Zlen k.
Proof. unfold Zlen. rewrite length_app. lia. Qed.
Lemma Zlen_map {A B} (f : A -> B) l : Zlen (map f l) = Zlen l.
Proof. unfold Zlen. by rewrite length_map. Qed.
Lemma Zlen_fmap {A B} (f : A -> B) (l : list A) : Zlen (f <$> l) = Zlen l.
Proof. unfold Zlen. by rewrite length_fmap. Qed.
Lemma Zlen_take {A} n (l : list A) : Zlen (take n l) = Z.min (Z.of_nat n) (Zlen l).
Proof. unfold Zlen. rewrite length_take. lia. Qed.
Lemma Zlen_drop {A} n (l : list A) : Zlen (drop n l) = Z.max 0 (Zlen l - Z.of_nat n).
Proof. unfold Zlen. rewrite length_drop. lia. Qed.
Lemma Zlen_filter_split {A} (f : A -> bool) l :
  Zlen l = Zlen (List.filter f l) + Zlen (List.filter (fun x => negb (f x)) l).
Proof. induction l as [|x l IH]; [done|]. simpl. destruct (f x); simpl; rewrite !Zlen_cons; lia. Qed.

Create Rewrite HintDb zlen.
#[export] Hint Rewrite @Zlen_nil @Zlen_cons @Zlen_app @Zlen_map @Zlen_fmap @Zlen_take @Zlen_drop : zlen.
Ltac zlen := autorewrite with zlen in *; try lia.

(** ** Automation

    [bools] turns boolean tests of the source into the propositions they decide;
    [cases] splits on the first test or match of the goal. *)

Ltac bools :=
  repeat match goal with
  | H : (_ && _)%bool = true |- _ => apply andb_true_iff in H; destruct H
  | H : (_ || _)%bool = false |- _ => apply orb_false_iff in H; destruct H
  | H : negb _ = true |- _ => apply negb_true_iff in H
  | H : negb _ = false |- _ => apply negb_false_iff in H
  | H : (_ <? _) = true |- _ => apply Z.ltb_lt in H
  | H : (_ <? _) = false |- _ => apply Z.ltb_ge in H
  | H : (_ <=? _) = true |- _ => apply Z.leb_le in H
  | H : (_ <=? _) = false |- _ => apply Z.leb_gt in H
  | H : (_ =? _) = true |- _ => apply Z.eqb_eq in H
  | H : (_ =? _) = false |- _ => apply Z.eqb_neq in H
  | H : bool_decide _ = true |- _ => apply bool_decide_eq_true_1 in H
  | H : bool_decide _ = false |- _ => apply bool_decide_eq_false_1 in H
  end.

Ltac cases :=
  match goal with
  | |- context [if ?b then _ else _] => destruct b eqn:?
  | |- context [match ?x with _ => _ end] => destruct x eqn:?
  end.

Create HintDb pib.
#[export] Hint Resolve wrap_range Zlen_nonneg : pib.
