(* ===== verification/Verbs.v ===== *)
(** * Constants and enumerations of the driver

    The enumerations of driver/pib.h, and the values of the InfiniBand
    architecture (opcodes, MTU codes, verbs flags) the source names through the
    kernel's verbs headers.  Enumerations the code only compares are inductive
    types; the ones it converts or computes with are integers. *)

From S2P Require Import Prelude.

(** ** driver/pib.h: limits and masks *)
Definition PIB_MAX_HCA : Z := 4.
Definition PIB_MAX_PORTS : Z := 32.
Definition PIB_MCAST_QP_ATTACH : Z := 128.
Definition PIB_MCAST_LID_BASE : Z := 0xC000.
Definition PIB_LID_PERMISSIVE : Z := 0xFFFF.
Definition PIB_QP0 : Z := 0.
Definition PIB_QP1 : Z := 1.
Definition PIB_LINK_QP : Z := 3.
Definition PIB_MAX_SGE : Z := 32.
Definition PIB_MAX_RD_ATOM : Z := 16.
Definition PIB_MAX_INLINE : Z := 2048.
Definition PIB_QPN_MASK : Z := 0xFFFFFF.
Definition PIB_PSN_MASK : Z := 0xFFFFFF.
Definition PIB_LOCAL_ACK_TIMEOUT_MASK : Z := 0x1F.
Definition PIB_MIN_RNR_NAK_TIMER_MASK : Z := 0x1F.
Definition PIB_MAX_MR_PER_PD : Z := 4096.
Definition PIB_MR_INDEX_SHIFT : Z := 8.
Definition PIB_MR_INDEX_MASK : Z := Z.shiftl (PIB_MAX_MR_PER_PD - 1) PIB_MR_INDEX_SHIFT.
Definition PIB_LOCAL_DMA_LKEY : Z := 0.
Definition PIB_IMM_DATA_LKEY : Z := 0xA0B0C0D0.
Definition PIB_MAX_PAYLOAD_LEN : Z := 0x40000000.
Definition PIB_SCHED_TIMEOUT : Z := 0x3FFFFFFF.
Definition PIB_PKEY_TABLE_LEN : Z := 32.
Definition PIB_PACKET_BUFFER : Z := 8192.
Definition PIB_GID_PER_PORT : Z := 16.
Definition PIB_MAX_CONTIG_REQUESTS : Z := 64.
Definition PIB_MAX_CONTIG_READ_ACKS : Z := 64.

(** enum pib_behavior and enum pib_manner: bit numbers *)
Definition PIB_BEHAVIOR_AH_PD_VIOLATOIN_COMP_ERR : Z := 1.
Definition PIB_BEHAVIOR_RDMA_WRITE_WITH_IMM_ALWAYS_ASYNC_ERR : Z := 2.
Definition PIB_BEHAVIOR_CORRUPT_INVALID_WC_ATTRS : Z := 4.
Definition PIB_BEHAVIOR_QPN_REALLOCATION : Z := 5.
Definition PIB_BEHAVIOR_RELAXED_INVALIDATION_ORDERING : Z := 6.
Definition PIB_BEHAVIOR_ZERO_LEN_SGE_CONSIDER_AS_MAX_LEN : Z := 16.
Definition PIB_MANNER_PSN : Z := 0.
Definition PIB_MANNER_LOST_WC_WHEN_QP_RESET : Z := 1.

(** pib_get_behavior, pib_warn_manner and pib_error_manner: a bit of a module
    parameter. *)
Definition param_bit (param bit : Z) : bool := has_flag param (Z.shiftl 1 bit).

(** enum pib_obj *)
Definition PIB_MAX_CONTEXT : Z := 0x10000.
Definition PIB_MAX_PD : Z := 0x10000.
Definition PIB_MAX_SRQ : Z := 0x10000.
Definition PIB_MAX_CQ : Z := 0x10000.
Definition PIB_MAX_MR : Z := 0x10000.
Definition PIB_MAX_AH : Z := 0x1000000.
Definition PIB_MAX_QP : Z := 0x1000000.
Definition PIB_BITMAP_CONTEXT_START : Z := 0.
Definition PIB_BITMAP_PD_START : Z := PIB_MAX_CONTEXT.
Definition PIB_BITMAP_SRQ_START : Z := PIB_BITMAP_PD_START + PIB_MAX_PD.
Definition PIB_BITMAP_CQ_START : Z := PIB_BITMAP_SRQ_START + PIB_MAX_SRQ.
Definition PIB_BITMAP_MR_START : Z := PIB_BITMAP_CQ_START + PIB_MAX_CQ.
Definition PIB_BITMAP_AH_START : Z := PIB_BITMAP_MR_START + PIB_MAX_MR.
Definition PIB_BITMAP_QP_START : Z := PIB_BITMAP_AH_START + PIB_MAX_AH.
Definition PIB_MAX_OBJS : Z := PIB_BITMAP_QP_START + PIB_MAX_QP.

Inductive pib_swqe_list := PIB_SWQE_FREE | PIB_SWQE_SUBMITTED | PIB_SWQE_SENDING | PIB_SWQE_WAITING.
Inductive pib_mr_state := PIB_MR_INVALID | PIB_MR_FREE | PIB_MR_VALID.
Inductive pib_mr_direction := PIB_MR_COPY_FROM | PIB_MR_COPY_TO | PIB_MR_CAS | PIB_MR_FETCHADD | PIB_MR_CHECK.
Inductive pib_state := PIB_STATE_OK | PIB_STATE_ERR.
Inductive pib_ack_type := PIB_ACK_NORMAL | PIB_ACK_RMDA_READ | PIB_ACK_ATOMIC.

#[export] Instance pib_swqe_list_eq_dec : EqDecision pib_swqe_list.
Proof. solve_decision. Defined.
#[export] Instance pib_mr_state_eq_dec : EqDecision pib_mr_state.
Proof. solve_decision. Defined.
#[export] Instance pib_state_eq_dec : EqDecision pib_state.
Proof. solve_decision. Defined.
#[export] Instance pib_ack_type_eq_dec : EqDecision pib_ack_type.
Proof. solve_decision. Defined.

(** ** driver/pib_packet.h: enum pib_syndrome *)
Definition PIB_SYND_ACK_CODE : Z := 0x00.
Definition PIB_SYND_RNR_NAK_CODE : Z := 0x20.
Definition PIB_SYND_NAK_CODE : Z := 0x60.
Definition PIB_SYND_CODE_MASK : Z := 0xE0.
Definition PIB_SYND_NAK_CODE_PSN_SEQ_ERR : Z := 0x60.
Definition PIB_SYND_NAK_CODE_INV_REQ_ERR : Z := 0x61.
Definition PIB_SYND_NAK_CODE_REM_ACCESS_ERR : Z := 0x62.
Definition PIB_SYND_NAK_CODE_REM_OP_ERR : Z := 0x63.
Definition PIB_SYND_NAK_CODE_INV_RD_REQ_ERR : Z := 0x64.
Definition PIB_OPCODE_CNP_SEND_NOTIFY : Z := 0x80.

(** ** InfiniBand transport opcodes (service RC is 0x00, UD is 0x60) *)
Definition IB_OPCODE_SEND_FIRST : Z := 0x00.
Definition IB_OPCODE_SEND_MIDDLE : Z := 0x01.
Definition IB_OPCODE_SEND_LAST : Z := 0x02.
Definition IB_OPCODE_SEND_LAST_WITH_IMMEDIATE : Z := 0x03.
Definition IB_OPCODE_SEND_ONLY : Z := 0x04.
Definition IB_OPCODE_SEND_ONLY_WITH_IMMEDIATE : Z := 0x05.
Definition IB_OPCODE_RDMA_WRITE_FIRST : Z := 0x06.
Definition IB_OPCODE_RDMA_WRITE_MIDDLE : Z := 0x07.
Definition IB_OPCODE_RDMA_WRITE_LAST : Z := 0x08.
Definition IB_OPCODE_RDMA_WRITE_LAST_WITH_IMMEDIATE : Z := 0x09.
Definition IB_OPCODE_RDMA_WRITE_ONLY : Z := 0x0a.
Definition IB_OPCODE_RDMA_WRITE_ONLY_WITH_IMMEDIATE : Z := 0x0b.
Definition IB_OPCODE_RDMA_READ_REQUEST : Z := 0x0c.
Definition IB_OPCODE_RDMA_READ_RESPONSE_FIRST : Z := 0x0d.
Definition IB_OPCODE_RDMA_READ_RESPONSE_MIDDLE : Z := 0x0e.
Definition IB_OPCODE_RDMA_READ_RESPONSE_LAST : Z := 0x0f.
Definition IB_OPCODE_RDMA_READ_RESPONSE_ONLY : Z := 0x10.
Definition IB_OPCODE_ACKNOWLEDGE : Z := 0x11.
Definition IB_OPCODE_ATOMIC_ACKNOWLEDGE : Z := 0x12.
Definition IB_OPCODE_COMPARE_SWAP : Z := 0x13.
Definition IB_OPCODE_FETCH_ADD : Z := 0x14.
Definition IB_OPCODE_SEND_LAST_WITH_INVALIDATE : Z := 0x16.
Definition IB_OPCODE_SEND_ONLY_WITH_INVALIDATE : Z := 0x17.
Definition IB_OPCODE_UD_SEND_ONLY : Z := 0x64.
Definition IB_OPCODE_UD_SEND_ONLY_WITH_IMMEDIATE : Z := 0x65.

(** ** enum ib_wr_opcode and enum ib_wc_opcode *)
Definition IB_WR_RDMA_WRITE : Z := 0.
Definition IB_WR_RDMA_WRITE_WITH_IMM : Z := 1.
Definition IB_WR_SEND : Z := 2.
Definition IB_WR_SEND_WITH_IMM : Z := 3.
Definition IB_WR_RDMA_READ : Z := 4.
Definition IB_WR_ATOMIC_CMP_AND_SWP : Z := 5.
Definition IB_WR_ATOMIC_FETCH_AND_ADD : Z := 6.
Definition IB_WR_LSO : Z := 7.
Definition IB_WR_SEND_WITH_INV : Z := 8.
Definition IB_WR_RDMA_READ_WITH_INV : Z := 9.
Definition IB_WR_LOCAL_INV : Z := 10.
Definition IB_WR_FAST_REG_MR : Z := 11.
Definition IB_WR_MASKED_ATOMIC_CMP_AND_SWP : Z := 12.
Definition IB_WR_MASKED_ATOMIC_FETCH_AND_ADD : Z := 13.
Definition IB_WR_BIND_MW : Z := 14.

Definition IB_WC_SEND : Z := 0.
Definition IB_WC_RDMA_WRITE : Z := 1.
Definition IB_WC_RDMA_READ : Z := 2.
Definition IB_WC_COMP_SWAP : Z := 3.
Definition IB_WC_FETCH_ADD : Z := 4.
Definition IB_WC_BIND_MW : Z := 5.
Definition IB_WC_LSO : Z := 6.
Definition IB_WC_LOCAL_INV : Z := 7.
Definition IB_WC_FAST_REG_MR : Z := 8.
Definition IB_WC_MASKED_COMP_SWAP : Z := 9.
Definition IB_WC_MASKED_FETCH_ADD : Z := 10.
Definition IB_WC_RECV : Z := 128.
Definition IB_WC_RECV_RDMA_WITH_IMM : Z := 129.

(** enum ib_wc_flags, ib_send_flags, ib_access_flags, ib_cq_notify_flags *)
Definition IB_WC_GRH : Z := 1.
Definition IB_WC_WITH_IMM : Z := 2.
Definition IB_WC_WITH_INVALIDATE : Z := 4.
Definition IB_SEND_FENCE : Z := 1.
Definition IB_SEND_SIGNALED : Z := 2.
Definition IB_SEND_SOLICITED : Z := 4.
Definition IB_SEND_INLINE : Z := 8.
Definition IB_ACCESS_LOCAL_WRITE : Z := 1.
Definition IB_ACCESS_REMOTE_WRITE : Z := 2.
Definition IB_ACCESS_REMOTE_READ : Z := 4.
Definition IB_ACCESS_REMOTE_ATOMIC : Z := 8.
Definition IB_CQ_SOLICITED : Z := 1.
Definition IB_CQ_NEXT_COMP : Z := 2.
Definition IB_CQ_REPORT_MISSED_EVENTS : Z := 4.
Definition IB_SRQ_MAX_WR : Z := 1.
Definition IB_SRQ_LIMIT : Z := 2.
Definition IB_AH_GRH : Z := 1.
Definition IB_DEVICE_RESIZE_MAX_WR : Z := 1.
Definition IB_DEVICE_CHANGE_PHY_PORT : Z := 16.
Definition IB_DEVICE_SRQ_RESIZE : Z := 0x2000.
Definition IB_MTU_256 : Z := 1.
Definition IB_MTU_4096 : Z := 5.
Definition IB_MULTICAST_QPN : Z := 0xFFFFFF.

(** enum ib_qp_attr_mask *)
Definition IB_QP_STATE : Z := 1.
Definition IB_QP_CUR_STATE : Z := 2.
Definition IB_QP_EN_SQD_ASYNC_NOTIFY : Z := 4.
Definition IB_QP_ACCESS_FLAGS : Z := 8.
Definition IB_QP_PKEY_INDEX : Z := 16.
Definition IB_QP_PORT : Z := 32.
Definition IB_QP_QKEY : Z := 64.
Definition IB_QP_AV : Z := 128.
Definition IB_QP_PATH_MTU : Z := 256.
Definition IB_QP_TIMEOUT : Z := 512.
Definition IB_QP_RETRY_CNT : Z := 1024.
Definition IB_QP_RNR_RETRY : Z := 2048.
Definition IB_QP_RQ_PSN : Z := 4096.
Definition IB_QP_MAX_QP_RD_ATOMIC : Z := 8192.
Definition IB_QP_ALT_PATH : Z := 16384.
Definition IB_QP_MIN_RNR_TIMER : Z := 32768.
Definition IB_QP_SQ_PSN : Z := 65536.
Definition IB_QP_MAX_DEST_RD_ATOMIC : Z := 131072.
Definition IB_QP_PATH_MIG_STATE : Z := 262144.
Definition IB_QP_CAP : Z := 524288.
Definition IB_QP_DEST_QPN : Z := 1048576.

(** errno *)
Definition EPERM : Z := 1.
Definition ENOENT : Z := 2.
Definition ENOMEM : Z := 12.
Definition EACCES : Z := 13.
Definition EFAULT : Z := 14.
Definition EBUSY : Z := 16.
Definition EINVAL : Z := 22.
Definition ENOSYS : Z := 38.
Definition EMSGSIZE : Z := 90.

Inductive ib_qp_type := IB_QPT_SMI | IB_QPT_GSI | IB_QPT_RC | IB_QPT_UC | IB_QPT_UD | IB_QPT_OTHER.
Inductive ib_qp_state := IB_QPS_RESET | IB_QPS_INIT | IB_QPS_RTR | IB_QPS_RTS | IB_QPS_SQD | IB_QPS_SQE | IB_QPS_ERR.
Inductive ib_wc_status :=
  IB_WC_SUCCESS | IB_WC_LOC_LEN_ERR | IB_WC_LOC_QP_OP_ERR | IB_WC_LOC_EEC_OP_ERR | IB_WC_LOC_PROT_ERR
| IB_WC_WR_FLUSH_ERR | IB_WC_MW_BIND_ERR | IB_WC_BAD_RESP_ERR | IB_WC_LOC_ACCESS_ERR | IB_WC_REM_INV_REQ_ERR
| IB_WC_REM_ACCESS_ERR | IB_WC_REM_OP_ERR | IB_WC_RETRY_EXC_ERR | IB_WC_RNR_RETRY_EXC_ERR | IB_WC_LOC_RDD_VIOL_ERR
| IB_WC_REM_INV_RD_REQ_ERR | IB_WC_REM_ABORT_ERR | IB_WC_INV_EECN_ERR | IB_WC_INV_EEC_STATE_ERR | IB_WC_FATAL_ERR
| IB_WC_RESP_TIMEOUT_ERR | IB_WC_GENERAL_ERR.
Inductive ib_event_type :=
  IB_EVENT_CQ_ERR | IB_EVENT_QP_FATAL | IB_EVENT_QP_REQ_ERR | IB_EVENT_QP_ACCESS_ERR | IB_EVENT_COMM_EST
| IB_EVENT_SQ_DRAINED | IB_EVENT_SRQ_ERR | IB_EVENT_SRQ_LIMIT_REACHED | IB_EVENT_QP_LAST_WQE_REACHED.

#[export] Instance ib_qp_type_eq_dec : EqDecision ib_qp_type.
Proof. solve_decision. Defined.
#[export] Instance ib_qp_state_eq_dec : EqDecision ib_qp_state.
Proof. solve_decision. Defined.
#[export] Instance ib_wc_status_eq_dec : EqDecision ib_wc_status.
Proof. solve_decision. Defined.
#[export] Instance ib_event_type_eq_dec : EqDecision ib_event_type.
Proof. solve_decision. Defined.

(** ** What the driver asks of its environment

    Calls that leave the driver are recorded, in order, as events: the
    completion handler of a CQ, the asynchronous event handlers of a CQ, an SRQ
    and a QP, a work item put on the device work queue, and the wake-up of the
    device thread. *)
Inductive pib_event :=
| EvComp (cq : Z)
| EvCq (cq : Z) (ev : ib_event_type)
| EvSrq (srq : Z) (ev : ib_event_type)
| EvQp (qp : Z) (ev : ib_event_type)
| EvWorkCq (cq : Z)
| EvComplete.

#[export] Instance pib_event_eq_dec : EqDecision pib_event.
Proof. solve_decision. Defined.

(** A scatter/gather element (struct ib_sge) and a work completion (struct
    ib_wc); [wc_ex] is the union of [imm_data] and [invalidate_rkey]. *)
Record ib_sge := { sge_addr : Z; sge_length : Z; sge_lkey : Z }.
#[export] Instance eta_ib_sge : Eta ib_sge := fun r =>
  {| sge_addr := sge_addr r; sge_length := sge_length r; sge_lkey := sge_lkey r |}.

Record ib_wc := {
  wc_wr_id : Z; wc_status : ib_wc_status; wc_opcode : Z; wc_byte_len : Z; wc_ex : Z;
  wc_qp : Z; wc_src_qp : Z; wc_flags : Z; wc_pkey_index : Z; wc_slid : Z; wc_sl : Z;
  wc_dlid_path_bits : Z; wc_port_num : Z }.
#[export] Instance eta_ib_wc : Eta ib_wc := fun r =>
  {| wc_wr_id := wc_wr_id r; wc_status := wc_status r; wc_opcode := wc_opcode r;
     wc_byte_len := wc_byte_len r; wc_ex := wc_ex r; wc_qp := wc_qp r; wc_src_qp := wc_src_qp r;
     wc_flags := wc_flags r; wc_pkey_index := wc_pkey_index r; wc_slid := wc_slid r;
     wc_sl := wc_sl r; wc_dlid_path_bits := wc_dlid_path_bits r; wc_port_num := wc_port_num r |}.

(** The zero-initialised completion with the four fields every error sets. *)
Definition wc_init (wr_id : Z) (status : ib_wc_status) (opcode qp : Z) : ib_wc :=
  {| wc_wr_id := wr_id; wc_status := status; wc_opcode := opcode; wc_byte_len := 0; wc_ex := 0;
     wc_qp := qp; wc_src_qp := 0; wc_flags := 0; wc_pkey_index := 0; wc_slid := 0; wc_sl := 0;
     wc_dlid_path_bits := 0; wc_port_num := 0 |}.
