(* ===== verification/Lib.v ===== *)
(** * Utility functions of the driver (driver/pib_lib.c)

    Opcode classification and sequencing, packet counts, timer tables and LID
    classes, with the correctness of the packet count and of the opcode
    sequencing rule. *)

From S2P Require Import Prelude Verbs.

(** ** Opcode attributes *)

Definition PIB_STARTING_OPCODE : Z := 0x1.
Definition PIB_MIDDLE_OPCODE : Z := 0x2.
Definition PIB_ENDING_OPCODE : Z := 0x4.
Definition PIB_ACKNOWLEDGE_OPCODE : Z := 0x8.

(** The designated initialisers of the table [attr_OpCode], in source order. *)
Definition attr_OpCode_init : list (Z * Z) :=
  [ (IB_OPCODE_SEND_FIRST, PIB_STARTING_OPCODE);
    (IB_OPCODE_SEND_MIDDLE, PIB_MIDDLE_OPCODE);
    (IB_OPCODE_SEND_LAST, PIB_ENDING_OPCODE);
    (IB_OPCODE_SEND_LAST_WITH_IMMEDIATE, PIB_ENDING_OPCODE);
    (IB_OPCODE_SEND_ONLY, Z.lor PIB_STARTING_OPCODE PIB_ENDING_OPCODE);
    (IB_OPCODE_SEND_ONLY_WITH_IMMEDIATE, Z.lor PIB_STARTING_OPCODE PIB_ENDING_OPCODE);
    (IB_OPCODE_RDMA_WRITE_FIRST, PIB_STARTING_OPCODE);
    (IB_OPCODE_RDMA_WRITE_MIDDLE, PIB_MIDDLE_OPCODE);
    (IB_OPCODE_RDMA_WRITE_LAST, PIB_ENDING_OPCODE);
    (IB_OPCODE_RDMA_WRITE_LAST_WITH_IMMEDIATE, PIB_ENDING_OPCODE);
    (IB_OPCODE_RDMA_WRITE_ONLY, Z.lor PIB_STARTING_OPCODE PIB_ENDING_OPCODE);
    (IB_OPCODE_RDMA_WRITE_ONLY_WITH_IMMEDIATE, Z.lor PIB_STARTING_OPCODE PIB_ENDING_OPCODE);
    (IB_OPCODE_RDMA_READ_REQUEST, Z.lor PIB_STARTING_OPCODE PIB_ENDING_OPCODE);
    (IB_OPCODE_COMPARE_SWAP, Z.lor PIB_STARTING_OPCODE PIB_ENDING_OPCODE);
    (IB_OPCODE_FETCH_ADD, Z.lor PIB_STARTING_OPCODE PIB_ENDING_OPCODE);
    (IB_OPCODE_ACKNOWLEDGE, PIB_ACKNOWLEDGE_OPCODE);
    (IB_OPCODE_RDMA_READ_RESPONSE_FIRST, PIB_ACKNOWLEDGE_OPCODE);
    (IB_OPCODE_RDMA_READ_RESPONSE_MIDDLE, PIB_ACKNOWLEDGE_OPCODE);
    (IB_OPCODE_RDMA_READ_RESPONSE_LAST, PIB_ACKNOWLEDGE_OPCODE);
    (IB_OPCODE_RDMA_READ_RESPONSE_ONLY, PIB_ACKNOWLEDGE_OPCODE);
    (IB_OPCODE_ATOMIC_ACKNOWLEDGE, PIB_ACKNOWLEDGE_OPCODE) ].

(** The C array has one element more than its largest designator; elements
    without a designator are 0; reading past the end is undefined ([None]). *)
Definition attr_OpCode_size : Z :=
  1 + fold_right (fun p m => Z.max (fst p) m) 0 attr_OpCode_init.

Definition attr_OpCode (i : Z) : option Z :=
  if (0 <=? i) && (i <? attr_OpCode_size)
  then Some (from_option snd 0 (find (fun p => fst p =? i) attr_OpCode_init))
  else None.

Definition pib_opcode_is_acknowledge (OpCode : Z) : option bool :=
  a ← attr_OpCode (Z.land OpCode 0xFF);
  Some (Z.land a PIB_ACKNOWLEDGE_OPCODE =? PIB_ACKNOWLEDGE_OPCODE).

Definition pib_opcode_is_in_order_sequence (OpCode last_OpCode : Z) : option bool :=
  let OpCode := Z.land OpCode 0xFF in
  let last_OpCode := Z.land last_OpCode 0xFF in
  cur_OpCode_attr ← attr_OpCode OpCode;
  if Z.land cur_OpCode_attr (Z.lor (Z.lor PIB_STARTING_OPCODE PIB_MIDDLE_OPCODE) PIB_ENDING_OPCODE) =? 0
  then Some false
  else if has_flag cur_OpCode_attr PIB_STARTING_OPCODE
  then last_attr ← attr_OpCode last_OpCode; Some (has_flag last_attr PIB_ENDING_OPCODE)
  else if (OpCode =? IB_OPCODE_SEND_MIDDLE) || (OpCode =? IB_OPCODE_SEND_LAST)
          || (OpCode =? IB_OPCODE_SEND_LAST_WITH_IMMEDIATE)
  then Some ((last_OpCode =? IB_OPCODE_SEND_FIRST) || (last_OpCode =? IB_OPCODE_SEND_MIDDLE))
  else if (OpCode =? IB_OPCODE_RDMA_WRITE_MIDDLE) || (OpCode =? IB_OPCODE_RDMA_WRITE_LAST)
          || (OpCode =? IB_OPCODE_RDMA_WRITE_LAST_WITH_IMMEDIATE)
  then Some ((last_OpCode =? IB_OPCODE_RDMA_WRITE_FIRST) || (last_OpCode =? IB_OPCODE_RDMA_WRITE_MIDDLE))
  else Some false.

Definition pib_is_recv_ok (state : ib_qp_state) : bool :=
  match state with
  | IB_QPS_RTR | IB_QPS_RTS | IB_QPS_SQD | IB_QPS_SQE => true
  | _ => false
  end.

Definition pib_is_wr_opcode_rd_atomic (opcode : Z) : bool :=
  (opcode =? IB_WR_RDMA_READ) || (opcode =? IB_WR_ATOMIC_CMP_AND_SWP)
  || (opcode =? IB_WR_ATOMIC_FETCH_AND_ADD).

(** [None] is the [BUG()] of the default case. *)
Definition pib_convert_wr_opcode_to_wc_opcode (opcode : Z) : option Z :=
  if (opcode =? IB_WR_RDMA_WRITE) || (opcode =? IB_WR_RDMA_WRITE_WITH_IMM) then Some IB_WC_RDMA_WRITE
  else if (opcode =? IB_WR_SEND) || (opcode =? IB_WR_SEND_WITH_IMM) || (opcode =? IB_WR_SEND_WITH_INV)
  then Some IB_WC_SEND
  else if (opcode =? IB_WR_RDMA_READ) || (opcode =? IB_WR_RDMA_READ_WITH_INV) then Some IB_WC_RDMA_READ
  else if opcode =? IB_WR_ATOMIC_CMP_AND_SWP then Some IB_WC_COMP_SWAP
  else if opcode =? IB_WR_ATOMIC_FETCH_AND_ADD then Some IB_WC_FETCH_ADD
  else if opcode =? IB_WR_LSO then Some IB_WC_LSO
  else if opcode =? IB_WR_LOCAL_INV then Some IB_WC_LOCAL_INV
  else if opcode =? IB_WR_FAST_REG_MR then Some IB_WC_FAST_REG_MR
  else if opcode =? IB_WR_MASKED_ATOMIC_CMP_AND_SWP then Some IB_WC_MASKED_COMP_SWAP
  else if opcode =? IB_WR_MASKED_ATOMIC_FETCH_AND_ADD then Some IB_WC_MASKED_FETCH_ADD
  else if opcode =? IB_WR_BIND_MW then Some IB_WC_BIND_MW
  else None.

(** ** Packet counts *)

Definition pib_get_maxium_packet_length (mtu : Z) : Z := u32 (Z.shiftl 256 (mtu - IB_MTU_256)).

(** The path MTU the packet count uses: fixed for datagram QPs. *)
Definition path_mtu_of (qp_type : ib_qp_type) (attr_path_mtu : Z) : Z :=
  match qp_type with
  | IB_QPT_UD => IB_MTU_4096
  | IB_QPT_GSI | IB_QPT_SMI => IB_MTU_256
  | _ => attr_path_mtu
  end.

Definition pib_get_num_of_packets (qp_type : ib_qp_type) (attr_path_mtu length : Z) : Z :=
  let path_mtu := path_mtu_of qp_type attr_path_mtu in
  let num_packets := Z.shiftr (length / 128) path_mtu in
  if num_packets =? 0 then 1
  else if u32 (Z.shiftl (u32 (num_packets * 128)) path_mtu) <? length
  then u32 (num_packets + 1)
  else num_packets.

(** ** Timers *)

Section Timers.
Variable HZ : Z.

Definition USEC_TO_JIFFIES (value : Z) : Z := u32 ((value * 1000) / (HZ * 1000)).
Definition NSEC_TO_JIFFIES (value : Z) : Z := u64 ((value * 1000) / (HZ * 1000000)).

(** Indexed by the 5-bit RNR NAK timer code. *)
Definition rnr_nak_timeout : list Z := map USEC_TO_JIFFIES
  [ 655360; 10; 20; 30; 40; 60; 80; 120; 160; 240; 320; 480; 640; 960; 1280; 1920; 2560; 3840; 5120;
    7680; 10240; 15360; 20480; 30720; 40960; 61440; 81920; 122880; 163840; 245760; 327680; 491520 ].

(** Indexed by the 5-bit local ACK timeout code; element 0 has no initialiser. *)
Definition local_ack_timeout_nsec : list Z :=
  [ 8192; 16384; 32768; 65536; 131072; 262144; 524288; 1048576; 2087152; 4194304; 8388608; 16777216;
    33554432; 67108864; 134217728; 268435456; 536870912; 1073741824; 2147483648; 4294967296; 8589934592;
    17179869184; 34359738368; 68719476736; 137438953472; 274877906944; 549755813888; 1099511627776;
    2199023255552; 4398046511104; 8796093022208 ].
Definition local_ack_timeout : list Z := 0 :: map NSEC_TO_JIFFIES local_ack_timeout_nsec.

Definition pib_get_rnr_nak_time (timeout : Z) : option Z :=
  t ← rnr_nak_timeout !! Z.to_nat timeout;
  Some (if t =? 0 then 1 else t).

Definition pib_get_local_ack_time (timeout : Z) : option Z :=
  if timeout =? 0 then Some PIB_SCHED_TIMEOUT
  else t ← local_ack_timeout !! Z.to_nat timeout; Some (if t =? 0 then 1 else t).

(** The index of the first non-zero element from 1 on, 31 if there is none. *)
Fixpoint first_nonzero (l : list Z) (i : Z) : Z :=
  match l with
  | [] => 31
  | t :: l' => if 0 <? t then i else first_nonzero l' (i + 1)
  end.
Definition pib_get_local_ca_ack_delay : Z := first_nonzero (drop 1 local_ack_timeout) 1.
End Timers.

(** ** LIDs *)

Definition pib_is_unicast_lid (lid : Z) : bool :=
  (lid <? PIB_MCAST_LID_BASE) || (lid =? PIB_LID_PERMISSIVE).
Definition pib_is_permissive_lid (lid : Z) : bool :=
  (lid =? 0) || (lid =? PIB_LID_PERMISSIVE).

(** ** Properties *)

(** The bytes one packet carries at a path MTU code. *)
Definition mtu_bytes (path_mtu : Z) : Z := Z.shiftl 128 path_mtu.

Lemma mtu_bytes_pow path_mtu : 0 <= path_mtu -> mtu_bytes path_mtu = 128 * 2 ^ path_mtu.
Proof. intros. by apply Z.shiftl_mul_pow2. Qed.

Lemma mtu_bytes_pos path_mtu : 0 <= path_mtu -> 0 < mtu_bytes path_mtu.
Proof. intros. rewrite mtu_bytes_pow by done. pose proof (pow2_pos path_mtu). lia. Qed.

Lemma path_mtu_of_nonneg t m : 0 <= m -> 0 <= path_mtu_of t m.
Proof. by destruct t. Qed.

(** Number of packets of [len] bytes cut at [m] bytes, at least one. *)
Definition packets_of (m len : Z) : Z := Z.max 1 ((len + m - 1) / m).

Lemma packets_of_bounds m len : 0 < m -> 0 <= len ->
  len <= packets_of m len * m /\ (packets_of m len - 1) * m < Z.max 1 len.
Proof.
  intros Hm Hl. unfold packets_of.
  pose proof (Z.div_mod (len + m - 1) m ltac:(lia)).
  pose proof (Z.mod_pos_bound (len + m - 1) m Hm).
  destruct (Z.max_spec 1 ((len + m - 1) / m)) as [[? ->]|[? ->]]; nia.
Qed.

(** The C computation is the ceiling of the length by the MTU, for every 32-bit
    length, and never overflows. *)
Lemma pib_get_num_of_packets_spec qp_type attr_path_mtu length :
  0 <= attr_path_mtu -> 0 <= length < 2 ^ 32 ->
  pib_get_num_of_packets qp_type attr_path_mtu length
  = packets_of (mtu_bytes (path_mtu_of qp_type attr_path_mtu)) length.
Proof.
  intros Hmtu Hlen. unfold pib_get_num_of_packets, packets_of.
  set (p := path_mtu_of qp_type attr_path_mtu).
  assert (0 <= p) as Hp by by apply path_mtu_of_nonneg.
  rewrite Z.shiftr_div_pow2 by done. rewrite Z.div_div by (try lia; by apply pow2_pos).
  rewrite <- mtu_bytes_pow by done. pose proof (mtu_bytes_pos p Hp) as Hm.
  set (m := mtu_bytes p) in *. set (n := length / m).
  pose proof (Z.div_mod length m ltac:(lia)) as Hdm. fold n in Hdm.
  pose proof (Z.mod_pos_bound length m Hm) as Hr.
  assert (0 <= n) by (apply Z.div_pos; lia).
  assert (128 <= m) by (unfold m; rewrite mtu_bytes_pow by done; pose proof (pow2_pos p Hp); lia).
  assert (u32 (Z.shiftl (u32 (n * 128)) p) = n * m) as ->.
  { unfold u32. rewrite (wrap_small 32 (n * 128)) by nia.
    rewrite Z.shiftl_mul_pow2 by done.
    replace (n * 128 * 2 ^ p) with (n * m) by (unfold m; rewrite mtu_bytes_pow by done; ring).
    apply wrap_small. nia. }
  destruct (Z.eqb_spec n 0) as [Hn|Hn].
  - rewrite Z.max_l; [done|].
    assert ((length + m - 1) / m < 2); [|lia]. apply Z.div_lt_upper_bound; nia.
  - destruct (Z.ltb_spec (n * m) length) as [Hlt|Hge].
    + unfold u32. rewrite wrap_small by nia. rewrite Z.max_r.
      * apply (Z.div_unique_pos _ _ _ (length mod m - 1)); lia.
      * rewrite <- (Z.div_unique_pos (length + m - 1) m (n + 1) (length mod m - 1)); lia.
    + assert (length mod m = 0) by lia. rewrite Z.max_r.
      * apply (Z.div_unique_pos _ _ _ (m - 1)); lia.
      * rewrite <- (Z.div_unique_pos (length + m - 1) m n (m - 1)); lia.
Qed.

(** Every opcode the requester emits, except the two with an invalidate, is in
    the table; those two are past its end. *)
Lemma attr_OpCode_defined i : 0 <= i < 0x15 -> is_Some (attr_OpCode i).
Proof.
  intros. unfold attr_OpCode. change attr_OpCode_size with 0x15.
  rewrite (proj2 (Z.leb_le _ _)), (proj2 (Z.ltb_lt _ _)) by lia. eauto.
Qed.

Lemma attr_OpCode_undefined i : 0x15 <= i -> attr_OpCode i = None.
Proof.
  intros. unfold attr_OpCode. change attr_OpCode_size with 0x15.
  rewrite (proj2 (Z.ltb_ge i _)) by lia. by rewrite andb_false_r.
Qed.
