(* ===== verification/ObjNum.v ===== *)
(** * Object numbers (driver/pib_main.c: the object-number bitmap)

    Every verbs object has a number allocated from its kind's slice of one
    bitmap.  The bitmap is the set of its one bits; [find_next_zero_bit] and
    [bitmap_set]/[bitmap_clear] are the kernel's bitmap primitives. *)

From S2P Require Import Prelude Verbs.

(** The smallest [k] with [n <= k < size] whose bit [base + k] is clear, [size]
    if there is none.  Every iteration but the last passes a one bit, so the
    number of one bits is enough fuel. *)
Fixpoint find_zero_fuel (fuel : nat) (bm : gset Z) (base size n : Z) : Z :=
  if size <=? n then size
  else if bool_decide (base + n ∈ bm) then
    match fuel with
    | O => size
    | S fuel' => find_zero_fuel fuel' bm base size (n + 1)
    end
  else n.
Definition find_next_zero_bit (bm : gset Z) (base sz n : Z) : Z :=
  find_zero_fuel (size bm) bm base sz n.

Definition bitmap_set1 (bm : gset Z) (base n : Z) : gset Z := {[base + n]} ∪ bm.
Definition bitmap_clear1 (bm : gset Z) (base n : Z) : gset Z := bm ∖ {[base + n]}.

(** (u32)-1 *)
Definition OBJ_NUM_NONE : Z := 0xFFFFFFFF.

(** Returns the number, the bitmap and the new value of [*last_num_p]. *)
Definition pib_alloc_obj_num (bm : gset Z) (start size last_num : Z) : Z * gset Z * Z :=
  let n := find_next_zero_bit bm start size (u32 (last_num + 1)) in
  if negb (n =? size) then (n, bitmap_set1 bm start n, n)
  else
    let n := find_next_zero_bit bm start size 1 in
    if negb (n =? size) then (n, bitmap_set1 bm start n, n)
    else (OBJ_NUM_NONE, bm, last_num).

Definition pib_dealloc_obj_num (bm : gset Z) (start index : Z) : gset Z :=
  bitmap_clear1 bm start index.

Definition setup_obj_num_bitmap (bm : gset Z) : gset Z :=
  let bm := bitmap_set1 bm PIB_BITMAP_CONTEXT_START 0 in
  let bm := bitmap_set1 bm PIB_BITMAP_PD_START 0 in
  let bm := bitmap_set1 bm PIB_BITMAP_SRQ_START 0 in
  let bm := bitmap_set1 bm PIB_BITMAP_CQ_START 0 in
  let bm := bitmap_set1 bm PIB_BITMAP_MR_START 0 in
  let bm := bitmap_set1 bm PIB_BITMAP_AH_START 0 in
  let bm := bitmap_set1 bm PIB_BITMAP_QP_START PIB_QP0 in
  let bm := bitmap_set1 bm PIB_BITMAP_QP_START PIB_QP1 in
  let bm := bitmap_set1 bm PIB_BITMAP_QP_START PIB_LINK_QP in
  bitmap_set1 bm PIB_BITMAP_QP_START IB_MULTICAST_QPN.

(** ** Object tables *)

(** The device's book-keeping of one kind of object: last number, count and
    list head (last_cq_num, nr_cq, cq_head and the like). *)
Record obj_table := { ot_last_num : Z; ot_nr : Z; ot_head : list Z }.
#[export] Instance eta_obj_table : Eta obj_table := fun t =>
  {| ot_last_num := ot_last_num t; ot_nr := ot_nr t; ot_head := ot_head t |}.

(** The number allocation shared by every create operation: on success the
    count and the list of the kind grow by one. *)
Definition obj_create (start sz : Z) (bm : gset Z) (t : obj_table) : option Z * (gset Z * obj_table) :=
  let '(n, bm', last') := pib_alloc_obj_num bm start sz (ot_last_num t) in
  if n =? OBJ_NUM_NONE then (None, (bm', t <| ot_last_num := last' |>))
  else (Some n, (bm', t <| ot_last_num := last' |> <| ot_nr ::= Z.add 1 |>
                        <| ot_head ::= fun h => h ++ [n] |>)).

(** [list_del], the count and the number of a destroyed object. *)
Definition obj_destroy (start n : Z) (bm : gset Z) (t : obj_table) : gset Z * obj_table :=
  (pib_dealloc_obj_num bm start n,
   t <| ot_head ::= List.filter (fun k => negb (k =? n)) |> <| ot_nr ::= fun c => c - 1 |>).

(** ** The search returns the least clear bit *)

Lemma find_zero_fuel_spec fuel : forall bm base size n,
  n <= size ->
  (forall k, n <= k < size -> base + k ∈ bm -> k < n + Z.of_nat fuel \/
     exists j, (n <= j < size /\ base + j ∉ bm) /\ j < n + Z.of_nat fuel + 1) ->
  let r := find_zero_fuel fuel bm base size n in
  n <= r <= size /\ (forall k, n <= k < r -> base + k ∈ bm) /\ (r < size -> base + r ∉ bm).
Proof.
  induction fuel as [|fuel IH]; intros bm base sz n Hn Hfuel; simpl;
    (destruct (Z.leb_spec sz n); [split_and!; intros; lia|]);
    case_bool_decide as Hb; try (split_and!; intros; (lia || done)).
  - exfalso. destruct (Hfuel n) as [|(j & [? Hj] & ?)]; [lia|done|lia|].
    assert (j = n) as -> by lia. done.
  - destruct (IH bm base sz (n + 1)) as (Hr & Hset & Hclr); [lia| |].
    + intros k Hk Hkb. destruct (Hfuel k) as [|(j & [? Hj] & ?)]; [lia|done|left; lia|].
      right. exists j. destruct (decide (j = n)) as [->|]; [done|]. split_and!; (lia || done).
    + split_and!; [lia..| |done]. intros k Hk. destruct (decide (k = n)) as [->|]; [done|].
      apply Hset. lia.
Qed.

(** A run of one bits is no longer than the number of one bits. *)
Lemma run_length (bm : gset Z) base n (c : nat) :
  (forall k, n <= k < n + Z.of_nat c -> base + k ∈ bm) -> (c <= size bm)%nat.
Proof.
  intros Hrun.
  set (run := list_to_set (C := gset Z) ((fun i => base + n + Z.of_nat i) <$> seq 0 c)).
  assert (size run = c) as Hc.
  { unfold run. rewrite size_list_to_set; [by rewrite length_fmap, length_seq|].
    apply NoDup_fmap_2; [intros i j Hij; lia|apply NoDup_seq]. }
  rewrite <- Hc. apply subseteq_size. intros x. unfold run. rewrite elem_of_list_to_set, list_elem_of_fmap.
  intros (i & -> & Hi). apply elem_of_seq in Hi.
  replace (base + n + Z.of_nat i) with (base + (n + Z.of_nat i)) by lia. apply Hrun. lia.
Qed.

Lemma first_clear (bm : gset Z) base sz n (c : nat) :
  (forall k, n <= k < n + Z.of_nat c -> k < sz -> base + k ∈ bm) \/
  exists j, n <= j < n + Z.of_nat c /\ j < sz /\ base + j ∉ bm.
Proof.
  induction c as [|c IH]; [left; lia|].
  destruct IH as [IH|(j & ? & ? & ?)]; [|right; exists j; split_and!; lia || done].
  destruct (decide (n + Z.of_nat c < sz /\ base + (n + Z.of_nat c) ∉ bm)) as [[? ?]|Hno].
  - right. exists (n + Z.of_nat c). split_and!; lia || done.
  - left. intros k Hk Hsz. destruct (decide (k = n + Z.of_nat c)) as [->|]; [|apply IH; lia].
    destruct (decide (base + (n + Z.of_nat c) ∈ bm)); [done|]. exfalso. by apply Hno.
Qed.

Lemma find_next_zero_bit_spec bm base sz n :
  n <= sz ->
  let r := find_next_zero_bit bm base sz n in
  n <= r <= sz /\ (forall k, n <= k < r -> base + k ∈ bm) /\ (r < sz -> base + r ∉ bm).
Proof.
  intros Hn. apply find_zero_fuel_spec; [done|]. intros k Hk Hkb.
  destruct (decide (k < n + Z.of_nat (size bm))); [by left|right].
  destruct (first_clear bm base sz n (S (size bm))) as [Hall|(j & ? & ? & ?)].
  - pose proof (run_length bm base n (S (size bm))) as Hl. exfalso.
    assert (S (size bm) <= size bm)%nat; [|lia]. apply Hl. intros i Hi. apply Hall; lia.
  - exists j. split_and!; (lia || done).
Qed.

Lemma find_next_zero_bit_ge bm base sz n : sz <= n -> find_next_zero_bit bm base sz n = sz.
Proof.
  intros. unfold find_next_zero_bit. destruct (size bm); simpl;
    by rewrite (proj2 (Z.leb_le _ _)).
Qed.

Lemma find_next_zero_bit_found bm base sz n r :
  0 <= n -> find_next_zero_bit bm base sz n = r -> r <> sz ->
  n <= r < sz /\ base + r ∉ bm.
Proof.
  intros Hn Hr Hne. destruct (decide (n <= sz)) as [Hle|].
  - destruct (find_next_zero_bit_spec bm base sz n Hle) as (? & ? & Hc). rewrite Hr in *.
    split; [lia|]. apply Hc. lia.
  - rewrite find_next_zero_bit_ge in Hr by lia. done.
Qed.

(** The allocator hands out a number of its kind that was free, marks exactly
    that number and remembers it; it fails only when the slice is full. *)
Lemma pib_alloc_obj_num_spec bm start sz last :
  1 <= sz < OBJ_NUM_NONE -> 0 <= last < sz ->
  let '(n, bm', last') := pib_alloc_obj_num bm start sz last in
  ((1 <= n < sz /\ start + n ∉ bm) /\ bm' = {[start + n]} ∪ bm /\ last' = n)
  \/ (n = OBJ_NUM_NONE /\ bm' = bm /\ last' = last /\ forall k, 1 <= k < sz -> start + k ∈ bm).
Proof.
  unfold OBJ_NUM_NONE. intros Hsz Hlast. unfold pib_alloc_obj_num.
  assert (u32 (last + 1) = last + 1) as ->.
  { unfold u32. apply wrap_small. change (2 ^ 32) with 4294967296. lia. }
  destruct (Z.eqb_spec (find_next_zero_bit bm start sz (last + 1)) sz) as [E1|E1]; simpl.
  - destruct (Z.eqb_spec (find_next_zero_bit bm start sz 1) sz) as [E2|E2]; simpl.
    + right. split_and!; [done..|]. intros k Hk.
      destruct (find_next_zero_bit_spec bm start sz 1) as (? & Hset & _); [lia|].
      apply Hset. lia.
    + left. destruct (find_next_zero_bit_found bm start sz 1 _ ltac:(lia) eq_refl E2).
      split_and!; (lia || done).
  - left. destruct (find_next_zero_bit_found bm start sz (last + 1) _ ltac:(lia) eq_refl E1).
    split_and!; (lia || done).
Qed.

(** ** The table invariant *)

(** The live objects of a kind have distinct numbers of its slice, all marked in
    the bitmap, and the count is their number. *)
Definition obj_inv (start sz : Z) (bm : gset Z) (t : obj_table) : Prop :=
  0 <= ot_last_num t < sz /\ ot_nr t = Zlen (ot_head t) /\ NoDup (ot_head t)
  /\ forall k, k ∈ ot_head t -> 1 <= k < sz /\ start + k ∈ bm.

Lemma obj_create_spec start sz bm t :
  1 <= sz < OBJ_NUM_NONE -> obj_inv start sz bm t ->
  match obj_create start sz bm t with
  | (Some n, (bm', t')) => obj_inv start sz bm' t' /\ (1 <= n < sz /\ start + n ∉ bm)
      /\ bm' = {[start + n]} ∪ bm /\ ot_head t' = ot_head t ++ [n] /\ ot_nr t' = 1 + ot_nr t
  | (None, (bm', t')) => bm' = bm /\ t' = t /\ forall k, 1 <= k < sz -> start + k ∈ bm
  end.
Proof.
  intros Hsz (Hl & Hn & Hd & Hm). unfold obj_create.
  pose proof (pib_alloc_obj_num_spec bm start sz (ot_last_num t) Hsz Hl) as Ha.
  destruct (pib_alloc_obj_num bm start sz (ot_last_num t)) as [[n bm'] last'].
  destruct Ha as [([Hr Hf] & -> & ->)|(-> & -> & -> & Hall)].
  - destruct (Z.eqb_spec n OBJ_NUM_NONE); [lia|]. simpl. split_and!; try done; [|lia|lia].
    unfold obj_inv; simpl. split_and!; [lia|lia|zlen| |].
    + apply NoDup_app. split_and!; [done| |by apply NoDup_singleton].
      intros k Hk ->%list_elem_of_singleton. by apply Hm in Hk as [_ ?].
    + intros k. rewrite elem_of_app, list_elem_of_singleton. intros [Hk| ->]; [|set_solver].
      apply Hm in Hk as [? ?]. set_solver.
  - simpl. split_and!; try done. by destruct t.
Qed.

Lemma filter_neq_remove (n : Z) l : NoDup l -> n ∈ l ->
  Zlen (List.filter (fun k => negb (k =? n)) l) = Zlen l - 1.
Proof.
  induction 1 as [|x l Hx Hd IH]; [by intros ?%elem_of_nil|].
  rewrite elem_of_cons. simpl. intros Hin. destruct (Z.eqb_spec x n) as [->|Hne]; simpl.
  - rewrite Zlen_cons. assert (List.filter (fun k => negb (k =? n)) l = l) as ->; [|lia].
    clear -Hx. induction l as [|y l IH]; [done|]. simpl.
    destruct (Z.eqb_spec y n) as [->|]; [set_solver|]. simpl. f_equal. apply IH. set_solver.
  - rewrite !Zlen_cons, IH; [lia|]. by destruct Hin.
Qed.

Lemma elem_of_filter_neq (n k : Z) l :
  k ∈ List.filter (fun k => negb (k =? n)) l <-> k ∈ l /\ k <> n.
Proof. rewrite !list_elem_of_In, List.filter_In, negb_true_iff, Z.eqb_neq. done. Qed.

Lemma obj_destroy_spec start sz n bm t :
  obj_inv start sz bm t -> n ∈ ot_head t ->
  let '(bm', t') := obj_destroy start n bm t in
  obj_inv start sz bm' t' /\ (forall k, k ∈ ot_head t' <-> k ∈ ot_head t /\ k <> n).
Proof.
  intros (Hl & Hn & Hd & Hm) Hin. unfold obj_destroy, pib_dealloc_obj_num, bitmap_clear1. simpl.
  split; [|intros; apply elem_of_filter_neq]. split_and!; simpl; [lia|lia| | |].
  - rewrite filter_neq_remove by done. lia.
  - apply NoDup_ListNoDup, List.NoDup_filter. by apply NoDup_ListNoDup.
  - intros k [Hk Hne]%elem_of_filter_neq. apply Hm in Hk as [? ?]. set_solver by lia.
Qed.

(** Undoing a creation restores the bitmap and the live objects. *)
Lemma obj_create_destroy start sz bm t n bm' t' :
  1 <= sz < OBJ_NUM_NONE -> obj_inv start sz bm t ->
  obj_create start sz bm t = (Some n, (bm', t')) ->
  obj_destroy start n bm' t' = (bm, t <| ot_last_num := n |>).
Proof.
  intros Hsz Hinv Hc. pose proof (obj_create_spec start sz bm t Hsz Hinv) as Hs. revert Hc.
  unfold obj_create in *. destruct (pib_alloc_obj_num _ _ _ _) as [[k bm1] l1] eqn:Ea.
  pose proof (pib_alloc_obj_num_spec bm start sz (ot_last_num t) Hsz ltac:(apply Hinv)) as Ha.
  rewrite Ea in Ha. destruct (k =? OBJ_NUM_NONE) eqn:Ek; [done|]. intros [= <- <- <-].
  destruct Ha as [([Hr Hf] & -> & ->)|(-> & _)]; [|done].
  destruct Hinv as (Hl & Hn & Hd & Hm). destruct t as [last nr head]; simpl in *.
  unfold obj_destroy, pib_dealloc_obj_num, bitmap_clear1; simpl. f_equal; [set_solver|].
  f_equal; [lia|]. rewrite List.filter_app. simpl. rewrite Z.eqb_refl. simpl. rewrite app_nil_r.
  assert (k ∉ head) as Hk by (intros ?; by apply Hf, Hm). clear -Hk.
  induction head as [|x head IH]; [done|]. simpl. apply not_elem_of_cons in Hk as [? ?].
  rewrite (proj2 (Z.eqb_neq _ _)) by done. simpl. f_equal. by apply IH.
Qed.

(** ** Reachable tables *)

(** The life of one kind's table from module start: creations, destructions of
    live objects, and changes of the bitmap outside the kind's slice made for
    the other kinds. *)
Inductive obj_reach (start sz : Z) : gset Z -> obj_table -> Prop :=
| obj_reach_init bm : obj_reach start sz bm {| ot_last_num := 0; ot_nr := 0; ot_head := [] |}
| obj_reach_create bm t r bm' t' :
    obj_reach start sz bm t -> obj_create start sz bm t = (r, (bm', t')) -> obj_reach start sz bm' t'
| obj_reach_destroy bm t n :
    obj_reach start sz bm t -> n ∈ ot_head t ->
    obj_reach start sz (fst (obj_destroy start n bm t)) (snd (obj_destroy start n bm t))
| obj_reach_other bm t bm' :
    obj_reach start sz bm t ->
    (forall k, 0 <= k < sz -> start + k ∈ bm <-> start + k ∈ bm') -> obj_reach start sz bm' t.

(** In every reachable table of a kind the live numbers are distinct, within the
    kind's slice and marked in use, and the count kept beside the list is exact:
    no number is ever handed out twice. *)
Theorem obj_numbers_unique (start sz : Z) (bm : gset Z) (t : obj_table)
    (Hsz : 1 <= sz < OBJ_NUM_NONE) (H : obj_reach start sz bm t) :
  obj_inv start sz bm t.
Proof.
  induction H as [bm|bm t r bm' t' Hr IH Hc|bm t n Hr IH Hin|bm t bm' Hr IH Ho].
  - split_and!; simpl; [lia|lia|done|constructor|by intros k ?%elem_of_nil].
  - pose proof (obj_create_spec start sz bm t Hsz IH) as Hs. rewrite Hc in Hs.
    destruct r; [by destruct Hs|]. by destruct Hs as (-> & -> & _).
  - pose proof (obj_destroy_spec start sz n bm t IH Hin) as Hs.
    destruct (obj_destroy start n bm t). by destruct Hs.
  - destruct IH as (? & ? & ? & Hm). split_and!; try done; [lia|lia|].
    intros k Hk. apply Hm in Hk as [Hk ?]. split; [done|]. apply Ho; [lia|done].
Qed.

Lemma obj_numbers_unique_witness :
  obj_inv PIB_BITMAP_CQ_START PIB_MAX_CQ
    (fst (snd (obj_create PIB_BITMAP_CQ_START PIB_MAX_CQ (setup_obj_num_bitmap ∅)
                 {| ot_last_num := 0; ot_nr := 0; ot_head := [] |})))
    {| ot_last_num := 1; ot_nr := 1; ot_head := [1] |}.
Proof.
  apply (obj_numbers_unique PIB_BITMAP_CQ_START PIB_MAX_CQ).
  - vm_compute. split; [discriminate|reflexivity].
  - eapply (obj_reach_create _ _ (setup_obj_num_bitmap ∅) _ (Some 1)); [apply obj_reach_init|].
    vm_compute. reflexivity.
Defined.
