(* ===== verification/Cq.v ===== *)
(** * Completion queues (driver/pib_cq.c)

    A CQ keeps the completions not yet polled ([cqe_head]) and a pool of
    preallocated entries ([free_cqe_head]); an insertion with an empty pool puts
    the CQ in error.  The operations are translated one by one; the file proves
    the pool invariant, that the CQ implements a bounded FIFO queue for every
    sequence of operations, and that notification is one-shot. *)

From S2P Require Import Prelude Verbs ObjNum.

(** ** State *)

Record pib_cq := {
  cq_num : Z;
  cq_cqe : Z;                     (* ib_cq.cqe: number of entries asked for *)
  cq_state : pib_state;
  cq_notify_flag : Z;
  cq_has_notified : bool;
  cq_nr_cqe : Z;
  cq_cqe_head : list ib_wc;
  cq_free_cqe_head : list ib_wc
}.
#[export] Instance eta_pib_cq : Eta pib_cq := fun c =>
  {| cq_num := cq_num c; cq_cqe := cq_cqe c; cq_state := cq_state c;
     cq_notify_flag := cq_notify_flag c; cq_has_notified := cq_has_notified c;
     cq_nr_cqe := cq_nr_cqe c; cq_cqe_head := cq_cqe_head c; cq_free_cqe_head := cq_free_cqe_head c |}.

(** ** Operations *)

(** A zeroed preallocated entry. *)
Definition cqe_zero : ib_wc := wc_init 0 IB_WC_SUCCESS 0 0.

(** [cq_alloc_ok]: the allocation of the CQ succeeds; [cqe_avail]: how many of
    the allocations of entries succeed before one fails. *)
Definition create_cq (max_cqe max_cq : Z) (cq_alloc_ok : bool) (cqe_avail : Z)
    (entries : Z) (bm : gset Z) (t : obj_table) : (Z + pib_cq) * (gset Z * obj_table) :=
  if (entries <? 1) || (max_cqe <=? entries) then (inl (- EINVAL), (bm, t))
  else if max_cq <=? ot_nr t then (inl (- ENOMEM), (bm, t))
  else if negb cq_alloc_ok then (inl (- ENOMEM), (bm, t))
  else
    match obj_create PIB_BITMAP_CQ_START PIB_MAX_CQ bm t with
    | (None, bt) => (inl (- ENOMEM), bt)
    | (Some n, (bm', t')) =>
        if cqe_avail <? entries
        then (inl (- ENOMEM), obj_destroy PIB_BITMAP_CQ_START n bm' t')
        else (inr {| cq_num := n; cq_cqe := entries; cq_state := PIB_STATE_OK; cq_notify_flag := 0;
                     cq_has_notified := true; cq_nr_cqe := 0; cq_cqe_head := [];
                     cq_free_cqe_head := replicate (Z.to_nat entries) cqe_zero |}, (bm', t'))
    end.

Definition pib_destroy_cq (cq : pib_cq) (bm : gset Z) (t : obj_table) : Z * (gset Z * obj_table) :=
  (0, obj_destroy PIB_BITMAP_CQ_START (cq_num cq) bm t).

(** [smi_port]: the port number of the completion's QP when that QP is of type
    SMI.  Returns the value, the calls made and the CQ. *)
Definition insert_wc (smi_port : option Z) (wc : ib_wc) (solicited : bool) (cq : pib_cq)
    : Z * list pib_event * pib_cq :=
  if bool_decide (cq_state cq <> PIB_STATE_OK) then (- EACCES, [], cq)
  else
    match cq_free_cqe_head cq with
    | [] => (- ENOMEM, [EvWorkCq (cq_num cq); EvComplete], cq <| cq_state := PIB_STATE_ERR |>)
    | _ :: free =>
        let wc := match smi_port with Some p => wc <| wc_port_num := p |> | None => wc end in
        let cq := cq <| cq_free_cqe_head := free |> <| cq_nr_cqe ::= Z.add 1 |>
                     <| cq_cqe_head ::= fun h => h ++ [wc] |> in
        if ((cq_notify_flag cq =? IB_CQ_NEXT_COMP)
            || ((cq_notify_flag cq =? IB_CQ_SOLICITED) && solicited)) && negb (cq_has_notified cq)
        then (0, [EvComp (cq_num cq)], cq <| cq_has_notified := true |>)
        else (0, [], cq)
    end.

Definition pib_util_insert_wc_success (smi_port : option Z) (wc : ib_wc) (solicited : bool) (cq : pib_cq) :=
  insert_wc smi_port wc solicited cq.

(** [rnd k]: the value of the [k]-th call of [pib_random]. *)
Definition pib_util_insert_wc_error (behavior : Z) (rnd : Z -> Z) (smi_port : option Z)
    (qp wr_id : Z) (status : ib_wc_status) (opcode : Z) (cq : pib_cq) : Z * list pib_event * pib_cq :=
  let wc := wc_init wr_id status opcode qp in
  let wc :=
    if param_bit behavior PIB_BEHAVIOR_CORRUPT_INVALID_WC_ATTRS then
      wc <| wc_opcode := u32 (rnd 0) |> <| wc_byte_len := u32 (rnd 1) |> <| wc_ex := u32 (rnd 2) |>
         <| wc_flags := u32 (rnd 3) |> <| wc_pkey_index := u16 (rnd 4) |> <| wc_slid := u16 (rnd 5) |>
         <| wc_sl := u8 (rnd 6) |> <| wc_dlid_path_bits := u8 (rnd 7) |>
    else wc in
  insert_wc smi_port wc true cq.

(** The loop of [pib_poll_cq]: at most [n] completions, oldest first. *)
Fixpoint poll_loop (n : nat) (cq : pib_cq) : list ib_wc * pib_cq :=
  match n, cq_cqe_head cq with
  | S n', wc :: rest =>
      let '(wcs, cq') := poll_loop n'
        (cq <| cq_cqe_head := rest |> <| cq_free_cqe_head ::= fun f => f ++ [wc] |>
            <| cq_nr_cqe ::= fun k => k - 1 |>) in
      (wc :: wcs, cq')
  | _, _ => ([], cq)
  end.

Definition pib_poll_cq (num_entries : Z) (cq : pib_cq) : Z * list ib_wc * pib_cq :=
  if bool_decide (cq_state cq <> PIB_STATE_OK) then (- EACCES, [], cq)
  else let '(wcs, cq') := poll_loop (Z.to_nat num_entries) cq in (Zlen wcs, wcs, cq').

Definition pib_req_notify_cq (notify_flags : Z) (cq : pib_cq) : Z * pib_cq :=
  if bool_decide (cq_state cq <> PIB_STATE_OK) then (-1, cq)
  else
    let cq :=
      if has_flag notify_flags IB_CQ_SOLICITED then cq <| cq_notify_flag := IB_CQ_SOLICITED |>
      else if has_flag notify_flags IB_CQ_NEXT_COMP then cq <| cq_notify_flag := IB_CQ_NEXT_COMP |>
      else cq in
    let r := if has_flag notify_flags IB_CQ_REPORT_MISSED_EVENTS && negb (bool_decide (cq_cqe_head cq = nil))
             then 1 else 0 in
    (r, cq <| cq_has_notified := false |>).

(** The loop of [pib_util_remove_cq] over the unpolled completions: the ones of
    [qp] go to the tail of the free pool. *)
Fixpoint remove_loop (qp : Z) (l : list ib_wc) : list ib_wc * list ib_wc :=
  match l with
  | [] => ([], [])
  | wc :: l' =>
      let '(kept, removed) := remove_loop qp l' in
      if wc_qp wc =? qp then (kept, wc :: removed) else (wc :: kept, removed)
  end.

Definition pib_util_remove_cq (qp : Z) (cq : pib_cq) : Z * pib_cq :=
  let '(kept, removed) := remove_loop qp (cq_cqe_head cq) in
  (Zlen removed,
   cq <| cq_cqe_head := kept |> <| cq_free_cqe_head ::= fun f => f ++ removed |>
      <| cq_nr_cqe ::= fun k => k - Zlen removed |>).

(** The part of [pib_util_insert_async_cq_error] that changes the CQ. *)
Definition cq_set_error (cq : pib_cq) : list pib_event * pib_cq :=
  ([EvCq (cq_num cq) IB_EVENT_CQ_ERR], cq <| cq_state := PIB_STATE_ERR |>).

(** ** The pool invariant *)

Definition cq_inv (cq : pib_cq) : Prop :=
  cq_nr_cqe cq = Zlen (cq_cqe_head cq)
  /\ Zlen (cq_cqe_head cq) + Zlen (cq_free_cqe_head cq) = cq_cqe cq.

Lemma remove_loop_spec qp l :
  remove_loop qp l = (List.filter (fun wc => negb (wc_qp wc =? qp)) l, List.filter (fun wc => wc_qp wc =? qp) l).
Proof. induction l as [|wc l IH]; [done|]. simpl. rewrite IH. by destruct (wc_qp wc =? qp). Qed.

(** ** The abstract queue *)

(** A bounded FIFO queue that fails for good on overflow. *)
Record bqueue := { bq_cap : Z; bq_items : list ib_wc; bq_failed : bool }.
Definition abs (cq : pib_cq) : bqueue :=
  {| bq_cap := cq_cqe cq; bq_items := cq_cqe_head cq; bq_failed := bool_decide (cq_state cq <> PIB_STATE_OK) |}.

Inductive cq_op := OpInsert (smi_port : option Z) (wc : ib_wc) (solicited : bool) | OpPoll (n : Z)
| OpNotify (flags : Z) | OpRemove (qp : Z) | OpError.
Inductive cq_res := RRet (r : Z) | RPoll (r : Z) (wcs : list ib_wc).

Definition bq_step (op : cq_op) (q : bqueue) : cq_res * bqueue :=
  match op with
  | OpInsert smi wc _ =>
      if bq_failed q then (RRet (- EACCES), q)
      else if bq_cap q <=? Zlen (bq_items q) then
        (RRet (- ENOMEM), {| bq_cap := bq_cap q; bq_items := bq_items q; bq_failed := true |})
      else (RRet 0, {| bq_cap := bq_cap q; bq_failed := false;
        bq_items := bq_items q ++ [match smi with Some p => wc <| wc_port_num := p |> | None => wc end] |})
  | OpPoll n =>
      if bq_failed q then (RPoll (- EACCES) [], q)
      else let wcs := take (Z.to_nat n) (bq_items q) in
        (RPoll (Zlen wcs) wcs, {| bq_cap := bq_cap q; bq_failed := false;
                                  bq_items := drop (Z.to_nat n) (bq_items q) |})
  | OpNotify flags =>
      (RRet (if bq_failed q then -1 else if has_flag flags IB_CQ_REPORT_MISSED_EVENTS
             && negb (bool_decide (bq_items q = nil)) then 1 else 0), q)
  | OpRemove qp =>
      (RRet (Zlen (List.filter (fun wc => wc_qp wc =? qp) (bq_items q))),
       {| bq_cap := bq_cap q; bq_failed := bq_failed q;
          bq_items := List.filter (fun wc => negb (wc_qp wc =? qp)) (bq_items q) |})
  | OpError => (RRet 0, {| bq_cap := bq_cap q; bq_items := bq_items q; bq_failed := true |})
  end.

(** The driver's operation, with the calls it makes. *)
Definition cq_step (op : cq_op) (cq : pib_cq) : cq_res * list pib_event * pib_cq :=
  match op with
  | OpInsert smi wc sol => let '(r, ev, cq') := insert_wc smi wc sol cq in (RRet r, ev, cq')
  | OpPoll n => let '(r, wcs, cq') := pib_poll_cq n cq in (RPoll r wcs, [], cq')
  | OpNotify flags => let '(r, cq') := pib_req_notify_cq flags cq in (RRet r, [], cq')
  | OpRemove qp => let '(r, cq') := pib_util_remove_cq qp cq in (RRet r, [], cq')
  | OpError => let '(ev, cq') := cq_set_error cq in (RRet 0, ev, cq')
  end.

Fixpoint cq_run (ops : list cq_op) (cq : pib_cq) : list cq_res * list pib_event * pib_cq :=
  match ops with
  | [] => ([], [], cq)
  | op :: ops' =>
      let '(r, ev, cq1) := cq_step op cq in
      let '(rs, evs, cq2) := cq_run ops' cq1 in (r :: rs, ev ++ evs, cq2)
  end.
Fixpoint bq_run (ops : list cq_op) (q : bqueue) : list cq_res * bqueue :=
  match ops with
  | [] => ([], q)
  | op :: ops' => let '(r, q1) := bq_step op q in let '(rs, q2) := bq_run ops' q1 in (r :: rs, q2)
  end.

(** ** Lemmas shared by the theorems *)

(** The loop of [pib_poll_cq] moves the first entries to the free pool. *)
Lemma poll_loop_spec n : forall cq,
  let '(wcs, cq') := poll_loop n cq in
  wcs = take n (cq_cqe_head cq)
  /\ cq' = cq <| cq_cqe_head := drop n (cq_cqe_head cq) |>
              <| cq_free_cqe_head := cq_free_cqe_head cq ++ take n (cq_cqe_head cq) |>
              <| cq_nr_cqe := cq_nr_cqe cq - Zlen (take n (cq_cqe_head cq)) |>.
Proof.
  induction n as [|n IH]; intros cq; destruct cq as [num cqe st nf hn nr hd fr]; simpl.
  - rewrite take_0, drop_0, app_nil_r, Zlen_nil, Z.sub_0_r. done.
  - destruct hd as [|wc hd]; simpl.
    + rewrite app_nil_r, Zlen_nil, Z.sub_0_r. done.
    + specialize (IH {| cq_num := num; cq_cqe := cqe; cq_state := st; cq_notify_flag := nf;
        cq_has_notified := hn; cq_nr_cqe := nr - 1; cq_cqe_head := hd; cq_free_cqe_head := fr ++ [wc] |}).
      simpl in IH. destruct (poll_loop n _) as [wcs cq']. destruct IH as [-> ->]. simpl.
      split; [done|]. f_equal; [rewrite Zlen_cons; lia|by rewrite <- app_assoc].
Qed.

Lemma cq_inv_full cq : cq_inv cq ->
  cq_free_cqe_head cq = [] <-> cq_cqe cq <= Zlen (cq_cqe_head cq).
Proof.
  intros [_ H]. pose proof (Zlen_nonneg (cq_free_cqe_head cq)). split.
  - intros E. rewrite E in H. zlen.
  - intros. destruct (cq_free_cqe_head cq); [done|]. zlen. pose proof (Zlen_nonneg l). lia.
Qed.

(** One operation: the invariant is kept and the result is the abstract one. *)
Lemma cq_step_refines op cq :
  cq_inv cq ->
  let '(r, ev, cq') := cq_step op cq in
  cq_inv cq' /\ bq_step op (abs cq) = (r, abs cq').
Proof.
  intros Hinv. pose proof (cq_inv_full cq Hinv) as Hfull. destruct Hinv as [Hnr Hpool].
  destruct op as [smi wc sol|n|flags|qp|]; simpl.
  - unfold insert_wc. case_bool_decide; [done|].
    destruct (cq_free_cqe_head cq) as [|e fr] eqn:Efr.
    + rewrite (proj2 (Z.leb_le _ _)) by (apply Hfull; reflexivity).
      split; [split; simpl; congruence|].
      unfold abs; simpl. try case_bool_decide; done.
    + rewrite (proj2 (Z.leb_gt _ _)).
      2:{ apply Z.nle_gt. intros Hle. apply Hfull in Hle. discriminate. }
      repeat case_match; simplify_eq; simpl; unfold cq_inv, abs; simpl; (split; [zlen|]);
        try case_bool_decide; done.
  - unfold pib_poll_cq. case_bool_decide; [done|].
    pose proof (poll_loop_spec (Z.to_nat n) cq) as Hp.
    destruct (poll_loop (Z.to_nat n) cq) as [wcs cq'] eqn:Ep. destruct Hp as [-> ->].
    unfold cq_inv, abs; simpl. split; [zlen|]. try case_bool_decide; done.
  - unfold pib_req_notify_cq. case_bool_decide; [done|].
    destruct (has_flag flags IB_CQ_SOLICITED), (has_flag flags IB_CQ_NEXT_COMP); simpl; unfold abs;
      simpl; (split; [done|]); done.
  - unfold pib_util_remove_cq. rewrite remove_loop_spec. simpl. split.
    + pose proof (Zlen_filter_split (fun wc => wc_qp wc =? qp) (cq_cqe_head cq)). cbv beta in *.
      unfold cq_inv; simpl. zlen.
    + done.
  - done.
Qed.

(** The notifications an operation may send are paid for by its arming. *)
Definition count_comp (evs : list pib_event) : nat :=
  length (List.filter (fun e => match e with EvComp _ => true | _ => false end) evs).
Definition count_notify (ops : list cq_op) : nat :=
  length (List.filter (fun o => match o with OpNotify _ => true | _ => false end) ops).
Definition armed (cq : pib_cq) : nat := if cq_has_notified cq then 0 else 1.

Lemma poll_loop_has_notified n cq : cq_has_notified (snd (poll_loop n cq)) = cq_has_notified cq.
Proof. pose proof (poll_loop_spec n cq) as H. destruct (poll_loop n cq). destruct H as [_ ->]. done. Qed.

Lemma cq_step_notify op cq :
  let '(_, ev, cq') := cq_step op cq in
  (count_comp ev + armed cq' <= count_notify [op] + armed cq)%nat.
Proof.
  unfold armed. destruct op as [smi wc sol|n|flags|qp|]; simpl.
  - unfold insert_wc. repeat case_match; simplify_eq; simpl in *; bools; simplify_eq; try lia;
      rewrite ?H in *; simpl in *; try lia; try congruence.
  - unfold pib_poll_cq. case_bool_decide; simpl; [lia|].
    pose proof (poll_loop_has_notified (Z.to_nat n) cq). destruct (poll_loop _ _). simpl in *.
    rewrite H0. lia.
  - unfold pib_req_notify_cq. repeat case_match; simplify_eq; simpl in *; try lia; congruence.
  - unfold pib_util_remove_cq. rewrite remove_loop_spec. simpl. lia.
  - lia.
Qed.

(** ** Theorems *)

(** C28. Completions are delivered exactly as by a bounded FIFO queue: for every
    sequence of insertions, polls, notification requests, removals of a QP's
    completions and errors, from any CQ that satisfies the pool invariant, the
    values returned (the polled completions included) are those of the abstract
    queue and the invariant holds at the end. *)
Theorem cq_refines_bounded_fifo (ops : list cq_op) (cq : pib_cq) (H : cq_inv cq) :
  let '(rs, evs, cq') := cq_run ops cq in
  bq_run ops (abs cq) = (rs, abs cq') /\ cq_inv cq'.
Proof.
  revert cq H. induction ops as [|op ops IH]; intros cq H; simpl; [done|].
  pose proof (cq_step_refines op cq H) as Hs. destruct (cq_step op cq) as [[r ev] cq1].
  destruct Hs as [Hi ->]. specialize (IH cq1 Hi). destruct (cq_run ops cq1) as [[rs evs] cq2].
  destruct IH as [-> ?]. done.
Qed.

(** Notification is one-shot: the completion handler of a CQ is called at most
    once per [pib_req_notify_cq], whatever the interleaving of operations. *)
Theorem cq_notification_one_shot (ops : list cq_op) (cq : pib_cq) :
  let '(rs, evs, cq') := cq_run ops cq in
  (count_comp evs + armed cq' <= count_notify ops + armed cq)%nat.
Proof.
  revert cq. induction ops as [|op ops IH]; intros cq; simpl; [lia|].
  pose proof (cq_step_notify op cq) as Hs. destruct (cq_step op cq) as [[r ev] cq1].
  specialize (IH cq1). destruct (cq_run ops cq1) as [[rs evs] cq2].
  unfold count_comp, count_notify in *. simpl in *.
  rewrite List.filter_app, length_app. repeat case_match; simpl in *; lia.
Qed.

(** Creation: on success the CQ is empty, satisfies the pool invariant, holds as
    many free entries as were asked for and has a number no live CQ has; on any
    failure, also one in the middle of the allocation of entries, the bitmap,
    the list of live CQs and their count are as before. *)
Theorem create_cq_all_or_nothing (max_cqe max_cq : Z) (alloc_ok : bool) (avail entries : Z)
    (bm : gset Z) (t : obj_table) (H : obj_inv PIB_BITMAP_CQ_START PIB_MAX_CQ bm t) :
  match create_cq max_cqe max_cq alloc_ok avail entries bm t with
  | (inr cq, (bm', t')) =>
      1 <= entries < max_cqe /\ cq_inv cq /\ cq_cqe_head cq = []
      /\ Zlen (cq_free_cqe_head cq) = entries /\ cq_state cq = PIB_STATE_OK
      /\ (cq_num cq ∉ ot_head t) /\ ot_head t' = ot_head t ++ [cq_num cq]
      /\ obj_inv PIB_BITMAP_CQ_START PIB_MAX_CQ bm' t'
  | (inl e, (bm', t')) =>
      (e = - EINVAL \/ e = - ENOMEM) /\ bm' = bm /\ ot_head t' = ot_head t /\ ot_nr t' = ot_nr t
  end.
Proof.
  assert (1 <= PIB_MAX_CQ < OBJ_NUM_NONE) as Hsz by (vm_compute; split; [discriminate|reflexivity]).
  unfold create_cq. destruct (_ || _) eqn:Earg; [by eauto|]. bools.
  destruct (max_cq <=? ot_nr t); [by eauto|]. destruct alloc_ok; simpl; [|by eauto].
  pose proof (obj_create_spec _ _ bm t Hsz H) as Hc.
  destruct (obj_create _ _ bm t) as [[n|] [bm' t']] eqn:Ec.
  2:{ destruct Hc as (-> & -> & _). by eauto. }
  destruct Hc as (Hi & [Hr Hf] & -> & Hh & Hn). destruct (avail <? entries).
  - rewrite (obj_create_destroy _ _ _ _ _ _ _ Hsz H Ec). by eauto.
  - assert (Zlen (replicate (Z.to_nat entries) cqe_zero) = entries) as Hrep.
    { unfold Zlen. rewrite length_replicate. lia. }
    unfold cq_inv; simpl. split_and!; try done; try lia.
    intros Hin. by apply H in Hin as [_ ?].
Qed.

(** A CQ that accepts completions returns them in the order of insertion:
    polling [n] entries after inserting one returns the head of the queue with
    the new completion at its end. *)
Theorem insert_then_poll (smi : option Z) (wc : ib_wc) (sol : bool) (n : Z) (cq : pib_cq)
    (Hinv : cq_inv cq) (Hok : cq_state cq = PIB_STATE_OK) (Hroom : cq_nr_cqe cq < cq_cqe cq) :
  let '(r, ev, cq1) := insert_wc smi wc sol cq in
  let '(cnt, wcs, cq2) := pib_poll_cq n cq1 in
  let wc' := match smi with Some p => wc <| wc_port_num := p |> | None => wc end in
  r = 0 /\ wcs = take (Z.to_nat n) (cq_cqe_head cq ++ [wc']) /\ cnt = Zlen wcs
  /\ cq_cqe_head cq2 = drop (Z.to_nat n) (cq_cqe_head cq ++ [wc']) /\ cq_inv cq2.
Proof.
  pose proof (cq_step_refines (OpInsert smi wc sol) cq Hinv) as H1. simpl in H1.
  destruct (insert_wc smi wc sol cq) as [[r ev] cq1]. destruct H1 as [Hi1 H1].
  rewrite bool_decide_eq_false_2 in H1 by naive_solver.
  destruct Hinv as [Hnr _]. rewrite (proj2 (Z.leb_gt _ _)) in H1 by lia.
  injection H1 as <- _ Hit Hst.
  pose proof (cq_step_refines (OpPoll n) cq1 Hi1) as H2. simpl in H2.
  destruct (pib_poll_cq n cq1) as [[cnt wcs] cq2]. destruct H2 as [Hi2 H2].
  rewrite <- Hst in H2. rewrite <- Hit in H2. injection H2 as <- <- _ Hd _. done.
Qed.

(** Overflow is an error that stays: inserting into a full CQ changes none of
    the stored completions, puts the CQ in error and queues the overflow work;
    from then on insertions and polls return EACCES. *)
Theorem insert_overflow (smi : option Z) (wc : ib_wc) (sol : bool) (cq : pib_cq)
    (Hinv : cq_inv cq) (Hok : cq_state cq = PIB_STATE_OK) (Hfull : cq_nr_cqe cq = cq_cqe cq) :
  let '(r, ev, cq1) := insert_wc smi wc sol cq in
  r = - ENOMEM /\ In (EvWorkCq (cq_num cq)) ev /\ cq_cqe_head cq1 = cq_cqe_head cq
  /\ (forall smi' wc' sol', insert_wc smi' wc' sol' cq1 = (- EACCES, [], cq1))
  /\ (forall n, pib_poll_cq n cq1 = (- EACCES, [], cq1)).
Proof.
  unfold insert_wc. rewrite bool_decide_eq_false_2 by naive_solver.
  assert (cq_free_cqe_head cq = []) as -> by (apply cq_inv_full; [done|destruct Hinv; lia]).
  simpl. split_and!; try done. by left.
Qed.

(** ** Witnesses *)

Definition cq_example : pib_cq :=
  {| cq_num := 1; cq_cqe := 2; cq_state := PIB_STATE_OK; cq_notify_flag := IB_CQ_NEXT_COMP;
     cq_has_notified := false; cq_nr_cqe := 1; cq_cqe_head := [wc_init 7 IB_WC_SUCCESS IB_WC_RECV 5];
     cq_free_cqe_head := [cqe_zero] |}.
Definition cq_example_full : pib_cq :=
  cq_example <| cq_nr_cqe := 2 |> <| cq_free_cqe_head := [] |>
             <| cq_cqe_head := [wc_init 7 IB_WC_SUCCESS IB_WC_RECV 5; wc_init 8 IB_WC_SUCCESS IB_WC_SEND 5] |>.
Definition ops_example : list cq_op :=
  [OpInsert None (wc_init 8 IB_WC_SUCCESS IB_WC_SEND 5) false; OpPoll 1; OpNotify IB_CQ_SOLICITED;
   OpInsert (Some 1) (wc_init 9 IB_WC_SUCCESS IB_WC_RECV 6) true; OpRemove 5; OpPoll 4].

Lemma cq_refines_bounded_fifo_witness :
  let '(rs, evs, cq') := cq_run ops_example cq_example in
  bq_run ops_example (abs cq_example) = (rs, abs cq') /\ cq_inv cq'.
Proof. apply (cq_refines_bounded_fifo ops_example cq_example). vm_compute. done. Defined.

Lemma create_cq_all_or_nothing_witness :
  obj_inv PIB_BITMAP_CQ_START PIB_MAX_CQ ∅ {| ot_last_num := 0; ot_nr := 0; ot_head := [] |} /\
  fst (snd (create_cq 100 100 true 1 2 ∅ {| ot_last_num := 0; ot_nr := 0; ot_head := [] |})) = ∅.
Proof.
  assert (obj_inv PIB_BITMAP_CQ_START PIB_MAX_CQ ∅ {| ot_last_num := 0; ot_nr := 0; ot_head := [] |}) as H.
  { split_and!; simpl; try done; [constructor|by intros k ?%elem_of_nil]. }
  split; [exact H|].
  pose proof (create_cq_all_or_nothing 100 100 true 1 2 ∅ _ H) as W.
  destruct (create_cq 100 100 true 1 2 ∅ _) as [[e|cq] [bm' t']] eqn:E.
  - apply W.
  - vm_compute in E. discriminate.
Defined.

Lemma insert_then_poll_witness :
  let '(r, ev, cq1) := insert_wc None (wc_init 8 IB_WC_SUCCESS IB_WC_SEND 5) true cq_example in
  let '(cnt, wcs, cq2) := pib_poll_cq 2 cq1 in
  r = 0 /\ wcs = take 2 (cq_cqe_head cq_example ++ [wc_init 8 IB_WC_SUCCESS IB_WC_SEND 5]) /\ cnt = Zlen wcs
  /\ cq_cqe_head cq2 = [] /\ cq_inv cq2.
Proof.
  apply (insert_then_poll None (wc_init 8 IB_WC_SUCCESS IB_WC_SEND 5) true 2 cq_example); vm_compute; done.
Defined.

Lemma insert_overflow_witness :
  let '(r, ev, cq1) := insert_wc None (wc_init 9 IB_WC_SUCCESS IB_WC_SEND 5) true cq_example_full in
  r = - ENOMEM /\ In (EvWorkCq 1) ev /\ cq_cqe_head cq1 = cq_cqe_head cq_example_full
  /\ (forall smi' wc' sol', insert_wc smi' wc' sol' cq1 = (- EACCES, [], cq1))
  /\ (forall n, pib_poll_cq n cq1 = (- EACCES, [], cq1)).
Proof.
  apply (insert_overflow None (wc_init 9 IB_WC_SUCCESS IB_WC_SEND 5) true cq_example_full); vm_compute; done.
Defined.
