(* ===== verification/Srq.v ===== *)
(** * Shared receive queues (driver/pib_srq.c)

    An SRQ keeps the posted receive work requests in order and a pool of
    preallocated entries.  The file translates every operation and proves FIFO
    delivery, the conservation of entries with the one exception the code has
    (an entry is lost when a work request is too long), and that the limit event
    is raised at most once per arming. *)

From S2P Require Import Prelude Verbs ObjNum.

(** ** State *)

(** A receive work request; [num_sge] is the length of [sg_list]. *)
Record ib_recv_wr := { rwr_wr_id : Z; rwr_sg_list : list ib_sge }.
Definition rwr_num_sge (wr : ib_recv_wr) : Z := Zlen (rwr_sg_list wr).

Record pib_recv_wqe := { rwqe_wr_id : Z; rwqe_total_length : Z; rwqe_sge_array : list ib_sge }.
#[export] Instance eta_pib_recv_wqe : Eta pib_recv_wqe := fun w =>
  {| rwqe_wr_id := rwqe_wr_id w; rwqe_total_length := rwqe_total_length w;
     rwqe_sge_array := rwqe_sge_array w |}.
Definition rwqe_zero : pib_recv_wqe := {| rwqe_wr_id := 0; rwqe_total_length := 0; rwqe_sge_array := [] |}.

Record ib_srq_attr := { max_wr : Z; max_sge : Z; srq_limit : Z }.
#[export] Instance eta_ib_srq_attr : Eta ib_srq_attr := fun a =>
  {| max_wr := max_wr a; max_sge := max_sge a; srq_limit := srq_limit a |}.

Record pib_srq := {
  srq_num : Z;
  srq_state : pib_state;
  srq_attr : ib_srq_attr;
  issue_srq_limit : bool;
  srq_nr_recv_wqe : Z;
  srq_recv_wqe_head : list pib_recv_wqe;
  srq_free_recv_wqe_head : list pib_recv_wqe
}.
#[export] Instance eta_pib_srq : Eta pib_srq := fun s =>
  {| srq_num := srq_num s; srq_state := srq_state s; srq_attr := srq_attr s;
     issue_srq_limit := issue_srq_limit s; srq_nr_recv_wqe := srq_nr_recv_wqe s;
     srq_recv_wqe_head := srq_recv_wqe_head s; srq_free_recv_wqe_head := srq_free_recv_wqe_head s |}.

(** The device limits the operations read. *)
Record srq_limits := { dev_max_srq_wr : Z; dev_max_srq_sge : Z; dev_cap_flags : Z }.

(** ** Operations *)

Definition pib_srq_attr_is_ok (dev : srq_limits) (attr : ib_srq_attr) : bool :=
  if (max_wr attr <? 1) || (dev_max_srq_wr dev <? max_wr attr) then false
  else if (max_sge attr <? 1) || (dev_max_srq_sge dev <? max_sge attr) then false
  else true.

(** [srq_alloc_ok]: the SRQ itself can be allocated; [wqe_avail]: how many
    allocations of entries succeed before one fails. *)
Definition pib_create_srq (dev : srq_limits) (srq_alloc_ok : bool) (wqe_avail : Z) (attr : ib_srq_attr)
    (bm : gset Z) (t : obj_table) : (Z + pib_srq) * (gset Z * obj_table) :=
  if negb (pib_srq_attr_is_ok dev attr) then (inl (- EINVAL), (bm, t))
  else if negb srq_alloc_ok then (inl (- ENOMEM), (bm, t))
  else
    match obj_create PIB_BITMAP_SRQ_START PIB_MAX_SRQ bm t with
    | (None, bt) => (inl (- ENOMEM), bt)
    | (Some n, (bm', t')) =>
        if wqe_avail <? max_wr attr
        then (inl (- ENOMEM), obj_destroy PIB_BITMAP_SRQ_START n bm' t')
        else (inr {| srq_num := n; srq_state := PIB_STATE_OK; srq_attr := attr <| srq_limit := 0 |>;
                     issue_srq_limit := false; srq_nr_recv_wqe := 0; srq_recv_wqe_head := [];
                     srq_free_recv_wqe_head := replicate (Z.to_nat (max_wr attr)) rwqe_zero |}, (bm', t'))
    end.

Definition pib_destroy_srq (srq : pib_srq) (bm : gset Z) (t : obj_table) : Z * (gset Z * obj_table) :=
  (0, obj_destroy PIB_BITMAP_SRQ_START (srq_num srq) bm t).

Definition pib_modify_srq (dev : srq_limits) (attr : ib_srq_attr) (attr_mask : Z) (srq : pib_srq)
    : Z * pib_srq :=
  if bool_decide (srq_state srq <> PIB_STATE_OK) then (- EACCES, srq)
  else
    let set_limit srq :=
      if has_flag attr_mask IB_SRQ_LIMIT
      then srq <| srq_attr ::= fun a => a <| srq_limit := srq_limit attr |> |> <| issue_srq_limit := false |>
      else srq in
    if has_flag attr_mask IB_SRQ_MAX_WR then
      if negb (has_flag (dev_cap_flags dev) IB_DEVICE_SRQ_RESIZE) then (- EINVAL, srq)
      else
        let new_attr := (srq_attr srq) <| max_wr := max_wr attr |> <| max_sge := max_sge attr |> in
        if negb (pib_srq_attr_is_ok dev new_attr) then (- EINVAL, srq)
        else (0, set_limit (srq <| srq_attr := new_attr |>))
    else (0, set_limit srq).

Definition pib_query_srq (srq : pib_srq) : Z * option ib_srq_attr :=
  if bool_decide (srq_state srq <> PIB_STATE_OK) then (- EACCES, None) else (0, Some (srq_attr srq)).

(** The length an SGE counts for; the entry keeps the SGE as it was given. *)
Definition sge_counted_length (behavior : Z) (sge : ib_sge) : Z :=
  if param_bit behavior PIB_BEHAVIOR_ZERO_LEN_SGE_CONSIDER_AS_MAX_LEN && (sge_length sge =? 0)
  then PIB_MAX_PAYLOAD_LEN else sge_length sge.

Definition add_sge_lengths (behavior : Z) (total : Z) (sgl : list ib_sge) : Z :=
  fold_left (fun acc sge => u64 (acc + sge_counted_length behavior sge)) sgl total.

(** The [next_wr] loop; [total_length] is initialised once, before it.  Returns
    the value, the work request [*bad_wr] points to on error (with the ones
    chained after it) and the SRQ. *)
Fixpoint post_srq_loop (behavior : Z) (wrs : list ib_recv_wr) (total_length : Z) (srq : pib_srq)
    : Z * list ib_recv_wr * pib_srq :=
  match wrs with
  | [] => (0, [], srq)
  | wr :: wrs' =>
      if (rwr_num_sge wr <? 1) || (max_sge (srq_attr srq) <? rwr_num_sge wr) then (- EINVAL, wrs, srq)
      else
        match srq_free_recv_wqe_head srq with
        | [] => (- ENOMEM, wrs, srq)
        | _ :: free =>
            let srq := srq <| srq_free_recv_wqe_head := free |> in
            let total_length := add_sge_lengths behavior total_length (rwr_sg_list wr) in
            if PIB_MAX_PAYLOAD_LEN <? total_length then (- EMSGSIZE, wrs, srq)
            else
              let recv_wqe := {| rwqe_wr_id := rwr_wr_id wr; rwqe_total_length := u32 total_length;
                                 rwqe_sge_array := rwr_sg_list wr |} in
              post_srq_loop behavior wrs' total_length
                (srq <| srq_recv_wqe_head ::= fun h => h ++ [recv_wqe] |> <| srq_nr_recv_wqe ::= Z.add 1 |>)
        end
  end.

Definition pib_post_srq_recv (behavior : Z) (wrs : list ib_recv_wr) (srq : pib_srq)
    : Z * list ib_recv_wr * pib_srq :=
  match wrs with
  | [] => (- EINVAL, [], srq)
  | _ => post_srq_loop behavior wrs 0 srq
  end.

Definition pib_util_get_srq (srq : pib_srq) : option pib_recv_wqe * list pib_event * pib_srq :=
  if bool_decide (srq_state srq <> PIB_STATE_OK) then (None, [], srq)
  else
    match srq_recv_wqe_head srq with
    | [] => (None, [], srq)
    | recv_wqe :: rest =>
        let srq := srq <| srq_recv_wqe_head := rest |> <| srq_nr_recv_wqe ::= fun k => k - 1 |> in
        if negb (srq_limit (srq_attr srq) =? 0) && negb (issue_srq_limit srq)
           && (srq_nr_recv_wqe srq <? srq_limit (srq_attr srq))
        then (Some recv_wqe, [EvSrq (srq_num srq) IB_EVENT_SRQ_LIMIT_REACHED], srq <| issue_srq_limit := true |>)
        else (Some recv_wqe, [], srq)
    end.

(** The SRQ part of [pib_util_free_recv_wqe] (driver/pib_qp.c). *)
Definition srq_free_recv_wqe (recv_wqe : pib_recv_wqe) (srq : pib_srq) : pib_srq :=
  srq <| srq_free_recv_wqe_head ::= fun f => f ++ [recv_wqe] |>.

(** The part of [pib_util_insert_async_srq_error] that changes the SRQ. *)
Definition srq_set_error (srq : pib_srq) : list pib_event * pib_srq :=
  ([EvSrq (srq_num srq) IB_EVENT_SRQ_ERR], srq <| srq_state := PIB_STATE_ERR |>).

(** ** Operation sequences *)

Inductive srq_op :=
| SrqPost (wrs : list ib_recv_wr) | SrqGet | SrqFree (w : pib_recv_wqe)
| SrqModify (attr : ib_srq_attr) (mask : Z) | SrqError.

Definition srq_step (dev : srq_limits) (behavior : Z) (op : srq_op) (srq : pib_srq)
    : list pib_recv_wqe * list pib_event * pib_srq :=
  match op with
  | SrqPost wrs => let '(_, _, srq') := pib_post_srq_recv behavior wrs srq in ([], [], srq')
  | SrqGet => let '(w, ev, srq') := pib_util_get_srq srq in (option_list w, ev, srq')
  | SrqFree w => ([], [], srq_free_recv_wqe w srq)
  | SrqModify attr mask => let '(_, srq') := pib_modify_srq dev attr mask srq in ([], [], srq')
  | SrqError => let '(ev, srq') := srq_set_error srq in ([], ev, srq')
  end.

Fixpoint srq_run (dev : srq_limits) (behavior : Z) (ops : list srq_op) (srq : pib_srq)
    : list pib_recv_wqe * list pib_event * pib_srq :=
  match ops with
  | [] => ([], [], srq)
  | op :: ops' =>
      let '(ws, ev, s1) := srq_step dev behavior op srq in
      let '(wss, evs, s2) := srq_run dev behavior ops' s1 in (ws ++ wss, ev ++ evs, s2)
  end.

(** The entries the first work requests of a post produce, and how many of them
    are accepted. *)
Definition wqe_of (behavior total : Z) (wr : ib_recv_wr) : pib_recv_wqe :=
  {| rwqe_wr_id := rwr_wr_id wr; rwqe_total_length := u32 (add_sge_lengths behavior total (rwr_sg_list wr));
     rwqe_sge_array := rwr_sg_list wr |}.
Fixpoint wqes_of (behavior total : Z) (wrs : list ib_recv_wr) : list pib_recv_wqe :=
  match wrs with
  | [] => []
  | wr :: wrs' => wqe_of behavior total wr :: wqes_of behavior (add_sge_lengths behavior total (rwr_sg_list wr)) wrs'
  end.

Definition posted (wrs bad : list ib_recv_wr) : nat := length wrs - length bad.

(** What is appended to the queue by each post of a sequence, in order. *)
Fixpoint appended (dev : srq_limits) (behavior : Z) (ops : list srq_op) (srq : pib_srq) : list pib_recv_wqe :=
  match ops with
  | [] => []
  | op :: ops' =>
      let '(_, _, s1) := srq_step dev behavior op srq in
      match op with
      | SrqPost wrs => drop (length (srq_recv_wqe_head srq)) (srq_recv_wqe_head s1) ++ appended dev behavior ops' s1
      | _ => appended dev behavior ops' s1
      end
  end.

Definition srq_inv (srq : pib_srq) : Prop := srq_nr_recv_wqe srq = Zlen (srq_recv_wqe_head srq).

(** ** Lemmas *)

Lemma Zlen_wqes_of behavior wrs : forall total, Zlen (wqes_of behavior total wrs) = Zlen wrs.
Proof. induction wrs as [|wr wrs IH]; intros total; [done|]. simpl. by rewrite !Zlen_cons, IH. Qed.

(** A post appends, in order, the entries of the accepted prefix of the chain,
    and takes one free entry for each, and one more when it fails with
    EMSGSIZE. *)
Lemma post_srq_loop_spec behavior wrs : forall total srq,
  let '(r, bad, srq') := post_srq_loop behavior wrs total srq in
  let k := posted wrs bad in
  let lost : nat := if r =? - EMSGSIZE then 1%nat else 0%nat in
  (length bad <= length wrs)%nat /\ bad = drop k wrs
  /\ srq_recv_wqe_head srq' = srq_recv_wqe_head srq ++ wqes_of behavior total (take k wrs)
  /\ srq_nr_recv_wqe srq' = srq_nr_recv_wqe srq + Z.of_nat k
  /\ Zlen (srq_free_recv_wqe_head srq) = Zlen (srq_free_recv_wqe_head srq') + Z.of_nat k + Z.of_nat lost
  /\ (r = 0 <-> bad = [])
  /\ srq_attr srq' = srq_attr srq /\ issue_srq_limit srq' = issue_srq_limit srq
  /\ srq_state srq' = srq_state srq /\ srq_num srq' = srq_num srq.
Proof.
  induction wrs as [|wr wrs IH]; intros total srq; simpl.
  { unfold posted; simpl. rewrite app_nil_r. split_and!; done || lia. }
  destruct (_ || _).
  { unfold posted. rewrite Nat.sub_diag. simpl. rewrite app_nil_r. split_and!; done || lia. }
  destruct (srq_free_recv_wqe_head srq) as [|e free] eqn:Ef.
  { unfold posted. rewrite Nat.sub_diag. simpl. rewrite app_nil_r, Ef. split_and!; done || lia. }
  destruct (_ <? _).
  { unfold posted. rewrite Nat.sub_diag. simpl. rewrite app_nil_r. zlen. split_and!; done || lia. }
  match goal with |- context [post_srq_loop _ _ ?t ?s] => specialize (IH t s) end.
  destruct (post_srq_loop _ _ _ _) as [[r bad] srq']. simpl in IH.
  destruct IH as (Hlen & Hbad & Hh & Hn & Hf & Hr & Ha & Hi & Hst & Hnum).
  assert (posted (wr :: wrs) bad = S (posted wrs bad)) as -> by (unfold posted; simpl; lia).
  simpl. rewrite Hh, <- app_assoc. simpl. zlen. split_and!; done || lia.
Qed.

Lemma pib_util_get_srq_spec srq :
  let '(w, ev, srq') := pib_util_get_srq srq in
  srq_recv_wqe_head srq = option_list w ++ srq_recv_wqe_head srq'
  /\ srq_nr_recv_wqe srq' = srq_nr_recv_wqe srq - Zlen (option_list w)
  /\ srq_free_recv_wqe_head srq' = srq_free_recv_wqe_head srq.
Proof.
  unfold pib_util_get_srq. case_bool_decide; simpl; [split_and!; done || (zlen)|].
  destruct (srq_recv_wqe_head srq) eqn:E; simpl; [rewrite E; split_and!; done || (zlen)|].
  destruct (_ && _); simpl; split_and!; done || zlen.
Qed.

Lemma srq_step_fifo dev behavior op srq :
  let '(ws, ev, srq') := srq_step dev behavior op srq in
  srq_recv_wqe_head srq ++ appended dev behavior [op] srq = ws ++ srq_recv_wqe_head srq'
  /\ (srq_inv srq -> srq_inv srq').
Proof.
  unfold srq_inv. destruct op as [wrs| |w|attr mask|]; simpl.
  - unfold pib_post_srq_recv. destruct wrs as [|wr wrs]; [simpl; rewrite drop_all; by rewrite !app_nil_r|].
    pose proof (post_srq_loop_spec behavior (wr :: wrs) 0 srq) as H.
    destruct (post_srq_loop _ _ _ _) as [[r bad] srq']. destruct H as (? & Hb & Hh & Hn & _).
    rewrite Hh, drop_app_length, app_nil_r. split; [done|]. rewrite Hn. intros ->. zlen.
    rewrite Zlen_wqes_of, Zlen_take. unfold posted, Zlen. simpl. lia.
  - pose proof (pib_util_get_srq_spec srq) as H. destruct (pib_util_get_srq srq) as [[w ev] srq'].
    destruct H as (-> & -> & _). rewrite app_nil_r. split; [done|]. intros ->. zlen.
  - by rewrite app_nil_r.
  - unfold pib_modify_srq. repeat (case_match; simplify_eq; simpl); rewrite ?app_nil_r; done.
  - by rewrite app_nil_r.
Qed.

Definition is_limit_event (e : pib_event) : bool :=
  match e with EvSrq _ IB_EVENT_SRQ_LIMIT_REACHED => true | _ => false end.
Definition is_modify (o : srq_op) : bool := match o with SrqModify _ _ => true | _ => false end.
Definition count_limit (evs : list pib_event) : nat := length (List.filter is_limit_event evs).
Definition count_modify (ops : list srq_op) : nat := length (List.filter is_modify ops).
Definition limit_armed (srq : pib_srq) : nat := if issue_srq_limit srq then 0 else 1.

Lemma srq_step_limit dev behavior op srq :
  let '(_, ev, srq') := srq_step dev behavior op srq in
  (count_limit ev + limit_armed srq' <= count_modify [op] + limit_armed srq)%nat.
Proof.
  unfold limit_armed. destruct op as [wrs| |w|attr mask|]; simpl.
  - unfold pib_post_srq_recv. destruct wrs as [|wr wrs]; [simpl; lia|].
    pose proof (post_srq_loop_spec behavior (wr :: wrs) 0 srq) as H.
    destruct (post_srq_loop _ _ _ _) as [[r bad] srq'].
    destruct H as (_ & _ & _ & _ & _ & _ & _ & -> & _). simpl. lia.
  - unfold pib_util_get_srq. case_bool_decide; simpl; [lia|].
    destruct (srq_recv_wqe_head srq); simpl; [lia|]. destruct (_ && _) eqn:E; simpl; [|lia].
    bools. simpl in *. destruct (issue_srq_limit srq); [done|simpl; lia].
  - lia.
  - destruct (pib_modify_srq _ _ _ _) as [r srq']. unfold count_modify; simpl. repeat case_match; lia.
  - simpl; lia.
Qed.

(** ** Theorems *)

(** Receive work requests are handed out in the order they were posted: for
    every sequence of posts, takes, releases, modifications and errors, the
    queue at the start followed by what the posts appended is what was taken
    followed by the queue at the end, and the count kept beside the queue stays
    exact. *)
Theorem srq_fifo (dev : srq_limits) (behavior : Z) (ops : list srq_op) (srq : pib_srq) (H : srq_inv srq) :
  let '(ws, evs, srq') := srq_run dev behavior ops srq in
  srq_recv_wqe_head srq ++ appended dev behavior ops srq = ws ++ srq_recv_wqe_head srq' /\ srq_inv srq'.
Proof.
  revert srq H. induction ops as [|op ops IH]; intros srq H; simpl; [by rewrite app_nil_r|].
  pose proof (srq_step_fifo dev behavior op srq) as Hs. simpl in Hs.
  destruct (srq_step dev behavior op srq) as [[ws ev] s1]. destruct Hs as [Hs Hi].
  specialize (IH s1 (Hi H)). destruct (srq_run dev behavior ops s1) as [[wss evs] s2].
  destruct IH as [IH Hi2]. split; [|done]. rewrite <- app_assoc, <- IH, !app_assoc.
  destruct op; rewrite ?app_nil_r in Hs; rewrite <- Hs; by rewrite ?app_assoc, ?app_nil_r.
Qed.

(** The limit event is raised at most once per [pib_modify_srq], whatever is
    posted and taken in between. *)
Theorem srq_limit_event_one_shot (dev : srq_limits) (behavior : Z) (ops : list srq_op) (srq : pib_srq) :
  let '(ws, evs, srq') := srq_run dev behavior ops srq in
  (count_limit evs + limit_armed srq' <= count_modify ops + limit_armed srq)%nat.
Proof.
  revert srq. induction ops as [|op ops IH]; intros srq; simpl; [lia|].
  pose proof (srq_step_limit dev behavior op srq) as Hs.
  destruct (srq_step dev behavior op srq) as [[ws ev] s1]. specialize (IH s1).
  destruct (srq_run dev behavior ops s1) as [[wss evs] s2].
  unfold count_limit, count_modify in *. rewrite List.filter_app, length_app. simpl in *.
  destruct (is_modify op); simpl in *; lia.
Qed.

(** Posting a chain accepts a prefix of it: exactly the entries of the accepted
    work requests are appended, in order; all of them if and only if 0 is
    returned, otherwise [*bad_wr] is the first one not accepted; each accepted
    request uses one free entry, and a request refused with EMSGSIZE loses one
    more free entry, which is on no list afterwards. *)
Theorem post_srq_recv_prefix (behavior : Z) (wrs : list ib_recv_wr) (srq : pib_srq) (H : wrs <> []) :
  let '(r, bad, srq') := pib_post_srq_recv behavior wrs srq in
  let k := posted wrs bad in
  bad = drop k wrs /\ (r = 0 <-> bad = [])
  /\ srq_recv_wqe_head srq' = srq_recv_wqe_head srq ++ wqes_of behavior 0 (take k wrs)
  /\ Zlen (srq_recv_wqe_head srq') + Zlen (srq_free_recv_wqe_head srq')
     = Zlen (srq_recv_wqe_head srq) + Zlen (srq_free_recv_wqe_head srq) - b2z (r =? - EMSGSIZE).
Proof.
  unfold pib_post_srq_recv. destruct wrs as [|wr wrs]; [done|]. set (l := wr :: wrs).
  pose proof (post_srq_loop_spec behavior l 0 srq) as Hs.
  destruct (post_srq_loop _ l 0 srq) as [[r bad] srq'].
  destruct Hs as (Hle & Hb & Hh & _ & Hf & Hr & _). split_and!; [done|apply Hr|done|].
  rewrite Hh, Hf, Zlen_app, Zlen_wqes_of, Zlen_take.
  unfold posted, Zlen, b2z in *. destruct (r =? - EMSGSIZE); lia.
Qed.

(** Lengths add up over a chain of work requests: [total_length] is not reset
    between them, so a request that is accepted alone is refused when it follows
    another one in the same call. *)
Theorem post_srq_recv_chain_accumulates :
  let dev := {| max_wr := 4; max_sge := 1; srq_limit := 0 |} in
  let wr i := {| rwr_wr_id := i; rwr_sg_list := [ {| sge_addr := 0; sge_length := 0x30000000; sge_lkey := 1 |} ] |} in
  let srq := {| srq_num := 1; srq_state := PIB_STATE_OK; srq_attr := dev; issue_srq_limit := false;
                srq_nr_recv_wqe := 0; srq_recv_wqe_head := []; srq_free_recv_wqe_head := replicate 4 rwqe_zero |} in
  fst (fst (pib_post_srq_recv 0 [wr 1] srq)) = 0
  /\ fst (fst (pib_post_srq_recv 0 [wr 2] (snd (pib_post_srq_recv 0 [wr 1] srq)))) = 0
  /\ fst (fst (pib_post_srq_recv 0 [wr 1; wr 2] srq)) = - EMSGSIZE
  /\ Zlen (srq_free_recv_wqe_head (snd (pib_post_srq_recv 0 [wr 1; wr 2] srq))) = 2.
Proof. by vm_compute. Qed.

(** ** Witnesses *)

Definition srq_example : pib_srq :=
  {| srq_num := 1; srq_state := PIB_STATE_OK; srq_attr := {| max_wr := 2; max_sge := 2; srq_limit := 1 |};
     issue_srq_limit := false; srq_nr_recv_wqe := 0; srq_recv_wqe_head := [];
     srq_free_recv_wqe_head := [rwqe_zero; rwqe_zero] |}.
Definition srq_wr_example (i : Z) : ib_recv_wr :=
  {| rwr_wr_id := i; rwr_sg_list := [ {| sge_addr := 4096; sge_length := 16; sge_lkey := 256 |} ] |}.
Definition srq_dev_example : srq_limits := {| dev_max_srq_wr := 16; dev_max_srq_sge := 4; dev_cap_flags := 0 |}.
Definition srq_ops_example : list srq_op :=
  [SrqPost [srq_wr_example 1; srq_wr_example 2]; SrqGet; SrqGet; SrqGet].

Lemma srq_fifo_witness :
  let '(ws, evs, srq') := srq_run srq_dev_example 0 srq_ops_example srq_example in
  appended srq_dev_example 0 srq_ops_example srq_example = ws ++ srq_recv_wqe_head srq' /\ srq_inv srq'.
Proof. apply (srq_fifo srq_dev_example 0 srq_ops_example srq_example). reflexivity. Defined.

Lemma post_srq_recv_prefix_witness :
  let '(r, bad, srq') := pib_post_srq_recv 0 [srq_wr_example 1] srq_example in
  srq_recv_wqe_head srq' = wqes_of 0 0 [srq_wr_example 1].
Proof.
  pose proof (post_srq_recv_prefix 0 [srq_wr_example 1] srq_example ltac:(discriminate)) as H.
  vm_compute in H |- *. apply H.
Defined.
