(* ===== verification/Mr.v ===== *)
(** * Memory regions (driver/pib_mr.c)

    A protection domain has a table of memory regions indexed by a field of the
    key; local access goes through scatter/gather lists with lkeys, remote access
    through rkeys.  The file translates registration, invalidation, fast
    registration and every data access, down to the page loop, and proves that
    keys find their region, that no access touches memory outside the region it
    names, that gathers and scatters move exactly the bytes asked for, and the
    semantics of the atomics. *)

From S2P Require Import Prelude Verbs ObjNum.

(** ** State *)

(** Host memory: the byte at each kernel virtual address. *)
Definition mem : Type := Z -> Z.

Definition mem_read (m : mem) (a len : Z) : list Z := m <$> seqZ a len.

Definition mem_write (m : mem) (a : Z) (bytes : list Z) : mem :=
  fun x => if (a <=? x) && (x <? a + Zlen bytes) then default 0 (bytes !! Z.to_nat (x - a)) else m x.

(** Little-endian 64-bit accesses (the atomics work on host integers). *)
Fixpoint le_combine (l : list Z) : Z :=
  match l with [] => 0 | b :: l' => b + 256 * le_combine l' end.
Fixpoint le_split (n : nat) (v : Z) : list Z :=
  match n with O => [] | S n' => v mod 256 :: le_split n' (v / 256) end.
Definition mem_read64 (m : mem) (a : Z) : Z := le_combine (mem_read m a 8).
Definition mem_write64 (m : mem) (a v : Z) : mem := mem_write m a (le_split 8 v).

(** struct ib_umem: the user pages pinned by the kernel; a page without a kernel
    mapping is [None]. *)
Record ib_umem := { um_offset : Z; um_page_size : Z; um_pages : list (option Z) }.

Record pib_mr := {
  mr_num : Z;
  mr_lkey : Z;
  mr_rkey : Z;
  mr_umem : option ib_umem;
  mr_state : pib_mr_state;
  mr_is_fast_reg_mr : bool;
  mr_is_dma : bool;
  mr_start : Z;
  mr_length : Z;
  mr_virt_addr : Z;
  mr_access_flags : Z;
  mr_max_page_list_len : Z;
  mr_page_list_len : Z;
  mr_page_list : list Z;
  mr_page_shift : Z
}.
#[export] Instance eta_pib_mr : Eta pib_mr := fun m =>
  {| mr_num := mr_num m; mr_lkey := mr_lkey m; mr_rkey := mr_rkey m; mr_umem := mr_umem m;
     mr_state := mr_state m; mr_is_fast_reg_mr := mr_is_fast_reg_mr m; mr_is_dma := mr_is_dma m;
     mr_start := mr_start m; mr_length := mr_length m; mr_virt_addr := mr_virt_addr m;
     mr_access_flags := mr_access_flags m; mr_max_page_list_len := mr_max_page_list_len m;
     mr_page_list_len := mr_page_list_len m; mr_page_list := mr_page_list m; mr_page_shift := mr_page_shift m |}.

(** The part of struct pib_pd the regions use; a NULL slot is an absent key. *)
Record pib_pd := { pd_num : Z; pd_nr_mr : Z; pd_mr_table : gmap Z pib_mr }.
#[export] Instance eta_pib_pd : Eta pib_pd := fun p =>
  {| pd_num := pd_num p; pd_nr_mr := pd_nr_mr p; pd_mr_table := pd_mr_table p |}.

Definition mr_index (key : Z) : Z := Z.shiftr (Z.land key PIB_MR_INDEX_MASK) PIB_MR_INDEX_SHIFT.

(** ** Registration *)

(** The first empty slot of the table, [None] when the loop ends without one. *)
Fixpoint find_slot (table : gmap Z pib_mr) (i : Z) (n : nat) : option Z :=
  match n with
  | O => None
  | S n' => match table !! i with None => Some i | Some _ => find_slot table (i + 1) n' end
  end.

Definition make_key (i random : Z) : Z :=
  u32 (Z.shiftl (u32 (i + u32 (random * PIB_MAX_MR_PER_PD))) PIB_MR_INDEX_SHIFT).

(** The [generate_new_key] loop: [rnd] is the stream of values [pib_random]
    returns, two of which are used in each iteration; [None] when the values
    given end before two acceptable keys are drawn. *)
Fixpoint generate_new_key (i : Z) (rnd : list Z) : option (Z * Z) :=
  match rnd with
  | r1 :: r2 :: rnd' =>
      let lkey := make_key i r1 in
      let rkey := make_key i r2 in
      if (lkey =? PIB_LOCAL_DMA_LKEY) || (lkey =? PIB_IMM_DATA_LKEY)
      then generate_new_key i rnd'
      else Some (lkey, rkey)
  | _ => None
  end.

(** [None]: the loop has not ended with the values given; [Some (inl _)]: the
    table is full; otherwise the region with its keys and the table. *)
Definition reg_mr (rnd : list Z) (mr : pib_mr) (pd : pib_pd) : option (Z + pib_mr * pib_pd) :=
  match find_slot (pd_mr_table pd) 0 (Z.to_nat PIB_MAX_MR_PER_PD) with
  | None => Some (inl (-1))
  | Some i =>
      '(lkey, rkey) ← generate_new_key i rnd;
      let mr := mr <| mr_lkey := lkey |> <| mr_rkey := rkey |> in
      Some (inr (mr, pd <| pd_mr_table ::= <[i := mr]> |> <| pd_nr_mr ::= Z.add 1 |>))
  end.

(** Later assignments to a registered region: the table holds a pointer to it. *)
Definition pd_update_mr (i : Z) (f : pib_mr -> pib_mr) (pd : pib_pd) : pib_pd :=
  pd <| pd_mr_table ::= alter f i |>.

(** [alloc_ok]: the region and the page list can be allocated.  The parameter
    [fast_reg_mr] decides only whether a page list is allocated. *)
Definition create_mr (rnd : list Z) (alloc_ok : bool) (init_state : pib_mr_state) (fast_reg_mr : bool)
    (max_page_list_len : Z) (bm : gset Z) (t : obj_table) (pd : pib_pd)
    : option ((Z + pib_mr) * (gset Z * obj_table) * pib_pd) :=
  if negb alloc_ok then Some (inl (- ENOMEM), (bm, t), pd)
  else
    match obj_create PIB_BITMAP_MR_START PIB_MAX_MR bm t with
    | (None, bt) => Some (inl (- ENOMEM), bt, pd)
    | (Some n, (bm', t')) =>
        let mr := {| mr_num := n; mr_lkey := 0; mr_rkey := 0; mr_umem := None; mr_state := PIB_MR_INVALID;
                     mr_is_fast_reg_mr := false; mr_is_dma := false; mr_start := 0; mr_length := 0;
                     mr_virt_addr := 0; mr_access_flags := 0; mr_max_page_list_len := 0;
                     mr_page_list_len := 0; mr_page_list := []; mr_page_shift := 0 |} in
        r ← reg_mr rnd mr pd;
        match r with
        | inl _ => Some (inl (- ENOMEM), obj_destroy PIB_BITMAP_MR_START n bm' t', pd)
        | inr (mr, pd) =>
            let page_list := if fast_reg_mr && (0 <? max_page_list_len)
                             then replicate (Z.to_nat max_page_list_len) 0 else [] in
            let upd m := m <| mr_state := init_state |> <| mr_page_list := page_list |>
                           <| mr_max_page_list_len := max_page_list_len |> in
            Some (inr (upd mr), (bm', t'), pd_update_mr (mr_index (mr_lkey mr)) upd pd)
        end
    end.

Definition pib_get_dma_mr rnd alloc_ok (access_flags : Z) bm t pd :=
  '(r, bt, pd) ← create_mr rnd alloc_ok PIB_MR_VALID false 0 bm t pd;
  match r with
  | inl e => Some (inl e, bt, pd)
  | inr mr =>
      let upd m := m <| mr_start := 0 |> <| mr_length := u64 (-1) |> <| mr_virt_addr := 0 |>
                     <| mr_access_flags := access_flags |> <| mr_is_dma := true |> in
      Some (inr (upd mr), bt, pd_update_mr (mr_index (mr_lkey mr)) upd pd)
  end.

(** [umem]: the result of [ib_umem_get] on the arguments. *)
Definition pib_reg_user_mr rnd alloc_ok (umem : Z + ib_umem) (start length virt_addr access_flags : Z) bm t pd
    : option ((Z + pib_mr) * (gset Z * obj_table) * pib_pd) :=
  match umem with
  | inl e => Some (inl e, (bm, t), pd)
  | inr umem =>
      '(r, bt, pd) ← create_mr rnd alloc_ok PIB_MR_VALID false 0 bm t pd;
      match r with
      | inl _ => Some (inl (- ENOMEM), bt, pd)
      | inr mr =>
          let upd m := m <| mr_start := start |> <| mr_length := length |> <| mr_virt_addr := virt_addr |>
                         <| mr_access_flags := access_flags |> <| mr_umem := Some umem |> in
          Some (inr (upd mr), bt, pd_update_mr (mr_index (mr_lkey mr)) upd pd)
      end
  end.

Definition pib_alloc_fast_reg_mr rnd alloc_ok (max_page_list_len : Z) bm t pd :=
  '(r, bt, pd) ← create_mr rnd alloc_ok PIB_MR_FREE true max_page_list_len bm t pd;
  match r with
  | inl e => Some (inl e, bt, pd)
  | inr mr =>
      let upd m := m <| mr_start := 0 |> <| mr_length := u64 (-1) |> <| mr_virt_addr := 0 |>
                     <| mr_access_flags := 0 |> in
      Some (inr (upd mr), bt, pd_update_mr (mr_index (mr_lkey mr)) upd pd)
  end.

(** The comparison of pointers is a comparison of region numbers: live regions
    have distinct numbers. *)
Definition pib_dereg_mr (mr : pib_mr) (bm : gset Z) (t : obj_table) (pd : pib_pd)
    : Z * (gset Z * obj_table) * pib_pd :=
  let lkey := mr_index (mr_lkey mr) in
  let bt := obj_destroy PIB_BITMAP_MR_START (mr_num mr) bm t in
  match pd_mr_table pd !! lkey with
  | Some mr_comp =>
      if mr_num mr_comp =? mr_num mr
      then (0, bt, pd <| pd_mr_table ::= delete lkey |> <| pd_nr_mr ::= fun n => n - 1 |>)
      else (- ENOENT, bt, pd)
  | None => (- ENOENT, bt, pd)
  end.

(** Only the size is checked by the driver; the rest is the allocation. *)
Definition pib_alloc_fast_reg_page_list (PAGE_SIZE : Z) (alloc1_ok alloc2_ok : bool) (page_list_len : Z)
    : Z + list Z :=
  let size := u64 (page_list_len * 8) in
  if PAGE_SIZE <? size then inl (- EINVAL)
  else if negb alloc1_ok then inl (- ENOMEM)
  else if negb alloc2_ok then inl (- ENOMEM)
  else inr (replicate (Z.to_nat page_list_len) 0).

(** ** Data access *)

(** The memory, the buffer and the position of the buffer pointer in it. *)
Record copy_state := { c_mem : mem; c_buf : list Z; c_pos : Z }.
#[export] Instance eta_copy_state : Eta copy_state := fun c =>
  {| c_mem := c_mem c; c_buf := c_buf c; c_pos := c_pos c |}.

Definition buf_write (buf : list Z) (pos : Z) (bytes : list Z) : list Z :=
  take (Z.to_nat pos) buf ++ bytes ++ drop (Z.to_nat pos + length bytes) buf.
Definition buf_read (buf : list Z) (pos len : Z) : list Z :=
  take (Z.to_nat len) (drop (Z.to_nat pos) buf).

(** [None] is the [BUG()] of the default case; the result is whether the caller
    returns at once. *)
Definition mr_copy_data_sub (target_vaddr range swap compare : Z) (direction : pib_mr_direction) (c : copy_state)
    : option (bool * copy_state) :=
  match direction with
  | PIB_MR_COPY_FROM =>
      Some (false, c <| c_buf := buf_write (c_buf c) (c_pos c) (mem_read (c_mem c) target_vaddr range) |>)
  | PIB_MR_COPY_TO =>
      Some (false, c <| c_mem := mem_write (c_mem c) target_vaddr (buf_read (c_buf c) (c_pos c) range) |>)
  | PIB_MR_CAS =>
      let old := mem_read64 (c_mem c) target_vaddr in
      let m := if old =? compare then mem_write64 (c_mem c) target_vaddr swap else c_mem c in
      Some (true, c <| c_mem := m |> <| c_buf := buf_write (c_buf c) (c_pos c) (le_split 8 old) |>)
  | PIB_MR_FETCHADD =>
      let res := u64 (mem_read64 (c_mem c) target_vaddr + compare) in
      Some (true, c <| c_mem := mem_write64 (c_mem c) target_vaddr res |>
                    <| c_buf := buf_write (c_buf c) (c_pos c) (le_split 8 (u64 (res - compare))) |>)
  | PIB_MR_CHECK => None
  end.

(** The loop over pages, which is the same for pinned user pages and for the
    page list of a fast registration. *)
Fixpoint mr_page_loop (page_size swap compare : Z) (direction : pib_mr_direction) (pages : list (option Z))
    (addr offset size : Z) (c : copy_state) : option (Z * copy_state) :=
  match pages with
  | [] => Some (0, c)
  | None :: _ => Some (- EINVAL, c)
  | Some vaddr :: pages' =>
      if (addr <=? offset) && (offset <? u64 (addr + page_size)) then
        let range := Z.min (u64 (addr + page_size - offset)) size in
        let target_vaddr := vaddr + Z.land offset (page_size - 1) in
        '(stop, c) ← mr_copy_data_sub target_vaddr range swap compare direction c;
        if (stop : bool) then Some (0, c)
        else
          let offset := u64 (offset + range) in
          let c := c <| c_pos ::= Z.add range |> in
          let size := u64 (size - range) in
          if size =? 0 then Some (0, c)
          else mr_page_loop page_size swap compare direction pages' (u64 (addr + page_size)) offset size c
      else if size =? 0 then Some (0, c)
      else mr_page_loop page_size swap compare direction pages' (u64 (addr + page_size)) offset size c
  end.

(** [None]: [BUG()], or the NULL [ib_umem] of a region without user pages. *)
Definition mr_copy_data (mr : pib_mr) (offset size swap compare : Z) (direction : pib_mr_direction)
    (c : copy_state) : option (Z * copy_state) :=
  if bool_decide (mr_state mr <> PIB_MR_VALID) then Some (- EPERM, c)
  else if mr_is_dma mr then
    '(_, c) ← mr_copy_data_sub offset size swap compare direction c; Some (0, c)
  else if size =? 0 then Some (0, c)
  else
    umem ← mr_umem mr;
    let offset := u64 (offset + um_offset umem) in
    if mr_is_fast_reg_mr mr then
      mr_page_loop (Z.shiftl 1 (mr_page_shift mr)) swap compare direction
        (Some <$> take (Z.to_nat (mr_page_list_len mr)) (mr_page_list mr)) 0 offset size c
    else
      mr_page_loop (um_page_size umem) swap compare direction (um_pages umem) 0 offset size c.

(** The bounds test of every access. *)
Definition out_of_region (mr : pib_mr) (address size : Z) : bool :=
  (address <? mr_start mr) || (u64 (mr_start mr + mr_length mr) <=? address)
  || (u64 (address + size) <=? mr_start mr) || (u64 (mr_start mr + mr_length mr) <? u64 (address + size)).

(** The loop over the SGEs.  A region the range does not fit in is skipped. *)
Fixpoint mr_copy_sge_loop (pd : pib_pd) (sges : list ib_sge) (access_flags : Z) (direction : pib_mr_direction)
    (offset size : Z) (c : copy_state) : option (ib_wc_status * copy_state) :=
  match sges with
  | [] => Some (IB_WC_LOC_PROT_ERR, c)
  | sge :: sges' =>
      match pd_mr_table pd !! mr_index (sge_lkey sge) with
      | None => Some (IB_WC_LOC_PROT_ERR, c)
      | Some mr =>
          if bool_decide (mr_state mr <> PIB_MR_VALID) then Some (IB_WC_LOC_PROT_ERR, c)
          else if negb (sge_lkey sge =? mr_lkey mr) then Some (IB_WC_LOC_PROT_ERR, c)
          else if negb (Z.land (mr_access_flags mr) access_flags =? access_flags) then Some (IB_WC_LOC_PROT_ERR, c)
          else
            let range := Z.min (sge_length sge) (u64 (offset + size)) in
            let offset_tmp := offset in
            let offset :=
              if 0 <? offset then (if sge_length sge <? offset then offset - sge_length sge else 0) else offset in
            if out_of_region mr (sge_addr sge) range
            then mr_copy_sge_loop pd sges' access_flags direction offset size c
            else
              let mr_base := sge_addr sge - mr_start mr in
              if offset_tmp <? range then
                let chunk_size := range - offset_tmp in
                '(_, c') ← mr_copy_data mr (u64 (mr_base + offset_tmp)) chunk_size 0 0 direction c;
                let c' := c' <| c_pos := c_pos c + chunk_size |> in
                let size := u64 (size - chunk_size) in
                if size =? 0 then Some (IB_WC_SUCCESS, c')
                else mr_copy_sge_loop pd sges' access_flags direction offset size c'
              else if size =? 0 then Some (IB_WC_SUCCESS, c)
              else mr_copy_sge_loop pd sges' access_flags direction offset size c
      end
  end.

(** [buffer]: what the buffer holds before; returns its contents after and the
    memory after. *)
Definition pib_util_mr_copy_data (pd : pib_pd) (sge_array : list ib_sge) (m : mem) (buffer : list Z)
    (offset size access_flags : Z) (direction : pib_mr_direction) : option (ib_wc_status * list Z * mem) :=
  if PIB_MAX_PAYLOAD_LEN <? size then Some (IB_WC_LOC_LEN_ERR, buffer, m)
  else
    '(st, c) ← mr_copy_sge_loop pd sge_array access_flags direction offset size
                  {| c_mem := m; c_buf := buffer; c_pos := 0 |};
    Some (st, c_buf c, c_mem c).

Definition copy_data_with_rkey (pd : pib_pd) (rkey : Z) (m : mem) (buffer : list Z)
    (address size access_flags : Z) (direction : pib_mr_direction) (check_only : bool)
    : option (ib_wc_status * list Z * mem) :=
  let prot_err := Some (IB_WC_LOC_PROT_ERR, buffer, m) in
  if PIB_MAX_PAYLOAD_LEN <? size then Some (IB_WC_LOC_LEN_ERR, buffer, m)
  else
    match pd_mr_table pd !! mr_index rkey with
    | None => prot_err
    | Some mr =>
        if bool_decide (mr_state mr <> PIB_MR_VALID) then prot_err
        else if negb (rkey =? mr_rkey mr) then prot_err
        else if negb (Z.land (mr_access_flags mr) access_flags =? access_flags) then prot_err
        else if mr_is_dma mr then prot_err
        else if out_of_region mr address size then prot_err
        else if negb check_only then
          '(r, c) ← mr_copy_data mr (address - mr_start mr) size 0 0 direction
                      {| c_mem := m; c_buf := buffer; c_pos := 0 |};
          if negb (r =? 0) then Some (IB_WC_LOC_PROT_ERR, c_buf c, c_mem c)
          else Some (IB_WC_SUCCESS, c_buf c, c_mem c)
        else Some (IB_WC_SUCCESS, buffer, m)
    end.

Definition pib_util_mr_verify_rkey_validation (pd : pib_pd) (rkey address size access_flags : Z) (m : mem)
    : option ib_wc_status :=
  '(st, _, _) ← copy_data_with_rkey pd rkey m [] address size access_flags PIB_MR_CHECK true; Some st.

Definition pib_util_mr_copy_data_with_rkey (pd : pib_pd) (rkey : Z) (m : mem) (buffer : list Z)
    (address size access_flags : Z) (direction : pib_mr_direction) : option (ib_wc_status * list Z * mem) :=
  copy_data_with_rkey pd rkey m buffer address size access_flags direction false.

(** Returns the status, the value stored in [*result] and the memory. *)
Definition pib_util_mr_atomic (pd : pib_pd) (rkey address swap compare : Z) (result : Z)
    (direction : pib_mr_direction) (m : mem) : option (ib_wc_status * Z * mem) :=
  let prot_err := Some (IB_WC_LOC_PROT_ERR, result, m) in
  match pd_mr_table pd !! mr_index rkey with
  | None => prot_err
  | Some mr =>
      if bool_decide (mr_state mr <> PIB_MR_VALID) then prot_err
      else if negb (rkey =? mr_rkey mr) then prot_err
      else if negb (Z.land (mr_access_flags mr) IB_ACCESS_REMOTE_ATOMIC =? IB_ACCESS_REMOTE_ATOMIC) then prot_err
      else if out_of_region mr address 8 then prot_err
      else
        '(r, c) ← mr_copy_data mr (address - mr_start mr) 8 swap compare
                    (match direction with PIB_MR_FETCHADD => PIB_MR_FETCHADD | _ => PIB_MR_CAS end)
                    {| c_mem := m; c_buf := le_split 8 result; c_pos := 0 |};
        if negb (r =? 0) then Some (IB_WC_LOC_PROT_ERR, le_combine (c_buf c), c_mem c)
        else Some (IB_WC_SUCCESS, le_combine (c_buf c), c_mem c)
  end.

Definition pib_util_mr_invalidate (rkey : Z) (pd : pib_pd) : ib_wc_status * pib_pd :=
  match pd_mr_table pd !! mr_index rkey with
  | None => (IB_WC_MW_BIND_ERR, pd)
  | Some mr =>
      if bool_decide (mr_state mr = PIB_MR_INVALID) then (IB_WC_MW_BIND_ERR, pd)
      else if negb (mr_is_fast_reg_mr mr) then (IB_WC_MW_BIND_ERR, pd)
      else if negb (rkey =? mr_rkey mr) then (IB_WC_MW_BIND_ERR, pd)
      else (IB_WC_SUCCESS, pd_update_mr (mr_index rkey) (fun m => m <| mr_state := PIB_MR_FREE |>) pd)
  end.

(** [page_list] is the work request's page list, [pl_max] its capacity. *)
Definition pib_util_mr_fast_reg_pmr (rkey iova_start : Z) (page_list : list Z) (pl_max : Z)
    (page_shift page_list_len length access_flags : Z) (pd : pib_pd) : ib_wc_status * pib_pd :=
  match pd_mr_table pd !! mr_index rkey with
  | None => (IB_WC_MW_BIND_ERR, pd)
  | Some mr =>
      if bool_decide (mr_state mr = PIB_MR_INVALID) || bool_decide (mr_state mr = PIB_MR_VALID)
      then (IB_WC_MW_BIND_ERR, pd)
      else if negb (mr_is_fast_reg_mr mr) then (IB_WC_MW_BIND_ERR, pd)
      else if negb (rkey =? mr_rkey mr) then (IB_WC_MW_BIND_ERR, pd)
      else if mr_max_page_list_len mr <? page_list_len then (IB_WC_MW_BIND_ERR, pd)
      else if pl_max <? page_list_len then (IB_WC_MW_BIND_ERR, pd)
      else if u64 (Z.shiftl 1 page_shift * page_list_len) <? length then (IB_WC_MW_BIND_ERR, pd)
      else
        (IB_WC_SUCCESS,
         pd_update_mr (mr_index rkey)
           (fun m => m <| mr_start := iova_start |> <| mr_virt_addr := iova_start |> <| mr_length := length |>
              <| mr_access_flags := access_flags |> <| mr_page_list_len := page_list_len |>
              <| mr_page_shift := page_shift |>
              <| mr_page_list ::= fun l => take (Z.to_nat page_list_len) page_list
                                           ++ drop (Z.to_nat page_list_len) l |>) pd)
  end.

(** ** Keys *)

Lemma mr_index_mod key : 0 <= key -> mr_index key = (key / 2 ^ 8) mod 2 ^ 12.
Proof.
  intros. unfold mr_index. change PIB_MR_INDEX_MASK with (Z.shiftl (Z.ones 12) 8).
  change PIB_MR_INDEX_SHIFT with 8. rewrite Z.shiftr_land, Z.shiftr_shiftl_l by lia.
  rewrite Z.sub_diag, Z.shiftl_0_r, Z.shiftr_div_pow2, Z.land_ones by lia. done.
Qed.

Lemma make_key_range i r : 0 <= make_key i r < 2 ^ 32.
Proof. unfold make_key, u32. apply wrap_range. lia. Qed.

(** The index field of a generated key is the slot it was generated for. *)
Lemma mr_index_make_key i r : 0 <= i < PIB_MAX_MR_PER_PD -> mr_index (make_key i r) = i.
Proof.
  change PIB_MAX_MR_PER_PD with (2 ^ 12). intros Hi.
  rewrite mr_index_mod by (pose proof (make_key_range i r); lia).
  unfold make_key, u32, wrap. change PIB_MAX_MR_PER_PD with (2 ^ 12). change PIB_MR_INDEX_SHIFT with 8.
  rewrite Z.add_mod_idemp_r by lia. rewrite Z.shiftl_mul_pow2 by lia.
  set (x := i + r * 2 ^ 12).
  replace ((x mod 2 ^ 32 * 2 ^ 8) mod 2 ^ 32) with ((x mod 2 ^ 24) * 2 ^ 8).
  - rewrite Z.div_mul by lia. rewrite mod_mod_pow by lia. unfold x.
    rewrite Z.mod_add by lia. by apply Z.mod_small.
  - rewrite Z.mul_mod_idemp_l by lia. change (2 ^ 32) with (2 ^ 24 * 2 ^ 8).
    rewrite Z.mul_mod_distr_r by lia. done.
Qed.

Lemma find_slot_spec table n : forall i,
  match find_slot table i n with
  | Some k => i <= k < i + Z.of_nat n /\ table !! k = None
  | None => forall k, i <= k < i + Z.of_nat n -> is_Some (table !! k)
  end.
Proof.
  induction n as [|n IH]; intros i; simpl; [lia|].
  destruct (table !! i) as [x|] eqn:E; [|split; [lia|done]].
  specialize (IH (i + 1)). destruct (find_slot table (i + 1) n) as [k|].
  - destruct IH. split; [lia|done].
  - intros k Hk. destruct (decide (k = i)) as [->|]; [eauto|]. apply IH. lia.
Qed.

Lemma generate_new_key_spec i rnd : forall lkey rkey,
  0 <= i < PIB_MAX_MR_PER_PD -> generate_new_key i rnd = Some (lkey, rkey) ->
  mr_index lkey = i /\ mr_index rkey = i /\ lkey <> PIB_LOCAL_DMA_LKEY /\ lkey <> PIB_IMM_DATA_LKEY.
Proof.
  induction rnd as [rnd IH] using (induction_ltof1 _ (@length Z)); unfold ltof in IH.
  intros lkey rkey Hi. destruct rnd as [|r1 [|r2 rnd]]; simpl; [done..|].
  destruct (_ || _) eqn:E; intros H.
  - apply (IH rnd); [simpl; lia|done|done].
  - simplify_eq. bools. by rewrite !mr_index_make_key.
Qed.

(** The table invariant: a region is in the slot both of its keys name, and the
    count is the number of regions. *)
Definition pd_inv (pd : pib_pd) : Prop :=
  pd_nr_mr pd = Z.of_nat (size (pd_mr_table pd))
  /\ map_Forall (fun i mr => 0 <= i < PIB_MAX_MR_PER_PD /\ mr_index (mr_lkey mr) = i /\ mr_index (mr_rkey mr) = i)
       (pd_mr_table pd).

Lemma reg_mr_spec rnd mr pd mr' pd' :
  pd_inv pd -> reg_mr rnd mr pd = Some (inr (mr', pd')) ->
  exists i, pd_mr_table pd !! i = None /\ pd_mr_table pd' = <[i := mr']> (pd_mr_table pd) /\ pd_inv pd'
    /\ mr_index (mr_lkey mr') = i /\ mr_index (mr_rkey mr') = i
    /\ mr_lkey mr' <> PIB_LOCAL_DMA_LKEY /\ mr_lkey mr' <> PIB_IMM_DATA_LKEY
    /\ mr_is_fast_reg_mr mr' = mr_is_fast_reg_mr mr.
Proof.
  intros [Hn Ht]. unfold reg_mr.
  pose proof (find_slot_spec (pd_mr_table pd) (Z.to_nat PIB_MAX_MR_PER_PD) 0) as Hs.
  destruct (find_slot _ _ _) as [i|]; [|done]. destruct Hs as [Hi Hnone].
  assert (0 <= i < PIB_MAX_MR_PER_PD) as Hi' by (unfold PIB_MAX_MR_PER_PD in *; lia).
  destruct (generate_new_key i rnd) as [[lkey rkey]|] eqn:Eg; [|done]. simpl. intros [= <- <-].
  destruct (generate_new_key_spec i rnd lkey rkey Hi' Eg) as (? & ? & ? & ?).
  exists i. simpl. split_and!; try done. split; simpl.
  - rewrite map_size_insert_None by done. lia.
  - apply map_Forall_insert_2; [|done]. simpl. done.
Qed.

Lemma pd_update_inv i f pd :
  (forall m, mr_lkey (f m) = mr_lkey m /\ mr_rkey (f m) = mr_rkey m) -> pd_inv pd -> pd_inv (pd_update_mr i f pd).
Proof.
  intros Hf [Hn Ht]. unfold pd_inv, pd_update_mr; simpl. split.
  - rewrite Hn. f_equal. rewrite <- !size_dom. by rewrite dom_alter_L.
  - intros k m. rewrite lookup_alter_Some.
    intros [(<- & m' & Hm' & ->)|[? Hm]]; [destruct (Hf m') as [-> ->]|]; by apply Ht.
Qed.

Lemma create_mr_spec rnd ok st fast n bm t pd r bt pd' :
  pd_inv pd -> create_mr rnd ok st fast n bm t pd = Some (r, bt, pd') ->
  pd_inv pd' /\
  match r with
  | inl _ => pd' = pd
  | inr mr => exists i, mr_index (mr_lkey mr) = i /\ mr_index (mr_rkey mr) = i
      /\ pd_mr_table pd !! i = None /\ pd_mr_table pd' = <[i := mr]> (pd_mr_table pd)
      /\ mr_state mr = st /\ mr_is_fast_reg_mr mr = false
      /\ mr_lkey mr <> PIB_LOCAL_DMA_LKEY /\ mr_lkey mr <> PIB_IMM_DATA_LKEY
  end.
Proof.
  intros Hinv. unfold create_mr. destruct ok; simpl; [|intros [= <- <- <-]; done].
  destruct (obj_create _ _ bm t) as [[k|] [bm' t']]; [|intros [= <- <- <-]; done].
  match goal with |- context [reg_mr rnd ?m pd] => set (mr0 := m) end.
  destruct (reg_mr rnd mr0 pd) as [[?|[mr1 pd1]]|] eqn:Er; simpl; [intros [= <- <- <-]; done| |done].
  intros [= <- <- <-].
  apply reg_mr_spec in Er as (i & Hnone & Htab & Hinv' & Hl & Hr & ? & ? & ?); [|done].
  split; [by apply pd_update_inv|]. exists i. simpl. rewrite Htab, Hl.
  split_and!; try done. by rewrite alter_insert_eq.
Qed.

Lemma pib_dereg_mr_spec mr bm t pd :
  pd_inv pd ->
  let '(r, bt, pd') := pib_dereg_mr mr bm t pd in
  pd_inv pd' /\ (r = 0 -> pd_mr_table pd' = delete (mr_index (mr_lkey mr)) (pd_mr_table pd)) /\ (r <> 0 -> pd' = pd).
Proof.
  intros [Hn Ht]. unfold pib_dereg_mr. destruct (pd_mr_table pd !! _) as [m|] eqn:E; [|done].
  destruct (_ =? _); [|done]. simpl. split_and!; [|done|done]. split; simpl.
  - rewrite map_size_delete_Some by done. assert (size (pd_mr_table pd) <> 0%nat); [|lia].
    rewrite map_size_non_empty_iff. intros H. by rewrite H, lookup_empty in E.
  - by apply map_Forall_delete.
Qed.

(** ** Memory *)

(** Equality of memories is pointwise; stores respect it. *)
#[export] Instance mem_equiv : Equiv mem := fun m1 m2 => forall x, m1 x = m2 x.
#[export] Instance mem_equiv_equivalence : Equivalence (≡@{mem}).
Proof. split; [by intros ??|by intros ????|by intros m1 m2 m3 H1 H2 x; rewrite H1]. Qed.

Definition mem_store1 (m : mem) (p : Z * Z) : mem := fun x => if x =? fst p then snd p else m x.
Definition mem_store (m : mem) (l : list (Z * Z)) : mem := fold_left mem_store1 l m.

#[export] Instance mem_store_proper : Proper ((≡) ==> (=) ==> (≡)) mem_store.
Proof.
  intros m1 m2 Hm l ? <-. revert m1 m2 Hm. induction l as [|[a v] l IH]; intros m1 m2 Hm; [done|].
  simpl. apply IH. intros x. unfold mem_store1. simpl. by destruct (x =? a).
Qed.

Lemma mem_store_app m l k : mem_store m (l ++ k) = mem_store (mem_store m l) k.
Proof. apply fold_left_app. Qed.

Lemma mem_store_other m l x : x ∉ l.*1 -> mem_store m l x = m x.
Proof.
  revert m. induction l as [|[a v] l IH]; intros m Hx; [done|]. simpl in *.
  apply not_elem_of_cons in Hx as [? ?]. rewrite IH by done. unfold mem_store1. simpl.
  by rewrite (proj2 (Z.eqb_neq _ _)).
Qed.

Lemma mem_store_zip m addrs bytes :
  NoDup addrs -> length addrs = length bytes -> mem_store m (zip addrs bytes) <$> addrs = bytes.
Proof.
  intros Hd. revert m bytes. induction Hd as [|a addrs Ha Hd IH]; intros m bytes; destruct bytes as [|b bytes];
    [done..|]. simpl. intros [= Hlen]. f_equal; [|by apply IH].
  rewrite mem_store_other; [unfold mem_store1; simpl; by rewrite Z.eqb_refl|].
  rewrite fst_zip by lia. done.
Qed.

Lemma length_mem_read m a len : length (mem_read m a len) = Z.to_nat len.
Proof. unfold mem_read. by rewrite length_fmap, length_seqZ. Qed.

Lemma mem_write_store m a bytes : mem_write m a bytes ≡ mem_store m (zip (seqZ a (Zlen bytes)) bytes).
Proof.
  revert m a. induction bytes as [|b bytes IH]; intros m a x.
  { unfold mem_write. rewrite Zlen_nil. destruct (_ && _) eqn:E; [bools; lia|done]. }
  rewrite seqZ_cons by (rewrite Zlen_cons; pose proof (Zlen_nonneg bytes); lia). simpl.
  replace (Z.pred (Zlen (b :: bytes))) with (Zlen bytes) by (rewrite Zlen_cons; lia).
  rewrite <- Z.add_1_r, <- (IH _ _ x). unfold mem_write, mem_store1; simpl. rewrite Zlen_cons.
  pose proof (Zlen_nonneg bytes).
  destruct (Z.leb_spec a x), (Z.leb_spec (a + 1) x); simpl; try lia.
  - replace (x <? a + (Zlen bytes + 1)) with (x <? a + 1 + Zlen bytes) by (f_equal; lia).
    destruct (x <? a + 1 + Zlen bytes); simpl.
    + replace (Z.to_nat (x - a)) with (S (Z.to_nat (x - (a + 1)))) by lia. done.
    + by rewrite (proj2 (Z.eqb_neq _ _)) by lia.
  - assert (x = a) as -> by lia. rewrite (proj2 (Z.ltb_lt _ _)) by lia. simpl.
    by rewrite Z.sub_diag, Z.eqb_refl.
  - by rewrite (proj2 (Z.eqb_neq _ _)) by lia.
Qed.

Lemma le_combine_split n v : le_combine (le_split n v) = v mod 2 ^ (8 * Z.of_nat n).
Proof.
  revert v. induction n as [|n IH]; intros v; [by rewrite Z.mod_1_r|].
  cbn [le_split le_combine]. rewrite IH.
  replace (8 * Z.of_nat (S n)) with (8 + 8 * Z.of_nat n) by lia.
  rewrite Z.pow_add_r by lia. change (2 ^ 8) with 256. rewrite Z.rem_mul_r by lia. lia.
Qed.

Lemma length_le_split n v : length (le_split n v) = n.
Proof. revert v. induction n; intros; simpl; auto. Qed.

Lemma mem_read_write64 m a v : mem_read64 (mem_write64 m a v) a = u64 v.
Proof.
  unfold mem_read64, mem_write64, u64, wrap.
  replace (mem_read (mem_write m a (le_split 8 v)) a 8) with (le_split 8 v); [by rewrite le_combine_split|].
  unfold mem_read. pose proof (length_le_split 8 v) as Hl.
  rewrite <- (mem_store_zip m (seqZ a 8) (le_split 8 v)) at 1 by (rewrite ?length_seqZ, ?Hl; done || apply NoDup_seqZ).
  apply list_fmap_ext. intros i x _. rewrite (mem_write_store m a (le_split 8 v) x).
  unfold Zlen. by rewrite Hl.
Qed.

(** ** Transfers *)

Lemma buf_write_app buf pos l k :
  0 <= pos -> pos + Zlen l <= Zlen buf ->
  buf_write (buf_write buf pos l) (pos + Zlen l) k = buf_write buf pos (l ++ k).
Proof.
  intros Hp Hl. unfold buf_write, Zlen in *.
  set (A := take (Z.to_nat pos) buf).
  assert (length A = Z.to_nat pos) as HA by (unfold A; rewrite length_take; lia).
  replace (Z.to_nat (pos + Z.of_nat (length l))) with (length (A ++ l)) by (rewrite length_app; lia).
  rewrite (app_assoc A l), take_app_length. rewrite <- !app_assoc. do 3 f_equal.
  rewrite (app_assoc A l), drop_app, drop_ge by lia. simpl. rewrite drop_drop, !length_app. f_equal. lia.
Qed.

Lemma Zlen_buf_write buf pos l : 0 <= pos -> pos + Zlen l <= Zlen buf -> Zlen (buf_write buf pos l) = Zlen buf.
Proof. intros. unfold buf_write. zlen. unfold Zlen in *. lia. Qed.

Lemma buf_read_app buf pos a b : 0 <= pos -> 0 <= a -> 0 <= b ->
  buf_read buf pos (a + b) = buf_read buf pos a ++ buf_read buf (pos + a) b.
Proof.
  intros. unfold buf_read. rewrite !Z2Nat.inj_add by lia. rewrite <- drop_drop.
  by rewrite <- take_take_drop.
Qed.

Lemma Zlen_buf_read buf pos len : 0 <= pos -> 0 <= len -> pos + len <= Zlen buf -> Zlen (buf_read buf pos len) = len.
Proof. intros. unfold buf_read. zlen. Qed.

(** [copied dir addrs c c']: the bytes at [addrs] were moved, in order, between
    memory and the buffer at its current position. *)
Definition copied (dir : pib_mr_direction) (addrs : list Z) (c c' : copy_state) : Prop :=
  match dir with
  | PIB_MR_COPY_FROM => c_mem c' = c_mem c /\ c_buf c' = buf_write (c_buf c) (c_pos c) (c_mem c <$> addrs)
  | PIB_MR_COPY_TO =>
      c_buf c' = c_buf c
      /\ c_mem c' ≡ mem_store (c_mem c) (zip addrs (buf_read (c_buf c) (c_pos c) (Zlen addrs)))
  | _ => False
  end.

Definition buf_room (n : Z) (c : copy_state) : Prop := 0 <= c_pos c /\ c_pos c + n <= Zlen (c_buf c).

Lemma copied_app dir a1 a2 c c1 c2 :
  buf_room (Zlen a1 + Zlen a2) c -> c_pos c1 = c_pos c + Zlen a1 ->
  copied dir a1 c c1 -> copied dir a2 c1 c2 -> copied dir (a1 ++ a2) c c2.
Proof.
  intros [Hp Hr] Hpos. pose proof (Zlen_nonneg a1). pose proof (Zlen_nonneg a2). destruct dir; simpl; try done.
  - intros [Hm1 Hb1] [Hm2 Hb2]. split; [congruence|]. rewrite Hb2, Hb1, Hm1, Hpos, fmap_app.
    rewrite <- (Zlen_fmap (c_mem c) a1). rewrite buf_write_app; [done|lia|]. zlen.
  - intros [Hb1 Hm1] [Hb2 Hm2]. split; [congruence|]. rewrite Hm2, Hm1, Hb1, Hpos, Zlen_app.
    rewrite buf_read_app by lia. rewrite zip_with_app, mem_store_app; [done|].
    pose proof (Zlen_buf_read (c_buf c) (c_pos c) (Zlen a1)). unfold Zlen in *. lia.
Qed.

Lemma copied_nil dir c : (dir = PIB_MR_COPY_FROM \/ dir = PIB_MR_COPY_TO) -> copied dir [] c c.
Proof.
  intros [->| ->]; simpl; [|done]. split; [done|]. unfold buf_write. simpl.
  rewrite Nat.add_0_r. by rewrite take_drop.
Qed.

Lemma copied_room dir a n c c1 :
  buf_room n c -> Zlen a <= n -> c_pos c1 = c_pos c + Zlen a -> copied dir a c c1 -> buf_room (n - Zlen a) c1.
Proof.
  intros [Hp Hr] Ha Hpos Hc. pose proof (Zlen_nonneg a). unfold buf_room. rewrite Hpos.
  destruct dir; simpl in Hc; try done; destruct Hc as [H1 H2].
  - rewrite H2, Zlen_buf_write by (zlen). lia.
  - rewrite H1. lia.
Qed.

(** The routine that moves one range. *)
Lemma mr_copy_data_sub_copied dir target range swap compare c :
  dir = PIB_MR_COPY_FROM \/ dir = PIB_MR_COPY_TO -> 0 <= range -> buf_room range c ->
  exists c', mr_copy_data_sub target range swap compare dir c = Some (false, c')
    /\ copied dir (seqZ target range) c c' /\ c_pos c' = c_pos c.
Proof.
  intros Hd Hr [Hp Hroom].
  assert (Zlen (seqZ target range) = range) as Hl by (unfold Zlen; rewrite length_seqZ; lia).
  destruct Hd as [-> | ->]; simpl; eexists; split_and!; try done; simpl.
  rewrite mem_write_store, Hl, Zlen_buf_read by lia. done.
Qed.

(** ** The page loop *)

(** The kernel address of a byte of a region given by its offset in the pages. *)
Definition page_addr (pages : list (option Z)) (psize rel : Z) : Z :=
  default 0 (mjoin (pages !! Z.to_nat (rel / psize))) + rel mod psize.
Definition page_addrs (pages : list (option Z)) (psize rel size : Z) : list Z :=
  page_addr pages psize <$> seqZ rel size.

Lemma Zlen_page_addrs pages psize rel size : 0 <= size -> Zlen (page_addrs pages psize rel size) = size.
Proof. intros. unfold page_addrs, Zlen. rewrite length_fmap, length_seqZ. lia. Qed.

Lemma page_addrs_app pages psize rel a b : 0 <= a -> 0 <= b ->
  page_addrs pages psize rel (a + b) = page_addrs pages psize rel a ++ page_addrs pages psize (rel + a) b.
Proof. intros. unfold page_addrs. by rewrite seqZ_app, fmap_app. Qed.

Lemma page_addrs_first v pages psize rel size :
  0 <= rel -> rel + size <= psize -> page_addrs (Some v :: pages) psize rel size = seqZ (v + rel) size.
Proof.
  intros Hr Hs. unfold page_addrs. rewrite <- fmap_add_seqZ. apply list_fmap_ext.
  intros i x [-> Hi]%lookup_seqZ. unfold page_addr.
  rewrite Z.div_small, Z.mod_small by lia. done.
Qed.

Lemma page_addrs_next p pages psize rel size :
  0 < psize -> psize <= rel -> page_addrs (p :: pages) psize rel size = page_addrs pages psize (rel - psize) size.
Proof.
  intros Hp Hr. unfold page_addrs. replace rel with (psize + (rel - psize)) at 1 by lia.
  rewrite <- fmap_add_seqZ, <- list_fmap_compose. apply list_fmap_ext.
  intros i x [-> Hi]%lookup_seqZ. unfold page_addr, compose.
  set (y := rel - psize + Z.of_nat i). replace (psize + y) with (y + 1 * psize) by lia.
  rewrite Z.div_add, Z.mod_add by lia.
  assert (0 <= y / psize) by (apply Z.div_pos; lia). by rewrite Z2Nat.inj_add, Nat.add_comm by lia.
Qed.

Section PageLoop.
Context (k : Z) (swap compare : Z) (dir : pib_mr_direction).
Context (Hk : 0 <= k) (Hdir : dir = PIB_MR_COPY_FROM \/ dir = PIB_MR_COPY_TO).
Abbreviation psize := (2 ^ k).

Lemma page_loop_target addr offset : (psize | addr) -> addr <= offset < addr + psize ->
  Z.land offset (psize - 1) = offset - addr.
Proof.
  intros [q ->] Ho. replace (psize - 1) with (Z.ones k) by (rewrite Z.ones_equiv; lia).
  rewrite Z.land_ones by done. symmetry. apply (Z.mod_unique_pos _ _ q); lia.
Qed.

Lemma mr_page_loop_copied pages : forall addr offset size c,
  Forall is_Some pages -> (psize | addr) -> 0 <= addr <= offset ->
  addr + Zlen pages * psize < 2 ^ 64 -> offset + size <= addr + Zlen pages * psize ->
  0 < size -> buf_room size c ->
  exists c', mr_page_loop psize swap compare dir pages addr offset size c = Some (0, c')
    /\ copied dir (page_addrs pages psize (offset - addr) size) c c'.
Proof.
  pose proof (pow2_pos k Hk) as Hps.
  induction pages as [|p pages IH]; intros addr offset size c Hall Hdiv Ho Hmax Hend Hsz Hroom.
  { unfold Zlen in Hend; simpl in Hend. lia. }
  apply Forall_cons in Hall as [[v ->] Hall]. rewrite Zlen_cons in *. pose proof (Zlen_nonneg pages).
  assert (u64 (addr + psize) = addr + psize) as Hnext by (apply wrap_small; nia).
  assert ((psize | addr + psize)) as Hdiv' by (apply Z.divide_add_r; [done|apply Z.divide_refl]).
  simpl. rewrite Hnext, (proj2 (Z.leb_le addr offset)) by lia. simpl.
  destruct (Z.ltb_spec offset (addr + psize)) as [Hin|Hout].
  - assert (u64 (addr + psize - offset) = addr + psize - offset) as -> by (apply wrap_small; lia).
    set (range := Z.min (addr + psize - offset) size). assert (0 < range <= size) by lia.
    rewrite (page_loop_target addr offset) by (done || lia).
    destruct (mr_copy_data_sub_copied dir (v + (offset - addr)) range swap compare c) as (c1 & -> & Hc1 & Hp1);
      [done|lia|destruct Hroom; split; lia|]. simpl.
    assert (u64 (offset + range) = offset + range) as -> by (apply wrap_small; nia).
    assert (u64 (size - range) = size - range) as -> by (apply wrap_small; nia).
    set (c1' := c1 <| c_pos ::= Z.add range |>).
    assert (copied dir (seqZ (v + (offset - addr)) range) c c1') as Hc1' by (by destruct dir).
    assert (Zlen (seqZ (v + (offset - addr)) range) = range) as Hl by (unfold Zlen; rewrite length_seqZ; lia).
    assert (page_addrs (Some v :: pages) psize (offset - addr) range = seqZ (v + (offset - addr)) range) as Hfirst
      by (apply page_addrs_first; lia).
    destruct (Z.eqb_spec (size - range) 0) as [Hz|Hz].
    + exists c1'. split; [done|]. replace size with range by lia. by rewrite Hfirst.
    + assert (c_pos c1' = c_pos c + Zlen (seqZ (v + (offset - addr)) range)) as Hpos by (simpl; lia).
      destruct (IH (addr + psize) (offset + range) (size - range) c1') as (c2 & E2 & Hc2); try done; try lia.
      { rewrite <- Hl at 1. apply (copied_room dir _ size c); try done; lia. }
      exists c2. split; [done|]. replace size with (range + (size - range)) by lia.
      rewrite page_addrs_app by lia. apply (copied_app dir _ _ c c1' c2); [|by rewrite Hfirst|by rewrite Hfirst|].
      * rewrite !Zlen_page_addrs by lia. destruct Hroom. split; lia.
      * rewrite page_addrs_next by lia.
        replace (offset - addr + range - psize) with (offset + range - (addr + psize)) by lia. done.
  - rewrite (proj2 (Z.eqb_neq size 0)) by lia.
    destruct (IH (addr + psize) offset size c) as (c2 & E2 & Hc2); try done; try lia.
    exists c2. split; [done|]. rewrite page_addrs_next by lia.
    replace (offset - addr - psize) with (offset - (addr + psize)) by lia. done.
Qed.
End PageLoop.

(** ** Regions *)

(** The regions the verbs create: DMA regions over all memory, and user regions
    whose pinned pages cover the registered range. *)
Definition mr_wf (mr : pib_mr) : Prop :=
  0 <= mr_start mr /\ 0 <= mr_length mr /\ mr_start mr + mr_length mr < 2 ^ 64 /\
  if mr_is_dma mr then mr_start mr = 0
  else mr_is_fast_reg_mr mr = false /\
       match mr_umem mr with
       | None => False
       | Some um => exists k, 0 <= k /\ um_page_size um = 2 ^ k /\ Forall is_Some (um_pages um)
           /\ 0 <= um_offset um /\ um_offset um + mr_length mr <= Zlen (um_pages um) * 2 ^ k
           /\ Zlen (um_pages um) * 2 ^ k < 2 ^ 63
       end.

(** The kernel addresses of [len] bytes from offset [off] of a region. *)
Definition mr_addrs (mr : pib_mr) (off len : Z) : list Z :=
  if mr_is_dma mr then seqZ off len
  else match mr_umem mr with
       | Some um => page_addrs (um_pages um) (um_page_size um) (um_offset um + off) len
       | None => []
       end.

Lemma Zlen_mr_addrs mr off len : mr_wf mr -> 0 <= len -> Zlen (mr_addrs mr off len) = len.
Proof.
  intros (_ & _ & _ & Hw) Hl. unfold mr_addrs. destruct (mr_is_dma mr).
  - unfold Zlen. rewrite length_seqZ. lia.
  - destruct Hw as [_ Hw]. destruct (mr_umem mr); [|done]. by apply Zlen_page_addrs.
Qed.

Lemma mr_addrs_app mr off a b : 0 <= a -> 0 <= b ->
  mr_addrs mr off (a + b) = mr_addrs mr off a ++ mr_addrs mr (off + a) b.
Proof.
  intros. unfold mr_addrs. destruct (mr_is_dma mr); [by apply seqZ_app|].
  destruct (mr_umem mr); [|done]. rewrite page_addrs_app by done. by rewrite Z.add_assoc.
Qed.

Lemma mr_copy_data_copied mr off size dir c :
  mr_wf mr -> mr_state mr = PIB_MR_VALID -> dir = PIB_MR_COPY_FROM \/ dir = PIB_MR_COPY_TO ->
  0 <= off -> 0 < size -> off + size <= mr_length mr -> buf_room size c ->
  exists c', mr_copy_data mr off size 0 0 dir c = Some (0, c') /\ copied dir (mr_addrs mr off size) c c'.
Proof.
  intros (Hs & Hl & Hmax & Hw) Hst Hdir Ho Hsz Hend Hroom. unfold mr_copy_data, mr_addrs.
  rewrite bool_decide_eq_false_2 by naive_solver. destruct (mr_is_dma mr) eqn:Edma.
  - destruct (mr_copy_data_sub_copied dir off size 0 0 c) as (c' & -> & Hc & _); [done|lia|done|].
    simpl. eauto.
  - destruct Hw as [-> Hw]. rewrite (proj2 (Z.eqb_neq size 0)) by lia.
    destruct (mr_umem mr) as [um|]; [|done]. destruct Hw as (k & Hk & Hps & Hall & Hum & Hcov & Hpm). simpl. rewrite Hps.
    assert (u64 (off + um_offset um) = um_offset um + off) as -> by (unfold u64; rewrite wrap_small; lia).
    destruct (mr_page_loop_copied k 0 0 dir Hk Hdir (um_pages um) 0 (um_offset um + off) size c)
      as (c' & E & Hc); try done; try lia; [apply Z.divide_0_r|].
    rewrite Z.sub_0_r in Hc. eauto.
Qed.

Lemma out_of_region_false mr address size :
  mr_wf mr -> 0 < size -> mr_start mr <= address -> address + size <= mr_start mr + mr_length mr ->
  out_of_region mr address size = false.
Proof.
  intros (? & ? & ? & _) ? ? ?. unfold out_of_region.
  assert (u64 (mr_start mr + mr_length mr) = mr_start mr + mr_length mr) as -> by (apply wrap_small; lia).
  assert (u64 (address + size) = address + size) as -> by (apply wrap_small; lia).
  rewrite !orb_false_iff, !Z.ltb_ge, !Z.leb_gt. lia.
Qed.

Lemma out_of_region_inv mr address size :
  mr_wf mr -> mr_is_dma mr = false -> 0 <= address < 2 ^ 64 -> 0 <= size <= PIB_MAX_PAYLOAD_LEN ->
  out_of_region mr address size = false ->
  mr_start mr <= address /\ address + size <= mr_start mr + mr_length mr.
Proof.
  intros (? & ? & ? & Hw) Hdma ? Hsz. rewrite Hdma in Hw. destruct Hw as [_ Hw].
  destruct (mr_umem mr) as [um|]; [|done]. destruct Hw as (k & _ & _ & _ & ? & ? & ?). unfold out_of_region.
  assert (u64 (mr_start mr + mr_length mr) = mr_start mr + mr_length mr) as -> by (apply wrap_small; lia).
  intros H'. bools. change PIB_MAX_PAYLOAD_LEN with (2 ^ 30) in *.
  assert (address + size < 2 ^ 64 \/ 2 ^ 64 <= address + size) as [Hc|Hc] by lia.
  - assert (u64 (address + size) = address + size) as E by (apply wrap_small; lia). rewrite E in *. lia.
  - assert (u64 (address + size) = address + size - 2 ^ 64) as E.
    { unfold u64, wrap. symmetry. apply (Z.mod_unique_pos _ _ 1); lia. }
    rewrite E in *. lia.
Qed.

(** ** Scatter and gather *)

(** An SGE that lies in a valid region whose key and permissions match. *)
Definition sge_ok (pd : pib_pd) (flags : Z) (sge : ib_sge) : Prop :=
  0 <= sge_length sge /\
  match pd_mr_table pd !! mr_index (sge_lkey sge) with
  | None => False
  | Some mr => mr_wf mr /\ mr_state mr = PIB_MR_VALID /\ sge_lkey sge = mr_lkey mr
      /\ Z.land (mr_access_flags mr) flags = flags
      /\ mr_start mr <= sge_addr sge /\ sge_addr sge + sge_length sge <= mr_start mr + mr_length mr
  end.

(** The kernel addresses of the bytes of an SGE, and of a list of them. *)
Definition sge_addrs (pd : pib_pd) (sge : ib_sge) : list Z :=
  match pd_mr_table pd !! mr_index (sge_lkey sge) with
  | Some mr => mr_addrs mr (sge_addr sge - mr_start mr) (sge_length sge)
  | None => []
  end.
Definition sgl_addrs (pd : pib_pd) (sges : list ib_sge) : list Z := concat (sge_addrs pd <$> sges).
Definition sgl_length (sges : list ib_sge) : Z := fold_right (fun sge acc => sge_length sge + acc) 0 sges.

(** [size] bytes of a list from [offset]. *)
Definition slice {A} (offset size : Z) (l : list A) : list A := take (Z.to_nat size) (drop (Z.to_nat offset) l).

Lemma NoDup_slice {A} offset size (l : list A) : NoDup l -> NoDup (slice offset size l).
Proof.
  intros H. apply (sublist_NoDup _ l); [done|]. unfold slice.
  transitivity (drop (Z.to_nat offset) l); [apply sublist_take|apply sublist_drop].
Qed.

Lemma slice_skip {A} offset size (l k : list A) :
  Zlen l <= offset -> slice offset size (l ++ k) = slice (offset - Zlen l) size k.
Proof.
  intros H. unfold slice. rewrite drop_app, drop_ge by (unfold Zlen in *; lia). simpl. do 2 f_equal.
  unfold Zlen in *. lia.
Qed.

Lemma slice_inside {A} offset size (l k : list A) :
  0 <= offset -> 0 <= size -> offset + size <= Zlen l -> slice offset size (l ++ k) = slice offset size l.
Proof.
  intros. unfold slice. rewrite drop_app_le by (unfold Zlen in *; lia).
  apply take_app_le. rewrite length_drop. unfold Zlen in *. lia.
Qed.

Lemma slice_across {A} offset size (l k : list A) :
  0 <= offset <= Zlen l -> Zlen l < offset + size ->
  slice offset size (l ++ k) = slice offset (Zlen l - offset) l ++ slice 0 (size - (Zlen l - offset)) k.
Proof.
  intros. unfold slice. rewrite drop_app_le by (unfold Zlen in *; lia).
  rewrite (take_ge (drop _ l)) by (rewrite length_drop; unfold Zlen in *; lia).
  rewrite take_app_ge by (rewrite length_drop; unfold Zlen in *; lia). rewrite drop_0.
  do 2 f_equal. rewrite length_drop. unfold Zlen in *. lia.
Qed.

Lemma slice_mr_addrs mr off len o s :
  mr_wf mr -> 0 <= o -> 0 <= s -> o + s <= len -> slice o s (mr_addrs mr off len) = mr_addrs mr (off + o) s.
Proof.
  intros Hw ? ? ?. replace len with (o + (s + (len - o - s))) by lia.
  rewrite !mr_addrs_app by lia. rewrite slice_skip by (rewrite Zlen_mr_addrs; done || lia).
  rewrite Zlen_mr_addrs by (done || lia). rewrite Z.sub_diag.
  rewrite slice_inside by (rewrite ?Zlen_mr_addrs; done || lia).
  unfold slice. rewrite drop_0. apply take_ge.
  pose proof (Zlen_mr_addrs mr (off + o) s Hw). unfold Zlen in *. lia.
Qed.

Section Gather.
Context (pd : pib_pd) (flags : Z) (dir : pib_mr_direction).
Context (Hdir : dir = PIB_MR_COPY_FROM \/ dir = PIB_MR_COPY_TO).

Lemma Zlen_sge_addrs sge : sge_ok pd flags sge -> Zlen (sge_addrs pd sge) = sge_length sge.
Proof.
  unfold sge_ok, sge_addrs. intros [Hl H]. destruct (_ !! _) as [mr|]; [|done].
  apply Zlen_mr_addrs; [apply H|done].
Qed.

Lemma Zlen_sgl_addrs sges : Forall (sge_ok pd flags) sges -> Zlen (sgl_addrs pd sges) = sgl_length sges.
Proof.
  induction 1 as [|sge sges Hs Hok IH]; [done|]. unfold sgl_addrs in *. simpl.
  rewrite Zlen_app. cbn in IH. rewrite <- IH. by rewrite Zlen_sge_addrs.
Qed.

(** One SGE that contributes bytes: the chunk is moved. *)
Lemma sge_chunk_copied sge mr o chunk c :
  sge_ok pd flags sge -> pd_mr_table pd !! mr_index (sge_lkey sge) = Some mr ->
  0 <= o -> 0 < chunk -> o + chunk <= sge_length sge -> buf_room chunk c ->
  out_of_region mr (sge_addr sge) (o + chunk) = false /\
  exists c', mr_copy_data mr (u64 (sge_addr sge - mr_start mr + o)) chunk 0 0 dir c = Some (0, c')
    /\ copied dir (slice o chunk (sge_addrs pd sge)) c c'.
Proof.
  unfold sge_ok, sge_addrs. intros [Hl H] E Ho Hc Hle Hroom. rewrite E in *.
  destruct H as (Hw & Hst & _ & _ & Hs & Hend). split; [apply out_of_region_false; done || lia|].
  assert (u64 (sge_addr sge - mr_start mr + o) = sge_addr sge - mr_start mr + o) as ->.
  { apply wrap_small. destruct Hw as (? & ? & ? & _). lia. }
  rewrite slice_mr_addrs by (done || lia). apply mr_copy_data_copied; done || lia.
Qed.

Lemma mr_copy_sge_loop_copied sges : forall offset size c,
  Forall (sge_ok pd flags) sges -> 0 <= offset -> 0 < size -> offset + size < 2 ^ 64 ->
  offset + size <= sgl_length sges -> buf_room size c ->
  exists c', mr_copy_sge_loop pd sges flags dir offset size c = Some (IB_WC_SUCCESS, c')
    /\ copied dir (slice offset size (sgl_addrs pd sges)) c c'.
Proof.
  induction sges as [|sge sges IH]; intros offset size c Hall Ho Hs Hmax Hlen Hroom; simpl in Hlen; [lia|].
  apply Forall_cons in Hall as [Hok Hall]. pose proof (Zlen_sge_addrs sge Hok) as HA.
  unfold sgl_addrs. simpl. fold (sgl_addrs pd sges).
  pose proof Hok as Hok'. unfold sge_ok in Hok'. destruct Hok' as [Hl Hok'].
  destruct (pd_mr_table pd !! _) as [mr|] eqn:Emr; [|done]. destruct Hok' as (Hw & Hst & Hkey & Hfl & _).
  rewrite bool_decide_eq_false_2 by naive_solver.
  rewrite (proj2 (Z.eqb_eq _ _) Hkey), (proj2 (Z.eqb_eq _ _) Hfl). simpl.
  assert (u64 (offset + size) = offset + size) as -> by (apply wrap_small; lia).
  set (L := sge_length sge) in *.
  destruct (Z.leb_spec L offset) as [HLo|HLo].
  - (* the SGE lies before the range *)
    rewrite Z.min_l by lia. rewrite slice_skip by lia. rewrite HA.
    assert ((if 0 <? offset then if L <? offset then offset - L else 0 else offset) = offset - L) as ->
      by (repeat case_match; bools; lia).
    rewrite (proj2 (Z.ltb_ge offset L)), (proj2 (Z.eqb_neq size 0)) by lia.
    destruct (IH (offset - L) size c) as (c' & E & Hc); try done; try lia.
    destruct (out_of_region _ _ _); eauto.
  - assert ((if 0 <? offset then if L <? offset then offset - L else 0 else offset) = 0) as ->
      by (repeat case_match; bools; lia).
    set (range := Z.min L (offset + size)). set (chunk := range - offset). assert (0 < chunk <= size) by lia.
    destruct (sge_chunk_copied sge mr offset chunk c) as (Hoor & c1 & E1 & Hc1); try done; try lia.
    { destruct Hroom. split; lia. }
    replace (offset + chunk) with range in Hoor by lia. rewrite Hoor.
    rewrite (proj2 (Z.ltb_lt offset range)) by lia. rewrite E1. simpl.
    assert (u64 (size - chunk) = size - chunk) as -> by (apply wrap_small; lia).
    assert (Zlen (slice offset chunk (sge_addrs pd sge)) = chunk) as Hcl by (unfold slice; zlen).
    set (c1' := c1 <| c_pos := c_pos c + chunk |>).
    assert (copied dir (slice offset chunk (sge_addrs pd sge)) c c1') as Hc1' by (by destruct dir).
    destruct (Z.eqb_spec (size - chunk) 0) as [Hz|Hz].
    + exists c1'. split; [done|]. rewrite slice_inside by lia. by replace size with chunk by lia.
    + destruct (IH 0 (size - chunk) c1') as (c2 & E2 & Hc2); try done; try lia.
      { rewrite <- Hcl at 1. apply (copied_room dir _ size c); try done; simpl; lia. }
      exists c2. split; [done|]. rewrite slice_across by lia.
      rewrite HA. replace (L - offset) with chunk by lia.
      apply (copied_app dir _ _ c c1' c2); try done; [|simpl; lia].
      rewrite Hcl. unfold slice at 1. rewrite Zlen_take. destruct Hroom. split; lia.
Qed.
End Gather.

(** ** Reachable protection domains *)

(** The verbs that change a protection domain's table. *)
Inductive pd_step : pib_pd -> pib_pd -> Prop :=
| pd_step_dma rnd ok flags bm t pd r bt pd' :
    pib_get_dma_mr rnd ok flags bm t pd = Some (r, bt, pd') -> pd_step pd pd'
| pd_step_user rnd ok umem start len va flags bm t pd r bt pd' :
    pib_reg_user_mr rnd ok umem start len va flags bm t pd = Some (r, bt, pd') -> pd_step pd pd'
| pd_step_fast rnd ok n bm t pd r bt pd' :
    pib_alloc_fast_reg_mr rnd ok n bm t pd = Some (r, bt, pd') -> pd_step pd pd'
| pd_step_dereg mr bm t pd : pd_step pd (snd (pib_dereg_mr mr bm t pd))
| pd_step_inv rkey pd : pd_step pd (snd (pib_util_mr_invalidate rkey pd))
| pd_step_fast_reg rkey iova pl plmax shift n len flags pd :
    pd_step pd (snd (pib_util_mr_fast_reg_pmr rkey iova pl plmax shift n len flags pd)).

Definition pd_init (n : Z) : pib_pd := {| pd_num := n; pd_nr_mr := 0; pd_mr_table := ∅ |}.
Definition pd_reach (n : Z) : pib_pd -> Prop := rtc pd_step (pd_init n).

(** No region of the table is marked as a fast registration region. *)
Definition no_fast_reg (pd : pib_pd) : Prop := map_Forall (fun _ mr => mr_is_fast_reg_mr mr = false) (pd_mr_table pd).

Lemma pd_update_no_fast i f pd :
  (forall m, mr_is_fast_reg_mr (f m) = mr_is_fast_reg_mr m) -> no_fast_reg pd -> no_fast_reg (pd_update_mr i f pd).
Proof.
  intros Hf Ht k m. simpl. rewrite lookup_alter_Some.
  intros [(<- & m' & Hm' & ->)|[? Hm]]; [rewrite Hf; by apply (Ht i)|by apply (Ht k)].
Qed.

Lemma create_mr_no_fast rnd ok st fast n bm t pd r bt pd' :
  pd_inv pd -> no_fast_reg pd -> create_mr rnd ok st fast n bm t pd = Some (r, bt, pd') -> no_fast_reg pd'.
Proof.
  intros Hi Hf Hc. apply create_mr_spec in Hc as [_ Hc]; [|done]. destruct r as [e|mr]; [by subst|].
  destruct Hc as (i & _ & _ & _ & Ht & _ & Hm & _). unfold no_fast_reg. rewrite Ht.
  by apply map_Forall_insert_2.
Qed.

Definition pd_good (pd : pib_pd) : Prop := pd_inv pd /\ no_fast_reg pd.

Lemma pd_update_good i f pd :
  (forall m, mr_lkey (f m) = mr_lkey m /\ mr_rkey (f m) = mr_rkey m /\ mr_is_fast_reg_mr (f m) = mr_is_fast_reg_mr m) ->
  pd_good pd -> pd_good (pd_update_mr i f pd).
Proof.
  intros Hf [? ?]. split; [apply pd_update_inv|apply pd_update_no_fast]; try done; intros m; by destruct (Hf m) as (? & ? & ?).
Qed.

Lemma create_mr_good rnd ok st fast n bm t pd r bt pd' :
  pd_good pd -> create_mr rnd ok st fast n bm t pd = Some (r, bt, pd') -> pd_good pd'.
Proof.
  intros [Hi Hf] Hc. split; [|by eapply create_mr_no_fast].
  by apply create_mr_spec in Hc as [? _].
Qed.

Lemma pd_step_good pd pd' : pd_step pd pd' -> pd_good pd -> pd_good pd'.
Proof.
  intros Hs Hg. pose proof Hg as [Hi Hf]. inversion Hs as
    [rnd ok fl bm t pd0 r bt pd1 Hc|rnd ok um st len va fl bm t pd0 r bt pd1 Hc|rnd ok n bm t pd0 r bt pd1 Hc
    |mr bm t pd0|rkey pd0|rkey iova pl plmax sh n len fl pd0]; subst.
  - unfold pib_get_dma_mr in Hc. destruct (create_mr _ _ _ _ _ _ _ _) as [[[r0 bt0] pd2]|] eqn:E; simpl in Hc; [|done].
    apply create_mr_good in E; [|done]. destruct r0; simplify_eq; [done|]. by apply pd_update_good.
  - unfold pib_reg_user_mr in Hc. destruct um as [e|um]; [by simplify_eq|].
    destruct (create_mr _ _ _ _ _ _ _ _) as [[[r0 bt0] pd2]|] eqn:E; simpl in Hc; [|done].
    apply create_mr_good in E; [|done]. destruct r0; simplify_eq; [done|]. by apply pd_update_good.
  - unfold pib_alloc_fast_reg_mr in Hc. destruct (create_mr _ _ _ _ _ _ _ _) as [[[r0 bt0] pd2]|] eqn:E; simpl in Hc; [|done].
    apply create_mr_good in E; [|done]. destruct r0; simplify_eq; [done|]. by apply pd_update_good.
  - pose proof (pib_dereg_mr_spec mr bm t pd Hi) as Hd. destruct (pib_dereg_mr mr bm t pd) as [[r bt] pd1].
    destruct Hd as (? & Hz & Hnz). split; [done|]. simpl. destruct (decide (r = 0)) as [e|n].
    + unfold no_fast_reg. rewrite (Hz e). by apply map_Forall_delete.
    + by rewrite (Hnz n).
  - unfold pib_util_mr_invalidate. repeat case_match; simpl; try done. by apply pd_update_good.
  - unfold pib_util_mr_fast_reg_pmr. repeat case_match; simpl; try done. by apply pd_update_good.
Qed.

Lemma pd_reach_good n pd : pd_reach n pd -> pd_good pd.
Proof.
  intros H. apply (rtc_ind_r pd_good (pd_init n)) in H; [done| |].
  - split; [split; [done|apply map_Forall_empty]|apply map_Forall_empty].
  - intros y z _ Hs Hy. by eapply pd_step_good.
Qed.

(** ** Theorems *)

(** In every protection domain the verbs can build, each region is found through
    the index field of both its lkey and its rkey, and the region count is the
    number of used slots. *)
Theorem mr_table_invariant (n : Z) (pd : pib_pd) (H : pd_reach n pd) : pd_inv pd.
Proof. by destruct (pd_reach_good n pd H). Qed.

(** Registering user memory succeeds only with a free slot; the new region is
    then the one both of its keys select, its lkey is neither of the two
    reserved ones, and every region registered before keeps its slot. *)
Theorem reg_user_mr_lookup (rnd : list Z) (umem : ib_umem) (start length virt_addr flags : Z)
    (bm : gset Z) (t : obj_table) (pd : pib_pd) (mr : pib_mr) (bt : gset Z * obj_table) (pd' : pib_pd)
    (Hinv : pd_inv pd)
    (H : pib_reg_user_mr rnd true (inr umem) start length virt_addr flags bm t pd = Some (inr mr, bt, pd')) :
  pd_mr_table pd' !! mr_index (mr_lkey mr) = Some mr /\ pd_mr_table pd' !! mr_index (mr_rkey mr) = Some mr
  /\ mr_lkey mr <> PIB_LOCAL_DMA_LKEY /\ mr_lkey mr <> PIB_IMM_DATA_LKEY
  /\ mr_start mr = start /\ mr_length mr = length /\ mr_access_flags mr = flags /\ mr_umem mr = Some umem
  /\ pd_mr_table pd ⊆ pd_mr_table pd'.
Proof.
  unfold pib_reg_user_mr in H.
  destruct (create_mr _ _ _ _ _ _ _ _) as [[[[e|mr0] bt0] pd0]|] eqn:E; simpl in H; [done| |done].
  apply create_mr_spec in E as [_ (i & Hl & Hr & Hnone & Ht & _ & _ & ? & ?)]; [|done].
  injection H as <- <- <-. simpl. rewrite Hl, Hr, Ht, alter_insert_eq, lookup_insert_eq. split_and!; try done.
  by apply insert_subseteq.
Qed.

(** Gathering: when the SGEs name valid regions of the domain with the needed
    permissions, copying [size] bytes from [offset] fills the buffer with exactly
    those bytes of the concatenated SGEs and changes nothing else. *)
Theorem gather_exact (pd : pib_pd) (sges : list ib_sge) (m : mem) (buffer : list Z) (offset size flags : Z)
    (Hok : Forall (sge_ok pd flags) sges) (Hoff : 0 <= offset) (Hsz : 0 < size <= PIB_MAX_PAYLOAD_LEN)
    (Hmax : offset + size < 2 ^ 64) (Hend : offset + size <= sgl_length sges) (Hbuf : size <= Zlen buffer) :
  pib_util_mr_copy_data pd sges m buffer offset size flags PIB_MR_COPY_FROM
  = Some (IB_WC_SUCCESS, (m <$> slice offset size (sgl_addrs pd sges)) ++ drop (Z.to_nat size) buffer, m).
Proof.
  unfold pib_util_mr_copy_data. rewrite (proj2 (Z.ltb_ge _ _)) by lia.
  destruct (mr_copy_sge_loop_copied pd flags PIB_MR_COPY_FROM ltac:(by left) sges offset size
    {| c_mem := m; c_buf := buffer; c_pos := 0 |}) as (c & -> & Hc); try done; try lia.
  destruct Hc as [Hm Hb]. simpl in *. rewrite Hm, Hb. unfold buf_write. simpl.
  pose proof (Zlen_sgl_addrs pd flags sges Hok) as Hl.
  rewrite length_fmap. assert (length (slice offset size (sgl_addrs pd sges)) = Z.to_nat size) as ->; [|done].
  unfold slice, Zlen in *. rewrite length_take, length_drop. lia.
Qed.

(** Scattering writes exactly the bytes of the range. *)
Lemma scatter_effect (pd : pib_pd) (sges : list ib_sge) (m : mem) (bytes : list Z) (offset flags : Z)
    (Hok : Forall (sge_ok pd flags) sges) (Hoff : 0 <= offset) (Hsz : 0 < Zlen bytes <= PIB_MAX_PAYLOAD_LEN)
    (Hmax : offset + Zlen bytes < 2 ^ 64) (Hend : offset + Zlen bytes <= sgl_length sges)
    (Hdisj : NoDup (sgl_addrs pd sges)) :
  exists m', pib_util_mr_copy_data pd sges m bytes offset (Zlen bytes) flags PIB_MR_COPY_TO
             = Some (IB_WC_SUCCESS, bytes, m')
  /\ m' <$> slice offset (Zlen bytes) (sgl_addrs pd sges) = bytes
  /\ forall x, x ∉ slice offset (Zlen bytes) (sgl_addrs pd sges) -> m' x = m x.
Proof.
  unfold pib_util_mr_copy_data. rewrite (proj2 (Z.ltb_ge _ _)) by lia.
  destruct (mr_copy_sge_loop_copied pd flags PIB_MR_COPY_TO ltac:(by right) sges offset (Zlen bytes)
    {| c_mem := m; c_buf := bytes; c_pos := 0 |}) as (c & -> & Hc); try done; try lia.
  destruct Hc as [Hb Hm]. simpl in *. exists (c_mem c). rewrite Hb. split; [done|].
  pose proof (Zlen_sgl_addrs pd flags sges Hok) as Hl.
  set (a := slice offset (Zlen bytes) (sgl_addrs pd sges)) in *.
  assert (Zlen a = Zlen bytes) as Ha by (unfold a, slice; zlen).
  assert (buf_read bytes 0 (Zlen a) = bytes) as Hr.
  { unfold buf_read. rewrite drop_0. apply take_ge. unfold Zlen in *. lia. }
  rewrite Hr in Hm. split.
  - transitivity (mem_store m (zip a bytes) <$> a).
    + apply list_fmap_ext. intros i x _. apply Hm.
    + apply mem_store_zip; [by apply NoDup_slice|unfold Zlen in *; lia].
  - intros x Hx. rewrite (Hm x). apply mem_store_other. rewrite fst_zip by (unfold Zlen in *; lia). done.
Qed.

(** C29. Scattering then gathering: bytes written through an SGL are at the
    addresses it names and are read back through it, and no byte outside the range
    is touched, provided the SGEs do not
    overlap. *)
Theorem scatter_gather_roundtrip (pd : pib_pd) (sges : list ib_sge) (m : mem) (bytes : list Z) (offset flags : Z)
    (Hok : Forall (sge_ok pd flags) sges) (Hoff : 0 <= offset) (Hsz : 0 < Zlen bytes <= PIB_MAX_PAYLOAD_LEN)
    (Hmax : offset + Zlen bytes < 2 ^ 64) (Hend : offset + Zlen bytes <= sgl_length sges)
    (Hdisj : NoDup (sgl_addrs pd sges)) :
  exists m', pib_util_mr_copy_data pd sges m bytes offset (Zlen bytes) flags PIB_MR_COPY_TO
             = Some (IB_WC_SUCCESS, bytes, m')
  /\ m' <$> slice offset (Zlen bytes) (sgl_addrs pd sges) = bytes
  /\ (forall x, x ∉ slice offset (Zlen bytes) (sgl_addrs pd sges) -> m' x = m x)
  /\ forall buffer, Zlen bytes <= Zlen buffer ->
       pib_util_mr_copy_data pd sges m' buffer offset (Zlen bytes) flags PIB_MR_COPY_FROM
       = Some (IB_WC_SUCCESS, bytes ++ drop (length bytes) buffer, m').
Proof.
  destruct (scatter_effect pd sges m bytes offset flags Hok Hoff Hsz Hmax Hend Hdisj) as (m' & H1 & H2 & H3).
  exists m'. split_and!; [done..|]. intros buffer Hb. rewrite (gather_exact pd sges m' buffer offset (Zlen bytes) flags) by done.
  rewrite H2. unfold Zlen. by rewrite Nat2Z.id.
Qed.

(** ** Remote access *)

(** The regions of a domain that can be accessed are well formed. *)
Definition pd_wf (pd : pib_pd) : Prop :=
  map_Forall (fun _ mr => mr_state mr = PIB_MR_VALID -> mr_wf mr) (pd_mr_table pd).

Lemma page_addr_first v pages psize rel : 0 <= rel < psize -> page_addr (Some v :: pages) psize rel = v + rel.
Proof. intros. unfold page_addr. by rewrite Z.div_small, Z.mod_small by lia. Qed.

Lemma page_addr_next p pages psize rel : 0 < psize -> psize <= rel ->
  page_addr (p :: pages) psize rel = page_addr pages psize (rel - psize).
Proof.
  intros. pose proof (page_addrs_next p pages psize rel 1 ltac:(done) ltac:(done)) as H'.
  unfold page_addrs in H'. rewrite !(seqZ_cons _ 1) in H' by lia. simpl in H'. by injection H'.
Qed.

(** An atomic works on the page its offset falls in, and ends the loop there. *)
Lemma mr_page_loop_atomic k swap compare dir pages : forall addr offset size c,
  0 <= k -> dir = PIB_MR_CAS \/ dir = PIB_MR_FETCHADD ->
  Forall is_Some pages -> (2 ^ k | addr) -> 0 <= addr <= offset -> 0 < size ->
  addr + Zlen pages * 2 ^ k < 2 ^ 64 -> offset < addr + Zlen pages * 2 ^ k ->
  exists c', mr_page_loop (2 ^ k) swap compare dir pages addr offset size c = Some (0, c')
    /\ mr_copy_data_sub (page_addr pages (2 ^ k) (offset - addr)) 8 swap compare dir c = Some (true, c').
Proof.
  induction pages as [|p pages IH]; intros addr offset size c Hk Hdir Hall Hdiv Ho Hs Hmax Hend.
  { unfold Zlen in Hend; simpl in Hend. lia. }
  pose proof (pow2_pos k Hk) as Hps.
  apply Forall_cons in Hall as [[v ->] Hall]. rewrite Zlen_cons in *. pose proof (Zlen_nonneg pages).
  assert (u64 (addr + 2 ^ k) = addr + 2 ^ k) as Hnext by (apply wrap_small; nia).
  simpl. rewrite Hnext, (proj2 (Z.leb_le addr offset)) by lia. simpl.
  destruct (Z.ltb_spec offset (addr + 2 ^ k)) as [Hin|Hout].
  - rewrite (page_loop_target k Hk addr offset) by (done || lia). rewrite page_addr_first by lia.
    destruct Hdir as [-> | ->]; simpl; eauto.
  - rewrite (proj2 (Z.eqb_neq size 0)), page_addr_next by lia.
    replace (offset - addr - 2 ^ k) with (offset - (addr + 2 ^ k)) by lia. apply IH; try done; try lia.
    apply Z.divide_add_r; [done|apply Z.divide_refl].
Qed.

Lemma le_combine_bound l : Forall (fun b => 0 <= b < 256) l -> 0 <= le_combine l < 2 ^ (8 * Zlen l).
Proof.
  induction 1 as [|b l Hb Hl IH]; [done|]. cbn [le_combine]. rewrite Zlen_cons.
  replace (8 * (Zlen l + 1)) with (8 + 8 * Zlen l) by lia. pose proof (Zlen_nonneg l).
  rewrite Z.pow_add_r by lia. change (2 ^ 8) with 256. nia.
Qed.

Lemma mem_read64_bound m a : (forall x, 0 <= m x < 256) -> 0 <= mem_read64 m a < 2 ^ 64.
Proof.
  intros Hm. unfold mem_read64. pose proof (le_combine_bound (mem_read m a 8)) as H.
  assert (Zlen (mem_read m a 8) = 8) as Hl by (unfold Zlen; by rewrite length_mem_read).
  rewrite Hl in H. apply H. apply Forall_fmap, Forall_true. intros x. apply Hm.
Qed.

#[local] Arguments le_split _ _ : simpl never.
#[local] Arguments le_combine _ : simpl never.
#[local] Arguments buf_write _ _ _ : simpl never.

(** What an atomic does to a 64-bit cell. *)
Definition atomic_spec (dir : pib_mr_direction) (swap compare old : Z) : Z :=
  match dir with
  | PIB_MR_FETCHADD => u64 (old + compare)
  | _ => if old =? compare then swap else old
  end.

(** ** Theorems on remote access *)

(** A remote write with any key, address and size either is refused and leaves
    memory as it was, or is to a region whose rkey is the one given, that has the
    required permissions and that contains the whole range, and changes only the
    bytes of that range. *)
Theorem rkey_write_confined (pd : pib_pd) (rkey address size flags : Z) (m : mem) (buffer : list Z)
    (Hwf : pd_wf pd) (Haddr : 0 <= address < 2 ^ 64) (Hsz : 0 <= size <= Zlen buffer) :
  exists st buf' m',
    pib_util_mr_copy_data_with_rkey pd rkey m buffer address size flags PIB_MR_COPY_TO = Some (st, buf', m')
    /\ (st <> IB_WC_SUCCESS -> m' = m)
    /\ (st = IB_WC_SUCCESS -> exists mr, pd_mr_table pd !! mr_index rkey = Some mr /\ mr_rkey mr = rkey
          /\ mr_state mr = PIB_MR_VALID /\ Z.land (mr_access_flags mr) flags = flags
          /\ mr_start mr <= address /\ address + size <= mr_start mr + mr_length mr
          /\ forall x, x ∉ mr_addrs mr (address - mr_start mr) size -> m' x = m x).
Proof.
  unfold pib_util_mr_copy_data_with_rkey, copy_data_with_rkey.
  destruct (Z.ltb_spec PIB_MAX_PAYLOAD_LEN size); [eexists _, _, _; by eauto|].
  destruct (pd_mr_table pd !! mr_index rkey) as [mr|] eqn:E; [|eexists _, _, _; by eauto].
  case_bool_decide as Hst; [eexists _, _, _; by eauto|].
  destruct (Z.eqb_spec rkey (mr_rkey mr)); simpl; [|eexists _, _, _; by eauto].
  destruct (Z.eqb_spec (Z.land (mr_access_flags mr) flags) flags); simpl; [|eexists _, _, _; by eauto].
  destruct (mr_is_dma mr) eqn:Edma; [eexists _, _, _; by eauto|].
  destruct (out_of_region mr address size) eqn:Eo; [eexists _, _, _; by eauto|].
  assert (mr_state mr = PIB_MR_VALID) as Hv by (destruct (decide (mr_state mr = PIB_MR_VALID)); tauto).
  assert (mr_wf mr) as Hw by (by eapply (Hwf _ _ E)).
  destruct (out_of_region_inv mr address size) as [Hs He]; try done; try lia.
  destruct (Z.eqb_spec size 0) as [->|Hz].
  - unfold mr_copy_data. rewrite bool_decide_eq_false_2, Edma by tauto. simpl.
    eexists _, _, _. split_and!; [done|done|]. intros _. exists mr. split_and!; done.
  - destruct (mr_copy_data_copied mr (address - mr_start mr) size PIB_MR_COPY_TO
      {| c_mem := m; c_buf := buffer; c_pos := 0 |}) as (c & -> & Hb & Hm); try done; try lia; [by right|split; simpl; lia|].
    simpl. eexists _, _, _. split_and!; [done|done|]. intros _. exists mr. split_and!; try done.
    intros x Hx. rewrite (Hm x). apply mem_store_other. simpl.
    rewrite fst_zip; [done|]. pose proof (Zlen_mr_addrs mr (address - mr_start mr) size Hw ltac:(lia)) as Hl.
    rewrite Hl. pose proof (Zlen_buf_read buffer 0 size). unfold Zlen in *. lia.
Qed.

Lemma atomic_effect (pd : pib_pd) (mr : pib_mr) (um : ib_umem) (rkey address swap compare res : Z)
    (dir : pib_mr_direction) (m : mem)
    (Hmr : pd_mr_table pd !! mr_index rkey = Some mr) (Hkey : mr_rkey mr = rkey) (Hst : mr_state mr = PIB_MR_VALID)
    (Hwf : mr_wf mr) (Hfl : Z.land (mr_access_flags mr) IB_ACCESS_REMOTE_ATOMIC = IB_ACCESS_REMOTE_ATOMIC)
    (Hum : mr_umem mr = Some um) (Hdma : mr_is_dma mr = false) (Hm : forall x, 0 <= m x < 256)
    (Hin : mr_start mr <= address /\ address + 8 <= mr_start mr + mr_length mr)
    (Hsw : 0 <= swap < 2 ^ 64) (Hdir : dir = PIB_MR_CAS \/ dir = PIB_MR_FETCHADD) :
  let a := page_addr (um_pages um) (um_page_size um) (um_offset um + (address - mr_start mr)) in
  let old := mem_read64 m a in
  exists m', pib_util_mr_atomic pd rkey address swap compare res dir m = Some (IB_WC_SUCCESS, old, m')
    /\ mem_read64 m' a = atomic_spec dir swap compare old
    /\ forall x, x < a \/ a + 8 <= x -> m' x = m x.
Proof.
  pose proof Hwf as (? & ? & ? & Hw). rewrite Hdma, Hum in Hw.
  destruct Hw as (Hfast & k & Hk & Hps & Hall & ? & ? & ?). rewrite Hps. intros a old.
  unfold pib_util_mr_atomic. rewrite Hmr, bool_decide_eq_false_2 by tauto.
  rewrite Hkey, Z.eqb_refl, (proj2 (Z.eqb_eq _ _) Hfl). simpl.
  rewrite out_of_region_false by (done || lia). unfold mr_copy_data.
  rewrite bool_decide_eq_false_2, Hdma by tauto. simpl. rewrite Hum. simpl. rewrite Hfast, Hps.
  assert (u64 (address - mr_start mr + um_offset um) = um_offset um + (address - mr_start mr)) as ->.
  { unfold u64. rewrite wrap_small; lia. }
  assert (0 <= old < 2 ^ 64) as Hold by (by apply mem_read64_bound).
  assert (forall b v, forall x, x < b \/ b + 8 <= x -> mem_write64 m b v x = m x) as Hoth.
  { intros b v x Hx. unfold mem_write64, mem_write. unfold Zlen. rewrite length_le_split.
    destruct (_ && _) eqn:E; [bools; lia|done]. }
  assert (forall v, le_combine (buf_write (le_split 8 res) 0 (le_split 8 v)) = v mod 2 ^ 64) as Hbuf.
  { intros v. unfold buf_write. rewrite (drop_ge (le_split 8 res)) by (rewrite !length_le_split; done).
    simpl take. rewrite app_nil_r. apply (le_combine_split 8). }
  destruct Hdir as [-> | ->];
    (edestruct (mr_page_loop_atomic k swap compare) as (c' & -> & Hsub);
      [done|by eauto|exact Hall|apply Z.divide_0_r|lia|lia|lia|lia|]);
    rewrite Z.sub_0_r in Hsub; simpl in Hsub; injection Hsub as <-; simpl; eexists;
    fold a; fold old; rewrite Hbuf.
  - rewrite (Z.mod_small old) by exact Hold. split_and!; [done| |].
    + unfold atomic_spec. destruct (old =? compare); [|done].
      rewrite mem_read_write64. by apply wrap_small.
    + intros x Hx. destruct (old =? compare); [|done]. by apply Hoth.
  - assert (u64 (u64 (old + compare) - compare) = old) as ->.
    { unfold u64, wrap. rewrite Zminus_mod_idemp_l. replace (old + compare - compare) with old by lia.
      by apply Z.mod_small. }
    rewrite (Z.mod_small old) by exact Hold. split_and!; [done| |].
    + rewrite mem_read_write64. unfold atomic_spec, u64. by rewrite wrap_idem by lia.
    + intros x Hx. by apply Hoth.
Qed.

(** Remote atomics return the old value of the addressed cell and store the value
    the operation defines (a 64-bit addition that wraps, or the swap value when
    the comparison holds), for every cell that lies in one page of the region. *)
Theorem atomic_exact (pd : pib_pd) (mr : pib_mr) (um : ib_umem) (rkey address swap compare res : Z)
    (dir : pib_mr_direction) (m : mem)
    (Hmr : pd_mr_table pd !! mr_index rkey = Some mr) (Hkey : mr_rkey mr = rkey) (Hst : mr_state mr = PIB_MR_VALID)
    (Hwf : mr_wf mr) (Hfl : Z.land (mr_access_flags mr) IB_ACCESS_REMOTE_ATOMIC = IB_ACCESS_REMOTE_ATOMIC)
    (Hum : mr_umem mr = Some um) (Hdma : mr_is_dma mr = false) (Hm : forall x, 0 <= m x < 256)
    (Hin : mr_start mr <= address /\ address + 8 <= mr_start mr + mr_length mr)
    (Hsw : 0 <= swap < 2 ^ 64) (Hdir : dir = PIB_MR_CAS \/ dir = PIB_MR_FETCHADD) :
  let a := page_addr (um_pages um) (um_page_size um) (um_offset um + (address - mr_start mr)) in
  let old := mem_read64 m a in
  exists m', pib_util_mr_atomic pd rkey address swap compare res dir m = Some (IB_WC_SUCCESS, old, m')
    /\ mem_read64 m' a = atomic_spec dir swap compare old
    /\ forall x, x < a \/ a + 8 <= x -> m' x = m x.
Proof. by apply (atomic_effect pd mr um). Qed.

(** No region the verbs create is marked as a fast registration region
    ([create_mr] never stores its argument), so fast registration and local
    invalidation are refused for every key in every reachable domain. *)
Theorem fast_reg_always_refused (n rkey : Z) (pd : pib_pd) (H : pd_reach n pd) :
  pib_util_mr_invalidate rkey pd = (IB_WC_MW_BIND_ERR, pd)
  /\ forall iova pl plmax shift len1 len2 flags,
       pib_util_mr_fast_reg_pmr rkey iova pl plmax shift len1 len2 flags pd = (IB_WC_MW_BIND_ERR, pd).
Proof.
  destruct (pd_reach_good n pd H) as [_ Hf]. unfold pib_util_mr_invalidate, pib_util_mr_fast_reg_pmr.
  destruct (pd_mr_table pd !! mr_index rkey) as [mr|] eqn:E; [|done].
  rewrite (Hf _ _ E). simpl. split; [by case_bool_decide|]. intros. by destruct (_ || _).
Qed.

(** ** Witnesses *)

Definition um_example : ib_umem :=
  {| um_offset := 2; um_page_size := 16; um_pages := [Some 0x8000; Some 0x5000; Some 0x6000; Some 0x9000; Some 0x7000] |}.
Definition ot_empty : obj_table := {| ot_last_num := 0; ot_nr := 0; ot_head := [] |}.
Definition mr_example : pib_mr :=
  {| mr_num := 1; mr_lkey := 0x100000; mr_rkey := 0x200000; mr_umem := Some um_example; mr_state := PIB_MR_VALID;
     mr_is_fast_reg_mr := false; mr_is_dma := false; mr_start := 0x1000; mr_length := 64; mr_virt_addr := 0x1000;
     mr_access_flags := 15; mr_max_page_list_len := 0; mr_page_list_len := 0; mr_page_list := []; mr_page_shift := 0 |}.
Definition pd_example : pib_pd := {| pd_num := 1; pd_nr_mr := 1; pd_mr_table := {[ 0 := mr_example ]} |}.
Definition sges_example : list ib_sge :=
  [ {| sge_addr := 0x1001; sge_length := 20; sge_lkey := 0x100000 |};
    {| sge_addr := 0x1020; sge_length := 8; sge_lkey := 0x100000 |} ].
Definition mem_example : mem := fun x => x mod 256.

Lemma mr_example_wf : mr_wf mr_example.
Proof.
  split_and!; simpl; try lia. split; [done|]. exists 4. split_and!; try done; simpl; try lia.
  repeat constructor; eauto.
Qed.

Lemma pd_example_reach : pd_reach 1 pd_example.
Proof.
  eapply rtc_once, (pd_step_user [1; 2] true (inr um_example) 0x1000 64 0x1000 15 ∅ ot_empty).
  vm_compute. reflexivity.
Qed.

Lemma sges_example_ok : Forall (sge_ok pd_example IB_ACCESS_LOCAL_WRITE) sges_example.
Proof.
  assert (pd_mr_table pd_example !! mr_index 0x100000 = Some mr_example) as E by reflexivity.
  apply Forall_cons; split; [|apply Forall_cons; split; [|by apply Forall_nil]];
    (split; [simpl; lia|]); cbn [sge_lkey]; rewrite E;
    (split; [apply mr_example_wf|]); split_and!; simpl; done || lia.
Qed.

Lemma mr_table_invariant_witness : pd_inv pd_example.
Proof. apply (mr_table_invariant 1). exact pd_example_reach. Defined.

Lemma fast_reg_always_refused_witness : pib_util_mr_invalidate 0x200000 pd_example = (IB_WC_MW_BIND_ERR, pd_example).
Proof. apply (fast_reg_always_refused 1 0x200000 pd_example). exact pd_example_reach. Defined.

Lemma reg_user_mr_lookup_witness : pd_mr_table pd_example !! mr_index (mr_rkey mr_example) = Some mr_example.
Proof.
  eapply (reg_user_mr_lookup [1; 2] um_example 0x1000 64 0x1000 15 ∅ ot_empty (pd_init 1) mr_example _ pd_example).
  - split; [done|apply map_Forall_empty].
  - vm_compute. reflexivity.
Defined.

Lemma gather_exact_witness :
  pib_util_mr_copy_data pd_example sges_example mem_example (replicate 16 0) 14 10 IB_ACCESS_LOCAL_WRITE PIB_MR_COPY_FROM
  = Some (IB_WC_SUCCESS, [1; 2; 3; 4; 5; 6; 2; 3; 4; 5] ++ replicate 6 0, mem_example).
Proof.
  rewrite (gather_exact pd_example sges_example mem_example (replicate 16 0) 14 10 IB_ACCESS_LOCAL_WRITE);
    [reflexivity|exact sges_example_ok|vm_compute; done..].
Defined.

Lemma scatter_gather_roundtrip_witness :
  exists m', pib_util_mr_copy_data pd_example sges_example mem_example [1; 2; 3; 4; 5; 6; 7; 8] 16 8
               IB_ACCESS_LOCAL_WRITE PIB_MR_COPY_TO = Some (IB_WC_SUCCESS, [1; 2; 3; 4; 5; 6; 7; 8], m')
  /\ m' <$> slice 16 8 (sgl_addrs pd_example sges_example) = [1; 2; 3; 4; 5; 6; 7; 8].
Proof.
  destruct (scatter_gather_roundtrip pd_example sges_example mem_example [1; 2; 3; 4; 5; 6; 7; 8] 16
    IB_ACCESS_LOCAL_WRITE) as (m' & H1 & H2 & _); [exact sges_example_ok|vm_compute; done..| |by exists m'].
  apply (bool_decide_unpack _). vm_compute. done.
Defined.

Lemma pd_example_wf : pd_wf pd_example.
Proof. apply map_Forall_singleton. intros _. apply mr_example_wf. Qed.

Lemma rkey_write_confined_witness :
  exists st buf' m',
    pib_util_mr_copy_data_with_rkey pd_example 0x200000 mem_example [9; 9] 0x103e 2 IB_ACCESS_REMOTE_WRITE PIB_MR_COPY_TO
    = Some (st, buf', m') /\ (st <> IB_WC_SUCCESS -> m' = mem_example).
Proof.
  destruct (rkey_write_confined pd_example 0x200000 0x103e 2 IB_ACCESS_REMOTE_WRITE mem_example [9; 9])
    as (st & b & m' & H1 & H2 & _); [exact pd_example_wf|vm_compute; done..|by exists st, b, m'].
Defined.

Lemma atomic_exact_witness :
  exists m', pib_util_mr_atomic pd_example 0x200000 0x1006 0 5 0 PIB_MR_FETCHADD mem_example
             = Some (IB_WC_SUCCESS, mem_read64 mem_example 0x8008, m')
  /\ mem_read64 m' 0x8008 = atomic_spec PIB_MR_FETCHADD 0 5 (mem_read64 mem_example 0x8008).
Proof.
  destruct (atomic_exact pd_example mr_example um_example 0x200000 0x1006 0 5 0 PIB_MR_FETCHADD mem_example)
    as (m' & H1 & H2 & _).
  - reflexivity.
  - reflexivity.
  - reflexivity.
  - exact mr_example_wf.
  - reflexivity.
  - reflexivity.
  - reflexivity.
  - intros x. apply Z.mod_pos_bound. reflexivity.
  - vm_compute. split; discriminate.
  - lia.
  - by right.
  - by exists m'.
Defined.
