(* ===== verification/MrSafe.v ===== *)
(** * Memory regions: confinement of every access

    Whatever the scatter/gather elements, keys, addresses and lengths are, an
    access of driver/pib_mr.c returns, and a write reaches only pages pinned for
    a valid region of the protection domain that has the permission asked for. *)

From S2P Require Import Prelude Verbs Mr.

(** The kernel addresses a region gives access to: all of memory for a DMA region,
    the pinned pages for a user region. *)
Definition mr_contains (mr : pib_mr) (x : Z) : Prop :=
  if mr_is_dma mr then True
  else exists um p, mr_umem mr = Some um /\ Some p ∈ um_pages um /\ p <= x < p + um_page_size um.

(** [x] is in a valid region of the domain that has the permissions [flags]. *)
Definition granted (pd : pib_pd) (flags x : Z) : Prop :=
  exists i mr, pd_mr_table pd !! i = Some mr /\ mr_state mr = PIB_MR_VALID
    /\ Z.land (mr_access_flags mr) flags = flags /\ mr_contains mr x.

(** [m'] differs from [m] at addresses of [P] only. *)
Definition changed_in (P : Z -> Prop) (m m' : mem) : Prop := forall x, m' x <> m x -> P x.

Lemma changed_in_refl P m : changed_in P m m.
Proof. by intros x H. Qed.
Lemma changed_in_trans P m1 m2 m3 : changed_in P m1 m2 -> changed_in P m2 m3 -> changed_in P m1 m3.
Proof. intros H1 H2 x H. destruct (decide (m2 x = m1 x)); [apply H2|apply H1]; congruence. Qed.
Lemma changed_in_mono (P Q : Z -> Prop) m m' : (forall x, P x -> Q x) -> changed_in P m m' -> changed_in Q m m'.
Proof. intros H H1 x Hx. by apply H, H1. Qed.

Lemma mem_write_changed m a bytes : changed_in (fun x => a <= x < a + Zlen bytes) m (mem_write m a bytes).
Proof. intros x. unfold mem_write. destruct (_ && _) eqn:E; [|done]. bools. lia. Qed.

Lemma Zlen_buf_read_le buf pos len : 0 <= len -> Zlen (buf_read buf pos len) <= len.
Proof. intros. unfold buf_read. zlen. Qed.

Lemma copy_sub_to target range c :
  0 <= range -> exists c', mr_copy_data_sub target range 0 0 PIB_MR_COPY_TO c = Some (false, c')
    /\ c_pos c' = c_pos c /\ changed_in (fun x => target <= x < target + range) (c_mem c) (c_mem c').
Proof.
  intros Hr. eexists. split; [done|]. split; [done|]. simpl.
  eapply changed_in_mono; [|apply mem_write_changed]. simpl. intros x Hx.
  pose proof (Zlen_buf_read_le (c_buf c) (c_pos c) range Hr). lia.
Qed.

(** The walk over the pages of a region stays in them. *)
Lemma page_loop_confined k pages : 0 <= k -> forall addr offset size c,
  (2 ^ k | addr) -> 0 <= addr -> 0 <= offset < 2 ^ 64 -> 0 <= size < 2 ^ 64 -> addr + Zlen pages * 2 ^ k < 2 ^ 64 ->
  exists r c', mr_page_loop (2 ^ k) 0 0 PIB_MR_COPY_TO pages addr offset size c = Some (r, c')
    /\ changed_in (fun x => exists p, Some p ∈ pages /\ p <= x < p + 2 ^ k) (c_mem c) (c_mem c').
Proof.
  intros Hk. pose proof (pow2_pos k Hk) as Hps.
  induction pages as [|p pages IH]; intros addr offset size c Hdiv Ha Ho Hs Hmax; simpl.
  { eexists _, _. split; [done|apply changed_in_refl]. }
  destruct p as [v|]; [|eexists _, _; split; [done|apply changed_in_refl]].
  rewrite Zlen_cons in Hmax. pose proof (Zlen_nonneg pages).
  assert (u64 (addr + 2 ^ k) = addr + 2 ^ k) as Hnext by (apply wrap_small; nia). rewrite Hnext.
  assert (Hgo : forall offset size c1, 0 <= offset < 2 ^ 64 -> 0 <= size < 2 ^ 64 ->
    exists r c', mr_page_loop (2 ^ k) 0 0 PIB_MR_COPY_TO pages (addr + 2 ^ k) offset size c1 = Some (r, c')
    /\ changed_in (fun x => exists p, Some p ∈ Some v :: pages /\ p <= x < p + 2 ^ k) (c_mem c1) (c_mem c')).
  { intros o z c1 Ho1 Hz1. destruct (IH (addr + 2 ^ k) o z c1) as (r & c' & E & Hc); try lia.
    - apply Z.divide_add_r; [done|apply Z.divide_refl].
    - exists r, c'. split; [done|]. eapply changed_in_mono; [|exact Hc]. intros x (p & Hp & Hx). exists p.
      split; [by right|done]. }
  destruct (Z.leb_spec addr offset); simpl; [|destruct (size =? 0); [eexists _, _; split; [done|apply changed_in_refl]|by apply Hgo]].
  destruct (Z.ltb_spec offset (addr + 2 ^ k)) as [Hin|Hout]; simpl;
    [|destruct (size =? 0); [eexists _, _; split; [done|apply changed_in_refl]|by apply Hgo]].
  rewrite (page_loop_target k Hk addr offset) by (done || lia).
  assert (u64 (addr + 2 ^ k - offset) = addr + 2 ^ k - offset) as -> by (apply wrap_small; lia).
  set (range := Z.min (addr + 2 ^ k - offset) size).
  destruct (copy_sub_to (v + (offset - addr)) range c) as (c1 & E1 & _ & Hc1); [lia|]. simpl in E1. injection E1 as <-.
  assert (changed_in (fun x => exists p, Some p ∈ Some v :: pages /\ p <= x < p + 2 ^ k) (c_mem c)
    (mem_write (c_mem c) (v + (offset - addr)) (buf_read (c_buf c) (c_pos c) range))) as Hw.
  { eapply changed_in_mono; [|exact Hc1]. simpl. intros x Hx. exists v. split; [left|lia]. }
  destruct (u64 (size - range) =? 0).
  - eexists _, _. split; [done|]. exact Hw.
  - edestruct Hgo as (r & c' & E & Hc); [| |exists r, c'; split; [exact E|]]; [apply wrap_range; lia..|].
    eapply changed_in_trans; [exact Hw|exact Hc].
Qed.

(** A copy towards a valid region: it returns, and stays in the region. *)
Lemma mr_copy_to_confined mr off size c :
  mr_wf mr -> mr_state mr = PIB_MR_VALID -> 0 <= off < 2 ^ 64 -> 0 <= size < 2 ^ 64 ->
  exists r c', mr_copy_data mr off size 0 0 PIB_MR_COPY_TO c = Some (r, c')
    /\ changed_in (mr_contains mr) (c_mem c) (c_mem c').
Proof.
  intros (_ & _ & _ & Hw) Hst Ho Hs. unfold mr_copy_data. rewrite bool_decide_eq_false_2 by naive_solver.
  destruct (mr_is_dma mr) eqn:Edma.
  - simpl. eexists _, _. split; [done|]. intros x _. unfold mr_contains. by rewrite Edma.
  - destruct (size =? 0); [eexists _, _; split; [done|apply changed_in_refl]|].
    destruct Hw as [-> Hw]. destruct (mr_umem mr) as [um|] eqn:Eum; [|done]. destruct Hw as (k & Hk & Hps & _ & ? & ? & ?).
    simpl. rewrite Hps.
    destruct (page_loop_confined k (um_pages um) Hk 0 (u64 (off + um_offset um)) size c) as (r & c' & E & Hc);
      [apply Z.divide_0_r|lia|apply wrap_range; lia|lia|lia|].
    exists r, c'. split; [exact E|]. eapply changed_in_mono; [|exact Hc]. intros x (p & Hp & Hx).
    unfold mr_contains. rewrite Edma. exists um, p. by rewrite Hps.
Qed.

Definition sge_range_ok (sge : ib_sge) : Prop := 0 <= sge_length sge < 2 ^ 32 /\ 0 <= sge_addr sge < 2 ^ 64.

(** Scattering through any list of elements returns, and stays in regions that
    permit it. *)
Lemma sge_loop_confined pd flags sges : pd_wf pd -> Forall sge_range_ok sges -> forall offset size c,
  0 <= offset < 2 ^ 32 -> 0 <= size < 2 ^ 32 ->
  exists st c', mr_copy_sge_loop pd sges flags PIB_MR_COPY_TO offset size c = Some (st, c')
    /\ changed_in (granted pd flags) (c_mem c) (c_mem c').
Proof.
  intros Hpd Hall. induction Hall as [|sge sges [Hl Ha] Hall IH]; intros offset size c Ho Hs; simpl.
  { eexists _, _. split; [done|apply changed_in_refl]. }
  destruct (pd_mr_table pd !! mr_index (sge_lkey sge)) as [mr|] eqn:Emr; [|eexists _, _; split; [done|apply changed_in_refl]].
  case_bool_decide as Hst; [eexists _, _; split; [done|apply changed_in_refl]|].
  destruct (negb (sge_lkey sge =? mr_lkey mr)); [eexists _, _; split; [done|apply changed_in_refl]|].
  destruct (Z.eqb_spec (Z.land (mr_access_flags mr) flags) flags) as [Hfl|]; simpl;
    [|eexists _, _; split; [done|apply changed_in_refl]].
  assert (mr_state mr = PIB_MR_VALID) as Hv by (destruct (decide (mr_state mr = PIB_MR_VALID)); tauto).
  assert (u64 (offset + size) = offset + size) as -> by (apply wrap_small; lia).
  set (range := Z.min (sge_length sge) (offset + size)).
  set (off' := if 0 <? offset then if sge_length sge <? offset then offset - sge_length sge else 0 else offset).
  assert (0 <= off' < 2 ^ 32) as Hoff by (unfold off'; repeat case_match; bools; lia).
  destruct (out_of_region mr (sge_addr sge) range); [by apply IH|].
  destruct (Z.ltb_spec offset range) as [Hlt|Hge]; [|destruct (size =? 0); [eexists _, _; split; [done|apply changed_in_refl]|by apply IH]].
  destruct (mr_copy_to_confined mr (u64 (sge_addr sge - mr_start mr + offset)) (range - offset) c) as (r & c1 & E1 & Hc1);
    [by apply (Hpd _ _ Emr)|done|apply wrap_range; lia|lia|]. rewrite E1. simpl.
  assert (changed_in (granted pd flags) (c_mem c) (c_mem c1)) as Hw.
  { eapply changed_in_mono; [|exact Hc1]. intros x Hx. by exists (mr_index (sge_lkey sge)), mr. }
  assert (u64 (size - (range - offset)) = size - (range - offset)) as -> by (apply wrap_small; lia).
  destruct (_ =? 0); [eexists _, _; split; [done|exact Hw]|].
  edestruct IH as (st & c' & E & Hc); [exact Hoff| |exists st, c'; split; [exact E|]]; [lia|].
  eapply changed_in_trans; [exact Hw|exact Hc].
Qed.

Lemma scatter_confined pd flags sges m buffer offset size :
  pd_wf pd -> Forall sge_range_ok sges -> 0 <= offset < 2 ^ 32 -> 0 <= size < 2 ^ 32 ->
  exists st buf m', pib_util_mr_copy_data pd sges m buffer offset size flags PIB_MR_COPY_TO = Some (st, buf, m')
    /\ changed_in (granted pd flags) m m'.
Proof.
  intros Hpd Hall Ho Hs. unfold pib_util_mr_copy_data.
  destruct (PIB_MAX_PAYLOAD_LEN <? size); [eexists _, _, _; split; [done|apply changed_in_refl]|].
  destruct (sge_loop_confined pd flags sges Hpd Hall offset size {| c_mem := m; c_buf := buffer; c_pos := 0 |} Ho Hs)
    as (st & c & -> & Hc). simpl. eexists _, _, _. split; [done|exact Hc].
Qed.

(** Access by remote key. *)
Lemma remote_write_confined pd rkey flags m buffer address size :
  pd_wf pd -> 0 <= address < 2 ^ 64 -> 0 <= size ->
  exists st buf m', pib_util_mr_copy_data_with_rkey pd rkey m buffer address size flags PIB_MR_COPY_TO = Some (st, buf, m')
    /\ changed_in (granted pd flags) m m'.
Proof.
  intros Hpd Ha Hs. unfold pib_util_mr_copy_data_with_rkey, copy_data_with_rkey.
  destruct (Z.ltb_spec PIB_MAX_PAYLOAD_LEN size); [eexists _, _, _; split; [done|apply changed_in_refl]|].
  destruct (pd_mr_table pd !! mr_index rkey) as [mr|] eqn:E; [|eexists _, _, _; split; [done|apply changed_in_refl]].
  case_bool_decide as Hst; [eexists _, _, _; split; [done|apply changed_in_refl]|].
  destruct (negb (rkey =? mr_rkey mr)); [eexists _, _, _; split; [done|apply changed_in_refl]|].
  destruct (Z.eqb_spec (Z.land (mr_access_flags mr) flags) flags) as [Hfl|]; simpl; [|eexists _, _, _; split; [done|apply changed_in_refl]].
  destruct (mr_is_dma mr) eqn:Edma; [eexists _, _, _; split; [done|apply changed_in_refl]|].
  destruct (out_of_region mr address size) eqn:Eo; [eexists _, _, _; split; [done|apply changed_in_refl]|].
  assert (mr_state mr = PIB_MR_VALID) as Hv by (destruct (decide (mr_state mr = PIB_MR_VALID)); tauto).
  assert (mr_wf mr) as Hw by (by apply (Hpd _ _ E)).
  destruct (out_of_region_inv mr address size) as [? ?]; try done; try (unfold PIB_MAX_PAYLOAD_LEN in *; lia).
  pose proof Hw as (? & ? & ? & _).
  destruct (mr_copy_to_confined mr (address - mr_start mr) size {| c_mem := m; c_buf := buffer; c_pos := 0 |})
    as (r & c & -> & Hc); [done|done|lia|unfold PIB_MAX_PAYLOAD_LEN in *; lia|]. simpl.
  assert (changed_in (granted pd flags) m (c_mem c)).
  { eapply changed_in_mono; [|exact Hc]. intros x Hx. by exists (mr_index rkey), mr. }
  destruct (r =? 0); eexists _, _, _; by split.
Qed.

(** ** Reading *)

(** Gathering changes no memory and returns, whatever it is given. *)
Lemma page_loop_from psize pages : forall addr offset size c,
  exists r c', mr_page_loop psize 0 0 PIB_MR_COPY_FROM pages addr offset size c = Some (r, c') /\ c_mem c' = c_mem c.
Proof.
  induction pages as [|[v|] pages IH]; intros addr offset size c; simpl; [by eexists _, _| |by eexists _, _].
  destruct (_ && _); [destruct (_ =? 0); [by eexists _, _|]|destruct (_ =? 0); [by eexists _, _|by apply IH]].
  edestruct IH as (r & c' & E & Hc). exists r, c'. split; [exact E|exact Hc].
Qed.

Lemma mr_copy_from mr off size c : mr_wf mr -> mr_state mr = PIB_MR_VALID ->
  exists r c', mr_copy_data mr off size 0 0 PIB_MR_COPY_FROM c = Some (r, c') /\ c_mem c' = c_mem c.
Proof.
  intros (_ & _ & _ & Hw) Hst. unfold mr_copy_data. rewrite bool_decide_eq_false_2 by naive_solver.
  destruct (mr_is_dma mr); [by eexists _, _|]. destruct (size =? 0); [by eexists _, _|].
  destruct Hw as [-> Hw]. destruct (mr_umem mr) as [um|]; [|done]. simpl. apply page_loop_from.
Qed.

Lemma gather_returns pd sges m buffer offset size flags : pd_wf pd ->
  exists st buf, pib_util_mr_copy_data pd sges m buffer offset size flags PIB_MR_COPY_FROM = Some (st, buf, m).
Proof.
  intros Hpd. unfold pib_util_mr_copy_data. destruct (PIB_MAX_PAYLOAD_LEN <? size); [by eexists _, _|].
  assert (forall offset size c, exists st c', mr_copy_sge_loop pd sges flags PIB_MR_COPY_FROM offset size c = Some (st, c')
    /\ c_mem c' = c_mem c) as H.
  { clear offset size. induction sges as [|sge sges IH]; intros offset size c; simpl; [by eexists _, _|].
    destruct (pd_mr_table pd !! mr_index (sge_lkey sge)) as [mr|] eqn:Emr; [|by eexists _, _].
    case_bool_decide as Hst; [by eexists _, _|]. do 2 (destruct (negb _); [by eexists _, _|]).
    destruct (out_of_region _ _ _); [by apply IH|].
    destruct (_ <? _); [|destruct (_ =? 0); [by eexists _, _|by apply IH]].
    edestruct (mr_copy_from mr) as (r & c1 & -> & Hc1); [by apply (Hpd _ _ Emr)|by destruct (decide (mr_state mr = PIB_MR_VALID)); tauto|].
    simpl. destruct (_ =? 0); [by eexists _, _|]. edestruct IH as (st & c' & E & Hc). exists st, c'. split; [exact E|].
    by rewrite Hc. }
  destruct (H offset size {| c_mem := m; c_buf := buffer; c_pos := 0 |}) as (st & c & -> & Hc). simpl in *. rewrite Hc.
  by eexists _, _.
Qed.

Lemma remote_read_returns pd rkey m buffer address size flags : pd_wf pd ->
  exists st buf, pib_util_mr_copy_data_with_rkey pd rkey m buffer address size flags PIB_MR_COPY_FROM = Some (st, buf, m).
Proof.
  intros Hpd. unfold pib_util_mr_copy_data_with_rkey, copy_data_with_rkey.
  destruct (PIB_MAX_PAYLOAD_LEN <? size); [by eexists _, _|].
  destruct (pd_mr_table pd !! mr_index rkey) as [mr|] eqn:E; [|by eexists _, _].
  case_bool_decide as Hst; [by eexists _, _|]. do 2 (destruct (negb (_ =? _)); [by eexists _, _|]).
  destruct (mr_is_dma mr); [by eexists _, _|]. destruct (out_of_region mr address size); [by eexists _, _|].
  edestruct (mr_copy_from mr) as (r & c1 & -> & Hc1); [by apply (Hpd _ _ E)|by destruct (decide (mr_state mr = PIB_MR_VALID)); tauto|].
  simpl in *. rewrite Hc1. destruct (negb _); by eexists _, _.
Qed.

(** Pinned pages are whole pages: the offset in the first page is the one of the
    start address, so that an aligned cell does not cross a page. *)
Definition mr_aligned (mr : pib_mr) : Prop :=
  match mr_umem mr with
  | Some um => (8 | um_page_size um) /\ (8 | mr_start mr - um_offset um)
  | None => True
  end.

Definition pd_safe (pd : pib_pd) : Prop :=
  pd_wf pd /\ no_fast_reg pd /\ map_Forall (fun _ mr => mr_aligned mr) (pd_mr_table pd).

Lemma mem_write64_changed m a v : changed_in (fun x => a <= x < a + 8) m (mem_write64 m a v).
Proof.
  unfold mem_write64. eapply changed_in_mono; [|apply mem_write_changed]. intros x. unfold Zlen.
  by rewrite length_le_split.
Qed.

Lemma copy_sub_atomic target range swap compare dir c : dir = PIB_MR_CAS \/ dir = PIB_MR_FETCHADD ->
  exists c', mr_copy_data_sub target range swap compare dir c = Some (true, c')
    /\ changed_in (fun x => target <= x < target + 8) (c_mem c) (c_mem c').
Proof.
  intros [-> | ->]; simpl; eexists; (split; [done|]); simpl.
  - destruct (_ =? _); [apply mem_write64_changed|apply changed_in_refl].
  - apply mem_write64_changed.
Qed.

Lemma page_addr_in k pages rel : 0 <= k -> Forall is_Some pages -> 0 <= rel < Zlen pages * 2 ^ k ->
  exists p, Some p ∈ pages /\ page_addr pages (2 ^ k) rel = p + rel mod 2 ^ k.
Proof.
  intros Hk. pose proof (pow2_pos k Hk) as Hps. revert rel.
  induction pages as [|p pages IH]; intros rel Hall Hr; [unfold Zlen in Hr; simpl in Hr; lia|].
  apply Forall_cons in Hall as [[v ->] Hall]. rewrite Zlen_cons in Hr. destruct (Z.ltb_spec rel (2 ^ k)).
  - exists v. split; [left|]. rewrite page_addr_first by lia. by rewrite Z.mod_small by lia.
  - destruct (IH (rel - 2 ^ k)) as (p & Hp & E); [done|lia|]. exists p. split; [by right|].
    rewrite page_addr_next, E by lia. f_equal.
    replace (rel - 2 ^ k) with (rel + (-1) * 2 ^ k) by lia. by rewrite Z.mod_add by lia.
Qed.

Lemma aligned_in_page k rel : 3 <= k -> (8 | rel) -> rel mod 2 ^ k + 8 <= 2 ^ k.
Proof.
  intros Hk Hr. pose proof (pow2_pos k ltac:(lia)) as Hps. pose proof (Z.mod_pos_bound rel (2 ^ k) Hps) as Hb.
  assert (8 | 2 ^ k) as H8 by (exists (2 ^ (k - 3)); change 8 with (2 ^ 3); rewrite <- Z.pow_add_r by lia; f_equal; lia).
  assert (8 | rel mod 2 ^ k) as H8'.
  { rewrite Z.mod_eq by lia. apply Z.divide_sub_r; [done|]. by apply Z.divide_mul_l. }
  destruct H8 as [a Ea], H8' as [b Eb]. nia.
Qed.

(** Atomics on aligned cells. *)
Lemma mr_atomic_confined mr address swap compare d c0 :
  mr_wf mr -> mr_aligned mr -> mr_state mr = PIB_MR_VALID -> d = PIB_MR_CAS \/ d = PIB_MR_FETCHADD ->
  0 <= address < 2 ^ 64 -> address mod 8 = 0 -> out_of_region mr address 8 = false ->
  exists r c', mr_copy_data mr (address - mr_start mr) 8 swap compare d c0 = Some (r, c')
    /\ changed_in (mr_contains mr) (c_mem c0) (c_mem c').
Proof.
  intros Hw Halg Hv Hd Ha H8 Eo. unfold mr_copy_data. rewrite bool_decide_eq_false_2 by tauto.
  destruct (mr_is_dma mr) eqn:Edma.
  - destruct (copy_sub_atomic (address - mr_start mr) 8 swap compare d c0 Hd) as (c' & -> & _). simpl.
    eexists _, _. split; [done|]. intros x _. unfold mr_contains. by rewrite Edma.
  - simpl. destruct (out_of_region_inv mr address 8) as [? ?]; try done.
    pose proof Hw as (? & ? & ? & Hw'). rewrite Edma in Hw'. destruct Hw' as [-> Hw']. unfold mr_aligned in Halg.
    destruct (mr_umem mr) as [um|] eqn:Eum; [|done]. destruct Hw' as (k & Hk & Hps & Hall & ? & ? & ?). simpl.
    destruct Halg as [Hp8 Hs8]. rewrite Hps in *.
    assert (3 <= k) as Hk3. { destruct (Z.leb_spec 3 k); [done|]. destruct Hp8 as [z Hz].
      pose proof (Z.pow_lt_mono_r 2 k 3 ltac:(lia) ltac:(lia) ltac:(lia)). pose proof (pow2_pos k Hk). lia. }
    set (rel := um_offset um + (address - mr_start mr)).
    assert (u64 (address - mr_start mr + um_offset um) = rel) as -> by (unfold rel, u64; rewrite wrap_small; lia).
    destruct (mr_page_loop_atomic k swap compare d (um_pages um) 0 rel 8 c0) as (c' & -> & Hsub);
      [done|done|done|apply Z.divide_0_r|unfold rel; lia|lia|lia|unfold rel; lia|].
    rewrite Z.sub_0_r in Hsub.
    destruct (copy_sub_atomic (page_addr (um_pages um) (2 ^ k) rel) 8 swap compare d c0 Hd) as (c1 & E1 & Hc1).
    rewrite E1 in Hsub. injection Hsub as ->. exists 0, c'. split; [done|].
    destruct (page_addr_in k (um_pages um) rel) as (p & Hp & Hpa); [done|done|unfold rel; lia|].
    rewrite Hpa in Hc1. eapply changed_in_mono; [|exact Hc1]. intros x Hx. unfold mr_contains. rewrite Edma.
    exists um, p. split; [done|]. split; [done|]. rewrite Hps.
    assert (8 | rel) as Hr8.
    { unfold rel. destruct Hs8 as [z Hz]. apply Z.mod_divide in H8 as [y Hy]; [|lia]. exists (y - z). lia. }
    pose proof (aligned_in_page k rel Hk3 Hr8). pose proof (Z.mod_pos_bound rel (2 ^ k) (pow2_pos k Hk)).
    cbv beta in Hx. lia.
Qed.

Lemma atomic_confined pd rkey address swap compare res dir m :
  pd_safe pd -> 0 <= address < 2 ^ 64 -> address mod 8 = 0 ->
  exists st r m', pib_util_mr_atomic pd rkey address swap compare res dir m = Some (st, r, m')
    /\ changed_in (granted pd IB_ACCESS_REMOTE_ATOMIC) m m'.
Proof.
  intros (Hpd & Hf & Hal) Ha H8. unfold pib_util_mr_atomic.
  destruct (pd_mr_table pd !! mr_index rkey) as [mr|] eqn:E; [|eexists _, _, _; split; [done|apply changed_in_refl]].
  case_bool_decide as Hst; [eexists _, _, _; split; [done|apply changed_in_refl]|].
  destruct (negb (rkey =? mr_rkey mr)); [eexists _, _, _; split; [done|apply changed_in_refl]|].
  destruct (Z.eqb_spec (Z.land (mr_access_flags mr) IB_ACCESS_REMOTE_ATOMIC) IB_ACCESS_REMOTE_ATOMIC) as [Hfl|]; cbn [negb];
    [|eexists _, _, _; split; [done|apply changed_in_refl]].
  destruct (out_of_region mr address 8) eqn:Eo; [eexists _, _, _; split; [done|apply changed_in_refl]|].
  assert (mr_state mr = PIB_MR_VALID) as Hv by (destruct (decide (mr_state mr = PIB_MR_VALID)); tauto).
  edestruct (mr_atomic_confined mr address swap compare) as (r & c' & -> & Hc);
    [by apply (Hpd _ _ E)|by apply (Hal _ _ E)|done|destruct dir; by auto|done|done|done|].
  simpl. assert (changed_in (granted pd IB_ACCESS_REMOTE_ATOMIC) m (c_mem c')).
  { eapply changed_in_mono; [|exact Hc]. intros x Hx. by exists (mr_index rkey), mr. }
  destruct (r =? 0); eexists _, _, _; by split.
Qed.

(** No invalidation takes effect. *)
Lemma invalidate_refused pd rkey : no_fast_reg pd -> pib_util_mr_invalidate rkey pd = (IB_WC_MW_BIND_ERR, pd).
Proof.
  intros Hf. unfold pib_util_mr_invalidate. destruct (pd_mr_table pd !! mr_index rkey) as [mr|] eqn:E; [|done].
  rewrite (Hf _ _ E). simpl. by case_bool_decide.
Qed.
