(* ===== verification/State.v ===== *)
(** * The state the queue-pair code works on

    The records of driver/pib.h for queue pairs, work queue entries, the saved
    responses and the scheduler, the device state a QP handler sees, and the
    accessors shared by the files that model handlers.  A handler is a
    computation of the state and failure monad over [st]: [None] is [BUG()] or
    undefined behaviour.

    Send work queue entries are preallocated objects that move between lists and
    are updated in place, so they live in a store indexed by [trace_id], which
    the driver makes unique within the QP, and lists hold indices. *)

From S2P Require Import Prelude Verbs Cq Srq Mr.

(** ** Module parameters and device attributes *)

(** The kernel's [HZ], the module parameters, the device attributes the QP code
    reads, the stream of values [pib_random] returns, and which of the atomic
    allocations succeed. *)
Class Params := {
  HZ : Z;
  pib_behavior : Z;
  pib_manner_warn : Z;
  pib_manner_err : Z;
  attr_max_qp_wr : Z;
  attr_max_sge : Z;
  attr_max_qp_init_rd_atom : Z;
  attr_max_qp_rd_atom : Z;
  attr_device_cap_flags : Z;
  phys_port_cnt : Z;
  pib_random_value : Z -> Z;
  kmem_alloc_ok : Z -> bool
}.

(** ** Queue pairs *)

Record ib_qp_cap := { max_send_wr : Z; max_recv_wr : Z; max_send_sge : Z; max_recv_sge : Z; max_inline_data : Z }.
#[export] Instance eta_ib_qp_cap : Eta ib_qp_cap := fun c =>
  {| max_send_wr := max_send_wr c; max_recv_wr := max_recv_wr c; max_send_sge := max_send_sge c;
     max_recv_sge := max_recv_sge c; max_inline_data := max_inline_data c |}.

(** struct ib_global_route (the GID is 16 bytes) and struct ib_ah_attr. *)
Record ib_global_route := { gr_dgid : list Z; gr_flow_label : Z; gr_sgid_index : Z; gr_hop_limit : Z; gr_traffic_class : Z }.
Record ib_ah_attr := { ah_grh : ib_global_route; ah_dlid : Z; ah_sl : Z; ah_src_path_bits : Z; ah_ah_flags : Z; ah_port_num : Z }.

Record ib_qp_attr := {
  a_path_mtu : Z; a_qkey : Z; a_dest_qp_num : Z; a_qp_access_flags : Z; a_cap : ib_qp_cap;
  a_ah_attr : ib_ah_attr; a_alt_ah_attr : ib_ah_attr; a_pkey_index : Z; a_alt_pkey_index : Z;
  a_en_sqd_async_notify : bool; a_max_rd_atomic : Z; a_max_dest_rd_atomic : Z; a_min_rnr_timer : Z;
  a_port_num : Z; a_timeout : Z; a_retry_cnt : Z; a_rnr_retry : Z; a_path_mig_state : Z;
  (* the fields below are arguments of a modify only *)
  a_qp_state : ib_qp_state; a_cur_qp_state : ib_qp_state; a_rq_psn : Z; a_sq_psn : Z; a_sq_draining : bool
}.
#[export] Instance eta_ib_qp_attr : Eta ib_qp_attr := fun a =>
  {| a_path_mtu := a_path_mtu a; a_qkey := a_qkey a; a_dest_qp_num := a_dest_qp_num a;
     a_qp_access_flags := a_qp_access_flags a; a_cap := a_cap a; a_ah_attr := a_ah_attr a;
     a_alt_ah_attr := a_alt_ah_attr a; a_pkey_index := a_pkey_index a; a_alt_pkey_index := a_alt_pkey_index a;
     a_en_sqd_async_notify := a_en_sqd_async_notify a; a_max_rd_atomic := a_max_rd_atomic a;
     a_max_dest_rd_atomic := a_max_dest_rd_atomic a; a_min_rnr_timer := a_min_rnr_timer a;
     a_port_num := a_port_num a; a_timeout := a_timeout a; a_retry_cnt := a_retry_cnt a;
     a_rnr_retry := a_rnr_retry a; a_path_mig_state := a_path_mig_state a; a_qp_state := a_qp_state a;
     a_cur_qp_state := a_cur_qp_state a; a_rq_psn := a_rq_psn a; a_sq_psn := a_sq_psn a;
     a_sq_draining := a_sq_draining a |}.

Record ib_qp_init_attr := {
  i_send_cq : option Z; i_recv_cq : option Z; i_srq : option Z; i_cap : ib_qp_cap;
  i_sq_sig_all : bool; i_qp_type : ib_qp_type; i_port_num : Z }.

(** struct pib_swqe_processing *)
Record pib_swqe_processing := {
  p_list_type : pib_swqe_list; p_status : ib_wc_status; p_based_psn : Z; p_expected_psn : Z;
  p_all_packets : Z; p_ack_packets : Z; p_sent_packets : Z; p_schedule_time : Z; p_local_ack_time : Z;
  p_retry_cnt : Z; p_rnr_retry : Z; p_done : bool }.
#[export] Instance eta_pib_swqe_processing : Eta pib_swqe_processing := fun p =>
  {| p_list_type := p_list_type p; p_status := p_status p; p_based_psn := p_based_psn p;
     p_expected_psn := p_expected_psn p; p_all_packets := p_all_packets p; p_ack_packets := p_ack_packets p;
     p_sent_packets := p_sent_packets p; p_schedule_time := p_schedule_time p;
     p_local_ack_time := p_local_ack_time p; p_retry_cnt := p_retry_cnt p; p_rnr_retry := p_rnr_retry p;
     p_done := p_done p |}.
Definition processing_zero : pib_swqe_processing :=
  {| p_list_type := PIB_SWQE_FREE; p_status := IB_WC_SUCCESS; p_based_psn := 0; p_expected_psn := 0;
     p_all_packets := 0; p_ack_packets := 0; p_sent_packets := 0; p_schedule_time := 0; p_local_ack_time := 0;
     p_retry_cnt := 0; p_rnr_retry := 0; p_done := false |}.

(** The union [wr] of a work request; [WrNone] is the zeroed union.  An address
    handle is given by its number and the number of its PD. *)
Inductive send_wr :=
| WrNone
| WrRdma (remote_addr rkey : Z)
| WrAtomic (remote_addr compare_add swap rkey : Z)
| WrUd (ah : option (Z * Z)) (remote_qpn remote_qkey pkey_index port_num : Z)
| WrFastReg (iova_start : Z) (page_list : list Z) (pl_max page_shift page_list_len length access_flags rkey : Z).

Record pib_send_wqe := {
  w_wr_id : Z; w_opcode : Z; w_local_only_request : bool; w_send_flags : Z; w_total_length : Z;
  w_sge_array : list ib_sge; w_processing : pib_swqe_processing;
  w_ex : Z;                                (* imm_data or invalidate_rkey *)
  w_inline_data_buffer : option (list Z);  (* None: NULL *)
  w_wr : send_wr }.
#[export] Instance eta_pib_send_wqe : Eta pib_send_wqe := fun w =>
  {| w_wr_id := w_wr_id w; w_opcode := w_opcode w; w_local_only_request := w_local_only_request w;
     w_send_flags := w_send_flags w; w_total_length := w_total_length w; w_sge_array := w_sge_array w;
     w_processing := w_processing w; w_ex := w_ex w; w_inline_data_buffer := w_inline_data_buffer w;
     w_wr := w_wr w |}.

(** struct pib_rd_atom_slot; the 64-bit members of its union share storage. *)
Record pib_rd_atom_slot := {
  slot_psn : Z; slot_expected_psn : Z; slot_OpCode : Z;
  slot_vaddress_res : Z; slot_rkey : Z; slot_dmalen : Z }.
#[export] Instance eta_pib_rd_atom_slot : Eta pib_rd_atom_slot := fun s =>
  {| slot_psn := slot_psn s; slot_expected_psn := slot_expected_psn s; slot_OpCode := slot_OpCode s;
     slot_vaddress_res := slot_vaddress_res s; slot_rkey := slot_rkey s; slot_dmalen := slot_dmalen s |}.
Definition slot_zero : pib_rd_atom_slot :=
  {| slot_psn := 0; slot_expected_psn := 0; slot_OpCode := 0; slot_vaddress_res := 0; slot_rkey := 0; slot_dmalen := 0 |}.

(** struct pib_ack; likewise. *)
Record pib_ack := {
  ack_type : pib_ack_type; ack_psn : Z; ack_expected_psn : Z; ack_msn : Z; ack_syndrome : Z;
  ack_vaddress_res : Z; ack_rkey : Z; ack_size : Z; ack_offset : Z }.
#[export] Instance eta_pib_ack : Eta pib_ack := fun a =>
  {| ack_type := ack_type a; ack_psn := ack_psn a; ack_expected_psn := ack_expected_psn a; ack_msn := ack_msn a;
     ack_syndrome := ack_syndrome a; ack_vaddress_res := ack_vaddress_res a; ack_rkey := ack_rkey a;
     ack_size := ack_size a; ack_offset := ack_offset a |}.

Record requester_t := {
  rq_psn : Z; rq_expected_psn : Z;
  rq_nr_submitted : Z; rq_submitted : list Z;
  rq_nr_sending : Z; rq_sending : list Z;
  rq_nr_waiting : Z; rq_waiting : list Z;
  rq_max_rd_atomic : Z; rq_nr_rd_atomic : Z;
  rq_free : list Z;
  rq_swqes : gmap Z pib_send_wqe;
  rq_nr_contig_requests : Z; rq_nr_contig_read_acks : Z }.
#[export] Instance eta_requester_t : Eta requester_t := fun r =>
  {| rq_psn := rq_psn r; rq_expected_psn := rq_expected_psn r; rq_nr_submitted := rq_nr_submitted r;
     rq_submitted := rq_submitted r; rq_nr_sending := rq_nr_sending r; rq_sending := rq_sending r;
     rq_nr_waiting := rq_nr_waiting r; rq_waiting := rq_waiting r; rq_max_rd_atomic := rq_max_rd_atomic r;
     rq_nr_rd_atomic := rq_nr_rd_atomic r; rq_free := rq_free r; rq_swqes := rq_swqes r;
     rq_nr_contig_requests := rq_nr_contig_requests r; rq_nr_contig_read_acks := rq_nr_contig_read_acks r |}.

Record responder_t := {
  rs_psn : Z; rs_nr_recv_wqe : Z; rs_recv_wqes : list pib_recv_wqe; rs_nr_rd_atomic : Z; rs_acks : list pib_ack;
  rs_free_rwqes : list pib_recv_wqe; rs_last_OpCode : Z; rs_offset : Z;
  rs_wr_vaddr : Z; rs_wr_rkey : Z; rs_wr_dmalen : Z;
  rs_slot_index : Z; rs_slots : list pib_rd_atom_slot; rs_nr_contig_read_acks : Z }.
#[export] Instance eta_responder_t : Eta responder_t := fun r =>
  {| rs_psn := rs_psn r; rs_nr_recv_wqe := rs_nr_recv_wqe r; rs_recv_wqes := rs_recv_wqes r;
     rs_nr_rd_atomic := rs_nr_rd_atomic r; rs_acks := rs_acks r; rs_free_rwqes := rs_free_rwqes r;
     rs_last_OpCode := rs_last_OpCode r; rs_offset := rs_offset r; rs_wr_vaddr := rs_wr_vaddr r;
     rs_wr_rkey := rs_wr_rkey r; rs_wr_dmalen := rs_wr_dmalen r; rs_slot_index := rs_slot_index r;
     rs_slots := rs_slots r; rs_nr_contig_read_acks := rs_nr_contig_read_acks r |}.

Record pib_qp := {
  qp_num : Z; qp_pd : Z; qp_type : ib_qp_type; qp_state : ib_qp_state; qp_send_cq : Z; qp_recv_cq : Z;
  qp_attr : ib_qp_attr; qp_init_attr : ib_qp_init_attr; qp_event_handler : bool; qp_local_ack_timeout : Z;
  qp_sched_on : bool; qp_sched_time : Z; qp_sched_tid : Z;
  qp_requester : requester_t; qp_responder : responder_t;
  qp_push_rcqe : bool; qp_issue_comm_est : bool; qp_issue_sq_drained : bool; qp_issue_last_wqe_reached : bool }.
#[export] Instance eta_pib_qp : Eta pib_qp := fun q =>
  {| qp_num := qp_num q; qp_pd := qp_pd q; qp_type := qp_type q; qp_state := qp_state q;
     qp_send_cq := qp_send_cq q; qp_recv_cq := qp_recv_cq q; qp_attr := qp_attr q;
     qp_init_attr := qp_init_attr q; qp_event_handler := qp_event_handler q;
     qp_local_ack_timeout := qp_local_ack_timeout q; qp_sched_on := qp_sched_on q;
     qp_sched_time := qp_sched_time q; qp_sched_tid := qp_sched_tid q; qp_requester := qp_requester q;
     qp_responder := qp_responder q; qp_push_rcqe := qp_push_rcqe q; qp_issue_comm_est := qp_issue_comm_est q;
     qp_issue_sq_drained := qp_issue_sq_drained q; qp_issue_last_wqe_reached := qp_issue_last_wqe_reached q |}.

(** ** The device as a QP handler sees it *)

(** The QP as an object: a QP with a number of its own by the number, the QP0 and QP1
    of a port by numbers below zero, since every port has them. *)
Definition qp_id (q : pib_qp) : Z :=
  match qp_type q with
  | IB_QPT_SMI | IB_QPT_GSI => - (2 * i_port_num (qp_init_attr q) + qp_num q)
  | _ => qp_num q
  end.

(** One node of the scheduler's red-black tree: the key and the QP. *)
Record sched_ent := { se_time : Z; se_tid : Z; se_qp : Z }.
(** dev->qp_sched; the tree is its in-order sequence. *)
Record pib_qp_sched := { qs_wakeup_time : Z; qs_master_tid : Z; qs_tree : list sched_ent }.
#[export] Instance eta_pib_qp_sched : Eta pib_qp_sched := fun q =>
  {| qs_wakeup_time := qs_wakeup_time q; qs_master_tid := qs_master_tid q; qs_tree := qs_tree q |}.

(** The port attributes the QP code reads; [__be16] table entries are raw. *)
Record pib_port := { port_lid : Z; port_active_mtu : Z; port_pkey_table : list Z; port_gid0_prefix : list Z;
  port_gids : list (list Z) }.

(** dev->thread: the packet being built and where it goes. *)
Record pib_thread := {
  th_send_buffer : list Z; th_port_num : Z; th_slid : Z; th_dlid : Z; th_src_qp_num : Z; th_trace_id : Z;
  th_ready_to_send : bool }.
#[export] Instance eta_pib_thread : Eta pib_thread := fun t =>
  {| th_send_buffer := th_send_buffer t; th_port_num := th_port_num t; th_slid := th_slid t; th_dlid := th_dlid t;
     th_src_qp_num := th_src_qp_num t; th_trace_id := th_trace_id t; th_ready_to_send := th_ready_to_send t |}.

(** [st_qp] is the QP the handler runs on (its lock is held); [st_now] is the
    value of [jiffies], which a handler reads as one instant; [st_rnd] and
    [st_allocs] count the random values drawn and the allocations made. *)
Record st := {
  st_qp : pib_qp;
  st_cqs : gmap Z pib_cq;
  st_srqs : gmap Z pib_srq;
  st_pd : Mr.pib_pd;
  st_mem : mem;
  st_ports : gmap Z pib_port;
  st_sched : pib_qp_sched;
  st_qp_schedule_flag : bool;
  st_now : Z;
  st_rnd : Z;
  st_events : list pib_event;
  st_thread : pib_thread;
  st_allocs : Z }.
#[export] Instance eta_st : Eta st := fun s =>
  {| st_qp := st_qp s; st_cqs := st_cqs s; st_srqs := st_srqs s; st_pd := st_pd s; st_mem := st_mem s;
     st_ports := st_ports s; st_sched := st_sched s; st_qp_schedule_flag := st_qp_schedule_flag s;
     st_now := st_now s; st_rnd := st_rnd s; st_events := st_events s;
     st_thread := st_thread s; st_allocs := st_allocs s |}.

Definition upd_qp (f : pib_qp -> pib_qp) : M st unit := modify (fun s => s <| st_qp ::= f |>).
Definition upd_req (f : requester_t -> requester_t) : M st unit := upd_qp (fun q => q <| qp_requester ::= f |>).
Definition upd_rsp (f : responder_t -> responder_t) : M st unit := upd_qp (fun q => q <| qp_responder ::= f |>).
Definition the_qp : M st pib_qp := gets st_qp.
Definition the_req : M st requester_t := gets (fun s => qp_requester (st_qp s)).
Definition the_rsp : M st responder_t := gets (fun s => qp_responder (st_qp s)).
Definition emit (evs : list pib_event) : M st unit := modify (fun s => s <| st_events ::= fun l => l ++ evs |>).

(** kmem_cache_zalloc(..., GFP_ATOMIC): whether it succeeds. *)
Definition kmem_cache_zalloc {PP : Params} : M st bool :=
  let! n := gets st_allocs in
  modify (fun s => s <| st_allocs ::= Z.add 1 |>) ;;
  ret (kmem_alloc_ok n).

(** A work queue entry through its pointer. *)
Definition get_swqe (id : Z) : M st pib_send_wqe :=
  let! r := the_req in of_option (rq_swqes r !! id).
Definition upd_swqe (id : Z) (f : pib_send_wqe -> pib_send_wqe) : M st unit :=
  upd_req (fun r => r <| rq_swqes ::= alter f id |>).
Definition upd_proc (id : Z) (f : pib_swqe_processing -> pib_swqe_processing) : M st unit :=
  upd_swqe id (fun w => w <| w_processing ::= f |>).

(** [list_del_init] of an entry, whichever list of the QP it is on. *)
Definition del (id : Z) (l : list Z) : list Z := List.filter (fun k => negb (k =? id)) l.
Definition swqe_list_del (id : Z) : M st unit :=
  upd_req (fun r => r <| rq_submitted ::= del id |> <| rq_sending ::= del id |> <| rq_waiting ::= del id |>
                      <| rq_free ::= del id |>).

(** ** Time *)

(** jiffies arithmetic on a 64-bit unsigned long. *)
Definition time_after (a b : Z) : bool := s64 (b - a) <? 0.
Definition time_before (a b : Z) : bool := time_after b a.
Definition time_before_eq (a b : Z) : bool := 0 <=? s64 (b - a).

(** ** Completion queues and events of a QP *)

Section Ops.
Context {PP : Params}.

Definition smi_port_of (q : pib_qp) : option Z :=
  match qp_type q with IB_QPT_SMI => Some (i_port_num (qp_init_attr q)) | _ => None end.

Definition with_cq (c : Z) (f : pib_cq -> Z * list pib_event * pib_cq) : M st Z :=
  let! s := get in
  match st_cqs s !! c with
  | None => bug
  | Some cq => let '(r, ev, cq') := f cq in
      modify (fun s => s <| st_cqs ::= <[c := cq']> |>) ;; emit ev ;; ret r
  end.

Definition qp_insert_wc_error (c wr_id : Z) (status : ib_wc_status) (opcode : Z) : M st unit :=
  let! q := the_qp in
  let! n := gets st_rnd in
  with_cq c (pib_util_insert_wc_error pib_behavior (fun k => pib_random_value (n + k)) (smi_port_of q)
               (qp_num q) wr_id status opcode) ;;
  when (param_bit pib_behavior PIB_BEHAVIOR_CORRUPT_INVALID_WC_ATTRS)
    (modify (fun s => s <| st_rnd ::= Z.add 8 |>)).

Definition qp_insert_wc_success (c : Z) (wc : ib_wc) (solicited : bool) : M st Z :=
  let! q := the_qp in
  with_cq c (pib_util_insert_wc_success (smi_port_of q) wc solicited).

(** pib_util_insert_async_qp_error and pib_util_insert_async_qp_event *)
Definition pib_util_insert_async_qp_error (event : ib_event_type) : M st unit :=
  let! q := the_qp in
  when (qp_event_handler q) (emit [EvQp (qp_num q) event]).
Definition pib_util_insert_async_qp_event (event : ib_event_type) : M st unit :=
  pib_util_insert_async_qp_error event.

Definition pib_util_free_send_wqe (id : Z) : M st unit :=
  upd_req (fun r => r <| rq_free ::= fun f => f ++ [id] |>).

Definition pib_util_free_recv_wqe : M st unit :=
  let! q := the_qp in
  match i_srq (qp_init_attr q) with
  | Some n =>
      let! s := get in
      match st_srqs s !! n with
      | None => bug
      | Some srq => modify (fun s => s <| st_srqs ::= <[n := srq_free_recv_wqe rwqe_zero srq]> |>)
      end
  | None => upd_rsp (fun r => r <| rs_free_rwqes ::= fun f => f ++ [rwqe_zero] |>)
  end.

End Ops.
