(* ===== verification/Demo.v ===== *)
(** * A concrete device

    One RC queue pair in RTS with a request on each of its lists, two completion
    queues, one port, one registered memory region: the state on which the
    theorems about queue-pair handlers are instantiated. *)

From S2P Require Import Prelude Verbs Cq Srq Mr State.

Definition demo_params : Params := {|
  HZ := 1000; pib_behavior := 0; pib_manner_warn := 0; pib_manner_err := 0; attr_max_qp_wr := 16351;
  attr_max_sge := 32; attr_max_qp_init_rd_atom := 16; attr_max_qp_rd_atom := 16; attr_device_cap_flags := 0;
  phys_port_cnt := 1; pib_random_value := fun k => k; kmem_alloc_ok := fun _ => true |}.

Definition demo_cap : ib_qp_cap :=
  {| max_send_wr := 5; max_recv_wr := 2; max_send_sge := 4; max_recv_sge := 4; max_inline_data := 64 |}.
Definition demo_ah : ib_ah_attr :=
  {| ah_grh := {| gr_dgid := []; gr_flow_label := 0; gr_sgid_index := 0; gr_hop_limit := 0; gr_traffic_class := 0 |};
     ah_dlid := 2; ah_sl := 0; ah_src_path_bits := 0; ah_ah_flags := 0; ah_port_num := 1 |}.
Definition demo_attr : ib_qp_attr :=
  {| a_path_mtu := 1; a_qkey := 0; a_dest_qp_num := 9; a_qp_access_flags := 15; a_cap := demo_cap;
     a_ah_attr := demo_ah; a_alt_ah_attr := demo_ah; a_pkey_index := 0; a_alt_pkey_index := 0;
     a_en_sqd_async_notify := false; a_max_rd_atomic := 4; a_max_dest_rd_atomic := 4; a_min_rnr_timer := 1;
     a_port_num := 1; a_timeout := 14; a_retry_cnt := 7; a_rnr_retry := 3; a_path_mig_state := 0;
     a_qp_state := IB_QPS_ERR; a_cur_qp_state := IB_QPS_RTS; a_rq_psn := 0; a_sq_psn := 0; a_sq_draining := false |}.

(** A SEND of [len] bytes on the list [ty]. *)
Definition demo_swqe (wr_id len : Z) (ty : pib_swqe_list) (psn npkt sent : Z) : pib_send_wqe :=
  {| w_wr_id := wr_id; w_opcode := IB_WR_SEND; w_local_only_request := false; w_send_flags := IB_SEND_SIGNALED;
     w_total_length := len; w_sge_array := [{| sge_addr := 0x10010; sge_length := len; sge_lkey := 0x100000 |}];
     w_processing := {| p_list_type := ty; p_status := IB_WC_SUCCESS; p_based_psn := psn; p_expected_psn := psn + npkt;
       p_all_packets := npkt; p_ack_packets := 0; p_sent_packets := sent; p_schedule_time := 1000;
       p_local_ack_time := 1100; p_retry_cnt := 7; p_rnr_retry := 3; p_done := false |};
     w_ex := 0; w_inline_data_buffer := Some []; w_wr := WrNone |}.

Definition demo_swqes : gmap Z pib_send_wqe :=
  list_to_map [(0, demo_swqe 0 0 PIB_SWQE_FREE 0 0 0); (1, demo_swqe 101 700 PIB_SWQE_SUBMITTED 0 0 0);
    (2, demo_swqe 102 600 PIB_SWQE_SENDING 12 3 1); (3, demo_swqe 103 500 PIB_SWQE_WAITING 10 2 2);
    (4, demo_swqe 0 0 PIB_SWQE_FREE 0 0 0)].

Definition demo_requester : requester_t :=
  {| rq_psn := 15; rq_expected_psn := 10; rq_nr_submitted := 1; rq_submitted := [1]; rq_nr_sending := 1;
     rq_sending := [2]; rq_nr_waiting := 1; rq_waiting := [3]; rq_max_rd_atomic := 4; rq_nr_rd_atomic := 0;
     rq_free := [0; 4]; rq_swqes := demo_swqes; rq_nr_contig_requests := 0; rq_nr_contig_read_acks := 0 |}.

Definition demo_rwqe : pib_recv_wqe :=
  {| rwqe_wr_id := 201; rwqe_total_length := 600;
     rwqe_sge_array := [{| sge_addr := 0x10010; sge_length := 600; sge_lkey := 0x100000 |}] |}.

Definition demo_responder : responder_t :=
  {| rs_psn := 20; rs_nr_recv_wqe := 1; rs_recv_wqes := [demo_rwqe]; rs_nr_rd_atomic := 0; rs_acks := [];
     rs_free_rwqes := [rwqe_zero]; rs_last_OpCode := IB_OPCODE_SEND_ONLY; rs_offset := 0; rs_wr_vaddr := 0;
     rs_wr_rkey := 0; rs_wr_dmalen := 0; rs_slot_index := 0;
     rs_slots := replicate (Z.to_nat PIB_MAX_RD_ATOM) slot_zero; rs_nr_contig_read_acks := 0 |}.

Definition demo_qp : pib_qp :=
  {| qp_num := 7; qp_pd := 1; qp_type := IB_QPT_RC; qp_state := IB_QPS_RTS; qp_send_cq := 1; qp_recv_cq := 2;
     qp_attr := demo_attr;
     qp_init_attr := {| i_send_cq := Some 1; i_recv_cq := Some 2; i_srq := None; i_cap := demo_cap;
                        i_sq_sig_all := true; i_qp_type := IB_QPT_RC; i_port_num := 1 |};
     qp_event_handler := true; qp_local_ack_timeout := 67; qp_sched_on := true; qp_sched_time := 1000; qp_sched_tid := 5;
     qp_requester := demo_requester; qp_responder := demo_responder;
     qp_push_rcqe := false; qp_issue_comm_est := false; qp_issue_sq_drained := false; qp_issue_last_wqe_reached := false |}.

Definition demo_cq (n : Z) : pib_cq :=
  {| cq_num := n; cq_cqe := 8; cq_state := PIB_STATE_OK; cq_notify_flag := 0; cq_has_notified := true;
     cq_nr_cqe := 0; cq_cqe_head := []; cq_free_cqe_head := replicate 8 cqe_zero |}.

Definition demo_mr : pib_mr :=
  {| mr_num := 3; mr_lkey := 0x100000; mr_rkey := 0x200000;
     mr_umem := Some {| um_offset := 0; um_page_size := 4096; um_pages := [Some 0x8000] |}; mr_state := PIB_MR_VALID;
     mr_is_fast_reg_mr := false; mr_is_dma := false; mr_start := 0x10000; mr_length := 4096; mr_virt_addr := 0x10000;
     mr_access_flags := 15; mr_max_page_list_len := 0; mr_page_list_len := 0; mr_page_list := []; mr_page_shift := 0 |}.

Definition demo_st : st :=
  {| st_qp := demo_qp; st_cqs := list_to_map [(1, demo_cq 1); (2, demo_cq 2)]; st_srqs := empty;
     st_pd := {| pd_num := 1; pd_nr_mr := 1; pd_mr_table := {[ 0 := demo_mr ]} |}; st_mem := mem_example;
     st_ports := {[ 1 := {| port_lid := 1; port_active_mtu := IB_MTU_4096; port_pkey_table := [0xFFFF];
                            port_gid0_prefix := []; port_gids := [] |} ]};
     st_sched := {| qs_wakeup_time := 990; qs_master_tid := 6;
                    qs_tree := [{| se_time := 990; se_tid := 3; se_qp := 8 |}; {| se_time := 1000; se_tid := 5; se_qp := 7 |}] |};
     st_qp_schedule_flag := false; st_now := 1000; st_rnd := 0; st_events := [];
     st_thread := {| th_send_buffer := replicate (Z.to_nat PIB_PACKET_BUFFER) 0; th_port_num := 0; th_slid := 0; th_dlid := 0; th_src_qp_num := 0;
                     th_trace_id := 0; th_ready_to_send := false |};
     st_allocs := 0 |}.
