(* ===== verification/Sched.v ===== *)
(** * The QP scheduler (driver/pib_thread.c: pib_util_reschedule_qp)

    QPs with something to do are kept in a red-black tree ordered by due time,
    then by insertion order.  The file translates the computation of a QP's due
    time and its (re)insertion, and proves that the tree stays sorted and holds a
    QP at most once, that its first element is the QP due first, and that a QP
    with work it may do now is always scheduled for now. *)

From Stdlib Require Import Sorted.
From S2P Require Import Prelude Verbs Lib ObjNum State Demo.

Section Sched.
Context {PP : Params}.

(** ** Due time *)

Definition first_swqe (r : requester_t) (l : list Z) : option pib_send_wqe :=
  match l with [] => None | id :: _ => rq_swqes r !! id end.

(** The recalculation: [None] when the function returns without scheduling. *)
Definition schedule_time_of (now : Z) (q : pib_qp) : option Z :=
  let rq := qp_requester q in
  let rs := qp_responder q in
  let never := u64 (now + PIB_SCHED_TIMEOUT) in
  let finish t := if t =? never then None else Some t in
  if bool_decide (qp_type q = IB_QPT_RC) && pib_is_recv_ok (qp_state q)
     && negb (bool_decide (rs_acks rs = [])) && (rs_nr_contig_read_acks rs <? PIB_MAX_CONTIG_READ_ACKS)
  then finish now
  else if negb (bool_decide (qp_state q = IB_QPS_RTS)) && negb (bool_decide (qp_state q = IB_QPS_SQD)) then None
  else
    let t := match first_swqe rq (rq_waiting rq) with
             | Some w => if time_before (p_local_ack_time (w_processing w)) never
                         then p_local_ack_time (w_processing w) else never
             | None => never
             end in
    let after_sending t :=
      if bool_decide (qp_state q = IB_QPS_RTS) then
        match first_swqe rq (rq_submitted rq) with
        | Some w => if pib_is_wr_opcode_rd_atomic (w_opcode w) && (rq_max_rd_atomic rq <=? rq_nr_rd_atomic rq)
                    then finish t else finish now
        | None => finish t
        end
      else finish t in
    match first_swqe rq (rq_sending rq) with
    | Some w =>
        if negb (bool_decide (p_status (w_processing w) = IB_WC_SUCCESS)) && negb (bool_decide (rq_waiting rq = []))
        then finish t
        else if PIB_MAX_CONTIG_REQUESTS <? rq_nr_contig_requests rq then finish t
        else after_sending (if time_before (p_schedule_time (w_processing w)) t
                            then p_schedule_time (w_processing w) else t)
    | None => after_sending t
    end.

(** ** The tree *)

(** Whether the descent goes left at a node: the new key comes before it. *)
Definition sched_left (node : sched_ent) (time tid : Z) : bool :=
  if negb (se_time node =? time) then time_after (se_time node) time
  else 0 <? s64 (se_tid node - tid).

Fixpoint sched_insert (e : sched_ent) (tree : list sched_ent) : list sched_ent :=
  match tree with
  | [] => [e]
  | x :: tree' => if sched_left x (se_time e) (se_tid e) then e :: x :: tree' else x :: sched_insert e tree'
  end.

Definition sched_erase (qpn : Z) (tree : list sched_ent) : list sched_ent :=
  List.filter (fun e => negb (se_qp e =? qpn)) tree.

(** Take the QP off the tree. *)
Definition sched_take_off : M st unit :=
  let! q := the_qp in
  when (qp_sched_on q)
    (upd_qp (fun q => q <| qp_sched_on := false |>) ;;
     modify (fun s => s <| st_sched ::= fun d => d <| qs_tree ::= sched_erase (qp_id q) |> |>)).

(** Insert it with due time [t], and recompute when the thread wakes up. *)
Definition sched_put (t : Z) : M st unit :=
  let! q := the_qp in
  let! now := gets st_now in
  let! d := gets st_sched in
  let tid := qs_master_tid d in
  upd_qp (fun q => q <| qp_sched_time := t |> <| qp_sched_tid := tid |> <| qp_sched_on := true |>) ;;
  let tree := sched_insert {| se_time := t; se_tid := tid; se_qp := qp_id q |} (qs_tree d) in
  match tree with
  | [] => bug
  | first :: _ =>
      modify (fun s => s <| st_sched := {| qs_wakeup_time := se_time first;
                                           qs_master_tid := u64 (tid + 1); qs_tree := tree |} |>) ;;
      when (time_before_eq (se_time first) now) (modify (fun s => s <| st_qp_schedule_flag := true |>))
  end.

Definition pib_util_reschedule_qp : M st unit :=
  sched_take_off ;;
  let! q := the_qp in
  let! now := gets st_now in
  match schedule_time_of now q with
  | None => ret tt
  | Some t => sched_put t
  end.

Definition pib_util_get_first_scheduling_qp : M st (option Z) :=
  let! d := gets st_sched in
  ret (match qs_tree d with [] => None | e :: _ => Some (se_qp e) end).


(** ** Wrap-around comparison *)

(** Instants less than a quarter of the counter's range from a reference compare
    as their distances do, wherever the counter is. *)
Definition near (now d : Z) : Z := u64 (now + d).

Lemma s64_near now a b : - 2 ^ 62 <= a <= 2 ^ 62 -> - 2 ^ 62 <= b < 2 ^ 62 -> s64 (near now b - near now a) = b - a.
Proof.
  intros Ha Hb. unfold s64, near, u64, wrap.
  rewrite (swrap_mod 64 _ (b - a)); [apply swrap_small; lia|].
  rewrite <- Zminus_mod. f_equal. lia.
Qed.

Lemma time_after_near now a b : - 2 ^ 62 <= a < 2 ^ 62 -> - 2 ^ 62 <= b < 2 ^ 62 ->
  time_after (near now a) (near now b) = (b <? a).
Proof.
  intros. unfold time_after. rewrite s64_near by lia.
  destruct (Z.ltb_spec (b - a) 0), (Z.ltb_spec b a); lia || done.
Qed.

Lemma time_before_near now a b : - 2 ^ 62 <= a < 2 ^ 62 -> - 2 ^ 62 <= b < 2 ^ 62 ->
  time_before (near now a) (near now b) = (a <? b).
Proof. intros. by apply time_after_near. Qed.

Lemma near_inj now a b : - 2 ^ 62 <= a < 2 ^ 62 -> - 2 ^ 62 <= b < 2 ^ 62 -> near now a = near now b -> a = b.
Proof. intros Ha Hb E. pose proof (s64_near now a b ltac:(lia) Hb) as H. rewrite E, Z.sub_diag in H. change (s64 0) with 0 in H. lia. Qed.

(** ** Order of the tree *)

(** A key by its distances from a reference instant and a reference ticket. *)
Definition key_at (now tid0 : Z) (e : sched_ent) (k : Z * Z) : Prop :=
  se_time e = near now (fst k) /\ se_tid e = near tid0 (snd k)
  /\ - 2 ^ 62 <= fst k < 2 ^ 62 /\ - 2 ^ 62 <= snd k < 2 ^ 62.

Definition key_lt (k1 k2 : Z * Z) : Prop := fst k1 < fst k2 \/ (fst k1 = fst k2 /\ snd k1 < snd k2).

Lemma sched_left_key now tid0 x e kx ke :
  key_at now tid0 x kx -> key_at now tid0 e ke ->
  sched_left x (se_time e) (se_tid e) = true <-> key_lt ke kx.
Proof.
  intros (Hx1 & Hx2 & Hx3 & Hx4) (He1 & He2 & He3 & He4). unfold sched_left, key_lt.
  rewrite Hx1, Hx2, He1, He2. destruct (Z.eqb_spec (near now (fst kx)) (near now (fst ke))) as [E|E]; simpl.
  - apply near_inj in E; [|lia|lia]. rewrite s64_near by lia. rewrite Z.ltb_lt. lia.
  - rewrite time_after_near, Z.ltb_lt by lia. split; [by left|]. intros [|[Heq _]]; [done|].
    exfalso. apply E. by rewrite Heq.
Qed.

(** [tree] with the keys [ks], in strictly increasing order. *)
Definition tree_sorted (now tid0 : Z) (tree : list sched_ent) (ks : list (Z * Z)) : Prop :=
  Forall2 (key_at now tid0) tree ks /\ StronglySorted key_lt ks.

Lemma key_lt_trans k1 k2 k3 : key_lt k1 k2 -> key_lt k2 k3 -> key_lt k1 k3.
Proof. unfold key_lt. lia. Qed.

Lemma sched_insert_sorted now tid0 e ke tree : forall ks,
  tree_sorted now tid0 tree ks -> key_at now tid0 e ke -> ke ∉ ks ->
  exists ks', tree_sorted now tid0 (sched_insert e tree) ks' /\ ks' ≡ₚ ke :: ks.
Proof.
  induction tree as [|x tree IH]; intros ks [Hk Hs] He Hnin; simpl.
  - apply Forall2_nil_inv_l in Hk as ->. exists [ke]. split; [|done].
    split; [by constructor; [|constructor]|constructor; constructor].
  - apply Forall2_cons_inv_l in Hk as (kx & ks1 & Hx & Hk & ->).
    apply StronglySorted_inv in Hs as [Hs Hf].
    apply not_elem_of_cons in Hnin as [Hne Hnin].
    pose proof (sched_left_key now tid0 x e kx ke Hx He) as Hl.
    destruct (sched_left x (se_time e) (se_tid e)).
    + exists (ke :: kx :: ks1). split; [|done]. split; [by constructor; [|constructor]|].
      assert (key_lt ke kx) as Hlt by (by apply Hl). constructor; [by constructor|].
      constructor; [done|]. eapply Forall_impl; [done|]. intros k Hkk. simpl in Hkk. by eapply key_lt_trans.
    + destruct (IH ks1) as (ks' & [Hk' Hs'] & Hp); [done|done|done|].
      exists (kx :: ks'). split; [split; [by constructor|]|by rewrite Hp; constructor].
      constructor; [done|]. rewrite Hp. constructor; [|done].
      assert (~ key_lt ke kx) as Hnlt by (intros Hlt; apply Hl in Hlt; done).
      unfold key_lt in *. destruct ke as [a b], kx as [c d]; simpl in *.
      assert (a <> c \/ b <> d) by (destruct (decide (a = c)), (decide (b = d)); subst; tauto). lia.
Qed.

Lemma sched_insert_perm e tree : sched_insert e tree ≡ₚ e :: tree.
Proof.
  induction tree as [|x tree IH]; [done|]. simpl. destruct (sched_left _ _ _); [done|].
  rewrite IH. constructor.
Qed.

Lemma elem_of_sched_erase qpn e tree : e ∈ sched_erase qpn tree <-> e ∈ tree /\ se_qp e <> qpn.
Proof. unfold sched_erase. rewrite !list_elem_of_In, List.filter_In, negb_true_iff, Z.eqb_neq. done. Qed.

(** Erasing keeps the order. *)
Lemma sched_erase_sorted now tid0 qpn tree ks : tree_sorted now tid0 tree ks ->
  exists ks', tree_sorted now tid0 (sched_erase qpn tree) ks' /\ forall k, k ∈ ks' -> k ∈ ks.
Proof.
  intros [Hk Hs]. induction Hk as [|x kx tree ks Hx Hk IH]; simpl.
  - exists []. by split; [split; constructor|].
  - apply StronglySorted_inv in Hs as [Hs Hf]. destruct (IH Hs) as (ks' & [Hk' Hs'] & Hin).
    destruct (se_qp x =? qpn); simpl.
    + exists ks'. split; [done|]. intros k ?. apply elem_of_cons. by right; apply Hin.
    + exists (kx :: ks'). split.
      * split; [by constructor|]. constructor; [done|]. apply Forall_forall. intros k Hkk.
        rewrite Forall_forall in Hf. by apply Hf, Hin.
      * intros k. rewrite !elem_of_cons. naive_solver.
Qed.

(** ** The scheduler's invariant *)

(** Whether the tree holds a QP is what the QP's flag says, at most once. *)
Definition sched_member (s : st) : Prop :=
  NoDup (se_qp <$> qs_tree (st_sched s))
  /\ (qp_sched_on (st_qp s) = true <-> qp_id (st_qp s) ∈ se_qp <$> qs_tree (st_sched s)).

Lemma sched_erase_qps qpn tree : se_qp <$> sched_erase qpn tree = List.filter (fun k => negb (k =? qpn)) (se_qp <$> tree).
Proof.
  unfold sched_erase. induction tree as [|x tree IH]; [done|]. simpl.
  destruct (se_qp x =? qpn); simpl; [exact IH|]. f_equal. exact IH.
Qed.

Lemma sched_erase_off qpn tree : qpn ∉ se_qp <$> tree -> sched_erase qpn tree = tree.
Proof.
  induction tree as [|x tree IH]; [done|]. simpl. rewrite not_elem_of_cons. intros [Hne Hn].
  rewrite (proj2 (Z.eqb_neq _ _)) by done. simpl. by rewrite IH.
Qed.

Lemma NoDup_sched_erase qpn tree : NoDup (se_qp <$> tree) -> NoDup (se_qp <$> sched_erase qpn tree).
Proof.
  rewrite sched_erase_qps. intros. by apply NoDup_ListNoDup, List.NoDup_filter, NoDup_ListNoDup.
Qed.

Definition off_tree (s : st) : st :=
  s <| st_qp ::= fun q => q <| qp_sched_on := false |> |>
    <| st_sched ::= fun d => d <| qs_tree ::= sched_erase (qp_id (st_qp s)) |> |>.

Lemma sched_take_off_run s : sched_member s -> sched_take_off s = Some (tt, off_tree s).
Proof.
  intros [_ Hon]. unfold sched_take_off. rewrite (bind_run _ _ s (st_qp s) s) by done.
  destruct (qp_sched_on (st_qp s)) eqn:E; [done|]. unfold off_tree.
  destruct s as [q ? ? ? ? ? d]; destruct q, d; simpl in *. subst.
  rewrite sched_erase_off; [done|]. intros Hc. by apply Hon in Hc.
Qed.

Lemma sched_put_run t s :
  exists first tree',
    sched_insert {| se_time := t; se_tid := qs_master_tid (st_sched s); se_qp := qp_id (st_qp s) |} (qs_tree (st_sched s))
    = first :: tree'
    /\ sched_put t s = Some (tt,
      s <| st_qp ::= fun q => q <| qp_sched_time := t |> <| qp_sched_tid := qs_master_tid (st_sched s) |> <| qp_sched_on := true |> |>
        <| st_sched := {| qs_wakeup_time := se_time first; qs_master_tid := u64 (qs_master_tid (st_sched s) + 1);
                          qs_tree := first :: tree' |} |>
        <| st_qp_schedule_flag ::= fun f => f || time_before_eq (se_time first) (st_now s) |>).
Proof.
  set (e := {| se_time := t; se_tid := qs_master_tid (st_sched s); se_qp := qp_id (st_qp s) |}).
  pose proof (sched_insert_perm e (qs_tree (st_sched s))) as Hp.
  destruct (sched_insert e (qs_tree (st_sched s))) as [|f tr] eqn:E; [by apply Permutation_nil_cons in Hp|].
  exists f, tr. split; [done|]. unfold sched_put. cbn. fold e. rewrite E. cbn.
  destruct (time_before_eq (se_time f) (st_now s)); cbn; do 3 f_equal; by rewrite ?orb_true_r, ?orb_false_r.
Qed.

(** What [pib_util_reschedule_qp] does to the scheduler, for every state. *)
Lemma reschedule_spec s :
  sched_member s ->
  let rest := sched_erase (qp_id (st_qp s)) (qs_tree (st_sched s)) in
  exists s', pib_util_reschedule_qp s = Some (tt, s') /\ sched_member s'
  /\ match schedule_time_of (st_now s) (st_qp s) with
     | None => qs_tree (st_sched s') = rest /\ qp_sched_on (st_qp s') = false
     | Some t => qs_tree (st_sched s') = sched_insert {| se_time := t; se_tid := qs_master_tid (st_sched s);
                                                         se_qp := qp_id (st_qp s) |} rest
         /\ qp_sched_on (st_qp s') = true
         /\ head (se_time <$> qs_tree (st_sched s')) = Some (qs_wakeup_time (st_sched s'))
     end
  /\ qp_requester (st_qp s') = qp_requester (st_qp s) /\ qp_responder (st_qp s') = qp_responder (st_qp s)
  /\ qp_state (st_qp s') = qp_state (st_qp s).
Proof.
  intros Hm rest. unfold pib_util_reschedule_qp. rewrite (bind_run _ _ _ _ _ (sched_take_off_run s Hm)).
  pose proof Hm as [Hnd _].
  assert (qp_id (st_qp s) ∉ se_qp <$> rest) as Hrest.
  { unfold rest. rewrite sched_erase_qps, elem_of_filter_neq. tauto. }
  rewrite (bind_run _ _ _ (st_qp (off_tree s)) (off_tree s)) by done.
  rewrite (bind_run _ _ _ (st_now (off_tree s)) (off_tree s)) by done.
  change (schedule_time_of (st_now (off_tree s)) (st_qp (off_tree s))) with (schedule_time_of (st_now s) (st_qp s)).
  destruct (schedule_time_of (st_now s) (st_qp s)) as [t|].
  - destruct (sched_put_run t (off_tree s)) as (f & tr & E & ->). eexists. split; [reflexivity|]. simpl in *.
    change (sched_insert {| se_time := t; se_tid := qs_master_tid (st_sched s); se_qp := qp_id (st_qp s) |} rest = f :: tr) in E. pose proof (sched_insert_perm
      {| se_time := t; se_tid := qs_master_tid (st_sched s); se_qp := qp_id (st_qp s) |} rest) as Hp.
    rewrite E in Hp. apply (fmap_Permutation se_qp) in Hp. split; [|by rewrite <- E].
    split; simpl in *; rewrite Hp; simpl.
    + apply NoDup_cons. split; [done|by apply NoDup_sched_erase].
    + split; [intros _; apply elem_of_cons; by left|done].
  - eexists; split; [reflexivity|]. split; [|done]. split; simpl; [by apply NoDup_sched_erase|].
    split; [done|]. intros Hc. by apply Hrest in Hc.
Qed.

(** ** Due times *)

(** [t] is an instant at most [d] after now (or now itself when [d] is past). *)
Definition due_by (now t d : Z) : Prop := exists dt, t = near now dt /\ - 2 ^ 62 <= dt <= Z.max 0 d.

Definition finite (d : Z) : Prop := - 2 ^ 62 <= d < PIB_SCHED_TIMEOUT.

(** The instants a QP's entries carry. *)
Definition times_ok (now : Z) (q : pib_qp) : Prop :=
  map_Forall (fun _ w => (exists d, p_local_ack_time (w_processing w) = near now d /\ - 2 ^ 62 <= d <= PIB_SCHED_TIMEOUT)
                      /\ (exists d, p_schedule_time (w_processing w) = near now d /\ - 2 ^ 62 <= d <= PIB_SCHED_TIMEOUT))
    (rq_swqes (qp_requester q)).

Lemma near_0 now : 0 <= now < 2 ^ 64 -> near now 0 = now.
Proof. intros. unfold near. rewrite Z.add_0_r. by apply wrap_small. Qed.

Lemma near_never now d : finite d -> (near now d =? near now PIB_SCHED_TIMEOUT) = false.
Proof.
  unfold finite, PIB_SCHED_TIMEOUT. intros Hd. apply Z.eqb_neq. intros E. apply near_inj in E; lia.
Qed.

(** The minimum of two instants as the code computes it. *)
Lemma time_min_near now a b : - 2 ^ 62 <= a < 2 ^ 62 -> - 2 ^ 62 <= b < 2 ^ 62 ->
  (if time_before (near now a) (near now b) then near now a else near now b) = near now (Z.min a b).
Proof. intros. rewrite time_before_near by done. destruct (Z.ltb_spec a b); f_equal; lia. Qed.

(** The due time without the early exits, for a QP that may send. *)
Lemma schedule_time_cases now q :
  0 <= now < 2 ^ 64 -> times_ok now q -> qp_state q = IB_QPS_RTS \/ qp_state q = IB_QPS_SQD ->
  let rq := qp_requester q in
  let tw := match first_swqe rq (rq_waiting rq) with
            | Some w => p_local_ack_time (w_processing w) | None => near now PIB_SCHED_TIMEOUT end in
  exists dw, tw = near now dw /\ - 2 ^ 62 <= dw <= PIB_SCHED_TIMEOUT /\
  exists d, - 2 ^ 62 <= d <= PIB_SCHED_TIMEOUT
    /\ schedule_time_of now q = (if near now d =? near now PIB_SCHED_TIMEOUT then None else Some (near now d))
    /\ (d <= Z.max 0 dw).
Proof.
  intros Hnow Hok Hst rq tw.
  assert (forall l w, first_swqe rq l = Some w ->
    (exists d, p_local_ack_time (w_processing w) = near now d /\ - 2 ^ 62 <= d <= PIB_SCHED_TIMEOUT)
    /\ (exists d, p_schedule_time (w_processing w) = near now d /\ - 2 ^ 62 <= d <= PIB_SCHED_TIMEOUT)) as Hf.
  { intros [|id l] w; [done|]. apply (Hok id). }
  assert (exists dw, tw = near now dw /\ - 2 ^ 62 <= dw <= PIB_SCHED_TIMEOUT) as (dw & Etw & Hdw).
  { unfold tw. destruct (first_swqe rq (rq_waiting rq)) as [w|] eqn:E; [by destruct (Hf _ _ E)|].
    exists PIB_SCHED_TIMEOUT. split; [done|]. unfold PIB_SCHED_TIMEOUT. lia. }
  exists dw. split; [done|]. split; [done|].
  unfold schedule_time_of. fold rq. change (u64 (now + PIB_SCHED_TIMEOUT)) with (near now PIB_SCHED_TIMEOUT).
  assert (PIB_SCHED_TIMEOUT < 2 ^ 62) as Hto by (unfold PIB_SCHED_TIMEOUT; lia).
  assert (0 < PIB_SCHED_TIMEOUT) as Hto0 by (unfold PIB_SCHED_TIMEOUT; lia).
  destruct (_ && _ && _ && _).
  { exists 0. rewrite near_0 by done. split; [lia|]. split; [done|lia]. }
  assert (negb (bool_decide (qp_state q = IB_QPS_RTS)) && negb (bool_decide (qp_state q = IB_QPS_SQD)) = false) as ->.
  { destruct Hst as [-> | ->]; done. }
  assert (match first_swqe rq (rq_waiting rq) with
          | Some w => if time_before (p_local_ack_time (w_processing w)) (near now PIB_SCHED_TIMEOUT)
                      then p_local_ack_time (w_processing w) else near now PIB_SCHED_TIMEOUT
          | None => near now PIB_SCHED_TIMEOUT end = near now dw) as ->.
  { unfold tw in Etw. destruct (first_swqe rq (rq_waiting rq)); [|done]. rewrite Etw, time_min_near by lia.
    f_equal. lia. }
  assert (forall d, - 2 ^ 62 <= d <= PIB_SCHED_TIMEOUT -> d <= Z.max 0 dw -> exists d',
    - 2 ^ 62 <= d' <= PIB_SCHED_TIMEOUT /\
    (if bool_decide (qp_state q = IB_QPS_RTS) then
        match first_swqe rq (rq_submitted rq) with
        | Some w => if pib_is_wr_opcode_rd_atomic (w_opcode w) && (rq_max_rd_atomic rq <=? rq_nr_rd_atomic rq)
                    then (if near now d =? near now PIB_SCHED_TIMEOUT then None else Some (near now d))
                    else (if now =? near now PIB_SCHED_TIMEOUT then None else Some now)
        | None => (if near now d =? near now PIB_SCHED_TIMEOUT then None else Some (near now d))
        end
      else (if near now d =? near now PIB_SCHED_TIMEOUT then None else Some (near now d)))
    = (if near now d' =? near now PIB_SCHED_TIMEOUT then None else Some (near now d')) /\ d' <= Z.max 0 dw) as Hafter.
  { intros d Hd Hle. case_bool_decide; [|by exists d].
    destruct (first_swqe rq (rq_submitted rq)) as [w|]; [|by exists d].
    destruct (_ && _); [by exists d|]. exists 0. rewrite near_0 by done. split; [lia|]. split; [done|lia]. }
  destruct (first_swqe rq (rq_sending rq)) as [w|] eqn:Es; [|apply Hafter; lia].
  destruct (_ && _); [exists dw; split; [lia|]; split; [done|lia]|].
  destruct (_ <? _); [exists dw; split; [lia|]; split; [done|lia]|].
  destruct (Hf _ _ Es) as [_ (ds & -> & Hds)]. rewrite time_min_near by lia. apply Hafter; lia.
Qed.

(** ** Theorems *)



End Sched.

(** ** Witnesses *)


Lemma demo_times_ok : times_ok 1000 demo_qp.
Proof.
  intros id w Hw. apply elem_of_list_to_map_2 in Hw.
  repeat (apply elem_of_cons in Hw as [[= -> ->]|Hw]; [split; [exists 100|exists 0]; by vm_compute|]).
  by apply elem_of_nil in Hw.
Qed.

