(* ===== verification/Qp.v ===== *)
(** * Queue pairs (driver/pib_qp.c)

    Creation, destruction, modification, posting of work requests, flushing and
    resetting.  The theorems: work queue entries are conserved, every entry being
    on exactly one list, with exact counters, under every operation; flushing
    completes every outstanding request once, in order; posting accepts a prefix
    of the chain. *)

From S2P Require Import Prelude Verbs Lib ObjNum Cq Srq Mr State Sched.

(** A send work request; [num_sge] is the length of [sg_list]. *)
Record ib_send_wr := { swr_wr_id : Z; swr_opcode : Z; swr_send_flags : Z; swr_sg_list : list ib_sge;
  swr_ex : Z; swr_wr : send_wr }.

Section Qp.
Context {PP : Params}.

(** ** Helpers *)

Definition get_send_wr_num (q : pib_qp) : Z :=
  let r := qp_requester q in rq_nr_submitted r + rq_nr_sending r + rq_nr_waiting r.

Definition flush_send_wqe (id : Z) : M st unit :=
  let! q := the_qp in
  let! w := get_swqe id in
  qp_insert_wc_error (qp_send_cq q) (w_wr_id w) IB_WC_WR_FLUSH_ERR (w_opcode w) ;;
  swqe_list_del id ;;
  pib_util_free_send_wqe id.

(** One receive entry of the flush loop: it is the first of the list. *)
Definition flush_recv_wqe (recv_wqe : pib_recv_wqe) : M st unit :=
  let! q := the_qp in
  qp_insert_wc_error (qp_recv_cq q) (rwqe_wr_id recv_wqe) IB_WC_WR_FLUSH_ERR IB_WC_RECV ;;
  upd_rsp (fun r => r <| rs_recv_wqes ::= tail |>) ;;
  pib_util_free_recv_wqe.

Definition reset_contig : M st unit :=
  upd_req (fun r => r <| rq_nr_contig_requests := 0 |> <| rq_nr_contig_read_acks := 0 |>) ;;
  upd_rsp (fun r => r <| rs_nr_contig_read_acks := 0 |>).

(** The three loops of [pib_util_flush_qp] over the send lists. *)
Definition flush_sends : M st unit :=
  let! r := the_req in
  for_each flush_send_wqe (rq_waiting r) ;;
  upd_req (fun r => r <| rq_nr_waiting := 0 |>) ;;
  let! r := the_req in
  for_each flush_send_wqe (rq_sending r) ;;
  upd_req (fun r => r <| rq_nr_sending := 0 |>) ;;
  let! r := the_req in
  for_each flush_send_wqe (rq_submitted r) ;;
  upd_req (fun r => r <| rq_nr_submitted := 0 |> <| rq_nr_rd_atomic := 0 |>).

Definition pib_util_flush_qp (send_only : bool) : M st unit :=
  flush_sends ;;
  if send_only then ret tt
  else
    let! s := the_rsp in
    for_each flush_recv_wqe (rs_recv_wqes s) ;;
    upd_rsp (fun r => r <| rs_nr_recv_wqe := 0 |> <| rs_acks := [] |> <| rs_nr_rd_atomic := 0 |>) ;;
    let! q := the_qp in
    when (negb (bool_decide (i_srq (qp_init_attr q) = None)) && qp_push_rcqe q && negb (qp_issue_last_wqe_reached q))
      (pib_util_insert_async_qp_event IB_EVENT_QP_LAST_WQE_REACHED ;;
       upd_qp (fun q => q <| qp_issue_last_wqe_reached := true |>)) ;;
    pib_util_reschedule_qp ;;
    reset_contig.

(** The loops of [reset_qp] over a list of send entries. *)
Fixpoint reset_send_loop (signal_all_wr : bool) (ids : list Z) (count : Z) : M st Z :=
  match ids with
  | [] => ret count
  | id :: ids' =>
      let! w := get_swqe id in
      swqe_list_del id ;;
      pib_util_free_send_wqe id ;;
      reset_send_loop signal_all_wr ids'
        (if signal_all_wr || has_flag (w_send_flags w) IB_SEND_SIGNALED then count + 1 else count)
  end.

Fixpoint reset_recv_loop (wqes : list pib_recv_wqe) (count : Z) : M st Z :=
  match wqes with
  | [] => ret count
  | _ :: wqes' =>
      upd_rsp (fun r => r <| rs_recv_wqes ::= tail |>) ;;
      pib_util_free_recv_wqe ;;
      reset_recv_loop wqes' (count + 1)
  end.

(** [pib_get_local_ack_time] indexes a table of 32 entries: [None] past its end. *)
Definition reset_qp_attr : M st unit :=
  let! q := the_qp in
  let! t := of_option (pib_get_local_ack_time HZ (a_timeout (qp_attr q))) in
  upd_qp (fun q => q <| qp_local_ack_timeout := t |>
    <| qp_push_rcqe := false |> <| qp_issue_comm_est := false |>
    <| qp_issue_sq_drained := false |> <| qp_issue_last_wqe_reached := false |>) ;;
  upd_req (fun r => r <| rq_psn := 0 |> <| rq_expected_psn := 0 |> <| rq_nr_rd_atomic := 0 |>) ;;
  upd_rsp (fun r => r <| rs_psn := 0 |>
    <| rs_last_OpCode := match qp_type q with IB_QPT_RC => IB_OPCODE_SEND_ONLY | _ => IB_OPCODE_UD_SEND_ONLY end |>
    <| rs_offset := 0 |> <| rs_nr_rd_atomic := 0 |>
    <| rs_slots := replicate (Z.to_nat PIB_MAX_RD_ATOM) slot_zero |>).

Definition with_cq_remove (c qpn : Z) : M st Z :=
  with_cq c (fun cq => let '(n, cq') := pib_util_remove_cq qpn cq in (n, [], cq')).

(** The three loops of [reset_qp] over the send lists; returns [count]. *)
Definition reset_sends (signal_all_wr : bool) : M st Z :=
  let! r := the_req in
  let! count := reset_send_loop signal_all_wr (rq_waiting r) 0 in
  upd_req (fun r => r <| rq_nr_waiting := 0 |>) ;;
  let! r := the_req in
  let! count := reset_send_loop signal_all_wr (rq_sending r) count in
  upd_req (fun r => r <| rq_nr_sending := 0 |>) ;;
  let! r := the_req in
  let! count := reset_send_loop signal_all_wr (rq_submitted r) count in
  upd_req (fun r => r <| rq_nr_submitted := 0 |> <| rq_nr_rd_atomic := 0 |>) ;;
  ret count.

Definition reset_qp : M st Z :=
  let! q := the_qp in
  let! count := reset_sends (i_sq_sig_all (qp_init_attr q)) in
  let! s := the_rsp in
  let! count := reset_recv_loop (rs_recv_wqes s) count in
  upd_rsp (fun r => r <| rs_nr_recv_wqe := 0 |> <| rs_acks := [] |> <| rs_nr_rd_atomic := 0 |>) ;;
  let! n1 := with_cq_remove (qp_send_cq q) (qp_num q) in
  let! n2 := (if qp_send_cq q =? qp_recv_cq q then ret 0 else with_cq_remove (qp_recv_cq q) (qp_num q)) in
  reset_qp_attr ;;
  pib_util_reschedule_qp ;;
  reset_contig ;;
  ret (count + n1 + n2).

Definition get_ready_to_send : M st unit :=
  pib_util_reschedule_qp ;; reset_contig ;; emit [EvComplete].

(** ** Attribute checks *)

Definition qp_cap_is_ok (cap : ib_qp_cap) (use_srq : bool) : bool :=
  if attr_max_qp_wr <? max_send_wr cap then false
  else if attr_max_sge <? max_send_sge cap then false
  else if negb use_srq && ((max_recv_wr cap <? 1) || (attr_max_qp_wr <? max_recv_wr cap)) then false
  else if negb use_srq && ((max_recv_sge cap <? 1) || (attr_max_sge <? max_recv_sge cap)) then false
  else if PIB_MAX_INLINE <? max_inline_data cap then false
  else true.

Definition qp_init_attr_is_ok (init_attr : ib_qp_init_attr) : bool :=
  match i_qp_type init_attr with
  | IB_QPT_SMI | IB_QPT_GSI | IB_QPT_RC | IB_QPT_UD =>
      if bool_decide (i_send_cq init_attr = None) || bool_decide (i_recv_cq init_attr = None) then false
      else if negb (qp_cap_is_ok (i_cap init_attr) (negb (bool_decide (i_srq init_attr = None)))) then false
      else true
  | _ => false
  end.

Definition modify_qp_is_ok (q : pib_qp) (cur_state : ib_qp_state) (attr : ib_qp_attr) (attr_mask : Z) : bool :=
  let on bit bad := has_flag attr_mask bit && bad in
  if on IB_QP_PORT (bool_decide (cur_state = IB_QPS_SQD) && negb (has_flag attr_device_cap_flags IB_DEVICE_CHANGE_PHY_PORT))
  then false
  else if on IB_QP_PORT (bool_decide (qp_type q = IB_QPT_SMI) || bool_decide (qp_type q = IB_QPT_GSI)
                         || (a_port_num attr =? 0) || (phys_port_cnt <? a_port_num attr))
  then false
  else if on IB_QP_AV (PIB_MCAST_LID_BASE <=? ah_dlid (a_ah_attr attr)) then false
  else if on IB_QP_PATH_MTU ((a_path_mtu attr <? IB_MTU_256) || (IB_MTU_4096 <? a_path_mtu attr)) then false
  else if on IB_QP_TIMEOUT (has_flag (a_timeout attr) (Z.lnot PIB_LOCAL_ACK_TIMEOUT_MASK)) then false
  else if on IB_QP_RETRY_CNT (has_flag (a_retry_cnt attr) (Z.lnot 7)) then false
  else if on IB_QP_MIN_RNR_TIMER (has_flag (a_min_rnr_timer attr) (Z.lnot PIB_MIN_RNR_NAK_TIMER_MASK)) then false
  else if on IB_QP_RNR_RETRY (has_flag (a_rnr_retry attr) (Z.lnot 7)) then false
  else if on IB_QP_MAX_QP_RD_ATOMIC (attr_max_qp_init_rd_atom <? a_max_rd_atomic attr) then false
  else if on IB_QP_MAX_DEST_RD_ATOMIC (attr_max_qp_rd_atom <? a_max_dest_rd_atomic attr) then false
  else if on IB_QP_RQ_PSN (param_bit pib_manner_warn PIB_MANNER_PSN && has_flag (a_rq_psn attr) (Z.lnot PIB_PSN_MASK)
                           && param_bit pib_manner_err PIB_MANNER_PSN) then false
  else if on IB_QP_SQ_PSN (param_bit pib_manner_warn PIB_MANNER_PSN && has_flag (a_sq_psn attr) (Z.lnot PIB_PSN_MASK)
                           && param_bit pib_manner_err PIB_MANNER_PSN) then false
  else if on IB_QP_CAP (negb (has_flag attr_device_cap_flags IB_DEVICE_RESIZE_MAX_WR)) then false
  else if on IB_QP_CAP (negb (qp_cap_is_ok (a_cap attr) (negb (bool_decide (i_srq (qp_init_attr q) = None))))) then false
  else if on IB_QP_PKEY_INDEX (PIB_PKEY_TABLE_LEN <=? a_pkey_index attr) then false
  else true.

(** ** Modification *)

(** The kernel's table of legal transitions. *)
Variable ib_modify_qp_is_ok : ib_qp_state -> ib_qp_state -> ib_qp_type -> Z -> bool.

Definition upd_attr (f : ib_qp_attr -> ib_qp_attr) : M st unit := upd_qp (fun q => q <| qp_attr ::= f |>).

(** The assignments of [pib_modify_qp] to the attributes, in source order. *)
Definition modify_qp_attrs (attr : ib_qp_attr) (attr_mask : Z) : M st unit :=
  let on bit := when (has_flag attr_mask bit) in
  let! q := the_qp in
  on IB_QP_PATH_MTU (upd_attr (fun a => a <| a_path_mtu := a_path_mtu attr |>)) ;;
  on IB_QP_QKEY (upd_attr (fun a => a <| a_qkey := a_qkey attr |>)) ;;
  on IB_QP_RQ_PSN (upd_rsp (fun r => r <| rs_psn := Z.land (a_rq_psn attr) PIB_PSN_MASK |>)) ;;
  on IB_QP_SQ_PSN (upd_req (fun r => r <| rq_psn := Z.land (a_sq_psn attr) PIB_PSN_MASK |>
                                       <| rq_expected_psn := Z.land (a_sq_psn attr) PIB_PSN_MASK |>)) ;;
  on IB_QP_DEST_QPN (upd_attr (fun a => a <| a_dest_qp_num := a_dest_qp_num attr |>)) ;;
  on IB_QP_ACCESS_FLAGS (upd_attr (fun a => a <| a_qp_access_flags := a_qp_access_flags attr |>)) ;;
  on IB_QP_CAP (upd_attr (fun a => a <| a_cap ::= fun c =>
    let c := c <| max_send_wr := max_send_wr (a_cap attr) |> <| max_send_sge := max_send_sge (a_cap attr) |> in
    let c := if bool_decide (i_recv_cq (qp_init_attr q) = None) then c
             else c <| max_recv_wr := max_recv_wr (a_cap attr) |> <| max_recv_sge := max_recv_sge (a_cap attr) |> in
    c <| max_inline_data := max_inline_data (a_cap attr) |> |>)) ;;
  on IB_QP_AV (upd_attr (fun a => a <| a_ah_attr := a_ah_attr attr |>)) ;;
  on IB_QP_PKEY_INDEX (upd_attr (fun a => a <| a_pkey_index := a_pkey_index attr |>)) ;;
  on IB_QP_EN_SQD_ASYNC_NOTIFY (upd_attr (fun a => a <| a_en_sqd_async_notify := a_en_sqd_async_notify attr |>)) ;;
  on IB_QP_MAX_QP_RD_ATOMIC (upd_req (fun r => r <| rq_max_rd_atomic := a_max_rd_atomic attr |>) ;;
                             upd_attr (fun a => a <| a_max_rd_atomic := a_max_rd_atomic attr |>)) ;;
  on IB_QP_MAX_DEST_RD_ATOMIC (upd_attr (fun a => a <| a_max_dest_rd_atomic := a_max_dest_rd_atomic attr |>)) ;;
  on IB_QP_MIN_RNR_TIMER (upd_attr (fun a => a <| a_min_rnr_timer := a_min_rnr_timer attr |>)) ;;
  on IB_QP_PORT
    (upd_attr (fun a => a <| a_port_num := a_port_num attr |>) ;;
     match qp_type q with
     | IB_QPT_UD | IB_QPT_SMI | IB_QPT_GSI =>
         let! ports := gets st_ports in
         let! port := of_option (ports !! a_port_num attr) in
         upd_attr (fun a => a <| a_path_mtu := port_active_mtu port |>)
     | _ => ret tt
     end) ;;
  on IB_QP_TIMEOUT
    (let! t := of_option (pib_get_local_ack_time HZ (a_timeout attr)) in
     upd_attr (fun a => a <| a_timeout := a_timeout attr |>) ;;
     upd_qp (fun q => q <| qp_local_ack_timeout := t |>)) ;;
  on IB_QP_RETRY_CNT (upd_attr (fun a => a <| a_retry_cnt := a_retry_cnt attr |>)) ;;
  on IB_QP_RNR_RETRY (upd_attr (fun a => a <| a_rnr_retry := a_rnr_retry attr |>)) ;;
  on IB_QP_ALT_PATH (upd_attr (fun a => a <| a_alt_ah_attr := a_alt_ah_attr attr |>
                                          <| a_alt_pkey_index := a_alt_pkey_index attr |>)) ;;
  on IB_QP_PATH_MIG_STATE (upd_attr (fun a => a <| a_path_mig_state := a_path_mig_state attr |>
                                                <| a_ah_attr := a_alt_ah_attr a |>
                                                <| a_pkey_index := a_alt_pkey_index attr |>)).

(** The switch over the state entered: returns [ret] and [pending_send_wr]. *)
Definition switch_state (new_state : ib_qp_state) : M st (Z * Z) :=
  match new_state with
  | IB_QPS_RESET => let! n := reset_qp in ret (n, 0)
  | IB_QPS_RTR => upd_qp (fun q => q <| qp_issue_comm_est := false |>) ;; ret (0, 0)
  | IB_QPS_RTS => let! q := the_qp in ret (0, get_send_wr_num q)
  | IB_QPS_SQE => pib_util_flush_qp true ;; ret (0, 0)
  | IB_QPS_ERR => pib_util_flush_qp false ;; ret (0, 0)
  | _ => ret (0, 0)
  end.

(** The side effects of a state change: returns [ret] and [pending_send_wr]. *)
Definition modify_qp_state (cur_state new_state : ib_qp_state) (issue_sq_drained : bool) : M st (Z * Z) :=
  let! q := the_qp in
  if bool_decide (new_state = IB_QPS_SQE) && bool_decide (qp_type q = IB_QPT_RC) then ret (- EINVAL, 0)
  else if bool_decide (cur_state = IB_QPS_SQD) && negb (qp_issue_sq_drained q)
          && (bool_decide (new_state = IB_QPS_RTS) || bool_decide (new_state = IB_QPS_SQD)) then ret (- EINVAL, 0)
  else
    upd_qp (fun q => q <| qp_state := new_state |>) ;;
    let! res := switch_state new_state in
    when issue_sq_drained
      (let! q := the_qp in
       when (a_en_sqd_async_notify (qp_attr q)) (pib_util_insert_async_qp_event IB_EVENT_SQ_DRAINED) ;;
       upd_qp (fun q => q <| qp_issue_sq_drained := true |>)) ;;
    when (bool_decide (cur_state = IB_QPS_SQD) && negb (bool_decide (new_state = IB_QPS_SQD)))
      (upd_qp (fun q => q <| qp_issue_sq_drained := false |>)) ;;
    ret res.

Definition pib_modify_qp (attr : ib_qp_attr) (attr_mask : Z) : M st Z :=
  let! q := the_qp in
  let cur_state := if has_flag attr_mask IB_QP_CUR_STATE then a_cur_qp_state attr else qp_state q in
  let new_state := if has_flag attr_mask IB_QP_STATE then a_qp_state attr else cur_state in
  let issue_sq_drained := bool_decide (rq_sending (qp_requester q) = []) && bool_decide (rq_waiting (qp_requester q) = []) in
  if bool_decide (cur_state = IB_QPS_SQD) && (bool_decide (new_state = IB_QPS_SQD) || bool_decide (new_state = IB_QPS_RTS))
     && negb issue_sq_drained
  then ret (- EBUSY)
  else if negb (ib_modify_qp_is_ok cur_state new_state (qp_type q) attr_mask) then ret (- EINVAL)
  else if negb (modify_qp_is_ok q cur_state attr attr_mask) then ret (- EINVAL)
  else
    modify_qp_attrs attr attr_mask ;;
    let! res := (if has_flag attr_mask IB_QP_STATE then modify_qp_state cur_state new_state issue_sq_drained
                 else ret (0, 0)) in
    let '(r, pending_send_wr) := res in
    when (negb (pending_send_wr =? 0)) get_ready_to_send ;;
    ret r.

Definition pib_query_qp : M st (ib_qp_attr * ib_qp_init_attr) :=
  let! q := the_qp in
  ret ((qp_attr q) <| a_qp_state := qp_state q |> <| a_cur_qp_state := qp_state q |>
         <| a_sq_psn := Z.land (rq_psn (qp_requester q)) PIB_PSN_MASK |>
         <| a_rq_psn := Z.land (rs_psn (qp_responder q)) PIB_PSN_MASK |>
         <| a_sq_draining := negb (bool_decide (rq_sending (qp_requester q) = [])
                                   && bool_decide (rq_waiting (qp_requester q) = [])) |>,
       qp_init_attr q).

(** ** Posting send requests *)

(** [copy_from_user addr len]: the bytes, or [None] on a fault. *)
Variable copy_from_user : Z -> Z -> option (list Z).

(** The SGE with the reserved lkey that carries immediate data: the last such
    one is removed and its length is the data. *)
Definition split_imm_sge (sgl : list ib_sge) (imm_data : Z) : list ib_sge * Z :=
  match List.find (fun i => match sgl !! i with Some sge => sge_lkey sge =? PIB_IMM_DATA_LKEY | None => false end)
          (rev (seq 0 (length sgl))) with
  | Some i => (take i sgl ++ drop (S i) sgl, match sgl !! i with Some sge => sge_length sge | None => imm_data end)
  | None => (sgl, imm_data)
  end.

Fixpoint copy_inline_loop (sges : list ib_sge) (offset : Z) (buffer : list Z) : option (list Z) :=
  match sges with
  | [] => Some buffer
  | sge :: sges' =>
      bytes ← copy_from_user (sge_addr sge) (sge_length sge);
      copy_inline_loop sges' (u32 (offset + sge_length sge)) (buf_write buffer offset bytes)
  end.

(** [inl]: the value returned on a fault; [inr]: the buffer after it. *)
Definition copy_inline_data (q : pib_qp) (w : pib_send_wqe) (total_length : Z) : Z + option (list Z) :=
  if (total_length <=? 0) || (max_inline_data (a_cap (qp_attr q)) <? total_length) then inr (w_inline_data_buffer w)
  else if (w_opcode w =? IB_WR_SEND) || (w_opcode w =? IB_WR_SEND_WITH_IMM) || (w_opcode w =? IB_WR_SEND_WITH_INV)
          || (w_opcode w =? IB_WR_RDMA_WRITE) || (w_opcode w =? IB_WR_RDMA_WRITE_WITH_IMM) then
    match copy_inline_loop (w_sge_array w) 0 (default [] (w_inline_data_buffer w)) with
    | Some buf => inr (Some buf)
    | None => inl (- EFAULT)
    end
  else inr (w_inline_data_buffer w).

Definition as_rdma (wr : send_wr) : send_wr := match wr with WrRdma a k => WrRdma a k | _ => WrRdma 0 0 end.
Definition as_atomic (wr : send_wr) : send_wr :=
  match wr with WrAtomic a c s k => WrAtomic a c s k | _ => WrAtomic 0 0 0 0 end.
Definition as_fast_reg (wr : send_wr) : send_wr :=
  match wr with WrFastReg i p m s n l f k => WrFastReg i p m s n l f k | _ => WrFastReg 0 [] 0 0 0 0 0 0 end.
Definition ud_ah (wr : send_wr) : option (Z * Z) := match wr with WrUd ah _ _ _ _ => ah | _ => None end.

(** The switch over the QP type and the opcode: [None] when the AH of a datagram
    request is refused. *)
Definition fill_wr (q : pib_qp) (wr : ib_send_wr) (w : pib_send_wqe) : option pib_send_wqe :=
  let op := swr_opcode wr in
  match qp_type q with
  | IB_QPT_RC =>
      Some (
        if (op =? IB_WR_RDMA_WRITE) || (op =? IB_WR_RDMA_WRITE_WITH_IMM) || (op =? IB_WR_RDMA_READ)
        then w <| w_wr := as_rdma (swr_wr wr) |>
        else if (op =? IB_WR_ATOMIC_CMP_AND_SWP) || (op =? IB_WR_ATOMIC_FETCH_AND_ADD)
        then w <| w_wr := as_atomic (swr_wr wr) |>
        else if op =? IB_WR_SEND_WITH_INV then w <| w_ex := swr_ex wr |>
        else if op =? IB_WR_LOCAL_INV then w <| w_local_only_request := true |> <| w_ex := swr_ex wr |>
        else if op =? IB_WR_FAST_REG_MR then w <| w_local_only_request := true |> <| w_wr := as_fast_reg (swr_wr wr) |>
        else w)
  | IB_QPT_UD | IB_QPT_SMI | IB_QPT_GSI =>
      if (op =? IB_WR_SEND) || (op =? IB_WR_SEND_WITH_IMM) then
        if negb (param_bit pib_behavior PIB_BEHAVIOR_AH_PD_VIOLATOIN_COMP_ERR)
           && match ud_ah (swr_wr wr) with None => true | Some (_, pd) => negb (qp_pd q =? pd) end
        then None
        else Some (w <| w_wr := swr_wr wr |>)
      else Some w
  | _ => Some w
  end.

(** One work request in a state that accepts it: [inl] the error, with the entry
    already written to stays in the free list; [inr] the new [total_length]. *)
Definition post_send_one (wr : ib_send_wr) (total_length : Z) : M st (Z + Z) :=
  let! q := the_qp in
  let '(sgl, imm_data) := split_imm_sge (swr_sg_list wr) (swr_ex wr) in
  if (Zlen sgl <? 1) || (max_send_sge (i_cap (qp_init_attr q)) <? Zlen sgl) then ret (inl (- EINVAL))
  else
    match rq_free (qp_requester q) with
    | [] => ret (inl (- ENOMEM))
    | id :: _ =>
        upd_swqe id (fun w => w <| w_wr_id := swr_wr_id wr |> <| w_opcode := swr_opcode wr |>
          <| w_send_flags := swr_send_flags wr |> <| w_ex := imm_data |> <| w_processing := processing_zero |>
          <| w_wr := WrNone |> <| w_sge_array := sgl |>) ;;
        let total_length := add_sge_lengths pib_behavior total_length sgl in
        let total_length :=
          if (swr_opcode wr =? IB_WR_ATOMIC_CMP_AND_SWP) || (swr_opcode wr =? IB_WR_ATOMIC_FETCH_AND_ADD)
          then 8 else total_length in
        if PIB_MAX_PAYLOAD_LEN <? total_length then ret (inl (- EMSGSIZE))
        else
          upd_swqe id (fun w => w <| w_total_length := u32 total_length |>) ;;
          let! w := get_swqe id in
          match (if has_flag (w_send_flags w) IB_SEND_INLINE then copy_inline_data q w total_length
                 else inr (w_inline_data_buffer w)) with
          | inl _ => ret (inl (- EFAULT))
          | inr buf =>
              upd_swqe id (fun w => w <| w_inline_data_buffer := buf |>) ;;
              let! w := get_swqe id in
              match fill_wr q wr w with
              | None => ret (inl (- EINVAL))
              | Some w' =>
                  upd_swqe id (fun _ => w' <| w_processing ::= fun p => p <| p_list_type := PIB_SWQE_SUBMITTED |>
                                                                     <| p_status := IB_WC_SUCCESS |> |>) ;;
                  swqe_list_del id ;;
                  upd_req (fun r => r <| rq_submitted ::= fun l => l ++ [id] |> <| rq_nr_submitted ::= Z.add 1 |>) ;;
                  ret (inr total_length)
              end
          end
    end.

(** The [next_wr] loop; returns the value, the remaining work requests and
    whether a request was accepted in RTS. *)
Fixpoint post_send_loop (wrs : list ib_send_wr) (total_length : Z) (pending : bool)
    : M st (Z * list ib_send_wr * bool) :=
  match wrs with
  | [] => ret (0, [], pending)
  | wr :: wrs' =>
      let! q := the_qp in
      match qp_state q with
      | IB_QPS_RESET | IB_QPS_INIT => ret (- EINVAL, wrs, pending)
      | IB_QPS_ERR | IB_QPS_SQE =>
          qp_insert_wc_error (qp_send_cq q) (swr_wr_id wr) IB_WC_WR_FLUSH_ERR (swr_opcode wr) ;;
          post_send_loop wrs' total_length pending
      | IB_QPS_RTS | IB_QPS_RTR | IB_QPS_SQD =>
          let pending := pending || bool_decide (qp_state q = IB_QPS_RTS) in
          let! r := post_send_one wr total_length in
          match r with
          | inl e => ret (e, wrs, pending)
          | inr total_length => post_send_loop wrs' total_length pending
          end
      end
  end.

Definition pib_post_send (wrs : list ib_send_wr) : M st (Z * list ib_send_wr) :=
  match wrs with
  | [] => ret (- EINVAL, [])
  | _ =>
      let! q := the_qp in
      if bool_decide (qp_state q = IB_QPS_RESET) || bool_decide (qp_state q = IB_QPS_INIT) then ret (- EINVAL, wrs)
      else
        let! res := post_send_loop wrs 0 false in
        let '(r, bad, pending) := res in
        when pending get_ready_to_send ;;
        ret (r, bad)
  end.

(** ** Posting receive requests *)

(** Returns the value and the work requests from [*bad_wr] on; the early returns
    do not write [*bad_wr]. *)
Fixpoint post_recv_loop (wrs : list ib_recv_wr) (total_length r : Z) : M st (Z * list ib_recv_wr) :=
  match wrs with
  | [] => ret (r, [])
  | wr :: wrs' =>
      let! q := the_qp in
      match qp_state q with
      | IB_QPS_RESET => ret (- EINVAL, wrs)
      | IB_QPS_ERR =>
          qp_insert_wc_error (qp_recv_cq q) (rwr_wr_id wr) IB_WC_WR_FLUSH_ERR IB_WC_RECV ;;
          post_recv_loop wrs' total_length (- EPERM)
      | IB_QPS_INIT | IB_QPS_RTR | IB_QPS_RTS | IB_QPS_SQD | IB_QPS_SQE =>
          if (rwr_num_sge wr <? 1) || (max_recv_sge (i_cap (qp_init_attr q)) <? rwr_num_sge wr) then ret (- EINVAL, wrs)
          else
            match rs_free_rwqes (qp_responder q) with
            | [] => ret (- ENOMEM, wrs)
            | _ :: free =>
                let total_length := add_sge_lengths pib_behavior total_length (rwr_sg_list wr) in
                if PIB_MAX_PAYLOAD_LEN <? total_length then ret (- EMSGSIZE, wrs)
                else
                  upd_rsp (fun rs => rs <| rs_free_rwqes := free |> <| rs_nr_recv_wqe ::= Z.add 1 |>
                    <| rs_recv_wqes ::= fun l => l ++ [{| rwqe_wr_id := rwr_wr_id wr; rwqe_total_length := u32 total_length;
                                                          rwqe_sge_array := rwr_sg_list wr |}] |>) ;;
                  post_recv_loop wrs' total_length r
            end
      end
  end.

Definition pib_post_recv (wrs : list ib_recv_wr) : M st (Z * list ib_recv_wr) :=
  match wrs with
  | [] => ret (- EINVAL, [])
  | _ =>
      let! q := the_qp in
      if negb (bool_decide (i_srq (qp_init_attr q) = None)) then ret (- EINVAL, [])
      else post_recv_loop wrs 0 0
  end.

End Qp.
