(* ===== verification/QpInv.v ===== *)
(** * The queue-pair invariant

    Every send work queue entry of a QP is on exactly one of its four lists, the
    counters kept beside the lists are exact, the completion queues and the
    scheduler are consistent.  The lemmas of this file give, for each primitive
    of the QP code, what it does to the invariant; the files that model handlers
    build on them. *)

From S2P Require Import Prelude Verbs Lib ObjNum Cq Srq Mr State Sched Qp.

(** ** Lists *)

Lemma del_notin id l : id ∉ l -> del id l = l.
Proof.
  induction l as [|x l IH]; [done|]. unfold del in *. simpl. rewrite not_elem_of_cons. intros [Hne Hn].
  rewrite (proj2 (Z.eqb_neq _ _)) by done. simpl. by rewrite IH.
Qed.

Lemma del_head id l : id ∉ l -> del id (id :: l) = l.
Proof. intros. unfold del. simpl. rewrite Z.eqb_refl. simpl. by apply del_notin. Qed.

Lemma del_perm id l : NoDup l -> id ∈ l -> l ≡ₚ id :: del id l.
Proof.
  induction 1 as [|x l Hx Hd IH]; [by intros ?%elem_of_nil|]. rewrite elem_of_cons.
  destruct (decide (x = id)) as [->|Hne].
  - intros _. by rewrite del_head.
  - intros [?|Hin]; [done|]. unfold del. simpl. rewrite (proj2 (Z.eqb_neq _ _)) by done. simpl.
    rewrite (IH Hin) at 1. unfold del. constructor.
Qed.

Lemma del_last id l : id ∉ l -> del id (l ++ [id]) = l.
Proof.
  intros. unfold del. rewrite List.filter_app. simpl. rewrite Z.eqb_refl. simpl. rewrite app_nil_r.
  by apply del_notin.
Qed.

Lemma elem_of_del id k l : k ∈ del id l <-> k ∈ l /\ k <> id.
Proof. apply elem_of_filter_neq. Qed.

(** ** Ownership of entries *)

Definition rq_lists (r : requester_t) : list Z := rq_free r ++ rq_submitted r ++ rq_sending r ++ rq_waiting r.

(** [ids] are the entries of the QP, [out] the ones on no list. *)
Definition rq_own (ids out : list Z) (r : requester_t) : Prop :=
  NoDup ids /\ (forall id, id ∈ ids <-> is_Some (rq_swqes r !! id)) /\ out ++ rq_lists r ≡ₚ ids.

Definition rq_counts (r : requester_t) : Prop :=
  rq_nr_submitted r = Zlen (rq_submitted r) /\ rq_nr_sending r = Zlen (rq_sending r)
  /\ rq_nr_waiting r = Zlen (rq_waiting r).

Lemma rq_own_NoDup ids out r : rq_own ids out r -> NoDup (out ++ rq_lists r).
Proof. intros (Hn & _ & Hp). by rewrite Hp. Qed.

Lemma rq_own_lookup ids out r id : rq_own ids out r -> id ∈ out ++ rq_lists r -> is_Some (rq_swqes r !! id).
Proof. intros (_ & Hs & Hp) Hin. apply Hs. by rewrite <- Hp. Qed.

(** The store part only: updating entries keeps ownership. *)
Lemma rq_own_alter ids out r f id : rq_own ids out r -> rq_own ids out (r <| rq_swqes ::= alter f id |>).
Proof.
  intros (Hn & Hs & Hp). split_and!; [done| |done]. intros k. rewrite Hs. simpl.
  destruct (decide (k = id)) as [->|Hne]; [|by rewrite lookup_alter_ne].
  rewrite lookup_alter_eq. split; [intros [w ->]; by eexists|]. destruct (rq_swqes r !! id); [by eexists|]. by intros [? ?].
Qed.

(** ** The environment of a QP *)

Definition qp_env (s : st) : Prop :=
  map_Forall (fun _ cq => cq_inv cq) (st_cqs s)
  /\ is_Some (st_cqs s !! qp_send_cq (st_qp s)) /\ is_Some (st_cqs s !! qp_recv_cq (st_qp s))
  /\ (match i_srq (qp_init_attr (st_qp s)) with Some n => is_Some (st_srqs s !! n) | None => True end)
  /\ sched_member s
  /\ 0 <= a_timeout (qp_attr (st_qp s)) < 32.

(** [out] are the entries taken off every list for the moment. *)
Record qp_wfo (ids out : list Z) (s : st) : Prop := {
  wfo_env : qp_env s;
  wfo_own : rq_own ids out (qp_requester (st_qp s));
  wfo_counts : rq_counts (qp_requester (st_qp s));
  wfo_recv : rs_nr_recv_wqe (qp_responder (st_qp s)) = Zlen (rs_recv_wqes (qp_responder (st_qp s)))
}.
Abbreviation qp_wf ids := (qp_wfo ids []).

Lemma wf_env ids s : qp_wf ids s -> qp_env s.
Proof. by intros [H _ _ _]. Qed.
Lemma wf_own ids s : qp_wf ids s -> rq_own ids [] (qp_requester (st_qp s)).
Proof. by intros [_ H _ _]. Qed.
Lemma wf_counts ids s : qp_wf ids s -> rq_counts (qp_requester (st_qp s)).
Proof. by intros [_ _ H _]. Qed.
Lemma wf_recv ids s : qp_wf ids s -> rs_nr_recv_wqe (qp_responder (st_qp s)) = Zlen (rs_recv_wqes (qp_responder (st_qp s))).
Proof. by intros [_ _ _ H]. Qed.

(** Two states that differ in completion queues, events and random draws only. *)
Definition cq_frame (s s' : st) : Prop :=
  st_qp s' = st_qp s /\ st_srqs s' = st_srqs s /\ st_pd s' = st_pd s /\ st_mem s' = st_mem s
  /\ st_ports s' = st_ports s /\ st_sched s' = st_sched s /\ st_qp_schedule_flag s' = st_qp_schedule_flag s
  /\ st_now s' = st_now s.

(** The environment looks at these parts of the QP only. *)
Definition qp_same_env (q q' : pib_qp) : Prop :=
  qp_id q' = qp_id q /\ qp_send_cq q' = qp_send_cq q /\ qp_recv_cq q' = qp_recv_cq q
  /\ qp_init_attr q' = qp_init_attr q /\ qp_sched_on q' = qp_sched_on q /\ a_timeout (qp_attr q') = a_timeout (qp_attr q).

Lemma qp_env_upd f s : qp_same_env (st_qp s) (f (st_qp s)) -> qp_env s -> qp_env (s <| st_qp ::= f |>).
Proof.
  intros (H1 & H2 & H3 & H4 & H5 & H6) (E1 & E2 & E3 & E4 & [E5 E5'] & E6).
  unfold qp_env, sched_member; simpl. rewrite H1, H2, H3, H4, H5, H6. done.
Qed.

Lemma qp_env_cq c cq s s' :
  qp_env s -> cq_frame s s' -> cq_inv cq -> st_cqs s' = <[c := cq]> (st_cqs s) -> qp_env s'.
Proof.
  intros (E1 & E2 & E3 & E4 & [E5 E5'] & E6) (F1 & F2 & F3 & F4 & F5 & F6 & F7 & F8) Hc Hcqs.
  unfold qp_env, sched_member. rewrite F1, F2, F6, Hcqs. split_and!; try done; try lia.
  - by apply map_Forall_insert_2.
  - destruct (decide (c = qp_send_cq (st_qp s))) as [->|]; [rewrite lookup_insert_eq; by eexists|by rewrite lookup_insert_ne].
  - destruct (decide (c = qp_recv_cq (st_qp s))) as [->|]; [rewrite lookup_insert_eq; by eexists|by rewrite lookup_insert_ne].
Qed.

Section QpInv.
Context {PP : Params}.

(** The completion queue after an insertion. *)
Lemma insert_wc_inv smi wc sol cq : cq_inv cq -> cq_inv (snd (insert_wc smi wc sol cq)).
Proof.
  intros Hi. pose proof (cq_step_refines (OpInsert smi wc sol) cq Hi) as H. simpl in H.
  destruct (insert_wc smi wc sol cq) as [[r ev] cq']. by destruct H.
Qed.

Definition flush_wc (q : pib_qp) (wr_id opcode : Z) : cq_op :=
  OpInsert (smi_port_of q) (wc_init wr_id IB_WC_WR_FLUSH_ERR opcode (qp_num q)) true.

Lemma wp_with_cq c f Q s cq :
  st_cqs s !! c = Some cq ->
  (forall s', cq_frame s s' -> st_cqs s' = <[c := snd (f cq)]> (st_cqs s) -> st_rnd s' = st_rnd s ->
     Q (fst (fst (f cq))) s') ->
  wp (with_cq c f) Q s.
Proof.
  intros Hc HQ. unfold with_cq. wp_step. wp_step. rewrite Hc. destruct (f cq) as [[r ev] cq'] eqn:E.
  wp_run. unfold emit. wp_run. simpl in HQ. apply HQ; done.
Qed.

Lemma wp_insert_wc_error c wr_id status opcode Q s cq :
  st_cqs s !! c = Some cq -> cq_inv cq ->
  (forall s' cq', cq_frame s s' -> st_cqs s' = <[c := cq']> (st_cqs s) -> cq_inv cq' ->
     (param_bit pib_behavior PIB_BEHAVIOR_CORRUPT_INVALID_WC_ATTRS = false ->
        cq' = snd (insert_wc (smi_port_of (st_qp s)) (wc_init wr_id status opcode (qp_num (st_qp s))) true cq)) ->
     Q tt s') ->
  wp (qp_insert_wc_error c wr_id status opcode) Q s.
Proof.
  intros Hc Hi HQ. unfold qp_insert_wc_error. wp_step. unfold the_qp. wp_step. wp_step. wp_step. wp_step.
  eapply wp_with_cq; [done|]. intros s' Hf Hcqs _.
  assert (cq_inv (snd (pib_util_insert_wc_error pib_behavior (fun k => pib_random_value (st_rnd s + k))
    (smi_port_of (st_qp s)) (qp_num (st_qp s)) wr_id status opcode cq))) as Hi' by (unfold pib_util_insert_wc_error; by apply insert_wc_inv).
  wp_step.
  - unfold modify, wp. eapply HQ; [|exact Hcqs|done|congruence]. done.
  - eapply HQ; [done|exact Hcqs|done|]. intros _. unfold pib_util_insert_wc_error. by rewrite H.
Qed.

Lemma wp_reschedule Q s :
  sched_member s ->
  (forall s', sched_member s' -> qp_requester (st_qp s') = qp_requester (st_qp s) ->
     qp_responder (st_qp s') = qp_responder (st_qp s) ->
     (exists on t tid, st_qp s' = (st_qp s) <| qp_sched_on := on |> <| qp_sched_time := t |> <| qp_sched_tid := tid |>) ->
     st_cqs s' = st_cqs s -> st_srqs s' = st_srqs s -> st_pd s' = st_pd s -> st_mem s' = st_mem s -> st_now s' = st_now s ->
     st_ports s' = st_ports s ->
     Q tt s') ->
  wp pib_util_reschedule_qp Q s.
Proof.
  intros Hm HQ. unfold wp. destruct (reschedule_spec s Hm) as (s' & E & Hm' & _ & Hrq & Hrs & _).
  pose proof E as E'. rewrite E'. revert E. unfold pib_util_reschedule_qp.
  rewrite (bind_run _ _ _ _ _ (sched_take_off_run s Hm)).
  rewrite (bind_run _ _ _ (st_qp (off_tree s)) (off_tree s)) by done.
  rewrite (bind_run _ _ _ (st_now (off_tree s)) (off_tree s)) by done.
  destruct (schedule_time_of _ _) as [t|].
  - destruct (sched_put_run t (off_tree s)) as (f & tr & _ & ->). intros [= <-].
    apply HQ; try done. eexists _, _, _. reflexivity.
  - intros [= <-]. apply HQ; try done. exists false, (qp_sched_time (st_qp s)), (qp_sched_tid (st_qp s)).
    by destruct s as [[] ? ? ? ? ? ? ? ? ? ? ? ?].
Qed.

Lemma qp_env_resched s s' :
  qp_env s -> sched_member s' ->
  (exists on t tid, st_qp s' = (st_qp s) <| qp_sched_on := on |> <| qp_sched_time := t |> <| qp_sched_tid := tid |>) ->
  st_cqs s' = st_cqs s -> st_srqs s' = st_srqs s -> qp_env s'.
Proof.
  intros (E1 & E2 & E3 & E4 & E5 & E6) Hm (on & t & tid & Hq) Hc Hs. unfold qp_env.
  rewrite Hq, Hc, Hs. simpl. done.
Qed.

(** ** Draining a list into the free list *)

Definition drain1 (r : requester_t) (id : Z) : requester_t :=
  r <| rq_submitted ::= del id |> <| rq_sending ::= del id |> <| rq_waiting ::= del id |>
    <| rq_free ::= fun f => del id f ++ [id] |>.
Definition drain (l : list Z) (r : requester_t) : requester_t := fold_left drain1 l r.

Definition dels (l x : list Z) : list Z := List.filter (fun k => negb (bool_decide (k ∈ l))) x.

Lemma dels_nil x : dels [] x = x.
Proof. induction x as [|k x IH]; [done|]. unfold dels in *. simpl. f_equal. exact IH. Qed.

Lemma dels_cons id l x : dels (id :: l) x = dels l (del id x).
Proof.
  induction x as [|k x IH]; [done|]. unfold dels, del in *. simpl. destruct (Z.eqb_spec k id) as [->|Hne]; simpl.
  - rewrite bool_decide_eq_true_2 by (apply elem_of_cons; by left). simpl. exact IH.
  - rewrite (bool_decide_ext (k ∈ id :: l) (k ∈ l)) by (rewrite elem_of_cons; naive_solver).
    destruct (bool_decide (k ∈ l)); simpl; [exact IH|]. f_equal. exact IH.
Qed.

Lemma dels_disjoint l x : (forall k, k ∈ x -> k ∉ l) -> dels l x = x.
Proof.
  induction x as [|k x IH]; intros H; [done|]. unfold dels in *. simpl.
  rewrite bool_decide_eq_false_2 by (apply H, elem_of_cons; by left). simpl. f_equal. apply IH.
  intros j Hj. apply H, elem_of_cons. by right.
Qed.

Lemma dels_self l : dels l l = [].
Proof.
  assert (forall x, (forall k, k ∈ x -> k ∈ l) -> dels l x = []) as H; [|by apply H].
  induction x as [|k x IH]; intros H; [done|]. unfold dels in *. simpl.
  rewrite bool_decide_eq_true_2 by (apply H, elem_of_cons; by left). simpl. apply IH.
  intros j Hj. apply H, elem_of_cons. by right.
Qed.

Lemma drain_spec l : forall r, NoDup l -> (forall k, k ∈ l -> k ∉ rq_free r) ->
  drain l r = r <| rq_submitted ::= dels l |> <| rq_sending ::= dels l |> <| rq_waiting ::= dels l |>
                <| rq_free ::= fun f => f ++ l |>.
Proof.
  induction l as [|id l IH]; intros r Hn Hf; simpl.
  - destruct r; simpl. by rewrite !dels_nil, app_nil_r.
  - apply NoDup_cons in Hn as [Hid Hn]. rewrite IH; [|done|].
    + destruct r as [? ? ? ? ? ? ? ? ? ? rq_free0 ? ? ?]; simpl in *. rewrite !dels_cons, (del_notin id rq_free0) by (apply Hf, elem_of_cons; by left).
      by rewrite <- app_assoc.
    + intros k Hk. simpl. rewrite elem_of_app, list_elem_of_singleton, elem_of_del.
      intros [[? _]| ->]; [|done]. by eapply (Hf k); [apply elem_of_cons; right|].
Qed.

(** Draining a whole list of a QP: that list becomes empty, the others stay. *)
Lemma own_disjoint ids out r : rq_own ids out r ->
  NoDup (rq_free r) /\ NoDup (rq_submitted r) /\ NoDup (rq_sending r) /\ NoDup (rq_waiting r)
  /\ (forall k, k ∈ rq_submitted r -> k ∉ rq_free r) /\ (forall k, k ∈ rq_sending r -> k ∉ rq_free r)
  /\ (forall k, k ∈ rq_waiting r -> k ∉ rq_free r) /\ (forall k, k ∈ rq_sending r -> k ∉ rq_submitted r)
  /\ (forall k, k ∈ rq_waiting r -> k ∉ rq_submitted r) /\ (forall k, k ∈ rq_waiting r -> k ∉ rq_sending r)
  /\ (forall k, k ∈ out -> k ∉ rq_lists r).
Proof.
  intros H. apply rq_own_NoDup in H. unfold rq_lists in *. rewrite !NoDup_app in H.
  setoid_rewrite elem_of_app in H. setoid_rewrite elem_of_app in H. setoid_rewrite elem_of_app in H.
  destruct H as (_ & Ho & Hf & Hfd & Hs & Hsd & Hse & Hsed & Hw). setoid_rewrite elem_of_app.
  setoid_rewrite elem_of_app. setoid_rewrite elem_of_app. split_and!; naive_solver.
Qed.

Lemma drain_waiting ids out r : rq_own ids out r ->
  drain (rq_waiting r) r = r <| rq_waiting := [] |> <| rq_free ::= fun f => f ++ rq_waiting r |>.
Proof.
  intros H. destruct (own_disjoint _ _ _ H) as (? & ? & ? & ? & ? & ? & Hwf & ? & Hws & Hwe & _).
  rewrite drain_spec by done. destruct r; simpl in *. rewrite dels_self, !dels_disjoint by naive_solver. done.
Qed.
Lemma drain_sending ids out r : rq_own ids out r ->
  drain (rq_sending r) r = r <| rq_sending := [] |> <| rq_free ::= fun f => f ++ rq_sending r |>.
Proof.
  intros H. destruct (own_disjoint _ _ _ H) as (? & ? & ? & ? & ? & Hsf & ? & Hss & ? & Hwe & _).
  rewrite drain_spec by done. destruct r; simpl in *. rewrite dels_self, !dels_disjoint by naive_solver. done.
Qed.
Lemma drain_submitted ids out r : rq_own ids out r ->
  drain (rq_submitted r) r = r <| rq_submitted := [] |> <| rq_free ::= fun f => f ++ rq_submitted r |>.
Proof.
  intros H. destruct (own_disjoint _ _ _ H) as (? & ? & ? & ? & Hsf & ? & ? & Hss & Hws & ? & _).
  rewrite drain_spec by done. destruct r; simpl in *. rewrite dels_self, !dels_disjoint by naive_solver. done.
Qed.

(** Moving entries between lists keeps ownership when the entries are the same. *)
Lemma rq_own_perm ids out r out' r' :
  rq_own ids out r -> rq_swqes r' = rq_swqes r -> out' ++ rq_lists r' ≡ₚ out ++ rq_lists r -> rq_own ids out' r'.
Proof. intros (Hn & Hs & Hp) Hw Hp'. split_and!; [done|by rewrite Hw|by rewrite Hp']. Qed.

(** ** Flushing a list *)

Definition cq_after (ops : list cq_op) (cq : pib_cq) : pib_cq := snd (cq_run ops cq).

Lemma cq_after_cons op ops cq : cq_after (op :: ops) cq = cq_after ops (snd (cq_step op cq)).
Proof.
  unfold cq_after. simpl. destruct (cq_step op cq) as [[r ev] cq1]. simpl.
  by destruct (cq_run ops cq1) as [[rs evs] cq2].
Qed.

Lemma cq_after_app ops1 ops2 cq : cq_after (ops1 ++ ops2) cq = cq_after ops2 (cq_after ops1 cq).
Proof.
  revert cq. induction ops1 as [|op ops1 IH]; intros cq; [done|].
  simpl app. rewrite !cq_after_cons. apply IH.
Qed.

Definition flush_ops (q : pib_qp) (store : gmap Z pib_send_wqe) (l : list Z) : list cq_op :=
  (fun id => match store !! id with Some w => flush_wc q (w_wr_id w) (w_opcode w) | None => OpPoll 0 end) <$> l.

(** The result of flushing the entries [l], leaving the requester as [r']: the
    send CQ receives one flush completion for each entry, in order; nothing else
    changes. *)
Definition flushed (l : list Z) (r' : requester_t) (s s' : st) : Prop :=
  st_qp s' = (st_qp s) <| qp_requester := r' |> /\ st_srqs s' = st_srqs s /\ st_pd s' = st_pd s
  /\ st_mem s' = st_mem s /\ st_ports s' = st_ports s /\ st_sched s' = st_sched s /\ st_now s' = st_now s
  /\ qp_env s'
  /\ (forall c, c <> qp_send_cq (st_qp s) -> st_cqs s' !! c = st_cqs s !! c)
  /\ (param_bit pib_behavior PIB_BEHAVIOR_CORRUPT_INVALID_WC_ATTRS = false ->
      forall cq, st_cqs s !! qp_send_cq (st_qp s) = Some cq ->
      st_cqs s' !! qp_send_cq (st_qp s) = Some (cq_after (flush_ops (st_qp s) (rq_swqes (qp_requester (st_qp s))) l) cq)).

Lemma drain_store l r : rq_swqes (drain l r) = rq_swqes r.
Proof. revert r. induction l as [|id l IH]; intros r; [done|]. simpl. by rewrite IH. Qed.

Lemma flushed_refl s : qp_env s -> flushed [] (qp_requester (st_qp s)) s s.
Proof. intros. unfold flushed. split_and?; try done. by destruct s as [[] ? ? ? ? ? ? ? ? ? ? ? ?]. Qed.

Lemma flushed_trans l1 l2 r1 r2 s s1 s2 : rq_swqes r1 = rq_swqes (qp_requester (st_qp s)) ->
  flushed l1 r1 s s1 -> flushed l2 r2 s1 s2 -> flushed (l1 ++ l2) r2 s s2.
Proof.
  intros Hst (F1 & F2 & F3 & F4 & F5 & F6 & F7 & F8 & F9 & F10) (G1 & G2 & G3 & G4 & G5 & G6 & G7 & G8 & G9 & G10).
  unfold flushed. rewrite F1 in G1, G9, G10. simpl in *. rewrite Hst in G10. split_and?; try congruence; try done.
  - intros c Hc. rewrite G9 by done. by apply F9.
  - intros Hb cq Hcq. rewrite (G10 Hb _ (F10 Hb _ Hcq)), <- cq_after_app. unfold flush_ops. by rewrite fmap_app.
Qed.

(** A plain update of the requester. *)
Lemma flushed_upd l r' u s s1 : flushed l r' s s1 ->
  flushed l (u r') s (s1 <| st_qp ::= fun q => q <| qp_requester ::= u |> |>).
Proof.
  intros (F1 & F2 & F3 & F4 & F5 & F6 & F7 & F8 & F9 & F10). unfold flushed. split_and?; try done.
  - simpl. by rewrite F1.
Qed.

(** One entry. *)
Lemma wp_flush_send_wqe id w s (Q : unit -> st -> Prop) :
  qp_env s -> rq_swqes (qp_requester (st_qp s)) !! id = Some w ->
  (forall s', flushed [id] (drain1 (qp_requester (st_qp s)) id) s s' -> Q tt s') -> wp (flush_send_wqe id) Q s.
Proof.
  intros He Hw HQ. unfold flush_send_wqe, the_qp, get_swqe, the_req. wp_run. rewrite Hw. wp_run.
  pose proof He as (Ec & [cq Hcq] & _). eapply wp_insert_wc_error; [exact Hcq|by apply (Ec _ _ Hcq)|].
  intros s1 cq1 Hf1 Hc1 Hi1 Hv1. unfold swqe_list_del, pib_util_free_send_wqe, upd_req, upd_qp. wp_run.
  assert (qp_env s1) as He1 by (by eapply qp_env_cq). apply HQ.
  destruct Hf1 as (F1 & F2 & F3 & F4 & F5 & F6 & F7 & F8). unfold flushed. split_and?; try done.
  - simpl. rewrite F1. by destruct s as [[] ? ? ? ? ? ? ? ? ? ? ? ?].
  - intros c Hc. simpl. rewrite Hc1. by rewrite lookup_insert_ne.
  - intros Hb cq0 Hcq0. assert (cq0 = cq) as -> by congruence. simpl. rewrite Hc1, lookup_insert_eq.
    rewrite cq_after_cons, Hw. simpl. rewrite (Hv1 Hb). by destruct (insert_wc _ _ _ cq) as [[? ?] ?].
Qed.

(** A list of entries, followed by an update of the requester. *)
Lemma wp_flush_list l u : forall s (Q : unit -> st -> Prop),
  qp_env s -> Forall (fun id => is_Some (rq_swqes (qp_requester (st_qp s)) !! id)) l ->
  (forall s', flushed l (u (drain l (qp_requester (st_qp s)))) s s' -> Q tt s') ->
  wp (for_each flush_send_wqe l) (fun _ s' => wp (upd_req u) Q s') s.
Proof.
  induction l as [|id l IH]; intros s Q He Hl HQ; simpl.
  - apply wp_ret. unfold upd_req, upd_qp. wp_step. apply HQ, flushed_upd. by apply flushed_refl.
  - apply Forall_cons in Hl as [[w Hw] Hl]. wp_step. eapply wp_flush_send_wqe; [done..|]. intros s1 Hf1.
    pose proof Hf1 as (F1 & _ & _ & _ & _ & _ & _ & F8 & _). apply IH; [done|by rewrite F1|].
    intros s2 Hf2. apply HQ. rewrite F1 in Hf2. simpl in Hf2. by apply (flushed_trans [id] l (drain1 (qp_requester (st_qp s)) id) _ s s1 s2).
Qed.

Lemma wp_flush_list_bind {A} l u (k : M st A) s Q :
  qp_env s -> Forall (fun id => is_Some (rq_swqes (qp_requester (st_qp s)) !! id)) l ->
  (forall s', flushed l (u (drain l (qp_requester (st_qp s)))) s s' -> wp k Q s') ->
  wp (for_each flush_send_wqe l ;; upd_req u ;; k) Q s.
Proof.
  intros He Hl HQ. wp_step. eapply wp_mono.
  - apply (wp_flush_list l u s (fun _ s' => wp k Q s')); done.
  - intros [] s' H. by wp_step.
Qed.

(** ** Receive entries *)

(** Two states with the same QP but for its responder, and the same scheduler. *)
Definition rsp_frame (s s' : st) : Prop :=
  (exists rs, st_qp s' = (st_qp s) <| qp_responder := rs |>)
  /\ st_pd s' = st_pd s /\ st_mem s' = st_mem s /\ st_ports s' = st_ports s /\ st_sched s' = st_sched s
  /\ st_now s' = st_now s.

Lemma rsp_frame_refl s : rsp_frame s s.
Proof. split; [|done]. exists (qp_responder (st_qp s)). by destruct s as [[] ? ? ? ? ? ? ? ? ? ? ? ?]. Qed.

Lemma rsp_frame_trans s1 s2 s3 : rsp_frame s1 s2 -> rsp_frame s2 s3 -> rsp_frame s1 s3.
Proof.
  intros ([rs1 E1] & ? & ? & ? & ? & ?) ([rs2 E2] & ? & ? & ? & ? & ?). split; [|split_and?; congruence].
  exists rs2. rewrite E2, E1. done.
Qed.

Lemma wp_free_recv_wqe s (Q : unit -> st -> Prop) :
  qp_env s ->
  (forall s', rsp_frame s s' -> qp_env s' -> st_cqs s' = st_cqs s ->
     rs_recv_wqes (qp_responder (st_qp s')) = rs_recv_wqes (qp_responder (st_qp s)) ->
     rs_nr_recv_wqe (qp_responder (st_qp s')) = rs_nr_recv_wqe (qp_responder (st_qp s)) -> Q tt s') ->
  wp pib_util_free_recv_wqe Q s.
Proof.
  intros He HQ. pose proof He as (E1 & E2 & E3 & E4 & [E5 E5'] & E6). unfold pib_util_free_recv_wqe, the_qp.
  wp_step. wp_step. destruct (i_srq (qp_init_attr (st_qp s))) as [n|] eqn:Es.
  - wp_run; [|by destruct E4; congruence]. apply HQ; try done.
    + split; [|done]. exists (qp_responder (st_qp s)). by destruct s as [[] ? ? ? ? ? ? ? ? ? ? ? ?].
    + unfold qp_env, sched_member; simpl. rewrite Es. split_and!; try done; try lia. rewrite lookup_insert_eq. by eexists.
  - unfold upd_rsp, upd_qp. wp_run. apply HQ; try done. split; [by eexists|done].
Qed.

Definition recv_flush_ops (q : pib_qp) (l : list pib_recv_wqe) : list cq_op :=
  (fun w => flush_wc q (rwqe_wr_id w) IB_WC_RECV) <$> l.

(** The receive entries [l] at the head of the list are completed and released. *)
Definition recv_flushed (l : list pib_recv_wqe) (s s' : st) : Prop :=
  rsp_frame s s' /\ qp_env s'
  /\ rs_recv_wqes (qp_responder (st_qp s')) = drop (length l) (rs_recv_wqes (qp_responder (st_qp s)))
  /\ (forall c, c <> qp_recv_cq (st_qp s) -> st_cqs s' !! c = st_cqs s !! c)
  /\ (param_bit pib_behavior PIB_BEHAVIOR_CORRUPT_INVALID_WC_ATTRS = false ->
      forall cq, st_cqs s !! qp_recv_cq (st_qp s) = Some cq ->
      st_cqs s' !! qp_recv_cq (st_qp s) = Some (cq_after (recv_flush_ops (st_qp s) l) cq)).

Lemma wp_flush_recv_wqe w s (Q : unit -> st -> Prop) :
  qp_env s -> (forall s', recv_flushed [w] s s' -> Q tt s') -> wp (flush_recv_wqe w) Q s.
Proof.
  intros He HQ. unfold flush_recv_wqe, the_qp. wp_run.
  pose proof He as (Ec & _ & [cq Hcq] & _). eapply wp_insert_wc_error; [exact Hcq|by apply (Ec _ _ Hcq)|].
  intros s1 cq1 Hf1 Hc1 Hi1 Hv1. assert (qp_env s1) as He1 by (by eapply qp_env_cq).
  unfold upd_rsp, upd_qp. wp_run. apply wp_free_recv_wqe; [by apply qp_env_upd|].
  intros s2 Hf2 He2 Hc2 Hr2 Hn2. apply HQ. destruct Hf1 as (F1 & F2 & F3 & F4 & F5 & F6 & F7 & F8).
  split; [|split; [done|split; [|split]]].
  - eapply rsp_frame_trans; [|exact Hf2]. split; [|done].
    exists ((qp_responder (st_qp s)) <| rs_recv_wqes ::= tail |>). simpl. rewrite F1. done.
  - rewrite Hr2. simpl. rewrite F1. by destruct (rs_recv_wqes (qp_responder (st_qp s))).
  - intros c Hc. rewrite Hc2. simpl. rewrite Hc1. by rewrite lookup_insert_ne.
  - intros Hb cq0 Hcq0. assert (cq0 = cq) as -> by congruence. rewrite Hc2. simpl. rewrite Hc1, lookup_insert_eq.
    rewrite cq_after_cons. simpl. rewrite (Hv1 Hb). by destruct (insert_wc _ _ _ cq) as [[? ?] ?].
Qed.

Lemma recv_flushed_trans w l s s1 s2 : recv_flushed [w] s s1 -> recv_flushed l s1 s2 -> recv_flushed (w :: l) s s2.
Proof.
  intros (F1 & F2 & F3 & F4 & F5) (G1 & G2 & G3 & G4 & G5).
  assert (qp_recv_cq (st_qp s1) = qp_recv_cq (st_qp s)) as Hrc by (destruct F1 as [[rs ->] _]; done).
  assert (recv_flush_ops (st_qp s1) l = recv_flush_ops (st_qp s) l) as Hops by (destruct F1 as [[rs ->] _]; done).
  rewrite Hrc in *. split; [by eapply rsp_frame_trans|]. split; [done|]. split; [|split].
  - rewrite G3, F3, drop_drop. done.
  - intros c Hc. rewrite G4 by done. by apply F4.
  - intros Hb cq Hcq. rewrite (G5 Hb _ (F5 Hb _ Hcq)), Hops, <- cq_after_app. done.
Qed.

Lemma wp_flush_recv_loop l : forall s (Q : unit -> st -> Prop),
  qp_env s -> (forall s', recv_flushed l s s' -> Q tt s') -> wp (for_each flush_recv_wqe l) Q s.
Proof.
  induction l as [|w l IH]; intros s Q He HQ; simpl.
  - apply wp_ret, HQ. split; [apply rsp_frame_refl|]. split; [done|]. split; [by rewrite drop_0|done].
  - wp_step. eapply wp_flush_recv_wqe; [done|]. intros s1 Hf1. apply IH; [apply Hf1|].
    intros s2 Hf2. apply HQ. by eapply recv_flushed_trans.
Qed.

(** ** Flushing the send side *)

(** The requests that are not completed yet, oldest first. *)
Definition outstanding (r : requester_t) : list Z := rq_waiting r ++ rq_sending r ++ rq_submitted r.

Lemma own_in_store ids out r l : rq_own ids out r -> (forall k, k ∈ l -> k ∈ rq_lists r) ->
  Forall (fun id => is_Some (rq_swqes r !! id)) l.
Proof.
  intros Ho Hl. apply Forall_forall. intros k Hk. eapply rq_own_lookup; [done|]. apply elem_of_app. right. by apply Hl.
Qed.

Definition req_flush (r : requester_t) : requester_t :=
  r <| rq_free ::= fun f => ((f ++ rq_waiting r) ++ rq_sending r) ++ rq_submitted r |>
    <| rq_waiting := [] |> <| rq_nr_waiting := 0 |> <| rq_sending := [] |> <| rq_nr_sending := 0 |>
    <| rq_submitted := [] |> <| rq_nr_submitted := 0 |> <| rq_nr_rd_atomic := 0 |>.

Lemma perm_rev3 (a b c : list Z) : a ++ b ++ c ≡ₚ c ++ b ++ a.
Proof.
  rewrite (Permutation_app_comm a), <- app_assoc, (app_assoc b), (app_assoc c).
  by rewrite (Permutation_app_comm b c).
Qed.

Lemma req_flush_own ids out r : rq_own ids out r -> rq_own ids out (req_flush r) /\ rq_counts (req_flush r).
Proof.
  intros Ho. split; [|done]. apply (rq_own_perm ids out r); [done..|]. apply Permutation_app_head. unfold rq_lists. simpl.
  rewrite !app_nil_r, <- !app_assoc. apply Permutation_app_head, perm_rev3.
Qed.

Lemma wp_flush_sends ids out s (Q : unit -> st -> Prop) :
  qp_env s -> rq_own ids out (qp_requester (st_qp s)) ->
  (forall s', flushed (outstanding (qp_requester (st_qp s))) (req_flush (qp_requester (st_qp s))) s s' -> Q tt s') ->
  wp flush_sends Q s.
Proof.
  intros He Ho HQ. unfold flush_sends, the_req. set (r := qp_requester (st_qp s)) in *.
  wp_step. wp_step. fold r.
  apply wp_flush_list_bind; [done|eapply own_in_store; [exact Ho|unfold rq_lists; set_solver]|].
  intros s1 Hf1. fold r in Hf1. rewrite (drain_waiting ids out r Ho) in Hf1.
  set (r1 := r <| rq_waiting := [] |> <| rq_free ::= fun f => f ++ rq_waiting r |> <| rq_nr_waiting := 0 |>).
  change (flushed (rq_waiting r) r1 s s1) in Hf1.
  assert (rq_own ids out r1) as Ho1.
  { apply (rq_own_perm ids out r); [done..|]. apply Permutation_app_head. unfold rq_lists. simpl. rewrite app_nil_r.
    rewrite <- !app_assoc. apply Permutation_app_head.
    rewrite (Permutation_app_comm (rq_waiting r)), <- app_assoc. done. }
  pose proof Hf1 as (F1 & _ & _ & _ & _ & _ & _ & F8 & _).
  wp_step. wp_step. rewrite F1. simpl qp_requester.
  apply wp_flush_list_bind; [done|rewrite F1; apply (own_in_store ids out r1); [exact Ho1|unfold rq_lists; set_solver]|].
  intros s2 Hf2. rewrite F1 in Hf2. simpl qp_requester in Hf2. rewrite (drain_sending ids out r1 Ho1) in Hf2.
  set (r2 := r1 <| rq_sending := [] |> <| rq_free ::= fun f => f ++ rq_sending r1 |> <| rq_nr_sending := 0 |>).
  change (flushed (rq_sending r1) r2 s1 s2) in Hf2.
  assert (rq_own ids out r2) as Ho2.
  { apply (rq_own_perm ids out r1); [done..|]. apply Permutation_app_head. unfold rq_lists. simpl. rewrite !app_nil_r.
    rewrite <- !app_assoc. do 2 apply Permutation_app_head. apply Permutation_app_comm. }
  pose proof Hf2 as (G1 & _ & _ & _ & _ & _ & _ & G8 & _). rewrite F1 in G1. simpl in G1.
  wp_step. wp_step. rewrite G1. simpl qp_requester. wp_step. eapply wp_mono.
  - apply (wp_flush_list (rq_submitted r2) (fun r => r <| rq_nr_submitted := 0 |> <| rq_nr_rd_atomic := 0 |>)); [done| |].
    + rewrite G1. apply (own_in_store ids out r2); [exact Ho2|unfold rq_lists; set_solver].
    + intros s3 Hf3. apply HQ. rewrite G1 in Hf3. simpl qp_requester in Hf3. rewrite (drain_submitted ids out r2 Ho2) in Hf3.
      unfold outstanding. eapply flushed_trans; [|exact Hf1|]; [done|].
      eapply flushed_trans; [|exact Hf2|exact Hf3]. by rewrite F1.
  - done.
Qed.

(** ** Resetting the send lists *)

Lemma wp_reset_send_loop sig l : forall count s (Q : Z -> st -> Prop),
  Forall (fun id => is_Some (rq_swqes (qp_requester (st_qp s)) !! id)) l ->
  (forall n, Q n (s <| st_qp ::= fun q => q <| qp_requester ::= drain l |> |>)) ->
  wp (reset_send_loop sig l count) Q s.
Proof.
  induction l as [|id l IH]; intros count s Q Hl HQ; simpl.
  - apply wp_ret. specialize (HQ count). by destruct s as [[] ? ? ? ? ? ? ? ? ? ? ? ?].
  - apply Forall_cons in Hl as [[w Hw] Hl]. unfold get_swqe, the_req. wp_run. rewrite Hw. wp_run.
    unfold swqe_list_del, pib_util_free_send_wqe, upd_req, upd_qp. wp_run. apply IH; [done|]. intros n. apply HQ.
Qed.

Lemma wp_reset_list {A} sig l count u (k : Z -> M st A) s Q :
  Forall (fun id => is_Some (rq_swqes (qp_requester (st_qp s)) !! id)) l ->
  (forall n, wp (k n) Q (s <| st_qp ::= fun q => q <| qp_requester ::= fun r => u (drain l r) |> |>)) ->
  wp (let! c := reset_send_loop sig l count in upd_req u ;; k c) Q s.
Proof. intros Hl HQ. wp_step. apply wp_reset_send_loop; [done|]. intros n. wp_step. unfold upd_req, upd_qp. wp_step. apply HQ. Qed.

Lemma wp_reset_sends ids sig s (Q : Z -> st -> Prop) :
  rq_own ids [] (qp_requester (st_qp s)) ->
  (forall n, Q n (s <| st_qp ::= fun q => q <| qp_requester ::= req_flush |> |>)) ->
  wp (reset_sends sig) Q s.
Proof.
  intros Ho HQ. unfold reset_sends, the_req. set (r := qp_requester (st_qp s)) in *.
  wp_step. wp_step. fold r.
  apply wp_reset_list; [eapply own_in_store; [exact Ho|unfold rq_lists; set_solver]|]. intros n1.
  set (r1 := r <| rq_waiting := [] |> <| rq_free ::= fun f => f ++ rq_waiting r |> <| rq_nr_waiting := 0 |>).
  wp_step. wp_step. simpl. fold r. rewrite (drain_waiting ids [] r Ho).
  assert (rq_own ids [] r1) as Ho1.
  { apply (rq_own_perm ids [] r); [done..|]. unfold rq_lists. simpl. rewrite app_nil_r.
    rewrite <- !app_assoc. apply Permutation_app_head. rewrite (Permutation_app_comm (rq_waiting r)), <- app_assoc. done. }
  change (wp (let! c := reset_send_loop sig (rq_sending r1) n1 in
    upd_req (fun r => r <| rq_nr_sending := 0 |>) ;;
    let! r := gets (fun s => qp_requester (st_qp s)) in
    let! count := reset_send_loop sig (rq_submitted r) c in
    upd_req (fun r => r <| rq_nr_submitted := 0 |> <| rq_nr_rd_atomic := 0 |>) ;; ret count) Q
    (s <| st_qp ::= fun q => q <| qp_requester := r1 |> |>)).
  apply wp_reset_list; [apply (own_in_store ids [] r1); [exact Ho1|unfold rq_lists; set_solver]|]. intros n2.
  set (r2 := r1 <| rq_sending := [] |> <| rq_free ::= fun f => f ++ rq_sending r1 |> <| rq_nr_sending := 0 |>).
  assert (rq_own ids [] r2) as Ho2.
  { apply (rq_own_perm ids [] r1); [done..|]. unfold rq_lists. simpl. rewrite !app_nil_r.
    rewrite <- !app_assoc. do 2 apply Permutation_app_head. apply Permutation_app_comm. }
  wp_step. wp_step. cbn [st_qp qp_requester set_field]. rewrite (drain_sending ids [] r1 Ho1).
  change (wp (let! c := reset_send_loop sig (rq_submitted r2) n2 in
    upd_req (fun r => r <| rq_nr_submitted := 0 |> <| rq_nr_rd_atomic := 0 |>) ;; ret c) Q
    (s <| st_qp ::= fun q => q <| qp_requester := r2 |> |>)).
  apply wp_reset_list; [apply (own_in_store ids [] r2); [exact Ho2|unfold rq_lists; set_solver]|]. intros n3.
  wp_step. cbn [st_qp qp_requester set_field]. rewrite (drain_submitted ids [] r2 Ho2).
  specialize (HQ n3). unfold req_flush in HQ. fold r in HQ. exact HQ.
Qed.

Lemma wp_reset_recv_loop l : forall count s (Q : Z -> st -> Prop),
  qp_env s ->
  (forall n s', rsp_frame s s' -> qp_env s' -> st_cqs s' = st_cqs s ->
     rs_recv_wqes (qp_responder (st_qp s')) = drop (length l) (rs_recv_wqes (qp_responder (st_qp s))) -> Q n s') ->
  wp (reset_recv_loop l count) Q s.
Proof.
  induction l as [|w l IH]; intros count s Q He HQ; simpl.
  - apply wp_ret, HQ; [apply rsp_frame_refl|done|done|by rewrite drop_0].
  - unfold upd_rsp, upd_qp. wp_run. apply wp_free_recv_wqe; [by apply qp_env_upd|].
    intros s1 Hf1 He1 Hc1 Hr1 _. apply IH; [done|]. intros n s2 Hf2 He2 Hc2 Hr2. apply HQ; [|done|by rewrite Hc2, Hc1|].
    + eapply rsp_frame_trans; [|exact Hf2]. eapply rsp_frame_trans; [|exact Hf1]. split; [by eexists|done].
    + rewrite Hr2, Hr1. simpl. by destruct (rs_recv_wqes (qp_responder (st_qp s))), l.
Qed.

End QpInv.
