(* ===== verification/QpThm.v ===== *)
(** * Queue pairs: theorems

    The operations of driver/pib_qp.c keep the queue-pair invariant, and do what
    they promise: flushing completes every outstanding request once and in order,
    resetting leaves neither requests nor completions behind, posting accepts a
    prefix of the chain in order, a modification follows the state machine. *)

From S2P Require Import Prelude Verbs Lib ObjNum Cq Srq Mr State Demo Sched Qp QpInv.

Section QpThm.
Context {PP : Params}.

Definition corrupt : bool := param_bit pib_behavior PIB_BEHAVIOR_CORRUPT_INVALID_WC_ATTRS.

(** Updates of the QP that keep the environment. *)
Ltac env_upd :=
  repeat lazymatch goal with |- qp_env (set_field st_qp ?f ?s) => apply (qp_env_upd f s); [unfold qp_same_env; simpl; split_and?; reflexivity|] end.

(** ** Small steps that keep the invariant *)

Lemma qp_wf_env_only ids s s' {out} :
  qp_wfo ids out s -> qp_env s' -> qp_requester (st_qp s') = qp_requester (st_qp s) ->
  qp_responder (st_qp s') = qp_responder (st_qp s) -> qp_wfo ids out s'.
Proof. intros [H1 H2 H3 H4] He Hr Hs. split; [done|by rewrite Hr..|by rewrite Hs]. Qed.

Lemma wfo_reschedule ids out s (Q : unit -> st -> Prop) :
  qp_wfo ids out s ->
  (forall s', qp_wfo ids out s' -> qp_requester (st_qp s') = qp_requester (st_qp s) ->
     qp_responder (st_qp s') = qp_responder (st_qp s) ->
     (exists on t tid, st_qp s' = (st_qp s) <| qp_sched_on := on |> <| qp_sched_time := t |> <| qp_sched_tid := tid |>) ->
     st_cqs s' = st_cqs s -> st_srqs s' = st_srqs s -> st_pd s' = st_pd s -> st_mem s' = st_mem s ->
     st_ports s' = st_ports s -> st_now s' = st_now s -> Q tt s') ->
  wp pib_util_reschedule_qp Q s.
Proof.
  intros Hwf HQ. pose proof (wfo_env _ _ _ Hwf) as He. apply wp_reschedule; [apply He|].
  intros s' Hm Hrq Hrs Hq Hc Hs Hp Hme Hn Hpo. apply HQ; try done.
  eapply qp_wf_env_only; [done| |done|done]. by eapply qp_env_resched.
Qed.

Lemma wfo_reset_contig ids out s (Q : unit -> st -> Prop) :
  qp_wfo ids out s ->
  (forall s', qp_wfo ids out s' -> s' = s <| st_qp ::= fun q => q
      <| qp_requester ::= fun r => r <| rq_nr_contig_requests := 0 |> <| rq_nr_contig_read_acks := 0 |> |>
      <| qp_responder ::= fun r => r <| rs_nr_contig_read_acks := 0 |> |> |> -> Q tt s') ->
  wp reset_contig Q s.
Proof.
  intros [H1 H2 H3 H4] HQ. unfold reset_contig, upd_req, upd_rsp, upd_qp. wp_run. apply HQ; [|done].
  split; done.
Qed.

(** ** Flushing *)

Lemma flushed_env l r' s s' : flushed l r' s s' -> qp_env s'.
Proof. by intros (_ & _ & _ & _ & _ & _ & _ & H & _). Qed.

Lemma flushed_lists l s s' : flushed l (req_flush (qp_requester (st_qp s))) s s' ->
  st_qp s' = (st_qp s) <| qp_requester ::= req_flush |>.
Proof. intros (H & _). by destruct s as [[] ? ? ? ? ? ? ? ? ? ? ? ?]. Qed.

(** The completions a flush adds to the completion queue [c]. *)
Definition flush_all_ops (s : st) (send_only : bool) (c : Z) : list cq_op :=
  let q := st_qp s in
  (if c =? qp_send_cq q then flush_ops q (rq_swqes (qp_requester q)) (outstanding (qp_requester q)) else [])
  ++ (if (c =? qp_recv_cq q) && negb send_only then recv_flush_ops q (rs_recv_wqes (qp_responder q)) else []).

Lemma flush_all_cqs_send l r' s s' c cq : flushed l r' s s' -> corrupt = false -> st_cqs s !! c = Some cq ->
  st_cqs s' !! c = Some (cq_after (if c =? qp_send_cq (st_qp s)
    then flush_ops (st_qp s) (rq_swqes (qp_requester (st_qp s))) l else []) cq).
Proof.
  intros (_ & _ & _ & _ & _ & _ & _ & _ & F1 & F2) Hb Hc. destruct (Z.eqb_spec c (qp_send_cq (st_qp s))) as [->|Hne].
  - by apply F2.
  - by rewrite F1.
Qed.

Lemma flush_all_cqs_recv l s s' c cq : recv_flushed l s s' -> corrupt = false -> st_cqs s !! c = Some cq ->
  st_cqs s' !! c = Some (cq_after (if c =? qp_recv_cq (st_qp s) then recv_flush_ops (st_qp s) l else []) cq).
Proof.
  intros (_ & _ & _ & F1 & F2) Hb Hc. destruct (Z.eqb_spec c (qp_recv_cq (st_qp s))) as [->|Hne].
  - by apply F2.
  - by rewrite F1.
Qed.

(** What a flush leaves: no outstanding request (nor receive), the completions of
    all of them, nothing else changed for the applications' objects. *)
Definition flush_resulto (ids out : list Z) (send_only : bool) (s s' : st) : Prop :=
  qp_wfo ids out s'
  /\ outstanding (qp_requester (st_qp s')) = [] /\ rq_nr_rd_atomic (qp_requester (st_qp s')) = 0
  /\ out ++ rq_free (qp_requester (st_qp s')) ≡ₚ ids
  /\ (send_only = false -> rs_recv_wqes (qp_responder (st_qp s')) = [] /\ rs_acks (qp_responder (st_qp s')) = [])
  /\ (send_only = true -> qp_responder (st_qp s') = qp_responder (st_qp s))
  /\ qp_state (st_qp s') = qp_state (st_qp s)
  /\ st_pd s' = st_pd s /\ st_mem s' = st_mem s /\ st_ports s' = st_ports s /\ st_now s' = st_now s
  /\ (corrupt = false -> forall c cq, st_cqs s !! c = Some cq ->
        st_cqs s' !! c = Some (cq_after (flush_all_ops s send_only c) cq)).

Abbreviation flush_result ids := (flush_resulto ids []).

Lemma all_free ids out r : rq_own ids out r -> outstanding r = [] -> out ++ rq_free r ≡ₚ ids.
Proof.
  intros (_ & _ & Hp) Ho. unfold outstanding in Ho. apply app_eq_nil in Ho as [Hw Ho].
  apply app_eq_nil in Ho as [Hs Hu]. unfold rq_lists in Hp. by rewrite Hw, Hs, Hu, app_nil_r in Hp.
Qed.

(** The last steps of a flush do not touch the lists or the queues. *)
Definition quiet (s s' : st) : Prop :=
  qp_env s' /\ qp_requester (st_qp s') = qp_requester (st_qp s) /\ qp_responder (st_qp s') = qp_responder (st_qp s)
  /\ qp_state (st_qp s') = qp_state (st_qp s) /\ st_cqs s' = st_cqs s /\ st_srqs s' = st_srqs s
  /\ st_pd s' = st_pd s /\ st_mem s' = st_mem s /\ st_ports s' = st_ports s /\ st_now s' = st_now s.

Lemma qp_env_events f s : qp_env s -> qp_env (s <| st_events ::= f |>).
Proof. done. Qed.

Lemma wp_async_event ev s (Q : unit -> st -> Prop) :
  qp_env s -> (forall s', quiet s s' -> st_qp s' = st_qp s -> Q tt s') -> wp (pib_util_insert_async_qp_event ev) Q s.
Proof.
  intros He HQ. unfold pib_util_insert_async_qp_event, pib_util_insert_async_qp_error, the_qp, emit. wp_run.
  all: apply HQ; [|done]; unfold quiet; split_and?; try done.
Qed.

Lemma wp_last_wqe_event b s (Q : unit -> st -> Prop) :
  qp_env s -> (forall s', quiet s s' -> Q tt s') ->
  wp (when b (pib_util_insert_async_qp_event IB_EVENT_QP_LAST_WQE_REACHED ;;
              upd_qp (fun q => q <| qp_issue_last_wqe_reached := true |>))) Q s.
Proof.
  intros He HQ. wp_step; [|apply HQ; unfold quiet; by split_and?].
  wp_step. apply wp_async_event; [done|]. intros s' Hq Hqp. unfold upd_qp. wp_step. apply HQ.
  destruct Hq as (E1 & E2 & E3 & E4 & E5 & E6 & E7 & E8 & E9 & E10). unfold quiet. split_and?; try done.
Qed.

Lemma wpo_flush_qp ids out send_only s (Q : unit -> st -> Prop) :
  qp_wfo ids out s -> (forall s', flush_resulto ids out send_only s s' -> Q tt s') -> wp (pib_util_flush_qp send_only) Q s.
Proof.
  intros [He Ho Hn Hr] HQ. unfold pib_util_flush_qp. wp_step. apply (wp_flush_sends ids out); [done|done|].
  intros s1 Hf1. destruct (req_flush_own ids out _ Ho) as [Ho1 Hn1]. pose proof (flushed_lists _ _ _ Hf1) as Hq1.
  pose proof Hf1 as (_ & Hs1 & Hp1 & Hm1 & Hpo1 & Hsc1 & Hnow1 & He1 & _).
  destruct send_only.
  { wp_step. apply HQ. split; [split; [done|by rewrite Hq1..]|]. rewrite Hq1. simpl. split_and?; try done.
    - by apply (all_free ids out (req_flush (qp_requester (st_qp s)))).
    - intros Hb c cq Hc. unfold flush_all_ops. rewrite andb_false_r, app_nil_r. by eapply flush_all_cqs_send. }
  unfold the_rsp, the_qp. wp_step. wp_step. wp_step. apply wp_flush_recv_loop; [done|]. intros s2 Hf2.
  pose proof Hf2 as ([[rs2 Hq2] (Hp2 & Hm2 & Hpo2 & Hsc2 & Hnow2)] & He2 & Hrl2 & _). rewrite drop_all in Hrl2.
  unfold upd_rsp, upd_qp. wp_step. wp_step. wp_step. wp_step.
  set (s3 := s2 <| st_qp ::= _ |>).
  assert (Hcq : corrupt = false -> forall c cq, st_cqs s !! c = Some cq ->
    st_cqs s3 !! c = Some (cq_after (flush_all_ops s false c) cq)).
  { intros Hb c cq Hc. unfold flush_all_ops. rewrite andb_true_r, cq_after_app.
    pose proof (flush_all_cqs_send _ _ _ _ c cq Hf1 Hb Hc) as Hc1.
    pose proof (flush_all_cqs_recv _ _ _ c _ Hf2 Hb Hc1) as Hc2. rewrite Hq1 in Hc2. exact Hc2. }
  assert (Hwf3 : qp_wfo ids out s3).
  { split; simpl; [by apply qp_env_upd| | |].
    - rewrite Hq2, Hq1. done.
    - rewrite Hq2, Hq1. done.
    - by rewrite Hrl2. }
  assert (He3 : qp_env s3) by apply Hwf3. wp_step. apply wp_last_wqe_event; [done|].
  intros s4 (He4 & Q1 & Q2 & Q3 & Q4 & Q5 & Q6 & Q7 & Q8 & Q9). wp_step. apply (wfo_reschedule ids out).
  { by eapply (qp_wf_env_only ids s3). }
  intros s5 Hwf5 R1 R2 (on & t & tid & R3) R4 R5 R6 R7 R8 R9. apply (wfo_reset_contig ids out); [done|].
  intros s6 Hwf6 ->. apply HQ. split; [done|]. simpl. rewrite R1, R2, R3, Q1, Q2. simpl. rewrite Q3, Hq2. simpl.
  unfold s3 in Q6, Q7, Q8, Q9. simpl in Q6, Q7, Q8, Q9. split_and?; try congruence.
  - by rewrite Hq1.
  - by rewrite Hq1.
  - rewrite Hq1. by apply (all_free ids out (req_flush (qp_requester (st_qp s)))).
  - intros _. by rewrite Hq2 in Hrl2.
  - by rewrite Hq2, Hq1.
  - intros Hb c cq Hc. rewrite R4, Q4. by apply Hcq.
Qed.

Definition wp_flush_qp ids := wpo_flush_qp ids [].
Definition wf_reschedule ids := wfo_reschedule ids [].
Definition wf_reset_contig ids := wfo_reset_contig ids [].

(** ** Resetting *)

(** No completion of QP [qpn] in the queue. *)
Definition forgotten (qpn : Z) (cq : pib_cq) : Prop := Forall (fun wc => wc_qp wc <> qpn) (cq_cqe_head cq).

Lemma remove_cq_forgotten qpn cq : cq_inv cq ->
  cq_inv (snd (pib_util_remove_cq qpn cq)) /\ forgotten qpn (snd (pib_util_remove_cq qpn cq)).
Proof.
  intros Hi. pose proof (cq_step_refines (OpRemove qpn) cq Hi) as H. simpl in H.
  unfold forgotten. unfold pib_util_remove_cq in *. rewrite remove_loop_spec in *. simpl in *. split; [apply H|].
  apply Forall_forall. intros wc Hwc. apply list_elem_of_In, List.filter_In in Hwc as [_ Hwc]. by bools.
Qed.

Lemma wp_cq_remove c qpn s (Q : Z -> st -> Prop) :
  qp_env s -> is_Some (st_cqs s !! c) ->
  (forall n s' cq', cq_frame s s' -> qp_env s' -> st_cqs s' = <[c := cq']> (st_cqs s) -> forgotten qpn cq' -> Q n s') ->
  wp (with_cq_remove c qpn) Q s.
Proof.
  intros He [cq Hcq] HQ. unfold with_cq_remove. eapply wp_with_cq; [done|]. intros s' Hf Hc _.
  assert (cq_inv cq) as Hi by (by eapply (proj1 He)). destruct (remove_cq_forgotten qpn cq Hi) as [Hi' Hfo].
  destruct (pib_util_remove_cq qpn cq) as [n cq'] eqn:E. simpl in *. eapply HQ; [done| |done|done]. by eapply qp_env_cq.
Qed.

Lemma local_ack_time_total hz t : 0 <= t < 32 -> is_Some (pib_get_local_ack_time hz t).
Proof.
  intros Ht. unfold pib_get_local_ack_time. destruct (t =? 0); [by eexists|].
  destruct (local_ack_timeout hz !! Z.to_nat t) eqn:E; [by eexists|]. exfalso.
  apply lookup_ge_None in E. unfold local_ack_timeout, local_ack_timeout_nsec in E. simpl in E. lia.
Qed.

(** What a reset leaves. *)
Definition reset_result (ids : list Z) (s s' : st) : Prop :=
  qp_wf ids s'
  /\ outstanding (qp_requester (st_qp s')) = [] /\ rq_free (qp_requester (st_qp s')) ≡ₚ ids
  /\ rs_recv_wqes (qp_responder (st_qp s')) = [] /\ rs_acks (qp_responder (st_qp s')) = []
  /\ rq_psn (qp_requester (st_qp s')) = 0 /\ rq_expected_psn (qp_requester (st_qp s')) = 0
  /\ rq_nr_rd_atomic (qp_requester (st_qp s')) = 0
  /\ rs_psn (qp_responder (st_qp s')) = 0 /\ rs_offset (qp_responder (st_qp s')) = 0
  /\ qp_state (st_qp s') = qp_state (st_qp s) /\ st_pd s' = st_pd s /\ st_mem s' = st_mem s
  /\ st_ports s' = st_ports s /\ st_now s' = st_now s
  /\ (forall cq, st_cqs s' !! qp_send_cq (st_qp s) = Some cq \/ st_cqs s' !! qp_recv_cq (st_qp s) = Some cq ->
       forgotten (qp_num (st_qp s)) cq)
  /\ (forall c, c <> qp_send_cq (st_qp s) -> c <> qp_recv_cq (st_qp s) -> st_cqs s' !! c = st_cqs s !! c).

(** Both queues of the QP. *)
Lemma wp_remove_both s (k : Z -> Z -> M st Z) (Q' : Z -> st -> Prop) :
  qp_env s ->
  (forall n1 n2 s', cq_frame s s' -> qp_env s' ->
    (forall cq, st_cqs s' !! qp_send_cq (st_qp s) = Some cq \/ st_cqs s' !! qp_recv_cq (st_qp s) = Some cq ->
       forgotten (qp_num (st_qp s)) cq) ->
    (forall c, c <> qp_send_cq (st_qp s) -> c <> qp_recv_cq (st_qp s) -> st_cqs s' !! c = st_cqs s !! c) ->
    wp (k n1 n2) Q' s') ->
  wp (let! n1 := with_cq_remove (qp_send_cq (st_qp s)) (qp_num (st_qp s)) in
      let! n2 := (if qp_send_cq (st_qp s) =? qp_recv_cq (st_qp s) then ret 0
                  else with_cq_remove (qp_recv_cq (st_qp s)) (qp_num (st_qp s))) in k n1 n2) Q' s.
Proof.
  intros He HQ. wp_step. apply wp_cq_remove; [done|apply He|]. intros n1 s1 cq1 Hf1 He1 Hc1 Hfo1.
  destruct (Z.eqb_spec (qp_send_cq (st_qp s)) (qp_recv_cq (st_qp s))) as [E|E].
  - wp_step. wp_step. apply HQ; [done|done| |].
    + intros cq. rewrite <- E, Hc1, lookup_insert_eq. intros [[= <-]|[= <-]]; done.
    + intros c Hc _. by rewrite Hc1, lookup_insert_ne.
  - wp_step. destruct Hf1 as (F1 & F2 & F3 & F4 & F5 & F6 & F7 & F8).
    apply wp_cq_remove; [done|rewrite <- F1; apply He1|]. intros n2 s2 cq2 Hf2 He2 Hc2 Hfo2.
    destruct Hf2 as (G1 & G2 & G3 & G4 & G5 & G6 & G7 & G8). apply HQ.
    + unfold cq_frame. split_and?; congruence.
    + done.
    + intros cq. rewrite Hc2, lookup_insert_eq, lookup_insert_ne, Hc1, lookup_insert_eq by done.
      intros [[= <-]|[= <-]]; done.
    + intros c Hc Hc'. by rewrite Hc2, lookup_insert_ne, Hc1, lookup_insert_ne.
Qed.

(** The attributes are reset, the lists and the environment stay. *)
Definition attr_reset (s s' : st) : Prop :=
  qp_env s' /\ st_cqs s' = st_cqs s /\ st_pd s' = st_pd s /\ st_mem s' = st_mem s /\ st_ports s' = st_ports s
  /\ st_now s' = st_now s /\ qp_state (st_qp s') = qp_state (st_qp s)
  /\ qp_requester (st_qp s') = (qp_requester (st_qp s)) <| rq_psn := 0 |> <| rq_expected_psn := 0 |> <| rq_nr_rd_atomic := 0 |>
  /\ rs_recv_wqes (qp_responder (st_qp s')) = rs_recv_wqes (qp_responder (st_qp s))
  /\ rs_nr_recv_wqe (qp_responder (st_qp s')) = rs_nr_recv_wqe (qp_responder (st_qp s))
  /\ rs_acks (qp_responder (st_qp s')) = rs_acks (qp_responder (st_qp s))
  /\ rs_psn (qp_responder (st_qp s')) = 0 /\ rs_offset (qp_responder (st_qp s')) = 0.

Lemma wp_reset_qp_attr s (Q : unit -> st -> Prop) :
  qp_env s -> (forall s', attr_reset s s' -> Q tt s') -> wp reset_qp_attr Q s.
Proof.
  intros He HQ. unfold reset_qp_attr, the_qp, upd_req, upd_rsp, upd_qp. do 3 wp_step.
  destruct (local_ack_time_total HZ (a_timeout (qp_attr (st_qp s)))) as [t ->]; [apply He|].
  wp_run. apply HQ. unfold attr_reset. split; [|done]. env_upd. exact He.
Qed.

Lemma own_psn ids r : rq_own ids [] r ->
  rq_own ids [] (r <| rq_psn := 0 |> <| rq_expected_psn := 0 |> <| rq_nr_rd_atomic := 0 |>).
Proof. done. Qed.
Lemma counts_psn r : rq_counts r -> rq_counts (r <| rq_psn := 0 |> <| rq_expected_psn := 0 |> <| rq_nr_rd_atomic := 0 |>).
Proof. done. Qed.

Lemma wp_reset_qp ids s (Q : Z -> st -> Prop) :
  qp_wf ids s -> (forall n s', reset_result ids s s' -> Q n s') -> wp reset_qp Q s.
Proof.
  intros [He Ho Hn Hr] HQ. unfold reset_qp, the_qp, the_rsp. do 3 wp_step.
  apply (wp_reset_sends ids); [done|]. intros n1. set (s1 := s <| st_qp ::= _ |>).
  destruct (req_flush_own ids [] _ Ho) as [Ho1 Hn1]. do 3 wp_step.
  apply wp_reset_recv_loop; [by apply qp_env_upd|].
  intros n2 s2 [[rs2 Hq2] (Hp2 & Hm2 & Hpo2 & _ & Hnow2)] He2 Hc2 Hr2.
  rewrite drop_all in Hr2. unfold upd_rsp, upd_qp. do 2 wp_step. set (s3 := s2 <| st_qp ::= _ |>).
  assert (qp_env s3) as He3 by (by apply qp_env_upd).
  assert (qp_send_cq (st_qp s) = qp_send_cq (st_qp s3)) as E1 by (unfold s3; simpl; by rewrite Hq2).
  assert (qp_recv_cq (st_qp s) = qp_recv_cq (st_qp s3)) as E2 by (unfold s3; simpl; by rewrite Hq2).
  assert (qp_num (st_qp s) = qp_num (st_qp s3)) as E3 by (unfold s3; simpl; by rewrite Hq2).
  rewrite E1, E2, E3. apply wp_remove_both; [done|]. intros m1 m2 s4 (F1 & _ & F3 & F4 & F5 & _ & _ & F8) He4 Hfo4 Hc4.
  wp_step. apply wp_reset_qp_attr; [done|].
  intros s5 (He5 & Hc5 & Hp5 & Hm5 & Hpo5 & Hnow5 & Hst5 & Hrq5 & Hrl5 & Hrn5 & Hra5 & Hps5 & Hof5).
  assert (qp_requester (st_qp s3) = req_flush (qp_requester (st_qp s))) as Hrq3 by (unfold s3; simpl; by rewrite Hq2).
  assert (rs_recv_wqes (qp_responder (st_qp s3)) = []) as Hr3 by (unfold s3; simpl; done).
  rewrite F1 in Hrq5, Hrl5, Hrn5, Hra5, Hst5. rewrite Hrq3 in Hrq5.
  assert (qp_wf ids s5) as Hwf5.
  { split; [done|rewrite Hrq5..|]; [by apply own_psn|by apply counts_psn|].
    by rewrite Hrn5, Hrl5, Hr3. }
  wp_step. apply (wf_reschedule ids); [done|]. intros s6 Hwf6 R1 R2 (on & t & tid & R3) R4 R5 R6 R7 R8 R9.
  wp_step. apply (wf_reset_contig ids); [done|]. intros s7 Hwf7 ->. wp_step. apply HQ. split; [done|].
  simpl. rewrite R1, R2, R3, Hrq5, Hrl5, Hra5, Hps5, Hof5, Hr3, E1, E2, E3. simpl. split_and?; try congruence; try done.
  - by apply (all_free ids [] (req_flush (qp_requester (st_qp s)))).
  - rewrite Hst5. unfold s3. simpl. by rewrite Hq2.
  - rewrite R6, Hp5, F3. exact Hp2.
  - rewrite R7, Hm5, F4. exact Hm2.
  - rewrite R8, Hpo5, F5. exact Hpo2.
  - rewrite R9, Hnow5, F8. exact Hnow2.
  - rewrite R4, Hc5. exact Hfo4.
  - intros c Hcs Hcr. rewrite R4, Hc5, Hc4 by done. unfold s3. simpl. by rewrite Hc2.
Qed.

(** ** Posting send requests *)

(** [s] with the entries of the QP replaced. *)
Definition with_store (s : st) (m : gmap Z pib_send_wqe) : st :=
  s <| st_qp ::= fun q => q <| qp_requester ::= fun r => r <| rq_swqes := m |> |> |>.
Definition store (s : st) : gmap Z pib_send_wqe := rq_swqes (qp_requester (st_qp s)).

Lemma with_store_id s : with_store s (store s) = s.
Proof. by destruct s as [[? ? ? ? ? ? ? ? ? ? ? ? ? [] ? ? ? ? ?] ? ? ? ? ? ? ? ? ? ? ?]. Qed.

Lemma wp_upd_swqe id f s m (Q : unit -> st -> Prop) :
  Q tt (with_store s (alter f id m)) -> wp (upd_swqe id f) Q (with_store s m).
Proof. done. Qed.

Lemma wp_get_swqe id s m w (Q : pib_send_wqe -> st -> Prop) :
  m !! id = Some w -> Q w (with_store s m) -> wp (get_swqe id) Q (with_store s m).
Proof. intros Hw HQ. unfold get_swqe, the_req. wp_step. wp_step. simpl. by rewrite Hw. Qed.

(** The entry [id] holds the request [wr]. *)
Definition holds_wr (m : gmap Z pib_send_wqe) (id : Z) (wr : ib_send_wr) : Prop :=
  exists w, m !! id = Some w
    /\ w_wr_id w = swr_wr_id wr /\ w_opcode w = swr_opcode wr /\ w_send_flags w = swr_send_flags wr
    /\ w_sge_array w = fst (split_imm_sge (swr_sg_list wr) (swr_ex wr))
    /\ p_list_type (w_processing w) = PIB_SWQE_SUBMITTED /\ p_status (w_processing w) = IB_WC_SUCCESS.

(** A request refused: at most the first free entry was written to. *)
Definition post_refused (s s' : st) : Prop :=
  exists m, s' = with_store s m /\ (forall k, head (rq_free (qp_requester (st_qp s))) <> Some k -> m !! k = store s !! k)
    /\ dom m = dom (store s).

(** A request accepted: the first free entry goes to the end of the submitted
    list, holding the request. *)
Definition post_accepted (wr : ib_send_wr) (s s' : st) : Prop :=
  let r := qp_requester (st_qp s) in
  exists id free m, rq_free r = id :: free /\ dom m = dom (store s)
    /\ (forall k, k <> id -> m !! k = store s !! k) /\ holds_wr m id wr
    /\ s' = s <| st_qp ::= fun q => q <| qp_requester := r <| rq_swqes := m |> <| rq_free := free |>
          <| rq_submitted ::= fun l => l ++ [id] |> <| rq_nr_submitted ::= Z.add 1 |> |> |>.

(** The store [m] differs from the one of [s] in the entry [id] at most. *)
Definition touches (id : Z) (s : st) (m : gmap Z pib_send_wqe) : Prop :=
  (forall k, k <> id -> m !! k = store s !! k) /\ dom m = dom (store s).

Lemma touches_self id s : touches id s (store s).
Proof. done. Qed.

Lemma touches_alter id s f m : touches id s m -> touches id s (alter f id m).
Proof. intros [H1 H2]. split; [intros k Hk; rewrite lookup_alter_ne by done; auto|]. by rewrite dom_alter_L. Qed.

Lemma touches_refused id free s m :
  rq_free (qp_requester (st_qp s)) = id :: free -> touches id s m -> post_refused s (with_store s m).
Proof. intros Hf [H1 H2]. exists m. split; [done|]. split; [|done]. intros k. rewrite Hf. simpl. intros. apply H1. congruence. Qed.

Lemma wp_upd_touch id f s m w (Q : unit -> st -> Prop) :
  touches id s m -> m !! id = Some w ->
  (forall m', touches id s m' -> m' !! id = Some (f w) -> Q tt (with_store s m')) ->
  wp (upd_swqe id f) Q (with_store s m).
Proof.
  intros Ht Hw HQ. apply wp_upd_swqe, HQ; [by apply touches_alter|]. by rewrite lookup_alter_eq, Hw.
Qed.

(** The entry leaves the free list only. *)
Lemma post_moves ids r m id free : rq_own ids [] r -> rq_free r = id :: free ->
  r <| rq_swqes := m |> <| rq_submitted ::= del id |> <| rq_sending ::= del id |> <| rq_waiting ::= del id |>
    <| rq_free ::= del id |> = r <| rq_swqes := m |> <| rq_free := free |>.
Proof.
  intros Ho Hf. destruct (own_disjoint _ _ _ Ho) as (Hnf & _ & _ & _ & Hs & Hse & Hw & _). rewrite Hf in *.
  apply NoDup_cons in Hnf as [Hnf _]. destruct r; simpl in *. subst.
  rewrite del_head, !del_notin; [done|..].
  - intros Hc. apply (Hw _ Hc). by left.
  - intros Hc. apply (Hse _ Hc). by left.
  - intros Hc. apply (Hs _ Hc). by left.
  - done.
Qed.

Section PostSend.
Variable copy_from_user : Z -> Z -> option (list Z).

Lemma fill_wr_keeps q wr w w' : fill_wr q wr w = Some w' ->
  w_wr_id w' = w_wr_id w /\ w_opcode w' = w_opcode w /\ w_send_flags w' = w_send_flags w /\ w_sge_array w' = w_sge_array w.
Proof. unfold fill_wr. intros H. repeat case_match; simplify_eq; done. Qed.

Lemma copy_inline_error q w tl e : copy_inline_data copy_from_user q w tl = inl e -> e < 0.
Proof. unfold copy_inline_data. intros. repeat case_match; simplify_eq; done. Qed.

Lemma wp_post_send_one ids wr tl s (Q : Z + Z -> st -> Prop) :
  qp_wf ids s ->
  (forall e s', e < 0 -> post_refused s s' -> Q (inl e) s') ->
  (forall tl' s', tl' <= PIB_MAX_PAYLOAD_LEN -> post_accepted wr s s' -> Q (inr tl') s') ->
  wp (post_send_one copy_from_user wr tl) Q s.
Proof.
  intros [He Ho Hn Hr] Hno Hyes. unfold post_send_one, the_qp. wp_step. wp_step.
  destruct (split_imm_sge _ _) as [sgl imm] eqn:Esp.
  assert (post_refused s s) as Hself by (exists (store s); rewrite with_store_id; done).
  wp_step; [wp_step; by apply Hno|].
  destruct (rq_free (qp_requester (st_qp s))) as [|id free] eqn:Ef; [wp_step; by apply Hno|].
  destruct (rq_own_lookup ids [] _ id Ho) as [w Hw]; [unfold rq_lists; rewrite Ef; by left|].
  rewrite <- (with_store_id s) at 1. wp_step. eapply wp_upd_touch; [apply touches_self|exact Hw|]. intros m1 Hm1 Hw1.
  set (tl' := if _ || _ then 8 else _). wp_step; [wp_step; apply Hno; [done|by eapply touches_refused]|]. bools.
  wp_step. eapply wp_upd_touch; [done..|]. intros m2 Hm2 Hw2. wp_step. eapply wp_get_swqe; [done|].
  destruct (if has_flag _ _ then _ else _) as [e|buf]; [wp_step; apply Hno; [done|by eapply touches_refused]|].
  wp_step. eapply wp_upd_touch; [done..|]. intros m3 Hm3 Hw3. wp_step. eapply wp_get_swqe; [done|].
  destruct (fill_wr _ _ _) as [w'|] eqn:Efw; [|wp_step; apply Hno; [done|by eapply touches_refused]].
  apply fill_wr_keeps in Efw as (K1 & K2 & K3 & K4). simpl in K1, K2, K3, K4.
  wp_step. eapply wp_upd_touch; [done..|]. intros m4 Hm4 Hw4.
  unfold swqe_list_del, upd_req, upd_qp. wp_run. apply Hyes; [done|]. exists id, free, m4.
  split; [done|]. split; [apply Hm4|]. split; [apply Hm4|]. split; [|by rewrite <- (post_moves ids _ m4 id free Ho Ef)].
  eexists. split; [exact Hw4|]. rewrite Esp. by split_and?.
Qed.

(** The requests [done] were accepted, in order, and nothing else happened to the
    outstanding requests or to the rest of the state. *)
Definition posted (done : list ib_send_wr) (s s' : st) : Prop :=
  let r := qp_requester (st_qp s) in
  exists new r', s' = s <| st_qp ::= fun q => q <| qp_requester := r' |> |>
    /\ rq_free r = new ++ rq_free r' /\ rq_submitted r' = rq_submitted r ++ new
    /\ rq_sending r' = rq_sending r /\ rq_waiting r' = rq_waiting r
    /\ rq_nr_submitted r' = rq_nr_submitted r + Zlen new
    /\ rq_nr_sending r' = rq_nr_sending r /\ rq_nr_waiting r' = rq_nr_waiting r
    /\ dom (rq_swqes r') = dom (rq_swqes r)
    /\ (forall k, k ∉ rq_free r -> rq_swqes r' !! k = rq_swqes r !! k)
    /\ Forall2 (fun id wr => holds_wr (rq_swqes r') id wr) new done.

Lemma posted_none s : posted [] s s.
Proof.
  exists [], (qp_requester (st_qp s)). split; [by destruct s as [[] ? ? ? ? ? ? ? ? ? ? ? ?]|].
  split_and?; try done; [by rewrite app_nil_r|rewrite Zlen_nil; lia].
Qed.

Lemma posted_refused s s' : post_refused s s' -> posted [] s s'.
Proof.
  intros (m & -> & Hm & Hd). eexists [], _. split; [done|]. simpl. split_and?; try done; [by rewrite app_nil_r|rewrite Zlen_nil; lia|].
  intros k Hk. apply Hm. destruct (rq_free (qp_requester (st_qp s))) as [|id f]; [done|].
  simpl. intros [= ->]. apply Hk. by left.
Qed.

Lemma posted_cons ids wr wrs s s1 s2 : rq_own ids [] (qp_requester (st_qp s)) ->
  post_accepted wr s s1 -> posted wrs s1 s2 -> posted (wr :: wrs) s s2.
Proof.
  intros Ho (id & free & m & Hf & Hd & Hm & Hh & ->) (new & r' & -> & P1 & P2 & P3 & P4 & P5 & P6 & P7 & P8 & P9 & P10).
  simpl in *. destruct (own_disjoint _ _ _ Ho) as (Hnf & _). rewrite Hf in Hnf. apply NoDup_cons in Hnf as [Hnf _].
  exists (id :: new), r'. split; [done|]. rewrite P2, P3, P4, P5, P6, P7, P8, <- app_assoc, Hf, P1, Zlen_cons.
  split_and?; try done; [lia|..].
  - intros k. rewrite not_elem_of_cons. intros [Hne Hk]. rewrite P9 by (by rewrite P1). by apply Hm.
  - constructor; [|done]. destruct Hh as (w & Hw & Hrest). exists w. by rewrite P9.
Qed.

Lemma posted_wf ids wrs s s' : qp_wf ids s -> posted wrs s s' -> qp_wf ids s'.
Proof.
  intros [He (Ho1 & Ho2 & Ho3) (Hn1 & Hn2 & Hn3) Hr] (new & r' & -> & P1 & P2 & P3 & P4 & P5 & P6 & P7 & P8 & P9 & P10). split; [by apply qp_env_upd|simpl..].
  - split; [done|]. split.
    + intros id. rewrite Ho2, <- !elem_of_dom, P8. done.
    + rewrite <- Ho3. unfold rq_lists. rewrite P1, P2, P3, P4. simpl.
      rewrite <- !app_assoc, (app_assoc (rq_free r')), (app_assoc (rq_free r')). apply Permutation_app_swap_app.
  - split_and!; [rewrite P5, P2, Hn1; by zlen|by rewrite P6, P3|by rewrite P7, P4].
  - done.
Qed.

(** The state of a QP that takes work requests. *)
Definition accepts_send (q : pib_qp) : Prop :=
  qp_state q = IB_QPS_RTS \/ qp_state q = IB_QPS_RTR \/ qp_state q = IB_QPS_SQD.

Lemma wp_post_send_loop ids wrs : forall tl pending s (Q : Z * list ib_send_wr * bool -> st -> Prop),
  qp_wf ids s -> accepts_send (st_qp s) ->
  (forall r bad pending' taken s', wrs = taken ++ bad -> r <= 0 -> (r = 0 <-> bad = []) -> posted taken s s' ->
     (pending' = pending || bool_decide (qp_state (st_qp s) = IB_QPS_RTS) && negb (bool_decide (wrs = []))) ->
     Q (r, bad, pending') s') ->
  wp (post_send_loop copy_from_user wrs tl pending) Q s.
Proof.
  induction wrs as [|wr wrs IH]; intros tl pending s Q Hwf Ha HQ; simpl.
  { wp_step. apply (HQ 0 [] pending []); [done..|apply posted_none|]. by rewrite andb_false_r, orb_false_r. }
  unfold the_qp. wp_step. wp_step.
  assert (forall k : M st (Z * list ib_send_wr * bool), wp k Q s -> wp (match qp_state (st_qp s) with
      | IB_QPS_RESET | IB_QPS_INIT => ret (- EINVAL, wr :: wrs, pending)
      | IB_QPS_ERR | IB_QPS_SQE =>
          qp_insert_wc_error (qp_send_cq (st_qp s)) (swr_wr_id wr) IB_WC_WR_FLUSH_ERR (swr_opcode wr) ;;
          post_send_loop copy_from_user wrs tl pending
      | _ => k end) Q s) as Hcase by (intros k Hk; destruct Ha as [-> | [-> | ->]]; done).
  apply Hcase. wp_step. apply (wp_post_send_one ids); [done|..].
  - intros e s' He Href. wp_step. apply (HQ e (wr :: wrs) _ []); [done|lia|split; [lia|done]|by apply posted_refused|].
    by rewrite andb_true_r.
  - intros tl' s1 Htl Hacc. assert (posted [wr] s s1) as Hp1.
    { eapply posted_cons; [apply Hwf|done|]. apply posted_none. }
    assert (qp_state (st_qp s1) = qp_state (st_qp s)) as Hst by (destruct Hp1 as (new & r' & -> & _); done).
    apply IH; [by eapply posted_wf|unfold accepts_send; by rewrite Hst|].
    intros r bad p' taken s' -> Hr Hb Hp Hpe. apply (HQ r bad p' (wr :: taken)); [done|done|done| |].
    + eapply posted_cons; [apply Hwf|done|done].
    + rewrite Hpe, Hst, andb_true_r. destruct pending; [done|].
      by destruct (bool_decide (qp_state (st_qp s) = IB_QPS_RTS)).
Qed.

End PostSend.

Lemma qp_wf_events ids f s : qp_wf ids s -> qp_wf ids (s <| st_events ::= f |>).
Proof. intros [H1 H2 H3 H4]. by split. Qed.

(** The QP is put on the schedule and the thread woken; no request is touched. *)
Definition kicked (s s' : st) : Prop :=
  qp_requester (st_qp s') = (qp_requester (st_qp s)) <| rq_nr_contig_requests := 0 |> <| rq_nr_contig_read_acks := 0 |>
  /\ qp_responder (st_qp s') = (qp_responder (st_qp s)) <| rs_nr_contig_read_acks := 0 |>
  /\ qp_state (st_qp s') = qp_state (st_qp s) /\ st_cqs s' = st_cqs s /\ st_pd s' = st_pd s /\ st_mem s' = st_mem s
  /\ st_ports s' = st_ports s /\ st_now s' = st_now s /\ last (st_events s') = Some EvComplete.

Lemma wp_ready_to_send ids s (Q : unit -> st -> Prop) :
  qp_wf ids s -> (forall s', qp_wf ids s' -> kicked s s' -> Q tt s') -> wp get_ready_to_send Q s.
Proof.
  intros Hwf HQ. unfold get_ready_to_send. wp_step. apply (wf_reschedule ids); [done|].
  intros s1 Hwf1 R1 R2 (on & t & tid & R3) R4 R5 R6 R7 R8 R9. wp_step. apply (wf_reset_contig ids); [done|].
  intros s2 Hwf2 E2. unfold emit. wp_step. apply HQ; [by apply qp_wf_events|]. rewrite E2.
  unfold kicked. simpl. rewrite R1, R2, R3. simpl. split_and?; try done. apply last_snoc.
Qed.

(** ** Modification *)

(** What assigning attributes keeps. *)
Definition attrs_inv (ids : list Z) (s0 s : st) : Prop :=
  qp_wf ids s /\ qp_state (st_qp s) = qp_state (st_qp s0) /\ qp_type (st_qp s) = qp_type (st_qp s0)
  /\ qp_num (st_qp s) = qp_num (st_qp s0) /\ qp_send_cq (st_qp s) = qp_send_cq (st_qp s0)
  /\ qp_recv_cq (st_qp s) = qp_recv_cq (st_qp s0)
  /\ rq_lists (qp_requester (st_qp s)) = rq_lists (qp_requester (st_qp s0))
  /\ outstanding (qp_requester (st_qp s)) = outstanding (qp_requester (st_qp s0)) /\ store s = store s0
  /\ rs_recv_wqes (qp_responder (st_qp s)) = rs_recv_wqes (qp_responder (st_qp s0))
  /\ st_cqs s = st_cqs s0 /\ st_mem s = st_mem s0 /\ st_pd s = st_pd s0 /\ st_ports s = st_ports s0.

Lemma attrs_inv_refl ids s : qp_wf ids s -> attrs_inv ids s s.
Proof. intros. unfold attrs_inv. by split_and?. Qed.

Lemma attrs_inv_attr ids s0 s f :
  (forall a, 0 <= a_timeout a < 32 -> 0 <= a_timeout (f a) < 32) -> attrs_inv ids s0 s ->
  attrs_inv ids s0 (s <| st_qp ::= fun q => q <| qp_attr ::= f |> |>).
Proof.
  intros Hf ([(E1 & E2 & E3 & E4 & E5 & E6) H2 H3 H4] & Hrest). split; [|exact Hrest]. split; try done.
  unfold qp_env. simpl. split_and?; try done; apply Hf, E6.
Qed.

Lemma attrs_inv_req ids s0 s f :
  (forall r, rq_swqes (f r) = rq_swqes r /\ rq_free (f r) = rq_free r /\ rq_submitted (f r) = rq_submitted r
     /\ rq_sending (f r) = rq_sending r /\ rq_waiting (f r) = rq_waiting r /\ (rq_counts r -> rq_counts (f r))) ->
  attrs_inv ids s0 s -> attrs_inv ids s0 (s <| st_qp ::= fun q => q <| qp_requester ::= f |> |>).
Proof.
  intros Hf ([H1 H2 H3 H4] & Q1 & Q2 & Q3 & Q4 & Q5 & Q6 & Q7 & Q8 & Hrest).
  destruct (Hf (qp_requester (st_qp s))) as (F1 & F2 & F3 & F4 & F5 & F6).
  split; [|unfold store, outstanding, rq_lists in *; simpl; rewrite F1, F2, F3, F4, F5; split_and?; try done; apply Hrest].
  split; [by apply qp_env_upd|simpl..]; [|by apply F6|done].
  unfold rq_own, rq_lists. rewrite F1, F2, F3, F4, F5. exact H2.
Qed.

Lemma attrs_inv_rsp ids s0 s f :
  (forall r, rs_recv_wqes (f r) = rs_recv_wqes r /\ rs_nr_recv_wqe (f r) = rs_nr_recv_wqe r) ->
  attrs_inv ids s0 s -> attrs_inv ids s0 (s <| st_qp ::= fun q => q <| qp_responder ::= f |> |>).
Proof.
  intros Hf ([H1 H2 H3 H4] & Q1 & Q2 & Q3 & Q4 & Q5 & Q6 & Q7 & Q8 & Q9 & Hrest).
  destruct (Hf (qp_responder (st_qp s))) as (F1 & F2).
  split; [|simpl; rewrite F1; split_and?; try done; apply Hrest].
  split; [by apply qp_env_upd|simpl..]; [done|done|by rewrite F1, F2].
Qed.

Lemma attrs_inv_ack_timeout ids s0 s t :
  attrs_inv ids s0 s -> attrs_inv ids s0 (s <| st_qp ::= fun q => q <| qp_local_ack_timeout := t |> |>).
Proof. intros ([H1 H2 H3 H4] & Hrest). split; [|exact Hrest]. split; done. Qed.

(** A conditional step that keeps the invariant, in front of the rest. *)
Lemma wp_when_inv {A} (I : st -> Prop) b (m : M st unit) (k : M st A) Q s :
  I s -> (b = true -> wp m (fun _ => I) s) -> (forall s', I s' -> wp k Q s') -> wp (when b m ;; k) Q s.
Proof.
  intros HI Hm Hk. wp_step. destruct b; simpl; [|by apply Hk]. eapply wp_mono; [by apply Hm|]. intros ? s' H. by apply Hk.
Qed.

Lemma timeout_mask t : 0 <= t -> has_flag t (Z.lnot PIB_LOCAL_ACK_TIMEOUT_MASK) = false -> 0 <= t < 32.
Proof.
  unfold has_flag, PIB_LOCAL_ACK_TIMEOUT_MASK. intros Ht H. bools. change 0x1F with (Z.ones 5) in H.
  rewrite <- Z.ldiff_land, Z.ldiff_ones_r in H by lia. rewrite Z.shiftr_div_pow2, Z.shiftl_mul_pow2 in H by lia.
  pose proof (Z.div_pos t (2 ^ 5) Ht ltac:(lia)). pose proof (Z_div_mod_eq_full t (2 ^ 5)).
  pose proof (Z.mod_pos_bound t (2 ^ 5) ltac:(lia)). nia.
Qed.

Lemma modify_ok_bounds q cur attr mask : modify_qp_is_ok q cur attr mask = true ->
  (has_flag mask IB_QP_PORT = true -> a_port_num attr <> 0 /\ a_port_num attr <= phys_port_cnt)
  /\ (has_flag mask IB_QP_TIMEOUT = true -> has_flag (a_timeout attr) (Z.lnot PIB_LOCAL_ACK_TIMEOUT_MASK) = false).
Proof.
  unfold modify_qp_is_ok. intros H.
  repeat (lazymatch type of H with (if ?b then false else _) = true => destruct b eqn:?; [done|] end).
  split; intros E; rewrite E in *; simpl in *; bools; done.
Qed.

(** One conditional assignment. *)
Ltac attr_keep :=
  unfold upd_attr, upd_rsp, upd_req, upd_qp; wp_run;
  repeat first [apply attrs_inv_attr; [by intros|] | apply attrs_inv_req; [by intros|] | apply attrs_inv_rsp; [by intros|]];
  eassumption.
Ltac attr_step I t := apply (wp_when_inv I); [eassumption|intros ?; t|intros ? ?].

(** A modification to which nothing objects gets past the attributes. *)
Record modifiable (attr : ib_qp_attr) (s : st) : Prop := {
  mod_ports : forall n, 1 <= n <= phys_port_cnt -> is_Some (st_ports s !! n);
  mod_port_num : 0 <= a_port_num attr;
  mod_timeout : 0 <= a_timeout attr
}.

(** The port, and the path MTU that datagram QPs take from it. *)
Lemma wp_modify_port ids ty n s0 s :
  attrs_inv ids s0 s -> is_Some (st_ports s0 !! n) ->
  wp (upd_attr (fun a => a <| a_port_num := n |>) ;;
      match ty with
      | IB_QPT_UD | IB_QPT_SMI | IB_QPT_GSI =>
          let! ports := gets st_ports in
          let! port := of_option (ports !! n) in
          upd_attr (fun a => a <| a_path_mtu := port_active_mtu port |>)
      | _ => ret tt
      end) (fun _ => attrs_inv ids s0) s.
Proof.
  intros HI [port Hp]. unfold upd_attr, upd_qp. do 2 wp_step.
  assert (st_ports s = st_ports s0) as Hpo by apply HI.
  set (s1 := s <| st_qp ::= _ |>). assert (attrs_inv ids s0 s1) as HI1 by (by apply attrs_inv_attr).
  assert (st_ports s1 !! n = Some port) as Hp1 by (simpl; by rewrite Hpo).
  destruct ty; try exact HI1; do 3 wp_step; rewrite Hp1; do 2 wp_step; by apply attrs_inv_attr.
Qed.

Lemma wp_modify_attrs ids attr mask cur s (Q : unit -> st -> Prop) :
  qp_wf ids s -> modifiable attr s -> modify_qp_is_ok (st_qp s) cur attr mask = true ->
  (forall s', attrs_inv ids s s' -> Q tt s') -> wp (modify_qp_attrs attr mask) Q s.
Proof.
  intros Hwf [Hpo Hpn Hto] Hok HQ. apply modify_ok_bounds in Hok as [Hpb Htb].
  unfold modify_qp_attrs, the_qp. wp_step. wp_step.
  pose proof (attrs_inv_refl ids s Hwf) as HI.
  do 13 attr_step (attrs_inv ids s) attr_keep.
  attr_step (attrs_inv ids s) idtac.
  { apply wp_modify_port; [done|]. destruct (Hpb ltac:(done)). apply Hpo. lia. }
  attr_step (attrs_inv ids s) idtac.
  { assert (0 <= a_timeout attr < 32) as Ht by (apply timeout_mask; auto).
    destruct (local_ack_time_total HZ _ Ht) as [t ->]. unfold upd_attr, upd_qp. wp_run.
    apply attrs_inv_ack_timeout, attrs_inv_attr; [by intros|done]. }
  do 3 attr_step (attrs_inv ids s) attr_keep.
  wp_step; [unfold upd_attr, upd_qp; wp_step|]; apply HQ; [|done]. by apply attrs_inv_attr.
Qed.

(** The invariant and what a change of state leaves. *)
Definition entered (new : ib_qp_state) (s s' : st) : Prop :=
  let rq' := qp_requester (st_qp s') in
  qp_state (st_qp s') = new /\
  match new with
  | IB_QPS_RESET => outstanding rq' = [] /\ rs_recv_wqes (qp_responder (st_qp s')) = []
      /\ (forall cq, st_cqs s' !! qp_send_cq (st_qp s) = Some cq \/ st_cqs s' !! qp_recv_cq (st_qp s) = Some cq ->
            forgotten (qp_num (st_qp s)) cq)
  | IB_QPS_ERR => outstanding rq' = [] /\ rs_recv_wqes (qp_responder (st_qp s')) = []
  | IB_QPS_SQE => outstanding rq' = [] /\ rs_recv_wqes (qp_responder (st_qp s')) = rs_recv_wqes (qp_responder (st_qp s))
  | _ => outstanding rq' = outstanding (qp_requester (st_qp s))
      /\ rs_recv_wqes (qp_responder (st_qp s')) = rs_recv_wqes (qp_responder (st_qp s)) /\ st_cqs s' = st_cqs s
  end.

Lemma entered_quiet new s s1 s2 : entered new s s1 ->
  outstanding (qp_requester (st_qp s2)) = outstanding (qp_requester (st_qp s1)) ->
  rs_recv_wqes (qp_responder (st_qp s2)) = rs_recv_wqes (qp_responder (st_qp s1)) ->
  qp_state (st_qp s2) = qp_state (st_qp s1) -> st_cqs s2 = st_cqs s1 -> entered new s s2.
Proof. unfold entered. intros H -> -> -> ->. exact H. Qed.

Lemma qp_wf_state ids s f :
  (forall q, qp_same_env q (f q) /\ qp_requester (f q) = qp_requester q /\ qp_responder (f q) = qp_responder q) ->
  qp_wf ids s -> qp_wf ids (s <| st_qp ::= f |>).
Proof.
  intros Hf [H1 H2 H3 H4]. destruct (Hf (st_qp s)) as (E1 & E2 & E3).
  split; [by apply qp_env_upd|simpl; by rewrite E2..|simpl; by rewrite E3].
Qed.

Lemma wp_switch_state ids new s (Q : Z * Z -> st -> Prop) :
  qp_wf ids s -> qp_state (st_qp s) = new ->
  (forall r pend s', qp_wf ids s' -> (new <> IB_QPS_RESET -> r = 0) -> entered new s s' -> Q (r, pend) s') ->
  wp (switch_state new) Q s.
Proof.
  intros Hwf Hst HQ. unfold switch_state.
  destruct new.
  - wp_step. apply (wp_reset_qp ids); [done|]. intros n s' (R1 & R2 & R3 & R4 & R5 & R6 & R7 & R8 & R9 & R10 & R11 & R12 & R13 & R14 & R15 & R16 & R17).
    wp_step. apply HQ; [done|done|]. unfold entered. split_and?; try done. by rewrite R11.
  - wp_step. apply HQ; [done..|]. unfold entered. by split_and?.
  - unfold upd_qp. wp_run. apply HQ; [by apply qp_wf_state|done|]. unfold entered. by split_and?.
  - unfold the_qp. wp_run. apply HQ; [done..|]. unfold entered. by split_and?.
  - wp_step. apply HQ; [done..|]. unfold entered. by split_and?.
  - wp_step. apply (wp_flush_qp ids); [done|]. intros s' (R1 & R2 & R3 & R4 & R5 & R6 & R7 & _). wp_step. apply HQ; [done..|].
    unfold entered. rewrite R6, R7 by done. by split_and?.
  - wp_step. apply (wp_flush_qp ids); [done|]. intros s' (R1 & R2 & R3 & R4 & R5 & R6 & R7 & _). wp_step. apply HQ; [done..|].
    unfold entered. rewrite R7. destruct R5; [done|]. by split_and?.
Qed.

(** The events of a drained queue. *)
Lemma wp_sq_drained ids b s (Q : unit -> st -> Prop) :
  qp_wf ids s -> (forall s', qp_wf ids s' -> quiet s s' -> Q tt s') ->
  wp (when b (let! q := the_qp in
       when (a_en_sqd_async_notify (qp_attr q)) (pib_util_insert_async_qp_event IB_EVENT_SQ_DRAINED) ;;
       upd_qp (fun q => q <| qp_issue_sq_drained := true |>))) Q s.
Proof.
  intros Hwf HQ. apply wp_when; intros _; [|apply HQ; [done|unfold quiet; split_and?; try done; apply Hwf]].
  unfold the_qp, upd_qp. do 3 wp_step.
  assert (forall s1, quiet s s1 -> wp (modify (fun s => s <| st_qp ::= fun q => q <| qp_issue_sq_drained := true |> |>)) Q s1) as Hend.
  { intros s1 (E1 & E2 & E3 & E4 & E5 & E6 & E7 & E8 & E9 & E10). wp_step. apply HQ.
    - apply qp_wf_state; [done|]. by eapply (qp_wf_env_only ids s).
    - unfold quiet. by split_and?. }
  apply wp_when; intros _; [|apply Hend; unfold quiet; split_and?; try done; apply Hwf].
  apply wp_async_event; [apply Hwf|]. intros s1 Hq _. by apply Hend.
Qed.

Lemma wp_modify_state ids cur new drained s (Q : Z * Z -> st -> Prop) :
  qp_wf ids s -> Q (- EINVAL, 0) s ->
  (forall r pend s', qp_wf ids s' -> (new <> IB_QPS_RESET -> r = 0) -> entered new s s' -> Q (r, pend) s') ->
  wp (modify_qp_state cur new drained) Q s.
Proof.
  intros Hwf Hno Hyes. unfold modify_qp_state, the_qp, upd_qp. do 2 wp_step. wp_step; [by wp_step|]. wp_step; [by wp_step|].
  do 2 wp_step. set (s1 := s <| st_qp ::= _ |>). wp_step.
  apply (wp_switch_state ids); [by apply qp_wf_state|done|]. intros r pend s2 Hwf2 Hr Hen. change (entered new s s2) in Hen.
  wp_step. apply (wp_sq_drained ids); [done|]. intros s3 Hwf3 (E1 & E2 & E3 & E4 & E5 & E6 & E7 & E8 & E9 & E10).
  assert (entered new s s3) as Hen3 by (eapply entered_quiet; [exact Hen|congruence..]).
  wp_step. wp_step.
  - wp_step. wp_step. apply Hyes; [by apply qp_wf_state|done|exact Hen3].
  - wp_step. by apply Hyes.
Qed.

Lemma entered_attrs ids new s s1 s2 : attrs_inv ids s s1 -> entered new s1 s2 -> entered new s s2.
Proof.
  intros (_ & _ & _ & E1 & E2 & E3 & _ & E4 & _ & E5 & E6 & _). unfold entered. rewrite E1, E2, E3, E4, E5, E6. done.
Qed.

(** The QP is left in its state with its requests. *)
Definition stayed (s s' : st) : Prop :=
  qp_state (st_qp s') = qp_state (st_qp s)
  /\ outstanding (qp_requester (st_qp s')) = outstanding (qp_requester (st_qp s))
  /\ rs_recv_wqes (qp_responder (st_qp s')) = rs_recv_wqes (qp_responder (st_qp s)) /\ st_cqs s' = st_cqs s.

Lemma attrs_stayed ids s s' : attrs_inv ids s s' -> stayed s s'.
Proof. intros (_ & E1 & _ & _ & _ & _ & _ & E4 & _ & E5 & E6 & _). unfold stayed. by split_and?. Qed.

(** Waking the thread if sends are pending, after the change. *)
Lemma wp_kick ids new pend (r : Z) s s1 (Q : Z -> st -> Prop) :
  qp_wf ids s1 -> entered new s s1 -> (forall s', qp_wf ids s' -> entered new s s' -> Q r s') ->
  wp (when (negb (pend =? 0)) get_ready_to_send ;; ret r) Q s1.
Proof.
  intros Hwf Hen HQ. wp_step. apply wp_when; intros _; [|wp_step; by apply HQ].
  apply (wp_ready_to_send ids); [done|]. intros s2 Hwf2 (K1 & K2 & K3 & K4 & _). wp_step. apply HQ; [done|].
  eapply entered_quiet; [exact Hen|by rewrite K1|by rewrite K2|done|done].
Qed.

(** ** Posting receive requests *)

Definition holds_recv (w : pib_recv_wqe) (wr : ib_recv_wr) : Prop :=
  rwqe_wr_id w = rwr_wr_id wr /\ rwqe_sge_array w = rwr_sg_list wr.

Definition recv_posted (taken : list ib_recv_wr) (s s' : st) : Prop :=
  let r := qp_responder (st_qp s) in
  exists new r', s' = s <| st_qp ::= fun q => q <| qp_responder := r' |> |>
    /\ rs_recv_wqes r' = rs_recv_wqes r ++ new /\ Forall2 holds_recv new taken
    /\ rs_nr_recv_wqe r' = rs_nr_recv_wqe r + Zlen new
    /\ rs_free_rwqes r' = drop (length new) (rs_free_rwqes r) /\ Zlen new <= Zlen (rs_free_rwqes r).

Lemma recv_posted_none s : recv_posted [] s s.
Proof.
  exists [], (qp_responder (st_qp s)). split; [by destruct s as [[] ? ? ? ? ? ? ? ? ? ? ? ?]|].
  rewrite app_nil_r, Zlen_nil. split_and?; try done; [lia|apply Zlen_nonneg].
Qed.

Lemma recv_posted_cons s w f free wr wrs s2 :
  rs_free_rwqes (qp_responder (st_qp s)) = f :: free -> holds_recv w wr ->
  recv_posted wrs (s <| st_qp ::= fun q => q <| qp_responder ::= fun rs => rs <| rs_free_rwqes := free |>
     <| rs_nr_recv_wqe ::= Z.add 1 |> <| rs_recv_wqes ::= fun l => l ++ [w] |> |> |>) s2 ->
  recv_posted (wr :: wrs) s s2.
Proof.
  intros Hf Hw (new & r' & -> & P1 & P2 & P3 & P4 & P5). simpl in *. exists (w :: new), r'.
  rewrite P1, P3, P4, Hf, <- app_assoc, !Zlen_cons. simpl. split_and?; try done; [by constructor|lia..].
Qed.

Lemma wp_post_recv_loop wrs : forall tl s (Q : Z * list ib_recv_wr -> st -> Prop),
  qp_state (st_qp s) <> IB_QPS_RESET -> qp_state (st_qp s) <> IB_QPS_ERR ->
  (forall r bad taken s', wrs = taken ++ bad -> r <= 0 -> (r = 0 <-> bad = []) -> recv_posted taken s s' -> Q (r, bad) s') ->
  wp (post_recv_loop wrs tl 0) Q s.
Proof.
  induction wrs as [|wr wrs IH]; intros tl s Q Hn1 Hn2 HQ; simpl.
  { wp_step. apply (HQ 0 [] []); [done..|apply recv_posted_none]. }
  unfold the_qp. do 2 wp_step.
  assert (forall e, e < 0 -> Q (e, wr :: wrs) s) as Hrefuse.
  { intros e He. apply (HQ e (wr :: wrs) []); [done|lia|split; [lia|done]|apply recv_posted_none]. }
  destruct (qp_state (st_qp s)) eqn:Est; try done; (wp_step; [wp_step; by apply Hrefuse|]);
    (destruct (rs_free_rwqes (qp_responder (st_qp s))) as [|f free] eqn:Ef; [wp_step; by apply Hrefuse|]);
    (wp_step; [wp_step; by apply Hrefuse|]); unfold upd_rsp, upd_qp; (wp_step; wp_step; apply IH);
    try (simpl; by rewrite Est).
  all: intros r bad taken s' -> Hr Hb Hp; apply (HQ r bad (wr :: taken)); [done..|]; by eapply recv_posted_cons; [exact Ef| |exact Hp].
Qed.

(** ** Theorems *)

(** C17. Posting a chain of send requests to a QP that accepts them takes a prefix of
    the chain: its requests are the new tail of the submitted list, in order, each
    in its own entry, the requests posted before are not touched, every entry
    stays on exactly one list with exact counters, and the value is 0 exactly when
    the whole chain was taken; in RTS the scheduling thread is woken. *)
Theorem post_send_prefix (copy_from_user : Z -> Z -> option (list Z)) (ids : list Z) (s : st) (wrs : list ib_send_wr)
    (Hwf : qp_wf ids s) (Ha : accepts_send (st_qp s)) (Hne : wrs <> []) :
  let rq := qp_requester (st_qp s) in
  exists r bad s' new taken, pib_post_send copy_from_user wrs s = Some ((r, bad), s')
  /\ wrs = taken ++ bad /\ r <= 0 /\ (r = 0 <-> bad = [])
  /\ qp_wf ids s'
  /\ rq_submitted (qp_requester (st_qp s')) = rq_submitted rq ++ new
  /\ rq_free rq = new ++ rq_free (qp_requester (st_qp s'))
  /\ Forall2 (holds_wr (store s')) new taken
  /\ (forall k, k ∈ outstanding rq -> store s' !! k = store s !! k)
  /\ st_cqs s' = st_cqs s /\ st_mem s' = st_mem s
  /\ (qp_state (st_qp s) = IB_QPS_RTS -> last (st_events s') = Some EvComplete).
Proof.
  intros rq. enough (wp (pib_post_send copy_from_user wrs) (fun p s' => exists new taken,
    wrs = taken ++ p.2 /\ p.1 <= 0 /\ (p.1 = 0 <-> p.2 = []) /\ qp_wf ids s'
    /\ rq_submitted (qp_requester (st_qp s')) = rq_submitted rq ++ new
    /\ rq_free rq = new ++ rq_free (qp_requester (st_qp s'))
    /\ Forall2 (holds_wr (store s')) new taken
    /\ (forall k, k ∈ outstanding rq -> store s' !! k = store s !! k)
    /\ st_cqs s' = st_cqs s /\ st_mem s' = st_mem s
    /\ (qp_state (st_qp s) = IB_QPS_RTS -> last (st_events s') = Some EvComplete)) s) as H.
  { unfold wp in H. destruct (pib_post_send copy_from_user wrs s) as [[[r bad] s']|]; [|done].
    destruct H as (new & taken & H). by exists r, bad, s', new, taken. }
  unfold pib_post_send. destruct wrs as [|wr wrs]; [done|]. unfold the_qp. wp_step. wp_step.
  assert (bool_decide (qp_state (st_qp s) = IB_QPS_RESET) || bool_decide (qp_state (st_qp s) = IB_QPS_INIT) = false) as ->
    by (destruct Ha as [-> | [-> | ->]]; done).
  wp_step. apply (wp_post_send_loop copy_from_user ids); [done|done|].
  intros r bad p taken s1 E Hr Hb Hp ->. pose proof (posted_wf _ _ _ _ Hwf Hp) as Hwf1.
  destruct Hp as (new & r' & -> & P1 & P2 & P3 & P4 & P5 & P6 & P7 & P8 & P9 & P10).
  assert (forall k, k ∈ outstanding rq -> rq_swqes r' !! k = store s !! k) as Hout.
  { intros k Hk. apply P9. intros Hc. destruct (own_disjoint _ _ _ (wf_own _ _ Hwf)) as (_ & _ & _ & _ & D1 & D2 & D3 & _).
    unfold outstanding in Hk. rewrite !elem_of_app in Hk. naive_solver. }
  wp_step. apply wp_when; intros Hp.
  - apply (wp_ready_to_send ids); [done|]. intros s2 Hwf2 (K1 & K2 & K3 & K4 & K5 & K6 & K7 & K8 & K9). wp_step.
    exists new, taken. unfold store in *. rewrite K1. simpl in *. split_and?; done.
  - wp_step. exists new, taken. unfold store in *. simpl in *. split_and?; try done.
    intros Hrts. by rewrite bool_decide_eq_true_2 in Hp.
Qed.



(** Posting a chain of receive requests to a QP without an SRQ takes a prefix of
    it, in order, one free entry for each, and reports the rest; the value is 0
    exactly when the whole chain was taken; nothing else changes. *)
Theorem post_recv_prefix (ids : list Z) (s : st) (wrs : list ib_recv_wr)
    (Hwf : qp_wf ids s) (Hsrq : i_srq (qp_init_attr (st_qp s)) = None)
    (H1 : qp_state (st_qp s) <> IB_QPS_RESET) (H2 : qp_state (st_qp s) <> IB_QPS_ERR) (Hne : wrs <> []) :
  exists r bad s' taken, pib_post_recv wrs s = Some ((r, bad), s') /\ qp_wf ids s'
  /\ wrs = taken ++ bad /\ r <= 0 /\ (r = 0 <-> bad = []) /\ recv_posted taken s s'.
Proof.
  enough (wp (pib_post_recv wrs) (fun p s' => exists taken, wrs = taken ++ p.2 /\ p.1 <= 0 /\ (p.1 = 0 <-> p.2 = [])
    /\ recv_posted taken s s') s) as H.
  { unfold wp in H. destruct (pib_post_recv wrs s) as [[[r bad] s']|]; [|done]. destruct H as (taken & E1 & E2 & E3 & E4).
    exists r, bad, s', taken. split; [done|]. split; [|done]. destruct Hwf as [W1 W2 W3 W4].
    destruct E4 as (new & r' & -> & P1 & P2 & P3 & P4 & P5). split; [by apply qp_env_upd|done..|].
    simpl. rewrite P3, P1, W4. by zlen. }
  unfold pib_post_recv. destruct wrs as [|wr wrs]; [done|]. unfold the_qp. do 2 wp_step. rewrite Hsrq. simpl negb.
  apply wp_post_recv_loop; [done|done|]. intros r bad taken s' E Hr Hb Hp. exists taken. done.
Qed.
End QpThm.

(** ** Witnesses *)

Lemma demo_own : rq_own [0; 1; 2; 3; 4] [] demo_requester.
Proof.
  split; [apply NoDup_ListNoDup; repeat constructor; simpl; intuition congruence|]. split.
  - intros id. change (rq_swqes demo_requester) with demo_swqes. rewrite <- elem_of_dom.
    replace (dom demo_swqes) with ({[0; 1; 2; 3; 4]} : gset Z) by (apply (bool_decide_unpack _); by vm_compute).
    set_solver.
  - unfold rq_lists. simpl. apply (perm_trans (l' := [0; 1; 4; 2; 3])); repeat (constructor || apply perm_skip).
    by apply (Permutation_middle [2; 3] [] 4).
Qed.

Lemma demo_env : qp_env demo_st.
Proof.
  unfold qp_env, sched_member. split_and?; try done.
  - intros c cq Hc. apply elem_of_list_to_map_2 in Hc.
    repeat (apply elem_of_cons in Hc as [[= -> ->]|Hc]; [by vm_compute|]). by apply elem_of_nil in Hc.
  - by apply NoDup_ListNoDup; repeat constructor; simpl; intuition congruence.
  - split; intros _; [|done]. by right; left.
Qed.

Lemma demo_wf : qp_wf [0; 1; 2; 3; 4] demo_st.
Proof. split; [apply demo_env|apply demo_own|done|done]. Qed.

#[local] Existing Instance demo_params.

Definition demo_send (wr_id len : Z) : ib_send_wr :=
  {| swr_wr_id := wr_id; swr_opcode := IB_WR_SEND; swr_send_flags := 0;
     swr_sg_list := [{| sge_addr := 0x10010; sge_length := len; sge_lkey := 0x100000 |}]; swr_ex := 0; swr_wr := WrNone |}.
Definition no_user_memory (addr len : Z) : option (list Z) := None.

(** Three requests to a QP with two free entries: the third is reported. *)
Lemma post_send_prefix_witness :
  exists r bad s' new taken,
    pib_post_send no_user_memory [demo_send 1 8; demo_send 2 8; demo_send 3 8] demo_st = Some ((r, bad), s')
    /\ [demo_send 1 8; demo_send 2 8; demo_send 3 8] = taken ++ bad /\ r <= 0 /\ (r = 0 <-> bad = [])
    /\ qp_wf [0; 1; 2; 3; 4] s'
    /\ rq_submitted (qp_requester (st_qp s')) = [1] ++ new /\ [0; 4] = new ++ rq_free (qp_requester (st_qp s'))
    /\ Forall2 (holds_wr (store s')) new taken
    /\ (forall k, k ∈ outstanding demo_requester -> store s' !! k = store demo_st !! k)
    /\ st_cqs s' = st_cqs demo_st /\ st_mem s' = st_mem demo_st
    /\ (qp_state demo_qp = IB_QPS_RTS -> last (st_events s') = Some EvComplete).
Proof. apply (post_send_prefix no_user_memory [0; 1; 2; 3; 4] demo_st); [apply demo_wf|by left|done]. Defined.

Example post_send_three :
  match pib_post_send no_user_memory [demo_send 1 8; demo_send 2 8; demo_send 3 8] demo_st with
  | Some ((r, bad), s') => r = - ENOMEM /\ bad = [demo_send 3 8] /\ rq_submitted (qp_requester (st_qp s')) = [1; 0; 4]
  | None => False
  end.
Proof. vm_compute. done. Qed.



(** The completions of the flushed requests, in order. *)
Example flush_order :
  match pib_util_flush_qp false demo_st with
  | Some (_, s') => (fun cq => map wc_wr_id (cq_cqe_head cq)) <$> (st_cqs s' !! 1) = Some [103; 102; 101]
      /\ (fun cq => map wc_wr_id (cq_cqe_head cq)) <$> (st_cqs s' !! 2) = Some [201]
  | None => False
  end.
Proof. vm_compute. done. Qed.

Definition demo_recv (wr_id : Z) : ib_recv_wr :=
  {| rwr_wr_id := wr_id; rwr_sg_list := [{| sge_addr := 0x10010; sge_length := 8; sge_lkey := 0x100000 |}] |}.

Lemma post_recv_prefix_witness :
  exists r bad s' taken, pib_post_recv [demo_recv 1; demo_recv 2] demo_st = Some ((r, bad), s')
    /\ qp_wf [0; 1; 2; 3; 4] s' /\ [demo_recv 1; demo_recv 2] = taken ++ bad /\ r <= 0 /\ (r = 0 <-> bad = [])
    /\ recv_posted taken demo_st s'.
Proof. apply (post_recv_prefix [0; 1; 2; 3; 4] demo_st); [apply demo_wf|done..]. Defined.
