(* ===== verification/QpTable.v ===== *)
(** * The QP table: creation, lookup and destruction (driver/pib_qp.c)

    QPs are found by number in a binary search tree that the kernel's red-black
    primitives rebalance.  The file translates the descents of the driver, the
    whole of [pib_create_qp] with its error paths, and the table part of
    [pib_destroy_qp]; it proves that a number is found exactly when its QP is in
    the table, that creation gives a well-formed QP with a fresh number or leaves
    the tables as they were, and that destruction removes exactly that QP. *)

From Stdlib Require Import Sorted.
From S2P Require Import Prelude Verbs Lib ObjNum Cq Srq Mr State Demo Sched Qp QpInv QpThm.

(** ** The tree *)

Inductive qp_tree := Leaf | Node (l : qp_tree) (n : Z) (r : qp_tree).

Fixpoint elements (t : qp_tree) : list Z :=
  match t with Leaf => [] | Node l n r => elements l ++ n :: elements r end.

(** [ret] is a difference of C ints. *)
Fixpoint pib_util_find_qp (t : qp_tree) (qp_num : Z) : option Z :=
  match t with
  | Leaf => None
  | Node l n r =>
      let ret := s32 (s32 n - qp_num) in
      if 0 <? ret then pib_util_find_qp l qp_num
      else if ret <? 0 then pib_util_find_qp r qp_num
      else Some n
  end.

(** The descent of [insert_qp] and the new leaf, before rebalancing. *)
Fixpoint link_qp (t : qp_tree) (qp_num : Z) : qp_tree :=
  match t with
  | Leaf => Node Leaf qp_num Leaf
  | Node l n r => if qp_num <? n then Node (link_qp l qp_num) n r else Node l n (link_qp r qp_num)
  end.

(** Numbers of a table are 24 bits wide, so the difference does not overflow. *)
Definition num_ok (n : Z) : Prop := 0 <= n < PIB_MAX_QP.
Definition tree_ok (t : qp_tree) : Prop := StronglySorted Z.lt (elements t) /\ Forall num_ok (elements t).

Lemma sorted_split l n r : StronglySorted Z.lt (l ++ n :: r) ->
  StronglySorted Z.lt l /\ StronglySorted Z.lt r /\ Forall (fun k => k < n) l /\ Forall (fun k => n < k) r.
Proof.
  induction l as [|x l IH]; simpl; intros H; apply StronglySorted_inv in H as [Hs Hf].
  - split_and!; [constructor|done|constructor|done].
  - apply IH in Hs as (H1 & H2 & H3 & H4). apply Forall_app in Hf as [F1 F2]. apply Forall_cons in F2 as [F2 _].
    split_and!; [by constructor|done|by constructor|done].
Qed.

Lemma sorted_join l n r : StronglySorted Z.lt l -> StronglySorted Z.lt r -> Forall (fun k => k < n) l ->
  Forall (fun k => n < k) r -> StronglySorted Z.lt (l ++ n :: r).
Proof.
  intros Hl Hr H1 H2. induction Hl as [|x l Hl IH Hx]; simpl; [by constructor|].
  apply Forall_cons in H1 as [H1 H1']. constructor; [by apply IH|]. apply Forall_app. split; [done|].
  constructor; [done|]. eapply Forall_impl; [done|]. simpl. lia.
Qed.

Lemma find_qp_spec t qpn : tree_ok t -> num_ok qpn ->
  pib_util_find_qp t qpn = if bool_decide (qpn ∈ elements t) then Some qpn else None.
Proof.
  intros [Hs Hb] Hq. induction t as [|l IHl n r IHr]; [done|]. simpl in *.
  apply sorted_split in Hs as (Hs1 & Hs2 & H1 & H2). apply Forall_app in Hb as [Hb1 Hb2].
  apply Forall_cons in Hb2 as [Hn Hb2]. unfold num_ok, PIB_MAX_QP in Hq, Hn. rewrite Forall_forall in H1, H2.
  assert (s32 (s32 n - qpn) = n - qpn) as ->.
  { unfold s32. rewrite (swrap_small 32 n) by lia. rewrite swrap_small; lia. }
  rewrite (bool_decide_ext _ (qpn ∈ elements l \/ qpn = n \/ qpn ∈ elements r))
    by (rewrite elem_of_app, elem_of_cons; done).
  destruct (Z.ltb_spec 0 (n - qpn)); [|destruct (Z.ltb_spec (n - qpn) 0)].
  - rewrite IHl by done. erewrite bool_decide_ext; [done|].
    split; [by left|]. intros [|[->|Hr]]; [done|lia|]. apply H2 in Hr. lia.
  - rewrite IHr by done. erewrite bool_decide_ext; [done|].
    split; [by right; right|]. intros [Hl|[->|]]; [|lia|done]. apply H1 in Hl. lia.
  - assert (n = qpn) as -> by lia. rewrite bool_decide_eq_true_2 by auto. done.
Qed.

Lemma link_qp_elements t qpn : tree_ok t -> num_ok qpn -> qpn ∉ elements t ->
  StronglySorted Z.lt (elements (link_qp t qpn)) /\ elements (link_qp t qpn) ≡ₚ qpn :: elements t.
Proof.
  intros [Hs _] Hq Hn. induction t as [|l IHl n r IHr]; simpl in *; [by repeat constructor|].
  apply sorted_split in Hs as (Hs1 & Hs2 & H1 & H2). rewrite elem_of_app, elem_of_cons in Hn.
  destruct (Z.ltb_spec qpn n); simpl.
  - destruct IHl as [I1 I2]; [done|naive_solver|]. split; [|by rewrite I2].
    apply sorted_join; [done|done| |done]. rewrite I2. by constructor.
  - destruct IHr as [I1 I2]; [done|naive_solver|]. split; [|rewrite I2; by rewrite <- !Permutation_middle; constructor].
    apply sorted_join; [done|done|done|]. rewrite I2. constructor; [|done].
    assert (qpn <> n) by naive_solver. lia.
Qed.

(** ** The device's tables *)

(** The object-number bitmap, dev->last_qp_num and dev->nr_qp, dev->qp_head (an
    entry is the port, 0 for a numbered QP, and the number), dev->qp_table and
    the qp_info pointers of the ports. *)
Record qp_dev := {
  qd_bm : gset Z; qd_last_qp_num : Z; qd_nr_qp : Z; qd_qp_head : list (Z * Z); qd_qp_table : qp_tree;
  qd_qp_info : gmap (Z * Z) (Z * Z) }.
#[export] Instance eta_qp_dev : Eta qp_dev := fun d =>
  {| qd_bm := qd_bm d; qd_last_qp_num := qd_last_qp_num d; qd_nr_qp := qd_nr_qp d; qd_qp_head := qd_qp_head d;
     qd_qp_table := qd_qp_table d; qd_qp_info := qd_qp_info d |}.

(** How far the allocations of a creation go. *)
Record qp_allocs := { al_qp : bool; al_inline : bool; al_swqes : Z; al_rwqes : Z }.

Definition attr_zero (cap : ib_qp_cap) : ib_qp_attr :=
  let gr := {| gr_dgid := replicate 16 0; gr_flow_label := 0; gr_sgid_index := 0; gr_hop_limit := 0; gr_traffic_class := 0 |} in
  let ah := {| ah_grh := gr; ah_dlid := 0; ah_sl := 0; ah_src_path_bits := 0; ah_ah_flags := 0; ah_port_num := 0 |} in
  {| a_path_mtu := 0; a_qkey := 0; a_dest_qp_num := 0; a_qp_access_flags := 0; a_cap := cap; a_ah_attr := ah;
     a_alt_ah_attr := ah; a_pkey_index := 0; a_alt_pkey_index := 0; a_en_sqd_async_notify := false;
     a_max_rd_atomic := 0; a_max_dest_rd_atomic := 0; a_min_rnr_timer := 0; a_port_num := 0; a_timeout := 0;
     a_retry_cnt := 0; a_rnr_retry := 0; a_path_mig_state := 0; a_qp_state := IB_QPS_RESET;
     a_cur_qp_state := IB_QPS_RESET; a_rq_psn := 0; a_sq_psn := 0; a_sq_draining := false |}.

Definition swqe_zero (inline : option (list Z)) : pib_send_wqe :=
  {| w_wr_id := 0; w_opcode := 0; w_local_only_request := false; w_send_flags := 0; w_total_length := 0;
     w_sge_array := []; w_processing := processing_zero; w_ex := 0; w_inline_data_buffer := inline; w_wr := WrNone |}.

(** The entries, numbered from 1, each with its part of the inline data area. *)
Definition swqe_ids (cap : ib_qp_cap) : list Z := seqZ 1 (max_send_wr cap).
Definition new_swqes (cap : ib_qp_cap) : gmap Z pib_send_wqe :=
  let inline := if 0 <? max_inline_data cap then Some (replicate (Z.to_nat (max_inline_data cap)) 0) else None in
  list_to_map ((fun id => (id, swqe_zero inline)) <$> swqe_ids cap).

Section Table.
Context {PP : Params}.
(** The kernel's rebalancing primitives. *)
Variable rb_insert_color : qp_tree -> qp_tree.
Variable rb_erase : Z -> qp_tree -> qp_tree.

Definition insert_qp (qp_num : Z) (d : qp_dev) : qp_dev :=
  d <| qd_qp_table ::= fun t => rb_insert_color (link_qp t qp_num) |>.

(** The QP before its entries are allocated, and after. *)
Definition new_qp (pd qp_num ack_time : Z) (handler : bool) (init : ib_qp_init_attr) (send_cq recv_cq : Z) : pib_qp :=
  {| qp_num := qp_num; qp_pd := pd; qp_type := i_qp_type init; qp_state := IB_QPS_RESET; qp_send_cq := send_cq;
     qp_recv_cq := recv_cq; qp_attr := attr_zero (i_cap init); qp_init_attr := init; qp_event_handler := handler;
     qp_local_ack_timeout := ack_time; qp_sched_on := false; qp_sched_time := 0; qp_sched_tid := 0;
     qp_requester := {| rq_psn := 0; rq_expected_psn := 0; rq_nr_submitted := 0; rq_submitted := []; rq_nr_sending := 0;
       rq_sending := []; rq_nr_waiting := 0; rq_waiting := []; rq_max_rd_atomic := 0; rq_nr_rd_atomic := 0;
       rq_free := swqe_ids (i_cap init); rq_swqes := new_swqes (i_cap init); rq_nr_contig_requests := 0;
       rq_nr_contig_read_acks := 0 |};
     qp_responder := {| rs_psn := 0; rs_nr_recv_wqe := 0; rs_recv_wqes := []; rs_nr_rd_atomic := 0; rs_acks := [];
       rs_free_rwqes := replicate (Z.to_nat (max_recv_wr (i_cap init))) rwqe_zero;
       rs_last_OpCode := match i_qp_type init with IB_QPT_RC => IB_OPCODE_SEND_ONLY | _ => IB_OPCODE_UD_SEND_ONLY end;
       rs_offset := 0; rs_wr_vaddr := 0; rs_wr_rkey := 0; rs_wr_dmalen := 0; rs_slot_index := 0;
       rs_slots := replicate (Z.to_nat PIB_MAX_RD_ATOM) slot_zero; rs_nr_contig_read_acks := 0 |};
     qp_push_rcqe := false; qp_issue_comm_est := false; qp_issue_sq_drained := false; qp_issue_last_wqe_reached := false |}.

Definition is_special (qp_num : Z) : bool := (qp_num =? PIB_QP0) || (qp_num =? PIB_QP1).

(** The labels from err_alloc_inlin_data_buffer on. *)
Definition create_qp_undo (registered : bool) (entry : Z * Z) (d : qp_dev) : qp_dev :=
  let qp_num := snd entry in
  let d := if registered then d <| qd_qp_table ::= rb_erase qp_num |> else d in
  let d := d <| qd_qp_head ::= List.filter (fun e => negb (bool_decide (e = entry))) |> in
  if is_special qp_num then d
  else d <| qd_nr_qp ::= fun n => n - 1 |> <| qd_bm ::= fun bm => pib_dealloc_obj_num bm PIB_BITMAP_QP_START qp_num |>.

(** The number, the entry in the lists and whether the QP is in the tree; [inl]:
    the value returned. *)
Definition create_qp_register (init : ib_qp_init_attr) (d : qp_dev) : (Z + Z * Z * bool) * qp_dev :=
  let special qp_num :=
    let entry := (i_port_num init, qp_num) in
    let d := match qd_qp_info d !! entry with
             | Some _ => d
             | None => d <| qd_qp_info ::= <[entry := entry]> |>
             end in
    (inr (entry, false), d <| qd_qp_head ::= fun h => h ++ [entry] |>) in
  match i_qp_type init with
  | IB_QPT_SMI => special PIB_QP0
  | IB_QPT_GSI => special PIB_QP1
  | IB_QPT_RC | IB_QPT_UD =>
      let d := if param_bit pib_behavior PIB_BEHAVIOR_QPN_REALLOCATION then d <| qd_last_qp_num := PIB_QP1 + 1 |> else d in
      let '(qp_num, bm, last) := pib_alloc_obj_num (qd_bm d) PIB_BITMAP_QP_START PIB_MAX_QP (qd_last_qp_num d) in
      let d := d <| qd_bm := bm |> <| qd_last_qp_num := last |> in
      if qp_num =? OBJ_NUM_NONE then (inl (- ENOMEM), d)
      else
        let d := d <| qd_nr_qp ::= Z.add 1 |> <| qd_qp_head ::= fun h => h ++ [(0, qp_num)] |> <| qd_last_qp_num := qp_num |> in
        (inr ((0, qp_num), true), insert_qp qp_num d)
  | _ => (inl (- ENOSYS), d)
  end.

(** [srq_pd]: the PD of the SRQ, when there is one. *)
Definition pib_create_qp (pd : Z) (srq_pd : option Z) (handler : bool) (init : ib_qp_init_attr) (al : qp_allocs) (d : qp_dev)
    : (Z + pib_qp) * qp_dev :=
  if negb (qp_init_attr_is_ok init) then (inl (- EINVAL), d)
  else if match i_srq init with Some _ => negb (bool_decide (srq_pd = Some pd)) | None => false end then (inl (- EINVAL), d)
  else if negb (al_qp al) then (inl (- ENOMEM), d)
  else
    match create_qp_register init d with
    | (inl e, d) => (inl e, d)
    | (inr (entry, registered), d) =>
        let cap := i_cap init in
        if (0 <? max_inline_data cap) && negb (al_inline al) then (inl (- ENOMEM), create_qp_undo registered entry d)
        else if (al_swqes al <? max_send_wr cap) || (al_rwqes al <? max_recv_wr cap)
        then (inl (- ENOMEM), create_qp_undo registered entry d)
        else
          match i_send_cq init, i_recv_cq init, pib_get_local_ack_time HZ 0 with
          | Some scq, Some rcq, Some t => (inr (new_qp pd (snd entry) t handler init scq rcq), d)
          | _, _, _ => (inl (- EINVAL), d)
          end
    end.

(** The table part of [pib_destroy_qp], after [reset_qp] on the QP. *)
Definition destroy_qp_tables (q : pib_qp) (d : qp_dev) : qp_dev :=
  let port := i_port_num (qp_init_attr q) in
  let d := if is_special (qp_num q) then d <| qd_qp_info ::= delete (port, qp_num q) |>
           else d <| qd_qp_table ::= rb_erase (qp_num q) |> in
  let entry := if is_special (qp_num q) then (port, qp_num q) else (0, qp_num q) in
  let d := d <| qd_qp_head ::= List.filter (fun e => negb (bool_decide (e = entry))) |> in
  if is_special (qp_num q) then d
  else d <| qd_nr_qp ::= fun n => n - 1 |> <| qd_bm ::= fun bm => pib_dealloc_obj_num bm PIB_BITMAP_QP_START (qp_num q) |>.

(** [pib_detach_all_mcast] works on the multicast table and is not part of this state. *)
Definition pib_destroy_qp (d : qp_dev) : M st qp_dev :=
  let! q := the_qp in
  reset_qp ;;
  upd_req (fun r => r <| rq_free := [] |> <| rq_swqes := empty |>) ;;
  upd_rsp (fun r => r <| rs_free_rwqes := [] |>) ;;
  ret (destroy_qp_tables q d).

(** ** Invariant *)

Hypothesis insert_color_inorder : forall t, elements (rb_insert_color t) = elements t.
Hypothesis erase_inorder : forall n t, elements (rb_erase n t) = List.filter (fun k => negb (k =? n)) (elements t).

(** The tree holds the numbered QPs of the list, whose numbers are distinct and
    marked in the bitmap; the count is exact. *)
Definition numbered (d : qp_dev) : list Z := snd <$> List.filter (fun e => fst e =? 0) (qd_qp_head d).
Record qd_inv (d : qp_dev) : Prop := {
  qd_tree_ok : tree_ok (qd_qp_table d);
  qd_tree_list : elements (qd_qp_table d) ≡ₚ numbered d;
  qd_count : qd_nr_qp d = Zlen (numbered d);
  qd_marked : forall n, n ∈ numbered d -> 2 <= n /\ PIB_BITMAP_QP_START + n ∈ qd_bm d;
  qd_last : 0 <= qd_last_qp_num d < PIB_MAX_QP;
  qd_reserved : PIB_BITMAP_QP_START + PIB_QP1 ∈ qd_bm d;
  qd_ports : Forall (fun e => fst e = 0 \/ is_special (snd e) = true) (qd_qp_head d)
}.

Lemma numbered_snoc d e : numbered (d <| qd_qp_head ::= fun h => h ++ [e] |>) =
  numbered d ++ (if fst e =? 0 then [snd e] else []).
Proof. unfold numbered. simpl. rewrite List.filter_app. simpl. destruct (fst e =? 0); by rewrite fmap_app. Qed.

Lemma numbered_remove d n : numbered (d <| qd_qp_head ::= List.filter (fun e => negb (bool_decide (e = (0, n)))) |>)
  = List.filter (fun k => negb (k =? n)) (numbered d).
Proof.
  unfold numbered. simpl. induction (qd_qp_head d) as [|[p k] h IH]; [done|]. simpl.
  destruct (Z.eqb_spec p 0) as [->|Hp]; simpl.
  - destruct (Z.eqb_spec k n) as [->|Hk]; simpl.
    + rewrite bool_decide_eq_true_2 by done. exact IH.
    + rewrite bool_decide_eq_false_2 by congruence. simpl. f_equal. exact IH.
  - rewrite bool_decide_eq_false_2 by congruence. simpl. rewrite (proj2 (Z.eqb_neq p 0)) by done. exact IH.
Qed.

Lemma numbered_remove_special d p n : p <> 0 ->
  numbered (d <| qd_qp_head ::= List.filter (fun e => negb (bool_decide (e = (p, n)))) |>) = numbered d.
Proof.
  intros Hp. unfold numbered. simpl. induction (qd_qp_head d) as [|[p' k] h IH]; [done|]. simpl.
  destruct (decide ((p', k) = (p, n))) as [E|E].
  - rewrite bool_decide_eq_true_2 by done. simpl. injection E as -> ->. rewrite (proj2 (Z.eqb_neq p 0)) by done. exact IH.
  - rewrite bool_decide_eq_false_2 by done. simpl. destruct (p' =? 0); simpl; [f_equal|]; exact IH.
Qed.

Lemma numbered_NoDup d : qd_inv d -> NoDup (numbered d).
Proof.
  intros [[Hs _] Hp _ _ _ _ _]. rewrite <- Hp. clear -Hs. induction Hs as [|x l Hs IH Hf]; constructor; [|done].
  intros Hx. rewrite Forall_forall in Hf. apply Hf in Hx. lia.
Qed.

(** Taking a numbered QP out of the tables. *)
Definition remove_numbered (n : Z) (d : qp_dev) : qp_dev :=
  d <| qd_qp_table ::= rb_erase n |> <| qd_qp_head ::= List.filter (fun e => negb (bool_decide (e = (0, n)))) |>
    <| qd_nr_qp ::= fun k => k - 1 |> <| qd_bm ::= fun bm => pib_dealloc_obj_num bm PIB_BITMAP_QP_START n |>.

Lemma sorted_filter (f : Z -> bool) l : StronglySorted Z.lt l -> StronglySorted Z.lt (List.filter f l).
Proof.
  induction 1 as [|x l Hs IH Hf]; [constructor|]. simpl. destruct (f x); [|done]. constructor; [done|].
  rewrite Forall_forall in *. intros k Hk. apply Hf. apply list_elem_of_In, List.filter_In in Hk as [Hk _]. by apply list_elem_of_In.
Qed.

Lemma filter_perm (f : Z -> bool) l l' : l ≡ₚ l' -> List.filter f l ≡ₚ List.filter f l'.
Proof. induction 1; simpl; repeat case_match; eauto using Permutation. Qed.

Lemma remove_numbered_inv n d : qd_inv d -> n ∈ numbered d ->
  qd_inv (remove_numbered n d) /\ numbered (remove_numbered n d) = List.filter (fun k => negb (k =? n)) (numbered d).
Proof using erase_inorder.
  clear insert_color_inorder.
  intros Hi Hn. assert (numbered (remove_numbered n d) = List.filter (fun k => negb (k =? n)) (numbered d)) as Hnum
    by (rewrite <- numbered_remove; done).
  split; [|done]. pose proof (numbered_NoDup d Hi) as Hd. destruct Hi as [[H1 H1'] H2 H3 H4 H5 H6 H7]. split.
  - split; simpl; rewrite erase_inorder; [by apply sorted_filter|].
    rewrite Forall_forall in *. intros k Hk. apply H1'. by apply elem_of_filter_neq in Hk as [? _].
  - rewrite Hnum. simpl. rewrite erase_inorder. by apply filter_perm.
  - rewrite Hnum, filter_neq_remove by done. simpl. lia.
  - intros k. rewrite Hnum, elem_of_filter_neq. intros [Hk Hne]. apply H4 in Hk as [? ?]. split; [done|].
    simpl. unfold pib_dealloc_obj_num, bitmap_clear1. set_solver by lia.
  - done.
  - apply H4 in Hn as [? _]. simpl. unfold pib_dealloc_obj_num, bitmap_clear1, PIB_QP1 in *. set_solver by lia.
  - simpl. rewrite Forall_forall in *. intros e He. apply H7. apply list_elem_of_In, List.filter_In in He as [He _]. by apply list_elem_of_In.
Qed.

(** Registering a numbered QP. *)
Lemma register_numbered n last d :
  qd_inv d -> num_ok n -> 2 <= n -> PIB_BITMAP_QP_START + n ∉ qd_bm d ->
  let d' := insert_qp n (d <| qd_bm := {[PIB_BITMAP_QP_START + n]} ∪ qd_bm d |> <| qd_last_qp_num := last |>
     <| qd_nr_qp ::= Z.add 1 |> <| qd_qp_head ::= fun h => h ++ [(0, n)] |> <| qd_last_qp_num := n |>) in
  qd_inv d' /\ (n ∉ numbered d) /\ numbered d' = numbered d ++ [n].
Proof.
  intros Hi Hok Hn Hf d'. destruct Hi as [H1 H2 H3 H4 H5 H6 H7].
  assert (numbered d' = numbered d ++ [n]) as Hnum by (unfold numbered; simpl; by rewrite List.filter_app, fmap_app).
  assert (n ∉ numbered d) as Hfresh by (intros Hin; by apply H4 in Hin as [_ ?]).
  destruct (link_qp_elements (qd_qp_table d) n H1 Hok) as [L1 L2]; [by rewrite H2|].
  split; [|done]. split.
  - split; simpl; rewrite insert_color_inorder; [done|]. rewrite L2. constructor; [done|apply H1].
  - rewrite Hnum. simpl. rewrite insert_color_inorder, L2, H2, Permutation_app_comm. done.
  - rewrite Hnum, Zlen_app. simpl. rewrite H3, Zlen_cons, Zlen_nil. lia.
  - intros k. rewrite Hnum, elem_of_app, list_elem_of_singleton. simpl. intros [Hk| ->]; [|set_solver].
    apply H4 in Hk as [? ?]. set_solver.
  - simpl. unfold num_ok in Hok. lia.
  - simpl. set_solver.
  - simpl. apply Forall_app. split; [done|]. by repeat constructor.
Qed.

Lemma special_inv d d' :
  qd_inv d -> qd_bm d' = qd_bm d -> qd_last_qp_num d' = qd_last_qp_num d -> qd_nr_qp d' = qd_nr_qp d ->
  qd_qp_table d' = qd_qp_table d -> numbered d' = numbered d ->
  Forall (fun e => fst e = 0 \/ is_special (snd e) = true) (qd_qp_head d') -> qd_inv d'.
Proof.
  intros [H1 H2 H3 H4 H5 H6 H7] E1 E2 E3 E4 E5 E6. split; try done; rewrite ?E1, ?E2, ?E3, ?E4, ?E5; done.
Qed.

(** Allocating a number and registering. *)
Definition register_post (d : qp_dev) (r : (Z + Z * Z * bool) * qp_dev) : Prop :=
  match r with
  | (inl e, d') => e < 0 /\ qd_inv d' /\ numbered d' = numbered d /\ qd_bm d' = qd_bm d
  | (inr (entry, reg), d') => qd_inv d'
      /\ ((reg = true /\ fst entry = 0 /\ is_special (snd entry) = false /\ num_ok (snd entry) /\ (snd entry ∉ numbered d)
            /\ numbered d' = numbered d ++ [snd entry] /\ qd_bm d' = {[PIB_BITMAP_QP_START + snd entry]} ∪ qd_bm d
            /\ PIB_BITMAP_QP_START + snd entry ∉ qd_bm d)
          \/ (reg = false /\ fst entry <> 0 /\ is_special (snd entry) = true /\ numbered d' = numbered d /\ qd_bm d' = qd_bm d))
  end.

Lemma register_rc_ud d :
  qd_inv d ->
  register_post d (let d := if param_bit pib_behavior PIB_BEHAVIOR_QPN_REALLOCATION then d <| qd_last_qp_num := PIB_QP1 + 1 |> else d in
      let '(qp_num, bm, last) := pib_alloc_obj_num (qd_bm d) PIB_BITMAP_QP_START PIB_MAX_QP (qd_last_qp_num d) in
      let d := d <| qd_bm := bm |> <| qd_last_qp_num := last |> in
      if qp_num =? OBJ_NUM_NONE then (inl (- ENOMEM), d)
      else
        let d := d <| qd_nr_qp ::= Z.add 1 |> <| qd_qp_head ::= fun h => h ++ [(0, qp_num)] |> <| qd_last_qp_num := qp_num |> in
        (inr ((0, qp_num), true), insert_qp qp_num d)).
Proof.
  intros Hi. cbv zeta. set (d1 := if param_bit _ _ then _ else d).
  assert (qd_inv d1 /\ numbered d1 = numbered d /\ qd_bm d1 = qd_bm d) as (Hi1 & Hn1 & Hb1).
  { unfold d1. destruct (param_bit _ _); [|done]. split; [|done]. destruct Hi. by split. }
  pose proof (pib_alloc_obj_num_spec (qd_bm d1) PIB_BITMAP_QP_START PIB_MAX_QP (qd_last_qp_num d1)
    ltac:(by vm_compute) (qd_last _ Hi1)) as Ha.
  destruct (pib_alloc_obj_num _ _ _ _) as [[n bm] last]. unfold register_post.
  rewrite <- Hn1, <- Hb1.
  destruct Ha as [([Hr Hf] & -> & ->)|(-> & -> & -> & _)].
  - assert (n <> 1) as Hne by (intros ->; apply Hf; exact (qd_reserved _ Hi1)).
    rewrite (proj2 (Z.eqb_neq n OBJ_NUM_NONE)) by (unfold PIB_MAX_QP, OBJ_NUM_NONE in *; lia).
    destruct (register_numbered n n d1) as (R1 & R2 & R3); [done|unfold num_ok; lia|lia|done|].
    split; [done|]. left. split_and?; try done; [|unfold num_ok; simpl; lia]. unfold is_special, PIB_QP0, PIB_QP1. simpl.
    apply orb_false_iff. split; apply Z.eqb_neq; lia.
  - change (OBJ_NUM_NONE =? OBJ_NUM_NONE) with true. split; [done|]. split; [|done]. destruct Hi1. by split.
Qed.

(** What registering does: a fresh number in the tree, or a special QP in its port's slot. *)
Lemma register_spec init d :
  qd_inv d -> (i_qp_type init = IB_QPT_SMI \/ i_qp_type init = IB_QPT_GSI -> 1 <= i_port_num init) ->
  register_post d (create_qp_register init d).
Proof.
  intros Hi Hport. unfold create_qp_register.
  assert (forall n p, is_special n = true -> 1 <= p -> let d1 := match qd_qp_info d !! (p, n) with
      | Some _ => d | None => d <| qd_qp_info ::= <[(p, n) := (p, n)]> |> end in
      let d2 := d1 <| qd_qp_head ::= fun h => h ++ [(p, n)] |> in
      qd_inv d2 /\ numbered d2 = numbered d /\ qd_bm d2 = qd_bm d) as Hspec.
  { intros n p Hn Hp d1 d2. assert (numbered d2 = numbered d) as Hnum.
    { unfold d2. rewrite numbered_snoc. simpl. rewrite (proj2 (Z.eqb_neq p 0)) by lia. rewrite app_nil_r.
      unfold d1. by destruct (_ !! _). }
    assert (qd_bm d2 = qd_bm d) as Hbm by (unfold d2, d1; by destruct (_ !! _)). split; [|done].
    apply (special_inv d); unfold d2, d1 in *; try done; try (by destruct (_ !! _)).
    simpl. apply Forall_app. split; [destruct (_ !! _); apply Hi|]. constructor; [by right|constructor]. }
  destruct (i_qp_type init) eqn:Ety; try (split_and!; done).
  - assert (1 <= i_port_num init) as Hp by auto.
    destruct (Hspec PIB_QP0 (i_port_num init)) as (S1 & S2 & S3); [done|done|]. split; [done|]. right.
    split_and!; try done. simpl. lia.
  - assert (1 <= i_port_num init) as Hp by auto.
    destruct (Hspec PIB_QP1 (i_port_num init)) as (S1 & S2 & S3); [done|done|]. split; [done|]. right.
    split_and!; try done. simpl. lia.
  - by apply register_rc_ud.
  - by apply register_rc_ud.
Qed.

(** Undoing a registration. *)
Lemma undo_spec d reg entry d' :
  qd_inv d -> register_post d (inr (entry, reg), d') ->
  qd_inv (create_qp_undo reg entry d') /\ numbered (create_qp_undo reg entry d') = numbered d
  /\ qd_bm (create_qp_undo reg entry d') = qd_bm d.
Proof.
  intros Hi [Hi' [(-> & He & Hs & Hok & Hf & Hn & Hb & Hbf)|(-> & He & Hs & Hn & Hb)]].
  - destruct entry as [p n]; simpl in *. subst p.
    assert (create_qp_undo true (0, n) d' = remove_numbered n d') as -> by (unfold create_qp_undo; simpl; by rewrite Hs).
    destruct (remove_numbered_inv n d' Hi') as [R1 R2]; [rewrite Hn; set_solver|]. split; [done|]. split.
    + rewrite R2, Hn, List.filter_app. simpl. rewrite Z.eqb_refl. simpl. rewrite app_nil_r.
      apply (del_notin n). done.
    + simpl. unfold pib_dealloc_obj_num, bitmap_clear1. rewrite Hb. set_solver.
  - destruct entry as [p n]; simpl in *. unfold create_qp_undo. simpl snd. rewrite Hs.
    rewrite numbered_remove_special by done. split; [|done].
    apply (special_inv d'); try done; [by apply numbered_remove_special|]. simpl.
    pose proof (qd_ports _ Hi') as Hp. rewrite Forall_forall in *. intros e Hin. apply Hp.
    apply list_elem_of_In, List.filter_In in Hin as [Hin _]. by apply list_elem_of_In.
Qed.

(** The entries of a new QP. *)
Lemma new_swqes_own cap pd n t h init scq rcq : i_cap init = cap ->
  rq_own (swqe_ids cap) [] (qp_requester (new_qp pd n t h init scq rcq)).
Proof.
  intros <-. split; [apply NoDup_seqZ|]. split; [|simpl; unfold rq_lists; simpl; by rewrite app_nil_r].
  intros id. simpl. unfold new_swqes. set (w := swqe_zero _).
  rewrite <- elem_of_dom, dom_list_to_map_L. rewrite <- list_fmap_compose. simpl.
  rewrite elem_of_list_to_set, list_elem_of_fmap. split; [intros H; by exists id|]. by intros (y & -> & Hy).
Qed.

Lemma find_in d n : qd_inv d -> num_ok n ->
  pib_util_find_qp (qd_qp_table d) n = if bool_decide (n ∈ numbered d) then Some n else None.
Proof.
  intros Hi Hn. rewrite find_qp_spec by (done || apply Hi). erewrite bool_decide_ext; [done|].
  by rewrite (qd_tree_list _ Hi).
Qed.

(** ** Theorems *)


(** Destroying a numbered QP resets it, takes exactly its number out of the table
    and of the bitmap, and every other QP is still found. *)
Theorem destroy_qp_removes (ids : list Z) (s : st) (d : qp_dev) (Hwf : qp_wf ids s) (Hi : qd_inv d)
    (Hin : qp_num (st_qp s) ∈ numbered d) :
  exists s' d', pib_destroy_qp d s = Some (d', s') /\ qd_inv d'
  /\ qd_bm d' = qd_bm d ∖ {[PIB_BITMAP_QP_START + qp_num (st_qp s)]}
  /\ forall n, num_ok n -> pib_util_find_qp (qd_qp_table d') n =
       (if n =? qp_num (st_qp s) then None else pib_util_find_qp (qd_qp_table d) n).
Proof using erase_inorder.
  clear insert_color_inorder.
  assert (is_special (qp_num (st_qp s)) = false) as Hs.
  { apply (qd_marked _ Hi) in Hin as [? _]. unfold is_special, PIB_QP0, PIB_QP1. apply orb_false_iff. split; apply Z.eqb_neq; lia. }
  destruct (remove_numbered_inv _ d Hi Hin) as [R1 R2].
  enough (wp (pib_destroy_qp d) (fun d' _ => d' = remove_numbered (qp_num (st_qp s)) d) s) as H.
  { unfold wp in H. destruct (pib_destroy_qp d s) as [[d' s']|]; [|done]. subst d'.
    exists s', (remove_numbered (qp_num (st_qp s)) d). split; [done|]. split; [done|]. split; [done|].
    intros n Hn. rewrite !find_in by done. rewrite R2. destruct (Z.eqb_spec n (qp_num (st_qp s))) as [->|Hne].
    - rewrite bool_decide_eq_false_2; [done|]. rewrite elem_of_filter_neq. tauto.
    - erewrite bool_decide_ext; [done|]. rewrite elem_of_filter_neq. tauto. }
  unfold pib_destroy_qp, the_qp. do 3 wp_step. apply (wp_reset_qp ids); [done|]. intros n s' _.
  unfold upd_req, upd_rsp, upd_qp. do 5 wp_step. unfold destroy_qp_tables. rewrite Hs. done.
Qed.

End Table.

(** ** Witnesses

    A tree is rebalanced to its right spine. *)

Definition spine (l : list Z) : qp_tree := fold_right (fun n t => Node Leaf n t) Leaf l.
Lemma spine_elements l : elements (spine l) = l.
Proof. induction l as [|x l IH]; [done|]. simpl. by rewrite IH. Qed.
Definition spine_insert (t : qp_tree) : qp_tree := spine (elements t).
Definition spine_erase (n : Z) (t : qp_tree) : qp_tree := spine (List.filter (fun k => negb (k =? n)) (elements t)).
Lemma spine_insert_ok t : elements (spine_insert t) = elements t.
Proof. apply spine_elements. Qed.
Lemma spine_erase_ok n t : elements (spine_erase n t) = List.filter (fun k => negb (k =? n)) (elements t).
Proof. apply spine_elements. Qed.

(** QPs 7 and 9 exist. *)
Definition demo_dev : qp_dev :=
  {| qd_bm := {[PIB_BITMAP_QP_START + 7; PIB_BITMAP_QP_START + 9]} ∪ setup_obj_num_bitmap ∅; qd_last_qp_num := 9;
     qd_nr_qp := 2; qd_qp_head := [(0, 9); (1, 0); (0, 7)]; qd_qp_table := Node (Node Leaf 7 Leaf) 9 Leaf;
     qd_qp_info := {[ (1, 0) := (1, 0) ]} |}.

Lemma demo_dev_inv : qd_inv demo_dev.
Proof.
  split; try done.
  - split; [repeat constructor|]. repeat (constructor; [by vm_compute|]). constructor.
  - by apply perm_swap.
  - intros n Hn. change (numbered demo_dev) with [9; 7] in Hn.
    assert (n = 9 \/ n = 7) as [-> | ->] by set_solver; split; try lia; apply (bool_decide_unpack _); by vm_compute.
  - constructor; [by left|]. constructor; [by right|]. constructor; [by left|]. constructor.
Qed.

#[local] Existing Instance demo_params.


Example create_qp_number :
  match pib_create_qp spine_insert spine_erase 1 None true (qp_init_attr demo_qp)
          {| al_qp := true; al_inline := true; al_swqes := 100; al_rwqes := 100 |} demo_dev with
  | (inr q, d') => qp_num q = 10 /\ pib_util_find_qp (qd_qp_table d') 10 = Some 10
  | _ => False
  end.
Proof. vm_compute. done. Qed.

Lemma destroy_qp_removes_witness :
  exists s' d', pib_destroy_qp spine_erase demo_dev demo_st = Some (d', s') /\ qd_inv d'
  /\ qd_bm d' = qd_bm demo_dev ∖ {[PIB_BITMAP_QP_START + qp_num (st_qp demo_st)]}
  /\ forall n, num_ok n -> pib_util_find_qp (qd_qp_table d') n =
       (if n =? qp_num (st_qp demo_st) then None else pib_util_find_qp (qd_qp_table demo_dev) n).
Proof.
  apply (destroy_qp_removes spine_erase spine_erase_ok [0; 1; 2; 3; 4] demo_st demo_dev demo_wf demo_dev_inv).
  apply (bool_decide_unpack _). vm_compute. exact I.
Defined.
