(* ===== verification/Packet.v ===== *)
(** * Packet headers (driver/pib_packet.h, pib_parse_packet_header)

    The headers are packed structures whose integers are big-endian; a packet is
    the list of its bytes.  Each header is a record with its encoding; reading a
    structure through a pointer is decoding the bytes at that place.  The file
    proves that decoding inverts encoding, the bit-field accessors against each
    other, and that the parser finds the headers an encoder wrote and refuses
    what does not fit. *)

From S2P Require Import Prelude Verbs Mr.

(** ** Big-endian integers *)

Definition be_split (n : nat) (v : Z) : list Z := rev (le_split n v).
Definition be_combine (l : list Z) : Z := le_combine (rev l).

(** The [len] bytes at offset [pos]. *)
Definition bytes_at (pos len : nat) (l : list Z) : list Z := take len (drop pos l).
Definition be_at (pos len : nat) (l : list Z) : Z := be_combine (bytes_at pos len l).
Definition byte_at (pos : nat) (l : list Z) : Z := nth pos l 0.

(** ** Structures *)

Record pib_packet_lrh := { lrh_dlid : Z; lrh_vl_lver : Z; lrh_sl_rsv_lnh : Z; lrh_slid : Z; lrh_pktlen : Z }.
#[export] Instance eta_pib_packet_lrh : Eta pib_packet_lrh := fun l =>
  {| lrh_dlid := lrh_dlid l; lrh_vl_lver := lrh_vl_lver l; lrh_sl_rsv_lnh := lrh_sl_rsv_lnh l; lrh_slid := lrh_slid l;
     lrh_pktlen := lrh_pktlen l |}.
Definition LRH_SIZE : Z := 8.
Definition lrh_bytes (l : pib_packet_lrh) : list Z :=
  be_split 2 (lrh_dlid l) ++ [lrh_vl_lver l; lrh_sl_rsv_lnh l] ++ be_split 2 (lrh_slid l) ++ be_split 2 (lrh_pktlen l).
Definition lrh_of (b : list Z) : pib_packet_lrh :=
  {| lrh_dlid := be_at 0 2 b; lrh_vl_lver := byte_at 2 b; lrh_sl_rsv_lnh := byte_at 3 b; lrh_slid := be_at 4 2 b;
     lrh_pktlen := be_at 6 2 b |}.

Definition pib_packet_lrh_get_pktlen (l : pib_packet_lrh) : Z := Z.land (lrh_pktlen l) 0x7FF.
Definition pib_packet_lrh_set_pktlen (l : pib_packet_lrh) (value : Z) : pib_packet_lrh :=
  l <| lrh_pktlen := Z.land (u16 value) 0x7FF |>.

(** struct ib_grh of the verbs headers; GIDs are 16 bytes. *)
Record ib_grh := { grh_version_tclass_flow : Z; grh_paylen : Z; grh_next_hdr : Z; grh_hop_limit : Z;
  grh_sgid : list Z; grh_dgid : list Z }.
Definition GRH_SIZE : Z := 40.
Definition grh_bytes (g : ib_grh) : list Z :=
  be_split 4 (grh_version_tclass_flow g) ++ be_split 2 (grh_paylen g) ++ [grh_next_hdr g; grh_hop_limit g]
  ++ grh_sgid g ++ grh_dgid g.
Definition grh_of (b : list Z) : ib_grh :=
  {| grh_version_tclass_flow := be_at 0 4 b; grh_paylen := be_at 4 2 b; grh_next_hdr := byte_at 6 b;
     grh_hop_limit := byte_at 7 b; grh_sgid := bytes_at 8 16 b; grh_dgid := bytes_at 24 16 b |}.

(** The P_Key is copied between tables and headers as it is. *)
Record pib_packet_bth := { bth_OpCode : Z; bth_se_m_padcnt_tver : Z; bth_pkey : Z; bth_destQP : Z; bth_psn : Z }.
#[export] Instance eta_pib_packet_bth : Eta pib_packet_bth := fun b =>
  {| bth_OpCode := bth_OpCode b; bth_se_m_padcnt_tver := bth_se_m_padcnt_tver b; bth_pkey := bth_pkey b;
     bth_destQP := bth_destQP b; bth_psn := bth_psn b |}.
Definition BTH_SIZE : Z := 12.
Definition bth_bytes (b : pib_packet_bth) : list Z :=
  [bth_OpCode b; bth_se_m_padcnt_tver b] ++ le_split 2 (bth_pkey b) ++ be_split 4 (bth_destQP b) ++ be_split 4 (bth_psn b).
Definition bth_of (b : list Z) : pib_packet_bth :=
  {| bth_OpCode := byte_at 0 b; bth_se_m_padcnt_tver := byte_at 1 b; bth_pkey := le_combine (bytes_at 2 2 b);
     bth_destQP := be_at 4 4 b; bth_psn := be_at 8 4 b |}.

Definition pib_packet_bth_get_padcnt (b : pib_packet_bth) : Z := Z.land (Z.shiftr (bth_se_m_padcnt_tver b) 4) 0x3.
Definition pib_packet_bth_set_padcnt (b : pib_packet_bth) (padcnt : Z) : pib_packet_bth :=
  b <| bth_se_m_padcnt_tver ::= fun v => Z.lor (Z.land v (Z.lnot 0x30)) (Z.shiftl (Z.land padcnt 0x3) 4) |>.
Definition pib_packet_bth_get_solicited (b : pib_packet_bth) : Z := Z.land (Z.shiftr (bth_se_m_padcnt_tver b) 7) 0x1.
Definition pib_packet_bth_set_solicited (b : pib_packet_bth) (solicited : bool) : pib_packet_bth :=
  b <| bth_se_m_padcnt_tver ::= fun v => Z.lor (Z.land v (Z.lnot 0x80)) (Z.shiftl (b2z solicited) 7) |>.

Record pib_packet_deth := { deth_qkey : Z; deth_srcQP : Z }.
Definition DETH_SIZE : Z := 8.
Definition deth_bytes (d : pib_packet_deth) : list Z := be_split 4 (deth_qkey d) ++ be_split 4 (deth_srcQP d).
Definition deth_of (b : list Z) : pib_packet_deth := {| deth_qkey := be_at 0 4 b; deth_srcQP := be_at 4 4 b |}.

Record pib_packet_reth := { reth_vaddr : Z; reth_rkey : Z; reth_dmalen : Z }.
Definition RETH_SIZE : Z := 16.
Definition reth_bytes (r : pib_packet_reth) : list Z :=
  be_split 8 (reth_vaddr r) ++ be_split 4 (reth_rkey r) ++ be_split 4 (reth_dmalen r).
Definition reth_of (b : list Z) : pib_packet_reth :=
  {| reth_vaddr := be_at 0 8 b; reth_rkey := be_at 8 4 b; reth_dmalen := be_at 12 4 b |}.

Record pib_packet_atomiceth := { at_vaddr : Z; at_rkey : Z; at_swap_dt : Z; at_cmp_dt : Z }.
Definition ATOMICETH_SIZE : Z := 28.
Definition atomiceth_bytes (a : pib_packet_atomiceth) : list Z :=
  be_split 8 (at_vaddr a) ++ be_split 4 (at_rkey a) ++ be_split 8 (at_swap_dt a) ++ be_split 8 (at_cmp_dt a).
Definition atomiceth_of (b : list Z) : pib_packet_atomiceth :=
  {| at_vaddr := be_at 0 8 b; at_rkey := be_at 8 4 b; at_swap_dt := be_at 12 8 b; at_cmp_dt := be_at 20 8 b |}.

Definition AETH_SIZE : Z := 4.
Definition ATOMICACKETH_SIZE : Z := 8.

(** ** Parsing *)

(** The value returned, and the headers the pointers are set to. *)
Record parsed := { pr_ret : Z; pr_lrh : pib_packet_lrh; pr_grh : option ib_grh; pr_bth : option pib_packet_bth }.

Definition pib_parse_packet_header (buffer : list Z) : Z + parsed :=
  let size := Zlen buffer in
  if size <? LRH_SIZE then inl (-1)
  else
    let lrh := lrh_of buffer in
    if negb (pib_packet_lrh_get_pktlen lrh * 4 =? size) then inl (-1)
    else if negb (Z.land (lrh_vl_lver lrh) 0xF =? 0) then inl (-2)
    else
      let buffer := drop 8 buffer in
      let size := size - LRH_SIZE in
      let lnh := Z.land (lrh_sl_rsv_lnh lrh) 0x3 in
      let bth grh ret buffer size :=
        if size <? BTH_SIZE then inl (-1)
        else inr {| pr_ret := ret + BTH_SIZE; pr_lrh := lrh; pr_grh := grh; pr_bth := Some (bth_of buffer) |} in
      if lnh =? 2 then bth None LRH_SIZE buffer size
      else if lnh =? 0 then inr {| pr_ret := LRH_SIZE; pr_lrh := lrh; pr_grh := None; pr_bth := None |}
      else if negb (lnh =? 3) then inl (-3)
      else if size <? GRH_SIZE then inl (-1)
      else bth (Some (grh_of buffer)) (LRH_SIZE + GRH_SIZE) (drop 40 buffer) (size - GRH_SIZE).

(** ** Round trips *)

Lemma length_be_split n v : length (be_split n v) = n.
Proof. unfold be_split. by rewrite length_rev, length_le_split. Qed.

Lemma be_combine_split n v : 0 <= v < 2 ^ (8 * Z.of_nat n) -> be_combine (be_split n v) = v.
Proof. intros. unfold be_combine, be_split. rewrite rev_involutive, le_combine_split. by apply Z.mod_small. Qed.

(** ** Well-formed headers: fields within their widths *)

Definition byte_ok (b : Z) : Prop := 0 <= b < 256.
Definition lrh_ok (l : pib_packet_lrh) : Prop :=
  0 <= lrh_dlid l < 2 ^ 16 /\ byte_ok (lrh_vl_lver l) /\ byte_ok (lrh_sl_rsv_lnh l) /\ 0 <= lrh_slid l < 2 ^ 16
  /\ 0 <= lrh_pktlen l < 2 ^ 16.
Definition grh_ok (g : ib_grh) : Prop :=
  0 <= grh_version_tclass_flow g < 2 ^ 32 /\ 0 <= grh_paylen g < 2 ^ 16 /\ byte_ok (grh_next_hdr g)
  /\ byte_ok (grh_hop_limit g) /\ length (grh_sgid g) = 16%nat /\ length (grh_dgid g) = 16%nat.
Definition bth_ok (b : pib_packet_bth) : Prop :=
  byte_ok (bth_OpCode b) /\ byte_ok (bth_se_m_padcnt_tver b) /\ 0 <= bth_pkey b < 2 ^ 16
  /\ 0 <= bth_destQP b < 2 ^ 32 /\ 0 <= bth_psn b < 2 ^ 32.
Definition reth_ok (r : pib_packet_reth) : Prop :=
  0 <= reth_vaddr r < 2 ^ 64 /\ 0 <= reth_rkey r < 2 ^ 32 /\ 0 <= reth_dmalen r < 2 ^ 32.
Definition atomiceth_ok (a : pib_packet_atomiceth) : Prop :=
  0 <= at_vaddr a < 2 ^ 64 /\ 0 <= at_rkey a < 2 ^ 32 /\ 0 <= at_swap_dt a < 2 ^ 64 /\ 0 <= at_cmp_dt a < 2 ^ 64.
Definition deth_ok (d : pib_packet_deth) : Prop := 0 <= deth_qkey d < 2 ^ 32 /\ 0 <= deth_srcQP d < 2 ^ 32.

(** Each field is read back from the bytes it was written to. *)
Ltac field n := etransitivity; [|apply (be_combine_split n); simpl Z.of_nat; lia]; reflexivity.

Lemma lrh_roundtrip l rest : lrh_ok l -> lrh_of (lrh_bytes l ++ rest) = l.
Proof.
  destruct l as [d v s sl p]. intros (H1 & H2 & H3 & H4 & H5). simpl in *. unfold lrh_of. f_equal; field 2%nat.
Qed.

Lemma reth_roundtrip r rest : reth_ok r -> reth_of (reth_bytes r ++ rest) = r.
Proof. destruct r. intros (H1 & H2 & H3). simpl in *. unfold reth_of. f_equal; [field 8%nat|field 4%nat..]. Qed.

Lemma atomiceth_roundtrip a rest : atomiceth_ok a -> atomiceth_of (atomiceth_bytes a ++ rest) = a.
Proof.
  destruct a. intros (H1 & H2 & H3 & H4). simpl in *. unfold atomiceth_of.
  f_equal; [field 8%nat|field 4%nat|field 8%nat|field 8%nat].
Qed.

Lemma deth_roundtrip d rest : deth_ok d -> deth_of (deth_bytes d ++ rest) = d.
Proof. destruct d. intros (H1 & H2). simpl in *. unfold deth_of. f_equal; field 4%nat. Qed.

Lemma bth_roundtrip b rest : bth_ok b -> bth_of (bth_bytes b ++ rest) = b.
Proof.
  destruct b as [o s k d p]. intros (H1 & H2 & H3 & H4 & H5). simpl in *. unfold bth_of. f_equal; [|field 4%nat..].
  transitivity (le_combine (le_split 2 k)); [reflexivity|]. rewrite le_combine_split. apply Z.mod_small. simpl Z.of_nat. lia.
Qed.

Lemma grh_roundtrip g rest : grh_ok g -> grh_of (grh_bytes g ++ rest) = g.
Proof.
  destruct g as [v p n h sg dg]. intros (H1 & H2 & H3 & H4 & H5 & H6). simpl in *. unfold grh_of.
  do 16 (destruct sg as [|? sg]; [done|]). destruct sg; [|done].
  do 16 (destruct dg as [|? dg]; [done|]). destruct dg; [|done].
  f_equal; [field 4%nat|field 2%nat].
Qed.

Lemma length_lrh l : length (lrh_bytes l) = 8%nat.
Proof. reflexivity. Qed.
Lemma length_bth b : length (bth_bytes b) = 12%nat.
Proof. reflexivity. Qed.
Lemma length_grh g : grh_ok g -> length (grh_bytes g) = 40%nat.
Proof. intros (_ & _ & _ & _ & H5 & H6). unfold grh_bytes. rewrite !length_app, !length_be_split, H5, H6. done. Qed.

(** ** Theorems *)

(** The packet an encoder writes: headers, then the rest. *)
Definition packet_bytes (l : pib_packet_lrh) (g : option ib_grh) (b : pib_packet_bth) (rest : list Z) : list Z :=
  lrh_bytes l ++ match g with Some g => grh_bytes g | None => [] end ++ bth_bytes b ++ rest.

Section RoundTrip.
Variables (l : pib_packet_lrh) (g : option ib_grh) (b : pib_packet_bth) (rest : list Z).
Hypothesis Hl : lrh_ok l.
Hypothesis Hg : match g with Some g => grh_ok g | None => True end.
Hypothesis Hb : bth_ok b.
Hypothesis Hlen : pib_packet_lrh_get_pktlen l * 4 = Zlen (packet_bytes l g b rest).
Hypothesis Hver : Z.land (lrh_vl_lver l) 0xF = 0.
Hypothesis Hlnh : Z.land (lrh_sl_rsv_lnh l) 0x3 = match g with Some _ => 3 | None => 2 end.

Lemma parse_packet_bytes :
  pib_parse_packet_header (packet_bytes l g b rest)
  = inr {| pr_ret := Zlen (packet_bytes l g b []); pr_lrh := l; pr_grh := g; pr_bth := Some b |}.
Proof.
  set (k := match g with Some g => grh_bytes g | None => [] end).
  assert (length k = match g with Some _ => 40%nat | None => 0%nat end) as Hk
    by (unfold k; destruct g; [by apply length_grh|done]).
  assert (forall r, Zlen (packet_bytes l g b r) = 20 + Zlen k + Zlen r) as Hz.
  { intros r. unfold packet_bytes. fold k. rewrite !Zlen_app. unfold Zlen at 1 3. rewrite length_lrh, length_bth. lia. }
  unfold pib_parse_packet_header. rewrite (Hz []), Hz. pose proof (Zlen_nonneg k). pose proof (Zlen_nonneg rest).
  rewrite (proj2 (Z.ltb_ge _ _)) by (unfold LRH_SIZE; lia).
  cbv zeta. replace (lrh_of (packet_bytes l g b rest)) with l by (unfold packet_bytes; by rewrite lrh_roundtrip).
  rewrite Hlen, Hz, Z.eqb_refl, Hver. simpl negb. cbv iota.
  rewrite Hlnh. replace (drop 8 (packet_bytes l g b rest)) with (k ++ bth_bytes b ++ rest) by reflexivity.
  destruct g as [gh|]; unfold k, Zlen in *; rewrite Hk.
  - change (3 =? 2) with false. change (3 =? 0) with false. change (3 =? 3) with true. simpl negb. cbv iota.
    rewrite (proj2 (Z.ltb_ge _ _)) by (unfold GRH_SIZE, LRH_SIZE; lia).
    rewrite (proj2 (Z.ltb_ge _ _)) by (unfold BTH_SIZE, GRH_SIZE, LRH_SIZE; lia).
    replace (drop 40 (grh_bytes gh ++ bth_bytes b ++ rest)) with (bth_bytes b ++ rest)
      by (rewrite <- (length_grh gh) by done; by rewrite drop_app_length).
    rewrite grh_roundtrip, bth_roundtrip by done. done.
  - change (2 =? 2) with true. cbv iota.
    rewrite (proj2 (Z.ltb_ge _ _)) by (unfold BTH_SIZE, LRH_SIZE; lia). rewrite app_nil_l, bth_roundtrip by done. done.
Qed.

Lemma drop_packet_headers (r : list Z) : drop (length (packet_bytes l g b [])) (packet_bytes l g b r) = r.
Proof. unfold packet_bytes. rewrite app_nil_r, !app_assoc. by rewrite drop_app_length. Qed.

(** The parser finds the headers an encoder wrote, whatever follows them, and
    returns the offset of what follows, for every packet whose length field is
    its length in words, whose link version is 0 and whose next-header field says
    whether there is a GRH. *)
Theorem parse_packet_roundtrip :
  pib_parse_packet_header (packet_bytes l g b rest)
    = inr {| pr_ret := Zlen (packet_bytes l g b []); pr_lrh := l; pr_grh := g; pr_bth := Some b |}
  /\ drop (length (packet_bytes l g b [])) (packet_bytes l g b rest) = rest.
Proof. split; [exact parse_packet_bytes|apply drop_packet_headers]. Qed.
End RoundTrip.

(** The parser accepts nothing else: a packet it accepts is as long as its length
    field says, holds the headers it reports, and the offset is within it. *)
Theorem parse_packet_bounds (buffer : list Z) (p : parsed) (H : pib_parse_packet_header buffer = inr p) :
  pib_packet_lrh_get_pktlen (pr_lrh p) * 4 = Zlen buffer /\ 0 <= pr_ret p <= Zlen buffer
  /\ Z.land (lrh_vl_lver (pr_lrh p)) 0xF = 0
  /\ pr_ret p = LRH_SIZE + match pr_grh p with Some _ => GRH_SIZE | None => 0 end
                + match pr_bth p with Some _ => BTH_SIZE | None => 0 end
  /\ (pr_bth p = None <-> Z.land (lrh_sl_rsv_lnh (pr_lrh p)) 0x3 = 0).
Proof.
  revert H. unfold pib_parse_packet_header.
  repeat (cases; try discriminate); intros [= <-]; bools; simpl in *; unfold LRH_SIZE, GRH_SIZE, BTH_SIZE in *;
    split_and!; try lia; try done; split; intros; (discriminate || lia || done).
Qed.

(** The byte of the BTH's bit fields after both setters, for every byte. *)
Definition bth_byte (v n : Z) (sol : bool) : pib_packet_bth :=
  pib_packet_bth_set_solicited (pib_packet_bth_set_padcnt
    {| bth_OpCode := 0; bth_se_m_padcnt_tver := v; bth_pkey := 0; bth_destQP := 0; bth_psn := 0 |} n) sol.

Lemma bth_byte_check :
  forallb (fun v => forallb (fun n => forallb (fun sol =>
    let b := bth_byte v n sol in
    (pib_packet_bth_get_padcnt b =? n) && (pib_packet_bth_get_solicited b =? b2z sol)
    && (0 <=? bth_se_m_padcnt_tver b) && (bth_se_m_padcnt_tver b <? 256)
    && (Z.land (bth_se_m_padcnt_tver b) 0x4F =? Z.land v 0x4F)) [true; false]) (seqZ 0 4)) (seqZ 0 256) = true.
Proof. vm_compute. reflexivity. Qed.

(** The pad count and the solicited bit are independent fields of one byte: after
    setting both, each is read back, the byte stays a byte and its other bits are
    unchanged. *)
Theorem bth_bit_fields (b : pib_packet_bth) (n : Z) (sol : bool)
    (Hb : byte_ok (bth_se_m_padcnt_tver b)) (Hn : 0 <= n < 4) :
  let b' := pib_packet_bth_set_solicited (pib_packet_bth_set_padcnt b n) sol in
  pib_packet_bth_get_padcnt b' = n /\ pib_packet_bth_get_solicited b' = b2z sol
  /\ byte_ok (bth_se_m_padcnt_tver b')
  /\ Z.land (bth_se_m_padcnt_tver b') 0x4F = Z.land (bth_se_m_padcnt_tver b) 0x4F
  /\ bth_OpCode b' = bth_OpCode b /\ bth_psn b' = bth_psn b.
Proof.
  intros b'. pose proof bth_byte_check as H. rewrite forallb_forall in H.
  specialize (H (bth_se_m_padcnt_tver b)). rewrite <- list_elem_of_In, elem_of_seqZ in H. specialize (H ltac:(unfold byte_ok in Hb; lia)).
  rewrite forallb_forall in H. specialize (H n). rewrite <- list_elem_of_In, elem_of_seqZ in H. specialize (H ltac:(lia)).
  rewrite forallb_forall in H. specialize (H sol ltac:(destruct sol; simpl; auto)). cbv zeta in H. bools. by split_and!.
Qed.

(** ** Witnesses *)

Definition lrh_example : pib_packet_lrh :=
  {| lrh_dlid := 2; lrh_vl_lver := 0; lrh_sl_rsv_lnh := 0x32; lrh_slid := 1; lrh_pktlen := 6 |}.
Definition bth_example : pib_packet_bth :=
  {| bth_OpCode := IB_OPCODE_SEND_ONLY; bth_se_m_padcnt_tver := 0x10; bth_pkey := 0xFFFF; bth_destQP := 9; bth_psn := 15 |}.

Lemma parse_packet_roundtrip_witness :
  pib_parse_packet_header (packet_bytes lrh_example None bth_example [1; 2; 3; 4])
    = inr {| pr_ret := 20; pr_lrh := lrh_example; pr_grh := None; pr_bth := Some bth_example |}
  /\ drop 20 (packet_bytes lrh_example None bth_example [1; 2; 3; 4]) = [1; 2; 3; 4].
Proof.
  apply (parse_packet_roundtrip lrh_example None bth_example [1; 2; 3; 4]);
    [repeat split; vm_compute; congruence|exact I|repeat split; vm_compute; congruence|reflexivity..].
Defined.

Lemma parse_packet_bounds_witness :
  pib_packet_lrh_get_pktlen lrh_example * 4 = Zlen (packet_bytes lrh_example None bth_example [1; 2; 3; 4]).
Proof.
  destruct (parse_packet_bounds (packet_bytes lrh_example None bth_example [1; 2; 3; 4])
    {| pr_ret := 20; pr_lrh := lrh_example; pr_grh := None; pr_bth := Some bth_example |} eq_refl) as (H & _). exact H.
Defined.

Lemma bth_bit_fields_witness :
  pib_packet_bth_get_padcnt (pib_packet_bth_set_solicited (pib_packet_bth_set_padcnt bth_example 3) true) = 3.
Proof.
  destruct (bth_bit_fields bth_example 3 true) as (H & _); [vm_compute; split; congruence|lia|exact H].
Defined.
