(* ===== verification/Wire.v ===== *)
(** * Fields of packed structures

    Management datagrams are handled in place: the source casts a pointer into a
    packet buffer to a packed structure and reads and writes its members.  A
    structure member is a field, an offset and a width, of the list of bytes.
    A big-endian member converted with [cpu_to_be*]/[be*_to_cpu] is accessed with
    [be_get]/[be_set]; a member that the source copies without conversion is
    accessed in the byte order of the host, little-endian, with [le_get]/[le_set].
    Assigning a value that does not fit keeps the low bytes, as in C.

    The laws are those of a lens: a field reads back what was written to it and
    writing one field leaves the disjoint ones unchanged. *)

From S2P Require Import Prelude Mr Packet.

Record fld := Fld { f_off : nat; f_len : nat }.

Definition put_bytes (off : nat) (bs b : list Z) : list Z := take off b ++ bs ++ drop (off + length bs) b.

Definition be_get (f : fld) (b : list Z) : Z := be_at (f_off f) (f_len f) b.
Definition be_set (f : fld) (v : Z) (b : list Z) : list Z := put_bytes (f_off f) (be_split (f_len f) v) b.
Definition le_get (f : fld) (b : list Z) : Z := le_combine (bytes_at (f_off f) (f_len f) b).
Definition le_set (f : fld) (v : Z) (b : list Z) : list Z := put_bytes (f_off f) (le_split (f_len f) v) b.

Arguments be_get : simpl never.
Arguments be_set : simpl never.
Arguments le_get : simpl never.
Arguments le_set : simpl never.
Arguments put_bytes : simpl never.

(** An array member of [n] elements of [w] bytes each. *)
Definition elt (base w i : nat) : fld := Fld (base + w * i) w.
Definition be_array (base w n : nat) (b : list Z) : list Z := (fun i => be_get (elt base w i) b) <$> seq 0 n.
Fixpoint be_set_array (base w : nat) (vs : list Z) (b : list Z) : list Z :=
  match vs with
  | [] => b
  | v :: vs' => be_set_array (base + w) w vs' (be_set (Fld base w) v b)
  end.

(** Fields that do not overlap; a field within [n] bytes. *)
Definition fdisj (f g : fld) : bool :=
  (f_off f + f_len f <=? f_off g)%nat || (f_off g + f_len g <=? f_off f)%nat.
Definition fits (f : fld) (n : nat) : Prop := (f_off f + f_len f <= n)%nat.
#[global] Instance fits_dec f n : Decision (fits f n) := decide (_ <= _)%nat.

(** ** Bytes *)

Lemma length_put_bytes off bs b : (off + length bs <= length b)%nat -> length (put_bytes off bs b) = length b.
Proof. intros. unfold put_bytes. rewrite !length_app, length_take, length_drop. lia. Qed.

Lemma lookup_put_bytes off bs b j : (off + length bs <= length b)%nat ->
  put_bytes off bs b !! j
  = (if decide (off <= j < off + length bs)%nat then bs !! (j - off)%nat else b !! j).
Proof.
  intros Hl. unfold put_bytes. destruct (decide (j < off)%nat).
  - rewrite lookup_app_l by (rewrite length_take; lia). rewrite lookup_take_lt by done.
    by rewrite decide_False by lia.
  - rewrite lookup_app_r by (rewrite length_take; lia). rewrite length_take.
    replace (j - off `min` length b)%nat with (j - off)%nat by lia. destruct (decide (j < off + length bs)%nat).
    + rewrite decide_True by lia. by rewrite lookup_app_l by lia.
    + rewrite decide_False by lia. rewrite lookup_app_r, lookup_drop by lia. f_equal. lia.
Qed.

Lemma lookup_bytes_at p l b i : bytes_at p l b !! i = (if decide (i < l)%nat then b !! (p + i)%nat else None).
Proof.
  unfold bytes_at. destruct (decide (i < l)%nat).
  - by rewrite lookup_take_lt, lookup_drop.
  - apply lookup_ge_None_2. rewrite length_take. lia.
Qed.

Lemma length_bytes_at p l b : (p + l <= length b)%nat -> length (bytes_at p l b) = l.
Proof. intros. unfold bytes_at. rewrite length_take, length_drop. lia. Qed.

Lemma bytes_at_put off bs b : (off + length bs <= length b)%nat -> bytes_at off (length bs) (put_bytes off bs b) = bs.
Proof.
  intros Hl. apply list_eq. intros i. rewrite lookup_bytes_at. destruct (decide (i < length bs)%nat).
  - rewrite lookup_put_bytes by done. rewrite decide_True by lia. f_equal. lia.
  - symmetry. apply lookup_ge_None_2. lia.
Qed.

Lemma bytes_at_put_ne p l off bs b : (off + length bs <= length b)%nat -> (p + l <= off \/ off + length bs <= p)%nat ->
  bytes_at p l (put_bytes off bs b) = bytes_at p l b.
Proof.
  intros Hl Hd. apply list_eq. intros i. rewrite !lookup_bytes_at. destruct (decide (i < l)%nat); [|done].
  rewrite lookup_put_bytes by done. by rewrite decide_False by lia.
Qed.

Lemma put_bytes_Forall P off bs b : Forall P bs -> Forall P b -> Forall P (put_bytes off bs b).
Proof. intros. unfold put_bytes. repeat apply Forall_app_2; auto using Forall_take, Forall_drop. Qed.

(** ** Integers in fields *)

Lemma be_split_bytes n v : Forall byte_ok (be_split n v).
Proof.
  unfold be_split. apply Forall_rev. revert v. induction n as [|n IH]; intros v; simpl; [done|].
  constructor; [|done]. apply Z.mod_pos_bound. lia.
Qed.
Lemma le_split_bytes n v : Forall byte_ok (le_split n v).
Proof. rewrite <- (rev_involutive (le_split n v)). apply Forall_rev, (be_split_bytes n v). Qed.

Lemma be_combine_mod n v : be_combine (be_split n v) = v mod 2 ^ (8 * Z.of_nat n).
Proof. unfold be_combine, be_split. by rewrite rev_involutive, le_combine_split. Qed.

Lemma le_combine_nonneg l : Forall byte_ok l -> 0 <= le_combine l < 2 ^ (8 * Z.of_nat (length l)).
Proof. intros H. exact (le_combine_bound l H). Qed.

Section Lens.
Context (f : fld) (b : list Z) (Hf : fits f (length b)).

Lemma length_be_set v : length (be_set f v b) = length b.
Proof. apply length_put_bytes. by rewrite length_be_split. Qed.
Lemma length_le_set v : length (le_set f v b) = length b.
Proof. apply length_put_bytes. by rewrite length_le_split. Qed.

Lemma bytes_at_be_set v : bytes_at (f_off f) (f_len f) (be_set f v b) = be_split (f_len f) v.
Proof.
  unfold be_set. rewrite <- (length_be_split (f_len f) v) at 1. apply bytes_at_put. by rewrite length_be_split.
Qed.
Lemma bytes_at_le_set v : bytes_at (f_off f) (f_len f) (le_set f v b) = le_split (f_len f) v.
Proof.
  unfold le_set. rewrite <- (length_le_split (f_len f) v) at 1. apply bytes_at_put. by rewrite length_le_split.
Qed.

Lemma be_get_set v : be_get f (be_set f v b) = v mod 2 ^ (8 * Z.of_nat (f_len f)).
Proof. unfold be_get, be_at. by rewrite bytes_at_be_set, be_combine_mod. Qed.
Lemma le_get_set v : le_get f (le_set f v b) = v mod 2 ^ (8 * Z.of_nat (f_len f)).
Proof. unfold le_get. by rewrite bytes_at_le_set, le_combine_split. Qed.

Lemma bytes_at_be_set_ne p l v : fdisj (Fld p l) f = true -> bytes_at p l (be_set f v b) = bytes_at p l b.
Proof.
  unfold fdisj. simpl. intros H. apply orb_true_iff in H as [H|H]; apply Nat.leb_le in H;
    apply bytes_at_put_ne; rewrite length_be_split; auto.
Qed.
Lemma bytes_at_le_set_ne p l v : fdisj (Fld p l) f = true -> bytes_at p l (le_set f v b) = bytes_at p l b.
Proof.
  unfold fdisj. simpl. intros H. apply orb_true_iff in H as [H|H]; apply Nat.leb_le in H;
    apply bytes_at_put_ne; rewrite length_le_split; auto.
Qed.

Lemma be_get_be_set_ne g v : fdisj g f = true -> be_get g (be_set f v b) = be_get g b.
Proof. intros H. unfold be_get, be_at. destruct g. by rewrite bytes_at_be_set_ne. Qed.
Lemma be_get_le_set_ne g v : fdisj g f = true -> be_get g (le_set f v b) = be_get g b.
Proof. intros H. unfold be_get, be_at. destruct g. by rewrite bytes_at_le_set_ne. Qed.
Lemma le_get_be_set_ne g v : fdisj g f = true -> le_get g (be_set f v b) = le_get g b.
Proof. intros H. unfold le_get. destruct g. by rewrite bytes_at_be_set_ne. Qed.
Lemma le_get_le_set_ne g v : fdisj g f = true -> le_get g (le_set f v b) = le_get g b.
Proof. intros H. unfold le_get. destruct g. by rewrite bytes_at_le_set_ne. Qed.
End Lens.

Lemma be_set_bytes f v b : Forall byte_ok b -> Forall byte_ok (be_set f v b).
Proof. intros. apply put_bytes_Forall; [apply be_split_bytes|done]. Qed.
Lemma le_set_bytes f v b : Forall byte_ok b -> Forall byte_ok (le_set f v b).
Proof. intros. apply put_bytes_Forall; [apply le_split_bytes|done]. Qed.

Lemma bytes_at_bytes p l b : Forall byte_ok b -> Forall byte_ok (bytes_at p l b).
Proof. intros. by apply Forall_take, Forall_drop. Qed.

Lemma le_get_range f b : Forall byte_ok b -> 0 <= le_get f b < 2 ^ (8 * Z.of_nat (f_len f)).
Proof.
  intros Hb. unfold le_get. pose proof (le_combine_nonneg _ (bytes_at_bytes (f_off f) (f_len f) b Hb)) as H.
  assert (length (bytes_at (f_off f) (f_len f) b) <= f_len f)%nat by (unfold bytes_at; rewrite length_take; lia).
  split; [lia|]. eapply Z.lt_le_trans; [apply H|]. apply Z.pow_le_mono_r; lia.
Qed.
Lemma be_get_range f b : Forall byte_ok b -> 0 <= be_get f b < 2 ^ (8 * Z.of_nat (f_len f)).
Proof.
  intros Hb. unfold be_get, be_at, be_combine.
  pose proof (le_combine_nonneg _ (Forall_rev (bytes_at_bytes (f_off f) (f_len f) b Hb))) as H.
  rewrite length_rev in H.
  assert (length (bytes_at (f_off f) (f_len f) b) <= f_len f)%nat by (unfold bytes_at; rewrite length_take; lia).
  split; [lia|]. eapply Z.lt_le_trans; [apply H|]. apply Z.pow_le_mono_r; lia.
Qed.

(** ** Arrays *)

Lemma length_be_set_array base w vs b : (base + w * length vs <= length b)%nat ->
  length (be_set_array base w vs b) = length b.
Proof.
  revert base b. induction vs as [|v vs IH]; intros base b H; simpl in *; [done|].
  assert (length (be_set (Fld base w) v b) = length b) as E by (apply length_be_set; unfold fits; simpl; lia).
  rewrite IH; rewrite E; lia.
Qed.

Lemma bytes_at_be_set_array_ne p l base w vs b : (base + w * length vs <= length b)%nat ->
  (p + l <= base \/ base + w * length vs <= p)%nat -> bytes_at p l (be_set_array base w vs b) = bytes_at p l b.
Proof.
  revert base b. induction vs as [|v vs IH]; intros base b H Hd; simpl in *; [done|].
  assert (fits (Fld base w) (length b)) as Hf by (unfold fits; simpl; lia).
  rewrite IH by (rewrite ?length_be_set by done; lia). apply bytes_at_be_set_ne; [done|].
  unfold fdisj. simpl. apply orb_true_iff. destruct Hd; [left|right]; apply Nat.leb_le; lia.
Qed.

Lemma be_array_set base w vs b : (base + w * length vs <= length b)%nat ->
  be_array base w (length vs) (be_set_array base w vs b) = (fun v => v mod 2 ^ (8 * Z.of_nat w)) <$> vs.
Proof.
  revert base b. induction vs as [|v vs IH]; intros base b H; simpl in *; [done|].
  assert (fits (Fld base w) (length b)) as Hf by (unfold fits; simpl; lia).
  unfold be_array in *. simpl. f_equal.
  - unfold be_get, be_at, elt. simpl. replace (base + w * 0)%nat with base by lia.
    rewrite bytes_at_be_set_array_ne by (rewrite ?length_be_set by done; lia).
    by rewrite (bytes_at_be_set (Fld base w)), be_combine_mod.
  - etransitivity; [|apply (IH (base + w)%nat (be_set (Fld base w) v b)); rewrite ?length_be_set by done; lia].
    rewrite <- seq_shift, <- list_fmap_compose. apply list_fmap_ext. intros i k _. simpl. unfold elt.
    replace (base + w * S k)%nat with (base + w + w * k)%nat by lia. done.
Qed.

Lemma be_set_array_bytes base w vs b : Forall byte_ok b -> Forall byte_ok (be_set_array base w vs b).
Proof. revert base b. induction vs; intros; simpl; [done|]. by apply IHvs, be_set_bytes. Qed.
