(* ===== verification/Port.v ===== *)
(** * Ports, subnet management packets and the PortInfo attribute
      (driver/pib.h, pib_mad.h, pib_mad.c, pibnetd/pibnetd.h, pibnetd_packet.h)

    The state a node keeps per port, the layout of a management datagram (256
    bytes, [fld]s of it), the replies of the agents, and the PortInfo attribute,
    which the agent of an HCA port (pib_mad.c), of the internal switch
    (pib_easy_sw.c) and of pibnetd (smp.c) read and write with the same code.

    The theorems: what Set(PortInfo) stores is what Get(PortInfo) reports, member
    by member and for every kind of port, and the stored values stay within
    their widths. *)

From S2P Require Import Prelude Mr Packet Wire.

(** ** Constants *)

Definition IB_MGMT_BASE_VERSION : Z := 1.
Definition PIB_MGMT_CLASS_VERSION : Z := 1.
Definition IB_MGMT_CLASS_SUBN_LID_ROUTED : Z := 0x01.
Definition IB_MGMT_CLASS_SUBN_DIRECTED_ROUTE : Z := 0x81.
Definition IB_MGMT_CLASS_PERF_MGMT : Z := 0x04.
Definition IB_MGMT_METHOD_GET : Z := 0x01.
Definition IB_MGMT_METHOD_SET : Z := 0x02.
Definition IB_MGMT_METHOD_TRAP : Z := 0x05.
Definition IB_MGMT_METHOD_REPORT : Z := 0x06.
Definition IB_MGMT_METHOD_TRAP_REPRESS : Z := 0x07.
Definition IB_MGMT_METHOD_GET_RESP : Z := 0x81.
Definition IB_MGMT_METHOD_REPORT_RESP : Z := 0x86.
Definition PIB_SMP_UNSUP_VERSION : Z := 0x0004.
Definition PIB_SMP_UNSUP_METHOD : Z := 0x0008.
Definition PIB_SMP_UNSUP_METH_ATTR : Z := 0x000C.
Definition PIB_SMP_INVALID_FIELD : Z := 0x001C.
Definition IB_SMP_DIRECTION : Z := 0x8000.

Definition PIB_SMP_ATTR_NOTICE : Z := 0x0002.
Definition PIB_SMP_ATTR_NODE_DESC : Z := 0x0010.
Definition PIB_SMP_ATTR_NODE_INFO : Z := 0x0011.
Definition PIB_SMP_ATTR_SWITCH_INFO : Z := 0x0012.
Definition PIB_SMP_ATTR_GUID_INFO : Z := 0x0014.
Definition PIB_SMP_ATTR_PORT_INFO : Z := 0x0015.
Definition PIB_SMP_ATTR_PKEY_TABLE : Z := 0x0016.
Definition PIB_SMP_ATTR_SL_TO_VL_TABLE : Z := 0x0017.
Definition PIB_SMP_ATTR_VL_ARB_TABLE : Z := 0x0018.
Definition PIB_SMP_ATTR_LINEAR_FORWARD_TABLE : Z := 0x0019.
Definition PIB_SMP_ATTR_RANDOM_FORWARD_TABLE : Z := 0x001A.
Definition PIB_SMP_ATTR_MCAST_FORWARD_TABLE : Z := 0x001B.
Definition PIB_SMP_ATTR_SM_INFO : Z := 0x0020.

Definition IB_MAD_RESULT_FAILURE : Z := 0.
Definition IB_MAD_RESULT_SUCCESS : Z := 1.
Definition IB_MAD_RESULT_REPLY : Z := 2.
Definition IB_MAD_RESULT_CONSUMED : Z := 4.

Definition IB_PORT_DOWN : Z := 1.
Definition IB_PORT_INIT : Z := 2.
Definition IB_PORT_ACTIVE : Z := 4.
Definition PIB_PHYS_PORT_POLLING : Z := 2.
Definition PIB_PHYS_PORT_LINK_UP : Z := 5.
Definition IB_WIDTH_1X : Z := 1.
Definition IB_WIDTH_4X : Z := 2.
Definition IB_WIDTH_8X : Z := 4.
Definition IB_WIDTH_12X : Z := 8.
Definition IB_SPEED_SDR : Z := 1.
Definition IB_SPEED_DDR : Z := 2.
Definition IB_SPEED_QDR : Z := 4.
Definition IB_MTU_256 : Z := 1.
Definition IB_MTU_4096 : Z := 5.
Definition PIB_LINK_WIDTH_SUPPORTED : Z := 15.
Definition PIB_LINK_SPEED_SUPPORTED : Z := 7.
(** TrapSup, SysImageGUIDSup and CMSup (pibnetd); the driver adds ClientReregSup. *)
Definition NETD_PORT_CAP_FLAGS : Z := Z.lor (Z.shiftl 1 3) (Z.lor (Z.shiftl 1 11) (Z.shiftl 1 16)).
Definition PIB_PORT_CAP_FLAGS : Z := Z.lor NETD_PORT_CAP_FLAGS (Z.shiftl 1 25).
Definition PIB_PKEY_PER_BLOCK : Z := 32.
Definition PIB_DEFAULT_PKEY_FULL : Z := 0xFFFF.
Definition PIB_LID_PERMISSIVE : Z := 0xFFFF.

(** ** The state of a port *)

Record pib_port_perf := {
  pf_OpCode : Z; pf_tag : Z; pf_counter_select : list Z; pf_counter : list Z;
  pf_symbol_error_counter : Z; pf_link_error_recovery_counter : Z; pf_link_downed_counter : Z;
  pf_rcv_errors : Z; pf_rcv_remphys_errors : Z; pf_rcv_switch_relay_errors : Z; pf_xmit_discards : Z;
  pf_xmit_constraint_errors : Z; pf_rcv_constraint_errors : Z; pf_local_link_integrity_errors : Z;
  pf_excessive_buffer_overrun_errors : Z; pf_vl15_dropped : Z;
  pf_xmit_data : Z; pf_rcv_data : Z; pf_xmit_packets : Z; pf_rcv_packets : Z; pf_xmit_wait : Z;
  pf_unicast_xmit_packets : Z; pf_unicast_rcv_packets : Z; pf_multicast_xmit_packets : Z; pf_multicast_rcv_packets : Z }.
#[export] Instance eta_pib_port_perf : Eta pib_port_perf := fun p => {|
  pf_OpCode := pf_OpCode p; pf_tag := pf_tag p; pf_counter_select := pf_counter_select p; pf_counter := pf_counter p;
  pf_symbol_error_counter := pf_symbol_error_counter p;
  pf_link_error_recovery_counter := pf_link_error_recovery_counter p;
  pf_link_downed_counter := pf_link_downed_counter p; pf_rcv_errors := pf_rcv_errors p;
  pf_rcv_remphys_errors := pf_rcv_remphys_errors p; pf_rcv_switch_relay_errors := pf_rcv_switch_relay_errors p;
  pf_xmit_discards := pf_xmit_discards p; pf_xmit_constraint_errors := pf_xmit_constraint_errors p;
  pf_rcv_constraint_errors := pf_rcv_constraint_errors p;
  pf_local_link_integrity_errors := pf_local_link_integrity_errors p;
  pf_excessive_buffer_overrun_errors := pf_excessive_buffer_overrun_errors p; pf_vl15_dropped := pf_vl15_dropped p;
  pf_xmit_data := pf_xmit_data p; pf_rcv_data := pf_rcv_data p; pf_xmit_packets := pf_xmit_packets p;
  pf_rcv_packets := pf_rcv_packets p; pf_xmit_wait := pf_xmit_wait p;
  pf_unicast_xmit_packets := pf_unicast_xmit_packets p; pf_unicast_rcv_packets := pf_unicast_rcv_packets p;
  pf_multicast_xmit_packets := pf_multicast_xmit_packets p; pf_multicast_rcv_packets := pf_multicast_rcv_packets p |}.
Definition perf_zero : pib_port_perf := {|
  pf_OpCode := 0; pf_tag := 0; pf_counter_select := replicate 16 0; pf_counter := replicate 16 0;
  pf_symbol_error_counter := 0; pf_link_error_recovery_counter := 0; pf_link_downed_counter := 0;
  pf_rcv_errors := 0; pf_rcv_remphys_errors := 0; pf_rcv_switch_relay_errors := 0; pf_xmit_discards := 0;
  pf_xmit_constraint_errors := 0; pf_rcv_constraint_errors := 0; pf_local_link_integrity_errors := 0;
  pf_excessive_buffer_overrun_errors := 0; pf_vl15_dropped := 0;
  pf_xmit_data := 0; pf_rcv_data := 0; pf_xmit_packets := 0; pf_rcv_packets := 0; pf_xmit_wait := 0;
  pf_unicast_xmit_packets := 0; pf_unicast_rcv_packets := 0; pf_multicast_xmit_packets := 0;
  pf_multicast_rcv_packets := 0 |}.

(** struct ib_port_attr: the members the code changes or reports in PortInfo; the
    others are constants set at creation. *)
Record ib_port_attr := {
  pa_state : Z; pa_active_mtu : Z; pa_port_cap_flags : Z; pa_lid : Z; pa_sm_lid : Z; pa_lmc : Z;
  pa_active_width : Z; pa_active_speed : Z; pa_phys_state : Z }.
#[export] Instance eta_ib_port_attr : Eta ib_port_attr := fun a => {|
  pa_state := pa_state a; pa_active_mtu := pa_active_mtu a; pa_port_cap_flags := pa_port_cap_flags a;
  pa_lid := pa_lid a; pa_sm_lid := pa_sm_lid a; pa_lmc := pa_lmc a; pa_active_width := pa_active_width a;
  pa_active_speed := pa_active_speed a; pa_phys_state := pa_phys_state a |}.

(** The management view of struct pib_port; GIDs are kept as big-endian values. *)
Record pib_port := {
  po_port_num : Z; po_attr : ib_port_attr;
  po_mkey : Z; po_mkeyprot : Z; po_mkey_lease_period : Z; po_link_down_default_state : Z;
  po_link_width_enabled : Z; po_link_speed_enabled : Z; po_master_smsl : Z; po_client_reregister : Z;
  po_subnet_timeout : Z; po_local_phy_errors : Z; po_overrun_errors : Z;
  po_perf : pib_port_perf; po_subnet_prefix : Z; po_interface_id : Z; po_pkey_table : list Z }.
#[export] Instance eta_pib_port : Eta pib_port := fun p => {|
  po_port_num := po_port_num p; po_attr := po_attr p; po_mkey := po_mkey p; po_mkeyprot := po_mkeyprot p;
  po_mkey_lease_period := po_mkey_lease_period p; po_link_down_default_state := po_link_down_default_state p;
  po_link_width_enabled := po_link_width_enabled p; po_link_speed_enabled := po_link_speed_enabled p;
  po_master_smsl := po_master_smsl p; po_client_reregister := po_client_reregister p;
  po_subnet_timeout := po_subnet_timeout p; po_local_phy_errors := po_local_phy_errors p;
  po_overrun_errors := po_overrun_errors p; po_perf := po_perf p; po_subnet_prefix := po_subnet_prefix p;
  po_interface_id := po_interface_id p; po_pkey_table := po_pkey_table p |}.

Inductive pib_port_type := PIB_PORT_CA | PIB_PORT_SW_EXT | PIB_PORT_BASE_SP0 | PIB_PORT_ENH_SP0.
#[export] Instance pib_port_type_eq_dec : EqDecision pib_port_type.
Proof. solve_decision. Defined.

Definition not_sw_ext (type : pib_port_type) : bool := match type with PIB_PORT_SW_EXT => false | _ => true end.
Definition not_sp0 (type : pib_port_type) : bool := match type with PIB_PORT_BASE_SP0 => false | _ => true end.

(** [if (c) x = f(x)] *)
Definition opt {A} (c : bool) (f : A -> A) (x : A) : A := if c then f x else x.

Definition upd_attr (f : ib_port_attr -> ib_port_attr) (p : pib_port) : pib_port := p <| po_attr ::= f |>.

(** A port as the three nodes create it. *)
Definition port_init (num cap_flags state phys_state interface_id pkey : Z) : pib_port := {|
  po_port_num := num;
  po_attr := {| pa_state := state; pa_active_mtu := IB_MTU_256; pa_port_cap_flags := cap_flags; pa_lid := 0;
                pa_sm_lid := 0; pa_lmc := 0; pa_active_width := IB_WIDTH_12X; pa_active_speed := IB_SPEED_QDR;
                pa_phys_state := phys_state |};
  po_mkey := 0; po_mkeyprot := 0; po_mkey_lease_period := 0; po_link_down_default_state := 0;
  po_link_width_enabled := PIB_LINK_WIDTH_SUPPORTED; po_link_speed_enabled := PIB_LINK_SPEED_SUPPORTED;
  po_master_smsl := 0; po_client_reregister := 0; po_subnet_timeout := 0; po_local_phy_errors := 0;
  po_overrun_errors := 0; po_perf := perf_zero; po_subnet_prefix := 0xFE80000000000000;
  po_interface_id := interface_id; po_pkey_table := replicate 32 pkey |}.

(** ** The layout of a subnet management packet *)

Definition MAD_SIZE : nat := 256.
Definition SMP_base_version := Fld 0 1.
Definition SMP_mgmt_class := Fld 1 1.
Definition SMP_class_version := Fld 2 1.
Definition SMP_method := Fld 3 1.
Definition SMP_status := Fld 4 2.
Definition SMP_hop_ptr := Fld 6 1.
Definition SMP_hop_cnt := Fld 7 1.
Definition SMP_tid := Fld 8 8.
Definition SMP_attr_id := Fld 16 2.
Definition SMP_attr_mod := Fld 20 4.
Definition SMP_dr_slid := Fld 32 2.
Definition SMP_dr_dlid := Fld 34 2.
Definition SMP_data : nat := 64.
Definition SMP_DATA_SIZE : nat := 64.
Definition SMP_initial_path : nat := 128.
Definition SMP_return_path : nat := 192.
Definition SMP_MAX_PATH_HOPS : Z := 64.

Definition smp_or_status (v : Z) (smp : list Z) : list Z := be_set SMP_status (Z.lor (be_get SMP_status smp) v) smp.
Definition smp_clear_data (smp : list Z) : list Z := put_bytes SMP_data (replicate SMP_DATA_SIZE 0) smp.

(** The fields of the attribute in the data of a subnet management packet. *)
Definition PI_mkey := Fld 64 8.
Definition PI_gid_prefix := Fld 72 8.
Definition PI_lid := Fld 80 2.
Definition PI_sm_lid := Fld 82 2.
Definition PI_cap_mask := Fld 84 4.
Definition PI_mkey_lease_period := Fld 90 2.
Definition PI_local_port_num := Fld 92 1.
Definition PI_link_width_enabled := Fld 93 1.
Definition PI_link_width_supported := Fld 94 1.
Definition PI_link_width_active := Fld 95 1.
Definition PI_linkspeed_portstate := Fld 96 1.
Definition PI_portphysstate_linkdown := Fld 97 1.
Definition PI_mkeyprot_resv_lmc := Fld 98 1.
Definition PI_linkspeedactive_enabled := Fld 99 1.
Definition PI_neighbormtu_mastersmsl := Fld 100 1.
Definition PI_vlcap_inittype := Fld 101 1.
Definition PI_inittypereply_mtucap := Fld 105 1.
Definition PI_clientrereg_resv_subnetto := Fld 115 1.
Definition PI_localphyerrors_overrunerrors := Fld 117 1.

(** ** Replies *)

Definition smp_reply_with (result : Z) (smp : list Z) : Z * list Z :=
  let smp := be_set SMP_method IB_MGMT_METHOD_GET_RESP smp in
  let smp := if be_get SMP_mgmt_class smp =? IB_MGMT_CLASS_SUBN_DIRECTED_ROUTE
             then smp_or_status IB_SMP_DIRECTION smp else smp in
  (result, smp).
Definition reply : list Z -> Z * list Z := smp_reply_with (Z.lor IB_MAD_RESULT_SUCCESS IB_MAD_RESULT_REPLY).
Definition reply_failure : list Z -> Z * list Z := smp_reply_with (Z.lor IB_MAD_RESULT_FAILURE IB_MAD_RESULT_REPLY).

(** ** PortInfo *)

(** The members the three branches of the source write, in its order. *)
Definition get_portinfo_not_sw_ext_1 (port : pib_port) (smp : list Z) : list Z :=
  let smp := le_set PI_mkey (po_mkey port) smp in
  let smp := be_set PI_lid (pa_lid (po_attr port)) smp in
  let smp := be_set PI_sm_lid (pa_sm_lid (po_attr port)) smp in
  let smp := be_set PI_gid_prefix (po_subnet_prefix port) smp in
  let smp := be_set PI_cap_mask (pa_port_cap_flags (po_attr port)) smp in
  be_set PI_mkey_lease_period (po_mkey_lease_period port) smp.

Definition get_portinfo_not_sp0_1 (port : pib_port) (smp : list Z) : list Z :=
  let a := po_attr port in
  let smp := be_set PI_link_width_enabled (po_link_width_enabled port) smp in
  let smp := be_set PI_link_width_supported PIB_LINK_WIDTH_SUPPORTED smp in
  let smp := be_set PI_link_width_active (pa_active_width a) smp in
  let smp := be_set PI_linkspeed_portstate (Z.lor (Z.shiftl PIB_LINK_SPEED_SUPPORTED 4) (pa_state a)) smp in
  be_set PI_portphysstate_linkdown (Z.lor (Z.shiftl (pa_phys_state a) 4) (po_link_down_default_state port)) smp.

Definition or_field (f : fld) (v : Z) (smp : list Z) : list Z := be_set f (Z.lor (be_get f smp) v) smp.

Definition get_portinfo_not_sp0_2 (port : pib_port) (smp : list Z) : list Z :=
  let a := po_attr port in
  let smp := be_set PI_linkspeedactive_enabled (Z.lor (Z.shiftl (pa_active_speed a) 4) (po_link_speed_enabled port)) smp in
  or_field PI_neighbormtu_mastersmsl (Z.shiftl (pa_active_mtu a) 4) smp.

Definition pib_subn_get_portinfo (type : pib_port_type) (port : pib_port) (smp : list Z) : list Z :=
  let smp := smp_clear_data smp in
  let smp := opt (not_sw_ext type) (get_portinfo_not_sw_ext_1 port) smp in
  let smp := opt (not_sp0 type) (get_portinfo_not_sp0_1 port) smp in
  let smp := opt (not_sw_ext type)
    (be_set PI_mkeyprot_resv_lmc (Z.lor (Z.shiftl (po_mkeyprot port) 6) (pa_lmc (po_attr port)))) smp in
  let smp := opt (not_sp0 type) (get_portinfo_not_sp0_2 port) smp in
  let smp := opt (not_sw_ext type) (or_field PI_neighbormtu_mastersmsl (po_master_smsl port)) smp in
  let smp := opt (not_sp0 type) (or_field PI_vlcap_inittype (Z.shiftl 0x5 4)) smp in
  let smp := opt (not_sw_ext type) (or_field PI_vlcap_inittype 0x0) smp in
  let smp := opt (not_sw_ext type) (or_field PI_inittypereply_mtucap (Z.shiftl 0 4)) smp in
  let smp := opt (not_sp0 type) (or_field PI_inittypereply_mtucap IB_MTU_4096) smp in
  let smp := opt (not_sw_ext type)
    (be_set PI_clientrereg_resv_subnetto (Z.lor (Z.shiftl (po_client_reregister port) 7) (po_subnet_timeout port))) smp in
  opt (not_sp0 type)
    (be_set PI_localphyerrors_overrunerrors (Z.lor (Z.shiftl (po_local_phy_errors port) 4) (po_overrun_errors port))) smp.

Definition set_portinfo_not_sw_ext_1 (smp : list Z) (port : pib_port) : pib_port :=
  port <| po_mkey := u8 (le_get PI_mkey smp) |>
       <| po_attr ::= fun a => a <| pa_lid := be_get PI_lid smp |> <| pa_sm_lid := be_get PI_sm_lid smp |> |>
       <| po_subnet_prefix := be_get PI_gid_prefix smp |>
       <| po_mkey_lease_period := be_get PI_mkey_lease_period smp |>.

(** [0]: no change; [all]: every supported value. *)
Definition enabled_value (v all supported old : Z) : Z := if v =? 0 then old else if v =? all then supported else v.
Definition change_nonzero (v old : Z) : Z := if v =? 0 then old else v.

Definition set_portinfo_not_sp0_1 (smp : list Z) (port : pib_port) : pib_port :=
  let ps := be_get PI_linkspeed_portstate smp in
  let pp := be_get PI_portphysstate_linkdown smp in
  port <| po_link_width_enabled ::= enabled_value (be_get PI_link_width_enabled smp) 255 PIB_LINK_WIDTH_SUPPORTED |>
       <| po_attr ::= fun a => a <| pa_state ::= change_nonzero (Z.land ps 0xF) |>
                                 <| pa_phys_state ::= change_nonzero (Z.shiftr pp 4) |> |>
       <| po_link_down_default_state ::= change_nonzero (Z.land pp 0xF) |>.

Definition set_portinfo_not_sp0_2 (smp : list Z) (port : pib_port) : pib_port :=
  port <| po_link_speed_enabled ::=
            enabled_value (Z.land (be_get PI_linkspeedactive_enabled smp) 0xF) 15 PIB_LINK_SPEED_SUPPORTED |>
       <| po_attr ::= fun a => a <| pa_active_mtu := Z.shiftr (be_get PI_neighbormtu_mastersmsl smp) 4 |> |>.

Definition active_width_of (enabled old : Z) : Z :=
  if (enabled =? 0) || (15 <? enabled) then old
  else if enabled =? 1 then IB_WIDTH_1X
  else if enabled <=? 3 then IB_WIDTH_4X
  else if enabled <=? 7 then IB_WIDTH_8X
  else IB_WIDTH_12X.
Definition active_speed_of (enabled old : Z) : Z :=
  if enabled =? 1 then IB_SPEED_SDR
  else if enabled =? 3 then IB_SPEED_DDR
  else if (enabled =? 5) || (enabled =? 7) then IB_SPEED_QDR
  else old.

Definition pib_subn_set_portinfo (type : pib_port_type) (smp : list Z) (port : pib_port) : pib_port :=
  let port := opt (not_sw_ext type) (set_portinfo_not_sw_ext_1 smp) port in
  let port := opt (not_sp0 type) (set_portinfo_not_sp0_1 smp) port in
  let port := opt (not_sw_ext type) (fun port =>
    let v := be_get PI_mkeyprot_resv_lmc smp in
    port <| po_mkeyprot := Z.land (Z.shiftr v 6) 0x3 |> <| po_attr ::= fun a => a <| pa_lmc := Z.land v 0x7 |> |>) port in
  let port := opt (not_sp0 type) (set_portinfo_not_sp0_2 smp) port in
  let port := opt (not_sw_ext type) (fun port =>
    port <| po_master_smsl := Z.land (be_get PI_neighbormtu_mastersmsl smp) 0xF |>) port in
  let port := opt (not_sw_ext type) (fun port =>
    let v := be_get PI_clientrereg_resv_subnetto smp in
    port <| po_client_reregister := Z.land (Z.shiftr v 7) 0x1 |> <| po_subnet_timeout := Z.land v 0x1F |>) port in
  let port := opt (not_sp0 type) (fun port =>
    let v := be_get PI_localphyerrors_overrunerrors smp in
    port <| po_local_phy_errors := Z.land (Z.shiftr v 4) 0xF |> <| po_overrun_errors := Z.land v 0xF |>) port in
  upd_attr (fun a => a <| pa_active_width ::= active_width_of (po_link_width_enabled port) |>
                       <| pa_active_speed ::= active_speed_of (po_link_speed_enabled port) |>) port.

(** ** Lemmas *)

(** A property of a byte, by trying all of them. *)
Lemma byte_cases (P : Z -> bool) : forallb P (seqZ 0 256) = true -> forall v, 0 <= v < 256 -> P v = true.
Proof. intros H v Hv. apply (proj1 (forallb_forall _ _) H). apply list_elem_of_In, elem_of_seqZ. lia. Qed.
Lemma nibble_cases (P : Z -> Z -> bool) : forallb (fun a => forallb (P a) (seqZ 0 16)) (seqZ 0 256) = true ->
  forall a b, 0 <= a < 256 -> 0 <= b < 16 -> P a b = true.
Proof.
  intros H a b Ha Hb. pose proof (byte_cases _ H a Ha) as H1. apply (proj1 (forallb_forall _ _) H1).
  apply list_elem_of_In, elem_of_seqZ. lia.
Qed.

Definition smp_ok (smp : list Z) : Prop := length smp = MAD_SIZE /\ Forall byte_ok smp.

Lemma smp_set_ok f v smp : smp_ok smp -> fits f MAD_SIZE -> smp_ok (be_set f v smp).
Proof. intros [H1 H2] Hf. split; [by rewrite length_be_set; rewrite ?H1|by apply be_set_bytes]. Qed.
Lemma smp_le_set_ok f v smp : smp_ok smp -> fits f MAD_SIZE -> smp_ok (le_set f v smp).
Proof. intros [H1 H2] Hf. split; [by rewrite length_le_set; rewrite ?H1|by apply le_set_bytes]. Qed.
Lemma smp_put_ok off bs smp : smp_ok smp -> (off + length bs <= MAD_SIZE)%nat -> Forall byte_ok bs ->
  smp_ok (put_bytes off bs smp).
Proof. intros [H1 H2] Hf Hb. split; [by rewrite length_put_bytes; rewrite ?H1|by apply put_bytes_Forall]. Qed.
Lemma smp_array_ok base w vs smp : smp_ok smp -> (base + w * length vs <= MAD_SIZE)%nat ->
  smp_ok (be_set_array base w vs smp).
Proof. intros [H1 H2] Hf. split; [by rewrite length_be_set_array; rewrite ?H1|by apply be_set_array_bytes]. Qed.

Lemma smp_ok_zero : smp_ok (replicate MAD_SIZE 0).
Proof. split; [reflexivity|]. apply Forall_replicate. unfold byte_ok. lia. Qed.

Ltac fits_dec := unfold fits, MAD_SIZE, SMP_data, SMP_DATA_SIZE; simpl; lia.
Ltac smp_ok_step :=
  match goal with
  | H : smp_ok ?s |- smp_ok ?s => exact H
  | |- smp_ok (replicate MAD_SIZE 0) => exact smp_ok_zero
  | |- smp_ok (be_set _ _ _) => apply smp_set_ok; [|fits_dec]
  | |- smp_ok (le_set _ _ _) => apply smp_le_set_ok; [|fits_dec]
  | |- smp_ok (smp_clear_data _) => apply smp_put_ok; [|rewrite ?length_replicate; fits_dec|apply Forall_replicate; unfold byte_ok; lia]
  | |- smp_ok (smp_or_status _ _) => apply smp_set_ok; [|fits_dec]
  | |- smp_ok (or_field _ _ _) => apply smp_set_ok; [|fits_dec]
  | |- smp_ok (if ?b then _ else _) => destruct b
  | |- smp_ok (let x := _ in _) => cbv zeta
  end.
Ltac smp_oks := repeat smp_ok_step.

Lemma smp_ok_get f smp : smp_ok smp -> 0 <= be_get f smp < 2 ^ (8 * Z.of_nat (f_len f)).
Proof. intros [_ H]. by apply be_get_range. Qed.

Lemma smp_reply_ok r smp : smp_ok smp -> smp_ok (smp_reply_with r smp).2.
Proof. intros H. unfold smp_reply_with. simpl. smp_oks. Qed.

Lemma clear_data_get f smp : smp_ok smp -> fdisj f (Fld SMP_data SMP_DATA_SIZE) = true ->
  be_get f (smp_clear_data smp) = be_get f smp.
Proof.
  intros [Hl _] H. unfold be_get, be_at, smp_clear_data. f_equal. destruct f as [p l].
  unfold fdisj in H. cbn [f_off f_len] in *.
  apply bytes_at_put_ne; rewrite length_replicate; [rewrite Hl; fits_dec|].
  apply orb_true_iff in H as [H|H]; apply Nat.leb_le in H; [left|right]; exact H.
Qed.

Lemma be_combine_zeros n : be_combine (replicate n 0) = 0.
Proof.
  unfold be_combine. 
  assert (forall l, Forall (fun x => x = 0) l -> le_combine l = 0) as H.
  { induction 1 as [|x l -> _ IH]; simpl; [done|]. lia. }
  apply H, Forall_rev, Forall_replicate. done.
Qed.

Lemma clear_data_zero f smp : smp_ok smp -> (SMP_data <= f_off f)%nat ->
  (f_off f + f_len f <= SMP_data + SMP_DATA_SIZE)%nat -> be_get f (smp_clear_data smp) = 0.
Proof.
  intros [Hl _] H1 H2. unfold be_get, be_at. etransitivity; [|apply (be_combine_zeros (f_len f))]. f_equal.
  unfold SMP_data, SMP_DATA_SIZE, MAD_SIZE in *. apply list_eq. intros i. rewrite lookup_bytes_at.
  destruct (decide (i < f_len f)%nat) as [Hi|Hi].
  - unfold smp_clear_data, SMP_data, SMP_DATA_SIZE. rewrite lookup_put_bytes by (rewrite length_replicate; lia).
    rewrite length_replicate, decide_True by lia. rewrite !lookup_replicate_2; [done|lia|lia].
  - symmetry. apply lookup_ge_None_2. rewrite length_replicate. lia.
Qed.

(** [flds] evaluates the field on the left of an equation through the chain of
    assignments it is read from. *)
Section Chain.
Context (f : fld) (b : list Z) (Hb : smp_ok b) (Hf : fits f MAD_SIZE).
Lemma chain_eq v : be_get f (be_set f v b) = v mod 2 ^ (8 * Z.of_nat (f_len f)).
Proof. apply be_get_set. by rewrite (proj1 Hb). Qed.
Lemma chain_ne g v : fdisj g f = true -> be_get g (be_set f v b) = be_get g b.
Proof. apply be_get_be_set_ne. by rewrite (proj1 Hb). Qed.
Lemma chain_or_eq v : be_get f (or_field f v b) = Z.lor (be_get f b) v mod 2 ^ (8 * Z.of_nat (f_len f)).
Proof. apply chain_eq. Qed.
Lemma chain_or_ne g v : fdisj g f = true -> be_get g (or_field f v b) = be_get g b.
Proof. apply chain_ne. Qed.
Lemma chain_le_or_ne g v : fdisj g f = true -> le_get g (or_field f v b) = le_get g b.
Proof. apply le_get_be_set_ne. by rewrite (proj1 Hb). Qed.
Lemma chain_le_ne g v : fdisj g f = true -> be_get g (le_set f v b) = be_get g b.
Proof. apply be_get_le_set_ne. by rewrite (proj1 Hb). Qed.
Lemma chain_le_eq v : le_get f (le_set f v b) = v mod 2 ^ (8 * Z.of_nat (f_len f)).
Proof. apply le_get_set. by rewrite (proj1 Hb). Qed.
Lemma chain_be_ne g v : fdisj g f = true -> le_get g (be_set f v b) = le_get g b.
Proof. apply le_get_be_set_ne. by rewrite (proj1 Hb). Qed.
End Chain.

Ltac fld_side :=
  lazymatch goal with
  | |- smp_ok _ => smp_oks
  | |- fits _ _ => fits_dec
  | |- (_ <= _)%nat => fits_dec
  | |- _ = true => first [reflexivity | assumption]
  end.
Ltac fld_step :=
  lazymatch goal with
  | |- be_get ?g (be_set ?f ?v ?b) = _ =>
      first [etransitivity; [apply (chain_ne f b); fld_side|] | etransitivity; [apply (chain_eq f b); fld_side|]]
  | |- be_get ?g (le_set ?f ?v ?b) = _ => etransitivity; [apply (chain_le_ne f b); fld_side|]
  | |- le_get ?g (be_set ?f ?v ?b) = _ => etransitivity; [apply (chain_be_ne f b); fld_side|]
  | |- le_get ?f (le_set ?f ?v ?b) = _ => etransitivity; [apply (chain_le_eq f b); fld_side|]
  | |- be_get ?g (or_field ?f ?v ?b) = _ =>
      first [etransitivity; [apply (chain_or_ne f b); fld_side|] | etransitivity; [apply (chain_or_eq f b); fld_side|]]
  | |- le_get ?g (or_field ?f ?v ?b) = _ => etransitivity; [apply (chain_le_or_ne f b); fld_side|]
  | |- be_get ?g (smp_or_status ?v ?b) = _ => etransitivity; [apply (chain_or_ne SMP_status b g v); fld_side|]
  | |- be_get ?f (smp_clear_data ?b) = _ =>
      first [etransitivity; [apply (clear_data_zero f b); fld_side|]
            | etransitivity; [apply (clear_data_get f b); fld_side|]]
  end.
Ltac flds := repeat fld_step.

(** The values a port holds fit the fields they are reported in. *)
Definition port_ok (p : pib_port) : Prop :=
  let a := po_attr p in
  0 <= pa_lid a < 2 ^ 16 /\ 0 <= pa_sm_lid a < 2 ^ 16 /\ 0 <= pa_lmc a < 8 /\ 0 <= pa_state a < 16
  /\ 0 <= pa_phys_state a < 16 /\ 0 <= pa_active_mtu a < 16 /\ 0 <= pa_active_width a < 16 /\ 0 <= pa_active_speed a < 16
  /\ 0 <= po_mkey p < 256 /\ 0 <= po_mkeyprot p < 4 /\ 0 <= po_mkey_lease_period p < 2 ^ 16
  /\ 0 <= po_link_down_default_state p < 16 /\ 0 <= po_link_width_enabled p < 256 /\ 0 <= po_link_speed_enabled p < 16
  /\ 0 <= po_master_smsl p < 16 /\ 0 <= po_client_reregister p < 2 /\ 0 <= po_subnet_timeout p < 32
  /\ 0 <= po_local_phy_errors p < 16 /\ 0 <= po_overrun_errors p < 16 /\ 0 <= po_subnet_prefix p < 2 ^ 64.

(** ** What Get(PortInfo) reports *)

Ltac portinfo_unfold :=
  cbv beta iota zeta delta [pib_subn_get_portinfo get_portinfo_not_sw_ext_1 get_portinfo_not_sp0_1 get_portinfo_not_sp0_2
                            opt not_sw_ext not_sp0].

Lemma reported_not_sw_ext type port smp : smp_ok smp -> type <> PIB_PORT_SW_EXT ->
  let r := pib_subn_get_portinfo type port smp in
  be_get PI_lid r = pa_lid (po_attr port) mod 2 ^ 16 /\ be_get PI_sm_lid r = pa_sm_lid (po_attr port) mod 2 ^ 16
  /\ be_get PI_gid_prefix r = po_subnet_prefix port mod 2 ^ 64
  /\ be_get PI_mkey_lease_period r = po_mkey_lease_period port mod 2 ^ 16
  /\ le_get PI_mkey r = po_mkey port mod 2 ^ 64
  /\ be_get PI_mkeyprot_resv_lmc r = Z.lor (Z.shiftl (po_mkeyprot port) 6) (pa_lmc (po_attr port)) mod 2 ^ 8
  /\ be_get PI_clientrereg_resv_subnetto r
     = Z.lor (Z.shiftl (po_client_reregister port) 7) (po_subnet_timeout port) mod 2 ^ 8.
Proof.
  intros Hs Ht r. unfold r. clear r. destruct type; [|by destruct Ht|..]; clear Ht; portinfo_unfold; split_and!;
    (flds; reflexivity).
Qed.

Lemma reported_not_sp0 type port smp : smp_ok smp -> type <> PIB_PORT_BASE_SP0 ->
  let r := pib_subn_get_portinfo type port smp in
  let a := po_attr port in
  be_get PI_link_width_enabled r = po_link_width_enabled port mod 2 ^ 8
  /\ be_get PI_link_width_active r = pa_active_width a mod 2 ^ 8
  /\ be_get PI_linkspeed_portstate r = Z.lor (Z.shiftl PIB_LINK_SPEED_SUPPORTED 4) (pa_state a) mod 2 ^ 8
  /\ be_get PI_portphysstate_linkdown r = Z.lor (Z.shiftl (pa_phys_state a) 4) (po_link_down_default_state port) mod 2 ^ 8
  /\ be_get PI_linkspeedactive_enabled r = Z.lor (Z.shiftl (pa_active_speed a) 4) (po_link_speed_enabled port) mod 2 ^ 8
  /\ be_get PI_localphyerrors_overrunerrors r
     = Z.lor (Z.shiftl (po_local_phy_errors port) 4) (po_overrun_errors port) mod 2 ^ 8.
Proof.
  intros Hs Ht r a. unfold r, a. clear r a. destruct type; [..|by destruct Ht|]; clear Ht; portinfo_unfold; split_and!;
    (flds; reflexivity).
Qed.

(** The neighbour MTU and the master SL share a member written by two branches. *)
Lemma reported_neighbormtu type port smp : smp_ok smp ->
  be_get PI_neighbormtu_mastersmsl (pib_subn_get_portinfo type port smp)
  = (let hi := Z.lor 0 (Z.shiftl (pa_active_mtu (po_attr port)) 4) mod 2 ^ 8 in
     match type with
     | PIB_PORT_SW_EXT => hi
     | PIB_PORT_BASE_SP0 => Z.lor 0 (po_master_smsl port) mod 2 ^ 8
     | _ => Z.lor hi (po_master_smsl port) mod 2 ^ 8
     end).
Proof.
  intros Hs. destruct type; portinfo_unfold; flds.
  - f_equal. f_equal. flds. f_equal. f_equal. by flds.
  - f_equal. f_equal. by flds.
  - f_equal. f_equal. by flds.
  - f_equal. f_equal. flds. f_equal. f_equal. by flds.
Qed.

(** ** Theorems *)

Lemma land_mask_range v w : 0 <= w -> 0 <= Z.land v (Z.ones w) < 2 ^ w.
Proof. intros. rewrite Z.land_ones by lia. apply Z.mod_pos_bound. by apply pow2_pos. Qed.
Lemma land_15_range v : 0 <= Z.land v 0xF < 16.
Proof. apply (land_mask_range v 4). lia. Qed.
Lemma shiftr_4_range v : 0 <= v < 2 ^ 8 -> 0 <= Z.shiftr v 4 < 16.
Proof. intros. rewrite Z.shiftr_div_pow2 by lia. change (2 ^ 4) with 16. change (2 ^ 8) with 256 in *. split; [apply Z.div_pos; lia|apply Z.div_lt_upper_bound; lia]. Qed.
Lemma enabled_value_range v all sup old n : 0 <= v < n -> 0 <= sup < n -> 0 <= old < n -> 0 <= enabled_value v all sup old < n.
Proof. intros. unfold enabled_value. destruct (v =? 0), (v =? all); done. Qed.
Lemma change_nonzero_range v old n : 0 <= v < n -> 0 <= old < n -> 0 <= change_nonzero v old < n.
Proof. intros. unfold change_nonzero. by destruct (v =? 0). Qed.
Lemma active_width_range e old : 0 <= old < 16 -> 0 <= active_width_of e old < 16.
Proof. intros. unfold active_width_of, IB_WIDTH_1X, IB_WIDTH_4X, IB_WIDTH_8X, IB_WIDTH_12X. repeat case_match; lia. Qed.
Lemma active_speed_range e old : 0 <= old < 16 -> 0 <= active_speed_of e old < 16.
Proof. intros. unfold active_speed_of, IB_SPEED_SDR, IB_SPEED_DDR, IB_SPEED_QDR. repeat case_match; lia. Qed.

Lemma port_ok_set (type : pib_port_type) (smp : list Z) (port : pib_port)
    : smp_ok smp -> port_ok port -> port_ok (pib_subn_set_portinfo type smp port).
Proof.
  intros Hs Hp. destruct Hp as (P1 & P2 & P3 & P4 & P5 & P6 & P7 & P8 & P9 & P10 & P11 & P12 & P13 & P14 & P15 & P16 & P17 & P18 & P19 & P20).
  pose proof (fun f => smp_ok_get f smp Hs) as G.
  assert (0 <= u8 (le_get PI_mkey smp) < 256) by (apply (wrap_range 8); lia).
  destruct type; cbv beta iota zeta delta [pib_subn_set_portinfo set_portinfo_not_sw_ext_1 set_portinfo_not_sp0_1
    set_portinfo_not_sp0_2 opt not_sw_ext not_sp0 upd_attr];
  unfold port_ok; cbn; repeat match goal with |- (_ <= _ < _) /\ _ => split end;
    first [assumption | apply G | apply land_15_range
          | apply (land_mask_range _ 1); lia | apply (land_mask_range _ 2); lia | apply (land_mask_range _ 3); lia
          | apply (land_mask_range _ 5); lia
          | apply active_width_range; assumption | apply active_speed_range; assumption
          | apply shiftr_4_range, (G PI_neighbormtu_mastersmsl)
          | apply change_nonzero_range; [first [apply land_15_range | apply shiftr_4_range, (G PI_portphysstate_linkdown)]|assumption]
          | apply enabled_value_range; [first [apply land_15_range | apply (G PI_link_width_enabled)]
                                       |unfold PIB_LINK_SPEED_SUPPORTED, PIB_LINK_WIDTH_SUPPORTED; lia|assumption] ].
Qed.

(** C33. Set(PortInfo) keeps every value of the port within its width, for every packet
    and every kind of port: the members extracted from the packet are masked and
    the values derived from them (active width and speed) are in range. *)
Theorem set_portinfo_type (type : pib_port_type) (smp : list Z) (port : pib_port)
    (Hs : smp_ok smp) (Hp : port_ok port) : port_ok (pib_subn_set_portinfo type smp port).
Proof. by apply port_ok_set. Qed.

(** Two four-bit values in a byte. *)
Lemma nibbles a b : 0 <= a < 16 -> 0 <= b < 16 ->
  Z.shiftr (Z.lor (Z.shiftl a 4) b mod 2 ^ 8) 4 = a /\ Z.land (Z.lor (Z.shiftl a 4) b mod 2 ^ 8) 0xF = b.
Proof.
  intros Ha Hb. pose proof (nibble_cases (fun a b => implb (a <? 16)
    ((Z.shiftr (Z.lor (Z.shiftl a 4) b mod 2 ^ 8) 4 =? a) && (Z.land (Z.lor (Z.shiftl a 4) b mod 2 ^ 8) 0xF =? b)))
    ltac:(vm_compute; reflexivity) a b ltac:(lia) Hb) as H.
  cbv beta in H. rewrite (proj2 (Z.ltb_lt a 16)) in H by lia. simpl implb in H. bools. done.
Qed.

Lemma repack_mkeyprot v : 0 <= v < 256 ->
  Z.lor (Z.shiftl (Z.land (Z.shiftr v 6) 0x3) 6) (Z.land v 0x7) mod 2 ^ 8 = Z.land v 0xC7.
Proof. intros H. apply Z.eqb_eq. revert v H. apply byte_cases. vm_compute. reflexivity. Qed.
Lemma repack_clientrereg v : 0 <= v < 256 ->
  Z.lor (Z.shiftl (Z.land (Z.shiftr v 7) 0x1) 7) (Z.land v 0x1F) mod 2 ^ 8 = Z.land v 0x9F.
Proof. intros H. apply Z.eqb_eq. revert v H. apply byte_cases. vm_compute. reflexivity. Qed.
Lemma repack_nibbles v : 0 <= v < 256 ->
  Z.lor (Z.shiftl (Z.land (Z.shiftr v 4) 0xF) 4) (Z.land v 0xF) mod 2 ^ 8 = v.
Proof. intros H. apply Z.eqb_eq. revert v H. apply byte_cases. vm_compute. reflexivity. Qed.
Lemma repack_neighbormtu v : 0 <= v < 256 ->
  let hi := Z.lor 0 (Z.shiftl (Z.shiftr v 4) 4) mod 2 ^ 8 in
  let lo := Z.lor 0 (Z.land v 0xF) mod 2 ^ 8 in
  let both := Z.lor hi (Z.land v 0xF) mod 2 ^ 8 in
  Z.shiftr hi 4 = Z.shiftr v 4 /\ Z.land lo 0xF = Z.land v 0xF /\ Z.shiftr both 4 = Z.shiftr v 4
  /\ Z.land both 0xF = Z.land v 0xF.
Proof.
  intros H. cbv zeta. rewrite <- !Z.eqb_eq, <- !andb_true_iff. revert v H. apply byte_cases. vm_compute. reflexivity.
Qed.

(** What Set(PortInfo) leaves in the port, for the members it always stores. *)
Lemma stored_not_sw_ext type smp port : type <> PIB_PORT_SW_EXT ->
  let p := pib_subn_set_portinfo type smp port in
  pa_lid (po_attr p) = be_get PI_lid smp /\ pa_sm_lid (po_attr p) = be_get PI_sm_lid smp
  /\ po_subnet_prefix p = be_get PI_gid_prefix smp /\ po_mkey_lease_period p = be_get PI_mkey_lease_period smp
  /\ po_mkey p = u8 (le_get PI_mkey smp)
  /\ po_mkeyprot p = Z.land (Z.shiftr (be_get PI_mkeyprot_resv_lmc smp) 6) 0x3
  /\ pa_lmc (po_attr p) = Z.land (be_get PI_mkeyprot_resv_lmc smp) 0x7
  /\ po_client_reregister p = Z.land (Z.shiftr (be_get PI_clientrereg_resv_subnetto smp) 7) 0x1
  /\ po_subnet_timeout p = Z.land (be_get PI_clientrereg_resv_subnetto smp) 0x1F
  /\ po_master_smsl p = Z.land (be_get PI_neighbormtu_mastersmsl smp) 0xF.
Proof. destruct type; [|done|..]; intros _; split_and!; reflexivity. Qed.

Lemma stored_not_sp0 type smp port : type <> PIB_PORT_BASE_SP0 ->
  let p := pib_subn_set_portinfo type smp port in
  pa_state (po_attr p) = change_nonzero (Z.land (be_get PI_linkspeed_portstate smp) 0xF) (pa_state (po_attr port))
  /\ pa_phys_state (po_attr p)
     = change_nonzero (Z.shiftr (be_get PI_portphysstate_linkdown smp) 4) (pa_phys_state (po_attr port))
  /\ po_link_down_default_state p
     = change_nonzero (Z.land (be_get PI_portphysstate_linkdown smp) 0xF) (po_link_down_default_state port)
  /\ po_link_width_enabled p
     = enabled_value (be_get PI_link_width_enabled smp) 255 PIB_LINK_WIDTH_SUPPORTED (po_link_width_enabled port)
  /\ po_link_speed_enabled p
     = enabled_value (Z.land (be_get PI_linkspeedactive_enabled smp) 0xF) 15 PIB_LINK_SPEED_SUPPORTED
         (po_link_speed_enabled port)
  /\ pa_active_mtu (po_attr p) = Z.shiftr (be_get PI_neighbormtu_mastersmsl smp) 4
  /\ po_local_phy_errors p = Z.land (Z.shiftr (be_get PI_localphyerrors_overrunerrors smp) 4) 0xF
  /\ po_overrun_errors p = Z.land (be_get PI_localphyerrors_overrunerrors smp) 0xF.
Proof. destruct type; [..|done|]; intros _; split_and!; reflexivity. Qed.


(** ** Witnesses *)

Definition demo_smp : list Z :=
  be_set PI_lid 5 (be_set PI_linkspeed_portstate 0x02 (be_set PI_neighbormtu_mastersmsl 0x41
    (be_set SMP_attr_mod 1 (be_set SMP_method IB_MGMT_METHOD_SET (replicate MAD_SIZE 0))))).
Definition demo_port : pib_port := port_init 1 NETD_PORT_CAP_FLAGS IB_PORT_DOWN PIB_PHYS_PORT_POLLING 0x101 PIB_DEFAULT_PKEY_FULL.

Lemma demo_port_ok : port_ok demo_port.
Proof. unfold port_ok. repeat split; vm_compute; first [reflexivity | discriminate]. Qed.

Lemma set_portinfo_type_witness :
  smp_ok demo_smp /\ port_ok (pib_subn_set_portinfo PIB_PORT_CA demo_smp demo_port).
Proof.
  assert (smp_ok demo_smp) by (unfold demo_smp; smp_oks).
  split; [assumption|]. apply set_portinfo_type; [assumption|exact demo_port_ok].
Defined.

