(* ===== verification/Pma.v ===== *)
(** * The performance management agent (driver/pib_mad_pma.c, pibnetd/perf.c)

    The agent answers performance management datagrams about the counters of a
    port.  The driver's agent serves the ports of an HCA, numbered from 1, and of
    the internal switch, numbered from 0 (struct pib_node); the agent of pibnetd
    is the same code for a node whose ports start at 0, with another treatment
    of unsupported methods and attributes.

    [None] is an access outside the array of ports, or a call that does not
    return: the handler of Set(PortCounters) ends by calling itself, so it is a
    function of a fuel.  The status codes are stored without a byte swap. *)

From S2P Require Import Prelude Mr Packet Wire Port.

(** ** Constants and layout *)

Definition PIB_PMA_CLASS_VERSION : Z := 1.
Definition PIB_PMA_STATUS_BAD_VERSION : Z := Z.shiftl 0x1 2.
Definition PIB_PMA_STATUS_UNSUPPORTED_METHOD : Z := Z.shiftl 0x2 2.
Definition PIB_PMA_STATUS_UNSUPPORTED_METHOD_ATTRIB : Z := Z.shiftl 0x3 2.
Definition PIB_PMA_STATUS_INVALID_ATTRIB_VALUE : Z := Z.shiftl 0x7 2.
Definition PIB_PMA_CLASS_PORT_INFO : Z := 0x0001.
Definition PIB_PMA_PORT_SAMPLES_CONTROL : Z := 0x0010.
Definition PIB_PMA_PORT_SAMPLES_RESULT : Z := 0x0011.
Definition PIB_PMA_PORT_COUNTERS : Z := 0x0012.
Definition PIB_PMA_PORT_COUNTERS_EXT : Z := 0x001D.
Definition PIB_PMA_PORT_SAMPLES_RESULT_EXT : Z := 0x001E.
Definition PIB_PMA_CLASS_CAP_EXT_WIDTH : Z := Z.shiftl 1 9.

Definition PMA_data : nat := 64.
Definition CPI_base_version := Fld 64 1.
Definition CPI_class_version := Fld 65 1.
Definition CPI_capability_mask := Fld 66 2.
Definition CPI_resp_time_value := Fld 71 1.
(** port_select is at the same place in the three structures that have it. *)
Definition PM_port_select := Fld 65 1.
Definition PSC_opcode := Fld 64 1.
Definition PSC_tick := Fld 66 1.
Definition PSC_counter_width := Fld 67 1.
Definition PSC_counter_mask0_9 := Fld 68 4.
Definition PSC_counter_mask10_14 := Fld 72 2.
Definition PSC_sample_mechanisms := Fld 74 1.
Definition PSC_sample_status := Fld 75 1.
Definition PSC_sample_start := Fld 92 4.
Definition PSC_sample_interval := Fld 96 4.
Definition PSC_tag := Fld 100 2.
Definition PSC_counter_select : nat := 102.
Definition PSR_tag := Fld 64 2.
Definition PSR_sample_status := Fld 66 2.
Definition PSR_counter : nat := 68.
Definition PSRX_extended_width := Fld 68 4.
Definition PSRX_counter : nat := 72.
Definition PC_counter_select := Fld 66 2.
Definition PC_symbol_error_counter := Fld 68 2.
Definition PC_link_error_recovery_counter := Fld 70 1.
Definition PC_link_downed_counter := Fld 71 1.
Definition PC_rcv_errors := Fld 72 2.
Definition PC_rcv_remphys_errors := Fld 74 2.
Definition PC_rcv_switch_relay_errors := Fld 76 2.
Definition PC_xmit_discards := Fld 78 2.
Definition PC_xmit_constraint_errors := Fld 80 1.
Definition PC_rcv_constraint_errors := Fld 81 1.
Definition PC_link_overrun_errors := Fld 83 1.
Definition PC_vl15_dropped := Fld 86 2.
Definition PC_xmit_data := Fld 88 4.
Definition PC_rcv_data := Fld 92 4.
Definition PC_xmit_packets := Fld 96 4.
Definition PC_rcv_packets := Fld 100 4.
Definition PC_xmit_wait := Fld 104 4.
Definition PCX_xmit_data := Fld 72 8.
Definition PCX_rcv_data := Fld 80 8.
Definition PCX_xmit_packets := Fld 88 8.
Definition PCX_rcv_packets := Fld 96 8.
Definition PCX_unicast_xmit_packets := Fld 104 8.
Definition PCX_unicast_rcv_packets := Fld 112 8.
Definition PCX_multicast_xmit_packets := Fld 120 8.
Definition PCX_multicast_rcv_packets := Fld 128 8.

(** ** Saturation *)

Definition get_saturation4 (value : Z) : Z := if 0xF <? value then 0xF else Z.land value 0xF.
Definition get_saturation8 (value : Z) : Z := if 0xFF <? value then 0xFF else u8 value.
Definition get_saturation16 (value : Z) : Z := if 0xFFFF <? value then 0xFFFF else u16 value.
Definition get_saturation32 (value : Z) : Z := if negb (Z.shiftr value 32 =? 0) then 0xFFFFFFFF else u32 value.

(** ** State *)

Record pib_node := { nd_port_count : Z; nd_port_start : Z }.

Record pma_st := { pm_mad : list Z; pm_ports : list pib_port }.
#[export] Instance eta_pma_st : Eta pma_st := fun s => {| pm_mad := pm_mad s; pm_ports := pm_ports s |}.

Definition the_mad : M pma_st (list Z) := gets pm_mad.
Definition upd_mad (f : list Z -> list Z) : M pma_st unit := modify (fun s => s <| pm_mad ::= f |>).
Definition mad_get (f : fld) : M pma_st Z := let! mad := the_mad in ret (be_get f mad).
Definition mad_set (f : fld) (v : Z) : M pma_st unit := upd_mad (be_set f v).
Definition set_status (v : Z) : M pma_st unit := upd_mad (le_set SMP_status v).
Definition clear_pma_data : M pma_st unit := upd_mad (put_bytes PMA_data (replicate 192 0)).
Definition the_perf (i : Z) : M pma_st pib_port_perf :=
  let! s := get in
  of_option (if 0 <=? i then po_perf <$> pm_ports s !! Z.to_nat i else None).
Definition upd_perf (i : Z) (f : pib_port_perf -> pib_port_perf) : M pma_st unit :=
  modify (fun s => s <| pm_ports ::= alter (fun p => p <| po_perf ::= f |>) (Z.to_nat i) |>).
(** [x |= ...] for the counters selected by [mask]. *)
Definition on_sel (sel mask : Z) (f : pib_port_perf -> pib_port_perf) (p : pib_port_perf) : pib_port_perf :=
  if has_flag sel mask then f p else p.

Definition pma_reply : M pma_st Z :=
  mad_set SMP_method IB_MGMT_METHOD_GET_RESP ;; ret (Z.lor IB_MAD_RESULT_SUCCESS IB_MAD_RESULT_REPLY).
Definition pma_reply_failure : M pma_st Z :=
  mad_set SMP_method IB_MGMT_METHOD_GET_RESP ;; ret (Z.lor IB_MAD_RESULT_FAILURE IB_MAD_RESULT_REPLY).

Section Pma.
Context (node : pib_node).

(** The data is cleared but for the port number. *)
Definition clear_but_port_select : M pma_st Z :=
  let! port_select := mad_get PM_port_select in
  clear_pma_data ;;
  mad_set PM_port_select port_select ;;
  ret port_select.

(** The checks the handlers start with: [body] gets the index of the port. *)
Definition with_port_select (port_select : Z) (body : Z -> M pma_st unit) : M pma_st unit :=
  let! attr_mod := mad_get SMP_attr_mod in
  if negb (attr_mod =? 0) then set_status PIB_PMA_STATUS_INVALID_ATTRIB_VALUE
  else if (port_select <? nd_port_start node) || (nd_port_count node <=? port_select) then
    set_status PIB_PMA_STATUS_INVALID_ATTRIB_VALUE
  else body (port_select - nd_port_start node).

Definition pma_get_class_port_info (port_num : Z) : M pma_st Z :=
  clear_pma_data ;;
  let! attr_mod := mad_get SMP_attr_mod in
  (if negb (attr_mod =? 0) then set_status PIB_PMA_STATUS_INVALID_ATTRIB_VALUE
   else
     mad_set CPI_base_version IB_MGMT_BASE_VERSION ;;
     mad_set CPI_class_version PIB_PMA_CLASS_VERSION ;;
     mad_set CPI_capability_mask PIB_PMA_CLASS_CAP_EXT_WIDTH ;;
     mad_set CPI_resp_time_value 18) ;;
  pma_reply.

Definition pma_get_port_samples_control (port_num : Z) : M pma_st Z :=
  let! port_select := clear_but_port_select in
  with_port_select port_select (fun i =>
    let! perf := the_perf i in
    mad_set PSC_opcode (pf_OpCode perf) ;;
    mad_set PSC_tick 1 ;;
    mad_set PSC_counter_width 4 ;;
    mad_set PSC_counter_mask0_9 0x09249249 ;;
    mad_set PSC_counter_mask10_14 0x1249 ;;
    mad_set PSC_sample_mechanisms 0 ;;
    mad_set PSC_sample_status 0 ;;
    mad_set PSC_sample_start 0 ;;
    mad_set PSC_sample_interval 0 ;;
    mad_set PSC_tag (pf_tag perf) ;;
    upd_mad (be_set_array PSC_counter_select 2 (take 15 (pf_counter_select perf)))) ;;
  pma_reply.

(** The members are read after the data was cleared. *)
Definition pma_set_port_samples_control (port_num : Z) : M pma_st Z :=
  let! port_select := clear_but_port_select in
  with_port_select port_select (fun i =>
    the_perf i ;;
    let! mad := the_mad in
    upd_perf i (fun p => p <| pf_OpCode := be_get PSC_opcode mad |> <| pf_tag := be_get PSC_tag mad |>
      <| pf_counter_select ::= fun l => be_array PSC_counter_select 2 15 mad ++ drop 15 l |>)) ;;
  pma_get_port_samples_control port_num.

Definition pma_get_port_samples_result (port_num : Z) : M pma_st Z :=
  clear_pma_data ;;
  let! attr_mod := mad_get SMP_attr_mod in
  (if negb (attr_mod =? 0) then set_status PIB_PMA_STATUS_INVALID_ATTRIB_VALUE
   else
     let! perf := the_perf (port_num - nd_port_start node) in
     mad_set PSR_tag (pf_tag perf) ;;
     mad_set PSR_sample_status 0 ;;
     upd_mad (be_set_array PSR_counter 4 (u32 <$> take 15 (pf_counter perf)))) ;;
  pma_reply.

Definition pma_get_port_samples_result_ext (port_num : Z) : M pma_st Z :=
  clear_pma_data ;;
  let! attr_mod := mad_get SMP_attr_mod in
  (if negb (attr_mod =? 0) then set_status PIB_PMA_STATUS_INVALID_ATTRIB_VALUE
   else
     let! perf := the_perf (port_num - nd_port_start node) in
     mad_set PSR_tag (pf_tag perf) ;;
     mad_set PSR_sample_status 0 ;;
     mad_set PSRX_extended_width 0x80000000 ;;
     upd_mad (be_set_array PSRX_counter 8 (take 15 (pf_counter perf)))) ;;
  pma_reply.

Definition pma_get_port_counters (port_num : Z) : M pma_st Z :=
  let! port_select := clear_but_port_select in
  with_port_select port_select (fun i =>
    let! perf := the_perf i in
    mad_set PC_symbol_error_counter (get_saturation16 (pf_symbol_error_counter perf)) ;;
    mad_set PC_link_error_recovery_counter (get_saturation8 (pf_link_error_recovery_counter perf)) ;;
    mad_set PC_link_downed_counter (get_saturation8 (pf_link_downed_counter perf)) ;;
    mad_set PC_rcv_errors (get_saturation16 (pf_rcv_errors perf)) ;;
    mad_set PC_rcv_remphys_errors (get_saturation16 (pf_rcv_remphys_errors perf)) ;;
    mad_set PC_rcv_switch_relay_errors (get_saturation16 (pf_rcv_switch_relay_errors perf)) ;;
    mad_set PC_xmit_discards (get_saturation16 (pf_xmit_discards perf)) ;;
    mad_set PC_xmit_constraint_errors (get_saturation8 (pf_xmit_constraint_errors perf)) ;;
    mad_set PC_rcv_constraint_errors (get_saturation8 (pf_rcv_constraint_errors perf)) ;;
    mad_set PC_link_overrun_errors (Z.lor (Z.shiftl (get_saturation4 (pf_local_link_integrity_errors perf)) 4)
                                          (get_saturation4 (pf_excessive_buffer_overrun_errors perf))) ;;
    mad_set PC_vl15_dropped (get_saturation16 (pf_vl15_dropped perf)) ;;
    mad_set PC_xmit_data (get_saturation32 (pf_xmit_data perf)) ;;
    mad_set PC_rcv_data (get_saturation32 (pf_rcv_data perf)) ;;
    mad_set PC_xmit_packets (get_saturation32 (pf_xmit_packets perf)) ;;
    mad_set PC_rcv_packets (get_saturation32 (pf_rcv_packets perf)) ;;
    mad_set PC_xmit_wait (get_saturation32 (pf_xmit_wait perf))) ;;
  pma_reply.

(** The counters the handler of Set(PortCounters) stores. *)
Definition store_port_counters (mad : list Z) (p : pib_port_perf) : pib_port_perf :=
  let sel := be_get PC_counter_select mad in
  let p := on_sel sel 0x0001 (fun p => p <| pf_symbol_error_counter := be_get PC_symbol_error_counter mad |>) p in
  let p := on_sel sel 0x0002 (fun p => p <| pf_link_error_recovery_counter := be_get PC_link_error_recovery_counter mad |>) p in
  let p := on_sel sel 0x0004 (fun p => p <| pf_link_downed_counter := be_get PC_link_downed_counter mad |>) p in
  let p := on_sel sel 0x0008 (fun p => p <| pf_rcv_errors := be_get PC_rcv_errors mad |>) p in
  let p := on_sel sel 0x0010 (fun p => p <| pf_rcv_remphys_errors := be_get PC_rcv_remphys_errors mad |>) p in
  let p := on_sel sel 0x0020 (fun p => p <| pf_rcv_switch_relay_errors := be_get PC_rcv_switch_relay_errors mad |>) p in
  let p := on_sel sel 0x0040 (fun p => p <| pf_xmit_discards := be_get PC_xmit_discards mad |>) p in
  let p := on_sel sel 0x0080 (fun p => p <| pf_xmit_constraint_errors := be_get PC_xmit_constraint_errors mad |>) p in
  let p := on_sel sel 0x0100 (fun p => p <| pf_rcv_constraint_errors := be_get PC_rcv_constraint_errors mad |>) p in
  let p := on_sel sel 0x0200 (fun p => p <| pf_local_link_integrity_errors :=
                                Z.land (Z.shiftr (be_get PC_link_overrun_errors mad) 4) 0xF |>) p in
  let p := on_sel sel 0x0400 (fun p => p <| pf_excessive_buffer_overrun_errors :=
                                Z.land (be_get PC_link_overrun_errors mad) 0xF |>) p in
  let p := on_sel sel 0x0800 (fun p => p <| pf_vl15_dropped := be_get PC_vl15_dropped mad |>) p in
  let p := on_sel sel 0x1000 (fun p => p <| pf_xmit_data := be_get PC_xmit_data mad |>) p in
  let p := on_sel sel 0x2000 (fun p => p <| pf_rcv_data := be_get PC_rcv_data mad |>) p in
  let p := on_sel sel 0x4000 (fun p => p <| pf_xmit_packets := be_get PC_xmit_packets mad |>) p in
  on_sel sel 0x8000 (fun p => p <| pf_rcv_packets := be_get PC_rcv_packets mad |>) p.

(** The last statement of the source calls the function itself. *)
Fixpoint pma_set_port_counters (fuel : nat) (port_num : Z) : M pma_st Z :=
  match fuel with
  | O => bug
  | S fuel =>
      let! port_select := clear_but_port_select in
      with_port_select port_select (fun i =>
        the_perf i ;; let! mad := the_mad in upd_perf i (store_port_counters mad)) ;;
      pma_set_port_counters fuel port_num
  end.

Definition pma_get_port_counters_ext (port_num : Z) : M pma_st Z :=
  let! port_select := clear_but_port_select in
  with_port_select port_select (fun i =>
    let! perf := the_perf i in
    mad_set PCX_xmit_data (pf_xmit_data perf) ;;
    mad_set PCX_rcv_data (pf_rcv_data perf) ;;
    mad_set PCX_xmit_packets (pf_xmit_packets perf) ;;
    mad_set PCX_rcv_packets (pf_rcv_packets perf) ;;
    mad_set PCX_unicast_xmit_packets (pf_unicast_xmit_packets perf) ;;
    mad_set PCX_unicast_rcv_packets (pf_unicast_rcv_packets perf) ;;
    mad_set PCX_multicast_xmit_packets (pf_multicast_xmit_packets perf) ;;
    mad_set PCX_multicast_rcv_packets (pf_multicast_rcv_packets perf)) ;;
  pma_reply.

(** The unicast and multicast selections clear the member of the packet, not the
    counter. *)
Definition store_port_counters_ext (mad : list Z) (p : pib_port_perf) : pib_port_perf :=
  let sel := be_get PC_counter_select mad in
  let p := on_sel sel 0x0001 (fun p => p <| pf_xmit_data := be_get PCX_xmit_data mad |>) p in
  let p := on_sel sel 0x0002 (fun p => p <| pf_rcv_data := be_get PCX_rcv_data mad |>) p in
  let p := on_sel sel 0x0004 (fun p => p <| pf_xmit_packets := be_get PCX_xmit_packets mad |>) p in
  on_sel sel 0x0008 (fun p => p <| pf_rcv_packets := be_get PCX_rcv_packets mad |>) p.

Definition pma_set_port_counters_ext (port_num : Z) : M pma_st Z :=
  let! port_select := mad_get PM_port_select in
  with_port_select port_select (fun i =>
    the_perf i ;;
    let! mad := the_mad in
    let sel := be_get PC_counter_select mad in
    upd_perf i (store_port_counters_ext mad) ;;
    when (has_flag sel 0x0010) (mad_set PCX_unicast_xmit_packets 0) ;;
    when (has_flag sel 0x0020) (mad_set PCX_unicast_rcv_packets 0) ;;
    when (has_flag sel 0x0040) (mad_set PCX_multicast_xmit_packets 0) ;;
    when (has_flag sel 0x0080) (mad_set PCX_multicast_rcv_packets 0)) ;;
  pma_get_port_counters_ext port_num.

(** ** Dispatch of the driver *)

Definition pma_get_method (port_num : Z) (unsupported : M pma_st Z) : M pma_st Z :=
  let! attr_id := mad_get SMP_attr_id in
  if attr_id =? PIB_PMA_CLASS_PORT_INFO then pma_get_class_port_info port_num
  else if attr_id =? PIB_PMA_PORT_SAMPLES_CONTROL then pma_get_port_samples_control port_num
  else if attr_id =? PIB_PMA_PORT_SAMPLES_RESULT then pma_get_port_samples_result port_num
  else if attr_id =? PIB_PMA_PORT_SAMPLES_RESULT_EXT then pma_get_port_samples_result_ext port_num
  else if attr_id =? PIB_PMA_PORT_COUNTERS then pma_get_port_counters port_num
  else if attr_id =? PIB_PMA_PORT_COUNTERS_EXT then pma_get_port_counters_ext port_num
  else set_status PIB_PMA_STATUS_UNSUPPORTED_METHOD_ATTRIB ;; unsupported.

Definition pma_set_method (fuel : nat) (port_num : Z) (unsupported : M pma_st Z) : M pma_st Z :=
  let! attr_id := mad_get SMP_attr_id in
  if attr_id =? PIB_PMA_PORT_SAMPLES_CONTROL then pma_set_port_samples_control port_num
  else if attr_id =? PIB_PMA_PORT_COUNTERS then pma_set_port_counters fuel port_num
  else if attr_id =? PIB_PMA_PORT_COUNTERS_EXT then pma_set_port_counters_ext port_num
  else set_status PIB_PMA_STATUS_UNSUPPORTED_METHOD_ATTRIB ;; unsupported.

Definition pib_process_pma_mad (fuel : nat) (port_num : Z) : M pma_st Z :=
  let! base := mad_get SMP_base_version in
  let! class := mad_get SMP_class_version in
  if negb (base =? IB_MGMT_BASE_VERSION) || negb (class =? PIB_PMA_CLASS_VERSION) then
    set_status PIB_PMA_STATUS_BAD_VERSION ;; pma_reply
  else
    let! method := mad_get SMP_method in
    if method =? IB_MGMT_METHOD_GET then pma_get_method port_num pma_reply
    else if method =? IB_MGMT_METHOD_SET then pma_set_method fuel port_num pma_reply
    else if (method =? IB_MGMT_METHOD_TRAP) || (method =? IB_MGMT_METHOD_GET_RESP) then ret IB_MAD_RESULT_SUCCESS
    else set_status PIB_PMA_STATUS_UNSUPPORTED_METHOD ;; pma_reply.
End Pma.

(** ** The agent of pibnetd *)

Definition netd_node (port_cnt : Z) : pib_node := {| nd_port_count := port_cnt; nd_port_start := 0 |}.

(** The handlers of perf.c, on the ports of the switch, numbered from 0. *)
Section NetdPma.
Context (port_cnt : Z).
Definition netd_pma_get_class_port_info := pma_get_class_port_info.
Definition netd_pma_get_port_samples_control := pma_get_port_samples_control (netd_node port_cnt).
Definition netd_pma_set_port_samples_control := pma_set_port_samples_control (netd_node port_cnt).
Definition netd_pma_get_port_samples_result := pma_get_port_samples_result (netd_node port_cnt).
Definition netd_pma_get_port_samples_result_ext := pma_get_port_samples_result_ext (netd_node port_cnt).
Definition netd_pma_get_port_counters := pma_get_port_counters (netd_node port_cnt).
Definition netd_pma_set_port_counters := pma_set_port_counters (netd_node port_cnt).
Definition netd_pma_get_port_counters_ext := pma_get_port_counters_ext (netd_node port_cnt).
Definition netd_pma_set_port_counters_ext := pma_set_port_counters_ext (netd_node port_cnt).

Definition netd_pma_get_method (port_num : Z) : M pma_st Z :=
  let! attr_id := mad_get SMP_attr_id in
  if attr_id =? PIB_PMA_CLASS_PORT_INFO then netd_pma_get_class_port_info port_num
  else if attr_id =? PIB_PMA_PORT_SAMPLES_CONTROL then netd_pma_get_port_samples_control port_num
  else if attr_id =? PIB_PMA_PORT_SAMPLES_RESULT then netd_pma_get_port_samples_result port_num
  else if attr_id =? PIB_PMA_PORT_SAMPLES_RESULT_EXT then netd_pma_get_port_samples_result_ext port_num
  else if attr_id =? PIB_PMA_PORT_COUNTERS then netd_pma_get_port_counters port_num
  else if attr_id =? PIB_PMA_PORT_COUNTERS_EXT then netd_pma_get_port_counters_ext port_num
  else set_status PIB_PMA_STATUS_UNSUPPORTED_METHOD_ATTRIB ;; pma_reply_failure.

Definition netd_pma_set_method (fuel : nat) (port_num : Z) : M pma_st Z :=
  let! attr_id := mad_get SMP_attr_id in
  if attr_id =? PIB_PMA_PORT_SAMPLES_CONTROL then netd_pma_set_port_samples_control port_num
  else if attr_id =? PIB_PMA_PORT_COUNTERS then netd_pma_set_port_counters fuel port_num
  else if attr_id =? PIB_PMA_PORT_COUNTERS_EXT then netd_pma_set_port_counters_ext port_num
  else set_status PIB_PMA_STATUS_UNSUPPORTED_METHOD_ATTRIB ;; pma_reply_failure.
End NetdPma.

Definition netd_process_pma_mad (port_cnt : Z) (fuel : nat) (port_num : Z) : M pma_st Z :=
  let! base := mad_get SMP_base_version in
  let! class := mad_get SMP_class_version in
  if negb (base =? IB_MGMT_BASE_VERSION) || negb (class =? PIB_PMA_CLASS_VERSION) then
    set_status PIB_PMA_STATUS_BAD_VERSION ;; pma_reply
  else
    let! method := mad_get SMP_method in
    if method =? IB_MGMT_METHOD_GET then netd_pma_get_method port_cnt port_num
    else if method =? IB_MGMT_METHOD_SET then netd_pma_set_method port_cnt fuel port_num
    else if (method =? IB_MGMT_METHOD_TRAP) || (method =? IB_MGMT_METHOD_GET_RESP) then pma_reply
    else pma_reply_failure.
