(* ===== verification/PmaThm.v ===== *)
(** * The performance management agent: theorems

    What Get(PortCounters) reports, the round trip through
    Set(PortCountersExtended), and which datagrams the agent returns from: all of
    them but Set(PortCounters), whose handler calls itself. *)

From S2P Require Import Prelude Mr Packet Wire Port Pma.

(** ** Execution on explicit states *)

Abbreviation Pm m ps := {| pm_mad := m; pm_ports := ps |}.

Definition pma_clear (m : list Z) : list Z := put_bytes PMA_data (replicate 192 0) m.

Lemma pma_clear_ok m : smp_ok m -> smp_ok (pma_clear m).
Proof.
  intros H. apply smp_put_ok; [done|rewrite length_replicate; unfold PMA_data, MAD_SIZE; lia|].
  apply Forall_replicate. unfold byte_ok. lia.
Qed.
Lemma pma_clear_get f m : smp_ok m -> fdisj f (Fld PMA_data 192) = true -> be_get f (pma_clear m) = be_get f m.
Proof.
  intros [Hl _] H. unfold be_get, be_at, pma_clear. f_equal. destruct f as [p l].
  unfold fdisj in H. cbn [f_off f_len] in *.
  apply bytes_at_put_ne; rewrite length_replicate; [rewrite Hl; unfold PMA_data, MAD_SIZE; lia|].
  apply orb_true_iff in H as [H|H]; apply Nat.leb_le in H; [left|right]; exact H.
Qed.
Lemma pma_clear_zero f m : smp_ok m -> (PMA_data <= f_off f)%nat ->
  (f_off f + f_len f <= PMA_data + 192)%nat -> be_get f (pma_clear m) = 0.
Proof.
  intros [Hl _] H1 H2. unfold be_get, be_at. etransitivity; [|apply (be_combine_zeros (f_len f))]. f_equal.
  unfold PMA_data, MAD_SIZE in *. apply list_eq. intros i. rewrite lookup_bytes_at.
  destruct (decide (i < f_len f)%nat) as [Hi|Hi].
  - unfold pma_clear, PMA_data. rewrite lookup_put_bytes by (rewrite length_replicate; lia).
    rewrite length_replicate, decide_True by lia. rewrite !lookup_replicate_2; [done|lia|lia].
  - symmetry. apply lookup_ge_None_2. rewrite length_replicate. lia.
Qed.

Section Run.
Context (m : list Z) (ps : list pib_port).
Lemma wp_mad_get f Q : Q (be_get f m) (Pm m ps) -> wp (mad_get f) Q (Pm m ps).
Proof. done. Qed.
Lemma wp_mad_set f v (Q : unit -> pma_st -> Prop) : Q tt (Pm (be_set f v m) ps) -> wp (mad_set f v) Q (Pm m ps).
Proof. done. Qed.
Lemma wp_set_status v (Q : unit -> pma_st -> Prop) : Q tt (Pm (le_set SMP_status v m) ps) -> wp (set_status v) Q (Pm m ps).
Proof. done. Qed.
Lemma wp_clear (Q : unit -> pma_st -> Prop) : Q tt (Pm (pma_clear m) ps) -> wp clear_pma_data Q (Pm m ps).
Proof. done. Qed.
Lemma wp_the_mad Q : Q m (Pm m ps) -> wp the_mad Q (Pm m ps).
Proof. done. Qed.
Lemma wp_upd_mad f (Q : unit -> pma_st -> Prop) : Q tt (Pm (f m) ps) -> wp (upd_mad f) Q (Pm m ps).
Proof. done. Qed.
Lemma wp_upd_perf i f (Q : unit -> pma_st -> Prop) :
  Q tt (Pm m (alter (fun p => p <| po_perf ::= f |>) (Z.to_nat i) ps)) -> wp (upd_perf i f) Q (Pm m ps).
Proof. done. Qed.
Lemma wp_the_perf i p Q : 0 <= i -> ps !! Z.to_nat i = Some p -> Q (po_perf p) (Pm m ps) -> wp (the_perf i) Q (Pm m ps).
Proof. intros Hi E H. unfold the_perf, wp, bind, get. simpl. rewrite (proj2 (Z.leb_le _ _) Hi), E. exact H. Qed.
Lemma wp_pma_reply Q :
  Q (Z.lor IB_MAD_RESULT_SUCCESS IB_MAD_RESULT_REPLY) (Pm (be_set SMP_method IB_MGMT_METHOD_GET_RESP m) ps) ->
  wp pma_reply Q (Pm m ps).
Proof. done. Qed.
Lemma wp_pma_reply_failure Q :
  Q (Z.lor IB_MAD_RESULT_FAILURE IB_MAD_RESULT_REPLY) (Pm (be_set SMP_method IB_MGMT_METHOD_GET_RESP m) ps) ->
  wp pma_reply_failure Q (Pm m ps).
Proof. done. Qed.
Lemma wp_clear_but_port_select Q : let i := be_get PM_port_select m in
  Q i (Pm (be_set PM_port_select i (pma_clear m)) ps) -> wp clear_but_port_select Q (Pm m ps).
Proof. done. Qed.
End Run.

Ltac pma_step :=
  lazymatch goal with
  | |- wp (bind _ _) _ _ => apply wp_bind
  | |- wp (ret _) _ _ => apply wp_ret
  | |- wp (mad_get _) _ _ => apply wp_mad_get
  | |- wp (mad_set _ _) _ _ => apply wp_mad_set
  | |- wp (set_status _) _ _ => apply wp_set_status
  | |- wp clear_pma_data _ _ => apply wp_clear
  | |- wp the_mad _ _ => apply wp_the_mad
  | |- wp (upd_mad _) _ _ => apply wp_upd_mad
  | |- wp (upd_perf _ _) _ _ => apply wp_upd_perf
  | |- wp pma_reply _ _ => apply wp_pma_reply
  | |- wp pma_reply_failure _ _ => apply wp_pma_reply_failure
  | |- wp clear_but_port_select _ _ => apply wp_clear_but_port_select
  end; cbv beta zeta.
Ltac pma_run := repeat pma_step.

(** Evaluation of fields, through [pma_clear] too. *)
Ltac pm_ok_step :=
  lazymatch goal with
  | H : smp_ok ?s |- smp_ok ?s => exact H
  | |- smp_ok (be_set _ _ _) => apply smp_set_ok; [|fits_dec]
  | |- smp_ok (le_set _ _ _) => apply smp_le_set_ok; [|fits_dec]
  | |- smp_ok (pma_clear _) => apply pma_clear_ok
  end.
Ltac pm_oks := repeat pm_ok_step.
Ltac pm_side := lazymatch goal with |- smp_ok _ => pm_oks | |- fits _ _ => fits_dec | |- (_ <= _)%nat => (simpl; unfold PMA_data; lia) | |- _ = true => reflexivity end.
Ltac pm_fld :=
  repeat lazymatch goal with
  | |- be_get ?g (be_set ?f ?v ?b) = _ =>
      first [etransitivity; [apply (chain_ne f b); pm_side|] | etransitivity; [apply (chain_eq f b); pm_side|]]
  | |- be_get ?g (pma_clear ?b) = _ =>
      first [etransitivity; [apply (pma_clear_zero g b); pm_side|] | etransitivity; [apply (pma_clear_get g b); pm_side|]]
  end.

(** ** Saturation *)

Definition sat (w v : Z) : Z := Z.min v (2 ^ w - 1).

Lemma sat8 v : 0 <= v -> get_saturation8 v mod 2 ^ 8 = sat 8 v.
Proof.
  intros. unfold get_saturation8, sat, u8, wrap. destruct (Z.ltb_spec 0xFF v).
  - rewrite Z.min_r; [reflexivity|]. change (2 ^ 8 - 1) with 255. lia.
  - rewrite Z.mod_mod, Z.mod_small, Z.min_l; change (2 ^ 8) with 256; lia.
Qed.
Lemma sat16 v : 0 <= v -> get_saturation16 v mod 2 ^ 16 = sat 16 v.
Proof.
  intros. unfold get_saturation16, sat, u16, wrap. destruct (Z.ltb_spec 0xFFFF v).
  - rewrite Z.min_r; [reflexivity|]. change (2 ^ 16 - 1) with 65535. lia.
  - rewrite Z.mod_mod, Z.mod_small, Z.min_l; change (2 ^ 16) with 65536; lia.
Qed.
Lemma sat32 v : 0 <= v -> get_saturation32 v mod 2 ^ 32 = sat 32 v.
Proof.
  intros. unfold get_saturation32, sat, u32, wrap. rewrite Z.shiftr_div_pow2 by lia.
  pose proof (Z.div_mod v (2 ^ 32) ltac:(lia)) as D. pose proof (Z.mod_pos_bound v (2 ^ 32) ltac:(lia)).
  destruct (Z.eqb_spec (v / 2 ^ 32) 0) as [E|E]; cbn [negb].
  - rewrite E in D. rewrite Z.mod_mod, Z.min_l by lia. lia.
  - assert (0 < v / 2 ^ 32) by (pose proof (Z.div_pos v (2 ^ 32) ltac:(lia) ltac:(lia)); lia).
    rewrite Z.min_r by nia. reflexivity.
Qed.
Lemma sat4 v : 0 <= v -> get_saturation4 v = sat 4 v.
Proof.
  intros. unfold get_saturation4, sat. destruct (Z.ltb_spec 0xF v).
  - rewrite Z.min_r; [reflexivity|]. change (2 ^ 4 - 1) with 15. lia.
  - change 0xF with (Z.ones 4). rewrite Z.land_ones, Z.mod_small, Z.min_l; change (2 ^ 4) with 16; lia.
Qed.
Lemma sat_range w v : 0 <= v -> 0 <= w -> 0 <= sat w v < 2 ^ w.
Proof. intros. pose proof (pow2_pos w ltac:(lia)). unfold sat. lia. Qed.

(** ** Counters in a response *)

(** The members of PortCounters with the counters they report, but for the two
    four-bit ones, which share a byte. *)
Definition short_counters (p : pib_port_perf) : list (fld * Z) :=
  [(PC_symbol_error_counter, pf_symbol_error_counter p); (PC_link_error_recovery_counter, pf_link_error_recovery_counter p);
   (PC_link_downed_counter, pf_link_downed_counter p); (PC_rcv_errors, pf_rcv_errors p);
   (PC_rcv_remphys_errors, pf_rcv_remphys_errors p); (PC_rcv_switch_relay_errors, pf_rcv_switch_relay_errors p);
   (PC_xmit_discards, pf_xmit_discards p); (PC_xmit_constraint_errors, pf_xmit_constraint_errors p);
   (PC_rcv_constraint_errors, pf_rcv_constraint_errors p); (PC_vl15_dropped, pf_vl15_dropped p);
   (PC_xmit_data, pf_xmit_data p); (PC_rcv_data, pf_rcv_data p); (PC_xmit_packets, pf_xmit_packets p);
   (PC_rcv_packets, pf_rcv_packets p); (PC_xmit_wait, pf_xmit_wait p)].
(** The members of PortCountersExtended, in the order of their selection bits. *)
Definition long_counters (p : pib_port_perf) : list (fld * Z) :=
  [(PCX_xmit_data, pf_xmit_data p); (PCX_rcv_data, pf_rcv_data p); (PCX_xmit_packets, pf_xmit_packets p);
   (PCX_rcv_packets, pf_rcv_packets p); (PCX_unicast_xmit_packets, pf_unicast_xmit_packets p);
   (PCX_unicast_rcv_packets, pf_unicast_rcv_packets p); (PCX_multicast_xmit_packets, pf_multicast_xmit_packets p);
   (PCX_multicast_rcv_packets, pf_multicast_rcv_packets p)].
Definition perf_ok (p : pib_port_perf) : Prop :=
  Forall (fun c => 0 <= c < 2 ^ 64) ((short_counters p).*2 ++ (long_counters p).*2
    ++ [pf_local_link_integrity_errors p; pf_excessive_buffer_overrun_errors p]).

(** A datagram for port [sel] with attribute modifier 0. *)
Definition pma_request (m : list Z) (method attr sel : Z) : Prop :=
  smp_ok m /\ be_get SMP_base_version m = IB_MGMT_BASE_VERSION /\ be_get SMP_class_version m = PIB_PMA_CLASS_VERSION
  /\ be_get SMP_method m = method /\ be_get SMP_attr_id m = attr /\ be_get SMP_attr_mod m = 0
  /\ be_get PM_port_select m = sel.
(** The counters the agent finds for that port. *)
Definition perf_of (node : pib_node) (ps : list pib_port) (sel : Z) (p : pib_port) : Prop :=
  nd_port_start node <= sel < nd_port_count node /\ ps !! Z.to_nat (sel - nd_port_start node) = Some p.

Lemma port_select_range m : smp_ok m -> be_get PM_port_select m mod 2 ^ 8 = be_get PM_port_select m.
Proof. intros H. apply Z.mod_small, (smp_ok_get PM_port_select m H). Qed.

Lemma wp_with_port_select node sel body Q m ps : smp_ok m -> be_get SMP_attr_mod m = 0 ->
  nd_port_start node <= sel < nd_port_count node ->
  wp (body (sel - nd_port_start node)) Q (Pm m ps) -> wp (with_port_select node sel body) Q (Pm m ps).
Proof.
  intros Hm H0 Hs H. unfold with_port_select. pma_run. rewrite H0. simpl.
  rewrite (proj2 (Z.ltb_ge _ _)), (proj2 (Z.leb_gt _ _)) by lia. exact H.
Qed.

Lemma wp_run {A} (c : M pma_st A) Q s : wp c Q s -> exists a s', c s = Some (a, s') /\ Q a s'.
Proof. unfold wp. destruct (c s) as [[a s']|]; [|done]. eauto. Qed.

Lemma get_port_counters_run node port_num m ps sel p :
  smp_ok m -> be_get SMP_attr_mod m = 0 -> be_get PM_port_select m = sel -> perf_of node ps sel p -> perf_ok (po_perf p) ->
  wp (pma_get_port_counters node port_num) (fun r s' =>
     r = Z.lor IB_MAD_RESULT_SUCCESS IB_MAD_RESULT_REPLY /\ pm_ports s' = ps
     /\ Forall (fun '(f, c) => be_get f (pm_mad s') = sat (8 * Z.of_nat (f_len f)) c) (short_counters (po_perf p))
     /\ be_get PC_link_overrun_errors (pm_mad s')
        = Z.lor (Z.shiftl (sat 4 (pf_local_link_integrity_errors (po_perf p))) 4)
                (sat 4 (pf_excessive_buffer_overrun_errors (po_perf p)))) (Pm m ps).
Proof.
  intros Hm H0 Hsel [Hr Hp] Hc. unfold pma_get_port_counters. pma_run.
  apply wp_with_port_select; [pm_oks|pm_fld; exact H0|lia|]. pma_run.
  eapply wp_the_perf; [lia|rewrite Hsel; exact Hp|]. pma_run.
  repeat (apply Forall_cons in Hc as [?%proj1 Hc]). clear Hc. cbn [pm_mad pm_ports].
  split_and!; [reflexivity|reflexivity| |].
  - unfold short_counters. repeat apply Forall_cons_2; [..|apply Forall_nil_2];
      (pm_fld; cbn [f_len PC_symbol_error_counter]; first [apply sat8 | apply sat16 | apply sat32]; assumption).
  - pm_fld. rewrite !sat4 by assumption. pose proof (fun v H => sat_range 4 v H ltac:(lia)) as R. change (2 ^ 4) with 16 in R.
    apply Z.mod_small. change (2 ^ (8 * Z.of_nat (f_len PC_link_overrun_errors))) with 256. split.
    + apply Z.lor_nonneg. split; [apply Z.shiftl_nonneg|]; apply R; assumption.
    + match goal with |- Z.lor (Z.shiftl ?a 4) ?b < _ => assert (0 <= a < 16) by (by apply R); assert (0 <= b < 16) by (by apply R) end.
      pose proof (nibble_cases (fun a b => implb (a <? 16) (Z.lor (Z.shiftl a 4) b <? 256)) ltac:(vm_compute; reflexivity)) as N.
      match goal with |- Z.lor (Z.shiftl ?a 4) ?b < _ => specialize (N a b ltac:(lia) ltac:(lia)); cbv beta in N; rewrite (proj2 (Z.ltb_lt a 16)) in N by lia end.
      by apply Z.ltb_lt.
Qed.

(** ** Dispatch *)

Section Dispatch.
Context (node : pib_node) (fuel : nat) (port_num : Z) (m : list Z) (ps : list pib_port).

Lemma wp_dispatch (Q : Z -> pma_st -> Prop) method attr sel : pma_request m method attr sel ->
  (method = IB_MGMT_METHOD_GET -> wp (pma_get_method node port_num pma_reply) Q (Pm m ps)) ->
  (method = IB_MGMT_METHOD_SET -> wp (pma_set_method node fuel port_num pma_reply) Q (Pm m ps)) ->
  method = IB_MGMT_METHOD_GET \/ method = IB_MGMT_METHOD_SET ->
  wp (pib_process_pma_mad node fuel port_num) Q (Pm m ps).
Proof.
  intros (_ & Hb & Hc & Hm & _) HG HS Hor. unfold pib_process_pma_mad. pma_run. rewrite Hb, Hc. simpl. pma_run. rewrite Hm.
  destruct Hor as [-> | ->]; [by apply HG|by apply HS].
Qed.
End Dispatch.

(** Get(PortCounters) answers with every counter of the selected port, each
    saturated to the width of its member, and changes no counter: the agent of
    an HCA and of the internal switch. *)
Theorem port_counters_saturated (node : pib_node) (fuel : nat) (port_num sel : Z) (m : list Z) (ps : list pib_port) (p : pib_port)
    (Hreq : pma_request m IB_MGMT_METHOD_GET PIB_PMA_PORT_COUNTERS sel) (Hp : perf_of node ps sel p)
    (Hc : perf_ok (po_perf p)) :
  exists m', pib_process_pma_mad node fuel port_num (Pm m ps)
             = Some (Z.lor IB_MAD_RESULT_SUCCESS IB_MAD_RESULT_REPLY, Pm m' ps)
    /\ Forall (fun '(f, c) => be_get f m' = Z.min c (2 ^ (8 * Z.of_nat (f_len f)) - 1)) (short_counters (po_perf p))
    /\ be_get PC_link_overrun_errors m'
       = Z.lor (Z.shiftl (Z.min (pf_local_link_integrity_errors (po_perf p)) 15) 4)
               (Z.min (pf_excessive_buffer_overrun_errors (po_perf p)) 15).
Proof.
  destruct (wp_run (pib_process_pma_mad node fuel port_num) _ (Pm m ps)
    (wp_dispatch node fuel port_num m ps (fun r s' => r = _ /\ pm_ports s' = ps /\ _) _ _ _ Hreq
      ltac:(intros _; unfold pma_get_method; pma_run; rewrite (proj1 (proj2 (proj2 (proj2 (proj2 Hreq))))); simpl;
            apply (get_port_counters_run node port_num m ps sel p); [apply Hreq..|exact Hp|exact Hc])
      ltac:(discriminate) ltac:(by left))) as (r & [m' ps'] & E & -> & H2 & H3 & H4).
  simpl in *. subst ps'. exists m'. split; [exact E|]. split; [exact H3|exact H4].
Qed.

(** *** Set(PortCountersExtended) *)

(** What the eight counters are after the request: of the selected ones only the
    first four take the value of the packet. *)
Definition ext_expected (m : list Z) (p : pib_port_perf) : list Z :=
  zip_with (fun mask '(f, c) => if has_flag (be_get PC_counter_select m) mask then be_get f m else c)
    [0x0001; 0x0002; 0x0004; 0x0008; 0; 0; 0; 0] (long_counters p).

Lemma has_flag_0 x : has_flag x 0 = false.
Proof. unfold has_flag. by rewrite Z.land_0_r. Qed.

Lemma store_ext_counters m p : (long_counters (store_port_counters_ext m p)).*2 = ext_expected m p.
Proof.
  unfold ext_expected, store_port_counters_ext, on_sel. cbv zeta. generalize (be_get PC_counter_select m). intros sel.
  cbn [zip_with long_counters]. rewrite has_flag_0.
  destruct (has_flag sel 1), (has_flag sel 2), (has_flag sel 4), (has_flag sel 8); reflexivity.
Qed.

Lemma get_ext_run node port_num m ps sel p :
  smp_ok m -> be_get SMP_attr_mod m = 0 -> be_get PM_port_select m = sel -> perf_of node ps sel p ->
  wp (pma_get_port_counters_ext node port_num) (fun r s' =>
     r = Z.lor IB_MAD_RESULT_SUCCESS IB_MAD_RESULT_REPLY /\ pm_ports s' = ps
     /\ Forall (fun '(f, c) => be_get f (pm_mad s') = c mod 2 ^ 64) (long_counters (po_perf p))) (Pm m ps).
Proof.
  intros Hm H0 Hsel [Hr Hp]. unfold pma_get_port_counters_ext. pma_run.
  apply wp_with_port_select; [pm_oks|pm_fld; exact H0|lia|]. pma_run.
  eapply wp_the_perf; [lia|rewrite Hsel; exact Hp|]. pma_run. cbn [pm_mad pm_ports].
  split_and!; [reflexivity|reflexivity|].
  unfold long_counters. repeat apply Forall_cons_2; [..|apply Forall_nil_2]; (pm_fld; reflexivity).
Qed.

Lemma when_mad_set (b : bool) f v m ps (Q : unit -> pma_st -> Prop) :
  Q tt (Pm (if b then be_set f v m else m) ps) -> wp (when b (mad_set f v)) Q (Pm m ps).
Proof. by destruct b. Qed.

Lemma if_set_ok (b : bool) f v m : smp_ok m -> fits f MAD_SIZE -> smp_ok (if b then be_set f v m else m).
Proof. intros. destruct b; [by apply smp_set_ok|done]. Qed.
Lemma if_set_ne (b : bool) f v m g : smp_ok m -> fits f MAD_SIZE -> fdisj g f = true ->
  be_get g (if b then be_set f v m else m) = be_get g m.
Proof. intros. destruct b; [by apply chain_ne|done]. Qed.

Lemma alter_as_insert {A} (f : A -> A) i (l : list A) x : l !! i = Some x -> alter f i l = <[i := f x]> l.
Proof.
  intros E. apply list_eq. intros j. destruct (decide (i = j)) as [<-|Hj].
  - rewrite list_lookup_alter_eq, E, list_lookup_insert_eq; [done|by eapply lookup_lt_Some].
  - by rewrite list_lookup_alter_ne, list_lookup_insert_ne.
Qed.

Lemma set_ext_run node port_num m ps sel p :
  smp_ok m -> be_get SMP_attr_mod m = 0 -> be_get PM_port_select m = sel -> perf_of node ps sel p ->
  let p' := p <| po_perf ::= store_port_counters_ext m |> in
  wp (pma_set_port_counters_ext node port_num) (fun r s' =>
     r = Z.lor IB_MAD_RESULT_SUCCESS IB_MAD_RESULT_REPLY
     /\ pm_ports s' = <[Z.to_nat (sel - nd_port_start node) := p']> ps
     /\ Forall (fun '(f, c) => be_get f (pm_mad s') = c mod 2 ^ 64) (long_counters (po_perf p'))) (Pm m ps).
Proof.
  intros Hm H0 Hsel [Hr Hp] p'. unfold pma_set_port_counters_ext. pma_run. rewrite Hsel.
  apply wp_with_port_select; [done|done|done|]. pma_run. eapply wp_the_perf; [lia|exact Hp|]. pma_run.
  repeat first [apply when_mad_set | pma_step].
  erewrite alter_as_insert by exact Hp. fold p'.
  repeat match goal with |- wp _ _ (Pm (if ?b then be_set ?f ?v ?x else ?x) _) =>
    let y := fresh "y" in let Hy := fresh "Hy" in let H0y := fresh "H0y" in let Hsy := fresh "Hsy" in
    assert (smp_ok x) by pm_oks; set (y := if b then be_set f v x else x);
    assert (smp_ok y) as Hy by (apply if_set_ok; [assumption|fits_dec])
  end.
  match goal with |- wp _ _ (Pm ?y _) => assert (smp_ok y /\ be_get SMP_attr_mod y = 0 /\ be_get PM_port_select y = sel) as (Y1 & Y2 & Y3) end.
  { split; [repeat (apply if_set_ok; [|fits_dec]); assumption|].
    split; (rewrite !if_set_ne; [assumption|repeat (apply if_set_ok; [|fits_dec]); first [assumption|fits_dec|reflexivity]..]). }
  eapply wp_mono; [apply (get_ext_run node port_num _ _ sel p'); [exact Y1|exact Y2|exact Y3|]|].
  - split; [done|]. apply list_lookup_insert_eq. by apply lookup_lt_Some in Hp.
  - intros r s' H. exact H.
Qed.

Lemma fields_exact m (l : list (fld * Z)) : Forall (fun '(f, c) => be_get f m = c mod 2 ^ 64) l ->
  Forall (fun c => 0 <= c < 2 ^ 64) l.*2 -> ((fun '(f, _) => be_get f m) <$> l) = l.*2.
Proof.
  induction 1 as [|[f c] l H _ IH]; intros R; [done|]. simpl in *. apply Forall_cons in R as [Rc R].
  f_equal; [rewrite H; by rewrite Z.mod_small|by apply IH].
Qed.

(** Set(PortCountersExtended) stores the selected ones of the first four counters,
    whatever the other selection bits say, changes no other port, and the response
    reports the eight counters as they are afterwards.  The unicast and multicast
    selections have no effect on the counters. *)
Theorem port_counters_ext_set (node : pib_node) (fuel : nat) (port_num sel : Z) (m : list Z) (ps : list pib_port) (p : pib_port)
    (Hreq : pma_request m IB_MGMT_METHOD_SET PIB_PMA_PORT_COUNTERS_EXT sel) (Hp : perf_of node ps sel p)
    (Hc : perf_ok (po_perf p)) :
  exists m' p', pib_process_pma_mad node fuel port_num (Pm m ps)
      = Some (Z.lor IB_MAD_RESULT_SUCCESS IB_MAD_RESULT_REPLY, Pm m' (<[Z.to_nat (sel - nd_port_start node) := p']> ps))
    /\ (long_counters (po_perf p')).*2 = ext_expected m (po_perf p)
    /\ ((fun '(f, _) => be_get f m') <$> long_counters (po_perf p)) = ext_expected m (po_perf p).
Proof.
  destruct (wp_run (pib_process_pma_mad node fuel port_num) _ (Pm m ps)
    (wp_dispatch node fuel port_num m ps (fun r s' => r = _ /\ pm_ports s' = _ /\ _) _ _ _ Hreq
      ltac:(discriminate)
      ltac:(intros _; unfold pma_set_method; pma_run; rewrite (proj1 (proj2 (proj2 (proj2 (proj2 Hreq))))); simpl;
            apply (set_ext_run node port_num m ps sel p); [apply Hreq..|exact Hp])
      ltac:(by right))) as (r & [m' ps'] & E & -> & H2 & H3).
  cbn [pm_mad pm_ports] in *. subst ps'. exists m', (p <| po_perf ::= store_port_counters_ext m |>).
  split; [exact E|]. cbn [po_perf set_field] in *. change (po_perf (p <| po_perf ::= store_port_counters_ext m |>)) with (store_port_counters_ext m (po_perf p)) in *.
  split; [apply store_ext_counters|]. rewrite <- store_ext_counters.
  assert (Forall (fun c => 0 <= c < 2 ^ 64) (long_counters (store_port_counters_ext m (po_perf p))).*2) as R.
  { rewrite store_ext_counters. unfold perf_ok in Hc. apply Forall_app in Hc as [_ Hc]. apply Forall_app in Hc as [Hc _].
    destruct Hreq as [Hm _]. pose proof (fun f => smp_ok_get f m Hm) as G.
    unfold ext_expected, long_counters in *. cbn [zip_with].
    repeat (apply Forall_cons in Hc as [? Hc]; constructor; [destruct (has_flag _ _); [apply G|done]|]). constructor. }
  exact (fields_exact m' _ H3 R).
Qed.

(** ** Which datagrams the agent returns from *)

(** [returns n c]: with [n] ports, [c] returns and there still are [n] ports. *)
Definition returns {A} (n : nat) (c : M pma_st A) : Prop :=
  forall s, length (pm_ports s) = n -> wp c (fun _ s' => length (pm_ports s') = n) s.

Section Returns.
Context (n : nat).
Lemma returns_bind {A B} (c : M pma_st A) (k : A -> M pma_st B) :
  returns n c -> (forall a, returns n (k a)) -> returns n (bind c k).
Proof. intros Hc Hk s Hs. apply wp_bind. eapply wp_mono; [by apply Hc|]. intros a s' Hs'. by apply Hk. Qed.
Lemma returns_ret {A} (a : A) : returns n (ret a).
Proof. intros s Hs. done. Qed.
Lemma returns_mad_get f : returns n (mad_get f).
Proof. intros [m ps] Hs. by apply wp_mad_get. Qed.
Lemma returns_the_mad : returns n the_mad.
Proof. intros [m ps] Hs. done. Qed.
Lemma returns_upd_mad f : returns n (upd_mad f).
Proof. intros [m ps] Hs. done. Qed.
Lemma returns_mad_set f v : returns n (mad_set f v).
Proof. apply returns_upd_mad. Qed.
Lemma returns_set_status v : returns n (set_status v).
Proof. apply returns_upd_mad. Qed.
Lemma returns_clear : returns n clear_pma_data.
Proof. apply returns_upd_mad. Qed.
Lemma returns_when b (c : M pma_st unit) : returns n c -> returns n (when b c).
Proof. destruct b; [done|]. intros _. apply returns_ret. Qed.
Lemma returns_upd_perf i f : returns n (upd_perf i f).
Proof. intros [m ps] Hs. apply wp_upd_perf. simpl in *. by rewrite length_alter. Qed.
Lemma returns_the_perf i : 0 <= i < Z.of_nat n -> returns n (the_perf i).
Proof.
  intros Hi [m ps] Hs. destruct (lookup_lt_is_Some_2 ps (Z.to_nat i)) as [p Hp]; [simpl in Hs; lia|].
  eapply wp_the_perf; [lia|exact Hp|]. exact Hs.
Qed.
Lemma returns_with_port_select node sel body : 0 <= nd_port_start node -> nd_port_count node - nd_port_start node = Z.of_nat n ->
  (forall i, 0 <= i < Z.of_nat n -> returns n (body i)) -> returns n (with_port_select node sel body).
Proof.
  intros Hst Hn Hb. unfold with_port_select. apply returns_bind; [apply returns_mad_get|]. intros am.
  destruct (negb _); [apply returns_set_status|]. destruct (_ || _) eqn:E; [apply returns_set_status|]. bools. apply Hb. lia.
Qed.
End Returns.

Ltac returns_step :=
  lazymatch goal with
  | |- returns _ (bind _ _) => apply returns_bind; [|intros ?]
  | |- returns _ (ret _) => apply returns_ret
  | |- returns _ (mad_get _) => apply returns_mad_get
  | |- returns _ the_mad => apply returns_the_mad
  | |- returns _ (upd_mad _) => apply returns_upd_mad
  | |- returns _ (mad_set _ _) => apply returns_mad_set
  | |- returns _ (set_status _) => apply returns_set_status
  | |- returns _ clear_pma_data => apply returns_clear
  | |- returns _ (when _ _) => apply returns_when
  | |- returns _ (upd_perf _ _) => apply returns_upd_perf
  | |- returns _ (the_perf _) => apply returns_the_perf; lia
  | |- returns _ (with_port_select _ _ _) => apply returns_with_port_select; [assumption|assumption|intros ? ?]
  | |- returns _ (if _ then _ else _) => case_match
  | |- returns _ (let x := _ in _) => cbv zeta
  end.
Ltac returning := repeat returns_step.

Section Agent.
Context (node : pib_node) (n : nat) (port_num : Z).
Hypothesis Hstart : 0 <= nd_port_start node.
Hypothesis Hcount : nd_port_count node - nd_port_start node = Z.of_nat n.
Hypothesis Hnum : nd_port_start node <= port_num < nd_port_count node.

Lemma get_method_returns u : returns n u -> returns n (pma_get_method node port_num u).
Proof.
  intros Hu. unfold pma_get_method, pma_get_class_port_info, pma_get_port_samples_control, pma_get_port_samples_result,
    pma_get_port_samples_result_ext, pma_get_port_counters, pma_get_port_counters_ext, clear_but_port_select, pma_reply.
  returning. exact Hu.
Qed.

(** Set(PortCounters) uses up every fuel. *)
Lemma set_port_counters_none fuel s : pma_set_port_counters node fuel port_num s = None.
Proof.
  revert s. induction fuel as [|fuel IH]; intros s; [done|]. simpl. unfold bind at 1.
  destruct (clear_but_port_select s) as [[sel s1]|]; [|done]. unfold bind.
  destruct (with_port_select _ _ _ s1) as [[[] s2]|]; [|done]. apply IH.
Qed.

Lemma set_method_returns fuel u s : returns n u -> length (pm_ports s) = n ->
  be_get SMP_attr_id (pm_mad s) <> PIB_PMA_PORT_COUNTERS ->
  wp (pma_set_method node fuel port_num u) (fun _ s' => length (pm_ports s') = n) s.
Proof.
  intros Hu Hs Ha. destruct s as [m ps]. unfold pma_set_method. pma_run. simpl in Ha.
  rewrite (proj2 (Z.eqb_neq _ PIB_PMA_PORT_COUNTERS) Ha).
  match goal with |- wp ?c _ _ => enough (returns n c) as R by exact (R (Pm m ps) Hs) end.
  unfold pma_set_port_samples_control, pma_set_port_counters_ext, pma_get_port_samples_control, pma_get_port_counters_ext,
    clear_but_port_select, pma_reply. returning. exact Hu.
Qed.
End Agent.

Lemma reply_returns n : returns n pma_reply.
Proof. unfold pma_reply. returning. Qed.
Lemma reply_failure_returns n : returns n pma_reply_failure.
Proof. unfold pma_reply_failure. returning. Qed.

(** The agents of the driver and of pibnetd share the versions check and the
    dispatch on Get and Set and differ in the rest. *)
Definition set_port_counters_mad (m : list Z) : Prop :=
  be_get SMP_base_version m = IB_MGMT_BASE_VERSION /\ be_get SMP_class_version m = PIB_PMA_CLASS_VERSION
  /\ be_get SMP_method m = IB_MGMT_METHOD_SET /\ be_get SMP_attr_id m = PIB_PMA_PORT_COUNTERS.

Lemma agent_returns_iff node n fuel port_num u rest m ps :
  0 <= nd_port_start node -> nd_port_count node - nd_port_start node = Z.of_nat n ->
  nd_port_start node <= port_num < nd_port_count node -> length ps = n -> returns n u -> (forall method, returns n (rest method)) ->
  let agent := (let! base := mad_get SMP_base_version in
    let! class := mad_get SMP_class_version in
    if negb (base =? IB_MGMT_BASE_VERSION) || negb (class =? PIB_PMA_CLASS_VERSION) then
      set_status PIB_PMA_STATUS_BAD_VERSION ;; pma_reply
    else
      let! method := mad_get SMP_method in
      if method =? IB_MGMT_METHOD_GET then pma_get_method node port_num u
      else if method =? IB_MGMT_METHOD_SET then pma_set_method node fuel port_num u
      else rest method) in
  (exists r s', agent (Pm m ps) = Some (r, s')) <-> ~ set_port_counters_mad m.
Proof.
  intros Hst Hn Hnum Hps Hu Hrest agent. split.
  - intros (r & s' & E) (H1 & H2 & H3 & H4). revert E. unfold agent, mad_get, the_mad, gets, bind, ret. simpl.
    rewrite H1, H2. simpl. rewrite H3. simpl. unfold pma_set_method, mad_get, the_mad, gets, bind, ret. simpl. rewrite H4. simpl.
    by rewrite set_port_counters_none.
  - intros Hno. enough (wp agent (fun _ _ => True) (Pm m ps)) as H.
    { destruct (wp_run _ _ _ H) as (r & s' & E & _). eauto. }
    unfold agent. pma_run. destruct (negb _ || negb _) eqn:E; [pma_run; done|]. bools. pma_run.
    case_match eqn:E1; [eapply wp_mono; [by apply get_method_returns|done]|].
    case_match eqn:E2; [|eapply wp_mono; [by apply Hrest|done]]. bools.
    eapply wp_mono; [apply (set_method_returns node n); [done..|]|done]. intros E3. by apply Hno.
Qed.

(** C37. Neither agent accesses a port that does not exist, and each returns from every
    datagram but Set(PortCounters).  The handler of that one ends by calling
    itself, so it never returns, whatever the datagram says. *)
Theorem pma_agents_return_iff (node : pib_node) (fuel : nat) (port_num port_cnt in_port : Z) (m : list Z) (ps qs : list pib_port)
    (Hstart : 0 <= nd_port_start node <= port_num) (Hnum : port_num < nd_port_count node)
    (Hps : Zlen ps = nd_port_count node - nd_port_start node) (Hin : 0 <= in_port < port_cnt) (Hqs : Zlen qs = port_cnt) :
  ((exists r s', pib_process_pma_mad node fuel port_num (Pm m ps) = Some (r, s')) <-> ~ set_port_counters_mad m)
  /\ ((exists r s', netd_process_pma_mad port_cnt fuel in_port (Pm m qs) = Some (r, s')) <-> ~ set_port_counters_mad m).
Proof.
  split.
  - apply (agent_returns_iff node (length ps) fuel port_num pma_reply (fun method => if _ || _ then _ else _) m ps);
      [lia|unfold Zlen in Hps; lia|lia|done|apply reply_returns|intros; unfold pma_reply; returning].
  - apply (agent_returns_iff (netd_node port_cnt) (length qs) fuel in_port pma_reply_failure (fun method => if _ || _ then _ else _) m qs);
      [done|unfold Zlen in Hqs; simpl; lia|done|done|apply reply_failure_returns|intros; unfold pma_reply, pma_reply_failure; returning].
Qed.

(** ** Witnesses *)

Definition demo_perf_port : pib_port :=
  demo_port <| po_perf ::= fun p => p <| pf_symbol_error_counter := 70000 |> <| pf_xmit_data := 5 |> |>.
Definition demo_pma (method attr : Z) : list Z :=
  be_set SMP_base_version 1 (be_set SMP_class_version 1 (be_set SMP_method method (be_set SMP_attr_id attr
    (be_set PM_port_select 1 (be_set PC_counter_select 0x0011 (be_set PCX_xmit_data 9 (replicate MAD_SIZE 0))))))).
Definition demo_node : pib_node := {| nd_port_count := 2; nd_port_start := 1 |}.

Lemma demo_pma_ok method attr : smp_ok (demo_pma method attr).
Proof. unfold demo_pma. smp_oks. Qed.
Lemma demo_perf_ok : perf_ok (po_perf demo_perf_port).
Proof. unfold perf_ok. repeat constructor; vm_compute; first [reflexivity | discriminate]. Qed.

Lemma port_counters_saturated_witness :
  exists m', pib_process_pma_mad demo_node 0 1 (Pm (demo_pma IB_MGMT_METHOD_GET PIB_PMA_PORT_COUNTERS) [demo_perf_port])
             = Some (3, Pm m' [demo_perf_port])
    /\ be_get PC_symbol_error_counter m' = 0xFFFF.
Proof.
  destruct (port_counters_saturated demo_node 0 1 1 (demo_pma IB_MGMT_METHOD_GET PIB_PMA_PORT_COUNTERS) [demo_perf_port] demo_perf_port)
    as (m' & E & H & _).
  - split; [apply demo_pma_ok|]. split_and!; vm_compute; reflexivity.
  - split; [simpl; lia|reflexivity].
  - exact demo_perf_ok.
  - exists m'. split; [exact E|]. apply Forall_cons in H as [H _]. etransitivity; [exact H|]. vm_compute. reflexivity.
Defined.

Lemma port_counters_ext_set_witness :
  exists m' p', pib_process_pma_mad demo_node 0 1 (Pm (demo_pma IB_MGMT_METHOD_SET PIB_PMA_PORT_COUNTERS_EXT) [demo_perf_port])
             = Some (3, Pm m' [p'])
    /\ (long_counters (po_perf p')).*2 = [9; 0; 0; 0; 0; 0; 0; 0].
Proof.
  destruct (port_counters_ext_set demo_node 0 1 1 (demo_pma IB_MGMT_METHOD_SET PIB_PMA_PORT_COUNTERS_EXT) [demo_perf_port] demo_perf_port)
    as (m' & p' & E & H & _).
  - split; [apply demo_pma_ok|]. split_and!; vm_compute; reflexivity.
  - split; [simpl; lia|reflexivity].
  - exact demo_perf_ok.
  - exists m', p'. split; [exact E|]. rewrite H. vm_compute. reflexivity.
Defined.

Lemma pma_agents_return_iff_witness :
  ~ exists r s', pib_process_pma_mad demo_node 1000 1 (Pm (demo_pma IB_MGMT_METHOD_SET PIB_PMA_PORT_COUNTERS) [demo_perf_port]) = Some (r, s').
Proof.
  destruct (pma_agents_return_iff demo_node 1000 1 1 0 (demo_pma IB_MGMT_METHOD_SET PIB_PMA_PORT_COUNTERS) [demo_perf_port] [demo_perf_port])
    as [H _]; [simpl; lia|simpl; lia|reflexivity|lia|reflexivity|].
  rewrite H. intros Hno. apply Hno. split_and!; vm_compute; reflexivity.
Defined.
