(* ===== verification/SwitchSmp.v ===== *)
(** * The subnet management agent of a switch (pibnetd/smp.c)

    The state of a switch (ports, forwarding tables, SwitchInfo) and the agent that
    answers subnet management packets on it, in place in the packet.  A handler
    is a computation on the packet and the switch; [None] is an access outside an
    array of the switch, which the source does not check for.

    The theorems about it are in SwitchThm.v. *)

From S2P Require Import Prelude Mr Packet Wire Port.

(** ** The switch *)

Definition PIB_MAX_PORTS : Z := 33.
Definition PIB_MAX_LID : Z := 0x10000.
Definition PIB_MCAST_LID_BASE : Z := 0xC000.

(** The forwarding tables are allocated with zeros: an absent entry is 0. *)
Record pib_switch := {
  sw_port_cnt : Z; sw_ports : list pib_port;
  sw_linear_fdb_top : Z; sw_default_port : Z; sw_default_mcast_primary_port : Z;
  sw_default_mcast_not_primary_port : Z; sw_life_time_value : Z; sw_port_state_change : Z;
  sw_ucast_fwd_table : gmap Z Z; sw_mcast_fwd_table : gmap (Z * Z) Z }.
#[export] Instance eta_pib_switch : Eta pib_switch := fun s => {|
  sw_port_cnt := sw_port_cnt s; sw_ports := sw_ports s; sw_linear_fdb_top := sw_linear_fdb_top s;
  sw_default_port := sw_default_port s; sw_default_mcast_primary_port := sw_default_mcast_primary_port s;
  sw_default_mcast_not_primary_port := sw_default_mcast_not_primary_port s; sw_life_time_value := sw_life_time_value s;
  sw_port_state_change := sw_port_state_change s; sw_ucast_fwd_table := sw_ucast_fwd_table s;
  sw_mcast_fwd_table := sw_mcast_fwd_table s |}.

(** A switch as pibnetd creates it (main.c). *)
Definition init_switch (pib_hca_guid_base : Z) : pib_switch := {|
  sw_port_cnt := PIB_MAX_PORTS;
  sw_ports := (fun i => port_init i NETD_PORT_CAP_FLAGS IB_PORT_DOWN PIB_PHYS_PORT_POLLING
                          (Z.lor pib_hca_guid_base 0x0101) PIB_DEFAULT_PKEY_FULL) <$> seqZ 0 PIB_MAX_PORTS;
  sw_linear_fdb_top := 0; sw_default_port := 0; sw_default_mcast_primary_port := 0;
  sw_default_mcast_not_primary_port := 0; sw_life_time_value := 0; sw_port_state_change := 0;
  sw_ucast_fwd_table := ∅; sw_mcast_fwd_table := ∅ |}.

Definition ucast_in (i : Z) : bool := (0 <=? i) && (i <? PIB_MCAST_LID_BASE).
Definition mcast_in (row blk : Z) : bool :=
  (0 <=? row) && (row <? PIB_MAX_LID - PIB_MCAST_LID_BASE) && (0 <=? blk) && (blk <? 16).

(** The entries as they are read. *)
Definition ucast_entry (sw : pib_switch) (i : Z) : Z := default 0 (sw_ucast_fwd_table sw !! i).
Definition mcast_entry (sw : pib_switch) (row blk : Z) : Z := default 0 (sw_mcast_fwd_table sw !! (row, blk)).

Definition port_at (sw : pib_switch) (i : Z) : option pib_port := if 0 <=? i then sw_ports sw !! Z.to_nat i else None.
Definition upd_port (i : Z) (f : pib_port -> pib_port) (sw : pib_switch) : pib_switch :=
  sw <| sw_ports ::= alter f (Z.to_nat i) |>.

(** ** Handlers *)

Record smp_st := { ss_smp : list Z; ss_sw : pib_switch }.
#[export] Instance eta_smp_st : Eta smp_st := fun s => {| ss_smp := ss_smp s; ss_sw := ss_sw s |}.

Definition the_smp : M smp_st (list Z) := gets ss_smp.
Definition the_sw : M smp_st pib_switch := gets ss_sw.
Definition smp_get (f : fld) : M smp_st Z := let! smp := the_smp in ret (be_get f smp).
Definition upd_smp (f : list Z -> list Z) : M smp_st unit := modify (fun s => s <| ss_smp ::= f |>).
Definition upd_sw (f : pib_switch -> pib_switch) : M smp_st unit := modify (fun s => s <| ss_sw ::= f |>).
Definition smp_set (f : fld) (v : Z) : M smp_st unit := upd_smp (be_set f v).
Definition or_status (v : Z) : M smp_st unit := upd_smp (smp_or_status v).
Definition sw_port (i : Z) : M smp_st pib_port := let! sw := the_sw in of_option (port_at sw i).

Definition ucast_get (i : Z) : M smp_st Z :=
  if ucast_in i then gets (fun s => ucast_entry (ss_sw s) i) else bug.
Definition ucast_set (i v : Z) : M smp_st unit :=
  if ucast_in i then upd_sw (fun sw => sw <| sw_ucast_fwd_table ::= <[i := v]> |>) else bug.
Definition mcast_get (row blk : Z) : M smp_st Z :=
  if mcast_in row blk then gets (fun s => mcast_entry (ss_sw s) row blk) else bug.
Definition mcast_set (row blk v : Z) : M smp_st unit :=
  if mcast_in row blk then upd_sw (fun sw => sw <| sw_mcast_fwd_table ::= <[(row, blk) := v]> |>) else bug.

Definition reply_smp : M smp_st Z := fun s => let '(r, smp) := reply (ss_smp s) in Some (r, s <| ss_smp := smp |>).
Definition reply_failure_smp : M smp_st Z :=
  fun s => let '(r, smp) := reply_failure (ss_smp s) in Some (r, s <| ss_smp := smp |>).

(** The fields of NodeInfo and SwitchInfo. *)
Definition NI_base_version := Fld 64 1.
Definition NI_class_version := Fld 65 1.
Definition NI_node_type := Fld 66 1.
Definition NI_node_ports := Fld 67 1.
Definition NI_sys_image_guid := Fld 68 8.
Definition NI_node_guid := Fld 76 8.
Definition NI_port_guid := Fld 84 8.
Definition NI_partition_cap := Fld 92 2.
Definition NI_device_id := Fld 94 2.
Definition NI_revision := Fld 96 4.
Definition NI_local_port_num := Fld 100 1.
Definition NI_vendor_id := Fld 101 3.
Definition SI_linear_fdb_cap := Fld 64 2.
Definition SI_random_fdb_cap := Fld 66 2.
Definition SI_multicast_fdb_cap := Fld 68 2.
Definition SI_linear_fdb_top := Fld 70 2.
Definition SI_default_port := Fld 72 1.
Definition SI_default_mcast_primary_port := Fld 73 1.
Definition SI_default_mcast_not_primary_port := Fld 74 1.
Definition SI_various1 := Fld 75 1.
Definition SI_lids_per_port := Fld 76 2.
Definition SI_partition_enforcement_cap := Fld 78 2.
Definition SI_various2 := Fld 80 1.

Definition PIB_DRIVER_DEVICE_ID : Z := 1.
Definition PIB_DRIVER_REVISION : Z := 1.
Definition IBV_NODE_SWITCH : Z := 2.
(** The characters of Pseudo InfiniBand HCA switch. *)
Definition PIB_SWITCH_DESCRIPTION : list Z :=
  [80; 115; 101; 117; 100; 111; 32; 73; 110; 102; 105; 110; 105; 66; 97; 110; 100; 32; 72; 67; 65; 32; 115;
   119; 105; 116; 99; 104].

(** [strncpy(dst, src, n)] pads with zeros. *)
Definition strncpy (src : list Z) (n : nat) : list Z := take n (src ++ replicate n 0).

Section Agent.
(** A global variable set at start from the hardware address of an interface. *)
Context (pib_hca_guid_base : Z).

Definition subn_get_nodedescription (in_port_num : Z) : M smp_st Z :=
  let! m := smp_get SMP_attr_mod in
  when (negb (m =? 0)) (or_status PIB_SMP_INVALID_FIELD) ;;
  upd_smp (put_bytes SMP_data (strncpy PIB_SWITCH_DESCRIPTION 64)) ;;
  reply_smp.

Definition subn_get_nodeinfo (in_port_num : Z) : M smp_st Z :=
  let! sw := the_sw in
  smp_set NI_base_version IB_MGMT_BASE_VERSION ;;
  smp_set NI_class_version PIB_MGMT_CLASS_VERSION ;;
  smp_set NI_node_type IBV_NODE_SWITCH ;;
  smp_set NI_node_ports (sw_port_cnt sw - 1) ;;
  smp_set NI_sys_image_guid (Z.lor pib_hca_guid_base 0x0200) ;;
  smp_set NI_node_guid (Z.lor pib_hca_guid_base 0x0100) ;;
  smp_set NI_port_guid (Z.lor pib_hca_guid_base 0x0100) ;;
  smp_set NI_partition_cap 1 ;;
  smp_set NI_device_id PIB_DRIVER_DEVICE_ID ;;
  smp_set NI_revision PIB_DRIVER_REVISION ;;
  smp_set NI_local_port_num in_port_num ;;
  smp_set NI_vendor_id 0 ;;
  reply_smp.

Definition subn_get_switchinfo (in_port_num : Z) : M smp_st Z :=
  let! sw := the_sw in
  smp_set SI_linear_fdb_cap 768 ;;
  smp_set SI_random_fdb_cap 3072 ;;
  smp_set SI_multicast_fdb_cap 256 ;;
  smp_set SI_linear_fdb_top (sw_linear_fdb_top sw) ;;
  smp_set SI_default_port (sw_default_port sw) ;;
  smp_set SI_default_mcast_primary_port (sw_default_mcast_primary_port sw) ;;
  smp_set SI_default_mcast_not_primary_port (sw_default_mcast_not_primary_port sw) ;;
  smp_set SI_various1 (Z.lor (Z.shiftl (sw_life_time_value sw) 3) (Z.shiftl (sw_port_state_change sw) 2)) ;;
  smp_set SI_lids_per_port 1 ;;
  smp_set SI_partition_enforcement_cap 0 ;;
  smp_set SI_various2 0 ;;
  reply_smp.

Definition subn_set_switchinfo (in_port_num : Z) : M smp_st Z :=
  let! smp := the_smp in
  let various1 := be_get SI_various1 smp in
  upd_sw (fun sw => sw
    <| sw_linear_fdb_top := be_get SI_linear_fdb_top smp |>
    <| sw_default_port := be_get SI_default_port smp |>
    <| sw_default_mcast_primary_port := be_get SI_default_mcast_primary_port smp |>
    <| sw_default_mcast_not_primary_port := be_get SI_default_mcast_not_primary_port smp |>
    <| sw_life_time_value := Z.land (Z.shiftr various1 3) 0x1F |>) ;;
  when (negb (Z.land (Z.shiftr various1 2) 0x01 =? 0)) (upd_sw (fun sw => sw <| sw_port_state_change := 0 |>)) ;;
  reply_smp.

Definition subn_get_guidinfo (in_port_num : Z) : M smp_st Z := reply_failure_smp.
Definition subn_set_guidinfo (in_port_num : Z) : M smp_st Z := reply_failure_smp.

Definition sw_port_type (port_num : Z) : pib_port_type := if negb (port_num =? 0) then PIB_PORT_SW_EXT else PIB_PORT_BASE_SP0.

(** The port number is a byte of the attribute modifier; the local port number
    written first is cleared with the rest of the data. *)
Definition subn_get_portinfo (in_port_num : Z) : M smp_st Z :=
  let! m := smp_get SMP_attr_mod in
  let port_num := u8 m in
  let! port := sw_port port_num in
  smp_set PI_local_port_num in_port_num ;;
  upd_smp (pib_subn_get_portinfo (sw_port_type port_num) port) ;;
  reply_smp.

(** The end of the handler: the link of a port that is set is up. *)
Definition link_up (port_num : Z) : M smp_st unit :=
  upd_sw (upd_port port_num (upd_attr (fun a => a <| pa_phys_state := PIB_PHYS_PORT_LINK_UP |>))) ;;
  let! port := sw_port port_num in
  when (pa_state (po_attr port) <? IB_PORT_INIT)
    (upd_sw (fun sw => sw <| sw_port_state_change := 1 |>) ;;
     upd_sw (upd_port port_num (upd_attr (fun a => a <| pa_state := IB_PORT_INIT |>)))).

Definition subn_set_portinfo (in_port_num : Z) : M smp_st Z :=
  let! smp := the_smp in
  let port_num := u8 (be_get SMP_attr_mod smp) in
  let! port := sw_port port_num in
  upd_sw (upd_port port_num (pib_subn_set_portinfo (sw_port_type port_num) smp)) ;;
  link_up port_num ;;
  reply_smp.

Definition pkey_block (attr_mod : Z) : Z := Z.land attr_mod 0xFFFF.
Definition pkey_port (attr_mod : Z) : Z := Z.land (Z.shiftr attr_mod 16) 0xFFFF.

Definition subn_get_pkey_table (in_port_num : Z) : M smp_st Z :=
  let! m := smp_get SMP_attr_mod in
  let! sw := the_sw in
  (if negb (pkey_block m =? 0) then or_status PIB_SMP_INVALID_FIELD
   else if sw_port_cnt sw <=? pkey_port m then or_status PIB_SMP_INVALID_FIELD
   else let! port := sw_port (pkey_port m) in
        upd_smp (be_set_array SMP_data 2 (take 32 (po_pkey_table port)))) ;;
  reply_smp.

Definition subn_set_pkey_table (in_port_num : Z) : M smp_st Z :=
  let! smp := the_smp in
  let m := be_get SMP_attr_mod smp in
  let! sw := the_sw in
  (if negb (pkey_block m =? 0) then or_status PIB_SMP_INVALID_FIELD
   else if sw_port_cnt sw <=? pkey_port m then or_status PIB_SMP_INVALID_FIELD
   else let! port := sw_port (pkey_port m) in
        upd_sw (upd_port (pkey_port m) (fun p => p <| po_pkey_table := be_array SMP_data 2 32 smp |>))) ;;
  reply_smp.

Definition subn_get_sl_to_vl_table (in_port_num : Z) : M smp_st Z := reply_failure_smp.
Definition subn_set_sl_to_vl_table (in_port_num : Z) : M smp_st Z := reply_failure_smp.
Definition subn_get_vl_arb_table (in_port_num : Z) : M smp_st Z := reply_failure_smp.
Definition subn_set_vl_arb_table (in_port_num : Z) : M smp_st Z := reply_failure_smp.

Definition subn_get_linear_forward_table (in_port_num : Z) : M smp_st Z :=
  let! m := smp_get SMP_attr_mod in
  let! sw := the_sw in
  (if 767 <? m then or_status PIB_SMP_INVALID_FIELD
   else for_each (fun i =>
     when (m * 64 + i <=? sw_linear_fdb_top sw)
       (let! v := ucast_get (m * 64 + i) in smp_set (elt SMP_data 1 (Z.to_nat i)) v)) (seqZ 0 64)) ;;
  reply_smp.

Definition subn_set_linear_forward_table (in_port_num : Z) : M smp_st Z :=
  let! smp := the_smp in
  let m := be_get SMP_attr_mod smp in
  (if 767 <? m then or_status PIB_SMP_INVALID_FIELD
   else for_each (fun i => ucast_set (m * 64 + i) (be_get (elt SMP_data 1 (Z.to_nat i)) smp)) (seqZ 0 64)) ;;
  reply_smp.

Definition subn_get_random_forward_table (in_port_num : Z) : M smp_st Z := reply_failure_smp.

(** A port number 0xFF is invalid: the valid bit is cleared. *)
Definition random_value (value : Z) : Z := if Z.land value 0xFF =? 0xFF then Z.land value (Z.lnot 0x8000) else value.

Definition subn_set_random_forward_table (in_port_num : Z) : M smp_st Z :=
  let! smp := the_smp in
  (if 3071 <? be_get SMP_attr_mod smp then or_status PIB_SMP_INVALID_FIELD
   else for_each (fun i =>
     let value := be_get (elt SMP_data 4 (Z.to_nat i)) smp in
     let dlid := u16 (Z.shiftr value 16) in
     let value := random_value value in
     let! sw := the_sw in
     ucast_set dlid (if has_flag value 0x8000 then Z.land value 0xFF else sw_default_port sw)) (seqZ 0 16)) ;;
  reply_smp.

Definition mcast_lid_offset (attr_mod : Z) : Z := Z.land attr_mod 0xFF * 32.
Definition mcast_port_index (attr_mod : Z) : Z := Z.shiftr attr_mod 28.

Definition subn_get_mcast_forward_table (in_port_num : Z) : M smp_st Z :=
  let! m := smp_get SMP_attr_mod in
  for_each (fun i =>
    let! v := mcast_get (mcast_lid_offset m + i) (mcast_port_index m) in
    smp_set (elt SMP_data 2 (Z.to_nat i)) v) (seqZ 0 32) ;;
  reply_smp.

Definition subn_set_mcast_forward_table (in_port_num : Z) : M smp_st Z :=
  let! smp := the_smp in
  let m := be_get SMP_attr_mod smp in
  for_each (fun i =>
    mcast_set (mcast_lid_offset m + i) (mcast_port_index m) (be_get (elt SMP_data 2 (Z.to_nat i)) smp)) (seqZ 0 32) ;;
  reply_smp.

(** ** Dispatch *)

Definition unsupported (status : Z) : M smp_st Z := or_status status ;; reply_smp.

Definition process_smp_get_method (in_port_num : Z) : M smp_st Z :=
  let! attr_id := smp_get SMP_attr_id in
  upd_smp smp_clear_data ;;
  if attr_id =? PIB_SMP_ATTR_NODE_DESC then subn_get_nodedescription in_port_num
  else if attr_id =? PIB_SMP_ATTR_NODE_INFO then subn_get_nodeinfo in_port_num
  else if attr_id =? PIB_SMP_ATTR_SWITCH_INFO then subn_get_switchinfo in_port_num
  else if attr_id =? PIB_SMP_ATTR_GUID_INFO then subn_get_guidinfo in_port_num
  else if attr_id =? PIB_SMP_ATTR_PORT_INFO then subn_get_portinfo in_port_num
  else if attr_id =? PIB_SMP_ATTR_PKEY_TABLE then subn_get_pkey_table in_port_num
  else if attr_id =? PIB_SMP_ATTR_SL_TO_VL_TABLE then subn_get_sl_to_vl_table in_port_num
  else if attr_id =? PIB_SMP_ATTR_VL_ARB_TABLE then subn_get_vl_arb_table in_port_num
  else if attr_id =? PIB_SMP_ATTR_LINEAR_FORWARD_TABLE then subn_get_linear_forward_table in_port_num
  else if attr_id =? PIB_SMP_ATTR_RANDOM_FORWARD_TABLE then subn_get_random_forward_table in_port_num
  else if attr_id =? PIB_SMP_ATTR_MCAST_FORWARD_TABLE then subn_get_mcast_forward_table in_port_num
  else unsupported PIB_SMP_UNSUP_METH_ATTR.

Definition process_smp_set_method (in_port_num : Z) : M smp_st Z :=
  let! attr_id := smp_get SMP_attr_id in
  if attr_id =? PIB_SMP_ATTR_SWITCH_INFO then subn_set_switchinfo in_port_num
  else if attr_id =? PIB_SMP_ATTR_GUID_INFO then subn_set_guidinfo in_port_num
  else if attr_id =? PIB_SMP_ATTR_PORT_INFO then subn_set_portinfo in_port_num
  else if attr_id =? PIB_SMP_ATTR_PKEY_TABLE then subn_set_pkey_table in_port_num
  else if attr_id =? PIB_SMP_ATTR_SL_TO_VL_TABLE then subn_set_sl_to_vl_table in_port_num
  else if attr_id =? PIB_SMP_ATTR_VL_ARB_TABLE then subn_set_vl_arb_table in_port_num
  else if attr_id =? PIB_SMP_ATTR_LINEAR_FORWARD_TABLE then subn_set_linear_forward_table in_port_num
  else if attr_id =? PIB_SMP_ATTR_RANDOM_FORWARD_TABLE then subn_set_random_forward_table in_port_num
  else if attr_id =? PIB_SMP_ATTR_MCAST_FORWARD_TABLE then subn_set_mcast_forward_table in_port_num
  else unsupported PIB_SMP_UNSUP_METH_ATTR.

(** The status without the direction bit. *)
Definition smp_failed (smp : list Z) : bool := negb (Z.land (be_get SMP_status smp) (Z.lnot IB_SMP_DIRECTION) =? 0).

Definition pib_process_smp (in_port_num : Z) : M smp_st Z :=
  let! method := smp_get SMP_method in
  let! mgmt_class := smp_get SMP_mgmt_class in
  if method =? IB_MGMT_METHOD_GET then process_smp_get_method in_port_num
  else if method =? IB_MGMT_METHOD_SET then
    let! r := process_smp_set_method in_port_num in
    let! smp := the_smp in
    if smp_failed smp then ret r else process_smp_get_method in_port_num
  else if ((method =? IB_MGMT_METHOD_GET_RESP) || (method =? IB_MGMT_METHOD_TRAP_REPRESS))
          && (mgmt_class =? IB_MGMT_CLASS_SUBN_LID_ROUTED) then
    ret (Z.lor IB_MAD_RESULT_SUCCESS IB_MAD_RESULT_CONSUMED)
  else unsupported PIB_SMP_UNSUP_METHOD.
End Agent.
