(* ===== verification/SwitchThm.v ===== *)
(** * The subnet management agent of a switch: theorems

    Which forwarding entries Set(LinearForwardingTable) and
    Set(MulticastForwardingTable) change and that the response reports what was
    set; that every packet whose indices are within the arrays of the switch is
    answered without an access out of bounds, and what happens to the others. *)

From S2P Require Import Prelude Mr Packet Wire Port SwitchSmp.

(** ** Frames

    A handler writes the method, the status and the data of the packet and nothing
    else of it; a Get handler leaves the switch alone. *)

Definition body_byte (i : nat) : Prop := (3 <= i < 6)%nat \/ (64 <= i < 128)%nat.
Definition same_hdr (a b : list Z) : Prop := length b = length a /\ forall i, ~ body_byte i -> b !! i = a !! i.

#[export] Instance same_hdr_preorder : PreOrder same_hdr.
Proof.
  split; [done|]. intros a b c [H1 H2] [H3 H4]. split; [congruence|]. intros i Hi. rewrite H4 by done. by apply H2.
Qed.

Definition in_body (f : fld) : Prop := forall i, (f_off f <= i < f_off f + f_len f)%nat -> body_byte i.
Definition off_body (f : fld) : Prop := forall i, (f_off f <= i < f_off f + f_len f)%nat -> ~ body_byte i.

Lemma in_body_fits f : (0 < f_len f)%nat -> in_body f -> fits f MAD_SIZE.
Proof.
  intros Hl H. unfold fits, MAD_SIZE. destruct (H (f_off f + f_len f - 1)%nat ltac:(lia)); lia.
Qed.

Lemma same_hdr_put off bs smp : (off + length bs <= length smp)%nat -> in_body (Fld off (length bs)) ->
  same_hdr smp (put_bytes off bs smp).
Proof.
  intros Hl Hb. split; [by apply length_put_bytes|]. intros i Hi. rewrite lookup_put_bytes by done.
  rewrite decide_False; [done|]. intros H. by apply Hi, Hb.
Qed.
Lemma same_hdr_be_set f v smp : smp_ok smp -> fits f MAD_SIZE -> in_body f -> same_hdr smp (be_set f v smp).
Proof.
  intros [Hl _] Hf Hb. unfold be_set. destruct f as [o n]. apply same_hdr_put; rewrite length_be_split; [by rewrite Hl|done].
Qed.

Lemma same_hdr_get f a b : same_hdr a b -> off_body f -> be_get f b = be_get f a.
Proof.
  intros [_ H] Hf. unfold be_get, be_at. f_equal. apply list_eq. intros i. rewrite !lookup_bytes_at.
  destruct (decide (i < f_len f)%nat); [|done]. apply H, Hf. lia.
Qed.

Ltac body :=
  match goal with |- in_body ?f => let g := eval hnf in f in change (in_body g) | _ => idtac end;
  match goal with |- off_body ?f => let g := eval hnf in f in change (off_body g) | _ => idtac end;
  let i := fresh "i" in intros i; cbn [f_off f_len]; unfold body_byte, SMP_data, SMP_DATA_SIZE in *; lia.

(** The relation Get handlers obey. *)
Definition answers : relation smp_st := fun s s' =>
  ss_sw s' = ss_sw s /\ (smp_ok (ss_smp s) -> smp_ok (ss_smp s') /\ same_hdr (ss_smp s) (ss_smp s')).
#[export] Instance answers_preorder : PreOrder answers.
Proof.
  split; [intros s; split; [done|]; intros; split; done|].
  intros s s1 s2 [H1 H2] [H3 H4]. split; [congruence|]. intros Hs. destruct (H2 Hs) as [H5 H6].
  destruct (H4 H5) as [H7 H8]. split; [done|]. by transitivity (ss_smp s1).
Qed.

Lemma answers_upd_smp g :
  (forall smp, smp_ok smp -> smp_ok (g smp) /\ same_hdr smp (g smp)) -> obeys answers (upd_smp g).
Proof. intros H. apply obeys_modify. intros s. split; [done|]. apply H. Qed.

Lemma answers_smp_set f v : fits f MAD_SIZE -> in_body f -> obeys answers (smp_set f v).
Proof. intros Hf Hb. apply answers_upd_smp. intros smp Hs. split; [by apply smp_set_ok|by apply same_hdr_be_set]. Qed.

Lemma answers_or_status v : obeys answers (or_status v).
Proof.
  apply answers_upd_smp. intros smp Hs. split; [by apply smp_set_ok; [|fits_dec]|]. apply same_hdr_be_set; [done|fits_dec|body].
Qed.

Lemma answers_reply_with r s : answers s (s <| ss_smp := (smp_reply_with r (ss_smp s)).2 |>).
Proof.
  split; [done|]. intros Hs. split; [by apply smp_reply_ok|]. unfold smp_reply_with.
  assert (smp_ok (be_set SMP_method IB_MGMT_METHOD_GET_RESP (ss_smp s))) as H1 by smp_oks.
  assert (same_hdr (ss_smp s) (be_set SMP_method IB_MGMT_METHOD_GET_RESP (ss_smp s))) as H2.
  { apply same_hdr_be_set; [done|fits_dec|body]. }
  cbv zeta. simpl. destruct (_ =? _); [|done]. etransitivity; [exact H2|]. apply same_hdr_be_set; [done|fits_dec|body].
Qed.
Lemma answers_reply : obeys answers reply_smp.
Proof. intros s r s'. unfold reply_smp, reply. simpl. intros [= <- <-]. exact (answers_reply_with 0 s). Qed.
Lemma answers_reply_failure : obeys answers reply_failure_smp.
Proof. intros s r s'. unfold reply_failure_smp, reply_failure. simpl. intros [= <- <-]. exact (answers_reply_with 0 s). Qed.

Lemma answers_clear : obeys answers (upd_smp smp_clear_data).
Proof.
  apply answers_upd_smp. intros smp Hs. split; [by smp_oks|].
  apply same_hdr_put; rewrite length_replicate; [rewrite (proj1 Hs); fits_dec|body].
Qed.

Lemma obeys_for_each_in {S A} (R : relation S) `{!PreOrder R} (f : A -> M S unit) l :
  (forall x, x ∈ l -> obeys R (f x)) -> obeys R (for_each f l).
Proof.
  intros H. induction l as [|x l IH]; simpl; [by apply obeys_ret|].
  apply obeys_bind; [done|apply H; left|]. intros _. apply IH. intros y Hy. apply H. by right.
Qed.

#[export] Hint Resolve answers_or_status answers_reply answers_reply_failure answers_clear : obeys.

(** Get handlers. *)

Ltac answers :=
  repeat (first
    [ progress cbv beta zeta
    | match goal with
      | |- obeys answers (smp_set _ _) => apply answers_smp_set; [fits_dec|body]
      | |- obeys answers (for_each _ (seqZ _ _)) =>
          apply obeys_for_each_in; [exact _|]; let i := fresh "i" in let Hi := fresh in intros i Hi; apply elem_of_seqZ in Hi
      end
    | obey_step | solve [auto 1 with obeys nocore] ]).

Lemma answers_smp_get f : obeys answers (smp_get f).
Proof. unfold smp_get, the_smp. obey. Qed.
Lemma answers_the_sw : obeys answers the_sw.
Proof. unfold the_sw. obey. Qed.
Lemma answers_sw_port i : obeys answers (sw_port i).
Proof. unfold sw_port, the_sw. obey. Qed.
Lemma answers_ucast_get i : obeys answers (ucast_get i).
Proof. unfold ucast_get. obey. Qed.
Lemma answers_mcast_get i j : obeys answers (mcast_get i j).
Proof. unfold mcast_get. obey. Qed.
#[export] Hint Resolve answers_smp_get answers_the_sw answers_sw_port answers_ucast_get answers_mcast_get : obeys.

Lemma answers_get_nodedescription p : obeys answers (subn_get_nodedescription p).
Proof.
  unfold subn_get_nodedescription. answers. apply answers_upd_smp. intros smp Hs.
  assert (length (strncpy PIB_SWITCH_DESCRIPTION 64) = 64%nat) as Hl by reflexivity. split.
  - apply smp_put_ok; [done|rewrite Hl; fits_dec|]. apply Forall_take, Forall_app_2; [|apply Forall_replicate; unfold byte_ok; lia].
    unfold PIB_SWITCH_DESCRIPTION, byte_ok. repeat constructor; lia.
  - apply same_hdr_put; rewrite Hl; [rewrite (proj1 Hs); fits_dec|body].
Qed.
Lemma answers_get_nodeinfo g p : obeys answers (subn_get_nodeinfo g p).
Proof. unfold subn_get_nodeinfo. answers. Qed.
Lemma answers_get_switchinfo p : obeys answers (subn_get_switchinfo p).
Proof. unfold subn_get_switchinfo. answers. Qed.

(** [x] is [smp] with a part of its body written. *)
Definition framed (smp x : list Z) : Prop := smp_ok x /\ same_hdr smp x.

Lemma framed_be_set smp f v x : fits f MAD_SIZE -> in_body f -> framed smp x -> framed smp (be_set f v x).
Proof. intros Hf Hb [H1 H2]. split; [by apply smp_set_ok|]. etransitivity; [exact H2|by apply same_hdr_be_set]. Qed.
Lemma framed_le_set smp f v x : fits f MAD_SIZE -> in_body f -> framed smp x -> framed smp (le_set f v x).
Proof.
  intros Hf Hb [H1 H2]. split; [by apply smp_le_set_ok|]. etransitivity; [exact H2|]. destruct f as [o n].
  apply same_hdr_put; rewrite length_le_split; [by rewrite (proj1 H1)|done].
Qed.
Lemma framed_clear smp x : framed smp x -> framed smp (smp_clear_data x).
Proof.
  intros [H1 H2]. split; [by smp_oks|]. etransitivity; [exact H2|].
  apply same_hdr_put; rewrite length_replicate; [rewrite (proj1 H1); fits_dec|body].
Qed.
Lemma framed_or smp f v x : fits f MAD_SIZE -> in_body f -> framed smp x -> framed smp (or_field f v x).
Proof. apply framed_be_set. Qed.
Lemma framed_opt smp c g x : (forall y, framed smp y -> framed smp (g y)) -> framed smp x -> framed smp (opt c g x).
Proof. intros Hg Hx. destruct c; [by apply Hg|done]. Qed.

Ltac framed_step :=
  lazymatch goal with
  | H : framed ?s ?x |- framed ?s ?x => exact H
  | |- framed _ (smp_clear_data _) => apply framed_clear
  | |- framed _ (opt _ _ _) => apply framed_opt; [intros ? ?|]
  | |- framed _ (be_set _ _ _) => apply framed_be_set; [fits_dec|body|]
  | |- framed _ (or_field _ _ _) => apply framed_or; [fits_dec|body|]
  | |- framed _ (le_set _ _ _) => apply framed_le_set; [fits_dec|body|]
  end.

Lemma get_portinfo_framed type port smp : smp_ok smp -> framed smp (pib_subn_get_portinfo type port smp).
Proof.
  intros Hs. assert (framed smp smp) by done.
  unfold pib_subn_get_portinfo, get_portinfo_not_sw_ext_1, get_portinfo_not_sp0_1, get_portinfo_not_sp0_2.
  cbv zeta beta. repeat framed_step.
Qed.

Lemma answers_get_portinfo p : obeys answers (subn_get_portinfo p).
Proof. unfold subn_get_portinfo. answers. apply answers_upd_smp. intros smp Hs. by apply get_portinfo_framed. Qed.

Lemma answers_get_pkey_table p : obeys answers (subn_get_pkey_table p).
Proof.
  unfold subn_get_pkey_table. answers. apply answers_upd_smp. intros smp Hs.
  match goal with |- context [take 32 ?l] => set (vs := take 32 l) end.
  assert (length vs <= 32)%nat as Hl by (unfold vs; rewrite length_take; lia). clearbody vs.
  split; [apply smp_array_ok; [done|unfold SMP_data, MAD_SIZE; lia]|].
  pose proof (proj1 Hs) as Hn. unfold MAD_SIZE in Hn.
  split; [apply length_be_set_array; unfold SMP_data; lia|]. intros i Hi.
  assert (bytes_at i 1 (be_set_array SMP_data 2 vs smp) = bytes_at i 1 smp) as E.
  { apply bytes_at_be_set_array_ne; unfold SMP_data; [lia|]. unfold body_byte in Hi. lia. }
  apply (f_equal (fun l => l !! 0%nat)) in E. rewrite !lookup_bytes_at in E. simpl in E. by rewrite Nat.add_0_r in E.
Qed.

Lemma answers_get_linear p : obeys answers (subn_get_linear_forward_table p).
Proof. unfold subn_get_linear_forward_table. answers. Qed.
Lemma answers_get_mcast p : obeys answers (subn_get_mcast_forward_table p).
Proof. unfold subn_get_mcast_forward_table. answers. Qed.
#[export] Hint Resolve answers_get_nodedescription answers_get_nodeinfo answers_get_switchinfo answers_get_portinfo
  answers_get_pkey_table answers_get_linear answers_get_mcast : obeys.

Lemma answers_get_method g p : obeys answers (process_smp_get_method g p).
Proof.
  unfold process_smp_get_method, unsupported, subn_get_guidinfo, subn_get_sl_to_vl_table, subn_get_vl_arb_table,
    subn_get_random_forward_table. answers.
Qed.

(** ** The invariant of the switch *)

Definition perf_ok (p : pib_port_perf) : Prop := length (pf_counter_select p) = 16%nat /\ length (pf_counter p) = 16%nat.
Definition sw_port_ok (p : pib_port) : Prop :=
  port_ok p /\ length (po_pkey_table p) = 32%nat /\ Forall (fun k => 0 <= k < 2 ^ 16) (po_pkey_table p) /\ perf_ok (po_perf p).
Definition sw_ok (sw : pib_switch) : Prop :=
  sw_port_cnt sw = Zlen (sw_ports sw) /\ 1 <= sw_port_cnt sw <= 256 /\ Forall sw_port_ok (sw_ports sw)
  /\ 0 <= sw_linear_fdb_top sw < 2 ^ 16 /\ 0 <= sw_default_port sw < 256
  /\ (forall i, 0 <= ucast_entry sw i < 256) /\ (forall i j, 0 <= mcast_entry sw i j < 2 ^ 16).

Lemma port_at_lt sw i : sw_ok sw -> 0 <= i < sw_port_cnt sw -> exists p, port_at sw i = Some p /\ sw_port_ok p.
Proof.
  intros (H1 & _ & H3 & _) Hi. unfold port_at. rewrite (proj2 (Z.leb_le 0 i)) by lia. unfold Zlen in H1.
  destruct (lookup_lt_is_Some_2 (sw_ports sw) (Z.to_nat i)) as [p Hp]; [lia|]. exists p. split; [done|].
  by eapply Forall_lookup_1 in H3.
Qed.
Lemma port_at_ge sw i : sw_ok sw -> sw_port_cnt sw <= i -> port_at sw i = None.
Proof.
  intros (H1 & _) Hi. unfold port_at. destruct (0 <=? i); [|done]. unfold Zlen in H1. apply lookup_ge_None_2. lia.
Qed.
Lemma port_at_upd sw i f : port_at (upd_port i f sw) i = f <$> port_at sw i.
Proof. unfold port_at, upd_port. simpl. destruct (0 <=? i); [|done]. by rewrite list_lookup_alter_eq. Qed.
Lemma port_at_upd_ne sw i j f : 0 <= i -> i <> j -> port_at (upd_port i f sw) j = port_at sw j.
Proof.
  intros Hi Hne. unfold port_at, upd_port. simpl. destruct (Z.leb_spec 0 j); [|done]. apply list_lookup_alter_ne. lia.
Qed.

Lemma upd_port_ok sw i f : (forall p, sw_port_ok p -> sw_port_ok (f p)) -> sw_ok sw -> sw_ok (upd_port i f sw).
Proof.
  intros Hf (H1 & H2 & H3 & H4 & H5 & H6 & H7). unfold sw_ok, upd_port. simpl. split_and?; try (done || lia).
  - unfold Zlen. by rewrite length_alter.
  - apply Forall_alter; [done|]. intros p Hp Hok. by apply Hf.
Qed.

Lemma ucast_entry_insert sw i v j :
  ucast_entry (sw <| sw_ucast_fwd_table ::= <[i := v]> |>) j = if decide (j = i) then v else ucast_entry sw j.
Proof. unfold ucast_entry. simpl. destruct (decide (j = i)) as [->|]; [by rewrite lookup_insert_eq|by rewrite lookup_insert_ne]. Qed.
Lemma mcast_entry_insert sw i v j k :
  mcast_entry (sw <| sw_mcast_fwd_table ::= <[i := v]> |>) j k = if decide ((j, k) = i) then v else mcast_entry sw j k.
Proof. unfold mcast_entry. simpl. destruct (decide ((j, k) = i)) as [<-|]; [by rewrite lookup_insert_eq|by rewrite lookup_insert_ne]. Qed.

Lemma ucast_insert_ok sw i v : sw_ok sw -> 0 <= v < 256 -> sw_ok (sw <| sw_ucast_fwd_table ::= <[i := v]> |>).
Proof.
  intros (H1 & H2 & H3 & H4 & H5 & H6 & H7) Hv. unfold sw_ok. refine (conj H1 (conj H2 (conj H3 (conj H4 (conj H5 (conj _ H7)))))). intros j.
  rewrite ucast_entry_insert. by destruct (decide (j = i)).
Qed.
Lemma mcast_insert_ok sw i v : sw_ok sw -> 0 <= v < 2 ^ 16 -> sw_ok (sw <| sw_mcast_fwd_table ::= <[i := v]> |>).
Proof.
  intros (H1 & H2 & H3 & H4 & H5 & H6 & H7) Hv. unfold sw_ok. refine (conj H1 (conj H2 (conj H3 (conj H4 (conj H5 (conj H6 _)))))). intros j k.
  rewrite mcast_entry_insert. by destruct (decide ((j, k) = i)).
Qed.

(** ** Set handlers *)

Lemma wp_for_seqZ {S} (f : Z -> M S unit) (n : Z) (I : Z -> S -> Prop) Q s :
  0 <= n -> I 0 s -> (forall i s', 0 <= i < n -> I i s' -> wp (f i) (fun _ s'' => I (i + 1) s'') s') ->
  (forall s', I n s' -> Q tt s') -> wp (for_each f (seqZ 0 n)) Q s.
Proof.
  intros Hn H0 Hstep Hend.
  apply (wp_for_each f _ (fun l s' => exists k, 0 <= k <= n /\ l = seqZ k (n - k) /\ I k s')).
  - exists 0. rewrite Z.sub_0_r. split_and!; done || lia.
  - intros x l s' (k & Hk & Hl & HI). destruct (decide (k = n)) as [->|].
    { by rewrite Z.sub_diag in Hl. }
    rewrite seqZ_cons in Hl by lia. injection Hl as -> ->. eapply wp_mono; [apply Hstep; [lia|done]|]. simpl.
    intros _ s'' HI'. exists (k + 1). split_and!; [lia|lia| |done]. f_equal; lia.
  - intros s' (k & Hk & Hl & HI). apply Hend. destruct (decide (k = n)) as [->|]; [done|].
    rewrite seqZ_cons in Hl by lia. done.
Qed.

Definition agent_ok (s : smp_st) : Prop := smp_ok (ss_smp s) /\ sw_ok (ss_sw s).

(** [reply] from [s]: the packet is framed by [smp], the switch is as it was. *)
Lemma wp_reply (Q : Z -> smp_st -> Prop) s : smp_ok (ss_smp s) ->
  (forall r s', framed (ss_smp s) (ss_smp s') -> ss_sw s' = ss_sw s ->
     (forall f, fdisj f SMP_method = true -> fdisj f SMP_status = true -> be_get f (ss_smp s') = be_get f (ss_smp s)) ->
     smp_failed (ss_smp s') = smp_failed (ss_smp s) -> Q r s') ->
  wp reply_smp Q s /\ wp reply_failure_smp Q s.
Proof.
  intros Hs HQ.
  assert (forall r, Q r (s <| ss_smp := (smp_reply_with r (ss_smp s)).2 |>)) as H.
  { intros r. destruct (answers_reply_with r s) as [H1 H2]. apply HQ; [by apply H2|done| |].
    - intros f Hf1 Hf2. unfold smp_reply_with. simpl. destruct (_ =? _); [|flds; done].
      etransitivity; [apply (chain_or_ne SMP_status); [smp_oks|fits_dec|exact Hf2]|]. flds; done.
    - unfold smp_reply_with. simpl.
      assert (forall x, Z.land (Z.lor x IB_SMP_DIRECTION mod 2 ^ 16) (Z.lnot IB_SMP_DIRECTION)
                        = Z.land (x mod 2 ^ 16) (Z.lnot IB_SMP_DIRECTION)) as E.
      { intros x. apply Z.bits_inj'. intros n Hn. rewrite !Z.land_spec, Z.lnot_spec by done.
        change IB_SMP_DIRECTION with (2 ^ 15). rewrite Z.pow2_bits_eqb by lia.
        destruct (Z.eqb_spec 15 n) as [<-|Hne]; [by rewrite !andb_false_r|]. rewrite !andb_true_r.
        destruct (decide (n < 16)).
        - rewrite !Z.mod_pow2_bits_low by lia. rewrite Z.lor_spec, Z.pow2_bits_eqb by lia.
          rewrite (proj2 (Z.eqb_neq 15 n)) by done. by rewrite orb_false_r.
        - by rewrite !Z.mod_pow2_bits_high by lia. }
      destruct (_ =? _).
      + unfold smp_failed. do 2 f_equal. unfold smp_or_status.
        rewrite (chain_eq SMP_status) by fld_side. rewrite (chain_ne SMP_method) by fld_side.
        change (8 * Z.of_nat (f_len SMP_status)) with 16. rewrite E. f_equal. apply Z.mod_small.
        apply (smp_ok_get SMP_status _ Hs).
      + unfold smp_failed. do 3 f_equal. flds. done. }
  split; unfold wp, reply_smp, reply_failure_smp, reply, reply_failure; simpl.
  - exact (H (Z.lor IB_MAD_RESULT_SUCCESS IB_MAD_RESULT_REPLY)).
  - exact (H (Z.lor IB_MAD_RESULT_FAILURE IB_MAD_RESULT_REPLY)).
Qed.

(** The forwarding entries after Set(LinearForwardingTable) of block [m]. *)
Definition lft_after (sw : pib_switch) (m : Z) (smp : list Z) (j : Z) : Z :=
  if (m * 64 <=? j) && (j <? m * 64 + 64) then be_get (elt SMP_data 1 (Z.to_nat (j - m * 64))) smp else ucast_entry sw j.
Definition mft_after (sw : pib_switch) (m : Z) (smp : list Z) (j k : Z) : Z :=
  if (mcast_lid_offset m <=? j) && (j <? mcast_lid_offset m + 32) && (k =? mcast_port_index m)
  then be_get (elt SMP_data 2 (Z.to_nat (j - mcast_lid_offset m))) smp else mcast_entry sw j k.

(** The switch apart from one of its tables. *)
Definition but_ucast (sw : pib_switch) : pib_switch := sw <| sw_ucast_fwd_table := ∅ |>.
Definition but_mcast (sw : pib_switch) : pib_switch := sw <| sw_mcast_fwd_table := ∅ |>.

(** A request refused with a status. *)
Lemma wp_refuse v (Q : Z -> smp_st -> Prop) s : smp_ok (ss_smp s) -> Z.testbit v 3 = true ->
  (forall r s', framed (ss_smp s) (ss_smp s') -> ss_sw s' = ss_sw s -> smp_failed (ss_smp s') = true -> Q r s') ->
  wp (or_status v) (fun _ => wp reply_smp Q) s.
Proof.
  intros Hs Hv HQ. unfold or_status, upd_smp. wp_step.
  assert (smp_ok (smp_or_status v (ss_smp s))) as Hs1 by smp_oks.
  refine (proj1 (wp_reply _ _ _ _)); [done|]. simpl. intros r s' [F1 F2] F3 F4 F5. apply HQ; [|done|].
  - split; [done|]. etransitivity; [|exact F2]. apply same_hdr_be_set; [done|fits_dec|body].
  - rewrite F5. unfold smp_failed, smp_or_status.
    rewrite (chain_eq SMP_status) by fld_side. change (8 * Z.of_nat (f_len SMP_status)) with 16.
    apply negb_true_iff, Z.eqb_neq. intros H0. apply (f_equal (fun x => Z.testbit x 3)) in H0.
    rewrite Z.land_spec, Z.mod_pow2_bits_low, Z.lor_spec, Hv, orb_true_r in H0 by lia. done.
Qed.

Lemma wp_set_linear p (Q : Z -> smp_st -> Prop) s : agent_ok s ->
  (forall r s', agent_ok s' -> same_hdr (ss_smp s) (ss_smp s') -> but_ucast (ss_sw s') = but_ucast (ss_sw s) ->
     (767 < be_get SMP_attr_mod (ss_smp s) -> smp_failed (ss_smp s') = true /\ ss_sw s' = ss_sw s) ->
     (be_get SMP_attr_mod (ss_smp s) <= 767 -> smp_failed (ss_smp s') = smp_failed (ss_smp s)
        /\ forall j, ucast_entry (ss_sw s') j = lft_after (ss_sw s) (be_get SMP_attr_mod (ss_smp s)) (ss_smp s) j) ->
     Q r s') ->
  wp (subn_set_linear_forward_table p) Q s.
Proof.
  intros [Hs Hw] HQ. unfold subn_set_linear_forward_table, the_smp. wp_step. wp_step. cbv zeta.
  set (m := be_get SMP_attr_mod (ss_smp s)) in *.
  pose proof (smp_ok_get SMP_attr_mod _ Hs) as Hm. fold m in Hm.
  wp_step. destruct (Z.ltb_spec 767 m).
  - apply wp_refuse; [done..|]. intros r s' [F1 F2] F3 F4. apply HQ; [by split; [|rewrite F3]|done|by rewrite F3|done|lia].
  - apply (wp_for_seqZ _ 64 (fun k s1 => ss_smp s1 = ss_smp s /\ sw_ok (ss_sw s1) /\ but_ucast (ss_sw s1) = but_ucast (ss_sw s)
      /\ forall j, ucast_entry (ss_sw s1) j = if j <? m * 64 + k then lft_after (ss_sw s) m (ss_smp s) j
                                              else ucast_entry (ss_sw s) j)); [lia|..].
    + split_and!; [done..|]. intros j. unfold lft_after. destruct (Z.ltb_spec j (m * 64 + 0)); [|done].
      by rewrite (proj2 (Z.leb_gt (m * 64) j)) by lia.
    + intros i s1 Hi (I1 & I2 & I3 & I4). unfold ucast_set, ucast_in, PIB_MCAST_LID_BASE.
      rewrite (proj2 (Z.leb_le 0 _)), (proj2 (Z.ltb_lt _ _)) by lia. simpl andb. cbv iota. unfold upd_sw. wp_step.
      split_and!; [done| |exact I3|].
      * apply ucast_insert_ok; [done|]. apply (smp_ok_get (elt SMP_data 1 (Z.to_nat i)) _ Hs).
      * intros j. etransitivity; [exact (ucast_entry_insert _ _ _ _)|]. destruct (decide (j = m * 64 + i)) as [->|Hne].
        -- rewrite (proj2 (Z.ltb_lt _ _)) by lia. unfold lft_after. rewrite (proj2 (Z.leb_le _ _)), (proj2 (Z.ltb_lt _ _)) by lia.
           simpl. do 2 f_equal. lia.
        -- rewrite I4. destruct (Z.ltb_spec j (m * 64 + i)), (Z.ltb_spec j (m * 64 + (i + 1))); done || lia.
    + intros s1 (I1 & I2 & I3 & I4). refine (proj1 (wp_reply _ _ _ _)); [by rewrite I1|]. rewrite I1.
      intros r s' [F1 F2] F3 F4 F5. apply HQ; [by split; [|rewrite F3]|done|by rewrite F3|lia|]. intros _.
      split; [done|]. intros j. rewrite F3, I4. destruct (Z.ltb_spec j (m * 64 + 64)); [done|].
      unfold lft_after. by rewrite (proj2 (Z.ltb_ge j _)), andb_false_r by lia.
Qed.

Lemma mcast_offset_range m : 0 <= mcast_lid_offset m <= 255 * 32.
Proof. unfold mcast_lid_offset. pose proof (land_mask_range m 8 ltac:(lia)) as H. change (Z.ones 8) with 0xFF in H. lia. Qed.
Lemma mcast_index_range m : 0 <= m < 2 ^ 32 -> 0 <= mcast_port_index m < 16.
Proof.
  intros. unfold mcast_port_index. rewrite Z.shiftr_div_pow2 by lia. change (2 ^ 28) with 268435456.
  change (2 ^ 32) with 4294967296 in *. split; [apply Z.div_pos; lia|apply Z.div_lt_upper_bound; lia].
Qed.
Lemma mcast_in_range m i : 0 <= m < 2 ^ 32 -> 0 <= i < 32 -> mcast_in (mcast_lid_offset m + i) (mcast_port_index m) = true.
Proof.
  intros Hm Hi. pose proof (mcast_offset_range m). pose proof (mcast_index_range m Hm).
  unfold mcast_in, PIB_MAX_LID, PIB_MCAST_LID_BASE. rewrite !andb_true_iff, !Z.leb_le, !Z.ltb_lt. lia.
Qed.

Lemma wp_set_mcast p (Q : Z -> smp_st -> Prop) s : agent_ok s ->
  (forall r s', agent_ok s' -> same_hdr (ss_smp s) (ss_smp s') -> but_mcast (ss_sw s') = but_mcast (ss_sw s) ->
     smp_failed (ss_smp s') = smp_failed (ss_smp s) ->
     (forall j k, mcast_entry (ss_sw s') j k = mft_after (ss_sw s) (be_get SMP_attr_mod (ss_smp s)) (ss_smp s) j k) ->
     Q r s') ->
  wp (subn_set_mcast_forward_table p) Q s.
Proof.
  intros [Hs Hw] HQ. unfold subn_set_mcast_forward_table, the_smp. wp_step. wp_step. cbv zeta.
  set (m := be_get SMP_attr_mod (ss_smp s)) in *.
  pose proof (smp_ok_get SMP_attr_mod _ Hs) as Hm. fold m in Hm. change (8 * Z.of_nat (f_len SMP_attr_mod)) with 32 in Hm.
  set (o := mcast_lid_offset m) in *. wp_step.
  apply (wp_for_seqZ _ 32 (fun k s1 => ss_smp s1 = ss_smp s /\ sw_ok (ss_sw s1) /\ but_mcast (ss_sw s1) = but_mcast (ss_sw s)
    /\ forall j b, mcast_entry (ss_sw s1) j b = if j <? o + k then mft_after (ss_sw s) m (ss_smp s) j b
                                                else mcast_entry (ss_sw s) j b)); [lia|..].
  - split_and!; [done..|]. intros j b. unfold mft_after. fold o. destruct (Z.ltb_spec j (o + 0)); [|done].
    by rewrite (proj2 (Z.leb_gt o j)) by lia.
  - intros i s1 Hi (I1 & I2 & I3 & I4). unfold mcast_set. unfold o. rewrite mcast_in_range by done. unfold upd_sw. wp_step.
    split_and!; [done| |exact I3|].
    + apply mcast_insert_ok; [done|]. apply (smp_ok_get (elt SMP_data 2 (Z.to_nat i)) _ Hs).
    + intros j b. etransitivity; [exact (mcast_entry_insert _ _ _ _ _)|].
      fold o. destruct (decide ((j, b) = (o + i, mcast_port_index m))) as [[= -> ->]|Hne].
      * rewrite (proj2 (Z.ltb_lt _ _)) by lia. unfold mft_after. fold o.
        rewrite (proj2 (Z.leb_le _ _)), (proj2 (Z.ltb_lt _ _)), Z.eqb_refl by lia. simpl. do 2 f_equal. lia.
      * rewrite I4. destruct (Z.ltb_spec j (o + i)), (Z.ltb_spec j (o + (i + 1))); try (done || lia).
        assert (j = o + i) as -> by lia. unfold mft_after. fold o. destruct (Z.eqb_spec b (mcast_port_index m)) as [->|]; [done|].
        by rewrite andb_false_r.
  - intros s1 (I1 & I2 & I3 & I4). refine (proj1 (wp_reply _ _ _ _)); [by rewrite I1|]. rewrite I1.
    intros r s' [F1 F2] F3 F4 F5. apply HQ; [by split; [|rewrite F3]|done|by rewrite F3|done|].
    intros j b. rewrite F3, I4. destruct (Z.ltb_spec j (o + 32)); [done|].
    unfold mft_after. fold o. by rewrite (proj2 (Z.ltb_ge j _)), andb_false_r by lia.
Qed.

Lemma wp_sw_port i q (Q : pib_port -> smp_st -> Prop) s : port_at (ss_sw s) i = Some q -> Q q s -> wp (sw_port i) Q s.
Proof. intros H HQ. unfold sw_port, the_sw. wp_step. wp_step. by rewrite H. Qed.

(** What the other Set handlers promise: the invariant and the frame. *)
Definition kept (s : smp_st) (r : Z) (s' : smp_st) : Prop := agent_ok s' /\ same_hdr (ss_smp s) (ss_smp s').

Lemma kept_reply s s1 : agent_ok s1 -> same_hdr (ss_smp s) (ss_smp s1) -> wp reply_smp (kept s) s1 /\ wp reply_failure_smp (kept s) s1.
Proof.
  intros [H1 H2] H3. apply wp_reply; [done|]. intros r s' [F1 F2] F3 _ _. split; [by split; [|rewrite F3]|].
  by transitivity (ss_smp s1).
Qed.
Lemma kept_refuse v s : agent_ok s -> Z.testbit v 3 = true -> wp (or_status v) (fun _ => wp reply_smp (kept s)) s.
Proof. intros [H1 H2] Hv. apply wp_refuse; [done..|]. intros r s' [F1 F2] F3 _. split; [by split; [|rewrite F3]|done]. Qed.

Lemma kept_set_switchinfo p s : agent_ok s -> wp (subn_set_switchinfo p) (kept s) s.
Proof.
  intros [Hs Hw]. destruct Hw as (H1 & H2 & H3 & H4 & H5 & H6 & H7). unfold subn_set_switchinfo, the_smp, upd_sw.
  repeat first [wp_step; cbv beta zeta].
  all: refine (proj1 (kept_reply _ _ _ _)); [|done]; split; [done|].
  all: exact (conj H1 (conj H2 (conj H3 (conj (smp_ok_get SI_linear_fdb_top _ Hs) (conj (smp_ok_get SI_default_port _ Hs) (conj H6 H7)))))).
Qed.

Lemma kept_set_pkey p s : agent_ok s -> wp (subn_set_pkey_table p) (kept s) s.
Proof.
  intros Hok. pose proof Hok as [Hs Hw]. unfold subn_set_pkey_table, the_smp, the_sw. wp_step. wp_step. cbv zeta. wp_step. wp_step. wp_step.
  wp_step; [by apply kept_refuse|]. wp_step; [by apply kept_refuse|]. bools.
  set (m := be_get SMP_attr_mod (ss_smp s)) in *.
  assert (0 <= pkey_port m) as Hp by (unfold pkey_port; apply Z.land_nonneg; lia).
  destruct (port_at_lt _ (pkey_port m) Hw) as (q & Hq & _); [lia|].
  wp_step. apply (wp_sw_port (pkey_port m) q); [done|]. unfold upd_sw. wp_step.
  refine (proj1 (kept_reply _ _ _ _)); [|done]. split; [done|]. simpl. apply upd_port_ok; [|done].
  intros q' (Q1 & Q2 & Q3 & Q4). split_and!; [exact Q1| | |done].
  - reflexivity.
  - change (Forall (fun k => 0 <= k < 2 ^ 16) (be_array SMP_data 2 32 (ss_smp s))). apply Forall_fmap, Forall_true. intros i. apply (smp_ok_get (elt SMP_data 2 i) _ Hs).
Qed.

Lemma sw_port_ok_attr f p : (forall a, pa_lid (f a) = pa_lid a /\ pa_sm_lid (f a) = pa_sm_lid a /\ pa_lmc (f a) = pa_lmc a
    /\ pa_active_mtu (f a) = pa_active_mtu a /\ pa_active_width (f a) = pa_active_width a
    /\ pa_active_speed (f a) = pa_active_speed a
    /\ (0 <= pa_state a < 16 -> 0 <= pa_state (f a) < 16) /\ (0 <= pa_phys_state a < 16 -> 0 <= pa_phys_state (f a) < 16)) ->
  sw_port_ok p -> sw_port_ok (upd_attr f p).
Proof.
  intros Hf (Hp & H2 & H3 & H4). destruct (Hf (po_attr p)) as (E1 & E2 & E3 & E4 & E5 & E6 & E7 & E8).
  split; [|done].
  destruct Hp as (P1 & P2 & P3 & P4 & P5 & P6 & P7 & P8 & Hr). unfold port_ok, upd_attr. simpl.
  rewrite E1, E2, E3, E4, E5, E6. split_and?; try apply E7; try apply E8; try tauto; try (apply Hr).
Qed.

Lemma set_portinfo_sw_ok type smp p : smp_ok smp -> sw_port_ok p -> sw_port_ok (pib_subn_set_portinfo type smp p).
Proof.
  intros Hs (H1 & H2 & H3 & H4). split; [by apply port_ok_set|].
  replace (po_pkey_table (pib_subn_set_portinfo type smp p)) with (po_pkey_table p) by (by destruct type).
  replace (po_perf (pib_subn_set_portinfo type smp p)) with (po_perf p) by (by destruct type). done.
Qed.

Lemma wp_link_up n s (Q : unit -> smp_st -> Prop) : sw_ok (ss_sw s) -> 0 <= n < sw_port_cnt (ss_sw s) ->
  (forall s', ss_smp s' = ss_smp s -> sw_ok (ss_sw s') -> Q tt s') -> wp (link_up n) Q s.
Proof.
  intros Hw Hn HQ. unfold link_up, upd_sw. wp_step. wp_step.
  set (s1 := s <| ss_sw ::= upd_port n (upd_attr (fun a => a <| pa_phys_state := PIB_PHYS_PORT_LINK_UP |>)) |>).
  assert (sw_ok (ss_sw s1)) as Hw1.
  { apply upd_port_ok; [|done]. intros p. apply sw_port_ok_attr. intros a. simpl. unfold PIB_PHYS_PORT_LINK_UP.
    split_and!; done || lia. }
  destruct (port_at_lt (ss_sw s1) n Hw1 Hn) as (q & Hq & _).
  wp_step. apply (wp_sw_port n q); [done|]. wp_step; [|by apply HQ].
  wp_step. wp_step. wp_step. apply HQ; [done|]. simpl.
  apply upd_port_ok; [|exact Hw1].
  intros p. apply sw_port_ok_attr. intros a. simpl. unfold IB_PORT_INIT. split_and!; done || lia.
Qed.

Lemma kept_set_portinfo p s : agent_ok s -> u8 (be_get SMP_attr_mod (ss_smp s)) < sw_port_cnt (ss_sw s) ->
  wp (subn_set_portinfo p) (kept s) s.
Proof.
  intros Hok Hn. pose proof Hok as [Hs Hw]. unfold subn_set_portinfo, the_smp. wp_step. wp_step. cbv zeta.
  set (n := u8 (be_get SMP_attr_mod (ss_smp s))) in *.
  assert (0 <= n) as Hn0 by (apply (wrap_range 8); lia).
  destruct (port_at_lt _ n Hw) as (q & Hq & _); [lia|].
  unfold upd_sw. wp_step. apply (wp_sw_port n q); [done|]. wp_step. wp_step. wp_step.
  apply wp_link_up; [|exact (conj Hn0 Hn)|].
  - apply upd_port_ok; [|done]. intros r. by apply set_portinfo_sw_ok.
  - intros s' E Hw'. refine (proj1 (kept_reply _ _ _ _)); [split; [by rewrite E|done]|by rewrite E].
Qed.

Lemma kept_set_random p s : agent_ok s ->
  (be_get SMP_attr_mod (ss_smp s) <= 3071 -> forall i, 0 <= i < 16 ->
     u16 (Z.shiftr (be_get (elt SMP_data 4 (Z.to_nat i)) (ss_smp s)) 16) < PIB_MCAST_LID_BASE) ->
  wp (subn_set_random_forward_table p) (kept s) s.
Proof.
  intros Hok Hi. pose proof Hok as [Hs Hw]. unfold subn_set_random_forward_table, the_smp, the_sw. wp_step. wp_step. wp_step.
  wp_step; [by apply kept_refuse|]. bools.
  apply (wp_for_seqZ _ 16 (fun _ s1 => ss_smp s1 = ss_smp s /\ sw_ok (ss_sw s1))); [lia|done|..].
  - intros i s1 Hi' [I1 I2]. cbv zeta. wp_step. wp_step. unfold ucast_set, ucast_in.
    set (v := be_get (elt SMP_data 4 (Z.to_nat i)) (ss_smp s)).
    assert (0 <= u16 (Z.shiftr v 16)) by (apply (wrap_range 16); lia).
    rewrite (proj2 (Z.leb_le 0 _)), (proj2 (Z.ltb_lt _ _)) by (done || by apply Hi). simpl andb. cbv iota. unfold upd_sw. wp_step.
    split; [done|]. apply ucast_insert_ok; [done|]. destruct (has_flag _ _); [|apply I2].
    apply (land_mask_range _ 8). lia.
  - intros s1 [I1 I2]. refine (proj1 (kept_reply _ _ _ _)); [split; [by rewrite I1|done]|by rewrite I1].
Qed.

(** ** Every packet with indices the arrays have is answered *)

(** The indices a packet carries that the source uses without a check. *)
Definition smp_indices_ok (sw : pib_switch) (smp : list Z) : Prop :=
  (be_get SMP_attr_id smp = PIB_SMP_ATTR_PORT_INFO -> u8 (be_get SMP_attr_mod smp) < sw_port_cnt sw)
  /\ (be_get SMP_attr_id smp = PIB_SMP_ATTR_RANDOM_FORWARD_TABLE -> be_get SMP_method smp = IB_MGMT_METHOD_SET ->
      be_get SMP_attr_mod smp <= 3071 -> forall i, 0 <= i < 16 ->
      u16 (Z.shiftr (be_get (elt SMP_data 4 (Z.to_nat i)) smp) 16) < PIB_MCAST_LID_BASE).

Lemma kept_set_method p s : agent_ok s -> be_get SMP_method (ss_smp s) = IB_MGMT_METHOD_SET ->
  smp_indices_ok (ss_sw s) (ss_smp s) -> wp (process_smp_set_method p) (kept s) s.
Proof.
  intros Hok Hm [Hp Hr]. unfold process_smp_set_method, smp_get, the_smp, subn_set_guidinfo, subn_set_sl_to_vl_table,
    subn_set_vl_arb_table, unsupported. wp_step. wp_step. wp_step. wp_step.
  repeat (wp_step; [bools; first
    [ by apply kept_set_switchinfo | by apply kept_set_pkey | apply kept_set_portinfo; [done|by apply Hp]
    | apply kept_set_random; [done|by apply Hr]
    | by refine (proj2 (kept_reply _ _ _ _)); destruct Hok
    | apply wp_set_linear; [done|]; intros; by split
    | apply wp_set_mcast; [done|]; intros; by split ] |]).
  wp_step. by apply kept_refuse.
Qed.

(** ** What Get reports of the forwarding tables *)

Lemma elt_disj base w i k : i <> k -> fdisj (elt base w i) (elt base w k) = true.
Proof. intros H. unfold fdisj, elt. simpl. apply orb_true_iff. rewrite !Nat.leb_le. nia. Qed.

(** A loop that fills an array in the data. *)
Lemma wp_fill w n (cond : Z -> bool) (val : Z -> Z) (rd : Z -> M smp_st Z) (Q : unit -> smp_st -> Prop) s :
  smp_ok (ss_smp s) -> 0 <= n -> Z.of_nat w * n <= 64 ->
  (forall i s1, 0 <= i < n -> ss_sw s1 = ss_sw s -> cond i = true -> rd i s1 = Some (val i, s1)) ->
  (forall s', ss_sw s' = ss_sw s -> framed (ss_smp s) (ss_smp s') -> smp_failed (ss_smp s') = smp_failed (ss_smp s) ->
     (forall i, 0 <= i < n -> be_get (elt SMP_data w (Z.to_nat i)) (ss_smp s')
        = if cond i then val i mod 2 ^ (8 * Z.of_nat w) else be_get (elt SMP_data w (Z.to_nat i)) (ss_smp s)) -> Q tt s') ->
  wp (for_each (fun i => when (cond i) (let! v := rd i in smp_set (elt SMP_data w (Z.to_nat i)) v)) (seqZ 0 n)) Q s.
Proof.
  intros Hs Hn Hw Hrd HQ.
  apply (wp_for_seqZ _ n (fun k s1 => ss_sw s1 = ss_sw s /\ framed (ss_smp s) (ss_smp s1)
    /\ smp_failed (ss_smp s1) = smp_failed (ss_smp s)
    /\ forall i, 0 <= i < n -> be_get (elt SMP_data w (Z.to_nat i)) (ss_smp s1)
         = if cond i && (i <? k) then val i mod 2 ^ (8 * Z.of_nat w) else be_get (elt SMP_data w (Z.to_nat i)) (ss_smp s)));
    [done|..].
  - split_and!; [done|done|done|]. intros i Hi. by rewrite (proj2 (Z.ltb_ge i 0)), andb_false_r by lia.
  - intros k s1 Hk (I1 & [I2 I3] & I4 & I5). wp_step.
    + apply wp_bind. unfold wp at 1. rewrite (Hrd k s1 Hk I1 H). unfold smp_set, upd_smp. wp_step.
      assert (fits (elt SMP_data w (Z.to_nat k)) MAD_SIZE) as Hf by (unfold fits, elt, SMP_data, MAD_SIZE; simpl; nia).
      assert (in_body (elt SMP_data w (Z.to_nat k))) as Hb.
      { intros x. unfold elt, body_byte, SMP_data. cbn [f_off f_len]. nia. }
      split_and!; [done| | |].
      * split; simpl; [by apply smp_set_ok|]. etransitivity; [exact I3|]. by apply same_hdr_be_set.
      * rewrite <- I4. unfold smp_failed. simpl. do 3 f_equal. by apply chain_ne.
      * intros i Hi. simpl. destruct (decide (i = k)) as [->|Hne].
        -- rewrite chain_eq by done. by rewrite H, (proj2 (Z.ltb_lt k (k + 1))) by lia.
        -- rewrite chain_ne by (done || apply elt_disj; lia). rewrite I5 by done.
           destruct (Z.ltb_spec i k), (Z.ltb_spec i (k + 1)); done || lia.
    + split_and!; [done|done|done|]. intros i Hi. rewrite I5 by done. destruct (decide (i = k)) as [->|].
      * by rewrite H.
      * destruct (Z.ltb_spec i k), (Z.ltb_spec i (k + 1)); done || lia.
  - intros s1 (I1 & I2 & I3 & I4). apply HQ; [done..|]. intros i Hi. rewrite I4 by done.
    by rewrite (proj2 (Z.ltb_lt i n)), andb_true_r by lia.
Qed.

Lemma wp_get_linear p (Q : Z -> smp_st -> Prop) s : agent_ok s -> let m := be_get SMP_attr_mod (ss_smp s) in
  (forall r s', ss_sw s' = ss_sw s -> framed (ss_smp s) (ss_smp s') ->
     (m <= 767 -> smp_failed (ss_smp s') = smp_failed (ss_smp s) /\ forall i, 0 <= i < 64 ->
        be_get (elt SMP_data 1 (Z.to_nat i)) (ss_smp s')
        = if m * 64 + i <=? sw_linear_fdb_top (ss_sw s) then ucast_entry (ss_sw s) (m * 64 + i)
          else be_get (elt SMP_data 1 (Z.to_nat i)) (ss_smp s)) -> Q r s') ->
  wp (subn_get_linear_forward_table p) Q s.
Proof.
  intros [Hs Hw] m HQ. pose proof (smp_ok_get SMP_attr_mod _ Hs) as Hm. fold m in Hm.
  unfold subn_get_linear_forward_table, smp_get, the_smp, the_sw. do 7 (wp_step; cbv beta). fold m.
  destruct (Z.ltb_spec 767 m).
  - apply wp_refuse; [done..|]. intros r s' F1 F2 _. apply HQ; [done|done|lia].
  - apply (wp_fill 1 64 (fun i => m * 64 + i <=? sw_linear_fdb_top (ss_sw s)) (fun i => ucast_entry (ss_sw s) (m * 64 + i))
      (fun i => ucast_get (m * 64 + i))); [done|lia|lia|..].
    + intros i s1 Hi E _. unfold ucast_get, ucast_in, PIB_MCAST_LID_BASE.
      rewrite (proj2 (Z.leb_le 0 _)), (proj2 (Z.ltb_lt _ _)) by lia. simpl. unfold gets. by rewrite E.
    + intros s1 E [F1 F2] F3 F4. refine (proj1 (wp_reply _ _ _ _)); [done|]. intros r s' [G1 G2] G3 G4 G5.
      apply HQ; [congruence|split; [done|by transitivity (ss_smp s1)]|]. intros _. split; [congruence|].
      intros i Hi. rewrite G4 by reflexivity.
      rewrite F4 by done. destruct (_ <=? _); [|done]. apply Z.mod_small. apply Hw.
Qed.

Lemma wp_get_mcast p (Q : Z -> smp_st -> Prop) s : agent_ok s -> let m := be_get SMP_attr_mod (ss_smp s) in
  (forall r s', ss_sw s' = ss_sw s -> framed (ss_smp s) (ss_smp s') -> smp_failed (ss_smp s') = smp_failed (ss_smp s) ->
     (forall i, 0 <= i < 32 -> be_get (elt SMP_data 2 (Z.to_nat i)) (ss_smp s')
        = mcast_entry (ss_sw s) (mcast_lid_offset m + i) (mcast_port_index m)) -> Q r s') ->
  wp (subn_get_mcast_forward_table p) Q s.
Proof.
  intros [Hs Hw] m HQ. pose proof (smp_ok_get SMP_attr_mod _ Hs) as Hm. fold m in Hm.
  unfold subn_get_mcast_forward_table, smp_get, the_smp. do 5 (wp_step; cbv beta). fold m.
  apply (wp_fill 2 32 (fun _ => true) (fun i => mcast_entry (ss_sw s) (mcast_lid_offset m + i) (mcast_port_index m))
    (fun i => mcast_get (mcast_lid_offset m + i) (mcast_port_index m))); [done|lia|lia|..].
  - intros i s1 Hi E _. unfold mcast_get. rewrite mcast_in_range by done. unfold gets. by rewrite E.
  - intros s1 E [F1 F2] F3 F4. refine (proj1 (wp_reply _ _ _ _)); [done|]. intros r s' [G1 G2] G3 G4 G5.
    apply HQ; [congruence|split; [done|by transitivity (ss_smp s1)]|congruence|].
    intros i Hi. rewrite G4 by reflexivity.
    rewrite F4 by done. apply Z.mod_small. apply Hw.
Qed.

(** ** The agent *)

Lemma wp_smp_get f (Q : Z -> smp_st -> Prop) s : Q (be_get f (ss_smp s)) s -> wp (smp_get f) Q s.
Proof. done. Qed.

Lemma nofail_get_portinfo p s : agent_ok s -> u8 (be_get SMP_attr_mod (ss_smp s)) < sw_port_cnt (ss_sw s) ->
  wp (subn_get_portinfo p) (fun _ _ => True) s.
Proof.
  intros [Hs Hw] Hn. unfold subn_get_portinfo. wp_step. apply wp_smp_get. cbv zeta.
  destruct (port_at_lt _ (u8 (be_get SMP_attr_mod (ss_smp s))) Hw) as (q & Hq & _).
  { split; [apply (wrap_range 8); lia|done]. }
  wp_step. apply (wp_sw_port _ q); [done|]. done.
Qed.

Lemma nofail_get_pkey p s : agent_ok s -> wp (subn_get_pkey_table p) (fun _ _ => True) s.
Proof.
  intros [Hs Hw]. unfold subn_get_pkey_table, the_sw. wp_step. apply wp_smp_get. wp_step. wp_step. wp_step.
  wp_step; [done|]. wp_step; [done|]. bools.
  destruct (port_at_lt _ (pkey_port (be_get SMP_attr_mod (ss_smp s))) Hw) as (q & Hq & _).
  { split; [unfold pkey_port; apply Z.land_nonneg; lia|done]. }
  wp_step. apply (wp_sw_port _ q); [done|]. done.
Qed.

Lemma clear_answers s : agent_ok s -> let s' := s <| ss_smp ::= smp_clear_data |> in
  agent_ok s' /\ same_hdr (ss_smp s) (ss_smp s').
Proof. intros [Hs Hw] s'. destruct (answers_clear s tt s' eq_refl) as [H1 H2]. destruct (H2 Hs). by split. Qed.

Lemma kept_get_method g p s : agent_ok s ->
  (be_get SMP_attr_id (ss_smp s) = PIB_SMP_ATTR_PORT_INFO -> u8 (be_get SMP_attr_mod (ss_smp s)) < sw_port_cnt (ss_sw s)) ->
  wp (process_smp_get_method g p) (kept s) s.
Proof.
  intros Hok Hp. apply (wp_with answers); [apply answers_get_method|].
  eapply (wp_mono _ (fun _ _ => True)).
  - unfold process_smp_get_method. wp_step. apply wp_smp_get. unfold upd_smp. wp_step. wp_step.
    destruct (clear_answers s Hok) as [Hok' Hh].
    repeat (wp_step; [first
      [ solve [unfold subn_get_nodedescription, subn_get_nodeinfo, subn_get_switchinfo, subn_get_guidinfo,
          subn_get_sl_to_vl_table, subn_get_vl_arb_table, subn_get_random_forward_table, smp_set, upd_smp, or_status, smp_get,
          the_smp, the_sw; repeat (wp_step; cbv beta); done]
      | bools; apply nofail_get_portinfo; [done|]; rewrite (same_hdr_get SMP_attr_mod _ _ Hh) by body; by apply Hp
      | by apply nofail_get_pkey
      | by apply wp_get_linear
      | by apply wp_get_mcast ] |]).
    unfold unsupported, or_status, upd_smp. wp_step. wp_step. done.
  - intros r s' _ [H1 H2]. destruct Hok as [Hs Hw]. destruct (H2 Hs). split; [split; [done|by rewrite H1]|done].
Qed.

Lemma port_cnt_kept p : keeps (fun s => sw_port_cnt (ss_sw s)) (process_smp_set_method p).
Proof.
  assert (forall f, keeps (fun s => sw_port_cnt (ss_sw s)) (upd_smp f)) as H1 by (intros; unfold upd_smp; obey).
  assert (keeps (fun s => sw_port_cnt (ss_sw s)) reply_smp) as H2 by (intros s r s'; unfold reply_smp; simpl; by intros [= <- <-]).
  assert (keeps (fun s => sw_port_cnt (ss_sw s)) reply_failure_smp) as H3
    by (intros s r s'; unfold reply_failure_smp; simpl; by intros [= <- <-]).
  unfold process_smp_set_method, subn_set_switchinfo, subn_set_guidinfo, subn_set_portinfo, subn_set_pkey_table,
    subn_set_sl_to_vl_table, subn_set_vl_arb_table, subn_set_linear_forward_table, subn_set_random_forward_table,
    subn_set_mcast_forward_table, unsupported, link_up, or_status, smp_get, the_smp, the_sw, sw_port, the_sw, ucast_set,
    mcast_set, upd_sw, upd_port.
  repeat first [progress (cbv beta zeta) | exact H2 | exact H3 | apply H1 | obey_step]; apply obeys_modify; intros ?; reflexivity.
Qed.


(** Dispatch of a Set to its handler and then to the Get of the same attribute. *)
Lemma wp_set_then_get guid p (Q : Z -> smp_st -> Prop) s :
  agent_ok s -> be_get SMP_method (ss_smp s) = IB_MGMT_METHOD_SET ->
  wp (process_smp_set_method p) (fun r s1 => (smp_failed (ss_smp s1) = true -> Q r s1)
    /\ (smp_failed (ss_smp s1) = false -> wp (process_smp_get_method guid p) Q s1)) s ->
  wp (pib_process_smp guid p) Q s.
Proof.
  intros Hok Hm H. unfold pib_process_smp. wp_step. apply wp_smp_get. wp_step. apply wp_smp_get. rewrite Hm. simpl.
  wp_step. eapply wp_mono; [exact H|]. simpl. intros r s1 [H1 H2]. unfold the_smp. wp_step. wp_step.
  destruct (smp_failed (ss_smp s1)); [wp_step; by apply H1|by apply H2].
Qed.

Lemma clear_failed smp : smp_ok smp -> smp_failed (smp_clear_data smp) = smp_failed smp.
Proof. intros Hs. unfold smp_failed. do 3 f_equal. by apply clear_data_get. Qed.

Lemma clear_elt w i smp : smp_ok smp -> (w * S i <= 64)%nat -> be_get (elt SMP_data w i) (smp_clear_data smp) = 0.
Proof. intros Hs Hi. apply clear_data_zero; [done|unfold elt, SMP_data; cbn [f_off]; lia|unfold elt, SMP_data, SMP_DATA_SIZE; cbn [f_off f_len]; lia]. Qed.

(** Programming the unicast forwarding table: Set(LinearForwardingTable) of a block
    replaces exactly the 64 entries of the block by the bytes of the packet,
    changes nothing else of the switch, and the response reports the entries
    that were set, up to the top of the table. *)
Theorem lft_set_get (guid in_port : Z) (smp : list Z) (sw : pib_switch)
    (Hs : smp_ok smp) (Hw : sw_ok sw) (Hm : be_get SMP_method smp = IB_MGMT_METHOD_SET)
    (Ha : be_get SMP_attr_id smp = PIB_SMP_ATTR_LINEAR_FORWARD_TABLE)
    (Hb : be_get SMP_attr_mod smp <= 767) (Hf : smp_failed smp = false) :
  let m := be_get SMP_attr_mod smp in
  exists r s', pib_process_smp guid in_port {| ss_smp := smp; ss_sw := sw |} = Some (r, s')
    /\ but_ucast (ss_sw s') = but_ucast sw
    /\ (forall j, ucast_entry (ss_sw s') j = lft_after sw m smp j)
    /\ (forall i, 0 <= i < 64 -> be_get (elt SMP_data 1 (Z.to_nat i)) (ss_smp s')
          = if m * 64 + i <=? sw_linear_fdb_top sw then be_get (elt SMP_data 1 (Z.to_nat i)) smp else 0).
Proof.
  intros m. set (s := {| ss_smp := smp; ss_sw := sw |}). assert (agent_ok s) as Hok by done.
  enough (wp (pib_process_smp guid in_port) (fun r s' => but_ucast (ss_sw s') = but_ucast sw
    /\ (forall j, ucast_entry (ss_sw s') j = lft_after sw m smp j)
    /\ (forall i, 0 <= i < 64 -> be_get (elt SMP_data 1 (Z.to_nat i)) (ss_smp s')
          = if m * 64 + i <=? sw_linear_fdb_top sw then be_get (elt SMP_data 1 (Z.to_nat i)) smp else 0)) s) as H.
  { unfold wp in H. destruct (pib_process_smp guid in_port s) as [[r s']|]; [|done]. by exists r, s'. }
  apply wp_set_then_get; [done|done|].
  unfold process_smp_set_method. wp_step. apply wp_smp_get. change (ss_smp s) with smp. rewrite Ha. simpl.
  apply wp_set_linear; [done|]. intros r1 s1 Hok1 Hh Hbu _ Hset. destruct (Hset Hb) as [Hf1 Hent]. clear Hset.
  change (ss_smp s) with smp in *. change (ss_sw s) with sw in *. fold m in Hent.
  split; [congruence|]. intros _. unfold process_smp_get_method. wp_step. apply wp_smp_get.
  rewrite (same_hdr_get SMP_attr_id _ _ Hh), Ha by body. unfold upd_smp. wp_step. wp_step. simpl.
  destruct (clear_answers s1 Hok1) as [Hok2 Hh2].
  assert (be_get SMP_attr_mod (smp_clear_data (ss_smp s1)) = m) as Em.
  { etransitivity; [exact (same_hdr_get SMP_attr_mod _ _ Hh2 ltac:(body))|exact (same_hdr_get SMP_attr_mod _ _ Hh ltac:(body))]. }
  apply wp_get_linear; [done|]. intros r s' E _ Hget. cbn [ss_smp ss_sw] in Hget, E. rewrite Em in Hget.
  destruct (Hget Hb) as [_ Hd]. rewrite E. split_and!; [exact Hbu|exact Hent|].
  intros i Hi. rewrite Hd by done.
  replace (sw_linear_fdb_top (ss_sw s1)) with (sw_linear_fdb_top sw) by (by apply (f_equal sw_linear_fdb_top) in Hbu).
  destruct (_ <=? _); [|by apply clear_elt; [apply Hok1|lia]].
  rewrite Hent. unfold lft_after. rewrite (proj2 (Z.leb_le _ _)), (proj2 (Z.ltb_lt _ _)) by lia. simpl. do 2 f_equal. lia.
Qed.

(** Programming the multicast forwarding table: Set(MulticastForwardingTable)
    replaces exactly the port masks of 32 consecutive multicast LIDs in one block
    of 16 ports, changes nothing else of the switch, and the response reports
    what was set. *)
Theorem mft_set_get (guid in_port : Z) (smp : list Z) (sw : pib_switch)
    (Hs : smp_ok smp) (Hw : sw_ok sw) (Hm : be_get SMP_method smp = IB_MGMT_METHOD_SET)
    (Ha : be_get SMP_attr_id smp = PIB_SMP_ATTR_MCAST_FORWARD_TABLE) (Hf : smp_failed smp = false) :
  exists r s', pib_process_smp guid in_port {| ss_smp := smp; ss_sw := sw |} = Some (r, s')
    /\ but_mcast (ss_sw s') = but_mcast sw
    /\ (forall j k, mcast_entry (ss_sw s') j k = mft_after sw (be_get SMP_attr_mod smp) smp j k)
    /\ (forall i, 0 <= i < 32 -> be_get (elt SMP_data 2 (Z.to_nat i)) (ss_smp s') = be_get (elt SMP_data 2 (Z.to_nat i)) smp).
Proof.
  set (m := be_get SMP_attr_mod smp). set (s := {| ss_smp := smp; ss_sw := sw |}). assert (agent_ok s) as Hok by done.
  enough (wp (pib_process_smp guid in_port) (fun r s' => but_mcast (ss_sw s') = but_mcast sw
    /\ (forall j k, mcast_entry (ss_sw s') j k = mft_after sw m smp j k)
    /\ (forall i, 0 <= i < 32 -> be_get (elt SMP_data 2 (Z.to_nat i)) (ss_smp s') = be_get (elt SMP_data 2 (Z.to_nat i)) smp)) s) as H.
  { unfold wp in H. destruct (pib_process_smp guid in_port s) as [[r s']|]; [|done]. by exists r, s'. }
  apply wp_set_then_get; [done|done|].
  unfold process_smp_set_method. wp_step. apply wp_smp_get. change (ss_smp s) with smp. rewrite Ha. simpl.
  apply wp_set_mcast; [done|]. intros r1 s1 Hok1 Hh Hbu Hf1 Hent.
  change (ss_smp s) with smp in *. change (ss_sw s) with sw in *. fold m in Hent.
  split; [congruence|]. intros _. unfold process_smp_get_method. wp_step. apply wp_smp_get.
  rewrite (same_hdr_get SMP_attr_id _ _ Hh), Ha by body. unfold upd_smp. wp_step. wp_step. simpl.
  destruct (clear_answers s1 Hok1) as [Hok2 Hh2].
  assert (be_get SMP_attr_mod (smp_clear_data (ss_smp s1)) = m) as Em.
  { etransitivity; [exact (same_hdr_get SMP_attr_mod _ _ Hh2 ltac:(body))|exact (same_hdr_get SMP_attr_mod _ _ Hh ltac:(body))]. }
  apply wp_get_mcast; [done|]. intros r s' E _ _ Hd. cbn [ss_smp ss_sw] in Hd, E. rewrite Em in Hd. rewrite E. split_and!; [exact Hbu|exact Hent|].
  intros i Hi. rewrite Hd by done. rewrite Hent. unfold mft_after.
  rewrite (proj2 (Z.leb_le _ _)), (proj2 (Z.ltb_lt _ _)), Z.eqb_refl by lia. simpl. do 2 f_equal. lia.
Qed.

(** The port number of PortInfo is used as an index without a check: a request for
    a port the switch does not have reads or writes outside of its array. *)
Theorem portinfo_index_unchecked (guid in_port : Z) (smp : list Z) (sw : pib_switch)
    (Hs : smp_ok smp) (Hw : sw_ok sw)
    (Hm : be_get SMP_method smp = IB_MGMT_METHOD_GET \/ be_get SMP_method smp = IB_MGMT_METHOD_SET)
    (Ha : be_get SMP_attr_id smp = PIB_SMP_ATTR_PORT_INFO)
    (Hp : sw_port_cnt sw <= u8 (be_get SMP_attr_mod smp)) :
  pib_process_smp guid in_port {| ss_smp := smp; ss_sw := sw |} = None.
Proof.
  set (s := {| ss_smp := smp; ss_sw := sw |}).
  assert (forall s', ss_sw s' = sw -> sw_port (u8 (be_get SMP_attr_mod smp)) s' = None) as Hn.
  { intros s' E. unfold sw_port, the_sw, bind, gets. rewrite E. by rewrite port_at_ge. }
  unfold pib_process_smp, smp_get, the_smp, bind, gets, ret. simpl. destruct Hm as [-> | ->]; simpl.
  - unfold process_smp_get_method, smp_get, the_smp, upd_smp, bind, gets, ret, modify. simpl. rewrite Ha. simpl.
    unfold subn_get_portinfo, smp_get, the_smp, bind, gets, ret. simpl.
    rewrite (clear_data_get SMP_attr_mod) by done. by rewrite Hn.
  - unfold process_smp_set_method, smp_get, the_smp, bind, gets, ret. simpl. rewrite Ha. simpl.
    unfold subn_set_portinfo, the_smp, bind, gets. simpl. by rewrite Hn.
Qed.

(** ** Witnesses *)

Lemma init_switch_ok guid : sw_ok (init_switch guid).
Proof.
  unfold sw_ok. split_and!; try done.
  - apply Forall_fmap, Forall_true. intros i. split_and!; [|reflexivity| |done].
    + unfold port_ok. repeat split; vm_compute; first [reflexivity | discriminate].
    + apply Forall_replicate. unfold PIB_DEFAULT_PKEY_FULL. lia.
Qed.

Definition demo_lft : list Z :=
  be_set (elt SMP_data 1 5) 7 (be_set SMP_attr_mod 2 (be_set SMP_attr_id PIB_SMP_ATTR_LINEAR_FORWARD_TABLE
    (be_set SMP_method IB_MGMT_METHOD_SET (replicate MAD_SIZE 0)))).
Definition demo_mft : list Z :=
  be_set (elt SMP_data 2 3) 0x0012 (be_set SMP_attr_mod 1 (be_set SMP_attr_id PIB_SMP_ATTR_MCAST_FORWARD_TABLE
    (be_set SMP_method IB_MGMT_METHOD_SET (replicate MAD_SIZE 0)))).
Definition demo_portinfo : list Z :=
  be_set SMP_attr_mod 40 (be_set SMP_attr_id PIB_SMP_ATTR_PORT_INFO
    (be_set SMP_method IB_MGMT_METHOD_GET (replicate MAD_SIZE 0))).
Definition demo_switch : pib_switch := (init_switch 0xCafe0000) <| sw_linear_fdb_top := 1000 |>.

Lemma demo_lft_ok : smp_ok demo_lft.
Proof. unfold demo_lft. smp_oks. Qed.
Lemma demo_mft_ok : smp_ok demo_mft.
Proof. unfold demo_mft. smp_oks. Qed.
Lemma demo_portinfo_ok : smp_ok demo_portinfo.
Proof. unfold demo_portinfo. smp_oks. Qed.
Lemma demo_switch_ok : sw_ok demo_switch.
Proof.
  destruct (init_switch_ok 0xCafe0000) as (H1 & H2 & H3 & H4 & H5 & H6 & H7).
  refine (conj H1 (conj H2 (conj H3 (conj _ (conj H5 (conj H6 H7)))))). vm_compute. split; [discriminate|reflexivity].
Qed.


Lemma lft_set_get_witness : exists r s',
  pib_process_smp 0 3 {| ss_smp := demo_lft; ss_sw := demo_switch |} = Some (r, s') /\ ucast_entry (ss_sw s') 133 = 7.
Proof.
  destruct (lft_set_get 0 3 demo_lft demo_switch demo_lft_ok demo_switch_ok) as (r & s' & H1 & _ & H2 & _);
    [vm_compute; reflexivity | vm_compute; reflexivity | vm_compute; discriminate | vm_compute; reflexivity |].
  exists r, s'. split; [exact H1|]. rewrite H2. vm_compute. reflexivity.
Defined.

Lemma mft_set_get_witness : exists r s',
  pib_process_smp 0 3 {| ss_smp := demo_mft; ss_sw := demo_switch |} = Some (r, s') /\ mcast_entry (ss_sw s') 35 0 = 0x12.
Proof.
  destruct (mft_set_get 0 3 demo_mft demo_switch demo_mft_ok demo_switch_ok) as (r & s' & H1 & _ & H2 & _);
    [vm_compute; reflexivity | vm_compute; reflexivity | vm_compute; reflexivity |].
  exists r, s'. split; [exact H1|]. rewrite H2. vm_compute. reflexivity.
Defined.

Lemma portinfo_index_unchecked_witness :
  pib_process_smp 0 3 {| ss_smp := demo_portinfo; ss_sw := demo_switch |} = None.
Proof.
  apply (portinfo_index_unchecked 0 3 demo_portinfo demo_switch demo_portinfo_ok demo_switch_ok);
    [left; vm_compute; reflexivity | vm_compute; reflexivity | vm_compute; discriminate].
Defined.
