(* ===== verification/Netd.v ===== *)
(** * The switch daemon (pibnetd/main.c)

    pibnetd receives the packets of every HCA port as UDP datagrams, learns which
    port GUID is at which address from raw link packets, and forwards packets with
    the forwarding tables of the switch or answers them with its management
    agents.

    The packet is handled in place in one buffer, which also keeps what earlier
    packets left behind it.  The results of the system calls are inputs: those of
    recvmsg an argument of [receive_packet], those of sendmsg a list in the state
    (when the list is exhausted a call sends everything).  A datagram sent is
    appended to a trace.  sendmsg without a destination fails, since the socket
    is not connected.  [Exit] is a call of exit(); [None] an access outside an
    array, or the agent's call that does not return. *)

From S2P Require Import Prelude Mr Packet Wire Port SwitchSmp Pma.

(** ** Constants and layout *)

Definition PIB_PACKET_BUFFER : nat := Z.to_nat 8192.
Definition PIB_LID_PERMISSIVE : Z := 0xFFFF.
Definition PIB_QPN_MASK : Z := 0xFFFFFF.
Definition PIB_QP0 : Z := 0.
Definition PIB_QP1 : Z := 1.
Definition PIB_MULTICAST_QPN : Z := 0xFFFFFF.
Definition PIB_LINK_CMD_CONNECT : Z := 1.
Definition PIB_LINK_CMD_CONNECT_ACK : Z := 2.
Definition PIB_LINK_CMD_DISCONNECT : Z := 3.
Definition PIB_LINK_CMD_DISCONNECT_ACK : Z := 4.
Definition PIB_LINK_SHUTDOWN : Z := 5.

Definition FOOTER_SIZE : nat := 8.
Definition LRH_dlid := Fld 0 2.
Definition LRH_sl_rsv_lnh := Fld 3 1.
Definition LRH_slid := Fld 4 2.
Definition LRH_pktlen := Fld 6 2.
(** The packet of a trap: LRH, BTH at 8, DETH at 20, the SMP at 28. *)
Definition TRAP_SIZE : nat := 284.
Definition BTH_OpCode_at8 := Fld 8 1.
Definition TRAP_smp : nat := 28.
Definition NTC_generic := Fld 64 4.
Definition NTC_trapnum := Fld 68 2.
Definition NTC_issuerlid := Fld 70 2.
Definition NTC_128_lidaddr := Fld 74 2.

(** ** State *)

Inductive sockaddr := SaIn (addr port : Z) | SaIn6 (addr port : Z) | SaOther (family : Z).
#[export] Instance sockaddr_eq_dec : EqDecision sockaddr.
Proof. solve_decision. Defined.

(** The results of an interruptible system call. *)
Inductive sysret (A : Type) := SysOk (a : A) | SysEintr (signalled : bool) | SysErr (eno : Z).
Arguments SysOk {A} a.
Arguments SysEintr {A} signalled.
Arguments SysErr {A} eno.

(** Who is connected to a port: the members port_guid and sockaddr of a port. *)
Record peer := { pe_guid : Z; pe_addr : option sockaddr }.
#[export] Instance eta_peer : Eta peer := fun p => {| pe_guid := pe_guid p; pe_addr := pe_addr p |}.
Definition no_peer : peer := {| pe_guid := 0; pe_addr := None |}.

Record netd := {
  nt_sw : pib_switch; nt_peers : list peer; nt_buffer : list Z; nt_signal : bool;
  nt_results : list (sysret Z); nt_sent : list (sockaddr * list Z) }.
#[export] Instance eta_netd : Eta netd := fun s => {|
  nt_sw := nt_sw s; nt_peers := nt_peers s; nt_buffer := nt_buffer s; nt_signal := nt_signal s;
  nt_results := nt_results s; nt_sent := nt_sent s |}.

Definition init_netd (pib_hca_guid_base : Z) : netd := {|
  nt_sw := init_switch pib_hca_guid_base; nt_peers := replicate (Z.to_nat PIB_MAX_PORTS) no_peer;
  nt_buffer := replicate PIB_PACKET_BUFFER 0; nt_signal := false; nt_results := []; nt_sent := [] |}.

(** ** Computations that may call exit() *)

Inductive flow (A : Type) := Next (a : A) | Exit.
Arguments Next {A} a.
Arguments Exit {A}.

Definition N (A : Type) : Type := M netd (flow A).
Definition next {A} (a : A) : N A := ret (Next a).
Definition exit {A} : N A := ret Exit.
Definition nbind {A B} (m : N A) (k : A -> N B) : N B :=
  let! r := m in match r with Next a => k a | Exit => ret Exit end.
Definition lift {A} (m : M netd A) : N A := let! a := m in next a.
Notation "'let%' x ':=' m 'in' k" := (nbind m (fun x => k))
  (at level 10, x pattern, m at level 100, k at level 200) : pib_scope.
Notation "m ';;%' k" := (nbind m (fun _ => k)) (at level 100, k at level 200, right associativity) : pib_scope.
Definition nwhen (b : bool) (m : N unit) : N unit := if b then m else next tt.

Definition the_switch : N pib_switch := lift (gets nt_sw).
Definition the_buffer : N (list Z) := lift (gets nt_buffer).
Definition upd_buffer (f : list Z -> list Z) : N unit := lift (modify (fun s => s <| nt_buffer ::= f |>)).
Definition peer_at (s : netd) (i : Z) : option peer := if 0 <=? i then nt_peers s !! Z.to_nat i else None.
Definition the_peer (i : Z) : N peer := lift (let! s := get in of_option (peer_at s i)).
Definition set_peer (i : Z) (p : peer) : N unit := lift (modify (fun s => s <| nt_peers ::= <[Z.to_nat i := p]> |>)).
Definition upd_swport (i : Z) (f : pib_port -> pib_port) : N unit :=
  lift (modify (fun s => s <| nt_sw ::= upd_port i f |>)).

Definition set_port_state (state phys : Z) (p : pib_port) : pib_port :=
  p <| po_attr ::= fun a => a <| pa_state := state |> <| pa_phys_state := phys |> |>.
Definition count_rcv (n : Z) (p : pib_port) : pib_port :=
  p <| po_perf ::= fun q => q <| pf_rcv_packets := u64 (pf_rcv_packets q + 1) |> <| pf_rcv_data := u64 (pf_rcv_data q + n) |> |>.
Definition count_xmit (n : Z) (p : pib_port) : pib_port :=
  p <| po_perf ::= fun q => q <| pf_xmit_packets := u64 (pf_xmit_packets q + 1) |> <| pf_xmit_data := u64 (pf_xmit_data q + n) |> |>.

(** ** System calls *)

(** The loop around an interruptible call: [None] when a signal ended it. *)
Fixpoint retry {A} (l : list (sysret A)) : option (sysret A * list (sysret A)) :=
  match l with
  | [] => None
  | SysEintr false :: l' => retry l'
  | r :: l' => Some (r, l')
  end.

(** sendmsg of the first [len] bytes of the buffer with its retry loop: the number
    of bytes sent, or [None] after a signal. *)
Definition sendmsg (dest : option sockaddr) (len : nat) : N (option Z) :=
  match dest with
  | None => exit
  | Some a =>
      let! s := get in
      let sent n rest := lift (modify (fun s => s <| nt_results := rest |> <| nt_sent ::= fun l => l ++ [(a, take len (nt_buffer s))] |>)) ;;%
                         next (Some n) in
      match retry (nt_results s) with
      | None => sent (Z.of_nat len) []
      | Some (SysOk n, rest) => sent n rest
      | Some (SysEintr _, rest) => lift (modify (fun s => s <| nt_results := rest |> <| nt_signal := true |>)) ;;% next None
      | Some (SysErr _, rest) => lift (modify (fun s => s <| nt_results := rest |>)) ;;% exit
      end
  end.

(** The length of the address; the text it formats is for the log. *)
Definition parse_sockaddr (a : sockaddr) : N Z :=
  match a with SaIn _ _ => next 16 | SaIn6 _ _ => next 28 | SaOther _ => exit end.

(** ** Ports *)

(** The first port of [l] whose GUID is [g]; 0 when there is none. *)
Fixpoint find_guid (peers : list peer) (g : Z) (l : list Z) : Z :=
  match l with
  | [] => 0
  | i :: l' => if bool_decide ((pe_guid <$> peers !! Z.to_nat i) = Some g) then i else find_guid peers g l'
  end.

Definition ext_ports (sw : pib_switch) : list Z := seqZ 1 (sw_port_cnt sw - 1).

Definition detect_in_port (port_guid : Z) : N Z :=
  let! s := get in next (find_guid (nt_peers s) port_guid (ext_ports (nt_sw s))).

(** ** Sending *)

Definition send_and_count (out_port_num : Z) (dest : option sockaddr) (len : nat) : N (option Z) :=
  let% r := sendmsg dest len in
  match r with
  | None => next None
  | Some n => nwhen (0 <? n) (upd_swport out_port_num (count_xmit n)) ;;% next (Some n)
  end.

Definition resend_ack (size : nat) (port_num : Z) : N unit :=
  let% p := the_peer port_num in
  sendmsg (pe_addr p) (8 + size + FOOTER_SIZE) ;;% next tt.

Definition relay_unicast_packet (in_port_num dlid : Z) (size : nat) : N unit :=
  let% sw := the_switch in
  if negb (ucast_in dlid) then bug
  else
    let out_port_num := ucast_entry sw dlid in
    if (out_port_num =? 0) || (sw_port_cnt sw <=? out_port_num) then next tt
    else
      let% p := the_peer out_port_num in
      send_and_count out_port_num (pe_addr p) (size + FOOTER_SIZE) ;;% next tt.

Fixpoint relay_multicast_loop (l : list Z) (in_port_num dlid : Z) (size : nat) : N unit :=
  match l with
  | [] => next tt
  | out_port_num :: l' =>
      if in_port_num =? out_port_num then relay_multicast_loop l' in_port_num dlid size
      else
        let% sw := the_switch in
        if negb (mcast_in (dlid - PIB_MCAST_LID_BASE) (out_port_num / 16)) then bug
        else
          let pm_block := mcast_entry sw (dlid - PIB_MCAST_LID_BASE) (out_port_num / 16) in
          if negb (has_flag pm_block (Z.shiftl 1 (out_port_num mod 16))) then relay_multicast_loop l' in_port_num dlid size
          else
            let% p := the_peer out_port_num in
            let% r := send_and_count out_port_num (pe_addr p) (size + FOOTER_SIZE) in
            match r with None => next tt | Some _ => relay_multicast_loop l' in_port_num dlid size end
  end.

Definition relay_multicast_packet (in_port_num dlid : Z) (size : nat) : N unit :=
  let% sw := the_switch in relay_multicast_loop (ext_ports sw) in_port_num dlid size.

(** ** Traps *)

(** The packet of a port state change trap; the members not named are zero. *)
Definition trap_packet (slid dlid : Z) : list Z :=
  let smp := be_set SMP_base_version IB_MGMT_BASE_VERSION (be_set SMP_mgmt_class IB_MGMT_CLASS_SUBN_LID_ROUTED
    (be_set SMP_class_version PIB_MGMT_CLASS_VERSION (be_set SMP_method IB_MGMT_METHOD_TRAP (be_set SMP_tid 1
    (be_set SMP_attr_id PIB_SMP_ATTR_NOTICE (be_set NTC_generic 0x81000002 (be_set NTC_trapnum 128
    (be_set NTC_issuerlid slid (be_set NTC_128_lidaddr slid (replicate MAD_SIZE 0)))))))))) in
  put_bytes TRAP_smp smp (be_set LRH_dlid dlid (be_set LRH_sl_rsv_lnh 2 (be_set LRH_slid slid (be_set BTH_OpCode_at8 0x64
    (be_set LRH_pktlen (Z.land (Z.of_nat TRAP_SIZE / 4) 0x7FF) (replicate TRAP_SIZE 0)))))).

Definition send_trap_ntc128 : N unit :=
  let% sw := the_switch in
  let% p0 := lift (of_option (port_at sw 0)) in
  let slid := pa_lid (po_attr p0) in
  let dlid := pa_sm_lid (po_attr p0) in
  if (slid =? 0) || (dlid =? 0) then next tt
  else if negb (ucast_in dlid) then bug
  else
    let out_port_num := ucast_entry sw dlid in
    if (out_port_num =? 0) || (sw_port_cnt sw <=? out_port_num) then next tt
    else
      upd_buffer (put_bytes 0 (trap_packet slid dlid)) ;;%
      let% p := the_peer out_port_num in
      match pe_addr p with
      | None => next tt
      | Some a => sendmsg (Some a) (TRAP_SIZE + FOOTER_SIZE) ;;% next tt
      end.

(** ** Management datagrams *)

(** A member of the MAD at offset [off] of the buffer. *)
Definition at_off (off : nat) (f : fld) : fld := Fld (off + f_off f) (f_len f).

Section Daemon.
(** The hardware address the switch takes its GUID from, and the fuel of the
    handler that does not return. *)
Context (pib_hca_guid_base : Z) (fuel : nat).

Definition run_smp (off : nat) (in_port_num : Z) : N Z :=
  let! s := get in
  match pib_process_smp pib_hca_guid_base in_port_num
          {| ss_smp := bytes_at off MAD_SIZE (nt_buffer s); ss_sw := nt_sw s |} with
  | None => bug
  | Some (r, st) => lift (modify (fun s => s <| nt_buffer ::= put_bytes off (ss_smp st) |> <| nt_sw := ss_sw st |>)) ;;% next r
  end.

Definition run_pma (off : nat) (in_port_num : Z) : N Z :=
  let! s := get in
  match netd_process_pma_mad (sw_port_cnt (nt_sw s)) fuel in_port_num
          {| pm_mad := bytes_at off MAD_SIZE (nt_buffer s); pm_ports := sw_ports (nt_sw s) |} with
  | None => bug
  | Some (r, st) =>
      lift (modify (fun s => s <| nt_buffer ::= put_bytes off (pm_mad st) |> <| nt_sw ::= fun sw => sw <| sw_ports := pm_ports st |> |>)) ;;%
      next r
  end.

(** The label send_packet. *)
Definition send_packet (out_port_num : Z) : N Z :=
  let% buf := the_buffer in
  let len := (Z.to_nat (Z.land (be_get LRH_pktlen buf) 0x7FF * 4) + FOOTER_SIZE)%nat in
  let% p := the_peer out_port_num in
  match pe_addr p with
  | None => next 0
  | Some a => send_and_count out_port_num (Some a) len ;;% next 0
  end.

Definition path_elt (off base : nat) (i : Z) : fld := Fld (off + base + Z.to_nat i) 1.

(** Directed routing, from the direction test to the send. *)
Definition directed_route (off : nat) (in_port_num : Z) : N Z :=
  let% buf := the_buffer in
  let hop_ptr := be_get (at_off off SMP_hop_ptr) buf in
  let hop_cnt := be_get (at_off off SMP_hop_cnt) buf in
  if negb (has_flag (be_get (at_off off SMP_status) buf) IB_SMP_DIRECTION) then
    if (hop_cnt =? 0) || (hop_ptr =? 0) then exit
    else if hop_ptr <? hop_cnt then
      if SMP_MAX_PATH_HOPS <=? hop_ptr + 1 then bug
      else
        upd_buffer (fun b => be_set (at_off off SMP_hop_ptr) (hop_ptr + 1) (be_set (path_elt off SMP_return_path hop_ptr) in_port_num b)) ;;%
        let% buf := the_buffer in
        send_packet (be_get (path_elt off SMP_initial_path (hop_ptr + 1)) buf)
    else if hop_ptr =? hop_cnt then
      if negb (be_get (at_off off SMP_dr_dlid) buf =? PIB_LID_PERMISSIVE) then exit
      else if SMP_MAX_PATH_HOPS <=? hop_ptr then bug
      else
        upd_buffer (be_set (path_elt off SMP_return_path hop_ptr) in_port_num) ;;%
        run_smp off in_port_num ;;%
        upd_buffer (fun b => be_set (at_off off SMP_hop_ptr) (be_get (at_off off SMP_hop_ptr) b - 1) b) ;;%
        upd_buffer (fun b => be_set LRH_dlid (be_get LRH_slid b) b) ;;%
        upd_buffer (fun b => if be_get (at_off off SMP_dr_slid) b =? PIB_LID_PERMISSIVE then be_set LRH_slid PIB_LID_PERMISSIVE b else b) ;;%
        send_packet in_port_num
    else if hop_ptr =? hop_cnt + 1 then exit
    else next 0
  else
    if hop_ptr =? 0 then exit
    else if SMP_MAX_PATH_HOPS <=? hop_ptr - 1 then bug
    else
      upd_buffer (be_set (at_off off SMP_hop_ptr) (hop_ptr - 1)) ;;%
      let% buf := the_buffer in
      send_packet (be_get (path_elt off SMP_return_path (hop_ptr - 1)) buf).

(** The result is negative when the packet has to be relayed.  The tests
    [ret & PIB_MAD_RESULT_FAILURE] are never true, since that constant is 0. *)
Definition process_mad_packet (in_port_num : Z) (header_size size : nat) : N Z :=
  if (size <? 8)%nat then next 0
  else
    let off := (header_size + 8)%nat in
    if (size - 8 <? MAD_SIZE)%nat then next 0
    else
      let% buf := the_buffer in
      let dlid := be_get LRH_dlid buf in
      let mgmt_class := be_get (at_off off SMP_mgmt_class) buf in
      if mgmt_class =? IB_MGMT_CLASS_SUBN_DIRECTED_ROUTE then
        if negb (be_get (at_off off SMP_dr_slid) buf =? PIB_LID_PERMISSIVE)
           || negb (be_get (at_off off SMP_dr_dlid) buf =? PIB_LID_PERMISSIVE) then exit
        else directed_route off in_port_num
      else if mgmt_class =? IB_MGMT_CLASS_SUBN_LID_ROUTED then
        let% sw := the_switch in
        let% p0 := lift (of_option (port_at sw 0)) in
        if negb (dlid =? pa_lid (po_attr p0)) then next (-1)
        else
          let% r := run_smp off in_port_num in
          if has_flag r IB_MAD_RESULT_CONSUMED then next 0
          else
            upd_buffer (fun b => be_set LRH_slid dlid (be_set LRH_dlid (be_get LRH_slid b) b)) ;;%
            if has_flag r IB_MAD_RESULT_FAILURE then next 0 else send_packet in_port_num
      else if mgmt_class =? IB_MGMT_CLASS_PERF_MGMT then
        let% r := run_pma off in_port_num in
        upd_buffer (fun b => le_set LRH_slid dlid (be_set LRH_dlid (be_get LRH_slid b) b)) ;;%
        if has_flag r IB_MAD_RESULT_FAILURE then next 0 else send_packet in_port_num
      else exit.

(** ** Link packets *)

(** A port is taken by its GUID; the loop over the ports looks for GUID 0. *)
Definition connect_port (port_num port_guid : Z) (a : sockaddr) (header_size size : nat) : N unit :=
  set_peer port_num {| pe_guid := port_guid; pe_addr := Some a |} ;;%
  upd_swport port_num (set_port_state IB_PORT_INIT PIB_PHYS_PORT_LINK_UP) ;;%
  upd_buffer (be_set (Fld header_size 4) PIB_LINK_CMD_CONNECT_ACK) ;;%
  resend_ack size port_num ;;%
  send_trap_ntc128.

Definition process_raw_packet (port_guid : Z) (a : sockaddr) (header_size size : nat) : N unit :=
  parse_sockaddr a ;;%
  if (size <? 4)%nat then next tt
  else
    let% buf := the_buffer in
    let cmd := be_get (Fld header_size 4) buf in
    if cmd =? PIB_LINK_CMD_CONNECT then
      let% port_num := detect_in_port port_guid in
      if negb (port_num =? 0) then connect_port port_num port_guid a header_size size
      else
        let% free := detect_in_port 0 in
        if free =? 0 then exit else connect_port free port_guid a header_size size
    else if cmd =? PIB_LINK_CMD_DISCONNECT then
      let% port_num := detect_in_port port_guid in
      if port_num =? 0 then next tt
      else
        upd_buffer (be_set (Fld header_size 4) PIB_LINK_CMD_DISCONNECT_ACK) ;;%
        resend_ack size port_num ;;%
        send_trap_ntc128 ;;%
        set_peer port_num no_peer ;;%
        upd_swport port_num (set_port_state IB_PORT_DOWN PIB_PHYS_PORT_POLLING)
    else next tt.

(** ** Receiving *)

Definition pib_is_unicast_lid (lid : Z) : bool := (lid <? PIB_MCAST_LID_BASE) || (lid =? PIB_LID_PERMISSIVE).
Definition pib_is_permissive_lid (lid : Z) : bool := (lid =? 0) || (lid =? PIB_LID_PERMISSIVE).

(** The part of the driver's parser is the same code. *)
Definition parse_packet_header (buffer : list Z) : Z + parsed := pib_parse_packet_header buffer.

(** The packet after recvmsg put [size] bytes from [a] in the buffer. *)
Definition handle_packet (a : sockaddr) (size : nat) : N unit :=
  if (size <? FOOTER_SIZE)%nat then next tt
  else
    let packet_size := size in
    let size := (size - FOOTER_SIZE)%nat in
    let% buf := the_buffer in
    let port_guid := be_get (Fld size FOOTER_SIZE) buf in
    if port_guid =? 0 then next tt
    else
      match parse_packet_header (take size buf) with
      | inl _ => next tt
      | inr p =>
          let header_size := Z.to_nat (pr_ret p) in
          match pr_bth p with
          | None => process_raw_packet port_guid a header_size (size - header_size)
          | Some bth =>
              let% in_port_num := detect_in_port port_guid in
              if in_port_num =? 0 then parse_sockaddr a ;;% next tt
              else
                nwhen (0 <? Z.of_nat packet_size) (upd_swport in_port_num (count_rcv (Z.of_nat packet_size))) ;;%
                let dest_qp_num := bth_destQP bth in
                if has_flag dest_qp_num (Z.lnot PIB_QPN_MASK) then next tt
                else
                  let dlid := lrh_dlid (pr_lrh p) in
                  if dest_qp_num =? PIB_QP0 then
                    let% r := process_mad_packet in_port_num header_size (size - header_size) in
                    nwhen (negb (r =? 0)) (relay_unicast_packet in_port_num dlid size)
                  else
                    let% sw := the_switch in
                    let% p0 := lift (of_option (port_at sw 0)) in
                    if negb (pib_is_permissive_lid dlid) && negb (dlid =? pa_lid (po_attr p0)) then
                      if (dest_qp_num =? PIB_MULTICAST_QPN) || negb (pib_is_unicast_lid dlid)
                      then relay_multicast_packet in_port_num dlid size
                      else relay_unicast_packet in_port_num dlid size
                    else if dest_qp_num =? PIB_QP1 then
                      process_mad_packet in_port_num header_size (size - header_size) ;;% next tt
                    else next tt
          end
      end.

(** recvmsg fills the buffer from its start and truncates to its length. *)
Definition receive_packet (results : list (sysret (sockaddr * list Z))) : N unit :=
  match retry results with
  | None => next tt
  | Some (SysEintr _, _) => lift (modify (fun s => s <| nt_signal := true |>))
  | Some (SysErr _, _) => exit
  | Some (SysOk (a, data), _) =>
      let data := take PIB_PACKET_BUFFER data in
      upd_buffer (put_bytes 0 data) ;;% handle_packet a (length data)
  end.

(** The main loop, over what pselect returns: a timeout, readiness with what
    recvmsg then returns, or a failure. *)
Inductive event := EvTimeout | EvReady (results : list (sysret (sockaddr * list Z))) | EvSignal | EvError.

Fixpoint do_work (l : list event) : N unit :=
  match l with
  | [] => next tt
  | e :: l' =>
      let! s := get in
      if nt_signal s then next tt
      else match e with
           | EvTimeout => do_work l'
           | EvReady results => receive_packet results ;;% do_work l'
           | EvSignal => lift (modify (fun s => s <| nt_signal := true |>))
           | EvError => exit
           end
  end.
End Daemon.

(** ** The GUID of the switch

    An interface: the family of its address, when it has one, and the hardware
    address that ioctl returns for it (14 bytes, zeros when the call fails). *)
Definition AF_INET : Z := 2.
Definition AF_INET6 : Z := 10.

Definition hwaddr_of (sa_data : list Z) : Z :=
  foldl (fun h b => u64 (Z.lor (Z.shiftl h 8) b)) (default 0 (sa_data !! 0%nat)) (take 5 (drop 1 sa_data)).

Fixpoint construct_hca_guid_base (hwaddr : Z) (ifs : list (option Z * list Z)) : Z :=
  match ifs with
  | [] => hwaddr
  | (family, sa_data) :: ifs' =>
      match family with
      | Some f =>
          if (f =? AF_INET) || (f =? AF_INET6) then
            if existsb (fun b => negb (b =? 0)) (drop 6 sa_data) then construct_hca_guid_base hwaddr ifs'
            else let h := hwaddr_of sa_data in
                 if negb (h =? 0) then h else construct_hca_guid_base h ifs'
          else construct_hca_guid_base hwaddr ifs'
      | None => construct_hca_guid_base hwaddr ifs'
      end
  end.
