(* ===== verification/NetdThm.v ===== *)
(** * The switch daemon: theorems

    Unicast and multicast forwarding, the table of connected ports, the routing of
    directed-route packets out and back, and what makes the daemon exit. *)

From S2P Require Import Prelude Mr Packet Wire Port SwitchSmp SwitchThm Pma Netd.

(** ** Execution *)

Section Run.
Context {A B : Type}.
Lemma nbind_next (m : N A) (k : A -> N B) s a s' : m s = Some (Next a, s') -> nbind m k s = k a s'.
Proof. unfold nbind, bind. by intros ->. Qed.
Lemma nbind_exit (m : N A) (k : A -> N B) s s' : m s = Some (Exit, s') -> nbind m k s = Some (Exit, s').
Proof. unfold nbind, bind. by intros ->. Qed.
Lemma nbind_inv (m : N A) (k : A -> N B) s r s' : nbind m k s = Some (r, s') ->
  (exists a s1, m s = Some (Next a, s1) /\ k a s1 = Some (r, s')) \/ (m s = Some (Exit, s') /\ r = Exit).
Proof.
  unfold nbind, bind. destruct (m s) as [[[a|] s1]|]; [|intros [= <- <-]; by right|done].
  intros H. left. by exists a, s1.
Qed.
End Run.

Lemma sendmsg_full a len s : nt_results s = [] ->
  sendmsg (Some a) len s
  = Some (Next (Some (Z.of_nat len)), s <| nt_results := [] |> <| nt_sent ::= fun l => l ++ [(a, take len (nt_buffer s))] |>).
Proof. intros H. unfold sendmsg, bind, get. rewrite H. reflexivity. Qed.

Lemma send_and_count_full o a len s : nt_results s = [] -> (0 < len)%nat ->
  send_and_count o (Some a) len s
  = Some (Next (Some (Z.of_nat len)), s <| nt_results := [] |> <| nt_sent ::= fun l => l ++ [(a, take len (nt_buffer s))] |>
                                        <| nt_sw ::= upd_port o (count_xmit (Z.of_nat len)) |>).
Proof.
  intros H Hl. unfold send_and_count. rewrite (nbind_next _ _ _ _ _ (sendmsg_full a len s H)). cbv beta.
  unfold nwhen. rewrite (proj2 (Z.ltb_lt _ _)) by lia. reflexivity.
Qed.

Lemma the_peer_run i p s : peer_at s i = Some p -> the_peer i s = Some (Next p, s).
Proof. intros H. unfold the_peer, lift, bind, get. by rewrite H. Qed.

(** ** Receiving a packet *)

Lemma take_put_bytes_0 n (data buf : list Z) : (n <= length data)%nat -> take n (put_bytes 0 data buf) = take n data.
Proof. intros. unfold put_bytes. simpl. by rewrite take_app_le. Qed.
Lemma bytes_at_put_bytes_0 p l (data buf : list Z) : (p + l <= length data)%nat ->
  bytes_at p l (put_bytes 0 data buf) = bytes_at p l data.
Proof.
  intros. apply list_eq. intros i. rewrite !lookup_bytes_at. destruct (decide (i < l)%nat); [|done].
  unfold put_bytes. simpl. by rewrite lookup_app_l by lia.
Qed.
Lemma be_get_put_bytes_0 f (data buf : list Z) : fits f (length data) -> be_get f (put_bytes 0 data buf) = be_get f data.
Proof. intros. unfold be_get, be_at. by rewrite bytes_at_put_bytes_0. Qed.

(** A datagram that carries an IBA packet from the port with GUID [guid]: the
    headers [p] with base transport header [bth]. *)
Definition iba_datagram (data : list Z) (guid : Z) (p : parsed) (bth : pib_packet_bth) : Prop :=
  (FOOTER_SIZE <= length data <= PIB_PACKET_BUFFER)%nat
  /\ be_get (Fld (length data - FOOTER_SIZE) FOOTER_SIZE) data = guid /\ guid <> 0
  /\ parse_packet_header (take (length data - FOOTER_SIZE) data) = inr p /\ pr_bth p = Some bth
  /\ has_flag (bth_destQP bth) (Z.lnot PIB_QPN_MASK) = false.

(** The state in which the destination of the packet is looked at. *)
Definition received (s : netd) (data : list Z) (i : Z) : netd :=
  s <| nt_buffer ::= put_bytes 0 data |> <| nt_sw ::= upd_port i (count_rcv (Z.of_nat (length data))) |>.

(** The state after the packet of length [n] went out of port [o] to [a]. *)
Definition forwarded (s : netd) (data : list Z) (o : Z) (a : sockaddr) : netd :=
  s <| nt_sent ::= fun l => l ++ [(a, data)] |> <| nt_sw ::= upd_port o (count_xmit (Z.of_nat (length data))) |>.

Lemma receive_full g fuel s a data : (length data <= PIB_PACKET_BUFFER)%nat ->
  receive_packet g fuel [SysOk (a, data)] s = handle_packet g fuel a (length data) (s <| nt_buffer ::= put_bytes 0 data |>).
Proof.
  intros Hl. unfold receive_packet, retry. cbv beta iota zeta.
  rewrite (take_ge data) by lia. erewrite nbind_next by reflexivity. reflexivity.
Qed.

Section Receive.
Context (g : Z) (fuel : nat) (s : netd) (a : sockaddr) (data : list Z) (guid : Z) (p : parsed) (bth : pib_packet_bth).
Hypothesis Hd : iba_datagram data guid p bth.

(** A packet of a connected port whose destination is neither the switch nor QP0
    is relayed with one of the forwarding tables. *)
Lemma receive_relays i p0 : let dlid := lrh_dlid (pr_lrh p) in
  find_guid (nt_peers s) guid (ext_ports (nt_sw s)) = i -> i <> 0 ->
  port_at (nt_sw (received s data i)) 0 = Some p0 -> bth_destQP bth <> PIB_QP0 ->
  pib_is_permissive_lid dlid = false -> dlid <> pa_lid (po_attr p0) ->
  receive_packet g fuel [SysOk (a, data)] s
  = (if (bth_destQP bth =? PIB_MULTICAST_QPN) || negb (pib_is_unicast_lid dlid)
     then relay_multicast_packet i dlid (length data - FOOTER_SIZE)
     else relay_unicast_packet i dlid (length data - FOOTER_SIZE)) (received s data i).
Proof.
  intros dlid Hi Hi0 Hp0 Hq Hperm Hlid. rewrite receive_full by apply Hd.
  destruct Hd as ((Hl1 & Hl2) & Hg & Hg0 & Hp & Hb & Hf). unfold handle_packet.
  rewrite (proj2 (Nat.ltb_ge _ _) Hl1). cbv zeta. erewrite nbind_next by reflexivity.
  change (nt_buffer (s <| nt_buffer ::= put_bytes 0 data |>)) with (put_bytes 0 data (nt_buffer s)).
  rewrite be_get_put_bytes_0 by (unfold fits; simpl; lia). rewrite Hg, (proj2 (Z.eqb_neq _ _) Hg0).
  rewrite take_put_bytes_0 by lia. rewrite Hp, Hb. erewrite nbind_next by reflexivity. cbv beta.
  change (find_guid _ _ _) with (find_guid (nt_peers s) guid (ext_ports (nt_sw s))). rewrite Hi.
  rewrite (proj2 (Z.eqb_neq _ _) Hi0). unfold nwhen at 1. unfold FOOTER_SIZE in Hl1. rewrite (proj2 (Z.ltb_lt _ _)) by lia.
  erewrite nbind_next by reflexivity. cbv beta. fold (received s data i). rewrite Hf, (proj2 (Z.eqb_neq _ _) Hq).
  erewrite nbind_next by reflexivity. cbv beta.
  erewrite nbind_next; [|unfold lift, bind; change (nt_sw _) with (nt_sw (received s data i)); rewrite Hp0; reflexivity].
  fold dlid. rewrite Hperm, (proj2 (Z.eqb_neq _ _) Hlid). simpl. reflexivity.
Qed.
End Receive.

(** ** Unicast *)

Lemma unicast_lid dlid : 0 < dlid < PIB_MCAST_LID_BASE ->
  pib_is_permissive_lid dlid = false /\ pib_is_unicast_lid dlid = true /\ ucast_in dlid = true.
Proof.
  intros H. unfold pib_is_permissive_lid, pib_is_unicast_lid, ucast_in, PIB_LID_PERMISSIVE. change PIB_MCAST_LID_BASE with 49152 in *.
  rewrite !(proj2 (Z.eqb_neq _ _)), (proj2 (Z.ltb_lt _ _)), (proj2 (Z.leb_le _ _)) by lia. done.
Qed.

Lemma relay_unicast_run s data i o a dlid : (FOOTER_SIZE <= length data)%nat -> take (length data) (nt_buffer s) = data ->
  nt_results s = [] -> ucast_in dlid = true -> ucast_entry (nt_sw s) dlid = o -> 0 < o < sw_port_cnt (nt_sw s) ->
  (pe_addr <$> peer_at s o) = Some (Some a) ->
  relay_unicast_packet i dlid (length data - FOOTER_SIZE) s = Some (Next tt, forwarded s data o a).
Proof.
  intros Hl Hbuf Hr Hu Ho Hr0 Ha. unfold relay_unicast_packet. erewrite nbind_next by reflexivity. cbv beta.
  rewrite Hu, Ho. cbn [negb]. cbv iota zeta. rewrite (proj2 (Z.eqb_neq o 0)), (proj2 (Z.leb_gt _ _)) by lia. cbn [orb]. cbv iota.
  destruct (peer_at s o) as [q|] eqn:E; [|done].
  assert (pe_addr q = Some a) as H0 by (simpl in Ha; congruence). rewrite (nbind_next _ _ _ _ _ (the_peer_run o q s E)), H0.
  replace (length data - FOOTER_SIZE + FOOTER_SIZE)%nat with (length data) by lia.
  erewrite nbind_next by (apply send_and_count_full; [done|unfold FOOTER_SIZE in *; lia]).
  unfold next, ret, forwarded. rewrite Hbuf. destruct s. simpl in *. by rewrite Hr.
Qed.

(** The switch after a packet of [n] bytes came in at port [i] and went out at [o]. *)
Definition unicast_counted (n i o : Z) (sw : pib_switch) : pib_switch := upd_port o (count_xmit n) (upd_port i (count_rcv n) sw).

Lemma unicast_relayed g fuel s src data guid i p bth p0 a : iba_datagram data guid p bth -> find_guid (nt_peers s) guid (ext_ports (nt_sw s)) = i -> i <> 0 ->
  port_at (nt_sw (received s data i)) 0 = Some p0 -> nt_results s = [] -> bth_destQP bth <> PIB_QP0 -> bth_destQP bth <> PIB_MULTICAST_QPN ->
  0 < lrh_dlid (pr_lrh p) < PIB_MCAST_LID_BASE -> lrh_dlid (pr_lrh p) <> pa_lid (po_attr p0) ->
  let o := ucast_entry (nt_sw s) (lrh_dlid (pr_lrh p)) in
  0 < o < sw_port_cnt (nt_sw s) -> (pe_addr <$> peer_at s o) = Some (Some a) ->
  receive_packet g fuel [SysOk (src, data)] s
  = Some (Next tt, s <| nt_buffer ::= put_bytes 0 data |> <| nt_sw ::= unicast_counted (Z.of_nat (length data)) i o |>
                     <| nt_sent ::= fun l => l ++ [(a, data)] |>).
Proof.
  intros Hd Hi Hi0 Hp0 Hres Hq0 Hqm Hdlid Hlid o Ho Ha. destruct (unicast_lid _ Hdlid) as (H1 & H2 & H3).
  rewrite (receive_relays g fuel s src data guid p bth Hd i p0 Hi Hi0 Hp0 Hq0 H1 Hlid), (proj2 (Z.eqb_neq _ _) Hqm), H2. simpl.
  destruct Hd as ((Hl1 & Hl2) & _). rewrite (relay_unicast_run (received s data i) data i o a); try done.
  unfold received. simpl. rewrite take_put_bytes_0 by lia. by apply take_ge.
Qed.

(** C14. The forwarding path of a switch: a packet from a connected port whose destination
    LID is a unicast LID other than the switch's is sent, byte for byte as it
    came, to the port of the linear forwarding table and to nobody else.  The
    receive counters of the arrival port and the transmit counters of the other
    are the only other change of the state.  A packet whose LID has no entry is dropped. *)
Theorem unicast_forwarding (g : Z) (fuel : nat) (s : netd) (src : sockaddr) (data : list Z) (guid i : Z)
    (p : parsed) (bth : pib_packet_bth) (p0 : pib_port)
    (Hd : iba_datagram data guid p bth) (Hi : find_guid (nt_peers s) guid (ext_ports (nt_sw s)) = i) (Hi0 : i <> 0)
    (Hp0 : port_at (nt_sw (received s data i)) 0 = Some p0) (Hres : nt_results s = [])
    (Hq : bth_destQP bth <> PIB_QP0 /\ bth_destQP bth <> PIB_MULTICAST_QPN)
    (Hdlid : 0 < lrh_dlid (pr_lrh p) < PIB_MCAST_LID_BASE) (Hlid : lrh_dlid (pr_lrh p) <> pa_lid (po_attr p0)) :
  let o := ucast_entry (nt_sw s) (lrh_dlid (pr_lrh p)) in
  (forall a, 0 < o < sw_port_cnt (nt_sw s) -> (pe_addr <$> peer_at s o) = Some (Some a) ->
     receive_packet g fuel [SysOk (src, data)] s
     = Some (Next tt, s <| nt_buffer ::= put_bytes 0 data |> <| nt_sw ::= unicast_counted (Z.of_nat (length data)) i o |>
                        <| nt_sent ::= fun l => l ++ [(a, data)] |>))
  /\ (o = 0 \/ sw_port_cnt (nt_sw s) <= o ->
      receive_packet g fuel [SysOk (src, data)] s = Some (Next tt, received s data i)).
Proof.
  intros o. destruct Hq as [Hq0 Hqm]. split; [intros a Ho Ha; by eapply unicast_relayed|intros Ho]. destruct (unicast_lid _ Hdlid) as (H1 & H2 & H3).
  rewrite (receive_relays g fuel s src data guid p bth Hd i p0 Hi Hi0 Hp0 Hq0 H1 Hlid), (proj2 (Z.eqb_neq _ _) Hqm), H2. simpl.
  unfold relay_unicast_packet. erewrite nbind_next by reflexivity. cbv beta. rewrite H3. cbn [negb]. cbv iota zeta.
  change (ucast_entry _ _) with o. change (sw_port_cnt _) with (sw_port_cnt (nt_sw s)).
  destruct Ho as [-> | Ho]; [done|]. rewrite (proj2 (Z.leb_le _ _) Ho), orb_true_r. reflexivity.
Qed.

(** ** Multicast *)

(** The ports of a multicast group but the arrival port. *)
Definition mcast_targets (sw : pib_switch) (i dlid : Z) : list Z :=
  List.filter (fun o => negb (i =? o)
    && has_flag (mcast_entry sw (dlid - PIB_MCAST_LID_BASE) (o / 16)) (Z.shiftl 1 (o mod 16))) (ext_ports sw).

Definition addr_of (s : netd) (o : Z) : option sockaddr := p ← peer_at s o; pe_addr p.

Definition forward_to (data : list Z) (s : netd) (o : Z) : netd :=
  match addr_of s o with Some a => forwarded s data o a | None => s end.

Lemma forward_to_frame data s o : nt_peers (forward_to data s o) = nt_peers s /\ nt_results (forward_to data s o) = nt_results s
  /\ nt_buffer (forward_to data s o) = nt_buffer s
  /\ sw_mcast_fwd_table (nt_sw (forward_to data s o)) = sw_mcast_fwd_table (nt_sw s).
Proof. unfold forward_to. by destruct (addr_of s o). Qed.

Lemma relay_multicast_loop_run l s data i dlid : (FOOTER_SIZE <= length data)%nat ->
  take (length data) (nt_buffer s) = data -> nt_results s = [] ->
  Forall (fun o => 0 <= o < 256) l -> PIB_MCAST_LID_BASE <= dlid < PIB_MAX_LID ->
  let targets := List.filter (fun o => negb (i =? o)
    && has_flag (mcast_entry (nt_sw s) (dlid - PIB_MCAST_LID_BASE) (o / 16)) (Z.shiftl 1 (o mod 16))) l in
  Forall (fun o => is_Some (addr_of s o)) targets ->
  relay_multicast_loop l i dlid (length data - FOOTER_SIZE) s = Some (Next tt, foldl (forward_to data) s targets).
Proof.
  intros Hl Hbuf Hr Hrange Hdlid. revert s Hbuf Hr. induction Hrange as [|o l Ho _ IH]; intros s Hbuf Hr targets Hc; [done|].
  unfold targets in *. clear targets. simpl in *. destruct (i =? o); simpl in *; [by apply IH|].
  erewrite nbind_next by reflexivity. cbv beta.
  assert (mcast_in (dlid - PIB_MCAST_LID_BASE) (o / 16) = true) as ->.
  { assert (0 <= o / 16 < 16) by (split; [apply Z.div_pos; lia|apply Z.div_lt_upper_bound; lia]).
    unfold mcast_in, PIB_MAX_LID, PIB_MCAST_LID_BASE in *.
    rewrite !(proj2 (Z.leb_le _ _)), !(proj2 (Z.ltb_lt _ _)) by lia. done. }
  cbv zeta. cbn [negb]. cbv iota. destruct (has_flag _ _) eqn:Ef; simpl in *; [|by apply IH].
  apply Forall_cons in Hc as [[a Ha] Hc]. unfold addr_of in Ha. destruct (peer_at s o) as [q|] eqn:Eq; [|done]. simpl in Ha.
  rewrite (nbind_next _ _ _ _ _ (the_peer_run o q s Eq)), Ha.
  replace (length data - FOOTER_SIZE + FOOTER_SIZE)%nat with (length data) by lia.
  erewrite nbind_next by (apply send_and_count_full; [done|unfold FOOTER_SIZE in *; lia]). cbv beta iota.
  assert (forward_to data s o = s <| nt_results := [] |> <| nt_sent ::= fun l => l ++ [(a, take (length data) (nt_buffer s))] |>
            <| nt_sw ::= upd_port o (count_xmit (Z.of_nat (length data))) |>) as <-.
  { unfold forward_to, addr_of. rewrite Eq. simpl. rewrite Ha. unfold forwarded. rewrite Hbuf. destruct s. simpl in *. by rewrite Hr. }
  destruct (forward_to_frame data s o) as (F1 & F2 & F3 & F4).
  rewrite IH; unfold mcast_entry, addr_of, peer_at in *; rewrite ?F1, ?F2, ?F3, ?F4; done.
Qed.

Lemma omap_same {A B} (f h : A -> option B) (l : list A) : (forall x, f x = h x) -> omap f l = omap h l.
Proof. intros H. induction l as [|x l IH]; [done|]. simpl. rewrite H. destruct (h x); [f_equal|]; exact IH. Qed.

Lemma forward_all data s l : Forall (fun o => is_Some (addr_of s o)) l ->
  nt_sent (foldl (forward_to data) s l) = nt_sent s ++ ((fun a => (a, data)) <$> omap (addr_of s) l)
  /\ nt_sw (foldl (forward_to data) s l) = foldl (fun sw o => upd_port o (count_xmit (Z.of_nat (length data))) sw) (nt_sw s) l
  /\ nt_peers (foldl (forward_to data) s l) = nt_peers s.
Proof.
  revert s. induction l as [|o l IH]; intros s H; simpl; [by rewrite app_nil_r|]. apply Forall_cons in H as [[a Ha] H].
  destruct (forward_to_frame data s o) as (F1 & _).
  assert (forall o', addr_of (forward_to data s o) o' = addr_of s o') as Fa by (intros; unfold addr_of, peer_at; by rewrite F1).
  destruct (IH (forward_to data s o)) as (I1 & I2 & I3); [eapply Forall_impl; [exact H|]; intros; by rewrite Fa|].
  rewrite I1, I2, I3, F1. unfold forward_to at 1 3. rewrite Ha. unfold forwarded. simpl.
  split_and!; [|done|done]. rewrite (omap_same _ _ l Fa), <- app_assoc. reflexivity.
Qed.

Lemma mcast_targets_spec sw i dlid o : 0 <= sw_port_cnt sw <= 256 ->
  In o (mcast_targets sw i dlid) <->
  0 < o < sw_port_cnt sw /\ o <> i /\ Z.testbit (mcast_entry sw (dlid - PIB_MCAST_LID_BASE) (o / 16)) (o mod 16) = true.
Proof.
  intros Hc. unfold mcast_targets. rewrite filter_In. unfold ext_ports. rewrite <- list_elem_of_In, elem_of_seqZ.
  rewrite andb_true_iff, negb_true_iff, Z.eqb_neq.
  assert (forall x k, 0 <= k -> has_flag x (Z.shiftl 1 k) = Z.testbit x k) as E.
  { intros x k Hk. unfold has_flag. rewrite Z.shiftl_1_l. destruct (Z.testbit x k) eqn:T.
    - apply negb_true_iff, Z.eqb_neq. intros E. assert (Z.testbit (Z.land x (2 ^ k)) k = false) as F by (rewrite E; apply Z.bits_0).
      rewrite Z.land_spec, T, Z.pow2_bits_true in F by lia. done.
    - apply negb_false_iff, Z.eqb_eq, Z.bits_inj'. intros n Hn. rewrite Z.land_spec, Z.pow2_bits_eqb, Z.bits_0 by lia.
      destruct (Z.eqb_spec k n) as [<-|]; [by rewrite T|by rewrite andb_false_r]. }
  rewrite E by (apply Z.mod_pos_bound; lia). split; intros; naive_solver lia.
Qed.

(** C15. A multicast packet from a connected port is sent, byte for byte as it came, exactly
    once to each connected port whose bit is set in the multicast forwarding
    table for its LID, in the order of the port numbers, and never back to the port
    it came from; the counters of those ports are the only other change. *)
Theorem multicast_forwarding (g : Z) (fuel : nat) (s : netd) (src : sockaddr) (data : list Z) (guid i : Z)
    (p : parsed) (bth : pib_packet_bth) (p0 : pib_port)
    (Hd : iba_datagram data guid p bth) (Hi : find_guid (nt_peers s) guid (ext_ports (nt_sw s)) = i) (Hi0 : i <> 0)
    (Hp0 : port_at (nt_sw (received s data i)) 0 = Some p0) (Hres : nt_results s = [])
    (Hcnt : 0 <= sw_port_cnt (nt_sw s) <= 256) (Hq : bth_destQP bth <> PIB_QP0)
    (Hdlid : PIB_MCAST_LID_BASE <= lrh_dlid (pr_lrh p) < PIB_LID_PERMISSIVE) (Hlid : lrh_dlid (pr_lrh p) <> pa_lid (po_attr p0))
    (Hconn : Forall (fun o => is_Some (addr_of s o)) (mcast_targets (nt_sw s) i (lrh_dlid (pr_lrh p)))) :
  let T := mcast_targets (nt_sw s) i (lrh_dlid (pr_lrh p)) in
  (exists s', receive_packet g fuel [SysOk (src, data)] s = Some (Next tt, s')
     /\ nt_sent s' = nt_sent s ++ ((fun a => (a, data)) <$> omap (addr_of s) T)
     /\ nt_sw s' = foldl (fun sw o => upd_port o (count_xmit (Z.of_nat (length data))) sw)
                     (upd_port i (count_rcv (Z.of_nat (length data))) (nt_sw s)) T
     /\ nt_peers s' = nt_peers s)
  /\ List.NoDup T
  /\ (forall o, In o T <-> 0 < o < sw_port_cnt (nt_sw s) /\ o <> i
        /\ Z.testbit (mcast_entry (nt_sw s) (lrh_dlid (pr_lrh p) - PIB_MCAST_LID_BASE) (o / 16)) (o mod 16) = true).
Proof.
  intros T. set (dlid := lrh_dlid (pr_lrh p)) in *.
  assert (pib_is_permissive_lid dlid = false /\ pib_is_unicast_lid dlid = false) as (H1 & H2).
  { unfold pib_is_permissive_lid, pib_is_unicast_lid. change PIB_MCAST_LID_BASE with 49152 in *.
    rewrite !(proj2 (Z.eqb_neq _ _)), (proj2 (Z.ltb_ge _ _)) by lia. done. }
  pose proof (receive_relays g fuel s src data guid p bth Hd i p0 Hi Hi0 Hp0 Hq H1 Hlid) as E.
  fold dlid in E. rewrite H2, orb_true_r in E. destruct Hd as ((Hl1 & Hl2) & _).
  split_and!; [|apply List.NoDup_filter, NoDup_ListNoDup, NoDup_seqZ|intros o; by apply mcast_targets_spec].
  exists (foldl (forward_to data) (received s data i) T).
  destruct (forward_all data (received s data i) T Hconn) as (F1 & F2 & F3). rewrite F1, F2, F3. split; [|done].
  rewrite E. unfold relay_multicast_packet. erewrite nbind_next by reflexivity. cbv beta.
  apply relay_multicast_loop_run; [done| |done| |unfold PIB_MAX_LID, PIB_LID_PERMISSIVE in *; lia|exact Hconn].
  - unfold received. simpl. rewrite take_put_bytes_0 by lia. by apply take_ge.
  - apply Forall_forall. intros o Ho%elem_of_seqZ. simpl in Ho. lia.
Qed.

(** The daemon does not survive a forwarding entry that names a port nobody is
    connected to: sendmsg fails for want of a destination and the daemon exits. *)
Theorem disconnected_port_exits (g : Z) (fuel : nat) (s : netd) (src : sockaddr) (data : list Z) (guid i : Z)
    (p : parsed) (bth : pib_packet_bth) (p0 : pib_port) (q : peer)
    (Hd : iba_datagram data guid p bth) (Hi : find_guid (nt_peers s) guid (ext_ports (nt_sw s)) = i) (Hi0 : i <> 0)
    (Hp0 : port_at (nt_sw (received s data i)) 0 = Some p0)
    (Hq : bth_destQP bth <> PIB_QP0 /\ bth_destQP bth <> PIB_MULTICAST_QPN)
    (Hdlid : 0 < lrh_dlid (pr_lrh p) < PIB_MCAST_LID_BASE) (Hlid : lrh_dlid (pr_lrh p) <> pa_lid (po_attr p0))
    (Ho : 0 < ucast_entry (nt_sw s) (lrh_dlid (pr_lrh p)) < sw_port_cnt (nt_sw s))
    (Hpeer : peer_at s (ucast_entry (nt_sw s) (lrh_dlid (pr_lrh p))) = Some q) (Hnone : pe_addr q = None) :
  receive_packet g fuel [SysOk (src, data)] s = Some (Exit, received s data i).
Proof.
  destruct Hq as [Hq0 Hqm]. set (dlid := lrh_dlid (pr_lrh p)) in *.
  destruct (unicast_lid _ Hdlid) as (H1 & H2 & H3).
  pose proof (receive_relays g fuel s src data guid p bth Hd i p0 Hi Hi0 Hp0 Hq0 H1 Hlid) as E. fold dlid in E.
  rewrite (proj2 (Z.eqb_neq _ _) Hqm), H2 in E. cbn [negb orb] in E. rewrite E.
  unfold relay_unicast_packet. erewrite nbind_next by reflexivity. cbv beta. rewrite H3. cbn [negb]. cbv iota zeta.
  change (ucast_entry (nt_sw (received s data i)) dlid) with (ucast_entry (nt_sw s) dlid).
  change (sw_port_cnt (nt_sw (received s data i))) with (sw_port_cnt (nt_sw s)).
  rewrite (proj2 (Z.eqb_neq _ 0)), (proj2 (Z.leb_gt _ _)) by lia. cbn [orb]. cbv iota.
  erewrite nbind_next; [|apply the_peer_run; exact Hpeer]. rewrite Hnone. by repeat erewrite nbind_exit by reflexivity.
Qed.

(** ** The table of connected ports *)

(** Each port GUID is at one port, which has an address exactly when it has a GUID;
    port 0 is the switch's own. *)
Definition peers_ok (l : list peer) : Prop :=
  length l = Z.to_nat PIB_MAX_PORTS /\ l !! 0%nat = Some no_peer
  /\ (forall i p, l !! i = Some p -> (pe_guid p = 0 <-> pe_addr p = None))
  /\ (forall i j p q, l !! i = Some p -> l !! j = Some q -> pe_guid p = pe_guid q -> pe_guid p <> 0 -> i = j).
Definition table_ok (s : netd) : Prop := sw_port_cnt (nt_sw s) = PIB_MAX_PORTS /\ peers_ok (nt_peers s).

(** Everything but the link packets leaves the table alone. *)
Definition table_kept : relation netd := fun s s' =>
  nt_peers s' = nt_peers s /\ sw_port_cnt (nt_sw s') = sw_port_cnt (nt_sw s).
#[export] Instance table_kept_preorder : PreOrder table_kept.
Proof. split; [done|]. intros s1 s2 s3 [H1 H2] [H3 H4]. split; congruence. Qed.

Lemma table_kept_ok s s' : table_kept s s' -> table_ok s -> table_ok s'.
Proof. intros [H1 H2] [H3 H4]. split; [congruence|by rewrite H1]. Qed.

Lemma obeys_nbind {A B} (R : relation netd) `{!PreOrder R} (m : N A) (k : A -> N B) :
  obeys R m -> (forall a, obeys R (k a)) -> obeys R (nbind m k).
Proof. intros Hm Hk. unfold nbind. apply obeys_bind; [done|done|]. intros [a|]; [apply Hk|by apply obeys_ret]. Qed.

Ltac nobey_step :=
  lazymatch goal with
  | |- obeys _ (nbind _ _) => apply obeys_nbind; [exact _| |intros ?]
  | |- obeys _ (next _) => apply obeys_ret; exact _
  | |- obeys _ exit => apply obeys_ret; exact _
  | |- obeys _ (lift (modify _)) => unfold lift; apply obeys_bind; [exact _|apply obeys_modify; intros ?; split; reflexivity|intros ?; apply obeys_ret; exact _]
  | |- obeys _ (lift (gets _)) => unfold lift; apply obeys_bind; [exact _|apply obeys_gets; exact _|intros ?; apply obeys_ret; exact _]
  | |- obeys _ (lift _) => unfold lift
  | |- obeys _ (nwhen _ _) => unfold nwhen
  | _ => obey_step
  end.
Ltac nobey := repeat (first [progress (cbv beta zeta) | solve [auto 1 with obeys nocore] | nobey_step]).

Section Kept.
Context (g : Z) (fuel : nat).

Lemma kept_sendmsg d len : obeys table_kept (sendmsg d len).
Proof. unfold sendmsg. nobey. Qed.
Lemma kept_the_peer i : obeys table_kept (the_peer i).
Proof. unfold the_peer. nobey. Qed.
Lemma kept_the_switch : obeys table_kept the_switch.
Proof. unfold the_switch. nobey. Qed.
Lemma kept_the_buffer : obeys table_kept the_buffer.
Proof. unfold the_buffer. nobey. Qed.
Lemma kept_upd_buffer f : obeys table_kept (upd_buffer f).
Proof. unfold upd_buffer. nobey. Qed.
Lemma kept_upd_swport i f : obeys table_kept (upd_swport i f).
Proof. unfold upd_swport. nobey. Qed.
Lemma kept_detect g' : obeys table_kept (detect_in_port g').
Proof. unfold detect_in_port. nobey. Qed.
Lemma kept_parse_sockaddr a : obeys table_kept (parse_sockaddr a).
Proof. unfold parse_sockaddr. nobey. Qed.
Hint Resolve kept_sendmsg kept_the_peer kept_the_switch kept_the_buffer kept_upd_buffer kept_upd_swport kept_detect
  kept_parse_sockaddr : obeys.

Lemma kept_send_and_count o d len : obeys table_kept (send_and_count o d len).
Proof. unfold send_and_count. nobey. Qed.
Hint Resolve kept_send_and_count : obeys.
Lemma kept_resend_ack n o : obeys table_kept (resend_ack n o).
Proof. unfold resend_ack. nobey. Qed.
Lemma kept_send_trap : obeys table_kept send_trap_ntc128.
Proof. unfold send_trap_ntc128. nobey. Qed.
Lemma kept_relay_unicast i d n : obeys table_kept (relay_unicast_packet i d n).
Proof. unfold relay_unicast_packet. nobey. Qed.
Lemma kept_relay_multicast i d n : obeys table_kept (relay_multicast_packet i d n).
Proof.
  assert (forall l, obeys table_kept (relay_multicast_loop l i d n)) as H.
  { induction l as [|o l IH]; simpl; nobey. }
  unfold relay_multicast_packet. nobey.
Qed.

Lemma process_smp_port_cnt p : keeps (fun s => sw_port_cnt (ss_sw s)) (pib_process_smp g p).
Proof.
  assert (forall A (c : M smp_st A), obeys answers c -> keeps (fun s => sw_port_cnt (ss_sw s)) c) as H.
  { intros A c Hc s a s' E. destruct (Hc s a s' E) as [E' _]. unfold same. by rewrite E'. }
  pose proof (H _ _ (answers_get_method g p)) as HG. pose proof (port_cnt_kept p) as HS.
  unfold pib_process_smp, unsupported, smp_get, the_smp.
  repeat first [exact HG | exact HS | apply (H _ _ (answers_or_status _)) | apply (H _ _ answers_reply) | obey_step].
Qed.

Lemma kept_run_smp off p : obeys table_kept (run_smp g off p).
Proof.
  intros s r s'. unfold run_smp, bind at 1, get at 1.
  destruct (pib_process_smp g p _) as [[r1 st]|] eqn:E; [|done]. intros [= <- <-].
  apply process_smp_port_cnt in E. unfold same in E. simpl in E. split; [done|exact E].
Qed.
Lemma kept_run_pma off p : obeys table_kept (run_pma fuel off p).
Proof.
  intros s r s'. unfold run_pma, bind at 1, get at 1.
  destruct (netd_process_pma_mad _ _ _ _) as [[r1 st]|] eqn:E; [|done]. intros [= <- <-]. split; reflexivity.
Qed.
Hint Resolve kept_resend_ack kept_send_trap kept_relay_unicast kept_relay_multicast kept_run_smp kept_run_pma : obeys.

Lemma kept_send_packet o : obeys table_kept (send_packet o).
Proof. unfold send_packet. nobey. Qed.
Hint Resolve kept_send_packet : obeys.
Lemma kept_directed_route off i : obeys table_kept (directed_route g off i).
Proof. unfold directed_route. nobey. Qed.
Hint Resolve kept_directed_route : obeys.
Lemma kept_process_mad i h n : obeys table_kept (process_mad_packet g fuel i h n).
Proof. unfold process_mad_packet. nobey. Qed.
End Kept.

(** What the search for a GUID finds. *)
Lemma find_guid_spec peers guid l : let i := find_guid peers guid l in
  (i = 0 \/ In i l /\ (pe_guid <$> peers !! Z.to_nat i) = Some guid)
  /\ ((forall j, In j l -> (pe_guid <$> peers !! Z.to_nat j) <> Some guid) -> i = 0).
Proof.
  induction l as [|k l [IH1 IH2]]; simpl; [auto|]. case_bool_decide as E.
  - split; [right; auto|]. intros H. exfalso. eapply H; [by left|done].
  - split; [destruct IH1 as [|[? ?]]; auto|]. intros H. apply IH2. auto.
Qed.

Lemma find_guid_zero peers guid l j : find_guid peers guid l = 0 -> (forall k, In k l -> k <> 0) -> In j l ->
  (pe_guid <$> peers !! Z.to_nat j) <> Some guid.
Proof.
  induction l as [|k l IH]; simpl; [done|]. case_bool_decide as E; intros Hf Hn [->|Hj]; [by exfalso; eapply Hn; [by left|]..|done|].
  apply IH; auto.
Qed.

Lemma peers_ok_connect l i g a q : peers_ok l -> (0 < i)%nat -> l !! i = Some q -> g <> 0 ->
  (forall j p, l !! j = Some p -> pe_guid p = g -> j = i) -> peers_ok (<[i := {| pe_guid := g; pe_addr := Some a |}]> l).
Proof.
  intros (H1 & H2 & H3 & H4) Hi Hq Hg Hu. split_and!.
  - by rewrite length_insert.
  - by rewrite list_lookup_insert_ne by lia.
  - intros j p. rewrite list_lookup_insert_Some. intros [(-> & <- & _)|[_ Hp]]; [simpl; split; congruence|by eapply H3].
  - intros j k p r. rewrite !list_lookup_insert_Some.
    intros [(<- & <- & _)|[Hj Hp]] [(<- & <- & _)|[Hk Hr]] E En; simpl in *; [done| |exfalso; by apply Hj; symmetry; eapply Hu|by eapply H4].
    symmetry. exfalso. apply Hk. symmetry. by eapply Hu.
Qed.
Lemma peers_ok_disconnect l i : peers_ok l -> (0 < i)%nat -> peers_ok (<[i := no_peer]> l).
Proof.
  intros (H1 & H2 & H3 & H4) Hi. split_and!.
  - by rewrite length_insert.
  - by rewrite list_lookup_insert_ne by lia.
  - intros j p. rewrite list_lookup_insert_Some. intros [(-> & <- & _)|[_ Hp]]; [done|by eapply H3].
  - intros j k p r. rewrite !list_lookup_insert_Some.
    intros [(<- & <- & _)|[Hj Hp]] [(<- & <- & _)|[Hk Hr]] E En; simpl in *; [done|done|congruence|by eapply H4].
Qed.

Lemma ext_ports_in sw i : sw_port_cnt sw = PIB_MAX_PORTS -> In i (ext_ports sw) <-> 1 <= i < PIB_MAX_PORTS.
Proof. intros E. unfold ext_ports. rewrite <- list_elem_of_In, elem_of_seqZ, E. lia. Qed.

(** The port of a GUID, and the GUID of a port, in a table that is in order. *)
Lemma find_guid_port s guid : table_ok s -> let i := find_guid (nt_peers s) guid (ext_ports (nt_sw s)) in i <> 0 ->
  1 <= i < PIB_MAX_PORTS /\ exists q, nt_peers s !! Z.to_nat i = Some q /\ pe_guid q = guid.
Proof.
  intros [Hc Hok] i Hi. destruct (find_guid_spec (nt_peers s) guid (ext_ports (nt_sw s))) as [[E|[E1 E2]] _]; [done|].
  apply ext_ports_in in E1; [|done]. split; [done|]. fold i in E2. destruct (nt_peers s !! Z.to_nat i) as [q|]; [|done].
  exists q. split; [done|]. simpl in E2. congruence.
Qed.
Lemma find_guid_none s guid : table_ok s -> guid <> 0 -> find_guid (nt_peers s) guid (ext_ports (nt_sw s)) = 0 ->
  forall j p, nt_peers s !! j = Some p -> pe_guid p <> guid.
Proof.
  intros [Hc (H1 & H2 & _)] Hg Hf j p Hj Hp.
  destruct (decide (j = 0%nat)) as [->|Hj0]; [rewrite H2 in Hj; injection Hj as <-; simpl in Hp; congruence|].
  assert (j < Z.to_nat PIB_MAX_PORTS)%nat by (rewrite <- H1; by eapply lookup_lt_Some).
  assert (In (Z.of_nat j) (ext_ports (nt_sw s))) as Hin by (apply ext_ports_in; [done|unfold PIB_MAX_PORTS in *; lia]).
  apply (find_guid_zero _ _ _ (Z.of_nat j)) in Hf; [rewrite Nat2Z.id, Hj in Hf; simpl in Hf; congruence| |done].
  intros k Hk. apply ext_ports_in in Hk; [lia|done].
Qed.

(** Taking a port for a GUID, whether it had it or is the first free one. *)
Lemma table_ok_set s i guid a q : table_ok s -> 1 <= i -> nt_peers s !! Z.to_nat i = Some q -> guid <> 0 ->
  (forall j p, nt_peers s !! j = Some p -> pe_guid p = guid -> j = Z.to_nat i) ->
  table_ok (s <| nt_peers ::= <[Z.to_nat i := {| pe_guid := guid; pe_addr := Some a |}]> |>).
Proof. intros [Hc Hok] Hi Hq Hg Hu. split; [done|]. eapply peers_ok_connect; [done|lia|done|done|done]. Qed.

Lemma table_ok_connect s port guid a h n r s' : table_ok s -> 1 <= port -> is_Some (nt_peers s !! Z.to_nat port) -> guid <> 0 ->
  (forall j p, nt_peers s !! j = Some p -> pe_guid p = guid -> j = Z.to_nat port) ->
  connect_port port guid a h n s = Some (r, s') -> table_ok s'.
Proof.
  intros Hok Hp [q Hq] Hg Hu. unfold connect_port. erewrite nbind_next by reflexivity. intros E.
  match type of E with ?m _ = _ => assert (obeys table_kept m) as Hm end.
  { pose proof kept_upd_swport. pose proof kept_upd_buffer. pose proof kept_resend_ack. pose proof kept_send_trap. nobey. }
  eapply table_kept_ok; [by eapply Hm|]. by eapply table_ok_set.
Qed.

Lemma table_ok_raw guid a h n s r s' : table_ok s -> guid <> 0 -> process_raw_packet guid a h n s = Some (r, s') -> table_ok s'.
Proof.
  intros Hok Hg. unfold process_raw_packet. intros E.
  apply nbind_inv in E as [(len & s1 & E1 & E)|[E1 _]]; apply kept_parse_sockaddr in E1; [|by eapply table_kept_ok].
  apply (table_kept_ok _ _ E1) in Hok. clear E1. destruct (n <? 4)%nat; [by injection E as <- <-|].
  erewrite nbind_next in E by reflexivity. cbv beta zeta in E. case_match.
  - erewrite nbind_next in E by reflexivity. cbv beta in E. destruct (Z.eqb_spec (find_guid (nt_peers s1) guid (ext_ports (nt_sw s1))) 0) as [E0|E0];
      cbn [negb] in E.
    + erewrite nbind_next in E by reflexivity. cbv beta in E.
      destruct (Z.eqb_spec (find_guid (nt_peers s1) 0 (ext_ports (nt_sw s1))) 0) as [Ef|Ef]; [by injection E as <- <-|].
      destruct (find_guid_port s1 0 Hok Ef) as (Hr & q & Hq & Hq0).
      eapply table_ok_connect; [exact Hok| | |exact Hg| |exact E]; [lia|by eexists|].
      intros j p Hj Hp. by destruct (find_guid_none s1 guid Hok Hg E0 j p Hj Hp).
    + destruct (find_guid_port s1 guid Hok E0) as (Hr & q & Hq & Hq0).
      eapply table_ok_connect; [exact Hok| | |exact Hg| |exact E]; [lia|by eexists|].
      intros j p Hj Hp. destruct Hok as [_ (_ & _ & _ & H4)]. eapply H4; [done|done|congruence|congruence].
  - case_match; [|by injection E as <- <-]. erewrite nbind_next in E by reflexivity. cbv beta in E.
    destruct (Z.eqb_spec (find_guid (nt_peers s1) guid (ext_ports (nt_sw s1))) 0) as [E0|E0]; [by injection E as <- <-|].
    destruct (find_guid_port s1 guid Hok E0) as (Hr & _).
    erewrite nbind_next in E by reflexivity. cbv beta in E.
    set (s2 := s1 <| nt_buffer ::= _ |>) in E. assert (table_ok s2) as H2 by done. clearbody s2.
    apply nbind_inv in E as [(u & s3 & E3 & E)|[E3 _]]; apply kept_resend_ack in E3; [|by eapply table_kept_ok].
    apply nbind_inv in E as [(u' & s4 & E4 & E)|[E4 _]]; apply kept_send_trap in E4; [|by do 2 (eapply table_kept_ok; [done|])].
    apply (table_kept_ok _ _ E3) in H2. apply (table_kept_ok _ _ E4) in H2.
    erewrite nbind_next in E by reflexivity. injection E as <- <-. destruct H2 as [Hc Hok2]. split; [done|].
    apply peers_ok_disconnect; [done|]. lia.
Qed.

Lemma table_ok_handle g fuel a n s r s' : table_ok s -> handle_packet g fuel a n s = Some (r, s') -> table_ok s'.
Proof.
  intros Hok. unfold handle_packet. case_match; [by intros [= <- <-]|]. cbv zeta. intros E.
  erewrite nbind_next in E by reflexivity. cbv beta in E. destruct (Z.eqb_spec (be_get (Fld (n - FOOTER_SIZE) FOOTER_SIZE) (nt_buffer s)) 0) as [|Hg];
    [by injection E as <- <-|].
  case_match; [by injection E as <- <-|]. destruct (pr_bth _) as [bth|]; [|by eapply table_ok_raw].
  eapply table_kept_ok; [|exact Hok]. revert E. match goal with |- ?m s = _ -> _ => enough (obeys table_kept m) as Hm by apply Hm end.
  pose proof kept_detect. pose proof kept_parse_sockaddr. pose proof kept_upd_swport. pose proof (kept_process_mad g fuel).
  pose proof kept_relay_unicast. pose proof kept_relay_multicast. pose proof kept_the_switch. nobey.
Qed.

Lemma table_ok_receive g fuel results s r s' : table_ok s -> receive_packet g fuel results s = Some (r, s') -> table_ok s'.
Proof.
  intros Hok. unfold receive_packet. destruct (retry results) as [[[[a data]|sg|eno] rest]|]; try by intros [= <- <-].
  cbv zeta. intros E. erewrite nbind_next in E by reflexivity. by eapply table_ok_handle in E.
Qed.

Lemma table_ok_work g fuel l s r s' : table_ok s -> do_work g fuel l s = Some (r, s') -> table_ok s'.
Proof.
  revert s. induction l as [|e l IH]; intros s Hok; simpl; [by intros [= <- <-]|].
  unfold bind, get. destruct (nt_signal s); [by intros [= <- <-]|]. destruct e as [|results| |]; [by apply IH| |by intros [= <- <-]..].
  intros E. apply nbind_inv in E as [([] & s1 & E1 & E)|[E1 _]]; apply table_ok_receive in E1; [|done|done|done]. by eapply IH.
Qed.

(** The daemon starts with no port connected. *)
Lemma init_table_ok g results : table_ok ((init_netd g) <| nt_results := results |>).
Proof.
  split; [reflexivity|].
  assert (forall i p, replicate (Z.to_nat PIB_MAX_PORTS) no_peer !! i = Some p -> p = no_peer) as H by (intros i p Hp; by apply lookup_replicate in Hp as [-> _]).
  split_and!; [reflexivity|reflexivity|intros i p Hp; by rewrite (H i p Hp)|].
  intros i j p q Hp Hq E Hn. by rewrite (H i p Hp) in Hn.
Qed.

(** C16. Whatever datagrams arrive and whatever the system calls return, the daemon knows
    each port GUID at one port only, has an address for a port exactly when it
    has a GUID for it, and never assigns port 0. *)
Theorem port_table_invariant (g : Z) (fuel : nat) (l : list event) (results : list (sysret Z)) (r : flow unit) (s' : netd)
    (Hrun : do_work g fuel l ((init_netd g) <| nt_results := results |>) = Some (r, s')) : table_ok s'.
Proof. eapply table_ok_work; [|exact Hrun]. apply init_table_ok. Qed.

(** ** Connecting a port *)

(** A raw packet with command [cmd] from the port with GUID [guid]. *)
Definition link_datagram (data : list Z) (guid cmd : Z) : Prop :=
  (8 + 4 + FOOTER_SIZE <= length data <= PIB_PACKET_BUFFER)%nat
  /\ be_get (Fld (length data - FOOTER_SIZE) FOOTER_SIZE) data = guid /\ guid <> 0
  /\ (exists p, parse_packet_header (take (length data - FOOTER_SIZE) data) = inr p /\ pr_bth p = None)
  /\ be_get (Fld 8 4) data = cmd.

Lemma parse_raw b p : parse_packet_header b = inr p -> pr_bth p = None -> pr_ret p = LRH_SIZE.
Proof.
  unfold parse_packet_header, pib_parse_packet_header. cbv zeta.
  repeat (case_match; try done); intros [= <-]; simpl; done.
Qed.

Lemma results_nil s : nt_results s = [] -> s <| nt_results := [] |> = s.
Proof. destruct s. unfold set_field. simpl. by intros ->. Qed.
Lemma sent_nil s b : s <| nt_buffer := b |> <| nt_sent ::= fun l => l ++ [] |> = s <| nt_buffer := b |>.
Proof. destruct s. unfold set_field. simpl. by rewrite app_nil_r. Qed.

(** A trap is sent at most once, and only where the tables say. *)
Lemma send_trap_run s p0 : nt_results s = [] -> port_at (nt_sw s) 0 = Some p0 -> 0 <= pa_sm_lid (po_attr p0) < PIB_MCAST_LID_BASE ->
  sw_ok (nt_sw s) -> table_ok s ->
  exists trap b, send_trap_ntc128 s = Some (Next tt, s <| nt_buffer := b |> <| nt_sent ::= fun l => l ++ trap |>) /\ (length trap <= 1)%nat.
Proof.
  intros Hr Hp0 Hsm Hsw [Hc (Hlen & _)]. unfold send_trap_ntc128. erewrite nbind_next by reflexivity. cbv beta.
  erewrite nbind_next; [|unfold lift, bind; rewrite Hp0; reflexivity]. cbv zeta.
  assert (exists trap b, Some (Next tt, s) = Some (Next tt, s <| nt_buffer := b |> <| nt_sent ::= fun l => l ++ trap |>) /\ (length trap <= 1)%nat) as Hno.
  { exists [], (nt_buffer s). split; [|simpl; lia]. f_equal. f_equal. destruct s. unfold set_field. simpl. by rewrite app_nil_r. }
  destruct (_ || _); [exact Hno|].
  assert (ucast_in (pa_sm_lid (po_attr p0)) = true) as -> by (unfold ucast_in; rewrite (proj2 (Z.leb_le _ _)), (proj2 (Z.ltb_lt _ _)) by lia; done).
  cbn [negb]. cbv iota. destruct (_ || _) eqn:E; [exact Hno|]. bools.
  erewrite nbind_next by reflexivity. cbv beta. set (o := ucast_entry _ _) in *.
  assert (0 <= o < 256) as Ho by (unfold o; apply Hsw).
  destruct (lookup_lt_is_Some_2 (nt_peers s) (Z.to_nat o)) as [q Hq]; [rewrite Hlen, <- Hc; lia|].
  erewrite nbind_next; [|apply the_peer_run; unfold peer_at; rewrite (proj2 (Z.leb_le _ _)) by lia; exact Hq].
  set (b := put_bytes 0 (trap_packet (pa_lid (po_attr p0)) (pa_sm_lid (po_attr p0))) (nt_buffer s)).
  destruct (pe_addr q) as [a|].
  - erewrite nbind_next by (apply sendmsg_full; exact Hr). exists [(a, take (TRAP_SIZE + FOOTER_SIZE) b)], b. split; [|simpl; lia].
    unfold next, ret. by rewrite results_nil.
  - exists [], b. split; [|simpl; lia].
    by rewrite sent_nil.
Qed.

Lemma be_set_put_bytes_0 f v (data buf : list Z) : fits f (length data) ->
  be_set f v (put_bytes 0 data buf) = put_bytes 0 (be_set f v data) buf.
Proof.
  unfold fits. intros Hf. unfold be_set, put_bytes. rewrite !length_app, !length_be_split, length_take, length_drop. simpl.
  rewrite (take_app_le data) by lia. rewrite drop_app_le by lia. rewrite <- !app_assoc. do 3 f_equal. f_equal. lia.
Qed.

(** Receiving a link packet comes down to its command. *)
Lemma receive_link g fuel s a data guid cmd : link_datagram data guid cmd -> (forall f, a <> SaOther f) ->
  let s1 := s <| nt_buffer ::= put_bytes 0 data |> in
  receive_packet g fuel [SysOk (a, data)] s = process_raw_packet guid a 8 (length data - FOOTER_SIZE - 8) s1
  /\ be_get (Fld 8 4) (nt_buffer s1) = cmd /\ exists len, parse_sockaddr a s1 = Some (Next len, s1).
Proof.
  intros ((Hl1 & Hl2) & Hg & Hg0 & (p & Hp & Hb) & Hc) Ha s1. unfold FOOTER_SIZE in Hl1. rewrite receive_full by done. split_and!.
  - unfold handle_packet, FOOTER_SIZE. rewrite (proj2 (Nat.ltb_ge _ _)) by lia. cbv zeta. erewrite nbind_next by reflexivity.
    change (nt_buffer (s <| nt_buffer ::= put_bytes 0 data |>)) with (put_bytes 0 data (nt_buffer s)).
    rewrite be_get_put_bytes_0 by (unfold fits; simpl; lia). unfold FOOTER_SIZE in Hg. rewrite Hg, (proj2 (Z.eqb_neq _ _) Hg0).
    rewrite take_put_bytes_0 by lia. unfold FOOTER_SIZE in Hp. rewrite Hp, Hb, (parse_raw _ _ Hp Hb). reflexivity.
  - unfold s1. change (nt_buffer _) with (put_bytes 0 data (nt_buffer s)). rewrite be_get_put_bytes_0; [done|unfold fits; simpl; lia].
  - destruct a as [| |f]; [by exists 16|by exists 28|by destruct (Ha f)].
Qed.

(** The port a GUID is connected to: its own if it has one, else the first free. *)
Definition port_for (s : netd) (guid : Z) : Z :=
  let own := find_guid (nt_peers s) guid (ext_ports (nt_sw s)) in
  if own =? 0 then find_guid (nt_peers s) 0 (ext_ports (nt_sw s)) else own.

Lemma port_for_range s guid : table_ok s -> port_for s guid <> 0 -> 1 <= port_for s guid < PIB_MAX_PORTS /\ is_Some (nt_peers s !! Z.to_nat (port_for s guid)).
Proof.
  intros Hok Hi. unfold port_for in *. destruct (Z.eqb_spec (find_guid (nt_peers s) guid (ext_ports (nt_sw s))) 0) as [E|E].
  - destruct (find_guid_port s 0 Hok Hi) as (H1 & q & H2 & _). eauto.
  - destruct (find_guid_port s guid Hok E) as (H1 & q & H2 & _). eauto.
Qed.

(** Connecting the port keeps the table in order. *)
Lemma port_for_connect s guid a : table_ok s -> port_for s guid <> 0 -> guid <> 0 ->
  peers_ok (<[Z.to_nat (port_for s guid) := {| pe_guid := guid; pe_addr := Some a |}]> (nt_peers s)).
Proof.
  intros Hok Hi Hg0. destruct (port_for_range s guid Hok Hi) as [Hir [q Hq]]. pose proof Hok as [Hc (Hlen & H2 & H3 & H4)].
  eapply peers_ok_connect; [split_and!; eassumption|lia|exact Hq|exact Hg0|]. intros j p Hj Hp. unfold port_for in *.
  destruct (Z.eqb_spec (find_guid (nt_peers s) guid (ext_ports (nt_sw s))) 0) as [E|E]; [by destruct (find_guid_none s guid Hok Hg0 E j p Hj Hp)|].
  destruct (find_guid_port s guid Hok E) as (_ & q' & Hq' & Hg'). eapply H4; [done|done|congruence|congruence].
Qed.

Lemma raw_connect s guid a n : be_get (Fld 8 4) (nt_buffer s) = PIB_LINK_CMD_CONNECT ->
  (exists len, parse_sockaddr a s = Some (Next len, s)) -> (4 <= n)%nat ->
  process_raw_packet guid a 8 n s = (if port_for s guid =? 0 then exit else connect_port (port_for s guid) guid a 8 n) s.
Proof.
  intros Hc [len Ha] Hn. unfold process_raw_packet. rewrite (nbind_next _ _ _ _ _ Ha). cbv beta.
  rewrite (proj2 (Nat.ltb_ge _ _) Hn). erewrite nbind_next by reflexivity. cbv beta zeta. rewrite Hc.
  change (PIB_LINK_CMD_CONNECT =? PIB_LINK_CMD_CONNECT) with true. cbv iota. erewrite nbind_next by reflexivity. cbv beta.
  unfold port_for. destruct (find_guid _ guid _ =? 0) eqn:E; cbn [negb]; cbv iota zeta.
  - erewrite nbind_next by reflexivity. reflexivity.
  - by rewrite E.
Qed.

Lemma resend_ack_run s i q a n : nt_results s = [] -> peer_at s i = Some q -> pe_addr q = Some a ->
  resend_ack n i s = Some (Next tt, s <| nt_sent ::= fun l => l ++ [(a, take (8 + n + FOOTER_SIZE) (nt_buffer s))] |>).
Proof.
  intros Hr Hq Ha. unfold resend_ack. rewrite (nbind_next _ _ _ _ _ (the_peer_run i q s Hq)), Ha.
  rewrite (nbind_next _ _ _ _ _ (sendmsg_full a _ s Hr)). by rewrite results_nil.
Qed.

Lemma set_port_state_ok st ph p : 0 <= st < 16 -> 0 <= ph < 16 -> sw_port_ok p -> sw_port_ok (set_port_state st ph p).
Proof. unfold sw_port_ok, port_ok, set_port_state. cbn. intuition lia. Qed.

(** A connect packet from a port, on a daemon whose tables are in order: the port
    keeps the number it has, or gets the first free one; the daemon records its
    address, moves the port to INIT and LINK_UP, and answers the sender with the
    packet it sent, made an acknowledgement, and then at most one trap to the
    subnet manager.  With no free port the daemon exits. *)
Lemma connect_assigns_port (g : Z) (fuel : nat) (s : netd) (a : sockaddr) (data : list Z) (guid : Z) (p0 : pib_port)
    (Hd : link_datagram data guid PIB_LINK_CMD_CONNECT) (Ha : forall f, a <> SaOther f) (Hres : nt_results s = [])
    (Hok : table_ok s) (Hsw : sw_ok (nt_sw s)) (Hp0 : port_at (nt_sw s) 0 = Some p0)
    (Hsm : pa_sm_lid (po_attr p0) < PIB_MCAST_LID_BASE) :
  let i := port_for s guid in
  if i =? 0 then exists s', receive_packet g fuel [SysOk (a, data)] s = Some (Exit, s') /\ nt_sent s' = nt_sent s
  else exists s' trap, receive_packet g fuel [SysOk (a, data)] s = Some (Next tt, s')
    /\ nt_peers s' = <[Z.to_nat i := {| pe_guid := guid; pe_addr := Some a |}]> (nt_peers s)
    /\ nt_sw s' = upd_port i (set_port_state IB_PORT_INIT PIB_PHYS_PORT_LINK_UP) (nt_sw s)
    /\ nt_sent s' = nt_sent s ++ (a, be_set (Fld 8 4) PIB_LINK_CMD_CONNECT_ACK data) :: trap /\ (length trap <= 1)%nat.
Proof.
  intros i. destruct (receive_link g fuel s a data guid _ Hd Ha) as (E & Hcmd & Hpa). rewrite E. clear E.
  destruct Hd as ((Hl1 & Hl2) & _ & Hg0 & _). unfold FOOTER_SIZE in Hl1.
  set (s1 := s <| nt_buffer ::= put_bytes 0 data |>) in *.
  rewrite raw_connect; [|done|done|unfold FOOTER_SIZE; lia]. change (port_for s1 guid) with i.
  destruct (Z.eqb_spec i 0) as [Hi|Hi]; [by exists s1|].
  destruct (port_for_range s guid Hok Hi) as [Hir [q Hq]].
  unfold connect_port. do 3 (erewrite nbind_next by reflexivity; cbv beta).
  set (pe := {| pe_guid := guid; pe_addr := Some a |}).
  set (s2 := ((s1 <| nt_peers ::= <[Z.to_nat i := pe]> |>) <| nt_sw ::= upd_port i (set_port_state IB_PORT_INIT PIB_PHYS_PORT_LINK_UP) |>)
             <| nt_buffer ::= be_set (Fld 8 4) PIB_LINK_CMD_CONNECT_ACK |>).
  assert (peer_at s2 i = Some pe) as Hpe.
  { unfold peer_at. rewrite (proj2 (Z.leb_le 0 i)) by lia. apply list_lookup_insert_eq. by eapply lookup_lt_Some. }
  erewrite nbind_next by (apply (resend_ack_run s2 i pe a); [exact Hres|exact Hpe|reflexivity]). cbv beta.
  set (s3 := s2 <| nt_sent ::= _ |>).
  destruct (send_trap_run s3 p0) as (trap & b & Et & Hlt).
  - exact Hres.
  - change (nt_sw s3) with (upd_port i (set_port_state IB_PORT_INIT PIB_PHYS_PORT_LINK_UP) (nt_sw s)).
    rewrite port_at_upd_ne; [exact Hp0|lia|exact Hi].
  - split; [|exact Hsm]. destruct (port_at_lt (nt_sw s) 0 Hsw) as (p0' & Hp0' & Hp0k & _); [destruct Hsw as (_ & ? & _); lia|].
    rewrite Hp0' in Hp0. injection Hp0 as <-. apply Hp0k.
  - apply upd_port_ok; [|exact Hsw]. intros r Hr. apply set_port_state_ok; [split; done|split; done|done].
  - split; [apply Hok|]. exact (port_for_connect s guid a Hok Hi Hg0).
  - rewrite Et. eexists _, trap. split; [reflexivity|]. split_and!; [reflexivity|reflexivity| |exact Hlt].
    transitivity ((nt_sent s ++ [(a, take (8 + (length data - FOOTER_SIZE - 8) + FOOTER_SIZE)
      (be_set (Fld 8 4) PIB_LINK_CMD_CONNECT_ACK (put_bytes 0 data (nt_buffer s))))]) ++ trap); [reflexivity|].
    rewrite be_set_put_bytes_0, take_put_bytes_0 by (unfold fits; rewrite ?length_be_set by (unfold fits; simpl; lia); simpl; unfold FOOTER_SIZE; lia).
    rewrite take_ge by (rewrite length_be_set by (unfold fits; simpl; lia); unfold FOOTER_SIZE; lia). by rewrite <- app_assoc.
Qed.

(** ** Directed routes *)

(** The MAD at [off] of the buffer is a directed-route SMP with the hop pointer
    [k], going out or returning. *)
Definition dr_smp (b : list Z) (off : nat) (returning : bool) (k : Z) : Prop :=
  (off + MAD_SIZE <= length b)%nat /\ Forall byte_ok b
  /\ be_get (at_off off SMP_mgmt_class) b = IB_MGMT_CLASS_SUBN_DIRECTED_ROUTE
  /\ be_get (at_off off SMP_dr_slid) b = PIB_LID_PERMISSIVE /\ be_get (at_off off SMP_dr_dlid) b = PIB_LID_PERMISSIVE
  /\ has_flag (be_get (at_off off SMP_status) b) IB_SMP_DIRECTION = returning
  /\ be_get (at_off off SMP_hop_ptr) b = k.

Definition sent_len (b : list Z) : nat := (Z.to_nat (Z.land (be_get LRH_pktlen b) 0x7FF * 4) + FOOTER_SIZE)%nat.

Lemma send_packet_run s o q a : nt_results s = [] -> peer_at s o = Some q -> pe_addr q = Some a ->
  send_packet o s = Some (Next 0, s <| nt_sent ::= fun l => l ++ [(a, take (sent_len (nt_buffer s)) (nt_buffer s))] |>
                                    <| nt_sw ::= upd_port o (count_xmit (Z.of_nat (sent_len (nt_buffer s)))) |>).
Proof.
  intros Hr Hq Ha. unfold send_packet. erewrite nbind_next by reflexivity. cbv beta zeta.
  rewrite (nbind_next _ _ _ _ _ (the_peer_run o q s Hq)), Ha. fold (sent_len (nt_buffer s)).
  erewrite nbind_next by (apply send_and_count_full; [exact Hr|unfold sent_len, FOOTER_SIZE; lia]). by rewrite results_nil.
Qed.

Lemma mad_dr g fuel i h n s : (8 + MAD_SIZE <= n)%nat -> (exists r k, dr_smp (nt_buffer s) (h + 8) r k) ->
  process_mad_packet g fuel i h n s = directed_route g (h + 8) i s.
Proof.
  intros Hn (r & k & _ & _ & Hc & Hs & Hd & _). unfold process_mad_packet.
  rewrite (proj2 (Nat.ltb_ge n 8)) by lia. cbv zeta. rewrite (proj2 (Nat.ltb_ge _ _)) by lia.
  erewrite nbind_next by reflexivity. cbv beta. rewrite Hc, Hs, Hd. reflexivity.
Qed.

(** A byte of the buffer that no member [fs] covers. *)
Definition untouched (fs : list fld) (b b' : list Z) : Prop :=
  length b' = length b /\ forall j, Forall (fun f => (j < f_off f)%nat \/ (f_off f + f_len f <= j)%nat) fs -> b' !! j = b !! j.

Lemma untouched_set f v fs b b' : fits f (length b) -> untouched fs b b' -> In f fs -> untouched fs b (be_set f v b').
Proof.
  intros Hf [Hl Hu] Hin. split; [rewrite length_be_set; [done|by rewrite Hl]|]. intros j Hj. rewrite <- Hu by done.
  unfold be_set. rewrite lookup_put_bytes by (rewrite length_be_split, Hl; exact Hf). rewrite length_be_split.
  rewrite decide_False; [done|]. rewrite Forall_forall in Hj. specialize (Hj f (proj2 (list_elem_of_In _ _) Hin)). lia.
Qed.

(** The out direction: one hop further, with the arrival port noted. *)
Lemma dr_out g off i s k q a : dr_smp (nt_buffer s) off false k -> nt_results s = [] -> 0 <= i < 256 ->
  0 < k < be_get (at_off off SMP_hop_cnt) (nt_buffer s) -> k + 1 < SMP_MAX_PATH_HOPS ->
  let o := be_get (path_elt off SMP_initial_path (k + 1)) (nt_buffer s) in
  peer_at s o = Some q -> pe_addr q = Some a ->
  exists s', directed_route g off i s = Some (Next 0, s')
    /\ nt_sent s' = nt_sent s ++ [(a, take (sent_len (nt_buffer s')) (nt_buffer s'))]
    /\ be_get (at_off off SMP_hop_ptr) (nt_buffer s') = k + 1
    /\ be_get (path_elt off SMP_return_path k) (nt_buffer s') = i
    /\ untouched [at_off off SMP_hop_ptr; path_elt off SMP_return_path k] (nt_buffer s) (nt_buffer s').
Proof.
  intros (Hl & Hb & Hc & Hs & Hd & Hdir & Hk) Hr Hi Hkr Hkm o Hq Ha. unfold MAD_SIZE in Hl. unfold SMP_MAX_PATH_HOPS in Hkm.
  unfold directed_route. erewrite nbind_next by reflexivity. cbv beta zeta. rewrite Hdir, Hk. cbn [negb].
  rewrite !(proj2 (Z.eqb_neq _ 0)) by lia. cbn [orb]. rewrite (proj2 (Z.ltb_lt k _)) by lia.
  rewrite (proj2 (Z.leb_gt _ _)) by (unfold SMP_MAX_PATH_HOPS; lia). do 2 (erewrite nbind_next by reflexivity; cbv beta).
  set (b1 := be_set (path_elt off SMP_return_path k) i (nt_buffer s)).
  assert (fits (path_elt off SMP_return_path k) (length (nt_buffer s))) as F1 by (unfold fits, path_elt, SMP_return_path; simpl; lia).
  assert (length b1 = length (nt_buffer s)) as L1 by (apply length_be_set; done).
  assert (fits (at_off off SMP_hop_ptr) (length b1)) as F2 by (rewrite L1; unfold fits; simpl; lia).
  set (s1 := s <| nt_buffer ::= _ |>). change (nt_buffer s1) with (be_set (at_off off SMP_hop_ptr) (k + 1) b1).
  assert (be_get (path_elt off SMP_initial_path (k + 1)) (be_set (at_off off SMP_hop_ptr) (k + 1) b1) = o) as ->.
  { unfold b1, o. rewrite be_get_be_set_ne; [rewrite be_get_be_set_ne; [done|done|]|done|];
      unfold fdisj, path_elt, at_off, SMP_initial_path, SMP_return_path; cbn [f_off f_len SMP_hop_ptr];
      apply orb_true_iff; (left; apply Nat.leb_le; lia) || (right; apply Nat.leb_le; lia). }
  rewrite (send_packet_run s1 o q a Hr Hq Ha). eexists. split; [reflexivity|]. cbn [nt_buffer nt_sent set_field].
  change (nt_buffer s1) with (be_set (at_off off SMP_hop_ptr) (k + 1) b1). split_and!; [reflexivity| | |].
  - etransitivity; [apply be_get_set; exact F2|]. apply Z.mod_small. simpl. lia.
  - etransitivity; [apply be_get_be_set_ne; [exact F2|]|].
    { unfold fdisj, path_elt, at_off, SMP_return_path; simpl. apply orb_true_iff. right. apply Nat.leb_le. lia. }
    etransitivity; [apply be_get_set; exact F1|]. apply Z.mod_small. simpl. lia.
  - apply untouched_set; [by rewrite <- L1| |by left]. apply untouched_set; [exact F1| |by right; left]. split; [done|]. done.
Qed.

(** The way back: one hop less, to the port noted there. *)
Lemma dr_back g off i s k q a : dr_smp (nt_buffer s) off true (k + 1) -> nt_results s = [] -> 0 <= k < SMP_MAX_PATH_HOPS ->
  peer_at s (be_get (path_elt off SMP_return_path k) (nt_buffer s)) = Some q -> pe_addr q = Some a ->
  exists s', directed_route g off i s = Some (Next 0, s')
    /\ nt_sent s' = nt_sent s ++ [(a, take (sent_len (nt_buffer s')) (nt_buffer s'))]
    /\ be_get (at_off off SMP_hop_ptr) (nt_buffer s') = k
    /\ untouched [at_off off SMP_hop_ptr] (nt_buffer s) (nt_buffer s').
Proof.
  intros (Hl & Hb & Hc & Hs & Hd & Hdir & Hk) Hr Hkr Hq Ha. unfold MAD_SIZE in Hl. unfold SMP_MAX_PATH_HOPS in Hkr.
  unfold directed_route. erewrite nbind_next by reflexivity. cbv beta zeta. rewrite Hdir, Hk. cbn [negb].
  rewrite (proj2 (Z.eqb_neq _ 0)) by lia. rewrite (proj2 (Z.leb_gt _ _)) by (unfold SMP_MAX_PATH_HOPS; lia).
  replace (k + 1 - 1) with k by lia. do 2 (erewrite nbind_next by reflexivity; cbv beta).
  assert (fits (at_off off SMP_hop_ptr) (length (nt_buffer s))) as F2 by (unfold fits; simpl; lia).
  set (s1 := s <| nt_buffer ::= _ |>). change (nt_buffer s1) with (be_set (at_off off SMP_hop_ptr) k (nt_buffer s)).
  rewrite be_get_be_set_ne; [|exact F2|unfold fdisj, path_elt, at_off, SMP_return_path; simpl; apply orb_true_iff; right; apply Nat.leb_le; lia].
  rewrite (send_packet_run s1 _ q a Hr Hq Ha). eexists. split; [reflexivity|]. cbn [nt_buffer nt_sent set_field].
  change (nt_buffer s1) with (be_set (at_off off SMP_hop_ptr) k (nt_buffer s)). split_and!; [reflexivity| |].
  - etransitivity; [apply be_get_set; exact F2|]. apply Z.mod_small. simpl. lia.
  - apply untouched_set; [exact F2|split; done|by left].
Qed.

(** A directed-route SMP passing the switch on its way out is sent, one hop further,
    through the port its initial path names, with its arrival port noted in the
    return path and the rest of the packet as it was; and the reply to it, which
    carries that return path, leaves through the port the request came from, one
    hop less. *)
Theorem directed_route_out_and_back (g : Z) (fuel : nat) (s t : netd) (h h' n n' : nat) (i j k : Z) (q q' : peer) (a a' : sockaddr)
    (Hreq : dr_smp (nt_buffer s) (h + 8) false k) (Hn : (8 + MAD_SIZE <= n)%nat) (Hrs : nt_results s = []) (Hi : 0 <= i < 256)
    (Hk : 0 < k < be_get (at_off (h + 8) SMP_hop_cnt) (nt_buffer s)) (Hk64 : k + 1 < SMP_MAX_PATH_HOPS)
    (Hq : peer_at s (be_get (path_elt (h + 8) SMP_initial_path (k + 1)) (nt_buffer s)) = Some q) (Ha : pe_addr q = Some a)
    (Hrep : dr_smp (nt_buffer t) (h' + 8) true (k + 1)) (Hn' : (8 + MAD_SIZE <= n')%nat) (Hrt : nt_results t = [])
    (Hq' : peer_at t i = Some q') (Ha' : pe_addr q' = Some a') :
  exists s', process_mad_packet g fuel i h n s = Some (Next 0, s')
    /\ nt_sent s' = nt_sent s ++ [(a, take (sent_len (nt_buffer s')) (nt_buffer s'))]
    /\ be_get (at_off (h + 8) SMP_hop_ptr) (nt_buffer s') = k + 1
    /\ untouched [at_off (h + 8) SMP_hop_ptr; path_elt (h + 8) SMP_return_path k] (nt_buffer s) (nt_buffer s')
    /\ (be_get (path_elt (h' + 8) SMP_return_path k) (nt_buffer t) = be_get (path_elt (h + 8) SMP_return_path k) (nt_buffer s') ->
        exists t', process_mad_packet g fuel j h' n' t = Some (Next 0, t')
          /\ nt_sent t' = nt_sent t ++ [(a', take (sent_len (nt_buffer t')) (nt_buffer t'))]
          /\ be_get (at_off (h' + 8) SMP_hop_ptr) (nt_buffer t') = k
          /\ untouched [at_off (h' + 8) SMP_hop_ptr] (nt_buffer t) (nt_buffer t')).
Proof.
  destruct (dr_out g (h + 8) i s k q a Hreq Hrs Hi Hk Hk64 Hq Ha) as (s' & E & H1 & H2 & H3 & H4).
  exists s'. rewrite mad_dr; [|done|eauto]. split_and!; [done..|]. intros Hpath. rewrite H3 in Hpath.
  rewrite mad_dr; [|done|eauto]. apply (dr_back g (h' + 8) j t k q' a'); [done|done|unfold SMP_MAX_PATH_HOPS in *; lia|by rewrite Hpath|done].
Qed.

(** ** Witnesses *)

(** A daemon with two connected ports and a packet from the first to LID 7. *)
Definition demo_peers : list peer :=
  [no_peer; {| pe_guid := 0x11; pe_addr := Some (SaIn 1 1) |}; {| pe_guid := 0x22; pe_addr := Some (SaIn 2 2) |}]
  ++ replicate 30 no_peer.
Definition demo_netd : netd :=
  (init_netd 0xCafe0000) <| nt_peers := demo_peers |>
    <| nt_sw ::= fun sw => sw <| sw_ucast_fwd_table := {[ 7 := 2; 8 := 3 ]} |> <| sw_mcast_fwd_table := {[ (1, 0) := 6 ]} |> |>.
Definition demo_data (dlid : Z) : list Z :=
  be_split 2 dlid ++ [0; 2; 0; 1; 0; 5] ++ [0; 0; 0; 0] ++ be_split 4 5 ++ be_split 4 0 ++ be_split 8 0x11.
Definition demo_parsed (dlid : Z) : parsed :=
  {| pr_ret := 20; pr_lrh := lrh_of (demo_data dlid); pr_grh := None; pr_bth := Some (bth_of (drop 8 (demo_data dlid))) |}.

Definition demo_p0 : pib_port :=
  port_init 0 NETD_PORT_CAP_FLAGS IB_PORT_DOWN PIB_PHYS_PORT_POLLING (Z.lor 0xCafe0000 0x0101) PIB_DEFAULT_PKEY_FULL.

Lemma demo_datagram dlid : dlid = 7 \/ dlid = 8 \/ dlid = 0xC001 ->
  iba_datagram (demo_data dlid) 0x11 (demo_parsed dlid) (bth_of (drop 8 (demo_data dlid))).
Proof. intros [->|[->| ->]]; (split; [vm_compute; lia|]); split_and!; vm_compute; first [reflexivity | discriminate]. Qed.

Lemma unicast_forwarding_witness : exists s',
  receive_packet 0 0 [SysOk (SaIn 1 1, demo_data 7)] demo_netd = Some (Next tt, s') /\ nt_sent s' = [(SaIn 2 2, demo_data 7)].
Proof.
  destruct (unicast_forwarding 0 0 demo_netd (SaIn 1 1) (demo_data 7) 0x11 1 (demo_parsed 7) _ demo_p0
    (demo_datagram 7 ltac:(auto))) as [H _]; [vm_compute; first [reflexivity | discriminate | split; first [reflexivity | discriminate]]..|].
  eexists. split; [apply (H (SaIn 2 2)); [split; vm_compute; reflexivity|reflexivity]|reflexivity].
Defined.

Lemma multicast_forwarding_witness : exists s',
  receive_packet 0 0 [SysOk (SaIn 1 1, demo_data 0xC001)] demo_netd = Some (Next tt, s')
  /\ nt_sent s' = [(SaIn 2 2, demo_data 0xC001)].
Proof.
  destruct (multicast_forwarding 0 0 demo_netd (SaIn 1 1) (demo_data 0xC001) 0x11 1 (demo_parsed 0xC001) _ demo_p0
    (demo_datagram 0xC001 ltac:(auto))) as [(s' & H1 & H2 & _) _];
    [vm_compute; first [reflexivity | discriminate | split; first [reflexivity | discriminate]]..| |].
  - vm_compute. repeat constructor. by eexists.
  - exists s'. split; [exact H1|]. rewrite H2. vm_compute. reflexivity.
Defined.

Lemma disconnected_port_exits_witness :
  receive_packet 0 0 [SysOk (SaIn 1 1, demo_data 8)] demo_netd = Some (Exit, received demo_netd (demo_data 8) 1).
Proof.
  apply (disconnected_port_exits 0 0 demo_netd (SaIn 1 1) (demo_data 8) 0x11 1 (demo_parsed 8) _ demo_p0 no_peer
    (demo_datagram 8 ltac:(auto)));
    vm_compute; first [reflexivity | discriminate | split; first [reflexivity | discriminate]].
Defined.

Definition demo_connect : list Z := be_split 2 0 ++ [0; 0; 0; 0; 0; 3] ++ be_split 4 PIB_LINK_CMD_CONNECT ++ be_split 8 0x33.

Lemma port_table_invariant_witness : exists r s',
  do_work 0 0 [EvTimeout; EvReady [SysEintr false; SysOk (SaIn 3 3, demo_connect)]] ((init_netd 0) <| nt_results := [SysOk 20] |>) = Some (r, s')
  /\ table_ok s' /\ nt_peers s' !! 1%nat = Some {| pe_guid := 0x33; pe_addr := Some (SaIn 3 3) |}.
Proof.
  eexists _, _. split; [vm_compute; reflexivity|]. split; [|reflexivity].
  eapply (port_table_invariant 0 0 [EvTimeout; EvReady [SysEintr false; SysOk (SaIn 3 3, demo_connect)]] [SysOk 20]).
  vm_compute. reflexivity.
Defined.

Lemma demo_table_ok : table_ok demo_netd.
Proof.
  split; [reflexivity|]. split; [reflexivity|]. split; [reflexivity|].
  assert (forall i p, demo_peers !! i = Some p -> p = no_peer \/ i = 1%nat /\ pe_guid p = 0x11 /\ is_Some (pe_addr p)
                        \/ i = 2%nat /\ pe_guid p = 0x22 /\ is_Some (pe_addr p)) as H.
  { intros [|[|[|i]]] p; simpl; [intros [= <-]; auto|intros [= <-]; right; left; simpl; eauto|intros [= <-]; right; right; simpl; eauto|].
    intros Hp. left. change (replicate 30 no_peer !! i = Some p) in Hp. by apply lookup_replicate in Hp as [-> _]. }
  split.
  - intros i p Hp. destruct (H i p Hp) as [-> | [(_ & E & [x Hx])|(_ & E & [x Hx])]]; [done|rewrite E, Hx; done..].
  - intros i j p r Hp Hr E Hn.
    destruct (H i p Hp) as [-> | [(-> & E1 & _)|(-> & E1 & _)]], (H j r Hr) as [-> | [(-> & E2 & _)|(-> & E2 & _)]];
      try done; rewrite ?E1, ?E2 in *; try done; exfalso; simpl in *; congruence.
Qed.

Lemma demo_netd_sw_ok : sw_ok (nt_sw demo_netd).
Proof.
  destruct (init_switch_ok 0xCafe0000) as (H1 & H2 & H3 & H4 & H5 & _ & _). split_and!; try first [exact H1 | apply H2 | exact H3 | apply H4 | apply H5].
  - intros i. unfold ucast_entry. simpl. rewrite ?lookup_insert, ?lookup_singleton. repeat case_decide; simpl; lia.
  - intros i k. unfold mcast_entry. simpl. rewrite ?lookup_insert, ?lookup_singleton. repeat case_decide; simpl; lia.
Qed.

Lemma connect_assigns_port_witness : exists s' trap,
  receive_packet 0 0 [SysOk (SaIn 3 3, demo_connect)] demo_netd = Some (Next tt, s')
  /\ nt_sent s' = (SaIn 3 3, be_set (Fld 8 4) PIB_LINK_CMD_CONNECT_ACK demo_connect) :: trap.
Proof.
  pose proof (connect_assigns_port 0 0 demo_netd (SaIn 3 3) demo_connect 0x33 demo_p0) as H.
  change (port_for demo_netd 51) with 3 in H. cbn [Z.eqb Pos.eqb] in H.
  destruct H as (s' & trap & H1 & _ & _ & H2 & _).
  - split; [vm_compute; lia|]. split_and!; [vm_compute; reflexivity|discriminate| |vm_compute; reflexivity].
    eexists. split; vm_compute; reflexivity.
  - discriminate.
  - reflexivity.
  - exact demo_table_ok.
  - exact demo_netd_sw_ok.
  - reflexivity.
  - vm_compute. reflexivity.
  - exists s', trap. split; [exact H1|exact H2].
Defined.

(** A request at port 1 at its second hop of three, and its reply. *)
Definition demo_dr (status hop_ptr : Z) : list Z :=
  let off := 28%nat in
  be_set (at_off off SMP_mgmt_class) IB_MGMT_CLASS_SUBN_DIRECTED_ROUTE (be_set (at_off off SMP_dr_slid) 0xFFFF
    (be_set (at_off off SMP_dr_dlid) 0xFFFF (be_set (at_off off SMP_status) status (be_set (at_off off SMP_hop_ptr) hop_ptr
    (be_set (at_off off SMP_hop_cnt) 3 (be_set (path_elt off SMP_initial_path 2) 2 (be_set (path_elt off SMP_return_path 1) 1
    (be_set LRH_pktlen 71 (replicate 300 0))))))))).
Definition demo_dr_netd (status hop_ptr : Z) : netd := demo_netd <| nt_buffer := demo_dr status hop_ptr |>.

Lemma demo_dr_ok status hop_ptr k r :
  forallb (fun x => (0 <=? x) && (x <? 256)) (demo_dr status hop_ptr) = true ->
  has_flag (be_get (at_off 28 SMP_status) (demo_dr status hop_ptr)) IB_SMP_DIRECTION = r ->
  be_get (at_off 28 SMP_hop_ptr) (demo_dr status hop_ptr) = k -> length (demo_dr status hop_ptr) = 300%nat ->
  be_get (at_off 28 SMP_mgmt_class) (demo_dr status hop_ptr) = IB_MGMT_CLASS_SUBN_DIRECTED_ROUTE ->
  be_get (at_off 28 SMP_dr_slid) (demo_dr status hop_ptr) = PIB_LID_PERMISSIVE ->
  be_get (at_off 28 SMP_dr_dlid) (demo_dr status hop_ptr) = PIB_LID_PERMISSIVE ->
  dr_smp (demo_dr status hop_ptr) 28 r k.
Proof.
  intros Hb Hr Hk Hl H1 H2 H3. split; [rewrite Hl; unfold MAD_SIZE; lia|]. split; [|done]. apply Forall_forall. intros x Hx%list_elem_of_In.
  apply (proj1 (forallb_forall _ _) Hb) in Hx. bools. unfold byte_ok. lia.
Qed.

Lemma directed_route_out_and_back_witness : exists s' t',
  process_mad_packet 0 0 1 20 264 (demo_dr_netd 0 1) = Some (Next 0, s') /\ (nt_sent s').*1 = [SaIn 2 2]
  /\ process_mad_packet 0 0 2 20 264 (demo_dr_netd 0x8000 2) = Some (Next 0, t') /\ (nt_sent t').*1 = [SaIn 1 1].
Proof.
  destruct (directed_route_out_and_back 0 0 (demo_dr_netd 0 1) (demo_dr_netd 0x8000 2) 20 20 264 264 1 2 1
    {| pe_guid := 0x22; pe_addr := Some (SaIn 2 2) |} {| pe_guid := 0x11; pe_addr := Some (SaIn 1 1) |} (SaIn 2 2) (SaIn 1 1))
    as (s' & E & H1 & _ & Hu & Hback).
  - apply demo_dr_ok; vm_compute; reflexivity.
  - unfold MAD_SIZE. lia.
  - reflexivity.
  - lia.
  - vm_compute. split; reflexivity.
  - reflexivity.
  - vm_compute. reflexivity.
  - reflexivity.
  - apply demo_dr_ok; vm_compute; reflexivity.
  - unfold MAD_SIZE. lia.
  - reflexivity.
  - reflexivity.
  - reflexivity.
  - destruct Hback as (t' & E' & H1' & _).
    + assert (s' = default s' (snd <$> process_mad_packet 0 0 1 20 264 (demo_dr_netd 0 1))) as -> by (by rewrite E).
      vm_compute. reflexivity.
    + exists s', t'. rewrite H1, H1'. split_and!; [exact E|reflexivity|exact E'|reflexivity].
Defined.
