(* ===== verification/EasySw.v ===== *)
(** * The internal switch (driver/pib_easy_sw.c)

    In single-host mode the driver has a switch of its own, to which every port of
    every HCA is connected.  Its state is that of the switch of pibnetd with the
    UDP port of each connected HCA port; most handlers of its management agent are
    the code of pibnetd's, which the definitions here then name.  It differs in
    how PortInfo finds its port, in the methods it knows, in its description and
    GUIDs, and in what it does with datagrams to QP0 and QP1.

    [None] is an access outside an array, BUG_ON, or a use of the base transport
    header of a raw packet, which has none.  The outcomes of kernel_sendmsg are a
    list in the state; every call is recorded with its outcome. *)

From S2P Require Import Prelude Mr Packet Wire Port SwitchSmp Pma Netd.


(** ** State *)

Record pib_easy_sw := {
  es_sw : pib_switch; es_udp_port : list Z; es_buffer : list Z; es_ready_to_recv : bool;
  es_results : list Z; es_calls : list (option sockaddr * list Z * Z) }.
#[export] Instance eta_easy_sw : Eta pib_easy_sw := fun s => {|
  es_sw := es_sw s; es_udp_port := es_udp_port s; es_buffer := es_buffer s; es_ready_to_recv := es_ready_to_recv s;
  es_results := es_results s; es_calls := es_calls s |}.

Definition EAGAIN : Z := 11.
Definition EINTR : Z := 4.

(** The part of pib_create_switch that fills the switch; the rest allocates, creates
    the socket and starts the thread. *)
Definition pib_create_switch (pib_hca_guid_base pib_num_hca pib_phys_port_cnt : Z) : pib_switch :=
  let port_cnt := u8 (pib_num_hca * pib_phys_port_cnt + 1) in {|
  sw_port_cnt := port_cnt;
  sw_ports := (fun i => port_init i PIB_PORT_CAP_FLAGS IB_PORT_INIT PIB_PHYS_PORT_LINK_UP
                          (Z.lor pib_hca_guid_base 0x0100) PIB_DEFAULT_PKEY_FULL) <$> seqZ 0 port_cnt;
  sw_linear_fdb_top := 0; sw_default_port := 0; sw_default_mcast_primary_port := 0;
  sw_default_mcast_not_primary_port := 0; sw_life_time_value := 0; sw_port_state_change := 0;
  sw_ucast_fwd_table := ∅; sw_mcast_fwd_table := ∅ |}.

(** ** The management agent *)

(** The characters of Pseudo InfiniBand HCA easy switch. *)
Definition PIB_EASYSW_DESCRIPTION : list Z :=
  [80; 115; 101; 117; 100; 111; 32; 73; 110; 102; 105; 110; 105; 66; 97; 110; 100; 32; 72; 67; 65; 32; 101; 97; 115; 121;
   32; 115; 119; 105; 116; 99; 104].

Section Agent.
Context (pib_hca_guid_base : Z).

Definition subn_get_nodedescription (in_port_num : Z) : M smp_st Z :=
  let! m := smp_get SMP_attr_mod in
  when (negb (m =? 0)) (or_status PIB_SMP_INVALID_FIELD) ;;
  upd_smp (put_bytes SMP_data (strncpy PIB_EASYSW_DESCRIPTION 64)) ;;
  reply_smp.

Definition subn_get_nodeinfo := SwitchSmp.subn_get_nodeinfo pib_hca_guid_base.
Definition subn_get_switchinfo := SwitchSmp.subn_get_switchinfo.
Definition subn_set_switchinfo := SwitchSmp.subn_set_switchinfo.
Definition subn_get_guidinfo (in_port_num : Z) : M smp_st Z := reply_failure_smp.
Definition subn_set_guidinfo (in_port_num : Z) : M smp_st Z := reply_failure_smp.

(** All 32 bits of the attribute modifier are the index of the port. *)
Definition subn_get_portinfo (in_port_num : Z) : M smp_st Z :=
  let! port_num := smp_get SMP_attr_mod in
  let! port := sw_port port_num in
  smp_set PI_local_port_num in_port_num ;;
  upd_smp (pib_subn_get_portinfo (sw_port_type port_num) port) ;;
  reply_smp.

Definition subn_set_portinfo (in_port_num : Z) : M smp_st Z :=
  let! smp := the_smp in
  let port_num := be_get SMP_attr_mod smp in
  let! port := sw_port port_num in
  upd_sw (upd_port port_num (pib_subn_set_portinfo (sw_port_type port_num) smp)) ;;
  link_up port_num ;;
  reply_smp.

(** The entries are kept as they are on the wire; as values of 16-bit big-endian
    members they are handled as in pibnetd. *)
Definition subn_get_pkey_table := SwitchSmp.subn_get_pkey_table.
Definition subn_set_pkey_table := SwitchSmp.subn_set_pkey_table.
Definition subn_get_sl_to_vl_table (in_port_num : Z) : M smp_st Z := reply_failure_smp.
Definition subn_set_sl_to_vl_table (in_port_num : Z) : M smp_st Z := reply_failure_smp.
Definition subn_get_vl_arb_table (in_port_num : Z) : M smp_st Z := reply_failure_smp.
Definition subn_set_vl_arb_table (in_port_num : Z) : M smp_st Z := reply_failure_smp.
Definition subn_get_linear_forward_table := SwitchSmp.subn_get_linear_forward_table.
Definition subn_set_linear_forward_table := SwitchSmp.subn_set_linear_forward_table.
Definition subn_get_random_forward_table (in_port_num : Z) : M smp_st Z := reply_failure_smp.
Definition subn_set_random_forward_table := SwitchSmp.subn_set_random_forward_table.
Definition subn_get_mcast_forward_table := SwitchSmp.subn_get_mcast_forward_table.
Definition subn_set_mcast_forward_table := SwitchSmp.subn_set_mcast_forward_table.

Definition process_smp_get_method (in_port_num : Z) : M smp_st Z :=
  upd_smp smp_clear_data ;;
  let! attr_id := smp_get SMP_attr_id in
  if attr_id =? PIB_SMP_ATTR_NODE_DESC then subn_get_nodedescription in_port_num
  else if attr_id =? PIB_SMP_ATTR_NODE_INFO then subn_get_nodeinfo in_port_num
  else if attr_id =? PIB_SMP_ATTR_SWITCH_INFO then subn_get_switchinfo in_port_num
  else if attr_id =? PIB_SMP_ATTR_GUID_INFO then subn_get_guidinfo in_port_num
  else if attr_id =? PIB_SMP_ATTR_PORT_INFO then subn_get_portinfo in_port_num
  else if attr_id =? PIB_SMP_ATTR_PKEY_TABLE then subn_get_pkey_table in_port_num
  else if attr_id =? PIB_SMP_ATTR_SL_TO_VL_TABLE then subn_get_sl_to_vl_table in_port_num
  else if attr_id =? PIB_SMP_ATTR_VL_ARB_TABLE then subn_get_vl_arb_table in_port_num
  else if attr_id =? PIB_SMP_ATTR_LINEAR_FORWARD_TABLE then subn_get_linear_forward_table in_port_num
  else if attr_id =? PIB_SMP_ATTR_RANDOM_FORWARD_TABLE then subn_get_random_forward_table in_port_num
  else if attr_id =? PIB_SMP_ATTR_MCAST_FORWARD_TABLE then subn_get_mcast_forward_table in_port_num
  else unsupported PIB_SMP_UNSUP_METH_ATTR.

Definition process_smp_set_method (in_port_num : Z) : M smp_st Z :=
  let! attr_id := smp_get SMP_attr_id in
  if attr_id =? PIB_SMP_ATTR_SWITCH_INFO then subn_set_switchinfo in_port_num
  else if attr_id =? PIB_SMP_ATTR_GUID_INFO then subn_set_guidinfo in_port_num
  else if attr_id =? PIB_SMP_ATTR_PORT_INFO then subn_set_portinfo in_port_num
  else if attr_id =? PIB_SMP_ATTR_PKEY_TABLE then subn_set_pkey_table in_port_num
  else if attr_id =? PIB_SMP_ATTR_SL_TO_VL_TABLE then subn_set_sl_to_vl_table in_port_num
  else if attr_id =? PIB_SMP_ATTR_VL_ARB_TABLE then subn_set_vl_arb_table in_port_num
  else if attr_id =? PIB_SMP_ATTR_LINEAR_FORWARD_TABLE then subn_set_linear_forward_table in_port_num
  else if attr_id =? PIB_SMP_ATTR_RANDOM_FORWARD_TABLE then subn_set_random_forward_table in_port_num
  else if attr_id =? PIB_SMP_ATTR_MCAST_FORWARD_TABLE then subn_set_mcast_forward_table in_port_num
  else unsupported PIB_SMP_UNSUP_METH_ATTR.

Definition process_smp (in_port_num : Z) : M smp_st Z :=
  let! method := smp_get SMP_method in
  if method =? IB_MGMT_METHOD_GET then process_smp_get_method in_port_num
  else if method =? IB_MGMT_METHOD_SET then
    let! r := process_smp_set_method in_port_num in
    let! smp := the_smp in
    if smp_failed smp then ret r else process_smp_get_method in_port_num
  else unsupported PIB_SMP_UNSUP_METHOD.
End Agent.

(** ** Packets *)

(** The first port whose UDP port is [sin_port] and not 0; 0 when there is none. *)
Fixpoint find_udp (udp : list Z) (sin_port : Z) (l : list Z) : Z :=
  match l with
  | [] => 0
  | i :: l' =>
      match udp !! Z.to_nat i with
      | Some u => if negb (u =? 0) && (u =? sin_port) then i else find_udp udp sin_port l'
      | None => find_udp udp sin_port l'
      end
  end.
Definition get_sw_port_num (s : pib_easy_sw) (sin_port : Z) : Z := find_udp (es_udp_port s) sin_port (ext_ports (es_sw s)).

Section Packets.
(** The global variables of the driver: the hardware address, the number of ports
    of an HCA and the address of each port of each HCA, if it has one. *)
Context (pib_hca_guid_base : Z) (fuel : nat) (pib_phys_port_cnt : Z) (pib_devs : list (list (option sockaddr))).

(** The device and port a port of the switch is connected to. *)
Definition dest_dev_id (out_sw_port_num : Z) : Z := (out_sw_port_num - 1) / pib_phys_port_cnt.
Definition dest_port_num (out_sw_port_num : Z) : Z := (out_sw_port_num - 1) mod pib_phys_port_cnt + 1.
Definition dest_addr (out_sw_port_num : Z) : option (option sockaddr) :=
  dev ← pib_devs !! Z.to_nat (dest_dev_id out_sw_port_num); dev !! Z.to_nat (dest_port_num out_sw_port_num - 1).

Definition upd_es_port (i : Z) (f : pib_port -> pib_port) : M pib_easy_sw unit := modify (fun s => s <| es_sw ::= upd_port i f |>).
Definition upd_es_buffer (f : list Z -> list Z) : M pib_easy_sw unit := modify (fun s => s <| es_buffer ::= f |>).

(** The code from the lookup of the destination to the counters. *)
Definition send_to (out_sw_port_num : Z) (recvmsg_size : nat) : M pib_easy_sw unit :=
  let! dest := of_option (dest_addr out_sw_port_num) in
  let! s := get in
  let data := take (recvmsg_size + FOOTER_SIZE) (es_buffer s) in
  let r := default (Zlen data) (es_results s !! 0%nat) in
  modify (fun s => s <| es_results ::= drop 1 |> <| es_calls ::= fun l => l ++ [(dest, data, r)] |>) ;;
  when (0 <? r) (upd_es_port out_sw_port_num (count_xmit r)).

(** The labels send_packet, relay_ucast and relay_mcast. *)
Definition send_packet (out_sw_port_num : Z) (recvmsg_size : nat) : M pib_easy_sw Z :=
  let! s := get in
  BUG_ON ((out_sw_port_num =? 0) || (sw_port_cnt (es_sw s) <=? out_sw_port_num)) ;;
  send_to out_sw_port_num recvmsg_size ;; ret 0.

Definition relay_ucast (dlid : Z) (recvmsg_size : nat) : M pib_easy_sw Z :=
  if negb (ucast_in dlid) then bug
  else
    let! s := get in
    let out_sw_port_num := ucast_entry (es_sw s) dlid in
    if (out_sw_port_num =? 0) || (sw_port_cnt (es_sw s) <=? out_sw_port_num) then ret 0
    else send_to out_sw_port_num recvmsg_size ;; ret 0.

Definition relay_mcast (in_sw_port_num dlid : Z) (recvmsg_size : nat) : M pib_easy_sw Z :=
  let! s := get in
  for_each (fun out_sw_port_num =>
    when (negb (in_sw_port_num =? out_sw_port_num))
      (BUG_ON (negb (mcast_in (dlid - PIB_MCAST_LID_BASE) (out_sw_port_num / 16))) ;;
       let! s := get in
       let pm_block := mcast_entry (es_sw s) (dlid - PIB_MCAST_LID_BASE) (out_sw_port_num / 16) in
       when (has_flag pm_block (Z.shiftl 1 (out_sw_port_num mod 16))) (send_to out_sw_port_num recvmsg_size)))
    (ext_ports (es_sw s)) ;;
  ret 0.

Definition es_run_smp (off : nat) (in_port_num : Z) : M pib_easy_sw Z :=
  let! s := get in
  match process_smp pib_hca_guid_base in_port_num {| ss_smp := bytes_at off MAD_SIZE (es_buffer s); ss_sw := es_sw s |} with
  | None => bug
  | Some (r, st) => modify (fun s => s <| es_buffer ::= put_bytes off (ss_smp st) |> <| es_sw := ss_sw st |>) ;; ret r
  end.

Definition es_run_pma (off : nat) (in_port_num : Z) : M pib_easy_sw Z :=
  let! s := get in
  match pib_process_pma_mad {| nd_port_count := sw_port_cnt (es_sw s); nd_port_start := 0 |} fuel in_port_num
          {| pm_mad := bytes_at off MAD_SIZE (es_buffer s); pm_ports := sw_ports (es_sw s) |} with
  | None => bug
  | Some (r, st) =>
      modify (fun s => s <| es_buffer ::= put_bytes off (pm_mad st) |> <| es_sw ::= fun sw => sw <| sw_ports := pm_ports st |> |>) ;;
      ret r
  end.

(** The answer goes back where the packet came from; the source LID is stored
    without conversion. *)
Definition swap_lids (dlid : Z) : M pib_easy_sw unit :=
  upd_es_buffer (fun b => le_set LRH_slid dlid (be_set LRH_dlid (be_get LRH_slid b) b)).

Definition es_directed_route (off : nat) (in_sw_port_num : Z) (recvmsg_size : nat) : M pib_easy_sw Z :=
  let! buf := gets es_buffer in
  let hop_ptr := be_get (at_off off SMP_hop_ptr) buf in
  let hop_cnt := be_get (at_off off SMP_hop_cnt) buf in
  if negb (has_flag (be_get (at_off off SMP_status) buf) IB_SMP_DIRECTION) then
    if (hop_cnt =? 0) || (hop_ptr =? 0) then ret 0
    else if hop_ptr <? hop_cnt then
      if SMP_MAX_PATH_HOPS <=? hop_ptr + 1 then bug
      else
        upd_es_buffer (fun b => be_set (at_off off SMP_hop_ptr) (hop_ptr + 1) (be_set (path_elt off SMP_return_path hop_ptr) in_sw_port_num b)) ;;
        let! buf := gets es_buffer in
        send_packet (be_get (path_elt off SMP_initial_path (hop_ptr + 1)) buf) recvmsg_size
    else if hop_ptr =? hop_cnt then
      if negb (be_get (at_off off SMP_dr_dlid) buf =? PIB_LID_PERMISSIVE) then ret 0
      else if SMP_MAX_PATH_HOPS <=? hop_ptr then bug
      else
        upd_es_buffer (be_set (path_elt off SMP_return_path hop_ptr) in_sw_port_num) ;;
        es_run_smp off in_sw_port_num ;;
        upd_es_buffer (fun b => be_set (at_off off SMP_hop_ptr) (be_get (at_off off SMP_hop_ptr) b - 1) b) ;;
        upd_es_buffer (fun b => be_set LRH_dlid (be_get LRH_slid b) b) ;;
        upd_es_buffer (fun b => if be_get (at_off off SMP_dr_slid) b =? PIB_LID_PERMISSIVE then be_set LRH_slid PIB_LID_PERMISSIVE b else b) ;;
        send_packet in_sw_port_num recvmsg_size
    else ret 0
  else
    if hop_ptr =? 0 then ret 0
    else if SMP_MAX_PATH_HOPS <=? hop_ptr - 1 then bug
    else
      upd_es_buffer (be_set (at_off off SMP_hop_ptr) (hop_ptr - 1)) ;;
      let! buf := gets es_buffer in
      send_packet (be_get (path_elt off SMP_return_path (hop_ptr - 1)) buf) recvmsg_size.

(** The label process_mad. *)
Definition process_mad (in_sw_port_num dlid : Z) (header_size recvmsg_size : nat) : M pib_easy_sw Z :=
  let size := (recvmsg_size - header_size)%nat in
  if (size <? 8)%nat then ret 0
  else
    let off := (header_size + 8)%nat in
    if (size - 8 <? MAD_SIZE)%nat then ret 0
    else
      let! s := get in
      let buf := es_buffer s in
      let mgmt_class := be_get (at_off off SMP_mgmt_class) buf in
      if mgmt_class =? IB_MGMT_CLASS_SUBN_DIRECTED_ROUTE then
        if negb (be_get (at_off off SMP_dr_slid) buf =? PIB_LID_PERMISSIVE)
           || negb (be_get (at_off off SMP_dr_dlid) buf =? PIB_LID_PERMISSIVE) then ret 0
        else es_directed_route off in_sw_port_num recvmsg_size
      else if mgmt_class =? IB_MGMT_CLASS_SUBN_LID_ROUTED then
        let! p0 := of_option (port_at (es_sw s) 0) in
        if negb (dlid =? pa_lid (po_attr p0)) then relay_ucast dlid recvmsg_size
        else
          let! r := es_run_smp off in_sw_port_num in
          swap_lids dlid ;;
          if has_flag r IB_MAD_RESULT_FAILURE then ret 0 else send_packet in_sw_port_num recvmsg_size
      else if mgmt_class =? IB_MGMT_CLASS_PERF_MGMT then
        let! r := es_run_pma off in_sw_port_num in
        swap_lids dlid ;;
        if has_flag r IB_MAD_RESULT_FAILURE then ret 0 else send_packet in_sw_port_num recvmsg_size
      else ret 0.

(** [recv] is what kernel_recvmsg returns: an error, or the UDP port of the sender
    and the datagram. *)
Definition process_incoming_message (recv : Z + Z * list Z) : M pib_easy_sw Z :=
  match recv with
  | inl e => when (e =? - EINTR) (modify (fun s => s <| es_ready_to_recv := true |>)) ;; ret e
  | inr (sin_port, data) =>
      let data := take PIB_PACKET_BUFFER data in
      upd_es_buffer (put_bytes 0 data) ;;
      let size := length data in
      if (size =? 0)%nat then ret (- EAGAIN)
      else if (size <? FOOTER_SIZE)%nat then ret 0
      else
        let recvmsg_size := (size - FOOTER_SIZE)%nat in
        let! s := get in
        let in_sw_port_num := get_sw_port_num s sin_port in
        if in_sw_port_num =? 0 then ret 0
        else
          upd_es_port in_sw_port_num (count_rcv (Z.of_nat recvmsg_size)) ;;
          let! s := get in
          match pib_parse_packet_header (take recvmsg_size (es_buffer s)) with
          | inl _ => ret 0
          | inr p =>
              let! bth := of_option (pr_bth p) in
              let dest_qp_num := bth_destQP bth in
              if has_flag dest_qp_num (Z.lnot PIB_QPN_MASK) then ret 0
              else
                let dlid := lrh_dlid (pr_lrh p) in
                if (dest_qp_num =? PIB_QP0) || (dest_qp_num =? PIB_QP1) then
                  process_mad in_sw_port_num dlid (Z.to_nat (pr_ret p)) recvmsg_size
                else
                  let! p0 := of_option (port_at (es_sw s) 0) in
                  if negb (pib_is_permissive_lid dlid) && negb (dlid =? pa_lid (po_attr p0)) then
                    if (dest_qp_num =? PIB_MULTICAST_QPN) || negb (pib_is_unicast_lid dlid)
                    then relay_mcast in_sw_port_num dlid recvmsg_size
                    else relay_ucast dlid recvmsg_size
                  else ret 0
          end
  end.

(** One wake-up of the thread: if the flag is set, messages are processed until one
    of them returns non-zero.  [recvs] is what kernel_recvmsg returns in turn. *)
Fixpoint receive_all (recvs : list (Z + Z * list Z)) : M pib_easy_sw unit :=
  match recvs with
  | [] => ret tt
  | r :: recvs' => let! e := process_incoming_message r in if e =? 0 then receive_all recvs' else ret tt
  end.
Definition kthread_wakeup (recvs : list (Z + Z * list Z)) : M pib_easy_sw unit :=
  let! s := get in
  when (es_ready_to_recv s) (modify (fun s => s <| es_ready_to_recv := false |>) ;; receive_all recvs).
End Packets.

(** The callback of the socket. *)
Definition sock_data_ready_callback : M pib_easy_sw unit := modify (fun s => s <| es_ready_to_recv := true |>).
