(* ===== verification/EasySwThm.v ===== *)
(** * The internal switch: theorems

    The management agent of the internal switch and that of pibnetd are the same
    function but for the description and the attribute modifiers above 255; what
    the internal switch forwards, and what it drops. *)

From S2P Require Import Prelude Mr Packet Wire Port SwitchSmp SwitchThm Pma Netd EasySw.

(** ** The two agents *)

(** Every handler leaves the header of the packet but for method and status. *)
Definition hdr_kept : relation smp_st := fun s s' =>
  smp_ok (ss_smp s) -> smp_ok (ss_smp s') /\ same_hdr (ss_smp s) (ss_smp s').
#[export] Instance hdr_kept_preorder : PreOrder hdr_kept.
Proof.
  split; [intros s H; split; [done|reflexivity]|]. intros s1 s2 s3 H1 H2 H. destruct (H1 H) as [H3 H4].
  destruct (H2 H3) as [H5 H6]. split; [done|by transitivity (ss_smp s2)].
Qed.

Lemma hdr_answers {A} (m : M smp_st A) : obeys answers m -> obeys hdr_kept m.
Proof. intros H s a s' E. destruct (H s a s' E) as [_ H']. exact H'. Qed.
Lemma hdr_upd_sw f : obeys hdr_kept (upd_sw f).
Proof. intros s a s' [= <- <-] H. split; [done|reflexivity]. Qed.

Lemma set_method_hdr p : obeys hdr_kept (SwitchSmp.process_smp_set_method p).
Proof.
  pose proof (hdr_answers _ answers_reply) as H1. pose proof (hdr_answers _ answers_reply_failure) as H2.
  pose proof (fun v => hdr_answers _ (answers_or_status v)) as H3. pose proof hdr_upd_sw as H4.
  unfold SwitchSmp.process_smp_set_method, SwitchSmp.subn_set_switchinfo, SwitchSmp.subn_set_guidinfo, SwitchSmp.subn_set_portinfo,
    SwitchSmp.subn_set_pkey_table, SwitchSmp.subn_set_sl_to_vl_table, SwitchSmp.subn_set_vl_arb_table,
    SwitchSmp.subn_set_linear_forward_table, SwitchSmp.subn_set_random_forward_table, SwitchSmp.subn_set_mcast_forward_table,
    unsupported, link_up, smp_get, the_smp, the_sw, sw_port, the_sw, ucast_set, mcast_set.
  repeat first [progress (cbv beta zeta) | exact H1 | exact H2 | apply H3 | apply H4 | obey_step].
Qed.

Section Equiv.
Context (g p : Z).

Lemma portinfo_get_equiv s : 0 <= be_get SMP_attr_mod (ss_smp s) < 256 ->
  subn_get_portinfo p s = SwitchSmp.subn_get_portinfo p s.
Proof.
  intros Hm. unfold subn_get_portinfo, SwitchSmp.subn_get_portinfo, smp_get, the_smp, gets, bind, ret. simpl.
  assert (u8 (be_get SMP_attr_mod (ss_smp s)) = be_get SMP_attr_mod (ss_smp s)) as -> by (apply wrap_small; lia). reflexivity.
Qed.
Lemma portinfo_set_equiv s : 0 <= be_get SMP_attr_mod (ss_smp s) < 256 ->
  subn_set_portinfo p s = SwitchSmp.subn_set_portinfo p s.
Proof.
  intros Hm. unfold subn_set_portinfo, SwitchSmp.subn_set_portinfo, smp_get, the_smp, gets, bind, ret. simpl.
  assert (u8 (be_get SMP_attr_mod (ss_smp s)) = be_get SMP_attr_mod (ss_smp s)) as -> by (apply wrap_small; lia). reflexivity.
Qed.

Lemma get_method_equiv s : smp_ok (ss_smp s) -> 0 <= be_get SMP_attr_mod (ss_smp s) < 256 ->
  be_get SMP_attr_id (ss_smp s) <> PIB_SMP_ATTR_NODE_DESC ->
  process_smp_get_method g p s = SwitchSmp.process_smp_get_method g p s.
Proof.
  intros Hs Hm Hid. unfold process_smp_get_method, SwitchSmp.process_smp_get_method.
  set (s1 := s <| ss_smp ::= smp_clear_data |>).
  assert (be_get SMP_attr_id (ss_smp s1) = be_get SMP_attr_id (ss_smp s)) as E by (apply clear_data_get; done).
  assert (be_get SMP_attr_mod (ss_smp s1) = be_get SMP_attr_mod (ss_smp s)) as Em by (apply clear_data_get; done).
  unfold smp_get, the_smp, upd_smp, gets, modify, bind, ret. fold s1. rewrite E, (proj2 (Z.eqb_neq _ _) Hid).
  repeat case_match; try reflexivity. apply portinfo_get_equiv. rewrite Em. exact Hm.
Qed.
Lemma set_method_equiv s : 0 <= be_get SMP_attr_mod (ss_smp s) < 256 ->
  process_smp_set_method p s = SwitchSmp.process_smp_set_method p s.
Proof.
  intros Hm. unfold process_smp_set_method, SwitchSmp.process_smp_set_method, smp_get, the_smp, gets, bind, ret. simpl.
  repeat case_match; try reflexivity. by apply portinfo_set_equiv.
Qed.
End Equiv.


(** ** Packets *)

(** A datagram of an IBA packet from the port of the switch [i]. *)
Definition es_datagram (s : pib_easy_sw) (sin_port : Z) (data : list Z) (i : Z) (p : parsed) (bth : pib_packet_bth) : Prop :=
  (FOOTER_SIZE <= length data <= PIB_PACKET_BUFFER)%nat /\ get_sw_port_num s sin_port = i /\ i <> 0
  /\ pib_parse_packet_header (take (length data - FOOTER_SIZE) data) = inr p /\ pr_bth p = Some bth
  /\ has_flag (bth_destQP bth) (Z.lnot PIB_QPN_MASK) = false.

(** The state in which the destination of the packet is looked at. *)
Definition es_received (s : pib_easy_sw) (data : list Z) (i : Z) : pib_easy_sw :=
  s <| es_buffer ::= put_bytes 0 data |> <| es_sw ::= upd_port i (count_rcv (Z.of_nat (length data - FOOTER_SIZE))) |>.

Section Receive.
Context (g : Z) (fuel : nat) (n : Z) (devs : list (list (option sockaddr))) (s : pib_easy_sw) (sin_port i : Z) (data : list Z)
  (p : parsed) (bth : pib_packet_bth).
Hypothesis Hd : es_datagram s sin_port data i p bth.
Let size := (length data - FOOTER_SIZE)%nat.
Let dlid := lrh_dlid (pr_lrh p).

Lemma es_receive : process_incoming_message g fuel n devs (inr (sin_port, data)) s
  = (if (bth_destQP bth =? PIB_QP0) || (bth_destQP bth =? PIB_QP1)
     then process_mad g fuel n devs i dlid (Z.to_nat (pr_ret p)) size
     else let! p0 := of_option (port_at (es_sw (es_received s data i)) 0) in
          if negb (pib_is_permissive_lid dlid) && negb (dlid =? pa_lid (po_attr p0)) then
            if (bth_destQP bth =? PIB_MULTICAST_QPN) || negb (pib_is_unicast_lid dlid)
            then relay_mcast n devs i dlid size else relay_ucast n devs dlid size
          else ret 0) (es_received s data i).
Proof.
  destruct Hd as ((Hl1 & Hl2) & Hi & Hi0 & Hp & Hb & Hf). unfold FOOTER_SIZE in Hl1. unfold process_incoming_message.
  cbv zeta. rewrite (take_ge data) by lia. rewrite (bind_run _ _ s tt (s <| es_buffer ::= put_bytes 0 data |>) eq_refl).
  rewrite (proj2 (Nat.eqb_neq _ _)) by lia. unfold FOOTER_SIZE at 1. rewrite (proj2 (Nat.ltb_ge _ _)) by lia.
  set (s1 := s <| es_buffer ::= put_bytes 0 data |>). rewrite (bind_run get _ s1 s1 s1 eq_refl).
  change (get_sw_port_num s1 sin_port) with (get_sw_port_num s sin_port). rewrite Hi, (proj2 (Z.eqb_neq _ _) Hi0).
  rewrite (bind_run _ _ s1 tt (es_received s data i) eq_refl). rewrite (bind_run get _ _ _ _ eq_refl).
  change (es_buffer (es_received s data i)) with (put_bytes 0 data (es_buffer s)).
  assert (take (length data - FOOTER_SIZE) (put_bytes 0 data (es_buffer s)) = take (length data - FOOTER_SIZE) data) as ->.
  { unfold put_bytes. simpl. rewrite take_app_le; [done|lia]. }
  rewrite Hp, Hb. simpl of_option. rewrite (bind_run (ret bth) _ _ bth _ eq_refl). rewrite Hf. reflexivity.
Qed.
End Receive.

(** Datagrams to QP1 do not pass the internal switch, whoever they are for: those of
    the performance class it answers itself, and those of every class but the
    three it knows (subnet administration and connection management among them)
    are received, counted and dropped. *)
Theorem easy_sw_drops_gmp (g : Z) (fuel : nat) (n : Z) (devs : list (list (option sockaddr))) (s : pib_easy_sw)
    (sin_port i : Z) (data : list Z) (p : parsed) (bth : pib_packet_bth)
    (Hd : es_datagram s sin_port data i p bth) (Hq : bth_destQP bth = PIB_QP1)
    (Hc : let class := be_get (at_off (Z.to_nat (pr_ret p) + 8) SMP_mgmt_class) data in
          class <> IB_MGMT_CLASS_SUBN_DIRECTED_ROUTE /\ class <> IB_MGMT_CLASS_SUBN_LID_ROUTED /\ class <> IB_MGMT_CLASS_PERF_MGMT) :
  process_incoming_message g fuel n devs (inr (sin_port, data)) s = Some (0, es_received s data i).
Proof.
  rewrite (es_receive g fuel n devs s sin_port i data p bth Hd), Hq. change ((PIB_QP1 =? PIB_QP0) || (PIB_QP1 =? PIB_QP1)) with true.
  unfold process_mad. cbv zeta. destruct (Nat.ltb_spec (length data - FOOTER_SIZE - Z.to_nat (pr_ret p)) 8) as [|H1]; [done|].
  destruct (Nat.ltb_spec (length data - FOOTER_SIZE - Z.to_nat (pr_ret p) - 8) MAD_SIZE) as [|H2]; [done|].
  rewrite (bind_run get _ _ _ _ eq_refl). change (es_buffer (es_received s data i)) with (put_bytes 0 data (es_buffer s)).
  destruct Hc as (C1 & C2 & C3). unfold MAD_SIZE in H2.
  assert (be_get (at_off (Z.to_nat (pr_ret p) + 8) SMP_mgmt_class) (put_bytes 0 data (es_buffer s))
          = be_get (at_off (Z.to_nat (pr_ret p) + 8) SMP_mgmt_class) data) as ->.
  { unfold be_get, be_at. f_equal. apply list_eq. intros k. rewrite !lookup_bytes_at. destruct (decide _) as [Hk|]; [|done].
    unfold put_bytes. simpl in *. rewrite lookup_app_l; [done|lia]. }
  by rewrite (proj2 (Z.eqb_neq _ _) C1), (proj2 (Z.eqb_neq _ _) C2), (proj2 (Z.eqb_neq _ _) C3).
Qed.

(** ** Witnesses *)

Definition demo_easy_sw : pib_easy_sw := {|
  es_sw := pib_create_switch 0xCafe0000 2 1; es_udp_port := [0; 5001; 5002]; es_buffer := replicate PIB_PACKET_BUFFER 0;
  es_ready_to_recv := false; es_results := []; es_calls := [] |}.


(** A subnet administration datagram from port 1 to the HCA with LID 7. *)
Definition demo_gmp : list Z :=
  be_set (at_off 28 SMP_mgmt_class) 3 (be_set (Fld 0 2) 7 (be_set (Fld 3 1) 2 (be_set (Fld 6 2) 71 (be_set (Fld 12 4) 1
    (replicate 292 0))))).

Lemma easy_sw_drops_gmp_witness : exists s',
  process_incoming_message 0 0 1 [[Some (SaIn 1 1)]; [Some (SaIn 2 2)]] (inr (5001, demo_gmp)) demo_easy_sw = Some (0, s')
  /\ es_calls s' = [].
Proof.
  eexists. split; [|].
  - eapply (easy_sw_drops_gmp 0 0 1 [[Some (SaIn 1 1)]; [Some (SaIn 2 2)]] demo_easy_sw 5001 1 demo_gmp
      {| pr_ret := 20; pr_lrh := lrh_of demo_gmp; pr_grh := None; pr_bth := Some (bth_of (drop 8 demo_gmp)) |}
      (bth_of (drop 8 demo_gmp))).
    + split; [vm_compute; lia|]. split_and!; vm_compute; first [reflexivity | discriminate].
    + vm_compute. reflexivity.
    + vm_compute. split_and!; discriminate.
  - reflexivity.
Defined.
