(* ===== verification/Mad.v ===== *)
(** * The subnet management agent of an HCA (driver/pib_mad.c)

    The agent answers the management datagrams that reach a port of an HCA; the
    handler of PortInfo is in Port.v and the performance agent in Pma.v.  Besides
    the ports it changes, in single-host mode, the table that maps a LID to the
    address of the port that has it, and it reports changes to the InfiniBand core
    as events.

    [None] is an access outside an array: the source indexes the return path of the
    packet with a byte of the packet. *)

From S2P Require Import Prelude Mr Packet Wire Port SwitchSmp Pma Netd.

(** ** State *)

Inductive ib_event_type := IB_EVENT_PKEY_CHANGE | IB_EVENT_CLIENT_REREGISTER | IB_EVENT_PORT_ERR | IB_EVENT_PORT_ACTIVE
  | IB_EVENT_SM_CHANGE | IB_EVENT_LID_CHANGE.
#[export] Instance ib_event_type_eq_dec : EqDecision ib_event_type.
Proof. solve_decision. Defined.

(** [hd_connected] and [hd_sockaddr] are members of each port; an entry of the LID
    table that is absent is NULL. *)
Record hca_st := {
  hd_smp : list Z; hd_ports : list pib_port; hd_connected : list bool; hd_sockaddr : list (option sockaddr);
  hd_lid_table : gmap Z (option sockaddr); hd_events : list (ib_event_type * Z) }.
#[export] Instance eta_hca_st : Eta hca_st := fun s => {|
  hd_smp := hd_smp s; hd_ports := hd_ports s; hd_connected := hd_connected s; hd_sockaddr := hd_sockaddr s;
  hd_lid_table := hd_lid_table s; hd_events := hd_events s |}.

Definition IB_MGMT_METHOD_REPORT : Z := 0x06.
Definition IB_MGMT_METHOD_REPORT_RESP : Z := 0x86.
Definition IB_MGMT_MAD_STATUS_BAD_VERSION : Z := 0x0004.
Definition PIB_SMP_ATTR_SM_INFO : Z := 0x0020.
Definition IB_PORT_SM : Z := Z.shiftl 1 1.
Definition IB_PORT_SM_DISABLED : Z := Z.shiftl 1 10.
Definition RDMA_NODE_IB_CA : Z := 1.
Definition IB_PORT_ACTIVE : Z := 4.

Definition h_smp : M hca_st (list Z) := gets hd_smp.
Definition h_get (f : fld) : M hca_st Z := let! smp := h_smp in ret (be_get f smp).
Definition h_upd (f : list Z -> list Z) : M hca_st unit := modify (fun s => s <| hd_smp ::= f |>).
Definition h_set (f : fld) (v : Z) : M hca_st unit := h_upd (be_set f v).
Definition h_status (v : Z) : M hca_st unit := h_upd (smp_or_status v).
Definition h_reply : M hca_st Z := fun s => let '(r, smp) := reply (hd_smp s) in Some (r, s <| hd_smp := smp |>).
Definition h_reply_failure : M hca_st Z := fun s => let '(r, smp) := reply_failure (hd_smp s) in Some (r, s <| hd_smp := smp |>).
Definition h_port (port_num : Z) : M hca_st pib_port :=
  let! s := get in of_option (if 1 <=? port_num then hd_ports s !! Z.to_nat (port_num - 1) else None).
Definition h_upd_port (port_num : Z) (f : pib_port -> pib_port) : M hca_st unit :=
  modify (fun s => s <| hd_ports ::= alter f (Z.to_nat (port_num - 1)) |>).
Definition ib_dispatch_event (event : ib_event_type) (port_num : Z) : M hca_st unit :=
  modify (fun s => s <| hd_events ::= fun l => l ++ [(event, port_num)] |>).

Section Agent.
(** Members of the device: its description, the GUIDs, and the mode of the driver. *)
Context (node_desc : list Z) (sys_image_guid node_guid : Z) (pib_multi_host_mode : bool).

(** ** Handlers *)

Definition subn_get_nodedescription (in_port_num : Z) : M hca_st Z :=
  let! m := h_get SMP_attr_mod in
  when (negb (m =? 0)) (h_status PIB_SMP_INVALID_FIELD) ;;
  h_upd smp_clear_data ;;
  h_upd (put_bytes SMP_data (strncpy node_desc 64)) ;;
  h_reply.

Definition subn_get_nodeinfo (in_port_num : Z) : M hca_st Z :=
  h_upd smp_clear_data ;;
  let! s := get in
  h_set NI_base_version IB_MGMT_BASE_VERSION ;;
  h_set NI_class_version PIB_MGMT_CLASS_VERSION ;;
  h_set NI_node_type RDMA_NODE_IB_CA ;;
  h_set NI_node_ports (Zlen (hd_ports s)) ;;
  h_set NI_sys_image_guid sys_image_guid ;;
  h_set NI_node_guid node_guid ;;
  let! port := h_port in_port_num in
  h_set NI_port_guid (po_interface_id port) ;;
  h_set NI_partition_cap 1 ;;
  h_set NI_device_id PIB_DRIVER_DEVICE_ID ;;
  h_set NI_revision PIB_DRIVER_REVISION ;;
  h_set NI_local_port_num in_port_num ;;
  h_set NI_vendor_id 0 ;;
  h_reply.

Definition subn_get_guidinfo (in_port_num : Z) : M hca_st Z := h_upd smp_clear_data ;; h_reply_failure.
Definition subn_set_guidinfo (in_port_num : Z) : M hca_st Z := h_reply_failure.

(** Port number 0 is the port the packet came in at. *)
Definition the_port_num (attr_mod in_port_num : Z) : Z := if attr_mod =? 0 then in_port_num else attr_mod.

Definition subn_get_portinfo (in_port_num : Z) : M hca_st Z :=
  h_upd smp_clear_data ;;
  let! m := h_get SMP_attr_mod in
  let port_num := the_port_num m in_port_num in
  let! s := get in
  (if (port_num <? 1) || (Zlen (hd_ports s) <? port_num) then h_status PIB_SMP_INVALID_FIELD
   else
     let! port := h_port port_num in
     h_set PI_local_port_num port_num ;;
     h_upd (pib_subn_get_portinfo PIB_PORT_CA port)) ;;
  h_reply.

(** The entry of the old LID is cleared and that of the new one set. *)
Definition move_lid (old_lid new_lid : Z) (addr : option sockaddr) (table : gmap Z (option sockaddr)) : gmap Z (option sockaddr) :=
  if negb (old_lid =? new_lid) then
    let table := if negb (old_lid =? 0) then delete old_lid table else table in
    if negb (new_lid =? 0) then <[new_lid := addr]> table else table
  else table.

(** A connected port does not fall below INIT. *)
Definition keep_link (connected : bool) (p : pib_port) : pib_port :=
  if connected then
    p <| po_attr ::= fun a => a <| pa_phys_state := PIB_PHYS_PORT_LINK_UP |>
                                <| pa_state := if pa_state a <? IB_PORT_INIT then IB_PORT_INIT else pa_state a |> |>
  else p.

Definition set_portinfo_events (smp : list Z) (port_num old_state state old_lid old_sm_lid : Z) : M hca_st unit :=
  when (has_flag (be_get PI_clientrereg_resv_subnetto smp) 0x80) (ib_dispatch_event IB_EVENT_CLIENT_REREGISTER port_num) ;;
  when (negb (state =? IB_PORT_ACTIVE) && (old_state =? IB_PORT_ACTIVE)) (ib_dispatch_event IB_EVENT_PORT_ERR port_num) ;;
  when ((state =? IB_PORT_ACTIVE) && negb (old_state =? IB_PORT_ACTIVE)) (ib_dispatch_event IB_EVENT_PORT_ACTIVE port_num) ;;
  when (negb (old_sm_lid =? be_get PI_sm_lid smp)) (ib_dispatch_event IB_EVENT_SM_CHANGE port_num) ;;
  when (negb (old_lid =? be_get PI_lid smp)) (ib_dispatch_event IB_EVENT_LID_CHANGE port_num).

Definition subn_set_portinfo (in_port_num : Z) : M hca_st Z :=
  let! smp := h_smp in
  let port_num := the_port_num (be_get SMP_attr_mod smp) in_port_num in
  let! s := get in
  (if (port_num <? 1) || (Zlen (hd_ports s) <? port_num) then h_status PIB_SMP_INVALID_FIELD
   else
     let! port := h_port port_num in
     let! connected := of_option (hd_connected s !! Z.to_nat (port_num - 1)) in
     let! addr := of_option (hd_sockaddr s !! Z.to_nat (port_num - 1)) in
     let old_lid := pa_lid (po_attr port) in
     when (negb pib_multi_host_mode) (modify (fun s => s <| hd_lid_table ::= move_lid old_lid (be_get PI_lid smp) addr |>)) ;;
     let port' := keep_link connected (pib_subn_set_portinfo PIB_PORT_CA smp port) in
     h_upd_port port_num (fun _ => port') ;;
     set_portinfo_events smp port_num (pa_state (po_attr port)) (pa_state (po_attr port')) old_lid (pa_sm_lid (po_attr port))) ;;
  h_reply.

Definition subn_get_pkey_table (in_port_num : Z) : M hca_st Z :=
  h_upd smp_clear_data ;;
  let! m := h_get SMP_attr_mod in
  (if negb (pkey_block m =? 0) then h_status PIB_SMP_INVALID_FIELD
   else let! port := h_port in_port_num in h_upd (be_set_array SMP_data 2 (take 32 (po_pkey_table port)))) ;;
  h_reply.

(** Whether the partition, the key without the membership bit, of an entry that
    changes is not 0 before or after. *)
Definition pkey_changed (nkey okey : Z) : bool := negb (nkey =? okey) && (has_flag okey 0x7FFF || has_flag nkey 0x7FFF).

Definition subn_set_pkey_table (in_port_num : Z) : M hca_st Z :=
  let! smp := h_smp in
  (if negb (pkey_block (be_get SMP_attr_mod smp) =? 0) then h_status PIB_SMP_INVALID_FIELD
   else
     let! port := h_port in_port_num in
     let nkeys := be_array SMP_data 2 32 smp in
     let changed := existsb (fun '(nkey, okey) => pkey_changed nkey okey) (zip nkeys (po_pkey_table port)) in
     h_upd_port in_port_num (fun p => p <| po_pkey_table := nkeys |>) ;;
     when changed (ib_dispatch_event IB_EVENT_PKEY_CHANGE in_port_num)) ;;
  h_reply.

Definition subn_get_sl_to_vl_table (in_port_num : Z) : M hca_st Z := h_reply_failure.
Definition subn_set_sl_to_vl_table (in_port_num : Z) : M hca_st Z := h_reply_failure.
Definition subn_get_vl_arb_table (in_port_num : Z) : M hca_st Z := h_reply_failure.
Definition subn_set_vl_arb_table (in_port_num : Z) : M hca_st Z := h_reply_failure.

(** ** Dispatch *)

Definition h_unsupported (status : Z) : M hca_st Z := h_status status ;; h_reply.

(** SMInfo is left to the subnet manager of the port, if it has one. *)
Definition sm_info (in_port_num : Z) : M hca_st Z :=
  let! port := h_port in_port_num in
  let port_cap_flags := pa_port_cap_flags (po_attr port) in
  if has_flag port_cap_flags IB_PORT_SM_DISABLED then ret (Z.lor IB_MAD_RESULT_SUCCESS IB_MAD_RESULT_CONSUMED)
  else if has_flag port_cap_flags IB_PORT_SM then ret IB_MAD_RESULT_SUCCESS
  else h_unsupported PIB_SMP_UNSUP_METH_ATTR.

Definition process_subn_get_method (in_port_num : Z) : M hca_st Z :=
  let! attr_id := h_get SMP_attr_id in
  if attr_id =? PIB_SMP_ATTR_NODE_DESC then subn_get_nodedescription in_port_num
  else if attr_id =? PIB_SMP_ATTR_NODE_INFO then subn_get_nodeinfo in_port_num
  else if attr_id =? PIB_SMP_ATTR_GUID_INFO then subn_get_guidinfo in_port_num
  else if attr_id =? PIB_SMP_ATTR_PORT_INFO then subn_get_portinfo in_port_num
  else if attr_id =? PIB_SMP_ATTR_PKEY_TABLE then subn_get_pkey_table in_port_num
  else if attr_id =? PIB_SMP_ATTR_SL_TO_VL_TABLE then subn_get_sl_to_vl_table in_port_num
  else if attr_id =? PIB_SMP_ATTR_VL_ARB_TABLE then subn_get_vl_arb_table in_port_num
  else if attr_id =? PIB_SMP_ATTR_SM_INFO then sm_info in_port_num
  else h_unsupported PIB_SMP_UNSUP_METH_ATTR.

Definition process_subn_set_method (in_port_num : Z) : M hca_st Z :=
  let! attr_id := h_get SMP_attr_id in
  if attr_id =? PIB_SMP_ATTR_GUID_INFO then subn_set_guidinfo in_port_num
  else if attr_id =? PIB_SMP_ATTR_PORT_INFO then subn_set_portinfo in_port_num
  else if attr_id =? PIB_SMP_ATTR_PKEY_TABLE then subn_set_pkey_table in_port_num
  else if attr_id =? PIB_SMP_ATTR_SL_TO_VL_TABLE then subn_set_sl_to_vl_table in_port_num
  else if attr_id =? PIB_SMP_ATTR_VL_ARB_TABLE then subn_set_vl_arb_table in_port_num
  else if attr_id =? PIB_SMP_ATTR_SM_INFO then sm_info in_port_num
  else h_unsupported PIB_SMP_UNSUP_METH_ATTR.

(** The method switch. *)
Definition subn_by_method (in_port_num : Z) : M hca_st Z :=
  let! method := h_get SMP_method in
  let! mgmt_class := h_get SMP_mgmt_class in
  if method =? IB_MGMT_METHOD_GET then process_subn_get_method in_port_num
  else if method =? IB_MGMT_METHOD_SET then
    let! r := process_subn_set_method in_port_num in
    let! smp := h_smp in
    if smp_failed smp then ret r else process_subn_get_method in_port_num
  else if ((method =? IB_MGMT_METHOD_TRAP) || (method =? IB_MGMT_METHOD_REPORT) || (method =? IB_MGMT_METHOD_REPORT_RESP)
           || (method =? IB_MGMT_METHOD_GET_RESP)) && (mgmt_class =? IB_MGMT_CLASS_SUBN_LID_ROUTED) then ret IB_MAD_RESULT_SUCCESS
  else h_unsupported PIB_SMP_UNSUP_METHOD.

(** The packet is copied from the request first, so one buffer stands for both. *)
Definition process_subn (in_port_num : Z) : M hca_st Z :=
  let! base_version := h_get SMP_base_version in
  if negb (base_version =? IB_MGMT_BASE_VERSION) then
    h_upd (le_set SMP_status IB_MGMT_MAD_STATUS_BAD_VERSION) ;; ret (Z.lor IB_MAD_RESULT_FAILURE IB_MAD_RESULT_REPLY)
  else
    let! r := subn_by_method in_port_num in
    let! hop_ptr := h_get SMP_hop_ptr in
    if SMP_MAX_PATH_HOPS <=? hop_ptr + 1 then bug
    else h_set (Fld (SMP_return_path + Z.to_nat (hop_ptr + 1)) 1) in_port_num ;; ret r.

(** The performance agent works on the ports of the device. *)
Definition run_pma (fuel : nat) (in_port_num : Z) : M hca_st Z :=
  let! s := get in
  match pib_process_pma_mad {| nd_port_count := Zlen (hd_ports s) + 1; nd_port_start := 1 |} fuel in_port_num
          {| pm_mad := hd_smp s; pm_ports := hd_ports s |} with
  | None => bug
  | Some (r, st) => modify (fun s => s <| hd_smp := pm_mad st |> <| hd_ports := pm_ports st |>) ;; ret r
  end.

Definition process_mad (fuel : nat) (in_port_num : Z) : M hca_st Z :=
  let! method := h_get SMP_method in
  if method =? IB_MGMT_METHOD_GET_RESP then ret IB_MAD_RESULT_SUCCESS
  else
    let! mgmt_class := h_get SMP_mgmt_class in
    if (mgmt_class =? IB_MGMT_CLASS_SUBN_DIRECTED_ROUTE) || (mgmt_class =? IB_MGMT_CLASS_SUBN_LID_ROUTED) then process_subn in_port_num
    else if mgmt_class =? IB_MGMT_CLASS_PERF_MGMT then run_pma fuel in_port_num
    else ret IB_MAD_RESULT_SUCCESS.
End Agent.
