(* ===== verification/MadThm.v ===== *)
(** * The subnet management agent of an HCA: theorems

    From which packets the agent returns, and that the LID table follows the LIDs
    of the ports. *)

From S2P Require Import Prelude Mr Packet Wire Port SwitchSmp SwitchThm Pma Netd Mad.

(** ** Returning *)

(** A state with [n] ports and a packet of the right size. *)
Definition hca_ok (n : nat) (s : hca_st) : Prop :=
  smp_ok (hd_smp s) /\ length (hd_ports s) = n /\ length (hd_connected s) = n /\ length (hd_sockaddr s) = n
  /\ Forall (fun p => length (po_pkey_table p) = 32%nat) (hd_ports s).

(** [sound n m]: from such a state [m] returns one, with the header of the packet but
    for method and status. *)
Definition sound {A} (n : nat) (m : M hca_st A) : Prop :=
  forall s, hca_ok n s -> wp m (fun _ s' => hca_ok n s' /\ same_hdr (hd_smp s) (hd_smp s')) s.

Section Sound.
Context (n : nat).
Lemma sound_ret {A} (a : A) : sound n (ret a).
Proof. intros s H. split; [done|reflexivity]. Qed.
Lemma sound_bind {A B} (m : M hca_st A) (k : A -> M hca_st B) : sound n m -> (forall a, sound n (k a)) -> sound n (bind m k).
Proof.
  intros Hm Hk s Hs. apply wp_bind. eapply wp_mono; [by apply Hm|]. intros a s1 [H1 H2].
  eapply wp_mono; [by apply Hk|]. intros b s2 [H3 H4]. split; [done|by transitivity (hd_smp s1)].
Qed.
Lemma sound_get {A} (f : hca_st -> A) : sound n (gets f).
Proof. intros s H. split; [done|reflexivity]. Qed.
Lemma sound_upd f : (forall smp, smp_ok smp -> framed smp (f smp)) -> sound n (h_upd f).
Proof. intros Hf s (H1 & H2). destruct (Hf _ H1) as [H3 H4]. split; [by split|exact H4]. Qed.
Lemma sound_set f v : fits f MAD_SIZE -> in_body f -> sound n (h_set f v).
Proof. intros Hf Hb. apply sound_upd. intros smp Hs. apply framed_be_set; [done|done|split; [done|reflexivity]]. Qed.
Lemma sound_clear : sound n (h_upd smp_clear_data).
Proof. apply sound_upd. intros smp Hs. apply framed_clear. by split. Qed.
Lemma sound_status v : sound n (h_status v).
Proof. apply sound_upd. intros smp Hs. apply framed_be_set; [fits_dec|body|by split]. Qed.
Lemma sound_other (f : hca_st -> hca_st) :
  (forall s, hca_ok n s -> hca_ok n (f s) /\ hd_smp (f s) = hd_smp s) -> sound n (modify f).
Proof. intros Hf s Hs. destruct (Hf s Hs) as [H1 H2]. split; [done|]. rewrite H2. reflexivity. Qed.
Lemma sound_reply_with r (m : M hca_st Z) :
  (forall s, m s = Some (r, s <| hd_smp := (smp_reply_with r (hd_smp s)).2 |>)) -> sound n m.
Proof.
  intros E s Hs. unfold wp. rewrite E.
  pose proof (answers_reply_with r {| ss_smp := hd_smp s; ss_sw := init_switch 0 |}) as [_ H]. simpl in H.
  destruct (H (proj1 Hs)) as [H1 H2]. split; [|exact H2]. split; [exact H1|apply Hs].
Qed.
Lemma sound_reply : sound n h_reply.
Proof. eapply sound_reply_with. intros s. reflexivity. Qed.
Lemma sound_reply_failure : sound n h_reply_failure.
Proof. eapply sound_reply_with. intros s. reflexivity. Qed.
Lemma sound_when b (m : M hca_st unit) : sound n m -> sound n (when b m).
Proof. destruct b; [done|]. intros _. apply sound_ret. Qed.
Lemma sound_event e i : sound n (ib_dispatch_event e i).
Proof. apply sound_other. by intros s. Qed.
(** Access to a port that exists. *)
Lemma sound_port {B} i (k : pib_port -> M hca_st B) : 1 <= i <= Z.of_nat n ->
  (forall p, length (po_pkey_table p) = 32%nat -> sound n (k p)) -> sound n (bind (h_port i) k).
Proof.
  intros Hi Hk s Hs. destruct Hs as (H1 & H2 & H3 & H4 & H5). destruct (lookup_lt_is_Some_2 (hd_ports s) (Z.to_nat (i - 1))) as [p Hp]; [lia|].
  apply wp_bind. unfold h_port. apply wp_bind, wp_get. rewrite (proj2 (Z.leb_le 1 i)), Hp by lia. apply wp_ret.
  apply Hk; [by eapply Forall_lookup_1 in H5|by split].
Qed.
Lemma sound_upd_port i f : (forall p, length (po_pkey_table p) = 32%nat -> length (po_pkey_table (f p)) = 32%nat) -> sound n (h_upd_port i f).
Proof.
  intros Hf. apply sound_other. intros s (H1 & H2 & H3 & H4 & H5). split; [|done]. refine (conj H1 (conj _ (conj H3 (conj H4 _)))).
  - change (length (alter f (Z.to_nat (i - 1)) (hd_ports s)) = n). by rewrite length_alter.
  - change (Forall (fun p => length (po_pkey_table p) = 32%nat) (alter f (Z.to_nat (i - 1)) (hd_ports s))).
    apply Forall_alter; [done|]. intros p _ Hp. by apply Hf.
Qed.
End Sound.

Ltac sound_step :=
  lazymatch goal with
  | |- sound _ (bind get _) => apply sound_bind; [apply (sound_get _ (fun s => s))|intros ?]
  | |- sound _ (bind (h_port _) _) => apply sound_port; [lia|intros ? ?]
  | |- sound _ (bind _ _) => apply sound_bind; [|intros ?]
  | |- sound _ (ret _) => apply sound_ret
  | |- sound _ (h_get _) => unfold h_get, h_smp
  | |- sound _ h_smp => apply sound_get
  | |- sound _ (gets _) => apply sound_get
  | |- sound _ (h_set _ _) => apply sound_set; [fits_dec|body]
  | |- sound _ (h_upd smp_clear_data) => apply sound_clear
  | |- sound _ (h_status _) => apply sound_status
  | |- sound _ h_reply => apply sound_reply
  | |- sound _ h_reply_failure => apply sound_reply_failure
  | |- sound _ (when _ _) => apply sound_when
  | |- sound _ (ib_dispatch_event _ _) => apply sound_event
  | |- sound _ (let x := _ in _) => cbv zeta
  | |- sound _ (if ?b then _ else _) => destruct b eqn:?
  end.
Ltac sounds := repeat sound_step.

Section Agent.
Context (desc : list Z) (sysg nodeg : Z) (multi : bool) (n : nat) (i : Z) (Hi : 1 <= i <= Z.of_nat n).

Lemma sound_nodedescription : Forall byte_ok desc -> sound n (subn_get_nodedescription desc i).
Proof.
  intros Hd. unfold subn_get_nodedescription. sounds. apply sound_upd. intros smp Hs.
  assert (length (strncpy desc 64) = 64%nat) as L.
  { unfold strncpy. rewrite length_take, length_app, length_replicate. lia. }
  split.
  - apply smp_put_ok; [done|rewrite L; fits_dec|]. unfold strncpy. apply Forall_take, Forall_app_2; [done|].
    apply Forall_replicate. unfold byte_ok. lia.
  - destruct Hs as [Hl _]. apply same_hdr_put; rewrite L; [rewrite Hl; fits_dec|body].
Qed.
Lemma sound_nodeinfo : sound n (subn_get_nodeinfo sysg nodeg i).
Proof. unfold subn_get_nodeinfo. sounds. Qed.
(** The number of ports a handler sees is [n]. *)
Lemma sound_nports {B} (k : hca_st -> M hca_st B) : (forall s, hca_ok n s -> sound n (k s)) -> sound n (let! s := get in k s).
Proof. intros Hk s Hs. apply wp_bind, wp_get. by apply Hk. Qed.

Lemma sound_get_portinfo : sound n (subn_get_portinfo i).
Proof.
  unfold subn_get_portinfo. sound_step; [sounds|]. sound_step; [sounds|]. cbv zeta. apply sound_nports. intros s (_ & Hn & _).
  unfold Zlen. rewrite Hn. sounds; bools; try lia.
  apply sound_upd. intros smp Hs. by apply get_portinfo_framed.
Qed.
Lemma sound_set_portinfo : sound n (subn_set_portinfo multi i).
Proof.
  unfold subn_set_portinfo. sound_step; [sounds|]. cbv zeta. apply sound_nports. intros s (_ & Hn & Hc & Ha & _).
  unfold Zlen. rewrite Hn. sound_step; [|sounds]. sound_step; [sounds|]. bools. sound_step.
  destruct (lookup_lt_is_Some_2 (hd_connected s) (Z.to_nat (the_port_num (be_get SMP_attr_mod a) i - 1))) as [c Ec]; [lia|].
  destruct (lookup_lt_is_Some_2 (hd_sockaddr s) (Z.to_nat (the_port_num (be_get SMP_attr_mod a) i - 1))) as [d Ed]; [lia|].
  rewrite Ec, Ed. simpl of_option. unfold set_portinfo_events. sounds.
  - by apply sound_other.
  - apply sound_upd_port. intros _ _. match goal with H : length (po_pkey_table _) = _ |- context [keep_link ?b _] => destruct b; exact H end.
Qed.
Lemma sound_get_pkey : sound n (subn_get_pkey_table i).
Proof.
  unfold subn_get_pkey_table. sounds. apply sound_upd. intros smp Hs.
  match goal with H : length (po_pkey_table ?p) = 32%nat |- _ => rename H into Hl; set (l := take 32 (po_pkey_table p)) end.
  assert (length l = 32%nat) as L by (unfold l; rewrite length_take, Hl; done). split.
  - apply smp_array_ok; [done|rewrite L; fits_dec].
  - destruct Hs as [Hsl _]. split; [apply length_be_set_array; rewrite Hsl, L; fits_dec|]. intros k Hk.
    pose proof (bytes_at_be_set_array_ne k 1 SMP_data 2 l smp) as E. unfold bytes_at in E.
    destruct (decide (k < SMP_data \/ SMP_data + 64 <= k)%nat) as [Hd|Hd]; [|exfalso; apply Hk; unfold body_byte, SMP_data in *; lia].
    assert (forall (x : list Z), x !! k = take 1 (drop k x) !! 0%nat) as F.
    { intros x. rewrite lookup_take_lt by lia. rewrite lookup_drop. f_equal. lia. }
    rewrite (F (be_set_array SMP_data 2 l smp)), (F smp). f_equal. apply E; [rewrite Hsl, L; fits_dec|rewrite L; lia].
Qed.
Lemma sound_set_pkey : sound n (subn_set_pkey_table i).
Proof. unfold subn_set_pkey_table. sounds. apply sound_upd_port. reflexivity. Qed.

Lemma sound_get_method : Forall byte_ok desc -> sound n (process_subn_get_method desc sysg nodeg i).
Proof.
  intros Hd. unfold process_subn_get_method, subn_get_guidinfo, subn_get_sl_to_vl_table, subn_get_vl_arb_table, sm_info, h_unsupported.
  sound_step; [sounds|].
  repeat first [by apply sound_nodedescription | apply sound_nodeinfo | apply sound_get_portinfo | apply sound_get_pkey | sound_step].
Qed.
Lemma sound_set_method : sound n (process_subn_set_method multi i).
Proof.
  unfold process_subn_set_method, subn_set_guidinfo, subn_set_sl_to_vl_table, subn_set_vl_arb_table, sm_info, h_unsupported.
  sound_step; [sounds|]. repeat first [apply sound_set_portinfo | apply sound_set_pkey | sound_step].
Qed.
Lemma sound_by_method : Forall byte_ok desc -> sound n (subn_by_method desc sysg nodeg multi i).
Proof.
  intros Hd. unfold subn_by_method, h_unsupported.
  repeat first [by apply sound_get_method | apply sound_set_method | sound_step].
Qed.
End Agent.


(** ** The LID table *)

(** Every LID that a port has is in the table with the address of that port, and
    no two ports have the same LID. *)
Definition lids_ok (s : hca_st) : Prop :=
  (forall j p, hd_ports s !! j = Some p -> pa_lid (po_attr p) <> 0 ->
     hd_sockaddr s !! j = hd_lid_table s !! pa_lid (po_attr p))
  /\ (forall j k p q, hd_ports s !! j = Some p -> hd_ports s !! k = Some q ->
        pa_lid (po_attr p) = pa_lid (po_attr q) -> pa_lid (po_attr p) <> 0 -> j = k).

(** The handler of Set(PortInfo) up to the reply: the ports and the table it leaves. *)
Lemma set_portinfo_run n i s r s' : hca_ok n s -> subn_set_portinfo false i s = Some (r, s') ->
  hd_sockaddr s' = hd_sockaddr s
  /\ ((hd_ports s' = hd_ports s /\ hd_lid_table s' = hd_lid_table s)
      \/ exists j p a p', hd_ports s !! j = Some p /\ hd_sockaddr s !! j = Some a
           /\ hd_ports s' = <[j := p']> (hd_ports s) /\ pa_lid (po_attr p') = be_get PI_lid (hd_smp s)
           /\ hd_lid_table s' = move_lid (pa_lid (po_attr p)) (be_get PI_lid (hd_smp s)) a (hd_lid_table s)
           /\ Z.of_nat j + 1 = the_port_num (be_get SMP_attr_mod (hd_smp s)) i).
Proof.
  intros (_ & Hn & Hc & Ha & _). unfold subn_set_portinfo. rewrite (bind_run h_smp _ s _ s eq_refl). cbv zeta.
  rewrite (bind_run get _ s s s eq_refl). set (num := the_port_num _ i). unfold bind at 1. destruct ((num <? 1) || _) eqn:E.
  { intros [= <- <-]. split; [done|by left]. }
  bools. unfold Zlen in *. unfold h_port. unfold bind at 1 2, get. rewrite (proj2 (Z.leb_le 1 num)) by lia.
  destruct (lookup_lt_is_Some_2 (hd_ports s) (Z.to_nat (num - 1))) as [p Hp]; [lia|].
  destruct (lookup_lt_is_Some_2 (hd_connected s) (Z.to_nat (num - 1))) as [c Ec]; [lia|].
  destruct (lookup_lt_is_Some_2 (hd_sockaddr s) (Z.to_nat (num - 1))) as [a Ea]; [lia|].
  rewrite Hp, Ec, Ea. simpl of_option. unfold ret at 1. cbv beta iota. unfold bind at 1, ret at 1. cbv beta iota.
  unfold bind at 1, ret at 1. cbv beta iota. unfold when at 1. cbn [negb].
  unfold bind at 1, modify at 1. unfold bind at 1, h_upd_port, modify at 1.
  assert (forall b e x (t t' : hca_st), when b (ib_dispatch_event e x) t = Some (tt, t') ->
    hd_ports t' = hd_ports t /\ hd_lid_table t' = hd_lid_table t /\ hd_sockaddr t' = hd_sockaddr t) as Hev.
  { intros [] e x t t'; [intros [= <-]|intros [= <-]]; done. }
  assert (forall b e x (t : hca_st), exists t', when b (ib_dispatch_event e x) t = Some (tt, t')) as Hex by (intros []; eauto).
  set (s1 := set_field hd_ports _ _). unfold set_portinfo_events.
  repeat match goal with |- context [bind (when ?b (ib_dispatch_event ?e ?x)) _ ?t] =>
    let t' := fresh "t" in let E := fresh "E" in destruct (Hex b e x t) as [t' E]; rewrite (bind_run _ _ _ _ _ E); apply Hev in E as (? & ? & ?) end.
  match goal with |- context [when ?b (ib_dispatch_event ?e ?x) ?t] =>
    let t' := fresh "t" in let E := fresh "E" in destruct (Hex b e x t) as [t' E]; rewrite E; apply Hev in E as (? & ? & ?) end.
  intros [= <- <-]. cbn [hd_ports hd_lid_table hd_sockaddr set_field].
  repeat match goal with H : hd_ports _ = hd_ports _ |- _ => rewrite H; clear H | H : hd_lid_table _ = hd_lid_table _ |- _ => rewrite H; clear H
    | H : hd_sockaddr _ = hd_sockaddr _ |- _ => rewrite H; clear H end.
  split; [reflexivity|]. right. exists (Z.to_nat (num - 1)), p, a, (keep_link c (pib_subn_set_portinfo PIB_PORT_CA (hd_smp s) p)).
  split_and!; [done|done| | |reflexivity|lia].
  - unfold s1. cbn [hd_ports set_field]. change (alter (fun _ => keep_link c (pib_subn_set_portinfo PIB_PORT_CA (hd_smp s) p)) (Z.to_nat (num - 1)) (hd_ports s) = <[Z.to_nat (num - 1) := keep_link c (pib_subn_set_portinfo PIB_PORT_CA (hd_smp s) p)]> (hd_ports s)).
    by rewrite list_insert_alter.
  - by destruct c.
Qed.


(** ** Witnesses *)

(** A device with two ports, and a packet that gives the first one LID 5. *)
Definition demo_hca (hop_ptr : Z) : hca_st := {|
  hd_smp := be_set SMP_base_version 1 (be_set SMP_mgmt_class 1 (be_set SMP_attr_id PIB_SMP_ATTR_PORT_INFO (be_set SMP_hop_ptr hop_ptr demo_smp)));
  hd_ports := [demo_port; demo_port]; hd_connected := [true; false]; hd_sockaddr := [Some (SaIn 1 1); Some (SaIn 2 2)];
  hd_lid_table := ∅; hd_events := [] |}.

Lemma demo_hca_ok h : hca_ok 2 (demo_hca h).
Proof.
  split; [unfold demo_hca, demo_smp; cbn [hd_smp]; smp_oks|]. split_and!; try reflexivity. repeat constructor.
Qed.


