(* ===== verification/Rc.v ===== *)
(** * RC transport: building packets and requests (driver/pib_rc.c, first part)

    PSN arithmetic, the headers shared by requests, acknowledges and congestion
    notifications, and the requester that turns a send work queue entry into
    packets.  A packet is built in the thread's send buffer; [st_thread] tells
    where it goes. *)

From S2P Require Import Prelude Verbs Lib ObjNum Cq Srq Mr State Sched Packet.

(** ** PSN arithmetic *)

(** ((s32)((psn - based_psn) << 8)) >> 8 *)
Definition get_psn_diff (psn based_psn : Z) : Z :=
  Z.shiftr (s32 (u32 (Z.shiftl (u32 (psn - based_psn)) 8))) 8.

Section Rc.
Context {PP : Params}.

Definition get_resources_not_ready (q : pib_qp) : Z :=
  Z.lor PIB_SYND_RNR_NAK_CODE (Z.land (a_min_rnr_timer (qp_attr q)) (Z.lnot PIB_SYND_CODE_MASK)).

(** (128U << path_mtu) *)
Definition pmtu_of (q : pib_qp) : Z := u32 (Z.shiftl 128 (a_path_mtu (qp_attr q))).

(** ** The headers *)

Definition upd_thread (f : pib_thread -> pib_thread) : M st unit := modify (fun s => s <| st_thread ::= f |>).
Definition send_buffer : M st (list Z) := gets (fun s => th_send_buffer (st_thread s)).
Definition put_buffer (b : list Z) : M st unit := upd_thread (fun t => t <| th_send_buffer := b |>).
Definition the_port (port_num : Z) : M st pib_port := let! ports := gets st_ports in of_option (ports !! port_num).

Definition pib_fill_grh (port_num : Z) (src : ib_global_route) : M st ib_grh :=
  BUG_ON ((port_num <? 1) || (phys_port_cnt <? port_num)) ;;
  BUG_ON ((gr_sgid_index src <? 0) || (PIB_GID_PER_PORT <? gr_sgid_index src)) ;;
  let! port := the_port port_num in
  let! sgid := of_option (port_gids port !! Z.to_nat (gr_sgid_index src)) in
  ret {| grh_version_tclass_flow :=
           u32 (Z.lor (Z.lor (Z.shiftl 6 28) (Z.shiftl (gr_traffic_class src) 20)) (Z.land (gr_flow_label src) 0xFFFFF));
         grh_paylen := 0; grh_next_hdr := 0; grh_hop_limit := gr_hop_limit src; grh_sgid := sgid; grh_dgid := gr_dgid src |}.

(** The headers of a packet under construction; they are at the start of the buffer. *)
Record hdrs := { h_lrh : pib_packet_lrh; h_grh : option ib_grh; h_bth : pib_packet_bth }.
#[local] Instance eta_hdrs : Eta hdrs := fun h => {| h_lrh := h_lrh h; h_grh := h_grh h; h_bth := h_bth h |}.
Definition hdrs_bytes (h : hdrs) : list Z := packet_bytes (h_lrh h) (h_grh h) (h_bth h) [].
Definition hdrs_size (h : hdrs) : Z := LRH_SIZE + (match h_grh h with Some _ => GRH_SIZE | None => 0 end) + BTH_SIZE.

Definition put_hdrs (h : hdrs) : M st unit := let! b := send_buffer in put_buffer (buf_write b 0 (hdrs_bytes h)).

(** The buffer is cleared for [clear] bytes and the LRH, GRH and BTH are written,
    but for the packet length, the opcode and the pad count. *)
Definition start_packet (clear psn : Z) : M st hdrs :=
  let! q := the_qp in
  let port_num := a_port_num (qp_attr q) in
  let ah := a_ah_attr (qp_attr q) in
  let! port := the_port port_num in
  let! b := send_buffer in
  put_buffer (buf_write b 0 (replicate (Z.to_nat clear) 0)) ;;
  let! grh := (if has_flag (ah_ah_flags ah) IB_AH_GRH then let! g := pib_fill_grh port_num (ah_grh ah) in ret (Some g)
               else ret None) in
  let lnh := if has_flag (ah_ah_flags ah) IB_AH_GRH then 3 else 2 in
  let! pkey := of_option (port_pkey_table port !! Z.to_nat (a_pkey_index (qp_attr q))) in
  ret {| h_lrh := {| lrh_dlid := ah_dlid ah; lrh_vl_lver := 0; lrh_sl_rsv_lnh := u8 (Z.lor (Z.shiftl (ah_sl ah) 4) lnh);
                     lrh_slid := port_lid port; lrh_pktlen := 0 |};
         h_grh := grh;
         h_bth := {| bth_OpCode := 0; bth_se_m_padcnt_tver := 0; bth_pkey := pkey;
                     bth_destQP := u32 (a_dest_qp_num (qp_attr q)); bth_psn := Z.land (u32 psn) PIB_PSN_MASK |} |}.

(** dev->thread.port_num = ... ready_to_send = 1 *)
Definition ready_to_send (trace_id : Z) : M st unit :=
  let! q := the_qp in
  let! port := the_port (a_port_num (qp_attr q)) in
  upd_thread (fun t => t <| th_port_num := a_port_num (qp_attr q) |> <| th_slid := port_lid port |>
    <| th_dlid := ah_dlid (a_ah_attr (qp_attr q)) |> <| th_src_qp_num := qp_num q |> <| th_trace_id := trace_id |>
    <| th_ready_to_send := true |>).

(** The tail shared by the request builders: packet length, pad count and
    solicited event, for a packet of [packet_length] bytes. *)
Definition finish_packet (h : hdrs) (packet_length : Z) (solicited : bool) : M st unit :=
  let fix_packet_length := Z.land (u32 (packet_length + 3)) (Z.lnot 3) in
  put_hdrs {| h_lrh := pib_packet_lrh_set_pktlen (h_lrh h) ((fix_packet_length + 4) / 4); h_grh := h_grh h;
              h_bth := pib_packet_bth_set_solicited
                (pib_packet_bth_set_padcnt (h_bth h) (u8 (fix_packet_length - packet_length))) solicited |}.

(** ** Requests *)

(** Write [bytes] at [pos]; the next position. *)
Definition put_at (pos : Z) (bytes : list Z) : M st Z :=
  let! b := send_buffer in put_buffer (buf_write b pos bytes) ;; ret (pos + Zlen bytes).

Definition wr_rdma (wr : send_wr) : Z * Z := match wr with WrRdma a k => (a, k) | _ => (0, 0) end.
Definition wr_atomic (wr : send_wr) : Z * Z * Z * Z := match wr with WrAtomic a c s k => (a, c, s, k) | _ => (0, 0, 0, 0) end.

(** mr_offset and payload_size of the next packet of an entry. *)
Definition packet_payload (q : pib_qp) (w : pib_send_wqe) : Z * Z :=
  let p := w_processing w in
  let mr_offset := u32 (Z.shiftl (u32 (p_sent_packets p * 128)) (a_path_mtu (qp_attr q))) in
  (mr_offset,
   if p_all_packets p - p_sent_packets p =? 1 then u32 (w_total_length w - mr_offset) else pmtu_of q).

(** The payload: from the inline data, or gathered; [pos] is where it goes. *)
Definition put_payload (w : pib_send_wqe) (pos mr_offset payload_size : Z) : M st ib_wc_status :=
  if payload_size =? 0 then ret IB_WC_SUCCESS
  else if has_flag (w_send_flags w) IB_SEND_INLINE then
    let! inline := of_option (w_inline_data_buffer w) in
    BUG_ON (Zlen inline <? mr_offset + payload_size) ;;
    put_at pos (buf_read inline mr_offset payload_size) ;;
    ret IB_WC_SUCCESS
  else
    let! s := get in
    let b := th_send_buffer (st_thread s) in
    let! (status, tail, m) := of_option (pib_util_mr_copy_data (st_pd s) (w_sge_array w) (st_mem s)
                                  (drop (Z.to_nat pos) b) mr_offset payload_size 0 PIB_MR_COPY_FROM) in
    put_buffer (take (Z.to_nat pos) b ++ tail) ;;
    ret status.

Definition process_SEND_or_RDMA_WRITE_request (w : pib_send_wqe) (h : hdrs) (with_reth with_imm with_inv : bool)
    : M st ib_wc_status :=
  if PIB_MAX_PAYLOAD_LEN <? w_total_length w then ret IB_WC_LOC_LEN_ERR
  else
    let! q := the_qp in
    let pos := hdrs_size h in
    let! pos := (if with_reth then
        let '(addr, rkey) := wr_rdma (w_wr w) in
        let! pos := put_at pos (reth_bytes {| reth_vaddr := addr; reth_rkey := rkey; reth_dmalen := w_total_length w |}) in
        upd_req (fun r => r <| rq_nr_contig_requests := 0 |>) ;; ret pos
      else ret pos) in
    let! pos := (if with_imm then put_at pos (le_split 4 (w_ex w)) else ret pos) in
    let! pos := (if with_inv then put_at pos (be_split 4 (w_ex w)) else ret pos) in
    let '(mr_offset, payload_size) := packet_payload q w in
    let! status := put_payload w pos mr_offset payload_size in
    if negb (bool_decide (status = IB_WC_SUCCESS)) then ret status
    else finish_packet h (pos + payload_size) (has_flag (w_send_flags w) IB_SEND_SOLICITED) ;; ret IB_WC_SUCCESS.

Definition process_RDMA_READ_request (w : pib_send_wqe) (h : hdrs) : M st ib_wc_status :=
  if PIB_MAX_PAYLOAD_LEN <? w_total_length w then ret IB_WC_LOC_LEN_ERR
  else
    let! q := the_qp in
    let '(addr, rkey) := wr_rdma (w_wr w) in
    let offset := u32 (pmtu_of q * p_sent_packets (w_processing w)) in
    let addr' := if 0 <? offset then u64 (addr + offset) else addr in
    let dmalen := if 0 <? offset then u32 (w_total_length w - offset) else w_total_length w in
    let! pos := put_at (hdrs_size h) (reth_bytes {| reth_vaddr := addr'; reth_rkey := rkey; reth_dmalen := dmalen |}) in
    finish_packet h pos (has_flag (w_send_flags w) IB_SEND_SOLICITED) ;;
    ret IB_WC_SUCCESS.

Definition process_Atomic_request (w : pib_send_wqe) (h : hdrs) : M st ib_wc_status :=
  let '(addr, compare_add, swap, rkey) := wr_atomic (w_wr w) in
  let! pos := put_at (hdrs_size h) (atomiceth_bytes {| at_vaddr := addr; at_rkey := rkey; at_swap_dt := swap; at_cmp_dt := compare_add |}) in
  finish_packet h pos (has_flag (w_send_flags w) IB_SEND_SOLICITED) ;;
  ret IB_WC_SUCCESS.
(** The opcode of the next packet of a SEND or RDMA WRITE, and which extended
    headers it carries (RETH, immediate data, invalidate rkey). *)
Definition request_opcode (op all_packets sent_packets : Z) : option (Z * bool * bool * bool) :=
  let only := all_packets =? 1 in
  let first := sent_packets =? 0 in
  let last := all_packets =? sent_packets + 1 in
  let pick o f l m := if only then o else if first then f else if last then l else m in
  let plain c := (c, false, false, false) in
  if op =? IB_WR_SEND then
    Some (pick (plain IB_OPCODE_SEND_ONLY) (plain IB_OPCODE_SEND_FIRST) (plain IB_OPCODE_SEND_LAST) (plain IB_OPCODE_SEND_MIDDLE))
  else if op =? IB_WR_SEND_WITH_IMM then
    Some (pick (IB_OPCODE_SEND_ONLY_WITH_IMMEDIATE, false, true, false) (plain IB_OPCODE_SEND_FIRST)
               (IB_OPCODE_SEND_LAST_WITH_IMMEDIATE, false, true, false) (plain IB_OPCODE_SEND_MIDDLE))
  else if op =? IB_WR_SEND_WITH_INV then
    Some (pick (IB_OPCODE_SEND_ONLY_WITH_INVALIDATE, false, false, true) (plain IB_OPCODE_SEND_FIRST)
               (IB_OPCODE_SEND_LAST_WITH_INVALIDATE, false, false, true) (plain IB_OPCODE_SEND_MIDDLE))
  else if op =? IB_WR_RDMA_WRITE then
    Some (pick (IB_OPCODE_RDMA_WRITE_ONLY, true, false, false) (IB_OPCODE_RDMA_WRITE_FIRST, true, false, false)
               (plain IB_OPCODE_RDMA_WRITE_LAST) (plain IB_OPCODE_RDMA_WRITE_MIDDLE))
  else if op =? IB_WR_RDMA_WRITE_WITH_IMM then
    Some (pick (IB_OPCODE_RDMA_WRITE_ONLY_WITH_IMMEDIATE, true, true, false) (IB_OPCODE_RDMA_WRITE_FIRST, true, false, false)
               (IB_OPCODE_RDMA_WRITE_LAST_WITH_IMMEDIATE, false, true, false) (plain IB_OPCODE_RDMA_WRITE_MIDDLE))
  else None.

Definition process_LOCAL_INVALIDATE_request (w : pib_send_wqe) : M st ib_wc_status :=
  let! pd := gets st_pd in
  let '(status, pd') := pib_util_mr_invalidate (w_ex w) pd in
  modify (fun s => s <| st_pd := pd' |>) ;; ret status.

Definition process_FAST_REGISTER_PMR_request (w : pib_send_wqe) : M st ib_wc_status :=
  let! pd := gets st_pd in
  match w_wr w with
  | WrFastReg iova pl plmax shift pll len flags rkey =>
      let '(status, pd') := pib_util_mr_fast_reg_pmr rkey iova pl plmax shift pll len flags pd in
      modify (fun s => s <| st_pd := pd' |>) ;; ret status
  | _ => bug
  end.

(** 0 on success, -1 on failure. *)
Definition pib_process_local_only_request (id : Z) : M st Z :=
  let! w := get_swqe id in
  let! status :=
    (if p_done (w_processing w) then ret (p_status (w_processing w))
     else
       let! status :=
         (if w_opcode w =? IB_WR_LOCAL_INV then process_LOCAL_INVALIDATE_request w
          else if w_opcode w =? IB_WR_FAST_REG_MR then process_FAST_REGISTER_PMR_request w
          else bug) in
       upd_proc id (fun p => p <| p_status := status |> <| p_done := true |>) ;;
       ret status) in
  ret (if bool_decide (status = IB_WC_SUCCESS) then 0 else -1).

(** The builder of the request's packet: the status. *)
Definition build_request (w : pib_send_wqe) (h : hdrs) : M st ib_wc_status :=
  let p := w_processing w in
  let with_opcode op := {| h_lrh := h_lrh h; h_grh := h_grh h; h_bth := (h_bth h) <| bth_OpCode := op |> |} in
  match request_opcode (w_opcode w) (p_all_packets p) (p_sent_packets p) with
  | Some (op, reth, imm, inv) =>
      put_hdrs (with_opcode op) ;; process_SEND_or_RDMA_WRITE_request w (with_opcode op) reth imm inv
  | None =>
      if w_opcode w =? IB_WR_RDMA_READ then
        put_hdrs (with_opcode IB_OPCODE_RDMA_READ_REQUEST) ;; process_RDMA_READ_request w (with_opcode IB_OPCODE_RDMA_READ_REQUEST)
      else if w_opcode w =? IB_WR_ATOMIC_CMP_AND_SWP then
        put_hdrs (with_opcode IB_OPCODE_COMPARE_SWAP) ;; process_Atomic_request w (with_opcode IB_OPCODE_COMPARE_SWAP)
      else if w_opcode w =? IB_WR_ATOMIC_FETCH_AND_ADD then
        put_hdrs (with_opcode IB_OPCODE_FETCH_ADD) ;; process_Atomic_request w (with_opcode IB_OPCODE_FETCH_ADD)
      else put_hdrs h ;; ret IB_WC_LOC_QP_OP_ERR
  end.

(** The label skip_to_send_packet. *)
Definition to_waiting (id : Z) : M st Z :=
  let! q := the_qp in
  let! now := gets st_now in
  upd_proc id (fun p => p <| p_list_type := PIB_SWQE_WAITING |> <| p_local_ack_time := u64 (now + qp_local_ack_timeout q) |>) ;;
  ret 0.

(** The label completion_error. *)
Definition request_error (id : Z) (status : ib_wc_status) : M st Z :=
  upd_proc id (fun p => p <| p_status := status |>) ;; ret (-1).

Definition pib_process_rc_qp_request (id : Z) : M st Z :=
  let! w := get_swqe id in
  if w_local_only_request w then
    let! r := (if param_bit pib_behavior PIB_BEHAVIOR_RELAXED_INVALIDATION_ORDERING
               then pib_process_local_only_request id else ret 0) in
    if negb (r =? 0) then ret r else to_waiting id
  else
    let p := w_processing w in
    if p_retry_cnt p <? 0 then request_error id IB_WC_RETRY_EXC_ERR
    else if p_rnr_retry p <? 0 then request_error id IB_WC_RNR_RETRY_EXC_ERR
    else
      let! h := start_packet 60 (u32 (p_based_psn p + p_sent_packets p)) in
      let! status := build_request w h in
      if negb (bool_decide (status = IB_WC_SUCCESS)) then request_error id status
      else
        ready_to_send id ;;
        if negb (w_opcode w =? IB_WR_RDMA_READ) then
          upd_proc id (fun p => p <| p_sent_packets ::= fun n => u32 (n + 1) |>) ;;
          upd_req (fun r => r <| rq_nr_contig_requests ::= Z.add 1 |>) ;;
          let! w := get_swqe id in
          if p_sent_packets (w_processing w) <? p_all_packets (w_processing w) then ret 0 else to_waiting id
        else to_waiting id.

End Rc.
