(* ===== verification/RcRsp.v ===== *)
(** * RC transport: the responder (driver/pib_rc.c, middle part)

    Receiving request packets, queueing the responses, and generating the
    acknowledge packets.  The argument [buffer] of a receiver is the packet after
    its base headers, up to the length the caller computed, so that the C
    argument [size] is its length. *)

From S2P Require Import Prelude Verbs Lib ObjNum Cq Srq Mr State Sched Qp Packet Rc.

Section RcRsp.
Context {PP : Params}.

(** ** Helpers *)

Definition issue_comm_est : M st unit :=
  let! q := the_qp in
  if negb (bool_decide (qp_state q = IB_QPS_RTR)) || qp_issue_comm_est q then ret tt
  else
    pib_util_insert_async_qp_event IB_EVENT_COMM_EST ;;
    upd_qp (fun q => q <| qp_issue_comm_est := true |>).

(** The entry at the head of the receive queue is done:
    push_rcqe = 1; list_del_init; nr_recv_wqe--; pib_util_free_recv_wqe. *)
Definition consume_recv_wqe : M st unit :=
  upd_qp (fun q => q <| qp_push_rcqe := true |>) ;;
  upd_rsp (fun r => r <| rs_recv_wqes ::= tail |> <| rs_nr_recv_wqe ::= fun n => n - 1 |>) ;;
  pib_util_free_recv_wqe.

Definition abort_active_rwqe : M st unit :=
  let! q := the_qp in
  match rs_recv_wqes (qp_responder q) with
  | [] => ret tt
  | recv_wqe :: _ =>
      if rs_offset (qp_responder q) =? 0 then ret tt
      else
        qp_insert_wc_error (qp_recv_cq q) (rwqe_wr_id recv_wqe) IB_WC_GENERAL_ERR IB_WC_RECV ;;
        consume_recv_wqe
  end.

(** qp->state = IB_QPS_ERR; pib_util_flush_qp(qp, 0) *)
Definition qp_to_error : M st unit :=
  upd_qp (fun q => q <| qp_state := IB_QPS_ERR |>) ;;
  pib_util_flush_qp false.

Definition insert_async_qp_error (event : ib_event_type) : M st unit :=
  pib_util_insert_async_qp_error event ;;
  abort_active_rwqe ;;
  qp_to_error.

(** ** Queueing responses *)

Definition ack_zero : pib_ack :=
  {| ack_type := PIB_ACK_NORMAL; ack_psn := 0; ack_expected_psn := 0; ack_msn := 0; ack_syndrome := 0;
     ack_vaddress_res := 0; ack_rkey := 0; ack_size := 0; ack_offset := 0 |}.

(** What [push_acknowledge] does with the last response of the queue. *)
Inductive coalesce_t := CoNew | CoDrop | CoMerge.

Definition same_class (code syndrome last_syndrome : Z) : bool :=
  (Z.land syndrome PIB_SYND_CODE_MASK =? code) && (Z.land last_syndrome PIB_SYND_CODE_MASK =? code).

Definition coalesce (acks : list pib_ack) (syndrome : Z) : coalesce_t :=
  match last acks with
  | None => CoNew
  | Some ack_last =>
      if negb (bool_decide (ack_type ack_last = PIB_ACK_NORMAL)) then CoNew
      else if same_class PIB_SYND_RNR_NAK_CODE syndrome (ack_syndrome ack_last) then CoDrop
      else if same_class PIB_SYND_ACK_CODE syndrome (ack_syndrome ack_last) then CoMerge
      else CoNew
  end.

Definition update_last {A} (f : A -> A) (l : list A) : list A :=
  match last l with Some x => removelast l ++ [f x] | None => l end.

Definition push_acknowledge (psn syndrome : Z) : M st unit :=
  let! r := the_rsp in
  match coalesce (rs_acks r) syndrome with
  | CoDrop => ret tt
  | CoMerge =>
      upd_rsp (fun r => r <| rs_acks ::= update_last (fun a => a <| ack_psn := psn |> <| ack_expected_psn := u32 (psn + 1) |>) |>)
  | CoNew =>
      let! ok := kmem_cache_zalloc in
      if negb ok then ret tt
      else
        upd_rsp (fun r => r <| rs_acks ::= fun l => l ++ [ack_zero <| ack_type := PIB_ACK_NORMAL |> <| ack_psn := psn |>
                                  <| ack_expected_psn := u32 (psn + 1) |> <| ack_syndrome := syndrome |>] |>) ;;
        when (negb (Z.land syndrome PIB_SYND_CODE_MASK =? PIB_SYND_ACK_CODE))
          (upd_rsp (fun r => r <| rs_nr_contig_read_acks := 0 |>))
  end.

Definition is_rd_atomic_ack (a : pib_ack) : bool :=
  match ack_type a with PIB_ACK_RMDA_READ | PIB_ACK_ATOMIC => true | PIB_ACK_NORMAL => false end.

Definition overlapped (psn expected_psn : Z) (a : pib_ack) : bool :=
  ((0 <=? get_psn_diff (ack_psn a) psn) && (get_psn_diff (ack_psn a) expected_psn <? 0))
  || ((0 <? get_psn_diff (ack_expected_psn a) psn) && (get_psn_diff (ack_expected_psn a) expected_psn <=? 0))
  || (0 <=? get_psn_diff (ack_psn a) expected_psn).

(** The list is walked backwards, each overlapped response being taken off. *)
Definition remove_overlapped_rdma_read_acknowledge (psn expected_psn : Z) : M st unit :=
  let! r := the_rsp in
  let gone := List.filter (overlapped psn expected_psn) (rs_acks r) in
  upd_rsp (fun r => r <| rs_acks ::= List.filter (fun a => negb (overlapped psn expected_psn a)) |>
                      <| rs_nr_rd_atomic ::= fun n => n - Zlen (List.filter is_rd_atomic_ack gone) |>).

Definition push_rdma_read_acknowledge (psn expected_psn vaddress rkey size : Z) : M st unit :=
  let! ok := kmem_cache_zalloc in
  if negb ok then ret tt
  else
    upd_rsp (fun r => r <| rs_acks ::= fun l => l ++ [ack_zero <| ack_type := PIB_ACK_RMDA_READ |> <| ack_psn := psn |>
                              <| ack_expected_psn := expected_psn |> <| ack_vaddress_res := vaddress |>
                              <| ack_rkey := rkey |> <| ack_size := size |>] |>
                        <| rs_nr_rd_atomic ::= Z.add 1 |>).

Definition push_atomic_acknowledge (psn res : Z) : M st unit :=
  let! ok := kmem_cache_zalloc in
  if negb ok then ret tt
  else
    upd_rsp (fun r => r <| rs_acks ::= fun l => l ++ [ack_zero <| ack_type := PIB_ACK_ATOMIC |> <| ack_psn := psn |>
                              <| ack_expected_psn := u32 (psn + 1) |> <| ack_vaddress_res := res |>] |>
                        <| rs_nr_rd_atomic ::= Z.add 1 |>).

(** ** Shared error exits; every one returns -1 *)

Definition nak_and_error (psn syndrome : Z) (event : ib_event_type) : M st Z :=
  push_acknowledge psn syndrome ;; insert_async_qp_error event ;; ret (-1).

(** The label nak_invalid_request. *)
Definition nak_invalid_request (psn : Z) : M st Z :=
  nak_and_error psn PIB_SYND_NAK_CODE_INV_REQ_ERR IB_EVENT_QP_REQ_ERR.

(** The label resources_not_ready. *)
Definition resources_not_ready (psn : Z) : M st Z :=
  let! q := the_qp in push_acknowledge psn (get_resources_not_ready q) ;; ret (-1).

(** pib_util_get_srq, with the entry moved to the QP's receive queue. *)
Definition take_srq : M st unit :=
  let! q := the_qp in
  match i_srq (qp_init_attr q) with
  | None => ret tt
  | Some n =>
      let! srqs := gets st_srqs in
      let! srq := of_option (srqs !! n) in
      let '(w, ev, srq') := pib_util_get_srq srq in
      modify (fun s => s <| st_srqs ::= <[n := srq']> |>) ;;
      emit ev ;;
      match w with
      | Some recv_wqe =>
          upd_rsp (fun r => r <| rs_recv_wqes ::= fun l => l ++ [recv_wqe] |> <| rs_nr_recv_wqe ::= Z.add 1 |>)
      | None => ret tt
      end
  end.

(** ** SEND *)

(** init, finit, with_imm, with_inv, min, max *)
Record send_shape := { ss_init : bool; ss_finit : bool; ss_imm : bool; ss_inv : bool; ss_min : Z; ss_max : Z }.

Definition send_shape_of (pmtu OpCode : Z) : option send_shape :=
  let only imm inv := Some {| ss_init := true; ss_finit := true; ss_imm := imm; ss_inv := inv; ss_min := 0; ss_max := pmtu |} in
  let last imm inv := Some {| ss_init := false; ss_finit := true; ss_imm := imm; ss_inv := inv; ss_min := 1; ss_max := pmtu |} in
  if OpCode =? IB_OPCODE_SEND_ONLY_WITH_IMMEDIATE then only true false
  else if OpCode =? IB_OPCODE_SEND_ONLY_WITH_INVALIDATE then only false true
  else if OpCode =? IB_OPCODE_SEND_ONLY then only false false
  else if OpCode =? IB_OPCODE_SEND_FIRST then
    Some {| ss_init := true; ss_finit := false; ss_imm := false; ss_inv := false; ss_min := pmtu; ss_max := pmtu |}
  else if OpCode =? IB_OPCODE_SEND_LAST_WITH_IMMEDIATE then last true false
  else if OpCode =? IB_OPCODE_SEND_LAST_WITH_INVALIDATE then last false true
  else if OpCode =? IB_OPCODE_SEND_LAST then last false false
  else if OpCode =? IB_OPCODE_SEND_MIDDLE then
    Some {| ss_init := false; ss_finit := false; ss_imm := false; ss_inv := false; ss_min := pmtu; ss_max := pmtu |}
  else None.

(** The label completion_error of the SEND receiver. *)
Definition send_completion_error (psn : Z) (recv_wqe : pib_recv_wqe) (status : ib_wc_status) (nak : option Z) : M st Z :=
  let! q := the_qp in
  qp_insert_wc_error (qp_recv_cq q) (rwqe_wr_id recv_wqe) status IB_WC_RECV ;;
  consume_recv_wqe ;;
  (match nak with Some syndrome => push_acknowledge psn syndrome | None => ret tt end) ;;
  qp_to_error ;;
  ret (-1).

(** The completion of a received message. *)
Definition recv_wc (q : pib_qp) (recv_wqe : pib_recv_wqe) (opcode byte_len slid ex flags : Z) : ib_wc :=
  (wc_init (rwqe_wr_id recv_wqe) IB_WC_SUCCESS opcode (qp_num q))
    <| wc_byte_len := byte_len |> <| wc_slid := slid |> <| wc_ex := ex |> <| wc_flags := flags |>.

(** The local memory copy of the handler's device. *)
Definition copy_to_sgl (sges : list ib_sge) (buffer : list Z) (offset size : Z) : M st ib_wc_status :=
  let! s := get in
  let! (status, _, m) := of_option (pib_util_mr_copy_data (st_pd s) sges (st_mem s) buffer offset size
                                      IB_ACCESS_LOCAL_WRITE PIB_MR_COPY_TO) in
  modify (fun s => s <| st_mem := m |>) ;;
  ret status.

(** The message is complete: success completion and release of the entry. *)
Definition deliver_recv (bth : pib_packet_bth) (recv_wqe : pib_recv_wqe) (opcode slid ex flags : Z) : M st unit :=
  let! q := the_qp in
  qp_insert_wc_success (qp_recv_cq q) (recv_wc q recv_wqe opcode (rs_offset (qp_responder q)) slid ex flags)
    (negb (pib_packet_bth_get_padcnt bth =? 0)) ;;
  consume_recv_wqe.

(** The part of [receive_SEND_request] after the extended headers are stripped. *)
Definition receive_SEND_payload (psn : Z) (sh : send_shape) (lrh : pib_packet_lrh) (bth : pib_packet_bth)
    (imm_data invalidate_rkey : Z) (buffer : list Z) (recv_wqe : pib_recv_wqe) : M st Z :=
  let size := Zlen buffer in
  let! r := the_rsp in
  let! status := copy_to_sgl (rwqe_sge_array recv_wqe) buffer (rs_offset r) size in
  let! inv_status :=
    (if ss_inv sh && bool_decide (status = IB_WC_SUCCESS) then
       let! pd := gets st_pd in
       let '(st', pd') := pib_util_mr_invalidate invalidate_rkey pd in
       modify (fun s => s <| st_pd := pd' |>) ;; ret st'
     else ret IB_WC_SUCCESS) in
  if negb (bool_decide (inv_status = IB_WC_SUCCESS)) then send_completion_error psn recv_wqe inv_status None
  else if bool_decide (status = IB_WC_LOC_LEN_ERR) then
    send_completion_error psn recv_wqe status (Some PIB_SYND_NAK_CODE_INV_REQ_ERR)
  else if negb (bool_decide (status = IB_WC_SUCCESS)) then
    send_completion_error psn recv_wqe status (Some PIB_SYND_NAK_CODE_REM_OP_ERR)
  else
    upd_rsp (fun r => r <| rs_offset ::= fun o => u32 (o + size) |>) ;;
    when (ss_finit sh)
      (deliver_recv bth recv_wqe IB_WC_RECV (lrh_slid lrh)
         (if ss_inv sh then invalidate_rkey else if ss_imm sh then imm_data else 0)
         (Z.lor (if ss_imm sh then IB_WC_WITH_IMM else 0) (if ss_inv sh then IB_WC_WITH_INVALIDATE else 0))) ;;
    push_acknowledge psn PIB_SYND_ACK_CODE ;;
    ret 1.

Definition receive_SEND_request (psn OpCode : Z) (lrh : pib_packet_lrh) (bth : pib_packet_bth) (buffer : list Z) : M st Z :=
  let! q := the_qp in
  let! sh := of_option (send_shape_of (pmtu_of q) OpCode) in
  when (ss_init sh) (upd_rsp (fun r => r <| rs_offset := 0 |>) ;; take_srq) ;;
  let! r := the_rsp in
  match rs_recv_wqes r with
  | [] => resources_not_ready psn
  | recv_wqe :: _ =>
      if ss_imm sh && (Zlen buffer <? 4) then nak_invalid_request psn
      else
        let imm_data := if ss_imm sh then le_combine (take 4 buffer) else 0 in
        let buffer := if ss_imm sh then drop 4 buffer else buffer in
        if ss_inv sh && (Zlen buffer <? 4) then nak_invalid_request psn
        else
          let invalidate_rkey := if ss_inv sh then be_at 0 4 buffer else 0 in
          let buffer := if ss_inv sh then drop 4 buffer else buffer in
          if (Zlen buffer <? ss_min sh) || (ss_max sh <? Zlen buffer) then nak_invalid_request psn
          else receive_SEND_payload psn sh lrh bth imm_data invalidate_rkey buffer recv_wqe
  end.

(** ** RDMA WRITE *)

(** init (with_reth), finit, with_imm, min, max *)
Record write_shape := { ws_init : bool; ws_finit : bool; ws_imm : bool; ws_min : Z; ws_max : Z }.

Definition write_shape_of (pmtu OpCode : Z) : option write_shape :=
  let only imm := Some {| ws_init := true; ws_finit := true; ws_imm := imm; ws_min := 0; ws_max := pmtu |} in
  let last imm := Some {| ws_init := false; ws_finit := true; ws_imm := imm; ws_min := 1; ws_max := pmtu |} in
  if OpCode =? IB_OPCODE_RDMA_WRITE_ONLY_WITH_IMMEDIATE then only true
  else if OpCode =? IB_OPCODE_RDMA_WRITE_ONLY then only false
  else if OpCode =? IB_OPCODE_RDMA_WRITE_FIRST then
    Some {| ws_init := true; ws_finit := false; ws_imm := false; ws_min := pmtu; ws_max := pmtu |}
  else if OpCode =? IB_OPCODE_RDMA_WRITE_LAST_WITH_IMMEDIATE then last true
  else if OpCode =? IB_OPCODE_RDMA_WRITE_LAST then last false
  else if OpCode =? IB_OPCODE_RDMA_WRITE_MIDDLE then
    Some {| ws_init := false; ws_finit := false; ws_imm := false; ws_min := pmtu; ws_max := pmtu |}
  else None.

(** The label skip and the error labels it leads to. *)
Definition write_error (psn : Z) (with_imm : bool) (recv_wqe : option pib_recv_wqe) (status : ib_wc_status) : M st Z :=
  let! q := the_qp in
  (if with_imm && negb (param_bit pib_behavior PIB_BEHAVIOR_RDMA_WRITE_WITH_IMM_ALWAYS_ASYNC_ERR) then
     let! w := of_option recv_wqe in
     qp_insert_wc_error (qp_recv_cq q) (rwqe_wr_id w) status IB_WC_RECV_RDMA_WITH_IMM ;;
     consume_recv_wqe
   else
     pib_util_insert_async_qp_error IB_EVENT_QP_ACCESS_ERR ;;
     abort_active_rwqe) ;;
  push_acknowledge psn (if bool_decide (status = IB_WC_LOC_LEN_ERR) then PIB_SYND_NAK_CODE_INV_REQ_ERR
                        else PIB_SYND_NAK_CODE_REM_ACCESS_ERR) ;;
  qp_to_error ;;
  ret (-1).

(** pib_util_mr_copy_data_with_rkey towards memory *)
Definition copy_to_rkey (rkey : Z) (buffer : list Z) (address size flags : Z) : M st ib_wc_status :=
  let! s := get in
  let! (status, _, m) := of_option (pib_util_mr_copy_data_with_rkey (st_pd s) rkey (st_mem s) buffer address size flags
                                      PIB_MR_COPY_TO) in
  modify (fun s => s <| st_mem := m |>) ;;
  ret status.

(** The part after the extended headers are stripped. *)
Definition receive_RDMA_WRITE_payload (psn : Z) (sh : write_shape) (lrh : pib_packet_lrh) (bth : pib_packet_bth)
    (imm_data : Z) (recv_wqe : option pib_recv_wqe) (buffer : list Z) : M st Z :=
  let size := Zlen buffer in
  let! r := the_rsp in
  let upto := u32 (rs_offset r + size) in
  if (size <? ws_min sh) || (ws_max sh <? size) then nak_invalid_request psn
  else if rs_wr_dmalen r <? upto then nak_invalid_request psn
  else if ws_finit sh && negb (rs_wr_dmalen r =? upto) then nak_invalid_request psn
  else if PIB_MAX_PAYLOAD_LEN <? rs_wr_dmalen r then write_error psn (ws_imm sh) recv_wqe IB_WC_LOC_LEN_ERR
  else
    let! status := copy_to_rkey (rs_wr_rkey r) buffer (u64 (rs_wr_vaddr r + rs_offset r)) size
                     (Z.lor IB_ACCESS_LOCAL_WRITE IB_ACCESS_REMOTE_WRITE) in
    if negb (bool_decide (status = IB_WC_SUCCESS)) then write_error psn (ws_imm sh) recv_wqe status
    else
      upd_rsp (fun r => r <| rs_offset ::= fun o => u32 (o + size) |>) ;;
      (if ws_finit sh && ws_imm sh then
         let! w := of_option recv_wqe in
         deliver_recv bth w IB_WC_RECV_RDMA_WITH_IMM (lrh_slid lrh) imm_data IB_WC_WITH_IMM
       else ret tt) ;;
      push_acknowledge psn PIB_SYND_ACK_CODE ;;
      ret 1.

Definition receive_RDMA_WRITE_request (psn OpCode : Z) (lrh : pib_packet_lrh) (bth : pib_packet_bth) (buffer : list Z)
    : M st Z :=
  let! q := the_qp in
  let! sh := of_option (write_shape_of (pmtu_of q) OpCode) in
  if ws_init sh && (Zlen buffer <? RETH_SIZE) then nak_invalid_request psn
  else
    when (ws_init sh)
      (let reth := reth_of buffer in
       upd_rsp (fun r => r <| rs_offset := 0 |> <| rs_wr_vaddr := reth_vaddr reth |> <| rs_wr_rkey := reth_rkey reth |>
                           <| rs_wr_dmalen := reth_dmalen reth |>)) ;;
    let buffer := if ws_init sh then drop 16 buffer else buffer in
    if ws_imm sh then
      take_srq ;;
      let! r := the_rsp in
      match rs_recv_wqes r with
      | [] => resources_not_ready psn
      | recv_wqe :: _ =>
          if Zlen buffer <? 4 then nak_invalid_request psn
          else receive_RDMA_WRITE_payload psn sh lrh bth (le_combine (take 4 buffer)) (Some recv_wqe) (drop 4 buffer)
      end
    else receive_RDMA_WRITE_payload psn sh lrh bth 0 None buffer.

(** ** Atomics *)

(** (unsigned int)i % PIB_MAX_RD_ATOM *)
Definition slot_of (i : Z) : nat := Z.to_nat (u32 i mod PIB_MAX_RD_ATOM).

(** slots[(slot_index++) % PIB_MAX_RD_ATOM] = slot: [slot_index] is an [int], whose
    remainder is negative once it has wrapped. *)
Definition push_slot (slot : pib_rd_atom_slot) : M st unit :=
  let! r := the_rsp in
  BUG_ON (Z.rem (rs_slot_index r) PIB_MAX_RD_ATOM <? 0) ;;
  upd_rsp (fun r => r <| rs_slots ::= <[Z.to_nat (Z.rem (rs_slot_index r) PIB_MAX_RD_ATOM) := slot]> |>
                      <| rs_slot_index ::= fun i => s32 (i + 1) |>).

Definition receive_Atomic_request (psn OpCode : Z) (buffer : list Z) : M st Z :=
  let! q := the_qp in
  if negb (Zlen buffer =? ATOMICETH_SIZE) then nak_and_error psn PIB_SYND_NAK_CODE_INV_REQ_ERR IB_EVENT_QP_REQ_ERR
  else
    let atomiceth := atomiceth_of buffer in
    let vaddr := at_vaddr atomiceth in
    if negb (vaddr mod 8 =? 0) then nak_and_error psn PIB_SYND_NAK_CODE_INV_REQ_ERR IB_EVENT_QP_ACCESS_ERR
    else if a_max_dest_rd_atomic (qp_attr q) <=? rs_nr_rd_atomic (qp_responder q) then
      nak_and_error psn PIB_SYND_NAK_CODE_INV_REQ_ERR IB_EVENT_QP_ACCESS_ERR
    else
      let! s := get in
      let! (status, result, m) := of_option
        (pib_util_mr_atomic (st_pd s) (at_rkey atomiceth) vaddr (at_swap_dt atomiceth) (at_cmp_dt atomiceth) 0
           (if OpCode =? IB_WR_ATOMIC_CMP_AND_SWP then PIB_MR_CAS else PIB_MR_FETCHADD) (st_mem s)) in
      modify (fun s => s <| st_mem := m |>) ;;
      if negb (bool_decide (status = IB_WC_SUCCESS)) then
        nak_and_error psn PIB_SYND_NAK_CODE_REM_ACCESS_ERR IB_EVENT_QP_ACCESS_ERR
      else
        let! r := the_rsp in
        push_slot {| slot_psn := rs_psn r; slot_expected_psn := u32 (rs_psn r + 1); slot_OpCode := OpCode;
                     slot_vaddress_res := result; slot_rkey := 0; slot_dmalen := 0 |} ;;
        push_atomic_acknowledge psn result ;;
        ret 1.

(** ** RDMA READ *)

(** The label length_error_or_too_many_rdma_read. *)
Definition too_many_rdma_read (psn : Z) : M st Z :=
  nak_and_error psn PIB_SYND_NAK_CODE_INV_REQ_ERR IB_EVENT_QP_ACCESS_ERR.

(** The tail: the response is queued. *)
Definition queue_rdma_read (psn expected_psn : Z) (reth : pib_packet_reth) (result : Z) : M st Z :=
  remove_overlapped_rdma_read_acknowledge psn expected_psn ;;
  let! q := the_qp in
  if a_max_dest_rd_atomic (qp_attr q) <=? rs_nr_rd_atomic (qp_responder q) then too_many_rdma_read psn
  else
    push_rdma_read_acknowledge psn expected_psn (reth_vaddr reth) (reth_rkey reth) (reth_dmalen reth) ;;
    upd_rsp (fun r => r <| rs_nr_contig_read_acks := 0 |>) ;;
    ret result.

(** [retried]: the slot of the request the packet repeats. *)
Definition receive_RDMA_READ_request (psn : Z) (buffer : list Z) (retried : option nat) : M st Z :=
  if negb (Zlen buffer =? RETH_SIZE) then nak_invalid_request psn
  else
    let reth := reth_of buffer in
    if PIB_MAX_PAYLOAD_LEN <? reth_dmalen reth then too_many_rdma_read psn
    else
      let! s := get in
      let! status := of_option (pib_util_mr_verify_rkey_validation (st_pd s) (reth_rkey reth) (reth_vaddr reth)
                                  (reth_dmalen reth) IB_ACCESS_REMOTE_READ (st_mem s)) in
      if negb (bool_decide (status = IB_WC_SUCCESS)) then
        nak_and_error psn PIB_SYND_NAK_CODE_REM_ACCESS_ERR IB_EVENT_QP_ACCESS_ERR
      else
        let! q := the_qp in
        let r := qp_responder q in
        let num_packets := pib_get_num_of_packets (qp_type q) (a_path_mtu (qp_attr q)) (reth_dmalen reth) in
        match retried with
        | None =>
            if a_max_dest_rd_atomic (qp_attr q) <=? rs_nr_rd_atomic r then too_many_rdma_read psn
            else
              let expected_psn := u32 (rs_psn r + num_packets) in
              push_slot {| slot_psn := rs_psn r; slot_expected_psn := expected_psn; slot_OpCode := IB_OPCODE_RDMA_READ_REQUEST;
                           slot_vaddress_res := reth_vaddr reth; slot_rkey := reth_rkey reth; slot_dmalen := reth_dmalen reth |} ;;
              queue_rdma_read psn expected_psn reth num_packets
        | Some i =>
            let! slot := of_option (rs_slots r !! i) in
            let offset := u32 (Z.shiftl (u32 (get_psn_diff psn (slot_psn slot) * 128)) (a_path_mtu (qp_attr q))) in
            if negb (slot_rkey slot =? reth_rkey reth) || negb (u64 (slot_vaddress_res slot + offset) =? reth_vaddr reth)
               || negb (u32 (slot_dmalen slot - offset) =? reth_dmalen reth)
            then nak_invalid_request psn
            else queue_rdma_read psn (slot_expected_psn slot) reth 0
        end.

(** ** Receiving a request packet *)

(** The loop over the saved RDMA READ and Atomic requests, most recent first: the
    slot [psn] belongs to. *)
Fixpoint find_slot_loop (r : responder_t) (OpCode psn i : Z) (n : nat) : option (nat * pib_rd_atom_slot) :=
  match n with
  | O => None
  | S n' =>
      let k := slot_of (rs_slot_index r - i) in
      let slot := nth k (rs_slots r) slot_zero in
      if negb (slot_OpCode slot =? OpCode) || (get_psn_diff psn (slot_psn slot) <? 0)
         || (0 <=? get_psn_diff psn (slot_expected_psn slot))
      then find_slot_loop r OpCode psn (i + 1) n'
      else Some (k, slot)
  end.

Definition is_rd_atomic_opcode (OpCode : Z) : bool :=
  (OpCode =? IB_OPCODE_RDMA_READ_REQUEST) || (OpCode =? IB_OPCODE_COMPARE_SWAP) || (OpCode =? IB_OPCODE_FETCH_ADD).

(** psn_diff < 0: the packet repeats one that was received before. *)
Definition receive_duplicate (psn OpCode : Z) (buffer : list Z) : M st unit :=
  if is_rd_atomic_opcode OpCode then
    let! q := the_qp in
    match find_slot_loop (qp_responder q) OpCode psn 1 (Z.to_nat (a_max_dest_rd_atomic (qp_attr q))) with
    | Some (k, slot) =>
        if OpCode =? IB_OPCODE_RDMA_READ_REQUEST then receive_RDMA_READ_request psn buffer (Some k) ;; ret tt
        else push_atomic_acknowledge psn (slot_vaddress_res slot)
    | None => push_acknowledge psn PIB_SYND_NAK_CODE_INV_REQ_ERR ;; insert_async_qp_error IB_EVENT_QP_ACCESS_ERR
    end
  else push_acknowledge psn PIB_SYND_ACK_CODE.

Definition is_send_opcode (OpCode : Z) : bool :=
  bool_decide (OpCode ∈ [IB_OPCODE_SEND_FIRST; IB_OPCODE_SEND_MIDDLE; IB_OPCODE_SEND_LAST; IB_OPCODE_SEND_ONLY;
    IB_OPCODE_SEND_LAST_WITH_IMMEDIATE; IB_OPCODE_SEND_ONLY_WITH_IMMEDIATE; IB_OPCODE_SEND_LAST_WITH_INVALIDATE;
    IB_OPCODE_SEND_ONLY_WITH_INVALIDATE]).
Definition is_write_opcode (OpCode : Z) : bool :=
  bool_decide (OpCode ∈ [IB_OPCODE_RDMA_WRITE_FIRST; IB_OPCODE_RDMA_WRITE_MIDDLE; IB_OPCODE_RDMA_WRITE_LAST;
    IB_OPCODE_RDMA_WRITE_LAST_WITH_IMMEDIATE; IB_OPCODE_RDMA_WRITE_ONLY; IB_OPCODE_RDMA_WRITE_ONLY_WITH_IMMEDIATE]).

(** psn_diff = 0 and the opcode is in sequence. *)
Definition execute_request (psn OpCode : Z) (lrh : pib_packet_lrh) (bth : pib_packet_bth) (buffer : list Z) : M st Z :=
  if is_send_opcode OpCode then receive_SEND_request psn OpCode lrh bth buffer
  else if is_write_opcode OpCode then receive_RDMA_WRITE_request psn OpCode lrh bth buffer
  else if OpCode =? IB_OPCODE_RDMA_READ_REQUEST then receive_RDMA_READ_request psn buffer None
  else if OpCode =? IB_OPCODE_COMPARE_SWAP then receive_Atomic_request psn IB_OPCODE_COMPARE_SWAP buffer
  else if OpCode =? IB_OPCODE_FETCH_ADD then receive_Atomic_request psn IB_OPCODE_FETCH_ADD buffer
  else bug.

Definition receive_request (lrh : pib_packet_lrh) (bth : pib_packet_bth) (buffer : list Z) : M st unit :=
  let OpCode := bth_OpCode bth in
  let psn := Z.land (bth_psn bth) PIB_PSN_MASK in
  issue_comm_est ;;
  let! r := the_rsp in
  let psn_diff := get_psn_diff psn (rs_psn r) in
  if 0 <? psn_diff then push_acknowledge psn PIB_SYND_NAK_CODE_PSN_SEQ_ERR
  else if psn_diff <? 0 then receive_duplicate psn OpCode buffer
  else
    let! in_order := of_option (pib_opcode_is_in_order_sequence OpCode (rs_last_OpCode r)) in
    if negb in_order then
      push_acknowledge psn PIB_SYND_NAK_CODE_INV_REQ_ERR ;; insert_async_qp_error IB_EVENT_QP_REQ_ERR
    else
      let! n := execute_request psn OpCode lrh bth buffer in
      when (0 <=? n)
        (upd_rsp (fun r => r <| rs_psn ::= fun p => u32 (p + n) |> <| rs_last_OpCode := OpCode |>)).

(** ** Generating acknowledge packets *)

(** The headers written, and the size of the packet so far. *)
Definition pack_acknowledge_packet (OpCode psn : Z) (with_aeth : bool) (syndrome : Z) (with_atomiceth : bool) (res : Z)
    : M st (hdrs * Z) :=
  let! h := start_packet 72 psn in
  let! pos := (if with_aeth then put_at (hdrs_size h) (be_split 4 (u32 (Z.shiftl syndrome 24))) else ret (hdrs_size h)) in
  let! size := (if with_atomiceth then put_at pos (be_split 8 res) else ret pos) in
  let h' := {| h_lrh := pib_packet_lrh_set_pktlen (h_lrh h) ((size + 4) / 4); h_grh := h_grh h;
               h_bth := pib_packet_bth_set_padcnt ((h_bth h) <| bth_OpCode := OpCode |>) 0 |} in
  put_hdrs h' ;;
  ret (h', size).

Definition generate_Normal_or_Atomic_acknowledge (ack : pib_ack) : M st unit :=
  (match ack_type ack with
   | PIB_ACK_NORMAL => pack_acknowledge_packet IB_OPCODE_ACKNOWLEDGE (ack_psn ack) true (ack_syndrome ack) false 0
   | _ => pack_acknowledge_packet IB_OPCODE_ATOMIC_ACKNOWLEDGE (ack_psn ack) true PIB_SYND_ACK_CODE true (ack_vaddress_res ack)
   end) ;;
  ready_to_send 0.

(** OpCode, with_aeth and the offset in packets of the next response packet. *)
Definition read_response_shape (path_mtu : Z) (ack : pib_ack) : Z * bool * Z :=
  let psn_offset := Z.shiftr (ack_offset ack / 128) path_mtu in
  if get_psn_diff (ack_expected_psn ack) (ack_psn ack) =? 1 then (IB_OPCODE_RDMA_READ_RESPONSE_ONLY, true, psn_offset)
  else if psn_offset =? 0 then (IB_OPCODE_RDMA_READ_RESPONSE_FIRST, true, psn_offset)
  else if 1 <? get_psn_diff (ack_expected_psn ack) (u32 (ack_psn ack + psn_offset)) then
    (IB_OPCODE_RDMA_READ_RESPONSE_MIDDLE, false, psn_offset)
  else (IB_OPCODE_RDMA_READ_RESPONSE_LAST, true, psn_offset).

(** The response at the head of the queue. *)
Definition generate_RDMA_READ_response (ack : pib_ack) : M st ib_wc_status :=
  let! q := the_qp in
  let '(OpCode, with_aeth, psn_offset) := read_response_shape (a_path_mtu (qp_attr q)) ack in
  let! (h, size) := pack_acknowledge_packet OpCode (u32 (ack_psn ack + psn_offset)) with_aeth PIB_SYND_ACK_CODE false 0 in
  let left := u32 (ack_size ack - ack_offset ack) in
  let data_size := if left <? pmtu_of q then left else pmtu_of q in
  let payload_size := Z.land (u32 (data_size + 3)) (Z.lnot 3) in
  put_hdrs {| h_lrh := pib_packet_lrh_set_pktlen (h_lrh h) ((size + payload_size + 4) / 4); h_grh := h_grh h;
              h_bth := pib_packet_bth_set_padcnt (h_bth h) (payload_size - data_size) |} ;;
  let! s := get in
  let b := th_send_buffer (st_thread s) in
  let! (status, tail, _) := of_option (pib_util_mr_copy_data_with_rkey (st_pd s) (ack_rkey ack) (st_mem s)
      (drop (Z.to_nat size) b) (u64 (ack_vaddress_res ack + ack_offset ack)) data_size IB_ACCESS_REMOTE_READ PIB_MR_COPY_FROM) in
  put_buffer (take (Z.to_nat size) b ++ tail) ;;
  if negb (bool_decide (status = IB_WC_SUCCESS)) then ret status
  else
    ready_to_send 0 ;;
    upd_rsp (fun r => r <| rs_acks ::= fun l => match l with
                                                 | a :: l' => a <| ack_offset ::= fun o => u32 (o + data_size) |> :: l'
                                                 | [] => []
                                                 end |>
                        <| rs_nr_contig_read_acks ::= Z.add 1 |>) ;;
    ret IB_WC_SUCCESS.

(** list_del_init; kmem_cache_free *)
Definition pop_ack : M st Z := upd_rsp (fun r => r <| rs_acks ::= tail |>) ;; ret 1.

Definition pib_generate_rc_qp_acknowledge : M st Z :=
  let! q := the_qp in
  if negb (pib_is_recv_ok (qp_state q)) then ret 0
  else
    match rs_acks (qp_responder q) with
    | [] => ret 0
    | ack :: _ =>
        match ack_type ack with
        | PIB_ACK_ATOMIC =>
            generate_Normal_or_Atomic_acknowledge ack ;;
            upd_rsp (fun r => r <| rs_nr_rd_atomic ::= fun n => n - 1 |>) ;;
            pop_ack
        | PIB_ACK_NORMAL => generate_Normal_or_Atomic_acknowledge ack ;; pop_ack
        | PIB_ACK_RMDA_READ =>
            if PIB_MAX_CONTIG_READ_ACKS <? rs_nr_contig_read_acks (qp_responder q) then ret 0
            else
              generate_RDMA_READ_response ack ;;
              let! r := the_rsp in
              let! a := of_option (head (rs_acks r)) in
              if ack_offset a <? ack_size a then ret 1
              else
                upd_rsp (fun r => r <| rs_nr_rd_atomic ::= fun n => n - 1 |>) ;;
                pop_ack
        end
    end.

End RcRsp.
