(* ===== verification/RcResp.v ===== *)
(** * RC transport: the requester's receive side (driver/pib_rc.c, last part)

    Acknowledges, negative acknowledges, RDMA READ responses and Atomic responses
    as they complete, fail or restart the requests of the send queue; congestion
    notifications; the entry point for a packet that arrives at an RC queue pair. *)

From S2P Require Import Prelude Verbs Lib ObjNum Cq Srq Mr State Sched Qp Packet Rc RcRsp.

Section RcResp.
Context {PP : Params}.

(** ** Matching a PSN to a request *)

Definition covers (psn : Z) (w : pib_send_wqe) : bool :=
  (0 <=? get_psn_diff psn (p_based_psn (w_processing w))) && (get_psn_diff psn (p_expected_psn (w_processing w)) <? 0).

(** The first entry of [ids] that [psn] belongs to. *)
Fixpoint find_swqe (psn : Z) (ids : list Z) : M st (option Z) :=
  match ids with
  | [] => ret None
  | id :: ids' =>
      let! w := get_swqe id in
      if covers psn w then ret (Some id) else find_swqe psn ids'
  end.

(** The entry [psn] belongs to, whether it is the first entry, and whether it is
    on the waiting list ([nr_swqe_p] points to that list's counter). *)
Definition match_send_wqe (psn : Z) : M st (option (Z * bool * bool)) :=
  let! r := the_req in
  let first id := match rq_waiting r ++ rq_sending r with k :: _ => k =? id | [] => false end in
  let! o := find_swqe psn (rq_waiting r) in
  match o with
  | Some id => ret (Some (id, first id, true))
  | None =>
      let! o := find_swqe psn (rq_sending r) in
      match o with
      | Some id => ret (Some (id, first id, false))
      | None => ret None
      end
  end.

Definition set_send_wqe_to_error (psn : Z) (status : ib_wc_status) : M st unit :=
  let! o := match_send_wqe psn in
  match o with
  | Some (id, _, _) => upd_proc id (fun p => p <| p_status := status |>)
  | None => ret tt
  end.

Definition postpone_local_ack_timeout : M st unit :=
  let! q := the_qp in
  let! now := gets st_now in
  let local_ack_timeout := u64 (now + qp_local_ack_timeout q) in
  for_each (fun id => upd_proc id (fun p => p <| p_retry_cnt := a_retry_cnt (qp_attr q) |>
                                              <| p_local_ack_time := local_ack_timeout |>))
    (rq_waiting (qp_requester q)).

(** ** Acknowledges *)

Inductive ack_ret := RET_ERROR | RET_COMPLETE | RET_CONTINUE | RET_STOP.

(** The success completion of a request, when it asks for one. *)
Definition complete_swqe (w : pib_send_wqe) (wc_opcode : option Z) : M st unit :=
  let! q := the_qp in
  when (i_sq_sig_all (qp_init_attr q) || has_flag (w_send_flags w) IB_SEND_SIGNALED)
    (let! wc_opcode := of_option wc_opcode in
     qp_insert_wc_success (qp_send_cq q) (wc_init (w_wr_id w) IB_WC_SUCCESS wc_opcode (qp_num q)) false ;; ret tt).

Definition process_acknowledge (id psn : Z) : M st ack_ret :=
  let! w := get_swqe id in
  let p := w_processing w in
  if negb (bool_decide (p_status p = IB_WC_SUCCESS)) then ret RET_ERROR
  else
    let psn_diff := get_psn_diff psn (p_based_psn p) in
    if psn_diff <? 0 then ret RET_STOP
    else if psn_diff + 1 <=? p_ack_packets p then ret RET_STOP
    else if pib_is_wr_opcode_rd_atomic (w_opcode w) then
      upd_proc id (fun p => p <| p_status := IB_WC_BAD_RESP_ERR |>) ;; ret RET_ERROR
    else if psn_diff + 1 <? p_all_packets p then
      upd_proc id (fun p => p <| p_ack_packets := psn_diff + 1 |>) ;; ret RET_CONTINUE
    else
      complete_swqe w (pib_convert_wr_opcode_to_wc_opcode (w_opcode w)) ;;
      upd_req (fun r => r <| rq_psn := Z.land (p_expected_psn p) PIB_PSN_MASK |>) ;;
      ret RET_COMPLETE.

(** list_del_init and the counter of the list *)
Definition unlink_swqe (waiting : bool) (id : Z) : M st unit :=
  swqe_list_del id ;;
  upd_req (fun r => if waiting then r <| rq_nr_waiting ::= fun n => n - 1 |> else r <| rq_nr_sending ::= fun n => n - 1 |>).

(** How a loop of [receive_ACK_response] ends. *)
Inductive ack_exit := AckDone | AckStop | AckError (id : Z).

Fixpoint ack_loop (waiting : bool) (psn : Z) (ids : list Z) : M st ack_exit :=
  match ids with
  | [] => ret AckDone
  | id :: ids' =>
      let! r := process_acknowledge id psn in
      match r with
      | RET_ERROR => unlink_swqe waiting id ;; ret (AckError id)
      | RET_COMPLETE => unlink_swqe waiting id ;; pib_util_free_send_wqe id ;; ack_loop waiting psn ids'
      | RET_CONTINUE | RET_STOP => ret AckStop
      end
  end.

(** The label completion_error. *)
Definition ack_error (id : Z) : M st Z :=
  let! q := the_qp in
  let! w := get_swqe id in
  qp_insert_wc_error (qp_send_cq q) (w_wr_id w) (p_status (w_processing w)) (w_opcode w) ;;
  pib_util_free_send_wqe id ;;
  qp_to_error ;;
  ret (-1).

Definition receive_ACK_response (psn : Z) : M st Z :=
  let finish := postpone_local_ack_timeout ;; ret (-1) in
  let! r := the_req in
  let! e := ack_loop true psn (rq_waiting r) in
  match e with
  | AckError id => ack_error id
  | AckStop => finish
  | AckDone =>
      let! r := the_req in
      let! e := ack_loop false psn (rq_sending r) in
      match e with
      | AckError id => ack_error id
      | AckStop | AckDone => finish
      end
  end.

(** ** Congestion notifications *)

Definition process_cnp_notify_request (id : Z) : M st unit :=
  let! r := the_rsp in
  let! h := start_packet 60 (rs_psn r) in
  put_hdrs {| h_lrh := pib_packet_lrh_set_pktlen (h_lrh h) ((hdrs_size h + 4) / 4); h_grh := h_grh h;
              h_bth := (h_bth h) <| bth_OpCode := PIB_OPCODE_CNP_SEND_NOTIFY |> |} ;;
  ready_to_send id.

Definition receive_cnp_notify : M st unit := upd_rsp (fun r => r <| rs_nr_contig_read_acks := 0 |>).

(** ** RDMA READ and Atomic responses *)

(** The end of a request the response completes. *)
Definition finish_rd_atomic (id : Z) (waiting : bool) (wc_opcode : option Z) : M st Z :=
  let! w := get_swqe id in
  complete_swqe w wc_opcode ;;
  upd_req (fun r => r <| rq_nr_rd_atomic ::= fun n => n - 1 |>) ;;
  let! r := the_req in
  BUG_ON (rq_nr_rd_atomic r <? 0) ;;
  upd_req (fun r => r <| rq_psn := Z.land (p_expected_psn (w_processing w)) PIB_PSN_MASK |>) ;;
  unlink_swqe waiting id ;;
  pib_util_free_send_wqe id ;;
  postpone_local_ack_timeout ;;
  ret 0.

Definition set_status (id : Z) (status : ib_wc_status) : M st Z :=
  upd_proc id (fun p => p <| p_status := status |>) ;; ret 0.

Definition receive_RDMA_READ_response (psn : Z) (buffer : list Z) : M st Z :=
  let! o := match_send_wqe psn in
  match o with
  | None => ret 0
  | Some (id, first, waiting) =>
      let! w := get_swqe id in
      let p := w_processing w in
      if negb (w_opcode w =? IB_WR_RDMA_READ) then set_status id IB_WC_BAD_RESP_ERR
      else if negb first || negb (get_psn_diff (u32 (p_based_psn p + p_sent_packets p)) psn =? 0) then ret 0
      else if negb (get_psn_diff (u32 (p_based_psn p + p_ack_packets p)) psn =? 0) then ret 0
      else
        let! q := the_qp in
        let offset := u32 (Z.shiftl (u32 (p_ack_packets p * 128)) (a_path_mtu (qp_attr q))) in
        let left := u32 (w_total_length w - offset) in
        let size := if left <? Zlen buffer then left else Zlen buffer in
        let! status := copy_to_sgl (w_sge_array w) buffer offset size in
        if negb (bool_decide (status = IB_WC_SUCCESS)) then set_status id status
        else
          let! now := gets st_now in
          upd_proc id (fun p => p <| p_local_ack_time := u64 (now + qp_local_ack_timeout q) |>
                                  <| p_sent_packets ::= fun n => u32 (n + 1) |> <| p_ack_packets ::= fun n => u32 (n + 1) |>) ;;
          upd_req (fun r => r <| rq_nr_contig_read_acks ::= Z.add 1 |>) ;;
          let! r := the_req in
          when (PIB_MAX_CONTIG_READ_ACKS / 3 <? rq_nr_contig_read_acks r)
            (process_cnp_notify_request id ;; upd_req (fun r => r <| rq_nr_contig_read_acks := 0 |>)) ;;
          let! w := get_swqe id in
          if p_sent_packets (w_processing w) <? p_all_packets (w_processing w) then ret 0
          else finish_rd_atomic id waiting (Some IB_WC_RDMA_READ)
  end.

Definition receive_Atomic_response (psn : Z) (buffer : list Z) : M st Z :=
  if negb (Zlen buffer =? ATOMICACKETH_SIZE) then ret 0
  else
    let res := be_at 0 8 buffer in
    let! o := match_send_wqe psn in
    match o with
    | None => ret 0
    | Some (id, first, waiting) =>
        let! w := get_swqe id in
        if negb (w_opcode w =? IB_WR_ATOMIC_CMP_AND_SWP) && negb (w_opcode w =? IB_WR_ATOMIC_FETCH_AND_ADD) then
          set_status id IB_WC_BAD_RESP_ERR
        else if negb first || negb (get_psn_diff (p_based_psn (w_processing w)) psn =? 0) then ret 0
        else
          let! status := copy_to_sgl (w_sge_array w) (le_split 8 res) 0 8 in
          if negb (bool_decide (status = IB_WC_SUCCESS)) then set_status id status
          else finish_rd_atomic id waiting (pib_convert_wr_opcode_to_wc_opcode (w_opcode w))
    end.

(** ** Retransmission *)

(** The label retry_send: the waiting requests go back to the front of the sending
    list and what was sent but not acknowledged is sent again. *)
Definition retry_send (rnr_nak_timeout : Z) : M st Z :=
  let! r := the_req in
  for_each (fun id =>
      upd_proc id (fun p => p <| p_list_type := PIB_SWQE_SENDING |>) ;;
      swqe_list_del id ;;
      upd_req (fun r => r <| rq_sending ::= cons id |> <| rq_nr_waiting ::= fun n => n - 1 |> <| rq_nr_sending ::= Z.add 1 |>))
    (rev (rq_waiting r)) ;;
  let! r := the_req in
  for_each (fun id => upd_proc id (fun p => p <| p_sent_packets := p_ack_packets p |>)) (rq_sending r) ;;
  match rq_sending r with
  | [] => ret (-1)
  | id :: _ =>
      if rnr_nak_timeout =? 0 then ret (-1)
      else
        let! w := get_swqe id in
        let! q := the_qp in
        when ((w_opcode w =? IB_WR_SEND) || (w_opcode w =? IB_WR_SEND_WITH_IMM) || (w_opcode w =? IB_WR_RDMA_WRITE_WITH_IMM))
          (upd_proc id (fun p => p <| p_schedule_time := rnr_nak_timeout |>) ;;
           when (a_rnr_retry (qp_attr q) <? 7) (upd_proc id (fun p => p <| p_rnr_retry ::= fun n => n - 1 |>))) ;;
        ret (-1)
  end.

(** ** Receiving a response packet *)

(** The label switch_OpCode. *)
Definition dispatch_response (OpCode psn : Z) (buffer : list Z) : M st Z :=
  let! result :=
    (if OpCode =? IB_OPCODE_ACKNOWLEDGE then receive_ACK_response psn
     else if bool_decide (OpCode ∈ [IB_OPCODE_RDMA_READ_RESPONSE_FIRST; IB_OPCODE_RDMA_READ_RESPONSE_LAST;
                                    IB_OPCODE_RDMA_READ_RESPONSE_ONLY; IB_OPCODE_RDMA_READ_RESPONSE_MIDDLE]) then
       receive_RDMA_READ_response psn buffer
     else if OpCode =? IB_OPCODE_ATOMIC_ACKNOWLEDGE then receive_Atomic_response psn buffer
     else bug) in
  let! q := the_qp in
  let r := qp_requester q in
  when (bool_decide (qp_state q = IB_QPS_SQD) && negb (qp_issue_sq_drained q)
        && bool_decide (rq_sending r = []) && bool_decide (rq_waiting r = []))
    (when (a_en_sqd_async_notify (qp_attr q)) (pib_util_insert_async_qp_event IB_EVENT_SQ_DRAINED) ;;
     upd_qp (fun q => q <| qp_issue_sq_drained := true |>)) ;;
  ret result.

(** The errors a negative acknowledge reports, by syndrome. *)
Definition nak_status (syndrome : Z) : option ib_wc_status :=
  if syndrome =? PIB_SYND_NAK_CODE_INV_REQ_ERR then Some IB_WC_REM_INV_REQ_ERR
  else if syndrome =? PIB_SYND_NAK_CODE_REM_ACCESS_ERR then Some IB_WC_REM_ACCESS_ERR
  else if syndrome =? PIB_SYND_NAK_CODE_REM_OP_ERR then Some IB_WC_REM_OP_ERR
  else if syndrome =? PIB_SYND_NAK_CODE_INV_RD_REQ_ERR then Some IB_WC_REM_INV_RD_REQ_ERR
  else None.

Definition receive_response (bth : pib_packet_bth) (buffer : list Z) : M st Z :=
  if Zlen buffer <? AETH_SIZE then ret 0
  else
    upd_req (fun r => r <| rq_nr_contig_requests := 0 |>) ;;
    let OpCode := bth_OpCode bth in
    let psn := Z.land (bth_psn bth) PIB_PSN_MASK in
    let syndrome := Z.shiftr (be_at 0 4 buffer) 24 in
    let buffer := drop 4 buffer in
    let code := Z.land syndrome PIB_SYND_CODE_MASK in
    if OpCode =? IB_OPCODE_RDMA_READ_RESPONSE_MIDDLE then dispatch_response OpCode psn buffer
    else if code =? PIB_SYND_ACK_CODE then dispatch_response OpCode psn buffer
    else if code =? PIB_SYND_RNR_NAK_CODE then
      let! t := of_option (pib_get_rnr_nak_time HZ (Z.land syndrome 0x1F)) in retry_send t
    else if code =? PIB_SYND_NAK_CODE then
      if syndrome =? PIB_SYND_NAK_CODE_PSN_SEQ_ERR then retry_send 0
      else
        match nak_status syndrome with
        | Some status => set_send_wqe_to_error psn status ;; dispatch_response OpCode psn buffer
        | None => dispatch_response OpCode psn buffer
        end
    else ret (-1).

Definition pib_receive_rc_qp_incoming_message (port_num : Z) (lrh : pib_packet_lrh) (bth : pib_packet_bth)
    (buffer : list Z) : M st unit :=
  let! q := the_qp in
  if negb (pib_is_recv_ok (qp_state q)) then ret tt
  else if negb (a_port_num (qp_attr q) =? port_num) then ret tt
  else if bth_OpCode bth =? PIB_OPCODE_CNP_SEND_NOTIFY then receive_cnp_notify
  else
    let! ack := of_option (pib_opcode_is_acknowledge (bth_OpCode bth)) in
    if ack then receive_response bth buffer ;; ret tt else receive_request lrh bth buffer.

End RcResp.
