(* ===== verification/RcInv.v ===== *)
(** * RC transport: frames and invariants of the handlers

    What the helpers shared by the RC handlers leave alone ([fixed]), which side
    conditions they preserve ([side]), and that they keep the queue-pair
    invariant.  The theorems about receiving packets build on these lemmas. *)

From S2P Require Import Prelude Verbs Lib ObjNum Cq Srq Mr MrSafe State Sched Qp QpInv QpThm Packet Rc RcRsp RcResp.

(** What only the receivers of request data change. *)
Definition fixed (s : st) :=
  let q := st_qp s in
  let r := qp_responder q in
  (st_pd s, st_mem s, st_ports s, st_now s,
   (qp_num q, qp_type q, qp_attr q, qp_init_attr q, qp_send_cq q, qp_recv_cq q),
   (rs_psn r, rs_last_OpCode r, rs_offset r, rs_wr_vaddr r, rs_wr_rkey r, rs_wr_dmalen r, rs_slot_index r, rs_slots r)).

(** ** Side conditions *)

Definition recv_ok (w : pib_recv_wqe) : Prop := Forall sge_range_ok (rwqe_sge_array w).
Definition rd_atomic_acks (l : list pib_ack) : Z := Zlen (List.filter is_rd_atomic_ack l).

(** The posted receives are within the integer types, the counter of RDMA READ and
    Atomic responses is exact, the saved responses fill their array and the
    offset in the message is a 32-bit value. *)
Definition side (s : st) : Prop :=
  let r := qp_responder (st_qp s) in
  map_Forall (fun _ srq => Forall recv_ok (srq_recv_wqe_head srq)) (st_srqs s)
  /\ Forall recv_ok (rs_recv_wqes r)
  /\ rs_nr_rd_atomic r = rd_atomic_acks (rs_acks r)
  /\ length (rs_slots r) = Z.to_nat PIB_MAX_RD_ATOM
  /\ 0 <= rs_offset r < 2 ^ 32.

Definition pres {S} (P : S -> Prop) : relation S := fun s s' => P s -> P s'.
#[export] Instance pres_preorder {S} (P : S -> Prop) : PreOrder (pres P).
Proof. split; [intros x H; exact H|]. intros x y z H1 H2 H. by apply H2, H1. Qed.

(** Lists of responses. *)
Lemma rd_atomic_acks_app l k : rd_atomic_acks (l ++ k) = rd_atomic_acks l + rd_atomic_acks k.
Proof. unfold rd_atomic_acks. rewrite List.filter_app. apply Zlen_app. Qed.

Lemma update_last_snoc {A} (f : A -> A) l x : update_last f (l ++ [x]) = l ++ [f x].
Proof. unfold update_last. by rewrite last_snoc, removelast_last. Qed.

Lemma rd_atomic_update_last f l : (forall a, ack_type (f a) = ack_type a) ->
  rd_atomic_acks (update_last f l) = rd_atomic_acks l.
Proof.
  intros Hf. destruct l as [|x l _] using rev_ind; [done|]. rewrite update_last_snoc, !rd_atomic_acks_app. f_equal.
  unfold rd_atomic_acks. simpl. unfold is_rd_atomic_ack. rewrite Hf. by destruct (ack_type x).
Qed.

Lemma rd_atomic_filter p l :
  rd_atomic_acks (List.filter (fun a => negb (p a)) l) = rd_atomic_acks l - rd_atomic_acks (List.filter p l).
Proof.
  unfold rd_atomic_acks. induction l as [|a l IH]; [done|]. simpl.
  destruct (p a), (is_rd_atomic_ack a) eqn:E; simpl; rewrite ?E, ?Zlen_cons; lia.
Qed.

Section RcInv.
Context {PP : Params}.

(** ** Frames *)

Ltac unfold_prims := unfold send_buffer, put_buffer, the_port, upd_thread, with_cq, emit, get_swqe, the_qp, the_req, the_rsp, upd_proc, upd_swqe,
  swqe_list_del, pib_util_free_send_wqe, upd_rsp, upd_req, upd_qp, kmem_cache_zalloc in *.
Ltac frame := unfold_prims; obey.

Lemma fixed_insert_wc_error c w st op : keeps fixed (qp_insert_wc_error c w st op).
Proof. unfold qp_insert_wc_error. frame. Qed.
Lemma fixed_insert_wc_success c wc b : keeps fixed (qp_insert_wc_success c wc b).
Proof. unfold qp_insert_wc_success. frame. Qed.
Lemma fixed_async ev : keeps fixed (pib_util_insert_async_qp_error ev).
Proof. unfold pib_util_insert_async_qp_error. frame. Qed.
Lemma fixed_free_recv : keeps fixed pib_util_free_recv_wqe.
Proof. unfold pib_util_free_recv_wqe. frame. Qed.
Lemma fixed_reschedule : keeps fixed pib_util_reschedule_qp.
Proof. unfold pib_util_reschedule_qp, sched_take_off, sched_put. frame. Qed.
#[local] Hint Resolve fixed_insert_wc_error fixed_insert_wc_success fixed_async fixed_free_recv fixed_reschedule : obeys.

Lemma fixed_flush b : keeps fixed (pib_util_flush_qp b).
Proof.
  unfold pib_util_flush_qp, flush_sends, flush_send_wqe, flush_recv_wqe, reset_contig, pib_util_insert_async_qp_event. frame.
Qed.
#[local] Hint Resolve fixed_flush : obeys.

Lemma fixed_consume : keeps fixed consume_recv_wqe.
Proof. unfold consume_recv_wqe. frame. Qed.
#[local] Hint Resolve fixed_consume : obeys.
Lemma fixed_abort : keeps fixed abort_active_rwqe.
Proof. unfold abort_active_rwqe. frame. Qed.
Lemma fixed_to_error : keeps fixed qp_to_error.
Proof. unfold qp_to_error. frame. Qed.
#[local] Hint Resolve fixed_abort fixed_to_error : obeys.
Lemma fixed_async_error ev : keeps fixed (insert_async_qp_error ev).
Proof. unfold insert_async_qp_error. frame. Qed.
Lemma fixed_push_ack psn syn : keeps fixed (push_acknowledge psn syn).
Proof. unfold push_acknowledge. frame. Qed.
Lemma fixed_push_read psn e v k z : keeps fixed (push_rdma_read_acknowledge psn e v k z).
Proof. unfold push_rdma_read_acknowledge. frame. Qed.
Lemma fixed_push_atomic psn v : keeps fixed (push_atomic_acknowledge psn v).
Proof. unfold push_atomic_acknowledge. frame. Qed.
Lemma fixed_remove psn e : keeps fixed (remove_overlapped_rdma_read_acknowledge psn e).
Proof. unfold remove_overlapped_rdma_read_acknowledge. frame. Qed.
#[local] Hint Resolve fixed_async_error fixed_push_ack fixed_push_read fixed_push_atomic fixed_remove : obeys.
Lemma fixed_nak psn syn ev : keeps fixed (nak_and_error psn syn ev).
Proof. unfold nak_and_error. frame. Qed.
Lemma fixed_rnr psn : keeps fixed (resources_not_ready psn).
Proof. unfold resources_not_ready. frame. Qed.
Lemma fixed_take_srq : keeps fixed take_srq.
Proof. unfold take_srq. frame. Qed.
Lemma fixed_comm_est : keeps fixed issue_comm_est.
Proof. unfold issue_comm_est, pib_util_insert_async_qp_event. frame. Qed.
#[local] Hint Resolve fixed_nak fixed_rnr fixed_take_srq fixed_comm_est : obeys.
Lemma fixed_queue_read psn e reth n : keeps fixed (queue_rdma_read psn e reth n).
Proof. unfold queue_rdma_read, too_many_rdma_read. frame. Qed.
#[local] Hint Resolve fixed_queue_read : obeys.

(** ** Side conditions kept *)

Ltac side_leaf :=
  apply obeys_modify; intros ?; unfold pres, side; simpl;
  let H1 := fresh in let H2 := fresh in let H3 := fresh in let H4 := fresh in let H5 := fresh in
  intros (H1 & H2 & H3 & H4 & H5); refine (conj _ (conj _ (conj _ (conj _ _)))); try done.
Ltac sides := unfold_prims; obey; try side_leaf.

Lemma side_insert_wc_error c w st op : obeys (pres side) (qp_insert_wc_error c w st op).
Proof. unfold qp_insert_wc_error. sides. Qed.
Lemma side_insert_wc_success c wc b : obeys (pres side) (qp_insert_wc_success c wc b).
Proof. unfold qp_insert_wc_success. sides. Qed.
Lemma side_async ev : obeys (pres side) (pib_util_insert_async_qp_error ev).
Proof. unfold pib_util_insert_async_qp_error. sides. Qed.
Lemma side_reschedule : obeys (pres side) pib_util_reschedule_qp.
Proof. unfold pib_util_reschedule_qp, sched_take_off, sched_put. sides. Qed.
Lemma side_free_recv : obeys (pres side) pib_util_free_recv_wqe.
Proof.
  unfold pib_util_free_recv_wqe. unfold_prims. intros s [] s'. unfold bind at 1. simpl.
  destruct (i_srq (qp_init_attr (st_qp s))) as [n|].
  - unfold bind. simpl. destruct (st_srqs s !! n) as [srq|] eqn:E; [|done]. intros [= <-] (H1 & H2 & H3 & H4 & H5).
    refine (conj _ (conj _ (conj _ (conj _ _)))); try done. simpl. apply map_Forall_insert_2; [exact (H1 _ _ E)|done].
  - by intros [= <-] H.
Qed.
#[local] Hint Resolve side_insert_wc_error side_insert_wc_success side_async side_reschedule side_free_recv : obeys.

Lemma side_flush b : obeys (pres side) (pib_util_flush_qp b).
Proof.
  unfold pib_util_flush_qp, flush_sends, flush_send_wqe, flush_recv_wqe, reset_contig, pib_util_insert_async_qp_event. sides.
  simpl. by apply Forall_tail.
Qed.
Lemma side_consume : obeys (pres side) consume_recv_wqe.
Proof. unfold consume_recv_wqe. sides. by apply Forall_tail. Qed.
#[local] Hint Resolve side_flush side_consume : obeys.
Lemma side_abort : obeys (pres side) abort_active_rwqe.
Proof. unfold abort_active_rwqe. sides. Qed.
Lemma side_to_error : obeys (pres side) qp_to_error.
Proof. unfold qp_to_error. sides. Qed.
#[local] Hint Resolve side_abort side_to_error : obeys.
Lemma side_async_error ev : obeys (pres side) (insert_async_qp_error ev).
Proof. unfold insert_async_qp_error. sides. Qed.
Lemma side_push_ack psn syn : obeys (pres side) (push_acknowledge psn syn).
Proof.
  unfold push_acknowledge. sides; simpl.
  - by rewrite rd_atomic_acks_app, Z.add_0_r.
  - by rewrite rd_atomic_update_last.
Qed.
Lemma side_push_read psn e v k z : obeys (pres side) (push_rdma_read_acknowledge psn e v k z).
Proof. unfold push_rdma_read_acknowledge. sides. simpl. rewrite rd_atomic_acks_app. unfold rd_atomic_acks at 2. simpl. rewrite Zlen_cons, Zlen_nil. lia. Qed.
Lemma side_push_atomic psn v : obeys (pres side) (push_atomic_acknowledge psn v).
Proof. unfold push_atomic_acknowledge. sides. simpl. rewrite rd_atomic_acks_app. unfold rd_atomic_acks at 2. simpl. rewrite Zlen_cons, Zlen_nil. lia. Qed.
Lemma side_remove psn e : obeys (pres side) (remove_overlapped_rdma_read_acknowledge psn e).
Proof.
  unfold remove_overlapped_rdma_read_acknowledge. unfold_prims. generalize (overlapped psn e) as p.
  intros p s [] s' [= <-] (H1 & H2 & H3 & H4 & H5).
  refine (conj _ (conj _ (conj _ (conj _ _)))); try done. simpl. by rewrite rd_atomic_filter, H3.
Qed.
#[local] Hint Resolve side_async_error side_push_ack side_push_read side_push_atomic side_remove : obeys.
Lemma side_nak psn syn ev : obeys (pres side) (nak_and_error psn syn ev).
Proof. unfold nak_and_error. sides. Qed.
Lemma side_rnr psn : obeys (pres side) (resources_not_ready psn).
Proof. unfold resources_not_ready. sides. Qed.
Lemma side_comm_est : obeys (pres side) issue_comm_est.
Proof. unfold issue_comm_est, pib_util_insert_async_qp_event. sides. Qed.
#[local] Hint Resolve side_nak side_rnr side_comm_est : obeys.
Lemma side_queue_read psn e reth n : obeys (pres side) (queue_rdma_read psn e reth n).
Proof. unfold queue_rdma_read, too_many_rdma_read. sides. Qed.

Lemma get_srq_recv_ok srq : Forall recv_ok (srq_recv_wqe_head srq) ->
  Forall recv_ok (srq_recv_wqe_head (snd (pib_util_get_srq srq))) /\
  (forall w, fst (fst (pib_util_get_srq srq)) = Some w -> recv_ok w).
Proof.
  intros H. unfold pib_util_get_srq. case_bool_decide; [done|].
  destruct (srq_recv_wqe_head srq) as [|w l] eqn:E; [simpl; by rewrite E|].
  apply Forall_cons in H as [Hw Hl]. destruct (_ && _); simpl; (split; [done|]); by intros ? [= <-].
Qed.

Lemma side_take_srq : obeys (pres side) take_srq.
Proof.
  unfold take_srq. unfold_prims. intros s [] s'. unfold bind at 1. simpl.
  destruct (i_srq (qp_init_attr (st_qp s))) as [n|]; [|by intros [= <-]].
  unfold bind. simpl. destruct (st_srqs s !! n) as [srq|] eqn:E; [|done]. simpl.
  destruct (pib_util_get_srq srq) as [[w ev] srq'] eqn:Eg. simpl. intros H (H1 & H2 & H3 & H4 & H5).
  destruct (get_srq_recv_ok srq (H1 _ _ E)) as [Hs Hw]. rewrite Eg in Hs, Hw. simpl in Hs, Hw.
  assert (map_Forall (fun _ srq => Forall recv_ok (srq_recv_wqe_head srq)) (<[n := srq']> (st_srqs s)))
    by (by apply map_Forall_insert_2).
  destruct w as [w|]; injection H as <-; refine (conj _ (conj _ (conj _ (conj _ _)))); try done. simpl. apply Forall_app. split; [done|]. by constructor; [apply Hw|].
Qed.

(** ** The queue-pair invariant *)

Lemma wp_frame {A} (m : M st A) (Q : A -> st -> Prop) s :
  keeps fixed m -> obeys (pres side) m -> wp m (fun a s' => fixed s' = fixed s -> pres side s s' -> Q a s') s -> wp m Q s.
Proof. unfold wp. intros H1 H2. specialize (H1 s). specialize (H2 s). destruct (m s) as [[a s']|]; [|done]. intros H. apply H; [by apply (H1 a)|by apply (H2 a)]. Qed.

Lemma wf_rsp ids f s : qp_wf ids s ->
  rs_nr_recv_wqe (f (qp_responder (st_qp s))) = Zlen (rs_recv_wqes (f (qp_responder (st_qp s)))) ->
  qp_wf ids (s <| st_qp ::= fun q => q <| qp_responder ::= f |> |>).
Proof. intros [H1 H2 H3 H4] H. split; [by apply qp_env_upd|done..]. Qed.

Lemma wf_cq_frame ids c cq s s' :
  qp_wf ids s -> cq_frame s s' -> cq_inv cq -> st_cqs s' = <[c := cq]> (st_cqs s) -> qp_wf ids s'.
Proof.
  intros Hwf Hf Hi Hc. pose proof Hf as (F1 & _). eapply qp_wf_env_only; [exact Hwf| |by rewrite F1..].
  eapply qp_env_cq; [apply Hwf|exact Hf|exact Hi|exact Hc].
Qed.

Lemma wf_cq_lookup ids s c : qp_wf ids s -> c = qp_send_cq (st_qp s) \/ c = qp_recv_cq (st_qp s) ->
  exists cq, st_cqs s !! c = Some cq /\ cq_inv cq.
Proof.
  intros [(Hc & [c1 H1] & [c2 H2] & _) _ _ _] [-> | ->].
  - exists c1. split; [done|exact (Hc _ _ H1)].
  - exists c2. split; [done|exact (Hc _ _ H2)].
Qed.

Lemma wp_wc_error ids c w status op s (Q : unit -> st -> Prop) :
  qp_wf ids s -> c = qp_send_cq (st_qp s) \/ c = qp_recv_cq (st_qp s) ->
  (forall s', qp_wf ids s' -> cq_frame s s' -> Q tt s') -> wp (qp_insert_wc_error c w status op) Q s.
Proof.
  intros Hwf Hc HQ. destruct (wf_cq_lookup ids s c Hwf Hc) as (cq & Hl & Hi). eapply wp_insert_wc_error; [done..|].
  intros s' cq' Hf Hcqs Hi' _. apply HQ; [by eapply wf_cq_frame|done].
Qed.

Lemma wp_wc_success ids c wc b s (Q : Z -> st -> Prop) :
  qp_wf ids s -> c = qp_send_cq (st_qp s) \/ c = qp_recv_cq (st_qp s) ->
  (forall n s' cq, qp_wf ids s' -> cq_frame s s' -> st_cqs s !! c = Some cq ->
     st_cqs s' = <[c := snd (insert_wc (smi_port_of (st_qp s)) wc b cq)]> (st_cqs s) -> Q n s') ->
  wp (qp_insert_wc_success c wc b) Q s.
Proof.
  intros Hwf Hc HQ. destruct (wf_cq_lookup ids s c Hwf Hc) as (cq & Hl & Hi). unfold qp_insert_wc_success, the_qp.
  do 2 wp_step. eapply wp_with_cq; [done|]. intros s' Hf Hcqs _. unfold pib_util_insert_wc_success in *.
  eapply HQ; [|done|done|done]. eapply wf_cq_frame; [done|done| |exact Hcqs]. by apply insert_wc_inv.
Qed.

Lemma wp_consume ids w l s (Q : unit -> st -> Prop) :
  qp_wf ids s -> rs_recv_wqes (qp_responder (st_qp s)) = w :: l ->
  (forall s', qp_wf ids s' -> rs_recv_wqes (qp_responder (st_qp s')) = l -> qp_requester (st_qp s') = qp_requester (st_qp s) ->
     st_cqs s' = st_cqs s -> Q tt s') ->
  wp consume_recv_wqe Q s.
Proof.
  intros Hwf Hl HQ. unfold consume_recv_wqe, upd_rsp, upd_qp. wp_run.
  pose proof (wf_recv _ _ Hwf) as Hn.
  set (s1 := s <| st_qp ::= _ |>). set (s2 := s1 <| st_qp ::= _ |>).
  assert (qp_wf ids s1) as Hwf1 by (by apply (qp_wf_state ids s (fun q => q <| qp_push_rcqe := true |>))).
  assert (qp_wf ids s2) as Hwf2.
  { apply (wf_rsp ids (fun r => r <| rs_recv_wqes ::= tail |> <| rs_nr_recv_wqe ::= fun n => n - 1 |>)); [done|].
    simpl. rewrite Hn, Hl. simpl. rewrite Zlen_cons. lia. }
  apply wp_free_recv_wqe; [apply Hwf2|]. intros s' ([rs Hq] & _) He Hc Hr Hn'.
  apply HQ.
  - split; [done| | |].
    + rewrite Hq. apply Hwf2.
    + rewrite Hq. apply Hwf2.
    + rewrite Hn', Hr. apply Hwf2.
  - rewrite Hr. unfold s2, s1. simpl. by rewrite Hl.
  - by rewrite Hq.
  - by rewrite Hc.
Qed.

Lemma wp_abort ids s (Q : unit -> st -> Prop) :
  qp_wf ids s -> (forall s', qp_wf ids s' -> Q tt s') -> wp abort_active_rwqe Q s.
Proof.
  intros Hwf HQ. unfold abort_active_rwqe, the_qp. do 2 wp_step.
  destruct (rs_recv_wqes (qp_responder (st_qp s))) as [|w l] eqn:E; [by apply HQ|].
  wp_step; [by apply HQ|]. wp_step. apply (wp_wc_error ids); [done|by right|]. intros s1 Hwf1 Hf1.
  apply (wp_consume ids w l); [done| |]; [destruct Hf1 as [-> _]; done|]. intros s' Hwf' _ _ _. by apply HQ.
Qed.

(** What the error exits leave. *)
Definition failed (ids : list Z) (s s' : st) : Prop :=
  qp_wf ids s' /\ qp_state (st_qp s') = IB_QPS_ERR /\ rs_acks (qp_responder (st_qp s')) = []
  /\ outstanding (qp_requester (st_qp s')) = [] /\ rq_nr_rd_atomic (qp_requester (st_qp s')) = 0
  /\ fixed s' = fixed s /\ pres side s s'.

Lemma wp_to_error ids s (Q : unit -> st -> Prop) :
  qp_wf ids s -> (forall s', failed ids s s' -> Q tt s') -> wp qp_to_error Q s.
Proof.
  intros Hwf HQ. apply wp_frame; [exact fixed_to_error|exact side_to_error|].
  unfold qp_to_error, upd_qp. wp_run. apply (wp_flush_qp ids); [by apply (qp_wf_state ids s)|].
  intros s' (R1 & R2 & R3 & _ & R5 & _ & R7 & _) Hfix Hside. apply HQ. destruct R5 as [_ R5]; [done|]. by split_and?.
Qed.

Lemma wf_events ids s f : qp_wf ids s -> qp_wf ids (s <| st_events ::= f |>).
Proof. intros [H1 H2 H3 H4]. by split. Qed.

Lemma wp_async_error ids ev s (Q : unit -> st -> Prop) :
  qp_wf ids s -> (forall s', failed ids s s' -> Q tt s') -> wp (insert_async_qp_error ev) Q s.
Proof.
  intros Hwf HQ. apply wp_frame; [exact (fixed_async_error ev)|exact (side_async_error ev)|].
  assert (forall s1, qp_wf ids s1 -> wp (abort_active_rwqe ;; qp_to_error)
    (fun a s' => fixed s' = fixed s -> pres side s s' -> Q a s') s1) as H.
  { intros s1 Hwf1. wp_step. apply (wp_abort ids); [done|]. intros s2 Hwf2. apply (wp_to_error ids); [done|].
    intros s' (R1 & R2 & R3 & R4 & R5 & _) Hfix Hside. apply HQ. by split_and?. }
  unfold insert_async_qp_error, pib_util_insert_async_qp_error, the_qp, emit.
  wp_step. wp_step. wp_step. wp_step; [wp_step; apply H; by apply wf_events|by apply H].
Qed.

Lemma wp_push_ack ids psn syn s (Q : unit -> st -> Prop) :
  qp_wf ids s ->
  (forall s', qp_wf ids s' -> qp_requester (st_qp s') = qp_requester (st_qp s) ->
     rs_recv_wqes (qp_responder (st_qp s')) = rs_recv_wqes (qp_responder (st_qp s)) ->
     st_cqs s' = st_cqs s -> fixed s' = fixed s -> pres side s s' -> Q tt s') ->
  wp (push_acknowledge psn syn) Q s.
Proof.
  intros Hwf HQ. apply wp_frame; [exact (fixed_push_ack psn syn)|exact (side_push_ack psn syn)|].
  pose proof (wf_recv _ _ Hwf) as Hn. unfold push_acknowledge, the_rsp, upd_rsp, upd_qp, kmem_cache_zalloc.
  wp_run; intros Hfix Hside; (apply HQ; [|done..|exact Hfix|exact Hside]); repeat (apply wf_rsp; [|exact Hn]);
    try exact Hwf; destruct Hwf as [W1 W2 W3 W4]; by split.
Qed.

Lemma wp_nak ids psn syn ev s (Q : Z -> st -> Prop) :
  qp_wf ids s -> (forall s', failed ids s s' -> Q (-1) s') -> wp (nak_and_error psn syn ev) Q s.
Proof.
  intros Hwf HQ. unfold nak_and_error. wp_step. apply (wp_push_ack ids); [done|]. intros s1 Hwf1 _ _ _ Hf1 Hs1.
  wp_step. apply (wp_async_error ids); [done|]. intros s' (R1 & R2 & R3 & R4 & R5 & R6 & R7). wp_step. apply HQ.
  unfold failed. rewrite R6, Hf1. split_and?; try done. by transitivity s1.
Qed.

(** ** Reading the frame *)

Lemma fixed_inv s s' : fixed s' = fixed s ->
  st_pd s' = st_pd s /\ st_mem s' = st_mem s /\ qp_attr (st_qp s') = qp_attr (st_qp s)
  /\ rs_psn (qp_responder (st_qp s')) = rs_psn (qp_responder (st_qp s))
  /\ rs_last_OpCode (qp_responder (st_qp s')) = rs_last_OpCode (qp_responder (st_qp s))
  /\ rs_slot_index (qp_responder (st_qp s')) = rs_slot_index (qp_responder (st_qp s))
  /\ qp_recv_cq (st_qp s') = qp_recv_cq (st_qp s) /\ qp_send_cq (st_qp s') = qp_send_cq (st_qp s).
Proof. intros H. unfold fixed in H. injection H as. split_and!; congruence. Qed.

(** ** More steps *)

Lemma wf_mem ids m s : qp_wf ids s -> qp_wf ids (s <| st_mem := m |>).
Proof. intros [H1 H2 H3 H4]. by split. Qed.
Lemma wf_pd ids p s : qp_wf ids s -> qp_wf ids (s <| st_pd := p |>).
Proof. intros [H1 H2 H3 H4]. by split. Qed.

Lemma wp_take_srq ids s (Q : unit -> st -> Prop) :
  qp_wf ids s ->
  (forall s', qp_wf ids s' -> qp_requester (st_qp s') = qp_requester (st_qp s) -> st_cqs s' = st_cqs s ->
     fixed s' = fixed s -> pres side s s' -> Q tt s') ->
  wp take_srq Q s.
Proof.
  intros Hwf HQ. apply wp_frame; [exact fixed_take_srq|exact side_take_srq|].
  pose proof Hwf as [(E1 & E2 & E3 & E4 & E5 & E6) W2 W3 W4]. unfold take_srq, the_qp, emit, upd_rsp, upd_qp. do 2 wp_step.
  destruct (i_srq (qp_init_attr (st_qp s))) as [n|] eqn:En; [|wp_step; intros Hfix Hside; by apply HQ]. wp_step. wp_step.
  destruct E4 as [srq Hs]. rewrite Hs. wp_step. wp_step. destruct (pib_util_get_srq srq) as [[w ev] srq'].
  wp_step. wp_step. set (s1 := s <| st_srqs ::= _ |>).
  assert (qp_wf ids s1) as Hwf1.
  { split; [|done..]. unfold qp_env. simpl. rewrite En, lookup_insert_eq. split_and?; try done; apply E5 || lia. }
  wp_step. wp_step. set (s2 := s1 <| st_events ::= _ |>). assert (qp_wf ids s2) as Hwf2 by (by apply wf_events).
  destruct w as [w|].
  - wp_step. intros Hfix Hside. apply HQ; try done. apply wf_rsp; [done|]. simpl. rewrite W4. zlen.
  - wp_step. intros Hfix Hside. by apply HQ.
Qed.

Lemma wp_rnr ids psn s (Q : Z -> st -> Prop) :
  qp_wf ids s -> (forall s', qp_wf ids s' -> fixed s' = fixed s -> pres side s s' -> Q (-1) s') -> wp (resources_not_ready psn) Q s.
Proof.
  intros Hwf HQ. unfold resources_not_ready, the_qp. wp_step. wp_step. wp_step. apply (wp_push_ack ids); [done|].
  intros s' Hwf' _ _ _ Hf Hs. wp_step. by apply HQ.
Qed.

(** Scattering received data. *)
Lemma wp_copy_to_sgl sges buffer offset size s (Q : ib_wc_status -> st -> Prop) :
  pd_wf (st_pd s) -> Forall sge_range_ok sges -> 0 <= offset < 2 ^ 32 -> 0 <= size < 2 ^ 32 ->
  (forall status m, changed_in (granted (st_pd s) IB_ACCESS_LOCAL_WRITE) (st_mem s) m -> Q status (s <| st_mem := m |>)) ->
  wp (copy_to_sgl sges buffer offset size) Q s.
Proof.
  intros Hpd Hs Ho Hz HQ. unfold copy_to_sgl. do 2 wp_step.
  destruct (scatter_confined (st_pd s) IB_ACCESS_LOCAL_WRITE sges (st_mem s) buffer offset size Hpd Hs Ho Hz)
    as (status & buf & m & -> & Hm). wp_step. wp_step. wp_step. wp_step. wp_step. by apply HQ.
Qed.

Lemma wp_copy_to_rkey rkey buffer address size flags s (Q : ib_wc_status -> st -> Prop) :
  pd_wf (st_pd s) -> 0 <= address < 2 ^ 64 -> 0 <= size ->
  (forall status m, changed_in (granted (st_pd s) flags) (st_mem s) m -> Q status (s <| st_mem := m |>)) ->
  wp (copy_to_rkey rkey buffer address size flags) Q s.
Proof.
  intros Hpd Ha Hz HQ. unfold copy_to_rkey. do 2 wp_step.
  destruct (remote_write_confined (st_pd s) rkey flags (st_mem s) buffer address size Hpd Ha Hz)
    as (status & buf & m & -> & Hm). wp_step. wp_step. wp_step. wp_step. wp_step. by apply HQ.
Qed.

End RcInv.
