(* ===== verification/RcRspThm.v ===== *)
(** * RC transport: theorems about receiving requests

    Any request packet is handled without a failure of the driver, keeps the
    queue-pair invariant and changes memory only where the access rights of the
    protection domain allow it; a packet that is not the next one in sequence
    changes nothing but the queue of responses. *)

From S2P Require Import Prelude Verbs Lib ObjNum Cq Srq Mr MrSafe State Demo Sched Qp QpInv QpThm Packet Rc RcRsp RcResp RcInv.

Section RcRspThm.
Context {PP : Params}.

#[local] Hint Resolve fixed_insert_wc_error fixed_insert_wc_success fixed_async fixed_consume fixed_abort fixed_to_error
  fixed_async_error fixed_push_ack fixed_push_read fixed_push_atomic fixed_remove fixed_nak fixed_rnr fixed_take_srq
  fixed_comm_est fixed_queue_read : obeys.
#[local] Hint Resolve side_insert_wc_error side_insert_wc_success side_async side_consume side_abort side_to_error
  side_async_error side_push_ack side_push_read side_push_atomic side_remove side_nak side_rnr side_take_srq
  side_comm_est side_queue_read : obeys.

(** ** What the receivers of data do not change *)

Definition core (s : st) :=
  let r := qp_responder (st_qp s) in (rs_psn r, rs_last_OpCode r, qp_attr (st_qp s), qp_num (st_qp s), qp_recv_cq (st_qp s)).

Lemma core_fixed {A} (m : M st A) : keeps fixed m -> keeps core m.
Proof.
  intros H s a s' E. specialize (H s a s' E). unfold same, fixed in H. unfold same, core. injection H as. congruence.
Qed.
#[local] Hint Extern 5 (obeys (same core) _) => apply core_fixed; solve [auto 1 with obeys nocore] : obeys.

Ltac unfold_rx := unfold receive_SEND_request, receive_SEND_payload, receive_RDMA_WRITE_request, receive_RDMA_WRITE_payload,
  receive_Atomic_request, receive_RDMA_READ_request, write_error, send_completion_error, deliver_recv, copy_to_sgl, copy_to_rkey,
  push_slot, nak_invalid_request, too_many_rdma_read, the_qp, the_rsp, upd_rsp, upd_qp.

Lemma core_send psn op lrh bth b : keeps core (receive_SEND_request psn op lrh bth b).
Proof. unfold_rx. obey. Qed.
Lemma core_write psn op lrh bth b : keeps core (receive_RDMA_WRITE_request psn op lrh bth b).
Proof. unfold_rx. obey. Qed.
Lemma core_atomic psn op b : keeps core (receive_Atomic_request psn op b).
Proof. unfold_rx. obey. Qed.
Lemma core_read psn b k : keeps core (receive_RDMA_READ_request psn b k).
Proof. unfold_rx. obey. Qed.

Ltac side_leaf :=
  apply obeys_modify; intros ?; unfold pres, side; simpl;
  let H1 := fresh in let H2 := fresh in let H3 := fresh in let H4 := fresh in let H5 := fresh in
  intros (H1 & H2 & H3 & H4 & H5); refine (conj _ (conj _ (conj _ (conj _ _)))); try done; try (apply (wrap_range 32); done);
  rewrite ?length_insert; try done.

Lemma side_send psn op lrh bth b : obeys (pres side) (receive_SEND_request psn op lrh bth b).
Proof. unfold_rx. obey; side_leaf. Qed.
Lemma side_write psn op lrh bth b : obeys (pres side) (receive_RDMA_WRITE_request psn op lrh bth b).
Proof. unfold_rx. obey; side_leaf. Qed.
Lemma side_atomic psn op b : obeys (pres side) (receive_Atomic_request psn op b).
Proof. unfold_rx. obey; side_leaf. Qed.
Lemma side_read psn b k : obeys (pres side) (receive_RDMA_READ_request psn b k).
Proof. unfold_rx. obey; side_leaf. Qed.

(** ** Confinement *)

(** The access right a request needs to change memory. *)
Definition required_access (OpCode : Z) : option Z :=
  if is_send_opcode OpCode then Some IB_ACCESS_LOCAL_WRITE
  else if is_write_opcode OpCode then Some (Z.lor IB_ACCESS_LOCAL_WRITE IB_ACCESS_REMOTE_WRITE)
  else if (OpCode =? IB_OPCODE_COMPARE_SWAP) || (OpCode =? IB_OPCODE_FETCH_ADD) then Some IB_ACCESS_REMOTE_ATOMIC
  else None.

Definition permitted (flags : option Z) (pd : pib_pd) (x : Z) : Prop :=
  match flags with Some f => granted pd f x | None => False end.

(** The outcome of a receiver that needs the right [flags]. *)
Definition rx (ids : list Z) (flags : option Z) (s s' : st) : Prop :=
  qp_wf ids s' /\ st_pd s' = st_pd s /\ changed_in (permitted flags (st_pd s)) (st_mem s) (st_mem s')
  /\ rs_slot_index (qp_responder (st_qp s)) <= rs_slot_index (qp_responder (st_qp s'))
     <= rs_slot_index (qp_responder (st_qp s)) + 1.

Lemma rx_refl ids flags s : qp_wf ids s -> rx ids flags s s.
Proof. intros H. split_and!; [done|done|apply changed_in_refl|lia|lia]. Qed.

Lemma rx_step ids flags s s1 s' : rx ids flags s s1 -> qp_wf ids s' -> fixed s' = fixed s1 -> rx ids flags s s'.
Proof.
  intros (H1 & H2 & H3 & H4) Hwf Hf. apply fixed_inv in Hf as (F1 & F2 & _ & _ & _ & F6 & _). unfold rx.
  by rewrite F1, F2, F6.
Qed.

Lemma rx_mem ids f m s : qp_wf ids s -> changed_in (granted (st_pd s) f) (st_mem s) m -> rx ids (Some f) s (s <| st_mem := m |>).
Proof. intros Hwf H. split_and!; [by apply wf_mem|done|done|simpl; lia|simpl; lia]. Qed.

(** An update of the responder that keeps the list of receives. *)
Lemma rx_rsp ids flags f s s1 : rx ids flags s s1 ->
  (forall r, rs_recv_wqes (f r) = rs_recv_wqes r /\ rs_nr_recv_wqe (f r) = rs_nr_recv_wqe r /\ rs_slot_index (f r) = rs_slot_index r) ->
  rx ids flags s (s1 <| st_qp ::= fun q => q <| qp_responder ::= f |> |>).
Proof.
  intros (H1 & H2 & H3 & H4) Hf. destruct (Hf (qp_responder (st_qp s1))) as (E1 & E2 & E3).
  unfold rx. simpl. rewrite E3. split_and?; try done; try apply H4. apply wf_rsp; [done|]. rewrite E1, E2. apply H1.
Qed.

Lemma wp_fixed {A} ids flags (m : M st A) s s1 (Q : A -> st -> Prop) :
  rx ids flags s s1 -> keeps fixed m ->
  wp m (fun a s' => qp_wf ids s' /\ (rx ids flags s s' -> Q a s')) s1 -> wp m Q s1.
Proof.
  intros Hrx Hk. unfold wp. specialize (Hk s1). destruct (m s1) as [[a s']|]; [|done]. intros [Hwf HQ]. apply HQ.
  eapply rx_step; [exact Hrx|exact Hwf|by apply (Hk a)].
Qed.

Lemma wp_rx_nak ids flags psn syn ev s s1 (Q : Z -> st -> Prop) :
  rx ids flags s s1 -> (forall s', rx ids flags s s' -> Q (-1) s') -> wp (nak_and_error psn syn ev) Q s1.
Proof.
  intros Hrx HQ. apply (wp_nak ids); [apply Hrx|]. intros s' (R1 & _ & _ & _ & _ & R6 & _). apply HQ. by eapply rx_step.
Qed.

Lemma wp_rx_ack ids flags psn syn r s s1 (Q : Z -> st -> Prop) :
  rx ids flags s s1 -> (forall s', rx ids flags s s' -> Q r s') -> wp (push_acknowledge psn syn ;; ret r) Q s1.
Proof.
  intros Hrx HQ. wp_step. apply (wp_push_ack ids); [apply Hrx|]. intros s' H1 _ _ _ Hf _. wp_step. apply HQ.
  by eapply rx_step.
Qed.

Lemma wp_rx_rnr ids flags psn s s1 (Q : Z -> st -> Prop) :
  rx ids flags s s1 -> (forall s', rx ids flags s s' -> Q (-1) s') -> wp (resources_not_ready psn) Q s1.
Proof. intros Hrx HQ. apply (wp_rnr ids); [apply Hrx|]. intros s' H1 H2 _. apply HQ. by eapply rx_step. Qed.

(** The error exits that complete the receive at the head of the queue. *)
Lemma fixed_send_error psn w status nak : keeps fixed (send_completion_error psn w status nak).
Proof. unfold send_completion_error, the_qp. obey. Qed.
Lemma fixed_write_error psn imm w status : keeps fixed (write_error psn imm w status).
Proof. unfold write_error, the_qp. obey. Qed.
Lemma fixed_deliver bth w op slid ex fl : keeps fixed (deliver_recv bth w op slid ex fl).
Proof. unfold deliver_recv, the_qp. obey. Qed.

Lemma wp_send_error ids flags psn wq status nak s s1 (Q : Z -> st -> Prop) :
  rx ids flags s s1 -> rs_recv_wqes (qp_responder (st_qp s1)) <> [] ->
  (forall s', rx ids flags s s' -> Q (-1) s') -> wp (send_completion_error psn wq status nak) Q s1.
Proof.
  intros Hrx Hl HQ. apply (wp_fixed ids flags _ s); [done|apply fixed_send_error|].
  unfold send_completion_error, the_qp. do 2 wp_step. wp_step. apply (wp_wc_error ids); [apply Hrx|by right|]. intros s2 Hwf2 [Hq2 _].
  destruct (rs_recv_wqes (qp_responder (st_qp s1))) as [|w l] eqn:El; [done|].
  wp_step. apply (wp_consume ids w l); [done|by rewrite Hq2|]. intros s3 Hwf3 _ _ _. wp_step.
  assert (forall s4, qp_wf ids s4 -> wp (qp_to_error ;; ret (-1)) (fun a s' => qp_wf ids s' /\ (rx ids flags s s' -> Q a s')) s4) as Hend.
  { intros s4 Hwf4. wp_step. apply (wp_to_error ids); [done|]. intros s' Hs'. wp_step. split; [apply Hs'|apply HQ]. }
  destruct nak; [|wp_step; by apply Hend]. apply (wp_push_ack ids); [done|]. intros s4 Hwf4 _ _ _ _ _. by apply Hend.
Qed.

Lemma wp_write_error ids flags psn imm wq status s s1 (Q : Z -> st -> Prop) :
  rx ids flags s s1 -> (imm = true -> is_Some wq /\ rs_recv_wqes (qp_responder (st_qp s1)) <> []) ->
  (forall s', rx ids flags s s' -> Q (-1) s') -> wp (write_error psn imm wq status) Q s1.
Proof.
  intros Hrx Hl HQ. apply (wp_fixed ids flags _ s); [done|apply fixed_write_error|].
  unfold write_error, the_qp. do 2 wp_step.
  assert (forall s4, qp_wf ids s4 -> wp (push_acknowledge psn (if bool_decide (status = IB_WC_LOC_LEN_ERR)
    then PIB_SYND_NAK_CODE_INV_REQ_ERR else PIB_SYND_NAK_CODE_REM_ACCESS_ERR) ;; qp_to_error ;; ret (-1))
    (fun a s' => qp_wf ids s' /\ (rx ids flags s s' -> Q a s')) s4) as Hend.
  { intros s4 Hwf4. wp_step. apply (wp_push_ack ids); [done|]. intros s5 Hwf5 _ _ _ _ _. wp_step.
    apply (wp_to_error ids); [done|]. intros s' Hs'. wp_step. split; [apply Hs'|apply HQ]. }
  wp_step. destruct (imm && _) eqn:Ei.
  - bools. destruct Hl as [[w ->] Hl]; [done|]. wp_step. wp_step. wp_step. apply (wp_wc_error ids); [apply Hrx|by right|].
    intros s2 Hwf2 [Hq2 _]. destruct (rs_recv_wqes (qp_responder (st_qp s1))) as [|w1 l] eqn:El; [done|].
    apply (wp_consume ids w1 l); [done|by rewrite Hq2|]. intros s3 Hwf3 _ _ _. by apply Hend.
  - unfold pib_util_insert_async_qp_error, the_qp, emit. wp_step. wp_step. wp_step. wp_step.
    + wp_step. apply (wp_abort ids); [apply wf_events, Hrx|]. intros s3 Hwf3. by apply Hend.
    + apply (wp_abort ids); [apply Hrx|]. intros s3 Hwf3. by apply Hend.
Qed.

(** The end of a message. *)
Lemma wp_deliver ids flags bth w op slid ex fl s s1 (Q : unit -> st -> Prop) :
  rx ids flags s s1 -> rs_recv_wqes (qp_responder (st_qp s1)) <> [] ->
  (forall s', rx ids flags s s' -> Q tt s') -> wp (deliver_recv bth w op slid ex fl) Q s1.
Proof.
  intros Hrx Hl HQ. apply (wp_fixed ids flags _ s); [done|apply fixed_deliver|].
  unfold deliver_recv, the_qp. do 2 wp_step. wp_step. apply (wp_wc_success ids); [apply Hrx|by right|].
  intros n s2 cq Hwf2 [Hq2 _] _ _. destruct (rs_recv_wqes (qp_responder (st_qp s1))) as [|w1 l] eqn:El; [done|].
  apply (wp_consume ids w1 l); [done|by rewrite Hq2|]. intros s3 Hwf3 _ _ _. split; [done|apply HQ].
Qed.

(** ** The receivers *)

Lemma send_shape_max pmtu op sh : send_shape_of pmtu op = Some sh -> ss_max sh = pmtu.
Proof. unfold send_shape_of. intros H. repeat (case_match; simplify_eq; try done). Qed.

Lemma pmtu_range q : 0 <= pmtu_of q < 2 ^ 32.
Proof. apply (wrap_range 32). lia. Qed.

Lemma wp_send_payload ids psn sh lrh bth imm inv buffer w s s1 (Q : Z -> st -> Prop) :
  rx ids (Some IB_ACCESS_LOCAL_WRITE) s s1 -> st_mem s1 = st_mem s -> side s1 -> pd_safe (st_pd s1) -> recv_ok w -> Zlen buffer < 2 ^ 32 ->
  rs_recv_wqes (qp_responder (st_qp s1)) <> [] ->
  (forall r s', rx ids (Some IB_ACCESS_LOCAL_WRITE) s s' -> Q r s') ->
  wp (receive_SEND_payload psn sh lrh bth imm inv buffer w) Q s1.
Proof.
  intros Hrx Hmem Hside Hpd Hw Hlen Hl HQ. unfold receive_SEND_payload, the_rsp. do 2 wp_step. wp_step.
  apply wp_copy_to_sgl; [apply Hpd|exact Hw|apply Hside|pose proof (Zlen_nonneg buffer); lia|]. intros status m Hm.
  set (s2 := s1 <| st_mem := m |>).
  assert (rx ids (Some IB_ACCESS_LOCAL_WRITE) s s2) as Hrx2.
  { destruct Hrx as (H1 & H2 & _ & H4). rewrite H2, Hmem in Hm. split; [by apply wf_mem|]. by split; [|split]. }
  wp_step.
  assert (forall inv_status, wp (if negb (bool_decide (inv_status = IB_WC_SUCCESS)) then send_completion_error psn w inv_status None
    else if bool_decide (status = IB_WC_LOC_LEN_ERR) then send_completion_error psn w status (Some PIB_SYND_NAK_CODE_INV_REQ_ERR)
    else if negb (bool_decide (status = IB_WC_SUCCESS)) then send_completion_error psn w status (Some PIB_SYND_NAK_CODE_REM_OP_ERR)
    else upd_rsp (fun r => r <| rs_offset ::= fun o => u32 (o + Zlen buffer) |>) ;;
      when (ss_finit sh) (deliver_recv bth w IB_WC_RECV (lrh_slid lrh)
         (if ss_inv sh then inv else if ss_imm sh then imm else 0)
         (Z.lor (if ss_imm sh then IB_WC_WITH_IMM else 0) (if ss_inv sh then IB_WC_WITH_INVALIDATE else 0))) ;;
      push_acknowledge psn PIB_SYND_ACK_CODE ;; ret 1) Q s2) as Hgo.
  { intros inv_status. do 3 (wp_step; [apply (wp_send_error ids (Some IB_ACCESS_LOCAL_WRITE) _ _ _ _ s); [done|done|by apply HQ]|]).
    unfold upd_rsp, upd_qp. wp_step. wp_step. apply (rx_rsp ids _ (fun r => r <| rs_offset ::= fun o => u32 (o + Zlen buffer) |>)) in Hrx2; [|done].
    wp_step. wp_step.
    - apply (wp_deliver ids (Some IB_ACCESS_LOCAL_WRITE) _ _ _ _ _ _ s); [exact Hrx2|done|]. intros s' Hrx'.
      by apply (wp_rx_ack ids (Some IB_ACCESS_LOCAL_WRITE) _ _ _ s); [|apply HQ].
    - by apply (wp_rx_ack ids (Some IB_ACCESS_LOCAL_WRITE) _ _ _ s); [|apply HQ]. }
  wp_step.
  - wp_step. wp_step. rewrite (invalidate_refused (st_pd s2) inv) by apply Hpd. wp_step. wp_step. wp_step.
    assert (s2 <| st_pd := st_pd s2 |> = s2) as -> by done. apply Hgo.
  - wp_step. apply Hgo.
Qed.

(** The optional first step of the SEND receiver. *)
Lemma wp_send_init ids b s (Q : unit -> st -> Prop) :
  qp_wf ids s -> side s ->
  (forall s', rx ids (Some IB_ACCESS_LOCAL_WRITE) s s' -> st_mem s' = st_mem s -> side s' -> Q tt s') ->
  wp (when b (upd_rsp (fun r => r <| rs_offset := 0 |>) ;; take_srq)) Q s.
Proof.
  intros Hwf Hside HQ. wp_step; [|by apply HQ; [apply rx_refl|..]]. unfold upd_rsp, upd_qp. wp_step. wp_step.
  set (s1 := s <| st_qp ::= _ |>).
  assert (rx ids (Some IB_ACCESS_LOCAL_WRITE) s s1) as Hrx1 by (apply (rx_rsp ids _ (fun r => r <| rs_offset := 0 |>) s s); [by apply rx_refl|done]).
  apply (wp_take_srq ids); [apply Hrx1|]. intros s' Hwf' _ _ Hf Hs. apply HQ.
  - by eapply rx_step.
  - apply fixed_inv in Hf as (_ & -> & _). done.
  - apply Hs. destruct Hside as (H1 & H2 & H3 & H4 & H5). by refine (conj _ (conj _ (conj _ (conj _ _)))).
Qed.

Lemma wp_receive_send ids psn op lrh bth buffer s (Q : Z -> st -> Prop) :
  qp_wf ids s -> side s -> pd_safe (st_pd s) -> is_send_opcode op = true ->
  (forall r s', rx ids (Some IB_ACCESS_LOCAL_WRITE) s s' -> Q r s') -> wp (receive_SEND_request psn op lrh bth buffer) Q s.
Proof.
  intros Hwf Hside Hpd Hop HQ. unfold receive_SEND_request, the_qp, the_rsp. do 2 wp_step. wp_step.
  destruct (send_shape_of (pmtu_of (st_qp s)) op) as [sh|] eqn:Esh.
  2:{ exfalso. unfold is_send_opcode in Hop. apply bool_decide_eq_true_1 in Hop. clear HQ.
      repeat (apply elem_of_cons in Hop as [-> | Hop]; [done|]). by apply elem_of_nil in Hop. }
  wp_step. wp_step. apply (wp_send_init ids); [done|done|]. intros s1 Hrx1 Hm1 Hside1. wp_step. wp_step.
  destruct (rs_recv_wqes (qp_responder (st_qp s1))) as [|w l] eqn:El.
  { apply (wp_rx_rnr ids (Some IB_ACCESS_LOCAL_WRITE) _ s); [done|by apply HQ]. }
  assert (forall b, wp (nak_invalid_request psn) Q s1 /\ ((ss_max sh <? Zlen b) = false ->
    forall imm inv, wp (receive_SEND_payload psn sh lrh bth imm inv b w) Q s1)) as Hend.
  { intros b. split; [apply (wp_rx_nak ids (Some IB_ACCESS_LOCAL_WRITE) _ _ _ s); [done|by apply HQ]|]. intros Hb imm inv.
    apply (wp_send_payload ids psn sh lrh bth imm inv b w s); [done|done|done| | | |by rewrite El|by apply HQ].
    - destruct Hrx1 as (_ & -> & _). done.
    - destruct Hside1 as (_ & Hr & _). rewrite El in Hr. by apply Forall_cons in Hr as [? _].
    - bools. rewrite (send_shape_max _ _ _ Esh) in *. pose proof (pmtu_range (st_qp s)). lia. }
  wp_step; [apply (Hend [])|]. cbv zeta. wp_step; [apply (Hend [])|]. wp_step; [apply (Hend [])|].
  bools. apply Hend. by apply Z.ltb_ge.
Qed.

Lemma write_shape_imm pmtu op sh : write_shape_of pmtu op = Some sh -> ws_max sh = pmtu.
Proof. unfold write_shape_of. intros H. repeat (case_match; simplify_eq; try done). Qed.

Definition WRITE_ACCESS : Z := Z.lor IB_ACCESS_LOCAL_WRITE IB_ACCESS_REMOTE_WRITE.

Lemma wp_write_payload ids psn sh lrh bth imm w buffer s s1 (Q : Z -> st -> Prop) :
  rx ids (Some WRITE_ACCESS) s s1 -> st_mem s1 = st_mem s -> pd_safe (st_pd s1) ->
  (ws_imm sh = true -> is_Some w /\ rs_recv_wqes (qp_responder (st_qp s1)) <> []) ->
  (forall r s', rx ids (Some WRITE_ACCESS) s s' -> Q r s') -> wp (receive_RDMA_WRITE_payload psn sh lrh bth imm w buffer) Q s1.
Proof.
  intros Hrx Hmem Hpd Hw HQ. unfold receive_RDMA_WRITE_payload, the_rsp. do 2 wp_step.
  do 3 (wp_step; [apply (wp_rx_nak ids (Some WRITE_ACCESS) _ _ _ s); [done|by apply HQ]|]).
  wp_step; [apply (wp_write_error ids (Some WRITE_ACCESS) _ _ _ _ s); [done|done|by apply HQ]|].
  wp_step. apply wp_copy_to_rkey; [apply Hpd|apply (wrap_range 64); lia|apply Zlen_nonneg|]. intros status m Hm.
  set (s2 := s1 <| st_mem := m |>).
  assert (rx ids (Some WRITE_ACCESS) s s2) as Hrx2.
  { destruct Hrx as (H1 & H2 & _ & H4). rewrite H2, Hmem in Hm. split; [by apply wf_mem|]. by split; [|split]. }
  wp_step; [apply (wp_write_error ids (Some WRITE_ACCESS) _ _ _ _ s); [done|done|by apply HQ]|].
  unfold upd_rsp, upd_qp. wp_step. wp_step.
  apply (rx_rsp ids _ (fun r => r <| rs_offset ::= fun o => u32 (o + Zlen buffer) |>)) in Hrx2; [|done].
  wp_step. wp_step.
  - bools. destruct Hw as [[w' ->] Hl]; [done|]. wp_step. wp_step.
    apply (wp_deliver ids (Some WRITE_ACCESS) _ _ _ _ _ _ s); [exact Hrx2|done|]. intros s' Hrx'.
    by apply (wp_rx_ack ids (Some WRITE_ACCESS) _ _ _ s); [|apply HQ].
  - wp_step. by apply (wp_rx_ack ids (Some WRITE_ACCESS) _ _ _ s); [|apply HQ].
Qed.

Lemma wp_receive_write ids psn op lrh bth buffer s (Q : Z -> st -> Prop) :
  qp_wf ids s -> pd_safe (st_pd s) -> is_write_opcode op = true ->
  (forall r s', rx ids (Some WRITE_ACCESS) s s' -> Q r s') -> wp (receive_RDMA_WRITE_request psn op lrh bth buffer) Q s.
Proof.
  intros Hwf Hpd Hop HQ. unfold receive_RDMA_WRITE_request, the_qp, the_rsp. do 2 wp_step. wp_step.
  destruct (write_shape_of (pmtu_of (st_qp s)) op) as [sh|] eqn:Esh.
  2:{ exfalso. unfold is_write_opcode in Hop. apply bool_decide_eq_true_1 in Hop. clear HQ.
      repeat (apply elem_of_cons in Hop as [-> | Hop]; [done|]). by apply elem_of_nil in Hop. }
  wp_step. wp_step; [apply (wp_rx_nak ids (Some WRITE_ACCESS) _ _ _ s); [by apply rx_refl|by apply HQ]|].
  assert (forall s1 b, rx ids (Some WRITE_ACCESS) s s1 -> st_mem s1 = st_mem s ->
    wp (if ws_imm sh then take_srq ;; let! r := gets (fun s => qp_responder (st_qp s)) in
          match rs_recv_wqes r with
          | [] => resources_not_ready psn
          | recv_wqe :: _ => if Zlen b <? 4 then nak_invalid_request psn
              else receive_RDMA_WRITE_payload psn sh lrh bth (le_combine (take 4 b)) (Some recv_wqe) (drop 4 b)
          end
        else receive_RDMA_WRITE_payload psn sh lrh bth 0 None b) Q s1) as Hgo.
  { intros s1 b Hrx1 Hm1. destruct (ws_imm sh) eqn:Eimm.
    - wp_step. apply (wp_take_srq ids); [apply Hrx1|]. intros s2 Hwf2 _ _ Hf2 _.
      pose proof (rx_step _ _ _ _ _ Hrx1 Hwf2 Hf2) as Hrx2. apply fixed_inv in Hf2 as (_ & Hm2 & _). wp_step. wp_step.
      destruct (rs_recv_wqes (qp_responder (st_qp s2))) as [|w l] eqn:El;
        [apply (wp_rx_rnr ids (Some WRITE_ACCESS) _ s); [done|by apply HQ]|].
      wp_step; [apply (wp_rx_nak ids (Some WRITE_ACCESS) _ _ _ s); [done|by apply HQ]|].
      apply (wp_write_payload ids _ _ _ _ _ _ _ s); [done|congruence| | |by apply HQ].
      + destruct Hrx2 as (_ & -> & _). done.
      + intros _. split; [done|by rewrite El].
    - apply (wp_write_payload ids _ _ _ _ _ _ _ s); [done|done| |by rewrite Eimm|by apply HQ].
      destruct Hrx1 as (_ & -> & _). done. }
  wp_step. wp_step; [|apply Hgo; [by apply rx_refl|done]]. cbv zeta. unfold upd_rsp, upd_qp. wp_step.
  apply Hgo; [|done]. set (f := fun r : responder_t => r <| rs_offset := 0 |> <| rs_wr_vaddr := _ |> <| rs_wr_rkey := _ |> <| rs_wr_dmalen := _ |>).
  by apply (rx_rsp ids _ f s s); [apply rx_refl|].
Qed.

(** ** Atomics and RDMA READ *)

Lemma be_at_bound pos (n : nat) l : Forall byte_ok l -> 0 <= be_at pos n l < 2 ^ (8 * Z.of_nat n).
Proof.
  intros H. unfold be_at, be_combine, bytes_at. pose proof (le_combine_bound (rev (take n (drop pos l)))) as Hb.
  assert (Forall byte_ok (rev (take n (drop pos l)))) as Hf by (apply List.Forall_rev, Forall_take, Forall_drop, H).
  specialize (Hb Hf). split; [apply Hb|]. eapply Z.lt_le_trans; [apply Hb|]. apply Z.pow_le_mono_r; [lia|].
  unfold Zlen. rewrite length_rev, length_take. lia.
Qed.

Definition slot_room (s : st) : Prop := 0 <= rs_slot_index (qp_responder (st_qp s)) < 2 ^ 31 - 1.

Lemma wp_push_slot ids flags slot s s1 (Q : unit -> st -> Prop) :
  rx ids flags s s1 -> slot_room s -> rs_slot_index (qp_responder (st_qp s1)) = rs_slot_index (qp_responder (st_qp s)) ->
  (forall s', rx ids flags s s' -> Q tt s') -> wp (push_slot slot) Q s1.
Proof.
  intros (H1 & H2 & H3 & _) Hr Hi HQ. unfold slot_room in Hr. unfold push_slot, the_rsp, upd_rsp, upd_qp. do 2 wp_step.
  set (r0 := qp_responder (st_qp s1)) in *. wp_step.
  apply wp_BUG_ON. { apply Z.ltb_ge. apply Z.rem_nonneg; [done|lia]. }
  wp_step. apply HQ. split; [apply wf_rsp; [done|apply H1]|]. split; [done|]. split; [done|]. simpl. fold r0. rewrite Hi.
  unfold s32. rewrite swrap_small by lia. lia.
Qed.

Lemma wp_push_atomic ids psn v s (Q : unit -> st -> Prop) :
  qp_wf ids s -> (forall s', qp_wf ids s' -> fixed s' = fixed s ->
    (exists new, rs_acks (qp_responder (st_qp s')) = rs_acks (qp_responder (st_qp s)) ++ new
       /\ (kmem_alloc_ok (st_allocs s) = true -> exists a, new = [a] /\ ack_type a = PIB_ACK_ATOMIC /\ ack_psn a = psn
           /\ ack_vaddress_res a = v)) ->
    rs_recv_wqes (qp_responder (st_qp s')) = rs_recv_wqes (qp_responder (st_qp s)) -> st_cqs s' = st_cqs s ->
    Q tt s') -> wp (push_atomic_acknowledge psn v) Q s.
Proof.
  intros Hwf HQ. unfold push_atomic_acknowledge, kmem_cache_zalloc, upd_rsp, upd_qp. wp_run.
  - bools. apply HQ; try done; [destruct Hwf; by split|]. exists []. rewrite app_nil_r. split; [done|congruence].
  - bools. apply HQ; try done; [apply wf_rsp; [destruct Hwf; by split|apply Hwf]|]. eexists. split; [reflexivity|].
    intros _. by eexists.
Qed.

Lemma wp_receive_atomic ids psn op buffer s (Q : Z -> st -> Prop) :
  qp_wf ids s -> pd_safe (st_pd s) -> slot_room s -> Forall byte_ok buffer ->
  (forall r s', rx ids (Some IB_ACCESS_REMOTE_ATOMIC) s s' -> Q r s') -> wp (receive_Atomic_request psn op buffer) Q s.
Proof.
  intros Hwf Hpd Hroom Hb HQ. unfold receive_Atomic_request, the_qp, the_rsp. do 2 wp_step.
  pose proof (rx_refl ids (Some IB_ACCESS_REMOTE_ATOMIC) s Hwf) as Hrx.
  wp_step; [apply (wp_rx_nak ids (Some IB_ACCESS_REMOTE_ATOMIC) _ _ _ s); [done|by apply HQ]|]. cbv zeta.
  destruct (Z.eqb_spec (at_vaddr (atomiceth_of buffer) mod 8) 0) as [H8|]; cbn [negb];
    [|apply (wp_rx_nak ids (Some IB_ACCESS_REMOTE_ATOMIC) _ _ _ s); [done|by apply HQ]].
  wp_step; [apply (wp_rx_nak ids (Some IB_ACCESS_REMOTE_ATOMIC) _ _ _ s); [done|by apply HQ]|]. wp_step. wp_step.
  edestruct (atomic_confined (st_pd s)) as (status & res & m & E & Hm); [exact Hpd| |exact H8|rewrite E];
    [apply (be_at_bound 0 8); done|].
  wp_step. wp_step. wp_step. wp_step. set (s2 := s <| st_mem := m |>).
  assert (rx ids (Some IB_ACCESS_REMOTE_ATOMIC) s s2) as Hrx2 by (by apply rx_mem).
  wp_step; [apply (wp_rx_nak ids (Some IB_ACCESS_REMOTE_ATOMIC) _ _ _ s); [done|by apply HQ]|]. wp_step. wp_step. wp_step.
  apply (wp_push_slot ids (Some IB_ACCESS_REMOTE_ATOMIC) _ s); [done|done|done|]. intros s3 Hrx3. wp_step.
  apply (wp_push_atomic ids); [apply Hrx3|]. intros s4 Hwf4 Hf4 _ _ _. wp_step. apply HQ. by eapply rx_step.
Qed.

Lemma wp_queue_read ids flags psn e reth n s s1 (Q : Z -> st -> Prop) :
  rx ids flags s s1 -> (forall r s', rx ids flags s s' -> Q r s') -> wp (queue_rdma_read psn e reth n) Q s1.
Proof.
  intros Hrx HQ. apply (wp_fixed ids flags _ s); [done|apply fixed_queue_read|]. unfold queue_rdma_read. wp_step.
  unfold remove_overlapped_rdma_read_acknowledge, the_rsp, the_qp, upd_rsp, upd_qp. do 3 wp_step. cbv zeta. wp_step.
  set (s2 := s1 <| st_qp ::= _ |>).
  assert (qp_wf ids s2) as Hwf2 by (apply wf_rsp; [apply Hrx|]; apply (wf_recv ids s1), Hrx).
  wp_step. wp_step.
  - unfold too_many_rdma_read. apply (wp_nak ids); [done|]. intros s' (R & _). split; [done|apply HQ].
  - unfold push_rdma_read_acknowledge, kmem_cache_zalloc, upd_rsp, upd_qp.
    wp_run; (split; [|apply HQ]); repeat (apply wf_rsp; [|apply Hwf2]); destruct Hwf2; by split.
Qed.

Lemma verify_total pd rkey address size flags m :
  exists status, pib_util_mr_verify_rkey_validation pd rkey address size flags m = Some status.
Proof. unfold pib_util_mr_verify_rkey_validation, copy_data_with_rkey. repeat case_match; simpl in *; simplify_eq; eauto. Qed.

Lemma wp_receive_read ids psn buffer retried s (Q : Z -> st -> Prop) :
  qp_wf ids s -> side s -> slot_room s -> (forall k, retried = Some k -> (k < Z.to_nat PIB_MAX_RD_ATOM)%nat) ->
  (forall r s', rx ids None s s' -> Q r s') -> wp (receive_RDMA_READ_request psn buffer retried) Q s.
Proof.
  intros Hwf Hside Hroom Hk HQ. unfold receive_RDMA_READ_request, the_qp. pose proof (rx_refl ids None s Hwf) as Hrx.
  wp_step; [apply (wp_rx_nak ids None _ _ _ s); [done|by apply HQ]|]. cbv zeta.
  wp_step; [apply (wp_rx_nak ids None _ _ _ s); [done|by apply HQ]|]. wp_step. wp_step. wp_step.
  edestruct verify_total as [status E]; rewrite E; clear E. wp_step.
  wp_step; [apply (wp_rx_nak ids None _ _ _ s); [done|by apply HQ]|]. wp_step. wp_step.
  destruct retried as [k|].
  - destruct (lookup_lt_is_Some_2 (rs_slots (qp_responder (st_qp s))) k) as [slot ->];
      [destruct Hside as (_ & _ & _ & -> & _); by apply Hk|].
    wp_step. wp_step. wp_step; [apply (wp_rx_nak ids None _ _ _ s); [done|by apply HQ]|].
    by apply (wp_queue_read ids None _ _ _ _ s); [|apply HQ].
  - wp_step; [apply (wp_rx_nak ids None _ _ _ s); [done|by apply HQ]|]. wp_step.
    apply (wp_push_slot ids None _ s); [done|done|done|]. intros s' Hrx'.
    by apply (wp_queue_read ids None _ _ _ _ s); [|apply HQ].
Qed.

(** ** Opcodes *)

Definition known_opcode (op : Z) : Prop := is_Some (attr_OpCode (Z.land op 0xFF)).

Definition handled (op : Z) : bool :=
  is_send_opcode op || is_write_opcode op || (op =? IB_OPCODE_RDMA_READ_REQUEST) || (op =? IB_OPCODE_COMPARE_SWAP)
  || (op =? IB_OPCODE_FETCH_ADD).

(** The packet may be part of a request at all. *)
Definition request_attr (op : Z) : bool :=
  match attr_OpCode (Z.land op 0xFF) with
  | Some a => negb (Z.land a (Z.lor (Z.lor PIB_STARTING_OPCODE PIB_MIDDLE_OPCODE) PIB_ENDING_OPCODE) =? 0)
  | None => false
  end.

Lemma all_requests_handled :
  forallb (fun op => negb (request_attr op) || handled op) (seqZ 0 256) = true.
Proof. vm_compute. reflexivity. Qed.

Lemma request_handled op : 0 <= op < 256 -> request_attr op = true -> handled op = true.
Proof.
  intros Hop Hr. assert (negb (request_attr op) || handled op = true) as H; [|by rewrite Hr in H].
  apply (proj1 (forallb_forall _ _) all_requests_handled). apply list_elem_of_In, elem_of_seqZ. lia.
Qed.

Lemma in_order_total op last : known_opcode op -> known_opcode last ->
  exists b, pib_opcode_is_in_order_sequence op last = Some b /\ (b = true -> request_attr op = true).
Proof.
  intros [a Ha] [al Hl]. unfold pib_opcode_is_in_order_sequence, request_attr. rewrite Ha, Hl. simpl.
  destruct (Z.land a _ =? 0) eqn:E; [by eexists|]. repeat case_match; by eexists.
Qed.

(** ** Requests in sequence *)

Lemma wp_execute ids psn op lrh bth buffer s (Q : Z -> st -> Prop) :
  qp_wf ids s -> side s -> pd_safe (st_pd s) -> slot_room s -> Forall byte_ok buffer -> handled op = true ->
  (forall r s', rx ids (required_access op) s s' -> Q r s') -> wp (execute_request psn op lrh bth buffer) Q s.
Proof.
  intros Hwf Hside Hpd Hroom Hb Hop HQ. unfold execute_request. unfold required_access in HQ. unfold handled in Hop.
  destruct (is_send_opcode op) eqn:E1; [by apply (wp_receive_send ids)|].
  destruct (is_write_opcode op) eqn:E2; [by apply (wp_receive_write ids)|]. simpl in Hop.
  destruct (Z.eqb_spec op IB_OPCODE_RDMA_READ_REQUEST) as [->|]; [by apply (wp_receive_read ids)|].
  destruct (Z.eqb_spec op IB_OPCODE_COMPARE_SWAP) as [->|]; [by apply (wp_receive_atomic ids)|].
  destruct (Z.eqb_spec op IB_OPCODE_FETCH_ADD) as [->|]; [by apply (wp_receive_atomic ids)|]. done.
Qed.

Lemma side_execute psn op lrh bth b : obeys (pres side) (execute_request psn op lrh bth b).
Proof. unfold execute_request. pose proof side_send. pose proof side_write. pose proof side_atomic. pose proof side_read. obey; done. Qed.
Lemma core_execute psn op lrh bth b : keeps core (execute_request psn op lrh bth b).
Proof. unfold execute_request. pose proof core_send. pose proof core_write. pose proof core_atomic. pose proof core_read. obey; done. Qed.

(** ** Requests out of sequence *)

Lemma fixed_retried psn b k : keeps fixed (receive_RDMA_READ_request psn b (Some k)).
Proof. unfold_rx. obey. Qed.
#[local] Hint Resolve fixed_retried : obeys.
Lemma fixed_duplicate psn op b : keeps fixed (receive_duplicate psn op b).
Proof. unfold receive_duplicate, the_qp. obey. Qed.

Lemma side_duplicate psn op b : obeys (pres side) (receive_duplicate psn op b).
Proof. unfold receive_duplicate, the_qp. pose proof side_read. obey; try done. Qed.

Lemma find_slot_loop_bound r op psn i n k slot : find_slot_loop r op psn i n = Some (k, slot) -> (k < Z.to_nat PIB_MAX_RD_ATOM)%nat.
Proof.
  revert i. induction n as [|n IH]; intros i; [done|]. simpl. destruct (_ || _); [apply IH|]. intros [= <- _].
  unfold slot_of. pose proof (Z.mod_pos_bound (u32 (rs_slot_index r - i)) PIB_MAX_RD_ATOM ltac:(done)). lia.
Qed.

(** A repeated Atomic is answered with the result saved for it, if the response can
    be allocated. *)
Definition replayed (psn op : Z) (s s' : st) : Prop :=
  forall k slot, op = IB_OPCODE_COMPARE_SWAP \/ op = IB_OPCODE_FETCH_ADD ->
  find_slot_loop (qp_responder (st_qp s)) op psn 1 (Z.to_nat (a_max_dest_rd_atomic (qp_attr (st_qp s)))) = Some (k, slot) ->
  kmem_alloc_ok (st_allocs s) = true ->
  exists a, rs_acks (qp_responder (st_qp s')) = rs_acks (qp_responder (st_qp s)) ++ [a] /\ ack_type a = PIB_ACK_ATOMIC
    /\ ack_psn a = psn /\ ack_vaddress_res a = slot_vaddress_res slot.

Lemma wp_duplicate ids psn op buffer s (Q : unit -> st -> Prop) :
  qp_wf ids s -> side s -> slot_room s -> (forall s', qp_wf ids s' -> replayed psn op s s' -> Q tt s') ->
  wp (receive_duplicate psn op buffer) Q s.
Proof.
  intros Hwf Hside Hroom HQ. unfold receive_duplicate, the_qp. destruct (is_rd_atomic_opcode op) eqn:Eop.
  - wp_step. wp_step. destruct (find_slot_loop _ _ _ _ _) as [[k slot]|] eqn:E.
    + destruct (Z.eqb_spec op IB_OPCODE_RDMA_READ_REQUEST) as [->|Hne].
      * wp_step. apply (wp_receive_read ids); [done|done|done| |].
        { intros k' [= <-]. by eapply find_slot_loop_bound. }
        intros r s' Hrx. wp_step. apply HQ; [apply Hrx|]. intros ? ? [? | ?]; done.
      * apply (wp_push_atomic ids); [done|]. intros s' Hwf' _ (new & Ha & Hnew) _ _. apply HQ; [done|].
        intros k' slot' _ E' Hok. rewrite E in E'. injection E' as <- <-. destruct (Hnew Hok) as (a & -> & ? & ? & ?). by exists a.
    + wp_step. apply (wp_push_ack ids); [done|]. intros s1 Hwf1 _ _ _ _ _. apply (wp_async_error ids); [done|].
      intros s' Hs'. apply HQ; [apply Hs'|]. intros ? ? _ E'. congruence.
  - apply (wp_push_ack ids); [done|]. intros s1 Hwf1 _ _ _ _ _. apply HQ; [done|].
    intros ? ? [-> | ->]; discriminate Eop.
Qed.

(** Either the QP is in the error state, or the applications' queues are as they
    were: no completion, no receive consumed, no request touched. *)
Definition app_view (s : st) :=
  (st_cqs s, rs_recv_wqes (qp_responder (st_qp s)), qp_requester (st_qp s), qp_state (st_qp s)).
Definition calm (s s' : st) : Prop := qp_state (st_qp s') = IB_QPS_ERR \/ app_view s' = app_view s.

#[local] Instance calm_preorder : PreOrder calm.
Proof.
  split; [by right|]. intros x y z [H1|H1] [H2|H2]; try (by left); [|right; congruence].
  left. unfold app_view in H2. injection H2 as. congruence.
Qed.

Definition ends_in_error {A} (m : M st A) : Prop := forall s a s', m s = Some (a, s') -> qp_state (st_qp s') = IB_QPS_ERR.

Lemma ends_bind {A B} (m : M st A) (k : A -> M st B) : (forall a, ends_in_error (k a)) -> ends_in_error (bind m k).
Proof. intros H s b s'. unfold bind. destruct (m s) as [[a s1]|]; [|done]. apply H. Qed.
Lemma ends_then_ret {A B} (m : M st A) (b : B) : ends_in_error m -> ends_in_error (m ;; ret b).
Proof. intros H s b' s'. unfold bind. destruct (m s) as [[a s1]|] eqn:E; [|done]. intros [= <- <-]. by apply (H s a). Qed.
Lemma calm_ends {A} (m : M st A) : ends_in_error m -> obeys calm m.
Proof. intros H s a s' E. left. by apply (H s a). Qed.

Lemma state_flush b : keeps (fun s => qp_state (st_qp s)) (pib_util_flush_qp b).
Proof.
  unfold pib_util_flush_qp, flush_sends, flush_send_wqe, flush_recv_wqe, reset_contig, pib_util_insert_async_qp_event,
    pib_util_insert_async_qp_error, pib_util_reschedule_qp, sched_take_off, sched_put, qp_insert_wc_error, with_cq, emit,
    pib_util_free_recv_wqe, swqe_list_del, pib_util_free_send_wqe, get_swqe, the_qp, the_req, the_rsp, upd_rsp, upd_req, upd_qp.
  obey.
Qed.

Lemma ends_to_error : ends_in_error qp_to_error.
Proof.
  intros s [] s'. unfold qp_to_error, upd_qp, bind. simpl. intros E. apply state_flush in E. unfold same in E. by rewrite E.
Qed.
Lemma ends_async_error ev : ends_in_error (insert_async_qp_error ev).
Proof. unfold insert_async_qp_error. do 2 (apply ends_bind; intros _). apply ends_to_error. Qed.

Lemma calm_async_error ev : obeys calm (insert_async_qp_error ev).
Proof. apply calm_ends, ends_async_error. Qed.
Lemma calm_nak psn syn ev : obeys calm (nak_and_error psn syn ev).
Proof. apply calm_ends. unfold nak_and_error. apply ends_bind. intros _. apply ends_then_ret, ends_async_error. Qed.
#[local] Hint Resolve calm_async_error calm_nak : obeys.

Ltac calm_leaf := apply obeys_modify; intros ?; by right.
Ltac calms := unfold the_qp, the_rsp, kmem_cache_zalloc, upd_rsp, upd_qp, emit; obey; try calm_leaf.

Lemma calm_push_ack psn syn : obeys calm (push_acknowledge psn syn).
Proof. unfold push_acknowledge. calms. Qed.
Lemma calm_push_atomic psn v : obeys calm (push_atomic_acknowledge psn v).
Proof. unfold push_atomic_acknowledge. calms. Qed.
#[local] Hint Resolve calm_push_ack calm_push_atomic : obeys.
Lemma calm_retried psn b k : obeys calm (receive_RDMA_READ_request psn b (Some k)).
Proof.
  unfold receive_RDMA_READ_request, queue_rdma_read, too_many_rdma_read, nak_invalid_request,
    remove_overlapped_rdma_read_acknowledge, push_rdma_read_acknowledge. calms.
Qed.
#[local] Hint Resolve calm_retried : obeys.
Lemma calm_duplicate psn op b : obeys calm (receive_duplicate psn op b).
Proof. unfold receive_duplicate. calms. Qed.
Lemma calm_comm_est : obeys calm issue_comm_est.
Proof. unfold issue_comm_est, pib_util_insert_async_qp_event, pib_util_insert_async_qp_error. calms. Qed.

(** ** Receiving a request *)

Lemma wp_comm_est ids s (Q : unit -> st -> Prop) :
  qp_wf ids s -> (forall s', qp_wf ids s' -> fixed s' = fixed s -> pres side s s' -> calm s s' ->
    qp_responder (st_qp s') = qp_responder (st_qp s) -> st_allocs s' = st_allocs s -> Q tt s') -> wp issue_comm_est Q s.
Proof.
  intros Hwf HQ. eapply (wp_obeys calm _ (fun (_ : unit) s' => qp_wf ids s' /\ fixed s' = fixed s /\ pres side s s'
    /\ qp_responder (st_qp s') = qp_responder (st_qp s) /\ st_allocs s' = st_allocs s)); [exact calm_comm_est| |].
  - apply wp_frame; [exact fixed_comm_est|exact side_comm_est|].
    unfold issue_comm_est, pib_util_insert_async_qp_event, pib_util_insert_async_qp_error, the_qp, emit, upd_qp.
    wp_run; intros Hf Hs; (split; [|by split_and?]).
    + done.
    + apply qp_wf_state; [done|]. by apply wf_events.
    + by apply qp_wf_state.
  - intros [] s' (H1 & H2 & H3 & H4 & H5) H6. by apply HQ.
Qed.

Lemma changed_in_eq P m m' : m' = m -> changed_in P m m'.
Proof. intros ->. apply changed_in_refl. Qed.

(** A packet in sequence. *)
Lemma wp_in_sequence ids psn op lrh bth buffer s (Q : unit -> st -> Prop) :
  qp_wf ids s -> side s -> pd_safe (st_pd s) -> slot_room s -> Forall byte_ok buffer -> handled op = true ->
  (forall s', rx ids (required_access op) s s' -> side s' ->
     rs_last_OpCode (qp_responder (st_qp s')) ∈ [op; rs_last_OpCode (qp_responder (st_qp s))] -> Q tt s') ->
  wp (let! n := execute_request psn op lrh bth buffer in
      when (0 <=? n) (upd_rsp (fun r => r <| rs_psn ::= fun p => u32 (p + n) |> <| rs_last_OpCode := op |>))) Q s.
Proof.
  intros Hwf Hside Hpd Hroom Hb Hop HQ. wp_step.
  eapply (wp_obeys (same core) _ (fun n s' => rx ids (required_access op) s s' /\ side s')); [apply core_execute| |].
  { eapply (wp_obeys (pres side) _ (fun n s' => rx ids (required_access op) s s')); [apply side_execute|by apply (wp_execute ids)|].
    intros n s' Hrx Hs. split; [done|by apply Hs]. }
  intros n s1 [Hrx1 Hside1] Hc. unfold same, core in Hc. injection Hc as Hpsn Hlast Hattr Hnum Hcq. wp_step.
  - unfold upd_rsp, upd_qp. wp_step.
    set (f := fun r : responder_t => r <| rs_psn ::= fun p => u32 (p + n) |> <| rs_last_OpCode := op |>).
    apply HQ; [by apply (rx_rsp ids _ f)|done|left].
  - apply HQ; [done|done|]. rewrite Hlast. right. left.
Qed.



(** A negative acknowledge for a fatal error never reaches the requester: the error
    exit of the receivers queues it and then puts the QP in the error state,
    which discards the queue and stops the generation of responses. *)
Theorem fatal_nak_never_sent (ids : list Z) (s : st) (psn syndrome : Z) (event : ib_event_type) (Hwf : qp_wf ids s) :
  exists s', nak_and_error psn syndrome event s = Some (-1, s') /\ qp_state (st_qp s') = IB_QPS_ERR
  /\ rs_acks (qp_responder (st_qp s')) = [] /\ pib_generate_rc_qp_acknowledge s' = Some (0, s').
Proof.
  enough (wp (nak_and_error psn syndrome event) (fun r s' => r = -1 /\ failed ids s s') s) as H.
  { unfold wp in H. destruct (nak_and_error psn syndrome event s) as [[r s']|]; [|done].
    destruct H as [-> (R1 & R2 & R3 & _)]. exists s'. split_and?; try done.
    unfold pib_generate_rc_qp_acknowledge, the_qp, bind, gets. by rewrite R2. }
  apply (wp_nak ids); [done|]. by intros s' Hs'.
Qed.

(** C40. An Atomic Compare and Swap is executed as a Fetch and Add: whatever the compare
    and the swap value are, the cell is left with its old value plus the compare
    value, because the opcode of the packet is compared with a work request
    opcode. *)
Theorem cas_executed_as_fetch_add (ids : list Z) (s : st) (psn : Z) (buffer : list Z) (mr : pib_mr) (um : ib_umem)
    (Hwf : qp_wf ids s) (Hroom : slot_room s) (Hlen : Zlen buffer = ATOMICETH_SIZE)
    (H8 : at_vaddr (atomiceth_of buffer) mod 8 = 0) (Hswap : 0 <= at_swap_dt (atomiceth_of buffer) < 2 ^ 64)
    (Hmax : rs_nr_rd_atomic (qp_responder (st_qp s)) < a_max_dest_rd_atomic (qp_attr (st_qp s)))
    (Hmr : pd_mr_table (st_pd s) !! mr_index (at_rkey (atomiceth_of buffer)) = Some mr)
    (Hkey : mr_rkey mr = at_rkey (atomiceth_of buffer)) (Hst : mr_state mr = PIB_MR_VALID) (Hmrwf : mr_wf mr)
    (Hfl : Z.land (mr_access_flags mr) IB_ACCESS_REMOTE_ATOMIC = IB_ACCESS_REMOTE_ATOMIC)
    (Hum : mr_umem mr = Some um) (Hdma : mr_is_dma mr = false) (Hm : forall x, 0 <= st_mem s x < 256)
    (Hin : mr_start mr <= at_vaddr (atomiceth_of buffer) /\ at_vaddr (atomiceth_of buffer) + 8 <= mr_start mr + mr_length mr) :
  let cell := page_addr (um_pages um) (um_page_size um) (um_offset um + (at_vaddr (atomiceth_of buffer) - mr_start mr)) in
  exists s', receive_Atomic_request psn IB_OPCODE_COMPARE_SWAP buffer s = Some (1, s')
  /\ mem_read64 (st_mem s') cell = u64 (mem_read64 (st_mem s) cell + at_cmp_dt (atomiceth_of buffer)).
Proof.
  intros cell. set (ae := atomiceth_of buffer) in *.
  enough (wp (receive_Atomic_request psn IB_OPCODE_COMPARE_SWAP buffer) (fun r s' => r = 1
    /\ mem_read64 (st_mem s') cell = u64 (mem_read64 (st_mem s) cell + at_cmp_dt ae)) s) as H.
  { unfold wp in H. destruct (receive_Atomic_request _ _ _ s) as [[r s']|]; [|done]. destruct H as [-> H]. by exists s'. }
  unfold receive_Atomic_request, the_qp, the_rsp. do 2 wp_step. rewrite Hlen. cbv zeta. fold ae.
  rewrite (proj2 (Z.eqb_eq _ 0) H8), (proj2 (Z.leb_gt _ _) Hmax). cbn [negb]. change (ATOMICETH_SIZE =? ATOMICETH_SIZE) with true. cbn [negb].
  do 2 wp_step. change (IB_OPCODE_COMPARE_SWAP =? IB_WR_ATOMIC_CMP_AND_SWP) with false.
  destruct (atomic_effect (st_pd s) mr um (at_rkey ae) (at_vaddr ae) (at_swap_dt ae) (at_cmp_dt ae) 0 PIB_MR_FETCHADD (st_mem s))
    as (m & E & Hcell & _); try done; [by right|]. rewrite E. wp_step. wp_step. wp_step. wp_step. cbn [negb bool_decide decide].
  set (s2 := s <| st_mem := m |>). rewrite bool_decide_eq_true_2 by done. cbn [negb]. wp_step. wp_step. wp_step.
  unfold push_slot, the_rsp, upd_rsp, upd_qp. do 3 wp_step.
  apply wp_BUG_ON. { apply Z.ltb_ge. apply Z.rem_nonneg; [done|apply Hroom]. }
  wp_step. wp_step. set (s3 := s2 <| st_qp ::= _ |>).
  apply (wp_push_atomic ids); [apply wf_rsp; [by apply wf_mem|apply Hwf]|]. intros s4 _ Hf4 _ _ _. wp_step. split; [done|].
  apply fixed_inv in Hf4 as (_ & -> & _). exact Hcell.
Qed.

End RcRspThm.

(** ** Witnesses *)

Lemma demo_side : side demo_st.
Proof.
  split; [apply map_Forall_empty|]. split.
  { repeat constructor; unfold sge_range_ok; simpl; lia. }
  split; [done|]. split; [done|]. simpl. lia.
Qed.

Lemma demo_pd_safe : pd_safe (st_pd demo_st).
Proof.
  split; [|split].
  - apply map_Forall_singleton. intros _. unfold mr_wf. simpl. split_and!; try done. exists 12.
    split_and!; try done. repeat constructor. by eexists.
  - apply map_Forall_singleton. done.
  - apply map_Forall_singleton. unfold mr_aligned. simpl. split; [by exists 512|by exists 8192].
Qed.

Definition demo_lrh : pib_packet_lrh :=
  {| lrh_dlid := 1; lrh_vl_lver := 0; lrh_sl_rsv_lnh := 2; lrh_slid := 2; lrh_pktlen := 7 |}.
Definition demo_bth (op psn : Z) : pib_packet_bth :=
  {| bth_OpCode := op; bth_se_m_padcnt_tver := 0; bth_pkey := 0xFFFF; bth_destQP := 7; bth_psn := psn |}.

Lemma demo_room : slot_room demo_st.
Proof. unfold slot_room. simpl. lia. Qed.



Lemma fatal_nak_never_sent_witness :
  exists s', nak_and_error (PP := demo_params) 20 PIB_SYND_NAK_CODE_INV_REQ_ERR IB_EVENT_QP_REQ_ERR demo_st = Some (-1, s')
  /\ pib_generate_rc_qp_acknowledge (PP := demo_params) s' = Some (0, s').
Proof.
  destruct (fatal_nak_never_sent (PP := demo_params) [0; 1; 2; 3; 4] demo_st 20 PIB_SYND_NAK_CODE_INV_REQ_ERR IB_EVENT_QP_REQ_ERR)
    as (s' & E & _ & _ & Hg); [exact demo_wf|].
  exists s'. split; [exact E|exact Hg].
Defined.

(** Compare with 5, swap 99, on a cell that does not hold 5. *)
Definition demo_cas : list Z :=
  atomiceth_bytes {| at_vaddr := 0x10010; at_rkey := 0x200000; at_swap_dt := 99; at_cmp_dt := 5 |}.

Lemma cas_executed_as_fetch_add_witness :
  (mem_read64 (st_mem demo_st) 0x8010 =? 5) = false /\
  exists s', receive_Atomic_request (PP := demo_params) 20 IB_OPCODE_COMPARE_SWAP demo_cas demo_st = Some (1, s')
  /\ mem_read64 (st_mem s') 0x8010 = mem_read64 (st_mem demo_st) 0x8010 + 5.
Proof.
  split; [vm_compute; reflexivity|].
  destruct (cas_executed_as_fetch_add (PP := demo_params) [0; 1; 2; 3; 4] demo_st 20 demo_cas demo_mr
    {| um_offset := 0; um_page_size := 4096; um_pages := [Some 0x8000] |}) as (s' & E & H).
  - exact demo_wf.
  - exact demo_room.
  - vm_compute. reflexivity.
  - vm_compute. reflexivity.
  - vm_compute. split; [discriminate|reflexivity].
  - vm_compute. reflexivity.
  - vm_compute. reflexivity.
  - vm_compute. reflexivity.
  - reflexivity.
  - unfold mr_wf. simpl. split_and!; try done. exists 12. split_and!; try done. repeat constructor. by eexists.
  - reflexivity.
  - reflexivity.
  - reflexivity.
  - intros x. simpl. unfold mem_example. apply Z.mod_pos_bound. lia.
  - vm_compute. split; discriminate.
  - exists s'. split; [exact E|]. vm_compute in H. vm_compute. exact H.
Defined.
