(* ===== verification/Ud.v ===== *)
(** * UD transport (driver/pib_ud.c)

    The requester builds one packet per work queue entry; the receiver filters a
    datagram, copies it behind 40 bytes kept for a global route header into the
    memory of a receive entry, and completes it.

    An address handle is a number; its attributes are found in the parameter [ahs].
    An entry whose union holds no UD part has none either. *)

From S2P Require Import Prelude Verbs Lib ObjNum Cq Srq Mr State Sched Qp Packet Wire Rc RcRsp.

Section Ud.
Context {PP : Params} (ahs : gmap Z ib_ah_attr).

Definition IB_OPCODE_UD_SEND_ONLY : Z := 0x64.
Definition IB_OPCODE_UD_SEND_ONLY_WITH_IMMEDIATE : Z := 0x65.
Definition IB_QP1_QKEY : Z := 0x80010000.
Definition IB_WC_GRH : Z := 1.
Definition UD_DIRECTED_ROUTE : Z := 0x81.
Definition UD_LID_PERMISSIVE : Z := 0xFFFF.

(** ** The requester *)

(** ah, remote_qpn, remote_qkey, pkey_index *)
Definition wr_ud (wr : send_wr) : option (Z * Z) * Z * Z * Z :=
  match wr with WrUd ah qpn qkey pkey _ => (ah, qpn, qkey, pkey) | _ => (None, 0, 0, 0) end.

(** The label completion_error. *)
Definition ud_request_error (id : Z) (status : ib_wc_status) : M st Z :=
  upd_qp (fun q => q <| qp_state := IB_QPS_SQE |>) ;;
  let! q := the_qp in
  let! w := get_swqe id in
  qp_insert_wc_error (qp_send_cq q) (w_wr_id w) status (w_opcode w) ;;
  BUG_ON (negb (bool_decide (p_list_type (w_processing w) = PIB_SWQE_SENDING))) ;;
  swqe_list_del id ;;
  upd_req (fun r => r <| rq_nr_sending ::= fun n => n - 1 |>) ;;
  upd_proc id (fun p => p <| p_list_type := PIB_SWQE_FREE |>) ;;
  pib_util_flush_qp true ;;
  ret (-1).

(** The checks before a packet is built: the attributes of the address handle. *)
Definition ud_check (q : pib_qp) (w : pib_send_wqe) : option ib_ah_attr :=
  let '(ah, _, _, pkey_index) := wr_ud (w_wr w) in
  if negb ((w_opcode w =? IB_WR_SEND) || (w_opcode w =? IB_WR_SEND_WITH_IMM)) then None
  else match ah with
  | None => None
  | Some (num, pd) =>
      if PIB_PKEY_TABLE_LEN <=? pkey_index then None
      else if negb (qp_pd q =? pd) then None
      else
        attr ← ahs !! num;
        let port_num := ah_port_num attr in
        if (port_num <? 1) || (phys_port_cnt <? port_num) then None
        else if bool_decide (qp_type q = IB_QPT_UD) && negb (a_port_num (qp_attr q) =? port_num) then None
        else Some attr
  end.

(** The correction for SMPs looks at the place of the payload before the payload is
    copied there. *)
Definition smp_lids (b : list Z) (pos : Z) (lrh : pib_packet_lrh) : pib_packet_lrh :=
  let at_smp f := Fld (Z.to_nat pos + f_off f) (f_len f) in
  if be_get (at_smp (Fld 1 1)) b =? UD_DIRECTED_ROUTE then
    let lrh := if be_get (at_smp (Fld 32 2)) b =? UD_LID_PERMISSIVE then lrh <| lrh_slid := UD_LID_PERMISSIVE |> else lrh in
    if be_get (at_smp (Fld 34 2)) b =? UD_LID_PERMISSIVE then lrh <| lrh_dlid := UD_LID_PERMISSIVE |> else lrh
  else lrh.

(** The packet is sent and the entry done. *)
Definition ud_sent (id port_num slid dlid : Z) : M st Z :=
  let! q := the_qp in
  upd_thread (fun t => t <| th_port_num := port_num |> <| th_slid := slid |> <| th_dlid := dlid |>
    <| th_src_qp_num := qp_num q |> <| th_trace_id := id |> <| th_ready_to_send := true |>) ;;
  upd_qp (fun q => q <| qp_attr ::= fun a => a <| a_sq_psn ::= fun n => u32 (n + 1) |> |>) ;;
  swqe_list_del id ;;
  upd_req (fun r => r <| rq_nr_sending ::= fun n => n - 1 |>) ;;
  upd_proc id (fun p => p <| p_list_type := PIB_SWQE_FREE |>) ;;
  let! w := get_swqe id in
  if negb (i_sq_sig_all (qp_init_attr q) || has_flag (w_send_flags w) IB_SEND_SIGNALED) then ret 0
  else
    let! opcode := of_option (pib_convert_wr_opcode_to_wc_opcode (w_opcode w)) in
    qp_insert_wc_success (qp_send_cq q) (wc_init (w_wr_id w) IB_WC_SUCCESS opcode (qp_num q)) false ;;
    ret 0.

Definition pib_process_ud_qp_request (id : Z) : M st Z :=
  let! w := get_swqe id in
  let! q := the_qp in
  let '(_, remote_qpn, remote_qkey, pkey_index) := wr_ud (w_wr w) in
  match ud_check q w with
  | None => ud_request_error id IB_WC_LOC_QP_OP_ERR
  | Some ah =>
      let with_imm := w_opcode w =? IB_WR_SEND_WITH_IMM in
      let port_num := ah_port_num ah in
      let! port := the_port port_num in
      let slid := port_lid port in
      let dlid := ah_dlid ah in
      let! b := send_buffer in
      put_buffer (buf_write b 0 (replicate 68 0)) ;;
      let! grh := (if has_flag (ah_ah_flags ah) IB_AH_GRH then let! g := pib_fill_grh port_num (ah_grh ah) in ret (Some g)
                   else ret None) in
      let lnh := if has_flag (ah_ah_flags ah) IB_AH_GRH then 3 else 2 in
      let! pkey := of_option (port_pkey_table port !! Z.to_nat pkey_index) in
      let bth := {| bth_OpCode := if with_imm then IB_OPCODE_UD_SEND_ONLY_WITH_IMMEDIATE else IB_OPCODE_UD_SEND_ONLY;
                    bth_se_m_padcnt_tver := 0; bth_pkey := pkey; bth_destQP := u32 remote_qpn;
                    bth_psn := Z.land (u32 (a_sq_psn (qp_attr q))) PIB_PSN_MASK |} in
      let lrh := {| lrh_dlid := dlid; lrh_vl_lver := 0; lrh_sl_rsv_lnh := u8 (Z.lor (Z.shiftl (ah_sl ah) 4) lnh);
                    lrh_slid := slid; lrh_pktlen := 0 |} in
      let h := {| h_lrh := lrh; h_grh := grh; h_bth := bth |} in
      put_hdrs h ;;
      let qkey := if s32 remote_qkey <? 0 then a_qkey (qp_attr q) else remote_qkey in
      let! pos := put_at (hdrs_size h) (deth_bytes {| deth_qkey := qkey; deth_srcQP := qp_num q |}) in
      let! pos := (if with_imm then put_at pos (le_split 4 (w_ex w)) else ret pos) in
      let! b := send_buffer in
      let h := if remote_qpn =? 0 then {| h_lrh := smp_lids b pos lrh; h_grh := grh; h_bth := bth |} else h in
      put_hdrs h ;;
      if negb (p_all_packets (w_processing w) =? 1) then ud_request_error id IB_WC_LOC_LEN_ERR
      else
        let! status := put_payload w pos 0 (w_total_length w) in
        if negb (bool_decide (status = IB_WC_SUCCESS)) then ud_request_error id status
        else
          finish_packet h (pos + w_total_length w) (has_flag (w_send_flags w) IB_SEND_SOLICITED) ;;
          ud_sent id port_num slid dlid
  end.

(** ** The receiver *)

(** The checks that come before a receive entry is taken: the source QP, the
    immediate data and the payload of a datagram that passes them. *)
Definition ud_accept (q : pib_qp) (port_num : Z) (bth : pib_packet_bth) (buffer : list Z) : option (pib_packet_deth * Z * list Z) :=
  let with_imm := bth_OpCode bth =? IB_OPCODE_UD_SEND_ONLY_WITH_IMMEDIATE in
  if negb (pib_is_recv_ok (qp_state q)) then None
  else if negb ((bth_OpCode bth =? IB_OPCODE_UD_SEND_ONLY) || with_imm) then None
  else if has_flag (bth_psn bth) 0x80000000 then None
  else if Zlen buffer <? DETH_SIZE then None
  else
    let deth := deth_of buffer in
    let buffer := drop 8 buffer in
    if bool_decide (qp_type q = IB_QPT_UD) && negb (a_port_num (qp_attr q) =? port_num) then None
    else
      let qkey_ok := match qp_type q with
                     | IB_QPT_SMI => true
                     | IB_QPT_GSI => deth_qkey deth =? IB_QP1_QKEY
                     | _ => deth_qkey deth =? a_qkey (qp_attr q)
                     end in
      if negb qkey_ok then None
      else if with_imm then
        if Zlen buffer <? 4 then None else Some (deth, le_combine (take 4 buffer), drop 4 buffer)
      else Some (deth, 0, buffer).

(** The next receive entry, off its queue. *)
Definition ud_take_recv : M st (option pib_recv_wqe) :=
  let! q := the_qp in
  match i_srq (qp_init_attr q) with
  | Some n =>
      let! srqs := gets st_srqs in
      let! srq := of_option (srqs !! n) in
      let '(w, ev, srq') := pib_util_get_srq srq in
      modify (fun s => s <| st_srqs ::= <[n := srq']> |>) ;;
      emit ev ;;
      ret w
  | None =>
      match rs_recv_wqes (qp_responder q) with
      | [] => ret None
      | recv_wqe :: _ =>
          upd_rsp (fun r => r <| rs_recv_wqes ::= tail |> <| rs_nr_recv_wqe ::= fun n => n - 1 |>) ;;
          ret (Some recv_wqe)
      end
  end.

(** The global route header at the start of the memory, the payload 40 bytes on. *)
Definition ud_copy (recv_wqe : pib_recv_wqe) (grh : option ib_grh) (payload : list Z) : M st ib_wc_status :=
  let! status := (match grh with
                  | Some g => copy_to_sgl (rwqe_sge_array recv_wqe) (grh_bytes g) 0 GRH_SIZE
                  | None => ret IB_WC_SUCCESS
                  end) in
  if bool_decide (status = IB_WC_SUCCESS) then copy_to_sgl (rwqe_sge_array recv_wqe) payload GRH_SIZE (Zlen payload)
  else ret status.

(** The labels completion_error and abort_error: both report to the send CQ. *)
Definition ud_completion_error (recv_wqe : pib_recv_wqe) (status : ib_wc_status) : M st unit :=
  upd_qp (fun q => q <| qp_state := IB_QPS_ERR |>) ;;
  let! q := the_qp in
  qp_insert_wc_error (qp_send_cq q) (rwqe_wr_id recv_wqe) status IB_WC_RECV ;;
  pib_util_flush_qp false ;;
  upd_qp (fun q => q <| qp_push_rcqe := true |>) ;;
  pib_util_free_recv_wqe.

Definition ud_abort_error (recv_wqe : pib_recv_wqe) : M st unit :=
  let! q := the_qp in
  qp_insert_wc_error (qp_send_cq q) (rwqe_wr_id recv_wqe) IB_WC_REM_ABORT_ERR IB_WC_RECV ;;
  upd_qp (fun q => q <| qp_push_rcqe := true |>) ;;
  pib_util_free_recv_wqe.

Definition ud_wc (q : pib_qp) (recv_wqe : pib_recv_wqe) (lrh : pib_packet_lrh) (grh : option ib_grh) (bth : pib_packet_bth)
    (deth : pib_packet_deth) (imm_data : Z) (payload : list Z) : ib_wc :=
  (wc_init (rwqe_wr_id recv_wqe) IB_WC_SUCCESS IB_WC_RECV (qp_num q))
    <| wc_byte_len := Zlen payload + 40 |> <| wc_ex := imm_data |>
    <| wc_src_qp := Z.land (deth_srcQP deth) PIB_QPN_MASK |> <| wc_slid := lrh_slid lrh |>
    <| wc_flags := Z.lor (match grh with Some _ => IB_WC_GRH | None => 0 end)
                     (if bth_OpCode bth =? IB_OPCODE_UD_SEND_ONLY_WITH_IMMEDIATE then IB_WC_WITH_IMM else 0) |>.

Definition pib_receive_ud_qp_incoming_message (port_num : Z) (lrh : pib_packet_lrh) (grh : option ib_grh) (bth : pib_packet_bth)
    (buffer : list Z) : M st unit :=
  let! q := the_qp in
  match ud_accept q port_num bth buffer with
  | None => ret tt
  | Some (deth, imm_data, payload) =>
      let! taken := ud_take_recv in
      match taken with
      | None => ret tt
      | Some recv_wqe =>
          if rwqe_total_length recv_wqe <? Zlen payload then pib_util_free_recv_wqe
          else
            let! status := ud_copy recv_wqe grh payload in
            if bool_decide (status = IB_WC_SUCCESS) then
              qp_insert_wc_success (qp_recv_cq q) (ud_wc q recv_wqe lrh grh bth deth imm_data payload)
                (negb (pib_packet_bth_get_padcnt bth =? 0)) ;;
              upd_qp (fun q => q <| qp_push_rcqe := true |> <| qp_attr ::= fun a => a <| a_rq_psn ::= fun n => u32 (n + 1) |> |>) ;;
              pib_util_free_recv_wqe
            else if bool_decide (status = IB_WC_LOC_LEN_ERR) then
              match i_srq (qp_init_attr q) with
              | Some _ => ud_abort_error recv_wqe
              | None => pib_util_free_recv_wqe
              end
            else ud_completion_error recv_wqe status
      end
  end.
End Ud.
