(* ===== verification/UdThm.v ===== *)
(** * UD transport: theorems about receiving datagrams

    A datagram is delivered exactly, or dropped, or ends the QP; whatever arrives,
    memory changes only where a local write is granted. *)

From S2P Require Import Prelude Verbs Lib ObjNum Cq Srq Mr MrSafe State Demo Sched Qp QpInv QpThm Packet Wire Rc RcRsp RcResp RcInv Ud.

#[local] Arguments del : simpl never.

Section UdThm.
Context {PP : Params}.

(** ** What a handler of datagrams leaves alone *)

#[local] Hint Resolve side_insert_wc_error side_insert_wc_success side_flush side_free_recv : obeys.
#[local] Hint Resolve fixed_insert_wc_error fixed_insert_wc_success fixed_flush fixed_free_recv : obeys.

Lemma fixed_take : keeps fixed ud_take_recv.
Proof. unfold ud_take_recv, emit, the_qp, upd_rsp, upd_qp. obey. Qed.

(** The entry taken is one of those posted. *)
Lemma wp_take ids s (Q : option pib_recv_wqe -> st -> Prop) : qp_wf ids s -> side s ->
  (forall w s', qp_wf ids s' -> side s' -> fixed s' = fixed s -> qp_state (st_qp s') = qp_state (st_qp s) ->
     qp_requester (st_qp s') = qp_requester (st_qp s) -> st_cqs s' = st_cqs s ->
     rs_recv_wqes (qp_responder (st_qp s')) = rs_recv_wqes (qp_responder (st_qp s))
     \/ rs_recv_wqes (qp_responder (st_qp s')) = tail (rs_recv_wqes (qp_responder (st_qp s))) ->
     from_option recv_ok True w -> Q w s') ->
  wp ud_take_recv Q s.
Proof.
  intros Hwf Hside HQ. pose proof Hside as (S1 & S2 & S3 & S4 & S5). pose proof Hwf as [(E1 & E2 & E3 & E4 & E5 & E6) W2 W3 W4].
  unfold ud_take_recv, the_qp, emit, upd_rsp, upd_qp. do 2 wp_step. destruct (i_srq (qp_init_attr (st_qp s))) as [n|] eqn:En.
  - do 2 wp_step. destruct E4 as [srq Hs]. rewrite Hs. do 2 wp_step. destruct (get_srq_recv_ok srq (S1 _ _ Hs)) as [G1 G2].
    destruct (pib_util_get_srq srq) as [[w ev] srq']. simpl in G1, G2. wp_run. apply HQ; try done; [| |by left|].
    + apply wf_events. split; [|done..]. unfold qp_env. simpl. rewrite En, lookup_insert_eq. split_and?; try done; apply E5 || lia.
    + split; [|split_and!; try done; apply S5]. simpl. by apply map_Forall_insert_2.
    + destruct w as [w|]; [by apply G2|done].
  - wp_step; [wp_step; apply HQ; try done; by left|]. wp_run. apply Forall_cons in S2 as [Hw Hl]. apply HQ; try done.
    + apply (wf_rsp ids (fun r => r <| rs_recv_wqes ::= tail |> <| rs_nr_recv_wqe ::= fun n => n - 1 |>)); [done|].
      simpl. rewrite W4, Heql. simpl. rewrite Zlen_cons. lia.
    + split_and!; try done; try apply S5. simpl. by rewrite Heql.
    + right. simpl. by rewrite Heql.
Qed.

(** What a datagram leaves: the invariants, memory outside the regions that grant a
    local write, and either the requests with at most one receive taken, or the QP
    in error with everything flushed. *)
Definition ud_post (ids : list Z) (s s' : st) : Prop :=
  qp_wf ids s' /\ side s' /\ st_pd s' = st_pd s /\ changed_in (granted (st_pd s) IB_ACCESS_LOCAL_WRITE) (st_mem s) (st_mem s')
  /\ (qp_state (st_qp s') = qp_state (st_qp s) /\ qp_requester (st_qp s') = qp_requester (st_qp s)
        /\ (rs_recv_wqes (qp_responder (st_qp s')) = rs_recv_wqes (qp_responder (st_qp s))
            \/ rs_recv_wqes (qp_responder (st_qp s')) = tail (rs_recv_wqes (qp_responder (st_qp s))))
      \/ qp_state (st_qp s') = IB_QPS_ERR /\ outstanding (qp_requester (st_qp s')) = []
        /\ rs_recv_wqes (qp_responder (st_qp s')) = []).

Lemma ud_post_refl ids s : qp_wf ids s -> side s -> ud_post ids s s.
Proof. intros H1 H2. split; [done|]. split; [done|]. split; [done|]. split; [apply changed_in_refl|]. left. auto. Qed.

(** Steps that keep the QP's lists, the memory and the domain. *)
Lemma ud_post_step ids s s1 s' : ud_post ids s s1 -> qp_wf ids s' -> side s' -> st_pd s' = st_pd s1 -> st_mem s' = st_mem s1 ->
  qp_state (st_qp s') = qp_state (st_qp s1) -> qp_requester (st_qp s') = qp_requester (st_qp s1) ->
  rs_recv_wqes (qp_responder (st_qp s')) = rs_recv_wqes (qp_responder (st_qp s1)) -> ud_post ids s s'.
Proof. intros (P1 & P2 & P3 & P4 & P5) Hwf Hs E1 E2 E3 E4 E5. unfold ud_post. rewrite E1, E2, E3, E4, E5. done. Qed.

Lemma wp_side {A} (m : M st A) (Q : A -> st -> Prop) s : obeys (pres side) m -> side s ->
  wp m (fun a s' => side s' -> Q a s') s -> wp m Q s.
Proof. unfold wp. intros H Hs. specialize (H s). destruct (m s) as [[a s']|]; [|done]. intros HQ. by apply HQ, (H a). Qed.

Lemma wp_post_free ids s s1 (Q : unit -> st -> Prop) : ud_post ids s s1 -> (forall s', ud_post ids s s' -> Q tt s') ->
  wp pib_util_free_recv_wqe Q s1.
Proof.
  intros Hp HQ. pose proof Hp as ([W1 W2 W3 W4] & Hs & _). apply wp_side; [apply side_free_recv|done|]. apply wp_free_recv_wqe; [done|].
  intros s' ((rs & Hq) & F1 & F2 & _) He _ Hr Hn Hs'. apply HQ. eapply ud_post_step; [exact Hp| |done|done|done|by rewrite Hq..|done].
  split; [done|by rewrite Hq..|by rewrite Hn, Hr].
Qed.

(** A completion changes none of it. *)
Lemma ud_post_cq ids s s1 s' : ud_post ids s s1 -> qp_wf ids s' -> side s' -> cq_frame s1 s' -> ud_post ids s s'.
Proof. intros Hp Hwf Hs (F1 & _ & F3 & F4 & _). eapply ud_post_step; [exact Hp|done|done|done|done|by rewrite F1..]. Qed.

Lemma wp_post_wc_error ids s s1 c w status op (Q : unit -> st -> Prop) : ud_post ids s s1 ->
  c = qp_send_cq (st_qp s1) \/ c = qp_recv_cq (st_qp s1) ->
  (forall s', ud_post ids s s' -> Q tt s') -> wp (qp_insert_wc_error c w status op) Q s1.
Proof.
  intros Hp Hc HQ. pose proof Hp as (Hwf & Hs & _). apply wp_side; [apply side_insert_wc_error|done|].
  apply (wp_wc_error ids); [done|done|]. intros s' Hwf' Hf Hs'. apply HQ. by eapply ud_post_cq.
Qed.

Lemma wp_post_wc_success ids s s1 c wc b (Q : Z -> st -> Prop) : ud_post ids s s1 ->
  c = qp_send_cq (st_qp s1) \/ c = qp_recv_cq (st_qp s1) ->
  (forall n s', ud_post ids s s' -> Q n s') -> wp (qp_insert_wc_success c wc b) Q s1.
Proof.
  intros Hp Hc HQ. pose proof Hp as (Hwf & Hs & _). apply wp_side; [apply side_insert_wc_success|done|].
  apply (wp_wc_success ids); [done|done|]. intros n s' cq Hwf' Hf _ _ Hs'. apply HQ. by eapply ud_post_cq.
Qed.

(** Flags and counters of the QP. *)
Lemma ud_post_qp ids s s1 f : ud_post ids s s1 ->
  (forall q, qp_same_env q (f q) /\ qp_requester (f q) = qp_requester q /\ qp_responder (f q) = qp_responder q /\ qp_state (f q) = qp_state q) ->
  ud_post ids s (s1 <| st_qp ::= f |>).
Proof.
  intros Hp Hf. pose proof Hp as (Hwf & Hs & _). destruct (Hf (st_qp s1)) as (E1 & E2 & E3 & E4).
  eapply ud_post_step; [exact Hp| | |done|done|exact E4|exact E2|simpl; by rewrite E3].
  - apply qp_wf_state; [|done]. intros q. destruct (Hf q) as (? & ? & ? & _). done.
  - unfold side. simpl. rewrite E3. exact Hs.
Qed.

Lemma ud_post_mem ids s s1 m : ud_post ids s s1 -> changed_in (granted (st_pd s1) IB_ACCESS_LOCAL_WRITE) (st_mem s1) m ->
  ud_post ids s (s1 <| st_mem := m |>).
Proof.
  intros (P1 & P2 & P3 & P4 & P5) Hm. split; [by apply wf_mem|]. split; [exact P2|]. split; [exact P3|]. split; [|exact P5].
  rewrite P3 in Hm. by eapply changed_in_trans.
Qed.

Lemma wp_post_copy ids s s1 sges b o n (Q : ib_wc_status -> st -> Prop) : ud_post ids s s1 -> pd_wf (st_pd s) ->
  Forall sge_range_ok sges -> 0 <= o < 2 ^ 32 -> 0 <= n < 2 ^ 32 ->
  (forall status s', ud_post ids s s' -> qp_recv_cq (st_qp s') = qp_recv_cq (st_qp s1) -> Q status s') -> wp (copy_to_sgl sges b o n) Q s1.
Proof.
  intros Hp Hpd Hs Ho Hn HQ. apply wp_copy_to_sgl; [by rewrite (proj1 (proj2 (proj2 Hp)))|done..|]. intros status m Hm.
  apply HQ; [by apply ud_post_mem|done].
Qed.

(** The error exit. *)
Lemma wp_ud_error ids s s1 w status (Q : unit -> st -> Prop) : ud_post ids s s1 -> (forall s', ud_post ids s s' -> Q tt s') ->
  wp (ud_completion_error w status) Q s1.
Proof.
  intros Hp HQ. pose proof Hp as (Hwf & Hs & P3 & P4 & _). unfold ud_completion_error, upd_qp, the_qp. do 4 wp_step.
  set (s2 := s1 <| st_qp ::= _ |>). assert (qp_wf ids s2) as Hwf2 by (by apply (qp_wf_state ids s1)).
  wp_step. apply wp_side; [apply side_insert_wc_error|exact Hs|].
  apply (wp_wc_error ids); [done|by left|]. intros s3 Hwf3 (F1 & _ & F3 & F4 & _) Hs3. wp_step. apply wp_side; [apply side_flush|done|].
  apply (wp_flush_qp ids); [done|]. intros s4 (R1 & R2 & _ & _ & R5 & _ & R7 & R8 & R9 & _) Hs4. do 2 wp_step.
  apply (wp_post_free ids s); [|exact HQ]. apply ud_post_qp; [|done]. split; [done|]. split; [done|].
  rewrite R8, F3. split; [exact P3|]. rewrite R9, F4. split; [exact P4|]. right. rewrite R7, F1. split; [done|]. split; [done|]. by apply R5.
Qed.

Lemma accept_length q port bth b d i l : ud_accept q port bth b = Some (d, i, l) -> 0 <= Zlen l <= Zlen b.
Proof.
  intros H. unfold Zlen. split; [lia|]. unfold ud_accept in H. cbv zeta in H.
  repeat match type of H with (if ?c then None else _) = _ => destruct c; [done|] end.
  destruct (_ =? IB_OPCODE_UD_SEND_ONLY_WITH_IMMEDIATE).
  - destruct (_ <? 4); [done|]. injection H as _ _ <-. rewrite !length_drop. lia.
  - injection H as _ _ <-. rewrite length_drop. lia.
Qed.

(** ** Theorems *)

(** Whatever datagram reaches a UD, SMI or GSI QP, the receiver handles it without
    failing, keeps the queue-pair invariant and its own, and changes memory only
    where a region of the domain grants a local write.  A datagram that fails one
    of the checks changes nothing at all; any other takes at most one receive, or
    puts the QP in error with all requests and receives flushed. *)
Theorem ud_datagram_safe (ids : list Z) (s : st) (port_num : Z) (lrh : pib_packet_lrh) (grh : option ib_grh)
    (bth : pib_packet_bth) (buffer : list Z) (Hwf : qp_wf ids s) (Hside : side s) (Hpd : pd_wf (st_pd s)) (Hlen : Zlen buffer < 2 ^ 32) :
  exists s', pib_receive_ud_qp_incoming_message port_num lrh grh bth buffer s = Some (tt, s') /\ ud_post ids s s'
  /\ (ud_accept (st_qp s) port_num bth buffer = None -> s' = s).
Proof.
  enough (wp (pib_receive_ud_qp_incoming_message port_num lrh grh bth buffer)
    (fun _ s' => ud_post ids s s' /\ (ud_accept (st_qp s) port_num bth buffer = None -> s' = s)) s) as H.
  { unfold wp in H. destruct (pib_receive_ud_qp_incoming_message _ _ _ _ _ s) as [[[] s']|]; [by exists s'|done]. }
  unfold pib_receive_ud_qp_incoming_message, the_qp. do 2 wp_step.
  destruct (ud_accept _ _ _ _) as [[[deth imm] payload]|] eqn:Ha; [|wp_step; split; [by apply ud_post_refl|done]].
  pose proof (accept_length _ _ _ _ _ _ _ Ha) as Hl. wp_step. apply (wp_take ids); [done|done|].
  intros w s1 Hwf1 Hs1 Hf1 Hst1 Hr1 _ Hq1 Hw. pose proof (fixed_inv _ _ Hf1) as (F1 & F2 & _ & _ & _ & _ & F7 & F8).
  assert (ud_post ids s s1) as P1.
  { split; [done|]. split; [done|]. split; [done|]. split; [rewrite F2; apply changed_in_refl|]. by left. }
  destruct w as [w|]; [|wp_step; by split]. simpl in Hw.
  wp_step; [by apply (wp_post_free ids s); [|split]|]. wp_step.
  assert (forall s2 status, ud_post ids s s2 -> qp_recv_cq (st_qp s2) = qp_recv_cq (st_qp s) ->
    wp (if bool_decide (status = IB_WC_SUCCESS) then
          qp_insert_wc_success (qp_recv_cq (st_qp s)) (ud_wc (st_qp s) w lrh grh bth deth imm payload) (negb (pib_packet_bth_get_padcnt bth =? 0)) ;;
          upd_qp (fun q => q <| qp_push_rcqe := true |> <| qp_attr ::= fun a => a <| a_rq_psn ::= fun n => u32 (n + 1) |> |>) ;;
          pib_util_free_recv_wqe
        else if bool_decide (status = IB_WC_LOC_LEN_ERR) then
          match i_srq (qp_init_attr (st_qp s)) with Some _ => ud_abort_error w | None => pib_util_free_recv_wqe end
        else ud_completion_error w status) (fun _ s' => ud_post ids s s' /\ (Some (deth, imm, payload) = None -> s' = s)) s2) as Hend.
  { intros s2 status P2 Hc. wp_step; [|wp_step; [wp_step|]].
    - wp_step. apply (wp_post_wc_success ids s); [done|by right|]. intros n s3 P3. unfold upd_qp. do 2 wp_step.
      apply (wp_post_free ids s); [by apply ud_post_qp|by split].
    - unfold ud_abort_error, the_qp, upd_qp. do 3 wp_step. apply (wp_post_wc_error ids s); [done|by left|]. intros s3 P3. do 2 wp_step.
      apply (wp_post_free ids s); [by apply ud_post_qp|by split].
    - apply (wp_post_free ids s); [done|by split].
    - apply (wp_ud_error ids s); [done|by split]. }
  unfold ud_copy. destruct grh as [g|].
  - wp_step. apply (wp_post_copy ids s); [done..|]. intros st1 s2 P2 C2. wp_step; [|wp_step; apply Hend; [done|congruence]].
    apply (wp_post_copy ids s); [done|done|done|done|lia|]. intros st2 s3 P3 C3. apply Hend; [done|congruence].
  - do 2 wp_step. cbn [bool_decide]. rewrite bool_decide_eq_true_2 by done.
    apply (wp_post_copy ids s); [done|done|done|done|lia|]. intros st2 s3 P3 C3. apply Hend; [done|congruence].
Qed.

(** A copy that fits: the bytes are where the list says. *)
Lemma wp_copy_exact sges bytes o s (Q : ib_wc_status -> st -> Prop) :
  Forall (sge_ok (st_pd s) IB_ACCESS_LOCAL_WRITE) sges -> 0 <= o -> 0 < Zlen bytes <= PIB_MAX_PAYLOAD_LEN ->
  o + Zlen bytes < 2 ^ 64 -> o + Zlen bytes <= sgl_length sges -> NoDup (sgl_addrs (st_pd s) sges) ->
  (forall m, m <$> slice o (Zlen bytes) (sgl_addrs (st_pd s) sges) = bytes ->
     (forall x, x ∉ slice o (Zlen bytes) (sgl_addrs (st_pd s) sges) -> m x = st_mem s x) -> Q IB_WC_SUCCESS (s <| st_mem := m |>)) ->
  wp (copy_to_sgl sges bytes o (Zlen bytes)) Q s.
Proof.
  intros H1 H2 H3 H4 H5 H6 HQ. unfold copy_to_sgl. do 2 wp_step.
  destruct (scatter_effect (st_pd s) sges (st_mem s) bytes o IB_ACCESS_LOCAL_WRITE) as (m & -> & Hb & Ho); try done.
  do 5 wp_step. by apply HQ.
Qed.

(** Two consecutive ranges of a list without duplicates are disjoint. *)
Lemma slice_disjoint {A} (l : list A) a n x : NoDup l -> 0 <= a -> x ∈ slice 0 a l -> x ∉ slice a n l.
Proof.
  intros Hl Ha. unfold slice. rewrite drop_0. rewrite <- (take_drop (Z.to_nat a) l) in Hl. apply NoDup_app in Hl as (_ & Hd & _).
  intros H1 H2. apply (Hd x H1). by apply elem_of_take in H2 as (i & H2 & _); apply (list_elem_of_lookup_2 _ i).
Qed.

(** The bytes a datagram puts in memory: its global route header, then its payload. *)
Definition ud_image (grh : option ib_grh) (payload addrs : list Z) (m m' : mem) : Prop :=
  m' <$> slice GRH_SIZE (Zlen payload) addrs = payload
  /\ (match grh with
      | Some g => m' <$> slice 0 GRH_SIZE addrs = grh_bytes g
      | None => forall x, x ∈ slice 0 GRH_SIZE addrs -> m' x = m x
      end)
  /\ forall x, x ∉ slice 0 GRH_SIZE addrs -> x ∉ slice GRH_SIZE (Zlen payload) addrs -> m' x = m x.

Lemma wp_ud_copy w grh payload s (Q : ib_wc_status -> st -> Prop) :
  Forall (sge_ok (st_pd s) IB_ACCESS_LOCAL_WRITE) (rwqe_sge_array w) -> NoDup (sgl_addrs (st_pd s) (rwqe_sge_array w)) ->
  0 < Zlen payload <= PIB_MAX_PAYLOAD_LEN -> GRH_SIZE + Zlen payload <= sgl_length (rwqe_sge_array w) ->
  match grh with Some g => grh_ok g | None => True end ->
  (forall m, ud_image grh payload (sgl_addrs (st_pd s) (rwqe_sge_array w)) (st_mem s) m -> Q IB_WC_SUCCESS (s <| st_mem := m |>)) ->
  wp (ud_copy w grh payload) Q s.
Proof.
  intros Hok Hnd Hp Hend Hg HQ. unfold ud_copy. set (addrs := sgl_addrs (st_pd s) (rwqe_sge_array w)) in *.
  assert (PIB_MAX_PAYLOAD_LEN < 2 ^ 63 /\ GRH_SIZE = 40) as [Hmax HG] by done. destruct grh as [g|].
  - assert (Zlen (grh_bytes g) = 40) as Hl by (unfold Zlen; by rewrite length_grh). wp_step. change GRH_SIZE with 40. rewrite <- Hl.
    apply wp_copy_exact; [done|done|rewrite Hl; done|rewrite Hl; done|rewrite Hl; lia|done|]. rewrite Hl. fold addrs. intros m1 M1 O1.
    rewrite bool_decide_eq_true_2 by done. apply wp_copy_exact; [done|done|done|lia|rewrite HG in Hend; done|done|]. intros m2 M2 O2. simpl in M2, O2.
    fold addrs in M2, O2. apply HQ. split; [exact M2|]. split.
    + etransitivity; [|exact M1]. apply list_fmap_ext. intros i x Hx. apply O2. apply slice_disjoint; [done|done|]. by apply (list_elem_of_lookup_2 _ i).
    + intros x H1 H2. rewrite O2 by done. by apply O1.
  - do 2 wp_step. rewrite bool_decide_eq_true_2 by done. apply wp_copy_exact; [done|done|done|lia|done|done|]. intros m2 M2 O2. fold addrs in M2, O2.
    apply HQ. split; [exact M2|]. split; [|intros x _; apply O2]. intros x Hx. apply O2. by apply slice_disjoint.
Qed.

Section Delivery.
Variables (ids : list Z) (s : st) (port_num : Z) (lrh : pib_packet_lrh) (grh : option ib_grh) (bth : pib_packet_bth) (buffer : list Z)
  (deth : pib_packet_deth) (imm : Z) (payload : list Z) (w : pib_recv_wqe) (l : list pib_recv_wqe) (cq : pib_cq).
Hypothesis Hwf : qp_wf ids s.
Hypothesis Hsrq : i_srq (qp_init_attr (st_qp s)) = None.
Hypothesis Hacc : ud_accept (st_qp s) port_num bth buffer = Some (deth, imm, payload).
Hypothesis Hrecv : rs_recv_wqes (qp_responder (st_qp s)) = w :: l.
Hypothesis Hlen : 0 < Zlen payload <= rwqe_total_length w.
Hypothesis Hmax : Zlen payload <= PIB_MAX_PAYLOAD_LEN.
Hypothesis Hok : Forall (sge_ok (st_pd s) IB_ACCESS_LOCAL_WRITE) (rwqe_sge_array w).
Hypothesis Hnd : NoDup (sgl_addrs (st_pd s) (rwqe_sge_array w)).
Hypothesis Hend : GRH_SIZE + Zlen payload <= sgl_length (rwqe_sge_array w).
Hypothesis Hgrh : match grh with Some g => grh_ok g | None => True end.
Hypothesis Hcq : st_cqs s !! qp_recv_cq (st_qp s) = Some cq.
Hypothesis Hcst : cq_state cq = PIB_STATE_OK.
Hypothesis Hroom : cq_free_cqe_head cq <> [].

Let wc := ud_wc (st_qp s) w lrh grh bth deth imm payload.
Let cq' := snd (insert_wc (smi_port_of (st_qp s)) wc (negb (pib_packet_bth_get_padcnt bth =? 0)) cq).

Lemma wp_ud_delivered : wp (pib_receive_ud_qp_incoming_message port_num lrh grh bth buffer) (fun _ s' =>
    ud_image grh payload (sgl_addrs (st_pd s) (rwqe_sge_array w)) (st_mem s) (st_mem s')
    /\ rs_recv_wqes (qp_responder (st_qp s')) = l /\ st_cqs s' = <[qp_recv_cq (st_qp s) := cq']> (st_cqs s)
    /\ a_rq_psn (qp_attr (st_qp s')) = u32 (a_rq_psn (qp_attr (st_qp s)) + 1)
    /\ qp_requester (st_qp s') = qp_requester (st_qp s) /\ qp_state (st_qp s') = qp_state (st_qp s) /\ qp_wf ids s') s.
Proof.
  unfold pib_receive_ud_qp_incoming_message, the_qp. do 2 wp_step. rewrite Hacc. unfold ud_take_recv, the_qp, upd_rsp, upd_qp. do 3 wp_step.
  rewrite Hsrq, Hrecv. do 3 wp_step. rewrite (proj2 (Z.ltb_ge _ _)) by lia.
  set (s1 := s <| st_qp ::= _ |>). assert (qp_wf ids s1) as Hwf1.
  { apply (wf_rsp ids (fun r => r <| rs_recv_wqes ::= tail |> <| rs_nr_recv_wqe ::= fun n => n - 1 |>)); [done|].
    simpl. rewrite (wf_recv _ _ Hwf), Hrecv. simpl. rewrite Zlen_cons. lia. }
  wp_step. apply wp_ud_copy; [done|done|lia|done|done|]. intros m Hm. rewrite bool_decide_eq_true_2 by done. wp_step.
  apply (wp_wc_success ids); [by apply wf_mem|by right|]. intros n s2 cq0 Hwf2 Hf Hl Hcqs. pose proof Hf as (F1 & _ & _ & F4 & _). simpl in Hl, Hcqs.
  assert (cq0 = cq) as -> by congruence. do 2 wp_step. set (s3 := s2 <| st_qp ::= _ |>).
  assert (qp_wf ids s3) as Hwf3 by (by apply (qp_wf_state ids s2)). apply wp_free_recv_wqe; [apply Hwf3|].
  intros s4 ((rs & Hq) & R1 & R2 & _) He Hc Hr Hn. rewrite Hc, R2, Hr. destruct Hwf3 as [V1 V2 V3 V4].
  split; [change (st_mem s3) with (st_mem s2); rewrite F4; exact Hm|]. split; [simpl; rewrite F1; simpl; by rewrite Hrecv|]. split; [exact Hcqs|].
  rewrite Hq. split; [simpl; by rewrite F1|]. split; [simpl; by rewrite F1|]. split; [simpl; by rewrite F1|].
  split; [done|by rewrite Hq..|by rewrite Hn, Hr].
Qed.

Lemma delivered_wc : cq_cqe_head cq' = cq_cqe_head cq ++ [match smi_port_of (st_qp s) with Some p => wc <| wc_port_num := p |> | None => wc end].
Proof.
  unfold cq', insert_wc. rewrite Hcst. case_bool_decide; [done|]. destruct (cq_free_cqe_head cq) as [|f fs]; [done|]. by destruct (_ && _).
Qed.

(** A datagram that passes the checks and fits the oldest receive is delivered:
    its payload is in the memory the receive names, 40 bytes on, behind the global
    route header if it has one, and no other byte of memory changes; the receive is
    taken off the queue; the receive CQ gets one completion at its end, with the
    length, the source and the immediate data of the datagram; the packet sequence
    number advances; requests and the other completion queues are left alone. *)
Theorem ud_delivery :
  let wc := ud_wc (st_qp s) w lrh grh bth deth imm payload in
  exists s' cq', pib_receive_ud_qp_incoming_message port_num lrh grh bth buffer s = Some (tt, s')
  /\ ud_image grh payload (sgl_addrs (st_pd s) (rwqe_sge_array w)) (st_mem s) (st_mem s')
  /\ rs_recv_wqes (qp_responder (st_qp s')) = l
  /\ st_cqs s' = <[qp_recv_cq (st_qp s) := cq']> (st_cqs s)
  /\ cq_cqe_head cq' = cq_cqe_head cq ++ [match smi_port_of (st_qp s) with Some p => wc <| wc_port_num := p |> | None => wc end]
  /\ a_rq_psn (qp_attr (st_qp s')) = u32 (a_rq_psn (qp_attr (st_qp s)) + 1)
  /\ qp_requester (st_qp s') = qp_requester (st_qp s) /\ qp_state (st_qp s') = qp_state (st_qp s) /\ qp_wf ids s'.
Proof.
  intros wc0. pose proof wp_ud_delivered as H. unfold wp in H. destruct (pib_receive_ud_qp_incoming_message _ _ _ _ _ s) as [[[] s']|]; [|done].
  destruct H as (H1 & H2 & H3 & H4 & H5 & H6 & H7). exists s', cq'. do 4 (split; [done|]). split; [exact delivered_wc|done].
Qed.
End Delivery.
End UdThm.

(** ** Witnesses *)

#[local] Existing Instance demo_params.

Definition ud_demo : st := demo_st <| st_qp ::= fun q => q <| qp_type := IB_QPT_UD |> |>.
Definition ud_demo_bth : pib_packet_bth :=
  {| bth_OpCode := IB_OPCODE_UD_SEND_ONLY; bth_se_m_padcnt_tver := 0; bth_pkey := 0xFFFF; bth_destQP := 7; bth_psn := 0 |}.
Definition ud_demo_lrh : pib_packet_lrh := {| lrh_dlid := 1; lrh_vl_lver := 0; lrh_sl_rsv_lnh := 2; lrh_slid := 2; lrh_pktlen := 8 |}.
Definition ud_demo_deth : pib_packet_deth := {| deth_qkey := 0; deth_srcQP := 9 |}.
Definition ud_demo_packet : list Z := deth_bytes ud_demo_deth ++ [7; 8; 9].

Lemma ud_demo_wf : qp_wf [0; 1; 2; 3; 4] ud_demo.
Proof. destruct demo_wf as [W1 W2 W3 W4]. split; [apply qp_env_upd; [done|exact W1]|exact W2|exact W3|exact W4]. Qed.

Lemma ud_demo_mr : mr_wf demo_mr.
Proof. unfold mr_wf. simpl. split_and!; try done. exists 12. split_and!; try done. repeat constructor. by eexists. Qed.

Lemma ud_demo_sge : sge_ok (st_pd ud_demo) IB_ACCESS_LOCAL_WRITE {| sge_addr := 0x10010; sge_length := 600; sge_lkey := 0x100000 |}.
Proof.
  split; [done|]. replace (pd_mr_table _ !! _) with (Some demo_mr) by (vm_compute; reflexivity).
  split; [exact ud_demo_mr|]. simpl. split_and!; done || lia.
Qed.

Lemma ud_datagram_safe_witness :
  exists s', pib_receive_ud_qp_incoming_message 1 ud_demo_lrh None ud_demo_bth ud_demo_packet ud_demo = Some (tt, s')
    /\ qp_wf [0; 1; 2; 3; 4] s'.
Proof.
  destruct (ud_datagram_safe [0; 1; 2; 3; 4] ud_demo 1 ud_demo_lrh None ud_demo_bth ud_demo_packet) as (s' & H1 & (H2 & _) & _).
  - exact ud_demo_wf.
  - split; [apply map_Forall_empty|]. split; [repeat constructor; unfold sge_range_ok; simpl; lia|]. split; [done|]. split; [done|]. simpl. lia.
  - apply map_Forall_singleton. intros _. exact ud_demo_mr.
  - vm_compute. done.
  - exists s'. split; [exact H1|exact H2].
Defined.

(** Three bytes from QP 9 land 40 bytes behind the start of the receive. *)
Lemma ud_delivery_witness :
  exists s', pib_receive_ud_qp_incoming_message 1 ud_demo_lrh None ud_demo_bth ud_demo_packet ud_demo = Some (tt, s')
    /\ map (st_mem s') [0x8038; 0x8039; 0x803A] = [7; 8; 9] /\ rs_recv_wqes (qp_responder (st_qp s')) = [].
Proof.
  destruct (ud_delivery [0; 1; 2; 3; 4] ud_demo 1 ud_demo_lrh None ud_demo_bth ud_demo_packet ud_demo_deth 0 [7; 8; 9] demo_rwqe []
    (demo_cq 2)) as (s' & cq' & H1 & (H2 & _) & H3 & _).
  - exact ud_demo_wf.
  - reflexivity.
  - vm_compute. reflexivity.
  - reflexivity.
  - vm_compute. done.
  - vm_compute. done.
  - constructor; [exact ud_demo_sge|constructor].
  - apply (bool_decide_unpack _). vm_compute. exact I.
  - vm_compute. done.
  - exact I.
  - vm_compute. reflexivity.
  - reflexivity.
  - done.
  - exists s'. split; [exact H1|]. split; [exact H2|exact H3].
Defined.
