(* ===== verification/Requester.v ===== *)
(** * The requester's queues (driver/pib_thread.c: process_on_qp_scheduler)

    One pass of the scheduler over a queue pair: acknowledges of the responder go
    first, then requests whose acknowledge timer expired are put back in front of
    the queue, then the first request of the queue sends its next packet, or the
    next submitted request is taken up and given its range of packet sequence
    numbers.  The pass ends by computing when the QP is due again.  The counters
    dev->perf keeps for statistics and the trace records are not part of the state. *)

From S2P Require Import Prelude Verbs Lib ObjNum Cq Srq Mr State Sched Qp Packet Wire Rc RcRsp RcResp Ud.

Section Requester.
Context {PP : Params} (ahs : gmap Z ib_ah_attr).

(** ** Taking up a submitted request *)

(** Whether the first submitted request has to wait. *)
Definition new_send_blocked (r : requester_t) (w : pib_send_wqe) : bool :=
  (has_flag (w_send_flags w) IB_SEND_FENCE
   && ((0 <? rq_nr_rd_atomic r)
       || ((w_opcode w =? IB_WR_LOCAL_INV) && ((0 <? rq_nr_sending r) || (0 <? rq_nr_waiting r)))))
  || (pib_is_wr_opcode_rd_atomic (w_opcode w) && (rq_max_rd_atomic r <=? rq_nr_rd_atomic r)).

(** What the request starts with: its range of packet sequence numbers, nothing
    sent, timers and retry counts. *)
Definition start_processing (q : pib_qp) (now num_packets : Z) (p : pib_swqe_processing) : pib_swqe_processing :=
  p <| p_list_type := PIB_SWQE_SENDING |>
    <| p_based_psn := rq_expected_psn (qp_requester q) |>
    <| p_expected_psn := u32 (rq_expected_psn (qp_requester q) + num_packets) |>
    <| p_all_packets := num_packets |> <| p_ack_packets := 0 |> <| p_sent_packets := 0 |>
    <| p_schedule_time := now |> <| p_local_ack_time := u64 (now + PIB_SCHED_TIMEOUT) |>
    <| p_retry_cnt := a_retry_cnt (qp_attr q) |> <| p_rnr_retry := a_rnr_retry (qp_attr q) |>.

Definition process_new_send_wr : M st bool :=
  let! q := the_qp in
  if negb (bool_decide (qp_state q = IB_QPS_RTS)) then ret false
  else
    let r := qp_requester q in
    match rq_submitted r with
    | [] => ret false
    | id :: _ =>
        let! w := get_swqe id in
        if new_send_blocked r w then ret false
        else
          when (pib_is_wr_opcode_rd_atomic (w_opcode w)) (upd_req (fun r => r <| rq_nr_rd_atomic ::= Z.add 1 |>)) ;;
          swqe_list_del id ;;
          upd_req (fun r => r <| rq_sending ::= fun l => l ++ [id] |> <| rq_nr_submitted ::= fun n => n - 1 |>
                              <| rq_nr_sending ::= Z.add 1 |>) ;;
          let! now := gets st_now in
          let num_packets := pib_get_num_of_packets (qp_type q) (a_path_mtu (qp_attr q)) (w_total_length w) in
          upd_proc id (start_processing q now num_packets) ;;
          upd_req (fun r => r <| rq_expected_psn ::= fun n => u32 (n + num_packets) |>) ;;
          ret true
    end.

(** ** Sending the next packet of a request *)

(** The label completion_error. *)
Definition send_wr_error (id : Z) (status : ib_wc_status) : M st Z :=
  let! q := the_qp in
  let! w := get_swqe id in
  qp_insert_wc_error (qp_send_cq q) (w_wr_id w) status (w_opcode w) ;;
  swqe_list_del id ;;
  upd_req (fun r => r <| rq_nr_sending ::= fun n => n - 1 |>) ;;
  upd_proc id (fun p => p <| p_list_type := PIB_SWQE_FREE |>) ;;
  (match qp_type q with
   | IB_QPT_RC => upd_qp (fun q => q <| qp_state := IB_QPS_ERR |>) ;; pib_util_flush_qp false
   | IB_QPT_UD | IB_QPT_GSI | IB_QPT_SMI => upd_qp (fun q => q <| qp_state := IB_QPS_SQE |>) ;; pib_util_flush_qp true
   | _ => bug
   end) ;;
  ret (-1).

Definition process_send_wr (id : Z) : M st Z :=
  let! q := the_qp in
  let! w := get_swqe id in
  BUG_ON (negb (bool_decide (p_list_type (w_processing w) = PIB_SWQE_SENDING))) ;;
  let status := p_status (w_processing w) in
  if negb (bool_decide (status = IB_WC_SUCCESS)) then send_wr_error id status
  else match qp_type q with
  | IB_QPT_RC => pib_process_rc_qp_request id
  | IB_QPT_UD | IB_QPT_GSI | IB_QPT_SMI => pib_process_ud_qp_request ahs id
  | _ => bug
  end.

(** ** The pass *)

(** The first waiting request is local: it is done, with an error completion and
    the QP in error if it failed, and its entry is released. *)
Definition local_only_done (id : Z) : M st unit :=
  let! r := (if negb (param_bit pib_behavior PIB_BEHAVIOR_RELAXED_INVALIDATION_ORDERING)
             then pib_process_local_only_request id else ret 0) in
  let! q := the_qp in
  let! w := get_swqe id in
  when (negb (r =? 0))
    (qp_insert_wc_error (qp_send_cq q) (w_wr_id w) (p_status (w_processing w)) (w_opcode w) ;;
     match qp_type q with
     | IB_QPT_RC => upd_qp (fun q => q <| qp_state := IB_QPS_ERR |>) ;; pib_util_flush_qp false
     | _ => bug
     end) ;;
  swqe_list_del id ;;
  upd_req (fun r => r <| rq_nr_waiting ::= fun n => n - 1 |>) ;;
  upd_proc id (fun p => p <| p_list_type := PIB_SWQE_FREE |>) ;;
  pib_util_free_send_wqe id.

(** One waiting request goes to the front of the sending list. *)
Definition requeue (id : Z) : M st unit :=
  upd_proc id (fun p => p <| p_list_type := PIB_SWQE_SENDING |>) ;;
  swqe_list_del id ;;
  upd_req (fun r => r <| rq_sending ::= cons id |> <| rq_nr_waiting ::= fun n => n - 1 |> <| rq_nr_sending ::= Z.add 1 |>).

(** The acknowledge timer of [id] expired: all waiting requests are put back, last
    first, and every request starts again behind its last acknowledged packet. *)
Definition retry_waiting (id : Z) : M st unit :=
  let! now := gets st_now in
  upd_proc id (fun p => p <| p_retry_cnt ::= fun n => n - 1 |> <| p_local_ack_time := u64 (now + PIB_SCHED_TIMEOUT) |>) ;;
  let! r := the_req in
  for_each requeue (rev (rq_waiting r)) ;;
  let! r := the_req in
  for_each (fun id => upd_proc id (fun p => p <| p_sent_packets := p_ack_packets p |>)) (rq_sending r).

(** Where the request is after its packet was sent. *)
Definition after_send (id : Z) : M st unit :=
  let! w := get_swqe id in
  match p_list_type (w_processing w) with
  | PIB_SWQE_FREE => pib_util_free_send_wqe id
  | PIB_SWQE_SENDING => ret tt
  | PIB_SWQE_WAITING =>
      swqe_list_del id ;;
      upd_req (fun r => r <| rq_waiting ::= fun l => l ++ [id] |> <| rq_nr_sending ::= fun n => n - 1 |>
                          <| rq_nr_waiting ::= Z.add 1 |>)
  | _ => bug
  end.

(** The first request of the sending list, unless something holds it back. *)
Definition send_first : M st unit :=
  let! now := gets st_now in
  let! r := the_req in
  let! id := of_option (head (rq_sending r)) in
  let! w := get_swqe id in
  if negb (bool_decide (p_status (w_processing w) = IB_WC_SUCCESS)) && negb (bool_decide (rq_waiting r = [])) then ret tt
  else if PIB_MAX_CONTIG_REQUESTS <? rq_nr_contig_requests r then ret tt
  else if time_after (p_schedule_time (w_processing w)) now then ret tt
  else
    upd_proc id (fun p => p <| p_schedule_time := now |>) ;;
    process_send_wr id ;;
    after_send id.

(** The label first_sending_wsqe.  A request that was taken up is on the list. *)
Definition first_sending_wsqe : M st unit :=
  let! r := the_req in
  match rq_sending r with
  | [] => let! taken := process_new_send_wr in if taken then send_first else ret tt
  | _ :: _ => send_first
  end.

(** The requester's part. *)
Definition requester_pass : M st unit :=
  let! q := the_qp in
  let! now := gets st_now in
  if negb (bool_decide (qp_state q = IB_QPS_RTS)) && negb (bool_decide (qp_state q = IB_QPS_SQD)) then ret tt
  else match rq_waiting (qp_requester q) with
  | [] => first_sending_wsqe
  | id :: _ =>
      let! w := get_swqe id in
      if w_local_only_request w then local_only_done id
      else if time_after (p_local_ack_time (w_processing w)) now then first_sending_wsqe
      else retry_waiting id ;; first_sending_wsqe
  end.

(** One pass over the QP the scheduler chose, up to the transmission of the packet
    that was built. *)
Definition process_on_qp_scheduler : M st unit :=
  let! q := the_qp in
  let! sent := (match qp_type q with IB_QPT_RC => pib_generate_rc_qp_acknowledge | _ => ret 0 end) in
  when (negb (sent =? 1)) requester_pass ;;
  pib_util_reschedule_qp.
End Requester.
