(* ===== verification/RequesterThm.v ===== *)
(** * The requester's queues: theorems

    Requests keep the order in which they were posted through submission, sending,
    waiting and retransmission; the ranges of packet sequence numbers of the
    outstanding requests follow each other without a gap; a pass of the scheduler
    keeps this and the queue-pair invariant, and returns. *)

From S2P Require Import Prelude Verbs Lib ObjNum Cq Srq Mr MrSafe State Demo Sched Qp QpInv QpThm Packet Wire Rc RcThm RcRsp RcResp RcInv Ud Requester.

(** ** Entries *)

(** The entry [id] is in the store and satisfies [P]. *)
Definition ent (m : gmap Z pib_send_wqe) (P : pib_send_wqe -> Prop) (id : Z) : Prop := exists w, m !! id = Some w /\ P w.

Lemma ent_mono m (P Q : pib_send_wqe -> Prop) id : (forall w, P w -> Q w) -> ent m P id -> ent m Q id.
Proof. intros H (w & Hw & HP). exists w. auto. Qed.

Lemma ents_mono m (P Q : pib_send_wqe -> Prop) l : (forall w, P w -> Q w) -> Forall (ent m P) l -> Forall (ent m Q) l.
Proof. intros H Hl. eapply Forall_impl; [exact Hl|]. intros id. by apply ent_mono. Qed.

Lemma ents_alter m f k (P : pib_send_wqe -> Prop) l :
  (forall w, P w -> P (f w)) -> Forall (ent m P) l -> Forall (ent (alter f k m) P) l.
Proof.
  intros Hf Hl. eapply Forall_impl; [exact Hl|]. intros id (w & Hw & HP). destruct (decide (k = id)) as [->|Hne].
  - exists (f w). rewrite lookup_alter_eq, Hw. auto.
  - exists w. by rewrite lookup_alter_ne.
Qed.

Lemma ents_alter_notin m f k (P : pib_send_wqe -> Prop) l : k ∉ l -> Forall (ent m P) l -> Forall (ent (alter f k m) P) l.
Proof.
  rewrite !Forall_forall. intros Hk H id Hid. destruct (H id Hid) as (w & Hw & HP). exists w. split; [|done].
  rewrite lookup_alter_ne; [done|]. intros ->. done.
Qed.

(** The requests [ids] cover the packet sequence numbers from [a] up to [e]: each
    starts where the one before ends. *)
Fixpoint psn_tiles (m : gmap Z pib_send_wqe) (ids : list Z) (a e : Z) : Prop :=
  match ids with
  | [] => a = e
  | id :: ids' => exists w, m !! id = Some w /\ p_based_psn (w_processing w) = a
                    /\ psn_tiles m ids' (p_expected_psn (w_processing w)) e
  end.

Lemma psn_tiles_snoc m ids id w b e : m !! id = Some w -> p_based_psn (w_processing w) = b ->
  p_expected_psn (w_processing w) = e -> forall a, psn_tiles m ids a b -> psn_tiles m (ids ++ [id]) a e.
Proof.
  intros Hw Hb He. induction ids as [|k ids IH]; simpl.
  - intros a ->. exists w. auto.
  - intros a (v & Hv & Hbv & Ht). exists v. auto.
Qed.

(** An entry changed elsewhere than in its range. *)
Lemma psn_tiles_alter m f k ids e :
  (forall w, p_based_psn (w_processing (f w)) = p_based_psn (w_processing w)
          /\ p_expected_psn (w_processing (f w)) = p_expected_psn (w_processing w)) ->
  forall a, psn_tiles m ids a e -> psn_tiles (alter f k m) ids a e.
Proof.
  intros Hf. induction ids as [|id ids IH]; simpl; [done|]. intros a (w & Hw & Hb & Ht).
  destruct (decide (k = id)) as [->|Hne].
  - exists (f w). rewrite lookup_alter_eq, Hw. destruct (Hf w) as [-> ->]. auto.
  - exists w. rewrite lookup_alter_ne by done. auto.
Qed.

Lemma psn_tiles_alter_notin m f k ids e : k ∉ ids -> forall a, psn_tiles m ids a e -> psn_tiles (alter f k m) ids a e.
Proof.
  induction ids as [|id ids IH]; simpl; [done|]. rewrite not_elem_of_cons. intros [Hne Hk] a (w & Hw & Hb & Ht).
  exists w. rewrite lookup_alter_ne by done. auto.
Qed.

(** The same change made to several entries, in turn. *)
Definition alter_all (f : pib_send_wqe -> pib_send_wqe) (l : list Z) (m : gmap Z pib_send_wqe) : gmap Z pib_send_wqe :=
  fold_left (fun m id => alter f id m) l m.

Lemma lookup_alter_all f l : forall m k, NoDup l -> alter_all f l m !! k = if decide (k ∈ l) then f <$> m !! k else m !! k.
Proof.
  induction l as [|id l IH]; intros m k Hn; unfold alter_all in *; cbn [fold_left];
    [by rewrite decide_False by apply not_elem_of_nil|].
  apply NoDup_cons in Hn as [Hid Hn]. rewrite IH by done. destruct (decide (k = id)) as [->|Hne].
  - rewrite decide_False by done. rewrite decide_True by by left. by rewrite lookup_alter_eq.
  - rewrite lookup_alter_ne by done. by rewrite (decide_ext (k ∈ id :: l) (k ∈ l)) by (rewrite elem_of_cons; naive_solver).
Qed.

Lemma psn_tiles_alter_all f l ids a e :
  (forall w, p_based_psn (w_processing (f w)) = p_based_psn (w_processing w)
          /\ p_expected_psn (w_processing (f w)) = p_expected_psn (w_processing w)) ->
  forall m, psn_tiles m ids a e -> psn_tiles (alter_all f l m) ids a e.
Proof. intros Hf. induction l as [|k l IH]; intros m H; [done|]. apply IH. by apply psn_tiles_alter. Qed.

Lemma rq_own_alter_all ids out f l : forall r, rq_own ids out r -> rq_own ids out (r <| rq_swqes ::= alter_all f l |>).
Proof. induction l as [|k l IH]; intros r H; [by destruct r|]. pose proof (IH _ (rq_own_alter _ _ _ f k H)) as H1. by destruct r. Qed.

(** ** The invariant of the requester *)

(** What posting leaves in an entry that is not a local operation: its opcode is known,
    its SGEs are within their integer types and the inline data is there if it is
    announced. *)
Definition posted (w : pib_send_wqe) : Prop :=
  w_local_only_request w = false /\ 0 <= w_total_length w <= PIB_MAX_PAYLOAD_LEN
  /\ is_Some (pib_convert_wr_opcode_to_wc_opcode (w_opcode w)) /\ Forall sge_range_ok (w_sge_array w)
  /\ (has_flag (w_send_flags w) IB_SEND_INLINE = true -> exists b, w_inline_data_buffer w = Some b /\ w_total_length w <= Zlen b).

(** A request taken up: its packets are counted, the last one is not acknowledged. *)
Definition started (q : pib_qp) (w : pib_send_wqe) : Prop :=
  let p := w_processing w in
  posted w /\ p_all_packets p = pib_get_num_of_packets (qp_type q) (a_path_mtu (qp_attr q)) (w_total_length w)
  /\ p_expected_psn p = u32 (p_based_psn p + p_all_packets p) /\ 0 <= p_ack_packets p < p_all_packets p.
Definition sending (q : pib_qp) (w : pib_send_wqe) : Prop :=
  let p := w_processing w in started q w /\ p_list_type p = PIB_SWQE_SENDING /\ 0 <= p_sent_packets p < p_all_packets p.

(** How many of the requests are RDMA READs or Atomics. *)
Definition is_rd_atomic (m : gmap Z pib_send_wqe) (id : Z) : bool :=
  match m !! id with Some w => pib_is_wr_opcode_rd_atomic (w_opcode w) | None => false end.
Definition rd_atomics (m : gmap Z pib_send_wqe) (l : list Z) : Z := Zlen (List.filter (is_rd_atomic m) l).

Lemma rd_atomics_app m l k : rd_atomics m (l ++ k) = rd_atomics m l + rd_atomics m k.
Proof. unfold rd_atomics. rewrite List.filter_app. apply Zlen_app. Qed.

Lemma rd_atomics_one m id w : m !! id = Some w -> rd_atomics m [id] = if pib_is_wr_opcode_rd_atomic (w_opcode w) then 1 else 0.
Proof. intros Hw. unfold rd_atomics, is_rd_atomic. simpl. rewrite Hw. by destruct (pib_is_wr_opcode_rd_atomic (w_opcode w)). Qed.

Lemma is_rd_atomic_alter m f k id : (forall w, w_opcode (f w) = w_opcode w) -> is_rd_atomic (alter f k m) id = is_rd_atomic m id.
Proof.
  intros Hf. unfold is_rd_atomic. destruct (decide (k = id)) as [->|Hne]; [|by rewrite lookup_alter_ne].
  rewrite lookup_alter_eq. destruct (m !! id); simpl; [by rewrite Hf|done].
Qed.

Lemma rd_atomics_ext m m' l : (forall id, is_rd_atomic m' id = is_rd_atomic m id) -> rd_atomics m' l = rd_atomics m l.
Proof. intros H. unfold rd_atomics. f_equal. apply List.filter_ext. intros id. apply H. Qed.

Lemma rd_atomics_alter m f k l : (forall w, w_opcode (f w) = w_opcode w) -> rd_atomics (alter f k m) l = rd_atomics m l.
Proof. intros Hf. apply rd_atomics_ext. intros id. by apply is_rd_atomic_alter. Qed.

Lemma rd_atomics_alter_all f l ids : (forall w, w_opcode (f w) = w_opcode w) ->
  forall m, rd_atomics (alter_all f l m) ids = rd_atomics m ids.
Proof.
  intros Hf. unfold alter_all. induction l as [|k l IH]; intros m; [done|]. simpl. rewrite IH. by apply rd_atomics_alter.
Qed.

Record req_inv (q : pib_qp) : Prop := {
  ri_submitted : Forall (ent (rq_swqes (qp_requester q)) posted) (rq_submitted (qp_requester q));
  ri_sending : Forall (ent (rq_swqes (qp_requester q)) (sending q)) (rq_sending (qp_requester q));
  ri_waiting : Forall (ent (rq_swqes (qp_requester q)) (started q)) (rq_waiting (qp_requester q));
  ri_psn : exists a, psn_tiles (rq_swqes (qp_requester q)) (rq_waiting (qp_requester q) ++ rq_sending (qp_requester q)) a
                       (rq_expected_psn (qp_requester q));
  ri_rd : rq_nr_rd_atomic (qp_requester q)
          = rd_atomics (rq_swqes (qp_requester q)) (rq_waiting (qp_requester q) ++ rq_sending (qp_requester q))
}.

(** The invariant looks at the type and the path MTU of the QP and at the requester. *)
Lemma req_inv_same q q' : qp_requester q' = qp_requester q -> qp_type q' = qp_type q -> qp_attr q' = qp_attr q ->
  req_inv q -> req_inv q'.
Proof.
  intros Hr Ht Ha [H1 H2 H3 H4 H5]. split; rewrite Hr; [exact H1| | |exact H4|exact H5].
  - unfold sending, started in *. by rewrite Ht, Ha.
  - unfold started in *. by rewrite Ht, Ha.
Qed.

Lemma req_inv_empty q : outstanding (qp_requester q) = [] -> rq_nr_rd_atomic (qp_requester q) = 0 -> req_inv q.
Proof.
  unfold outstanding. intros H H0. apply app_eq_nil in H as [Hw H]. apply app_eq_nil in H as [Hs Hu].
  split; rewrite ?Hw, ?Hs, ?Hu; [constructor..| |done]. by eexists.
Qed.

#[local] Arguments del : simpl never.

Section RequesterThm.
Context {PP : Params}.

(** Only the requester of the QP is changed, the order of the requests is kept. *)
Definition req_step (ids : list Z) (s s' : st) : Prop :=
  qp_wf ids s' /\ req_inv (st_qp s') /\ outstanding (qp_requester (st_qp s')) = outstanding (qp_requester (st_qp s))
  /\ exists r', s' = s <| st_qp ::= fun q => q <| qp_requester := r' |> |>.

Lemma wf_req ids s r' : qp_wf ids s -> rq_own ids [] r' -> rq_counts r' ->
  qp_wf ids (s <| st_qp ::= fun q => q <| qp_requester := r' |> |>).
Proof. intros [H1 H2 H3 H4] Ho Hc. split; [by apply qp_env_upd|done..]. Qed.

(** ** Taking up a request *)

(** The requester after the first submitted request [id], now described by [w], was
    taken up with [n] packets. *)
Definition taken (q : pib_qp) (now id : Z) (sub : list Z) (w : pib_send_wqe) : requester_t :=
  let r := qp_requester q in
  let n := pib_get_num_of_packets (qp_type q) (a_path_mtu (qp_attr q)) (w_total_length w) in
  r <| rq_nr_rd_atomic ::= Z.add (if pib_is_wr_opcode_rd_atomic (w_opcode w) then 1 else 0) |>
    <| rq_submitted := sub |> <| rq_nr_submitted ::= fun k => k - 1 |>
    <| rq_sending ::= fun l => l ++ [id] |> <| rq_nr_sending ::= Z.add 1 |>
    <| rq_swqes ::= alter (fun w => w <| w_processing ::= start_processing q now n |>) id |>
    <| rq_expected_psn ::= fun k => u32 (k + n) |>.

Lemma own_submitted ids r id sub : rq_own ids [] r -> rq_submitted r = id :: sub ->
  (id ∉ sub) /\ (id ∉ rq_sending r) /\ (id ∉ rq_waiting r) /\ (id ∉ rq_free r).
Proof.
  intros Ho Hs. destruct (own_disjoint _ _ _ Ho) as (_ & Hn & _ & _ & Hf & _ & _ & Hse & Hw & _). rewrite Hs in *.
  apply NoDup_cons in Hn as [Hn _]. split_and!; [done| | |].
  - intros Hc. apply (Hse _ Hc). by left.
  - intros Hc. apply (Hw _ Hc). by left.
  - apply Hf. by left.
Qed.

Lemma process_new_run ids s id sub w : rq_own ids [] (qp_requester (st_qp s)) -> qp_state (st_qp s) = IB_QPS_RTS ->
  rq_submitted (qp_requester (st_qp s)) = id :: sub -> rq_swqes (qp_requester (st_qp s)) !! id = Some w ->
  new_send_blocked (qp_requester (st_qp s)) w = false ->
  process_new_send_wr s = Some (true, s <| st_qp ::= fun q => q <| qp_requester := taken q (st_now s) id sub w |> |>).
Proof.
  intros Ho Hst Hsub Hw Hb. destruct (own_submitted _ _ _ _ Ho Hsub) as (N1 & N2 & N3 & N4).
  destruct s as [q ? ? ? ? ? ? ? ? ? ? ? ?]. destruct q as [? ? ? ? ? ? ? ? ? ? ? ? ? r ? ? ? ? ?]. destruct r. simpl in *. subst.
  unfold process_new_send_wr, the_qp, get_swqe, the_req, upd_proc, upd_swqe, swqe_list_del, upd_req, upd_qp, when, bind, gets, modify, ret.
  simpl. rewrite Hw. simpl. rewrite Hb. unfold taken. simpl.
  destruct (pib_is_wr_opcode_rd_atomic (w_opcode w)); simpl; rewrite del_head, !del_notin by done; done.
Qed.

Lemma num_packets_pos ty mtu len : 0 <= mtu -> 0 <= len <= PIB_MAX_PAYLOAD_LEN -> 0 < pib_get_num_of_packets ty mtu len.
Proof. intros Hm Hl. change PIB_MAX_PAYLOAD_LEN with (2 ^ 30) in Hl. rewrite pib_get_num_of_packets_spec by lia. unfold packets_of. lia. Qed.

Lemma taken_step ids s id sub w : qp_wf ids s -> req_inv (st_qp s) -> 0 <= a_path_mtu (qp_attr (st_qp s)) ->
  rq_submitted (qp_requester (st_qp s)) = id :: sub -> rq_swqes (qp_requester (st_qp s)) !! id = Some w ->
  req_step ids s (s <| st_qp ::= fun q => q <| qp_requester := taken q (st_now s) id sub w |> |>).
Proof.
  intros Hwf [I1 I2 I3 [a I4] I5] Hmtu Hsub Hw. pose proof (wf_own _ _ Hwf) as Ho. pose proof (wf_counts _ _ Hwf) as (C1 & C2 & C3).
  destruct (own_submitted _ _ _ _ Ho Hsub) as (N1 & N2 & N3 & N4). rewrite Hsub in I1, C1.
  apply Forall_cons in I1 as [(w' & Hw' & Hp) I1]. assert (w' = w) as -> by congruence. rewrite Zlen_cons in C1.
  pose proof (num_packets_pos (qp_type (st_qp s)) _ (w_total_length w) Hmtu (proj1 (proj2 Hp))) as Hn.
  split_and!; [| | |by eexists].
  - apply wf_req; [done| |].
    + eapply rq_own_perm; [eapply (rq_own_alter _ _ _ (fun w => w <| w_processing ::= _ |>) id Ho)|reflexivity|].
      unfold rq_lists. simpl. rewrite Hsub. apply Permutation_app_head.
      rewrite <- app_assoc. simpl. rewrite !app_assoc. symmetry. apply Permutation_middle.
    + unfold rq_counts, taken. simpl. rewrite C1, C2. split_and!; zlen.
  - split; simpl.
    + by apply ents_alter_notin.
    + apply Forall_app. split; [by apply ents_alter_notin|]. constructor; [|constructor].
      eexists. rewrite lookup_alter_eq, Hw. split; [reflexivity|]. unfold sending, started. simpl.
      split_and!; [exact Hp|..]; done || lia.
    + by apply ents_alter_notin.
    + exists a. rewrite app_assoc. eapply psn_tiles_snoc; [by rewrite lookup_alter_eq, Hw|reflexivity|reflexivity|].
      apply psn_tiles_alter_notin; [|exact I4]. rewrite elem_of_app. tauto.
    + rewrite I5, app_assoc, rd_atomics_alter, (rd_atomics_app _ (_ ++ _)) by done. rewrite (rd_atomics_one _ _ _ Hw). lia.
  - unfold outstanding. simpl. by rewrite Hsub, <- app_assoc.
Qed.

(** The first submitted request is taken up, or nothing happens: the QP is not
    ready to send, has no submitted request, or the request is blocked. *)
Lemma wp_process_new ids s (Q : bool -> st -> Prop) :
  qp_wf ids s -> req_inv (st_qp s) -> 0 <= a_path_mtu (qp_attr (st_qp s)) ->
  (forall id s', req_step ids s s' -> rq_sending (qp_requester (st_qp s')) = rq_sending (qp_requester (st_qp s)) ++ [id] ->
     rq_waiting (qp_requester (st_qp s')) = rq_waiting (qp_requester (st_qp s)) -> Q true s') ->
  Q false s -> wp process_new_send_wr Q s.
Proof.
  intros Hwf Hi Hmtu Ht Hf. destruct (decide (qp_state (st_qp s) = IB_QPS_RTS)) as [Hst|Hst];
    [|unfold process_new_send_wr, the_qp; wp_step; wp_step; rewrite (bool_decide_eq_false_2 _ Hst); exact Hf].
  destruct (rq_submitted (qp_requester (st_qp s))) as [|id sub] eqn:Hsub;
    [unfold process_new_send_wr, the_qp; wp_step; wp_step; rewrite (bool_decide_eq_true_2 _ Hst), Hsub; exact Hf|].
  pose proof (ri_submitted _ Hi) as Hw. rewrite Hsub in Hw. apply Forall_cons in Hw as [(w & Hw & _) _].
  destruct (new_send_blocked (qp_requester (st_qp s)) w) eqn:Hb.
  - unfold process_new_send_wr, the_qp, get_swqe, the_req. wp_step. wp_step. rewrite (bool_decide_eq_true_2 _ Hst), Hsub.
    cbn [negb]. do 3 wp_step. rewrite Hw. wp_step. rewrite Hb. exact Hf.
  - unfold wp. rewrite (process_new_run ids s id sub w) by (done || apply Hwf). eapply Ht; [by apply taken_step|done|done].
Qed.

(** ** Retransmission *)

Definition to_sending (w : pib_send_wqe) : pib_send_wqe := w <| w_processing ::= fun p => p <| p_list_type := PIB_SWQE_SENDING |> |>.
Definition rewind (w : pib_send_wqe) : pib_send_wqe := w <| w_processing ::= fun p => p <| p_sent_packets := p_ack_packets p |> |>.
Definition timed_out (now : Z) (w : pib_send_wqe) : pib_send_wqe :=
  w <| w_processing ::= fun p => p <| p_retry_cnt ::= fun n => n - 1 |> <| p_local_ack_time := u64 (now + PIB_SCHED_TIMEOUT) |> |>.

Definition with_req (s : st) (r : requester_t) : st := s <| st_qp ::= fun q => q <| qp_requester := r |> |>.

Lemma requeue_run s r id l : rq_waiting r = l ++ [id] -> NoDup (rq_lists r) ->
  requeue id (with_req s r) = Some (tt, with_req s (r <| rq_waiting := l |> <| rq_sending ::= cons id |>
    <| rq_nr_waiting ::= fun n => n - 1 |> <| rq_nr_sending ::= Z.add 1 |> <| rq_swqes ::= alter to_sending id |>)).
Proof.
  intros Hw Hn. unfold requeue, upd_proc, upd_swqe, swqe_list_del, upd_req, upd_qp, bind, modify, with_req.
  unfold rq_lists in Hn. rewrite Hw in Hn. destruct r. simpl in *. subst.
  rewrite !NoDup_app in Hn. setoid_rewrite elem_of_app in Hn. setoid_rewrite elem_of_app in Hn. setoid_rewrite list_elem_of_singleton in Hn.
  destruct Hn as (Hf & Hfd & Hu & Hud & Hse & Hsed & Hw & Hwd & _).
  rewrite del_last by (intros H; exact (Hwd _ H eq_refl)).
  rewrite (del_notin id rq_submitted) by (intros H; apply (Hud _ H); tauto).
  rewrite (del_notin id rq_sending) by (intros H; apply (Hsed _ H); tauto).
  by rewrite (del_notin id rq_free) by (intros H; apply (Hfd _ H); do 2 right; apply elem_of_app; right; by left).
Qed.

Lemma requeue_all s l : forall r, rq_waiting r = l -> NoDup (rq_lists r) ->
  for_each requeue (rev l) (with_req s r) = Some (tt, with_req s (r <| rq_waiting := [] |> <| rq_sending ::= app l |>
    <| rq_nr_waiting ::= fun n => n - Zlen l |> <| rq_nr_sending ::= Z.add (Zlen l) |> <| rq_swqes ::= alter_all to_sending (rev l) |>)).
Proof.
  induction l as [|id l IH] using rev_ind; intros r Hw Hn.
  - simpl. destruct r as [? ? ? ? ? ? ? ? ? ? ? ? ? ?]; simpl in *. subst. unfold alter_all. simpl. rewrite Zlen_nil, Z.sub_0_r. reflexivity.
  - rewrite rev_app_distr. simpl. rewrite (bind_run _ _ _ _ _ (requeue_run s r id l Hw Hn)). rewrite IH; [|done|].
    + destruct r; simpl in *. rewrite Zlen_app, Zlen_cons, Zlen_nil, <- app_assoc. simpl.
      do 2 f_equal. unfold with_req. destruct s. unfold set_field. simpl. do 3 f_equal; lia.
    + unfold rq_lists in *. simpl. rewrite Hw in Hn. eapply NoDup_Permutation_proper; [|exact Hn].
      do 2 apply Permutation_app_head. simpl. rewrite app_assoc. by rewrite <- Permutation_cons_append.
Qed.

Lemma rewind_all s l : forall r,
  for_each (fun id => upd_proc id (fun p => p <| p_sent_packets := p_ack_packets p |>)) l (with_req s r)
  = Some (tt, with_req s (r <| rq_swqes ::= alter_all rewind l |>)).
Proof.
  induction l as [|id l IH]; intros r.
  - by destruct r.
  - simpl. rewrite (bind_run _ _ _ tt (with_req s (r <| rq_swqes ::= alter rewind id |>))) by reflexivity.
    rewrite IH. reflexivity.
Qed.

(** The requester after all requests were put back and [g] was applied to [id] before,
    which is how a request loses a retry. *)
Definition retried (g : pib_send_wqe -> pib_send_wqe) (id : Z) (r : requester_t) : requester_t :=
  r <| rq_waiting := [] |> <| rq_sending ::= app (rq_waiting r) |>
    <| rq_nr_waiting ::= fun n => n - Zlen (rq_waiting r) |> <| rq_nr_sending ::= Z.add (Zlen (rq_waiting r)) |>
    <| rq_swqes ::= fun m => alter_all rewind (rq_waiting r ++ rq_sending r)
                              (alter_all to_sending (rev (rq_waiting r)) (alter g id m)) |>.

Lemma with_req_id s : with_req s (qp_requester (st_qp s)) = s.
Proof. by destruct s as [[] ? ? ? ? ? ? ? ? ? ? ? ?]. Qed.

Lemma retry_run s id : NoDup (rq_lists (qp_requester (st_qp s))) ->
  retry_waiting id s = Some (tt, with_req s (retried (timed_out (st_now s)) id (qp_requester (st_qp s)))).
Proof.
  intros Hn. rewrite <- (with_req_id s) at 1. set (r := qp_requester (st_qp s)) in *. unfold retry_waiting.
  rewrite (bind_run _ _ _ (st_now s) (with_req s r)) by reflexivity.
  rewrite (bind_run _ _ _ tt (with_req s (r <| rq_swqes ::= alter (timed_out (st_now s)) id |>))) by reflexivity.
  rewrite (bind_run _ _ _ (r <| rq_swqes ::= alter (timed_out (st_now s)) id |>) (with_req s (r <| rq_swqes ::= alter (timed_out (st_now s)) id |>)))
    by reflexivity.
  erewrite bind_run by (apply requeue_all; [reflexivity|exact Hn]).
  erewrite (bind_run the_req) by reflexivity. rewrite rewind_all. by destruct r.
Qed.

(** What becomes of the entry [k] when the timer of [id] expires. *)
Definition resent (g : pib_send_wqe -> pib_send_wqe) (id : Z) (r : requester_t) (k : Z) (w : pib_send_wqe) : pib_send_wqe :=
  let w := if decide (k = id) then g w else w in
  rewind (if decide (k ∈ rq_waiting r) then to_sending w else w).

Lemma retried_lookup g id r k w : NoDup (rq_waiting r ++ rq_sending r) -> k ∈ rq_waiting r ++ rq_sending r ->
  rq_swqes r !! k = Some w -> rq_swqes (retried g id r) !! k = Some (resent g id r k w).
Proof.
  intros Hn Hk Hw. unfold retried, resent. simpl. rewrite lookup_alter_all by done. rewrite decide_True by done.
  assert (NoDup (rev (rq_waiting r))) as Hr by (apply NoDup_app in Hn as [Hn _]; by rewrite <- Permutation_rev).
  rewrite lookup_alter_all by done. rewrite (decide_ext (k ∈ rev (rq_waiting r)) (k ∈ rq_waiting r)) by (by rewrite <- Permutation_rev).
  destruct (decide (k = id)) as [->|Hne].
  - rewrite lookup_alter_eq, Hw. by destruct (decide (id ∈ rq_waiting r)).
  - rewrite lookup_alter_ne, Hw by done. by destruct (decide (k ∈ rq_waiting r)).
Qed.

Lemma own_outstanding ids r : rq_own ids [] r ->
  NoDup (rq_waiting r ++ rq_sending r) /\ (forall k, k ∈ rq_submitted r -> k ∉ rq_waiting r ++ rq_sending r)
  /\ NoDup (rq_lists r).
Proof.
  intros Ho. destruct (own_disjoint _ _ _ Ho) as (_ & _ & Hse & Hw & _ & _ & _ & Hses & Hws & Hwse & _).
  split_and!; [apply NoDup_app; split_and!; auto| |by apply (rq_own_NoDup _ _ _ Ho)].
  intros k Hk. rewrite elem_of_app. intros [H|H]; [by apply (Hws _ H)|by apply (Hses _ H)].
Qed.

Lemma retried_other g id r k : NoDup (rq_waiting r ++ rq_sending r) -> id ∈ rq_waiting r ++ rq_sending r ->
  k ∉ rq_waiting r ++ rq_sending r -> rq_swqes (retried g id r) !! k = rq_swqes r !! k.
Proof.
  intros Hn Hid Hk. unfold retried. simpl. rewrite lookup_alter_all by done. rewrite decide_False by done.
  rewrite elem_of_app in Hk. rewrite lookup_alter_all by (apply NoDup_app in Hn as [Hn _]; by rewrite <- Permutation_rev).
  rewrite decide_False by (rewrite <- Permutation_rev; tauto). rewrite lookup_alter_ne; [done|]. intros ->. by apply Hk, elem_of_app.
Qed.

(** A change that leaves alone what the invariant is about. *)
Definition neutral (g : pib_send_wqe -> pib_send_wqe) : Prop :=
  forall w, exists p', g w = w <| w_processing := p' |> /\ let p := w_processing w in
    p_based_psn p' = p_based_psn p /\ p_expected_psn p' = p_expected_psn p /\ p_all_packets p' = p_all_packets p
    /\ p_list_type p' = p_list_type p /\ p_ack_packets p' = p_ack_packets p /\ p_sent_packets p' = p_sent_packets p.

Lemma neutral_timed_out now : neutral (timed_out now).
Proof. intros w. by eexists. Qed.

Lemma resent_sending q g id r k w : neutral g -> started q w -> (k ∈ rq_waiting r \/ sending q w) -> sending q (resent g id r k w).
Proof.
  intros Hg Hs H. unfold resent. destruct Hs as (Hp & Ha & He & Hk). destruct (Hg w) as (p' & Hgw & G1 & G2 & G3 & G4 & G5 & G6).
  assert (p_list_type (w_processing w) = PIB_SWQE_SENDING \/ k ∈ rq_waiting r) as Ht by (destruct H as [|(_ & ? & _)]; tauto).
  destruct (decide (k = id)), (decide (k ∈ rq_waiting r)); rewrite ?Hgw; unfold sending, started, posted in *; simpl;
    rewrite ?G1, ?G2, ?G3, ?G4, ?G5, ?G6; split_and!; try tauto; lia.
Qed.

Lemma retry_step ids s g id : neutral g -> qp_wf ids s -> req_inv (st_qp s) ->
  id ∈ rq_waiting (qp_requester (st_qp s)) ++ rq_sending (qp_requester (st_qp s)) ->
  req_step ids s (with_req s (retried g id (qp_requester (st_qp s)))).
Proof.
  intros Hg Hwf [I1 I2 I3 [a I4] I5] Hid. pose proof (wf_own _ _ Hwf) as Ho. destruct (own_outstanding _ _ Ho) as (Hn & Hd & _).
  pose proof (wf_counts _ _ Hwf) as (C1 & C2 & C3). split_and!; [| | |by eexists].
  - apply wf_req; [done| |].
    + eapply rq_own_perm; [eapply (rq_own_alter_all _ _ rewind (rq_waiting (qp_requester (st_qp s)) ++ rq_sending (qp_requester (st_qp s)))),
        (rq_own_alter_all _ _ to_sending (rev (rq_waiting (qp_requester (st_qp s))))), (rq_own_alter _ _ _ g id), Ho|reflexivity|].
      unfold rq_lists. simpl. do 2 apply Permutation_app_head. rewrite app_nil_r. apply Permutation_app_comm.
    + unfold rq_counts, retried. simpl. split_and!; zlen.
  - rewrite Forall_forall in I1, I2, I3. split; simpl.
    + apply Forall_forall. intros k Hk. destruct (I1 k Hk) as (w & Hkw & HP). exists w. split; [|done].
      etransitivity; [apply (retried_other g id); auto|exact Hkw].
    + apply Forall_forall. intros k Hk. assert (ent (rq_swqes (qp_requester (st_qp s)))
        (fun w => started (st_qp s) w /\ (k ∈ rq_waiting (qp_requester (st_qp s)) \/ sending (st_qp s) w)) k) as (w & Hkw & HP & HS).
      { rewrite elem_of_app in Hk. destruct Hk as [Hk|Hk]; [destruct (I3 k Hk) as (w & ? & ?)|destruct (I2 k Hk) as (w & ? & Hse)]; exists w.
        - auto.
        - split; [done|]. split; [apply Hse|by right]. }
      exists (resent g id (qp_requester (st_qp s)) k w). split; [by apply retried_lookup|]. by apply resent_sending.
    + constructor.
    + exists a. apply psn_tiles_alter_all; [done|]. apply psn_tiles_alter_all; [done|]. apply psn_tiles_alter; [|done].
      intros w. by destruct (Hg w) as (p' & -> & G1 & G2 & _).
    + rewrite !rd_atomics_alter_all, rd_atomics_alter by (done || (intros w; by destruct (Hg w) as (p' & -> & _))). exact I5.
  - unfold outstanding. simpl. by rewrite app_assoc.
Qed.

(** ** Building packets *)

Definition no_thread : pib_thread :=
  {| th_send_buffer := []; th_port_num := 0; th_slid := 0; th_dlid := 0; th_src_qp_num := 0; th_trace_id := 0; th_ready_to_send := false |}.

(** The state but for the packet under construction and the count of requests sent
    in a row. *)
Definition but_packet (s : st) : st :=
  s <| st_thread := no_thread |> <| st_qp ::= fun q => q <| qp_requester ::= fun r => r <| rq_nr_contig_requests := 0 |> |> |>.

Ltac packet := unfold send_buffer, put_buffer, the_port, upd_thread, the_qp, the_req, upd_req, upd_qp in *; obey.

(** Runs a computation that cannot fail. *)
Ltac plain :=
  unfold process_RDMA_READ_request, process_Atomic_request, finish_packet, put_hdrs, put_at, send_buffer, put_buffer, the_qp, upd_thread,
    upd_req, upd_qp; wp_run; exact I.

Lemma packet_start c psn : keeps but_packet (start_packet c psn).
Proof. unfold start_packet, pib_fill_grh. packet. Qed.
Lemma packet_put_at pos b : keeps but_packet (put_at pos b).
Proof. unfold put_at. packet. Qed.
Lemma packet_put_hdrs h : keeps but_packet (put_hdrs h).
Proof. unfold put_hdrs. packet. Qed.
#[local] Hint Resolve packet_start packet_put_at packet_put_hdrs : obeys.
Lemma packet_finish h n b : keeps but_packet (finish_packet h n b).
Proof. unfold finish_packet. packet. Qed.
Lemma packet_payload_put w pos o n : keeps but_packet (put_payload w pos o n).
Proof. unfold put_payload. packet. Qed.
Lemma packet_ready id : keeps but_packet (ready_to_send id).
Proof. unfold ready_to_send. packet. Qed.
#[local] Hint Resolve packet_finish packet_payload_put packet_ready : obeys.
Lemma packet_build w h : keeps but_packet (build_request w h).
Proof.
  unfold build_request, process_SEND_or_RDMA_WRITE_request, process_RDMA_READ_request, process_Atomic_request. packet.
Qed.

(** A packet can be built: the port of the QP exists, with its P_Key and GID, and the
    memory regions are well-formed. *)
Definition send_env (s : st) : Prop :=
  let a := qp_attr (st_qp s) in
  pd_wf (st_pd s) /\ 1 <= a_path_mtu a <= 5
  /\ exists port, st_ports s !! a_port_num a = Some port /\ is_Some (port_pkey_table port !! Z.to_nat (a_pkey_index a))
     /\ (has_flag (ah_ah_flags (a_ah_attr a)) IB_AH_GRH = true ->
         let i := gr_sgid_index (ah_grh (a_ah_attr a)) in
         1 <= a_port_num a <= phys_port_cnt /\ 0 <= i <= PIB_GID_PER_PORT /\ is_Some (port_gids port !! Z.to_nat i)).

Lemma send_env_packet s s' : but_packet s' = but_packet s -> send_env s -> send_env s'.
Proof.
  intros H Hs. assert (send_env (but_packet s)) as H1 by exact Hs. rewrite <- H in H1. exact H1.
Qed.

Lemma wp_start c psn s (Q : hdrs -> st -> Prop) :
  send_env s -> (forall h s', but_packet s' = but_packet s -> Q h s') -> wp (start_packet c psn) Q s.
Proof.
  intros (_ & _ & port & Hp & [pk Hk] & Hg) HQ. eapply (wp_obeys (same but_packet)); [apply packet_start| |intros h s' _ H; exact (HQ h s' H)].
  instantiate (1 := fun _ _ => True).
  unfold wp, start_packet, the_qp, pib_fill_grh, the_port, send_buffer, put_buffer, upd_thread, bind, gets, modify, ret. simpl.
  rewrite Hp. simpl. destruct (has_flag (ah_ah_flags (a_ah_attr (qp_attr (st_qp s)))) IB_AH_GRH); simpl; [|by rewrite Hk].
  destruct (Hg eq_refl) as (H1 & H2 & [g H3]).
  rewrite (proj2 (Z.ltb_ge (a_port_num (qp_attr (st_qp s))) 1)), (proj2 (Z.ltb_ge phys_port_cnt _)) by lia. simpl.
  rewrite (proj2 (Z.ltb_ge (gr_sgid_index (ah_grh (a_ah_attr (qp_attr (st_qp s))))) 0)), (proj2 (Z.ltb_ge PIB_GID_PER_PORT _)) by lia. simpl.
  rewrite Hp. simpl. rewrite H3. simpl. by rewrite Hk.
Qed.

(** The place of the next packet's payload in the message. *)
Lemma payload_within q w : 1 <= a_path_mtu (qp_attr q) <= 5 -> qp_type q = IB_QPT_RC -> sending q w ->
  w_total_length w <= PIB_MAX_PAYLOAD_LEN ->
  let '(offset, size) := packet_payload q w in 0 <= offset /\ 0 <= size /\ offset + size <= w_total_length w.
Proof.
  intros Hm Hrc ((Hp & Ha & _) & _ & Hs) Hl. destruct Hp as (_ & Hlen & _).
  rewrite pib_get_num_of_packets_spec in Ha by (change PIB_MAX_PAYLOAD_LEN with (2 ^ 30) in *; lia). rewrite Hrc in Ha. simpl in Ha. rewrite <- pmtu_bytes in Ha by done.
  pose proof (packet_payload_at q w (p_sent_packets (w_processing w)) Hm ltac:(lia) Ha Hs) as E.
  assert (set_sent w (p_sent_packets (w_processing w)) = w) as Ew by (by destruct w as [? ? ? ? ? ? [] ? ? ?]).
  rewrite Ew in E. rewrite E. clear E Ew.
  pose proof (mtu_bytes_pos (a_path_mtu (qp_attr q)) ltac:(lia)) as Hb. rewrite <- pmtu_bytes in Hb by done.
  destruct (packets_of_bounds (pmtu_of q) (w_total_length w)) as [B1 B2]; [lia..|]. rewrite <- Ha in B1, B2.
  destruct (Z.eqb_spec (p_sent_packets (w_processing w) + 1) (p_all_packets (w_processing w))); split_and!; nia.
Qed.

Lemma wp_put_payload w pos o n s : pd_wf (st_pd s) ->
  (has_flag (w_send_flags w) IB_SEND_INLINE = true -> exists b, w_inline_data_buffer w = Some b /\ o + n <= Zlen b) ->
  wp (put_payload w pos o n) (fun _ _ => True) s.
Proof.
  intros Hpd Hi. unfold put_payload. wp_step; [done|]. wp_step.
  - destruct (Hi eq_refl) as (b & -> & Hb). wp_step. wp_step. unfold BUG_ON. rewrite (proj2 (Z.ltb_ge _ _) Hb). done.
  - wp_step. wp_step. destruct (gather_returns (st_pd s) (w_sge_array w) (st_mem s) (drop (Z.to_nat pos) (th_send_buffer (st_thread s))) o n 0 Hpd)
      as (status & buf & ->). done.
Qed.

Lemma wp_keep {A} (m : M st A) (Q : A -> st -> Prop) s :
  keeps but_packet m -> wp m (fun _ _ => True) s -> (forall a s', but_packet s' = but_packet s -> Q a s') -> wp m Q s.
Proof. intros Hk Hm HQ. eapply wp_obeys; [exact Hk|exact Hm|]. intros a s' _ H. by apply HQ. Qed.

Lemma wp_build w h s (Q : ib_wc_status -> st -> Prop) : send_env s -> qp_type (st_qp s) = IB_QPT_RC -> sending (st_qp s) w ->
  (forall status s', but_packet s' = but_packet s -> Q status s') -> wp (build_request w h) Q s.
Proof.
  intros (Hpd & Hm & _) Hrc Hw HQ. apply wp_keep; [apply packet_build| |done].
  unfold build_request. destruct (request_opcode _ _ _) as [[[[op reth] imm] inv]|]; [|plain].
  wp_step. apply wp_keep; [packet|plain|]. intros [] s1 E1. unfold process_SEND_or_RDMA_WRITE_request.
  wp_step; [done|]. bools. unfold the_qp. wp_step. wp_step.
  wp_step. apply wp_keep; [packet|plain|]. intros pos1 s2 E2.
  wp_step. apply wp_keep; [packet|plain|]. intros pos2 s3 E3.
  wp_step. apply wp_keep; [packet|plain|]. intros pos3 s4 E4.
  assert (but_packet s4 = but_packet s) as E by congruence.
  destruct (packet_payload (st_qp s1) w) as [o n] eqn:Ep. assert (packet_payload (st_qp s) w = (o, n)) as Ep'.
  { rewrite <- Ep. change (packet_payload (st_qp (but_packet s)) w = packet_payload (st_qp (but_packet s1)) w). by rewrite E1. }
  pose proof (payload_within (st_qp s) w Hm Hrc Hw ltac:(lia)) as Hin. rewrite Ep' in Hin.
  wp_step. eapply wp_mono.
  - apply wp_put_payload.
    + change (pd_wf (st_pd (but_packet s4))). by rewrite E.
    + intros Hinl. destruct Hw as ((Hp & _) & _). destruct Hp as (_ & _ & _ & _ & Hb). destruct (Hb Hinl) as (b & Hb1 & Hb2).
      exists b. split; [done|lia].
  - intros status s5 _. plain.
Qed.

(** ** A request of an RC queue pair *)

Definition alt (id : Z) (f : pib_send_wqe -> pib_send_wqe) (s : st) : st :=
  s <| st_qp ::= fun q => q <| qp_requester ::= fun r => r <| rq_swqes ::= alter f id |> |> |>.
Definition same_range (f : pib_send_wqe -> pib_send_wqe) : Prop :=
  forall w, p_based_psn (w_processing (f w)) = p_based_psn (w_processing w)
         /\ p_expected_psn (w_processing (f w)) = p_expected_psn (w_processing w) /\ w_opcode (f w) = w_opcode w.

Lemma alt_alt id f g s : alt id f (alt id g s) = alt id (fun w => f (g w)) s.
Proof.
  unfold alt. destruct s as [[? ? ? ? ? ? ? ? ? ? ? ? ? [] ? ? ? ? ?] ? ? ? ? ? ? ? ? ? ? ? ?]. unfold set_field. simpl.
  by rewrite alter_alter_eq.
Qed.

Lemma but_packet_alt id f s s1 : but_packet s1 = but_packet s -> but_packet (alt id f s1) = but_packet (alt id f s).
Proof. intros H. change (alt id f (but_packet s1) = alt id f (but_packet s)). by rewrite H. Qed.

(** What a request does to its entry [w]: it is still to be sent, or it waits for
    its acknowledge. *)
Definition sent_entry (q : pib_qp) (f : pib_send_wqe -> pib_send_wqe) (w : pib_send_wqe) : Prop :=
  same_range f /\ (sending q (f w) \/ started q (f w) /\ p_list_type (w_processing (f w)) = PIB_SWQE_WAITING).

Definition waits (t : Z) (w : pib_send_wqe) : pib_send_wqe :=
  w <| w_processing ::= fun p => p <| p_list_type := PIB_SWQE_WAITING |> <| p_local_ack_time := t |> |>.
Definition sent_one (w : pib_send_wqe) : pib_send_wqe :=
  w <| w_processing ::= fun p => p <| p_sent_packets ::= fun n => u32 (n + 1) |> |>.

Lemma alt_same id s : but_packet (alt id (fun w => w) s) = but_packet s.
Proof.
  destruct s as [[? ? ? ? ? ? ? ? ? ? ? ? ? [] ? ? ? ? ?] ? ? ? ? ? ? ? ? ? ? ? ?]. unfold but_packet, alt.
  unfold set_field. simpl. by rewrite alter_id by done.
Qed.

Lemma wp_rc_request s id w (Q : Z -> st -> Prop) :
  send_env s -> qp_type (st_qp s) = IB_QPT_RC -> rq_swqes (qp_requester (st_qp s)) !! id = Some w -> sending (st_qp s) w ->
  (forall v f s', but_packet s' = but_packet (alt id f s) -> sent_entry (st_qp s) f w -> Q v s') ->
  wp (pib_process_rc_qp_request id) Q s.
Proof.
  intros He Hrc Hw Hs HQ. unfold pib_process_rc_qp_request, get_swqe, the_req. do 3 wp_step. rewrite Hw. wp_step.
  pose proof Hs as ((Hp & Hall & Hexp & Hack) & Hty & Hsent). rewrite (proj1 Hp). cbv zeta.
  assert (Herr : forall status s1, but_packet s1 = but_packet s -> wp (request_error id status) Q s1).
  { intros status s1 E1. unfold request_error. wp_step. apply (HQ (-1) (fun w => w <| w_processing ::= fun p => p <| p_status := status |> |>)).
    - by apply (but_packet_alt id (fun w => w <| w_processing ::= fun p => p <| p_status := status |> |>)).
    - split; [done|]. left. exact Hs. }
  wp_step; [by apply Herr|]. wp_step; [by apply Herr|]. wp_step. apply wp_start; [done|]. intros h s1 E1.
  wp_step. apply wp_build; [by eapply send_env_packet| | |].
  { change (qp_type (st_qp (but_packet s1)) = IB_QPT_RC). by rewrite E1. }
  { change (sending (st_qp (but_packet s1)) w). by rewrite E1. }
  intros status s2 E2. wp_step; [apply Herr; congruence|].
  wp_step. apply wp_keep; [apply packet_ready| |].
  { assert (send_env s2) as (_ & _ & port & Hport & _) by (eapply send_env_packet; [|exact He]; congruence).
    unfold wp, ready_to_send, the_qp, the_port, bind, gets, upd_thread, modify. simpl. by rewrite Hport. }
  intros [] s3 E3. assert (E : but_packet s3 = but_packet s) by congruence.
  assert (Hwait : forall f s4, but_packet s4 = but_packet (alt id f s) -> same_range f -> started (st_qp s) (f w) -> wp (to_waiting id) Q s4).
  { intros f s4 E4 Hf Hst. unfold to_waiting, the_qp. do 5 wp_step.
    set (t := u64 (st_now s4 + qp_local_ack_timeout (st_qp s4))). apply (HQ 0 (fun w => waits t (f w))).
    - rewrite <- alt_alt. by apply (but_packet_alt id (waits t)).
    - split; [intros v; apply (Hf v)|]. right. split; [exact Hst|done]. }
  wp_step; [|apply (Hwait (fun w => w)); [by rewrite alt_same|done|exact (proj1 Hs)]].
  assert (started (st_qp s) (sent_one w)) as Hst1 by exact (proj1 Hs).
  unfold upd_proc, upd_swqe, upd_req, upd_qp. do 4 wp_step. set (s5 := set_field st_qp _ _).
  assert (but_packet s5 = but_packet (alt id sent_one s)) as E5 by (apply (but_packet_alt id sent_one); exact E).
  do 3 wp_step.
  assert (rq_swqes (qp_requester (st_qp s5)) !! id = Some (sent_one w)) as ->.
  { change (rq_swqes (qp_requester (st_qp (but_packet s5))) !! id = Some (sent_one w)). rewrite E5. simpl. by rewrite lookup_alter_eq, Hw. }
  wp_step. wp_step; [|by apply (Hwait sent_one)].
  apply (HQ 0 sent_one); [done|]. split; [done|]. left. split; [exact Hst1|]. split; [done|]. bools. split; [|done].
  apply wrap_range. lia.
Qed.

Lemma wf_but_packet ids s s' : but_packet s' = but_packet s -> qp_wf ids s -> qp_wf ids s'.
Proof.
  intros E [H1 H2 H3 H4]. assert (qp_wf ids (but_packet s)) as H by (by split). rewrite <- E in H. destruct H as [G1 G2 G3 G4]. by split.
Qed.
Lemma inv_but_packet s s' : but_packet s' = but_packet s -> req_inv (st_qp s) -> req_inv (st_qp s').
Proof.
  intros E [H1 H2 H3 H4 H5]. assert (req_inv (st_qp (but_packet s))) as H by (by split). rewrite <- E in H. destruct H as [G1 G2 G3 G4 G5]. by split.
Qed.

(** What a pass leaves: the invariants; the requests in the order they had, or all
    flushed and the QP in error; memory as it was. *)
Definition pass_post (ids : list Z) (s s' : st) : Prop :=
  qp_wf ids s' /\ req_inv (st_qp s') /\ st_pd s' = st_pd s /\ st_mem s' = st_mem s
  /\ (qp_state (st_qp s') = qp_state (st_qp s)
        /\ outstanding (qp_requester (st_qp s')) = outstanding (qp_requester (st_qp s))
      \/ qp_state (st_qp s') = IB_QPS_ERR /\ outstanding (qp_requester (st_qp s')) = []).

Lemma own_sending ids r id l : rq_own ids [] r -> rq_sending r = id :: l ->
  (id ∉ l) /\ (id ∉ rq_submitted r) /\ (id ∉ rq_waiting r) /\ (id ∉ rq_free r).
Proof.
  intros Ho Hs. destruct (own_disjoint _ _ _ Ho) as (_ & _ & Hn & _ & _ & Hf & _ & Hsu & _ & Hw & _). rewrite Hs in *.
  apply NoDup_cons in Hn as [Hn _]. split_and!; [done| | |].
  - apply Hsu. by left.
  - intros Hc. apply (Hw _ Hc). by left.
  - apply Hf. by left.
Qed.

Lemma sent_inv ids s id l f w : qp_wf ids s -> req_inv (st_qp s) -> rq_sending (qp_requester (st_qp s)) = id :: l ->
  rq_swqes (qp_requester (st_qp s)) !! id = Some w -> same_range f -> sending (st_qp s) (f w) ->
  qp_wf ids (alt id f s) /\ req_inv (st_qp (alt id f s)).
Proof.
  intros Hwf [I1 I2 I3 [a I4] I5] Hl Hw Hr Hs. pose proof (wf_own _ _ Hwf) as Ho.
  destruct (own_sending _ _ _ _ Ho Hl) as (N1 & N2 & N3 & N4). split.
  - destruct Hwf as [W1 W2 W3 W4]. split; [by apply qp_env_upd| |done|done]. by apply (rq_own_alter ids [] (qp_requester (st_qp s)) f id).
  - split; simpl.
    + by apply ents_alter_notin.
    + rewrite Hl in *. apply Forall_cons in I2 as [_ I2]. constructor; [|by apply ents_alter_notin].
      exists (f w). by rewrite lookup_alter_eq, Hw.
    + by apply ents_alter_notin.
    + exists a. apply psn_tiles_alter; [|done]. intros v. by destruct (Hr v) as (-> & -> & _).
    + rewrite rd_atomics_alter; [exact I5|]. intros v. apply Hr.
Qed.

(** The request goes to the end of the waiting list. *)
Definition moved (id : Z) (l : list Z) (r : requester_t) : requester_t :=
  r <| rq_sending := l |> <| rq_waiting ::= fun k => k ++ [id] |> <| rq_nr_sending ::= fun n => n - 1 |> <| rq_nr_waiting ::= Z.add 1 |>.

Definition unlinked (id : Z) (r : requester_t) : requester_t :=
  r <| rq_submitted ::= del id |> <| rq_sending ::= del id |> <| rq_waiting ::= del id |> <| rq_free ::= del id |>
    <| rq_waiting ::= fun l => l ++ [id] |> <| rq_nr_sending ::= fun n => n - 1 |> <| rq_nr_waiting ::= Z.add 1 |>.

Lemma moved_eq ids r id l : rq_own ids [] r -> rq_sending r = id :: l -> unlinked id r = moved id l r.
Proof.
  intros Ho Hl. destruct (own_sending _ _ _ _ Ho Hl) as (N1 & N2 & N3 & N4). destruct r; simpl in *. subst.
  unfold unlinked, moved. simpl. by rewrite del_head, !del_notin.
Qed.

Lemma moved_inv ids s id l f w : qp_wf ids s -> req_inv (st_qp s) -> rq_sending (qp_requester (st_qp s)) = id :: l ->
  rq_swqes (qp_requester (st_qp s)) !! id = Some w -> same_range f -> started (st_qp s) (f w) ->
  let s1 := alt id f s in
  qp_wf ids (with_req s1 (moved id l (qp_requester (st_qp s1)))) /\ req_inv (st_qp (with_req s1 (moved id l (qp_requester (st_qp s1))))).
Proof.
  intros Hwf [I1 I2 I3 [a I4] I5] Hl Hw Hr Hs s1. pose proof (wf_own _ _ Hwf) as Ho.
  destruct (own_sending _ _ _ _ Ho Hl) as (N1 & N2 & N3 & N4). split.
  - pose proof (wf_counts _ _ Hwf) as (C1 & C2 & C3). destruct Hwf as [W1 W2 W3 W4].
    rewrite Hl, Zlen_cons in C2. split; [apply qp_env_upd; [done|by apply qp_env_upd]| | |done].
    + eapply rq_own_perm; [exact (rq_own_alter ids [] _ f id Ho)|reflexivity|]. unfold rq_lists. simpl. rewrite Hl.
      do 2 apply Permutation_app_head. simpl. by rewrite app_assoc, <- Permutation_cons_append.
    + unfold rq_counts. simpl. split_and!; zlen.
  - rewrite Hl in *. apply Forall_cons in I2 as [_ I2]. split; simpl.
    + by apply ents_alter_notin.
    + by apply ents_alter_notin.
    + apply Forall_app. split; [by apply ents_alter_notin|]. constructor; [|done]. exists (f w). by rewrite lookup_alter_eq, Hw.
    + exists a. rewrite <- app_assoc. apply psn_tiles_alter; [|done]. intros v. by destruct (Hr v) as (-> & -> & _).
    + rewrite <- app_assoc, rd_atomics_alter; [exact I5|]. intros v. apply Hr.
Qed.

(** Where the entry is when its packet was sent. *)
Lemma wp_after_send ids s s' id l f w (Q : unit -> st -> Prop) :
  qp_wf ids s -> req_inv (st_qp s) -> rq_sending (qp_requester (st_qp s)) = id :: l ->
  rq_swqes (qp_requester (st_qp s)) !! id = Some w -> but_packet s' = but_packet (alt id f s) -> sent_entry (st_qp s) f w ->
  (forall s'', pass_post ids s s'' -> Q tt s'') -> wp (after_send id) Q s'.
Proof.
  intros Hwf Hi Hl Hw E [Hr Hf] HQ. unfold after_send, get_swqe, the_req. do 3 wp_step.
  assert (rq_swqes (qp_requester (st_qp s')) !! id = Some (f w)) as ->.
  { change (rq_swqes (qp_requester (st_qp (but_packet s'))) !! id = Some (f w)). rewrite E. simpl. by rewrite lookup_alter_eq, Hw. }
  wp_step. destruct Hf as [Hs|[Hs Ht]].
  - destruct (sent_inv ids s id l f w Hwf Hi Hl Hw Hr Hs) as [Hwf' Hi']. rewrite (proj1 (proj2 Hs)). wp_step. apply HQ.
    split; [by eapply wf_but_packet|]. split; [by eapply inv_but_packet|].
    split; [change (st_pd (but_packet s') = st_pd s); by rewrite E|]. split; [change (st_mem (but_packet s') = st_mem s); by rewrite E|].
    left. split; [change (qp_state (st_qp (but_packet s')) = qp_state (st_qp s)); by rewrite E|].
    change (outstanding (qp_requester (st_qp (but_packet s'))) = outstanding (qp_requester (st_qp s))). by rewrite E.
  - rewrite Ht. destruct (moved_inv ids s id l f w Hwf Hi Hl Hw Hr Hs) as [Hwf' Hi'].
    unfold swqe_list_del, upd_req, upd_qp. do 3 wp_step. set (s2 := set_field st_qp _ _).
    assert (but_packet s2 = but_packet (with_req (alt id f s) (moved id l (qp_requester (st_qp (alt id f s)))))) as E2.
    { transitivity (but_packet (with_req (alt id f s) (unlinked id (qp_requester (st_qp (alt id f s)))))).
      - change (with_req (but_packet s') (unlinked id (qp_requester (st_qp (but_packet s'))))
          = with_req (but_packet (alt id f s)) (unlinked id (qp_requester (st_qp (but_packet (alt id f s)))))). by rewrite E.
      - rewrite (moved_eq ids _ id l); [done| |exact Hl]. apply (rq_own_alter ids [] _ f id), Hwf. }
    apply HQ. split; [by eapply wf_but_packet|]. split; [by eapply inv_but_packet|].
    split; [change (st_pd (but_packet s2) = st_pd s); by rewrite E2|]. split; [change (st_mem (but_packet s2) = st_mem s); by rewrite E2|].
    left. split; [change (qp_state (st_qp (but_packet s2)) = qp_state (st_qp s)); by rewrite E2|].
    change (outstanding (qp_requester (st_qp (but_packet s2))) = outstanding (qp_requester (st_qp s))). rewrite E2.
    unfold outstanding. simpl. by rewrite Hl, <- app_assoc.
Qed.

(** ** A request that failed *)

Lemma keeps_flush_store b : keeps (fun s => rq_swqes (qp_requester (st_qp s))) (pib_util_flush_qp b).
Proof.
  unfold pib_util_flush_qp, flush_sends, flush_send_wqe, flush_recv_wqe, reset_contig, pib_util_insert_async_qp_event,
    pib_util_insert_async_qp_error, pib_util_free_recv_wqe, qp_insert_wc_error, with_cq, emit, get_swqe, the_qp, the_req, the_rsp,
    swqe_list_del, pib_util_free_send_wqe, pib_util_reschedule_qp, sched_take_off, sched_put, upd_rsp, upd_req, upd_qp, the_qp. obey.
Qed.

Definition to_free (w : pib_send_wqe) : pib_send_wqe := w <| w_processing ::= fun p => p <| p_list_type := PIB_SWQE_FREE |> |>.

(** The first sending request, taken off every list. *)
Definition unsent (id : Z) (l : list Z) (r : requester_t) : requester_t :=
  r <| rq_sending := l |> <| rq_nr_sending ::= fun n => n - 1 |>
    <| rq_swqes ::= alter to_free id |>.

Lemma unsent_eq ids r id l : rq_own ids [] r -> rq_sending r = id :: l ->
  r <| rq_submitted ::= del id |> <| rq_sending ::= del id |> <| rq_waiting ::= del id |> <| rq_free ::= del id |>
    <| rq_nr_sending ::= fun n => n - 1 |> <| rq_swqes ::= alter to_free id |> = unsent id l r.
Proof.
  intros Ho Hl. destruct (own_sending _ _ _ _ Ho Hl) as (N1 & N2 & N3 & N4). destruct r; simpl in *. subst.
  unfold unsent. simpl. by rewrite del_head, !del_notin.
Qed.

Lemma unsent_wf ids s id l : qp_wf ids s -> rq_sending (qp_requester (st_qp s)) = id :: l ->
  qp_wfo ids [id] (with_req s (unsent id l (qp_requester (st_qp s)))).
Proof.
  intros Hwf Hl. pose proof (wf_counts _ _ Hwf) as (C1 & C2 & C3). pose proof (wf_own _ _ Hwf) as Ho.
  rewrite Hl, Zlen_cons in C2. destruct Hwf as [W1 W2 W3 W4]. split; [by apply qp_env_upd| | |done].
  - eapply rq_own_perm; [exact (rq_own_alter ids [] _ to_free id Ho)|reflexivity|]. unfold rq_lists. simpl. rewrite Hl. simpl.
    rewrite 2!(app_assoc (rq_free (qp_requester (st_qp s)))). apply Permutation_middle.
  - unfold rq_counts. simpl. split_and!; zlen.
Qed.

(** An entry on no list is released. *)
Lemma free_wf ids s id : qp_wfo ids [id] s ->
  qp_wf ids (s <| st_qp ::= fun q => q <| qp_requester ::= fun r => r <| rq_free ::= fun f => f ++ [id] |> |> |>).
Proof.
  intros [W1 W2 W3 W4]. split; [by apply qp_env_upd| |done|done]. eapply rq_own_perm; [exact W2|reflexivity|].
  unfold rq_lists. simpl. rewrite <- app_assoc. symmetry. apply Permutation_middle.
Qed.

Lemma wp_send_wr_error ids s id l w status (Q : Z -> st -> Prop) :
  qp_wf ids s -> qp_type (st_qp s) = IB_QPT_RC -> rq_sending (qp_requester (st_qp s)) = id :: l ->
  rq_swqes (qp_requester (st_qp s)) !! id = Some w ->
  (forall s', wp (after_send id) (fun _ s'' => pass_post ids s s'') s' -> Q (-1) s') ->
  wp (send_wr_error id status) Q s.
Proof.
  intros Hwf Hrc Hl Hw HQ. unfold send_wr_error, get_swqe, the_qp, the_req. do 5 wp_step. rewrite Hw. wp_step. wp_step.
  apply (wp_wc_error ids); [done|by left|]. intros s1 Hwf1 (F1 & F2 & F3 & F4 & F5 & F6 & F7 & F8).
  unfold swqe_list_del, upd_proc, upd_swqe, upd_req, upd_qp. do 6 wp_step. rewrite Hrc. do 3 wp_step.
  set (s2 := set_field st_qp _ _).
  assert (s2 = (with_req s1 (unsent id l (qp_requester (st_qp s1)))) <| st_qp ::= fun q => q <| qp_state := IB_QPS_ERR |> |>) as E2.
  { rewrite <- (unsent_eq ids) by (apply Hwf1 || by rewrite F1). reflexivity. }
  assert (qp_wfo ids [id] s2) as Hwf2.
  { rewrite E2. pose proof (unsent_wf ids s1 id l Hwf1 ltac:(by rewrite F1)) as [W1 W2 W3 W4]. split; [by apply qp_env_upd|done..]. }
  apply (wp_with (same (fun s => rq_swqes (qp_requester (st_qp s))))); [apply keeps_flush_store|].
  apply (wpo_flush_qp ids [id]); [done|]. intros s3 (R1 & R2 & R3 & R4 & _ & _ & R7 & R8 & R9 & _) Hst. unfold same in Hst. wp_step.
  apply HQ. unfold after_send, get_swqe, the_req. do 3 wp_step. rewrite Hst.
  assert (rq_swqes (qp_requester (st_qp s2)) !! id = Some (to_free w)) as ->.
  { rewrite E2. simpl. by rewrite lookup_alter_eq, F1, Hw. }
  wp_step. simpl p_list_type. cbv iota. unfold pib_util_free_send_wqe, upd_req, upd_qp. wp_step.
  split; [by apply free_wf|]. split; [by apply req_inv_empty|]. simpl. rewrite R8, R9, E2. simpl. split; [exact F3|]. split; [exact F4|].
  right. split; [|exact R2]. by rewrite R7, E2.
Qed.

(** ** The pass *)

Lemma pass_refl ids s : qp_wf ids s -> req_inv (st_qp s) -> pass_post ids s s.
Proof. intros Hwf Hi. split; [done|]. split; [done|]. split; [done|]. split; [done|]. by left. Qed.

Lemma pass_trans ids s s1 s' : pass_post ids s1 s' -> st_pd s1 = st_pd s -> st_mem s1 = st_mem s ->
  qp_state (st_qp s1) = qp_state (st_qp s) -> outstanding (qp_requester (st_qp s1)) = outstanding (qp_requester (st_qp s)) ->
  pass_post ids s s'.
Proof.
  intros (H1 & H2 & H3 & H4 & H5) E1 E2 E3 E4. split; [done|]. split; [done|]. rewrite E1 in H3. rewrite E2 in H4. rewrite E3, E4 in H5.
  by split_and?.
Qed.

Context (ahs : gmap Z ib_ah_attr).

Lemma wp_send_first ids s id l (Q : unit -> st -> Prop) :
  qp_wf ids s -> req_inv (st_qp s) -> send_env s -> qp_type (st_qp s) = IB_QPT_RC -> rq_sending (qp_requester (st_qp s)) = id :: l ->
  (forall s', pass_post ids s s' -> Q tt s') -> wp (send_first ahs) Q s.
Proof.
  intros Hwf Hi He Hrc Hl HQ. pose proof (ri_sending _ Hi) as Hse. rewrite Hl in Hse. apply Forall_cons in Hse as [(w & Hw & Hs) _].
  assert (Q tt s) as Hret by (apply HQ; by apply pass_refl).
  unfold send_first, get_swqe, the_req. do 4 wp_step. rewrite Hl. cbn [head]. do 5 wp_step. rewrite Hw. wp_step.
  wp_step; [exact Hret|]. wp_step; [exact Hret|]. wp_step; [exact Hret|].
  set (f := fun w => w <| w_processing ::= fun p => p <| p_schedule_time := st_now s |> |>).
  wp_step. unfold upd_proc at 1, upd_swqe, upd_req, upd_qp. wp_step. fold f. set (s1 := set_field st_qp _ _). change s1 with (alt id f s).
  destruct (sent_inv ids s id l f w Hwf Hi Hl Hw ltac:(done) Hs) as [Hwf1 Hi1]. clear s1. set (s1 := alt id f s) in *.
  assert (Hw1 : rq_swqes (qp_requester (st_qp s1)) !! id = Some (f w)) by (unfold s1; simpl; by rewrite lookup_alter_eq, Hw).
  assert (forall s', pass_post ids s1 s' -> Q tt s') as HQ1 by (intros s' H; apply HQ; by eapply pass_trans).
  wp_step. unfold process_send_wr, get_swqe, the_qp, the_req. do 5 wp_step. rewrite Hw1. do 2 wp_step.
  unfold BUG_ON. rewrite bool_decide_eq_true_2 by apply Hs. cbn [negb]. wp_step. cbv zeta.
  destruct (bool_decide (p_status (w_processing (f w)) = IB_WC_SUCCESS)); cbn [negb].
  - change (qp_type (st_qp s1)) with (qp_type (st_qp s)). rewrite Hrc. apply (wp_rc_request s1 id (f w)); [done|done|done|exact Hs|].
    intros v g s2 E2 Hg. by eapply (wp_after_send ids s1 s2 id l g (f w)).
  - apply (wp_send_wr_error ids s1 id l (f w)); [done|done|done|done|]. intros s2 H2. eapply wp_mono; [exact H2|].
    intros [] s3 H3. by apply HQ1.
Qed.

(** A step of the requester is invisible to what the pass promises. *)
Lemma pass_step ids s s1 s' : req_step ids s s1 -> pass_post ids s1 s' -> pass_post ids s s'.
Proof. intros (_ & _ & Ho & r & ->) H. by eapply pass_trans. Qed.
Lemma send_env_step ids s s1 : req_step ids s s1 -> send_env s -> send_env s1.
Proof. by intros (_ & _ & _ & r & ->). Qed.

Lemma wp_first_sending ids s (Q : unit -> st -> Prop) :
  qp_wf ids s -> req_inv (st_qp s) -> send_env s -> qp_type (st_qp s) = IB_QPT_RC ->
  (forall s', pass_post ids s s' -> Q tt s') -> wp (first_sending_wsqe ahs) Q s.
Proof.
  intros Hwf Hi He Hrc HQ. unfold first_sending_wsqe, the_req. do 2 wp_step.
  destruct (rq_sending (qp_requester (st_qp s))) as [|id l] eqn:Hl; [|by apply (wp_send_first ids s id l)].
  wp_step. pose proof He as (_ & Hm & _). apply (wp_process_new ids); [done|done|lia| |].
  - intros id s1 Hst Hl1 _. rewrite Hl in Hl1. pose proof Hst as (Hwf1 & Hi1 & _ & r & Er).
    apply (wp_send_first ids s1 id []); [done|done|by eapply send_env_step|by rewrite Er|done|].
    intros s' H. apply HQ. by eapply pass_step.
  - apply HQ. by apply pass_refl.
Qed.

Lemma wp_requester_pass ids s (Q : unit -> st -> Prop) :
  qp_wf ids s -> req_inv (st_qp s) -> send_env s -> qp_type (st_qp s) = IB_QPT_RC ->
  (forall s', pass_post ids s s' -> Q tt s') -> wp (requester_pass ahs) Q s.
Proof.
  intros Hwf Hi He Hrc HQ. assert (Q tt s) as Hret by (apply HQ; by apply pass_refl).
  unfold requester_pass, the_qp. do 4 wp_step. wp_step; [exact Hret|].
  destruct (rq_waiting (qp_requester (st_qp s))) as [|id l] eqn:Hl; [by apply (wp_first_sending ids)|].
  pose proof (ri_waiting _ Hi) as Hw. rewrite Hl in Hw. apply Forall_cons in Hw as [(w & Hw & Hs) _].
  unfold get_swqe, the_req. do 3 wp_step. rewrite Hw. wp_step. rewrite (proj1 (proj1 Hs)).
  wp_step; [by apply (wp_first_sending ids)|]. wp_step. unfold wp at 1.
  rewrite (retry_run s id) by (eapply own_outstanding, Hwf). pose proof (retry_step ids s _ id (neutral_timed_out (st_now s)) Hwf Hi ltac:(rewrite Hl; by left)) as Hst.
  pose proof Hst as (Hwf1 & Hi1 & _). apply (wp_first_sending ids); [done|done|by eapply send_env_step|done|].
  intros s' H. apply HQ. by eapply pass_step.
Qed.

(** Acknowledges of the responder. *)
Definition but_acks (s : st) : st :=
  s <| st_thread := no_thread |> <| st_qp ::= fun q => q <| qp_responder ::= fun r =>
    r <| rs_acks := [] |> <| rs_nr_rd_atomic := 0 |> <| rs_nr_contig_read_acks := 0 |> |> |>.

Ltac acks := unfold send_buffer, put_buffer, the_port, upd_thread, the_qp, the_rsp, upd_rsp, upd_qp in *; obey.
Lemma acks_pack op psn b syn c res : keeps but_acks (pack_acknowledge_packet op psn b syn c res).
Proof. unfold pack_acknowledge_packet, start_packet, pib_fill_grh, put_at, put_hdrs. acks. Qed.
#[local] Hint Resolve acks_pack : obeys.
Lemma acks_generate : keeps but_acks pib_generate_rc_qp_acknowledge.
Proof.
  unfold pib_generate_rc_qp_acknowledge, generate_Normal_or_Atomic_acknowledge, generate_RDMA_READ_response, ready_to_send, pop_ack, put_hdrs. acks.
Qed.

Lemma packet_pack op psn b syn c res : keeps but_packet (pack_acknowledge_packet op psn b syn c res).
Proof. unfold pack_acknowledge_packet. packet. Qed.

Lemma wp_pack op psn b syn c res s (Q : hdrs * Z -> st -> Prop) :
  send_env s -> (forall h s', but_packet s' = but_packet s -> Q h s') -> wp (pack_acknowledge_packet op psn b syn c res) Q s.
Proof.
  intros He HQ. apply wp_keep; [apply packet_pack| |done]. unfold pack_acknowledge_packet. wp_step. apply wp_start; [done|]. intros h s1 _. plain.
Qed.

Lemma wp_ready id s (Q : unit -> st -> Prop) :
  send_env s -> (forall s', but_packet s' = but_packet s -> Q tt s') -> wp (ready_to_send id) Q s.
Proof.
  intros (_ & _ & port & Hport & _) HQ. apply wp_keep; [apply packet_ready| |by intros [] s' H; apply HQ].
  unfold wp, ready_to_send, the_qp, the_port, bind, gets, upd_thread, modify. simpl. by rewrite Hport.
Qed.

Lemma wp_normal_ack ack s (Q : unit -> st -> Prop) :
  send_env s -> (forall s', Q tt s') -> wp (generate_Normal_or_Atomic_acknowledge ack) Q s.
Proof.
  intros He HQ. unfold generate_Normal_or_Atomic_acknowledge. wp_step. destruct (ack_type ack); apply wp_pack; try done;
    intros h s1 E1; (apply wp_ready; [by eapply send_env_packet|]); intros s2 _; apply HQ.
Qed.

Lemma wp_read_ack ack s (Q : ib_wc_status -> st -> Prop) :
  send_env s -> rs_acks (qp_responder (st_qp s)) <> [] ->
  (forall v s', rs_acks (qp_responder (st_qp s')) <> [] -> Q v s') -> wp (generate_RDMA_READ_response ack) Q s.
Proof.
  intros He Ha HQ. unfold generate_RDMA_READ_response, the_qp. do 2 wp_step. destruct (read_response_shape _ _) as [[op b] o].
  wp_step. apply wp_pack; [done|]. intros [h size] s1 E1. wp_step. apply wp_keep; [apply packet_put_hdrs|plain|]. intros [] s2 E2.
  assert (E : but_packet s2 = but_packet s) by congruence. do 2 wp_step.
  assert (send_env s2) as He2 by (by eapply send_env_packet). pose proof He2 as (Hpd & _).
  assert (rs_acks (qp_responder (st_qp s2)) <> []) as Ha2.
  { change (rs_acks (qp_responder (st_qp (but_packet s2))) <> []). by rewrite E. }
  edestruct (remote_read_returns (st_pd s2)) as (status & buf & ->); [done|]. do 2 wp_step. unfold put_buffer, upd_thread. do 2 wp_step.
  wp_step; [by apply HQ|]. wp_step. apply wp_ready; [exact He2|]. intros s3 E3. unfold upd_rsp, upd_qp. do 3 wp_step. apply HQ.
  assert (rs_acks (qp_responder (st_qp s3)) <> []) as Ha3.
  { change (rs_acks (qp_responder (st_qp (but_packet s3))) <> []). by rewrite E3. }
  simpl. by destruct (rs_acks (qp_responder (st_qp s3))).
Qed.

Lemma wp_generate_ack s (Q : Z -> st -> Prop) :
  send_env s -> (forall v s', but_acks s' = but_acks s -> Q v s') -> wp pib_generate_rc_qp_acknowledge Q s.
Proof.
  intros He HQ. eapply (wp_obeys (same but_acks)); [apply acks_generate| |intros v s' _ H; exact (HQ v s' H)].
  instantiate (1 := fun _ _ => True). unfold pib_generate_rc_qp_acknowledge, the_qp. do 2 wp_step. wp_step; [done|].
  destruct (rs_acks (qp_responder (st_qp s))) as [|a l] eqn:Ha; [done|]. destruct (ack_type a).
  - wp_step. apply wp_normal_ack; done.
  - wp_step; [done|]. wp_step. apply wp_read_ack; [done|by rewrite Ha|]. intros v s1 H1. unfold the_rsp. do 3 wp_step.
    destruct (rs_acks (qp_responder (st_qp s1))) as [|a1 l1]; [done|]. cbn [head]. wp_step. by wp_step.
  - wp_step. apply wp_normal_ack; done.
Qed.


(** C11. The acknowledge timer of the first waiting request expires: all requests that
    wait are sent again, in their order and before those that were being sent, each
    from the packet behind the last acknowledged one and with the packet sequence
    numbers it had; only the request whose timer expired loses a retry; requests
    not yet taken up and the invariants are as before. *)
Theorem timeout_retransmits (ids : list Z) (s : st) (id : Z) (l : list Z) (Hwf : qp_wf ids s) (Hi : req_inv (st_qp s))
    (Hw : rq_waiting (qp_requester (st_qp s)) = id :: l) :
  let r := qp_requester (st_qp s) in
  exists s', retry_waiting id s = Some (tt, s') /\ let r' := qp_requester (st_qp s') in
     rq_waiting r' = [] /\ rq_sending r' = rq_waiting r ++ rq_sending r /\ rq_submitted r' = rq_submitted r
  /\ (forall k w, k ∈ rq_waiting r ++ rq_sending r -> rq_swqes r !! k = Some w ->
        exists w', rq_swqes r' !! k = Some w' /\ let p := w_processing w in let p' := w_processing w' in
           p_list_type p' = PIB_SWQE_SENDING /\ p_sent_packets p' = p_ack_packets p /\ p_ack_packets p' = p_ack_packets p
        /\ p_based_psn p' = p_based_psn p /\ p_expected_psn p' = p_expected_psn p
        /\ p_retry_cnt p' = p_retry_cnt p - (if decide (k = id) then 1 else 0))
  /\ (forall k, k ∈ rq_submitted r -> rq_swqes r' !! k = rq_swqes r !! k)
  /\ qp_wf ids s' /\ req_inv (st_qp s').
Proof.
  intros r. pose proof (wf_own _ _ Hwf) as Ho. destruct (own_outstanding _ _ Ho) as (Hn & Hd & Hl).
  destruct (retry_step _ _ _ id (neutral_timed_out (st_now s)) Hwf Hi ltac:(rewrite Hw; by left)) as (Hwf' & Hi' & _). eexists. split; [apply retry_run, Hl|]. cbv zeta.
  change (qp_requester (st_qp (with_req s (retried (timed_out (st_now s)) id (qp_requester (st_qp s)))))) with (retried (timed_out (st_now s)) id r).
  split; [done|]. split; [done|]. split; [done|]. split; [|split; [|split; [exact Hwf'|exact Hi']]].
  - intros k w Hk Hkw. exists (resent (timed_out (st_now s)) id r k w). split; [by apply retried_lookup|]. cbv zeta.
    assert (k ∈ rq_waiting r \/ p_list_type (w_processing w) = PIB_SWQE_SENDING) as Ht.
    { rewrite elem_of_app in Hk. destruct Hk as [|Hk]; [by left|right]. pose proof (ri_sending _ Hi) as Hse. rewrite Forall_forall in Hse.
      destruct (Hse k Hk) as (w0 & Hw0 & _ & Hty & _). change (rq_swqes r !! k = Some w0) in Hw0. assert (w0 = w) as -> by congruence. exact Hty. }
    unfold resent. destruct (decide (k = id)), (decide (k ∈ rq_waiting r)); simpl; split_and!; try reflexivity; try lia; tauto.
  - intros k Hk. apply retried_other; [exact Hn|unfold r; rewrite Hw; by left|by apply Hd].
Qed.

(** Taking up the next request, in every case.  It is refused, and nothing changes,
    when the QP is not in RTS, when nothing is submitted, or when a fence or the
    limit of outstanding reads and atomics holds the request back.  Otherwise the
    oldest submitted request joins the end of the sending list with the next
    packet sequence numbers, one for each packet its length needs. *)
Theorem new_request_psn (ids : list Z) (s : st) (Hwf : qp_wf ids s) (Hi : req_inv (st_qp s)) (Hm : 0 <= a_path_mtu (qp_attr (st_qp s))) :
  let r := qp_requester (st_qp s) in
  exists taken s', process_new_send_wr s = Some (taken, s') /\
  if taken
  then let r' := qp_requester (st_qp s') in
       qp_wf ids s' /\ req_inv (st_qp s') /\ qp_state (st_qp s) = IB_QPS_RTS
       /\ exists id w w', rq_submitted r = id :: rq_submitted r' /\ rq_sending r' = rq_sending r ++ [id] /\ rq_waiting r' = rq_waiting r
          /\ rq_swqes r !! id = Some w /\ new_send_blocked r w = false /\ rq_swqes r' !! id = Some w'
          /\ p_based_psn (w_processing w') = rq_expected_psn r /\ p_sent_packets (w_processing w') = 0
          /\ p_expected_psn (w_processing w') = rq_expected_psn r'
          /\ rq_expected_psn r' = u32 (rq_expected_psn r + pib_get_num_of_packets (qp_type (st_qp s)) (a_path_mtu (qp_attr (st_qp s))) (w_total_length w))
  else s' = s /\ (qp_state (st_qp s) <> IB_QPS_RTS \/ rq_submitted r = []
                  \/ exists id w, head (rq_submitted r) = Some id /\ rq_swqes r !! id = Some w /\ new_send_blocked r w = true).
Proof.
  intros r. destruct (decide (qp_state (st_qp s) = IB_QPS_RTS)) as [Hst|Hst].
  2: { exists false, s. unfold process_new_send_wr, the_qp, bind, gets. rewrite (bool_decide_eq_false_2 _ Hst). auto. }
  destruct (rq_submitted r) as [|id sub] eqn:Hsub.
  { exists false, s. unfold process_new_send_wr, the_qp, bind, gets. rewrite (bool_decide_eq_true_2 _ Hst). fold r. rewrite Hsub. auto. }
  destruct (proj1 (Forall_cons _ _ _) (eq_rect _ (Forall _) (ri_submitted _ Hi) _ Hsub)) as [(w & Hw & _) _]. fold r in Hw.
  destruct (new_send_blocked r w) eqn:Hb.
  { exists false, s. split; [|split; [done|right; right; by exists id, w]]. unfold process_new_send_wr, the_qp.
    rewrite (bind_run _ _ _ (st_qp s) s) by reflexivity. rewrite (bool_decide_eq_true_2 _ Hst). fold r. rewrite Hsub. cbn [negb].
    rewrite (bind_run _ _ _ w s); [by rewrite Hb|]. unfold get_swqe, the_req, bind, gets. fold r. by rewrite Hw. }
  pose proof (process_new_run ids s id sub w (wf_own _ _ Hwf) Hst Hsub Hw Hb) as Hrun.
  destruct (taken_step ids s id sub w Hwf Hi Hm Hsub Hw) as (Hwf' & Hi' & _). eexists true, _. split; [exact Hrun|]. cbv zeta.
  split; [exact Hwf'|]. split; [exact Hi'|]. split; [exact Hst|].
  eexists id, w, _. split; [reflexivity|]. split; [reflexivity|]. split; [reflexivity|]. split; [exact Hw|]. split; [exact Hb|].
  split; [simpl; rewrite lookup_alter_eq; fold r; rewrite Hw; reflexivity|]. split_and!; reflexivity.
Qed.
End RequesterThm.

(** ** Witnesses *)

#[local] Existing Instance demo_params.

(** The example state, with the packet sequence number behind its last request. *)
Definition requester_demo : st := with_req demo_st (demo_requester <| rq_expected_psn := 15 |>).

Lemma requester_demo_wf : qp_wf [0; 1; 2; 3; 4] requester_demo.
Proof. destruct demo_wf as [W1 W2 W3 W4]. split; [apply qp_env_upd; [done|exact W1]|exact W2|exact W3|exact W4]. Qed.

Lemma requester_demo_inv : req_inv (st_qp requester_demo).
Proof.
  split.
  - constructor; [|constructor]. eexists. split; [vm_compute; reflexivity|]. split_and!; simpl; first [done|by eexists|by repeat constructor].
  - constructor; [|constructor]. eexists. split; [vm_compute; reflexivity|]. unfold sending, started, posted. split_and!; simpl; first [done|by eexists|by repeat constructor].
  - constructor; [|constructor]. eexists. split; [vm_compute; reflexivity|]. unfold sending, started, posted. split_and!; simpl; first [done|by eexists|by repeat constructor].
  - exists 10. eexists. split; [vm_compute; reflexivity|]. split; [done|]. eexists. split; [vm_compute; reflexivity|]. done.
  - reflexivity.
Qed.

Lemma requester_demo_env : send_env requester_demo.
Proof.
  split; [|split; [done|]].
  - intros k mr Hk Hv. change (({[ 0 := demo_mr ]} : gmap Z pib_mr) !! k = Some mr) in Hk. apply lookup_singleton_Some in Hk as [<- <-]. unfold mr_wf. simpl. split_and!; try done.
    exists 12. split_and!; try done. by repeat constructor.
  - eexists. split; [vm_compute; reflexivity|]. split; [by eexists|done].
Qed.


Lemma timeout_retransmits_witness :
  exists s', retry_waiting 3 requester_demo = Some (tt, s') /\ rq_sending (qp_requester (st_qp s')) = [3; 2].
Proof.
  destruct (timeout_retransmits [0; 1; 2; 3; 4] requester_demo 3 [] requester_demo_wf requester_demo_inv eq_refl) as (s' & H & _ & Hs & _).
  exists s'. split; [exact H|exact Hs].
Defined.

Lemma new_request_psn_witness :
  exists taken s', process_new_send_wr requester_demo = Some (taken, s') /\ (taken = false -> s' = requester_demo).
Proof.
  destruct (new_request_psn [0; 1; 2; 3; 4] requester_demo requester_demo_wf requester_demo_inv) as (b & s' & H & P); [done|].
  exists b, s'. split; [exact H|]. intros ->. exact (proj1 P).
Defined.

(** The request of 700 bytes is taken up with three packets, 15 to 17. *)
Example new_request_run :
  match process_new_send_wr requester_demo with
  | Some (b, s') => b = true /\ rq_sending (qp_requester (st_qp s')) = [2; 1] /\ rq_expected_psn (qp_requester (st_qp s')) = 18
  | None => False
  end.
Proof. vm_compute. done. Qed.

(** A local invalidate of a key that does not exist is completed twice, with its
    error and as flushed, and leaves the count of waiting requests at -1. *)
Definition local_inv_demo : st :=
  requester_demo <| st_qp ::= fun q => q <| qp_requester ::= fun r => r <| rq_swqes ::=
    alter (fun w => w <| w_opcode := IB_WR_LOCAL_INV |> <| w_local_only_request := true |> <| w_ex := 0x700000 |>) 3 |> |> |>.
Example local_only_failure_run :
  match process_on_qp_scheduler empty local_inv_demo with
  | Some (_, s') => (fun cq => map wc_wr_id (cq_cqe_head cq)) <$> (st_cqs s' !! 1) = Some [103; 103; 102; 101]
      /\ rq_nr_waiting (qp_requester (st_qp s')) = -1 /\ qp_state (st_qp s') = IB_QPS_ERR
  | None => False
  end.
Proof. vm_compute. done. Qed.
