(* ===== verification/RcRespThm.v ===== *)
(** * RC transport: theorems about the requester's receive side

    An acknowledge completes, in the order of posting, the requests it covers and no
    other; an error completes the requests before it, reports the one that failed and
    flushes the rest.  Whatever response packet arrives, the requester handles it
    without failing, keeps its invariants and writes only to memory that its own work
    requests may write to. *)

From S2P Require Import Prelude Verbs Lib ObjNum Cq Srq Mr MrSafe State Demo Sched Qp QpInv QpThm Packet Wire Rc RcThm RcRsp RcResp RcInv Ud Requester RequesterThm.

Lemma wp_run_eq {A} (m : M st A) (Q : A -> st -> Prop) s a s' : m s = Some (a, s') -> Q a s' -> wp m Q s.
Proof. intros E H. unfold wp. by rewrite E. Qed.

(** ** Changing one entry *)

Lemma ents_alter_at m f k (P : pib_send_wqe -> Prop) l : (forall w, m !! k = Some w -> P w -> P (f w)) ->
  Forall (ent m P) l -> Forall (ent (alter f k m) P) l.
Proof.
  intros Hf Hl. eapply Forall_impl; [exact Hl|]. intros id (w & Hw & HP). destruct (decide (k = id)) as [->|Hne].
  - exists (f w). rewrite lookup_alter_eq, Hw. auto.
  - exists w. by rewrite lookup_alter_ne.
Qed.

Lemma psn_tiles_alter_at m f k ids e :
  (forall w, m !! k = Some w -> p_based_psn (w_processing (f w)) = p_based_psn (w_processing w)
          /\ p_expected_psn (w_processing (f w)) = p_expected_psn (w_processing w)) ->
  forall a, psn_tiles m ids a e -> psn_tiles (alter f k m) ids a e.
Proof.
  intros Hf. induction ids as [|id ids IH]; simpl; [done|]. intros a (w & Hw & Hb & Ht).
  destruct (decide (k = id)) as [->|Hne].
  - exists (f w). rewrite lookup_alter_eq, Hw. destruct (Hf w Hw) as [-> ->]. auto.
  - exists w. rewrite lookup_alter_ne by done. auto.
Qed.

(** A change of the progress of a request that stays where it is. *)
Definition progress (f : pib_send_wqe -> pib_send_wqe) (w : pib_send_wqe) : Prop :=
  let p := w_processing w in
  let p' := w_processing (f w) in
  f w = w <| w_processing := p' |>
  /\ p_based_psn p' = p_based_psn p /\ p_expected_psn p' = p_expected_psn p /\ p_all_packets p' = p_all_packets p
  /\ p_list_type p' = p_list_type p
  /\ (0 <= p_ack_packets p < p_all_packets p -> 0 <= p_ack_packets p' < p_all_packets p)
  /\ (0 <= p_sent_packets p < p_all_packets p -> 0 <= p_sent_packets p' < p_all_packets p).

Lemma progress_opcode f w : progress f w -> w_opcode (f w) = w_opcode w.
Proof. by intros (-> & _). Qed.
Lemma progress_started q f w : progress f w -> started q w -> started q (f w).
Proof.
  intros (Hf & P1 & P2 & P3 & P4 & P5 & P6) (S1 & S2 & S3 & S4). rewrite Hf. unfold started, posted in *. simpl.
  rewrite P1, P2, P3. split_and!; try tauto.
Qed.
Lemma progress_sending q f w : progress f w -> sending q w -> sending q (f w).
Proof.
  intros Hf (S1 & S2 & S3). split; [by apply progress_started|]. destruct Hf as (_ & P1 & P2 & P3 & P4 & P5 & P6).
  rewrite P3, P4. split; [done|]. by apply P6.
Qed.
Lemma progress_posted f w : progress f w -> posted w -> posted (f w).
Proof. intros (Hf & _) H. rewrite Hf. exact H. Qed.

Definition set_swqes (f : gmap Z pib_send_wqe -> gmap Z pib_send_wqe) (q : pib_qp) : pib_qp :=
  q <| qp_requester ::= fun r => r <| rq_swqes ::= f |> |>.

Lemma req_inv_progress q f id : (forall w, rq_swqes (qp_requester q) !! id = Some w -> progress f w) ->
  req_inv q -> req_inv (set_swqes (alter f id) q).
Proof.
  intros Hf [I1 I2 I3 [a I4] I5]. split; simpl.
  - apply ents_alter_at; [|done]. intros w Hw. apply progress_posted. auto.
  - apply ents_alter_at; [|done]. intros w Hw. apply progress_sending. auto.
  - apply ents_alter_at; [|done]. intros w Hw. apply progress_started. auto.
  - exists a. apply psn_tiles_alter_at; [|done]. intros w Hw. destruct (Hf w Hw) as (_ & -> & -> & _). done.
  - rewrite I5. symmetry. apply rd_atomics_ext. intros k. unfold is_rd_atomic. destruct (decide (id = k)) as [->|Hne].
    + rewrite lookup_alter_eq. destruct (rq_swqes (qp_requester q) !! k) as [w|] eqn:Hw; [|done]. simpl. by rewrite (progress_opcode f w) by auto.
    + by rewrite lookup_alter_ne.
Qed.

(** ** Taking the first request off *)

Definition queue (waiting : bool) (r : requester_t) : list Z := if waiting then rq_waiting r else rq_sending r.
Definition popped (waiting : bool) (rest : list Z) (r : requester_t) : requester_t :=
  if waiting then r <| rq_waiting := rest |> <| rq_nr_waiting ::= fun n => n - 1 |>
  else r <| rq_sending := rest |> <| rq_nr_sending ::= fun n => n - 1 |>.

(** [id] is the oldest request that was taken up. *)
Definition oldest (waiting : bool) (id : Z) (rest : list Z) (r : requester_t) : Prop :=
  queue waiting r = id :: rest /\ (waiting = false -> rq_waiting r = []).

Lemma own_queue ids r waiting id rest : rq_own ids [] r -> queue waiting r = id :: rest ->
  (id ∉ rest) /\ (id ∉ rq_submitted r) /\ (id ∉ rq_free r) /\ (id ∉ queue (negb waiting) r).
Proof.
  intros Ho Hq. destruct (own_disjoint _ _ _ Ho) as (_ & _ & Hse & Hw & _ & Hf & Hwf & Hsu & Hwsu & Hws & _).
  destruct waiting; simpl in *; rewrite Hq in *.
  - apply NoDup_cons in Hw as [Hw _]. split_and!; [done|apply Hwsu|apply Hwf|apply Hws]; by left.
  - apply NoDup_cons in Hse as [Hse _]. split_and!; [done|apply Hsu; by left|apply Hf; by left|]. intros Hc. apply (Hws _ Hc). by left.
Qed.

Lemma popped_eq ids r waiting id rest : rq_own ids [] r -> queue waiting r = id :: rest ->
  let r1 := r <| rq_submitted ::= del id |> <| rq_sending ::= del id |> <| rq_waiting ::= del id |> <| rq_free ::= del id |> in
  (if waiting then r1 <| rq_nr_waiting ::= fun n => n - 1 |> else r1 <| rq_nr_sending ::= fun n => n - 1 |>) = popped waiting rest r.
Proof.
  intros Ho Hq. destruct (own_queue _ _ _ _ _ Ho Hq) as (N1 & N2 & N3 & N4). destruct r, waiting; simpl in *; subst;
    by rewrite del_head, !del_notin by done.
Qed.

Section RcRespThm.
Context {PP : Params}.

Lemma unlink_run ids s waiting id rest : rq_own ids [] (qp_requester (st_qp s)) -> queue waiting (qp_requester (st_qp s)) = id :: rest ->
  unlink_swqe waiting id s = Some (tt, with_req s (popped waiting rest (qp_requester (st_qp s)))).
Proof.
  intros Ho Hq. rewrite <- (popped_eq ids _ _ _ _ Ho Hq).
  unfold unlink_swqe, swqe_list_del, upd_req, upd_qp, bind, modify, with_req. by destruct waiting.
Qed.

Lemma popped_wf ids s f waiting id rest : qp_wf ids s -> queue waiting (qp_requester (st_qp s)) = id :: rest ->
  qp_wfo ids [id] (with_req s ((popped waiting rest (qp_requester (st_qp s))) <| rq_swqes ::= alter f id |>)).
Proof.
  intros Hwf Hq. pose proof (wf_counts _ _ Hwf) as (C1 & C2 & C3). pose proof (wf_own _ _ Hwf) as Ho.
  destruct Hwf as [W1 W2 W3 W4]. split; [by apply qp_env_upd| | |done].
  - eapply rq_own_perm; [exact (rq_own_alter ids [] _ f id Ho)|by destruct waiting|].
    destruct waiting; simpl in *; unfold rq_lists; simpl; rewrite Hq; solve_Permutation.
  - destruct waiting; simpl in *; rewrite Hq, Zlen_cons in *; unfold rq_counts; simpl; split_and!; zlen.
Qed.

(** The requester without the oldest request [w]; the entry was changed by [f]. *)
Definition retired (f : pib_send_wqe -> pib_send_wqe) (waiting : bool) (id : Z) (rest : list Z) (psn : Z) (w : pib_send_wqe)
    (r : requester_t) : requester_t :=
  (popped waiting rest r) <| rq_swqes ::= alter f id |>
     <| rq_nr_rd_atomic ::= fun n => n - (if pib_is_wr_opcode_rd_atomic (w_opcode w) then 1 else 0) |>
     <| rq_psn := psn |> <| rq_free ::= fun l => l ++ [id] |>.

Lemma retired_wf ids s f waiting id rest psn w : qp_wf ids s -> queue waiting (qp_requester (st_qp s)) = id :: rest ->
  qp_wf ids (with_req s (retired f waiting id rest psn w (qp_requester (st_qp s)))).
Proof.
  intros Hwf Hq. pose proof (popped_wf ids s f _ _ _ Hwf Hq) as [W1 W2 W3 W4].
  destruct Hwf as [V1 V2 V3 V4]. split; [by apply qp_env_upd| | |done].
  - eapply rq_own_perm; [exact W2|by destruct waiting|]. destruct waiting; unfold rq_lists; simpl; solve_Permutation.
  - by destruct waiting.
Qed.

Lemma psn_tiles_tail m id ids a e : psn_tiles m (id :: ids) a e -> exists a', psn_tiles m ids a' e.
Proof. simpl. intros (w & _ & _ & H). by eexists. Qed.

Lemma retired_inv ids s f waiting id rest psn w : qp_wf ids s -> req_inv (st_qp s) -> oldest waiting id rest (qp_requester (st_qp s)) ->
  rq_swqes (qp_requester (st_qp s)) !! id = Some w -> 
  req_inv (st_qp (with_req s (retired f waiting id rest psn w (qp_requester (st_qp s))))).
Proof.
  intros Hwf [I1 I2 I3 [a I4] I5] [Hq Hw0] Hw. destruct (own_queue _ _ _ _ _ (wf_own _ _ Hwf) Hq) as (N1 & N2 & N3 & N4).
  assert (rq_waiting (qp_requester (st_qp s)) ++ rq_sending (qp_requester (st_qp s))
    = id :: rq_waiting (popped waiting rest (qp_requester (st_qp s))) ++ rq_sending (popped waiting rest (qp_requester (st_qp s)))) as El.
  { destruct waiting; simpl in *; [by rewrite Hq|]. by rewrite Hw0, Hq. }
  rewrite El in I4, I5. apply psn_tiles_tail in I4 as [a' I4]. change (id :: ?l) with ([id] ++ l) in I5.
  rewrite rd_atomics_app, (rd_atomics_one _ _ _ Hw) in I5.
  set (l := rq_waiting (popped waiting rest _) ++ _) in *.
  assert (id ∉ l) as Hid by (unfold l; rewrite elem_of_app; destruct waiting; simpl in *; tauto).
  assert (psn_tiles (alter f id (rq_swqes (qp_requester (st_qp s)))) l a' (rq_expected_psn (qp_requester (st_qp s)))) as T
    by (by apply psn_tiles_alter_notin).
  assert (rd_atomics (alter f id (rq_swqes (qp_requester (st_qp s)))) l = rd_atomics (rq_swqes (qp_requester (st_qp s))) l) as D.
  { unfold rd_atomics. f_equal. apply List.filter_ext_in. intros k Hk%list_elem_of_In. unfold is_rd_atomic.
    rewrite lookup_alter_ne; [done|]. by intros ->. }
  destruct waiting; simpl in *; rewrite Hq in *.
  - apply Forall_cons in I3 as [_ I3]. split; simpl; try (by apply ents_alter_notin); [by eexists|]. change (rest ++ _) with l. lia.
  - apply Forall_cons in I2 as [_ I2]. split; simpl; try (by apply ents_alter_notin); [by eexists|]. change (_ ++ rest) with l. lia.
Qed.

Lemma retired_outstanding f waiting id rest psn w r : oldest waiting id rest r ->
  outstanding r = id :: outstanding (retired f waiting id rest psn w r).
Proof. intros [Hq Hw0]. unfold outstanding. destruct waiting; simpl in *; [by rewrite Hq|]. by rewrite Hw0, Hq. Qed.

(** ** Completions *)

(** The requester becomes [r'] and the send CQ receives the completions [ops];
    nothing else changes. *)
Definition answered (ops : list cq_op) (r' : requester_t) (s s' : st) : Prop :=
  st_qp s' = (st_qp s) <| qp_requester := r' |> /\ st_srqs s' = st_srqs s /\ st_pd s' = st_pd s
  /\ st_mem s' = st_mem s /\ st_ports s' = st_ports s /\ st_sched s' = st_sched s /\ st_now s' = st_now s
  /\ qp_env s'
  /\ (forall c cq, st_cqs s !! c = Some cq ->
        st_cqs s' !! c = Some (cq_after (if c =? qp_send_cq (st_qp s) then ops else []) cq)).

Lemma answered_refl s : qp_env s -> answered [] (qp_requester (st_qp s)) s s.
Proof.
  intros. unfold answered. split_and?; try done; [by destruct s as [[] ? ? ? ? ? ? ? ? ? ? ? ?]|].
  intros c cq Hc. by destruct (c =? _).
Qed.

Lemma answered_trans ops1 ops2 r1 r2 s s1 s2 : answered ops1 r1 s s1 -> answered ops2 r2 s1 s2 -> answered (ops1 ++ ops2) r2 s s2.
Proof.
  intros (F1 & F2 & F3 & F4 & F5 & F6 & F7 & F8 & F9) (G1 & G2 & G3 & G4 & G5 & G6 & G7 & G8 & G9).
  unfold answered. rewrite F1 in G1, G9. simpl in *. split_and?; try congruence; try done.
  intros c cq Hc. rewrite (G9 _ _ (F9 _ _ Hc)). destruct (c =? qp_send_cq (st_qp s)); [by rewrite <- cq_after_app|done].
Qed.

Lemma answered_upd ops r' u s s1 : answered ops r' s s1 ->
  answered ops (u r') s (s1 <| st_qp ::= fun q => q <| qp_requester ::= u |> |>).
Proof.
  intros (F1 & F2 & F3 & F4 & F5 & F6 & F7 & F8 & F9). unfold answered. split_and?; try done. simpl. by rewrite F1.
Qed.

Lemma answered_put ops r r' s s1 : answered ops r s s1 -> answered ops r' s (with_req s1 r').
Proof. intros H. by apply (answered_upd _ _ (fun _ => r')) in H. Qed.

(** The completion of a request that succeeded, if it is signaled. *)
Definition success_ops (q : pib_qp) (w : pib_send_wqe) : list cq_op :=
  match pib_convert_wr_opcode_to_wc_opcode (w_opcode w) with
  | Some op => if i_sq_sig_all (qp_init_attr q) || has_flag (w_send_flags w) IB_SEND_SIGNALED
      then [OpInsert (smi_port_of q) (wc_init (w_wr_id w) IB_WC_SUCCESS op (qp_num q)) false] else []
  | None => []
  end.
Definition done_ops (q : pib_qp) (m : gmap Z pib_send_wqe) (l : list Z) : list cq_op :=
  l ≫= fun id => match m !! id with Some w => success_ops q w | None => [] end.

Lemma done_ops_cons q m id w l : m !! id = Some w -> done_ops q m (id :: l) = success_ops q w ++ done_ops q m l.
Proof. intros Hw. unfold done_ops. rewrite bind_cons. by rewrite Hw. Qed.

Lemma wp_complete s w (Q : unit -> st -> Prop) : qp_env s -> is_Some (pib_convert_wr_opcode_to_wc_opcode (w_opcode w)) ->
  (forall s', answered (success_ops (st_qp s) w) (qp_requester (st_qp s)) s s' -> Q tt s') ->
  wp (complete_swqe w (pib_convert_wr_opcode_to_wc_opcode (w_opcode w))) Q s.
Proof.
  intros He [op Hop] HQ. unfold success_ops in HQ. rewrite Hop in *. unfold complete_swqe, the_qp. do 3 wp_step.
  - unfold qp_insert_wc_success, the_qp. do 5 wp_step. pose proof He as (Ec & [cq Hcq] & _). eapply wp_with_cq; [exact Hcq|].
    intros s1 Hf Hcqs _. wp_step. unfold pib_util_insert_wc_success in *. apply HQ. pose proof Hf as (F1 & F2 & F3 & F4 & F5 & F6 & F7 & F8).
    unfold answered. split_and?; try done.
    + rewrite F1. by destruct s as [[] ? ? ? ? ? ? ? ? ? ? ? ?].
    + eapply qp_env_cq; [exact He|done| |exact Hcqs]. by apply insert_wc_inv, (Ec _ _ Hcq).
    + intros c cq0 Hc. rewrite H, Hcqs. destruct (Z.eqb_spec c (qp_send_cq (st_qp s))) as [->|Hne].
      * rewrite lookup_insert_eq. assert (cq0 = cq) as -> by congruence. rewrite cq_after_cons. simpl.
        by destruct (insert_wc _ _ _ cq) as [[? ?] ?].
      * by rewrite lookup_insert_ne.
  - apply HQ. rewrite H. by apply answered_refl.
Qed.

(** ** The acknowledge of a request *)

(** [psn] acknowledges all packets of the request; it reports a request that failed,
    or skips an RDMA READ or Atomic that was not answered. *)
Definition acks (psn : Z) (w : pib_send_wqe) : bool :=
  bool_decide (p_status (w_processing w) = IB_WC_SUCCESS) && negb (pib_is_wr_opcode_rd_atomic (w_opcode w))
  && (p_all_packets (w_processing w) <=? get_psn_diff psn (p_based_psn (w_processing w)) + 1).
Definition nacks (psn : Z) (w : pib_send_wqe) : bool :=
  negb (bool_decide (p_status (w_processing w) = IB_WC_SUCCESS))
  || pib_is_wr_opcode_rd_atomic (w_opcode w) && (p_ack_packets (w_processing w) <=? get_psn_diff psn (p_based_psn (w_processing w))).

(** The status the request is completed with. *)
Definition nack_status (w : pib_send_wqe) : ib_wc_status :=
  if bool_decide (p_status (w_processing w) = IB_WC_SUCCESS) then IB_WC_BAD_RESP_ERR else p_status (w_processing w).

(** The requests but for their progress. *)
Definition same_wrs (m m' : gmap Z pib_send_wqe) : Prop :=
  forall id, (fun w => (w_wr_id w, w_opcode w)) <$> m' !! id = (fun w => (w_wr_id w, w_opcode w)) <$> m !! id.

Lemma same_wrs_alter m f id : (forall w, w_wr_id (f w) = w_wr_id w /\ w_opcode (f w) = w_opcode w) -> same_wrs m (alter f id m).
Proof.
  intros Hf k. destruct (decide (id = k)) as [->|Hne]; [|by rewrite lookup_alter_ne]. rewrite lookup_alter_eq.
  destruct (m !! k) as [w|]; [|done]. simpl. by destruct (Hf w) as [-> ->].
Qed.

Lemma flush_ops_wrs q m m' l : same_wrs m m' -> flush_ops q m' l = flush_ops q m l.
Proof.
  intros H. unfold flush_ops. apply list_fmap_ext. intros _ id _. specialize (H id).
  destruct (m !! id), (m' !! id); simpl in H; try done. injection H as -> ->. done.
Qed.

Definition req (s : st) : requester_t := qp_requester (st_qp s).
Definition swqes (s : st) : gmap Z pib_send_wqe := rq_swqes (req s).

Lemma alt_id id s : alt id (fun w => w) s = s.
Proof.
  destruct s as [[? ? ? ? ? ? ? ? ? ? ? ? ? [] ? ? ? ? ?] ? ? ? ? ? ? ? ? ? ? ? ?]. unfold alt, set_field. simpl. by rewrite alter_id.
Qed.

Lemma wf_alt ids id f s : qp_wf ids s -> qp_wf ids (alt id f s).
Proof. intros [W1 W2 W3 W4]. split; [by apply qp_env_upd| |done|done]. by apply (rq_own_alter ids [] (req s)). Qed.

Definition same_wr (f : pib_send_wqe -> pib_send_wqe) : Prop := forall w, w_wr_id (f w) = w_wr_id w /\ w_opcode (f w) = w_opcode w.

Lemma wp_process_acknowledge s id w psn (Q : ack_ret -> st -> Prop) :
  qp_env s -> swqes s !! id = Some w -> started (st_qp s) w ->
  (acks psn w = true -> forall s', answered (success_ops (st_qp s) w) ((req s) <| rq_psn := Z.land (p_expected_psn (w_processing w)) PIB_PSN_MASK |>) s s' ->
     Q RET_COMPLETE s') ->
  (nacks psn w = true -> forall f, p_status (w_processing (f w)) = nack_status w -> same_wr f -> Q RET_ERROR (alt id f s)) ->
  (acks psn w = false -> nacks psn w = false -> forall r f, r <> RET_ERROR -> r <> RET_COMPLETE -> progress f w -> same_wr f -> Q r (alt id f s)) ->
  wp (process_acknowledge id psn) Q s.
Proof.
  intros He Hw Hst HC HE HS. unfold process_acknowledge, get_swqe, the_req. do 3 wp_step. fold (req s). fold (swqes s). rewrite Hw. wp_step. cbv zeta.
  destruct Hst as (Hp & _ & _ & Hk). unfold acks, nacks, nack_status in *.
  destruct (bool_decide (p_status (w_processing w) = IB_WC_SUCCESS)) eqn:Es; cbn [negb andb orb] in *.
  2:{ wp_step. rewrite <- (alt_id id s). by apply HE. }
  assert (progress (fun w => w) w) as Hid by (unfold progress; split_and!; try done; by destruct w).
  set (d := get_psn_diff psn (p_based_psn (w_processing w))) in *. wp_step.
  { wp_step. rewrite <- (alt_id id s). bools. apply HS; try done.
    - rewrite (proj2 (Z.leb_gt _ _)) by lia. by rewrite andb_false_r.
    - rewrite (proj2 (Z.leb_gt _ _)) by lia. by rewrite andb_false_r. }
  wp_step.
  { wp_step. rewrite <- (alt_id id s). bools. apply HS; try done.
    - rewrite (proj2 (Z.leb_gt _ _)) by lia. by rewrite andb_false_r.
    - rewrite (proj2 (Z.leb_gt _ _)) by lia. by rewrite andb_false_r. }
  bools. rewrite (proj2 (Z.leb_le (p_ack_packets (w_processing w)) d)), andb_true_r in * by lia. wp_step.
  { unfold upd_proc, upd_swqe, upd_req, upd_qp. do 3 wp_step.
    apply (HE eq_refl (fun w => w <| w_processing ::= fun p => p <| p_status := IB_WC_BAD_RESP_ERR |> |>)); [|done]. done. }
  cbn [negb andb] in *. wp_step; bools.
  { unfold upd_proc, upd_swqe, upd_req, upd_qp. do 3 wp_step.
    apply (HS ltac:(by apply Z.leb_gt) eq_refl RET_CONTINUE (fun w => w <| w_processing ::= fun p => p <| p_ack_packets := d + 1 |> |>)); try done.
    unfold progress. simpl. split_and!; try done; lia. }
  wp_step. apply wp_complete; [done|apply Hp|]. intros s1 H1. unfold upd_req, upd_qp. do 3 wp_step.
  apply HC; [by apply Z.leb_le|]. by apply (answered_upd _ _ (fun r => r <| rq_psn := _ |>)).
Qed.

(** How a loop over the acknowledged requests of a list ends. *)
Definition acked (ids : list Z) (waiting : bool) (psn : Z) (s : st) (e : ack_exit) (s' : st) : Prop :=
  exists done rest r',
    queue waiting (req s) = done ++ rest /\ Forall (ent (swqes s) (fun w => acks psn w = true)) done
    /\ answered (done_ops (st_qp s) (swqes s) done) r' s s'
    /\ queue (negb waiting) r' = queue (negb waiting) (req s) /\ rq_submitted r' = rq_submitted (req s)
    /\ match e with
       | AckDone => rest = [] /\ queue waiting r' = [] /\ rq_swqes r' = swqes s /\ qp_wf ids s' /\ req_inv (st_qp s')
       | AckStop => (exists id rest', rest = id :: rest' /\ ent (swqes s) (fun w => acks psn w = false /\ nacks psn w = false) id)
           /\ queue waiting r' = rest /\ qp_wf ids s' /\ req_inv (st_qp s')
       | AckError id => exists rest' w w', rest = id :: rest' /\ swqes s !! id = Some w /\ nacks psn w = true
           /\ queue waiting r' = rest' /\ qp_wfo ids [id] s'
           /\ rq_swqes r' !! id = Some w' /\ p_status (w_processing w') = nack_status w /\ w_wr_id w' = w_wr_id w
           /\ w_opcode w' = w_opcode w /\ same_wrs (swqes s) (rq_swqes r')
       end.

Lemma retired_eq id waiting rest psn w r : pib_is_wr_opcode_rd_atomic (w_opcode w) = false ->
  (popped waiting rest (r <| rq_psn := psn |>)) <| rq_free ::= fun l => l ++ [id] |> = retired (fun w => w) waiting id rest psn w r.
Proof.
  intros Hrd. unfold retired. rewrite Hrd. destruct r, waiting; simpl; by rewrite alter_id, Z.sub_0_r.
Qed.

Lemma answered_req ops r' s s' : answered ops r' s s' -> req s' = r'.
Proof. intros (H & _). unfold req. by rewrite H. Qed.
Lemma answered_ops ops r' s s' w : answered ops r' s s' -> success_ops (st_qp s') w = success_ops (st_qp s) w.
Proof. intros (H & _). unfold success_ops. by rewrite H. Qed.
Lemma done_ops_answered ops r' s s' m l : answered ops r' s s' -> done_ops (st_qp s') m l = done_ops (st_qp s) m l.
Proof. intros (H & _). unfold done_ops, success_ops. by rewrite H. Qed.

(** An update of the requester alone. *)
Lemma answered_with s r' : qp_env s -> answered [] r' s (with_req s r').
Proof.
  intros He. unfold answered. split_and?; try done. intros c cq Hc. simpl. by destruct (c =? _).
Qed.

Lemma wf_answered ids out ops r' s s' : qp_wfo ids out (with_req s r') -> answered ops r' s s' -> qp_wfo ids out s'.
Proof.
  intros [W1 W2 W3 W4] (F1 & F2 & F3 & F4 & F5 & F6 & F7 & F8 & F9). split; [done|by rewrite F1..].
Qed.
Lemma inv_answered ops r' s s' : req_inv (st_qp (with_req s r')) -> answered ops r' s s' -> req_inv (st_qp s').
Proof. intros H (F1 & _). by rewrite F1. Qed.

Lemma queue_started waiting id rest s : req_inv (st_qp s) -> queue waiting (req s) = id :: rest ->
  exists w, swqes s !! id = Some w /\ started (st_qp s) w.
Proof.
  intros [_ I2 I3 _ _] Hq. unfold req in Hq. destruct waiting; simpl in Hq.
  - rewrite Hq in I3. by apply Forall_cons in I3 as [H _].
  - rewrite Hq in I2. apply Forall_cons in I2 as [(w & Hw & Hs) _]. exists w. split; [done|apply Hs].
Qed.

Lemma acked_cons ids waiting psn id w ops r1 s s1 e s2 : swqes s !! id = Some w -> acks psn w = true ->
  answered (success_ops (st_qp s) w) r1 s s1 -> queue waiting (req s) = id :: queue waiting r1 ->
  queue (negb waiting) r1 = queue (negb waiting) (req s) -> rq_submitted r1 = rq_submitted (req s) -> rq_swqes r1 = swqes s ->
  ops = success_ops (st_qp s) w -> acked ids waiting psn s1 e s2 -> acked ids waiting psn s e s2.
Proof.
  intros Hw Ha Hans Hq Hn Hsub Hst -> (done & rest & r' & E1 & E2 & E3 & E4 & E5 & E6).
  pose proof (answered_req _ _ _ _ Hans) as Hr. unfold swqes in *. rewrite Hr in *. rewrite Hst in *.
  exists (id :: done), rest, r'. split; [by rewrite Hq, E1|]. split; [constructor; [by exists w|done]|]. split.
  { rewrite (done_ops_answered _ _ _ _ _ _ Hans) in E3. rewrite (done_ops_cons _ _ _ _ _ Hw). by eapply answered_trans. }
  split; [by rewrite E4|]. split; [by rewrite E5|]. exact E6.
Qed.

Lemma wp_ack_loop ids waiting psn l : forall s (Q : ack_exit -> st -> Prop),
  qp_wf ids s -> req_inv (st_qp s) -> queue waiting (req s) = l -> (waiting = false -> rq_waiting (req s) = []) ->
  (forall e s', acked ids waiting psn s e s' -> Q e s') -> wp (ack_loop waiting psn l) Q s.
Proof.
  induction l as [|id l IH]; intros s Q Hwf Hi Hq Hw0 HQ; simpl.
  { wp_step. apply HQ. exists [], [], (req s). split_and?; try done; apply answered_refl, Hwf. }
  destruct (queue_started _ _ _ _ Hi Hq) as (w & Hw & Hst). assert (oldest waiting id l (req s)) as Hold by done.
  wp_step. apply (wp_process_acknowledge s id w); [apply Hwf|done|done|..].
  - intros Ha s1 H1. wp_step. pose proof (answered_req _ _ _ _ H1) as Hr1.
    assert (Hrd : pib_is_wr_opcode_rd_atomic (w_opcode w) = false) by (unfold acks in Ha; by bools).
    eapply wp_run_eq; [apply (unlink_run ids s1 waiting id l)|].
    + fold (req s1). rewrite Hr1. exact (wf_own _ _ Hwf).
    + fold (req s1). rewrite Hr1. by destruct waiting.
    + fold (req s1). rewrite Hr1. unfold pib_util_free_send_wqe, upd_req, upd_qp. do 2 wp_step.
      set (r1 := retired (fun w => w) waiting id l (Z.land (p_expected_psn (w_processing w)) PIB_PSN_MASK) w (req s)).
      set (s2 := set_field st_qp _ _). assert (answered (success_ops (st_qp s) w) r1 s s2) as H2.
      { unfold r1. rewrite <- retired_eq by done. exact (answered_put _ _ _ _ _ H1). }
      assert (qp_wf ids s2) as Hwf2 by (eapply wf_answered; [|exact H2]; by apply retired_wf).
      apply IH; [done| | | |].
      * eapply inv_answered; [|exact H2]. by apply (retired_inv ids).
      * rewrite (answered_req _ _ _ _ H2). by destruct waiting.
      * intros ->. rewrite (answered_req _ _ _ _ H2). by apply Hw0.
      * intros e s' He. apply HQ. eapply (acked_cons ids waiting psn id w _ r1); try done; unfold r1, retired; destruct waiting; simpl; try done; by apply alter_id.
  - intros Hn f Hf Hs. wp_step. eapply wp_run_eq; [apply (unlink_run ids (alt id f s) waiting id l)|].
    + apply (rq_own_alter ids [] (req s)), Hwf.
    + by destruct waiting.
    + wp_step. apply HQ. exists [], (id :: l), (popped waiting l ((req s) <| rq_swqes ::= alter f id |>)).
      assert (popped waiting l ((req s) <| rq_swqes ::= alter f id |>) = (popped waiting l (req s)) <| rq_swqes ::= alter f id |>) as Ep
        by (by destruct waiting).
      split; [done|]. split; [constructor|]. split; [exact (answered_with s _ (wf_env _ _ Hwf))|].
      split; [by destruct waiting|]. split; [by destruct waiting|]. exists l, w, (f w). split; [done|]. split; [done|]. split; [done|].
      split; [by destruct waiting|]. split.
      { change (qp_wfo ids [id] (with_req s (popped waiting l ((req s) <| rq_swqes ::= alter f id |>)))). rewrite Ep. by apply popped_wf. }
      rewrite Ep. simpl. split; [rewrite (lookup_alter_eq f (rq_swqes _)); by destruct waiting; simpl; fold (swqes s); rewrite Hw|].
      split; [done|]. destruct (Hs w) as [-> ->]. split; [done|]. split; [done|]. destruct waiting; by apply same_wrs_alter.
  - intros Ha Hn r f He Hc Hp Hs. assert (acked ids waiting psn s AckStop (alt id f s)) as H.
    { exists [], (id :: l), ((req s) <| rq_swqes ::= alter f id |>). split; [done|]. split; [constructor|].
      split; [apply (answered_with s), Hwf|]. split; [by destruct waiting|]. split; [done|].
      split; [exists id, l; split; [done|by exists w]|]. split; [by destruct waiting|]. split.
      - by apply wf_alt.
      - apply (req_inv_progress (st_qp s)); [|done]. intros v Hv. unfold swqes, req in Hw. by assert (v = w) as -> by congruence. }
    destruct r; try done; wp_step; by apply HQ.
Qed.

(** ** The end of an acknowledge *)

Definition on_proc (f : pib_swqe_processing -> pib_swqe_processing) (w : pib_send_wqe) : pib_send_wqe := w <| w_processing ::= f |>.

Lemma proc_all_run s f l : forall r,
  for_each (fun id => upd_proc id f) l (with_req s r) = Some (tt, with_req s (r <| rq_swqes ::= alter_all (on_proc f) l |>)).
Proof.
  induction l as [|id l IH]; intros r.
  - by destruct r.
  - simpl. rewrite (bind_run _ _ _ tt (with_req s (r <| rq_swqes ::= alter (on_proc f) id |>))) by reflexivity. rewrite IH. reflexivity.
Qed.

Lemma req_inv_progress_all f l : (forall w, progress f w) -> forall s, req_inv (st_qp s) ->
  req_inv (st_qp (with_req s ((req s) <| rq_swqes ::= alter_all f l |>))).
Proof.
  intros Hf. induction l as [|id l IH]; intros s Hi.
  - replace ((req s) <| rq_swqes ::= alter_all f [] |>) with (req s) by (by destruct (req s)). by rewrite (with_req_id s : with_req s (req s) = s).
  - pose proof (req_inv_progress (st_qp s) f id ltac:(auto) Hi) as H. exact (IH (alt id f s) H).
Qed.

Lemma wf_alter_all ids out f l s : qp_wfo ids out s -> qp_wfo ids out (with_req s ((req s) <| rq_swqes ::= alter_all f l |>)).
Proof. intros [W1 W2 W3 W4]. split; [by apply qp_env_upd| |done|done]. by apply (rq_own_alter_all ids out f l (req s)). Qed.

(** The acknowledge timers are restarted: the lists and the requests stay. *)
Definition timers_restarted (ids : list Z) (s s' : st) : Prop :=
  qp_wf ids s' /\ req_inv (st_qp s') /\ exists m, s' = with_req s ((req s) <| rq_swqes := m |>).

Lemma wp_postpone ids s (Q : unit -> st -> Prop) : qp_wf ids s -> req_inv (st_qp s) ->
  (forall s', timers_restarted ids s s' -> Q tt s') -> wp postpone_local_ack_timeout Q s.
Proof.
  intros Hwf Hi HQ. unfold postpone_local_ack_timeout, the_qp. do 4 wp_step. cbv zeta.
  set (f := fun p : pib_swqe_processing => _). pose proof (proc_all_run s f (rq_waiting (req s)) (req s)) as E.
  rewrite (with_req_id s : with_req s (req s) = s) in E. eapply wp_run_eq; [exact E|]. apply HQ.
  split; [by apply wf_alter_all|]. split; [|by eexists]. apply req_inv_progress_all; [|done]. by intros [].
Qed.

Lemma wp_ack_error ids s id w (Q : Z -> st -> Prop) : qp_wfo ids [id] s -> swqes s !! id = Some w ->
  (forall s', qp_wf ids s' -> req_inv (st_qp s') -> qp_state (st_qp s') = IB_QPS_ERR -> outstanding (req s') = [] ->
     st_pd s' = st_pd s -> st_mem s' = st_mem s ->
     (corrupt = false -> forall c cq, st_cqs s !! c = Some cq ->
        st_cqs s' !! c = Some (cq_after ((if c =? qp_send_cq (st_qp s)
          then [OpInsert (smi_port_of (st_qp s)) (wc_init (w_wr_id w) (p_status (w_processing w)) (w_opcode w) (qp_num (st_qp s))) true] else [])
          ++ flush_all_ops s false c) cq)) -> Q (-1) s') ->
  wp (ack_error id) Q s.
Proof.
  intros Hwf Hw HQ. unfold ack_error, the_qp, get_swqe, the_req. do 5 wp_step. fold (req s). fold (swqes s). rewrite Hw. wp_step.
  pose proof (wfo_env _ _ _ Hwf) as He. pose proof He as (Ec & [cq Hcq] & _). wp_step. eapply wp_insert_wc_error; [exact Hcq|by apply (Ec _ _ Hcq)|].
  intros s1 cq1 Hf1 Hc1 Hi1 Hv1. pose proof Hf1 as (F1 & F2 & F3 & F4 & F5 & F6 & F7 & F8).
  assert (qp_wfo ids [id] s1) as Hwf1 by (eapply qp_wf_env_only; [exact Hwf|by eapply qp_env_cq|by rewrite F1..]).
  unfold pib_util_free_send_wqe, upd_req, upd_qp. wp_step. wp_step. apply free_wf in Hwf1. set (s2 := set_field st_qp _ s1) in *.
  unfold qp_to_error, upd_qp. do 3 wp_step. set (s3 := set_field st_qp _ s2).
  assert (qp_wf ids s3) as Hwf3 by (by apply (qp_wf_state ids s2)).
  apply (wp_flush_qp ids); [done|]. intros s' (R1 & R2 & R3 & R4 & R5 & _ & R7 & R8 & R9 & R10 & R11 & R12). wp_step.
  apply HQ; [done|by apply req_inv_empty|by rewrite R7|done|by rewrite R8|by rewrite R9|].
  intros Hb c cq0 Hc. rewrite cq_after_app.
  assert (flush_all_ops s3 false c = flush_all_ops s false c) as <- by (unfold flush_all_ops; simpl; by rewrite F1).
  apply (R12 Hb). simpl. rewrite Hc1. destruct (Z.eqb_spec c (qp_send_cq (st_qp s))) as [->|Hne].
  - rewrite lookup_insert_eq. assert (cq0 = cq) as -> by congruence. rewrite cq_after_cons, (Hv1 Hb). simpl.
    by destruct (insert_wc _ _ _ cq) as [[? ?] ?].
  - by rewrite lookup_insert_ne.
Qed.

(** The requests taken up, oldest first. *)
Definition taken_up (r : requester_t) : list Z := rq_waiting r ++ rq_sending r.

Lemma outstanding_taken r : outstanding r = taken_up r ++ rq_submitted r.
Proof. unfold outstanding, taken_up. by rewrite app_assoc. Qed.

(** Both lists together. *)
Definition acked_all (ids : list Z) (psn : Z) (s : st) (e : ack_exit) (s' : st) : Prop :=
  exists done rest r',
    taken_up (req s) = done ++ rest /\ Forall (ent (swqes s) (fun w => acks psn w = true)) done
    /\ answered (done_ops (st_qp s) (swqes s) done) r' s s' /\ rq_submitted r' = rq_submitted (req s)
    /\ match e with
       | AckError id => exists rest' w w', rest = id :: rest' /\ swqes s !! id = Some w /\ nacks psn w = true
           /\ taken_up r' = rest' /\ qp_wfo ids [id] s'
           /\ rq_swqes r' !! id = Some w' /\ p_status (w_processing w') = nack_status w /\ w_wr_id w' = w_wr_id w
           /\ w_opcode w' = w_opcode w /\ same_wrs (swqes s) (rq_swqes r')
       | _ => (forall id, head rest = Some id -> ent (swqes s) (fun w => acks psn w = false /\ nacks psn w = false) id)
           /\ taken_up r' = rest /\ qp_wf ids s' /\ req_inv (st_qp s')
       end.

Lemma acked_waiting ids psn s e s' : acked ids true psn s e s' -> e <> AckDone -> acked_all ids psn s e s'.
Proof.
  intros (done & rest & r' & E1 & E2 & E3 & E4 & E5 & E6) He. simpl in E1, E4. exists done, (rest ++ rq_sending (req s)), r'.
  split; [unfold taken_up; by rewrite E1, app_assoc|]. split; [done|]. split; [done|]. split; [done|]. destruct e; [done|..].
  - destruct E6 as ((id & rest' & -> & Hid) & Hq & Hw & Hi). simpl in Hq. split; [by intros k [= <-]|]. unfold taken_up. by rewrite Hq, E4.
  - destruct E6 as (rest' & w & w' & -> & ? & ? & Hq & ?). simpl in Hq. exists (rest' ++ rq_sending (req s)), w, w'.
    split; [done|]. split; [done|]. split; [done|]. split; [unfold taken_up; by rewrite Hq, E4|done].
Qed.

Lemma done_ops_app q m l k : done_ops q m (l ++ k) = done_ops q m l ++ done_ops q m k.
Proof. unfold done_ops. apply bind_app. Qed.

Lemma acked_both ids psn s s1 e s' : acked ids true psn s AckDone s1 -> acked ids false psn s1 e s' -> acked_all ids psn s e s'.
Proof.
  intros (done1 & rest1 & r1 & E1 & E2 & E3 & E4 & E5 & -> & Hq & Hst & _) (done & rest & r' & F1 & F2 & F3 & F4 & F5 & F6).
  pose proof (answered_req _ _ _ _ E3) as Hr. unfold swqes in *. rewrite Hr in *. rewrite Hst in *. simpl in E1, E4, F1, F4, Hq.
  rewrite app_nil_r in E1. exists (done1 ++ done), rest, r'.
  split; [unfold taken_up; by rewrite E1, <- E4, F1, app_assoc|]. split; [by apply Forall_app|].
  split; [rewrite done_ops_app; rewrite (done_ops_answered _ _ _ _ _ _ E3) in F3; by eapply answered_trans|]. split; [by rewrite F5|].
  destruct e; simpl in F6; unfold taken_up; rewrite F4, Hq.
  - destruct F6 as (-> & Hq' & _ & Hw & Hi). split; [done|]. by rewrite Hq'.
  - destruct F6 as ((id & rest' & -> & Hid) & Hq' & Hw & Hi). split; [by intros k [= <-]|]. done.
  - exact F6.
Qed.

(** The completion of a request that failed. *)
Definition error_op (q : pib_qp) (w : pib_send_wqe) : cq_op :=
  OpInsert (smi_port_of q) (wc_init (w_wr_id w) (nack_status w) (w_opcode w) (qp_num q)) true.

(** What an acknowledge does: [done] are the requests completed, [rest] those taken
    up and not completed. *)
Definition ack_result (ids : list Z) (psn : Z) (s s' : st) : Prop :=
  exists done rest, taken_up (req s) = done ++ rest /\ Forall (ent (swqes s) (fun w => acks psn w = true)) done
  /\ qp_wf ids s' /\ req_inv (st_qp s') /\ st_pd s' = st_pd s /\ st_mem s' = st_mem s
  /\ ((forall id, head rest = Some id -> ent (swqes s) (fun w => acks psn w = false /\ nacks psn w = false) id)
        /\ qp_state (st_qp s') = qp_state (st_qp s) /\ outstanding (req s') = rest ++ rq_submitted (req s)
        /\ (forall c cq, st_cqs s !! c = Some cq -> st_cqs s' !! c
              = Some (cq_after (if c =? qp_send_cq (st_qp s) then done_ops (st_qp s) (swqes s) done else []) cq))
      \/ exists id rest' w, rest = id :: rest' /\ swqes s !! id = Some w /\ nacks psn w = true
        /\ qp_state (st_qp s') = IB_QPS_ERR /\ outstanding (req s') = []
        /\ (corrupt = false -> forall c cq, st_cqs s !! c = Some cq -> st_cqs s' !! c
              = Some (cq_after ((if c =? qp_send_cq (st_qp s) then done_ops (st_qp s) (swqes s) done ++ [error_op (st_qp s) w]
                    ++ flush_ops (st_qp s) (swqes s) (rest' ++ rq_submitted (req s)) else [])
                  ++ (if c =? qp_recv_cq (st_qp s) then recv_flush_ops (st_qp s) (rs_recv_wqes (qp_responder (st_qp s))) else [])) cq))).

Lemma wp_ack_finish ids psn s e s1 (Q : Z -> st -> Prop) : acked_all ids psn s e s1 -> (forall id, e <> AckError id) ->
  (forall s', ack_result ids psn s s' -> Q (-1) s') -> wp (postpone_local_ack_timeout ;; ret (-1)) Q s1.
Proof.
  intros (done & rest & r' & E1 & E2 & E3 & E4 & E5) He HQ.
  assert ((forall id, head rest = Some id -> ent (swqes s) (fun w => acks psn w = false /\ nacks psn w = false) id)
    /\ taken_up r' = rest /\ qp_wf ids s1 /\ req_inv (st_qp s1)) as (Hh & Ht & Hwf & Hi) by (destruct e; [done|done|by specialize (He id)]).
  wp_step. apply (wp_postpone ids); [done|done|]. intros s' (Hwf' & Hi' & m & ->). wp_step. apply HQ. exists done, rest.
  pose proof (answered_req _ _ _ _ E3) as Hr. destruct E3 as (F1 & F2 & F3 & F4 & F5 & F6 & F7 & F8 & F9).
  split; [done|]. split; [done|]. split; [done|]. split; [done|]. split; [done|]. split; [done|]. left. split; [done|].
  split; [simpl; by rewrite F1|]. split; [|exact F9]. change (outstanding (req s1) = rest ++ rq_submitted (req s)).
  by rewrite outstanding_taken, Hr, E4, Ht.
Qed.

Lemma wp_ack_failure ids psn s id s1 (Q : Z -> st -> Prop) : acked_all ids psn s (AckError id) s1 ->
  (forall s', ack_result ids psn s s' -> Q (-1) s') -> wp (ack_error id) Q s1.
Proof.
  intros (done & rest & r' & E1 & E2 & E3 & E4 & rest' & w & w' & -> & Hw & Hn & Ht & Hwf & Hw' & Hs & Hid & Hop & Hsame) HQ.
  pose proof (answered_req _ _ _ _ E3) as Hr. destruct E3 as (F1 & F2 & F3 & F4 & F5 & F6 & F7 & F8 & F9).
  apply (wp_ack_error ids s1 id w'); [done|unfold swqes; by rewrite Hr|]. intros s' G1 G2 G3 G4 G5 G6 G7. apply HQ.
  exists done, (id :: rest'). split; [done|]. split; [done|]. split; [done|]. split; [done|]. split; [congruence|]. split; [congruence|]. right.
  exists id, rest', w. split; [done|]. split; [done|]. split; [done|]. split; [done|]. split; [done|].
  intros Hb c cq Hc. rewrite (G7 Hb c _ (F9 _ _ Hc)), <- cq_after_app. do 2 f_equal. rewrite F1. simpl. rewrite Hs, Hid, Hop. unfold flush_all_ops.
  change (qp_requester (st_qp s1)) with (req s1). rewrite Hr, F1. simpl. rewrite andb_true_r, (flush_ops_wrs _ (swqes s)) by done.
  rewrite outstanding_taken, E4, Ht.
  by destruct (c =? qp_send_cq (st_qp s)), (c =? qp_recv_cq (st_qp s)); simpl; rewrite <- ?app_assoc.
Qed.

Lemma wp_receive_ack ids psn s (Q : Z -> st -> Prop) : qp_wf ids s -> req_inv (st_qp s) ->
  (forall s', ack_result ids psn s s' -> Q (-1) s') -> wp (receive_ACK_response psn) Q s.
Proof.
  intros Hwf Hi HQ. unfold receive_ACK_response, the_req. do 3 wp_step. apply (wp_ack_loop ids true); [done|done|done|done|].
  intros e s1 H1. destruct e.
  - pose proof H1 as (done & rest & r1 & _ & _ & E3 & _ & _ & _ & Hq & _ & Hwf1 & Hi1). do 3 wp_step.
    apply (wp_ack_loop ids false); [done|done|done| |].
    { intros _. by rewrite (answered_req _ _ _ _ E3). }
    intros e s2 H2. pose proof (acked_both _ _ _ _ _ _ H1 H2) as H. destruct e.
    + by eapply wp_ack_finish.
    + by eapply wp_ack_finish.
    + by eapply wp_ack_failure.
  - apply acked_waiting in H1; [|done]. by eapply wp_ack_finish.
  - apply acked_waiting in H1; [|done]. by eapply wp_ack_failure.
Qed.

(** ** Responses to RDMA READ and Atomic requests *)

(** The state but for memory, the packet under construction and the counters of
    packets in a row. *)
Definition but_resp (s : st) : st :=
  (but_packet s) <| st_mem := fun _ => 0 |> <| st_qp ::= fun q => q <| qp_requester ::= fun r => r <| rq_nr_contig_read_acks := 0 |> |> |>.

Lemma wf_but_resp ids s s' : but_resp s' = but_resp s -> qp_wf ids s -> qp_wf ids s'.
Proof.
  intros E [H1 H2 H3 H4]. assert (qp_wf ids (but_resp s)) as H by (by split). rewrite <- E in H. destruct H as [G1 G2 G3 G4]. by split.
Qed.
Lemma inv_but_resp s s' : but_resp s' = but_resp s -> req_inv (st_qp s) -> req_inv (st_qp s').
Proof.
  intros E [H1 H2 H3 H4 H5]. assert (req_inv (st_qp (but_resp s))) as H by (by split). rewrite <- E in H. destruct H as [G1 G2 G3 G4 G5]. by split.
Qed.
Lemma but_packet_resp s s' : but_packet s' = but_packet s -> but_resp s' = but_resp s.
Proof. intros E. unfold but_resp. by rewrite E. Qed.

(** What a response leaves: the invariants, the protection domain, memory but where the
    requester's own requests may write; of the requests some of the oldest are done, or
    the QP is in error and none is left. *)
Definition resp_post (ids : list Z) (s s' : st) : Prop :=
  qp_wf ids s' /\ req_inv (st_qp s') /\ st_pd s' = st_pd s
  /\ changed_in (granted (st_pd s) IB_ACCESS_LOCAL_WRITE) (st_mem s) (st_mem s')
  /\ (qp_state (st_qp s') = qp_state (st_qp s) /\ (exists done, outstanding (req s) = done ++ outstanding (req s'))
      \/ qp_state (st_qp s') = IB_QPS_ERR /\ outstanding (req s') = []).

Lemma resp_refl ids s : qp_wf ids s -> req_inv (st_qp s) -> resp_post ids s s.
Proof. intros Hwf Hi. split; [done|]. split; [done|]. split; [done|]. split; [apply changed_in_refl|]. left. split; [done|by exists []]. Qed.

Lemma ack_resp ids psn s s' : ack_result ids psn s s' -> resp_post ids s s'.
Proof.
  intros (done & rest & E1 & E2 & E3 & E4 & E5 & E6 & E7). split; [done|]. split; [done|]. split; [done|].
  split; [rewrite E6; apply changed_in_refl|]. destruct E7 as [(_ & Hst & Ho & _)|(id & rest' & w & _ & _ & _ & Hst & Ho & _)]; [left|by right].
  split; [done|]. exists done. by rewrite Ho, outstanding_taken, E1, app_assoc.
Qed.

(** ** Matching a packet sequence number *)

Lemma wp_find_swqe psn l : forall s (Q : option Z -> st -> Prop), Forall (ent (swqes s) (fun _ => True)) l ->
  (forall id, id ∈ l -> Q (Some id) s) -> Q None s -> wp (find_swqe psn l) Q s.
Proof.
  induction l as [|id l IH]; intros s Q Hl HS HN; simpl; [by wp_step|]. apply Forall_cons in Hl as [(w & Hw & _) Hl].
  unfold get_swqe, the_req. do 3 wp_step. fold (req s). fold (swqes s). rewrite Hw. wp_step. wp_step.
  - wp_step. apply HS. by left.
  - apply IH; [done| |done]. intros k Hk. apply HS. by right.
Qed.

Lemma taken_ent s : req_inv (st_qp s) -> Forall (ent (swqes s) (started (st_qp s))) (taken_up (req s)).
Proof. intros [_ I2 I3 _ _]. apply Forall_app. split; [exact I3|]. eapply ents_mono; [|exact I2]. by intros w [H _]. Qed.

(** The request found is on the list; if it is the first, it is the oldest. *)
Lemma wp_match ids psn s (Q : option (Z * bool * bool) -> st -> Prop) : qp_wf ids s -> req_inv (st_qp s) ->
  (forall id w first waiting, id ∈ queue waiting (req s) -> swqes s !! id = Some w -> started (st_qp s) w ->
     (first = true -> exists rest, oldest waiting id rest (req s)) -> Q (Some (id, first, waiting)) s) ->
  Q None s -> wp (match_send_wqe psn) Q s.
Proof.
  intros Hwf Hi HS HN. pose proof (taken_ent s Hi) as Ht. apply Forall_app in Ht as [Hw Hs].
  destruct (own_outstanding _ _ (wf_own _ _ Hwf)) as (Hn & _). apply NoDup_app in Hn as (_ & Hd & _). fold (req s) in Hd.
  pose proof Hw as Hw'. pose proof Hs as Hs'. rewrite Forall_forall in Hw', Hs'.
  unfold match_send_wqe, the_req. do 2 wp_step. fold (req s). cbv zeta. wp_step.
  apply wp_find_swqe; [by eapply ents_mono; [|exact Hw]| |].
  - intros id Hid. wp_step. destruct (Hw' id Hid) as (w & Hl & Hst). eapply HS; [exact Hid|done|done|].
    destruct (rq_waiting (req s)) as [|k rest] eqn:E; [by apply elem_of_nil in Hid|]. simpl. intros H. bools. subst k.
    exists rest. by split.
  - wp_step. apply wp_find_swqe; [by eapply ents_mono; [|exact Hs]| |by wp_step]. intros id Hid. wp_step.
    destruct (Hs' id Hid) as (w & Hl & Hst). eapply (HS id w _ false); [exact Hid|done|done|].
    destruct (rq_waiting (req s)) as [|k rest] eqn:E; simpl.
    + destruct (rq_sending (req s)) as [|k rest] eqn:E'; [done|]. intros H. bools. subst k. exists rest. by split.
    + intros H. bools. subst k. exfalso. apply (Hd id); [by left|done].
Qed.

(** The status of a request is set. *)
Lemma set_status_resp ids id status s : qp_wf ids s -> req_inv (st_qp s) ->
  resp_post ids s (alt id (on_proc (fun p => p <| p_status := status |>)) s).
Proof.
  intros Hwf Hi. split; [|split; [|split; [done|split; [apply changed_in_refl|left; split; [done|by exists []]]]]].
  - by apply wf_alt.
  - apply (req_inv_progress (st_qp s)); [|done]. by intros [].
Qed.

(** ** The end of an RDMA READ or Atomic *)

Lemma rd_atomic_count s waiting id rest w : req_inv (st_qp s) -> oldest waiting id rest (req s) -> swqes s !! id = Some w ->
  pib_is_wr_opcode_rd_atomic (w_opcode w) = true -> 1 <= rq_nr_rd_atomic (req s).
Proof.
  intros [_ _ _ _ I5] [Hq Hw0] Hw Hrd. unfold req. rewrite I5. fold (req s). fold (swqes s).
  assert (exists l, rq_waiting (req s) ++ rq_sending (req s) = [id] ++ l) as [l ->].
  { destruct waiting; simpl in Hq; [rewrite Hq; by eexists|]. rewrite Hw0, Hq by done. by eexists. }
  rewrite rd_atomics_app, (rd_atomics_one _ _ _ Hw), Hrd. pose proof (Zlen_nonneg (List.filter (is_rd_atomic (swqes s)) l)). unfold rd_atomics. lia.
Qed.

Lemma wp_finish ids s0 f id waiting rest w (Q : Z -> st -> Prop) :
  qp_wf ids s0 -> req_inv (st_qp s0) -> oldest waiting id rest (req s0) -> swqes s0 !! id = Some w -> posted w ->
  f w = w <| w_processing := w_processing (f w) |> -> pib_is_wr_opcode_rd_atomic (w_opcode w) = true ->
  (forall s', qp_wf ids s' -> req_inv (st_qp s') -> st_pd s' = st_pd s0 -> st_mem s' = st_mem s0 ->
     qp_state (st_qp s') = qp_state (st_qp s0) -> outstanding (req s0) = [id] ++ outstanding (req s') -> Q 0 s') ->
  wp (finish_rd_atomic id waiting (pib_convert_wr_opcode_to_wc_opcode (w_opcode w))) Q (alt id f s0).
Proof.
  intros Hwf Hi Hold Hw Hp Hf Hrd HQ. unfold finish_rd_atomic, get_swqe, the_req. do 3 wp_step.
  assert (rq_swqes (qp_requester (st_qp (alt id f s0))) !! id = Some (f w)) as ->
    by (simpl; rewrite lookup_alter_eq; unfold swqes, req in Hw; by rewrite Hw). wp_step.
  assert (w_opcode (f w) = w_opcode w) as Hop by (by rewrite Hf). rewrite <- Hop.
  assert (qp_wf ids (alt id f s0)) as Hwf0.
  { by apply wf_alt. }
  wp_step. apply wp_complete; [apply Hwf0|rewrite Hop; apply Hp|]. intros s1 H1. pose proof (answered_req _ _ _ _ H1) as Hr1.
  unfold upd_req, upd_qp. do 5 wp_step. unfold BUG_ON. wp_step.
  { exfalso. bools. simpl in Heqb. fold (req s1) in Heqb. rewrite Hr1 in Heqb. simpl in Heqb.
    pose proof (rd_atomic_count s0 waiting id rest w Hi Hold Hw Hrd). unfold req in *. lia. }
  do 3 wp_step. set (s2 := set_field st_qp _ _). wp_step. destruct Hold as [Hq Hw0].
  eapply wp_run_eq; [apply (unlink_run ids s2 waiting id rest)|].
  { unfold s2. simpl. fold (req s1). rewrite Hr1. exact (wf_own _ _ Hwf0). }
  { unfold s2. simpl. fold (req s1). rewrite Hr1. by destruct waiting. }
  unfold pib_util_free_send_wqe, upd_req, upd_qp. do 2 wp_step. set (s3 := set_field st_qp _ _).
  set (r3 := retired f waiting id rest (Z.land (p_expected_psn (w_processing (f w))) PIB_PSN_MASK) w (req s0)).
  assert (answered (success_ops (st_qp (alt id f s0)) (f w)) r3 (alt id f s0) s3) as H3.
  { assert (s3 = with_req s1 r3) as ->; [|exact (answered_put _ _ _ _ _ H1)]. unfold s3, s2, r3, retired. rewrite Hrd.
    unfold req in Hr1. destruct s1 as [q1 ? ? ? ? ? ? ? ? ? ? ? ?]. destruct q1. simpl in Hr1. subst. by destruct waiting. }
  pose proof (retired_wf ids s0 f waiting id rest (Z.land (p_expected_psn (w_processing (f w))) PIB_PSN_MASK) w Hwf Hq) as Hwf3.
  pose proof (retired_inv ids s0 f waiting id rest (Z.land (p_expected_psn (w_processing (f w))) PIB_PSN_MASK) w Hwf Hi (conj Hq Hw0) Hw) as Hi3.
  wp_step. apply (wp_postpone ids).
  { eapply wf_answered; [exact Hwf3|exact H3]. }
  { eapply inv_answered; [exact Hi3|exact H3]. }
  intros s4 (Hwf4 & Hi4 & m & ->). wp_step. pose proof (answered_req _ _ _ _ H3) as Hr3. destruct H3 as (F1 & F2 & F3 & F4 & F5 & F6 & F7 & F8 & F9).
  apply HQ; [done|done|exact F3|exact F4|change (qp_state (st_qp s3) = qp_state (st_qp s0)); by rewrite F1|].
  change (outstanding (req s0) = [id] ++ outstanding (req s3)). rewrite Hr3. by apply retired_outstanding.
Qed.

(** ** A packet of an RDMA READ response *)

Lemma wp_cnp s id (Q : unit -> st -> Prop) : send_env s ->
  (forall s', but_packet s' = but_packet s -> Q tt s') -> wp (process_cnp_notify_request id) Q s.
Proof.
  intros He HQ. unfold process_cnp_notify_request, the_rsp. do 3 wp_step. apply wp_start; [done|]. intros h s1 E1.
  wp_step. apply wp_keep; [apply packet_put_hdrs|unfold put_hdrs, put_at, put_buffer, upd_thread; wp_run; exact I|]. intros [] s2 E2.
  apply wp_keep; [apply packet_ready| |intros [] s3 E3; apply HQ; congruence].
  assert (send_env s2) as (_ & _ & port & Hport & _) by (eapply send_env_packet; [|exact He]; congruence).
  unfold wp, ready_to_send, the_qp, the_port, bind, gets, upd_thread, modify. simpl. by rewrite Hport.
Qed.

Lemma all_packets_bound q w : 1 <= a_path_mtu (qp_attr q) <= 5 -> qp_type q = IB_QPT_RC -> started q w -> p_all_packets (w_processing w) <= 2 ^ 22.
Proof.
  intros Hm Hrc (Hp & -> & _). destruct Hp as (_ & Hl & _). change PIB_MAX_PAYLOAD_LEN with (2 ^ 30) in Hl. rewrite pib_get_num_of_packets_spec by lia.
  rewrite Hrc. simpl. rewrite mtu_bytes_pow by lia.
  pose proof (Z.pow_le_mono_r 2 1 (a_path_mtu (qp_attr q)) ltac:(lia) ltac:(lia)) as Hb. set (m := 128 * 2 ^ a_path_mtu (qp_attr q)) in *.
  assert (256 <= m) as Hm1 by lia. destruct (packets_of_bounds m (w_total_length w)) as [_ B]; [lia..|]. nia.
Qed.

Lemma psn_diff_zero x psn : get_psn_diff x psn = 0 -> x mod 2 ^ 24 = psn mod 2 ^ 24.
Proof.
  rewrite get_psn_diff_swrap. intros H. pose proof (swrap_congr 24 (x - psn) ltac:(lia)) as E. rewrite H in E. change (0 mod 2 ^ 24) with 0 in E.
  symmetry in E. apply Z.mod_divide in E as [k Hk]; [|lia]. replace x with (psn + k * 2 ^ 24) by lia. by rewrite Z.mod_add by lia.
Qed.

Lemma u32_mod24 x : u32 x mod 2 ^ 24 = x mod 2 ^ 24.
Proof.
  unfold u32, wrap. rewrite (Z.div_mod x (2 ^ 32)) at 2 by lia. change (2 ^ 32) with (2 ^ 8 * 2 ^ 24) at 2.
  replace (2 ^ 8 * 2 ^ 24 * (x / 2 ^ 32) + x mod 2 ^ 32) with (x mod 2 ^ 32 + (2 ^ 8 * (x / 2 ^ 32)) * 2 ^ 24) by lia. by rewrite Z.mod_add by lia.
Qed.

(** The counts of packets sent and acknowledged advance together. *)
Lemma read_counts based sent ack all psn : 0 <= ack < all -> all <= 2 ^ 22 ->
  get_psn_diff (u32 (based + sent)) psn = 0 -> get_psn_diff (u32 (based + ack)) psn = 0 ->
  u32 (sent + 1) < all -> 0 <= u32 (ack + 1) < all.
Proof.
  intros Ha Hall H1%psn_diff_zero H2%psn_diff_zero H3. rewrite u32_mod24 in H1, H2.
  assert ((sent + 1) mod 2 ^ 24 = ack + 1) as E.
  { rewrite <- (Z.mod_small (ack + 1) (2 ^ 24)) by lia.
    replace (sent + 1) with (based + sent + (1 - based)) by lia. replace (ack + 1) with (based + ack + (1 - based)) by lia.
    rewrite (Z.add_mod (based + sent)), (Z.add_mod (based + ack)) by lia. by rewrite H1, H2. }
  rewrite <- u32_mod24, Z.mod_small in E by (pose proof (wrap_range 32 (sent + 1) ltac:(lia)); unfold u32 in *; lia).
  unfold u32 at 1 2. rewrite wrap_small by lia. lia.
Qed.

Lemma resp_but ids s s' : but_resp s' = but_resp s -> changed_in (granted (st_pd s) IB_ACCESS_LOCAL_WRITE) (st_mem s) (st_mem s') ->
  resp_post ids s' s' -> resp_post ids s s'.
Proof.
  intros E Hm (H1 & H2 & _). split; [done|]. split; [done|]. split; [change (st_pd (but_resp s') = st_pd (but_resp s)); by rewrite E|].
  split; [done|]. left. split; [change (qp_state (st_qp (but_resp s')) = qp_state (st_qp (but_resp s))); by rewrite E|].
  exists []. change (outstanding (req (but_resp s)) = outstanding (req (but_resp s'))). by rewrite E.
Qed.

(** A state reached from [s] by changing the entry [id] and what [but_resp] hides. *)
Definition unchanged (s s' : st) : st := with_req s' ((req s') <| rq_swqes := swqes s |>).

Lemma alt_unchanged id f s s' : but_resp s' = but_resp (alt id f s) -> alt id f (unchanged s s') = s'.
Proof.
  intros E. assert (swqes s' = alter f id (swqes s)) as Es by (change (swqes (but_resp s') = alter f id (swqes s)); by rewrite E).
  unfold alt, unchanged, with_req. unfold swqes, req in *.
  destruct s' as [q ? ? ? ? ? ? ? ? ? ? ? ?]. destruct q as [? ? ? ? ? ? ? ? ? ? ? ? ? r ? ? ? ? ?]. destruct r. simpl in *. by rewrite Es.
Qed.
Lemma but_unchanged id f s s' : but_resp s' = but_resp (alt id f s) -> but_resp (unchanged s s') = but_resp s.
Proof.
  intros E. change (with_req (but_resp s') ((req (but_resp s')) <| rq_swqes := swqes s |>) = but_resp s). rewrite E.
  destruct s as [q ? ? ? ? ? ? ? ? ? ? ? ?]. destruct q as [? ? ? ? ? ? ? ? ? ? ? ? ? r ? ? ? ? ?]. by destruct r.
Qed.

Definition read_ack (now t : Z) (p : pib_swqe_processing) : pib_swqe_processing :=
  p <| p_local_ack_time := u64 (now + t) |> <| p_sent_packets ::= fun n => u32 (n + 1) |> <| p_ack_packets ::= fun n => u32 (n + 1) |>.

(** What follows when the data was stored: the request goes on or it is complete. *)
Lemma wp_read_end ids s s' f id first waiting w (Q : Z -> st -> Prop) :
  qp_wf ids s -> req_inv (st_qp s) -> (first = true -> exists rest, oldest waiting id rest (req s)) -> first = true ->
  swqes s !! id = Some w -> started (st_qp s) w -> w_opcode w = IB_WR_RDMA_READ ->
  f w = w <| w_processing := w_processing (f w) |> -> p_all_packets (w_processing (f w)) = p_all_packets (w_processing w) ->
  (p_sent_packets (w_processing (f w)) < p_all_packets (w_processing w) -> progress f w) ->
  but_resp s' = but_resp (alt id f s) -> changed_in (granted (st_pd s) IB_ACCESS_LOCAL_WRITE) (st_mem s) (st_mem s') ->
  (forall s'', resp_post ids s s'' -> Q 0 s'') ->
  wp (let! w := get_swqe id in
      if p_sent_packets (w_processing w) <? p_all_packets (w_processing w) then ret 0
      else finish_rd_atomic id waiting (Some IB_WC_RDMA_READ)) Q s'.
Proof.
  intros Hwf Hi Hfirst Hfi Hw Hst Hop Hf Hall Hprog E Hm HQ. destruct (Hfirst Hfi) as [rest Hold].
  pose proof (alt_unchanged _ _ _ _ E) as Es. pose proof (but_unchanged _ _ _ _ E) as Eu. set (s0 := unchanged s s') in *.
  assert (qp_wf ids s0) as Hwf0 by (by eapply wf_but_resp). assert (req_inv (st_qp s0)) as Hi0 by (by eapply inv_but_resp).
  assert (swqes s0 !! id = Some w) as Hw0 by exact Hw.
  assert (st_mem s0 = st_mem s') as Em0 by done.
  assert (resp_post ids s s0) as Hp0 by (apply resp_but; [done|done|by apply resp_refl]).
  clearbody s0. rewrite <- Es at 1. unfold get_swqe, the_req. do 3 wp_step.
  assert (rq_swqes (qp_requester (st_qp (alt id f s0))) !! id = Some (f w)) as ->
    by (simpl; rewrite lookup_alter_eq; unfold swqes, req in Hw0; by rewrite Hw0). wp_step. rewrite Hall.
  wp_step; bools.
  - wp_step. apply HQ. destruct Hp0 as (P1 & P2 & P3 & P4 & P5). split; [|split; [|split; [exact P3|split; [exact P4|exact P5]]]].
    + by apply wf_alt.
    + apply (req_inv_progress (st_qp s0)); [|done]. intros v Hv. unfold swqes, req in Hw0. assert (v = w) as -> by congruence. by apply Hprog.
  - replace (Some IB_WC_RDMA_READ) with (pib_convert_wr_opcode_to_wc_opcode (w_opcode w)) by (by rewrite Hop).
    assert (req s0 = (req s) <| rq_nr_contig_requests := rq_nr_contig_requests (req s0) |> <| rq_nr_contig_read_acks := rq_nr_contig_read_acks (req s0) |>) as Er.
    { pose proof (f_equal req Eu) as Er. unfold req in *. simpl in Er. destruct s0 as [q0 ? ? ? ? ? ? ? ? ? ? ? ?], s as [q ? ? ? ? ? ? ? ? ? ? ? ?].
      destruct q0 as [? ? ? ? ? ? ? ? ? ? ? ? ? r0 ? ? ? ? ?], q as [? ? ? ? ? ? ? ? ? ? ? ? ? r ? ? ? ? ?]. destruct r0, r. simpl in *.
      injection Er as. by subst. }
    apply (wp_finish ids s0 f id waiting rest w); try done.
    + rewrite Er. by destruct waiting.
    + apply Hst.
    + by rewrite Hop.
    + intros s3 G1 G2 G3 G4 G5 G6. apply HQ. destruct Hp0 as (P1 & P2 & P3 & P4 & P5). split; [done|]. split; [done|]. split; [congruence|].
      split; [by rewrite G4|]. destruct P5 as [[P5 (done & P6)]|[P5 P6]]; [left|].
      * split; [congruence|]. exists (done ++ [id]). by rewrite P6, G6, app_assoc.
      * by rewrite G6 in P6.
Qed.

Lemma wp_read_response ids psn buffer s (Q : Z -> st -> Prop) : qp_wf ids s -> req_inv (st_qp s) -> send_env s -> qp_type (st_qp s) = IB_QPT_RC ->
  (forall s', resp_post ids s s' -> Q 0 s') -> wp (receive_RDMA_READ_response psn buffer) Q s.
Proof.
  intros Hwf Hi He Hrc HQ. unfold receive_RDMA_READ_response. wp_step.
  apply (wp_match ids); [done|done| |wp_step; apply HQ; by apply resp_refl].
  intros id w first waiting Hid Hw Hst Hfirst. unfold get_swqe, the_req. do 3 wp_step. fold (req s). fold (swqes s). rewrite Hw. wp_step. cbv zeta.
  assert (forall status s1, s1 = s -> wp (set_status id status) Q s1) as Hset.
  { intros status s1 ->. unfold set_status, upd_proc, upd_swqe, upd_req, upd_qp. do 3 wp_step. apply HQ.
    exact (set_status_resp ids id status s Hwf Hi). }
  wp_step; [by apply Hset|]. wp_step; [wp_step; apply HQ; by apply resp_refl|]. wp_step; [wp_step; apply HQ; by apply resp_refl|].
  unfold the_qp. do 2 wp_step. bools. pose proof He as (Hpd & Hmtu & _). pose proof (proj1 Hst) as Hp. wp_step.
  set (offset := u32 (Z.shiftl _ _)). set (left := u32 (w_total_length w - offset)).
  apply wp_copy_to_sgl; [done|apply Hp|by apply wrap_range| |].
  { pose proof (wrap_range 32 (w_total_length w - offset) ltac:(lia)). pose proof (Zlen_nonneg buffer).
    unfold left, u32. destruct (Z.ltb_spec (wrap 32 (w_total_length w - offset)) (Zlen buffer)); lia. }
  intros status m Hm. set (s1 := set_field st_mem _ s). wp_step.
  { unfold set_status, upd_proc, upd_swqe, upd_req, upd_qp. do 3 wp_step. apply HQ.
    destruct (set_status_resp ids id status s1 ltac:(by apply wf_mem) Hi) as (P1 & P2 & P3 & P4 & P5).
    split; [done|]. split; [done|]. split; [done|]. split; [exact Hm|exact P5]. }
  do 2 wp_step. unfold upd_proc, upd_swqe, upd_req, upd_qp. do 4 wp_step. unfold the_req. do 3 wp_step.
  set (f := fun w : pib_send_wqe => _). set (s2 := set_field st_qp _ (set_field st_qp _ s1)).
  assert (but_resp s2 = but_resp (alt id f s)) as E2 by reflexivity.
  assert (forall s3, but_resp s3 = but_resp (alt id f s) -> st_mem s3 = m -> wp (let! w := get_swqe id in
      if p_sent_packets (w_processing w) <? p_all_packets (w_processing w) then ret 0
      else finish_rd_atomic id waiting (Some IB_WC_RDMA_READ)) Q s3) as Hend.
  { intros s3 E3 Em. eapply (wp_read_end ids s s3 f id first waiting w); try done; [|by rewrite Em]. intros Hlt. unfold progress. simpl.
    split_and!; try done.
    - intros Hk. eapply read_counts; [exact Hk|by apply (all_packets_bound (st_qp s))|exact H0|exact Heqb1|exact Hlt].
    - intros _. split; [by apply wrap_range|exact Hlt]. }
  unfold the_qp. wp_step; [|by apply Hend]. wp_step. apply wp_cnp.
  { exact He. }
  intros s3 E3. wp_step. apply Hend.
  - rewrite <- E2. apply but_packet_resp in E3. rewrite <- E3. reflexivity.
  - change (st_mem (but_packet s3) = m). by rewrite E3.
Qed.

Lemma wp_atomic_response ids psn buffer s (Q : Z -> st -> Prop) : qp_wf ids s -> req_inv (st_qp s) -> pd_wf (st_pd s) ->
  (forall s', resp_post ids s s' -> Q 0 s') -> wp (receive_Atomic_response psn buffer) Q s.
Proof.
  intros Hwf Hi Hpd HQ. unfold receive_Atomic_response. wp_step; [wp_step; apply HQ; by apply resp_refl|]. cbv zeta. wp_step.
  apply (wp_match ids); [done|done| |wp_step; apply HQ; by apply resp_refl].
  intros id w first waiting Hid Hw Hst Hfirst. unfold get_swqe, the_req. do 3 wp_step. fold (req s). fold (swqes s). rewrite Hw. wp_step. wp_step.
  { unfold set_status, upd_proc, upd_swqe, upd_req, upd_qp. do 3 wp_step. apply HQ. exact (set_status_resp ids id _ s Hwf Hi). }
  wp_step; [wp_step; apply HQ; by apply resp_refl|]. wp_step. pose proof (proj1 Hst) as Hp.
  apply wp_copy_to_sgl; [done|apply Hp|lia..|]. intros status m Hm. set (s1 := set_field st_mem _ s).
  assert (qp_wf ids s1) as Hwf1 by (by apply wf_mem). wp_step.
  { unfold set_status, upd_proc, upd_swqe, upd_req, upd_qp. do 3 wp_step. apply HQ.
    destruct (set_status_resp ids id status s1 Hwf1 Hi) as (P1 & P2 & P3 & P4 & P5).
    split; [done|]. split; [done|]. split; [done|]. split; [exact Hm|exact P5]. }
  bools. destruct (Hfirst ltac:(by destruct first)) as [rest Hold]. rewrite <- (alt_id id s1).
  apply (wp_finish ids s1 (fun w => w) id waiting rest w); try done.
  - by destruct w.
  - destruct (Z.eqb_spec (w_opcode w) IB_WR_ATOMIC_CMP_AND_SWP) as [E|_]; [by rewrite E|].
    destruct (Z.eqb_spec (w_opcode w) IB_WR_ATOMIC_FETCH_AND_ADD) as [E|_]; [by rewrite E|done].
  - intros s' G1 G2 G3 G4 G5 G6. apply HQ. split; [done|]. split; [done|]. split; [exact G3|]. split; [rewrite G4; exact Hm|].
    left. split; [exact G5|]. exists [id]. exact G6.
Qed.

(** ** Negative acknowledges that restart the requests *)

(** The label retry_send after the requests are put back. *)
Definition retry_tail (t : Z) (l : list Z) : M st Z :=
  match l with
  | [] => ret (-1)
  | id :: _ =>
      if t =? 0 then ret (-1)
      else
        let! w := get_swqe id in
        let! q := the_qp in
        when ((w_opcode w =? IB_WR_SEND) || (w_opcode w =? IB_WR_SEND_WITH_IMM) || (w_opcode w =? IB_WR_RDMA_WRITE_WITH_IMM))
          (upd_proc id (fun p => p <| p_schedule_time := t |>) ;;
           when (a_rnr_retry (qp_attr q) <? 7) (upd_proc id (fun p => p <| p_rnr_retry ::= fun n => n - 1 |>))) ;;
        ret (-1)
  end.

Lemma retried_id id r : retried (fun w => w) id r = r <| rq_waiting := [] |> <| rq_sending ::= app (rq_waiting r) |>
    <| rq_nr_waiting ::= fun n => n - Zlen (rq_waiting r) |> <| rq_nr_sending ::= Z.add (Zlen (rq_waiting r)) |>
    <| rq_swqes ::= fun m => alter_all rewind (rq_waiting r ++ rq_sending r) (alter_all to_sending (rev (rq_waiting r)) m) |>.
Proof. unfold retried. destruct r. simpl. by rewrite alter_id. Qed.

Lemma retry_send_run s t id : NoDup (rq_lists (req s)) ->
  retry_send t s = retry_tail t (taken_up (req s)) (with_req s (retried (fun w => w) id (req s))).
Proof.
  intros Hn. rewrite <- (with_req_id s) at 1. fold (req s). unfold retry_send.
  erewrite (bind_run the_req) by reflexivity. erewrite bind_run by (apply (requeue_all s (rq_waiting (req s)) (req s)); [reflexivity|exact Hn]).
  erewrite (bind_run the_req) by reflexivity. erewrite bind_run by (apply rewind_all). unfold retry_tail.
  rewrite retried_id. reflexivity.
Qed.

Lemma neutral_id : neutral (fun w => w).
Proof. intros w. exists (w_processing w). by destruct w. Qed.

Lemma wp_retry_send ids t s (Q : Z -> st -> Prop) : qp_wf ids s -> req_inv (st_qp s) ->
  (forall s', resp_post ids s s' -> taken_up (req s') = taken_up (req s) -> Q (-1) s') -> wp (retry_send t) Q s.
Proof.
  intros Hwf Hi HQ. pose proof (taken_ent s Hi) as Ht. destruct (own_outstanding _ _ (wf_own _ _ Hwf)) as (_ & _ & Hl). fold (req s) in Hl.
  unfold wp. rewrite (retry_send_run s t (default 0 (head (taken_up (req s)))) Hl).
  destruct (taken_up (req s)) as [|id l] eqn:El; simpl default.
  - change (wp (retry_tail t []) Q (with_req s (retried (fun w => w) 0 (req s)))). unfold retry_tail. wp_step.
    pose proof El as E. unfold taken_up in El. apply app_eq_nil in El as [Ew Es].
    assert (retried (fun w => w) 0 (req s) = req s) as ->.
    { unfold retried. rewrite Ew, Es. destruct (req s). simpl in *. subst. unfold alter_all. simpl. by rewrite alter_id, Z.sub_0_r by done. }
    rewrite (with_req_id s : with_req s (req s) = s). apply HQ; [by apply resp_refl|done].
  - pose proof (retry_step ids s _ id neutral_id Hwf Hi ltac:(unfold taken_up in El; unfold req in El; rewrite El; by left)) as (Hwf1 & Hi1 & Ho & _).
    fold (req s) in Hwf1, Hi1, Ho. set (s1 := with_req s _) in *. change (wp (retry_tail t (id :: l)) Q s1).
    assert (resp_post ids s s1) as Hp1.
    { split; [done|]. split; [done|]. split; [done|]. split; [apply changed_in_refl|]. left. split; [done|]. exists []. symmetry. exact Ho. }
    assert (taken_up (req s1) = id :: l) as Ht1 by exact El. unfold retry_tail. wp_step; [wp_step; by apply HQ|].
    pose proof (ri_sending _ Hi1) as Hse. assert (rq_sending (qp_requester (st_qp s1)) = id :: l) as Es1 by exact El.
    rewrite Es1 in Hse. apply Forall_cons in Hse as [(w & Hw & _) _].
    assert (forall f, (forall v, progress f v) -> resp_post ids s (alt id f s1)) as Halt.
    { intros f Hf. destruct Hp1 as (P1 & P2 & P3 & P4 & P5). split; [|split; [|split; [exact P3|split; [exact P4|exact P5]]]].
      - by apply wf_alt.
      - apply (req_inv_progress (st_qp s1)); [auto|done]. }
    clearbody s1. unfold get_swqe, the_req, the_qp. do 3 wp_step. rewrite Hw. do 5 wp_step; [|wp_step; by apply HQ].
    unfold upd_proc, upd_swqe, upd_req, upd_qp. do 3 wp_step; wp_step.
    + wp_step. apply HQ; [|exact Ht1]. set (f := on_proc (fun p => p <| p_schedule_time := t |>)).
      set (g := on_proc (fun p => p <| p_rnr_retry ::= fun n => n - 1 |>)).
      assert (resp_post ids s (alt id g (alt id f s1))) as Hgf; [|exact Hgf]. rewrite alt_alt. apply Halt. by intros [].
    + apply HQ; [|exact Ht1]. apply (Halt (on_proc (fun p => p <| p_schedule_time := t |>))). by intros [].
Qed.

(** ** Any response packet *)

Definition ack_opcodes : list Z :=
  [IB_OPCODE_ACKNOWLEDGE; IB_OPCODE_RDMA_READ_RESPONSE_FIRST; IB_OPCODE_RDMA_READ_RESPONSE_LAST; IB_OPCODE_RDMA_READ_RESPONSE_ONLY;
   IB_OPCODE_RDMA_READ_RESPONSE_MIDDLE; IB_OPCODE_ATOMIC_ACKNOWLEDGE].

Lemma ack_opcode op : byte_ok op -> pib_opcode_is_acknowledge op = Some true -> op ∈ ack_opcodes.
Proof.
  intros Hb Ha. assert (forallb (fun i => implb (bool_decide (pib_opcode_is_acknowledge i = Some true)) (bool_decide (i ∈ ack_opcodes))) (seqZ 0 256) = true)
    as H by (vm_compute; reflexivity).
  rewrite forallb_forall in H. specialize (H op). rewrite (bool_decide_eq_true_2 _ Ha) in H. eapply bool_decide_eq_true_1, H.
  apply list_elem_of_In, elem_of_seqZ. unfold byte_ok in Hb. lia.
Qed.

Lemma resp_trans ids s s1 s' : qp_state (st_qp s1) = qp_state (st_qp s) -> outstanding (req s1) = outstanding (req s) -> st_pd s1 = st_pd s ->
  st_mem s1 = st_mem s -> resp_post ids s1 s' -> resp_post ids s s'.
Proof.
  intros E1 E2 E3 E4 (H1 & H2 & H3 & H4 & H5). rewrite E1, E2 in H5. rewrite E3, E4 in H4. rewrite E3 in H3. unfold resp_post. by split_and?.
Qed.

Lemma wp_drained_response ids s s1 (Q : Z -> st -> Prop) n : resp_post ids s s1 -> (forall s', resp_post ids s s' -> Q n s') ->
  wp (let! q := the_qp in
      let r := qp_requester q in
      when (bool_decide (qp_state q = IB_QPS_SQD) && negb (qp_issue_sq_drained q)
            && bool_decide (rq_sending r = []) && bool_decide (rq_waiting r = []))
        (when (a_en_sqd_async_notify (qp_attr q)) (pib_util_insert_async_qp_event IB_EVENT_SQ_DRAINED) ;;
         upd_qp (fun q => q <| qp_issue_sq_drained := true |>)) ;;
      ret n) Q s1.
Proof.
  intros Hp HQ. assert (forall ev, resp_post ids s (s1 <| st_events ::= ev |> <| st_qp ::= fun q => q <| qp_issue_sq_drained := true |> |>)) as H.
  { intros ev. destruct Hp as (H1 & H2 & H3 & H4 & H5). split; [destruct H1 as [W1 W2 W3 W4]; split; [by apply qp_env_upd|done..]|].
    split; [by apply (req_inv_same (st_qp s1))|]. split; [exact H3|]. split; [exact H4|exact H5]. }
  assert (resp_post ids s (s1 <| st_qp ::= fun q => q <| qp_issue_sq_drained := true |> |>)) as H0.
  { specialize (H (fun l => l)). by destruct s1. }
  unfold the_qp, pib_util_insert_async_qp_event, pib_util_insert_async_qp_error, the_qp, emit, upd_qp. wp_run; by apply HQ.
Qed.

Lemma wp_dispatch_response ids op psn buffer s (Q : Z -> st -> Prop) : qp_wf ids s -> req_inv (st_qp s) -> send_env s -> qp_type (st_qp s) = IB_QPT_RC ->
  op ∈ ack_opcodes -> (forall n s', resp_post ids s s' -> Q n s') -> wp (dispatch_response op psn buffer) Q s.
Proof.
  intros Hwf Hi He Hrc Hop HQ. unfold dispatch_response. wp_step. wp_step.
  { apply (wp_receive_ack ids); [done|done|]. intros s1 H1%ack_resp. apply (wp_drained_response ids s); [done|]. intros s'. apply HQ. }
  wp_step.
  { apply (wp_read_response ids); [done..|]. intros s1 H1. apply (wp_drained_response ids s); [done|]. intros s'. apply HQ. }
  wp_step.
  { apply (wp_atomic_response ids); [done|done|apply He|]. intros s1 H1. apply (wp_drained_response ids s); [done|]. intros s'. apply HQ. }
  exfalso. bools. unfold ack_opcodes in Hop. set_solver.
Qed.

Lemma rnr_time_total hz k : 0 <= k < 32 -> is_Some (pib_get_rnr_nak_time hz k).
Proof.
  intros Hk. unfold pib_get_rnr_nak_time. destruct (rnr_nak_timeout hz !! Z.to_nat k) eqn:E; [by eexists|]. exfalso.
  apply lookup_ge_None in E. unfold rnr_nak_timeout in E. rewrite length_map in E. simpl in E. lia.
Qed.

Lemma wp_set_error ids psn status s (Q : unit -> st -> Prop) : qp_wf ids s -> req_inv (st_qp s) ->
  (forall id f, resp_post ids s (alt id f s) -> Q tt (alt id f s)) -> wp (set_send_wqe_to_error psn status) Q s.
Proof.
  intros Hwf Hi HQ. unfold set_send_wqe_to_error. wp_step. apply (wp_match ids); [done|done| |].
  - intros id w first waiting _ _ _ _. unfold upd_proc, upd_swqe, upd_req, upd_qp. wp_step.
    exact (HQ id (on_proc (fun p => p <| p_status := status |>)) (set_status_resp ids id status s Hwf Hi)).
  - wp_step. rewrite <- (alt_id 0 s). apply HQ. rewrite alt_id. by apply resp_refl.
Qed.

Lemma wp_receive_response ids bth buffer s (Q : Z -> st -> Prop) : qp_wf ids s -> req_inv (st_qp s) -> send_env s -> qp_type (st_qp s) = IB_QPT_RC ->
  bth_OpCode bth ∈ ack_opcodes -> (forall n s', resp_post ids s s' -> Q n s') -> wp (receive_response bth buffer) Q s.
Proof.
  intros Hwf Hi He Hrc Hop HQ. unfold receive_response. wp_step; [wp_step; apply HQ; by apply resp_refl|].
  unfold upd_req, upd_qp. do 2 wp_step. set (s1 := set_field st_qp _ s).
  assert (qp_wf ids s1) as Hwf1 by (destruct Hwf as [W1 W2 W3 W4]; by split).
  assert (req_inv (st_qp s1)) as Hi1 by (destruct Hi as [I1 I2 I3 I4 I5]; by split).
  assert (send_env s1) as He1 by exact He.
  assert (forall n s', resp_post ids s1 s' -> Q n s') as HQ1 by (intros n s' H; apply HQ; by apply (resp_trans ids s s1)).
  assert (qp_type (st_qp s1) = IB_QPT_RC) as Hrc1 by done. clearbody s1. cbv zeta. wp_step; [by apply (wp_dispatch_response ids)|].
  wp_step; [by apply (wp_dispatch_response ids)|]. wp_step.
  { destruct (rnr_time_total HZ (Z.land (Z.shiftr (be_at 0 4 buffer) 24) 0x1F)) as [t ->].
    { change 0x1F with (Z.ones 5). rewrite Z.land_ones by lia. apply Z.mod_pos_bound. lia. }
    wp_step. wp_step. apply (wp_retry_send ids); [done|done|]. intros s' H _. by apply HQ1. }
  wp_step; [|wp_step; apply HQ1; by apply resp_refl].
  wp_step; [apply (wp_retry_send ids); [done|done|]; intros s' H _; by apply HQ1|].
  wp_step; [|by apply (wp_dispatch_response ids)]. wp_step. apply (wp_set_error ids); [done|done|]. intros id f Hp.
  apply (wp_dispatch_response ids); [apply Hp|apply Hp|done|done|done|]. intros n s' H. apply HQ1. by apply (resp_trans ids s1 (alt id f s1)).
Qed.

(** ** Theorems *)

(** C3. An acknowledge completes requests in the order they were posted.  Of the requests
    that were taken up, oldest first, it completes with success the longest run of
    SENDs and RDMA WRITEs all of whose packets the acknowledged sequence number
    covers, each with one completion if it is signaled.  The request behind them
    decides what happens next: if it is not failed and nothing is skipped, it and
    the younger ones stay in their order and no other completion appears; if it has
    failed, or is an RDMA READ or Atomic the responder skipped, it is completed with
    its error, all younger requests are flushed in order, then the receives, and the
    QP is in error. *)
Theorem ack_completes_in_order (ids : list Z) (s : st) (psn : Z) (Hwf : qp_wf ids s) (Hi : req_inv (st_qp s)) :
  exists s', receive_ACK_response psn s = Some (-1, s') /\ ack_result ids psn s s'.
Proof.
  assert (wp (receive_ACK_response psn) (fun n s' => n = -1 /\ ack_result ids psn s s') s) as H by (apply (wp_receive_ack ids); auto).
  unfold wp in H. destruct (receive_ACK_response psn s) as [[n s']|]; [|done]. destruct H as [-> H]. by exists s'.
Qed.


End RcRespThm.

(** ** Witnesses *)

(** What an application sees of the send CQ. *)
Definition send_completions (s : st) : list (Z * ib_wc_status) :=
  match st_cqs s !! qp_send_cq (st_qp s) with Some cq => map (fun wc => (wc_wr_id wc, wc_status wc)) (cq_cqe_head cq) | None => [] end.

(** The acknowledge of PSN 12 covers the request 3 (PSNs 10 and 11) and one of the
    three packets of the request 2. *)
Lemma ack_completes_in_order_witness :
  exists s', receive_ACK_response (PP := demo_params) 12 requester_demo = Some (-1, s')
  /\ rq_waiting (req s') = [] /\ rq_sending (req s') = [2] /\ send_completions s' = [(103, IB_WC_SUCCESS)] /\ qp_wf [0; 1; 2; 3; 4] s'.
Proof.
  destruct (ack_completes_in_order (PP := demo_params) [0; 1; 2; 3; 4] requester_demo 12 requester_demo_wf requester_demo_inv)
    as (s' & E & done & rest & _ & _ & Hwf & _).
  assert (option_map (fun p => (rq_waiting (req p.2), rq_sending (req p.2), send_completions p.2)) (receive_ACK_response (PP := demo_params) 12 requester_demo)
    = Some ([], [2], [(103, IB_WC_SUCCESS)])) as H by (vm_compute; reflexivity).
  rewrite E in H. injection H as H1 H2 H3. exists s'. auto.
Defined.

(** A negative acknowledge of PSN 12 with a remote access error: request 3 is completed,
    request 2 reports the error, request 1 and the receive are flushed. *)
Definition nak_buffer : list Z := [PIB_SYND_NAK_CODE_REM_ACCESS_ERR; 0; 0; 0].
Definition demo_ack (op psn : Z) : pib_packet_bth :=
  {| bth_OpCode := op; bth_se_m_padcnt_tver := 0; bth_pkey := 0xFFFF; bth_destQP := 7; bth_psn := psn |}.
Definition demo_ack_lrh : pib_packet_lrh := {| lrh_dlid := 1; lrh_vl_lver := 0; lrh_sl_rsv_lnh := 2; lrh_slid := 2; lrh_pktlen := 6 |}.


(** An acknowledge of PSN 14, which the requester has not sent yet, completes the
    request 2 all the same. *)
Example ack_of_unsent_packet :
  (fun p => (rq_sending (req p.2), send_completions p.2)) <$> receive_ACK_response (PP := demo_params) 14 requester_demo
  = Some ([], [(103, IB_WC_SUCCESS); (102, IB_WC_SUCCESS)]).
Proof. vm_compute. reflexivity. Qed.
