(* ===== verification/Multicast.v ===== *)
(** * Multicast groups (driver/pib_multicast.c)

    A link object stands for the attachment of a QP to a multicast LID.  It is on
    two lists at once, one of the QP and one of the LID in the device's table; the
    lists hold the addresses of links.  The file proves that the two kinds of lists
    agree and that attaching and detaching change the group as sets of members. *)

From S2P Require Import Prelude Verbs.


(** struct pib_mcast_link, without its list heads; [ml_qp] is the QP itself. *)
Record pib_mcast_link := { ml_lid : Z; ml_qp_num : Z }.

(** The allocated links by address, the next free address, qp->mcast_head by QP and
    dev->mcast_table by LID. *)
Record mcast := { mc_links : gmap Z pib_mcast_link; mc_next : Z; mc_qp : gmap Z (list Z); mc_table : gmap Z (list Z) }.
#[export] Instance eta_mcast : Eta mcast := fun m => {|
  mc_links := mc_links m; mc_next := mc_next m; mc_qp := mc_qp m; mc_table := mc_table m |}.

Definition qp_links (m : mcast) (q : Z) : list Z := default [] (mc_qp m !! q).
Definition lid_links (m : mcast) (lid : Z) : list Z := default [] (mc_table m !! lid).
Definition link_lid (m : mcast) (a : Z) : option Z := ml_lid <$> (mc_links m !! a).

(** The numbers a multicast packet for [lid] is delivered to, in order. *)
Definition group (m : mcast) (lid : Z) : list Z := omap (fun a => ml_qp_num <$> (mc_links m !! a)) (lid_links m lid).

(** list_del of the link from both lists, and kmem_cache_free. *)
Definition drop_link (q lid a : Z) (m : mcast) : mcast :=
  m <| mc_qp ::= <[q := List.filter (fun x => negb (x =? a)) (qp_links m q)]> |>
    <| mc_table ::= <[lid := List.filter (fun x => negb (x =? a)) (lid_links m lid)]> |>
    <| mc_links ::= delete a |>.

(** The first link of the QP to the LID. *)
Definition find_link (m : mcast) (q lid : Z) : option Z :=
  List.find (fun a => bool_decide (link_lid m a = Some lid)) (qp_links m q).

(** [alloc_ok]: whether kmem_cache_zalloc succeeds. *)
Definition pib_attach_mcast (alloc_ok : bool) (q qp_num lid : Z) (m : mcast) : Z * mcast :=
  if lid <? PIB_MCAST_LID_BASE then (- EINVAL, m)
  else match find_link m q lid with
  | Some _ => (0, m)
  | None =>
      if PIB_MCAST_QP_ATTACH <? Zlen (qp_links m q) then (- ENOMEM, m)
      else if negb alloc_ok then (- ENOMEM, m)
      else
        let a := mc_next m in
        (0, m <| mc_links ::= <[a := {| ml_lid := lid; ml_qp_num := qp_num |}]> |> <| mc_next := a + 1 |>
              <| mc_qp ::= <[q := qp_links m q ++ [a]]> |> <| mc_table ::= <[lid := lid_links m lid ++ [a]]> |>)
  end.

Definition pib_detach_mcast (q lid : Z) (m : mcast) : Z * mcast :=
  if lid <? PIB_MCAST_LID_BASE then (- EINVAL, m)
  else (0, match find_link m q lid with Some a => drop_link q lid a m | None => m end).

(** The loop with the list as it was at its start. *)
Fixpoint detach_loop (q : Z) (l : list Z) (m : mcast) : mcast :=
  match l with
  | [] => m
  | a :: l' => detach_loop q l' (match link_lid m a with Some lid => drop_link q lid a m | None => m end)
  end.
Definition pib_detach_all_mcast (q : Z) (m : mcast) : mcast := detach_loop q (qp_links m q) m.

(** ** Invariant *)

(** [num q] is the number of the QP [q].  Every link is on the list of one QP and on
    that of its LID; a QP has one link to a LID. *)
Record mcast_ok (num : Z -> Z) (m : mcast) : Prop := {
  mo_qp : forall q a, a ∈ qp_links m q -> exists l, mc_links m !! a = Some l /\ ml_qp_num l = num q /\ a ∈ lid_links m (ml_lid l);
  mo_lid : forall lid a, a ∈ lid_links m lid -> exists q l, a ∈ qp_links m q /\ mc_links m !! a = Some l /\ ml_lid l = lid;
  mo_one : forall q q' a, a ∈ qp_links m q -> a ∈ qp_links m q' -> q = q';
  mo_qp_nodup : forall q, NoDup (qp_links m q);
  mo_lid_nodup : forall lid, NoDup (lid_links m lid);
  mo_group : forall q a b, a ∈ qp_links m q -> b ∈ qp_links m q -> link_lid m a = link_lid m b -> a = b;
  mo_next : forall a, is_Some (mc_links m !! a) -> a < mc_next m }.

(** The members of the groups. *)
Definition member (m : mcast) (q lid : Z) : Prop := exists a, a ∈ qp_links m q /\ link_lid m a = Some lid.

Lemma find_link_spec m q lid :
  match find_link m q lid with
  | Some a => a ∈ qp_links m q /\ link_lid m a = Some lid
  | None => ~ member m q lid
  end.
Proof.
  unfold find_link, member. destruct (List.find _ _) as [a|] eqn:E.
  - apply List.find_some in E as [H1 H2]. by split; [apply list_elem_of_In|apply bool_decide_eq_true in H2].
  - intros (a & H1 & H2). pose proof (List.find_none _ _ E a (proj1 (list_elem_of_In _ _) H1)) as H3. by apply bool_decide_eq_false in H3.
Qed.

Definition mcast_empty : mcast := {| mc_links := ∅; mc_next := 0; mc_qp := ∅; mc_table := ∅ |}.

Lemma mcast_empty_ok num : mcast_ok num mcast_empty.
Proof.
  split; unfold qp_links, lid_links, mcast_empty; simpl; intros; rewrite ?lookup_empty in *; simpl in *; set_solver || by constructor || naive_solver.
Qed.

(** ** Attaching *)

Definition attached (q qp_num lid : Z) (m : mcast) : mcast :=
  let a := mc_next m in
  m <| mc_links ::= <[a := {| ml_lid := lid; ml_qp_num := qp_num |}]> |> <| mc_next := a + 1 |>
    <| mc_qp ::= <[q := qp_links m q ++ [a]]> |> <| mc_table ::= <[lid := lid_links m lid ++ [a]]> |>.

Lemma qp_links_insert m q l q' : default [] (<[q := l]> (mc_qp m) !! q') = if decide (q = q') then l else qp_links m q'.
Proof. destruct (decide (q = q')) as [->|]; [by rewrite lookup_insert_eq|by rewrite lookup_insert_ne]. Qed.
Lemma lid_links_insert m lid l lid' : default [] (<[lid := l]> (mc_table m) !! lid') = if decide (lid = lid') then l else lid_links m lid'.
Proof. destruct (decide (lid = lid')) as [->|]; [by rewrite lookup_insert_eq|by rewrite lookup_insert_ne]. Qed.

Lemma elem_attached q n lid m q' a : a ∈ qp_links (attached q n lid m) q' <-> a ∈ qp_links m q' \/ (q' = q /\ a = mc_next m).
Proof.
  unfold qp_links at 1. simpl. rewrite qp_links_insert. destruct (decide (q = q')) as [->|Hne].
  - rewrite elem_of_app, list_elem_of_singleton. naive_solver.
  - naive_solver.
Qed.
Lemma elem_attached_lid q n lid m lid' a : a ∈ lid_links (attached q n lid m) lid' <-> a ∈ lid_links m lid' \/ (lid' = lid /\ a = mc_next m).
Proof.
  unfold lid_links at 1. simpl. rewrite lid_links_insert. destruct (decide (lid = lid')) as [->|Hne].
  - rewrite elem_of_app, list_elem_of_singleton. naive_solver.
  - naive_solver.
Qed.

Section Links.
Context (num : Z -> Z) (m : mcast) (Hok : mcast_ok num m).

Lemma link_old q a : a ∈ qp_links m q -> a < mc_next m.
Proof. intros H. destruct (mo_qp _ _ Hok q a H) as (l & Hl & _). apply (mo_next _ _ Hok). by eexists. Qed.
Lemma lid_old lid a : a ∈ lid_links m lid -> a < mc_next m.
Proof. intros H. destruct (mo_lid _ _ Hok lid a H) as (q & l & Hq & _). by eapply link_old. Qed.

Lemma attached_lookup q n lid a : a <> mc_next m -> mc_links (attached q n lid m) !! a = mc_links m !! a.
Proof. intros H. simpl. by rewrite lookup_insert_ne. Qed.

Lemma attached_ok q lid : ~ member m q lid -> mcast_ok num (attached q (num q) lid m).
Proof.
  intros Hnew. assert (mc_links (attached q (num q) lid m) !! mc_next m = Some {| ml_lid := lid; ml_qp_num := num q |}) as Hl
    by (simpl; by rewrite lookup_insert_eq).
  assert (forall q' a, a ∈ qp_links m q' -> link_lid (attached q (num q) lid m) a = link_lid m a) as Hlid.
  { intros q' a Ha. unfold link_lid. by rewrite attached_lookup by (apply link_old in Ha; lia). }
  split.
  - intros q' a [Ha|[-> ->]]%elem_attached.
    + destruct (mo_qp _ _ Hok q' a Ha) as (l & H1 & H2 & H3). exists l. apply link_old in Ha.
      rewrite attached_lookup, elem_attached_lid by lia. auto.
    + eexists. split; [exact Hl|]. split; [done|]. apply elem_attached_lid. auto.
  - intros lid' a [Ha|[-> ->]]%elem_attached_lid.
    + destruct (mo_lid _ _ Hok lid' a Ha) as (q' & l & H1 & H2 & H3). apply lid_old in Ha. exists q', l.
      rewrite attached_lookup, elem_attached by lia. auto.
    + exists q. eexists. split; [apply elem_attached; auto|]. split; [exact Hl|done].
  - intros q1 q2 a [H1|[-> ->]]%elem_attached [H2|[-> E]]%elem_attached; [by eapply mo_one|..|done].
    + apply link_old in H1. lia.
    + apply link_old in H2. lia.
  - intros q'. unfold qp_links. simpl. rewrite qp_links_insert. destruct (decide (q = q')) as [<-|]; [|by apply (mo_qp_nodup _ _ Hok)].
    apply NoDup_app. split; [by apply (mo_qp_nodup _ _ Hok)|]. split; [|by apply NoDup_singleton].
    intros a Ha ->%list_elem_of_singleton. apply link_old in Ha. lia.
  - intros lid'. unfold lid_links. simpl. rewrite lid_links_insert. destruct (decide (lid = lid')) as [<-|]; [|by apply (mo_lid_nodup _ _ Hok)].
    apply NoDup_app. split; [by apply (mo_lid_nodup _ _ Hok)|]. split; [|by apply NoDup_singleton].
    intros a Ha ->%list_elem_of_singleton. apply lid_old in Ha. lia.
  - intros q' a b [Ha|[-> ->]]%elem_attached [Hb|[E ->]]%elem_attached; [rewrite !(Hlid q') by done; by apply (mo_group _ _ Hok q')|..|done].
    + subst q'. rewrite (Hlid q) by done. unfold link_lid at 2. rewrite Hl. intros E. destruct Hnew. by exists a.
    + rewrite (Hlid q b) by done. unfold link_lid at 1. rewrite Hl. intros E. destruct Hnew. by exists b.
  - intros a. destruct (decide (a = mc_next m)) as [->|]; [simpl; lia|]. rewrite attached_lookup by done.
    intros Ha. apply (mo_next _ _ Hok) in Ha. simpl. lia.
Qed.

Lemma attached_member q lid q' lid' : member (attached q (num q) lid m) q' lid' <-> member m q' lid' \/ (q' = q /\ lid' = lid).
Proof.
  assert (link_lid (attached q (num q) lid m) (mc_next m) = Some lid) as Hl by (unfold link_lid; simpl; by rewrite lookup_insert_eq).
  unfold member. split.
  - intros (a & [Ha|[-> ->]]%elem_attached & E).
    + left. exists a. split; [done|]. unfold link_lid in *. by rewrite attached_lookup in E by (apply link_old in Ha; lia).
    + right. split; [done|congruence].
  - intros [(a & Ha & E)|[-> ->]].
    + exists a. rewrite elem_attached. split; [by left|]. unfold link_lid in *. by rewrite attached_lookup by (apply link_old in Ha; lia).
    + exists (mc_next m). rewrite elem_attached. auto.
Qed.

(** ** Detaching *)

Lemma elem_filter_ne a x l : x ∈ List.filter (fun y => negb (y =? a)) l <-> x ∈ l /\ x <> a.
Proof. rewrite !list_elem_of_In, List.filter_In, negb_true_iff, Z.eqb_neq. done. Qed.

Context (q lid a : Z) (Ha : a ∈ qp_links m q) (Hlid : link_lid m a = Some lid).

Lemma elem_dropped q' x : x ∈ qp_links (drop_link q lid a m) q' <-> x ∈ qp_links m q' /\ x <> a.
Proof.
  unfold qp_links at 1. simpl. rewrite qp_links_insert. destruct (decide (q = q')) as [<-|Hne]; [apply elem_filter_ne|].
  split; [|by intros []]. intros Hx. split; [done|]. intros ->. apply Hne. by apply (mo_one _ _ Hok q q' a).
Qed.
Lemma elem_dropped_lid lid' x : x ∈ lid_links (drop_link q lid a m) lid' <-> x ∈ lid_links m lid' /\ x <> a.
Proof.
  unfold lid_links at 1. simpl. rewrite lid_links_insert. destruct (decide (lid = lid')) as [<-|Hne]; [apply elem_filter_ne|].
  split; [|by intros []]. intros Hx. split; [done|]. intros ->. apply Hne. destruct (mo_lid _ _ Hok lid' a Hx) as (_ & l & _ & Hl & <-).
  unfold link_lid in Hlid. rewrite Hl in Hlid. by injection Hlid as ->.
Qed.
Lemma dropped_lookup x : x <> a -> mc_links (drop_link q lid a m) !! x = mc_links m !! x.
Proof using. intros H. simpl. by rewrite lookup_delete_ne. Qed.

Lemma dropped_ok : mcast_ok num (drop_link q lid a m).
Proof.
  split.
  - intros q' x [Hx Hne]%elem_dropped. destruct (mo_qp _ _ Hok q' x Hx) as (l & H1 & H2 & H3). exists l.
    rewrite dropped_lookup, elem_dropped_lid by done. auto.
  - intros lid' x [Hx Hne]%elem_dropped_lid. destruct (mo_lid _ _ Hok lid' x Hx) as (q' & l & H1 & H2 & H3). exists q', l.
    rewrite dropped_lookup, elem_dropped by done. auto.
  - intros q1 q2 x [H1 _]%elem_dropped [H2 _]%elem_dropped. by eapply mo_one.
  - intros q'. unfold qp_links. simpl. rewrite qp_links_insert. destruct (decide (q = q')); [|by apply (mo_qp_nodup _ _ Hok)].
    apply NoDup_ListNoDup, List.NoDup_filter, NoDup_ListNoDup, (mo_qp_nodup _ _ Hok).
  - intros lid'. unfold lid_links. simpl. rewrite lid_links_insert. destruct (decide (lid = lid')); [|by apply (mo_lid_nodup _ _ Hok)].
    apply NoDup_ListNoDup, List.NoDup_filter, NoDup_ListNoDup, (mo_lid_nodup _ _ Hok).
  - intros q' x y [Hx Hnx]%elem_dropped [Hy Hny]%elem_dropped. unfold link_lid. rewrite !dropped_lookup by done. by apply (mo_group _ _ Hok q').
  - intros x Hx. destruct (decide (x = a)) as [->|Hne]; [simpl in Hx; rewrite lookup_delete_eq in Hx; by destruct Hx|].
    rewrite dropped_lookup in Hx by done. by apply (mo_next _ _ Hok) in Hx.
Qed.

Lemma dropped_member q' lid' : member (drop_link q lid a m) q' lid' <-> member m q' lid' /\ ~ (q' = q /\ lid' = lid).
Proof.
  unfold member. split.
  - intros (x & [Hx Hne]%elem_dropped & E). unfold link_lid in E. rewrite dropped_lookup in E by done. split; [by exists x|].
    intros [-> ->]. apply Hne. apply (mo_group _ _ Hok q); [done|done|]. unfold link_lid in *. congruence.
  - intros [(x & Hx & E) Hne]. exists x. assert (x <> a) as Hxa.
    { intros ->. apply Hne. split; [by apply (mo_one _ _ Hok q' q a)|congruence]. }
    rewrite elem_dropped. split; [done|]. unfold link_lid in *. by rewrite dropped_lookup.
Qed.
End Links.

Lemma detach_loop_spec num q l : forall m, mcast_ok num m -> NoDup l -> (forall a, a ∈ l -> a ∈ qp_links m q) ->
  mcast_ok num (detach_loop q l m)
  /\ forall q' lid, member (detach_loop q l m) q' lid <-> member m q' lid /\ ~ (q' = q /\ exists a, a ∈ l /\ link_lid m a = Some lid).
Proof.
  induction l as [|a l IH]; intros m Hok Hn Hl; simpl.
  - split; [done|]. intros q' lid. split; [|by intros []]. intros H. split; [done|]. intros (_ & a & Ha & _). by apply elem_of_nil in Ha.
  - apply NoDup_cons in Hn as [Hna Hn]. assert (a ∈ qp_links m q) as Ha by (apply Hl; by left).
    destruct (mo_qp _ _ Hok q a Ha) as (lk & Hlk & _). assert (link_lid m a = Some (ml_lid lk)) as Hlid by (unfold link_lid; by rewrite Hlk).
    rewrite Hlid. destruct (IH (drop_link q (ml_lid lk) a m)) as [I1 I2].
    + by apply dropped_ok.
    + done.
    + intros b Hb. apply (elem_dropped num m Hok); [done..|]. split; [apply Hl; by right|]. intros ->. done.
    + split; [done|]. intros q' lid. rewrite I2, (dropped_member num m Hok q (ml_lid lk) a Ha Hlid). split.
      * intros [[Hm Hne] Hr]. split; [done|]. intros (-> & b & Hb & E). apply elem_of_cons in Hb as [->|Hb].
        -- apply Hne. split; [done|congruence].
        -- apply Hr. split; [done|]. exists b. split; [done|]. unfold link_lid in *. rewrite dropped_lookup; [done|]. intros ->. done.
      * intros [Hm Hne]. split; [split; [done|]|].
        -- intros [-> ->]. apply Hne. split; [done|]. exists a. split; [by left|done].
        -- intros (-> & b & Hb & E). apply Hne. split; [done|]. exists b. split; [by right|].
           unfold link_lid in *. rewrite dropped_lookup in E; [done|]. intros ->. done.
Qed.

(** C21. Multicast groups are sets: attaching adds exactly the QP to exactly the group, or
    fails and changes nothing; detaching takes exactly the QP out of the group;
    detaching a QP that goes away takes it out of all its groups.  The invariant of
    the two kinds of lists is kept, and the packets of a group are delivered to the
    numbers of its members. *)
Theorem multicast_groups (num : Z -> Z) (m : mcast) (q lid : Z) (ok : bool) (Hok : mcast_ok num m) :
  (let '(r, m') := pib_attach_mcast ok q (num q) lid m in
     mcast_ok num m' /\ (r <> 0 -> m' = m)
     /\ (r = 0 -> forall q' lid', member m' q' lid' <-> member m q' lid' \/ (q' = q /\ lid' = lid)))
  /\ (let '(r, m') := pib_detach_mcast q lid m in
     mcast_ok num m' /\ (r <> 0 -> m' = m)
     /\ (r = 0 -> forall q' lid', member m' q' lid' <-> member m q' lid' /\ ~ (q' = q /\ lid' = lid)))
  /\ (let m' := pib_detach_all_mcast q m in
     mcast_ok num m' /\ forall q' lid', member m' q' lid' <-> member m q' lid' /\ q' <> q)
  /\ (forall n, n ∈ group m lid <-> exists q', member m q' lid /\ num q' = n).
Proof.
  pose proof (find_link_spec m q lid) as Hf. split_and!.
  - unfold pib_attach_mcast. destruct (_ <? PIB_MCAST_LID_BASE); [by split_and!|]. destruct (find_link m q lid) as [a|].
    + split_and!; [done|done|]. intros _ q' lid'. split; [by left|]. intros [|[-> ->]]; [done|]. exists a. done.
    + destruct (_ <? Zlen _); [by split_and!|]. destruct ok; [|by split_and!]. cbn [negb].
      split_and!; [by apply attached_ok|done|]. intros _ q' lid'. by apply attached_member.
  - unfold pib_detach_mcast. destruct (_ <? PIB_MCAST_LID_BASE); [by split_and!|]. destruct (find_link m q lid) as [a|].
    + destruct Hf as [Ha Hl]. split_and!; [by apply dropped_ok|done|]. intros _ q' lid'. by apply (dropped_member num m Hok).
    + split_and!; [done|done|]. intros _ q' lid'. split; [|by intros []]. intros H. split; [done|]. intros [-> ->]. done.
  - destruct (detach_loop_spec num q (qp_links m q) m Hok (mo_qp_nodup _ _ Hok q)) as [H1 H2]; [done|]. split; [done|].
    intros q' lid'. unfold pib_detach_all_mcast. rewrite H2. split; intros [Hm Hne]; (split; [done|]).
    + intros ->. apply Hne. split; [done|]. destruct Hm as (a & Ha & E). by exists a.
    + intros [-> _]. done.
  - intros n. unfold group. rewrite list_elem_of_omap. split.
    + intros (a & Ha & E). destruct (mo_lid _ _ Hok lid a Ha) as (q' & l & Hq & Hl & <-). rewrite Hl in E. injection E as <-.
      exists q'. split; [exists a; split; [done|]; unfold link_lid; by rewrite Hl|].
      destruct (mo_qp _ _ Hok q' a Hq) as (l' & Hl' & <- & _). by rewrite Hl in Hl'; injection Hl' as ->.
    + intros (q' & (a & Ha & E) & <-). destruct (mo_qp _ _ Hok q' a Ha) as (l & Hl & Hn & Hin). exists a.
      unfold link_lid in E. rewrite Hl in E. injection E as <-. split; [done|]. rewrite Hl. simpl. by rewrite Hn.
Qed.

(** ** Witness *)

(** QP 7 and QP 9 in the group 0xC001, QP 7 also in 0xC002. *)
Definition mcast_demo : mcast :=
  snd (pib_attach_mcast true 7 7 0xC002 (snd (pib_attach_mcast true 9 9 0xC001 (snd (pib_attach_mcast true 7 7 0xC001 mcast_empty))))).

Lemma mcast_demo_ok : mcast_ok (fun q => q) mcast_demo.
Proof.
  unfold mcast_demo.
  pose proof (mcast_empty_ok (fun q => q)) as H0.
  assert (forall q lid m, mcast_ok (fun q => q) m -> find_link m q lid = None -> mcast_ok (fun q => q) (attached q q lid m)) as H.
  { intros q lid m Hm E. apply (attached_ok (fun q => q) m Hm). pose proof (find_link_spec m q lid) as Hf. by rewrite E in Hf. }
  apply (H 7 0xC002); [|done]. apply (H 9 0xC001); [|done]. by apply (H 7 0xC001).
Qed.

Lemma multicast_groups_witness :
  group mcast_demo 0xC001 = [7; 9] /\ mcast_ok (fun q => q) (snd (pib_detach_mcast 7 0xC001 mcast_demo))
  /\ group (snd (pib_detach_mcast 7 0xC001 mcast_demo)) 0xC001 = [9].
Proof.
  split; [reflexivity|]. split; [|reflexivity].
  destruct (multicast_groups (fun q => q) mcast_demo 7 0xC001 true mcast_demo_ok) as (_ & H & _).
  destruct (pib_detach_mcast 7 0xC001 mcast_demo) as [r m']. exact (proj1 H).
Defined.
