(* ===== verification/Hca.v ===== *)
(** * The HCA as a whole: queue pairs, ports and the work queue

    The handlers of the other files see one queue pair.  Here the device holds all
    of them: a handler is run on a QP by loading it, with its protection domain,
    into the state the handler works on and storing it back ([with_qp]).  The work
    queue of the device thread (driver/pib_thread.c), the handlers put on it, the
    asynchronous errors of completion queues and shared receive queues
    (driver/pib_cq.c, driver/pib_srq.c) and the injection of errors
    (driver/pib_debugfs.c) are operations of the device.

    dev->lock is a flag: taking it twice is a deadlock, [None].  Putting a work item
    on a list while it is on one corrupts the list, [None] as well. *)

From S2P Require Import Prelude Verbs Lib ObjNum Cq Srq Mr State Sched Qp.

(** ** State *)

(** struct pib_work_struct, by the function and data it was initialised with. *)
Inductive pib_work := WorkCq (cq : Z) | WorkLink (port_num : Z) | WorkInject.
#[export] Instance pib_work_eq_dec : EqDecision pib_work.
Proof. solve_decision. Defined.

(** The members of struct pib_port that the handlers of a QP do not look at; the
    others are in [st_ports].  An address is a number.  [hp_rx] is what waits at the
    socket: datagrams, or the error numbers of calls that fail. *)
Record hca_port := {
  hp_state : Z; hp_phys_state : Z; hp_is_connected : bool; hp_sockaddr : option Z; hp_qp_info : list (option Z);
  hp_qkey_viol_cntr : Z; hp_bad_pkey_cntr : Z; hp_rcv_packets : Z; hp_rcv_data : Z; hp_xmit_packets : Z; hp_xmit_data : Z;
  hp_rx : list (Z + list Z) }.
#[export] Instance eta_hca_port : Eta hca_port := fun p => {|
  hp_state := hp_state p; hp_phys_state := hp_phys_state p; hp_is_connected := hp_is_connected p;
  hp_sockaddr := hp_sockaddr p; hp_qp_info := hp_qp_info p; hp_qkey_viol_cntr := hp_qkey_viol_cntr p;
  hp_bad_pkey_cntr := hp_bad_pkey_cntr p; hp_rcv_packets := hp_rcv_packets p; hp_rcv_data := hp_rcv_data p;
  hp_xmit_packets := hp_xmit_packets p; hp_xmit_data := hp_xmit_data p; hp_rx := hp_rx p |}.

(** [hc_qps] are the QPs by [qp_id], [hc_qp_head] the list dev->qp_head; [hc_mcast] the
    QP numbers attached to each multicast LID; [hc_wq] and [hc_timers] the two lists of
    the work queue, with the expiry of a timer.  [hc_results] are the results of the
    next calls of kernel_sendmsg (everything is sent when it is empty), [hc_sent]
    the messages sent, with their destination. *)
Record hca := {
  hc_st : st; hc_qps : gmap Z pib_qp; hc_qp_head : list Z; hc_pds : gmap Z Mr.pib_pd; hc_ports : gmap Z hca_port;
  hc_mcast : gmap Z (list Z); hc_lock : bool; hc_wq : list pib_work; hc_timers : list (pib_work * Z);
  hc_stop : bool; hc_wq_schedule : bool; hc_ready_to_recv : bool; hc_inject : ib_event_type * Z;
  hc_results : list Z; hc_sent : list (Z * list Z) }.
#[export] Instance eta_hca : Eta hca := fun h => {|
  hc_st := hc_st h; hc_qps := hc_qps h; hc_qp_head := hc_qp_head h; hc_pds := hc_pds h; hc_ports := hc_ports h;
  hc_mcast := hc_mcast h; hc_lock := hc_lock h; hc_wq := hc_wq h; hc_timers := hc_timers h; hc_stop := hc_stop h;
  hc_wq_schedule := hc_wq_schedule h; hc_ready_to_recv := hc_ready_to_recv h; hc_inject := hc_inject h;
  hc_results := hc_results h; hc_sent := hc_sent h |}.

Section Hca.
Context {PP : Params}.

(** ** Locks, work items, queue pairs *)

Definition lock : M hca unit :=
  let! h := get in
  if hc_lock h then bug else modify (fun h => h <| hc_lock := true |>).
Definition unlock : M hca unit := modify (fun h => h <| hc_lock := false |>).

Definition on_list (h : hca) (w : pib_work) : bool := bool_decide (w ∈ hc_wq h ++ (hc_timers h).*1).

(** pib_queue_work; the completion wakes the thread up. *)
Definition pib_queue_work (w : pib_work) : M hca unit :=
  let! h := get in
  BUG_ON (on_list h w) ;;
  modify (fun h => h <| hc_wq ::= fun l => l ++ [w] |> <| hc_wq_schedule := true |>).

Definition pib_queue_delayed_work (w : pib_work) (delay : Z) : M hca unit :=
  let! h := get in
  BUG_ON (on_list h w) ;;
  modify (fun h => h <| hc_timers ::= fun l => l ++ [(w, u64 (st_now (hc_st h) + delay))] |>).

(** list_del_init on whichever list the item is. *)
Definition pib_cancel_work (w : pib_work) : M hca unit :=
  modify (fun h => h <| hc_wq ::= List.filter (fun x => negb (bool_decide (x = w))) |>
                     <| hc_timers ::= List.filter (fun x => negb (bool_decide (x.1 = w))) |>).

Definition delayed_work_timeout_callback (w : pib_work) : M hca unit :=
  modify (fun h => h <| hc_timers ::= List.filter (fun x => negb (bool_decide (x.1 = w))) |>
                     <| hc_wq ::= fun l => l ++ [w] |> <| hc_wq_schedule := true |>).

Definition pib_stop_delayed_queue : M hca unit :=
  modify (fun h => h <| hc_wq ::= fun l => l ++ (hc_timers h).*1 |> <| hc_timers := [] |>).

(** The work items a handler of a QP queued, as its calls record them. *)
Definition works_of (evs : list pib_event) : list pib_work :=
  omap (fun e => match e with EvWorkCq c => Some (WorkCq c) | _ => None end) evs.

(** The state a handler of the QP [i] starts from. *)
Definition load (h : hca) (q : pib_qp) (pd : Mr.pib_pd) : st := (hc_st h) <| st_qp := q |> <| st_pd := pd |> <| st_events := [] |>.

(** Run a handler on the QP [i]; its events are appended to the record of the device,
    the work items it queued to the work queue. *)
Definition with_qp {A} (i : Z) (m : M st A) : M hca A :=
  let! h := get in
  let! q := of_option (hc_qps h !! i) in
  let! pd := of_option (hc_pds h !! qp_pd q) in
  let! (a, s') := of_option (m (load h q pd)) in
  modify (fun h => h <| hc_st := s' <| st_events ::= app (st_events (hc_st h)) |> |>
                     <| hc_qps ::= <[i := st_qp s']> |> <| hc_pds ::= <[qp_pd q := st_pd s']> |>) ;;
  for_each pib_queue_work (works_of (st_events s')) ;;
  ret a.

(** Calls of event handlers made outside of a QP. *)
Definition raise (evs : list pib_event) : M hca unit :=
  modify (fun h => h <| hc_st ::= fun s => s <| st_events ::= fun l => l ++ evs |> |>).

(** ** Asynchronous errors *)

(** qp->state = IB_QPS_ERR; pib_util_flush_qp(qp, 0); pib_util_insert_async_qp_error *)
Definition qp_fatal : M st unit :=
  upd_qp (fun q => q <| qp_state := IB_QPS_ERR |>) ;;
  pib_util_flush_qp false ;;
  pib_util_insert_async_qp_error IB_EVENT_QP_FATAL.

(** The loop over dev->qp_head: the QPs that [uses] holds for. *)
Definition fail_qps (uses : pib_qp -> bool) : M hca unit :=
  let! h := get in
  for_each (fun i =>
    let! h := get in
    let! q := of_option (hc_qps h !! i) in
    when (uses q) (with_qp i qp_fatal)) (hc_qp_head h).

Definition uses_cq (c : Z) (q : pib_qp) : bool := (c =? qp_send_cq q) || (c =? qp_recv_cq q).
Definition uses_srq (n : Z) (q : pib_qp) : bool := bool_decide (i_srq (qp_init_attr q) = Some n).

Definition pib_util_insert_async_cq_error (c : Z) : M hca unit :=
  let! h := get in
  let! cq := of_option (st_cqs (hc_st h) !! c) in
  let '(ev, cq') := cq_set_error cq in
  modify (fun h => h <| hc_st ::= fun s => s <| st_cqs ::= <[c := cq']> |> |>) ;;
  raise ev ;;
  fail_qps (uses_cq c).

Definition pib_util_insert_async_srq_error (n : Z) : M hca unit :=
  let! h := get in
  let! srq := of_option (st_srqs (hc_st h) !! n) in
  let '(ev, srq') := srq_set_error srq in
  modify (fun h => h <| hc_st ::= fun s => s <| st_srqs ::= <[n := srq']> |> |>) ;;
  raise ev ;;
  fail_qps (uses_srq n).

Definition cq_overflow_handler (c : Z) : M hca unit :=
  let! h := get in
  BUG_ON (negb (hc_lock h)) ;;
  pib_util_insert_async_cq_error c.

(** ** Injection of errors *)

(** The first QP of dev->qp_head with the number. *)
Definition find_by_num (h : hca) (n : Z) : option Z :=
  List.find (fun i => match hc_qps h !! i with Some q => qp_num q =? n | None => false end) (hc_qp_head h).

Definition pib_inject_err_handler : M hca unit :=
  let! h := get in
  BUG_ON (negb (hc_lock h)) ;;
  let '(type, oid) := hc_inject h in
  match type with
  | IB_EVENT_CQ_ERR => if bool_decide (is_Some (st_cqs (hc_st h) !! oid)) then pib_util_insert_async_cq_error oid else ret tt
  | IB_EVENT_QP_FATAL => match find_by_num h oid with Some i => with_qp i qp_fatal | None => ret tt end
  | IB_EVENT_SRQ_ERR => if bool_decide (is_Some (st_srqs (hc_st h) !! oid)) then pib_util_insert_async_srq_error oid else ret tt
  | _ => bug
  end.

(** What is written to the file: a kind in either case, and a number. *)
Definition inject_err_write (type : option ib_event_type) (oid : option Z) (len : Z) : M hca Z :=
  match type, oid with
  | Some type, Some oid =>
      lock ;;
      let! h := get in
      when (negb (on_list h WorkInject))
        (modify (fun h => h <| hc_inject := (type, oid) |>) ;; pib_queue_work WorkInject) ;;
      unlock ;;
      ret len
  | _, _ => ret (- EINVAL)
  end.
End Hca.
