(* ===== verification/Frame.v ===== *)
(** * What the handlers of a queue pair leave to the others

    A handler runs on one QP, but completion queues, shared receive queues, the
    scheduler and the work queue are shared.  [polite] says what every handler of
    the transports respects: no CQ or SRQ disappears, a CQ in error stays in error
    and its overflow is queued once, the pools stay exact, and the scheduler's
    entries of other QPs are not touched. *)

From S2P Require Import Prelude Verbs Lib ObjNum Cq Srq Mr State Sched Qp QpInv Packet Wire Rc RcRsp RcResp Ud Requester Hca.

(** ** The relation *)

Definition cq_err (s : st) (c : Z) : Prop := exists cq, st_cqs s !! c = Some cq /\ cq_state cq = PIB_STATE_ERR.
Definition cq_keys (s : st) : Prop := map_Forall (fun c cq => cq_num cq = c) (st_cqs s).
Definition cqs_ok (s : st) : Prop := map_Forall (fun _ cq => cq_inv cq) (st_cqs s).

(** The overflow handlers queued between two states: each at most once, and each for
    a CQ that went into error in between. *)
Definition overflows (s s' : st) (evs : list pib_event) : Prop :=
  st_events s' = st_events s ++ evs /\ NoDup (works_of evs)
  /\ forall w, w ∈ works_of evs -> exists c, w = WorkCq c /\ ~ cq_err s c /\ cq_err s' c.

Record polite (s s' : st) : Prop := {
  po_id : qp_id (st_qp s') = qp_id (st_qp s);
  po_pd : qp_pd (st_qp s') = qp_pd (st_qp s);
  po_cqs : forall c, is_Some (st_cqs s !! c) <-> is_Some (st_cqs s' !! c);
  po_srqs : forall n, is_Some (st_srqs s !! n) -> is_Some (st_srqs s' !! n);
  po_tree : sched_erase (qp_id (st_qp s)) (qs_tree (st_sched s')) = sched_erase (qp_id (st_qp s)) (qs_tree (st_sched s));
  po_member : sched_member s -> sched_member s';
  po_inv : cqs_ok s -> cqs_ok s';
  po_keys : cq_keys s -> cq_keys s';
  po_err : forall c, cq_err s c -> cq_err s' c;
  po_works : cq_keys s -> exists evs, overflows s s' evs
}.

Lemma works_of_app l k : works_of (l ++ k) = works_of l ++ works_of k.
Proof. apply omap_app. Qed.

Lemma overflows_nil s s' : st_events s' = st_events s -> overflows s s' [].
Proof. intros E. split; [by rewrite app_nil_r|]. split; [constructor|]. by intros w ?%elem_of_nil. Qed.

#[export] Instance polite_preorder : PreOrder polite.
Proof.
  split.
  - intros s. split; try done. intros _. exists []. by apply overflows_nil.
  - intros s1 s2 s3 [A1 A0 A2 A3 A4 A5 A6 A7 A8 A9] [B1 B0 B2 B3 B4 B5 B6 B7 B8 B9].
    split; [congruence|congruence|intros c; by rewrite A2|auto|rewrite A1 in B4; congruence|auto..|].
    intros Hk. destruct (A9 Hk) as (e1 & E1 & N1 & W1), (B9 (A7 Hk)) as (e2 & E2 & N2 & W2). exists (e1 ++ e2).
    split; [by rewrite E2, E1, app_assoc|]. rewrite works_of_app. split.
    + apply NoDup_app. split_and!; [done| |done]. intros w Hw1 Hw2. destruct (W1 w Hw1) as (c & -> & _ & Herr), (W2 _ Hw2) as (c' & [= <-] & Hno & _). done.
    + intros w [Hw|Hw]%elem_of_app; [destruct (W1 w Hw) as (c & -> & H1 & H2)|destruct (W2 w Hw) as (c & -> & H1 & H2)];
        exists c; (split; [done|]); (split; [intros ?|]); auto.
Qed.

(** What the relation looks at. *)
Definition shared (s : st) := (qp_id (st_qp s), qp_pd (st_qp s), qp_sched_on (st_qp s), st_cqs s, st_srqs s, qs_tree (st_sched s), st_events s).

Lemma polite_same s s' : shared s' = shared s -> polite s s'.
Proof.
  unfold shared. intros E. injection E as E1 E0 E2 E3 E4 E5 E6. split; unfold sched_member, cqs_ok, cq_keys, cq_err; rewrite ?E1, ?E2, ?E3, ?E4, ?E5; try done.
  intros _. exists []. by apply overflows_nil.
Qed.

(** Events that queue no work. *)
Lemma polite_emit s s' evs : works_of evs = [] -> shared s' = shared (s <| st_events ::= fun l => l ++ evs |>) -> polite s s'.
Proof.
  intros Hw. unfold shared. simpl. intros E. injection E as E1 E0 E2 E3 E4 E5 E6.
  split; unfold sched_member, cqs_ok, cq_keys, cq_err; rewrite ?E1, ?E2, ?E3, ?E4, ?E5; try done.
  intros _. exists evs. split; [done|]. rewrite Hw. split; [constructor|]. by intros w ?%elem_of_nil.
Qed.

Lemma polite_srq s n srq : polite s (s <| st_srqs ::= <[n := srq]> |>).
Proof.
  split; simpl; try done.
  - intros k Hk. destruct (decide (n = k)) as [->|Hne]; [rewrite lookup_insert_eq; by eexists|by rewrite lookup_insert_ne].
  - intros _. exists []. by apply overflows_nil.
Qed.

(** An operation on a CQ that keeps its number and its error, and queues the overflow
    handler only when it sets the error. *)
Definition cq_polite {A} (f : pib_cq -> A * list pib_event * pib_cq) : Prop :=
  forall cq, let '(_, ev, cq') := f cq in
    (cq_inv cq -> cq_inv cq') /\ cq_num cq' = cq_num cq /\ (cq_state cq = PIB_STATE_ERR -> cq_state cq' = PIB_STATE_ERR)
    /\ (works_of ev = [] \/ works_of ev = [WorkCq (cq_num cq)] /\ cq_state cq <> PIB_STATE_ERR /\ cq_state cq' = PIB_STATE_ERR).

Lemma insert_wc_polite smi wc sol : cq_polite (insert_wc smi wc sol).
Proof.
  intros cq. pose proof (insert_wc_inv smi wc sol cq) as Hi. destruct (insert_wc smi wc sol cq) as [[r ev] cq'] eqn:E. simpl in Hi.
  split; [done|]. unfold insert_wc in E. case_bool_decide as H; [by injection E as <- <- <-; auto|].
  destruct (cq_free_cqe_head cq) as [|x free].
  - injection E as <- <- <-. split; [done|]. split; [done|]. right. split; [done|]. split; [|done]. congruence.
  - destruct (_ && _) in E; injection E as <- <- <-; simpl; auto.
Qed.

Lemma polite_cq s c cq ev cq' : st_cqs s !! c = Some cq ->
  (cq_inv cq -> cq_inv cq') -> cq_num cq' = cq_num cq -> (cq_state cq = PIB_STATE_ERR -> cq_state cq' = PIB_STATE_ERR) ->
  (works_of ev = [] \/ works_of ev = [WorkCq (cq_num cq)] /\ cq_state cq <> PIB_STATE_ERR /\ cq_state cq' = PIB_STATE_ERR) ->
  polite s (s <| st_cqs ::= <[c := cq']> |> <| st_events ::= fun l => l ++ ev |>).
Proof.
  intros Hc Hinv Hnum Herr Hw. split; simpl; try done.
  - intros k. destruct (decide (c = k)) as [->|Hne]; [rewrite lookup_insert_eq, Hc|by rewrite lookup_insert_ne]. split; by eexists.
  - intros H. apply map_Forall_insert_2; [by apply Hinv, (H _ _ Hc)|done].
  - intros H. apply map_Forall_insert_2; [by rewrite Hnum; apply (H _ _ Hc)|done].
  - intros k (cq0 & H0 & He). unfold cq_err. simpl. destruct (decide (c = k)) as [->|Hne].
    + rewrite lookup_insert_eq. exists cq'. split; [done|]. apply Herr. congruence.
    + rewrite lookup_insert_ne by done. by exists cq0.
  - intros Hk. exists ev. split; [done|]. destruct Hw as [->|(-> & H1 & H2)]; [split; [constructor|by intros w ?%elem_of_nil]|].
    split; [apply NoDup_singleton|]. intros w Hin. apply list_elem_of_singleton in Hin as ->. exists (cq_num cq). split; [done|].
    rewrite (Hk _ _ Hc). split.
    + intros (cq0 & E & He). congruence.
    + exists cq'. simpl. by rewrite lookup_insert_eq.
Qed.

(** ** The handlers *)

Section Frame.
Context {PP : Params}.

Lemma polite_with_cq c f : cq_polite f -> obeys polite (with_cq c f).
Proof.
  intros Hf s r s'. unfold with_cq, emit, bind, get, modify, ret. simpl. destruct (st_cqs s !! c) as [cq|] eqn:Ec; [|done].
  specialize (Hf cq). destruct (f cq) as [[r' ev] cq']. destruct Hf as (H1 & H2 & H3 & H4). intros [= _ <-]. by eapply polite_cq.
Qed.

Lemma polite_leaf f : (forall s : st, shared (f s) = shared s) -> obeys polite (modify f).
Proof. intros Hf. apply obeys_modify. intros s. by apply polite_same. Qed.
Lemma polite_put_srq n srq : obeys polite (modify (fun s => s <| st_srqs ::= <[n := srq]> |>)).
Proof. apply obeys_modify. intros s. apply polite_srq. Qed.
Lemma polite_emit_none evs : works_of evs = [] -> obeys polite (emit evs).
Proof. intros H. apply obeys_modify. intros s. by eapply polite_emit. Qed.
#[local] Hint Resolve polite_put_srq : obeys.

Ltac prims := unfold send_buffer, put_buffer, the_port, upd_thread, get_swqe, the_qp, the_req, the_rsp, upd_proc, upd_swqe,
  swqe_list_del, pib_util_free_send_wqe, upd_rsp, upd_req, upd_qp, upd_attr, kmem_cache_zalloc in *.
Ltac handler := prims; obey; try (apply polite_leaf; intros ?; reflexivity).

Lemma polite_insert_wc_error c w st op : obeys polite (qp_insert_wc_error c w st op).
Proof.
  assert (forall rnd smi num, obeys polite (with_cq c (pib_util_insert_wc_error pib_behavior rnd smi num w st op))) as H.
  { intros. apply polite_with_cq. intros cq. apply insert_wc_polite. }
  unfold qp_insert_wc_error. handler.
Qed.
Lemma polite_insert_wc_success c wc b : obeys polite (qp_insert_wc_success c wc b).
Proof.
  assert (forall smi, obeys polite (with_cq c (pib_util_insert_wc_success smi wc b))) as H.
  { intros. apply polite_with_cq, insert_wc_polite. }
  unfold qp_insert_wc_success. handler.
Qed.
Lemma polite_async ev : obeys polite (pib_util_insert_async_qp_error ev).
Proof. unfold pib_util_insert_async_qp_error. handler. by apply polite_emit_none. Qed.
#[local] Hint Resolve polite_insert_wc_error polite_insert_wc_success polite_async : obeys.

(** Only the entry of the QP itself moves in the scheduler's tree. *)
Lemma erase_idem i t : sched_erase i (sched_erase i t) = sched_erase i t.
Proof. unfold sched_erase. induction t as [|x t IH]; [done|]. simpl. destruct (se_qp x =? i) eqn:E; simpl; [done|]. by rewrite E, IH. Qed.
Lemma erase_insert e t : sched_erase (se_qp e) (sched_insert e t) = sched_erase (se_qp e) t.
Proof.
  unfold sched_erase. induction t as [|x t IH]; simpl; [by rewrite Z.eqb_refl|]. destruct (sched_left _ _ _); simpl.
  - by rewrite Z.eqb_refl.
  - by rewrite IH.
Qed.

(** The relation but for the consistency of the scheduler's tree. *)
Definition tame (s s' : st) : Prop :=
  qp_id (st_qp s') = qp_id (st_qp s) /\ qp_pd (st_qp s') = qp_pd (st_qp s) /\ st_cqs s' = st_cqs s /\ st_srqs s' = st_srqs s /\ st_events s' = st_events s
  /\ sched_erase (qp_id (st_qp s)) (qs_tree (st_sched s')) = sched_erase (qp_id (st_qp s)) (qs_tree (st_sched s)).
#[local] Instance tame_preorder : PreOrder tame.
Proof. split; [done|]. intros s1 s2 s3 (A1 & A0 & A2 & A3 & A4 & A5) (B1 & B0 & B2 & B3 & B4 & B5). unfold tame. rewrite A1 in *. split_and!; congruence. Qed.

Lemma tame_take_off : obeys tame sched_take_off.
Proof.
  intros s [] s'. unfold sched_take_off, the_qp, upd_qp, when, bind, gets, modify, ret. simpl. destruct (qp_sched_on (st_qp s)); intros [= <-]; [|done].
  unfold tame. simpl. split_and!; try done. apply erase_idem.
Qed.
Lemma tame_put t : obeys tame (sched_put t).
Proof.
  intros s [] s'. unfold sched_put, the_qp, upd_qp, bind, gets, modify. simpl.
  destruct (sched_insert _ _) as [|f tr] eqn:E; [done|].
  assert (forall b, tame s (s <| st_qp ::= fun q => q <| qp_sched_time := t |> <| qp_sched_tid := qs_master_tid (st_sched s) |> <| qp_sched_on := true |> |>
      <| st_sched := {| qs_wakeup_time := se_time f; qs_master_tid := u64 (qs_master_tid (st_sched s) + 1); qs_tree := f :: tr |} |>
      <| st_qp_schedule_flag := b |>)) as H.
  { intros b. unfold tame. split_and!; try done.
    change (sched_erase (qp_id (st_qp s)) (f :: tr) = sched_erase (qp_id (st_qp s)) (qs_tree (st_sched s))). rewrite <- E.
    exact (erase_insert {| se_time := t; se_tid := qs_master_tid (st_sched s); se_qp := qp_id (st_qp s) |} (qs_tree (st_sched s))). }
  unfold when, modify, ret. simpl. destruct (time_before_eq _ _); intros [= <-]; [apply H|]. specialize (H (st_qp_schedule_flag s)). exact H.
Qed.
Lemma tame_reschedule : obeys tame pib_util_reschedule_qp.
Proof.
  pose proof tame_take_off. pose proof tame_put. unfold pib_util_reschedule_qp, the_qp. obey; auto.
Qed.
Lemma polite_reschedule : obeys polite pib_util_reschedule_qp.
Proof.
  intros s [] s' E. destruct (tame_reschedule s tt s' E) as (T1 & T0 & T2 & T3 & T4 & T5). split; unfold cqs_ok, cq_keys, cq_err; rewrite ?T2, ?T3; try done.
  - intros Hm. destruct (reschedule_spec s Hm) as (s0 & E0 & Hm' & _). congruence.
  - intros _. exists []. by apply overflows_nil.
Qed.
#[local] Hint Resolve polite_reschedule : obeys.

Lemma polite_pib_util_free_recv_wqe : obeys polite pib_util_free_recv_wqe.
Proof. unfold pib_util_free_recv_wqe. handler. Qed.
#[local] Hint Resolve polite_pib_util_free_recv_wqe : obeys.
Lemma polite_flush_send_wqe id : obeys polite (flush_send_wqe id).
Proof. unfold flush_send_wqe. handler. Qed.
#[local] Hint Resolve polite_flush_send_wqe : obeys.
Lemma polite_flush_recv_wqe w : obeys polite (flush_recv_wqe w).
Proof. unfold flush_recv_wqe. handler. Qed.
#[local] Hint Resolve polite_flush_recv_wqe : obeys.
Lemma polite_flush_sends : obeys polite flush_sends.
Proof. unfold flush_sends. handler. Qed.
#[local] Hint Resolve polite_flush_sends : obeys.
Lemma polite_pib_util_flush_qp b : obeys polite (pib_util_flush_qp b).
Proof. unfold pib_util_flush_qp, reset_contig, pib_util_insert_async_qp_event. handler. Qed.
#[local] Hint Resolve polite_pib_util_flush_qp : obeys.
Lemma polite_qp_fatal : obeys polite qp_fatal.
Proof. unfold qp_fatal. handler. Qed.
#[local] Hint Resolve polite_qp_fatal : obeys.
Lemma polite_issue_comm_est : obeys polite issue_comm_est.
Proof. unfold issue_comm_est, pib_util_insert_async_qp_event. handler. Qed.
#[local] Hint Resolve polite_issue_comm_est : obeys.
Lemma polite_consume_recv_wqe : obeys polite consume_recv_wqe.
Proof. unfold consume_recv_wqe. handler. Qed.
#[local] Hint Resolve polite_consume_recv_wqe : obeys.
Lemma polite_abort_active_rwqe : obeys polite abort_active_rwqe.
Proof. unfold abort_active_rwqe. handler. Qed.
#[local] Hint Resolve polite_abort_active_rwqe : obeys.
Lemma polite_qp_to_error : obeys polite qp_to_error.
Proof. unfold qp_to_error. handler. Qed.
#[local] Hint Resolve polite_qp_to_error : obeys.
Lemma polite_insert_async_qp_error ev : obeys polite (insert_async_qp_error ev).
Proof. unfold insert_async_qp_error. handler. Qed.
#[local] Hint Resolve polite_insert_async_qp_error : obeys.
Lemma polite_push_acknowledge psn syn : obeys polite (push_acknowledge psn syn).
Proof. unfold push_acknowledge. handler. Qed.
#[local] Hint Resolve polite_push_acknowledge : obeys.
Lemma polite_remove_overlapped_rdma_read_acknowledge psn e : obeys polite (remove_overlapped_rdma_read_acknowledge psn e).
Proof. unfold remove_overlapped_rdma_read_acknowledge. handler. Qed.
#[local] Hint Resolve polite_remove_overlapped_rdma_read_acknowledge : obeys.
Lemma polite_push_rdma_read_acknowledge psn e v k z : obeys polite (push_rdma_read_acknowledge psn e v k z).
Proof. unfold push_rdma_read_acknowledge. handler. Qed.
#[local] Hint Resolve polite_push_rdma_read_acknowledge : obeys.
Lemma polite_push_atomic_acknowledge psn v : obeys polite (push_atomic_acknowledge psn v).
Proof. unfold push_atomic_acknowledge. handler. Qed.
#[local] Hint Resolve polite_push_atomic_acknowledge : obeys.
Lemma polite_nak_and_error psn syn ev : obeys polite (nak_and_error psn syn ev).
Proof. unfold nak_and_error. handler. Qed.
#[local] Hint Resolve polite_nak_and_error : obeys.
Lemma polite_nak_invalid_request psn : obeys polite (nak_invalid_request psn).
Proof. unfold nak_invalid_request. handler. Qed.
#[local] Hint Resolve polite_nak_invalid_request : obeys.
Lemma polite_resources_not_ready psn : obeys polite (resources_not_ready psn).
Proof. unfold resources_not_ready. handler. Qed.
#[local] Hint Resolve polite_resources_not_ready : obeys.
Lemma get_srq_no_work srq : works_of (fst (pib_util_get_srq srq)).2 = [].
Proof. unfold pib_util_get_srq. case_bool_decide; [done|]. destruct (srq_recv_wqe_head srq); [done|]. by destruct (_ && _). Qed.
Lemma polite_take_srq : obeys polite take_srq.
Proof.
  unfold take_srq. prims. apply obeys_bind; [exact _|obey|intros q]. destruct (i_srq (qp_init_attr q)) as [n|]; [|handler].
  apply obeys_bind; [exact _|obey|intros srqs]. apply obeys_bind; [exact _|obey|intros srq]. pose proof (get_srq_no_work srq) as Hw.
  destruct (pib_util_get_srq srq) as [[w ev] srq']. pose proof (polite_emit_none ev Hw). handler.
Qed.
#[local] Hint Resolve polite_take_srq : obeys.
Lemma polite_send_completion_error psn w status nak : obeys polite (send_completion_error psn w status nak).
Proof. unfold send_completion_error. handler. Qed.
#[local] Hint Resolve polite_send_completion_error : obeys.
Lemma polite_copy_to_sgl sges b o n : obeys polite (copy_to_sgl sges b o n).
Proof. unfold copy_to_sgl. handler. Qed.
#[local] Hint Resolve polite_copy_to_sgl : obeys.
Lemma polite_deliver_recv bth w op slid ex flags : obeys polite (deliver_recv bth w op slid ex flags).
Proof. unfold deliver_recv. handler. Qed.
#[local] Hint Resolve polite_deliver_recv : obeys.
Lemma polite_receive_SEND_payload psn sh lrh bth i k b w : obeys polite (receive_SEND_payload psn sh lrh bth i k b w).
Proof. unfold receive_SEND_payload. handler. Qed.
#[local] Hint Resolve polite_receive_SEND_payload : obeys.
Lemma polite_receive_SEND_request psn op lrh bth b : obeys polite (receive_SEND_request psn op lrh bth b).
Proof. unfold receive_SEND_request. handler. Qed.
#[local] Hint Resolve polite_receive_SEND_request : obeys.
Lemma polite_write_error psn i w status : obeys polite (write_error psn i w status).
Proof. unfold write_error. handler. Qed.
#[local] Hint Resolve polite_write_error : obeys.
Lemma polite_copy_to_rkey k b a n f : obeys polite (copy_to_rkey k b a n f).
Proof. unfold copy_to_rkey. handler. Qed.
#[local] Hint Resolve polite_copy_to_rkey : obeys.
Lemma polite_receive_RDMA_WRITE_payload psn sh lrh bth i w b : obeys polite (receive_RDMA_WRITE_payload psn sh lrh bth i w b).
Proof. unfold receive_RDMA_WRITE_payload. handler. Qed.
#[local] Hint Resolve polite_receive_RDMA_WRITE_payload : obeys.
Lemma polite_receive_RDMA_WRITE_request psn op lrh bth b : obeys polite (receive_RDMA_WRITE_request psn op lrh bth b).
Proof. unfold receive_RDMA_WRITE_request. handler. Qed.
#[local] Hint Resolve polite_receive_RDMA_WRITE_request : obeys.
Lemma polite_push_slot slot : obeys polite (push_slot slot).
Proof. unfold push_slot. handler. Qed.
#[local] Hint Resolve polite_push_slot : obeys.
Lemma polite_receive_Atomic_request psn op b : obeys polite (receive_Atomic_request psn op b).
Proof. unfold receive_Atomic_request. handler. Qed.
#[local] Hint Resolve polite_receive_Atomic_request : obeys.
Lemma polite_queue_rdma_read psn e reth n : obeys polite (queue_rdma_read psn e reth n).
Proof. unfold queue_rdma_read, too_many_rdma_read. handler. Qed.
#[local] Hint Resolve polite_queue_rdma_read : obeys.
Lemma polite_receive_RDMA_READ_request psn b r : obeys polite (receive_RDMA_READ_request psn b r).
Proof. unfold receive_RDMA_READ_request, too_many_rdma_read. handler. Qed.
#[local] Hint Resolve polite_receive_RDMA_READ_request : obeys.
Lemma polite_receive_duplicate psn op b : obeys polite (receive_duplicate psn op b).
Proof. unfold receive_duplicate. handler. Qed.
#[local] Hint Resolve polite_receive_duplicate : obeys.
Lemma polite_execute_request psn op lrh bth b : obeys polite (execute_request psn op lrh bth b).
Proof. unfold execute_request. handler. Qed.
#[local] Hint Resolve polite_execute_request : obeys.
Lemma polite_receive_request lrh bth b : obeys polite (receive_request lrh bth b).
Proof. unfold receive_request. handler. Qed.
#[local] Hint Resolve polite_receive_request : obeys.
Lemma polite_pib_fill_grh p g : obeys polite (pib_fill_grh p g).
Proof. unfold pib_fill_grh. handler. Qed.
#[local] Hint Resolve polite_pib_fill_grh : obeys.
Lemma polite_put_hdrs h : obeys polite (put_hdrs h).
Proof. unfold put_hdrs, put_at. handler. Qed.
#[local] Hint Resolve polite_put_hdrs : obeys.
Lemma polite_put_at p b : obeys polite (put_at p b).
Proof. unfold put_at. handler. Qed.
#[local] Hint Resolve polite_put_at : obeys.
Lemma polite_start_packet c psn : obeys polite (start_packet c psn).
Proof. unfold start_packet. handler. Qed.
#[local] Hint Resolve polite_start_packet : obeys.
Lemma polite_ready_to_send id : obeys polite (ready_to_send id).
Proof. unfold ready_to_send. handler. Qed.
#[local] Hint Resolve polite_ready_to_send : obeys.
Lemma polite_finish_packet h n b : obeys polite (finish_packet h n b).
Proof. unfold finish_packet. handler. Qed.
#[local] Hint Resolve polite_finish_packet : obeys.
Lemma polite_pack_acknowledge_packet op psn b1 s b2 r : obeys polite (pack_acknowledge_packet op psn b1 s b2 r).
Proof. unfold pack_acknowledge_packet. handler. Qed.
#[local] Hint Resolve polite_pack_acknowledge_packet : obeys.
Lemma polite_generate_Normal_or_Atomic_acknowledge a : obeys polite (generate_Normal_or_Atomic_acknowledge a).
Proof. unfold generate_Normal_or_Atomic_acknowledge. handler. Qed.
#[local] Hint Resolve polite_generate_Normal_or_Atomic_acknowledge : obeys.
Lemma polite_generate_RDMA_READ_response a : obeys polite (generate_RDMA_READ_response a).
Proof. unfold generate_RDMA_READ_response. handler. Qed.
#[local] Hint Resolve polite_generate_RDMA_READ_response : obeys.
Lemma polite_pib_generate_rc_qp_acknowledge : obeys polite pib_generate_rc_qp_acknowledge.
Proof. unfold pib_generate_rc_qp_acknowledge, pop_ack. handler. Qed.
#[local] Hint Resolve polite_pib_generate_rc_qp_acknowledge : obeys.
Lemma polite_find_swqe psn l : obeys polite (find_swqe psn l).
Proof. induction l as [|id l IH]; simpl; handler. Qed.
#[local] Hint Resolve polite_find_swqe : obeys.
Lemma polite_match_send_wqe psn : obeys polite (match_send_wqe psn).
Proof. unfold match_send_wqe. handler. Qed.
#[local] Hint Resolve polite_match_send_wqe : obeys.
Lemma polite_set_send_wqe_to_error psn status : obeys polite (set_send_wqe_to_error psn status).
Proof. unfold set_send_wqe_to_error. handler. Qed.
#[local] Hint Resolve polite_set_send_wqe_to_error : obeys.
Lemma polite_postpone_local_ack_timeout : obeys polite postpone_local_ack_timeout.
Proof. unfold postpone_local_ack_timeout. handler. Qed.
#[local] Hint Resolve polite_postpone_local_ack_timeout : obeys.
Lemma polite_complete_swqe w op : obeys polite (complete_swqe w op).
Proof. unfold complete_swqe. handler. Qed.
#[local] Hint Resolve polite_complete_swqe : obeys.
Lemma polite_process_acknowledge id psn : obeys polite (process_acknowledge id psn).
Proof. unfold process_acknowledge. handler. Qed.
#[local] Hint Resolve polite_process_acknowledge : obeys.
Lemma polite_unlink_swqe b id : obeys polite (unlink_swqe b id).
Proof. unfold unlink_swqe. handler. Qed.
#[local] Hint Resolve polite_unlink_swqe : obeys.
Lemma polite_ack_loop b psn l : obeys polite (ack_loop b psn l).
Proof. induction l as [|id l IH]; simpl; handler. Qed.
#[local] Hint Resolve polite_ack_loop : obeys.
Lemma polite_ack_error id : obeys polite (ack_error id).
Proof. unfold ack_error. handler. Qed.
#[local] Hint Resolve polite_ack_error : obeys.
Lemma polite_receive_ACK_response psn : obeys polite (receive_ACK_response psn).
Proof. unfold receive_ACK_response. handler. Qed.
#[local] Hint Resolve polite_receive_ACK_response : obeys.
Lemma polite_process_cnp_notify_request id : obeys polite (process_cnp_notify_request id).
Proof. unfold process_cnp_notify_request. handler. Qed.
#[local] Hint Resolve polite_process_cnp_notify_request : obeys.
Lemma polite_finish_rd_atomic id b op : obeys polite (finish_rd_atomic id b op).
Proof. unfold finish_rd_atomic. handler. Qed.
#[local] Hint Resolve polite_finish_rd_atomic : obeys.
Lemma polite_receive_RDMA_READ_response psn b : obeys polite (receive_RDMA_READ_response psn b).
Proof. unfold receive_RDMA_READ_response, set_status. handler. Qed.
#[local] Hint Resolve polite_receive_RDMA_READ_response : obeys.
Lemma polite_receive_Atomic_response psn b : obeys polite (receive_Atomic_response psn b).
Proof. unfold receive_Atomic_response, set_status. handler. Qed.
#[local] Hint Resolve polite_receive_Atomic_response : obeys.
Lemma polite_retry_send t : obeys polite (retry_send t).
Proof. unfold retry_send. handler. Qed.
#[local] Hint Resolve polite_retry_send : obeys.
Lemma polite_dispatch_response op psn b : obeys polite (dispatch_response op psn b).
Proof. unfold dispatch_response, pib_util_insert_async_qp_event. handler. Qed.
#[local] Hint Resolve polite_dispatch_response : obeys.
Lemma polite_receive_response bth b : obeys polite (receive_response bth b).
Proof. unfold receive_response. handler. Qed.
#[local] Hint Resolve polite_receive_response : obeys.
Lemma polite_pib_receive_rc_qp_incoming_message port lrh bth b : obeys polite (pib_receive_rc_qp_incoming_message port lrh bth b).
Proof. unfold pib_receive_rc_qp_incoming_message, receive_cnp_notify. handler. Qed.
#[local] Hint Resolve polite_pib_receive_rc_qp_incoming_message : obeys.
Lemma polite_ud_take_recv : obeys polite ud_take_recv.
Proof.
  unfold ud_take_recv. prims. apply obeys_bind; [exact _|obey|intros q]. destruct (i_srq (qp_init_attr q)) as [n|]; [|handler].
  apply obeys_bind; [exact _|obey|intros srqs]. apply obeys_bind; [exact _|obey|intros srq]. pose proof (get_srq_no_work srq) as Hw.
  destruct (pib_util_get_srq srq) as [[w ev] srq']. pose proof (polite_emit_none ev Hw). handler.
Qed.
#[local] Hint Resolve polite_ud_take_recv : obeys.
Lemma polite_ud_copy w g p : obeys polite (ud_copy w g p).
Proof. unfold ud_copy. handler. Qed.
#[local] Hint Resolve polite_ud_copy : obeys.
Lemma polite_ud_completion_error w status : obeys polite (ud_completion_error w status).
Proof. unfold ud_completion_error. handler. Qed.
#[local] Hint Resolve polite_ud_completion_error : obeys.
Lemma polite_ud_abort_error w : obeys polite (ud_abort_error w).
Proof. unfold ud_abort_error. handler. Qed.
#[local] Hint Resolve polite_ud_abort_error : obeys.
Lemma polite_pib_receive_ud_qp_incoming_message port lrh grh bth b : obeys polite (pib_receive_ud_qp_incoming_message port lrh grh bth b).
Proof. unfold pib_receive_ud_qp_incoming_message, issue_comm_est, pib_util_insert_async_qp_event. handler. Qed.
#[local] Hint Resolve polite_pib_receive_ud_qp_incoming_message : obeys.
Lemma polite_put_payload w p o n : obeys polite (put_payload w p o n).
Proof. unfold put_payload. handler. Qed.
#[local] Hint Resolve polite_put_payload : obeys.
Lemma polite_process_LOCAL_INVALIDATE_request w : obeys polite (process_LOCAL_INVALIDATE_request w).
Proof. unfold process_LOCAL_INVALIDATE_request. handler. Qed.
#[local] Hint Resolve polite_process_LOCAL_INVALIDATE_request : obeys.
Lemma polite_process_FAST_REGISTER_PMR_request w : obeys polite (process_FAST_REGISTER_PMR_request w).
Proof. unfold process_FAST_REGISTER_PMR_request. handler. Qed.
#[local] Hint Resolve polite_process_FAST_REGISTER_PMR_request : obeys.
Lemma polite_pib_process_local_only_request id : obeys polite (pib_process_local_only_request id).
Proof. unfold pib_process_local_only_request. handler. Qed.
#[local] Hint Resolve polite_pib_process_local_only_request : obeys.
Lemma polite_process_SEND_or_RDMA_WRITE_request w h b1 b2 b3 : obeys polite (process_SEND_or_RDMA_WRITE_request w h b1 b2 b3).
Proof. unfold process_SEND_or_RDMA_WRITE_request. handler. Qed.
#[local] Hint Resolve polite_process_SEND_or_RDMA_WRITE_request : obeys.
Lemma polite_build_request w h : obeys polite (build_request w h).
Proof. unfold build_request, process_RDMA_READ_request, process_Atomic_request. handler. Qed.
#[local] Hint Resolve polite_build_request : obeys.
Lemma polite_to_waiting id : obeys polite (to_waiting id).
Proof. unfold to_waiting. handler. Qed.
#[local] Hint Resolve polite_to_waiting : obeys.
Lemma polite_pib_process_rc_qp_request id : obeys polite (pib_process_rc_qp_request id).
Proof. unfold pib_process_rc_qp_request, request_error. handler. Qed.
#[local] Hint Resolve polite_pib_process_rc_qp_request : obeys.
Lemma polite_ud_sent id p sl dl : obeys polite (ud_sent id p sl dl).
Proof. unfold ud_sent. handler. Qed.
#[local] Hint Resolve polite_ud_sent : obeys.
Lemma polite_pib_process_ud_qp_request ahs id : obeys polite (pib_process_ud_qp_request ahs id).
Proof. unfold pib_process_ud_qp_request, ud_request_error. handler. Qed.
#[local] Hint Resolve polite_pib_process_ud_qp_request : obeys.
Lemma polite_process_new_send_wr : obeys polite process_new_send_wr.
Proof. unfold process_new_send_wr. handler. Qed.
#[local] Hint Resolve polite_process_new_send_wr : obeys.
Lemma polite_send_wr_error id status : obeys polite (send_wr_error id status).
Proof. unfold send_wr_error. handler. Qed.
#[local] Hint Resolve polite_send_wr_error : obeys.
Lemma polite_process_send_wr ahs id : obeys polite (process_send_wr ahs id).
Proof. unfold process_send_wr. handler. Qed.
#[local] Hint Resolve polite_process_send_wr : obeys.
Lemma polite_local_only_done id : obeys polite (local_only_done id).
Proof. unfold local_only_done. handler. Qed.
#[local] Hint Resolve polite_local_only_done : obeys.
Lemma polite_retry_waiting id : obeys polite (retry_waiting id).
Proof. unfold retry_waiting, requeue. handler. Qed.
#[local] Hint Resolve polite_retry_waiting : obeys.
Lemma polite_after_send id : obeys polite (after_send id).
Proof. unfold after_send. handler. Qed.
#[local] Hint Resolve polite_after_send : obeys.
Lemma polite_send_first ahs : obeys polite (send_first ahs).
Proof. unfold send_first. handler. Qed.
#[local] Hint Resolve polite_send_first : obeys.
Lemma polite_first_sending_wsqe ahs : obeys polite (first_sending_wsqe ahs).
Proof. unfold first_sending_wsqe. handler. Qed.
#[local] Hint Resolve polite_first_sending_wsqe : obeys.
Lemma polite_requester_pass ahs : obeys polite (requester_pass ahs).
Proof. unfold requester_pass. handler. Qed.
#[local] Hint Resolve polite_requester_pass : obeys.
Lemma polite_process_on_qp_scheduler ahs : obeys polite (process_on_qp_scheduler ahs).
Proof. unfold process_on_qp_scheduler. handler. Qed.
#[local] Hint Resolve polite_process_on_qp_scheduler : obeys.
End Frame.
