(* ===== verification/HcaThm.v ===== *)
(** * The HCA: theorems

    What one queue pair does to the device: the other queue pairs and their
    invariants are untouched, an overflow handler is queued at most once.  The
    asynchronous error of a completion queue stops exactly the queue pairs that use
    it.  The work queue is executed to its end. *)

From S2P Require Import Prelude Verbs Lib ObjNum Cq Srq Mr State Demo Sched Qp QpInv QpThm RcInv Hca Frame.

(** ** The invariant of the device *)

Definition works (h : hca) : list pib_work := hc_wq h ++ (hc_timers h).*1.

(** Every queue pair is well formed where it would be loaded, the list dev->qp_head
    holds queue pairs, each once, a completion queue is stored under its number, no
    work item is queued twice, and a completion queue whose handler is queued is in
    error. *)
Record hca_inv (h : hca) : Prop := {
  hi_qps : forall i q, hc_qps h !! i = Some q ->
    qp_id q = i /\ exists pd ids, hc_pds h !! qp_pd q = Some pd /\ qp_wf ids (load h q pd);
  hi_head : forall i, i ∈ hc_qp_head h -> is_Some (hc_qps h !! i);
  hi_nodup : NoDup (hc_qp_head h);
  hi_keys : cq_keys (hc_st h);
  hi_works : NoDup (works h);
  hi_err : forall c, WorkCq c ∈ works h -> cq_err (hc_st h) c
}.

(** The parts of a loaded state that belong to the device. *)
Lemma wf_load ids h h' q pd pd' : (forall c, is_Some (st_cqs (hc_st h) !! c) -> is_Some (st_cqs (hc_st h') !! c)) ->
  (forall n, is_Some (st_srqs (hc_st h) !! n) -> is_Some (st_srqs (hc_st h') !! n)) ->
  cqs_ok (hc_st h') -> NoDup (se_qp <$> qs_tree (st_sched (hc_st h'))) ->
  (qp_id q ∈ se_qp <$> qs_tree (st_sched (hc_st h')) <-> qp_id q ∈ se_qp <$> qs_tree (st_sched (hc_st h))) ->
  qp_wf ids (load h q pd) -> qp_wf ids (load h' q pd').
Proof.
  intros Hc Hs Hok Hn Hm [(E1 & E2 & E3 & E4 & [E5 E6] & E7) W2 W3 W4]. split; [|done..]. unfold qp_env, sched_member. simpl in *.
  rewrite Hm. split_and!; auto; try lia. revert E4. destruct (i_srq (qp_init_attr q)); auto.
Qed.

Section HcaThm.
Context {PP : Params}.

(** ** Queueing work *)

Lemma queue_all ws : forall h, NoDup ws -> (forall w, w ∈ ws -> w ∉ works h) ->
  for_each pib_queue_work ws h = Some (tt, h <| hc_wq ::= fun l => l ++ ws |>
    <| hc_wq_schedule := (match ws with [] => hc_wq_schedule h | _ => true end) |>).
Proof.
  induction ws as [|w ws IH]; intros h Hn Hd.
  - destruct h. simpl. unfold ret. by rewrite app_nil_r.
  - apply NoDup_cons in Hn as [Hw Hn]. simpl. unfold bind at 1, pib_queue_work. unfold bind, get. simpl.
    unfold on_list. rewrite bool_decide_eq_false_2 by (apply Hd; by left). simpl. unfold modify. rewrite IH; [|done|].
    + destruct h. simpl. rewrite <- app_assoc. by destruct ws.
    + intros k Hk. unfold works in *. simpl. rewrite !elem_of_app, list_elem_of_singleton.
      assert (k ∉ hc_wq h ++ (hc_timers h).*1) as Hk' by (apply Hd; by right). rewrite elem_of_app in Hk'. intros [[?| ->]|?]; tauto.
Qed.

(** The device after a handler on the QP [i] ended in [s]. *)
Definition stored (i pdn : Z) (s : st) (h : hca) : hca :=
  h <| hc_st := s <| st_events ::= app (st_events (hc_st h)) |> |> <| hc_qps ::= <[i := st_qp s]> |> <| hc_pds ::= <[pdn := st_pd s]> |>
    <| hc_wq ::= fun l => l ++ works_of (st_events s) |>
    <| hc_wq_schedule := (match works_of (st_events s) with [] => hc_wq_schedule h | _ => true end) |>.

Lemma erase_elem i j t : j <> i -> j ∈ se_qp <$> sched_erase i t <-> j ∈ se_qp <$> t.
Proof. intros Hne. rewrite sched_erase_qps, elem_of_filter_neq. naive_solver. Qed.

(** What a handler on the QP [i] leaves to the others. *)
Definition others_kept (i : Z) (h h' : hca) : Prop :=
  (forall j, j <> i -> hc_qps h' !! j = hc_qps h !! j)
  /\ (forall j q pd pd' ids, j <> i -> hc_qps h !! j = Some q -> qp_wf ids (load h q pd) -> qp_wf ids (load h' q pd'))
  /\ cq_keys (hc_st h') /\ NoDup (works h') /\ (forall c, WorkCq c ∈ works h' -> cq_err (hc_st h') c)
  /\ hc_qp_head h' = hc_qp_head h /\ hc_ports h' = hc_ports h /\ hc_mcast h' = hc_mcast h /\ hc_lock h' = hc_lock h /\ hc_timers h' = hc_timers h.

Lemma stored_others h i q pd s : hca_inv h -> hc_qps h !! i = Some q -> hc_pds h !! qp_pd q = Some pd -> polite (load h q pd) s ->
  others_kept i h (stored i (qp_pd q) s h) /\ (forall w, w ∈ works_of (st_events s) -> w ∉ works h) /\ NoDup (works_of (st_events s)).
Proof.
  intros Hi Hq Hpd Hpol. destruct (hi_qps _ Hi i q Hq) as (Hqi & pd0 & ids & Hpd0 & Hwf).
  assert (pd0 = pd) as -> by congruence. pose proof (wfo_env _ _ _ Hwf) as Henv.
  destruct (po_works _ _ Hpol (hi_keys _ Hi)) as (evs & Eev & Nev & Wev). simpl in Eev. subst evs.
  assert (Hnew : forall w, w ∈ works_of (st_events s) -> w ∉ works h).
  { intros w Hw Hin. destruct (Wev w Hw) as (c & -> & Hno & _). by apply Hno, (hi_err _ Hi). }
  split; [|done]. split; [intros j Hj; by apply lookup_insert_ne|].
  split; [|split; [apply (po_keys _ _ Hpol), (hi_keys _ Hi)|split; [|split; [|done]]]].
  - intros j qj pdj pd' idsj Hne Hj Hwfj. destruct (hi_qps _ Hi j qj Hj) as [Hjid _]. eapply wf_load; [..|exact Hwfj].
    + intros c Hc. by apply (po_cqs _ _ Hpol).
    + apply (po_srqs _ _ Hpol).
    + apply (po_inv _ _ Hpol). apply Henv.
    + apply (po_member _ _ Hpol). apply Henv.
    + rewrite Hjid. pose proof (po_tree _ _ Hpol) as Ht. simpl in Ht. rewrite Hqi in Ht.
      change (qs_tree (st_sched (hc_st (stored i (qp_pd q) s h)))) with (qs_tree (st_sched s)).
      rewrite <- (erase_elem i j (qs_tree (st_sched s))), Ht, (erase_elem i j) by done. done.
  - pose proof (hi_works _ Hi) as Hn. unfold works in *. simpl. rewrite <- app_assoc, (Permutation_app_comm (works_of _)), app_assoc.
    apply NoDup_app. split_and!; [done| |done]. intros w Hw1 Hw2. by apply (Hnew w).
  - intros c. unfold works. simpl. rewrite !elem_of_app. intros [[Hc|Hc]|Hc].
    + apply (po_err _ _ Hpol), (hi_err _ Hi c). unfold works. rewrite elem_of_app. by left.
    + destruct (Wev _ Hc) as (c' & [= <-] & _ & H). exact H.
    + apply (po_err _ _ Hpol), (hi_err _ Hi c). unfold works. rewrite elem_of_app. by right.
Qed.

(** The device's invariant, when the handler keeps the one of its own QP. *)
Lemma stored_inv h i q pd s ids : hca_inv h -> hc_qps h !! i = Some q -> hc_pds h !! qp_pd q = Some pd ->
  polite (load h q pd) s -> qp_wf ids s -> hca_inv (stored i (qp_pd q) s h).
Proof.
  intros Hi Hq Hpd Hpol Hwf. destruct (stored_others h i q pd s Hi Hq Hpd Hpol) as [(_ & O2 & O3 & O4 & O5 & _) _].
  destruct (hi_qps _ Hi i q Hq) as [Hqi _]. split; [| |exact (hi_nodup _ Hi)|done|done|done].
  - intros j qj Hj. change (<[i := st_qp s]> (hc_qps h) !! j = Some qj) in Hj.
    change (hc_pds (stored i (qp_pd q) s h)) with (<[qp_pd q := st_pd s]> (hc_pds h)). destruct (decide (i = j)) as [<-|Hne].
    + rewrite lookup_insert_eq in Hj. injection Hj as <-. split; [by rewrite (po_id _ _ Hpol)|]. exists (st_pd s), ids. rewrite (po_pd _ _ Hpol). simpl.
      rewrite lookup_insert_eq. split; [done|]. destruct Hwf as [W1 W2 W3 W4]. by split.
    + rewrite lookup_insert_ne in Hj by done. destruct (hi_qps _ Hi j qj Hj) as (Hjid & pdj & idsj & Hpdj & Hwfj). split; [done|].
      assert (is_Some (<[qp_pd q := st_pd s]> (hc_pds h) !! qp_pd qj)) as [pd' Hpd'].
      { destruct (decide (qp_pd q = qp_pd qj)) as [->|]; [rewrite lookup_insert_eq; by eexists|rewrite lookup_insert_ne by done; by eexists]. }
      exists pd', idsj. split; [exact Hpd'|]. eapply (O2 j); [by intros ->|exact Hj|exact Hwfj].
  - intros j Hj. simpl. destruct (decide (i = j)) as [<-|Hne]; [rewrite lookup_insert_eq; by eexists|rewrite lookup_insert_ne by done; by apply (hi_head _ Hi)].
Qed.

(** Running a handler on a QP. *)
Lemma with_qp_run {A} i (m : M st A) h q pd a s : hca_inv h -> hc_qps h !! i = Some q -> hc_pds h !! qp_pd q = Some pd ->
  obeys polite m -> m (load h q pd) = Some (a, s) -> with_qp i m h = Some (a, stored i (qp_pd q) s h).
Proof.
  intros Hi Hq Hpd Hm E. destruct (stored_others h i q pd s Hi Hq Hpd (Hm _ _ _ E)) as (_ & Hnew & Hnd).
  unfold with_qp. erewrite (bind_run get) by reflexivity. rewrite Hq. erewrite (bind_run (of_option _)) by reflexivity. rewrite Hpd.
  erewrite (bind_run (of_option _)) by reflexivity. rewrite E. erewrite (bind_run (of_option _)) by reflexivity. cbv beta iota.
  erewrite (bind_run (modify _)) by reflexivity. erewrite bind_run by (apply queue_all; [exact Hnd|exact Hnew]). reflexivity.
Qed.

(** ** Stopping a queue pair *)

(** [q'] is [q] stopped: in error, with nothing left to do. *)
Definition stopped (q q' : pib_qp) : Prop :=
  qp_state q' = IB_QPS_ERR /\ outstanding (qp_requester q') = [] /\ rs_recv_wqes (qp_responder q') = [] /\ rs_acks (qp_responder q') = []
  /\ qp_num q' = qp_num q /\ qp_type q' = qp_type q /\ qp_attr q' = qp_attr q /\ qp_init_attr q' = qp_init_attr q
  /\ qp_send_cq q' = qp_send_cq q /\ qp_recv_cq q' = qp_recv_cq q.

Lemma thread_fatal : keeps (fun s => (st_thread s, qp_event_handler (st_qp s))) qp_fatal.
Proof.
  unfold qp_fatal, pib_util_flush_qp, flush_sends, flush_send_wqe, flush_recv_wqe, reset_contig, pib_util_insert_async_qp_event,
    pib_util_insert_async_qp_error, pib_util_free_recv_wqe, qp_insert_wc_error, with_cq, emit, get_swqe, the_qp, the_req, the_rsp,
    swqe_list_del, pib_util_free_send_wqe, pib_util_reschedule_qp, sched_take_off, sched_put, upd_rsp, upd_req, upd_qp, the_qp. obey.
Qed.

(** Stopping a queue pair leaves memory, the ports and the packet under construction
    alone, and reports the error if the application wants to know. *)
Definition fatal_result (ids : list Z) (s s' : st) : Prop :=
  qp_wf ids s' /\ stopped (st_qp s) (st_qp s') /\ st_mem s' = st_mem s /\ st_ports s' = st_ports s /\ st_thread s' = st_thread s
  /\ st_now s' = st_now s
  /\ (qp_event_handler (st_qp s) = true -> EvQp (qp_num (st_qp s)) IB_EVENT_QP_FATAL ∈ st_events s').

Lemma qp_fatal_run ids s : qp_wf ids s -> exists s', qp_fatal s = Some (tt, s') /\ fatal_result ids s s'.
Proof.
  intros Hwf. assert (wp qp_fatal (fun _ s' => fatal_result ids s s') s) as H.
  2:{ unfold wp in H. destruct (qp_fatal s) as [[[] s']|]; [by exists s'|done]. }
  apply (wp_with (same (fun s => (st_thread s, qp_event_handler (st_qp s))))); [apply thread_fatal|].
  unfold qp_fatal, upd_qp. do 3 wp_step. set (s1 := set_field st_qp _ s).
  apply wp_frame; [apply fixed_flush|apply side_flush|].
  apply (wp_flush_qp ids); [by apply (qp_wf_state ids s)|]. intros s2 (R1 & R2 & _ & _ & R5 & _ & R7 & _ & R9 & R10 & R11 & _) Hfix _.
  destruct (R5 eq_refl) as [R5a R5b]. unfold fixed in Hfix. injection Hfix as.
  unfold pib_util_insert_async_qp_error, the_qp, emit. do 2 wp_step. wp_step.
  - wp_step. intros Hsame. injection Hsame as Ht He. split; [by apply wf_events|]. simpl. split; [unfold stopped; split_and!; by rewrite R7 || congruence|].
    split_and!; try done. intros _. apply elem_of_app. right. apply list_elem_of_singleton. f_equal. congruence.
  - intros Hsame. injection Hsame as Ht He. split; [done|]. split; [unfold stopped; split_and!; by rewrite R7 || congruence|]. split_and!; try done.
    intros Hev. congruence.
Qed.

(** What stopping queue pairs leaves alone in the device; the work items added are
    overflow handlers of completion queues that went into error. *)
Definition only_stops (h h' : hca) : Prop :=
  hc_qp_head h' = hc_qp_head h /\ hc_ports h' = hc_ports h /\ hc_lock h' = hc_lock h /\ hc_timers h' = hc_timers h
  /\ st_mem (hc_st h') = st_mem (hc_st h) /\ st_thread (hc_st h') = st_thread (hc_st h) /\ st_ports (hc_st h') = st_ports (hc_st h)
  /\ st_now (hc_st h') = st_now (hc_st h) /\ hc_results h' = hc_results h /\ hc_inject h' = hc_inject h
  /\ (forall c, is_Some (st_cqs (hc_st h) !! c) <-> is_Some (st_cqs (hc_st h') !! c))
  /\ (forall n, is_Some (st_srqs (hc_st h) !! n) -> is_Some (st_srqs (hc_st h') !! n))
  /\ (forall c, cq_err (hc_st h) c -> cq_err (hc_st h') c)
  /\ (forall i, is_Some (hc_qps h !! i) <-> is_Some (hc_qps h' !! i))
  /\ exists ws, hc_wq h' = hc_wq h ++ ws /\ forall w, w ∈ ws -> exists c, w = WorkCq c /\ ~ cq_err (hc_st h) c /\ cq_err (hc_st h') c.

#[export] Instance only_stops_preorder : PreOrder only_stops.
Proof.
  split.
  - intros h. unfold only_stops. split_and!; try done. exists []. split; [by rewrite app_nil_r|]. by intros w ?%elem_of_nil.
  - intros h1 h2 h3 (A1 & A2 & A3 & A4 & A5 & A6 & A7 & A8 & A9 & A0 & A10 & A11 & A12 & A13 & ws & A14 & A15)
      (B1 & B2 & B3 & B4 & B5 & B6 & B7 & B8 & B9 & B0 & B10 & B11 & B12 & B13 & ws' & B14 & B15).
    unfold only_stops. split_and!; try congruence; auto; try (intros c; by rewrite ?A10, ?A13). exists (ws ++ ws'). split; [by rewrite B14, A14, app_assoc|].
    intros w [Hw|Hw]%elem_of_app; [destruct (A15 w Hw) as (c & -> & H1 & H2)|destruct (B15 w Hw) as (c & -> & H1 & H2)]; exists c;
      (split; [done|]); (split; [intros ?|]); auto.
Qed.

Lemma stored_stops h i q pd s ids : hca_inv h -> hc_qps h !! i = Some q -> polite (load h q pd) s -> fatal_result ids (load h q pd) s ->
  only_stops h (stored i (qp_pd q) s h).
Proof.
  intros Hi Hq Hpol (_ & _ & Hm & Hp & Ht & Hnow & _). pose proof (po_works _ _ Hpol (hi_keys _ Hi)) as (evs & Eev & Nev & Wev). simpl in Eev. subst evs.
  unfold only_stops. simpl. split_and!; try done.
  - apply (po_cqs _ _ Hpol).
  - apply (po_srqs _ _ Hpol).
  - apply (po_err _ _ Hpol).
  - intros k. destruct (decide (i = k)) as [->|Hne]; [rewrite lookup_insert_eq, Hq; split; by eexists|by rewrite lookup_insert_ne].
  - exists (works_of (st_events s)). split; [done|exact Wev].
Qed.

(** One QP is stopped. *)
Lemma fatal_dev h i q : hca_inv h -> hc_qps h !! i = Some q ->
  exists h' q', with_qp i qp_fatal h = Some (tt, h') /\ hca_inv h' /\ only_stops h h' /\ hc_qps h' = <[i := q']> (hc_qps h) /\ stopped q q'
  /\ (qp_event_handler q = true -> EvQp (qp_num q) IB_EVENT_QP_FATAL ∈ st_events (hc_st h')).
Proof.
  intros Hi Hq. destruct (hi_qps _ Hi i q Hq) as (Hid & pd & ids & Hpd & Hwf). destruct (qp_fatal_run ids _ Hwf) as (s & E & Hf).
  pose proof polite_qp_fatal as Hpol. pose proof (with_qp_run i qp_fatal h q pd tt s Hi Hq Hpd Hpol E) as Hrun.
  pose proof (stored_inv h i q pd s ids Hi Hq Hpd (Hpol _ _ _ E) (proj1 Hf)) as Hinv.
  eexists _, (st_qp s). split; [exact Hrun|]. split; [exact Hinv|]. split.
  { eapply (stored_stops h i q pd s ids); [done|done|exact (Hpol _ _ _ E)|done]. }
  split; [done|]. destruct Hf as (_ & Hs & _ & _ & _ & _ & Hev). split; [exact Hs|]. intros Hh. simpl. apply elem_of_app. right. by apply Hev.
Qed.

(** What the loop over dev->qp_head does to the queue pair [q]. *)
Definition after_failure (uses : pib_qp -> bool) (q q' : pib_qp) : Prop := if uses q then stopped q q' else q' = q.

Lemma fail_loop uses l : forall h, hca_inv h -> NoDup l -> (forall i, i ∈ l -> is_Some (hc_qps h !! i)) ->
  exists h', for_each (fun i => let! h := get in let! q := of_option (hc_qps h !! i) in when (uses q) (with_qp i qp_fatal)) l h = Some (tt, h')
  /\ hca_inv h' /\ only_stops h h'
  /\ forall i q, hc_qps h !! i = Some q -> exists q', hc_qps h' !! i = Some q' /\ if decide (i ∈ l) then after_failure uses q q' else q' = q.
Proof.
  induction l as [|i l IH]; intros h Hi Hn Hl.
  - exists h. split; [done|]. split; [done|]. split; [done|]. intros i q Hq. exists q. split; [done|].
    rewrite decide_False by apply not_elem_of_nil. done.
  - apply NoDup_cons in Hn as [Hni Hn]. destruct (Hl i ltac:(by left)) as [q Hq]. simpl.
    assert (exists h1, (let! h := get in let! q := of_option (hc_qps h !! i) in when (uses q) (with_qp i qp_fatal)) h = Some (tt, h1)
      /\ hca_inv h1 /\ only_stops h h1 /\ exists q', hc_qps h1 = <[i := q']> (hc_qps h) /\ after_failure uses q q') as (h1 & E1 & Hi1 & Ho1 & q' & Hq1 & Hs1).
    { erewrite (bind_run get) by reflexivity. rewrite Hq. erewrite (bind_run (of_option _)) by reflexivity. unfold after_failure, when.
      destruct (uses q).
      - destruct (fatal_dev h i q Hi Hq) as (h1 & q' & E & H1 & H2 & H3 & H4 & _). exists h1. split_and!; try done. by exists q'.
      - exists h. split_and!; try done. exists q. split; [by rewrite insert_id|done]. }
    destruct (IH h1 Hi1 Hn) as (h' & E2 & Hi2 & Ho2 & Hq2).
    { intros k Hk. rewrite Hq1. destruct (decide (i = k)) as [->|Hne]; [rewrite lookup_insert_eq; by eexists|]. rewrite lookup_insert_ne by done. apply Hl. by right. }
    exists h'. split; [by rewrite (bind_run _ _ _ _ _ E1)|]. split; [done|]. split; [by etransitivity|]. intros k qk Hk.
    destruct (decide (i = k)) as [<-|Hne].
    + assert (qk = q) as -> by congruence. destruct (Hq2 i q') as (q2 & Hq2' & Hd); [by rewrite Hq1, lookup_insert_eq|]. exists q2.
      rewrite decide_False in Hd by done. subst. split; [done|]. rewrite decide_True by by left. done.
    + destruct (Hq2 k qk) as (q2 & Hq2' & Hd); [by rewrite Hq1, lookup_insert_ne|]. exists q2. split; [done|].
      by rewrite (decide_ext (k ∈ i :: l) (k ∈ l)) by (rewrite elem_of_cons; naive_solver).
Qed.

(** ** Asynchronous errors *)

(** The device after one of its queues changed and [evs] were raised. *)
Definition set_st (s : st) (h : hca) : hca := h <| hc_st := s |>.

Lemma set_st_inv s h : hca_inv h -> st_sched s = st_sched (hc_st h) ->
  (forall c, is_Some (st_cqs (hc_st h) !! c) -> is_Some (st_cqs s !! c)) -> (forall n, is_Some (st_srqs (hc_st h) !! n) -> is_Some (st_srqs s !! n)) ->
  (cqs_ok (hc_st h) -> cqs_ok s) -> cq_keys s -> (forall c, cq_err (hc_st h) c -> cq_err s c) -> hca_inv (set_st s h).
Proof.
  intros [I1 I2 I3 I4 I5 I6] Hsch Hc Hs Hok Hk He. split; try done.
  - intros i q Hq. destruct (I1 i q Hq) as (Hid & pd & ids & Hpd & Hwf). split; [done|]. exists pd, ids. split; [done|].
    pose proof (wfo_env _ _ _ Hwf) as (E1 & _ & _ & _ & [E5 _] & _). eapply wf_load; [..|exact Hwf]; simpl; auto; by rewrite Hsch.
  - intros c Hin. apply He, I6, Hin.
Qed.

Definition cq_failed (c : Z) (cq : pib_cq) (s : st) : st :=
  s <| st_cqs ::= <[c := cq <| cq_state := PIB_STATE_ERR |>]> |> <| st_events ::= fun l => l ++ [EvCq (cq_num cq) IB_EVENT_CQ_ERR] |>.
Definition srq_failed (n : Z) (srq : pib_srq) (s : st) : st :=
  s <| st_srqs ::= <[n := srq <| srq_state := PIB_STATE_ERR |>]> |> <| st_events ::= fun l => l ++ [EvSrq (srq_num srq) IB_EVENT_SRQ_ERR] |>.

Lemma insert_some {A} (m : gmap Z A) k x j : is_Some (m !! j) -> is_Some (<[k := x]> m !! j).
Proof. intros H. destruct (decide (k = j)) as [->|]; [rewrite lookup_insert_eq; by eexists|by rewrite lookup_insert_ne]. Qed.

Lemma insert_some_iff {A} (m : gmap Z A) k x y j : m !! k = Some y -> is_Some (m !! j) <-> is_Some (<[k := x]> m !! j).
Proof.
  intros Hk. split; [apply insert_some|]. destruct (decide (k = j)) as [->|]; [intros _; by eexists|by rewrite lookup_insert_ne].
Qed.

Lemma cq_failed_inv h c cq : hca_inv h -> st_cqs (hc_st h) !! c = Some cq ->
  let h' := set_st (cq_failed c cq (hc_st h)) h in hca_inv h' /\ only_stops h h' /\ cq_err (hc_st h') c.
Proof.
  intros Hi Hc h'. assert (forall k, cq_err (hc_st h) k -> cq_err (hc_st h') k) as Hmono.
  { intros k (cq0 & H0 & He). unfold cq_err. simpl. destruct (decide (c = k)) as [->|Hne]; [rewrite lookup_insert_eq; by eexists|].
    rewrite lookup_insert_ne by done. by exists cq0. }
  split; [|split].
  - apply set_st_inv; [done|done| | | | |done]; simpl.
    + intros k. apply insert_some.
    + done.
    + intros Hok. apply map_Forall_insert_2; [exact (Hok _ _ Hc)|done].
    + apply map_Forall_insert_2; [exact (hi_keys _ Hi _ _ Hc)|exact (hi_keys _ Hi)].
  - unfold only_stops. split_and!; try done; simpl.
    + intros k. by eapply insert_some_iff.
    + exists []. split; [by rewrite app_nil_r|]. by intros w ?%elem_of_nil.
  - eexists. simpl. rewrite lookup_insert_eq. done.
Qed.

Lemma srq_failed_inv h n srq : hca_inv h -> st_srqs (hc_st h) !! n = Some srq ->
  let h' := set_st (srq_failed n srq (hc_st h)) h in hca_inv h' /\ only_stops h h'.
Proof.
  intros Hi Hn h'. split.
  - apply set_st_inv; try done; simpl; [|apply (hi_keys _ Hi)]. intros k. apply insert_some.
  - unfold only_stops. split_and!; try done; simpl.
    + intros k. apply insert_some.
    + exists []. split; [by rewrite app_nil_r|]. by intros w ?%elem_of_nil.
Qed.

(** What an asynchronous error does: the queue pairs of dev->qp_head that [uses] holds
    for are stopped, the others are as they were. *)
Definition isolated (uses : pib_qp -> bool) (h h' : hca) : Prop :=
  hca_inv h' /\ only_stops h h'
  /\ forall i q, hc_qps h !! i = Some q ->
       exists q', hc_qps h' !! i = Some q' /\ if decide (i ∈ hc_qp_head h) then after_failure uses q q' else q' = q.

Lemma fail_qps_run uses h : hca_inv h -> exists h', fail_qps uses h = Some (tt, h') /\ isolated uses h h'.
Proof.
  intros Hi. destruct (fail_loop uses (hc_qp_head h) h Hi (hi_nodup _ Hi) (hi_head _ Hi)) as (h' & E & H1 & H2 & H3). exists h'.
  unfold fail_qps. erewrite (bind_run get) by reflexivity. split; [exact E|done].
Qed.

Lemma isolated_trans uses h h1 h' : hc_qps h1 = hc_qps h -> only_stops h h1 -> isolated uses h1 h' -> isolated uses h h'.
Proof.
  intros Hq Ho (H1 & H2 & H3). split; [done|]. split; [by etransitivity|]. rewrite Hq in H3. by rewrite (proj1 Ho) in H3.
Qed.

Lemma cq_error_run h c cq : hca_inv h -> st_cqs (hc_st h) !! c = Some cq ->
  exists h', pib_util_insert_async_cq_error c h = Some (tt, h') /\ isolated (uses_cq c) h h' /\ cq_err (hc_st h') c.
Proof.
  intros Hi Hc. destruct (cq_failed_inv h c cq Hi Hc) as (Hi1 & Ho1 & He1). set (h1 := set_st _ h) in *.
  destruct (fail_qps_run (uses_cq c) h1 Hi1) as (h' & E & Hiso). exists h'. split.
  - unfold pib_util_insert_async_cq_error. erewrite (bind_run get) by reflexivity. rewrite Hc. erewrite (bind_run (of_option _)) by reflexivity.
    unfold cq_set_error, raise. erewrite (bind_run (modify _)) by reflexivity. erewrite (bind_run (modify _)) by reflexivity. exact E.
  - split; [by apply (isolated_trans _ h h1)|]. destruct Hiso as (_ & Ho & _). by apply Ho.
Qed.

Lemma srq_error_run h n srq : hca_inv h -> st_srqs (hc_st h) !! n = Some srq ->
  exists h', pib_util_insert_async_srq_error n h = Some (tt, h') /\ isolated (uses_srq n) h h'.
Proof.
  intros Hi Hn. destruct (srq_failed_inv h n srq Hi Hn) as (Hi1 & Ho1). set (h1 := set_st _ h) in *.
  destruct (fail_qps_run (uses_srq n) h1 Hi1) as (h' & E & Hiso). exists h'. split; [|by apply (isolated_trans _ h h1)].
  unfold pib_util_insert_async_srq_error. erewrite (bind_run get) by reflexivity. rewrite Hn. erewrite (bind_run (of_option _)) by reflexivity.
  unfold srq_set_error, raise. erewrite (bind_run (modify _)) by reflexivity. erewrite (bind_run (modify _)) by reflexivity. exact E.
Qed.

(** ** Theorems *)

(** C8. An asynchronous error is contained.  When a completion queue or a shared receive
    queue of a consistent device fails, every queue pair on the device's list that
    uses it ends in the error state with no request, no receive and no response
    left; every other queue pair is exactly as it was; memory, ports, timers and the
    lock are untouched, the work queue grows by overflow handlers only, and the
    device stays consistent. *)
Theorem async_error_isolates (h : hca) (Hi : hca_inv h) :
  (forall c cq, st_cqs (hc_st h) !! c = Some cq ->
     exists h', pib_util_insert_async_cq_error c h = Some (tt, h') /\ isolated (uses_cq c) h h' /\ cq_err (hc_st h') c)
  /\ (forall n srq, st_srqs (hc_st h) !! n = Some srq ->
     exists h', pib_util_insert_async_srq_error n h = Some (tt, h') /\ isolated (uses_srq n) h h').
Proof. split; intros; [by eapply cq_error_run|by eapply srq_error_run]. Qed.

End HcaThm.

(** ** Witnesses *)

(** Two queue pairs, one of them without the completion queue 1. *)
Definition other_qp : pib_qp := demo_qp <| qp_num := 8 |> <| qp_send_cq := 2 |> <| qp_sched_tid := 3 |> <| qp_sched_time := 990 |>.
Definition demo_hport : hca_port :=
  {| hp_state := 4; hp_phys_state := 5; hp_is_connected := true; hp_sockaddr := Some 100; hp_qp_info := [None; None]; hp_qkey_viol_cntr := 0;
     hp_bad_pkey_cntr := 0; hp_rcv_packets := 0; hp_rcv_data := 0; hp_xmit_packets := 0; hp_xmit_data := 0; hp_rx := [] |}.
Definition demo_hca : hca :=
  {| hc_st := demo_st; hc_qps := {[ 7 := demo_qp; 8 := other_qp ]}; hc_qp_head := [7; 8]; hc_pds := {[ 1 := st_pd demo_st ]};
     hc_ports := {[ 1 := demo_hport ]}; hc_mcast := empty; hc_lock := false; hc_wq := []; hc_timers := []; hc_stop := false;
     hc_wq_schedule := false; hc_ready_to_recv := false; hc_inject := (IB_EVENT_QP_FATAL, 0); hc_results := []; hc_sent := [] |}.

Lemma demo_hca_inv : hca_inv demo_hca.
Proof.
  split.
  - intros i q Hq. change (({[ 7 := demo_qp; 8 := other_qp ]} : gmap Z pib_qp) !! i = Some q) in Hq.
    rewrite lookup_insert_Some, lookup_singleton_Some in Hq. destruct Hq as [[<- <-]|[_ [<- <-]]].
    + split; [done|]. exists (st_pd demo_st), [0; 1; 2; 3; 4]. split; [done|]. destruct demo_wf as [W1 W2 W3 W4]. by split.
    + split; [done|]. exists (st_pd demo_st), [0; 1; 2; 3; 4]. split; [done|]. destruct demo_wf as [(E1 & E2 & E3 & E4 & [E5 E6] & E7) W2 W3 W4].
      split; [|done..]. unfold qp_env. split; [done|]. split; [done|]. split; [done|]. split; [done|]. split; [|done]. split; [done|].
      split; [intros _; simpl; left|done].
  - intros i Hi. change (i ∈ [7; 8]) in Hi. rewrite !elem_of_cons in Hi. destruct Hi as [->|[->|Hi]]; [by eexists..|by apply elem_of_nil in Hi].
  - apply (bool_decide_unpack _). by vm_compute.
  - intros c cq Hc. change ((list_to_map [(1, demo_cq 1); (2, demo_cq 2)] : gmap Z pib_cq) !! c = Some cq) in Hc.
    apply elem_of_list_to_map_2 in Hc. rewrite !elem_of_cons in Hc. destruct Hc as [[= -> ->]|[[= -> ->]|Hc]]; [done..|by apply elem_of_nil in Hc].
  - constructor.
  - intros c Hc. by apply elem_of_nil in Hc.
Qed.

(** The completion queue 1 fails: the queue pair 7 is stopped, 8 goes on. *)
Lemma async_error_isolates_witness :
  exists h', pib_util_insert_async_cq_error (PP := demo_params) 1 demo_hca = Some (tt, h')
  /\ qp_state <$> hc_qps h' !! 7 = Some IB_QPS_ERR /\ hc_qps h' !! 8 = Some other_qp /\ hca_inv h'.
Proof.
  destruct (proj1 (async_error_isolates (PP := demo_params) demo_hca demo_hca_inv) 1 (demo_cq 1) eq_refl) as (h' & E & (Hi & _ & Hq) & _).
  exists h'. split; [exact E|]. split; [|split; [|exact Hi]].
  - destruct (Hq 7 demo_qp eq_refl) as (q' & -> & Hs). simpl. by destruct Hs as [-> _].
  - destruct (Hq 8 other_qp eq_refl) as (q' & -> & Hs). simpl in Hs. by rewrite Hs.
Defined.
