(* ===== verification/Link.v ===== *)
(** * Packets in and out of the HCA (driver/pib_thread.c)

    The device thread takes datagrams from the sockets of the ports, finds the queue
    pairs they are for and runs the handlers of the transports; it sends the packet
    a handler built; it keeps the link of every port to pibnetd up; it executes the
    work queue.  Trace records and messages are not part of the state. *)

From S2P Require Import Prelude Verbs Lib ObjNum Cq Srq Mr State Sched Qp Packet Wire Rc RcRsp RcResp Ud Requester Hca.

(** ** Constants *)

Definition EAGAIN : Z := 11.
Definition EINTR : Z := 4.
Definition IB_MULTICAST_QPN : Z := 0xFFFFFF.
Definition IB_PORT_DOWN : Z := 1.
Definition IB_PORT_INIT : Z := 2.
Definition IB_PORT_ARMED : Z := 3.
Definition IB_PORT_ACTIVE : Z := 4.
Definition PIB_PHYS_PORT_POLLING : Z := 2.
Definition PIB_PHYS_PORT_LINK_UP : Z := 5.
Definition PIB_LINK_CMD_CONNECT : Z := 1.
Definition PIB_LINK_CMD_CONNECT_ACK : Z := 2.
Definition PIB_LINK_CMD_DISCONNECT : Z := 3.
Definition PIB_LINK_CMD_DISCONNECT_ACK : Z := 4.
Definition PIB_LINK_SHUTDOWN : Z := 5.
(** union pib_packet_footer, struct pib_packet_link *)
Definition FOOTER_SIZE : Z := 8.
Definition LINK_SIZE : Z := 4.

(** The module's view of the fabric: pib_multi_host_mode, pib_netd_sockaddr,
    pib_lid_table and pib_easy_sw.sockaddr. *)
Record fabric := { fb_multi_host_mode : bool; fb_netd_sockaddr : option Z; fb_lid_table : gmap Z Z; fb_easy_sw_sockaddr : option Z }.

Section Link.
Context {PP : Params} (ahs : gmap Z ib_ah_attr) (fb : fabric).

Definition the_hport (port_num : Z) : M hca hca_port := let! h := get in of_option (hc_ports h !! port_num).
Definition upd_hport (port_num : Z) (f : hca_port -> hca_port) : M hca unit := modify (fun h => h <| hc_ports ::= alter f port_num |>).
(** The part of the port that [st_ports] holds. *)
Definition the_sport (port_num : Z) : M hca pib_port := let! h := get in of_option (st_ports (hc_st h) !! port_num).
Definition the_thread : M hca pib_thread := gets (fun h => st_thread (hc_st h)).
Definition set_thread (f : pib_thread -> pib_thread) : M hca unit := modify (fun h => h <| hc_st ::= fun s => s <| st_thread ::= f |> |>).

(** ** Sending *)

Definition get_sockaddr_from_dlid (port_num src_qp_num dlid : Z) : M hca (option Z) :=
  if fb_multi_host_mode fb then ret (fb_netd_sockaddr fb)
  else
    let! p := the_hport port_num in
    let! sp := the_sport port_num in
    let sockaddr :=
      if src_qp_num =? PIB_QP0 then None
      else if dlid =? 0 then hp_sockaddr p
      else if dlid =? port_lid sp then hp_sockaddr p
      else if dlid <? PIB_MCAST_LID_BASE then fb_lid_table fb !! dlid
      else None in
    ret (match sockaddr with Some a => Some a | None => fb_easy_sw_sockaddr fb end).

(** The result of the call; nothing is sent when it is negative. *)
Definition kernel_sendmsg (dest : Z) (bytes : list Z) : M hca Z :=
  let! h := get in
  match hc_results h with
  | [] => modify (fun h => h <| hc_sent ::= fun l => l ++ [(dest, bytes)] |>) ;; ret (Zlen bytes)
  | r :: rest =>
      modify (fun h => h <| hc_results := rest |>) ;;
      if r <? 0 then ret r else modify (fun h => h <| hc_sent ::= fun l => l ++ [(dest, bytes)] |>) ;; ret r
  end.

(** Whether a port in this state sends what [src_qp_num] built. *)
Definition may_send (state src_qp_num : Z) : bool :=
  if state =? IB_PORT_DOWN then src_qp_num =? PIB_LINK_QP
  else if (state =? IB_PORT_INIT) || (state =? IB_PORT_ARMED) then (src_qp_num =? PIB_QP0) || (src_qp_num =? PIB_LINK_QP)
  else state =? IB_PORT_ACTIVE.

(** The label done. *)
Definition sendmsg_done : M hca unit := set_thread (fun t => t <| th_trace_id := 0 |> <| th_ready_to_send := false |>).

(** The bytes of gid[0].global.interface_id. *)
Definition port_guid (sp : pib_port) : option (list Z) := take 8 <$> (drop 8 <$> (port_gids sp !! 0%nat)).

Definition process_sendmsg : M hca unit :=
  let! t := the_thread in
  let port_num := th_port_num t in
  let src_qp_num := th_src_qp_num t in
  let! p := the_hport port_num in
  let! sp := the_sport port_num in
  if negb (src_qp_num =? PIB_QP0) && negb (src_qp_num =? PIB_LINK_QP) && ((th_slid t =? 0) || (th_dlid t =? 0)) then sendmsg_done
  else if negb (may_send (hp_state p) src_qp_num) then ret tt
  else
    let msg_size := pib_packet_lrh_get_pktlen (lrh_of (th_send_buffer t)) * 4 in
    if (msg_size =? 0) || (PIB_PACKET_BUFFER <? msg_size) then ret tt
    else
      let! guid := of_option (port_guid sp) in
      BUG_ON (Zlen (th_send_buffer t) <? msg_size + FOOTER_SIZE) ;;
      let buffer := buf_write (th_send_buffer t) msg_size guid in
      set_thread (fun t => t <| th_send_buffer := buffer |>) ;;
      let bytes := take (Z.to_nat (msg_size + FOOTER_SIZE)) buffer in
      let! sockaddr := get_sockaddr_from_dlid port_num src_qp_num (th_dlid t) in
      match sockaddr with
      | None => sendmsg_done
      | Some a =>
          let! r := kernel_sendmsg a bytes in
          if r <? 0 then sendmsg_done
          else
            upd_hport port_num (fun p => p <| hp_xmit_packets := u64 (hp_xmit_packets p + 1) |>
                                           <| hp_xmit_data := u64 (hp_xmit_data p + Zlen bytes) |>) ;;
            if pib_is_unicast_lid (th_dlid t) then sendmsg_done
            else
              let! own := of_option (hp_sockaddr p) in
              kernel_sendmsg own bytes ;;
              sendmsg_done
      end.

(** ** The link to pibnetd *)

Definition send_raw_packet_to_pibnetd (port_num : Z) (disconnect : bool) : M hca unit :=
  let lrh := {| lrh_dlid := PIB_LID_PERMISSIVE; lrh_vl_lver := 0; lrh_sl_rsv_lnh := 0; lrh_slid := PIB_LID_PERMISSIVE; lrh_pktlen := 0 |} in
  let cmd := if disconnect then PIB_LINK_CMD_DISCONNECT else PIB_LINK_CMD_CONNECT in
  let packet := lrh_bytes (pib_packet_lrh_set_pktlen lrh ((LRH_SIZE + LINK_SIZE) / 4)) ++ be_split 4 cmd in
  set_thread (fun t => t <| th_send_buffer := buf_write (th_send_buffer t) 0 packet |> <| th_port_num := port_num |>
    <| th_src_qp_num := PIB_LINK_QP |> <| th_slid := PIB_LID_PERMISSIVE |> <| th_dlid := PIB_LID_PERMISSIVE |>
    <| th_ready_to_send := true |>) ;;
  process_sendmsg.

Definition link_down (p : hca_port) : hca_port :=
  p <| hp_is_connected := false |> <| hp_phys_state := PIB_PHYS_PORT_POLLING |> <| hp_state := IB_PORT_DOWN |>.
Definition link_up (p : hca_port) : hca_port :=
  p <| hp_is_connected := true |> <| hp_phys_state := PIB_PHYS_PORT_LINK_UP |> <| hp_state := IB_PORT_INIT |>.

Definition connect_pibnetd (port_num : Z) : M hca unit :=
  send_raw_packet_to_pibnetd port_num false ;;
  pib_queue_delayed_work (WorkLink port_num) (60 * HZ).

Definition disconnect_pibnetd (port_num : Z) : M hca unit :=
  send_raw_packet_to_pibnetd port_num true ;;
  upd_hport port_num link_down.

Definition process_raw_packet (port_num : Z) (buffer : list Z) : M hca unit :=
  if negb (Zlen buffer =? LINK_SIZE) then ret tt
  else
    let cmd := be_at 0 4 buffer in
    if cmd =? PIB_LINK_CMD_CONNECT_ACK then upd_hport port_num link_up
    else if (cmd =? PIB_LINK_CMD_DISCONNECT_ACK) || (cmd =? PIB_LINK_SHUTDOWN) then upd_hport port_num link_down
    else ret tt.

Definition pib_netd_comm_handler (port_num : Z) : M hca unit :=
  let! h := get in
  BUG_ON (negb (hc_lock h)) ;;
  let! p := the_hport port_num in
  if hp_state p =? IB_PORT_DOWN then connect_pibnetd port_num else ret tt.

(** ** Receiving *)

(** The value returned and the bytes received. *)
Definition receive_packet (port_num : Z) : M hca (Z * list Z) :=
  let! p := the_hport port_num in
  match hp_rx p with
  | [] => ret (- EAGAIN, [])
  | r :: rest =>
      upd_hport port_num (fun p => p <| hp_rx := rest |>) ;;
      match r with
      | inl e =>
          when (e =? - EINTR) (modify (fun h => h <| hc_ready_to_recv := true |>)) ;;
          ret (e, [])
      | inr data =>
          let data := take (Z.to_nat PIB_PACKET_BUFFER) data in
          ret (if Zlen data =? 0 then - EAGAIN else Zlen data, data)
      end
  end.

(** The P_Key of the packet against the table of the port. *)
Definition pkey_ok (sp : pib_port) (q : pib_qp) (dest_qp_num : Z) (bth : pib_packet_bth) : option bool :=
  if dest_qp_num =? PIB_QP0 then Some true
  else if dest_qp_num =? PIB_QP1 then
    Some (existsb (fun pkey => pkey =? bth_pkey bth) (take (Z.to_nat PIB_PKEY_TABLE_LEN) (port_pkey_table sp)))
  else (fun pkey => pkey =? bth_pkey bth) <$> (port_pkey_table sp !! Z.to_nat (a_pkey_index (qp_attr q))).

(** The QP the packet is for. *)
Definition find_dest (h : hca) (p : hca_port) (dest_qp_num : Z) : option (option Z) :=
  if (dest_qp_num =? PIB_QP0) || (dest_qp_num =? PIB_QP1) then hp_qp_info p !! Z.to_nat dest_qp_num
  else if dest_qp_num =? IB_MULTICAST_QPN then None
  else Some (if bool_decide (is_Some (hc_qps h !! dest_qp_num)) then Some dest_qp_num else None).

(** Whether the destination LID is accepted at the port. *)
Definition dlid_ok (sp : pib_port) (dlid dest_qp_num : Z) : bool :=
  ((dest_qp_num =? PIB_QP0) && pib_is_permissive_lid dlid) || negb (pib_is_unicast_lid dlid) || (dlid =? port_lid sp).

(** The handler of the transport, then the scheduler. *)
Definition deliver (port_num : Z) (lrh : pib_packet_lrh) (grh : option ib_grh) (bth : pib_packet_bth) (buffer : list Z) : M st unit :=
  let! q := the_qp in
  (match qp_type q with
   | IB_QPT_RC => pib_receive_rc_qp_incoming_message port_num lrh bth buffer
   | IB_QPT_UD | IB_QPT_GSI | IB_QPT_SMI => pib_receive_ud_qp_incoming_message port_num lrh grh bth buffer
   | _ => bug
   end) ;;
  pib_util_reschedule_qp.

(** dev->lock stays taken when the P_Key is wrong. *)
Definition process_incoming_message_per_qp (port_num dlid dest_qp_num : Z) (lrh : pib_packet_lrh) (grh : option ib_grh)
    (bth : pib_packet_bth) (buffer : list Z) : M hca unit :=
  let! p := the_hport port_num in
  let! sp := the_sport port_num in
  lock ;;
  let! h := get in
  let! dest := of_option (find_dest h p dest_qp_num) in
  match dest with
  | None =>
      upd_hport port_num (fun p => p <| hp_qkey_viol_cntr := u32 (hp_qkey_viol_cntr p + 1) |>) ;;
      unlock
  | Some i =>
      if negb (dlid_ok sp dlid dest_qp_num) then unlock
      else
        let! q := of_option (hc_qps h !! i) in
        let! ok := of_option (pkey_ok sp q dest_qp_num bth) in
        if negb ok then upd_hport port_num (fun p => p <| hp_bad_pkey_cntr := u32 (hp_bad_pkey_cntr p + 1) |>)
        else
          unlock ;;
          with_qp i (deliver port_num lrh grh bth buffer) ;;
          let! t := the_thread in
          when (th_ready_to_send t) process_sendmsg
  end.

(** A multicast packet: every QP attached to the LID but its sender. *)
Definition process_multicast (port_num dlid : Z) (lrh : pib_packet_lrh) (grh : option ib_grh) (bth : pib_packet_bth)
    (buffer : list Z) : M hca unit :=
  if negb ((bth_OpCode bth =? IB_OPCODE_UD_SEND_ONLY) || (bth_OpCode bth =? IB_OPCODE_UD_SEND_ONLY_WITH_IMMEDIATE)) then ret tt
  else if Zlen buffer <? DETH_SIZE then ret tt
  else
    let src_qp_num := Z.land (deth_srcQP (deth_of buffer)) PIB_QPN_MASK in
    lock ;;
    let! h := get in
    let qp_nums := default [] (hc_mcast h !! dlid) in
    BUG_ON (PIB_MCAST_QP_ATTACH <? Zlen qp_nums) ;;
    unlock ;;
    let! sp := the_sport port_num in
    for_each (fun qp_num =>
      if (port_lid sp =? lrh_slid lrh) && (src_qp_num =? qp_num) then ret tt
      else process_incoming_message_per_qp port_num dlid qp_num lrh grh bth buffer) qp_nums.

(** Whether a port in this state accepts a packet for the QP. *)
Definition may_receive (state dest_qp_num : Z) : bool :=
  if (state =? IB_PORT_INIT) || (state =? IB_PORT_ARMED) then dest_qp_num =? PIB_QP0 else state =? IB_PORT_ACTIVE.

Definition process_incoming_message (port_num : Z) (packet : list Z) : M hca unit :=
  if Zlen packet <? FOOTER_SIZE then ret tt
  else
    let body := take (Z.to_nat (Zlen packet - FOOTER_SIZE)) packet in
    upd_hport port_num (fun p => p <| hp_rcv_packets := u64 (hp_rcv_packets p + 1) |>
                                   <| hp_rcv_data := u64 (hp_rcv_data p + Zlen packet) |>) ;;
    match pib_parse_packet_header body with
    | inl _ => ret tt
    | inr h =>
        let buffer := drop (Z.to_nat (pr_ret h)) body in
        match pr_bth h with
        | None => process_raw_packet port_num buffer
        | Some bth =>
            let size := Zlen buffer - pib_packet_bth_get_padcnt bth in
            if size <? 0 then ret tt
            else if size - 4 <? 0 then ret tt
            else
              let buffer := take (Z.to_nat (size - 4)) buffer in
              let dlid := lrh_dlid (pr_lrh h) in
              let dest_qp_num := Z.land (bth_destQP bth) PIB_QPN_MASK in
              let! p := the_hport port_num in
              if negb (may_receive (hp_state p) dest_qp_num) then ret tt
              else if (dest_qp_num =? PIB_QP0) || (dlid <? PIB_MCAST_LID_BASE) then
                process_incoming_message_per_qp port_num dlid dest_qp_num (pr_lrh h) (pr_grh h) bth buffer
              else process_multicast port_num dlid (pr_lrh h) (pr_grh h) bth buffer
        end
    end.

(** ** The device thread *)

Definition run_work (w : pib_work) : M hca unit :=
  match w with
  | WorkCq c => cq_overflow_handler c
  | WorkLink port_num => pib_netd_comm_handler port_num
  | WorkInject => pib_inject_err_handler
  end.

(** The loop at the label retry; [fuel] bounds the number of items executed. *)
Fixpoint process_on_wq_scheduler (fuel : nat) : M hca unit :=
  lock ;;
  let! h := get in
  match hc_wq h, fuel with
  | [], _ => unlock
  | _ :: _, O => bug
  | w :: _, S fuel =>
      modify (fun h => h <| hc_wq ::= tail |>) ;;
      run_work w ;;
      unlock ;;
      process_on_wq_scheduler fuel
  end.

(** while (0 < receive_packet(dev, port_num)) process_incoming_message(...) *)
Fixpoint receive_loop (fuel : nat) (port_num : Z) : M hca unit :=
  match fuel with
  | O => ret tt
  | S fuel =>
      let! (r, data) := receive_packet port_num in
      if 0 <? r then process_incoming_message port_num data ;; receive_loop fuel port_num else ret tt
  end.

Definition receive_all : M hca unit :=
  for_each (fun port_num => let! p := the_hport port_num in receive_loop (S (length (hp_rx p))) port_num) (seqZ 1 phys_port_cnt).

(** An operation on the parts of the device that belong to no QP. *)
Definition on_dev {A} (m : M st A) : M hca A :=
  let! h := get in
  let! (a, s) := of_option (m (hc_st h)) in
  modify (fun h => h <| hc_st := s |>) ;;
  ret a.

(** One turn of process_on_qp_scheduler: whether it restarts. *)
Definition qp_scheduler_turn : M hca bool :=
  lock ;;
  let! first := on_dev pib_util_get_first_scheduling_qp in
  match first with
  | None => unlock ;; ret false
  | Some i =>
      unlock ;;
      with_qp i (process_on_qp_scheduler ahs) ;;
      let! t := the_thread in
      when (th_ready_to_send t) process_sendmsg ;;
      let! h := get in
      ret (negb (hc_stop h || hc_wq_schedule h || hc_ready_to_recv h)
           && negb (time_after (qs_wakeup_time (st_sched (hc_st h))) (st_now (hc_st h))))
  end.

Fixpoint qp_scheduler_loop (fuel : nat) : M hca unit :=
  match fuel with
  | O => bug
  | S fuel => let! again := qp_scheduler_turn in if again then qp_scheduler_loop fuel else ret tt
  end.

Definition kthread_routine_iteration (fuel : nat) : M hca unit :=
  let! h := get in
  if hc_stop h then modify (fun h => h <| hc_stop := false |>)
  else if hc_wq_schedule h then modify (fun h => h <| hc_wq_schedule := false |>) ;; process_on_wq_scheduler fuel
  else if hc_ready_to_recv h then modify (fun h => h <| hc_ready_to_recv := false |>) ;; receive_all
  else if st_qp_schedule_flag (hc_st h) then
    modify (fun h => h <| hc_st ::= fun s => s <| st_qp_schedule_flag := false |> |>) ;; qp_scheduler_loop fuel
  else ret tt.

(** How long the thread sleeps, and the wake-up time it leaves. *)
Definition kthread_timeout (now wakeup_time : Z) : Z * Z :=
  let '(timeout, wakeup_time) :=
    if time_after wakeup_time now then (u64 (wakeup_time - now), wakeup_time) else (HZ, now) in
  (if HZ <? timeout then HZ else timeout, wakeup_time).

(** One turn of the loop of kthread_routine, from the wait on: the sleep ends when an
    event arrives or [timeout] has passed, which the caller has put into the state. *)
Definition thread_flags (h : hca) : bool := hc_stop h || hc_wq_schedule h || hc_ready_to_recv h || st_qp_schedule_flag (hc_st h).

Fixpoint kthread_flags_loop (fuel : nat) : M hca unit :=
  let! h := get in
  if thread_flags h then
    match fuel with
    | O => bug
    | S fuel => kthread_routine_iteration (S fuel) ;; kthread_flags_loop fuel
    end
  else ret tt.

Definition kthread_set_wakeup : M hca Z :=
  let! h := get in
  let '(timeout, wakeup_time) := kthread_timeout (st_now (hc_st h)) (qs_wakeup_time (st_sched (hc_st h))) in
  modify (fun h => h <| hc_st ::= fun s => s <| st_sched ::= fun q => q <| qs_wakeup_time := wakeup_time |> |> |>) ;;
  ret timeout.

Definition kthread_routine_turn (fuel : nat) : M hca unit :=
  kthread_flags_loop fuel ;;
  qp_scheduler_loop fuel.

(** The start and the end of the thread, when the switch is pibnetd. *)
Definition kthread_connect : M hca unit := for_each connect_pibnetd (seqZ 1 phys_port_cnt).
Definition kthread_disconnect : M hca unit := for_each disconnect_pibnetd (seqZ 1 phys_port_cnt).

(** The callbacks of the sockets and of the timer. *)
Definition sock_data_ready_callback (port_num : Z) (r : Z + list Z) : M hca unit :=
  upd_hport port_num (fun p => p <| hp_rx ::= fun l => l ++ [r] |>) ;;
  modify (fun h => h <| hc_ready_to_recv := true |>).
Definition timer_timeout_callback : M hca unit := modify (fun h => h <| hc_st ::= fun s => s <| st_qp_schedule_flag := true |> |>).
End Link.
