(* ===== verification/LinkThm.v ===== *)
(** * The device thread: theorems

    The state of a port decides which packets go in and out; a packet reaches the
    queue pair it names and touches no other; the work queue is executed to its end;
    and a packet with a wrong P_Key leaves dev->lock taken. *)

From S2P Require Import Prelude Verbs Lib ObjNum Cq Srq Mr State Demo Sched Qp QpInv QpThm Packet Wire Rc RcRsp RcResp Ud Requester Hca Frame HcaThm Link.

(** ** Sending a link packet *)

Definition link_packet (cmd : Z) : list Z :=
  lrh_bytes (pib_packet_lrh_set_pktlen {| lrh_dlid := PIB_LID_PERMISSIVE; lrh_vl_lver := 0; lrh_sl_rsv_lnh := 0; lrh_slid := PIB_LID_PERMISSIVE;
    lrh_pktlen := 0 |} 3) ++ be_split 4 cmd.

Lemma link_packet_length cmd : length (link_packet cmd) = 12%nat.
Proof. reflexivity. Qed.
Lemma link_packet_lrh cmd rest : pib_packet_lrh_get_pktlen (lrh_of (link_packet cmd ++ rest)) = 3.
Proof. reflexivity. Qed.

(** A port with all it needs to send. *)
Definition port_env (h : hca) (port_num : Z) (p : hca_port) (sp : pib_port) (guid : list Z) : Prop :=
  hc_ports h !! port_num = Some p /\ st_ports (hc_st h) !! port_num = Some sp /\ port_guid sp = Some guid /\ length guid = 8%nat
  /\ 20 <= Zlen (th_send_buffer (st_thread (hc_st h))).

(** Sending changes the packet under construction, what was sent and the counters of
    the port. *)
Definition only_sends (h h' : hca) : Prop :=
  hc_qps h' = hc_qps h /\ hc_pds h' = hc_pds h /\ hc_qp_head h' = hc_qp_head h /\ hc_mcast h' = hc_mcast h /\ hc_lock h' = hc_lock h
  /\ hc_wq h' = hc_wq h /\ hc_timers h' = hc_timers h /\ hc_inject h' = hc_inject h
  /\ (exists t, hc_st h' = (hc_st h) <| st_thread := t |> /\ Zlen (th_send_buffer t) = Zlen (th_send_buffer (st_thread (hc_st h))))
  /\ (forall k, (fun p => p <| hp_xmit_packets := 0 |> <| hp_xmit_data := 0 |>) <$> hc_ports h' !! k
              = (fun p => p <| hp_xmit_packets := 0 |> <| hp_xmit_data := 0 |>) <$> hc_ports h !! k).

#[export] Instance only_sends_preorder : PreOrder only_sends.
Proof.
  split.
  - intros h. unfold only_sends. split_and!; try done. exists (st_thread (hc_st h)). split; [|done]. by destruct h as [[] ? ? ? ? ? ? ? ? ? ? ? ? ? ?].
  - intros h1 h2 h3 (A1 & A2 & A3 & A4 & A5 & A6 & A7 & A0 & (t1 & A8 & A8') & A9) (B1 & B2 & B3 & B4 & B5 & B6 & B7 & B0 & (t2 & B8 & B8') & B9).
    unfold only_sends. split_and!; try congruence. exists t2. rewrite B8, B8', A8. split; [done|exact A8'].
Qed.

Section LinkThm.
Context {PP : Params} (ahs : gmap Z ib_ah_attr) (fb : fabric).

Lemma wp_set_thread h f (Q : unit -> hca -> Prop) :
  Q tt (h <| hc_st ::= fun s => s <| st_thread ::= f |> |>) -> wp (set_thread f) Q h.
Proof. done. Qed.

Lemma sends_thread h f : Zlen (th_send_buffer (f (st_thread (hc_st h)))) = Zlen (th_send_buffer (st_thread (hc_st h))) ->
  only_sends h (h <| hc_st ::= fun s => s <| st_thread ::= f |> |>).
Proof. intros H. unfold only_sends. split_and!; try done. exists (f (st_thread (hc_st h))). done. Qed.

Lemma sends_sent h f : only_sends h (h <| hc_sent ::= f |>).
Proof. unfold only_sends. split_and!; try done. exists (st_thread (hc_st h)). split; [|done]. by destruct h as [[] ? ? ? ? ? ? ? ? ? ? ? ? ? ?]. Qed.
Lemma sends_results h l : only_sends h (h <| hc_results := l |>).
Proof. unfold only_sends. split_and!; try done. exists (st_thread (hc_st h)). split; [|done]. by destruct h as [[] ? ? ? ? ? ? ? ? ? ? ? ? ? ?]. Qed.
Lemma sends_count h port_num f : (forall p, (f p) <| hp_xmit_packets := 0 |> <| hp_xmit_data := 0 |> = p <| hp_xmit_packets := 0 |> <| hp_xmit_data := 0 |>) ->
  only_sends h (h <| hc_ports ::= alter f port_num |>).
Proof.
  intros Hf. unfold only_sends. split_and!; try done.
  - exists (st_thread (hc_st h)). split; [|done]. by destruct h as [[] ? ? ? ? ? ? ? ? ? ? ? ? ? ?].
  - intros k. change (hc_ports (h <| hc_ports ::= alter f port_num |>)) with (alter f port_num (hc_ports h)).
    destruct (decide (port_num = k)) as [->|Hne]; [|by rewrite lookup_alter_ne].
    rewrite lookup_alter_eq. destruct (hc_ports h !! k) as [p|]; [|done]. exact (f_equal Some (Hf p)).
Qed.

Lemma wp_kernel_sendmsg h a bytes (Q : Z -> hca -> Prop) :
  (forall r h', only_sends h h' -> (hc_results h = [] -> 0 <= r /\ hc_sent h' = hc_sent h ++ [(a, bytes)]) -> Q r h') ->
  wp (kernel_sendmsg a bytes) Q h.
Proof.
  intros HQ. unfold kernel_sendmsg. do 2 wp_step. destruct (hc_results h) as [|r rest] eqn:Er.
  - do 3 wp_step. apply HQ; [apply sends_sent|]. intros _. split; [apply Zlen_nonneg|done].
  - do 2 wp_step. wp_step; [wp_step; apply HQ; [apply sends_results|done]|]. do 3 wp_step.
    apply HQ; [|done]. etransitivity; [apply sends_results|apply sends_sent].
Qed.

(** The end of process_sendmsg for a unicast packet. *)
Definition transmit (port_num : Z) (bytes : list Z) (sa : option Z) : M hca unit :=
  match sa with
  | None => sendmsg_done
  | Some a =>
      let! r := kernel_sendmsg a bytes in
      if r <? 0 then sendmsg_done
      else upd_hport port_num (fun p => p <| hp_xmit_packets := u64 (hp_xmit_packets p + 1) |> <| hp_xmit_data := u64 (hp_xmit_data p + Zlen bytes) |>) ;;
        sendmsg_done
  end.

Lemma wp_transmit h0 h port_num bytes sa (Q : unit -> hca -> Prop) :
  only_sends h0 h -> hc_sent h = hc_sent h0 -> hc_results h = hc_results h0 ->
  (forall h', only_sends h0 h' -> (forall a, sa = Some a -> hc_results h0 = [] -> hc_sent h' = hc_sent h0 ++ [(a, bytes)]) -> Q tt h') ->
  wp (transmit port_num bytes sa) Q h.
Proof.
  intros Hs Es Er HQ.
  assert (forall h3, only_sends h0 h3 -> (forall a, sa = Some a -> hc_results h0 = [] -> hc_sent h3 = hc_sent h0 ++ [(a, bytes)]) -> wp sendmsg_done Q h3) as Hdone.
  { intros h3 Hs3 Hsent. unfold sendmsg_done, set_thread. wp_step. apply HQ; [etransitivity; [exact Hs3|by apply sends_thread]|exact Hsent]. }
  unfold transmit. destruct sa as [a|]; [|by apply Hdone]. wp_step. apply wp_kernel_sendmsg. intros r h3 Hs3 Hr.
  assert (only_sends h0 h3) by (by etransitivity). rewrite Er, Es in Hr.
  wp_step; [apply Hdone; [done|]; intros a' [= <-] H3; by apply Hr|]. unfold upd_hport. do 2 wp_step. apply Hdone.
  - etransitivity; [done|]. by apply sends_count.
  - intros a' [= <-] H3. by apply Hr.
Qed.

(** The link packet is sent, to the daemon if the port may send. *)
Lemma wp_send_raw h port_num (disconnect : bool) p sp guid (Q : unit -> hca -> Prop) : port_env h port_num p sp guid ->
  (forall h', only_sends h h' ->
     (forall a, may_send (hp_state p) PIB_LINK_QP = true -> fb_multi_host_mode fb = true -> fb_netd_sockaddr fb = Some a -> hc_results h = [] ->
        hc_sent h' = hc_sent h ++ [(a, link_packet (if disconnect then PIB_LINK_CMD_DISCONNECT else PIB_LINK_CMD_CONNECT) ++ guid)]) -> Q tt h') ->
  wp (send_raw_packet_to_pibnetd fb port_num disconnect) Q h.
Proof.
  intros (Hp & Hsp & Hg & Hlen & Hbuf) HQ. unfold send_raw_packet_to_pibnetd, set_thread. cbv zeta.
  set (cmd := if disconnect then PIB_LINK_CMD_DISCONNECT else PIB_LINK_CMD_CONNECT) in *. change (lrh_bytes _ ++ be_split 4 cmd) with (link_packet cmd).
  set (buf := th_send_buffer (st_thread (hc_st h))) in *. do 2 wp_step.
  set (f := fun t : pib_thread => _). set (h1 := set_field hc_st _ h).
  set (buf1 := buf_write buf 0 (link_packet cmd)).
  assert (buf1 = link_packet cmd ++ drop 12 buf) as Eb1 by reflexivity.
  assert (Zlen buf1 = Zlen buf) as Hb1 by (apply Zlen_buf_write; [lia|]; change (Zlen (link_packet cmd)) with 12; lia).
  assert (only_sends h h1) as Hs1 by (apply sends_thread; exact Hb1).
  unfold process_sendmsg, the_thread, the_hport, the_sport. do 5 wp_step.
  change (th_port_num (st_thread (hc_st h1))) with port_num. change (hc_ports h1) with (hc_ports h). rewrite Hp. wp_step.
  do 3 wp_step. change (st_ports (hc_st h1)) with (st_ports (hc_st h)). rewrite Hsp. wp_step.
  change (th_src_qp_num (st_thread (hc_st h1))) with PIB_LINK_QP. change (th_send_buffer (st_thread (hc_st h1))) with buf1.
  change (PIB_LINK_QP =? PIB_QP0) with false. change (PIB_LINK_QP =? PIB_LINK_QP) with true. cbn [negb andb].
  destruct (may_send (hp_state p) PIB_LINK_QP) eqn:Em; cbn [negb].
  2:{ wp_step. apply HQ; [done|]. done. }
  assert (pib_packet_lrh_get_pktlen (lrh_of buf1) * 4 = 12) as Epl by (rewrite Eb1, link_packet_lrh; done). cbv zeta. rewrite !Epl.
  change ((12 =? 0) || (PIB_PACKET_BUFFER <? 12)) with false. cbv iota.
  rewrite Hg. do 3 wp_step. unfold BUG_ON. rewrite (proj2 (Z.ltb_ge (Zlen buf1) _)) by (unfold FOOTER_SIZE; lia). do 2 wp_step.
  unfold set_thread. wp_step. set (h2 := set_field hc_st _ h1).
  assert (only_sends h1 h2) as Hs2.
  { apply (sends_thread h1 (fun t => t <| th_send_buffer := buf_write buf1 12 guid |>)). simpl. fold buf. change (buf_write _ 12 guid) with (buf_write buf1 12 guid).
    rewrite Zlen_buf_write; [done|lia|]. unfold Zlen in *. lia. }
  set (bytes := take _ _).
  assert (bytes = link_packet cmd ++ guid) as Ebytes.
  { unfold bytes, buf_write. change (Z.to_nat 12) with 12%nat. rewrite Eb1, (take_app_length' (link_packet cmd) (drop 12 buf) 12) by done.
    rewrite (app_assoc (link_packet cmd) guid), take_app_length'; [done|]. by rewrite length_app, Hlen, link_packet_length. }
  assert (only_sends h h2) as Hsh2 by (by etransitivity).
  assert (forall sa, (forall a, fb_multi_host_mode fb = true -> fb_netd_sockaddr fb = Some a -> sa = Some a) ->
    wp (transmit port_num bytes sa) Q h2) as Hsend.
  { intros sa Hsa. apply (wp_transmit h); [done|done|done|]. intros h' Hs' Hsent. apply HQ; [done|]. intros a _ H1 H2 H3.
    rewrite <- Ebytes. by apply Hsent; [apply Hsa|]. }
  change (th_dlid (st_thread (hc_st h1))) with PIB_LID_PERMISSIVE. change (pib_is_unicast_lid PIB_LID_PERMISSIVE) with true. cbv iota.
  wp_step. unfold get_sockaddr_from_dlid. destruct (fb_multi_host_mode fb) eqn:Emh.
  - wp_step. apply Hsend. intros a _ Ha. exact Ha.
  - unfold the_hport, the_sport. do 3 wp_step. change (hc_ports h2) with (hc_ports h). rewrite Hp. wp_step.
    do 3 wp_step. change (st_ports (hc_st h2)) with (st_ports (hc_st h)). rewrite Hsp. wp_step. wp_step. apply Hsend. done.
Qed.

(** ** The work queue *)

(** The completion queues that are not in error. *)
Definition ok_cqs (s : st) : gset Z := dom (filter (fun x : Z * pib_cq => cq_state x.2 = PIB_STATE_OK) (st_cqs s)).

Lemma elem_of_ok_cqs s c : c ∈ ok_cqs s <-> is_Some (st_cqs s !! c) /\ ~ cq_err s c.
Proof.
  unfold ok_cqs, cq_err. rewrite elem_of_dom. split.
  - intros [cq [Hc Ho]%map_lookup_filter_Some]. split; [by eexists|]. intros (cq' & Hc' & He). simpl in Ho. congruence.
  - intros [[cq Hc] Hn]. exists cq. apply map_lookup_filter_Some. split; [done|]. simpl. destruct (cq_state cq) eqn:E; [done|].
    exfalso. apply Hn. by exists cq.
Qed.

(** How much the work queue can still grow. *)
Definition wq_measure (h : hca) : nat := (length (hc_wq h) + size (ok_cqs (hc_st h)))%nat.

Lemma stops_measure h h' : only_stops h h' -> NoDup (hc_wq h') -> (wq_measure h' <= wq_measure h)%nat.
Proof.
  intros (_ & _ & _ & _ & _ & _ & _ & _ & _ & _ & Hs & _ & He & _ & ws & Hwq & Hws) Hn. unfold wq_measure. rewrite Hwq in Hn |- *.
  apply NoDup_app in Hn as (_ & _ & Hn). rewrite length_app.
  set (cs := omap (fun w => match w with WorkCq c => Some c | _ => None end) ws).
  assert (length cs = length ws /\ NoDup cs /\ forall c, c ∈ cs -> WorkCq c ∈ ws) as (Hlen & Hnd & Hin).
  { unfold cs. clear -Hn Hws. induction ws as [|w ws IH]; [split; [done|split; [constructor|]]; intros c Hc; by apply elem_of_nil in Hc|].
    apply NoDup_cons in Hn as [Hw Hn]. destruct IH as (H1 & H2 & H3); [intros x Hx; apply Hws; by right|done|].
    destruct (Hws w ltac:(by left)) as (c & -> & _). simpl. split; [f_equal; exact H1|]. split.
    - constructor; [|done]. intros Hc. apply Hw. by apply H3.
    - intros k [->|Hk]%elem_of_cons; [by left|right; auto]. }
  assert (ok_cqs (hc_st h') ∪ list_to_set cs ⊆ ok_cqs (hc_st h)) as Hsub.
  { intros c [Hc|Hc]%elem_of_union.
    - apply elem_of_ok_cqs in Hc as [H1 H2]. apply elem_of_ok_cqs. split; [by apply Hs|]. intros H3. by apply H2, He.
    - apply elem_of_list_to_set in Hc. destruct (Hws _ (Hin c Hc)) as (c' & [= <-] & H1 & cq & H2 & _). apply elem_of_ok_cqs. split; [apply Hs; by eexists|done]. }
  assert (ok_cqs (hc_st h') ## list_to_set cs) as Hdisj.
  { intros c Hc1 Hc2. apply elem_of_list_to_set in Hc2. apply elem_of_ok_cqs in Hc1 as [_ H1]. destruct (Hws _ (Hin c Hc2)) as (c' & [= <-] & _ & H2). done. }
  pose proof (size_union _ _ Hdisj) as Hu. pose proof (size_list_to_set (C := gset Z) cs Hnd) as Hl. apply subseteq_size in Hsub. lia.
Qed.

(** Queue pairs keep their completion queues, and the error state. *)
Definition persist (h h' : hca) : Prop :=
  hc_qp_head h' = hc_qp_head h /\ forall i q, hc_qps h !! i = Some q ->
    exists q', hc_qps h' !! i = Some q' /\ qp_send_cq q' = qp_send_cq q /\ qp_recv_cq q' = qp_recv_cq q
      /\ (qp_state q = IB_QPS_ERR -> qp_state q' = IB_QPS_ERR).

#[export] Instance persist_preorder : PreOrder persist.
Proof.
  split.
  - intros h. split; [done|]. intros i q Hq. by exists q.
  - intros h1 h2 h3 [A1 A2] [B1 B2]. split; [congruence|]. intros i q Hq. destruct (A2 i q Hq) as (q1 & H1 & H2 & H3 & H4).
    destruct (B2 i q1 H1) as (q2 & K1 & K2 & K3 & K4). exists q2. split_and!; [done|congruence|congruence|auto].
Qed.

Lemma isolated_persist uses h h' : isolated uses h h' -> persist h h'.
Proof.
  intros (_ & Ho & Hq). split; [apply Ho|]. intros i q Hi. destruct (Hq i q Hi) as (q' & Hq' & Hd). exists q'. split; [done|].
  unfold after_failure in Hd. destruct (decide _); [destruct (uses q)|]; [|by subst..]. destruct Hd as (H1 & H2 & H3 & H4 & H5 & H6 & H7 & H8 & H9 & H10). done.
Qed.

(** What the handlers of queued work items rely on. *)
Definition wq_env (h : hca) : Prop :=
  (forall port_num, WorkLink port_num ∈ works h -> exists p sp guid, port_env h port_num p sp guid)
  /\ (WorkInject ∈ works h -> fst (hc_inject h) ∈ [IB_EVENT_CQ_ERR; IB_EVENT_QP_FATAL; IB_EVENT_SRQ_ERR]).

(** What the execution of a work item leaves. *)
Definition item_post (h h' : hca) : Prop :=
  hca_inv h' /\ persist h h' /\ hc_lock h' = hc_lock h /\ (wq_measure h' <= wq_measure h)%nat
  /\ (wq_env h -> wq_env h') /\ (exists ws, hc_wq h' = hc_wq h ++ ws) /\ st_mem (hc_st h') = st_mem (hc_st h).

Lemma stops_post h h' : hca_inv h' -> only_stops h h' -> persist h h' -> item_post h h'.
Proof.
  intros Hi Ho Hp.
  pose proof (stops_measure h h' Ho) as Hm. pose proof (hi_works _ Hi) as Hn. unfold works in Hn. apply NoDup_app in Hn as (Hn & _ & _).
  destruct Ho as (O1 & O2 & O3 & O4 & O5 & O6 & O7 & O8 & O9 & O10 & O11 & O12 & O13 & O14 & ws & O15 & O16).
  split; [done|]. split; [done|]. split; [done|]. split; [auto|]. split; [|split; [by exists ws|done]].
  assert (forall w, (forall c, w <> WorkCq c) -> w ∈ works h' -> w ∈ works h) as Hw.
  { intros w Hne. unfold works. rewrite O15, O4, !elem_of_app. intros [[?|Hx]|?]; [tauto| |tauto]. destruct (O16 w Hx) as (c & -> & _). by destruct (Hne c). }
  intros [W1 W2]. split.
  - intros port_num Hin. destruct (W1 port_num) as (p & sp & guid & P1 & P2 & P3 & P4 & P5); [by apply Hw|]. exists p, sp, guid.
    unfold port_env. rewrite O2, O7, O6. done.
  - intros Hin. rewrite O10. apply W2. by apply Hw.
Qed.

Lemma isolated_post uses h h' : isolated uses h h' -> item_post h h'.
Proof. intros Hiso. pose proof (isolated_persist _ _ _ Hiso) as Hp. destruct Hiso as (Hi & Ho & _). by apply stops_post. Qed.

Lemma sends_inv h h' : only_sends h h' -> hca_inv h -> hca_inv h'.
Proof.
  intros (S1 & S2 & S3 & S4 & S5 & S6 & S7 & S0 & (t & S8 & _) & _) [I1 I2 I3 I4 I5 I6]. split; rewrite ?S1, ?S3, ?S8; try done.
  - intros i q Hq. destruct (I1 i q Hq) as (Hid & pd & ids & Hpd & [W1 W2 W3 W4]). split; [done|]. exists pd, ids. rewrite S2. split; [done|].
    split; [|done..]. unfold load. rewrite S8. exact W1.
  - unfold works in *. by rewrite S6, S7.
  - intros c. unfold works in *. rewrite S6, S7. apply I6.
Qed.

Lemma sends_env h h' : only_sends h h' -> forall port_num p sp guid, port_env h port_num p sp guid -> exists p', port_env h' port_num p' sp guid.
Proof.
  intros (S1 & S2 & S3 & S4 & S5 & S6 & S7 & S0 & (t & S8 & S9) & S10) k p sp guid (P1 & P2 & P3 & P4 & P5).
  specialize (S10 k). rewrite P1 in S10. destruct (hc_ports h' !! k) as [p'|] eqn:E; [|done]. exists p'. unfold port_env. rewrite S8. simpl.
  split_and!; [done|done|done|done|]. lia.
Qed.

(** The port asks the daemon for its link again. *)
Lemma connect_post h port_num p sp guid : hca_inv h -> WorkLink port_num ∉ works h -> port_env h port_num p sp guid ->
  exists h', connect_pibnetd fb port_num h = Some (tt, h') /\ item_post h h'.
Proof.
  intros Hi Hw He. assert (wp (connect_pibnetd fb port_num) (fun _ h' => item_post h h') h) as H.
  2:{ unfold wp in H. destruct (connect_pibnetd fb port_num h) as [[[] h']|]; [by exists h'|done]. }
  unfold connect_pibnetd. wp_step. apply (wp_send_raw h port_num false p sp guid); [done|]. intros h1 Hs1 _.
  pose proof (sends_inv _ _ Hs1 Hi) as Hi1. pose proof (sends_env _ _ Hs1) as Henv.
  destruct Hs1 as (S1 & S2 & S3 & S4 & S5 & S6 & S7 & S0 & (t & S8 & S9) & S10).
  unfold pib_queue_delayed_work. do 3 wp_step. unfold on_list. fold (works h1). assert (works h1 = works h) as Ew by (unfold works; by rewrite S6, S7).
  rewrite Ew, bool_decide_eq_false_2 by done. unfold BUG_ON. do 2 wp_step. set (h2 := set_field hc_timers _ h1).
  assert (works h2 = works h ++ [WorkLink port_num]) as Ew2 by (unfold works; simpl; by rewrite S6, S7, fmap_app, app_assoc).
  destruct Hi1 as [I1 I2 I3 I4 I5 I6]. split; [split; try done|].
  - rewrite Ew2. apply NoDup_app. rewrite Ew in I5. split_and!; [done| |apply NoDup_singleton].
    intros w Hw1 Hw2. apply list_elem_of_singleton in Hw2 as ->. done.
  - intros c. rewrite Ew2, elem_of_app, list_elem_of_singleton. intros [Hc|[=]]. apply I6. by rewrite Ew.
  - split; [split; [by rewrite <- S3|]; intros i q Hq; exists q; split; [simpl; by rewrite S1|done]|]. split; [exact S5|].
    split; [unfold wq_measure; simpl; rewrite S6, S8; done|]. split; [|split; [exists []; simpl; by rewrite S6, app_nil_r|simpl; by rewrite S8]].
    intros [W1 W2]. split.
    + intros k. rewrite Ew2, elem_of_app, list_elem_of_singleton. intros Hk.
      assert (exists pk spk gk, port_env h k pk spk gk) as (pk & spk & gk & Hk').
      { destruct Hk as [Hk|[= ->]]; [by apply W1|]. by exists p, sp, guid. }
      destruct (Henv _ _ _ _ Hk') as [p' Hp']. by exists p', spk, gk.
    + rewrite Ew2, elem_of_app, list_elem_of_singleton. intros [Hin|[=]]. change (hc_inject h2) with (hc_inject h1). rewrite S0. by apply W2.
Qed.

Lemma item_refl h : hca_inv h -> item_post h h.
Proof. intros Hi. split; [done|]. split; [done|]. split; [done|]. split; [done|]. split; [done|]. split; [exists []; by rewrite app_nil_r|done]. Qed.

Lemma fatal_post h i q : hca_inv h -> hc_qps h !! i = Some q -> exists h', with_qp i qp_fatal h = Some (tt, h') /\ item_post h h'.
Proof.
  intros Hi Hq. destruct (fatal_dev h i q Hi Hq) as (h' & q' & E & Hi' & Ho & Hqs & Hst & _). exists h'. split; [done|].
  apply stops_post; [done|done|]. split; [apply Ho|]. intros j qj Hj. rewrite Hqs. destruct (decide (i = j)) as [<-|Hne].
  - rewrite lookup_insert_eq. exists q'. assert (qj = q) as -> by congruence. destruct Hst as (? & ? & ? & ? & ? & ? & ? & ? & ? & ?). done.
  - rewrite lookup_insert_ne by done. by exists qj.
Qed.

(** Any work item. *)
Lemma run_work_post w h : hca_inv h -> hc_lock h = true -> w ∉ works h ->
  (forall c, w = WorkCq c -> cq_err (hc_st h) c) -> (forall k, w = WorkLink k -> exists p sp guid, port_env h k p sp guid) ->
  (w = WorkInject -> fst (hc_inject h) ∈ [IB_EVENT_CQ_ERR; IB_EVENT_QP_FATAL; IB_EVENT_SRQ_ERR]) ->
  exists h', run_work fb w h = Some (tt, h') /\ item_post h h'
  /\ forall c, w = WorkCq c -> forall i q, i ∈ hc_qp_head h -> hc_qps h !! i = Some q -> uses_cq c q = true -> qp_state <$> hc_qps h' !! i = Some IB_QPS_ERR.
Proof.
  intros Hi Hl Hw Hc Hk Hinj. destruct w as [c|k|]; simpl.
  - destruct (Hc c eq_refl) as (cq & Hcq & _). unfold cq_overflow_handler. erewrite (bind_run get) by reflexivity. rewrite Hl.
    erewrite (bind_run (BUG_ON _)) by reflexivity. destruct (cq_error_run h c cq Hi Hcq) as (h' & E & Hiso & _). exists h'. split; [done|].
    split; [by eapply isolated_post|]. intros c' [= <-] i q Hin Hq Hu. destruct Hiso as (_ & _ & H). destruct (H i q Hq) as (q' & -> & Hd).
    rewrite decide_True in Hd by done. unfold after_failure in Hd. rewrite Hu in Hd. simpl. by destruct Hd as [-> _].
  - destruct (Hk k eq_refl) as (p & sp & guid & He). unfold pib_netd_comm_handler, the_hport. erewrite (bind_run get) by reflexivity. rewrite Hl.
    erewrite (bind_run (BUG_ON _)) by reflexivity. erewrite bind_run; cycle 1.
    { erewrite (bind_run get) by reflexivity. rewrite (proj1 He). reflexivity. }
    destruct (hp_state p =? IB_PORT_DOWN).
    + destruct (connect_post h k p sp guid Hi Hw He) as (h' & E & H). exists h'. done.
    + exists h. split; [done|]. split; [by apply item_refl|done].
  - specialize (Hinj eq_refl). unfold pib_inject_err_handler. erewrite (bind_run get) by reflexivity. rewrite Hl.
    erewrite (bind_run (BUG_ON _)) by reflexivity. destruct (hc_inject h) as [type oid]. simpl in Hinj.
    assert (exists h', (match type with
      | IB_EVENT_CQ_ERR => if bool_decide (is_Some (st_cqs (hc_st h) !! oid)) then pib_util_insert_async_cq_error oid else ret tt
      | IB_EVENT_QP_FATAL => match find_by_num h oid with Some i => with_qp i qp_fatal | None => ret tt end
      | IB_EVENT_SRQ_ERR => if bool_decide (is_Some (st_srqs (hc_st h) !! oid)) then pib_util_insert_async_srq_error oid else ret tt
      | _ => bug
      end) h = Some (tt, h') /\ item_post h h') as (h' & E & H); [|by exists h'].
    assert (exists h', ret tt h = Some (tt, h') /\ item_post h h') as Hret by (exists h; split; [done|by apply item_refl]).
    rewrite !elem_of_cons in Hinj. destruct Hinj as [->|[->|[->|Hinj]]]; [| | |by apply elem_of_nil in Hinj].
    + case_bool_decide as Hs; [|done]. destruct Hs as [cq Hs]. destruct (cq_error_run h oid cq Hi Hs) as (h' & E & Hiso & _). exists h'.
      split; [done|by eapply isolated_post].
    + destruct (find_by_num h oid) as [i|] eqn:Ef; [|done]. apply find_some in Ef as [Hin%list_elem_of_In _]. destruct (hi_head _ Hi i Hin) as [q Hq].
      by apply (fatal_post h i q).
    + case_bool_decide as Hs; [|done]. destruct Hs as [srq Hs]. destruct (srq_error_run h oid srq Hi Hs) as (h' & E & Hiso). exists h'.
      split; [done|by eapply isolated_post].
Qed.

(** The first item is taken off the queue, with the lock taken. *)
Definition take_work (h : hca) : hca := h <| hc_lock := true |> <| hc_wq ::= tail |>.

Lemma take_work_inv h w rest : hca_inv h -> hc_wq h = w :: rest ->
  hca_inv (take_work h) /\ (w ∉ works (take_work h)) /\ (forall x, x ∈ works (take_work h) -> x ∈ works h)
  /\ wq_measure h = S (wq_measure (take_work h)).
Proof.
  intros [I1 I2 I3 I4 I5 I6] Hw. assert (works h = w :: works (take_work h)) as Ew by (unfold works; simpl; by rewrite Hw).
  rewrite Ew in I5. apply NoDup_cons in I5 as [Hn I5]. split; [|split; [done|split]].
  - split; try done. intros c Hc. apply I6. rewrite Ew. by right.
  - intros x Hx. rewrite Ew. by right.
  - unfold wq_measure. simpl. by rewrite Hw.
Qed.

Lemma inv_lock h b : hca_inv h -> hca_inv (h <| hc_lock := b |>).
Proof. by intros [I1 I2 I3 I4 I5 I6]. Qed.

(** Executing the queue. *)
Definition drained (h h' : hca) : Prop :=
  hca_inv h' /\ hc_lock h' = false /\ hc_wq h' = [] /\ persist h h' /\ st_mem (hc_st h') = st_mem (hc_st h)
  /\ forall c, WorkCq c ∈ hc_wq h -> forall i q, i ∈ hc_qp_head h -> hc_qps h !! i = Some q -> uses_cq c q = true ->
       qp_state <$> hc_qps h' !! i = Some IB_QPS_ERR.

Lemma drained_nil h : hca_inv h -> hc_wq h = [] -> drained h (h <| hc_lock := true |> <| hc_lock := false |>).
Proof.
  intros Hi Hw. split; [by apply inv_lock, inv_lock|]. split; [done|]. split; [exact Hw|]. split; [split; [done|]; intros i q Hq; by exists q|]. split; [done|].
  rewrite Hw. intros c Hc. by apply elem_of_nil in Hc.
Qed.

Lemma lock_run h : hc_lock h = false -> lock h = Some (tt, h <| hc_lock := true |>).
Proof. intros Hl. unfold lock. erewrite (bind_run get) by reflexivity. by rewrite Hl. Qed.

Lemma wq_nil fuel h : hc_lock h = false -> hc_wq h = [] ->
  process_on_wq_scheduler fb fuel h = Some (tt, h <| hc_lock := true |> <| hc_lock := false |>).
Proof.
  intros Hl Hw. destruct fuel; cbn [process_on_wq_scheduler]; rewrite (bind_run _ _ _ _ _ (lock_run h Hl)); erewrite (bind_run get) by reflexivity;
    change (hc_wq (h <| hc_lock := true |>)) with (hc_wq h); by rewrite Hw.
Qed.
Lemma wq_cons fuel h w rest : hc_lock h = false -> hc_wq h = w :: rest ->
  process_on_wq_scheduler fb (S fuel) h = (run_work fb w ;; unlock ;; process_on_wq_scheduler fb fuel) (take_work h).
Proof.
  intros Hl Hw. cbn [process_on_wq_scheduler]. rewrite (bind_run _ _ _ _ _ (lock_run h Hl)). erewrite (bind_run get) by reflexivity.
  change (hc_wq (h <| hc_lock := true |>)) with (hc_wq h). rewrite Hw. by erewrite (bind_run (modify _)) by reflexivity.
Qed.

Lemma drain_run fuel : forall h, hca_inv h -> hc_lock h = false -> wq_env h -> (wq_measure h <= fuel)%nat ->
  exists h', process_on_wq_scheduler fb fuel h = Some (tt, h') /\ drained h h'.
Proof.
  induction fuel as [|fuel IH]; intros h Hi Hl He Hm; destruct (hc_wq h) as [|w rest] eqn:Hw.
  1,3: rewrite wq_nil by done; eexists; split; [reflexivity|by apply drained_nil].
  - exfalso. unfold wq_measure in Hm. rewrite Hw in Hm. simpl in Hm. lia.
  - destruct (take_work_inv h w rest Hi Hw) as (Hi1 & Hw1 & Hsub & Hm1). destruct He as [He1 He2].
    assert (w ∈ works h) as Hin by (unfold works; rewrite Hw; by left).
    assert (wq_env (take_work h)) as Henv1 by (split; [intros k Hk; destruct (He1 k (Hsub _ Hk)) as (p & sp & g & Hp); by exists p, sp, g|intros Hk; by apply He2, Hsub]).
    destruct (run_work_post w (take_work h)) as (h2 & E2 & (Hi2 & Hp2 & Hl2 & Hm2 & Henv2 & [ws Hws] & Hmem2) & Hstop); try done.
    { intros c ->. apply (hi_err _ Hi). done. }
    { intros k ->. destruct (He1 k Hin) as (p & sp & g & Hp). by exists p, sp, g. }
    { intros ->. by apply He2. }
    destruct (IH (h2 <| hc_lock := false |>)) as (h' & E' & D1 & D2 & D3 & D4 & D5 & D6).
    { by apply inv_lock. }
    { done. }
    { by apply Henv2. }
    { change (wq_measure h2 <= fuel)%nat. lia. }
    exists h'. split; [rewrite (wq_cons fuel h w rest Hl Hw), (bind_run _ _ _ _ _ E2); exact E'|].
    assert (persist h h') as Hpers by (etransitivity; [|exact D4]; exact Hp2).
    split; [done|]. split; [done|]. split; [done|]. split; [done|]. split; [by rewrite D5|].
    intros c Hc i q Hih Hq Hu. rewrite Hw, elem_of_cons in Hc. destruct Hc as [<-|Hc].
    + pose proof (Hstop c eq_refl i q Hih Hq Hu) as Hst. destruct (hc_qps h2 !! i) as [q2|] eqn:E; [|done]. simpl in Hst. injection Hst as Hst.
      destruct D4 as [_ D4]. destruct (D4 i q2 E) as (q' & -> & _ & _ & H). simpl. by rewrite H.
    + destruct Hp2 as [Hh2 Hp2]. destruct (Hp2 i q Hq) as (q2 & Hq2 & Hs & Hr & _). apply (D6 c) with (q := q2); [|change (i ∈ hc_qp_head h2); by rewrite Hh2|done|].
      * change (WorkCq c ∈ hc_wq h2). rewrite Hws. apply elem_of_app. left. simpl. by rewrite Hw.
      * unfold uses_cq in *. by rewrite Hs, Hr.
Qed.

(** ** One handler, many queue pairs *)

Lemma polite_deliver port_num lrh grh bth buffer : obeys polite (deliver port_num lrh grh bth buffer).
Proof.
  pose proof (polite_pib_receive_rc_qp_incoming_message port_num lrh bth buffer). pose proof (polite_pib_receive_ud_qp_incoming_message port_num lrh grh bth buffer).
  pose proof polite_reschedule. unfold deliver, the_qp. obey; auto.
Qed.

(** ** Theorems *)

(** C10. A queue pair does not disturb the others.  When the handler of an incoming packet,
    or a pass of the scheduler, returns on a queue pair of a consistent device, it
    returns on the device as well: the work items it queued are new.  Every other
    queue pair is as it was and keeps its invariant, whatever the two share; no work
    item is queued twice, and each queued overflow handler is for a completion queue
    in error. *)
Theorem handler_isolation (h : hca) (i : Z) (q : pib_qp) (pd : Mr.pib_pd) (s : st) (m : M st unit)
    (port_num : Z) (lrh : pib_packet_lrh) (grh : option ib_grh) (bth : pib_packet_bth) (buffer : list Z)
    (Hi : hca_inv h) (Hq : hc_qps h !! i = Some q) (Hpd : hc_pds h !! qp_pd q = Some pd)
    (Hm : m = deliver port_num lrh grh bth buffer \/ m = process_on_qp_scheduler ahs) (E : m (load h q pd) = Some (tt, s)) :
  exists h', with_qp i m h = Some (tt, h') /\ hc_qps h' !! i = Some (st_qp s) /\ others_kept i h h'.
Proof.
  assert (obeys polite m) as Hp by (destruct Hm as [-> | ->]; [apply polite_deliver|apply polite_process_on_qp_scheduler]).
  exists (stored i (qp_pd q) s h). split; [by eapply with_qp_run|]. split; [apply lookup_insert_eq|]. by eapply stored_others, Hp.
Qed.


(** C39. A packet with a wrong P_Key stops the device.  The packet is counted and dropped,
    but dev->lock is not released: from then on every further packet that is looked
    up and every turn of the work queue waits for the lock for ever. *)
Theorem bad_pkey_keeps_lock (h : hca) (port_num dlid dest_qp_num i : Z) (p : hca_port) (sp : pib_port) (q : pib_qp)
    (lrh : pib_packet_lrh) (grh : option ib_grh) (bth : pib_packet_bth) (buffer : list Z)
    (Hl : hc_lock h = false) (Hp : hc_ports h !! port_num = Some p) (Hsp : st_ports (hc_st h) !! port_num = Some sp)
    (Hd : find_dest h p dest_qp_num = Some (Some i)) (Hq : hc_qps h !! i = Some q) (Hok : dlid_ok sp dlid dest_qp_num = true)
    (Hk : pkey_ok sp q dest_qp_num bth = Some false) :
  exists h', process_incoming_message_per_qp fb port_num dlid dest_qp_num lrh grh bth buffer h = Some (tt, h')
  /\ hc_lock h' = true /\ hc_qps h' = hc_qps h
  /\ (forall port_num' dlid' dest' lrh' grh' bth' buffer', process_incoming_message_per_qp fb port_num' dlid' dest' lrh' grh' bth' buffer' h' = None)
  /\ (forall fuel, process_on_wq_scheduler fb fuel h' = None).
Proof.
  unfold process_incoming_message_per_qp at 1, the_hport, the_sport.
  erewrite bind_run by (erewrite (bind_run get) by reflexivity; rewrite Hp; reflexivity).
  erewrite bind_run by (erewrite (bind_run get) by reflexivity; rewrite Hsp; reflexivity).
  rewrite (bind_run _ _ _ _ _ (lock_run h Hl)). erewrite (bind_run get) by reflexivity. change (find_dest (h <| hc_lock := true |>) p dest_qp_num) with (find_dest h p dest_qp_num).
  rewrite Hd. erewrite (bind_run (of_option _)) by reflexivity. cbv beta iota. rewrite Hok. cbn [negb].
  change (hc_qps (h <| hc_lock := true |>)) with (hc_qps h). rewrite Hq. erewrite (bind_run (of_option _)) by reflexivity. rewrite Hk.
  erewrite (bind_run (of_option _)) by reflexivity. cbn [negb]. eexists. split; [reflexivity|]. set (h' := set_field hc_ports _ _).
  assert (lock h' = None) as Hlock by reflexivity. split; [done|]. split; [done|]. split.
  - intros port_num' dlid' dest' lrh' grh' bth' buffer'. unfold process_incoming_message_per_qp, the_hport, the_sport, bind, get. clearbody h'.
    destruct (hc_ports h' !! port_num') as [p'|]; [|done]. simpl. destruct (st_ports (hc_st h') !! port_num') as [sp'|]; [|done]. simpl. by rewrite Hlock.
  - intros fuel. destruct fuel; cbn [process_on_wq_scheduler]; unfold bind at 1; by rewrite Hlock.
Qed.

End LinkThm.

(** ** Witnesses *)

Definition demo_fabric : fabric :=
  {| fb_multi_host_mode := true; fb_netd_sockaddr := Some 200; fb_lid_table := empty; fb_easy_sw_sockaddr := None |}.

Definition unknown_bth : pib_packet_bth :=
  {| bth_OpCode := IB_OPCODE_ACKNOWLEDGE; bth_se_m_padcnt_tver := 0; bth_pkey := 0x1234; bth_destQP := 7; bth_psn := 0 |}.
Definition to_demo_lrh : pib_packet_lrh := {| lrh_dlid := 1; lrh_vl_lver := 0; lrh_sl_rsv_lnh := 2; lrh_slid := 2; lrh_pktlen := 6 |}.

Lemma bad_pkey_keeps_lock_witness :
  exists h', process_incoming_message_per_qp (PP := demo_params) demo_fabric 1 1 7 to_demo_lrh None unknown_bth [] demo_hca = Some (tt, h')
  /\ hc_lock h' = true /\ hp_bad_pkey_cntr <$> hc_ports h' !! 1 = Some 1.
Proof.
  destruct (bad_pkey_keeps_lock (PP := demo_params) demo_fabric demo_hca 1 1 7 7 demo_hport
    {| port_lid := 1; port_active_mtu := IB_MTU_4096; port_pkey_table := [0xFFFF]; port_gid0_prefix := []; port_gids := [] |} demo_qp
    to_demo_lrh None unknown_bth [] eq_refl eq_refl eq_refl eq_refl eq_refl eq_refl eq_refl) as (h' & E & Hl & _).
  exists h'. split; [exact E|]. split; [exact Hl|].
  assert ((fun x => hp_bad_pkey_cntr <$> hc_ports x.2 !! 1) <$>
    process_incoming_message_per_qp (PP := demo_params) demo_fabric 1 1 7 to_demo_lrh None unknown_bth [] demo_hca = Some (Some 1)) as H by (vm_compute; reflexivity).
  rewrite E in H. simpl in H. congruence.
Defined.

(** A SEND to the queue pair 7: the queue pair 8 does not notice. *)
Definition send_bth : pib_packet_bth :=
  {| bth_OpCode := IB_OPCODE_SEND_ONLY; bth_se_m_padcnt_tver := 0; bth_pkey := 0xFFFF; bth_destQP := 7; bth_psn := 20 |}.

Lemma handler_isolation_witness :
  exists h', with_qp 7 (deliver (PP := demo_params) 1 to_demo_lrh None send_bth [7; 8; 9]) demo_hca = Some (tt, h') /\ hc_qps h' !! 8 = Some other_qp.
Proof.
  destruct (deliver (PP := demo_params) 1 to_demo_lrh None send_bth [7; 8; 9] (load demo_hca demo_qp (st_pd demo_st))) as [[[] s]|] eqn:E.
  2:{ exfalso. revert E. assert (is_Some (deliver (PP := demo_params) 1 to_demo_lrh None send_bth [7; 8; 9] (load demo_hca demo_qp (st_pd demo_st)))) as [x ->]
        by (apply (bool_decide_unpack _); vm_compute; reflexivity). done. }
  destruct (handler_isolation (PP := demo_params) empty demo_hca 7 demo_qp (st_pd demo_st) s _ 1 to_demo_lrh None send_bth [7; 8; 9]
    demo_hca_inv eq_refl eq_refl (or_introl eq_refl) E) as (h' & E' & _ & O1 & _).
  exists h'. split; [exact E'|]. rewrite O1 by done. reflexivity.
Defined.

(** The completion queue 1 overflowed; its handler and the one of the link are queued. *)
Definition gid_port : pib_port :=
  {| port_lid := 1; port_active_mtu := IB_MTU_4096; port_pkey_table := [0xFFFF]; port_gid0_prefix := []; port_gids := [replicate 16 1] |}.
Definition gid_hca : hca := set_st ((hc_st demo_hca) <| st_ports := {[ 1 := gid_port ]} |>) demo_hca.
Definition overflow_hca : hca := set_st (cq_failed 1 (demo_cq 1) (hc_st gid_hca)) gid_hca <| hc_wq := [WorkCq 1; WorkLink 1] |>.

Lemma gid_hca_inv : hca_inv gid_hca.
Proof. apply set_st_inv; auto using demo_hca_inv. exact (hi_keys _ demo_hca_inv). Qed.

Lemma overflow_hca_inv : hca_inv overflow_hca.
Proof.
  destruct (cq_failed_inv gid_hca 1 (demo_cq 1) gid_hca_inv eq_refl) as ([I1 I2 I3 I4 _ _] & _ & He). split; try done.
  - apply (bool_decide_unpack _). vm_compute. reflexivity.
  - intros c Hc. change (WorkCq c ∈ [WorkCq 1; WorkLink 1]) in Hc. rewrite !elem_of_cons, elem_of_nil in Hc. destruct Hc as [[= ->]|[[=]|[]]]. exact He.
Qed.

