(* ===== verification/Load.v ===== *)
(** * Loading and unloading the module (driver/pib_main.c, pib_thread.c, pib_easy_sw.c,
      pib_debugfs.c)

    pib_init acquires in turn everything the driver needs, and releases what it has when
    an acquisition fails; pib_cleanup releases everything.  A resource is known by the
    variable that points to it.  [ld_live] are the resources that exist, [ld_ptr] the
    variables that are not NULL: releasing through a dangling pointer, and handing NULL
    to a function that does not take it, is [None].  Which acquisitions succeed is an
    argument. *)

From S2P Require Import Prelude Verbs.

(** ** State *)

Inductive kind :=
  | KNetdSockaddr | KClass | KParent | KLidTable | KCache
  | KSwPorts | KSwBuffer | KSwUcast | KSwMcast | KSwSocket | KSwSockaddr | KSwTask
  | KDev | KMcastTable | KPorts | KObjNumBitmap | KRegistered | KSendBuffer | KRecvBuffer | KSocket | KSockaddr | KTask | KAttrFile
  | KDebugRoot | KDebugDir | KInjectErr | KTraceFile | KTraceData | KInspection.

Definition kinds : list kind :=
  [KNetdSockaddr; KClass; KParent; KLidTable; KCache; KSwPorts; KSwBuffer; KSwUcast; KSwMcast; KSwSocket; KSwSockaddr; KSwTask;
   KDev; KMcastTable; KPorts; KObjNumBitmap; KRegistered; KSendBuffer; KRecvBuffer; KSocket; KSockaddr; KTask; KAttrFile;
   KDebugRoot; KDebugDir; KInjectErr; KTraceFile; KTraceData; KInspection].

#[export] Instance kind_eq_dec : EqDecision kind.
Proof. solve_decision. Defined.
#[export] Program Instance kind_countable : Countable kind :=
  {| encode k := encode (fst <$> list_find (eq k) kinds); decode p := n ← decode (A := option nat) p; n ≫= fun i => kinds !! i |}.
Next Obligation. by intros []. Qed.

(** A variable: its kind, the device it belongs to and an index. *)
Definition res : Type := kind * Z * Z.

Record load_st := { ld_live : gset res; ld_ptr : gset res }.
#[export] Instance eta_load_st : Eta load_st := fun s => {| ld_live := ld_live s; ld_ptr := ld_ptr s |}.
Definition load_empty : load_st := {| ld_live := ∅; ld_ptr := ∅ |}.

Section Load.
(** The module parameters; whether in4_pton or in6_pton accepts the address; which
    acquisitions succeed, and which calls of kernel_bind and kernel_getsockname on a
    socket; whether the allocation of a struct sockaddr_in succeeds; the number of class
    attributes, and what a call that fails returns. *)
Context (pib_num_hca pib_phys_port_cnt : Z) (server_addr : bool) (server_port : Z) (addr_ok : bool)
  (ok : res -> bool) (bind_ok getsockname_ok : res -> bool) (kzalloc_ok : bool) (nr_attrs : nat) (errno : Z).

Definition PIB_DEBUGFS_LAST : Z := 7.

(** ** The kernel *)

(** An acquisition stored in the variable [r]; the variable is NULL when it fails.  What
    the variable pointed to must be gone, or it would be lost. *)
Definition acquire (r : res) : M load_st bool :=
  let! s := get in
  BUG_ON (bool_decide (r ∈ ld_live s)) ;;
  if ok r then modify (fun s => s <| ld_live ::= union {[ r ]} |> <| ld_ptr ::= union {[ r ]} |>) ;; ret true
  else modify (fun s => s <| ld_ptr ::= fun p => p ∖ {[ r ]} |>) ;; ret false.

Definition is_set (r : res) : M load_st bool := gets (fun s => bool_decide (r ∈ ld_ptr s)).
Definition set_null (r : res) : M load_st unit := modify (fun s => s <| ld_ptr ::= fun p => p ∖ {[ r ]} |>).

(** A function that does not take NULL. *)
Definition release (r : res) : M load_st unit :=
  let! s := get in
  BUG_ON (negb (bool_decide (r ∈ ld_ptr s)) || negb (bool_decide (r ∈ ld_live s))) ;;
  modify (fun s => s <| ld_live ::= fun l => l ∖ {[ r ]} |>).
(** vfree and kfree take NULL. *)
Definition vfree (r : res) : M load_st unit := let! b := is_set r in when b (release r).
Definition kfree := vfree.

(** The members of a device, and the device itself, are gone with it. *)
Definition dev_kinds : list kind :=
  [KDev; KMcastTable; KPorts; KObjNumBitmap; KRegistered; KSendBuffer; KRecvBuffer; KSocket; KSockaddr; KTask; KAttrFile;
   KDebugDir; KInjectErr; KTraceFile; KTraceData; KInspection].
Definition of_dev (d : Z) (r : res) : bool := bool_decide (r.1.1 ∈ dev_kinds) && (r.1.2 =? d).

Definition ib_dealloc_device (d : Z) : M load_st unit :=
  release (KDev, d, 0) ;;
  modify (fun s => s <| ld_ptr ::= filter (fun r => of_dev d r = false) |>).

(** The files of the class attributes go with the device's directory. *)
Definition ib_unregister_device (d : Z) : M load_st unit :=
  release (KRegistered, d, 0) ;;
  set_null (KRegistered, d, 0) ;;
  modify (fun s => s <| ld_live ::= filter (fun r => (r.1.1, r.1.2) <> (KAttrFile, d)) |>
                     <| ld_ptr ::= filter (fun r => (r.1.1, r.1.2) <> (KAttrFile, d)) |>).

(** ** Sockets and the device thread (pib_thread.c) *)

(** Three calls can fail before the socket is in place; the socket is released when
    one of the last two does.  The result of kzalloc is not checked. *)
Definition create_socket (sock sockaddr : res) : M load_st Z :=
  let! b := acquire sock in
  if negb b then ret errno
  else
    let err_sock := release sock ;; set_null sock ;; ret errno in
    if negb (bind_ok sock) then err_sock
    else if negb (getsockname_ok sock) then err_sock
    else
      BUG_ON (negb kzalloc_ok) ;;
      modify (fun s => s <| ld_live ::= union {[ sockaddr ]} |> <| ld_ptr ::= union {[ sockaddr ]} |>) ;;
      ret 0.

Definition release_socket (sock sockaddr : res) : M load_st unit :=
  let! b := is_set sockaddr in
  when b (kfree sockaddr ;; set_null sockaddr) ;;
  let! b := is_set sock in
  when b (release sock ;; set_null sock).

Definition release_port_socket (d port_num : Z) : M load_st unit := release_socket (KSocket, d, port_num) (KSockaddr, d, port_num).

(** The loop over the ports; [done] are those with a socket, the last one first. *)
Fixpoint create_sockets (d : Z) (ports done : list Z) : M load_st Z :=
  match ports with
  | [] => ret 0
  | port_num :: ports' =>
      let! r := create_socket (KSocket, d, port_num) (KSockaddr, d, port_num) in
      if r <? 0 then for_each (release_port_socket d) done ;; ret r
      else create_sockets d ports' (port_num :: done)
  end.

Definition all_ports : list Z := seqZ 1 pib_phys_port_cnt.

Definition pib_create_kthread (d : Z) : M load_st Z :=
  let err_recv_vmalloc r := vfree (KSendBuffer, d, 0) ;; set_null (KSendBuffer, d, 0) ;; ret r in
  let err_sock r := vfree (KRecvBuffer, d, 0) ;; set_null (KRecvBuffer, d, 0) ;; err_recv_vmalloc r in
  let! b := acquire (KSendBuffer, d, 0) in
  if negb b then ret (- ENOMEM)
  else
    let! b := acquire (KRecvBuffer, d, 0) in
    if negb b then err_recv_vmalloc (- ENOMEM)
    else
      let! r := create_sockets d all_ports [] in
      if r <? 0 then err_sock r
      else
        let! b := acquire (KTask, d, 0) in
        if negb b then for_each (release_port_socket d) (rev all_ports) ;; err_sock errno
        else ret 0.

Definition pib_release_kthread (d : Z) : M load_st unit :=
  let! b := is_set (KTask, d, 0) in
  when b (release (KTask, d, 0) ;; set_null (KTask, d, 0)) ;;
  for_each (release_port_socket d) (rev all_ports) ;;
  vfree (KRecvBuffer, d, 0) ;; set_null (KRecvBuffer, d, 0) ;;
  vfree (KSendBuffer, d, 0) ;; set_null (KSendBuffer, d, 0).

(** ** Devices (pib_main.c) *)

Fixpoint create_files (d : Z) (n : nat) (i : Z) : M load_st bool :=
  match n with
  | O => ret true
  | S n =>
      let! b := acquire (KAttrFile, d, i) in
      if b then create_files d n (i + 1)
      else
        for_each (fun j => release (KAttrFile, d, j) ;; set_null (KAttrFile, d, j)) (rev (seqZ 0 i)) ;;
        ret false
  end.

(** Whether the device was added.  init_port does not fail. *)
Definition pib_dev_add (d : Z) : M load_st bool :=
  let err_mcast_table := ib_dealloc_device d ;; ret false in
  let err_ports := vfree (KMcastTable, d, 0) ;; err_mcast_table in
  let err_obj_num_bitmap := vfree (KPorts, d, 0) ;; err_ports in
  let err_register_ibdev := vfree (KObjNumBitmap, d, 0) ;; err_obj_num_bitmap in
  let err_create_kthread := ib_unregister_device d ;; err_register_ibdev in
  let err_create_file := pib_release_kthread d ;; err_create_kthread in
  let! b := acquire (KDev, d, 0) in
  if negb b then ret false
  else
    let! b := acquire (KMcastTable, d, 0) in
    if negb b then err_mcast_table
    else
      let! b := acquire (KPorts, d, 0) in
      if negb b then err_ports
      else
        let! b := acquire (KObjNumBitmap, d, 0) in
        if negb b then err_obj_num_bitmap
        else
          let! b := acquire (KRegistered, d, 0) in
          if negb b then err_register_ibdev
          else
            let! r := pib_create_kthread d in
            if negb (r =? 0) then err_create_kthread
            else
              let! b := create_files d nr_attrs 0 in
              if negb b then err_create_file else ret true.

(** Timers of the work queue and address handles are not resources of the module. *)
Definition pib_dev_remove (d : Z) : M load_st unit :=
  ib_unregister_device d ;;
  pib_release_kthread d ;;
  vfree (KPorts, d, 0) ;;
  vfree (KObjNumBitmap, d, 0) ;;
  vfree (KMcastTable, d, 0) ;;
  ib_dealloc_device d.

(** [if (pib_devs[j]) { pib_dev_remove(pib_devs[j]); pib_devs[j] = NULL; }] *)
Definition remove_hca (d : Z) : M load_st unit :=
  let! b := is_set (KDev, d, 0) in
  when b (pib_dev_remove d).

(** ** The caches *)

Definition caches : list Z := seqZ 0 10.

Fixpoint pib_kmem_cache_create (l : list Z) : M load_st Z :=
  match l with
  | [] => ret 0
  | k :: l' => let! b := acquire (KCache, 0, k) in if b then pib_kmem_cache_create l' else ret (-1)
  end.

Definition pib_kmem_cache_destroy : M load_st unit :=
  for_each (fun k => let! b := is_set (KCache, 0, k) in when b (release (KCache, 0, k))) caches ;;
  for_each (fun k => set_null (KCache, 0, k)) caches.

(** ** The switch inside the driver (pib_easy_sw.c) *)

Definition sw (k : kind) : res := (k, 0, 0).

(** The socket of the switch, with the same calls as that of a port. *)
Definition sw_create_socket : M load_st Z := create_socket (sw KSwSocket) (sw KSwSockaddr).
Definition sw_release_socket : M load_st unit := release_socket (sw KSwSocket) (sw KSwSockaddr).

(** [ret] is 0 until the socket is created. *)
Definition pib_create_switch : M load_st Z :=
  let err_vmalloc_ports r := ret r in
  let err_vmalloc_buffer r := vfree (sw KSwPorts) ;; err_vmalloc_ports r in
  let err_vmalloc_ucast_fwd_table r := vfree (sw KSwBuffer) ;; err_vmalloc_buffer r in
  let err_vmalloc_mcast_fwd_table r := vfree (sw KSwUcast) ;; err_vmalloc_ucast_fwd_table r in
  let err_sock r := vfree (sw KSwMcast) ;; err_vmalloc_mcast_fwd_table r in
  let! b := acquire (sw KSwPorts) in
  if negb b then err_vmalloc_ports 0
  else
    let! b := acquire (sw KSwBuffer) in
    if negb b then err_vmalloc_buffer 0
    else
      let! b := acquire (sw KSwUcast) in
      if negb b then err_vmalloc_ucast_fwd_table 0
      else
        let! b := acquire (sw KSwMcast) in
        if negb b then err_vmalloc_mcast_fwd_table 0
        else
          let! r := sw_create_socket in
          if r <? 0 then err_sock r
          else
            let! b := acquire (sw KSwTask) in
            if negb b then sw_release_socket ;; err_sock errno
            else ret 0.

Definition pib_release_switch : M load_st unit :=
  release (sw KSwTask) ;;
  sw_release_socket ;;
  vfree (sw KSwMcast) ;;
  vfree (sw KSwUcast) ;;
  vfree (sw KSwBuffer) ;;
  vfree (sw KSwPorts).

(** ** The debug file system (pib_debugfs.c) *)

Definition remove_if_set (r : res) : M load_st unit :=
  let! b := is_set r in
  when b (release r ;; set_null r).

Definition inspections : list Z := seqZ 0 PIB_DEBUGFS_LAST.

Definition unregister_dev (d : Z) : M load_st unit :=
  for_each (fun i => remove_if_set (KInspection, d, i)) (rev inspections) ;;
  remove_if_set (KInjectErr, d, 0) ;;
  remove_if_set (KTraceData, d, 0) ;;
  remove_if_set (KTraceFile, d, 0) ;;
  remove_if_set (KDebugDir, d, 0).

(** Acquisitions up to the first that fails. *)
Fixpoint acquire_all (l : list res) : M load_st bool :=
  match l with
  | [] => ret true
  | r :: l' => let! b := acquire r in if b then acquire_all l' else ret false
  end.

Definition register_dev (d : Z) : M load_st Z :=
  let! b := acquire_all ([(KDebugDir, d, 0); (KInjectErr, d, 0); (KTraceFile, d, 0); (KTraceData, d, 0)]
                         ++ ((fun i => (KInspection, d, i)) <$> inspections)) in
  if b then ret 0 else unregister_dev d ;; ret (- ENOMEM).

Fixpoint register_devs (l done : list Z) : M load_st Z :=
  match l with
  | [] => ret 0
  | d :: l' =>
      let! r := register_dev d in
      if negb (r =? 0) then
        for_each unregister_dev (rev done) ;;
        release (sw KDebugRoot) ;; set_null (sw KDebugRoot) ;;
        ret (- ENOMEM)
      else register_devs l' (d :: done)
  end.

Definition all_hcas : list Z := seqZ 0 pib_num_hca.

Definition pib_register_debugfs : M load_st Z :=
  let! b := acquire (sw KDebugRoot) in
  if negb b then ret (- ENOMEM) else register_devs all_hcas [].

Definition pib_unregister_debugfs : M load_st unit :=
  let! b := is_set (sw KDebugRoot) in
  when b (
    for_each (fun d => let! b := is_set (KDev, d, 0) in BUG_ON (negb b) ;; unregister_dev d) all_hcas ;;
    release (sw KDebugRoot) ;;
    set_null (sw KDebugRoot)).

(** ** The module (pib_main.c) *)

(** The result and pib_multi_host_mode. *)
Definition parse_multi_host_mode : M load_st (Z * bool) :=
  if negb server_addr then ret (0, false)
  else if (server_port =? 0) || (65536 <=? server_port) then ret (- EINVAL, false)
  else
    let! b := acquire (sw KNetdSockaddr) in
    if negb b then ret (- ENOMEM, false)
    else if negb addr_ok then kfree (sw KNetdSockaddr) ;; set_null (sw KNetdSockaddr) ;; ret (0, false)
    else ret (0, true).

(** Whether all devices were added; [done] are those before, the last one first. *)
Fixpoint add_hcas (l done : list Z) : M load_st (bool * list Z) :=
  match l with
  | [] => ret (true, done)
  | d :: l' =>
      let! b := pib_dev_add d in
      if b then add_hcas l' (d :: done) else ret (false, done)
  end.

(** The labels at the end of pib_init. *)
Definition err_device_create (err : Z) : M load_st Z :=
  release (sw KClass) ;; set_null (sw KClass) ;; ret err.
Definition err_alloc_lid_table (err : Z) : M load_st Z :=
  release (sw KParent) ;; set_null (sw KParent) ;; err_device_create err.
Definition err_kmem_cache_destroy (err : Z) : M load_st Z :=
  vfree (sw KLidTable) ;; set_null (sw KLidTable) ;; err_alloc_lid_table err.
Definition err_create_switch (err : Z) : M load_st Z :=
  let! b := is_set (sw KNetdSockaddr) in
  when b (kfree (sw KNetdSockaddr) ;; set_null (sw KNetdSockaddr)) ;;
  pib_kmem_cache_destroy ;;
  err_kmem_cache_destroy err.
Definition err_ib_add (done : list Z) (err : Z) : M load_st Z :=
  for_each remove_hca done ;;
  pib_release_switch ;;
  err_create_switch err.

Definition pib_init : M load_st Z :=
  let! (err, pib_multi_host_mode) := parse_multi_host_mode in
  if err <? 0 then ret err
  else if (pib_num_hca <? 1) || (PIB_MAX_HCA <? pib_num_hca) then ret (- EINVAL)
  else if (pib_phys_port_cnt <? 1) || (PIB_MAX_PORTS <? pib_phys_port_cnt) then ret (- EINVAL)
  else if negb pib_multi_host_mode && (pib_num_hca * pib_phys_port_cnt <? 2) then ret (- EINVAL)
  else
    let! b := acquire (sw KClass) in
    if negb b then ret errno
    else
      let! b := acquire (sw KParent) in
      if negb b then err_device_create errno
      else
        let! b := if pib_multi_host_mode then ret true else acquire (sw KLidTable) in
        if negb b then err_alloc_lid_table err
        else
          let! r := pib_kmem_cache_create caches in
          if negb (r =? 0) then pib_kmem_cache_destroy ;; err_kmem_cache_destroy (- ENOMEM)
          else
            let! r := if pib_multi_host_mode then ret 0 else pib_create_switch in
            if negb (r =? 0) then err_create_switch err
            else
              let! (b, done) := add_hcas all_hcas [] in
              if negb b then err_ib_add done (-1)
              else
                let! r := pib_register_debugfs in
                if negb (r =? 0) then err_ib_add done err else ret 0.

Definition pib_cleanup (pib_multi_host_mode : bool) : M load_st unit :=
  pib_unregister_debugfs ;;
  for_each remove_hca (rev all_hcas) ;;
  when (negb pib_multi_host_mode) pib_release_switch ;;
  let! b := is_set (sw KNetdSockaddr) in
  when b (kfree (sw KNetdSockaddr)) ;;
  pib_kmem_cache_destroy ;;
  remove_if_set (sw KLidTable) ;;
  remove_if_set (sw KParent) ;;
  remove_if_set (sw KClass).
End Load.
