(* ===== verification/LoadInv.v ===== *)
(** * What each function of unloading releases

    The resources of the functions of [Load] as sets, nested in the order of acquisition;
    each function of unloading releases exactly its set. *)

From S2P Require Import Prelude Verbs Load.

(** ** The primitives

    [at_ dead L s]: exactly [L] exists, every variable of it is set, and a variable that
    is set without need is one of [dead], through which nothing is released. *)
Definition at_ (dead : res -> Prop) (L : gset res) (s : load_st) : Prop :=
  ld_live s = L /\ (forall r, r ∈ L -> r ∈ ld_ptr s) /\ (forall r, r ∈ ld_ptr s -> r ∈ L \/ dead r).

Definition sock_pair (sock sockaddr : res) (L : gset res) : gset res := {[ sockaddr ]} ∪ ({[ sock ]} ∪ L).

(** The sockets of the ports, the last one first. *)
Definition socks (d : Z) (done : list Z) (L : gset res) : gset res :=
  foldr (fun p => sock_pair (KSocket, d, p) (KSockaddr, d, p)) L done.

Lemma elem_socks d done L r : r ∈ socks d done L <-> r ∈ L \/ exists p, p ∈ done /\ (r = (KSocket, d, p) \/ r = (KSockaddr, d, p)).
Proof. induction done as [|p done IH]; simpl; [set_solver|]. unfold sock_pair. rewrite !elem_of_union, !elem_of_singleton, IH. set_solver. Qed.

(** No resource of these kinds of the device exists. *)
Definition free_of (ks : list kind) (d : Z) (L : gset res) : Prop := forall k i, k ∈ ks -> (k, d, i) ∉ L.

Ltac free_tac :=
  repeat rewrite ?elem_of_union, ?elem_of_singleton, ?elem_socks;
  repeat match goal with H : free_of ?ks ?d ?L |- context [(?k, ?d, ?i) ∈ ?L] => lazymatch goal with _ : (k, d, i) ∉ L |- _ => fail | _ => assert ((k, d, i) ∉ L) by (apply H; set_solver) end end;
  naive_solver.

Section LoadInv.
Context (pib_phys_port_cnt : Z) (nr_attrs : nat).

Abbreviation pib_release_kthread := (pib_release_kthread pib_phys_port_cnt).
Abbreviation pib_dev_remove := (pib_dev_remove pib_phys_port_cnt).

Lemma at_weaken (dead dead' : res -> Prop) L s : (forall r, dead r -> dead' r) -> at_ dead L s -> at_ dead' L s.
Proof. intros Hd (H1 & H2 & H3). split_and!; [done..|]. intros r Hr. destruct (H3 r Hr); auto. Qed.

Lemma wp_is_set dead L r Q s : at_ dead L s -> (r ∈ L -> Q true s) -> (r ∉ L -> ~ dead r -> Q false s) -> (r ∈ L \/ ~ dead r) -> wp (is_set r) Q s.
Proof.
  intros (H1 & H2 & H3) Ht Hf Hd. unfold is_set. wp_step. destruct (decide (r ∈ L)) as [Hr|Hr].
  - rewrite (bool_decide_eq_true_2 _ (H2 r Hr)). auto.
  - destruct Hd as [|Hd]; [done|]. rewrite bool_decide_eq_false_2; [auto|]. intros Hp. destruct (H3 r Hp); done.
Qed.

Lemma wp_release dead L r Q s : at_ dead ({[ r ]} ∪ L) s -> r ∉ L -> (forall s', at_ (fun x => dead x \/ x = r) L s' -> Q tt s') -> wp (release r) Q s.
Proof.
  intros (H1 & H2 & H3) Hr HQ. unfold release. do 3 wp_step. apply wp_BUG_ON.
  - rewrite H1, !bool_decide_eq_true_2 by (first [apply H2|idtac]; set_solver). done.
  - wp_step. apply HQ. unfold at_. simpl. rewrite H1. split_and!; [set_solver|intros x Hx; apply H2; set_solver|].
    intros x Hx. destruct (H3 x Hx) as [Hx'|]; [|auto]. apply elem_of_union in Hx' as [->%elem_of_singleton|]; auto.
Qed.

Lemma wp_vfree dead L r Q s : at_ dead ({[ r ]} ∪ L) s -> r ∉ L -> (forall s', at_ (fun x => dead x \/ x = r) L s' -> Q tt s') -> wp (vfree r) Q s.
Proof.
  intros H Hr HQ. unfold vfree. wp_step. eapply wp_is_set; [done| |set_solver|left; set_solver]. intros _. wp_step; [|done]. by eapply wp_release.
Qed.

Lemma wp_set_null (dead dead' : res -> Prop) L r Q s : at_ dead L s -> r ∉ L -> (forall x, dead x -> x = r \/ dead' x) -> (forall s', at_ dead' L s' -> Q tt s') -> wp (set_null r) Q s.
Proof.
  intros (H1 & H2 & H3) Hr Hd HQ. unfold set_null. wp_step. apply HQ. unfold at_. simpl. split_and!; [done|set_solver|].
  intros x [Hx Hne]%elem_of_difference. destruct (H3 x Hx) as [|Hx']; [auto|]. destruct (Hd x Hx'); set_solver.
Qed.

(** A resource released through a variable that is cleared. *)
Lemma wp_drop dead L r Q s : at_ dead ({[ r ]} ∪ L) s -> r ∉ L -> (forall s', at_ dead L s' -> Q tt s') -> wp (release r ;; set_null r) Q s.
Proof. intros H Hr HQ. wp_step. eapply wp_release; [done..|]. intros s' H'. eapply (wp_set_null _ dead); [done|done|intros x [?|?]; auto|done]. Qed.

Lemma wp_vdrop {A} dead L r (m : M load_st A) Q s : at_ dead ({[ r ]} ∪ L) s -> r ∉ L -> (forall s', at_ dead L s' -> wp m Q s') ->
  wp (vfree r ;; set_null r ;; m) Q s.
Proof.
  intros H Hr HQ. wp_step. eapply wp_vfree; [done..|]. intros s' H'. wp_step. eapply (wp_set_null _ dead); [done|done|intros x [?|?]; auto|by apply HQ].
Qed.

Lemma wp_remove_if_set dead L r Q s : at_ dead L s -> ~ dead r -> (forall s', at_ dead (L ∖ {[ r ]}) s' -> Q tt s') -> wp (remove_if_set r) Q s.
Proof.
  intros H Hd HQ. unfold remove_if_set. wp_step. eapply wp_is_set; [done| | |by right].
  - intros Hr. wp_step; [|done]. eapply (wp_drop dead (L ∖ {[ r ]})); [|set_solver|done]. rewrite <-union_difference_singleton_L; done.
  - intros Hr _. wp_step; [done|]. apply HQ. by replace (L ∖ {[ r ]}) with L by set_solver.
Qed.

Lemma wp_remove_all {A} (f : A -> res) dead l : forall L Q s, at_ dead L s -> (forall x, x ∈ l -> ~ dead (f x)) ->
  (forall s', at_ dead (L ∖ list_to_set (f <$> l)) s' -> Q tt s') -> wp (for_each (fun x => remove_if_set (f x)) l) Q s.
Proof.
  induction l as [|x l IH]; intros L Q s H Hd HQ; simpl; wp_step.
  - apply HQ. assert (L ∖ list_to_set (f <$> []) = L) as -> by set_solver. done.
  - eapply wp_remove_if_set; [done|apply Hd; by left|]. intros s' H'. eapply IH; [done|intros y Hy; apply Hd; by right|].
    intros s'' H''. apply HQ. assert (L ∖ list_to_set (f <$> x :: l) = L ∖ {[f x]} ∖ list_to_set (f <$> l)) as -> by set_solver. done.
Qed.

(** ** Sockets and the thread *)

Lemma wp_release_socket dead L sock addr Q s : at_ dead (sock_pair sock addr L) s -> sock ∉ L -> addr ∉ L -> sock <> addr ->
  (forall s', at_ dead L s' -> Q tt s') -> wp (release_socket sock addr) Q s.
Proof.
  intros H Hs Ha Hne HQ. unfold release_socket. wp_step. eapply wp_is_set; [done| |unfold sock_pair; set_solver|left; unfold sock_pair; set_solver].
  intros _. do 2 wp_step; [|done]. wp_step. eapply wp_vfree; [done|set_solver|]. intros s1 H1. eapply (wp_set_null _ dead); [done|set_solver|intros x [?|?]; auto|].
  intros s2 H2. wp_step. eapply wp_is_set; [done| |set_solver|left; set_solver]. intros _. wp_step; [|done]. by eapply wp_drop.
Qed.

Lemma wp_release_sockets dead d : forall done L Q s, NoDup done -> at_ dead (socks d done L) s ->
  (forall p, p ∈ done -> ((KSocket, d, p) ∉ L) /\ ((KSockaddr, d, p) ∉ L)) -> (forall s', at_ dead L s' -> Q tt s') ->
  wp (for_each (release_port_socket d) done) Q s.
Proof.
  induction done as [|p done IH]; intros L Q s Hn H Hf HQ; simpl; wp_step; [by apply HQ|]. apply NoDup_cons in Hn as [Hp Hn].
  destruct (Hf p ltac:(by left)) as [F1 F2]. eapply (wp_release_socket dead (socks d done L)); [done|rewrite elem_socks; set_solver..|done|].
  intros s' H'. eapply IH; [done|done|intros q Hq; apply Hf; by right|done].
Qed.

Definition kthread_kinds : list kind := [KTask; KSocket; KSockaddr; KRecvBuffer; KSendBuffer].
Definition kthread (d : Z) (L : gset res) : gset res :=
  {[ (KTask, d, 0) ]} ∪ socks d (rev (all_ports pib_phys_port_cnt)) ({[ (KRecvBuffer, d, 0) ]} ∪ ({[ (KSendBuffer, d, 0) ]} ∪ L)).

Lemma ports_nodup : NoDup (all_ports pib_phys_port_cnt).
Proof. apply NoDup_seqZ. Qed.
Lemma rev_ports_nodup : NoDup (rev (all_ports pib_phys_port_cnt)).
Proof. rewrite <-Permutation_rev. apply ports_nodup. Qed.

Lemma wp_pib_release_kthread dead d L Q s : at_ dead (kthread d L) s -> free_of kthread_kinds d L ->
  (forall s', at_ dead L s' -> Q tt s') -> wp (pib_release_kthread d) Q s.
Proof.
  intros H Hf HQ. unfold Load.pib_release_kthread. wp_step. eapply wp_is_set; [done| |unfold kthread; set_solver|left; unfold kthread; set_solver].
  intros _. do 2 wp_step; [|done]. eapply wp_drop; [done|free_tac|]. intros s1 H1. wp_step.
  eapply wp_release_sockets; [apply rev_ports_nodup|done|intros p _; split; free_tac|].
  intros s2 H2. eapply wp_vdrop; [done|free_tac|]. intros s3 H3. wp_step. eapply wp_vfree; [done|free_tac|]. intros s4 H4.
  eapply (wp_set_null _ dead); [done|free_tac|intros x [?|?]; auto|done].
Qed.

(** ** Devices *)

Definition files (d : Z) (n : nat) (L : gset res) : gset res := list_to_set ((fun i => (KAttrFile, d, i)) <$> seqZ 0 (Z.of_nat n)) ∪ L.

Lemma files_snoc d i L : 0 <= i -> {[ (KAttrFile, d, i) ]} ∪ files d (Z.to_nat i) L = files d (S (Z.to_nat i)) L.
Proof.
  intros Hi. unfold files. rewrite Nat2Z.inj_succ, Z2Nat.id by done. replace (Z.succ i) with (i + 1) by lia. rewrite seqZ_app by lia.
  rewrite fmap_app, list_to_set_app_L. change (seqZ (0 + i) 1) with [0 + i]. simpl. rewrite Z.add_0_l. set_solver.
Qed.

Lemma wp_drop_files dead d : forall n L Q s, at_ dead (files d n L) s -> free_of [KAttrFile] d L -> (forall s', at_ dead L s' -> Q tt s') ->
  wp (for_each (fun j => release (KAttrFile, d, j) ;; set_null (KAttrFile, d, j)) (rev (seqZ 0 (Z.of_nat n)))) Q s.
Proof.
  induction n as [|n IH]; intros L Q s H Hf HQ.
  - change (rev (seqZ 0 (Z.of_nat 0))) with (@nil Z). apply wp_ret, HQ. by assert (files d 0 L = L) as <- by (unfold files; set_solver).
  - replace (Z.of_nat (S n)) with (Z.of_nat n + 1) by lia. rewrite seqZ_app, rev_app_distr by lia. change (seqZ (0 + Z.of_nat n) 1) with [0 + Z.of_nat n].
    simpl. rewrite Z.add_0_l. wp_step. eapply wp_drop; [| |intros s' H'; by eapply IH].
    + rewrite <-(Nat2Z.id n), <-files_snoc in H by lia. by rewrite Nat2Z.id in H.
    + unfold files. rewrite elem_of_union, elem_of_list_to_set, list_elem_of_fmap. intros [(j & [= ->] & Hj%elem_of_seqZ)|Hin]; [lia|]. revert Hin. apply Hf. by left.
Qed.

Definition fresh (d : Z) (L : gset res) : Prop := forall r, r ∈ L -> of_dev d r = false.

Lemma fresh_free d L ks : fresh d L -> (forall k, k ∈ ks -> k ∈ dev_kinds) -> free_of ks d L.
Proof.
  intros H Hk k i Hin Hr. specialize (H _ Hr). unfold of_dev in H. simpl in H. rewrite Z.eqb_refl, bool_decide_eq_true_2 in H by auto. done.
Qed.

Lemma wp_ib_dealloc_device dead d L Q s : at_ (fun r => dead r \/ of_dev d r = true) ({[ (KDev, d, 0) ]} ∪ L) s -> fresh d L ->
  (forall s', at_ dead L s' -> Q tt s') -> wp (ib_dealloc_device d) Q s.
Proof.
  intros H Hf HQ. unfold ib_dealloc_device. wp_step. eapply wp_release; [done|apply (fresh_free d L [KDev]); [done|set_solver|by left]|].
  intros s1 (A1 & A2 & A3). wp_step. apply HQ. unfold at_. simpl. split_and!; [done| |].
  - intros r Hr. apply elem_of_filter. auto.
  - intros r [Hd Hr]%elem_of_filter. destruct (A3 r Hr) as [|[[|Hd']| ->]]; [by left|by right|congruence|].
    unfold of_dev in Hd. simpl in Hd. by rewrite Z.eqb_refl in Hd.
Qed.

Lemma wp_ib_unregister_device dead d L1 L2 Q s : at_ dead L1 s -> (KRegistered, d, 0) ∈ L1 ->
  (forall r, r ∈ L2 <-> r ∈ L1 /\ r <> (KRegistered, d, 0) /\ (r.1.1, r.1.2) <> (KAttrFile, d)) -> (forall s', at_ dead L2 s' -> Q tt s') ->
  wp (ib_unregister_device d) Q s.
Proof.
  intros H Hreg HL HQ. unfold ib_unregister_device. wp_step. eapply (wp_release dead (L1 ∖ {[ (KRegistered, d, 0) ]})); [|set_solver|].
  { by rewrite <-union_difference_singleton_L. }
  intros s1 H1. wp_step. eapply (wp_set_null _ dead); [done|set_solver|intros x [?|?]; auto|]. intros s2 (A1 & A2 & A3). wp_step. apply HQ.
  unfold at_. simpl. split_and!.
  - rewrite A1. apply set_eq. intros r. rewrite elem_of_filter, HL. set_solver.
  - intros r Hr. rewrite HL in Hr. apply elem_of_filter. split; [apply Hr|]. apply A2. set_solver.
  - intros r [Hr Hp]%elem_of_filter. destruct (A3 r Hp) as [Hr'|]; [|by right]. left. rewrite HL. set_solver.
Qed.

Definition dev_base (d : Z) (L : gset res) : gset res :=
  {[ (KObjNumBitmap, d, 0) ]} ∪ ({[ (KPorts, d, 0) ]} ∪ ({[ (KMcastTable, d, 0) ]} ∪ ({[ (KDev, d, 0) ]} ∪ L))).
Definition dev_set (d : Z) (L : gset res) : gset res := files d nr_attrs (kthread d ({[ (KRegistered, d, 0) ]} ∪ dev_base d L)).

Lemma free_base d L ks : fresh d L -> (forall k, k ∈ ks -> k ∈ kthread_kinds ++ [KAttrFile]) -> free_of ks d ({[ (KRegistered, d, 0) ]} ∪ dev_base d L).
Proof.
  intros Hf Hk k i Hin. specialize (Hk k Hin). assert ((k, d, i) ∉ L) as Hn.
  { apply (fresh_free d L (kthread_kinds ++ [KAttrFile])); [done| |done]. intros k' Hk'. apply (bool_decide_eq_true_1 _). revert k' Hk'. by apply Forall_forall, (bool_decide_unpack _). }
  unfold dev_base. rewrite !elem_of_union, !elem_of_singleton. unfold kthread_kinds in Hk. set_solver.
Qed.

(** What follows the release of something that goes with its device. *)
Lemma wp_vfree_dev {A} dead d k L (m : M load_st A) Q s : at_ (fun r => dead r \/ of_dev d r = true) ({[ (k, d, 0) ]} ∪ L) s -> k ∈ dev_kinds ->
  (k, d, 0) ∉ L -> (forall s', at_ (fun r => dead r \/ of_dev d r = true) L s' -> wp m Q s') -> wp (vfree (k, d, 0) ;; m) Q s.
Proof.
  intros H Hk Hn HQ. wp_step. eapply wp_vfree; [done..|]. intros s' H'. apply HQ. eapply at_weaken; [|exact H']. intros r [?| ->]; [done|].
  right. unfold of_dev. simpl. by rewrite Z.eqb_refl, bool_decide_eq_true_2.
Qed.

Lemma wp_dev_undo {A} dead d L (a : A) Q s : fresh d L -> (forall s', at_ dead L s' -> Q a s') ->
  at_ (fun r => dead r \/ of_dev d r = true) ({[ (KMcastTable, d, 0) ]} ∪ ({[ (KDev, d, 0) ]} ∪ L)) s ->
  wp (vfree (KMcastTable, d, 0) ;; ib_dealloc_device d ;; ret a) Q s.
Proof.
  intros Hf HQ H. assert (free_of [KMcastTable] d L) by (apply fresh_free; [done|set_solver]).
  eapply wp_vfree_dev; [done|set_solver|free_tac|]. intros s1 H1. wp_step. eapply wp_ib_dealloc_device; [done..|]. intros s2 H2. wp_step. auto.
Qed.

(** The labels of pib_dev_add, with everything pointed to by a variable that is set. *)
Lemma wp_dev_base dead d L Q s : fresh d L -> (forall s', at_ dead L s' -> Q false s') -> at_ dead (dev_base d L) s ->
  wp (vfree (KObjNumBitmap, d, 0) ;; vfree (KPorts, d, 0) ;; vfree (KMcastTable, d, 0) ;; ib_dealloc_device d ;; ret false) Q s.
Proof.
  intros Hf HQ H. eapply (at_weaken dead (fun r => dead r \/ of_dev d r = true)) in H; [|auto]. assert (free_of dev_kinds d L) as Hn by by apply fresh_free.
  eapply wp_vfree_dev; [done|set_solver|free_tac|]. intros s1 H1. eapply wp_vfree_dev; [done|set_solver|free_tac|]. intros s2 H2. by eapply wp_dev_undo.
Qed.

Lemma wp_dev_registered dead d L Q s : fresh d L -> (forall s', at_ dead L s' -> Q false s') -> at_ dead ({[ (KRegistered, d, 0) ]} ∪ dev_base d L) s ->
  wp (ib_unregister_device d ;; vfree (KObjNumBitmap, d, 0) ;; vfree (KPorts, d, 0) ;; vfree (KMcastTable, d, 0) ;; ib_dealloc_device d ;; ret false) Q s.
Proof.
  intros Hf HQ H. assert (free_of dev_kinds d L) as Hn by by apply fresh_free. wp_step.
  eapply wp_ib_unregister_device; [done|set_solver| |intros s1 H1; by eapply wp_dev_base]. intros r. rewrite elem_of_union, elem_of_singleton.
  assert (r ∈ dev_base d L -> r <> (KRegistered, d, 0) /\ (r.1.1, r.1.2) <> (KAttrFile, d)); [|naive_solver].
  destruct r as [[k d'] i]. unfold dev_base. rewrite !elem_of_union, !elem_of_singleton. simpl.
  pose proof (Hn KRegistered 0 ltac:(set_solver)). pose proof (Hn KAttrFile i ltac:(set_solver)). naive_solver.
Qed.

Lemma free_kthread d L : free_of [KAttrFile] d L -> free_of [KAttrFile] d (kthread d L).
Proof. intros H k i ->%list_elem_of_singleton. unfold kthread. free_tac. Qed.

Lemma elem_kthread d L r : r ∈ kthread d L <-> r ∈ L \/ r ∈ kthread d ∅.
Proof. unfold kthread. rewrite !elem_of_union, !elem_socks, !elem_of_union. set_solver. Qed.

Lemma kthread_not d r : r ∈ kthread d ∅ -> r <> (KRegistered, d, 0) /\ (r.1.1, r.1.2) <> (KAttrFile, d).
Proof.
  unfold kthread. rewrite !elem_of_union, !elem_socks, !elem_of_union, !elem_of_singleton.
  intros [E|[[E|[E|E%elem_of_empty]]|(p & _ & [E|E])]]; [..|done| |]; subst r; simpl; split; congruence.
Qed.

Lemma base_not d L r : fresh d L -> r ∈ dev_base d L -> r <> (KRegistered, d, 0) /\ (r.1.1, r.1.2) <> (KAttrFile, d).
Proof.
  intros Hf. assert (free_of dev_kinds d L) as Hn by by apply fresh_free. destruct r as [[k d'] i]. unfold dev_base. rewrite !elem_of_union, !elem_of_singleton. simpl.
  pose proof (Hn KRegistered 0 ltac:(set_solver)). pose proof (Hn KAttrFile i ltac:(set_solver)). naive_solver.
Qed.

Lemma dev_set_unregister d L r : fresh d L ->
  r ∈ kthread d (dev_base d L) <-> r ∈ dev_set d L /\ r <> (KRegistered, d, 0) /\ (r.1.1, r.1.2) <> (KAttrFile, d).
Proof.
  intros Hf. pose proof (base_not d L r Hf) as Hb. pose proof (kthread_not d r) as Hk. unfold dev_set, files. rewrite !elem_of_union, (elem_kthread d (dev_base _ _)), (elem_kthread d (_ ∪ _)).
  rewrite elem_of_union, elem_of_singleton, elem_of_list_to_set, list_elem_of_fmap. split; [intros [Hr|Hr]; split; auto|]. intros [[(i & -> & _)|[[Hr|Hr]|Hr]] [H1 H2]]; [by destruct H2|done|by left|by right].
Qed.

Lemma wp_pib_dev_remove dead d L Q s : at_ dead (dev_set d L) s -> fresh d L -> (forall s', at_ dead L s' -> Q tt s') -> wp (pib_dev_remove d) Q s.
Proof.
  intros H Hf HQ. assert (free_of dev_kinds d L) as Hn by by apply fresh_free. unfold Load.pib_dev_remove. wp_step.
  eapply (wp_ib_unregister_device dead d _ (kthread d (dev_base d L))); [done| |intros r; by apply dev_set_unregister|].
  { unfold dev_set, files. rewrite elem_of_union, elem_kthread. set_solver. }
  intros s1 H1. wp_step. eapply wp_pib_release_kthread; [done| |].
  { intros k i Hk. pose proof (free_base d L kthread_kinds Hf ltac:(set_solver) k i Hk). set_solver. }
  intros s2 H2. eapply (at_weaken dead (fun r => dead r \/ of_dev d r = true)) in H2; [|auto].
  replace (dev_base d L) with ({[ (KPorts, d, 0) ]} ∪ ({[ (KObjNumBitmap, d, 0) ]} ∪ ({[ (KMcastTable, d, 0) ]} ∪ ({[ (KDev, d, 0) ]} ∪ L)))) in H2 by (unfold dev_base; set_solver).
  do 3 (eapply wp_vfree_dev; [eassumption|set_solver|free_tac|]; intros ?s ?H). by eapply wp_ib_dealloc_device.
Qed.

Definition devs (done : list Z) (L : gset res) : gset res := foldr dev_set L done.

Definition core_kinds : list kind :=
  [KDev; KMcastTable; KPorts; KObjNumBitmap; KRegistered; KSendBuffer; KRecvBuffer; KSocket; KSockaddr; KTask; KAttrFile].
Lemma elem_dev_set d L r : r ∈ dev_set d L -> r ∈ L \/ (r.1.2 = d /\ r.1.1 ∈ core_kinds).
Proof.
  unfold dev_set, files. rewrite elem_of_union, elem_of_list_to_set, list_elem_of_fmap, elem_kthread. unfold kthread, dev_base.
  rewrite !elem_of_union, !elem_socks, !elem_of_union, !elem_of_singleton.
  intros [(i & -> & _)|[[->|[->|[->|[->|[->|?]]]]]|[->|[[->|[->|?%elem_of_empty]]|(p & _ & [->| ->])]]]]; try done; try (by left); right; simpl; split; [done|set_solver|done|set_solver..].
Qed.

Lemma fresh_dev_set d d' L : d <> d' -> fresh d L -> fresh d (dev_set d' L).
Proof.
  intros Hne Hf r [Hr|[Hr _]]%elem_dev_set; [by apply Hf|]. unfold of_dev. rewrite (proj2 (Z.eqb_neq _ _)); [apply andb_false_r|congruence].
Qed.

Lemma fresh_devs d done L : d ∉ done -> fresh d L -> fresh d (devs done L).
Proof. intros Hd Hf. induction done as [|d' done IH]; simpl; [done|]. apply fresh_dev_set; set_solver. Qed.

Lemma wp_remove_hcas dead : forall done L Q s, NoDup done -> at_ dead (devs done L) s -> (forall d, d ∈ done -> fresh d L) ->
  (forall s', at_ dead L s' -> Q tt s') -> wp (for_each (remove_hca pib_phys_port_cnt) done) Q s.
Proof.
  induction done as [|d done IH]; intros L Q s Hn H Hf HQ; simpl; wp_step; [by apply HQ|]. apply NoDup_cons in Hn as [Hd Hn].
  assert ((KDev, d, 0) ∈ dev_set d (devs done L)) by (unfold dev_set, files; rewrite elem_of_union, elem_kthread; unfold dev_base; set_solver).
  unfold remove_hca at 1. wp_step. eapply wp_is_set; [done| |done|by left]. intros _. wp_step; [|done].
  eapply wp_pib_dev_remove; [done|apply fresh_devs; [done|apply Hf; by left]|]. intros s' H'. eapply IH; [done|done|intros d' Hd'; apply Hf; by right|done].
Qed.

(** ** The caches *)

Definition cache (k : Z) : res := (KCache, 0, k).
Definition cache_set (l : list Z) : gset res := list_to_set (cache <$> l).

Lemma wp_destroy_caches : forall l dead L Q s, at_ dead L s -> NoDup l -> (forall k, k ∈ l -> ~ dead (cache k)) ->
  (forall s', at_ (fun r => dead r \/ r ∈ cache_set l) (L ∖ cache_set l) s' -> Q tt s') ->
  wp (for_each (fun k => let! b := is_set (KCache, 0, k) in when b (release (KCache, 0, k))) l) Q s.
Proof.
  induction l as [|k l IH]; intros dead L Q s H Hn Hd HQ; simpl; wp_step.
  - apply HQ. assert (L ∖ cache_set [] = L) as -> by set_solver. eapply at_weaken; [|exact H]. auto.
  - apply NoDup_cons in Hn as [Hk Hn]. pose proof (Hd k ltac:(by left)) as Hdk.
    assert (forall s', at_ (fun r => dead r \/ r = cache k) (L ∖ {[ cache k ]}) s' ->
      wp (for_each (fun k => let! b := is_set (KCache, 0, k) in when b (release (KCache, 0, k))) l) Q s') as Hgo.
    { intros s' H'. eapply IH; [done|done| |].
      - intros k' Hk' [Hx|[= ->]]; [|done]. by apply (Hd k'); [right|].
      - intros s'' H''. apply HQ. assert (L ∖ cache_set (k :: l) = L ∖ {[ cache k ]} ∖ cache_set l) as -> by (unfold cache_set; set_solver).
        eapply at_weaken; [|exact H'']. unfold cache_set. set_solver. }
    wp_step. eapply (wp_is_set dead L (cache k)); [done| | |by right].
    + intros Hr. wp_step; [|done]. eapply (wp_release dead (L ∖ {[ cache k ]})); [by rewrite <-union_difference_singleton_L|set_solver|done].
    + intros Hr _. wp_step; [done|]. apply Hgo. assert (L ∖ {[ cache k ]} = L) as -> by set_solver. eapply at_weaken; [|exact H]. auto.
Qed.

Lemma wp_null_caches : forall l (dead : res -> Prop) L Q s, at_ (fun r => dead r \/ r ∈ cache_set l) L s -> (forall k, k ∈ l -> cache k ∉ L) ->
  (forall s', at_ dead L s' -> Q tt s') -> wp (for_each (fun k => set_null (KCache, 0, k)) l) Q s.
Proof.
  induction l as [|k l IH]; intros dead L Q s H Hf HQ; simpl; wp_step.
  - apply HQ. eapply at_weaken; [|exact H]. set_solver.
  - eapply (wp_set_null _ (fun r => dead r \/ r ∈ cache_set l)); [done|apply Hf; by left|unfold cache_set; set_solver|].
    intros s' H'. eapply IH; [done|set_solver|done].
Qed.

Lemma wp_pib_kmem_cache_destroy dead L Q s : at_ dead L s -> (forall k, ~ dead (cache k)) ->
  (forall s', at_ dead (L ∖ cache_set caches) s' -> Q tt s') -> wp pib_kmem_cache_destroy Q s.
Proof.
  intros H Hd HQ. unfold pib_kmem_cache_destroy. wp_step. eapply wp_destroy_caches; [done|apply NoDup_seqZ|auto|]. intros s' H'.
  eapply wp_null_caches; [done| |done]. intros k Hk [_ Hin]%elem_of_difference. apply Hin, elem_of_list_to_set, list_elem_of_fmap. by exists k.
Qed.

(** ** The switch *)

Definition sw_kinds : list kind := [KSwPorts; KSwBuffer; KSwUcast; KSwMcast; KSwSocket; KSwSockaddr; KSwTask].
Definition sw_res (r : res) : Prop := r.1.1 ∈ sw_kinds.
Definition switch_set (L : gset res) : gset res :=
  {[ sw KSwTask ]} ∪ sock_pair (sw KSwSocket) (sw KSwSockaddr)
    ({[ sw KSwMcast ]} ∪ ({[ sw KSwUcast ]} ∪ ({[ sw KSwBuffer ]} ∪ ({[ sw KSwPorts ]} ∪ L)))).

Lemma wp_vfree_sw {A} dead k L (m : M load_st A) Q s : at_ (fun r => dead r \/ sw_res r) ({[ sw k ]} ∪ L) s -> k ∈ sw_kinds ->
  sw k ∉ L -> (forall s', at_ (fun r => dead r \/ sw_res r) L s' -> wp m Q s') -> wp (vfree (sw k) ;; m) Q s.
Proof.
  intros H Hk Hn HQ. wp_step. eapply wp_vfree; [done..|]. intros s' H'. apply HQ. eapply at_weaken; [|exact H']. intros r [?| ->]; [done|]. by right.
Qed.

Lemma wp_switch_tables {A} dead L (a : A) Q s : at_ (fun r => dead r \/ sw_res r) ({[ sw KSwMcast ]} ∪ ({[ sw KSwUcast ]} ∪ ({[ sw KSwBuffer ]} ∪ ({[ sw KSwPorts ]} ∪ L)))) s ->
  free_of sw_kinds 0 L -> (forall s', at_ (fun r => dead r \/ sw_res r) L s' -> Q a s') ->
  wp (vfree (sw KSwMcast) ;; vfree (sw KSwUcast) ;; vfree (sw KSwBuffer) ;; vfree (sw KSwPorts) ;; ret a) Q s.
Proof.
  intros H Hf HQ. do 4 (eapply wp_vfree_sw; [eassumption|set_solver|unfold sw; free_tac|]; intros ?s ?H). wp_step. auto.
Qed.

Lemma wp_pib_release_switch dead L Q s : at_ dead (switch_set L) s -> free_of sw_kinds 0 L ->
  (forall s', at_ (fun r => dead r \/ sw_res r) L s' -> Q tt s') -> wp pib_release_switch Q s.
Proof.
  intros H Hf HQ. unfold pib_release_switch. eapply (at_weaken dead (fun r => dead r \/ sw_res r)) in H; [|auto]. wp_step.
  eapply wp_release; [exact H|unfold sock_pair, sw; free_tac|]. intros s1 H1. eapply (at_weaken _ (fun r => dead r \/ sw_res r)) in H1.
  2:{ intros r [?| ->]; [done|]. right. unfold sw_res. set_solver. }
  wp_step. eapply wp_release_socket; [done|unfold sw; free_tac..|done|]. intros s2 H2.
  do 3 (eapply wp_vfree_sw; [eassumption|set_solver|unfold sw; free_tac|]; intros ?s ?H). eapply wp_vfree; [eassumption|unfold sw; free_tac|].
  intros s6 H6. apply HQ. eapply at_weaken; [|exact H6]. intros r [?| ->]; [done|]. right. unfold sw_res. set_solver.
Qed.

(** ** The debug file system *)

Definition dbg_kinds : list kind := [KDebugDir; KInjectErr; KTraceFile; KTraceData; KInspection].
Definition dbg_list (d : Z) : list res :=
  [(KDebugDir, d, 0); (KInjectErr, d, 0); (KTraceFile, d, 0); (KTraceData, d, 0)] ++ ((fun i => (KInspection, d, i)) <$> inspections).
Definition dbg (d : Z) : gset res := list_to_set (dbg_list d).
Definition no_dbg (L : gset res) : Prop := forall r, r ∈ L -> r.1.1 ∉ dbg_kinds.

Lemma elem_dbg d r : r ∈ dbg d -> r.1.1 ∈ dbg_kinds /\ r.1.2 = d.
Proof.
  unfold dbg, dbg_list. rewrite elem_of_list_to_set, elem_of_app, list_elem_of_fmap, !elem_of_cons, elem_of_nil.
  intros [[->|[->|[->|[->|[]]]]]|(i & -> & _)]; (split; [apply (bool_decide_unpack _); reflexivity|done]).
Qed.

Lemma set_rev (f : Z -> res) l : list_to_set (f <$> rev l) = (list_to_set (f <$> l) : gset res).
Proof. apply set_eq. intros r. rewrite !elem_of_list_to_set, !list_elem_of_fmap. setoid_rewrite list_elem_of_In. by setoid_rewrite <-in_rev. Qed.

Lemma wp_unregister_dev dead d L Q s : at_ dead L s -> (forall r, dead r -> r.1.1 ∉ dbg_kinds) ->
  (forall s', at_ dead (L ∖ dbg d) s' -> Q tt s') -> wp (unregister_dev d) Q s.
Proof.
  intros H Hd HQ. unfold unregister_dev. wp_step. assert (forall k i, k ∈ dbg_kinds -> ~ dead (k, d, i)) as Hnd by (intros k i Hk Hx; by apply (Hd _ Hx)).
  eapply (wp_remove_all (fun i => (KInspection, d, i))); [done|intros; apply Hnd; set_solver|]. intros s1 H1.
  do 3 (wp_step; eapply wp_remove_if_set; [eassumption|apply Hnd; set_solver|]; intros ?s ?H). eapply wp_remove_if_set; [eassumption|apply Hnd; set_solver|].
  intros s5 H5. apply HQ. match type of H5 with at_ _ ?X _ => assert (L ∖ dbg d = X) as -> end; [|done].
  rewrite set_rev. unfold dbg, dbg_list. rewrite list_to_set_app_L. set (X := list_to_set (_ <$> inspections)). clearbody X. set_solver.
Qed.

Lemma dbg_nodup d : NoDup (dbg_list d).
Proof.
  unfold dbg_list. apply NoDup_app. split; [by repeat (apply NoDup_cons; split; [set_solver|]); apply NoDup_nil|]. split.
  - intros r. rewrite list_elem_of_fmap. set_solver.
  - apply NoDup_fmap; [intros i j; congruence|apply NoDup_seqZ].
Qed.

Definition dbgs (l : list Z) (L : gset res) : gset res := foldr (fun d X => dbg d ∪ X) L l.

Lemma elem_dbgs l L r : r ∈ dbgs l L <-> r ∈ L \/ exists d, d ∈ l /\ r ∈ dbg d.
Proof.
  induction l as [|d l IH]; simpl; [set_solver|]. rewrite elem_of_union, IH. split.
  - intros [Hr|[Hr|(d' & Hd' & Hr)]]; [right; exists d; by split; [left|]|by left|right; exists d'; split; [by right|done]].
  - intros [Hr|(d' & [->|Hd']%elem_of_cons & Hr)]; [by right; left|by left|right; right; by exists d'].
Qed.

Lemma dbgs_disjoint d l L : d ∉ l -> no_dbg L -> dbgs l L ## dbg d.
Proof.
  intros Hd Hno r [Hr|(d' & Hd' & Hr)]%elem_dbgs Hr2; apply elem_dbg in Hr2 as [Hk He]; [by apply (Hno r Hr)|]. apply elem_dbg in Hr as [_ He']. congruence.
Qed.

Lemma wp_unregister_devs dead : (forall r, dead r -> r.1.1 ∉ dbg_kinds) -> forall l L Q s, at_ dead L s ->
  (forall s', at_ dead (L ∖ dbgs l ∅) s' -> Q tt s') -> wp (for_each unregister_dev l) Q s.
Proof.
  intros Hd. induction l as [|d l IH]; intros L Q s H HQ; simpl; wp_step.
  - apply HQ. by assert (L ∖ dbgs [] ∅ = L) as -> by set_solver.
  - eapply wp_unregister_dev; [done|done|]. intros s' H'. eapply IH; [done|]. intros s'' H''. apply HQ.
    assert (L ∖ dbgs (d :: l) ∅ = L ∖ dbg d ∖ dbgs l ∅) as -> by (simpl; set_solver). done.
Qed.
End LoadInv.
