(* ===== verification/LoadAcq.v ===== *)
(** * What each function of loading acquires

    Each function either acquires exactly the resources its set names, or fails and leaves
    what there was. *)

From S2P Require Import Prelude Verbs Load LoadInv.

Section LoadAcq.
Context (pib_phys_port_cnt : Z) (ok : res -> bool) (bind_ok getsockname_ok : res -> bool) (nr_attrs : nat) (errno : Z).

Abbreviation acquire := (acquire ok).
Abbreviation create_socket := (create_socket ok bind_ok getsockname_ok true errno).
Abbreviation create_sockets := (create_sockets ok bind_ok getsockname_ok true errno).
Abbreviation pib_create_kthread := (pib_create_kthread pib_phys_port_cnt ok bind_ok getsockname_ok true errno).
Abbreviation create_files := (create_files ok).
Abbreviation pib_dev_add := (pib_dev_add pib_phys_port_cnt ok bind_ok getsockname_ok true nr_attrs errno).
Abbreviation kthread := (kthread pib_phys_port_cnt).
Abbreviation dev_set := (dev_set pib_phys_port_cnt nr_attrs).
Abbreviation devs := (devs pib_phys_port_cnt nr_attrs).

(** Something failed. *)
Definition failure : Prop := exists r, ok r = false \/ bind_ok r = false \/ getsockname_ok r = false.

Lemma wp_acquire dead L r Q s : at_ dead L s -> r ∉ L ->
  (forall s', at_ dead ({[ r ]} ∪ L) s' -> Q true s') -> (forall s', failure -> ok r = false -> at_ dead L s' -> Q false s') -> wp (acquire r) Q s.
Proof.
  intros (H1 & H2 & H3) Hr Ht Hf. unfold Load.acquire. do 3 wp_step. apply wp_BUG_ON; [by rewrite H1, bool_decide_eq_false_2|].
  destruct (ok r) eqn:E; do 3 wp_step; [apply Ht|apply Hf; [by exists r; left|done|]]; unfold at_; simpl; rewrite H1; split_and!; try done.
  - intros x. rewrite !elem_of_union. intros [|]; [by left|right; auto].
  - intros x. rewrite !elem_of_union. intros [|Hx]; [by left; left|]. destruct (H3 x Hx); auto.
  - intros x Hx. apply elem_of_difference. split; [by apply H2|]. intros ->%elem_of_singleton. done.
  - intros x [Hx _]%elem_of_difference. auto.
Qed.

Lemma wp_create_socket dead L sock addr Q s : at_ dead L s -> sock ∉ L -> addr ∉ L -> sock <> addr ->
  (forall s', at_ dead (sock_pair sock addr L) s' -> Q 0 s') -> (forall s', failure -> at_ dead L s' -> Q errno s') -> wp (create_socket sock addr) Q s.
Proof.
  intros H Hs Ha Hne Ht Hf. unfold Load.create_socket. wp_step. eapply wp_acquire; [done|done| |]; [|intros s' F _ H'; cbn [negb]; wp_step; auto].
  intros s1 H1. cbn [negb]. cbv zeta.
  assert (failure -> wp (release sock ;; set_null sock ;; ret errno) Q s1) as Herr.
  { intros F. wp_step. eapply wp_release; [done..|]. intros s2 H2. wp_step. eapply (wp_set_null _ dead); [done|done|intros x [?|?]; auto|]. intros s3 H3. wp_step. auto. }
  destruct (bind_ok sock) eqn:E1; cbn [negb]; [|apply Herr; exists sock; auto].
  destruct (getsockname_ok sock) eqn:E2; cbn [negb]; [|apply Herr; exists sock; auto].
  wp_step. apply wp_BUG_ON; [done|]. do 3 wp_step. apply Ht. destruct H1 as (A1 & A2 & A3). unfold at_, sock_pair. simpl. rewrite A1.
  split_and!; [done|set_solver|]. intros r. rewrite elem_of_union. intros [Hr|Hr]; [set_solver|]. destruct (A3 r Hr); set_solver.
Qed.

Lemma wp_create_sockets dead d : errno < 0 -> forall ports done L Q s, NoDup (ports ++ done) -> at_ dead (socks d done L) s ->
  (forall p, p ∈ ports ++ done -> ((KSocket, d, p) ∉ L) /\ ((KSockaddr, d, p) ∉ L)) ->
  (forall s', at_ dead (socks d (rev ports ++ done) L) s' -> Q 0 s') -> (forall s', failure -> at_ dead L s' -> Q errno s') ->
  wp (create_sockets d ports done) Q s.
Proof.
  intros errno_neg. induction ports as [|p ports IH]; intros done L Q s Hn H Hf Ht Hl; simpl; wp_step; [by apply Ht|].
  simpl in Hn. apply NoDup_cons in Hn as [Hp Hn]. destruct (Hf p ltac:(by left)) as [F1 F2].
  eapply (wp_create_socket dead (socks d done L)); [done|rewrite elem_socks; set_solver..|done| |].
  - intros s' H'. simpl. apply (IH (p :: done) L); [|done| |by simpl in Ht; rewrite <-app_assoc in Ht|done].
    + rewrite <-Permutation_middle. by apply NoDup_cons.
    + intros q Hq. apply Hf. clear -Hq. set_solver.
  - intros s' F H'. rewrite (proj2 (Z.ltb_lt _ _) errno_neg). wp_step. eapply (wp_release_sockets dead d done L); [|done| |].
    + by apply NoDup_app in Hn as (_ & _ & Hn).
    + intros q Hq. apply Hf. rewrite elem_of_app. auto.
    + intros s'' H''. wp_step. auto.
Qed.

(** An acquisition that may fail; what follows an error label. *)
Ltac acq := wp_step; eapply wp_acquire; [eassumption|free_tac|intros ?s ?H; cbn [negb]|intros ?s ?F _ ?H; cbn [negb]].
Ltac vdrop := eapply wp_vdrop; [eassumption|free_tac|]; intros ?s ?H.

Lemma wp_pib_create_kthread dead d L Q s : errno < 0 -> at_ dead L s -> free_of kthread_kinds d L ->
  (forall s', at_ dead (kthread d L) s' -> Q 0 s') -> (forall e s', e < 0 -> failure -> at_ dead L s' -> Q e s') -> wp (pib_create_kthread d) Q s.
Proof.
  intros errno_neg H Hf Ht Hl. unfold Load.pib_create_kthread. cbv zeta. acq; [|wp_step; by apply Hl]. acq; [|vdrop; wp_step; by apply Hl].
  wp_step. eapply (wp_create_sockets dead d errno_neg _ []); [by rewrite app_nil_r; apply ports_nodup|done| | |].
  - intros p _. split; free_tac.
  - rewrite app_nil_r. intros s3 H3. cbn [Z.ltb Z.compare]. acq; [wp_step; by apply Ht|].
    wp_step. eapply wp_release_sockets; [apply rev_ports_nodup|done|intros p _; split; free_tac|].
    intros s5 H5. do 2 vdrop. wp_step. by apply Hl.
  - intros s3 F H3. rewrite (proj2 (Z.ltb_lt _ _) errno_neg). do 2 vdrop. wp_step. by apply Hl.
Qed.

Lemma wp_create_files dead d L Q : free_of [KAttrFile] d L -> forall n i s, 0 <= i -> at_ dead (files d (Z.to_nat i) L) s ->
  (forall s', at_ dead (files d (Z.to_nat i + n) L) s' -> Q true s') -> (forall s', failure -> at_ dead L s' -> Q false s') -> wp (create_files d n i) Q s.
Proof.
  intros Hf. induction n as [|n IH]; intros i s Hi H Ht Hl; simpl.
  - wp_step. apply Ht. by rewrite Nat.add_0_r.
  - wp_step. eapply wp_acquire; [done| | |].
    + unfold files. rewrite elem_of_union, elem_of_list_to_set, list_elem_of_fmap. intros [(j & [= ->] & Hj%elem_of_seqZ)|Hin]; [lia|]. revert Hin. apply Hf. by left.
    + intros s' H'. rewrite files_snoc in H' by done. apply IH; [lia| | |done]; replace (Z.to_nat (i + 1)) with (S (Z.to_nat i)) by lia; [done|].
      intros s'' H''. apply Ht. by rewrite <-Nat.add_succ_comm.
    + intros s' F _ H'. wp_step. rewrite <-(Z2Nat.id i) by done. eapply wp_drop_files; [done|done|]. intros s'' H''. wp_step. auto.
Qed.

Lemma wp_pib_dev_add dead d L Q s : errno < 0 -> at_ dead L s -> fresh d L ->
  (forall s', at_ dead (dev_set d L) s' -> Q true s') -> (forall s', failure -> at_ dead L s' -> Q false s') -> wp (pib_dev_add d) Q s.
Proof.
  intros errno_neg H Hf Ht Hl. assert (free_of dev_kinds d L) as Hn by by apply fresh_free.
  pose proof (free_base d L [KAttrFile] Hf ltac:(set_solver)) as H0. pose proof (free_base d L kthread_kinds Hf ltac:(set_solver)).
  pose proof (at_weaken dead (fun r => dead r \/ of_dev d r = true)) as Hw. unfold Load.pib_dev_add. cbv zeta.
  acq; [|wp_step; auto]. acq; [|wp_step; eapply wp_ib_dealloc_device; [apply Hw; [auto|done]|done|]; intros sx2 Hx2; wp_step; auto].
  acq; [|eapply wp_dev_undo; [done|intros sy Hy; by apply Hl|apply Hw; [auto|done]]]. acq.
  2:{ eapply wp_vfree_dev; [apply Hw; [auto|done]|set_solver|free_tac|]. intros sx4 Hx4. eapply wp_dev_undo; [done|intros sy Hy; by apply Hl|done]. }
  acq; [|eapply wp_dev_base; [done|intros sy Hy; by apply Hl|done]]. wp_step. eapply wp_pib_create_kthread; [done|done|done| |].
  - intros sx5 Hx5. cbn [Z.eqb negb]. wp_step. eapply (wp_create_files dead d (kthread d ({[ (KRegistered, d, 0) ]} ∪ dev_base d L)) _ (free_kthread _ _ _ H0) nr_attrs 0); [done| | |].
    + by assert (files d (Z.to_nat 0) (kthread d ({[ (KRegistered, d, 0) ]} ∪ dev_base d L)) = kthread d ({[ (KRegistered, d, 0) ]} ∪ dev_base d L)) as -> by (unfold files; set_solver).
    + intros sx6 Hx6. cbn [negb]. wp_step. by apply Ht.
    + intros sx6 Fx Hx6. cbn [negb]. wp_step. eapply wp_pib_release_kthread; [done|done|]. intros sx7 Hx7. eapply wp_dev_registered; [done|intros sy Hy; by apply Hl|done].
  - intros e sx5 He Fx Hx5. rewrite (proj2 (Z.eqb_neq e 0)) by lia. cbn [negb]. eapply wp_dev_registered; [done|intros sy Hy; by apply Hl|done].
Qed.

Abbreviation add_hcas := (add_hcas pib_phys_port_cnt ok bind_ok getsockname_ok true nr_attrs errno).

Lemma wp_add_hcas dead : errno < 0 -> forall l done L Q s, NoDup (l ++ done) -> at_ dead (devs done L) s -> (forall d, d ∈ l -> fresh d L) ->
  (forall s', at_ dead (devs (rev l ++ done) L) s' -> Q (true, rev l ++ done) s') ->
  (forall l' s', failure -> l' ⊆ l ++ done -> NoDup l' -> at_ dead (devs l' L) s' -> Q (false, l') s') -> wp (add_hcas l done) Q s.
Proof.
  intros errno_neg. induction l as [|d l IH]; intros done L Q s Hn H Hf Ht Hl; simpl; wp_step; [by apply Ht|]. simpl in Hn. apply NoDup_cons in Hn as [Hd Hn].
  eapply wp_pib_dev_add; [done|done|apply fresh_devs; [set_solver|apply Hf; by left]| |].
  - intros s' H'. apply (IH (d :: done) L); [|done| | |].
    + rewrite <-Permutation_middle. by apply NoDup_cons.
    + intros d' Hd'. apply Hf. by right.
    + simpl in Ht. by rewrite <-app_assoc in Ht.
    + intros l' s'' F Hsub. apply Hl; [done|]. set_solver.
  - intros s' F H'. wp_step. apply Hl; [done|set_solver|by apply NoDup_app in Hn as (_ & _ & ?)|done].
Qed.

Lemma wp_pib_kmem_cache_create dead : forall l L Q s, at_ dead L s -> NoDup l -> (forall k, k ∈ l -> cache k ∉ L) ->
  (forall s', at_ dead (cache_set l ∪ L) s' -> Q 0 s') ->
  (forall l' s', failure -> l' ⊆ l -> at_ dead (cache_set l' ∪ L) s' -> Q (-1) s') -> wp (pib_kmem_cache_create ok l) Q s.
Proof.
  induction l as [|k l IH]; intros L Q s H Hn Hf Ht Hl; simpl; wp_step.
  - apply Ht. assert (cache_set [] ∪ L = L) as -> by set_solver. done.
  - apply NoDup_cons in Hn as [Hk Hn]. eapply (wp_acquire dead L (cache k)); [done|apply Hf; by left| |].
    + intros s' H'. eapply IH; [done|done| | |].
      * intros k' Hk'. rewrite elem_of_union, elem_of_singleton. intros [[= ->]|Hin]; [done|]. revert Hin. apply Hf. by right.
      * intros s'' H''. apply Ht. by assert (cache_set (k :: l) ∪ L = cache_set l ∪ ({[ cache k ]} ∪ L)) as -> by (unfold cache_set; set_solver).
      * intros l' s'' F Hsub H''. apply (Hl (k :: l')); [done|set_solver|]. by assert (cache_set (k :: l') ∪ L = cache_set l' ∪ ({[ cache k ]} ∪ L)) as -> by (unfold cache_set; set_solver).
    + intros s' F _ H'. wp_step. apply (Hl []); [done|set_solver|]. assert (cache_set [] ∪ L = L) as -> by set_solver. done.
Qed.

Abbreviation pib_create_switch := (pib_create_switch ok bind_ok getsockname_ok true errno).

(** Unless one of its first four allocations fails. *)
Lemma wp_pib_create_switch dead L Q s : errno < 0 -> at_ dead L s -> free_of sw_kinds 0 L -> (forall k, k ∈ [KSwPorts; KSwBuffer; KSwUcast; KSwMcast] -> ok (sw k) = true) ->
  (forall s', at_ dead (switch_set L) s' -> Q 0 s') -> (forall e s', e < 0 -> failure -> at_ (fun r => dead r \/ sw_res r) L s' -> Q e s') -> wp pib_create_switch Q s.
Proof.
  intros errno_neg H Hf Hok Ht Hl. unfold Load.pib_create_switch. cbv zeta. pose proof (at_weaken dead (fun r => dead r \/ sw_res r)) as Hw.
  do 4 (wp_step; eapply wp_acquire; [eassumption|unfold sw; free_tac|intros ?s ?H; cbn [negb]|intros ?s _ Hno; rewrite Hok in Hno; [done|set_solver]]).
  wp_step. eapply wp_create_socket; [eassumption|unfold sw; free_tac..|done| |].
  - intros s4 H4. cbn [Z.ltb Z.compare]. wp_step. eapply wp_acquire; [eassumption|unfold sock_pair, sw; free_tac| |].
    + intros s5 H5. cbn [negb]. wp_step. by apply Ht.
    + intros s5 F _ H5. cbn [negb]. wp_step. eapply wp_release_socket; [done|unfold sw; free_tac..|done|]. intros s6 H6.
      eapply wp_switch_tables; [apply Hw; [auto|done]|done|]. intros s7 H7. by apply Hl.
  - intros s4 F H4. rewrite (proj2 (Z.ltb_lt _ _) errno_neg). eapply wp_switch_tables; [apply Hw; [auto|done]|done|]. intros s7 H7. by apply Hl.
Qed.

Lemma wp_acquire_all dead : forall l L Q s, at_ dead L s -> NoDup l -> (forall r, r ∈ l -> r ∉ L) ->
  (forall s', at_ dead (list_to_set l ∪ L) s' -> Q true s') ->
  (forall l' s', failure -> l' ⊆ l -> at_ dead (list_to_set l' ∪ L) s' -> Q false s') -> wp (acquire_all ok l) Q s.
Proof.
  induction l as [|r l IH]; intros L Q s H Hn Hf Ht Hl; simpl; wp_step.
  - apply Ht. by assert (list_to_set [] ∪ L = L) as -> by set_solver.
  - apply NoDup_cons in Hn as [Hr Hn]. eapply wp_acquire; [done|apply Hf; by left| |].
    + intros s' H'. eapply IH; [done|done|set_solver| |].
      * intros s'' H''. apply Ht. by assert (list_to_set (r :: l) ∪ L = list_to_set l ∪ ({[ r ]} ∪ L)) as -> by set_solver.
      * intros l' s'' F Hsub H''. apply (Hl (r :: l')); [done|set_solver|]. by assert (list_to_set (r :: l') ∪ L = list_to_set l' ∪ ({[ r ]} ∪ L)) as -> by set_solver.
    + intros s' F _ H'. wp_step. apply (Hl []); [done|set_solver|]. by assert (list_to_set [] ∪ L = L) as -> by set_solver.
Qed.

Lemma wp_register_dev dead d L Q s : at_ dead L s -> (forall r, dead r -> r.1.1 ∉ dbg_kinds) -> L ## dbg d ->
  (forall s', at_ dead (dbg d ∪ L) s' -> Q 0 s') -> (forall s', failure -> at_ dead L s' -> Q (- ENOMEM) s') -> wp (register_dev ok d) Q s.
Proof.
  intros H Hd Hdis Ht Hl. unfold register_dev. change (_ ++ _) with (dbg_list d). wp_step. eapply wp_acquire_all; [done|apply dbg_nodup| | |].
  - intros r Hr Hin. apply (Hdis r Hin). by apply elem_of_list_to_set.
  - intros s' H'. wp_step. by apply Ht.
  - intros l' s' F Hsub H'. wp_step. eapply wp_unregister_dev; [done|done|]. intros s'' H''. wp_step. apply Hl; [done|].
    assert ((list_to_set l' ∪ L) ∖ dbg d = L) as <-; [|done]. apply set_eq. intros r. rewrite elem_of_difference, elem_of_union, elem_of_list_to_set. split.
    + intros [[Hr|Hr] Hno]; [|done]. exfalso. apply Hno, elem_of_list_to_set, Hsub, Hr.
    + intros Hr. split; [by right|]. intros Hin. exact (Hdis r Hr Hin).
Qed.
End LoadAcq.
