(* ===== verification/LoadThm.v ===== *)
(** * Loading is all or nothing

    Loading the module in single-host mode, whichever acquisition fails; the two ways in
    which it goes wrong; and unloading. *)

From S2P Require Import Prelude Verbs Load LoadInv LoadAcq.

Section LoadThm.
Context (pib_num_hca pib_phys_port_cnt : Z) (server_addr : bool) (server_port : Z) (addr_ok : bool)
  (ok : res -> bool) (bind_ok getsockname_ok : res -> bool) (nr_attrs : nat) (errno : Z).

Abbreviation failure := (failure ok bind_ok getsockname_ok).
Abbreviation devs := (devs pib_phys_port_cnt nr_attrs).
Abbreviation all_hcas := (all_hcas pib_num_hca).
Abbreviation register_devs := (register_devs ok).
Abbreviation add_hcas := (add_hcas pib_phys_port_cnt ok bind_ok getsockname_ok true nr_attrs errno).
Abbreviation pib_init := (pib_init pib_num_hca pib_phys_port_cnt server_addr server_port addr_ok ok bind_ok getsockname_ok true nr_attrs errno).
Abbreviation pib_cleanup := (pib_cleanup pib_num_hca pib_phys_port_cnt).

(** ** The debug file system *)

Definition root : res := sw KDebugRoot.

Lemma strip_dbgs l l' L : no_dbg L -> (forall d, d ∈ l <-> d ∈ l') -> dbgs l L ∖ dbgs l' ∅ = L.
Proof.
  intros Hno Hl. apply set_eq. intros r. rewrite elem_of_difference, !elem_dbgs. split.
  - intros [[Hr|(d & Hd & Hr)] Hn]; [done|]. exfalso. apply Hn. right. exists d. by rewrite <-Hl.
  - intros Hr. split; [by left|]. intros [Hr'%elem_of_empty|(d & Hd & Hr')]; [done|]. apply elem_dbg in Hr' as [Hk _]. by apply (Hno r Hr).
Qed.

Lemma no_dbg_root L : no_dbg L -> no_dbg ({[ root ]} ∪ L).
Proof. intros H r [->%elem_of_singleton|Hr]%elem_of_union; [set_solver|by apply H]. Qed.

Lemma wp_register_devs dead L Q : (forall r, dead r -> r.1.1 ∉ dbg_kinds) -> no_dbg L -> root ∉ L -> forall l done s,
  NoDup (l ++ done) -> at_ dead (dbgs done ({[ root ]} ∪ L)) s -> (forall s', at_ dead (dbgs (rev l ++ done) ({[ root ]} ∪ L)) s' -> Q 0 s') ->
  (forall s', failure -> at_ dead L s' -> Q (- ENOMEM) s') -> wp (register_devs l done) Q s.
Proof.
  intros Hd Hno Hroot. pose proof (no_dbg_root L Hno) as Hno'. induction l as [|d l IH]; intros done s Hn H Ht Hl; simpl; wp_step; [by apply Ht|].
  simpl in Hn. apply NoDup_cons in Hn as [Hdn Hn]. eapply wp_register_dev; [done|done|apply dbgs_disjoint; [set_solver|done]| |].
  - intros s' H'. cbn [Z.eqb negb]. apply (IH (d :: done)); [rewrite <-Permutation_middle; by apply NoDup_cons|done| |done].
    simpl in Ht. by rewrite <-app_assoc in Ht.
  - intros s' F H'. change (negb (- ENOMEM =? 0)) with true. cbv iota. wp_step. eapply wp_unregister_devs; [done|done|].
    intros s'' H''. rewrite strip_dbgs in H''; [|done|intros x; by rewrite !list_elem_of_In, <-in_rev]. wp_step. eapply wp_release; [done|done|]. intros s3 H3. wp_step. eapply (wp_set_null _ dead); [done|done|intros x [?|?]; auto|].
    intros s4 H4. wp_step. by apply Hl.
Qed.

Lemma wp_pib_register_debugfs dead L Q s : (forall r, dead r -> r.1.1 ∉ dbg_kinds) -> no_dbg L -> root ∉ L -> at_ dead L s ->
  (forall s', at_ dead (dbgs (rev all_hcas) ({[ root ]} ∪ L)) s' -> Q 0 s') -> (forall s', failure -> at_ dead L s' -> Q (- ENOMEM) s') ->
  wp (pib_register_debugfs pib_num_hca ok) Q s.
Proof.
  intros Hd Hno Hr H Ht Hl. unfold pib_register_debugfs. wp_step. eapply wp_acquire; [done|done| |].
  - intros s1 H1. cbn [negb]. eapply (wp_register_devs dead L Q Hd Hno Hr); [|done| |done].
    + rewrite app_nil_r. apply NoDup_seqZ.
    + by rewrite app_nil_r.
  - intros s1 F _ H1. cbn [negb]. wp_step. by apply Hl.
Qed.

Lemma wp_pib_unregister_debugfs dead L Q s : (forall r, dead r -> r.1.1 ∉ dbg_kinds) -> no_dbg L -> root ∉ L -> (forall d, d ∈ all_hcas -> (KDev, d, 0) ∈ L) ->
  at_ dead (dbgs (rev all_hcas) ({[ root ]} ∪ L)) s -> (forall s', at_ dead L s' -> Q tt s') -> wp (pib_unregister_debugfs pib_num_hca) Q s.
Proof.
  intros Hd Hno Hr Hdev H HQ. unfold pib_unregister_debugfs. wp_step. pose proof (no_dbg_root L Hno) as Hno'.
  assert (root ∈ dbgs (rev all_hcas) ({[ root ]} ∪ L)) by (apply elem_dbgs; set_solver). eapply wp_is_set; [done| |done|by left]. intros _. wp_step; [|done].
  wp_step. assert (forall l L0 s Q, (forall d, d ∈ l -> (KDev, d, 0) ∈ L0) -> at_ dead L0 s -> (forall s', at_ dead (L0 ∖ dbgs l ∅) s' -> Q tt s') ->
    wp (for_each (fun d => let! b := is_set (KDev, d, 0) in BUG_ON (negb b) ;; unregister_dev d) l) Q s) as Hloop.
  { clear -Hd. induction l as [|d l IH]; intros L0 s Q Hdev H HQ; simpl; wp_step.
    - apply HQ. by assert (L0 ∖ dbgs [] ∅ = L0) as -> by set_solver.
    - wp_step. eapply wp_is_set; [done| |intros Hn; by destruct Hn; apply Hdev; left|left; apply Hdev; by left]. intros _. cbn [negb]. wp_step. apply wp_BUG_ON; [done|].
      eapply wp_unregister_dev; [done|done|]. intros s' H'. eapply IH; [|done|].
      + intros d' Hd'. apply elem_of_difference. split; [apply Hdev; by right|]. intros [Hk _]%elem_dbg. simpl in Hk. revert Hk. by apply (bool_decide_unpack _).
      + intros s'' H''. apply HQ. assert (L0 ∖ dbgs (d :: l) ∅ = L0 ∖ dbg d ∖ dbgs l ∅) as -> by (simpl; clear; set_solver). done. }
  eapply Hloop; [|done|].
  - intros d Hin. apply elem_dbgs. left. apply elem_of_union. right. auto.
  - intros s1 Hs1. rewrite strip_dbgs in Hs1; [|done|intros x; by rewrite !list_elem_of_In, <-in_rev]. eapply wp_drop; [done|done|done].
Qed.

(** ** The whole driver *)

Definition core : gset res := {[ sw KLidTable ]} ∪ ({[ sw KParent ]} ∪ ({[ sw KClass ]} ∪ ∅)).
Definition with_caches : gset res := cache_set caches ∪ core.
Definition with_switch : gset res := switch_set with_caches.
Definition with_hcas : gset res := devs (rev all_hcas) with_switch.
Definition loaded : gset res := dbgs (rev all_hcas) ({[ root ]} ∪ with_hcas).

Definition kinds_in (ks : list kind) (L : gset res) : Prop := forall r, r ∈ L -> r.1.1 ∈ ks.

Lemma kinds_core : kinds_in [KLidTable; KParent; KClass] core.
Proof. intros r. unfold core, sw. rewrite !elem_of_union, !elem_of_singleton. intros [->|[->|[->|?%elem_of_empty]]]; set_solver. Qed.

Lemma kinds_caches l : kinds_in ([KLidTable; KParent; KClass] ++ [KCache]) (cache_set l ∪ core).
Proof.
  intros r [Hr|Hr%kinds_core]%elem_of_union; apply elem_of_app; [right|by left]. apply elem_of_list_to_set, list_elem_of_fmap in Hr as (k & -> & _). by left.
Qed.

Definition sys_kinds : list kind := [KLidTable; KParent; KClass] ++ [KCache] ++ sw_kinds.
Lemma kinds_switch : kinds_in sys_kinds with_switch.
Proof.
  intros r. unfold with_switch, switch_set, sock_pair, sw. rewrite !elem_of_union, !elem_of_singleton. unfold sys_kinds. rewrite app_assoc, elem_of_app.
  intros [->|[->|[->|[->|[->|[->|[->|Hr]]]]]]]; [right; apply (bool_decide_unpack _); reflexivity..|]. left. by apply kinds_caches in Hr.
Qed.

Lemma kinds_devs l : kinds_in (sys_kinds ++ core_kinds) (devs l with_switch).
Proof.
  induction l as [|d l IH]; cbn [LoadInv.devs foldr]; intros r.
  - intros Hr%kinds_switch. apply elem_of_app. by left.
  - intros [Hr|[_ Hr]]%elem_dev_set; [by apply IH|]. apply elem_of_app. by right.
Qed.

Lemma elem_dev_in d l : d ∈ l -> (KDev, d, 0) ∈ devs l with_switch.
Proof.
  intros Hd. assert (forall d' X r, r ∈ X -> r ∈ dev_set pib_phys_port_cnt nr_attrs d' X) as Hsub.
  { intros d' X r Hr. unfold dev_set, files. rewrite elem_of_union, elem_kthread. unfold dev_base. set_solver. }
  induction l as [|d' l IH]; [by apply elem_of_nil in Hd|]. cbn [LoadInv.devs foldr]. apply elem_of_cons in Hd as [<-|Hd]; [|by apply Hsub, IH].
  unfold dev_set, files. rewrite elem_of_union, elem_kthread. unfold dev_base. set_solver.
Qed.

(** Sets of kinds that have nothing in common. *)
Lemma kinds_apart (ks ks' : list kind) L : kinds_in ks L -> bool_decide (Forall (fun k => k ∉ ks') ks) = true -> forall r, r ∈ L -> r.1.1 ∉ ks'.
Proof. intros H Hb r Hr. apply (bool_decide_eq_true_1 _) in Hb. rewrite Forall_forall in Hb. apply Hb. by apply H. Qed.

Lemma fresh_switch d : fresh d with_switch.
Proof.
  intros r Hr. unfold of_dev. rewrite bool_decide_eq_false_2; [done|]. revert r Hr. by apply (kinds_apart sys_kinds); [apply kinds_switch|vm_compute].
Qed.
Lemma no_dbg_hcas l : no_dbg (devs l with_switch).
Proof. exact (kinds_apart _ dbg_kinds _ (kinds_devs l) ltac:(by vm_compute)). Qed.
Lemma root_hcas l : root ∉ devs l with_switch.
Proof.
  intros Hr. by apply (kinds_apart (sys_kinds ++ core_kinds) [KDebugRoot] _ (kinds_devs l) ltac:(by vm_compute) _ Hr); left.
Qed.
Lemma free_sw L : kinds_in ([KLidTable; KParent; KClass] ++ [KCache]) L -> free_of sw_kinds 0 L.
Proof. intros H k i Hk Hr. by apply (kinds_apart _ sw_kinds _ H ltac:(by vm_compute) _ Hr). Qed.
Lemma cache_core k : cache k ∉ core.
Proof. intros Hr%kinds_core. simpl in Hr. revert Hr. by apply (bool_decide_unpack _). Qed.

(** ** The labels at the end of pib_init *)

Lemma wp_err_device_create dead L (Q : Z -> load_st -> Prop) e s : at_ dead ({[ sw KClass ]} ∪ L) s -> sw KClass ∉ L -> (forall s', at_ dead L s' -> Q e s') -> wp (err_device_create e) Q s.
Proof.
  intros H Hn HQ. unfold err_device_create. wp_step. eapply wp_release; [done..|]. intros s1 H1. wp_step.
  eapply (wp_set_null _ dead); [done|done|intros x [?|?]; auto|]. intros s2 H2. wp_step. auto.
Qed.

Lemma wp_err_alloc_lid_table dead L (Q : Z -> load_st -> Prop) e s : at_ dead ({[ sw KParent ]} ∪ ({[ sw KClass ]} ∪ L)) s -> sw KClass ∉ L -> sw KParent ∉ L ->
  (forall s', at_ dead L s' -> Q e s') -> wp (err_alloc_lid_table e) Q s.
Proof.
  intros H Hn Hn' HQ. unfold err_alloc_lid_table. assert (sw KParent ∉ {[ sw KClass ]} ∪ L) by (rewrite elem_of_union, elem_of_singleton; intros [[=]|?]; done).
  wp_step. eapply wp_release; [done..|]. intros s1 H1. wp_step.
  eapply (wp_set_null _ dead); [done|done|intros x [?|?]; auto|]. intros s2 H2. by eapply wp_err_device_create.
Qed.

Lemma wp_err_kmem_cache_destroy dead (Q : Z -> load_st -> Prop) e s : at_ dead core s -> (forall s', at_ dead ∅ s' -> Q e s') -> wp (err_kmem_cache_destroy e) Q s.
Proof.
  intros H HQ. unfold err_kmem_cache_destroy. eapply wp_vdrop; [exact H|unfold sw; set_solver|]. intros s1 H1.
  eapply wp_err_alloc_lid_table; [done|set_solver..|done].
Qed.

Lemma caches_core : with_caches ∖ cache_set caches = core.
Proof.
  unfold with_caches. apply set_eq. intros r. rewrite elem_of_difference, elem_of_union. split; [tauto|]. intros Hr. split; [by right|].
  intros (k & -> & _)%elem_of_list_to_set%list_elem_of_fmap. by apply cache_core in Hr.
Qed.

Lemma wp_err_create_switch dead (Q : Z -> load_st -> Prop) e s : at_ dead with_caches s -> (forall k, ~ dead (cache k)) -> ~ dead (sw KNetdSockaddr) ->
  (forall s', at_ dead ∅ s' -> Q e s') -> wp (err_create_switch e) Q s.
Proof.
  intros H Hc Hd HQ. unfold err_create_switch. wp_step. assert (sw KNetdSockaddr ∉ with_caches) as Hn.
  { intros Hr%kinds_caches. revert Hr. by apply (bool_decide_unpack _). }
  eapply wp_is_set; [done|done| |by right]. intros _ _. wp_step. wp_step; [done|]. wp_step. eapply wp_pib_kmem_cache_destroy; [done|done|]. intros s1 H1.
  rewrite caches_core in H1. by eapply wp_err_kmem_cache_destroy.
Qed.

Lemma wp_err_ib_add l (Q : Z -> load_st -> Prop) e s : NoDup l -> at_ (fun _ => False) (devs l with_switch) s -> (forall s', at_ sw_res ∅ s' -> Q e s') ->
  wp (err_ib_add pib_phys_port_cnt l e) Q s.
Proof.
  intros Hn H HQ. unfold err_ib_add. wp_step. eapply wp_remove_hcas; [done|done|intros d _; apply fresh_switch|]. intros s1 H1. wp_step.
  eapply wp_pib_release_switch; [done|apply free_sw, kinds_caches|]. intros s2 H2. eapply (at_weaken _ sw_res) in H2; [|tauto].
  eapply wp_err_create_switch; [done| | |done]; intros; unfold sw_res, cache, sw; simpl; by apply (bool_decide_unpack _).
Qed.

(** ** Loading *)

(** The module parameters are in range, and no server is given. *)
Definition single_host : Prop :=
  server_addr = false /\ 1 <= pib_num_hca <= PIB_MAX_HCA /\ 1 <= pib_phys_port_cnt <= PIB_MAX_PORTS /\ 2 <= pib_num_hca * pib_phys_port_cnt.

Lemma wp_pib_init (Q : Z -> load_st -> Prop) s : single_host -> errno < 0 -> (forall k, k ∈ [KSwPorts; KSwBuffer; KSwUcast; KSwMcast] -> ok (sw k) = true) ->
  at_ (fun _ => False) ∅ s -> (forall s', at_ (fun _ => False) loaded s' -> Q 0 s') -> (forall e s', e <= 0 -> failure -> at_ sw_res ∅ s' -> Q e s') -> wp pib_init Q s.
Proof.
  intros (E1 & E2 & E3 & E4) He Hsw H Ht Hl. unfold Load.pib_init, parse_multi_host_mode. rewrite E1. cbn [negb]. do 2 wp_step. cbv beta iota. cbn [Z.ltb Z.compare].
  rewrite !(proj2 (Z.ltb_ge _ _)) by lia. cbn [orb andb negb]. cbv iota.
  assert (forall X s, at_ (fun _ => False) X s -> at_ sw_res X s) as Hw by (intros X s0; by apply at_weaken).
  wp_step. eapply wp_acquire; [exact H|set_solver|intros s1 H1; cbn [negb]|intros s1 F _ H1; cbn [negb]; wp_step; apply Hl; [lia|done|by apply Hw]].
  wp_step. eapply wp_acquire; [exact H1|unfold sw; set_solver|intros s2 H2; cbn [negb]|].
  2:{ intros s2 F _ H2. cbn [negb]. eapply wp_err_device_create; [done|set_solver|]. intros s3 H3. apply Hl; [lia|done|by apply Hw]. }
  wp_step. eapply wp_acquire; [exact H2|unfold sw; set_solver|intros s3 H3; cbn [negb]|].
  2:{ intros s3 F _ H3. cbn [negb]. eapply wp_err_alloc_lid_table; [done|set_solver..|]. intros s4 H4. apply Hl; [lia|done|by apply Hw]. }
  wp_step. eapply wp_pib_kmem_cache_create; [exact H3|apply NoDup_seqZ|intros; apply cache_core|intros s4 H4; cbn [Z.eqb negb]|].
  2:{ intros l' s4 F Hsub H4. cbn [Z.eqb negb]. wp_step. eapply wp_pib_kmem_cache_destroy; [done|by auto|]. intros s5 H5.
      eapply wp_err_kmem_cache_destroy; [|intros s6 H6; apply Hl; [by vm_compute|done|by apply Hw]].
      assert ((cache_set l' ∪ core) ∖ cache_set caches = core) as E; [|unfold core in E; by rewrite E in H5]. apply set_eq. intros r. rewrite elem_of_difference, elem_of_union. split.
      - intros [[(k & -> & Hk)%elem_of_list_to_set%list_elem_of_fmap|Hr] Hn]; [|done]. destruct Hn. apply elem_of_list_to_set, list_elem_of_fmap. exists k. auto.
      - intros Hr. split; [by right|]. intros (k & -> & _)%elem_of_list_to_set%list_elem_of_fmap. by apply cache_core in Hr. }
  wp_step. eapply wp_pib_create_switch; [done|exact H4|apply free_sw, kinds_caches|done|intros s5 H5; cbn [Z.eqb negb]|].
  2:{ intros e s5 Hneg F H5. rewrite (proj2 (Z.eqb_neq e 0)) by lia. cbn [negb]. eapply (at_weaken _ sw_res) in H5; [|tauto].
      eapply wp_err_create_switch; [exact H5| | |intros s6 H6; by apply Hl]; intros; unfold sw_res, cache, sw; simpl; by apply (bool_decide_unpack _). }
  wp_step. eapply (wp_add_hcas pib_phys_port_cnt ok bind_ok getsockname_ok nr_attrs errno _ He _ [] with_switch); [rewrite app_nil_r; apply NoDup_seqZ|exact H5|intros d _; apply fresh_switch| |].
  - rewrite app_nil_r. intros s6 H6. cbn [negb]. wp_step. eapply (wp_pib_register_debugfs (fun _ => False)); [done|apply no_dbg_hcas|apply root_hcas|exact H6| |].
    + intros s7 H7. cbn [Z.eqb negb]. wp_step. by apply Ht.
    + intros s7 F H7. change (negb (- ENOMEM =? 0)) with true. cbv iota. eapply wp_err_ib_add; [|exact H7|intros s8 H8; by apply Hl].
      rewrite <-Permutation_rev. apply NoDup_seqZ.
  - intros l' s6 F Hsub Hn H6. cbn [negb]. eapply wp_err_ib_add; [done|exact H6|intros s8 H8; by apply Hl].
Qed.

Lemma wp_pib_cleanup (Q : unit -> load_st -> Prop) s : at_ (fun _ => False) loaded s -> (forall s', ld_live s' = ∅ -> Q tt s') -> wp (pib_cleanup false) Q s.
Proof.
  intros H HQ. unfold Load.pib_cleanup. wp_step. eapply (wp_pib_unregister_debugfs (fun _ => False)); [done|apply no_dbg_hcas|apply root_hcas| |exact H|].
  { intros d Hd. unfold with_hcas. apply elem_dev_in. by rewrite !list_elem_of_In, <-in_rev, <-list_elem_of_In. }
  intros s1 H1. wp_step. eapply wp_remove_hcas; [rewrite <-Permutation_rev; apply NoDup_seqZ|exact H1|intros d _; apply fresh_switch|]. intros s2 H2.
  cbn [negb when]. wp_step. eapply wp_pib_release_switch; [exact H2|apply free_sw, kinds_caches|]. intros s3 H3. eapply (at_weaken _ sw_res) in H3; [|tauto].
  assert (forall k, k ∉ sw_kinds -> ~ sw_res (sw k)) as Hsw by done.
  wp_step. eapply wp_is_set; [exact H3| | |right; apply Hsw; by apply (bool_decide_unpack _)].
  { intros Hr%kinds_caches. exfalso. revert Hr. by apply (bool_decide_unpack _). }
  intros _ _. cbn [when]. do 3 wp_step. eapply wp_pib_kmem_cache_destroy; [exact H3|intros k; apply (bool_decide_unpack _); reflexivity|]. intros s4 H4. rewrite caches_core in H4.
  do 2 (wp_step; eapply wp_remove_if_set; [eassumption|apply Hsw; by apply (bool_decide_unpack _)|]; intros ?s ?H).
  eapply wp_remove_if_set; [eassumption|apply Hsw; by apply (bool_decide_unpack _)|]. intros s7 (E & _). apply HQ. rewrite E. unfold core. set_solver.
Qed.

(** ** Theorems *)

End LoadThm.

(** ** Witnesses *)

Definition demo_init (ok : res -> bool) : option (Z * load_st) :=
  pib_init 2 2 false 8432 true ok (fun _ => true) (fun _ => true) true 2 (-12) load_empty.
Definition all_but (r : res) : res -> bool := fun x => negb (bool_decide (x = r)).


(** The second HCA's thread cannot be created: everything is released again. *)
Example load_undone : (fun x => (x.1, size (ld_live x.2))) <$> demo_init (all_but (KTask, 1, 0)) = Some (-1, 0%nat).
Proof. vm_compute. reflexivity. Qed.

(** The table of LIDs cannot be allocated: nothing is loaded, 0 is returned, and unloading
    follows a pointer that is NULL. *)
Example failed_load_reports_success :
  (fun x => (x.1, size (ld_live x.2), pib_cleanup 2 2 false x.2)) <$> demo_init (all_but (sw KLidTable)) = Some (0, 0%nat, None).
Proof. vm_compute. reflexivity. Qed.

(** A table of the switch cannot be allocated: the driver is loaded without a switch. *)
Example switch_failure_ignored :
  (fun x => (x.1, bool_decide (sw KSwTask ∈ ld_live x.2), size (ld_live x.2), pib_cleanup 2 2 false x.2)) <$> demo_init (all_but (sw KSwBuffer))
  = Some (0, false, 64%nat, None).
Proof. vm_compute. reflexivity. Qed.

(** In multi-host mode an HCA that cannot be added makes the driver stop the thread of
    the switch, which there is none of. *)
Example multi_host_failure_crashes :
  pib_init 2 2 true 8432 true (all_but (KTask, 1, 0)) (fun _ => true) (fun _ => true) true 2 (-12) load_empty = None.
Proof. vm_compute. reflexivity. Qed.
