(* ===== verification/Trace.v ===== *)
(** * The execution trace (driver/pib_debugfs.c, pib_trace.h)

    Every call of the driver's verbs, every packet and every completion is recorded in a
    ring of PIB_TRACE_MAX_ENTRIES entries, with records of the time of day between them;
    the file trace shows the ring.  Here are the ring, its writer, the functions that
    build the entries, and the reader.  The text of a line is left out: a line is its
    entry with the time computed for it. *)

From S2P Require Import Prelude Verbs Cq State Packet.

(** ** Entries *)

Definition PIB_TRACE_MAX_ENTRIES : Z := 65536.
Definition PIB_BOOKMARK_MESSAGE : Z := 16.
Definition PIB_TSC_RATIO_BIAS : Z := 65536.

Inductive pib_trace_act :=
  PIB_TRACE_ACT_NONE | PIB_TRACE_ACT_API | PIB_TRACE_ACT_SEND | PIB_TRACE_ACT_RECV1 | PIB_TRACE_ACT_RECV2 | PIB_TRACE_ACT_RETRY
| PIB_TRACE_ACT_COMP | PIB_TRACE_ACT_ASYNC | PIB_TRACE_ACT_TIMEDATE | PIB_TRACE_ACT_BOOKMARK.
#[export] Instance pib_trace_act_eq_dec : EqDecision pib_trace_act.
Proof. solve_decision. Defined.

(** The union u of struct pib_trace_entry; [U_zero] is all bytes 0. *)
Inductive trace_u :=
| U_zero
| U_api (oid : Z)
| U_send (len slid dlid sqpn dqpn psn trace_id : Z)
| U_recv1 (len slid dlid dqpn psn : Z)
| U_recv2 (sqpn psn data : Z)
| U_retry (sqpn trace_id count : Z)
| U_comp (oid qpn wr_id : Z) (status : ib_wc_status) (opcode : Z)
| U_async (oid : Z)
| U_timedate (tv_sec tv_nsec : Z)
| U_bookmark (message : list Z).
#[export] Instance trace_u_eq_dec : EqDecision trace_u.
Proof. solve_decision. Defined.

Record pib_trace_entry := { te_repeat : Z; te_act : pib_trace_act; te_op : Z; te_port : Z; te_u : trace_u; te_timestamp : Z }.
#[export] Instance eta_pib_trace_entry : Eta pib_trace_entry := fun e =>
  {| te_repeat := te_repeat e; te_act := te_act e; te_op := te_op e; te_port := te_port e; te_u := te_u e; te_timestamp := te_timestamp e |}.
#[export] Instance pib_trace_entry_eq_dec : EqDecision pib_trace_entry.
Proof. solve_decision. Defined.

(** memset(&entry, 0, sizeof(entry)) *)
Definition entry_zero : pib_trace_entry :=
  {| te_repeat := 0; te_act := PIB_TRACE_ACT_NONE; te_op := 0; te_port := 0; te_u := U_zero; te_timestamp := 0 |}.

(** ** The ring *)

(** The members of dev->debugfs: [tr_data] the entries written so far, the others are
    zero; [None] before register_dev allocates them. *)
Record trace := { tr_data : option (gmap Z pib_trace_entry); tr_index : Z; tr_last_record_time : Z; tr_last_record_time_index : Z }.
#[export] Instance eta_trace : Eta trace := fun t =>
  {| tr_data := tr_data t; tr_index := tr_index t; tr_last_record_time := tr_last_record_time t; tr_last_record_time_index := tr_last_record_time_index t |}.

(** register_dev *)
Definition trace_init : trace :=
  {| tr_data := Some ∅; tr_index := 0; tr_last_record_time := 0; tr_last_record_time_index := - PIB_TRACE_MAX_ENTRIES |}.

(** What the clocks show during a call: jiffies, the time of day and the cycle counter. *)
Record clock := { ck_jiffies : Z; ck_sec : Z; ck_nsec : Z; ck_cycles : Z }.

Definition equals_trace_entries (act1 : pib_trace_act) (entry1 entry2 : pib_trace_entry) : bool :=
  bool_decide (act1 = te_act entry2) && (te_op entry1 =? te_op entry2) && (te_port entry1 =? te_port entry2)
  && bool_decide (te_u entry1 = te_u entry2).

(** (index + PIB_TRACE_MAX_ENTRIES) % PIB_TRACE_MAX_ENTRIES, of int *)
Definition slot (index : Z) : Z := Z.rem (s32 (index + PIB_TRACE_MAX_ENTRIES)) PIB_TRACE_MAX_ENTRIES.

Definition entry_at (data : gmap Z pib_trace_entry) (i : Z) : pib_trace_entry := default entry_zero (data !! i).

Section Trace.
Context {PP : Params}.

Definition the_data : M trace (gmap Z pib_trace_entry) := let! t := get in of_option (tr_data t).

(** A store in front of the ring is not part of it. *)
Definition store (i : Z) (e : pib_trace_entry) : M trace unit :=
  BUG_ON (i <? 0) ;;
  modify (fun t => t <| tr_data ::= fmap (<[i := e]>) |>).

(** atomic_add_return(1, &dev->debugfs.trace_index) *)
Definition next_index : M trace Z :=
  modify (fun t => t <| tr_index := s32 (tr_index t + 1) |>) ;;
  gets tr_index.

(** Whether a record of the time is due. *)
Definition time_due (ck : clock) (t : trace) : bool :=
  (PIB_TRACE_MAX_ENTRIES / 16 <? s32 (tr_index t - tr_last_record_time_index t))
  || time_after (ck_jiffies ck) (u64 (tr_last_record_time t + HZ)).

Definition append_time (ck : clock) : M trace unit :=
  let! index := next_index in
  let! data := the_data in
  let i := slot (index - 1) in
  store i ((entry_at data i) <| te_u := U_timedate (ck_sec ck) (ck_nsec ck) |> <| te_timestamp := ck_cycles ck |> <| te_repeat := 0 |>
                             <| te_act := PIB_TRACE_ACT_TIMEDATE |>) ;;
  modify (fun t => t <| tr_last_record_time := ck_jiffies ck |> <| tr_last_record_time_index := s32 (index - 1) |>).

(** Nothing else writes between the two reads of the index. *)
Definition append_new_trace (ck : clock) (act : pib_trace_act) (entry : pib_trace_entry) : M trace unit :=
  let! t := get in
  match tr_data t with
  | None => ret tt
  | Some data =>
      let p := slot (tr_index t - 1) in
      BUG_ON (p <? 0) ;;
      let prev := entry_at data p in
      if equals_trace_entries act entry prev then
        when (te_repeat prev <? 255) (store p (prev <| te_repeat := u8 (te_repeat prev + 1) |>))
      else
        when (time_due ck t) (append_time ck) ;;
        let! index := next_index in
        store (slot (index - 1)) (entry <| te_timestamp := ck_cycles ck |> <| te_act := act |>)
  end.

(** ** The events *)

Definition pib_trace_api (ck : clock) (cmd oid : Z) : M trace unit :=
  append_new_trace ck PIB_TRACE_ACT_API (entry_zero <| te_op := u8 cmd |> <| te_u := U_api oid |>).

(** [th] is dev->thread.  The BTH of a raw packet is read as well. *)
Definition pib_trace_send (ck : clock) (th : pib_thread) (port_num size : Z) : M trace unit :=
  let buffer := th_send_buffer th in
  let lrh := lrh_of buffer in
  let buffer := drop (Z.to_nat LRH_SIZE) buffer in
  let buffer := if Z.land (lrh_sl_rsv_lnh lrh) 3 =? 3 then drop (Z.to_nat GRH_SIZE) buffer else buffer in
  let bth := bth_of buffer in
  append_new_trace ck PIB_TRACE_ACT_SEND
    (entry_zero <| te_port := port_num |> <| te_op := bth_OpCode bth |>
       <| te_u := U_send (u16 size) (th_slid th) (th_dlid th) (th_src_qp_num th) (bth_destQP bth) (Z.land (bth_psn bth) PIB_PSN_MASK) (th_trace_id th) |>).

Definition pib_trace_recv (ck : clock) (port_num opcode psn size slid dlid dqpn : Z) : M trace unit :=
  append_new_trace ck PIB_TRACE_ACT_RECV1
    (entry_zero <| te_op := opcode |> <| te_port := port_num |> <| te_u := U_recv1 (u16 size) slid dlid dqpn psn |>).

Definition pib_trace_recv_ok (ck : clock) (port_num opcode psn sqpn data : Z) : M trace unit :=
  append_new_trace ck PIB_TRACE_ACT_RECV2 (entry_zero <| te_op := opcode |> <| te_port := port_num |> <| te_u := U_recv2 sqpn psn data |>).

(** [trace_id] is that of the request. *)
Definition pib_trace_retry (ck : clock) (th : pib_thread) (port_num trace_id : Z) (w : pib_send_wqe) : M trace unit :=
  append_new_trace ck PIB_TRACE_ACT_RETRY
    (entry_zero <| te_port := port_num |> <| te_u := U_retry (th_src_qp_num th) trace_id (u8 (p_retry_cnt (w_processing w))) |>).

Definition pib_trace_comp (ck : clock) (cq : pib_cq) (wc : ib_wc) : M trace unit :=
  append_new_trace ck PIB_TRACE_ACT_COMP (entry_zero <| te_u := U_comp (cq_num cq) (wc_qp wc) (wc_wr_id wc) (wc_status wc) (wc_opcode wc) |>).

Definition pib_trace_async (ck : clock) (type oid : Z) : M trace unit :=
  append_new_trace ck PIB_TRACE_ACT_ASYNC (entry_zero <| te_op := u8 type |> <| te_u := U_async oid |>).

(** The text written to the file, [len] bytes, is cut to 16 and ends at a new line. *)
Definition bookmark (buf : list Z) : list Z :=
  (fun c => if c =? 10 then 0 else c) <$> (take (Z.to_nat PIB_BOOKMARK_MESSAGE) (buf ++ replicate (Z.to_nat PIB_BOOKMARK_MESSAGE) 0)).

Definition trace_write (ck : clock) (buf : list Z) (ppos : Z) : M trace Z :=
  when (ppos =? 0) (append_new_trace ck PIB_TRACE_ACT_BOOKMARK (entry_zero <| te_u := U_bookmark (bookmark buf) |>)) ;;
  ret (Zlen buf).

(** ** The reader *)

Record pib_trace_info := { ti_start : Z; ti_index : Z; ti_sec : Z; ti_nsec : Z; ti_base_timestamp : Z; ti_tsc_ratio : Z }.
#[export] Instance eta_pib_trace_info : Eta pib_trace_info := fun i =>
  {| ti_start := ti_start i; ti_index := ti_index i; ti_sec := ti_sec i; ti_nsec := ti_nsec i;
     ti_base_timestamp := ti_base_timestamp i; ti_tsc_ratio := ti_tsc_ratio i |}.

Definition info_entry (data : gmap Z pib_trace_entry) (start index : Z) : pib_trace_entry :=
  entry_at data (u32 (start + index) mod PIB_TRACE_MAX_ENTRIES).

(** The loop at the label retry: the first record of the time. *)
Fixpoint first_time (data : gmap Z pib_trace_entry) (start : Z) (n : nat) (index : Z) : option (Z * Z * Z * Z) :=
  match n with
  | O => None
  | S n =>
      let e := info_entry data start index in
      match te_act e, te_u e with
      | PIB_TRACE_ACT_TIMEDATE, U_timedate sec nsec => Some (index, sec, nsec, te_timestamp e)
      | _, _ => first_time data start n (index + 1)
      end
  end.


(** [kzalloc] and [seq_open] succeed.  Dividing by zero is [None]. *)
Definition trace_open (ck : clock) (t : trace) : option (Z + pib_trace_info) :=
  match tr_data t with
  | None => Some (inl (- ENOSYS))
  | Some data =>
      let start := u32 (Z.rem (tr_index t) PIB_TRACE_MAX_ENTRIES) in
      match first_time data start (Z.to_nat PIB_TRACE_MAX_ENTRIES) 0 with
      | None => Some (inl (- ENOENT))
      | Some (index, sec, nsec, ts) =>
          let duration_ns := u64 (u64 (u64 (ck_sec ck - sec) * 1000000000) + u64 (ck_nsec ck - nsec)) in
          let cycles := u64 (ck_cycles ck - ts) in
          if cycles =? 0 then None
          else Some (inr {| ti_start := start; ti_index := index; ti_sec := sec; ti_nsec := nsec; ti_base_timestamp := ts;
                            ti_tsc_ratio := u64 (PIB_TSC_RATIO_BIAS * duration_ns) / cycles |})
      end
  end.

Definition trace_seq_next (data : gmap Z pib_trace_entry) (i : pib_trace_info) : option pib_trace_info :=
  let i := i <| ti_index := u32 (ti_index i + 1) |> in
  if PIB_TRACE_MAX_ENTRIES <=? ti_index i then None
  else
    let e := info_entry data (ti_start i) (ti_index i) in
    match te_act e, te_u e with
    | PIB_TRACE_ACT_NONE, _ => None
    | PIB_TRACE_ACT_TIMEDATE, U_timedate sec nsec =>
        Some (i <| ti_sec := sec |> <| ti_nsec := nsec |> <| ti_base_timestamp := te_timestamp e |>)
    | _, _ => Some i
    end.

(** A line: the seconds and nanoseconds shown, and the entry. *)
Definition trace_seq_show (data : gmap Z pib_trace_entry) (i : pib_trace_info) : Z * Z * pib_trace_entry :=
  let e := info_entry data (ti_start i) (ti_index i) in
  let nsec := s64 (ti_nsec i + u64 (u64 (te_timestamp e - ti_base_timestamp i) * ti_tsc_ratio i) / PIB_TSC_RATIO_BIAS) in
  if 1000000000 <=? nsec then (ti_sec i + nsec / 1000000000, nsec mod 1000000000, e) else (ti_sec i, nsec, e).

(** What a reader of the whole file gets. *)
Fixpoint trace_read (fuel : nat) (data : gmap Z pib_trace_entry) (i : pib_trace_info) : list (Z * Z * pib_trace_entry) :=
  trace_seq_show data i ::
  match fuel with
  | O => []
  | S fuel => match trace_seq_next data i with None => [] | Some i' => trace_read fuel data i' end
  end.

Definition trace_file (ck : clock) (t : trace) : option (Z + list (Z * Z * pib_trace_entry)) :=
  match trace_open ck t, tr_data t with
  | Some (inr i), Some data => Some (inr (trace_read (Z.to_nat PIB_TRACE_MAX_ENTRIES) data i))
  | Some (inl e), _ => Some (inl e)
  | _, _ => None
  end.
End Trace.
