(* ===== verification/TraceThm.v ===== *)
(** * The trace refines a log

    The ring holds the latest records of a log that only grows: what the file shows is an
    end of the log, in order, from a record of the time on. *)

From S2P Require Import Prelude Verbs State Demo Trace.

Section TraceThm.
Context {PP : Params}.
Abbreviation N := PIB_TRACE_MAX_ENTRIES.

(** ** The log *)

(** The opcode and the port of a record of the time are what the slot held before. *)
Definition view (e : pib_trace_entry) : pib_trace_entry :=
  if decide (te_act e = PIB_TRACE_ACT_TIMEDATE) then e <| te_op := 0 |> <| te_port := 0 |> else e.

Definition time_entry (ck : clock) : pib_trace_entry :=
  {| te_repeat := 0; te_act := PIB_TRACE_ACT_TIMEDATE; te_op := 0; te_port := 0; te_u := U_timedate (ck_sec ck) (ck_nsec ck); te_timestamp := ck_cycles ck |}.

(** A log is kept with its newest record first; [log_time] are the two variables of the
    ring that decide when a record of the time is due. *)
Record log := { lg_entries : list pib_trace_entry; lg_time : Z; lg_time_index : Z }.
Definition log_empty : log := {| lg_entries := []; lg_time := 0; lg_time_index := - N |}.

Definition log_due (ck : clock) (l : log) : bool :=
  (N / 16 <? Zlen (lg_entries l) - lg_time_index l) || time_after (ck_jiffies ck) (u64 (lg_time l + HZ)).

Definition log_tick (ck : clock) (l : log) : log :=
  if log_due ck l then {| lg_entries := time_entry ck :: lg_entries l; lg_time := ck_jiffies ck; lg_time_index := Zlen (lg_entries l) |} else l.

(** A record equal to the newest one only counts. *)
Definition log_append (ck : clock) (act : pib_trace_act) (e : pib_trace_entry) (l : log) : log :=
  match lg_entries l with
  | prev :: rest =>
      if equals_trace_entries act e prev
      then {| lg_entries := (if te_repeat prev <? 255 then prev <| te_repeat := u8 (te_repeat prev + 1) |> else prev) :: rest;
              lg_time := lg_time l; lg_time_index := lg_time_index l |}
      else let l := log_tick ck l in
           {| lg_entries := e <| te_timestamp := ck_cycles ck |> <| te_act := act |> :: lg_entries l; lg_time := lg_time l; lg_time_index := lg_time_index l |}
  | [] => let l := log_tick ck l in
          {| lg_entries := e <| te_timestamp := ck_cycles ck |> <| te_act := act |> :: lg_entries l; lg_time := lg_time l; lg_time_index := lg_time_index l |}
  end.

(** ** The ring against the log *)

(** The slots of the newest records, and those never written. *)
Definition slots (l : list pib_trace_entry) (data : gmap Z pib_trace_entry) : Prop :=
  (forall k e, l !! k = Some e -> Z.of_nat k < N -> view (entry_at data ((Zlen l - 1 - Z.of_nat k) mod N)) = e)
  /\ (forall i, Zlen l <= i < N -> entry_at data i = entry_zero).

Definition ring (l : log) (t : trace) : Prop :=
  (exists data, tr_data t = Some data /\ slots (lg_entries l) data) /\ tr_index t = Zlen (lg_entries l)
  /\ tr_last_record_time t = lg_time l /\ tr_last_record_time_index t = lg_time_index l.

(** The log is short enough for the index, an int, and its time record is in it. *)
Definition log_ok (l : log) : Prop :=
  Zlen (lg_entries l) + N + 2 < 2 ^ 31 /\ - N <= lg_time_index l < Zlen (lg_entries l) + 1 /\ (forall e, e ∈ lg_entries l -> te_act e <> PIB_TRACE_ACT_NONE).

Lemma slot_mod n : -1 <= n < 2 ^ 31 - N -> slot n = n mod N.
Proof.
  intros Hn. unfold slot, s32. rewrite swrap_small by (unfold N in *; lia). rewrite Z.rem_mod_nonneg by (unfold N in *; lia).
  replace (n + N) with (n + 1 * N) by lia. apply Z_mod_plus_full.
Qed.

Lemma entry_insert data i j e : entry_at (<[i := e]> data) j = if decide (i = j) then e else entry_at data j.
Proof. unfold entry_at. destruct (decide (i = j)) as [->|Hne]; [by rewrite lookup_insert_eq|by rewrite lookup_insert_ne]. Qed.

Lemma mod_apart a k : 0 < k < N -> a mod N <> (a - k) mod N.
Proof.
  intros Hk E. assert ((a - (a - k)) mod N = 0) as H by (rewrite Zminus_mod, E, Z.sub_diag; done). replace (a - (a - k)) with k in H by lia.
  rewrite Z.mod_small in H by lia. lia.
Qed.

Lemma slots_tail e l data e' : view e' = e -> (forall k x, l !! k = Some x -> Z.of_nat k + 1 < N -> view (entry_at data ((Zlen l - 1 - Z.of_nat k) mod N)) = x) ->
  (forall i, Zlen l + 1 <= i < N -> entry_at data i = entry_zero) -> slots (e :: l) (<[Zlen l mod N := e']> data).
Proof.
  intros He Hl Hr. split.
  - intros [|k] x Hx Hk.
    + injection Hx as <-. rewrite Zlen_cons. replace (Zlen l + 1 - 1 - Z.of_nat 0) with (Zlen l) by lia. by rewrite entry_insert, decide_True.
    + simpl in Hx. rewrite Zlen_cons. replace (Zlen l + 1 - 1 - Z.of_nat (S k)) with (Zlen l - (Z.of_nat k + 1)) by lia.
      rewrite entry_insert, decide_False by (apply mod_apart; lia). replace (Zlen l - (Z.of_nat k + 1)) with (Zlen l - 1 - Z.of_nat k) by lia. apply Hl; [done|lia].
  - intros i Hi. rewrite Zlen_cons in Hi. rewrite entry_insert. pose proof (Zlen_nonneg l). rewrite decide_False; [apply Hr; lia|].
    rewrite Z.mod_small by lia. lia.
Qed.

Lemma slots_push e l data e' : slots l data -> view e' = e -> slots (e :: l) (<[Zlen l mod N := e']> data).
Proof. intros [H1 H2] He. apply slots_tail; [done| |]; intros; [apply H1; [done|lia]|apply H2; lia]. Qed.

Lemma slots_replace e0 e l data e' : slots (e0 :: l) data -> view e' = e -> slots (e :: l) (<[Zlen l mod N := e']> data).
Proof.
  intros [H1 H2] He. rewrite Zlen_cons in *. apply slots_tail; [done| |]; intros; [|apply H2; lia].
  specialize (H1 (S k) x ltac:(done) ltac:(lia)). by replace (Zlen l - 1 - Z.of_nat k) with (Zlen l + 1 - 1 - Z.of_nat (S k)) by lia.
Qed.

(** ** Writing *)

Lemma view_entry ck act (e : pib_trace_entry) : act <> PIB_TRACE_ACT_TIMEDATE ->
  view (e <| te_timestamp := ck_cycles ck |> <| te_act := act |>) = e <| te_timestamp := ck_cycles ck |> <| te_act := act |>.
Proof. intros H. unfold view. by rewrite decide_False. Qed.

Lemma equals_view act e x : act <> PIB_TRACE_ACT_TIMEDATE -> equals_trace_entries act e (view x) = equals_trace_entries act e x.
Proof.
  intros H. unfold view. destruct (decide (te_act x = PIB_TRACE_ACT_TIMEDATE)) as [E|]; [|done].
  unfold equals_trace_entries. simpl. rewrite E, bool_decide_eq_false_2; done.
Qed.

Lemma due_log ck l t : ring l t -> log_ok l -> time_due ck t = log_due ck l.
Proof.
  intros (_ & Hi & Ht & Hti) (Hb & Hlt & _). pose proof (Zlen_nonneg (lg_entries l)) as Hz. unfold time_due, log_due. rewrite Hi, Ht, Hti. f_equal.
  unfold s32. rewrite swrap_small; [done|lia|unfold N in *; lia].
Qed.

(** The next slot. *)
Lemma wp_next_index (l : list pib_trace_entry) t (Q : Z -> trace -> Prop) : tr_index t = Zlen l -> Zlen l + N + 1 < 2 ^ 31 ->
  Q (Zlen l + 1) (t <| tr_index := Zlen l + 1 |>) -> wp next_index Q t.
Proof.
  intros Hi Hb HQ. pose proof (Zlen_nonneg l). unfold next_index. do 3 wp_step. simpl. rewrite Hi. unfold s32.
  rewrite swrap_small by (unfold N in *; lia). done.
Qed.

Lemma wp_store (l : list pib_trace_entry) (Q : unit -> trace -> Prop) e t : Zlen l + N + 1 < 2 ^ 31 ->
  Q tt (t <| tr_data ::= fmap (<[Zlen l mod N := e]>) |>) -> wp (store (slot (Zlen l + 1 - 1)) e) Q t.
Proof.
  intros Hb HQ. pose proof (Zlen_nonneg l). unfold store. replace (Zlen l + 1 - 1) with (Zlen l) by lia. rewrite slot_mod by lia. wp_step.
  apply wp_BUG_ON; [by apply Z.ltb_ge, Z.mod_pos_bound|]. by wp_step.
Qed.

Lemma wp_append_time ck l t : ring l t -> log_ok l -> log_due ck l = true -> wp (append_time ck) (fun _ t' => ring (log_tick ck l) t') t.
Proof.
  intros ((data & Hd & Hs) & Hi & Ht & Hti) (Hb & Hlt & _) Hdue. pose proof (Zlen_nonneg (lg_entries l)) as Hz. unfold append_time, log_tick. rewrite Hdue.
  wp_step. eapply wp_next_index; [exact Hi|lia|]. unfold the_data. do 3 wp_step. simpl. rewrite Hd. do 2 wp_step. apply wp_store; [lia|]. wp_step. simpl. split_and!; try done.
  - eexists. split; [simpl; rewrite ?Hd; reflexivity|]. apply slots_push; [done|]. unfold view. simpl. replace (Zlen (lg_entries l) + 1 - 1) with (Zlen (lg_entries l)) by lia. done.
  - simpl. by rewrite Zlen_cons.
  - simpl. unfold s32. rewrite swrap_small; [lia|lia|unfold N in *; lia].
Qed.

Lemma wp_append_entry ck act e l t : ring l t -> Zlen (lg_entries l) + N + 1 < 2 ^ 31 -> act <> PIB_TRACE_ACT_TIMEDATE ->
  wp (let! index := next_index in store (slot (index - 1)) (e <| te_timestamp := ck_cycles ck |> <| te_act := act |>))
    (fun _ t' => ring {| lg_entries := e <| te_timestamp := ck_cycles ck |> <| te_act := act |> :: lg_entries l; lg_time := lg_time l; lg_time_index := lg_time_index l |} t') t.
Proof.
  intros ((data & Hd & Hs) & Hi & Ht & Hti) Hb Hact. wp_step. eapply wp_next_index; [exact Hi|lia|]. apply wp_store; [lia|]. simpl. split_and!; try done.
  - eexists. split; [simpl; rewrite ?Hd; reflexivity|]. apply slots_push; [done|by apply view_entry].
  - simpl. by rewrite Zlen_cons.
Qed.

Definition proper_act (act : pib_trace_act) : Prop := act <> PIB_TRACE_ACT_NONE /\ act <> PIB_TRACE_ACT_TIMEDATE.

Lemma prev_log l t data : ring l t -> log_ok l -> tr_data t = Some data -> slot (tr_index t - 1) = (Zlen (lg_entries l) - 1) mod N
  /\ forall e rest, lg_entries l = e :: rest -> view (entry_at data (slot (tr_index t - 1))) = e.
Proof.
  intros ((data' & Hd & Hs1 & _) & Hi & _) (Hb & _) E. pose proof (Zlen_nonneg (lg_entries l)). rewrite Hi, slot_mod by lia. split; [done|].
  intros e rest El. assert (data' = data) as -> by congruence. specialize (Hs1 0%nat e). rewrite El in Hs1 |- *. specialize (Hs1 eq_refl ltac:(done)).
  by replace (Zlen (e :: rest) - 1 - Z.of_nat 0) with (Zlen (e :: rest) - 1) in Hs1 by lia.
Qed.

Lemma wp_append ck act e l t : ring l t -> log_ok l -> proper_act act -> wp (append_new_trace ck act e) (fun _ t' => ring (log_append ck act e l) t') t.
Proof.
  intros Hr Hok [Hn Htd]. destruct (Hr) as ((data & Hd & Hs) & Hi & Ht & Hti). destruct (prev_log l t data Hr Hok Hd) as [Hp Hprev].
  unfold append_new_trace. do 2 wp_step. rewrite Hd. cbv zeta. wp_step. apply wp_BUG_ON; [rewrite Hp; by apply Z.ltb_ge, Z.mod_pos_bound|].
  assert (forall l' t', ring l' t' -> Zlen (lg_entries l') + N + 1 < 2 ^ 31 -> wp (let! index := next_index in store (slot (index - 1)) (e <| te_timestamp := ck_cycles ck |> <| te_act := act |>))
    (fun _ t' => ring {| lg_entries := e <| te_timestamp := ck_cycles ck |> <| te_act := act |> :: lg_entries l'; lg_time := lg_time l'; lg_time_index := lg_time_index l' |} t') t') as Hadd by (intros; by apply wp_append_entry).
  assert (wp (when (time_due ck t) (append_time ck);; let! index := next_index in store (slot (index - 1)) (e <| te_timestamp := ck_cycles ck |> <| te_act := act |>))
    (fun _ t' => ring {| lg_entries := e <| te_timestamp := ck_cycles ck |> <| te_act := act |> :: lg_entries (log_tick ck l); lg_time := lg_time (log_tick ck l); lg_time_index := lg_time_index (log_tick ck l) |} t') t) as Hnew.
  { rewrite (due_log ck l t Hr Hok). destruct Hok as (Hb & Hok). wp_step. wp_step.
    - eapply wp_mono; [apply wp_append_time; [done|by split|done]|]. intros [] t' Hr'. apply Hadd; [done|]. unfold log_tick. rewrite H. simpl. rewrite Zlen_cons. lia.
    - apply Hadd; [unfold log_tick; by rewrite H|]. unfold log_tick. rewrite H. lia. }
  destruct (lg_entries l) as [|prev rest] eqn:El.
  - destruct Hs as [_ Hz]. assert (equals_trace_entries act e (entry_at data (slot (tr_index t - 1))) = false) as ->.
    { rewrite Hp, Hz by (rewrite Zlen_nil; unfold N; by vm_compute). unfold equals_trace_entries. simpl. by rewrite bool_decide_eq_false_2. }
    unfold log_append. rewrite El. exact Hnew.
  - unfold log_append. rewrite El. specialize (Hprev prev rest eq_refl). rewrite <-(equals_view _ _ _ Htd), Hprev.
    destruct (equals_trace_entries act e prev); [|exact Hnew].
    assert (te_repeat (entry_at data (slot (tr_index t - 1))) = te_repeat prev) as -> by (rewrite <-Hprev; unfold view; by destruct (decide _)).
    wp_step; rewrite H.
    + unfold store. wp_step. apply wp_BUG_ON; [rewrite Hp; by apply Z.ltb_ge, Z.mod_pos_bound|]. wp_step. split_and!; simpl; try done.
      * eexists. split; [simpl; rewrite ?Hd; reflexivity|]. rewrite Hp, Zlen_cons. replace (Zlen rest + 1 - 1) with (Zlen rest) by lia. eapply slots_replace; [done|].
        rewrite Hp, Zlen_cons in Hprev. replace (Zlen rest + 1 - 1) with (Zlen rest) in Hprev by lia. rewrite <-Hprev. unfold view. simpl. by destruct (decide _).
    + split_and!; simpl; try done. by exists data.
Qed.

(** ** Reading *)

Definition is_time (e : pib_trace_entry) : Prop := te_act e = PIB_TRACE_ACT_TIMEDATE.
#[local] Instance is_time_dec e : Decision (is_time e) := decide (te_act e = PIB_TRACE_ACT_TIMEDATE).

(** The records of a log are proper, and a record of the time is never far. *)
Record log_inv (l : log) : Prop := {
  li_act : forall e, e ∈ lg_entries l -> te_act e <> PIB_TRACE_ACT_NONE;
  li_time : forall e, e ∈ lg_entries l -> is_time e -> exists sec nsec, te_u e = U_timedate sec nsec;
  li_last : match lg_entries l with
            | [] => lg_time_index l = - N
            | _ => 0 <= lg_time_index l < Zlen (lg_entries l)
                   /\ exists e, lg_entries l !! Z.to_nat (Zlen (lg_entries l) - 1 - lg_time_index l) = Some e /\ is_time e
            end;
  li_dense : forall l1 l2, lg_entries l = l1 ++ l2 -> l2 <> [] -> exists k e, Z.of_nat k < N / 16 + 2 /\ l2 !! k = Some e /\ is_time e
}.

Lemma inv_empty : log_inv log_empty.
Proof.
  split; simpl; try done; try (by intros e ?%elem_of_nil). intros l1 l2 E. by destruct l1, l2.
Qed.

Lemma dense_cons (P : pib_trace_entry -> Prop) (l : list pib_trace_entry) e b :
  (forall l1 l2, l = l1 ++ l2 -> l2 <> [] -> exists k x, Z.of_nat k < b /\ l2 !! k = Some x /\ P x) ->
  (exists k x, Z.of_nat k < b /\ (e :: l) !! k = Some x /\ P x) ->
  forall l1 l2, e :: l = l1 ++ l2 -> l2 <> [] -> exists k x, Z.of_nat k < b /\ l2 !! k = Some x /\ P x.
Proof. intros H1 H2 [|x l1] l2 E Hne; simpl in E; [by subst l2|]. injection E as -> E. by apply (H1 l1). Qed.

Lemma tick_inv ck l : log_inv l -> log_inv (log_tick ck l) /\ (lg_entries (log_tick ck l) <> [])
  /\ (Zlen (lg_entries (log_tick ck l)) - lg_time_index (log_tick ck l) <= N / 16 \/ lg_time_index (log_tick ck l) = Zlen (lg_entries (log_tick ck l)) - 1).
Proof.
  intros [I1 I2 I3 I4]. unfold log_tick. destruct (log_due ck l) eqn:E.
  - split; [|split; [done|right; simpl; rewrite Zlen_cons; lia]]. split; simpl.
    + intros e [->|He]%elem_of_cons; [done|by apply I1].
    + intros e [->|He]%elem_of_cons; [by eexists _, _|by apply I2].
    + rewrite Zlen_cons. pose proof (Zlen_nonneg (lg_entries l)). split; [lia|]. exists (time_entry ck).
      by replace (Z.to_nat (Zlen (lg_entries l) + 1 - 1 - Zlen (lg_entries l))) with 0%nat by lia.
    + apply dense_cons; [done|]. exists 0%nat, (time_entry ck). done.
  - unfold log_due in E. apply orb_false_iff in E as [E _]. apply Z.ltb_ge in E.
    destruct (lg_entries l) eqn:El; [rewrite I3, Zlen_nil in E; by vm_compute in E|].
    split; [by split; rewrite ?El|]. split; [done|by left].
Qed.

Lemma push_inv e l : log_inv l -> lg_entries l <> [] -> te_act e <> PIB_TRACE_ACT_NONE -> te_act e <> PIB_TRACE_ACT_TIMEDATE ->
  (Zlen (lg_entries l) - lg_time_index l <= N / 16 \/ lg_time_index l = Zlen (lg_entries l) - 1) ->
  log_inv {| lg_entries := e :: lg_entries l; lg_time := lg_time l; lg_time_index := lg_time_index l |}.
Proof.
  intros [I1 I2 I3 I4] Hne Hn Ht Hd. assert (0 <= lg_time_index l < Zlen (lg_entries l) /\ exists e, lg_entries l !! Z.to_nat (Zlen (lg_entries l) - 1 - lg_time_index l) = Some e /\ is_time e) as [Hr (x & Hx & Hxt)] by (by destruct (lg_entries l)).
  assert ((e :: lg_entries l) !! Z.to_nat (Zlen (e :: lg_entries l) - 1 - lg_time_index l) = Some x) as Hx'.
  { rewrite Zlen_cons. replace (Z.to_nat (Zlen (lg_entries l) + 1 - 1 - lg_time_index l)) with (S (Z.to_nat (Zlen (lg_entries l) - 1 - lg_time_index l))) by lia. done. }
  split; simpl.
  - intros y [->|Hy]%elem_of_cons; [done|by apply I1].
  - intros y [->|Hy]%elem_of_cons; [by intros ?|by apply I2].
  - rewrite Zlen_cons in *. split; [lia|]. by exists x.
  - apply dense_cons; [done|]. eexists _, x. split; [|split; [exact Hx'|done]]. rewrite Zlen_cons. destruct Hd as [Hd|Hd]; [lia|]. rewrite Hd.
    replace (Zlen (lg_entries l) + 1 - 1 - (Zlen (lg_entries l) - 1)) with 1 by lia. by vm_compute.
Qed.

Lemma lookup_head (e e' : pib_trace_entry) rest k x : te_act e' = te_act e -> (e :: rest) !! k = Some x -> is_time x ->
  exists x', (e' :: rest) !! k = Some x' /\ is_time x'.
Proof. intros Ha Hk Hx. destruct k as [|k]; [|by exists x]. injection Hk as <-. exists e'. split; [done|]. unfold is_time in *. congruence. Qed.

Lemma head_inv e e' rest a b : te_act e' = te_act e -> te_u e' = te_u e ->
  log_inv {| lg_entries := e :: rest; lg_time := a; lg_time_index := b |} -> log_inv {| lg_entries := e' :: rest; lg_time := a; lg_time_index := b |}.
Proof.
  intros Ha Hu [I1 I2 I3 I4]. simpl in *. split; simpl.
  - intros x [->|Hx]%elem_of_cons; [rewrite Ha; apply I1; by left|apply I1; by right].
  - intros x [->|Hx]%elem_of_cons; [|apply I2; by right]. unfold is_time. rewrite Ha, Hu. apply I2. by left.
  - destruct I3 as [Hr (x & Hx & Hxt)]. split; [done|]. by eapply lookup_head.
  - intros [|x l1] l2 E Hne; simpl in E.
    + subst l2. destruct (I4 [] (e :: rest) eq_refl ltac:(done)) as (k & x & Hk & Hx & Hxt). destruct (lookup_head e e' rest k x Ha Hx Hxt) as (x' & ? & ?). by exists k, x'.
    + injection E as -> E. by apply (I4 (e :: l1)); [simpl; by rewrite E|].
Qed.

Lemma append_inv ck act e l : log_inv l -> proper_act act -> log_inv (log_append ck act e l).
Proof.
  intros Hi [Hn Ht]. destruct (tick_inv ck l Hi) as (Hi' & Hne & Hd).
  assert (log_inv {| lg_entries := e <| te_timestamp := ck_cycles ck |> <| te_act := act |> :: lg_entries (log_tick ck l);
    lg_time := lg_time (log_tick ck l); lg_time_index := lg_time_index (log_tick ck l) |}) as Hnew by (by apply push_inv).
  unfold log_append. destruct (lg_entries l) as [|prev rest] eqn:El; [done|]. destruct (equals_trace_entries act e prev); [|done].
  eapply (head_inv prev); [by destruct (_ <? _)..|]. destruct l. simpl in *. by subst.
Qed.

Lemma append_length ck act e l : Zlen (lg_entries (log_append ck act e l)) <= Zlen (lg_entries l) + 2.
Proof.
  assert (Zlen (lg_entries (log_tick ck l)) <= Zlen (lg_entries l) + 1) as Ht by (unfold log_tick; destruct (log_due ck l); simpl; rewrite ?Zlen_cons; lia).
  unfold log_append. destruct (lg_entries l) as [|prev rest] eqn:El; [|destruct (equals_trace_entries _ _ _)]; simpl; rewrite !Zlen_cons in *; lia.
Qed.

(** What the reader sees from the slot after the newest record on. *)
Lemma info_log l t data j : ring l t -> log_inv l -> Zlen (lg_entries l) + N + 2 < 2 ^ 31 -> tr_data t = Some data -> 0 <= j < N ->
  view (info_entry data (u32 (Z.rem (tr_index t) N)) j) = default entry_zero (lg_entries l !! Z.to_nat (N - 1 - j)).
Proof.
  intros ((data' & Hd & Hs1 & Hs2) & Hi & _) _ Hb E Hj. assert (data' = data) as -> by congruence. pose proof (Zlen_nonneg (lg_entries l)) as Hz.
  set (n := Zlen (lg_entries l)) in *. assert (0 <= n mod N < N) by (by apply Z.mod_pos_bound). unfold info_entry. rewrite Hi, Z.rem_mod_nonneg by done.
  unfold u32. rewrite (wrap_small 32 (n mod N)) by (unfold N in *; lia). rewrite wrap_small by (unfold N in *; lia).
  rewrite Zplus_mod_idemp_l. destruct (lg_entries l !! Z.to_nat (N - 1 - j)) as [e|] eqn:He; simpl.
  - specialize (Hs1 _ _ He). rewrite Z2Nat.id in Hs1 by lia. rewrite <-Hs1 by lia. f_equal. f_equal. fold n. replace (n + j) with (n - 1 - (N - 1 - j) + 1 * N) by lia. apply Z_mod_plus_full.
  - apply lookup_ge_None in He. assert (n + j < N) by (unfold n, Zlen in *; lia). rewrite Z.mod_small by lia. rewrite Hs2 by (fold n; lia). done.
Qed.

Lemma view_act e : te_act (view e) = te_act e.
Proof. unfold view. by destruct (decide _). Qed.
Lemma view_u e : te_u (view e) = te_u e.
Proof. unfold view. by destruct (decide _). Qed.

(** An entry that the reader takes for a record of the time. *)
Definition timed (e : pib_trace_entry) : Prop := is_time e /\ exists sec nsec, te_u e = U_timedate sec nsec.

Lemma first_time_spec data start : forall n index,
  match first_time data start n index with
  | None => forall j, index <= j < index + Z.of_nat n -> ~ timed (info_entry data start j)
  | Some (j, sec, nsec, ts) => index <= j < index + Z.of_nat n /\ timed (info_entry data start j) /\ ts = te_timestamp (info_entry data start j)
      /\ forall i, index <= i < j -> ~ timed (info_entry data start i)
  end.
Proof.
  induction n as [|n IH]; intros index; cbn [first_time]; [lia|]. set (e := info_entry data start index).
  assert (timed e \/ ~ timed e) as Hc.
  { unfold timed, is_time. destruct (decide (te_act e = PIB_TRACE_ACT_TIMEDATE)); [|right; by intros []].
    destruct (te_u e); try (right; intros [_ (? & ? & [=])]; fail). left. eauto. }
  assert (~ timed e -> match first_time data start n (index + 1) with
    | None => forall j, index <= j < index + Z.of_nat (S n) -> ~ timed (info_entry data start j)
    | Some (j, sec, nsec, ts) => index <= j < index + Z.of_nat (S n) /\ timed (info_entry data start j) /\ ts = te_timestamp (info_entry data start j)
        /\ forall i, index <= i < j -> ~ timed (info_entry data start i) end) as Hno.
  { intros Hn. specialize (IH (index + 1)). destruct (first_time data start n (index + 1)) as [[[[j sec] nsec] ts]|].
    - destruct IH as (H1 & H2 & H3 & H4). split; [lia|]. split; [done|]. split; [done|]. intros i Hi. destruct (decide (i = index)) as [->|]; [done|]. apply H4. lia.
    - intros j Hj. destruct (decide (j = index)) as [->|]; [done|]. apply IH. lia. }
  destruct Hc as [Hc|Hc].
  - destruct (Hc) as [Ha (sec & nsec & Hu)]. rewrite Ha, Hu. split; [lia|]. split; [done|]. split; [done|]. intros i Hi. lia.
  - assert (match te_act e, te_u e with PIB_TRACE_ACT_TIMEDATE, U_timedate sec nsec => Some (index, sec, nsec, te_timestamp e) | _, _ => first_time data start n (index + 1) end
      = first_time data start n (index + 1)) as ->; [|by apply Hno].
    unfold timed, is_time in Hc. destruct (te_act e); try done. destruct (te_u e); try done. exfalso. apply Hc. eauto.
Qed.

Lemma read_spec data start : forall fuel i, ti_start i = start -> 0 <= ti_index i < N -> N - 1 - ti_index i <= Z.of_nat fuel ->
  (forall j, ti_index i <= j < N -> te_act (info_entry data start j) <> PIB_TRACE_ACT_NONE) ->
  snd <$> trace_read fuel data i = info_entry data start <$> seqZ (ti_index i) (N - ti_index i).
Proof.
  induction fuel as [|fuel IH]; intros i Hs Hi Hf Hn; cbn [trace_read fmap list_fmap].
  - replace (N - ti_index i) with 1 by lia. rewrite (seqZ_cons (ti_index i)) by lia. change (seqZ (Z.succ (ti_index i)) (Z.pred 1)) with (@nil Z). cbn [fmap list_fmap]. f_equal.
    unfold trace_seq_show. rewrite Hs. by destruct (_ <=? _).
  - rewrite (seqZ_cons (ti_index i)) by lia. cbn [fmap list_fmap]. f_equal; [unfold trace_seq_show; rewrite Hs; by destruct (_ <=? _)|].
    unfold trace_seq_next. simpl. unfold u32. rewrite wrap_small by (unfold N in *; lia). destruct (Z.leb_spec N (ti_index i + 1)) as [Hl|Hl].
    + by replace (Z.pred (N - ti_index i)) with 0 by lia.
    + rewrite Hs. set (e := info_entry data start (ti_index i + 1)). assert (te_act e <> PIB_TRACE_ACT_NONE) as Hne by (apply Hn; lia).
      replace (Z.succ (ti_index i)) with (ti_index i + 1) by lia. replace (Z.pred (N - ti_index i)) with (N - (ti_index i + 1)) by lia.
      assert (forall i', ti_start i' = start -> ti_index i' = ti_index i + 1 -> snd <$> trace_read fuel data i' = info_entry data start <$> seqZ (ti_index i + 1) (N - (ti_index i + 1))) as Hgo.
      { intros i' Hs' Hi'. rewrite <-Hi'. apply IH; [done|lia|lia|]. intros j Hj. apply Hn. lia. }
      destruct (te_act e) eqn:Ea; try done; try (by apply Hgo). destruct (te_u e); by apply Hgo.
Qed.

Lemma rev_take_seqZ (l : list pib_trace_entry) : forall k, (k <= length l)%nat -> Z.of_nat k <= N ->
  (fun j => default entry_zero (l !! Z.to_nat (N - 1 - j))) <$> seqZ (N - Z.of_nat k) (Z.of_nat k) = rev (take k l).
Proof.
  induction k as [|k IH]; intros Hk HN; [done|]. destruct (lookup_lt_is_Some_2 l k) as [x Hx]; [lia|]. rewrite (take_S_r _ _ _ Hx), rev_app_distr.
  rewrite seqZ_cons by lia. cbn [fmap list_fmap rev app]. f_equal.
  - replace (Z.to_nat (N - 1 - (N - Z.of_nat (S k)))) with k by lia. by rewrite Hx.
  - rewrite <-IH by lia. do 2 f_equal; lia.
Qed.

(** The newest records of a log that is not empty reach back to a record of the time. *)
Lemma oldest_time l : log_inv l -> lg_entries l <> [] ->
  exists k e, (k < length (lg_entries l))%nat /\ Z.of_nat k < N /\ lg_entries l !! k = Some e /\ timed e
  /\ (Zlen (lg_entries l) <= N -> Z.of_nat k = Zlen (lg_entries l) - 1) /\ (N < Zlen (lg_entries l) -> N - N / 16 - 2 <= Z.of_nat k).
Proof.
  intros [I1 I2 _ I4] Hne. set (es := lg_entries l) in *. assert (1 <= Zlen es) as Hl by (unfold Zlen; destruct es; [done|simpl; lia]).
  set (m := Z.to_nat (if Zlen es <=? N then Zlen es - 1 else N - N / 16 - 2)).
  assert (N = 65536) as HN by done. assert (N / 16 = 4096) as HN16 by done.
  assert (m < length es)%nat as Hm by (subst m; unfold Zlen in *; destruct (Z.leb_spec (Z.of_nat (length es)) N); lia).
  destruct (I4 (take m es) (drop m es)) as (k & e & Hk & He & Ht).
  { by rewrite take_drop. }
  { intros E. apply (f_equal length) in E. rewrite length_drop in E. simpl in E. lia. }
  rewrite lookup_drop in He. pose proof (lookup_lt_Some _ _ _ He) as Hlt. exists (m + k)%nat, e. split; [done|]. split; [|split; [done|split; [split; [done|]; apply I2; [by eapply list_elem_of_lookup_2|done]|]]].
  all: subst m; unfold Zlen in *; destruct (Z.leb_spec (Z.of_nat (length es)) N); lia.
Qed.

(** ** Theorems *)

Definition record : Type := clock * pib_trace_act * pib_trace_entry.
Definition trace_all (evs : list record) : M trace unit := for_each (fun '(ck, act, e) => append_new_trace ck act e) evs.
Definition log_all (evs : list record) : log := fold_left (fun l '(ck, act, e) => log_append ck act e l) evs log_empty.

Lemma log_ok_of l : log_inv l -> Zlen (lg_entries l) + N + 2 < 2 ^ 31 -> log_ok l.
Proof.
  intros [I1 _ I3 _] Hb. split; [done|]. split; [|done]. pose proof (Zlen_nonneg (lg_entries l)). destruct (lg_entries l); [rewrite I3, Zlen_nil; done|]. unfold N in *. lia.
Qed.

Lemma trace_all_ring : forall (evs : list record) l t, ring l t -> log_inv l -> Forall (fun r => proper_act r.1.2) evs -> Zlen (lg_entries l) + 2 * Zlen evs + N + 2 < 2 ^ 31 ->
  let l' := fold_left (fun l '(ck, act, e) => log_append ck act e l) evs l in
  exists t', trace_all evs t = Some (tt, t') /\ ring l' t' /\ log_inv l' /\ Zlen (lg_entries l') + N + 2 < 2 ^ 31.
Proof.
  induction evs as [|[[ck act] e] evs IH]; intros l t Hr Hi Hp Hb l'.
  - change (Zlen (@nil record)) with 0 in Hb. exists t. split; [done|]. split; [done|]. split; [done|]. subst l'. cbn [fold_left]. lia.
  - apply Forall_cons in Hp as [Hp1 Hp]. rewrite Zlen_cons in Hb. pose proof (Zlen_nonneg evs). pose proof (append_length ck act e l).
    pose proof (wp_append ck act e l t Hr (log_ok_of l Hi ltac:(lia)) Hp1) as Hw. unfold wp in Hw. destruct (append_new_trace ck act e t) as [[[] t1]|] eqn:E; [|done].
    destruct (IH (log_append ck act e l) t1) as (t' & E' & H'); [done|by apply append_inv|done|lia|]. exists t'. split; [|done].
    unfold trace_all. cbn [for_each]. rewrite (bind_run _ _ _ _ _ E). exact E'.
Qed.

End TraceThm.

(** ** Witness *)

(** Two queries of the device, of which the second is only counted, and an event. *)
Definition demo_clock (c : Z) : clock := {| ck_jiffies := 100; ck_sec := 10; ck_nsec := 0; ck_cycles := c |}.
Definition demo_events : list record :=
  [(demo_clock 1, PIB_TRACE_ACT_API, entry_zero <| te_op := 2 |> <| te_u := U_api 0 |>);
   (demo_clock 2, PIB_TRACE_ACT_API, entry_zero <| te_op := 2 |> <| te_u := U_api 0 |>);
   (demo_clock 3, PIB_TRACE_ACT_ASYNC, entry_zero <| te_op := 1 |> <| te_u := U_async 7 |>)].

