(* ===== verification/Device.v ===== *)
(** * The device and its verbs (driver/pib_main.c)

    The attributes a device and its ports are created with, the GUIDs of the host, and
    the verbs that query and modify them.  A port's member gid is the list of its GIDs,
    each a subnet prefix and an interface ID. *)

From S2P Require Import Prelude Verbs Lib Port.

(** ** Data *)

Definition EOPNOTSUPP : Z := 95.
Definition ETH_ALEN : nat := 6.

Definition PIB_DRIVER_FW_VERSION : Z := Z.lor (Z.lor (Z.shiftl 0 32) (Z.shiftl 4 16)) 6.
(** IB_DEVICE_CHANGE_PHY_PORT, IB_DEVICE_SYS_IMAGE_GUID, IB_DEVICE_RC_RNR_NAK_GEN,
    IB_DEVICE_MEM_MGT_EXTENSIONS *)
Definition PIB_DEVICE_CAP_FLAGS : Z := Z.lor (Z.lor (Z.lor (Z.shiftl 1 5) (Z.shiftl 1 11)) (Z.shiftl 1 12)) (Z.shiftl 1 21).
Definition IB_ATOMIC_GLOB : Z := 2.
Definition IB_DEFAULT_PKEY_FULL : Z := 0xFFFF.
Definition IB_DEVICE_MODIFY_SYS_IMAGE_GUID : Z := 1.
Definition IB_DEVICE_MODIFY_NODE_DESC : Z := 2.
Definition IB_PORT_SHUTDOWN : Z := 1.
Definition IB_PORT_INIT_TYPE : Z := 4.
Definition IB_PORT_RESET_QKEY_CNTR : Z := 8.
Definition RDMA_CORE_PORT_IBA_IB : Z := 0x101017.
Definition IB_MGMT_MAD_SIZE : Z := 256.

Record ib_device_attr := {
  da_fw_ver : Z; da_sys_image_guid : Z; da_max_mr_size : Z; da_page_size_cap : Z; da_vendor_id : Z; da_vendor_part_id : Z; da_hw_ver : Z;
  da_max_qp : Z; da_max_qp_wr : Z; da_device_cap_flags : Z; da_max_sge : Z; da_max_sge_rd : Z; da_max_cq : Z; da_max_cqe : Z; da_max_mr : Z;
  da_max_pd : Z; da_max_qp_rd_atom : Z; da_max_ee_rd_atom : Z; da_max_res_rd_atom : Z; da_max_qp_init_rd_atom : Z; da_max_ee_init_rd_atom : Z;
  da_atomic_cap : Z; da_masked_atomic_cap : Z; da_max_ee : Z; da_max_rdd : Z; da_max_mw : Z; da_max_raw_ipv6_qp : Z; da_max_raw_ethy_qp : Z;
  da_max_mcast_grp : Z; da_max_mcast_qp_attach : Z; da_max_total_mcast_qp_attach : Z; da_max_ah : Z; da_max_fmr : Z; da_max_map_per_fmr : Z;
  da_max_srq : Z; da_max_srq_wr : Z; da_max_srq_sge : Z; da_max_fast_reg_page_list_len : Z; da_max_pkeys : Z; da_local_ca_ack_delay : Z }.
#[export] Instance eta_ib_device_attr : Eta ib_device_attr := fun a => {|
  da_fw_ver := da_fw_ver a; da_sys_image_guid := da_sys_image_guid a; da_max_mr_size := da_max_mr_size a;
  da_page_size_cap := da_page_size_cap a; da_vendor_id := da_vendor_id a; da_vendor_part_id := da_vendor_part_id a;
  da_hw_ver := da_hw_ver a; da_max_qp := da_max_qp a; da_max_qp_wr := da_max_qp_wr a; da_device_cap_flags := da_device_cap_flags a;
  da_max_sge := da_max_sge a; da_max_sge_rd := da_max_sge_rd a; da_max_cq := da_max_cq a; da_max_cqe := da_max_cqe a;
  da_max_mr := da_max_mr a; da_max_pd := da_max_pd a; da_max_qp_rd_atom := da_max_qp_rd_atom a; da_max_ee_rd_atom := da_max_ee_rd_atom a;
  da_max_res_rd_atom := da_max_res_rd_atom a; da_max_qp_init_rd_atom := da_max_qp_init_rd_atom a;
  da_max_ee_init_rd_atom := da_max_ee_init_rd_atom a; da_atomic_cap := da_atomic_cap a; da_masked_atomic_cap := da_masked_atomic_cap a;
  da_max_ee := da_max_ee a; da_max_rdd := da_max_rdd a; da_max_mw := da_max_mw a; da_max_raw_ipv6_qp := da_max_raw_ipv6_qp a;
  da_max_raw_ethy_qp := da_max_raw_ethy_qp a; da_max_mcast_grp := da_max_mcast_grp a; da_max_mcast_qp_attach := da_max_mcast_qp_attach a;
  da_max_total_mcast_qp_attach := da_max_total_mcast_qp_attach a; da_max_ah := da_max_ah a; da_max_fmr := da_max_fmr a;
  da_max_map_per_fmr := da_max_map_per_fmr a; da_max_srq := da_max_srq a; da_max_srq_wr := da_max_srq_wr a;
  da_max_srq_sge := da_max_srq_sge a; da_max_fast_reg_page_list_len := da_max_fast_reg_page_list_len a; da_max_pkeys := da_max_pkeys a;
  da_local_ca_ack_delay := da_local_ca_ack_delay a |}.

Record ib_port_attr := {
  ia_state : Z; ia_max_mtu : Z; ia_active_mtu : Z; ia_gid_tbl_len : Z; ia_port_cap_flags : Z; ia_max_msg_sz : Z; ia_bad_pkey_cntr : Z;
  ia_qkey_viol_cntr : Z; ia_pkey_tbl_len : Z; ia_lid : Z; ia_sm_lid : Z; ia_lmc : Z; ia_max_vl_num : Z; ia_sm_sl : Z; ia_subnet_timeout : Z;
  ia_init_type_reply : Z; ia_active_width : Z; ia_active_speed : Z; ia_phys_state : Z }.
#[export] Instance eta_ib_port_attr : Eta ib_port_attr := fun a => {|
  ia_state := ia_state a; ia_max_mtu := ia_max_mtu a; ia_active_mtu := ia_active_mtu a; ia_gid_tbl_len := ia_gid_tbl_len a;
  ia_port_cap_flags := ia_port_cap_flags a; ia_max_msg_sz := ia_max_msg_sz a; ia_bad_pkey_cntr := ia_bad_pkey_cntr a;
  ia_qkey_viol_cntr := ia_qkey_viol_cntr a; ia_pkey_tbl_len := ia_pkey_tbl_len a; ia_lid := ia_lid a; ia_sm_lid := ia_sm_lid a; ia_lmc := ia_lmc a;
  ia_max_vl_num := ia_max_vl_num a; ia_sm_sl := ia_sm_sl a; ia_subnet_timeout := ia_subnet_timeout a; ia_init_type_reply := ia_init_type_reply a;
  ia_active_width := ia_active_width a; ia_active_speed := ia_active_speed a; ia_phys_state := ia_phys_state a |}.

Record dev_port := {
  dp_num : Z; dp_attr : ib_port_attr; dp_is_connected : bool; dp_gid : list (Z * Z); dp_pkey_table : list Z;
  dp_link_width_enabled : Z; dp_link_speed_enabled : Z }.
#[export] Instance eta_dev_port : Eta dev_port := fun p =>
  {| dp_num := dp_num p; dp_attr := dp_attr p; dp_is_connected := dp_is_connected p; dp_gid := dp_gid p; dp_pkey_table := dp_pkey_table p;
     dp_link_width_enabled := dp_link_width_enabled p; dp_link_speed_enabled := dp_link_speed_enabled p |}.

Record dev := { dv_id : Z; dv_attr : ib_device_attr; dv_node_guid : Z; dv_node_desc : list Z; dv_ports : list dev_port }.
#[export] Instance eta_dev : Eta dev := fun d =>
  {| dv_id := dv_id d; dv_attr := dv_attr d; dv_node_guid := dv_node_guid d; dv_node_desc := dv_node_desc d; dv_ports := dv_ports d |}.

(** ** GUIDs *)

(** The MAC address of the first interface that is not the loopback and has one: six
    bytes, most significant first. *)
Definition get_hca_guid_base (mac : option (list Z)) : Z :=
  let base := match mac with
    | None => 0
    | Some bytes => u64 (Z.shiftl (fold_left (fun base b => u64 (Z.shiftl (Z.lor base (u8 b)) 8)) (take ETH_ALEN bytes) 0) ((8 - Z.of_nat ETH_ALEN - 1) * 8))
    end in
  if base =? 0 then 0xCafeBabe0000 else base.

Definition node_guid (base dev_id : Z) : Z := Z.lor base (Z.shiftl (3 + dev_id) 8).
Definition sys_image_guid (base : Z) : Z := Z.lor base 0x0200.
Definition interface_id (base dev_id port_num : Z) : Z := Z.lor (Z.lor base (Z.shiftl (3 + dev_id) 8)) port_num.

(** ** Creation *)

Section Device.
Context (HZ : Z) (pib_hca_guid_base pib_phys_port_cnt : Z) (pib_multi_host_mode : bool).

Definition init_attr : ib_device_attr := {|
  da_fw_ver := PIB_DRIVER_FW_VERSION; da_sys_image_guid := sys_image_guid pib_hca_guid_base; da_max_mr_size := 0xFFFFFFFFFFFFFFFF;
  da_page_size_cap := 0xFFFFFE00; da_vendor_id := 1; da_vendor_part_id := 1; da_hw_ver := 0; da_max_qp := PIB_MAX_QP; da_max_qp_wr := 16351;
  da_device_cap_flags := PIB_DEVICE_CAP_FLAGS; da_max_sge := PIB_MAX_SGE; da_max_sge_rd := 0; da_max_cq := PIB_MAX_CQ - 1; da_max_cqe := 4194303;
  da_max_mr := PIB_MAX_MR - 1; da_max_pd := PIB_MAX_PD - 1; da_max_qp_rd_atom := PIB_MAX_RD_ATOM; da_max_ee_rd_atom := 0; da_max_res_rd_atom := 2096128;
  da_max_qp_init_rd_atom := 128; da_max_ee_init_rd_atom := 0; da_atomic_cap := IB_ATOMIC_GLOB; da_masked_atomic_cap := IB_ATOMIC_GLOB; da_max_ee := 0;
  da_max_rdd := 0; da_max_mw := 0; da_max_raw_ipv6_qp := 0; da_max_raw_ethy_qp := 0; da_max_mcast_grp := 8192;
  da_max_mcast_qp_attach := PIB_MCAST_QP_ATTACH; da_max_total_mcast_qp_attach := 2031616; da_max_ah := PIB_MAX_AH - 1; da_max_fmr := 0;
  da_max_map_per_fmr := 0; da_max_srq := PIB_MAX_SRQ - 1; da_max_srq_wr := 16383; da_max_srq_sge := PIB_MAX_SGE - 1;
  da_max_fast_reg_page_list_len := 0; da_max_pkeys := 125; da_local_ca_ack_delay := pib_get_local_ca_ack_delay HZ |}.

Definition init_port (dev_id port_num : Z) : dev_port :=
  let attr := {| ia_state := IB_PORT_INIT; ia_max_mtu := IB_MTU_4096; ia_active_mtu := IB_MTU_256; ia_gid_tbl_len := PIB_GID_PER_PORT;
    ia_port_cap_flags := PIB_PORT_CAP_FLAGS; ia_max_msg_sz := PIB_MAX_PAYLOAD_LEN; ia_bad_pkey_cntr := 0; ia_qkey_viol_cntr := 0;
    ia_pkey_tbl_len := PIB_PKEY_TABLE_LEN; ia_lid := 0; ia_sm_lid := 0; ia_lmc := 0; ia_max_vl_num := 4; ia_sm_sl := 0; ia_subnet_timeout := 0;
    ia_init_type_reply := 0; ia_active_width := IB_WIDTH_12X; ia_active_speed := IB_SPEED_QDR; ia_phys_state := PIB_PHYS_PORT_LINK_UP |} in
  {| dp_num := port_num;
     dp_attr := if pib_multi_host_mode then attr <| ia_phys_state := PIB_PHYS_PORT_POLLING |> <| ia_state := IB_PORT_DOWN |>
                else attr <| ia_phys_state := PIB_PHYS_PORT_LINK_UP |> <| ia_state := IB_PORT_INIT |>;
     dp_is_connected := negb pib_multi_host_mode;
     dp_gid := (0xFE80000000000000, interface_id pib_hca_guid_base dev_id port_num) :: replicate (Z.to_nat PIB_GID_PER_PORT - 1) (0, 0);
     dp_pkey_table := replicate (Z.to_nat PIB_PKEY_TABLE_LEN) IB_DEFAULT_PKEY_FULL;
     dp_link_width_enabled := PIB_LINK_WIDTH_SUPPORTED; dp_link_speed_enabled := PIB_LINK_SPEED_SUPPORTED |}.

(** [description] is PIB_DRIVER_DESCRIPTION. *)
Definition dev_init (description : list Z) (dev_id : Z) : dev := {|
  dv_id := dev_id; dv_attr := init_attr; dv_node_guid := node_guid pib_hca_guid_base dev_id; dv_node_desc := description;
  dv_ports := init_port dev_id <$> seqZ 1 pib_phys_port_cnt |}.

(** ** Verbs: the error number, or the value *)

Definition pib_query_device (d : dev) : ib_device_attr := dv_attr d.

(** dev->ports[port_num - 1]; [None] outside the array. *)
Definition port_at (d : dev) (port_num : Z) : option dev_port := if 1 <=? port_num then dv_ports d !! Z.to_nat (port_num - 1) else None.

Definition query_port (d : dev) (port_num : Z) : option (Z + ib_port_attr) :=
  if (port_num <? 1) || (pib_phys_port_cnt <? port_num) then Some (inl (- EINVAL))
  else (fun p => inr (dp_attr p)) <$> port_at d port_num.
Definition pib_query_port := query_port.

Record ib_port_immutable := { im_pkey_tbl_len : Z; im_gid_tbl_len : Z; im_core_cap_flags : Z; im_max_mad_size : Z }.
Definition pib_get_port_immutable (d : dev) (port_num : Z) : option (Z + ib_port_immutable) :=
  (fun r => match r with
   | inl e => inl e
   | inr a => inr {| im_pkey_tbl_len := ia_pkey_tbl_len a; im_gid_tbl_len := ia_gid_tbl_len a; im_core_cap_flags := RDMA_CORE_PORT_IBA_IB;
                     im_max_mad_size := IB_MGMT_MAD_SIZE |}
   end) <$> query_port d port_num.

Definition pib_query_gid (d : dev) (port_num index : Z) : option (Z + (Z * Z)) :=
  if (port_num <? 1) || (pib_phys_port_cnt <? port_num) then Some (inl (- EINVAL))
  else if (index <? 0) || (PIB_GID_PER_PORT <? index) then Some (inl (- EINVAL))
  else p ← port_at d port_num; inr <$> (dp_gid p !! Z.to_nat index).

(** The port number is not checked. *)
Definition pib_query_pkey (d : dev) (port_num index : Z) : option Z :=
  if index <? PIB_PKEY_TABLE_LEN then p ← port_at d port_num; dp_pkey_table p !! Z.to_nat index else Some 0.

Record ib_device_modify := { dm_sys_image_guid : Z; dm_node_desc : list Z }.
Definition pib_modify_device (d : dev) (mask : Z) (props : ib_device_modify) : Z * dev :=
  if has_flag mask (Z.lnot (Z.lor IB_DEVICE_MODIFY_SYS_IMAGE_GUID IB_DEVICE_MODIFY_NODE_DESC)) then (- EOPNOTSUPP, d)
  else
    let d := if has_flag mask IB_DEVICE_MODIFY_NODE_DESC then d <| dv_node_desc := dm_node_desc props |> else d in
    let d := if has_flag mask IB_DEVICE_MODIFY_SYS_IMAGE_GUID then d <| dv_attr ::= fun a => a <| da_sys_image_guid := dm_sys_image_guid props |> |> else d in
    (0, d).

(** The port number is not checked; the flags change whatever the mask. *)
Definition pib_modify_port (d : dev) (port_num mask set_port_cap_mask clr_port_cap_mask : Z) : option (Z * dev) :=
  if has_flag mask (Z.lnot (Z.lor (Z.lor IB_PORT_SHUTDOWN IB_PORT_INIT_TYPE) IB_PORT_RESET_QKEY_CNTR)) then Some (- EOPNOTSUPP, d)
  else
    p ← port_at d port_num;
    let flags := Z.ldiff (Z.lor (ia_port_cap_flags (dp_attr p)) set_port_cap_mask) clr_port_cap_mask in
    Some (0, d <| dv_ports ::= <[Z.to_nat (port_num - 1) := p <| dp_attr ::= fun a => a <| ia_port_cap_flags := flags |> |>]> |>).

Definition pib_mmap : Z := - EINVAL.

(** The number read from the file, if there is one. *)
Definition store_local_ca_ack_delay (d : dev) (value : option Z) (count : Z) : Z * dev :=
  match value with
  | None => (- EINVAL, d)
  | Some v =>
      if (v <? 1) || (31 <? v) then (- EINVAL, d)
      else
        let v := if v <? pib_get_local_ca_ack_delay HZ then pib_get_local_ca_ack_delay HZ else v in
        (count, d <| dv_attr ::= fun a => a <| da_local_ca_ack_delay := u8 v |> |>)
  end.
Definition show_local_ca_ack_delay (d : dev) : Z := da_local_ca_ack_delay (dv_attr d).
End Device.
