(* ===== verification/DeviceThm.v ===== *)
(** * GUIDs are unique; queries show what was modified *)

From S2P Require Import Prelude Verbs Lib Device.

(** ** GUIDs *)

Definition byte (b : Z) : Prop := 0 <= b < 256.

(** The number of a MAC address. *)
Definition mac_num (mac : list Z) : Z := fold_left (fun x b => x * 256 + b) mac 0.

Lemma lor_byte a b : byte b -> 0 <= a -> Z.lor (a * 256) b = a * 256 + b.
Proof. intros Hb Ha. change 256 with (2 ^ 8). rewrite <-Z.shiftl_mul_pow2 by done. rewrite lor_low; [|done|exact Hb]. by rewrite Z.shiftl_mul_pow2. Qed.

Lemma mac_step a b n : byte b -> 0 <= a < 256 ^ n -> 0 <= n < 6 -> u64 (Z.shiftl (Z.lor (a * 256) (u8 b)) 8) = (a * 256 + b) * 256.
Proof.
  intros Hb Ha Hn. unfold u8. rewrite wrap_small by exact Hb. rewrite lor_byte by (done || lia). rewrite Z.shiftl_mul_pow2 by done. unfold u64. rewrite wrap_small; [done|].
  assert (256 ^ n <= 256 ^ 5) by (apply Z.pow_le_mono_r; lia). unfold byte in Hb. lia.
Qed.

Lemma mac_bound a b n : byte b -> 0 <= a < 256 ^ n -> 0 <= n -> 0 <= a * 256 + b < 256 ^ (n + 1).
Proof. intros Hb Ha Hn. rewrite Z.pow_add_r by lia. unfold byte in Hb. lia. Qed.

Lemma guid_base_mac mac : length mac = 6%nat -> Forall byte mac -> mac_num mac <> 0 -> get_hca_guid_base (Some mac) = mac_num mac * 65536 /\ 0 < mac_num mac < 2 ^ 48.
Proof.
  intros Hl Hb Hz. destruct mac as [|b0 [|b1 [|b2 [|b3 [|b4 [|b5 [|]]]]]]]; try discriminate Hl. rewrite !Forall_cons in Hb. destruct Hb as (B0 & B1 & B2 & B3 & B4 & B5 & _).
  unfold get_hca_guid_base, mac_num, ETH_ALEN in *. cbn [take fold_left] in *. unfold byte in *.
  change (Z.lor 0 (u8 b0)) with (Z.lor (0 * 256) (u8 b0)). rewrite (mac_step 0 b0 0) by (done || lia).
  rewrite (mac_step _ b1 1), (mac_step _ b2 2), (mac_step _ b3 3), (mac_step _ b4 4), (mac_step _ b5 5) by (done || lia).
  rewrite Z.shiftl_mul_pow2 by lia. unfold u64. rewrite wrap_small by lia. change (2 ^ ((8 - Z.of_nat 6 - 1) * 8)) with 256. rewrite (proj2 (Z.eqb_neq _ _)) by lia. lia.
Qed.

(** A GUID with base [m * 65536]. *)
Lemma guid_num m d p : 0 <= d < 4 -> 0 <= p < 256 -> interface_id (m * 65536) d p = m * 65536 + (3 + d) * 256 + p.
Proof.
  intros Hd Hp. unfold interface_id. replace (m * 65536) with (Z.shiftl m 16) at 1 by (by rewrite Z.shiftl_mul_pow2).
  rewrite (lor_low m (Z.shiftl (3 + d) 8) 16) by (rewrite ?Z.shiftl_mul_pow2; lia). rewrite Z.shiftl_mul_pow2 by done.
  replace (m * 2 ^ 16 + (3 + d) * 2 ^ 8) with (Z.shiftl (m * 256 + (3 + d)) 8) by (rewrite Z.shiftl_mul_pow2; lia). rewrite lor_low by lia. lia.
Qed.

Lemma node_guid_num m d : 0 <= d < 4 -> node_guid (m * 65536) d = m * 65536 + (3 + d) * 256.
Proof.
  intros Hd. unfold node_guid. replace (m * 65536) with (Z.shiftl m 16) at 1 by (by rewrite Z.shiftl_mul_pow2).
  rewrite lor_low by (rewrite ?Z.shiftl_mul_pow2; lia). rewrite Z.shiftl_mul_pow2; lia.
Qed.

Lemma low_guid m x : 0 <= x < 65536 -> Z.lor (m * 65536) x = m * 65536 + x.
Proof. intros Hx. replace (m * 65536) with (Z.shiftl m 16) at 1 by (by rewrite Z.shiftl_mul_pow2). by rewrite lor_low by lia. Qed.

(** MAC addresses are digits. *)
Lemma mac_num_inj mac mac' : length mac = 6%nat -> length mac' = 6%nat -> Forall byte mac -> Forall byte mac' -> mac_num mac = mac_num mac' -> mac = mac'.
Proof.
  intros Hl Hl' Hb Hb' E. destruct mac as [|b0 [|b1 [|b2 [|b3 [|b4 [|b5 [|]]]]]]]; try discriminate Hl. destruct mac' as [|c0 [|c1 [|c2 [|c3 [|c4 [|c5 [|]]]]]]]; try discriminate Hl'.
  rewrite !Forall_cons in Hb, Hb'. unfold byte, mac_num in *. cbn [fold_left] in E. repeat f_equal; lia.
Qed.

(** ** Theorems *)

Definition mac_ok (mac : list Z) : Prop := length mac = 6%nat /\ Forall byte mac /\ mac_num mac <> 0.
Definition hca_ok (dev_id port_num : Z) : Prop := 0 <= dev_id < PIB_MAX_HCA /\ 1 <= port_num <= PIB_MAX_PORTS.

(** GUIDs are unique in the fabric.  On hosts whose first interface has an address of its
    own, the GUID of a port says which host, which HCA and which port it is; the GUID
    of a node says the host and the HCA; and the GUIDs of ports, of nodes, of the
    system image and of the switch inside the driver are never the same. *)
Theorem guids_unique (mac mac' : list Z) (d d' p p' : Z) (Hm : mac_ok mac) (Hm' : mac_ok mac') (Hd : hca_ok d p) (Hd' : hca_ok d' p') :
  let base := get_hca_guid_base (Some mac) in
  let base' := get_hca_guid_base (Some mac') in
  (interface_id base d p = interface_id base' d' p' -> mac = mac' /\ d = d' /\ p = p')
  /\ (node_guid base d = node_guid base' d' -> mac = mac' /\ d = d')
  /\ interface_id base d p <> node_guid base' d' /\ interface_id base d p <> sys_image_guid base'
  /\ interface_id base d p <> Z.lor base' 0x0100 /\ node_guid base d <> sys_image_guid base' /\ node_guid base d <> Z.lor base' 0x0100.
Proof.
  intros base base'. destruct Hm as (Hl & Hb & Hz), Hm' as (Hl' & Hb' & Hz'), Hd as [Hd Hp], Hd' as [Hd' Hp']. unfold PIB_MAX_HCA, PIB_MAX_PORTS in *.
  destruct (guid_base_mac mac Hl Hb Hz) as [E R], (guid_base_mac mac' Hl' Hb' Hz') as [E' R']. unfold base, base', sys_image_guid. rewrite E, E'.
  rewrite !guid_num, !node_guid_num, !low_guid by lia. split_and!; try lia.
  - intros H. assert (mac_num mac = mac_num mac' /\ d = d' /\ p = p') as (Hn & -> & ->) by lia. split; [by apply mac_num_inj|done].
  - intros H. assert (mac_num mac = mac_num mac' /\ d = d') as (Hn & ->) by lia. split; [by apply mac_num_inj|done].
Qed.

Lemma land_pow2 x k : 0 <= k -> (Z.land x (2 ^ k) =? 0) = negb (Z.testbit x k).
Proof.
  intros Hk. destruct (Z.testbit x k) eqn:E; simpl.
  - apply Z.eqb_neq. intros H. assert (Z.testbit (Z.land x (2 ^ k)) k = true) as Ht by (rewrite Z.land_spec, E, Z.pow2_bits_true; done). by rewrite H, Z.bits_0 in Ht.
  - apply Z.eqb_eq, Z.bits_inj'. intros i Hi. rewrite Z.land_spec, Z.bits_0. destruct (decide (i = k)) as [->|Hne]; [by rewrite E|].
    by rewrite Z.pow2_bits_false, andb_false_r.
Qed.

Section Verbs.
Context (n : Z).

Lemma port_at_some d port_num : Zlen (dv_ports d) = n -> 1 <= port_num <= n -> exists p, port_at d port_num = Some p.
Proof.
  intros Hn Hr. unfold port_at. rewrite (proj2 (Z.leb_le _ _)) by lia. apply lookup_lt_is_Some. unfold Zlen in Hn. lia.
Qed.

Lemma range_false port_num : 1 <= port_num <= n -> (port_num <? 1) || (n <? port_num) = false.
Proof. intros Hr. apply orb_false_iff. split; apply Z.ltb_ge; lia. Qed.

(** Queries show what was modified.  A port number out of range is refused by the queries
    of ports; modifying a port sets the bits asked for and clears the others, shows in
    the next query, and changes no other port; modifying a device shows in the next
    query of it; a mask with other bits is refused and changes nothing. *)
Theorem device_verbs_roundtrip (d : dev) (Hn : Zlen (dv_ports d) = n) :
  (forall port_num, ~ (1 <= port_num <= n) -> pib_query_port n d port_num = Some (inl (- EINVAL)))
  /\ (forall port_num mask set clr, 1 <= port_num <= n ->
       exists a, pib_query_port n d port_num = Some (inr a)
       /\ if Z.land mask (Z.lnot 13) =? 0
          then exists d' a', pib_modify_port d port_num mask set clr = Some (0, d') /\ pib_query_port n d' port_num = Some (inr a')
               /\ (forall i, 0 <= i -> Z.testbit (ia_port_cap_flags a') i = (Z.testbit (ia_port_cap_flags a) i || Z.testbit set i) && negb (Z.testbit clr i))
               /\ ia_lid a' = ia_lid a /\ ia_state a' = ia_state a
               /\ (forall q, q <> port_num -> pib_query_port n d' q = pib_query_port n d q) /\ pib_query_device d' = pib_query_device d
          else pib_modify_port d port_num mask set clr = Some (- EOPNOTSUPP, d))
  /\ (forall mask props, let '(r, d') := pib_modify_device d mask props in
       if Z.land mask (Z.lnot 3) =? 0
       then r = 0 /\ dv_ports d' = dv_ports d
            /\ da_sys_image_guid (pib_query_device d') = (if Z.testbit mask 0 then dm_sys_image_guid props else da_sys_image_guid (pib_query_device d))
            /\ dv_node_desc d' = (if Z.testbit mask 1 then dm_node_desc props else dv_node_desc d)
       else r = - EOPNOTSUPP /\ d' = d).
Proof.
  split; [|split].
  - intros port_num Hr. unfold pib_query_port, query_port. destruct (Z.ltb_spec port_num 1), (Z.ltb_spec n port_num); simpl; try done. lia.
  - intros port_num mask set clr Hr. destruct (port_at_some d port_num Hn Hr) as [p Hp]. exists (dp_attr p).
    unfold pib_query_port, query_port. rewrite range_false, Hp by done. split; [done|]. unfold pib_modify_port, has_flag.
    change (Z.lnot (Z.lor (Z.lor IB_PORT_SHUTDOWN IB_PORT_INIT_TYPE) IB_PORT_RESET_QKEY_CNTR)) with (Z.lnot 13). destruct (Z.land mask (Z.lnot 13) =? 0); [|done]. cbn [negb].
    rewrite Hp. cbn [mbind option_bind]. eexists _, _. split; [reflexivity|]. unfold port_at in *. rewrite (proj2 (Z.leb_le _ _)) in * by lia.
    pose proof (lookup_lt_Some _ _ _ Hp) as Hlt. split; [simpl; by rewrite list_lookup_insert_eq|]. split_and!; try done.
    + intros i Hi. simpl. by rewrite Z.ldiff_spec, Z.lor_spec.
    + intros q Hq. simpl. destruct ((q <? 1) || (n <? q)) eqn:Eq; [done|]. apply orb_false_iff in Eq as [Eq _]. apply Z.ltb_ge in Eq. rewrite (proj2 (Z.leb_le _ _)) by lia.
      rewrite list_lookup_insert_ne; [done|lia].
  - intros mask props. pose proof (land_pow2 mask 0) as H0. pose proof (land_pow2 mask 1) as H1. unfold pib_modify_device, has_flag. change (Z.lnot (Z.lor IB_DEVICE_MODIFY_SYS_IMAGE_GUID IB_DEVICE_MODIFY_NODE_DESC)) with (Z.lnot 3).
    destruct (Z.land mask (Z.lnot 3) =? 0); [|done]. cbn [negb]. unfold IB_DEVICE_MODIFY_NODE_DESC, IB_DEVICE_MODIFY_SYS_IMAGE_GUID.
    change (2 ^ 0) with 1 in H0. change (2 ^ 1) with 2 in H1. rewrite H0, H1 by done. destruct (Z.testbit mask 0), (Z.testbit mask 1); done.
Qed.
End Verbs.

Lemma guids_unique_witness :
  let base := get_hca_guid_base (Some [0x00; 0x16; 0x3e; 0x5f; 0x12; 0x34]) in
  let base' := get_hca_guid_base (Some [0x00; 0x16; 0x3e; 0x5f; 0x12; 0x35]) in
  interface_id base 3 32 <> node_guid base' 0 /\ interface_id base 3 32 = 0x163e5f12340620.
Proof.
  pose proof (guids_unique [0x00; 0x16; 0x3e; 0x5f; 0x12; 0x34] [0x00; 0x16; 0x3e; 0x5f; 0x12; 0x35] 3 0 32 1) as H. intros base base'. split; [|reflexivity].
  apply H; repeat split; try (vm_compute; discriminate); try done; repeat constructor; done.
Defined.

Definition example_dev : dev := dev_init 250 0xCafeBabe0000 2 false [] 0.

Lemma device_verbs_roundtrip_witness :
  pib_query_port 2 example_dev 3 = Some (inl (- EINVAL))
  /\ (exists d' a', pib_modify_port example_dev 2 8 2 8 = Some (0, d') /\ pib_query_port 2 d' 2 = Some (inr a') /\ Z.testbit (ia_port_cap_flags a') 1 = true).
Proof.
  pose proof (device_verbs_roundtrip 2 example_dev eq_refl) as (H1 & H2 & _). split; [apply H1; lia|].
  destruct (H2 2 8 2 8) as (a & _ & d' & a' & Hm & Hq & Hf & _); [lia|]. exists d', a'. split_and!; [done..|]. rewrite Hf by lia. by rewrite orb_true_r.
Defined.

(** The bound of the index lets one past the table through. *)
Example query_gid_past_table : pib_query_gid 2 example_dev 1 16 = None /\ pib_query_gid 2 example_dev 1 17 = Some (inl (- EINVAL)).
Proof. by vm_compute. Qed.
