(* ===== verification/Objects.v ===== *)
(** * User contexts, protection domains and address handles (driver/pib_ucontext.c,
      pib_pd.c, pib_ah.c)

    The three kinds of objects that are only created, modified, queried and destroyed.
    Their numbers come from one bitmap, each kind from its slice of it.  An object is
    known by its kind and number; a pointer to an object that does not exist is [None].
    Whether an allocation succeeds, the time and the process are arguments.

    The theorem: these verbs implement a map from numbers to objects. *)

From S2P Require Import Prelude Verbs ObjNum Mr State.

(** ** Data *)

Record pib_ucontext := { uc_num : Z; uc_creation_time : Z; uc_tgid : Z; uc_comm : list Z }.
Record pib_ah := { ah_num : Z; ah_creation_time : Z; ah_attr : ib_ah_attr }.
#[export] Instance eta_pib_ah : Eta pib_ah := fun a => {| ah_num := ah_num a; ah_creation_time := ah_creation_time a; ah_attr := ah_attr a |}.

Inductive okind := OUcontext | OPd | OAh.
#[export] Instance okind_eq_dec : EqDecision okind.
Proof. solve_decision. Defined.
#[export] Instance okind_countable : Countable okind.
Proof.
  refine (inj_countable' (fun k => match k with OUcontext => 0 | OPd => 1 | OAh => 2 end)
    (fun n => match n with 0 => OUcontext | 1 => OPd | _ => OAh end) _). by intros [].
Defined.

Inductive obj := Ucontext (u : pib_ucontext) | Pd (creation_time : Z) (p : pib_pd) | Ah (a : pib_ah).

(** The slice of the bitmap that belongs to a kind. *)
Definition o_start (k : okind) : Z := match k with OUcontext => PIB_BITMAP_CONTEXT_START | OPd => PIB_BITMAP_PD_START | OAh => PIB_BITMAP_AH_START end.
Definition o_max (k : okind) : Z := match k with OUcontext => PIB_MAX_CONTEXT | OPd => PIB_MAX_PD | OAh => PIB_MAX_AH end.

(** The members of struct pib_dev: the bitmap, the last number, count and list of every
    kind; and the objects. *)
Record objs := { ob_bm : gset Z; ob_tab : okind -> obj_table; ob_obj : gmap (okind * Z) obj }.
#[export] Instance eta_objs : Eta objs := fun s => {| ob_bm := ob_bm s; ob_tab := ob_tab s; ob_obj := ob_obj s |}.

Definition tab_set (k : okind) (t : obj_table) (f : okind -> obj_table) : okind -> obj_table := fun k' => if decide (k' = k) then t else f k'.

Definition objs_init : objs :=
  {| ob_bm := setup_obj_num_bitmap ∅; ob_tab := fun _ => {| ot_last_num := 0; ot_nr := 0; ot_head := [] |}; ob_obj := ∅ |}.

(** ** Numbers, counts and lists: the parts of the verbs under dev->lock *)

Definition alloc_num (k : okind) : M objs (option Z) :=
  let! s := get in
  let '(n, (bm, t)) := obj_create (o_start k) (o_max k) (ob_bm s) (ob_tab s k) in
  modify (fun s => s <| ob_bm := bm |> <| ob_tab ::= tab_set k t |>) ;;
  ret n.

Definition free_num (k : okind) (n : Z) : M objs unit :=
  modify (fun s => let '(bm, t) := obj_destroy (o_start k) n (ob_bm s) (ob_tab s k) in s <| ob_bm := bm |> <| ob_tab ::= tab_set k t |>).

Definition the_obj (k : okind) (n : Z) : M objs obj := let! s := get in of_option (ob_obj s !! (k, n)).
Definition put_obj (k : okind) (n : Z) (o : obj) : M objs unit := modify (fun s => s <| ob_obj ::= <[(k, n) := o]> |>).
Definition kfree_obj (k : okind) (n : Z) : M objs unit := modify (fun s => s <| ob_obj ::= delete (k, n) |>).

(** The objects as they are created. *)
Definition new_ucontext (now tgid : Z) (comm : list Z) (n : Z) : obj := Ucontext {| uc_num := n; uc_creation_time := now; uc_tgid := tgid; uc_comm := comm |}.
Definition new_pd (now n : Z) : obj := Pd now {| pd_num := n; pd_nr_mr := 0; pd_mr_table := ∅ |}.
Definition new_ah (attr : ib_ah_attr) (now n : Z) : obj := Ah {| ah_num := n; ah_creation_time := now; ah_attr := attr |}.

(** ** Verbs: an error number, or the number of the object *)

Definition pib_alloc_ucontext (kzalloc_ok : bool) (now tgid : Z) (comm : list Z) : M objs (Z + Z) :=
  if negb kzalloc_ok then ret (inl (- ENOMEM))
  else
    let! n := alloc_num OUcontext in
    match n with
    | None => ret (inl (- ENOMEM))
    | Some n =>
        put_obj OUcontext n (new_ucontext now tgid comm n) ;;
        ret (inr n)
    end.

Definition pib_dealloc_ucontext (n : Z) : M objs Z :=
  the_obj OUcontext n ;;
  free_num OUcontext n ;;
  kfree_obj OUcontext n ;;
  ret 0.

Definition pib_alloc_pd (kzalloc_ok vzalloc_ok : bool) (now : Z) : M objs (Z + Z) :=
  if negb kzalloc_ok then ret (inl (- ENOMEM))
  else
    let! n := alloc_num OPd in
    match n with
    | None => ret (inl (- ENOMEM))
    | Some n =>
        put_obj OPd n (new_pd now n) ;;
        if negb vzalloc_ok then free_num OPd n ;; kfree_obj OPd n ;; ret (inl (- ENOMEM))
        else ret (inr n)
    end.

(** Regions that are left only make a message. *)
Definition pib_dealloc_pd (n : Z) : M objs Z :=
  the_obj OPd n ;;
  free_num OPd n ;;
  kfree_obj OPd n ;;
  ret 0.

Definition pib_create_ah (ah_attr : option ib_ah_attr) (zalloc_ok : bool) (now : Z) : M objs (Z + Z) :=
  match ah_attr with
  | None => ret (inl (- EINVAL))
  | Some attr =>
      if negb zalloc_ok then ret (inl (- ENOMEM))
      else
        let! n := alloc_num OAh in
        match n with
        | None => ret (inl (- ENOMEM))
        | Some n => put_obj OAh n (new_ah attr now n) ;; ret (inr n)
        end
  end.

Definition the_ah (n : Z) : M objs pib_ah := let! o := the_obj OAh n in of_option (match o with Ah a => Some a | _ => None end).

Definition pib_modify_ah (n : Z) (attr : option ib_ah_attr) : M objs Z :=
  match attr with
  | None => ret (- EINVAL)
  | Some attr => let! a := the_ah n in put_obj OAh n (Ah (a <| ah_attr := attr |>)) ;; ret 0
  end.

Definition pib_query_ah (n : Z) : M objs ib_ah_attr := let! a := the_ah n in ret (ah_attr a).

Definition pib_destroy_ah (n : Z) : M objs Z :=
  the_ah n ;;
  free_num OAh n ;;
  kfree_obj OAh n ;;
  ret 0.

(** ** Calls and what they mean for the map of objects *)

Inductive ocall :=
| CAllocUcontext (kzalloc_ok : bool) (now tgid : Z) (comm : list Z)
| CDeallocUcontext (n : Z)
| CAllocPd (kzalloc_ok vzalloc_ok : bool) (now : Z)
| CDeallocPd (n : Z)
| CCreateAh (attr : option ib_ah_attr) (zalloc_ok : bool) (now : Z)
| CModifyAh (n : Z) (attr : option ib_ah_attr)
| CQueryAh (n : Z)
| CDestroyAh (n : Z).

Inductive oret := RNum (n : Z) | RErr (e : Z) | RAttr (a : ib_ah_attr).

Definition num_or_err (m : M objs (Z + Z)) : M objs oret := let! r := m in ret match r with inl e => RErr e | inr n => RNum n end.
Definition err_only (m : M objs Z) : M objs oret := let! e := m in ret (RErr e).

Definition run_ocall (c : ocall) : M objs oret :=
  match c with
  | CAllocUcontext ok now tgid comm => num_or_err (pib_alloc_ucontext ok now tgid comm)
  | CDeallocUcontext n => err_only (pib_dealloc_ucontext n)
  | CAllocPd ok vok now => num_or_err (pib_alloc_pd ok vok now)
  | CDeallocPd n => err_only (pib_dealloc_pd n)
  | CCreateAh attr ok now => num_or_err (pib_create_ah attr ok now)
  | CModifyAh n attr => err_only (pib_modify_ah n attr)
  | CQueryAh n => let! a := pib_query_ah n in ret (RAttr a)
  | CDestroyAh n => err_only (pib_destroy_ah n)
  end.

(** The calls get pointers to objects that exist. *)
Definition live_arg (m : gmap (okind * Z) obj) (c : ocall) : Prop :=
  match c with
  | CDeallocUcontext n => is_Some (m !! (OUcontext, n))
  | CDeallocPd n => is_Some (m !! (OPd, n))
  | CModifyAh n (Some _) | CQueryAh n | CDestroyAh n => is_Some (m !! (OAh, n))
  | _ => True
  end.

(** A creation gives a number that was free, or fails for lack of memory or of numbers. *)
Definition created (k : okind) (mk : Z -> obj) (mem_ok : bool) (r : oret) (m m' : gmap (okind * Z) obj) : Prop :=
  match r with
  | RNum n => mem_ok = true /\ (1 <= n < o_max k /\ m !! (k, n) = None) /\ m' = <[(k, n) := mk n]> m
  | RErr e => e = - ENOMEM /\ m' = m /\ (mem_ok = false \/ forall n, 1 <= n < o_max k -> is_Some (m !! (k, n)))
  | RAttr _ => False
  end.

Definition ocall_spec (c : ocall) (r : oret) (m m' : gmap (okind * Z) obj) : Prop :=
  match c with
  | CAllocUcontext ok now tgid comm =>
      created OUcontext (new_ucontext now tgid comm) ok r m m'
  | CDeallocUcontext n => r = RErr 0 /\ m' = delete (OUcontext, n) m
  | CAllocPd ok vok now => created OPd (new_pd now) (ok && vok) r m m'
  | CDeallocPd n => r = RErr 0 /\ m' = delete (OPd, n) m
  | CCreateAh None _ _ => r = RErr (- EINVAL) /\ m' = m
  | CCreateAh (Some attr) ok now => created OAh (new_ah attr now) ok r m m'
  | CModifyAh _ None => r = RErr (- EINVAL) /\ m' = m
  | CModifyAh n (Some attr) => exists a, m !! (OAh, n) = Some (Ah a) /\ r = RErr 0 /\ m' = <[(OAh, n) := Ah (a <| ah_attr := attr |>)]> m
  | CQueryAh n => exists a, m !! (OAh, n) = Some (Ah a) /\ r = RAttr (ah_attr a) /\ m' = m
  | CDestroyAh n => r = RErr 0 /\ m' = delete (OAh, n) m
  end.

(** From the initial state: calls, and changes of the bitmap for the other kinds. *)
Definition in_slice (k : okind) (x : Z) : Prop := o_start k <= x < o_start k + o_max k.
Inductive objs_reach : objs -> Prop :=
| objs_reach_init : objs_reach objs_init
| objs_reach_call s c r s' : objs_reach s -> run_ocall c s = Some (r, s') -> objs_reach s'
| objs_reach_other s bm : objs_reach s -> (forall k x, in_slice k x -> x ∈ ob_bm s <-> x ∈ bm) -> objs_reach (s <| ob_bm := bm |>).

(** ** The invariant *)

Definition kind_of (o : obj) : okind := match o with Ucontext _ => OUcontext | Pd _ _ => OPd | Ah _ => OAh end.
Definition num_of (o : obj) : Z := match o with Ucontext u => uc_num u | Pd _ p => pd_num p | Ah a => ah_num a end.

(** Besides the table invariant of every kind: the marked numbers of a slice are those of
    objects on the list, and the objects on the list are those that exist. *)
Definition kind_inv (s : objs) (k : okind) : Prop :=
  obj_inv (o_start k) (o_max k) (ob_bm s) (ob_tab s k)
  /\ (forall n, 1 <= n < o_max k -> o_start k + n ∈ ob_bm s -> n ∈ ot_head (ob_tab s k))
  /\ (forall n, n ∈ ot_head (ob_tab s k) <-> is_Some (ob_obj s !! (k, n))).

Definition objs_inv (s : objs) : Prop :=
  (forall k, kind_inv s k) /\ (forall k n o, ob_obj s !! (k, n) = Some o -> kind_of o = k /\ num_of o = n).

Lemma o_max_range k : 1 <= o_max k < OBJ_NUM_NONE.
Proof. by destruct k. Qed.

(** The slices of the kinds do not overlap. *)
Lemma slices_disjoint k k' n n' : k <> k' -> 0 <= n < o_max k -> 0 <= n' < o_max k' -> o_start k + n <> o_start k' + n'.
Proof.
  unfold o_start, o_max, PIB_BITMAP_AH_START, PIB_BITMAP_MR_START, PIB_BITMAP_CQ_START, PIB_BITMAP_SRQ_START, PIB_BITMAP_PD_START, PIB_BITMAP_CONTEXT_START,
    PIB_MAX_CONTEXT, PIB_MAX_PD, PIB_MAX_AH, PIB_MAX_SRQ, PIB_MAX_CQ, PIB_MAX_MR. destruct k, k'; intros; (lia || done).
Qed.

Lemma tab_set_eq k t f : tab_set k t f k = t.
Proof. unfold tab_set. by rewrite decide_True. Qed.
Lemma tab_set_ne k k' t f : k' <> k -> tab_set k t f k' = f k'.
Proof. intros. unfold tab_set. by rewrite decide_False. Qed.

Lemma kind_inv_head s k n : kind_inv s k -> is_Some (ob_obj s !! (k, n)) -> n ∈ ot_head (ob_tab s k) /\ 1 <= n < o_max k.
Proof. intros ((_ & _ & _ & Hm) & _ & Ho) Hn%Ho. split; [done|]. by apply Hm. Qed.

(** A change of the bitmap outside the slice of a kind, and of the tables and objects of
    another kind, is not seen by the kind. *)
Lemma kind_inv_frame s s' k : kind_inv s k ->
  (forall n, 0 <= n < o_max k -> o_start k + n ∈ ob_bm s <-> o_start k + n ∈ ob_bm s') -> ob_tab s' k = ob_tab s k ->
  (forall n, ob_obj s' !! (k, n) = ob_obj s !! (k, n)) -> kind_inv s' k.
Proof.
  intros ((Hl & Hc & Hd & Hm) & He & Ho) Hb Ht Hobj. unfold kind_inv, obj_inv. rewrite Ht. split_and!; try done; try lia.
  - intros n Hn. destruct (Hm n Hn) as [Hr Hb']. split; [done|]. apply Hb; [lia|done].
  - intros n Hn Hin. apply He; [done|]. apply Hb; [lia|done].
  - intros n. rewrite Hobj. apply Ho.
Qed.

(** ** Creation and destruction under the lock *)

(** A number is allocated and its object stored. *)
Lemma alloc_num_spec s k o : objs_inv s -> (forall n, kind_of (o n) = k /\ num_of (o n) = n) ->
  exists r s', alloc_num k s = Some (r, s') /\ ob_obj s' = ob_obj s
  /\ match r with
     | Some n => (1 <= n < o_max k /\ ob_obj s !! (k, n) = None) /\ objs_inv (s' <| ob_obj ::= <[(k, n) := o n]> |>)
     | None => objs_inv s' /\ forall n, 1 <= n < o_max k -> is_Some (ob_obj s !! (k, n))
     end.
Proof.
  intros [Hk Hobj] Ho. unfold alloc_num. erewrite (bind_run get) by reflexivity. pose proof (Hk k) as (Hi & He & Hd).
  pose proof (obj_create_spec (o_start k) (o_max k) (ob_bm s) (ob_tab s k) (o_max_range k) Hi) as Hs.
  destruct (obj_create _ _ _ _) as [[n|] [bm t]].
  - destruct Hs as (Hi' & (Hr & Hf) & -> & Hh & _). eexists _, _. split; [reflexivity|]. split; [done|].
    assert (ob_obj s !! (k, n) = None) as Hno.
    { destruct (ob_obj s !! (k, n)) eqn:E; [|done]. exfalso. apply Hf. assert (n ∈ ot_head (ob_tab s k)) as Hin by (apply Hd; eauto). by apply Hi in Hin as [_ ?]. }
    split; [done|]. split.
    + intros k'. destruct (decide (k' = k)) as [->|Hne].
      * split_and!; simpl; rewrite tab_set_eq; [done| |].
        { intros m Hm. rewrite elem_of_union, elem_of_singleton, Hh, elem_of_app, list_elem_of_singleton. intros [Heq|Hin]; [right; lia|left; by apply He]. }
        intros m. rewrite Hh, elem_of_app, list_elem_of_singleton. destruct (decide (m = n)) as [->|Hmn].
        { rewrite lookup_insert_eq. split; [eauto|by right]. }
        rewrite lookup_insert_ne by congruence. rewrite Hd. naive_solver.
      * apply (kind_inv_frame s); [apply Hk| | |]; simpl.
        { intros m Hm. rewrite elem_of_union, elem_of_singleton. split; [by right|]. intros [Heq|?]; [|done]. exfalso. eapply (slices_disjoint k' k m n); (done || lia). }
        { by apply tab_set_ne. }
        intros m. by rewrite lookup_insert_ne by congruence.
    + intros k' m o'. simpl. destruct (decide ((k', m) = (k, n))) as [[= -> ->]|Hne]; [rewrite lookup_insert_eq; intros [= <-]; apply Ho|].
      rewrite lookup_insert_ne by done. apply Hobj.
  - destruct Hs as (-> & -> & Hfull). eexists _, _. split; [reflexivity|]. split; [done|]. split.
    + split; [|done]. intros k'. apply (kind_inv_frame s); simpl; [apply Hk|done| |done]. unfold tab_set. by case_decide; subst.
    + intros n Hn. apply Hd, He; [done|]. by apply Hfull.
Qed.

Lemma free_num_spec s k n : objs_inv s -> is_Some (ob_obj s !! (k, n)) ->
  exists s', (free_num k n ;; kfree_obj k n) s = Some (tt, s') /\ objs_inv s' /\ ob_obj s' = delete (k, n) (ob_obj s).
Proof.
  intros [Hk Hobj] Hn. destruct (kind_inv_head s k n (Hk k) Hn) as [Hin Hr]. pose proof (Hk k) as (Hi & He & Hd).
  pose proof (obj_destroy_spec (o_start k) (o_max k) n (ob_bm s) (ob_tab s k) Hi Hin) as Hs. destruct Hs as [Hi' Hh].
  eexists. split; [reflexivity|]. split; [|done]. split.
  - intros k'. destruct (decide (k' = k)) as [->|Hne].
    + split_and!; simpl; rewrite tab_set_eq; [done| |].
      * intros m Hm. unfold pib_dealloc_obj_num, bitmap_clear1. intros [Hb Hne]%elem_of_difference. apply Hh. split; [by apply He|]. intros ->. set_solver.
      * intros m. rewrite Hh. destruct (decide (m = n)) as [->|Hmn]; [rewrite lookup_delete_eq; split; [by intros []|by intros []]|].
        rewrite lookup_delete_ne by congruence. rewrite Hd. naive_solver.
    + apply (kind_inv_frame s); [apply Hk| | |]; simpl.
      * intros m Hm. unfold pib_dealloc_obj_num, bitmap_clear1. rewrite elem_of_difference, elem_of_singleton. split; [|by intros []].
        intros ?. split; [done|]. eapply slices_disjoint; (done || lia).
      * by apply tab_set_ne.
      * intros m. by rewrite lookup_delete_ne by congruence.
  - intros k' m o. simpl. rewrite lookup_delete_Some. intros [_ ?]. by eapply Hobj.
Qed.

(** ** The theorem *)

Lemma objs_inv_init : objs_inv objs_init.
Proof.
  split; [|done]. intros k. split_and!; simpl.
  - split_and!; simpl; try done; [destruct k; done|constructor|by intros n ?%elem_of_nil].
  - intros n Hn. unfold setup_obj_num_bitmap, bitmap_set1. rewrite !elem_of_union, !elem_of_singleton, elem_of_empty. revert Hn.
    unfold o_start, o_max, PIB_BITMAP_QP_START, PIB_BITMAP_AH_START, PIB_BITMAP_MR_START, PIB_BITMAP_CQ_START, PIB_BITMAP_SRQ_START, PIB_BITMAP_PD_START,
      PIB_BITMAP_CONTEXT_START, PIB_MAX_CONTEXT, PIB_MAX_PD, PIB_MAX_AH, PIB_MAX_SRQ, PIB_MAX_CQ, PIB_MAX_MR, PIB_QP0, PIB_QP1, PIB_LINK_QP, IB_MULTICAST_QPN.
    destruct k; lia.
  - intros n. split; [by intros ?%elem_of_nil|by intros []].
Qed.

(** A creation: the number, and the object made for it; [undo] when a later allocation
    fails. *)
Lemma create_spec s k mk : objs_inv s -> (forall n, kind_of (mk n) = k /\ num_of (mk n) = n) ->
  exists r s', (let! n := alloc_num k in match n with None => ret (inl (- ENOMEM)) | Some n => put_obj k n (mk n) ;; ret (inr n) end) s = Some (r, s')
  /\ objs_inv s' /\ created k mk true (match r with inl e => RErr e | inr n => RNum n end) (ob_obj s) (ob_obj s').
Proof.
  intros Hi Hmk. destruct (alloc_num_spec s k mk Hi Hmk) as (r & s1 & E & Hobj & Hr). erewrite bind_run by exact E. destruct r as [n|].
  - destruct Hr as ((Hn & Hno) & Hi'). eexists (inr n), _. split; [reflexivity|]. split; [done|]. simpl. by rewrite Hobj.
  - destruct Hr as [Hi' Hfull]. eexists (inl _), _. split; [reflexivity|]. split; [done|]. simpl. rewrite Hobj. split_and!; [done..|by right].
Qed.

(** A failed creation has no effect. *)
Lemma created_undo s k mk n s1 s2 : objs_inv s -> (1 <= n < o_max k /\ ob_obj s !! (k, n) = None) -> ob_obj s1 = <[(k, n) := mk n]> (ob_obj s) -> objs_inv s1 ->
  (free_num k n ;; kfree_obj k n) s1 = Some (tt, s2) -> objs_inv s2 /\ ob_obj s2 = ob_obj s.
Proof.
  intros Hi [Hn Hno] Ho Hi1 E. destruct (free_num_spec s1 k n Hi1) as (s2' & E' & Hi2 & Ho2); [rewrite Ho, lookup_insert_eq; eauto|].
  rewrite E in E'. injection E' as ->. split; [done|]. by rewrite Ho2, Ho, delete_insert_id.
Qed.

Lemma destroy_spec s k n : objs_inv s -> is_Some (ob_obj s !! (k, n)) ->
  exists s', (the_obj k n ;; free_num k n ;; kfree_obj k n ;; ret 0) s = Some (0, s') /\ objs_inv s' /\ ob_obj s' = delete (k, n) (ob_obj s).
Proof.
  intros Hi [o Ho]. destruct (free_num_spec s k n Hi) as (s' & E & Hi' & Ho'); [eauto|]. exists s'. split; [|done].
  assert (the_obj k n s = Some (o, s)) as Hthe by (unfold the_obj, bind, get, of_option; by rewrite Ho). erewrite bind_run by exact Hthe.
  unfold bind in E |- *. destruct (free_num k n s) as [[? ?]|]; [|done]. by rewrite E.
Qed.

Lemma the_ah_spec s n : objs_inv s -> is_Some (ob_obj s !! (OAh, n)) -> exists a, ob_obj s !! (OAh, n) = Some (Ah a) /\ ah_num a = n /\ the_ah n s = Some (a, s).
Proof.
  intros [_ Hi] [o Ho]. destruct (Hi _ _ _ Ho) as [Hk Hn]. destruct o as [| |a]; try done. exists a. split_and!; [done..|]. unfold the_ah, the_obj, bind, get, of_option. by rewrite Ho.
Qed.

Lemma objs_inv_update s n a attr : objs_inv s -> ob_obj s !! (OAh, n) = Some (Ah a) -> objs_inv (s <| ob_obj ::= <[(OAh, n) := Ah (a <| ah_attr := attr |>)]> |>).
Proof.
  intros [Hk Hobj] Ha. split.
  - intros k. destruct (Hk k) as (Hi & He & Hd). split_and!; [done..|]. intros m. simpl. rewrite Hd.
    destruct (decide ((k, m) = (OAh, n))) as [[= -> ->]|Hne]; [rewrite lookup_insert_eq, Ha; split; eauto|by rewrite lookup_insert_ne].
  - intros k m o. simpl. destruct (decide ((k, m) = (OAh, n))) as [[= -> ->]|Hne]; [|rewrite lookup_insert_ne by done; apply Hobj].
    rewrite lookup_insert_eq. intros [= <-]. by destruct (Hobj _ _ _ Ha).
Qed.

Lemma alloc_pd_spec s ok vok now : objs_inv s ->
  exists r s', pib_alloc_pd ok vok now s = Some (r, s') /\ objs_inv s'
  /\ created OPd (new_pd now) (ok && vok) (match r with inl e => RErr e | inr n => RNum n end) (ob_obj s) (ob_obj s').
Proof.
  intros Hi. unfold pib_alloc_pd. destruct ok; cbn [negb andb]; [|eexists (inl _), _; split; [reflexivity|]; split; [done|]; simpl; auto].
  destruct (alloc_num_spec s OPd (new_pd now) Hi (fun n => conj eq_refl eq_refl)) as (r & s1 & E & Hobj & Hr). erewrite bind_run by exact E.
  destruct r as [n|]; [|eexists (inl _), _; split; [reflexivity|]; split; [by destruct Hr|]; simpl; rewrite Hobj; split_and!; [done..|right; by destruct Hr]].
  destruct Hr as (Hn & Hi1). erewrite (bind_run (put_obj OPd n (new_pd now n))) by reflexivity. destruct vok; cbn [negb].
  - eexists (inr n), _. split; [reflexivity|]. split; [done|]. simpl. by rewrite Hobj.
  - set (s2 := set_field _ _ _) in *. destruct (free_num_spec s2 OPd n Hi1) as (s3 & E3 & Hi3 & Ho3); [simpl; rewrite lookup_insert_eq; eauto|].
    destruct (created_undo s OPd (new_pd now) n s2 s3) as [_ Ho]; [done..|by simpl; rewrite Hobj|done|done|].
    eexists (inl _), s3. unfold bind in E3 |- *. destruct (free_num OPd n s2) as [[? ?]|]; [|done]. rewrite E3. split; [reflexivity|]. split; [done|]. simpl. rewrite Ho. auto.
Qed.

#[export] Instance live_arg_dec m c : Decision (live_arg m c).
Proof. destruct c as [| | | | |n [attr|]| |]; simpl; apply _. Defined.

(** A pointer to an object that does not exist. *)
Lemma dead_arg_fails s c r s' : ~ live_arg (ob_obj s) c -> run_ocall c s = Some (r, s') -> False.
Proof.
  intros Hl. assert (forall k n, ~ is_Some (ob_obj s !! (k, n)) -> the_obj k n s = None) as Hd.
  { intros k n Hn. unfold the_obj, bind, get, of_option. destruct (ob_obj s !! (k, n)); [|done]. by destruct Hn; eauto. }
  destruct c as [| | | | |n [attr|]| |]; simpl in Hl; try done; simpl; unfold err_only, bind, pib_dealloc_ucontext, pib_dealloc_pd, pib_modify_ah, pib_query_ah, pib_destroy_ah, the_ah, bind;
    try (rewrite Hd by done; done).
Qed.

Lemma ocall_step s c : objs_inv s -> live_arg (ob_obj s) c ->
  exists r s', run_ocall c s = Some (r, s') /\ objs_inv s' /\ ocall_spec c r (ob_obj s) (ob_obj s').
Proof.
  intros Hi Hl. destruct c as [ok now tgid comm|n|ok vok now|n|attr ok now|n attr|n|n]; simpl in Hl |- *; unfold num_or_err, err_only.
  - unfold pib_alloc_ucontext. destruct ok; cbn [negb].
    + destruct (create_spec s OUcontext (new_ucontext now tgid comm) Hi (fun n => conj eq_refl eq_refl)) as (r & s' & E & Hi' & Hc). erewrite bind_run by exact E. eauto.
    + eexists _, _. split; [reflexivity|]. split; [done|]. simpl. auto.
  - destruct (destroy_spec s OUcontext n Hi Hl) as (s' & E & Hi' & Ho). erewrite bind_run by exact E. eauto 6.
  - destruct (alloc_pd_spec s ok vok now Hi) as (r & s' & E & Hi' & Hc). erewrite bind_run by exact E. eauto.
  - destruct (destroy_spec s OPd n Hi Hl) as (s' & E & Hi' & Ho). erewrite bind_run by exact E. eauto 6.
  - unfold pib_create_ah. destruct attr as [attr|]; [|by eexists _, _]. destruct ok; cbn [negb].
    + destruct (create_spec s OAh (new_ah attr now) Hi (fun n => conj eq_refl eq_refl)) as (r & s' & E & Hi' & Hc). erewrite bind_run by exact E. eauto.
    + eexists _, _. split; [reflexivity|]. split; [done|]. simpl. auto.
  - unfold pib_modify_ah. destruct attr as [attr|]; [|by eexists _, _]. destruct (the_ah_spec s n Hi Hl) as (a & Ha & Hna & E).
    unfold bind in *. rewrite E. eexists _, _. split; [reflexivity|]. split; [by apply objs_inv_update|by exists a].
  - unfold pib_query_ah. destruct (the_ah_spec s n Hi Hl) as (a & Ha & Hna & E). unfold bind. rewrite E. eexists _, _. eauto 8.
  - unfold pib_destroy_ah. destruct (the_ah_spec s n Hi Hl) as (a & Ha & _ & E). destruct (destroy_spec s OAh n Hi Hl) as (s' & E' & Hi' & Ho).
    erewrite bind_run in E' by (unfold the_obj, bind, get, of_option; rewrite Ha; reflexivity). eexists _, s'. split; [|eauto].
    erewrite bind_run; [reflexivity|]. erewrite bind_run by exact E. exact E'.
Qed.

(** C26. User contexts, protection domains and address handles are a map from numbers to
    objects.  After any calls and whatever the other kinds do to the bitmap, a call with
    objects that exist returns and has exactly its effect on the map: a new object gets
    a number of its kind that was free, and is refused only for lack of memory or when
    every number is in use; a failed creation and a query change nothing; a
    destroyed object is gone.  The count of a kind is the number of its objects,
    and its marked numbers are theirs: no number is lost. *)
Theorem object_verbs_refine (s : objs) (c : ocall) (Hr : objs_reach s) (Hl : live_arg (ob_obj s) c) :
  (exists r s', run_ocall c s = Some (r, s') /\ ocall_spec c r (ob_obj s) (ob_obj s'))
  /\ forall k, ot_nr (ob_tab s k) = Zlen (ot_head (ob_tab s k)) /\ NoDup (ot_head (ob_tab s k))
     /\ forall n, 1 <= n < o_max k -> (n ∈ ot_head (ob_tab s k) <-> is_Some (ob_obj s !! (k, n))) /\ (o_start k + n ∈ ob_bm s <-> is_Some (ob_obj s !! (k, n))).
Proof.
  assert (objs_inv s) as Hi.
  { clear Hl c. induction Hr as [|s c r s' Hr IH Hc|s bm Hr IH Hb]; [apply objs_inv_init| |].
    - destruct (decide (live_arg (ob_obj s) c)) as [Hl|Hl].
      + destruct (ocall_step s c IH Hl) as (r' & s1 & E & Hi & _). by simplify_eq.
      + exfalso. by eapply dead_arg_fails.
    - destruct IH as [Hk Hobj]. split; [|done]. intros k. apply (kind_inv_frame s); [apply Hk| |done|done]. intros n Hn. simpl. apply (Hb k). unfold in_slice. lia. }
  split; [destruct (ocall_step s c Hi Hl) as (r & s' & E & _ & Hs); eauto|].
  intros k. destruct Hi as [Hk _]. destruct (Hk k) as ((_ & Hc & Hd & Hm) & He & Ho). split_and!; [done..|]. intros n Hn. split; [apply Ho|].
  rewrite <-Ho. split; [by apply He|]. intros Hin. by apply Hm.
Qed.

Lemma object_verbs_refine_witness : objs_reach objs_init /\ exists r s', run_ocall (CAllocPd true true 0) objs_init = Some (r, s').
Proof.
  split; [apply objs_reach_init|]. destruct (object_verbs_refine objs_init (CAllocPd true true 0) objs_reach_init I) as [(r & s' & E & _) _]. by exists r, s'.
Defined.
