(* ===== verification/Text.v ===== *)
(** * Text

    What the driver prints and reads as text: characters are their codes, a text is the
    list of them.  The conversions of printf the sources use, and the number sscanf reads
    for %x. *)

From stdpp Require Export strings.
From S2P Require Import Prelude.

Global Open Scope Z_scope.


(** ** Literals *)

Definition str (s : String.string) : list Z := (fun c => Z.of_N (Ascii.N_of_ascii c)) <$> String.list_ascii_of_string s.
Arguments str s%_string.

Definition SPACE : Z := 32.
Definition NEWLINE : Z := 10.

(** ** Numbers *)

Definition hex_char (d : Z) : Z := if d <? 10 then 48 + d else 87 + d.
Definition hex_value (c : Z) : option Z :=
  if (48 <=? c) && (c <=? 57) then Some (c - 48)
  else if (97 <=? c) && (c <=? 102) then Some (c - 87)
  else if (65 <=? c) && (c <=? 70) then Some (c - 55)
  else None.

(** The digits of a number, last first; [fuel] bounds how many there are. *)
Fixpoint digits (fuel : nat) (base n : Z) : list Z :=
  match fuel with
  | O => []
  | S fuel => n mod base :: (if n <? base then [] else digits fuel base (n / base))
  end.

(** Numbers have at most 64 bits, so 64 digits are enough for every base. *)
Definition number (base n : Z) : list Z := hex_char <$> rev (digits 64 base n).

(** ** Conversions: the field is at least [w] wide *)

Definition pad_left (c : Z) (w : nat) (s : list Z) : list Z := replicate (w - length s) c ++ s.
Definition fmt_s (w : nat) (s : list Z) : list Z := s ++ replicate (w - length s) SPACE.   (* %-5s *)
Definition fmt_u (w : nat) (n : Z) : list Z := pad_left SPACE w (number 10 n).             (* %5u *)
Definition fmt_u0 (w : nat) (n : Z) : list Z := pad_left 48 w (number 10 n).               (* %04u *)
Definition fmt_x (n : Z) : list Z := number 16 n.                                          (* %x *)
Definition fmt_x0 (w : nat) (n : Z) : list Z := pad_left 48 w (number 16 n).               (* %04x *)
(** %04d: the sign counts. *)
Definition fmt_d0 (w : nat) (n : Z) : list Z := if n <? 0 then 45 :: fmt_u0 (w - 1) (- n) else fmt_u0 w n.

(** snprintf into a buffer of [n] bytes keeps [n - 1] characters. *)
Definition snprintf (n : nat) (s : list Z) : list Z := take (n - 1) s.
(** %s of a null pointer. *)
Definition str_or_null (s : option (list Z)) : list Z := default (str "(null)") s.

(** ** Reading *)

Definition isspace (c : Z) : bool := (c =? 32) || ((9 <=? c) && (c <=? 13)).
Fixpoint skip_spaces (s : list Z) : list Z :=
  match s with c :: s' => if isspace c then skip_spaces s' else s | [] => [] end.

(** simple_strtoull with base 16, from the digits on. *)
Fixpoint strtox (s : list Z) (acc : Z) : Z :=
  match s with c :: s' => match hex_value c with Some d => strtox s' (u64 (16 * acc + d)) | None => acc end | [] => acc end.

(** Two digits 0 and x in front are skipped when a digit follows. *)
Definition skip_0x (s : list Z) : list Z :=
  match s with
  | 48 :: x :: c :: s' => if ((x =? 120) || (x =? 88)) && bool_decide (is_Some (hex_value c)) then c :: s' else s
  | _ => s
  end.

(** sscanf(s, "%x", &n) for a u32 *)
Definition sscanf_x (s : list Z) : option Z :=
  let s := skip_spaces s in
  match s with
  | c :: _ => if bool_decide (is_Some (hex_value c)) then Some (u32 (strtox (skip_0x s) 0)) else None
  | [] => None
  end.

(** ** Lemmas *)

Lemma hex_digit_value d : 0 <= d < 16 -> hex_value (hex_char d) = Some d.
Proof.
  intros Hd. unfold hex_char. destruct (Z.ltb_spec d 10); unfold hex_value; [rewrite !(proj2 (Z.leb_le _ _)) by lia; simpl; f_equal; lia|].
  rewrite (proj2 (Z.leb_gt _ 57)), andb_false_r, !(proj2 (Z.leb_le _ _)) by lia. simpl. f_equal. lia.
Qed.

(** The value of digits, first first. *)
Definition value (base : Z) (ds : list Z) (acc : Z) : Z := fold_left (fun a d => base * a + d) ds acc.

Lemma value_app base l k acc : value base (l ++ k) acc = value base k (value base l acc).
Proof. apply fold_left_app. Qed.

Lemma value_digits fuel base : forall n, 1 < base -> 0 <= n < base ^ Z.of_nat fuel -> value base (rev (digits fuel base n)) 0 = n.
Proof.
  induction fuel as [|fuel IH]; intros n Hb Hn; [simpl in *; lia|]. simpl. rewrite value_app. simpl. pose proof (Z.div_mod n base ltac:(lia)) as Hd.
  destruct (Z.ltb_spec n base) as [Hlt|Hge]; simpl; [rewrite Z.mod_small by lia; lia|]. rewrite IH; [lia|done|]. split; [apply Z.div_pos; lia|].
  apply Z.div_lt_upper_bound; [lia|]. rewrite <-Z.pow_succ_r by lia. replace (Z.succ (Z.of_nat fuel)) with (Z.of_nat (S fuel)) by lia. lia.
Qed.

Lemma digits_range fuel base : forall n, 1 < base -> Forall (fun d => 0 <= d < base) (digits fuel base n).
Proof.
  induction fuel as [|fuel IH]; intros n Hb; simpl; [done|]. constructor; [apply Z.mod_pos_bound; lia|]. destruct (n <? base); [done|by apply IH].
Qed.

Lemma digits_length fuel base : forall n k, 1 < base -> (0 < k)%nat -> 0 <= n < base ^ Z.of_nat k -> (length (digits fuel base n) <= k)%nat.
Proof.
  induction fuel as [|fuel IH]; intros n k Hb Hk Hn; simpl; [lia|]. destruct k as [|k]; [lia|]. destruct (Z.ltb_spec n base) as [Hlt|Hge]; simpl; [lia|].
  destruct k as [|k]; [change (Z.of_nat 1) with 1 in Hn; rewrite Z.pow_1_r in Hn; lia|]. apply le_n_S, IH; [done|lia|]. split; [apply Z.div_pos; lia|].
  apply Z.div_lt_upper_bound; [lia|]. rewrite <-Z.pow_succ_r by lia. replace (Z.succ (Z.of_nat (S k))) with (Z.of_nat (S (S k))) by lia. lia.
Qed.

Lemma digits_nonempty fuel base n : digits (S fuel) base n <> [].
Proof. done. Qed.

(** %x of a 64-bit number, with leading zeros, is digits that mean the number. *)
Lemma fmt_x0_digits w n : 0 <= n < 2 ^ 64 -> exists ds, fmt_x0 w n = hex_char <$> ds /\ Forall (fun d => 0 <= d < 16) ds /\ value 16 ds 0 = n /\ ds <> [].
Proof.
  intros Hn. exists (replicate (w - length (number 16 n)) 0 ++ rev (digits 64 16 n)). unfold fmt_x0, pad_left, number. rewrite fmap_app, fmap_replicate. split_and!.
  - by rewrite !length_fmap.
  - apply Forall_app. split; [by apply Forall_replicate|]. apply Forall_rev, digits_range. lia.
  - rewrite value_app. assert (forall k, value 16 (replicate k 0) 0 = 0) as -> by (induction k; [done|exact IHk]). apply value_digits; [lia|]. split; [lia|].
    etransitivity; [apply Hn|]. vm_compute. done.
  - intros H. apply app_eq_nil in H as [_ H]. apply (f_equal (@rev Z)) in H. rewrite rev_involutive in H. by apply digits_nonempty in H.
Qed.

Lemma fmt_x0_length w n : (0 < w)%nat -> 0 <= n < 16 ^ Z.of_nat w -> length (fmt_x0 w n) = w.
Proof.
  intros Hw Hn. unfold fmt_x0, pad_left. rewrite length_app, length_replicate. unfold number. rewrite length_fmap, length_rev.
  pose proof (digits_length 64 16 n w ltac:(lia) Hw Hn). lia.
Qed.

Lemma value_mono l : forall a, Forall (fun d => 0 <= d < 16) l -> 0 <= a -> a <= value 16 l a.
Proof. induction l as [|x l IH]; intros a Hl Ha; simpl; [lia|]. inversion Hl; subst. etransitivity; [|apply IH; [done|lia]]. lia. Qed.

Lemma strtox_digits ds : forall acc rest, Forall (fun d => 0 <= d < 16) ds -> 0 <= acc -> value 16 ds acc < 2 ^ 64 -> (match rest with c :: _ => hex_value c = None | [] => True end) ->
  strtox ((hex_char <$> ds) ++ rest) acc = value 16 ds acc.
Proof.
  induction ds as [|d ds IH]; intros acc rest Hd Ha Hb Hr; simpl in *; [destruct rest as [|c rest]; simpl; [done|by rewrite Hr]|].
  inversion Hd as [|? ? Hd1 Hd2]; subst. rewrite hex_digit_value by done. pose proof (value_mono ds (16 * acc + d) Hd2 ltac:(lia)).
  unfold u64. rewrite wrap_small by lia. apply IH; [done|lia|done|done].
Qed.

Lemma hex_char_facts d : 0 <= d < 16 -> isspace (hex_char d) = false /\ hex_char d <> 120 /\ hex_char d <> 88.
Proof.
  intros Hd. assert (forallb (fun d => negb (isspace (hex_char d)) && negb (hex_char d =? 120) && negb (hex_char d =? 88)) (seqZ 0 16) = true) as H by reflexivity.
  rewrite forallb_forall in H. specialize (H d). rewrite <-list_elem_of_In, elem_of_seqZ in H. specialize (H ltac:(lia)). apply andb_true_iff in H as [H H3].
  apply andb_true_iff in H as [H1 H2]. by destruct (isspace _), (Z.eqb_spec (hex_char d) 120), (Z.eqb_spec (hex_char d) 88).
Qed.

(** What %x prints is what %x reads, behind white space and in front of anything that is no digit. *)
Lemma sscanf_printed sp w n rest : Forall (fun c => isspace c = true) sp -> (1 < w)%nat -> 0 <= n < 2 ^ 32 -> 0 <= n < 16 ^ Z.of_nat w ->
  (match rest with c :: _ => hex_value c = None | [] => True end) -> sscanf_x (sp ++ fmt_x0 w n ++ rest) = Some n.
Proof.
  intros Hsp Hw Hn Hn' Hr. destruct (fmt_x0_digits w n ltac:(lia)) as (ds & E & Hds & Hv & _). pose proof (fmt_x0_length w n ltac:(lia) Hn') as Hl.
  rewrite E in *. rewrite length_fmap in Hl. destruct ds as [|d [|d2 ds]]; [simpl in Hl; lia..|]. pose proof Hds as Hds'. apply Forall_cons in Hds' as [Hd1 Hd2]. apply Forall_cons in Hd2 as [Hd3 _].
  destruct (hex_char_facts d Hd1) as (F1 & _). destruct (hex_char_facts d2 Hd3) as (_ & F2 & F3). unfold sscanf_x.
  assert (skip_spaces (sp ++ (hex_char <$> d :: d2 :: ds) ++ rest) = (hex_char <$> d :: d2 :: ds) ++ rest) as ->.
  { induction Hsp as [|c sp Hc _ IH]; simpl; [by rewrite F1|by rewrite Hc]. }
  assert (skip_0x ((hex_char <$> d :: d2 :: ds) ++ rest) = (hex_char <$> d :: d2 :: ds) ++ rest) as Hs.
  { simpl. unfold skip_0x. rewrite (proj2 (Z.eqb_neq _ _) F2), (proj2 (Z.eqb_neq _ _) F3). simpl. by repeat case_match. }
  change ((hex_char <$> d :: d2 :: ds) ++ rest) with (hex_char d :: (hex_char <$> d2 :: ds) ++ rest) at 1. cbv iota.
  rewrite hex_digit_value, bool_decide_eq_true_2 by (done || eauto). rewrite Hs, strtox_digits by (done || lia). rewrite Hv. f_equal. unfold u32. by apply wrap_small.
Qed.
