(* ===== verification/Provider.v ===== *)
(** * The user-space provider (libpib/src/pib.c)

    The verbs of a process: each makes or frees the handle and hands the call over to
    libibverbs, which asks the kernel.  libibverbs is a parameter: what a command
    returns, and what it does to a state of its own.  Immediate data of datagrams
    needs care, because kernels before 3.13 lose it: the provider puts it into an extra
    SGE with a reserved key, which the driver takes off again (pib_qp.c). *)

From S2P Require Import Text Prelude Verbs Lib ObjNum Cq Srq Mr State Sched Qp.

(** ** Handles *)

(** The commands of libibverbs (ibv_cmd_alloc_pd and so on) with the arguments that
    matter; objects are known by their handles. *)
Inductive ibv_cmd :=
| IBV_CMD_QUERY_PORT (port_num : Z)
| IBV_CMD_ALLOC_PD | IBV_CMD_DEALLOC_PD (pd : Z)
| IBV_CMD_REG_MR (pd addr length hca_va access : Z) | IBV_CMD_DEREG_MR (mr : Z)
| IBV_CMD_CREATE_CQ (cqe channel comp_vector : Z) | IBV_CMD_POLL_CQ (cq num_entries : Z) | IBV_CMD_REQ_NOTIFY_CQ (cq solicited_only : Z)
| IBV_CMD_RESIZE_CQ (cq cqe : Z) | IBV_CMD_DESTROY_CQ (cq : Z)
| IBV_CMD_CREATE_SRQ (pd : Z) (attr : ib_srq_attr) | IBV_CMD_MODIFY_SRQ (srq : Z) (attr : ib_srq_attr) (mask : Z) | IBV_CMD_QUERY_SRQ (srq : Z)
| IBV_CMD_DESTROY_SRQ (srq : Z) | IBV_CMD_POST_SRQ_RECV (srq : Z) (wrs : list ib_recv_wr)
| IBV_CMD_CREATE_QP (pd : Z) (attr : ib_qp_init_attr) | IBV_CMD_QUERY_QP (qp mask : Z) | IBV_CMD_MODIFY_QP (qp : Z) (attr : ib_qp_attr) (mask : Z)
| IBV_CMD_DESTROY_QP (qp : Z) | IBV_CMD_POST_RECV (qp : Z) (wrs : list ib_recv_wr)
| IBV_CMD_ATTACH_MCAST (qp : Z) (gid : list Z) (lid : Z) | IBV_CMD_DETACH_MCAST (qp : Z) (gid : list Z) (lid : Z)
| IBV_CMD_CREATE_AH (pd : Z) (attr : ib_ah_attr) | IBV_CMD_DESTROY_AH (ah : Z)
| IBV_CMD_GET_CONTEXT (cmd_fd : Z).

(** The handles of the process, errno and the state of libibverbs and the kernel. *)
Record prov {K : Type} := { pv_live : gset Z; pv_errno : Z; pv_kernel : K }.
Arguments prov : clear implicits.
#[export] Instance eta_prov {K} : Eta (prov K) := fun p => {| pv_live := pv_live p; pv_errno := pv_errno p; pv_kernel := pv_kernel p |}.

Section Provider.
Context {K : Type} (ibv_cmd_run : ibv_cmd -> K -> Z * K).

Definition command (c : ibv_cmd) : M (prov K) Z :=
  let! p := get in
  let '(r, k) := ibv_cmd_run c (pv_kernel p) in
  modify (fun p => p <| pv_kernel := k |>) ;;
  ret r.

Definition set_errno (e : Z) : M (prov K) unit := modify (fun p => p <| pv_errno := e |>).

(** Freeing what is not allocated is [None]. *)
Definition free (h : Z) : M (prov K) unit :=
  let! p := get in
  BUG_ON (negb (bool_decide (h ∈ pv_live p))) ;;
  modify (fun p => p <| pv_live ::= fun l => l ∖ {[ h ]} |>).

(** The body of every verb that makes an object; [calloc] is the memory for the handle,
    if there is any. *)
Definition make (calloc : option Z) (c : ibv_cmd) : M (prov K) (option Z) :=
  match calloc with
  | None => ret None
  | Some h =>
      modify (fun p => p <| pv_live ::= union {[ h ]} |>) ;;
      let! r := command c in
      if negb (r =? 0) then free h ;; set_errno r ;; ret None else ret (Some h)
  end.

(** The body of every verb that destroys one: the handle is freed whatever the answer. *)
Definition unmake (h : Z) (c : ibv_cmd) : M (prov K) Z :=
  let! r := command c in
  free h ;;
  ret r.

Definition pib_query_port (port_num : Z) : M (prov K) Z := command (IBV_CMD_QUERY_PORT port_num).
Definition pib_alloc_pd (calloc : option Z) : M (prov K) (option Z) := make calloc IBV_CMD_ALLOC_PD.
Definition pib_dealloc_pd (pd : Z) : M (prov K) Z := unmake pd (IBV_CMD_DEALLOC_PD pd).
Definition pib_reg_mr (calloc : option Z) (pd addr length access : Z) : M (prov K) (option Z) := make calloc (IBV_CMD_REG_MR pd addr length addr access).
Definition pib_rereg_mr : M (prov K) (option Z) := set_errno ENOSYS ;; ret None.
Definition pib_dereg_mr (mr : Z) : M (prov K) Z := unmake mr (IBV_CMD_DEREG_MR mr).
Definition pib_alloc_mw : M (prov K) (option Z) := set_errno ENOSYS ;; ret None.
Definition pib_bind_mw : M (prov K) Z := set_errno ENOSYS ;; ret (-1).
Definition pib_dealloc_mw : M (prov K) Z := set_errno ENOSYS ;; ret (-1).
Definition pib_create_cq (calloc : option Z) (cqe channel comp_vector : Z) : M (prov K) (option Z) := make calloc (IBV_CMD_CREATE_CQ cqe channel comp_vector).
Definition pib_poll_cq (cq num_entries : Z) : M (prov K) Z := command (IBV_CMD_POLL_CQ cq num_entries).
Definition pib_req_notify_cq (cq solicited_only : Z) : M (prov K) Z := command (IBV_CMD_REQ_NOTIFY_CQ cq solicited_only).
Definition pib_resize_cq (cq cqe : Z) : M (prov K) Z := command (IBV_CMD_RESIZE_CQ cq cqe).
Definition pib_destroy_cq (cq : Z) : M (prov K) Z := unmake cq (IBV_CMD_DESTROY_CQ cq).
Definition pib_create_srq (calloc : option Z) (pd : Z) (attr : ib_srq_attr) : M (prov K) (option Z) := make calloc (IBV_CMD_CREATE_SRQ pd attr).
Definition pib_modify_srq (srq : Z) (attr : ib_srq_attr) (mask : Z) : M (prov K) Z := command (IBV_CMD_MODIFY_SRQ srq attr mask).
Definition pib_query_srq (srq : Z) : M (prov K) Z := command (IBV_CMD_QUERY_SRQ srq).
Definition pib_destroy_srq (srq : Z) : M (prov K) Z := unmake srq (IBV_CMD_DESTROY_SRQ srq).
Definition pib_post_srq_recv (srq : Z) (wrs : list ib_recv_wr) : M (prov K) Z := command (IBV_CMD_POST_SRQ_RECV srq wrs).
Definition pib_create_qp (calloc : option Z) (pd : Z) (attr : ib_qp_init_attr) : M (prov K) (option Z) := make calloc (IBV_CMD_CREATE_QP pd attr).
Definition pib_query_qp (qp mask : Z) : M (prov K) Z := command (IBV_CMD_QUERY_QP qp mask).
Definition pib_modify_qp (qp : Z) (attr : ib_qp_attr) (mask : Z) : M (prov K) Z := command (IBV_CMD_MODIFY_QP qp attr mask).
Definition pib_destroy_qp (qp : Z) : M (prov K) Z := unmake qp (IBV_CMD_DESTROY_QP qp).
Definition pib_post_recv (qp : Z) (wrs : list ib_recv_wr) : M (prov K) Z := command (IBV_CMD_POST_RECV qp wrs).
Definition pib_attach_mcast (qp : Z) (gid : list Z) (lid : Z) : M (prov K) Z := command (IBV_CMD_ATTACH_MCAST qp gid lid).
Definition pib_detach_mcast (qp : Z) (gid : list Z) (lid : Z) : M (prov K) Z := command (IBV_CMD_DETACH_MCAST qp gid lid).
Definition pib_create_ah (calloc : option Z) (pd : Z) (attr : ib_ah_attr) : M (prov K) (option Z) := make calloc (IBV_CMD_CREATE_AH pd attr).
Definition pib_destroy_ah (ah : Z) : M (prov K) Z := unmake ah (IBV_CMD_DESTROY_AH ah).
Definition pib_alloc_context (calloc : option Z) (cmd_fd : Z) : M (prov K) (option Z) := make calloc (IBV_CMD_GET_CONTEXT cmd_fd).
Definition pib_free_context (context : Z) : M (prov K) unit := free context.
End Provider.

(** ** The version of the device *)

(** ibv_cmd_query_device: its result and the version it found.  The text is major, minor
    and sub-minor number. *)
Definition pib_query_device (cmd : Z * Z) : Z + (Z * Z * Z) :=
  let '(ret, raw_fw_ver) := cmd in
  if negb (ret =? 0) then inl ret
  else inr (Z.land (Z.shiftr raw_fw_ver 32) 0xffff, Z.land (Z.shiftr raw_fw_ver 16) 0xffff, Z.land raw_fw_ver 0xffff).

(** ** The reserved key *)

(** sprintf(buf, "0x%08x\n", lkey) of pib_main.c: show_imm_data_lkey *)
Definition show_imm_data_lkey (imm_data_lkey : Z) : list Z :=
  [48; 120] ++ ((fun i => hex_char (Z.land (Z.shiftr imm_data_lkey (4 * i)) 15)) <$> [7; 6; 5; 4; 3; 2; 1; 0]) ++ [10].

(** The digits of %8x: at most [n]. *)
Fixpoint scan_hex (n : nat) (s : list Z) (acc : Z) (some : bool) : option Z :=
  match n, s with
  | S n, c :: s' => match hex_value c with Some d => scan_hex n s' (u32 (16 * acc + d)) true | None => if some then Some acc else None end
  | _, _ => if some then Some acc else None
  end.

(** sscanf(attr, "0x%08x", &lkey): the characters 0x, then the digits.  White space, signs
    and a second 0x, which sscanf takes too, do not occur in what the driver prints. *)
Definition scan_imm_data_lkey (attr : list Z) : option Z :=
  match attr with
  | 48 :: 120 :: s => scan_hex 8 s 0 false
  | _ => None
  end.

Definition starts_with_pib (name : list Z) : bool := bool_decide (take 4 name = [112; 105; 98; 95]).

(** What ibv_read_sysfs_file finds in the files ibdev and imm_data_lkey; the result is the
    key of the device, 0 when the driver has none. *)
Definition pib_driver_init (ibdev : option (list Z)) (calloc_ok : bool) (imm_data_lkey : option (list Z)) : option Z :=
  match ibdev with
  | None => None
  | Some name =>
      if negb (starts_with_pib name) then None
      else if negb calloc_ok then None
      else Some match imm_data_lkey with None => 0 | Some attr => default 0 (scan_imm_data_lkey attr) end
  end.

(** ** Posting sends *)

Section PostSend.
(** ibv_cmd_post_send on a queue pair: 0 or the error, and the request it refused. *)
Context {S : Type} (ibv_cmd_post_send : list ib_send_wr -> M S (Z * list ib_send_wr)).

(** The copy of the request that is handed over.  [sge_length] is 32 bits wide. *)
Definition with_imm (imm_data_lkey : Z) (wr : ib_send_wr) : ib_send_wr :=
  if negb (swr_opcode wr =? IB_WR_SEND_WITH_IMM) then wr
  else {| swr_wr_id := swr_wr_id wr; swr_opcode := swr_opcode wr; swr_send_flags := swr_send_flags wr;
          swr_sg_list := swr_sg_list wr ++ [{| sge_addr := 0; sge_length := swr_ex wr; sge_lkey := imm_data_lkey |}];
          swr_ex := swr_ex wr; swr_wr := swr_wr wr |}.

Definition ud_qp_post_send_with_imm (imm_data_lkey : Z) (wr : ib_send_wr) : M S Z :=
  let! (ret_, _) := ibv_cmd_post_send [with_imm imm_data_lkey wr] in
  ret ret_.

(** The loop: the result and *bad_wr. *)
Fixpoint post_send_each (imm_data_lkey : Z) (wrs : list ib_send_wr) : M S (Z * list ib_send_wr) :=
  match wrs with
  | [] => ret (0, [])
  | wr :: wrs' =>
      let! r := ud_qp_post_send_with_imm imm_data_lkey wr in
      if negb (r =? 0) then ret (r, wrs) else post_send_each imm_data_lkey wrs'
  end.

Definition pib_post_send (qp_type : ib_qp_type) (imm_data_lkey : Z) (wrs : list ib_send_wr) : M S (Z * list ib_send_wr) :=
  if bool_decide (qp_type = IB_QPT_UD) && negb (imm_data_lkey =? 0) then post_send_each imm_data_lkey wrs
  else ibv_cmd_post_send wrs.
End PostSend.
