(* ===== verification/ProviderThm.v ===== *)
(** * Handles, the reserved key and the immediate data of datagrams

    The provider loses no handle, finds the key the driver prints, and the immediate data
    it hands over reaches the driver's work queue although the kernel in between loses
    it. *)

From S2P Require Import Text Prelude Verbs Lib ObjNum Cq Srq Mr State Demo Sched Qp Provider.

(** ** Handles *)

Section Handles.
Context {K : Type} (ibv_cmd_run : ibv_cmd -> K -> Z * K).
Abbreviation P := (prov K).

(** A verb that makes a handle, destroys one, or does neither. *)
Inductive pcall := PMake (calloc : option Z) (c : ibv_cmd) | PUnmake (h : Z) (c : ibv_cmd) | PCommand (c : ibv_cmd).

Definition run_pcall (c : pcall) : M P (option Z) :=
  match c with
  | PMake calloc c => make ibv_cmd_run calloc c
  | PUnmake h c => let! r := unmake ibv_cmd_run h c in ret None
  | PCommand c => let! r := command ibv_cmd_run c in ret None
  end.

(** New memory is not in use, and a handle that is destroyed is. *)
Definition pcall_ok (c : pcall) (live : gset Z) : Prop :=
  match c with PMake (Some h) _ => h ∉ live | PUnmake h _ => h ∈ live | _ => True end.

(** The handles the process holds after a call that returned [r]. *)
Definition held (c : pcall) (r : option Z) (live : gset Z) : gset Z :=
  match c, r with PMake _ _, Some h => {[ h ]} ∪ live | PUnmake h _, _ => live ∖ {[ h ]} | _, _ => live end.

Fixpoint run_pcalls (cs : list pcall) (p : P) (h : gset Z) : Prop :=
  match cs with
  | [] => pv_live p = h
  | c :: cs' => pcall_ok c h -> exists r p', run_pcall c p = Some (r, p') /\ run_pcalls cs' p' (held c r h)
  end.

Lemma command_run c (p : P) : command ibv_cmd_run c p = Some ((ibv_cmd_run c (pv_kernel p)).1, p <| pv_kernel := (ibv_cmd_run c (pv_kernel p)).2 |>).
Proof. unfold command, bind, get, modify, ret. by destruct (ibv_cmd_run c (pv_kernel p)). Qed.

Lemma free_run h (p : P) : h ∈ pv_live p -> free h p = Some (tt, p <| pv_live ::= fun l => l ∖ {[ h ]} |>).
Proof. intros H. unfold free, bind, get, BUG_ON. by rewrite (bool_decide_eq_true_2 _ H). Qed.

(** What making a handle does: nothing without memory; the handle is the caller's when the
    command succeeds, and freed with errno set when it does not. *)
Lemma make_run calloc c (p : P) : (forall h, calloc = Some h -> h ∉ pv_live p) ->
  exists r p', make ibv_cmd_run calloc c p = Some (r, p') /\ pv_live p' = held (PMake calloc c) r (pv_live p)
  /\ match calloc with
     | None => r = None /\ p' = p
     | Some h => let e := (ibv_cmd_run c (pv_kernel p)).1 in if e =? 0 then r = Some h /\ pv_errno p' = pv_errno p else r = None /\ pv_errno p' = e
     end.
Proof.
  intros Hf. destruct calloc as [h|]; [|by eexists _, _]. specialize (Hf h eq_refl). unfold make. erewrite bind_run by reflexivity.
  erewrite bind_run by apply command_run. cbn [pv_kernel pv_live set_field]. simpl. destruct (ibv_cmd_run c (pv_kernel p)) as [e k]. simpl.
  destruct (Z.eqb_spec e 0) as [->|He]; cbn [negb]; [by eexists _, _|].
  erewrite bind_run by (apply free_run; simpl; set_solver). eexists _, _. split; [reflexivity|]. simpl. split; [set_solver|done].
Qed.

Lemma pcall_step c (p : P) : pcall_ok c (pv_live p) -> exists r p', run_pcall c p = Some (r, p') /\ pv_live p' = held c r (pv_live p).
Proof.
  intros Hok. destruct c as [calloc c|h c|c]; simpl in Hok |- *.
  - destruct (make_run calloc c p) as (r & p' & E & Hl & _); [by intros h ->|]. eauto.
  - unfold unmake, bind. rewrite command_run, free_run by done. eauto.
  - erewrite bind_run by apply command_run. eauto.
Qed.

(** No handle is lost.  Whatever the commands of the library answer, the memory a process
    holds for handles is at every time exactly that of the handles the verbs gave it and
    it has not destroyed: verbs that fail leave none behind, and no memory is
    freed twice. *)
Theorem provider_handles (cs : list pcall) (p : P) : run_pcalls cs p (pv_live p).
Proof.
  revert p. induction cs as [|c cs IH]; intros p; [done|]. simpl. intros Hok. destruct (pcall_step c p Hok) as (r & p' & E & Hl). exists r, p'. split; [done|]. rewrite <-Hl. apply IH.
Qed.
End Handles.

(** ** The version and the key the driver shows *)

Lemma nibble k i : 0 <= i -> Z.land (Z.shiftr k (4 * i)) 15 = k / 2 ^ (4 * i) mod 16.
Proof. intros Hi. change 15 with (Z.ones 4). rewrite Z.land_ones, Z.shiftr_div_pow2 by lia. done. Qed.

Lemma nibble_step k i j : 0 <= i -> j = i + 1 -> 16 * (k / 2 ^ (4 * j)) + k / 2 ^ (4 * i) mod 16 = k / 2 ^ (4 * i).
Proof.
  intros Hi ->. replace (4 * (i + 1)) with (4 * i + 4) by lia. rewrite Z.pow_add_r by lia. rewrite <-Z.div_div by (try apply Z.pow_nonzero; lia).
  change (2 ^ 4) with 16. pose proof (Z.div_mod (k / 2 ^ (4 * i)) 16). lia.
Qed.

(** Digits that were printed are read back. *)
Lemma scan_hex_digits ds : forall acc some rest, Forall (fun d => 0 <= d < 16) ds -> 0 <= acc ->
  fold_left (fun a d => 16 * a + d) ds acc < 2 ^ 32 -> (some = true \/ ds <> []) ->
  scan_hex (length ds) ((hex_char <$> ds) ++ rest) acc some = Some (fold_left (fun a d => 16 * a + d) ds acc).
Proof.
  induction ds as [|d ds IH]; intros acc some rest Hd Ha Hb Hs; simpl in *; [by destruct Hs as [->|]|].
  inversion Hd as [|? ? Hd1 Hd2]; subst. rewrite hex_digit_value by done.
  assert (forall l a, Forall (fun d => 0 <= d < 16) l -> 0 <= a -> a <= fold_left (fun a d => 16 * a + d) l a) as Hmono.
  { clear. induction l as [|x l IH]; intros a Hl Ha; simpl; [lia|]. inversion Hl; subst. etransitivity; [|apply IH; [done|lia]]. lia. }
  pose proof (Hmono ds (16 * acc + d) Hd2 ltac:(lia)) as Hm.
  unfold u32. rewrite wrap_small by lia. apply IH; [done|lia|done|by left].
Qed.

(** The provider finds what the driver shows.  A device of this driver has the key that
    its file imm_data_lkey shows, devices of other drivers are refused, and the
    version of the firmware is taken apart the way the driver put it together. *)
Theorem provider_reads_device (k major minor sub : Z) (name : list Z)
    (Hk : 0 <= k < 2 ^ 32) (Hv : 0 <= major < 2 ^ 16 /\ 0 <= minor < 2 ^ 16 /\ 0 <= sub < 2 ^ 16) :
  pib_driver_init (Some name) true (Some (show_imm_data_lkey k)) = (if starts_with_pib name then Some k else None)
  /\ pib_query_device (0, Z.lor (Z.lor (Z.shiftl major 32) (Z.shiftl minor 16)) sub) = inr (major, minor, sub).
Proof.
  split.
  - unfold pib_driver_init. destruct (starts_with_pib name); [|done]. cbn [negb]. f_equal. unfold show_imm_data_lkey, scan_imm_data_lkey. cbn [app].
    set (ds := (fun i => Z.land (Z.shiftr k (4 * i)) 15) <$> [7; 6; 5; 4; 3; 2; 1; 0]).
    assert (fold_left (fun a d => 16 * a + d) ds 0 = k) as Hsum.
    { unfold ds. cbn [fmap list_fmap fold_left]. replace 0 with (k / 2 ^ (4 * 8)) at 1 by (apply Z.div_small; lia). rewrite !nibble by lia.
      rewrite (nibble_step k 7 8), (nibble_step k 6 7), (nibble_step k 5 6), (nibble_step k 4 5), (nibble_step k 3 4), (nibble_step k 2 3), (nibble_step k 1 2), (nibble_step k 0 1) by lia.
      by rewrite Z.div_1_r. }
    assert (Forall (fun d => 0 <= d < 16) ds) as Hds.
    { unfold ds. apply Forall_fmap, Forall_forall. intros i Hi. simpl. assert (0 <= i) by (repeat (apply elem_of_cons in Hi as [->|Hi]; [lia|]); by apply elem_of_nil in Hi).
      rewrite nibble by done. by apply Z.mod_pos_bound. }
    pose proof (scan_hex_digits ds 0 false [10] Hds ltac:(lia) ltac:(rewrite Hsum; lia) ltac:(by right)) as Hs. unfold ds in Hs at 1 2. rewrite length_fmap in Hs.
    rewrite <-list_fmap_compose in Hs. cbn [length] in Hs. unfold compose in Hs. rewrite Hs. by rewrite Hsum.
  - destruct Hv as (H1 & H2 & H3). unfold pib_query_device. cbn [Z.eqb negb]. change 0xffff with (Z.ones 16). rewrite !Z.land_ones, !Z.shiftr_div_pow2 by lia.
    rewrite lor_low by (rewrite ?Z.shiftl_mul_pow2; lia). rewrite (Z.shiftl_mul_pow2 minor) by lia.
    replace (major * 2 ^ 32 + minor * 2 ^ 16) with (Z.shiftl (major * 2 ^ 16 + minor) 16) by (rewrite Z.shiftl_mul_pow2; lia). rewrite lor_low by lia.
    set (x := _ + sub). assert (x / 2 ^ 32 = major) as -> by (symmetry; apply Z.div_unique with (minor * 2 ^ 16 + sub); unfold x; lia).
    assert (x / 2 ^ 16 = major * 2 ^ 16 + minor) as -> by (symmetry; apply Z.div_unique with sub; unfold x; lia).
    assert (x mod 2 ^ 16 = sub) as -> by (symmetry; apply Z.mod_unique with (major * 2 ^ 16 + minor); unfold x; lia).
    rewrite (Z.mod_small major) by lia. f_equal. f_equal. f_equal. symmetry. apply Z.mod_unique with major; lia.
Qed.

Lemma provider_reads_device_witness :
  pib_driver_init (Some [112; 105; 98; 95; 48]) true (Some (show_imm_data_lkey PIB_IMM_DATA_LKEY)) = Some PIB_IMM_DATA_LKEY
  /\ pib_query_device (0, Z.lor (Z.lor (Z.shiftl 0 32) (Z.shiftl 4 16)) 6) = inr (0, 4, 6).
Proof. apply (provider_reads_device PIB_IMM_DATA_LKEY 0 4 6 [112; 105; 98; 95; 48]); vm_compute; intuition discriminate. Defined.

(** ** Immediate data *)

Lemma bind_ext {S A B} (m : M S A) (k k' : A -> M S B) s : (forall a s', k a s' = k' a s') -> bind m k s = bind m k' s.
Proof. intros H. unfold bind. by destruct (m s) as [[? ?]|]. Qed.

(** No SGE with the reserved key: nothing is taken off. *)
Lemma split_imm_none sgl imm : Forall (fun sge => sge_lkey sge <> PIB_IMM_DATA_LKEY) sgl -> split_imm_sge sgl imm = (sgl, imm).
Proof.
  intros Hf. unfold split_imm_sge. destruct (List.find _ _) as [i|] eqn:E; [|done]. exfalso. apply List.find_some in E as [_ E].
  destruct (sgl !! i) as [sge|] eqn:Ei; [|done]. apply Z.eqb_eq in E. rewrite Forall_lookup in Hf. by apply (Hf i sge).
Qed.

(** The one in the last place is taken off, whatever is in front of it. *)
Lemma split_imm_last sgl imm a : split_imm_sge (sgl ++ [{| sge_addr := 0; sge_length := imm; sge_lkey := PIB_IMM_DATA_LKEY |}]) a = (sgl, imm).
Proof.
  unfold split_imm_sge. rewrite length_app, Nat.add_comm. cbn [length Nat.add]. rewrite seq_S, rev_app_distr. cbn [rev app List.find Nat.add].
  rewrite list_lookup_middle by done. cbn [sge_lkey]. rewrite Z.eqb_refl. rewrite list_lookup_middle by done. cbn [sge_length]. f_equal.
  rewrite take_app_length, (drop_ge _ (S (length sgl))) by (rewrite length_app; simpl; lia). apply app_nil_r.
Qed.

Section Imm.
Context {PP : Params} (copy_from_user : Z -> Z -> option (list Z)).
(** What the kernel puts in place of the immediate data. *)
Context (lost : ib_send_wr -> Z) (ibv_cmd_post_send : list ib_send_wr -> M st (Z * list ib_send_wr)).

Definition lossy (wr : ib_send_wr) : ib_send_wr :=
  {| swr_wr_id := swr_wr_id wr; swr_opcode := swr_opcode wr; swr_send_flags := swr_send_flags wr; swr_sg_list := swr_sg_list wr;
     swr_ex := lost wr; swr_wr := swr_wr wr |}.

(** A kernel that loses the immediate data on its way to the driver. *)
Definition lossy_kernel : Prop := forall wr s,
  ibv_cmd_post_send [wr] s = (let! (r, _) := Qp.pib_post_send copy_from_user [lossy wr] in ret (- r, if r =? 0 then [] else [wr])) s.

(** What the process means: requests with immediate data reach the driver as they are. *)
Definition meant (wr : ib_send_wr) : ib_send_wr := if swr_opcode wr =? IB_WR_SEND_WITH_IMM then wr else lossy wr.
Fixpoint post_meant (wrs : list ib_send_wr) : M st (Z * list ib_send_wr) :=
  match wrs with
  | [] => ret (0, [])
  | wr :: wrs' =>
      let! (r, _) := Qp.pib_post_send copy_from_user [meant wr] in
      if negb (r =? 0) then ret (- r, wrs) else post_meant wrs'
  end.

Definition no_reserved_key (wr : ib_send_wr) : Prop := swr_opcode wr = IB_WR_SEND_WITH_IMM -> Forall (fun sge => sge_lkey sge <> PIB_IMM_DATA_LKEY) (swr_sg_list wr).

(** The driver makes the same entry of the request with the extra SGE as of the request
    itself. *)
Lemma post_send_one_imm wr tl s : swr_opcode wr = IB_WR_SEND_WITH_IMM -> no_reserved_key wr ->
  post_send_one copy_from_user (lossy (with_imm PIB_IMM_DATA_LKEY wr)) tl s = post_send_one copy_from_user wr tl s.
Proof.
  intros Hop Hk. unfold post_send_one. apply bind_ext. intros q s1.
  assert (forall a, split_imm_sge (swr_sg_list (lossy (with_imm PIB_IMM_DATA_LKEY wr))) a = split_imm_sge (swr_sg_list wr) (swr_ex wr)) as ->.
  { intros a. rewrite (split_imm_none _ _ (Hk Hop)). unfold with_imm. rewrite Hop, Z.eqb_refl. apply split_imm_last. }
  assert (forall w, fill_wr q (lossy (with_imm PIB_IMM_DATA_LKEY wr)) w = fill_wr q wr w) as Hfill.
  { intros w. unfold fill_wr, with_imm. rewrite Hop, Z.eqb_refl. unfold lossy. cbn [negb swr_opcode swr_wr swr_ex]. by destruct (qp_type q). }
  assert (swr_opcode (lossy (with_imm PIB_IMM_DATA_LKEY wr)) = swr_opcode wr /\ swr_wr_id (lossy (with_imm PIB_IMM_DATA_LKEY wr)) = swr_wr_id wr
          /\ swr_send_flags (lossy (with_imm PIB_IMM_DATA_LKEY wr)) = swr_send_flags wr) as (-> & -> & ->) by (unfold with_imm; by rewrite Hop, Z.eqb_refl).
  destruct (split_imm_sge _ _) as [sgl imm]. destruct (_ || _); [done|]. destruct (rq_free (qp_requester q)) as [|id ?]; [done|]. apply bind_ext. intros [] s2.
  cbv zeta. destruct (PIB_MAX_PAYLOAD_LEN <? _); [done|]. apply bind_ext. intros [] s3. apply bind_ext. intros w s4. destruct (if has_flag _ _ then _ else _); [done|].
  apply bind_ext. intros [] s5. apply bind_ext. intros w' s6. by rewrite Hfill.
Qed.

Lemma post_send_imm wr s : swr_opcode wr = IB_WR_SEND_WITH_IMM -> no_reserved_key wr ->
  (let! (r, _) := Qp.pib_post_send copy_from_user [lossy (with_imm PIB_IMM_DATA_LKEY wr)] in ret r) s = (let! (r, _) := Qp.pib_post_send copy_from_user [wr] in ret r) s.
Proof.
  intros Hop Hk. set (wr' := lossy (with_imm PIB_IMM_DATA_LKEY wr)).
  assert (swr_opcode wr' = swr_opcode wr /\ swr_wr_id wr' = swr_wr_id wr) as [Ho Hi] by (unfold wr', with_imm; by rewrite Hop, Z.eqb_refl).
  unfold Qp.pib_post_send, post_send_loop, bind. destruct (the_qp s) as [[q s1]|]; [|done]. destruct (_ || _); [done|]. destruct (the_qp s1) as [[q1 s2]|]; [|done].
  rewrite Ho, Hi. destruct (qp_state q1); try done; try (by destruct (qp_insert_wc_error _ _ _ _ s2) as [[? ?]|]).
  all: unfold wr'; rewrite post_send_one_imm by done; destruct (post_send_one _ _ _ _) as [[[e|?] s3]|]; [| |done]; cbn [ret];
    by destruct (when _ _ s3) as [[? ?]|].
Qed.

Lemma post_send_meant wr s : no_reserved_key wr ->
  (let! (r, _) := Qp.pib_post_send copy_from_user [lossy (with_imm PIB_IMM_DATA_LKEY wr)] in ret r) s = (let! (r, _) := Qp.pib_post_send copy_from_user [meant wr] in ret r) s.
Proof.
  intros Hk. unfold meant. destruct (Z.eqb_spec (swr_opcode wr) IB_WR_SEND_WITH_IMM) as [Hop|Hop]; [by apply post_send_imm|].
  unfold with_imm. by rewrite (proj2 (Z.eqb_neq _ _) Hop).
Qed.

(** C25. Immediate data survives the kernel.  On a kernel that loses the immediate data of
    datagrams, a process that posts requests to a UD queue pair through the provider gets
    in the driver what it means: entries, results, and the request reported as
    refused are those of posting each request with its immediate data to the driver
    itself. *)
Theorem imm_data_survives (Hcmd : lossy_kernel) (wrs : list ib_send_wr) (Hk : Forall no_reserved_key wrs) (s : st) :
  pib_post_send ibv_cmd_post_send IB_QPT_UD PIB_IMM_DATA_LKEY wrs s = post_meant wrs s.
Proof.
  unfold pib_post_send. rewrite (bool_decide_eq_true_2 _ eq_refl). change (PIB_IMM_DATA_LKEY =? 0) with false. cbn [negb andb].
  revert s. induction Hk as [|wr wrs Hwr Hk IH]; intros s; [done|]. cbn [post_send_each post_meant].
  unfold ud_qp_post_send_with_imm. pose proof (post_send_meant wr s Hwr) as E. unfold bind in E |- *. rewrite Hcmd. unfold bind.
  destruct (Qp.pib_post_send _ [lossy _] s) as [[[r b] s1]|], (Qp.pib_post_send _ [meant wr] s) as [[[r2 b2] s2]|]; simplify_eq/=; [|done].
  destruct (Z.eqb_spec r2 0) as [->|Hr]; cbn [Z.opp Z.eqb negb]; [apply IH|]. by rewrite (proj2 (Z.eqb_neq _ _)) by lia.
Qed.
End Imm.

(** A kernel that puts 0 in place of the immediate data of a request. *)
Definition example_kernel {PP : Params} (wrs : list ib_send_wr) : M st (Z * list ib_send_wr) :=
  match wrs with
  | [wr] => let! (r, _) := Qp.pib_post_send (fun _ _ => None) [lossy (fun _ => 0) wr] in ret (- r, if r =? 0 then [] else [wr])
  | _ => ret (0, [])
  end.

Definition example_ud_st : st := demo_st <| st_qp ::= fun q => q <| qp_type := IB_QPT_UD |> |>.
Definition example_ud_wr (op : Z) : ib_send_wr :=
  {| swr_wr_id := 900; swr_opcode := op; swr_send_flags := 0; swr_sg_list := [{| sge_addr := 0x10010; sge_length := 100; sge_lkey := 0x100000 |}];
     swr_ex := 0xABCD0123; swr_wr := WrUd (Some (1, 1)) 9 0 0 1 |}.

Lemma imm_data_survives_witness :
  exists s', pib_post_send (@example_kernel demo_params) IB_QPT_UD PIB_IMM_DATA_LKEY [example_ud_wr IB_WR_SEND_WITH_IMM; example_ud_wr IB_WR_SEND] example_ud_st
             = Some ((0, []), s')
  /\ w_ex <$> (rq_swqes (qp_requester (st_qp s')) !! 0) = Some 0xABCD0123.
Proof.
  pose proof (@imm_data_survives demo_params (fun _ _ => None) (fun _ => 0) (@example_kernel demo_params) (fun wr s => eq_refl)
    [example_ud_wr IB_WR_SEND_WITH_IMM; example_ud_wr IB_WR_SEND]) as H. specialize (H ltac:(repeat constructor; intros; repeat constructor; discriminate) example_ud_st).
  eexists. split; [rewrite H; vm_compute; reflexivity|]. vm_compute. reflexivity.
Defined.
