(* ===== verification/FabricThm.v ===== *)
(** * HCAs and pibnetd together

    The parts of the other files composed: what an HCA hands to its socket, what pibnetd
    does with that datagram, and what an HCA does with the datagram pibnetd sends.  A
    datagram sent to an address is the one received there. *)

From S2P Require Import Prelude Verbs Lib ObjNum Cq Srq Mr Port SwitchSmp SwitchThm Pma Netd NetdThm State Sched Qp Packet Wire Rc RcRsp RcResp Ud Requester Hca Link Demo HcaThm LinkThm.

(** ** What an HCA sends *)

Section Send.
Context {PP : Params} (fb : fabric).

(** The packet at the start of the send buffer. *)
Definition packet_ready (h : hca) (pkt : list Z) : Prop :=
  let b := th_send_buffer (st_thread (hc_st h)) in
  exists rest, b = pkt ++ rest /\ pib_packet_lrh_get_pktlen (lrh_of b) * 4 = Zlen pkt
  /\ 0 < Zlen pkt /\ Zlen pkt + Link.FOOTER_SIZE <= Zlen b /\ Zlen b = Verbs.PIB_PACKET_BUFFER.

(** The port may send it, in a fabric with pibnetd at [na]; [gb] are the bytes of its GUID. *)
Definition can_send (h : hca) (na : Z) (gb : list Z) : Prop :=
  let t := st_thread (hc_st h) in
  fb_multi_host_mode fb = true /\ fb_netd_sockaddr fb = Some na /\ hc_results h = []
  /\ Lib.pib_is_unicast_lid (th_dlid t) = true /\ length gb = 8%nat
  /\ (th_src_qp_num t = Verbs.PIB_LINK_QP \/ th_slid t <> 0 /\ th_dlid t <> 0)
  /\ exists p sp, hc_ports h !! th_port_num t = Some p /\ st_ports (hc_st h) !! th_port_num t = Some sp
     /\ Link.port_guid sp = Some gb /\ may_send (hp_state p) (th_src_qp_num t) = true.

(** What sending changes: the buffer behind the packet, the counters of the port, and the
    thread is done with the packet. *)
Definition sent_from (h : hca) (na : Z) (pkt gb : list Z) (h' : hca) : Prop :=
  hc_sent h' = hc_sent h ++ [(na, pkt ++ gb)]
  /\ hc_qps h' = hc_qps h /\ hc_pds h' = hc_pds h /\ hc_lock h' = hc_lock h /\ hc_wq h' = hc_wq h /\ hc_timers h' = hc_timers h /\ hc_results h' = hc_results h
  /\ hc_st h' = (hc_st h) <| st_thread := st_thread (hc_st h') |> /\ th_ready_to_send (st_thread (hc_st h')) = false
  /\ exists f, hc_ports h' = alter f (th_port_num (st_thread (hc_st h))) (hc_ports h) /\ forall p, hp_state (f p) = hp_state p /\ hp_is_connected (f p) = hp_is_connected p.

Lemma buf_write_behind (pkt rest gb : list Z) : length gb = 8%nat -> (8 <= length rest)%nat ->
  take (length pkt + 8) (buf_write (pkt ++ rest) (Zlen pkt) gb) = pkt ++ gb.
Proof.
  intros Hg Hr. unfold buf_write, Zlen. rewrite Nat2Z.id, take_app_length, app_assoc, take_app_le by (rewrite length_app; lia). apply take_ge. rewrite length_app. lia.
Qed.

Lemma process_sendmsg_run h na pkt gb : packet_ready h pkt -> can_send h na gb -> exists h', process_sendmsg fb h = Some (tt, h') /\ sent_from h na pkt gb h'.
Proof.
  intros (rest & Hb & Hlen & Hpos & Hfit & Hsize) (Hm & Hn & Hres & Hu & Hg & Hsrc & p & sp & Hp & Hsp & Hgp & Hmay).
  unfold process_sendmsg. erewrite bind_run by reflexivity. cbv zeta. erewrite bind_run by (unfold the_hport, bind, get, of_option; rewrite Hp; reflexivity).
  erewrite bind_run by (unfold the_sport, bind, get, of_option; rewrite Hsp; reflexivity).
  replace (negb (_ =? PIB_QP0) && negb (_ =? PIB_LINK_QP) && _) with false.
  2:{ symmetry. destruct Hsrc as [-> | [H1 H2]]; [done|].
      rewrite (proj2 (Z.eqb_neq _ _) H1), (proj2 (Z.eqb_neq _ _) H2). by rewrite andb_false_r. }
  rewrite Hmay. cbn [negb]. rewrite Hlen. unfold Link.FOOTER_SIZE, Verbs.PIB_PACKET_BUFFER in *.
  rewrite (proj2 (Z.eqb_neq _ _)), (proj2 (Z.ltb_ge _ _)) by lia. cbn [orb].
  erewrite bind_run by (rewrite Hgp; reflexivity). rewrite (proj2 (Z.ltb_ge _ _)) by lia. erewrite bind_run by reflexivity. erewrite bind_run by reflexivity.
  unfold get_sockaddr_from_dlid. rewrite Hm, Hn. erewrite bind_run by reflexivity.
  set (bytes := take _ _). assert (bytes = pkt ++ gb) as Hbytes.
  { unfold bytes. rewrite Hb. replace (Z.to_nat (Zlen pkt + 8)) with (length pkt + 8)%nat by (unfold Zlen; lia). apply buf_write_behind; [done|].
    rewrite Hb, Zlen_app in Hfit. unfold Zlen in Hfit. lia. }
  clearbody bytes. subst bytes. set (h1 := set_field _ _ h). assert (hc_results h1 = []) as Hr1 by exact Hres.
  erewrite bind_run by (unfold kernel_sendmsg, bind, get; rewrite Hr1; reflexivity). rewrite (proj2 (Z.ltb_ge _ _)) by apply Zlen_nonneg.
  erewrite bind_run by reflexivity. rewrite Hu. eexists. split; [reflexivity|]. split_and!; try done.
  eexists (fun p => _). split; [reflexivity|]. done.
Qed.
End Send.

(** ** The link comes up *)

(** A link packet: local route header and command, and the GUID of the port behind it. *)
Definition link_lrh : pib_packet_lrh :=
  {| lrh_dlid := Verbs.PIB_LID_PERMISSIVE; lrh_vl_lver := 0; lrh_sl_rsv_lnh := 0; lrh_slid := Verbs.PIB_LID_PERMISSIVE; lrh_pktlen := 3 |}.
Definition link_packet (cmd : Z) : list Z := lrh_bytes link_lrh ++ be_split 4 cmd.

Lemma link_packet_datagram cmd gb : length gb = 8%nat -> be_combine gb <> 0 -> 0 <= cmd < 2 ^ 32 -> link_datagram (link_packet cmd ++ gb) (be_combine gb) cmd.
Proof.
  intros Hl Hg Hc. assert (length (link_packet cmd ++ gb) = 20%nat) as Hlen by (rewrite length_app, Hl; reflexivity).
  unfold link_datagram. rewrite Hlen. split_and!; [vm_compute; lia|vm_compute; lia| |done| |].
  - change (be_get _ _) with (be_combine (take 8 (drop 12 (link_packet cmd ++ gb)))). change 12%nat with (length (link_packet cmd)) at 1.
    rewrite drop_app_length. by rewrite take_ge by lia.
  - change (take (20 - Netd.FOOTER_SIZE) (link_packet cmd ++ gb)) with (link_packet cmd). eexists. by split.
  - change (be_get (Fld 8 4) (link_packet cmd ++ gb)) with (be_combine (be_split 4 cmd)). by apply be_combine_split.
Qed.

Lemma link_packet_ack cmd cmd' gb : be_set (Fld 8 4) cmd' (link_packet cmd ++ gb) = link_packet cmd' ++ gb.
Proof. reflexivity. Qed.

Section Connect.
Context {PP : Params} (fb : fabric).

(** The packet asking for a connection, or giving it up. *)
Lemma send_raw_run h na gb port_num disc p sp : fb_multi_host_mode fb = true -> fb_netd_sockaddr fb = Some na -> hc_results h = [] ->
  Zlen (th_send_buffer (st_thread (hc_st h))) = Verbs.PIB_PACKET_BUFFER -> hc_ports h !! port_num = Some p -> st_ports (hc_st h) !! port_num = Some sp ->
  Link.port_guid sp = Some gb -> length gb = 8%nat -> may_send (hp_state p) PIB_LINK_QP = true ->
  exists h', send_raw_packet_to_pibnetd fb port_num disc h = Some (tt, h')
  /\ hc_sent h' = hc_sent h ++ [(na, link_packet (if disc then Link.PIB_LINK_CMD_DISCONNECT else Link.PIB_LINK_CMD_CONNECT) ++ gb)]
  /\ hc_wq h' = hc_wq h /\ hc_timers h' = hc_timers h /\ st_now (hc_st h') = st_now (hc_st h) /\ exists f, hc_ports h' = alter f port_num (hc_ports h).
Proof.
  intros Hm Hn Hres Hb Hp Hsp Hgb Hl Hmay. unfold send_raw_packet_to_pibnetd. set (cmd := if disc then _ else _).
  set (h1 := h <| hc_st ::= fun s => s <| st_thread ::= fun t => t <| th_send_buffer := buf_write (th_send_buffer t) 0 (link_packet cmd) |> <| th_port_num := port_num |>
    <| th_src_qp_num := PIB_LINK_QP |> <| th_slid := Verbs.PIB_LID_PERMISSIVE |> <| th_dlid := Verbs.PIB_LID_PERMISSIVE |> <| th_ready_to_send := true |> |> |>).
  assert (packet_ready h1 (link_packet cmd)) as Hready.
  { unfold packet_ready. change (th_send_buffer (st_thread (hc_st h1))) with (link_packet cmd ++ drop 12 (th_send_buffer (st_thread (hc_st h)))).
    eexists. split; [reflexivity|]. split; [reflexivity|]. unfold Verbs.PIB_PACKET_BUFFER, Link.FOOTER_SIZE in *. rewrite Zlen_app. change (Zlen (link_packet cmd)) with 12.
    unfold Zlen in *. rewrite length_drop. lia. }
  destruct (process_sendmsg_run fb h1 na (link_packet cmd) gb Hready) as (h' & E & Hs).
  { split_and!; try done; [by left|]. exists p, sp. done. }
  destruct Hs as (Hsent & _ & _ & _ & Hwq & Htm & _ & Hst & _ & f & Hports & _). exists h'. split; [erewrite bind_run by reflexivity; exact E|].
  split_and!; [done..|by rewrite Hst|by exists f].
Qed.

(** The answer of pibnetd brings the port up. *)
Lemma receive_ack_run h gb port_num : length gb = 8%nat ->
  exists h', process_incoming_message fb port_num (link_packet Link.PIB_LINK_CMD_CONNECT_ACK ++ gb) h = Some (tt, h')
  /\ hc_ports h' = alter (fun p => link_up (p <| hp_rcv_packets := u64 (hp_rcv_packets p + 1) |> <| hp_rcv_data := u64 (hp_rcv_data p + 20) |>)) port_num (hc_ports h).
Proof.
  intros Hl. unfold process_incoming_message. assert (Zlen (link_packet Link.PIB_LINK_CMD_CONNECT_ACK ++ gb) = 20) as Hlen by (rewrite Zlen_app; unfold Zlen at 2; rewrite Hl; reflexivity).
  rewrite Hlen. change (20 <? Link.FOOTER_SIZE) with false. cbv iota zeta. erewrite bind_run by reflexivity.
  change (take (Z.to_nat (20 - Link.FOOTER_SIZE)) (link_packet Link.PIB_LINK_CMD_CONNECT_ACK ++ gb)) with (link_packet Link.PIB_LINK_CMD_CONNECT_ACK).
  assert (pib_parse_packet_header (link_packet Link.PIB_LINK_CMD_CONNECT_ACK) = inr {| pr_ret := 8; pr_lrh := link_lrh; pr_grh := None; pr_bth := None |}) as -> by (by vm_compute).
  cbn [pr_bth pr_ret]. change (drop (Z.to_nat 8) (link_packet Link.PIB_LINK_CMD_CONNECT_ACK)) with [0; 0; 0; 2].
  change (Link.process_raw_packet port_num [0; 0; 0; 2]) with (upd_hport port_num link_up). eexists. split; [reflexivity|]. apply map_eq. intros j. simpl.
  destruct (decide (j = port_num)) as [->|Hj]; [|by rewrite !lookup_alter_ne]. rewrite !lookup_alter_eq. by destruct (hc_ports h !! port_num).
Qed.

Lemma connect_run h na gb port_num p sp : fb_multi_host_mode fb = true -> fb_netd_sockaddr fb = Some na -> hc_results h = [] ->
  Zlen (th_send_buffer (st_thread (hc_st h))) = Verbs.PIB_PACKET_BUFFER -> hc_ports h !! port_num = Some p -> st_ports (hc_st h) !! port_num = Some sp ->
  Link.port_guid sp = Some gb -> length gb = 8%nat -> may_send (hp_state p) PIB_LINK_QP = true -> on_list h (WorkLink port_num) = false ->
  exists h', connect_pibnetd fb port_num h = Some (tt, h') /\ hc_sent h' = hc_sent h ++ [(na, link_packet Link.PIB_LINK_CMD_CONNECT ++ gb)]
  /\ is_Some (hc_ports h' !! port_num) /\ hc_timers h' = hc_timers h ++ [(WorkLink port_num, u64 (st_now (hc_st h) + 60 * HZ))].
Proof.
  intros Hm Hn Hres Hb Hp Hsp Hgb Hl Hmay Hlist.
  destruct (send_raw_run h na gb port_num false p sp Hm Hn Hres Hb Hp Hsp Hgb Hl Hmay) as (h2 & E & Hsent & Hwq & Htm & Hnow & f & Hports).
  unfold connect_pibnetd. erewrite bind_run by exact E.
  assert (on_list h2 (WorkLink port_num) = false) as Hl2 by (unfold on_list in *; rewrite Hwq, Htm; exact Hlist).
  unfold pib_queue_delayed_work. erewrite bind_run by reflexivity. rewrite Hl2. erewrite bind_run by reflexivity. eexists. split; [reflexivity|]. simpl.
  rewrite Hsent, Hports, Htm, Hnow. split_and!; [done| |done]. rewrite lookup_alter_eq, Hp. eauto.
Qed.
End Connect.

(** The port of the switch that a GUID is connected to. *)
Lemma find_guid_connected s guid i q : table_ok s -> 1 <= i < PIB_MAX_PORTS -> guid <> 0 -> nt_peers s !! Z.to_nat i = Some q -> pe_guid q = guid ->
  find_guid (nt_peers s) guid (ext_ports (nt_sw s)) = i.
Proof.
  intros Hok Hi Hg Hq Hqg. destruct (decide (find_guid (nt_peers s) guid (ext_ports (nt_sw s)) = 0)) as [E|E].
  - exfalso. by apply (find_guid_none s guid Hok Hg E (Z.to_nat i) q Hq).
  - destruct (find_guid_port s guid Hok E) as (Hr & q' & Hq' & Hg'). destruct Hok as [_ (_ & _ & _ & H4)].
    assert (Z.to_nat (find_guid (nt_peers s) guid (ext_ports (nt_sw s))) = Z.to_nat i) by (eapply H4; [exact Hq'|exact Hq|congruence|congruence]). lia.
Qed.

(** C24. The link of a port to pibnetd comes up.  A port of an HCA that asks pibnetd for a
    connection sends one packet; pibnetd, when it has a port for the GUID or a free one,
    notes the GUID and the address there, puts its port into the state INIT, and
    answers to the address; the answer puts the port of the HCA into the state
    INIT, connected; and pibnetd knows the packets of the GUID by that port from then on. *)
Theorem link_comes_up {PP : Params} (fb : fabric) (g : Z) (fuel : nat) (h : hca) (s : netd) (na port_num : Z) (a : sockaddr) (gb : list Z)
    (p : hca_port) (sp : State.pib_port) (p0 : Port.pib_port)
    (Hfb : fb_multi_host_mode fb = true /\ fb_netd_sockaddr fb = Some na) (Hres : hc_results h = [])
    (Hb : Zlen (th_send_buffer (st_thread (hc_st h))) = Verbs.PIB_PACKET_BUFFER) (Hp : hc_ports h !! port_num = Some p)
    (Hsp : st_ports (hc_st h) !! port_num = Some sp) (Hgb : Link.port_guid sp = Some gb /\ length gb = 8%nat /\ be_combine gb <> 0)
    (Hdown : hp_state p = Link.IB_PORT_DOWN) (Hlist : on_list h (WorkLink port_num) = false)
    (Ha : forall f, a <> SaOther f) (Hnres : nt_results s = []) (Hok : table_ok s) (Hsw : sw_ok (nt_sw s)) (Hp0 : port_at (nt_sw s) 0 = Some p0)
    (Hsm : pa_sm_lid (po_attr p0) < PIB_MCAST_LID_BASE) (Hfree : port_for s (be_combine gb) <> 0) :
  let guid := be_combine gb in
  let i := port_for s guid in
  exists h1 s1 h2 request answer trap p2,
    connect_pibnetd fb port_num h = Some (tt, h1) /\ hc_sent h1 = hc_sent h ++ [(na, request)]
    /\ Netd.receive_packet g fuel [SysOk (a, request)] s = Some (Next tt, s1) /\ nt_sent s1 = nt_sent s ++ (a, answer) :: trap
    /\ find_guid (nt_peers s1) guid (ext_ports (nt_sw s1)) = i /\ (pe_addr <$> peer_at s1 i) = Some (Some a)
    /\ process_incoming_message fb port_num answer h1 = Some (tt, h2)
    /\ hc_ports h2 !! port_num = Some p2 /\ hp_state p2 = Link.IB_PORT_INIT /\ hp_is_connected p2 = true.
Proof.
  intros guid i. destruct Hfb as [Hm Hn], Hgb as (Hg & Hl & Hg0).
  destruct (connect_run fb h na gb port_num p sp Hm Hn Hres Hb Hp Hsp Hg Hl) as (h1 & E1 & Hsent & [p1 Hp1] & _); [by rewrite Hdown|done|].
  pose proof (link_packet_datagram Link.PIB_LINK_CMD_CONNECT gb Hl Hg0 ltac:(done)) as Hd.
  pose proof (connect_assigns_port g fuel s a _ guid p0 Hd Ha Hnres Hok Hsw Hp0 Hsm) as Hn1. cbv zeta in Hn1. fold i in Hn1.
  destruct (port_for_range s guid Hok Hfree) as [Hir [q Hq]]. fold i in Hir, Hq. rewrite (proj2 (Z.eqb_neq i 0)) in Hn1 by exact Hfree. destruct Hn1 as (s1 & trap & E2 & Hpeers & Hsw1 & Hsent1 & _).
  rewrite link_packet_ack in Hsent1. destruct (receive_ack_run fb h1 gb port_num Hl) as (h2 & E3 & Hports).
  eexists h1, s1, h2, _, _, trap, _. split_and!; [exact E1|exact Hsent|exact E2|exact Hsent1| | |exact E3|by rewrite Hports, lookup_alter_eq, Hp1|done|done].
  - apply find_guid_connected with {| pe_guid := guid; pe_addr := Some a |}; [|done|done| |done].
    + split; [rewrite Hsw1; apply Hok|]. rewrite Hpeers. by apply port_for_connect.
    + rewrite Hpeers. apply list_lookup_insert_eq. by eapply lookup_lt_Some.
  - unfold peer_at. rewrite (proj2 (Z.leb_le 0 i)), Hpeers by lia. rewrite list_lookup_insert_eq; [done|]. by eapply lookup_lt_Some.
Qed.

(** ** Witnesses *)

#[local] Existing Instance demo_params.

Definition multi_host : fabric := {| fb_multi_host_mode := true; fb_netd_sockaddr := Some 77; fb_lid_table := empty; fb_easy_sw_sockaddr := None |}.
Definition link_hport : hca_port := demo_hport <| hp_state := Link.IB_PORT_DOWN |>.
Definition link_gid : list Z := replicate 8 0 ++ [0; 0; 0; 0; 0; 0; 0; 0x33].
Definition link_sport : State.pib_port :=
  {| port_lid := 1; port_active_mtu := IB_MTU_4096; port_pkey_table := [0xFFFF]; port_gid0_prefix := []; port_gids := [link_gid] |}.
Definition link_hca : hca :=
  demo_hca <| hc_ports := {[ 1 := link_hport ]} |>
    <| hc_st ::= fun s => s <| st_ports := {[ 1 := link_sport ]} |> <| st_thread ::= fun t => t <| th_send_buffer := replicate (Z.to_nat 8192) 0 |> |> |>.

Lemma link_comes_up_witness : exists h1 s1 h2 request answer trap p2,
  connect_pibnetd multi_host 1 link_hca = Some (tt, h1) /\ hc_sent h1 = [(77, request)]
  /\ Netd.receive_packet 0 0 [SysOk (SaIn 3 3, request)] demo_netd = Some (Next tt, s1) /\ nt_sent s1 = (SaIn 3 3, answer) :: trap
  /\ process_incoming_message multi_host 1 answer h1 = Some (tt, h2) /\ hc_ports h2 !! 1 = Some p2 /\ hp_state p2 = Link.IB_PORT_INIT.
Proof.
  destruct (link_comes_up multi_host 0 0 link_hca demo_netd 77 1 (SaIn 3 3) [0; 0; 0; 0; 0; 0; 0; 0x33] link_hport link_sport demo_p0)
    as (h1 & s1 & h2 & request & answer & trap & p2 & E1 & E2 & E3 & E4 & _ & _ & E5 & E6 & E7 & _); try done.
  - exact demo_table_ok.
  - exact demo_netd_sw_ok.
  - exists h1, s1, h2, request, answer, trap, p2. split; [exact E1|]. split; [exact E2|]. split; [exact E3|]. split; [exact E4|]. split; [exact E5|]. split; [exact E6|exact E7].
Defined.
