(* ===== verification/Transit.v ===== *)
(** * A packet on its way

    What every packet between two devices goes through, whatever the queue pair: the
    headers and the body in the send buffer, the thread of the device that sends it to
    pibnetd, pibnetd that forwards it by its LID, and the thread of the other device that
    finds the queue pair it is for. *)

From S2P Require Import Prelude Verbs Lib ObjNum Cq Srq Mr Port SwitchSmp SwitchThm Pma Netd NetdThm State Sched Qp QpInv Packet Wire Rc RcRsp RcResp Ud UdThm Requester RequesterThm Hca Frame HcaThm Link LinkThm Demo FabricThm.

(** ** Writing to the buffer *)

Lemma buf_write_at (l k bytes : list Z) : buf_write (l ++ k) (Zlen l) bytes = l ++ bytes ++ drop (length bytes) k.
Proof. unfold buf_write, Zlen. rewrite Nat2Z.id, take_app_length. f_equal. f_equal. by rewrite drop_app_add. Qed.

Lemma buf_write_hdr (h h' k : list Z) : length h = length h' -> buf_write (h ++ k) 0 h' = h' ++ k.
Proof. intros Hl. unfold buf_write. change (Z.to_nat 0) with 0%nat. rewrite take_0. cbn [app Nat.add]. f_equal. by rewrite <-Hl, drop_app_length. Qed.

(** A state whose send buffer is [b]. *)
Definition with_buf (s : st) (b : list Z) : st := s <| st_thread ::= fun t => t <| th_send_buffer := b |> |>.

(** The bytes a work queue entry names, and whether immediate data goes with them. *)
Definition wqe_payload (s : st) (w : pib_send_wqe) : list Z := st_mem s <$> slice 0 (w_total_length w) (sgl_addrs (st_pd s) (w_sge_array w)).
Definition wqe_imm (w : pib_send_wqe) : bool := w_opcode w =? IB_WR_SEND_WITH_IMM.

Lemma Zlen_wqe_payload s w : Forall (sge_ok (st_pd s) 0) (w_sge_array w) -> 0 <= w_total_length w -> w_total_length w <= sgl_length (w_sge_array w) -> Zlen (wqe_payload s w) = w_total_length w.
Proof.
  intros Hok Hl Hs. unfold wqe_payload, slice, Zlen. rewrite length_fmap, length_take, length_drop. pose proof (Zlen_sgl_addrs (st_pd s) 0 (w_sge_array w) Hok) as H. unfold Zlen in H. lia.
Qed.

(** The buffer once its start was cleared: room for the headers, and what is behind. *)
Lemma cleared_split (b : list Z) n : Zlen b = Verbs.PIB_PACKET_BUFFER -> 0 <= n <= 72 ->
  exists h k, buf_write b 0 (replicate (Z.to_nat n) 0) = h ++ k /\ length h = 20%nat /\ length k = Z.to_nat 8172.
Proof.
  intros Hb Hn. unfold Verbs.PIB_PACKET_BUFFER in Hb. set (b1 := buf_write b 0 _). assert (length b1 = Z.to_nat 8192) as Hl.
  { assert (Zlen b1 = Zlen b) as H by (apply Zlen_buf_write; [lia|unfold Zlen in *; rewrite length_replicate; lia]). unfold Zlen in H, Hb. lia. }
  exists (take 20 b1), (drop 20 b1). by rewrite take_drop, length_take, length_drop, Hl.
Qed.

Section Build.
Context {PP : Params}.

Lemma send_buffer_run s b : send_buffer (with_buf s b) = Some (b, with_buf s b).
Proof. done. Qed.
Lemma put_hdrs_run s b h : put_hdrs h (with_buf s b) = Some (tt, with_buf s (buf_write b 0 (hdrs_bytes h))).
Proof. done. Qed.
Lemma put_at_run s b pos bytes : put_at pos bytes (with_buf s b) = Some (pos + Zlen bytes, with_buf s (buf_write b pos bytes)).
Proof. done. Qed.
Lemma put_payload_run s (l k : list Z) w : has_flag (w_send_flags w) IB_SEND_INLINE = false -> Forall (sge_ok (st_pd s) 0) (w_sge_array w) ->
  0 < w_total_length w <= PIB_MAX_PAYLOAD_LEN -> w_total_length w <= sgl_length (w_sge_array w) -> w_total_length w <= Zlen k ->
  put_payload w (Zlen l) 0 (w_total_length w) (with_buf s (l ++ k))
  = Some (IB_WC_SUCCESS, with_buf s (l ++ (st_mem s <$> slice 0 (w_total_length w) (sgl_addrs (st_pd s) (w_sge_array w))) ++ drop (Z.to_nat (w_total_length w)) k)).
Proof.
  intros Hin Hok Hn Hl Hk. assert (PIB_MAX_PAYLOAD_LEN < 2 ^ 63) as Hmax by done. unfold put_payload. rewrite (proj2 (Z.eqb_neq _ _)), Hin by lia.
  erewrite bind_run by reflexivity. cbv zeta. change (th_send_buffer (st_thread (with_buf s (l ++ k)))) with (l ++ k).
  change (st_pd (with_buf s (l ++ k))) with (st_pd s). change (st_mem (with_buf s (l ++ k))) with (st_mem s).
  unfold Zlen at 1 2. rewrite Nat2Z.id, drop_app_length, take_app_length.
  rewrite (gather_exact (st_pd s) (w_sge_array w) (st_mem s) k 0 (w_total_length w) 0) by (done || lia). reflexivity.
Qed.

(** ** The packet *)

(** The headers, for [len] bytes behind them. *)
Definition pad_of (len : Z) : Z := (- len) mod 4.
Definition pkt_lrh (ah : ib_ah_attr) (slid len : Z) : pib_packet_lrh :=
  {| lrh_dlid := ah_dlid ah; lrh_vl_lver := 0; lrh_sl_rsv_lnh := u8 (Z.lor (Z.shiftl (ah_sl ah) 4) 2); lrh_slid := slid; lrh_pktlen := (20 + len + pad_of len + 4) / 4 |}.
Definition pkt_bth (op pkey qpn psn len : Z) (solicited : bool) : pib_packet_bth :=
  pib_packet_bth_set_solicited (pib_packet_bth_set_padcnt
    {| bth_OpCode := op; bth_se_m_padcnt_tver := 0; bth_pkey := pkey; bth_destQP := u32 qpn; bth_psn := Z.land (u32 psn) PIB_PSN_MASK |} (pad_of len)) solicited.
(** Without a global route header, and with [tail] behind the body. *)
Definition pkt_of (ah : ib_ah_attr) (slid op pkey qpn psn : Z) (solicited : bool) (body tail : list Z) : list Z :=
  packet_bytes (pkt_lrh ah slid (Zlen body)) None (pkt_bth op pkey qpn psn (Zlen body) solicited) (body ++ tail).

Lemma pad_of_range len : 0 <= pad_of len < 4 /\ (len + pad_of len) mod 4 = 0.
Proof. unfold pad_of. split; [by apply Z.mod_pos_bound|]. by rewrite Z.add_mod_idemp_r, Z.add_opp_diag_r by lia. Qed.

(** (packet_length + 3) & ~3 *)
Lemma fix_length n : 0 <= n < 8192 -> Z.land (u32 (n + 3)) (Z.lnot 3) = n + pad_of n.
Proof.
  intros Hn. unfold u32. rewrite wrap_small by lia. change 3 with (Z.ones 2) at 2. rewrite <-Z.ldiff_land, Z.ldiff_ones_r by lia.
  rewrite Z.shiftr_div_pow2, Z.shiftl_mul_pow2 by lia. unfold pad_of. change (2 ^ 2) with 4.
  assert (exists k r, n = 4 * k + r /\ (r = 0 \/ r = 1 \/ r = 2 \/ r = 3)) as (k & r & -> & Hr) by (exists (n / 4), (n mod 4); pose proof (Z.div_mod n 4); pose proof (Z.mod_pos_bound n 4); lia).
  destruct Hr as [-> | [-> | [-> | ->]]]; Z.to_euclidean_division_equations; lia.
Qed.

Lemma pad_of_20 len : pad_of (20 + len) = pad_of len.
Proof. unfold pad_of. replace (- (20 + len)) with (- len + (-5) * 4) by lia. apply Z.mod_add. lia. Qed.

Lemma length_hdrs h : h_grh h = None -> length (hdrs_bytes h) = 20%nat.
Proof. intros Hg. unfold hdrs_bytes, packet_bytes. rewrite Hg. reflexivity. Qed.

(** The headers as they are finished. *)
Lemma finish_run s ah slid op pkey qpn psn len sol (k : list Z) h : 0 <= len < 4200 -> length h = 20%nat ->
  finish_packet {| h_lrh := {| lrh_dlid := ah_dlid ah; lrh_vl_lver := 0; lrh_sl_rsv_lnh := u8 (Z.lor (Z.shiftl (ah_sl ah) 4) 2); lrh_slid := slid; lrh_pktlen := 0 |};
                   h_grh := None;
                   h_bth := {| bth_OpCode := op; bth_se_m_padcnt_tver := 0; bth_pkey := pkey; bth_destQP := u32 qpn; bth_psn := Z.land (u32 psn) PIB_PSN_MASK |} |} (20 + len) sol (with_buf s (h ++ k))
  = Some (tt, with_buf s (packet_bytes (pkt_lrh ah slid len) None (pkt_bth op pkey qpn psn len sol) [] ++ k)).
Proof.
  intros Hlen Hh. unfold finish_packet. rewrite fix_length by lia. rewrite pad_of_20. destruct (pad_of_range len) as [Hp Hm].
  rewrite put_hdrs_run. do 2 f_equal. f_equal. rewrite buf_write_hdr by (rewrite length_hdrs; done). f_equal. unfold hdrs_bytes. cbn [h_lrh h_grh h_bth]. f_equal.
  - unfold pib_packet_lrh_set_pktlen, pkt_lrh, set_field. cbn [lrh_pktlen lrh_dlid]. simpl. f_equal. unfold u16. rewrite wrap_small by (Z.to_euclidean_division_equations; lia).
    change 0x7FF with (Z.ones 11). rewrite Z.land_ones by lia. apply Z.mod_small. Z.to_euclidean_division_equations; lia.
  - unfold pkt_bth. do 2 f_equal. unfold u8. rewrite wrap_small by lia. lia.
Qed.

Lemma get_swqe_run s id w : rq_swqes (qp_requester (st_qp s)) !! id = Some w -> get_swqe id s = Some (w, s).
Proof. intros Hw. unfold get_swqe, the_req, gets, bind, of_option. by rewrite Hw. Qed.

(** What the thread is told about the packet in its buffer. *)
Definition thread_has (t : pib_thread) (b : list Z) (port_num slid dlid src : Z) : Prop :=
  th_send_buffer t = b /\ th_port_num t = port_num /\ th_slid t = slid /\ th_dlid t = dlid /\ th_src_qp_num t = src /\ th_ready_to_send t = true.

End Build.

(** ** What the headers say *)

Lemma pkt_lrh_facts ah slid len : 0 <= ah_dlid ah < 2 ^ 16 -> 0 <= slid < 2 ^ 16 -> 0 <= len < 4200 ->
  let l := pkt_lrh ah slid len in
  lrh_ok l /\ Z.land (lrh_vl_lver l) 0xF = 0 /\ Z.land (lrh_sl_rsv_lnh l) 0x3 = 2 /\ pib_packet_lrh_get_pktlen l * 4 = 20 + len + pad_of len + 4.
Proof.
  intros Hd Hs Hlen l. destruct (pad_of_range len) as [Hp Hm]. apply Z.mod_divide in Hm as [k Hk]; [|lia].
  assert (lrh_pktlen l = 6 + k) as Hpk by (unfold l, pkt_lrh; simpl; replace (20 + len + pad_of len + 4) with ((6 + k) * 4) by lia; by apply Z.div_mul).
  assert (lrh_sl_rsv_lnh l = (ah_sl ah * 16 + 2) mod 256) as Hsl by (unfold l, pkt_lrh; simpl; by rewrite lor_low by lia).
  split_and!; [|done| |].
  - unfold lrh_ok, byte_ok. rewrite Hpk, Hsl. pose proof (Z.mod_pos_bound (ah_sl ah * 16 + 2) 256). simpl. lia.
  - rewrite Hsl. change 3 with (Z.ones 2). rewrite Z.land_ones by lia. Z.to_euclidean_division_equations; lia.
  - unfold pib_packet_lrh_get_pktlen. rewrite Hpk. change 0x7FF with (Z.ones 11). rewrite Z.land_ones, Z.mod_small by lia. lia.
Qed.

Lemma pkt_bth_facts op pkey qpn psn len sol : byte_ok op -> 0 <= pkey < 2 ^ 16 -> 0 <= qpn < 2 ^ 24 ->
  let b := pkt_bth op pkey qpn psn len sol in
  bth_ok b /\ pib_packet_bth_get_padcnt b = pad_of len /\ bth_destQP b = qpn /\ bth_pkey b = pkey /\ has_flag (bth_psn b) 0x80000000 = false
  /\ bth_OpCode b = op /\ bth_psn b = Z.land (u32 psn) PIB_PSN_MASK.
Proof.
  intros Hop Hpk Hq b. destruct (bth_bit_fields {| bth_OpCode := op; bth_se_m_padcnt_tver := 0; bth_pkey := pkey; bth_destQP := u32 qpn; bth_psn := Z.land (u32 psn) PIB_PSN_MASK |}
    (pad_of len) sol) as (H1 & _ & H2 & _ & H3 & H4); [done|apply pad_of_range|].
  change (pib_packet_bth_set_solicited _ _) with b in H1, H2, H3, H4. cbn [bth_OpCode bth_psn] in H3, H4.
  assert (bth_destQP b = qpn) as Hqp by (change (u32 qpn = qpn); apply Z.mod_small; lia).
  assert (0 <= bth_psn b < 2 ^ 24) as Hpsn by (rewrite H4; change PIB_PSN_MASK with (Z.ones 24); rewrite Z.land_ones by lia; by apply Z.mod_pos_bound).
  split; [|split_and!; [exact H1|exact Hqp|done| |exact H3|exact H4]].
  - unfold bth_ok. rewrite Hqp, H3. split; [exact Hop|]. split; [exact H2|]. split; [exact Hpk|lia].
  - unfold has_flag. change 0x80000000 with (Z.shiftl 1 31). rewrite Z.land_comm, land_low by lia. done.
Qed.

(** ** The packet as a whole *)

Section Packet.
Variables (ah : ib_ah_attr) (slid op pkey qpn psn : Z) (sol : bool) (body : list Z).
Hypothesis Hop : byte_ok op.
Hypothesis Hdlid : 0 < ah_dlid ah < PIB_MCAST_LID_BASE.
Hypothesis Hslid : 0 < slid < 2 ^ 16.
Hypothesis Hpkey : 0 <= pkey < 2 ^ 16.
Hypothesis Hqpn : 0 <= qpn < 2 ^ 24.
Hypothesis Hlen : 0 < Zlen body <= 4108.

Let lrh := pkt_lrh ah slid (Zlen body).
Let bth := pkt_bth op pkey qpn psn (Zlen body) sol.
Let pkt (tail : list Z) := pkt_of ah slid op pkey qpn psn sol body tail.

Lemma pkt_headers : (lrh_ok lrh /\ Z.land (lrh_vl_lver lrh) 0xF = 0 /\ Z.land (lrh_sl_rsv_lnh lrh) 0x3 = 2 /\ pib_packet_lrh_get_pktlen lrh * 4 = 20 + Zlen body + pad_of (Zlen body) + 4)
  /\ bth_ok bth /\ pib_packet_bth_get_padcnt bth = pad_of (Zlen body) /\ bth_destQP bth = qpn /\ bth_pkey bth = pkey /\ has_flag (bth_psn bth) 0x80000000 = false
  /\ bth_OpCode bth = op /\ bth_psn bth = Z.land (u32 psn) PIB_PSN_MASK.
Proof. change PIB_MCAST_LID_BASE with 49152 in Hdlid. split; [apply pkt_lrh_facts; lia|by apply pkt_bth_facts]. Qed.

Lemma Zlen_pkt tail : Zlen (pkt tail) = 20 + Zlen body + Zlen tail.
Proof. unfold pkt, pkt_of, packet_bytes. rewrite !Zlen_app. change (Zlen (lrh_bytes _)) with 8. change (Zlen []) with 0. change (Zlen (bth_bytes _)) with 12. lia. Qed.

Lemma lrh_of_pkt tail : lrh_of (pkt tail) = lrh.
Proof. unfold pkt, pkt_of, packet_bytes. apply lrh_roundtrip, pkt_headers. Qed.

(** The sending side: the packet in the buffer is one of the length its header says. *)
Lemma pkt_ready k : Zlen (pkt k) = Verbs.PIB_PACKET_BUFFER ->
  exists tail rest, k = tail ++ rest /\ Zlen tail = pad_of (Zlen body) + 4 /\ pkt k = pkt tail ++ rest
  /\ pib_packet_lrh_get_pktlen (lrh_of (pkt k)) * 4 = Zlen (pkt tail) /\ 0 < Zlen (pkt tail) /\ Zlen (pkt tail) + Link.FOOTER_SIZE <= Zlen (pkt k).
Proof.
  intros Hk. destruct (pad_of_range (Zlen body)) as [Hp _]. unfold Verbs.PIB_PACKET_BUFFER, Link.FOOTER_SIZE in *.
  pose proof Hk as Hk'. rewrite Zlen_pkt in Hk'. set (n := Z.to_nat (pad_of (Zlen body) + 4)).
  assert (Zlen (take n k) = pad_of (Zlen body) + 4) as Ht by (unfold Zlen in *; rewrite length_take; lia).
  exists (take n k), (drop n k). rewrite take_drop, lrh_of_pkt, Hk, !Zlen_pkt, Ht. destruct pkt_headers as [(_ & _ & _ & ->) _]. split_and!; try done; try lia.
  unfold pkt, pkt_of. unfold packet_bytes. rewrite <-!app_assoc. by rewrite take_drop.
Qed.

Section Tail.
Variable tail : list Z.
Hypothesis Htail : Zlen tail = pad_of (Zlen body) + 4.

Lemma pkt_parsed : pib_parse_packet_header (pkt tail) = inr {| pr_ret := 20; pr_lrh := lrh; pr_grh := None; pr_bth := Some bth |}.
Proof.
  destruct pkt_headers as ((H1 & H2 & H3 & H4) & H5 & _). unfold pkt, pkt_of. apply parse_packet_bytes; try done.
  change (pib_packet_lrh_get_pktlen lrh * 4 = Zlen (pkt tail)). rewrite H4, Zlen_pkt, Htail. lia.
Qed.

Lemma pkt_rest : drop 20 (pkt tail) = body ++ tail.
Proof. reflexivity. Qed.

(** What the receiving side cuts off: the pad and the checksum. *)
Lemma pkt_body : take (Z.to_nat (Zlen (body ++ tail) - pib_packet_bth_get_padcnt bth - 4)) (body ++ tail) = body.
Proof.
  destruct pkt_headers as (_ & _ & -> & _). rewrite Zlen_app, Htail. replace (Z.to_nat _) with (length body) by (unfold Zlen; lia). apply take_app_length.
Qed.

(** For pibnetd it is a packet of the port the GUID behind it belongs to. *)
Lemma pkt_datagram gb : length gb = 8%nat -> be_combine gb <> 0 ->
  iba_datagram (pkt tail ++ gb) (be_combine gb) {| pr_ret := 20; pr_lrh := lrh; pr_grh := None; pr_bth := Some bth |} bth.
Proof.
  intros Hl Hg. pose proof (Zlen_pkt tail) as Hz. destruct (pad_of_range (Zlen body)) as [Hp _].
  assert (length (pkt tail ++ gb) - Netd.FOOTER_SIZE = length (pkt tail))%nat as Hn by (rewrite length_app, Hl; unfold Netd.FOOTER_SIZE; lia).
  unfold iba_datagram. rewrite Hn, take_app_length. split_and!.
  - rewrite length_app. unfold Netd.FOOTER_SIZE. lia.
  - rewrite length_app, Hl. unfold Netd.PIB_PACKET_BUFFER. unfold Zlen in *. lia.
  - change (be_combine (take 8 (drop (length (pkt tail)) (pkt tail ++ gb))) = be_combine gb). rewrite drop_app_length. by rewrite take_ge by lia.
  - done.
  - by apply pkt_parsed.
  - done.
  - destruct pkt_headers as (_ & _ & _ & -> & _). unfold has_flag. change Netd.PIB_QPN_MASK with (Z.ones 24). rewrite <-Z.ldiff_land, Z.ldiff_ones_r_low; [done|lia|].
    destruct (decide (qpn = 0)) as [->|]; [done|]. apply Z.log2_lt_pow2; lia.
Qed.
End Tail.
End Packet.

(** ** A turn of the scheduler that sends *)

(** A handler that queues no work item needs nothing of the other queue pairs. *)
Lemma with_qp_quiet {A} i (m : M st A) h q pd a s : hc_qps h !! i = Some q -> hc_pds h !! qp_pd q = Some pd -> works_of (st_events s) = [] ->
  m (load h q pd) = Some (a, s) -> with_qp i m h = Some (a, stored i (qp_pd q) s h).
Proof.
  intros Hq Hpd Hw E. unfold with_qp. erewrite (bind_run get) by reflexivity. rewrite Hq. erewrite (bind_run (of_option _)) by reflexivity. rewrite Hpd.
  erewrite (bind_run (of_option _)) by reflexivity. rewrite E. erewrite (bind_run (of_option _)) by reflexivity. cbv beta iota.
  erewrite (bind_run (modify _)) by reflexivity. unfold stored. rewrite Hw. erewrite bind_run by reflexivity. unfold ret. do 2 f_equal. destruct h. simpl. by rewrite app_nil_r.
Qed.

(** The lock is taken and released. *)
Definition relocked (h : hca) : hca := h <| hc_lock := true |> <| hc_lock := false |>.

(** The queue pair [i] is due; its pass leaves a packet for the thread, which sends it. *)
Lemma turn_sends {PP : Params} ahs fb h na gb i q pd s' port_num ah slid op pkey qpn psn sol body k : hc_lock h = false ->
  fb_multi_host_mode fb = true -> fb_netd_sockaddr fb = Some na -> hc_results h = [] ->
  head (se_qp <$> qs_tree (st_sched (hc_st h))) = Some i ->
  with_qp i (process_on_qp_scheduler ahs) (relocked h) = Some (tt, stored i (qp_pd q) s' (relocked h)) -> st_ports s' = st_ports (load h q pd) ->
  (exists p port, hc_ports h !! port_num = Some p /\ hp_state p = Link.IB_PORT_ACTIVE /\ st_ports (hc_st h) !! port_num = Some port
                  /\ Link.port_guid port = Some gb) -> length gb = 8%nat ->
  byte_ok op -> 0 < ah_dlid ah < PIB_MCAST_LID_BASE -> 0 < slid < 2 ^ 16 -> 0 <= pkey < 2 ^ 16 -> 0 <= qpn < 2 ^ 24 -> 0 < Zlen body <= 4108 ->
  thread_has (st_thread s') (pkt_of ah slid op pkey qpn psn sol body k) port_num slid (ah_dlid ah) (qp_num q) ->
  Zlen (pkt_of ah slid op pkey qpn psn sol body k) = Verbs.PIB_PACKET_BUFFER ->
  exists again h' tail, qp_scheduler_turn ahs fb h = Some (again, h') /\ Zlen tail = pad_of (Zlen body) + 4
  /\ sent_from (stored i (qp_pd q) s' (relocked h)) na (pkt_of ah slid op pkey qpn psn sol body tail) gb h'.
Proof.
  intros Hl Hm Hn Hres Hhead Hw Hports (p & port & Hp & Hact & Hsp & Hg) Hgl Hop Hd Hs Hk Hq Hb (T1 & T2 & T3 & T4 & T5 & T6) Hz.
  destruct (pkt_ready ah slid op pkey qpn psn sol body Hop Hd Hs Hk Hq Hb k Hz) as (tail & rest & Ek & Ht & Eb & Hlw & Hpos & Hfit).
  unfold qp_scheduler_turn. rewrite (bind_run _ _ _ _ _ (lock_run h Hl)).
  assert (on_dev pib_util_get_first_scheduling_qp (h <| hc_lock := true |>) = Some (Some i, h <| hc_lock := true |>)) as Ef.
  { unfold on_dev, pib_util_get_first_scheduling_qp, bind, get, gets, of_option, modify, ret. simpl. destruct (qs_tree _) as [|e t]; [done|]. by injection Hhead as ->. }
  rewrite (bind_run _ _ _ _ _ Ef). rewrite (bind_run unlock _ _ tt (relocked h)) by reflexivity. rewrite (bind_run _ _ _ _ _ Hw).
  set (h1 := stored i (qp_pd q) s' (relocked h)). rewrite (bind_run the_thread _ h1 (st_thread s') h1) by reflexivity. rewrite T6. cbn [when].
  destruct (process_sendmsg_run fb h1 na (pkt_of ah slid op pkey qpn psn sol body tail) gb) as (h2 & E2 & Hsent).
  { exists rest. change (th_send_buffer (st_thread (hc_st h1))) with (th_send_buffer (st_thread s')). rewrite T1. split_and!; done. }
  { unfold can_send. change (st_thread (hc_st h1)) with (st_thread s'). rewrite T2, T3, T4, T5. split_and!; [done|done|done|by apply unicast_lid|done|right; lia|].
    exists p, port. change (st_ports (hc_st h1)) with (st_ports s'). rewrite Hports. split_and!; [done|done|done|by rewrite Hact]. }
  rewrite (bind_run _ _ _ _ _ E2). erewrite (bind_run get) by reflexivity. eexists _, h2, tail. split; [reflexivity|]. split; [exact Ht|exact Hsent].
Qed.

(** ** Finding the queue pair *)

Section Receive.
Context {PP : Params}.

(** A packet for a queue pair that accepts it, and does not answer. *)
Lemma per_qp_run fb h port_num dlid qpn lrh bth buffer p sp q s' : hc_lock h = false -> hc_ports h !! port_num = Some p ->
  st_ports (hc_st h) !! port_num = Some sp -> 1 < qpn < 2 ^ 24 - 1 -> port_lid sp = dlid -> hc_qps h !! qpn = Some q ->
  port_pkey_table sp !! Z.to_nat (a_pkey_index (qp_attr q)) = Some (bth_pkey bth) ->
  with_qp qpn (deliver port_num lrh None bth buffer) (relocked h) = Some (tt, stored qpn (qp_pd q) s' (relocked h)) -> th_ready_to_send (st_thread s') = false ->
  process_incoming_message_per_qp fb port_num dlid qpn lrh None bth buffer h = Some (tt, stored qpn (qp_pd q) s' (relocked h)).
Proof.
  intros Hl Hp Hsp Hn Hlid Hq Hk E Hready. unfold process_incoming_message_per_qp, the_hport, the_sport.
  erewrite bind_run by (erewrite (bind_run get) by reflexivity; rewrite Hp; reflexivity).
  erewrite bind_run by (erewrite (bind_run get) by reflexivity; rewrite Hsp; reflexivity).
  rewrite (bind_run _ _ _ _ _ (lock_run h Hl)). erewrite (bind_run get) by reflexivity.
  assert (find_dest (h <| hc_lock := true |>) p qpn = Some (Some qpn)) as ->.
  { unfold find_dest, Verbs.PIB_QP0, Verbs.PIB_QP1, Link.IB_MULTICAST_QPN. rewrite !(proj2 (Z.eqb_neq _ _)) by lia. change (hc_qps (h <| hc_lock := true |>)) with (hc_qps h). by rewrite Hq. }
  erewrite (bind_run (of_option _)) by reflexivity. cbv beta iota. unfold dlid_ok. rewrite Hlid, Z.eqb_refl, orb_true_r. cbn [negb].
  change (hc_qps (h <| hc_lock := true |>)) with (hc_qps h). rewrite Hq. erewrite (bind_run (of_option _)) by reflexivity.
  unfold pkey_ok, Verbs.PIB_QP0, Verbs.PIB_QP1. rewrite !(proj2 (Z.eqb_neq _ _)), Hk by lia. cbn [fmap option_fmap option_map]. rewrite Z.eqb_refl.
  erewrite (bind_run (of_option _)) by reflexivity. cbn [negb]. rewrite (bind_run unlock _ _ tt (relocked h)) by reflexivity.
  rewrite (bind_run _ _ _ _ _ E).
  rewrite (bind_run the_thread _ _ (st_thread s') (stored qpn (qp_pd q) s' (relocked h))) by reflexivity. by rewrite Hready.
Qed.

(** The ports are no part of the invariant. *)
Lemma inv_ports h f : hca_inv h -> hca_inv (h <| hc_ports ::= f |>).
Proof. intros []. by split. Qed.

(** The device counts the packet and finds the queue pair it is for. *)
Definition counted (port_num n : Z) (h : hca) : hca :=
  h <| hc_ports ::= alter (fun p => p <| hp_rcv_packets := u64 (hp_rcv_packets p + 1) |> <| hp_rcv_data := u64 (hp_rcv_data p + n) |>) port_num |>.

Lemma incoming_run fb h port_num p pkt gb body tail lrh bth : hc_ports h !! port_num = Some p -> hp_state p = Link.IB_PORT_ACTIVE -> length gb = 8%nat ->
  pib_parse_packet_header pkt = inr {| pr_ret := 20; pr_lrh := lrh; pr_grh := None; pr_bth := Some bth |} -> drop 20 pkt = body ++ tail ->
  take (Z.to_nat (Zlen (body ++ tail) - pib_packet_bth_get_padcnt bth - 4)) (body ++ tail) = body -> Zlen tail = pib_packet_bth_get_padcnt bth + 4 ->
  1 < bth_destQP bth < 2 ^ 24 - 1 -> lrh_dlid lrh < PIB_MCAST_LID_BASE ->
  process_incoming_message fb port_num (pkt ++ gb) h
  = process_incoming_message_per_qp fb port_num (lrh_dlid lrh) (bth_destQP bth) lrh None bth body (counted port_num (Zlen pkt + 8) h).
Proof.
  intros Hp Hact Hgb Hparse Hrest Hbody Ht Hqpn Hd. unfold process_incoming_message. pose proof (Zlen_nonneg pkt). pose proof (Zlen_nonneg body).
  assert (Zlen (pkt ++ gb) = Zlen pkt + 8) as -> by (rewrite Zlen_app; unfold Zlen at 2; by rewrite Hgb).
  unfold Link.FOOTER_SIZE. rewrite (proj2 (Z.ltb_ge _ _)) by lia. replace (Z.to_nat (Zlen pkt + 8 - 8)) with (length pkt) by (unfold Zlen; lia).
  rewrite take_app_length. cbv zeta. rewrite (bind_run (upd_hport _ _) _ _ tt (counted port_num (Zlen pkt + 8) h)) by reflexivity.
  rewrite Hparse. cbn [pr_bth pr_ret pr_lrh pr_grh]. change (Z.to_nat 20) with 20%nat. rewrite Hrest, Hbody.
  rewrite !(proj2 (Z.ltb_ge _ _)) by (rewrite Zlen_app, Ht; lia).
  erewrite bind_run by (unfold the_hport, bind, get, of_option, counted; simpl; rewrite lookup_alter_eq, Hp; reflexivity).
  change Verbs.PIB_QPN_MASK with (Z.ones 24). rewrite Z.land_ones, Z.mod_small by lia. cbn [hp_state]. rewrite Hact.
  change (may_receive Link.IB_PORT_ACTIVE (bth_destQP bth)) with true. cbn [negb]. change PIB_MCAST_LID_BASE with Verbs.PIB_MCAST_LID_BASE in Hd. by rewrite (proj2 (Z.ltb_lt _ _) Hd), orb_true_r.
Qed.
End Receive.

(** ** Through pibnetd *)

(** pibnetd knows the sender by its GUID and forwards the LID to the port of the receiver. *)
Definition routed (s : netd) (guid dlid : Z) (b : sockaddr) : Prop :=
  let o := ucast_entry (nt_sw s) dlid in
  find_guid (nt_peers s) guid (ext_ports (nt_sw s)) <> 0 /\ table_ok s /\ nt_results s = []
  /\ (exists p0, port_at (nt_sw s) 0 = Some p0 /\ pa_lid (po_attr p0) <> dlid)
  /\ 0 < o < sw_port_cnt (nt_sw s) /\ (pe_addr <$> peer_at s o) = Some (Some b).

(** The packet is sent on, and every other route stays. *)
Lemma route_run g fuel s src data guid p bth b : iba_datagram data guid p bth -> routed s guid (lrh_dlid (pr_lrh p)) b -> 1 < bth_destQP bth < 2 ^ 24 - 1 ->
  0 < lrh_dlid (pr_lrh p) < PIB_MCAST_LID_BASE ->
  exists s', Netd.receive_packet g fuel [SysOk (src, data)] s = Some (Next tt, s') /\ nt_sent s' = nt_sent s ++ [(b, data)]
  /\ forall guid' dlid' b', routed s guid' dlid' b' -> routed s' guid' dlid' b'.
Proof.
  intros Hd (Hi & Hok & Hres & (p0 & Hp0 & Hlid) & Ho & Hb) Hq Hdlid. set (i := find_guid _ _ _) in *. set (o := ucast_entry _ _) in *.
  destruct (find_guid_port s guid Hok Hi) as (Hir & _). fold i in Hir.
  assert (port_at (nt_sw (received s data i)) 0 = Some p0) as Hp1 by (unfold received; simpl; rewrite port_at_upd_ne by lia; exact Hp0).
  pose proof (unicast_relayed g fuel s src data guid i p bth p0 b Hd eq_refl Hi Hp1 Hres ltac:(unfold PIB_QP0; lia) ltac:(unfold PIB_MULTICAST_QPN; lia) Hdlid ltac:(done) Ho Hb) as E.
  eexists. split; [exact E|]. split; [reflexivity|].
  intros guid' dlid' b' (Hi' & _ & _ & (p0' & Hp0' & Hlid') & Ho' & Hb'). split; [exact Hi'|]. split; [exact Hok|]. split; [exact Hres|]. split; [|by split].
  exists p0'. split; [|exact Hlid']. simpl. unfold unicast_counted. rewrite !port_at_upd_ne by lia. exact Hp0'.
Qed.
