(* ===== verification/UdSendThm.v ===== *)
(** * The packet of a datagram

    What the requester of the UD transport puts into the send buffer for a work queue
    entry, byte for byte. *)

From S2P Require Import Prelude Verbs Lib ObjNum Cq Srq Mr State Sched Qp QpInv Packet Wire Rc RcRsp RcResp Ud Requester RequesterThm Hca Frame Transit.

Section UdSend.
Context {PP : Params} (ahs : gmap Z ib_ah_attr).

(** ** The packet *)

(** What follows the headers. *)
Definition ud_body (imm : bool) (q : pib_qp) (w : pib_send_wqe) (remote_qkey : Z) (payload : list Z) : list Z :=
  deth_bytes {| deth_qkey := if s32 remote_qkey <? 0 then a_qkey (qp_attr q) else remote_qkey; deth_srcQP := qp_num q |}
  ++ (if imm then le_split 4 (w_ex w) else []) ++ payload.

Lemma length_deth d : length (deth_bytes d) = 8%nat.
Proof. reflexivity. Qed.

(** A completion only touches its queue and the events. *)
Lemma wc_success_run c wc sol s : is_Some (st_cqs s !! c) ->
  exists r ev cq', qp_insert_wc_success c wc sol s = Some (r, s <| st_cqs ::= <[c := cq']> |> <| st_events ::= fun l => l ++ ev |>).
Proof.
  intros [cq Hcq]. unfold qp_insert_wc_success. erewrite bind_run by reflexivity. unfold with_cq. erewrite bind_run by reflexivity. rewrite Hcq.
  destruct (pib_util_insert_wc_success _ _ _ cq) as [[r ev] cq']. eexists r, ev, cq'. reflexivity.
Qed.

Lemma ud_check_opcode q w ah : ud_check ahs q w = Some ah -> w_opcode w = IB_WR_SEND \/ w_opcode w = IB_WR_SEND_WITH_IMM.
Proof.
  unfold ud_check. destruct (wr_ud (w_wr w)) as [[[? ?] ?] ?]. destruct (Z.eqb_spec (w_opcode w) IB_WR_SEND); [by left|].
  destruct (Z.eqb_spec (w_opcode w) IB_WR_SEND_WITH_IMM); [by right|done].
Qed.

(** The entry is done with. *)
Definition entry_free (s : st) (id : Z) : Prop :=
  exists w, rq_swqes (qp_requester (st_qp s)) !! id = Some w /\ p_list_type (w_processing w) = PIB_SWQE_FREE.

(** The end of the request: the thread is told, the entry is off its list, and a
    completion is in the send CQ when one is wanted.  The packet stays. *)
Lemma ud_sent_run s b id w port_num slid dlid : rq_swqes (qp_requester (st_qp s)) !! id = Some w -> w_opcode w = IB_WR_SEND \/ w_opcode w = IB_WR_SEND_WITH_IMM ->
  is_Some (st_cqs s !! qp_send_cq (st_qp s)) ->
  exists s', ud_sent id port_num slid dlid (with_buf s b) = Some (0, s') /\ thread_has (st_thread s') b port_num slid dlid (qp_num (st_qp s))
  /\ st_ports s' = st_ports s /\ st_mem s' = st_mem s /\ entry_free s' id.
Proof.
  intros Hw Hop [cq Hcq]. unfold ud_sent. do 6 (erewrite bind_run by reflexivity; cbv beta).
  set (w1 := w <| w_processing ::= fun p => p <| p_list_type := PIB_SWQE_FREE |> |>).
  set (s1 := set_field _ _ (set_field _ _ _)). assert (rq_swqes (qp_requester (st_qp s1)) !! id = Some w1) as Hw1 by (simpl; by rewrite lookup_alter_eq, Hw).
  erewrite bind_run by exact (get_swqe_run _ _ _ Hw1). change (w_opcode w1) with (w_opcode w).
  destruct (negb _); [eexists; split; [reflexivity|]; do 3 (split; [done|]); by exists w1|].
  assert (pib_convert_wr_opcode_to_wc_opcode (w_opcode w) = Some IB_WC_SEND) as Hc by (by destruct Hop as [-> | ->]).
  rewrite Hc. erewrite bind_run by reflexivity. edestruct (wc_success_run (qp_send_cq (st_qp s))) as (r & ev & cq' & E); [|erewrite bind_run by exact E]; [by exists cq|].
  eexists. split; [reflexivity|]. do 3 (split; [done|]). by exists w1.
Qed.

(** A request that passes the checks, of one packet, without a global route header and not
    to a management QP. *)
Record ud_ready (s : st) (w : pib_send_wqe) (ah : ib_ah_attr) (qpn qkey : Z) (port : pib_port) (pkey : Z) : Prop := {
  ur_wr : exists ahpd pki pn, w_wr w = WrUd ahpd qpn qkey pki pn /\ port_pkey_table port !! Z.to_nat pki = Some pkey;
  ur_check : ud_check ahs (st_qp s) w = Some ah;
  ur_grh : has_flag (ah_ah_flags ah) IB_AH_GRH = false;
  ur_port : st_ports s !! ah_port_num ah = Some port;
  ur_qpn : qpn <> 0;
  ur_buf : Zlen (th_send_buffer (st_thread s)) = PIB_PACKET_BUFFER;
  ur_inline : has_flag (w_send_flags w) IB_SEND_INLINE = false;
  ur_sges : Forall (sge_ok (st_pd s) 0) (w_sge_array w);
  ur_len : 0 < w_total_length w <= 4096;
  ur_sgl : w_total_length w <= sgl_length (w_sge_array w);
  ur_cq : is_Some (st_cqs s !! qp_send_cq (st_qp s)) }.

(** The packet. *)
Definition ud_op (w : pib_send_wqe) : Z := if wqe_imm w then IB_OPCODE_UD_SEND_ONLY_WITH_IMMEDIATE else IB_OPCODE_UD_SEND_ONLY.
Definition ud_packet (s : st) (w : pib_send_wqe) (ah : ib_ah_attr) (qpn qkey slid pkey : Z) (tail : list Z) : list Z :=
  pkt_of ah slid (ud_op w) pkey qpn (a_sq_psn (qp_attr (st_qp s))) (has_flag (w_send_flags w) IB_SEND_SOLICITED) (ud_body (wqe_imm w) (st_qp s) w qkey (wqe_payload s w)) tail.

Lemma Zlen_payload s w ah qpn qkey port pkey : ud_ready s w ah qpn qkey port pkey -> Zlen (wqe_payload s w) = w_total_length w.
Proof. intros []. apply Zlen_wqe_payload; [done|lia|done]. Qed.

(** The buffer starts with the packet then. *)
Lemma ud_request_run s id w ah qpn qkey port pkey (Hr : ud_ready s w ah qpn qkey port pkey) (Hw : rq_swqes (qp_requester (st_qp s)) !! id = Some w)
    (Hone : p_all_packets (w_processing w) = 1) :
  exists s' k, pib_process_ud_qp_request ahs id s = Some (0, s')
  /\ thread_has (st_thread s') (ud_packet s w ah qpn qkey (port_lid port) pkey k) (ah_port_num ah) (port_lid port) (ah_dlid ah) (qp_num (st_qp s))
  /\ Zlen (ud_packet s w ah qpn qkey (port_lid port) pkey k) = PIB_PACKET_BUFFER /\ st_ports s' = st_ports s /\ st_mem s' = st_mem s /\ entry_free s' id.
Proof.
  pose proof (Zlen_payload _ _ _ _ _ _ _ Hr) as Hpl. destruct Hr as [(ahpd & pki & pn & Hwr & Hpkey) Hchk Hgrh Hport Hqpn Hbuf Hin Hok Hlen Hsgl Hcq].
  unfold ud_packet, ud_op, pkt_of. set (imm := wqe_imm w) in *. set (payload := wqe_payload s w) in *.
  set (body := ud_body imm (st_qp s) w qkey payload). cbv zeta.
  unfold pib_process_ud_qp_request. erewrite bind_run by exact (get_swqe_run _ _ _ Hw).
  erewrite bind_run by reflexivity. cbv beta iota. rewrite Hwr. cbn [wr_ud]. rewrite Hchk. cbv zeta. change (w_opcode w =? IB_WR_SEND_WITH_IMM) with imm.
  erewrite bind_run by (unfold the_port, gets, bind, of_option; rewrite Hport; reflexivity). erewrite bind_run by reflexivity.
  set (b0 := th_send_buffer (st_thread s)) in *.
  destruct (cleared_split b0 68 Hbuf ltac:(lia)) as (h0 & k0 & Hb0 & Hh0 & Hk0). change (Z.to_nat 68) with 68%nat in Hb0.
  erewrite (bind_run (put_buffer _)) by reflexivity. change (set_field st_thread _ s) with (with_buf s (buf_write b0 0 (replicate 68 0))). rewrite Hb0, Hgrh.
  erewrite (bind_run (ret None)) by reflexivity. rewrite Hpkey. erewrite (bind_run (of_option _)) by reflexivity. cbv zeta.
  erewrite bind_run by apply put_hdrs_run. rewrite buf_write_hdr by (rewrite length_hdrs; done). set (hb := hdrs_bytes _). assert (Zlen hb = 20) as Hhb by done.
  match goal with |- context [hdrs_size ?x] => change (hdrs_size x) with (Zlen hb) end. erewrite bind_run by apply put_at_run. rewrite buf_write_at.
  set (dth := deth_bytes _). rewrite <-Zlen_app, app_assoc.
  assert (exists ib, (if imm then put_at (Zlen (hb ++ dth)) (le_split 4 (w_ex w)) else ret (Zlen (hb ++ dth))) (with_buf s ((hb ++ dth) ++ drop (length dth) k0))
          = Some (Zlen (hb ++ dth ++ ib), with_buf s ((hb ++ dth ++ ib) ++ drop (length (dth ++ ib)) k0)) /\ ib = (if imm then le_split 4 (w_ex w) else [])) as (ib & Eib & Hib).
  { destruct imm; [exists (le_split 4 (w_ex w))|exists []]; (split; [|done]).
    - rewrite put_at_run, buf_write_at, <-Zlen_app, <-!app_assoc, length_app, drop_drop. done.
    - by rewrite app_nil_r. }
  erewrite bind_run by exact Eib. erewrite bind_run by apply send_buffer_run. rewrite (proj2 (Z.eqb_neq _ _) Hqpn).
  erewrite bind_run by apply put_hdrs_run. fold hb. rewrite <-app_assoc, buf_write_hdr by done. rewrite (app_assoc hb (dth ++ ib)). rewrite Hone. change (1 =? 1) with true. cbn [negb].
  assert (length (dth ++ ib) <= 12)%nat as Hdl by (rewrite length_app, Hib; destruct imm; [change (length (le_split 4 (w_ex w))) with 4%nat|]; unfold dth; rewrite length_deth; simpl; lia).
  erewrite bind_run by (apply put_payload_run; [exact Hin|exact Hok|unfold PIB_MAX_PAYLOAD_LEN; lia|exact Hsgl|unfold Zlen; rewrite length_drop; lia]).
  change (st_mem s <$> _) with payload. rewrite bool_decide_eq_true_2 by done. cbn [negb].
  assert (Zlen (hb ++ dth ++ ib) + w_total_length w = 20 + Zlen body) as ->.
  { unfold body, ud_body. fold dth. rewrite <-Hib, !Zlen_app, Hpl, Hhb. lia. }
  assert (0 <= Zlen body < 4200) as Hbody.
  { unfold body, ud_body. fold dth. rewrite <-Hib, app_assoc, Zlen_app, Hpl. unfold Zlen. lia. }
  rewrite <-!app_assoc. erewrite bind_run by (apply (finish_run s ah (port_lid port)); done).
  set (fin := packet_bytes _ _ _ []). set (k' := drop (Z.to_nat (w_total_length w)) _).
  destruct (ud_sent_run s (fin ++ dth ++ ib ++ payload ++ k') id w (ah_port_num ah) (port_lid port) (ah_dlid ah) Hw (ud_check_opcode _ _ _ Hchk) Hcq)
    as (s' & E & H1 & H2).
  assert (packet_bytes (pkt_lrh ah (port_lid port) (Zlen body)) None (pkt_bth (if imm then IB_OPCODE_UD_SEND_ONLY_WITH_IMMEDIATE else IB_OPCODE_UD_SEND_ONLY) pkey qpn (a_sq_psn (qp_attr (st_qp s))) (Zlen body) (has_flag (w_send_flags w) IB_SEND_SOLICITED))
            (body ++ k') = fin ++ dth ++ ib ++ payload ++ k') as Hp.
  { unfold fin, body, ud_body. fold dth. rewrite <-Hib. unfold packet_bytes. by rewrite <-!app_assoc, ?app_nil_r. }
  exists s', k'. rewrite Hp. split; [exact E|]. split; [exact H1|]. split; [|exact H2].
  assert (Zlen fin = 20) as Hfin by done. rewrite !Zlen_app, Hfin, Hpl. unfold k', Zlen, PIB_PACKET_BUFFER. rewrite !length_drop, Hk0. rewrite length_app in Hdl |- *. lia.
Qed.
End UdSend.

(** ** The pass of the scheduler *)

Lemma time_after_irrefl t : time_after t t = false.
Proof. unfold time_after. by rewrite Z.sub_diag. Qed.

Section Pass.
Context {PP : Params} (ahs : gmap Z ib_ah_attr).

Lemma thread_reschedule : keeps (fun s => (st_thread s, st_ports s, st_mem s, st_cqs s, rq_swqes (qp_requester (st_qp s)), qp_responder (st_qp s))) pib_util_reschedule_qp.
Proof. unfold pib_util_reschedule_qp, sched_take_off, sched_put, the_qp, upd_qp. obey. Qed.

(** One datagram is one packet. *)
Lemma one_packet mtu len : 0 <= mtu -> 0 < len <= 4096 -> pib_get_num_of_packets IB_QPT_UD mtu len = 1.
Proof.
  intros Hm Hl. rewrite pib_get_num_of_packets_spec by lia. unfold packets_of, path_mtu_of. change (mtu_bytes IB_MTU_4096) with 4096.
  Z.to_euclidean_division_equations; lia.
Qed.

(** A UD queue pair whose next request is [id], and may be sent. *)
Record ud_next (s : st) (id : Z) (sub : list Z) (w : pib_send_wqe) : Prop := {
  un_type : qp_type (st_qp s) = IB_QPT_UD;
  un_state : qp_state (st_qp s) = IB_QPS_RTS;
  un_waiting : rq_waiting (qp_requester (st_qp s)) = [];
  un_sending : rq_sending (qp_requester (st_qp s)) = [];
  un_submitted : rq_submitted (qp_requester (st_qp s)) = id :: sub;
  un_entry : rq_swqes (qp_requester (st_qp s)) !! id = Some w;
  un_status : p_status (w_processing w) = IB_WC_SUCCESS;
  un_free : new_send_blocked (qp_requester (st_qp s)) w = false;
  un_contig : rq_nr_contig_requests (qp_requester (st_qp s)) <= PIB_MAX_CONTIG_REQUESTS;
  un_mtu : 0 <= a_path_mtu (qp_attr (st_qp s)) }.

Lemma ud_pass_run ids s id sub w ah qpn qkey port pkey (Hwf : qp_wf ids s) (Hn : ud_next s id sub w) (Hr : ud_ready ahs s w ah qpn qkey port pkey) :
  exists s' k, process_on_qp_scheduler ahs s = Some (tt, s')
  /\ thread_has (st_thread s') (ud_packet s w ah qpn qkey (port_lid port) pkey k) (ah_port_num ah) (port_lid port) (ah_dlid ah) (qp_num (st_qp s))
  /\ Zlen (ud_packet s w ah qpn qkey (port_lid port) pkey k) = PIB_PACKET_BUFFER /\ st_ports s' = st_ports s /\ st_mem s' = st_mem s /\ entry_free s' id.
Proof.
  pose proof (ur_len _ _ _ _ _ _ _ _ Hr) as Hlen. destruct Hn as [Hty Hst Hwait Hsend Hsub Hw Hok Hb Hc Hm].
  unfold process_on_qp_scheduler. erewrite bind_run by reflexivity. rewrite Hty. erewrite bind_run by reflexivity. change (negb (0 =? 1)) with true. cbn [when].
  set (s1 := s <| st_qp ::= fun q => q <| qp_requester := taken q (st_now s) id sub w |> |>).
  set (w1 := w <| w_processing ::= start_processing (st_qp s) (st_now s) 1 |>).
  set (w2 := w1 <| w_processing ::= fun p => p <| p_schedule_time := st_now s |> |>).
  set (s2 := alt id (fun w => w <| w_processing ::= fun p => p <| p_schedule_time := st_now s |> |>) s1).
  assert (rq_swqes (qp_requester (st_qp s1)) !! id = Some w1) as Hw1 by (simpl; by rewrite lookup_alter_eq, Hw, Hty, one_packet by lia).
  assert (rq_swqes (qp_requester (st_qp s2)) !! id = Some w2) as Hw2.
  { change (alter (fun w => w <| w_processing ::= fun p => p <| p_schedule_time := st_now s |> |>) id (rq_swqes (qp_requester (st_qp s1))) !! id = Some w2). etransitivity; [apply lookup_alter_eq|]. rewrite Hw1. reflexivity. }
  destruct (ud_request_run ahs s2 id w2 ah qpn qkey port pkey) as (s3 & k & E & Ht & Hz & Hports & Hmem & w3 & Hw3 & Hfree); [destruct Hr; by split|exact Hw2|done|].
  set (s4 := s3 <| st_qp ::= fun q => q <| qp_requester ::= fun r => r <| rq_free ::= fun f => f ++ [id] |> |> |>).
  assert (send_first ahs s1 = Some (tt, s4)) as Es.
  { unfold send_first. erewrite bind_run by reflexivity. erewrite bind_run by reflexivity. erewrite (bind_run (of_option _)) by (simpl; rewrite Hsend; reflexivity).
    erewrite bind_run by exact (get_swqe_run _ _ _ Hw1).
    change (p_status (w_processing w1)) with (p_status (w_processing w)). rewrite Hok, bool_decide_eq_true_2 by done. cbn [negb andb].
    change (rq_nr_contig_requests _) with (rq_nr_contig_requests (qp_requester (st_qp s))). rewrite (proj2 (Z.ltb_ge _ _)) by lia.
    change (p_schedule_time (w_processing w1)) with (st_now s1). rewrite time_after_irrefl.
    erewrite (bind_run (upd_proc _ _)) by reflexivity. fold s2.
    erewrite bind_run.
    2:{ unfold process_send_wr. rewrite (bind_run the_qp _ s2 (st_qp s2) s2) by reflexivity. erewrite bind_run by exact (get_swqe_run _ _ _ Hw2).
        erewrite bind_run by reflexivity. change (p_status (w_processing w2)) with (p_status (w_processing w)). rewrite Hok, bool_decide_eq_true_2 by done. cbn [negb].
        change (qp_type (st_qp s2)) with (qp_type (st_qp s)). rewrite Hty. exact E. }
    unfold after_send. erewrite bind_run by exact (get_swqe_run _ _ _ Hw3). rewrite Hfree. reflexivity. }
  assert (requester_pass ahs s = Some (tt, s4)) as Ep.
  { unfold requester_pass, first_sending_wsqe. do 2 (erewrite bind_run by reflexivity). rewrite (bool_decide_eq_true_2 _ Hst). cbn [negb andb]. rewrite Hwait.
    erewrite bind_run by reflexivity. rewrite Hsend. erewrite bind_run by (eapply process_new_run; [apply Hwf|done..]). exact Es. }
  assert (sched_member s4) as Hsm.
  { change (sched_member s3). apply (po_member _ _ (polite_pib_process_ud_qp_request ahs id _ _ _ E)). change (sched_member s). apply (wfo_env _ _ _ Hwf). }
  destruct (reschedule_spec s4 Hsm) as (s5 & E5 & _). exists s5, k. erewrite bind_run by exact Ep. split; [exact E5|].
  pose proof (thread_reschedule s4 tt s5 E5) as K. injection K as K1 K2 K3 _ K4 _. rewrite K1, K2, K3. do 2 (split; [assumption|]). split; [exact Hports|].
  split; [exact Hmem|]. exists w3. rewrite K4. by split.
Qed.
End Pass.
