(* ===== verification/DatagramThm.v ===== *)
(** * A datagram from one HCA to another

    The queue pair of the sender is due, the thread of its device takes up the request
    and sends the packet; pibnetd forwards it; the device of the receiver puts the payload
    into the memory of the receive.  The steps are those of the other files, one after
    the other, and what one sends the next receives. *)

From S2P Require Import Prelude Verbs Lib ObjNum Cq Srq Mr Port SwitchSmp SwitchThm Pma Netd NetdThm State Sched Qp QpInv QpThm Packet Wire Rc RcRsp RcResp Ud UdThm Requester Hca Frame HcaThm Link LinkThm Demo FabricThm Transit UdSendThm.

(** ** The packet *)

Lemma ud_op_byte w : byte_ok (ud_op w).
Proof. unfold ud_op. by destruct (wqe_imm w). Qed.

Lemma ud_body_length s w qkey : 0 < Zlen (wqe_payload s w) <= 4096 -> 0 < Zlen (ud_body (wqe_imm w) (st_qp s) w qkey (wqe_payload s w)) <= 4108.
Proof.
  intros Hlen. unfold ud_body. rewrite !Zlen_app. change (Zlen (deth_bytes _)) with 8. pose proof (Zlen_nonneg (wqe_payload s w)).
  destruct (wqe_imm w); [change (Zlen (le_split 4 (w_ex w))) with 4|change (Zlen []) with 0]; lia.
Qed.

(** ** The sender *)

(** A device whose scheduler would run the queue pair [q] next; the next request of [q] is a
    datagram to [ah], and the port it leaves from may send. *)
Record ud_sender {PP : Params} (ahs : gmap Z ib_ah_attr) (fb : fabric) (h : hca) (na : Z) (gb : list Z) (q : pib_qp) (pd : Mr.pib_pd) (id : Z)
    (w : pib_send_wqe) (ah : ib_ah_attr) (qpn qkey : Z) (port : State.pib_port) (pkey : Z) : Prop := {
  us_inv : hca_inv h;
  us_lock : hc_lock h = false;
  us_netd : fb_multi_host_mode fb = true /\ fb_netd_sockaddr fb = Some na;
  us_results : hc_results h = [];
  us_due : exists i, head (se_qp <$> qs_tree (st_sched (hc_st h))) = Some i /\ hc_qps h !! i = Some q;
  us_pd : hc_pds h !! qp_pd q = Some pd;
  us_next : exists sub, ud_next (load h q pd) id sub w;
  us_ready : ud_ready ahs (load h q pd) w ah qpn qkey port pkey;
  us_active : exists p, hc_ports h !! ah_port_num ah = Some p /\ hp_state p = Link.IB_PORT_ACTIVE;
  us_guid : Link.port_guid port = Some gb /\ length gb = 8%nat;
  us_lids : 0 < ah_dlid ah < PIB_MCAST_LID_BASE /\ 0 < port_lid port < 2 ^ 16;
  us_pkey : 0 <= pkey < 2 ^ 16;
  us_qpn : 0 <= qpn < 2 ^ 24 }.

Lemma sender_turn {PP : Params} ahs fb h na gb q pd id w ah qpn qkey port pkey (Hs : ud_sender ahs fb h na gb q pd id w ah qpn qkey port pkey) :
  exists again h' tail, qp_scheduler_turn ahs fb h = Some (again, h')
  /\ Zlen tail = pad_of (Zlen (ud_body (wqe_imm w) q w qkey (wqe_payload (load h q pd) w))) + 4
  /\ hc_sent h' = hc_sent h ++ [(na, ud_packet (load h q pd) w ah qpn qkey (port_lid port) pkey tail ++ gb)].
Proof.
  destruct Hs as [Hi Hl [Hm Hn] Hres (i & Hhead & Hq) Hpd [sub Hnext] Hr (p & Hp & Hact) [Hg Hgl] [Hdlid Hslid] Hpkey Hqpn].
  set (s := load h q pd) in *. destruct (hi_qps _ Hi i q Hq) as (_ & pd0 & ids & Hpd0 & Hwf). assert (pd0 = pd) as -> by congruence.
  destruct (ud_pass_run ahs ids s id sub w ah qpn qkey port pkey Hwf Hnext Hr) as (s' & k & E & (T1 & T2 & T3 & T4 & T5 & T6) & Hz & Hports & _).
  pose proof (Zlen_payload _ _ _ _ _ _ _ _ Hr) as Hpl. pose proof (ur_len _ _ _ _ _ _ _ _ Hr) as Hlen.
  assert (hca_inv (relocked h)) as Hi0 by (by apply inv_lock, inv_lock).
  pose proof (with_qp_run i (process_on_qp_scheduler ahs) (relocked h) q pd tt s' Hi0 Hq Hpd (polite_process_on_qp_scheduler ahs) E) as Hw.
  edestruct (turn_sends ahs fb h na gb i q pd s' (ah_port_num ah) ah (port_lid port) (ud_op w) pkey qpn) as (again & h' & tail & E1 & Ht & Hsent & _); try done.
  - exists p, port. split_and!; try done. exact (ur_port _ _ _ _ _ _ _ _ Hr).
  - apply ud_op_byte.
  - apply ud_body_length. lia.
  - exists again, h', tail. split; [exact E1|]. split; [exact Ht|exact Hsent].
Qed.

(** ** The receiver *)

(** A device with a UD queue pair [q], number [qpn], that takes datagrams of [n] bytes at the
    LID [dlid]; [w] is its oldest receive, [cq] its completion queue. *)
Record ud_receiver (h : hca) (port_num dlid qpn qkey pkey n : Z) (q : pib_qp) (pd : Mr.pib_pd) (w : pib_recv_wqe) (l : list pib_recv_wqe) (cq : pib_cq) : Prop := {
  uv_inv : hca_inv h;
  uv_lock : hc_lock h = false;
  uv_idle : th_ready_to_send (st_thread (hc_st h)) = false;
  uv_active : exists p, hc_ports h !! port_num = Some p /\ hp_state p = Link.IB_PORT_ACTIVE;
  uv_port : exists sp, st_ports (hc_st h) !! port_num = Some sp /\ port_lid sp = dlid /\ port_pkey_table sp !! Z.to_nat (a_pkey_index (qp_attr q)) = Some pkey;
  uv_qpn : 1 < qpn < 2 ^ 24 - 1;
  uv_qp : hc_qps h !! qpn = Some q /\ hc_pds h !! qp_pd q = Some pd;
  uv_type : qp_type q = IB_QPT_UD /\ a_port_num (qp_attr q) = port_num /\ a_qkey (qp_attr q) = qkey;
  uv_state : pib_is_recv_ok (qp_state q) = true;
  uv_recv : i_srq (qp_init_attr q) = None /\ rs_recv_wqes (qp_responder q) = w :: l;
  uv_fits : n <= rwqe_total_length w /\ GRH_SIZE + n <= sgl_length (rwqe_sge_array w);
  uv_sges : Forall (sge_ok pd IB_ACCESS_LOCAL_WRITE) (rwqe_sge_array w) /\ NoDup (sgl_addrs pd (rwqe_sge_array w));
  uv_cq : st_cqs (hc_st h) !! qp_recv_cq q = Some cq /\ cq_state cq = PIB_STATE_OK /\ cq_free_cqe_head cq <> [] }.

(** What the completion says of a datagram. *)
Definition wc_of_datagram (w : pib_recv_wqe) (qpn src slid n : Z) (imm : option Z) (wc : ib_wc) : Prop :=
  wc_wr_id wc = rwqe_wr_id w /\ wc_status wc = IB_WC_SUCCESS /\ wc_opcode wc = IB_WC_RECV /\ wc_byte_len wc = n + 40 /\ wc_src_qp wc = src /\ wc_slid wc = slid
  /\ wc_qp wc = qpn /\ wc_ex wc = default 0 imm /\ wc_flags wc = (match imm with Some _ => IB_WC_WITH_IMM | None => 0 end).

Section Receive.
Context {PP : Params}.

Lemma thread_receive_ud port_num lrh grh bth buffer : keeps st_thread (pib_receive_ud_qp_incoming_message port_num lrh grh bth buffer).
Proof.
  unfold pib_receive_ud_qp_incoming_message, ud_take_recv, ud_copy, copy_to_sgl, ud_completion_error, ud_abort_error, pib_util_flush_qp, flush_sends, flush_send_wqe,
    flush_recv_wqe, reset_contig, pib_util_insert_async_qp_event, pib_util_free_recv_wqe, qp_insert_wc_error, qp_insert_wc_success, with_cq, emit, get_swqe, the_qp,
    the_req, the_rsp, swqe_list_del, pib_util_free_send_wqe, upd_rsp, upd_req, upd_qp, the_qp,
    pib_util_insert_async_qp_error, pib_util_reschedule_qp, sched_take_off, sched_put, emit, the_qp, upd_qp. obey.
Qed.

(** The packet cut to what follows its headers passes the checks of the queue pair. *)
Lemma body_accepted (sq : st) (w : pib_send_wqe) qkey q port_num bth : qp_type q = IB_QPT_UD -> a_port_num (qp_attr q) = port_num ->
  pib_is_recv_ok (qp_state q) = true -> has_flag (bth_psn bth) 0x80000000 = false ->
  bth_OpCode bth = (if wqe_imm w then IB_OPCODE_UD_SEND_ONLY_WITH_IMMEDIATE else IB_OPCODE_UD_SEND_ONLY) -> 0 <= w_ex w < 2 ^ 32 ->
  let deth := {| deth_qkey := if s32 qkey <? 0 then a_qkey (qp_attr (st_qp sq)) else qkey; deth_srcQP := qp_num (st_qp sq) |} in
  deth_ok deth -> deth_qkey deth = a_qkey (qp_attr q) ->
  ud_accept q port_num bth (ud_body (wqe_imm w) (st_qp sq) w qkey (wqe_payload sq w)) = Some (deth, if wqe_imm w then w_ex w else 0, wqe_payload sq w).
Proof.
  intros Ht Hp Hst Hpsn Hop Hex deth Hok Hk. unfold ud_accept, ud_body. fold deth. set (b := deth_bytes deth ++ _). assert (deth_of b = deth) as Hd by (by apply deth_roundtrip).
  assert ((Zlen b <? DETH_SIZE) = false) as -> by (apply Z.ltb_ge; unfold b; rewrite Zlen_app; change (Zlen (deth_bytes deth)) with 8; pose proof (Zlen_nonneg ((if wqe_imm w then le_split 4 (w_ex w) else []) ++ wqe_payload sq w)); unfold DETH_SIZE; lia).
  rewrite Hst, Hpsn, Hop, Hd, Ht, Hp, Hk, !Z.eqb_refl. change (drop 8 b) with ((if wqe_imm w then le_split 4 (w_ex w) else []) ++ wqe_payload sq w).
  destruct (wqe_imm w); [|done]. set (im := le_split 4 (w_ex w)). cbv zeta. change (drop 4 (im ++ wqe_payload sq w)) with (wqe_payload sq w).
  change (take 4 (im ++ wqe_payload sq w)) with im. unfold im at 2. rewrite le_combine_split, Z.mod_small by done.
  assert ((Zlen (im ++ wqe_payload sq w) <? 4) = false) as -> by (apply Z.ltb_ge; rewrite Zlen_app; change (Zlen im) with 4; pose proof (Zlen_nonneg (wqe_payload sq w)); lia).
  reflexivity.
Qed.

(** The handler of the queue pair. *)
Lemma deliver_run ids s port_num lrh bth buffer deth imm payload w l cq : qp_wf ids s -> qp_type (st_qp s) = IB_QPT_UD -> i_srq (qp_init_attr (st_qp s)) = None ->
  ud_accept (st_qp s) port_num bth buffer = Some (deth, imm, payload) -> rs_recv_wqes (qp_responder (st_qp s)) = w :: l ->
  0 < Zlen payload <= rwqe_total_length w -> Zlen payload <= PIB_MAX_PAYLOAD_LEN -> Forall (sge_ok (st_pd s) IB_ACCESS_LOCAL_WRITE) (rwqe_sge_array w) ->
  NoDup (sgl_addrs (st_pd s) (rwqe_sge_array w)) -> GRH_SIZE + Zlen payload <= sgl_length (rwqe_sge_array w) ->
  st_cqs s !! qp_recv_cq (st_qp s) = Some cq -> cq_state cq = PIB_STATE_OK -> cq_free_cqe_head cq <> [] ->
  exists s' cq', deliver port_num lrh None bth buffer s = Some (tt, s') /\ ud_image None payload (sgl_addrs (st_pd s) (rwqe_sge_array w)) (st_mem s) (st_mem s')
  /\ rs_recv_wqes (qp_responder (st_qp s')) = l /\ st_cqs s' !! qp_recv_cq (st_qp s) = Some cq'
  /\ cq_cqe_head cq' = cq_cqe_head cq ++ [ud_wc (st_qp s) w lrh None bth deth imm payload] /\ st_thread s' = st_thread s.
Proof.
  intros Hwf Hty Hsrq Hacc Hrecv Hlen Hmax Hok Hnd Hend Hcq Hcst Hroom.
  pose proof (wp_ud_delivered ids s port_num lrh None bth buffer deth imm payload w l cq Hwf Hsrq Hacc Hrecv Hlen Hmax Hok Hnd Hend I Hcq) as H.
  pose proof (delivered_wc s lrh None bth deth imm payload w cq Hcst Hroom) as Hwc. unfold smi_port_of in Hwc at 2. rewrite Hty in Hwc. unfold wp in H.
  destruct (pib_receive_ud_qp_incoming_message port_num lrh None bth buffer s) as [[[] s1]|] eqn:E; [|done]. destruct H as (H1 & H2 & H3 & _ & _ & _ & Hwf1).
  destruct (reschedule_spec s1 (proj1 (proj2 (proj2 (proj2 (proj2 (wfo_env _ _ _ Hwf1))))))) as (s2 & E2 & _).
  pose proof (thread_reschedule s1 tt s2 E2) as K. injection K as K1 _ K3 K4 _ K6. eexists s2, _.
  unfold deliver. rewrite (bind_run the_qp _ s (st_qp s) s) by reflexivity. rewrite Hty, (bind_run _ _ _ _ _ E). split; [exact E2|]. rewrite K1, K3, K4, K6, H3, lookup_insert_eq.
  split_and!; [exact H1|exact H2|reflexivity|exact Hwc|exact (thread_receive_ud port_num lrh None bth buffer s tt s1 E)].
Qed.

(** The datagram at the device: the payload is in memory, the receive is taken, and the completion queue tells of it. *)
Lemma receive_run fb h port_num qpn pkey q pd w l cq sq ws ah qkey slid tail gb
    (Hr : ud_receiver h port_num (ah_dlid ah) qpn (if s32 qkey <? 0 then a_qkey (qp_attr (st_qp sq)) else qkey) pkey (Zlen (wqe_payload sq ws)) q pd w l cq)
    (Hd : 0 < ah_dlid ah < PIB_MCAST_LID_BASE) (Hslid : 0 < slid < 2 ^ 16) (Hpk : 0 <= pkey < 2 ^ 16) (Hlen : 0 < Zlen (wqe_payload sq ws) <= 4096)
    (Hsrc : 0 <= qp_num (st_qp sq) < 2 ^ 24) (Hex : 0 <= w_ex ws < 2 ^ 32) (Hqk : 0 <= a_qkey (qp_attr q) < 2 ^ 32) (Hgb : length gb = 8%nat)
    (Ht : Zlen tail = pad_of (Zlen (ud_body (wqe_imm ws) (st_qp sq) ws qkey (wqe_payload sq ws))) + 4) :
  exists h' q' cq' wc, process_incoming_message fb port_num (ud_packet sq ws ah qpn qkey slid pkey tail ++ gb) h = Some (tt, h')
  /\ ud_image None (wqe_payload sq ws) (sgl_addrs pd (rwqe_sge_array w)) (st_mem (hc_st h)) (st_mem (hc_st h'))
  /\ hc_qps h' !! qpn = Some q' /\ rs_recv_wqes (qp_responder q') = l
  /\ st_cqs (hc_st h') !! qp_recv_cq q = Some cq' /\ cq_cqe_head cq' = cq_cqe_head cq ++ [wc]
  /\ wc_of_datagram w (qp_num q) (qp_num (st_qp sq)) slid (Zlen (wqe_payload sq ws)) (if wqe_imm ws then Some (w_ex ws) else None) wc.
Proof.
  destruct Hr as [Hi Hl Hidle (p & Hp & Hact) (sp & Hsp & Hlid & Hpkey) Hqpn [Hq Hpd] (Hty & Hpn & Hqkey) Hst [Hsrq Hrecv] [Hf1 Hf2] [Hs1 Hs2] (Hc1 & Hc2 & Hc3)].
  set (pkt := ud_packet sq ws ah qpn qkey slid pkey tail).
  set (body := ud_body (wqe_imm ws) (st_qp sq) ws qkey (wqe_payload sq ws)) in *. set (psn := a_sq_psn (qp_attr (st_qp sq))). set (sol := has_flag (w_send_flags ws) IB_SEND_SOLICITED).
  assert (0 < Zlen body <= 4108) as Hlb by (by apply ud_body_length). assert (0 <= qpn < 2 ^ 24) as Hqpn' by lia.
  pose proof (pkt_parsed ah slid (ud_op ws) pkey qpn psn sol body (ud_op_byte ws) Hd Hslid Hpk Hqpn' Hlb tail Ht) as Hparse.
  destruct (pkt_headers ah slid (ud_op ws) pkey qpn psn sol body (ud_op_byte ws) Hd Hslid Hpk Hqpn' Hlb) as (_ & _ & Hpad & Hdest & Hkey & Hpsn & Hop & _).
  pose proof (pkt_body ah slid (ud_op ws) pkey qpn psn sol body (ud_op_byte ws) Hd Hslid Hpk Hqpn' Hlb tail Ht) as Hbody. cbv beta zeta in Hparse.
  set (bth := pkt_bth _ _ _ _ _ _) in *. set (lrh := pkt_lrh _ _ _) in *.
  set (h1 := counted port_num (Zlen pkt + 8) h).
  destruct (hi_qps _ Hi qpn q Hq) as (_ & pd0 & ids & Hpd0 & Hwf). assert (pd0 = pd) as -> by congruence.
  edestruct (deliver_run ids (load h q pd) port_num lrh bth body) as (s' & cq' & E & H1 & H2 & H3 & H4 & H5); try done.
  { apply body_accepted; try done. split; simpl; [rewrite <-Hqkey; done|lia]. }
  { lia. }
  { change PIB_MAX_PAYLOAD_LEN with (2 ^ 30). lia. }
  assert (exists p1, hc_ports h1 !! port_num = Some p1) as [p1 Hp1] by (unfold h1, counted; simpl; rewrite lookup_alter_eq, Hp; eauto).
  assert (hca_inv (relocked h1)) as Hi1 by (by apply inv_lock, inv_lock, inv_ports).
  pose proof (with_qp_run qpn _ (relocked h1) q pd tt s' Hi1 Hq Hpd (polite_deliver port_num lrh None bth body) E) as Ew.
  pose proof (per_qp_run fb h1 port_num (ah_dlid ah) qpn lrh bth body p1 sp q s' Hl Hp1 Hsp Hqpn Hlid Hq ltac:(by rewrite Hkey) Ew ltac:(rewrite H5; exact Hidle)) as Er.
  set (h2 := stored qpn (qp_pd q) s' (relocked h1)) in *. eexists h2, (st_qp s'), cq', _.
  split; [|split_and!; [exact H1|apply lookup_insert_eq|exact H2|exact H3|exact H4|]].
  - rewrite (incoming_run fb h port_num p pkt gb body tail lrh bth Hp Hact Hgb Hparse eq_refl Hbody ltac:(by rewrite Hpad) ltac:(by rewrite Hdest) (proj2 Hd)), Hdest. exact Er.
  - unfold wc_of_datagram. split_and!; try reflexivity.
    + change (Z.land (qp_num (st_qp sq)) (Z.ones 24) = qp_num (st_qp sq)). rewrite Z.land_ones, Z.mod_small by lia. done.
    + by destruct (wqe_imm ws).
    + change (Z.lor 0 (if bth_OpCode bth =? IB_OPCODE_UD_SEND_ONLY_WITH_IMMEDIATE then IB_WC_WITH_IMM else 0) = match (if wqe_imm ws then Some (w_ex ws) else None) with Some _ => IB_WC_WITH_IMM | None => 0 end).
      rewrite Hop. unfold ud_op. by destruct (wqe_imm ws).
Qed.
End Receive.

(** ** Theorem *)

(** C5. A datagram crosses the fabric.  The scheduler of a device takes up the request at the
    head of the send queue of a UD queue pair and sends one datagram to pibnetd, which
    forwards it, as it came, to the address of the port the destination LID leads to.  The
    device there puts the bytes the request named into the memory the oldest receive of the
    destination queue pair names, 40 bytes on, and no other byte changes; the receive is
    taken off its queue, and one completion at the end of the receive CQ tells the length,
    the source queue pair, the source LID and the immediate data. *)
Theorem datagram_delivered {PP : Params} (ahs : gmap Z ib_ah_attr) (fa fb : fabric) (g : Z) (fuel : nat) (ha hb : hca) (s : netd) (na : Z) (a b : sockaddr) (gb : list Z)
    (qa : pib_qp) (pda : Mr.pib_pd) (id : Z) (wa : pib_send_wqe) (ah : ib_ah_attr) (qpn qkey : Z) (port : State.pib_port) (pkey port_num : Z)
    (qb : pib_qp) (pdb : Mr.pib_pd) (wb : pib_recv_wqe) (l : list pib_recv_wqe) (cq : pib_cq)
    (Hs : ud_sender ahs fa ha na gb qa pda id wa ah qpn qkey port pkey) (Hguid : be_combine gb <> 0) (Hsrc : 0 <= qp_num qa < 2 ^ 24) (Hex : 0 <= w_ex wa < 2 ^ 32)
    (Hn : routed s (be_combine gb) (ah_dlid ah) b)
    (Hr : ud_receiver hb port_num (ah_dlid ah) qpn (if s32 qkey <? 0 then a_qkey (qp_attr qa) else qkey) pkey (w_total_length wa) qb pdb wb l cq)
    (Hqk : 0 <= a_qkey (qp_attr qb) < 2 ^ 32) :
  let n := w_total_length wa in
  let dest := slice GRH_SIZE n (sgl_addrs pdb (rwqe_sge_array wb)) in
  exists again ha' s' hb' data qb' cq' wc,
    qp_scheduler_turn ahs fa ha = Some (again, ha') /\ hc_sent ha' = hc_sent ha ++ [(na, data)]
    /\ Netd.receive_packet g fuel [SysOk (a, data)] s = Some (Next tt, s') /\ nt_sent s' = nt_sent s ++ [(b, data)]
    /\ process_incoming_message fb port_num data hb = Some (tt, hb')
    /\ st_mem (hc_st hb') <$> dest = st_mem (hc_st ha) <$> slice 0 n (sgl_addrs pda (w_sge_array wa))
    /\ (forall x, x ∉ dest -> st_mem (hc_st hb') x = st_mem (hc_st hb) x)
    /\ hc_qps hb' !! qpn = Some qb' /\ rs_recv_wqes (qp_responder qb') = l
    /\ st_cqs (hc_st hb') !! qp_recv_cq qb = Some cq' /\ cq_cqe_head cq' = cq_cqe_head cq ++ [wc]
    /\ wc_of_datagram wb (qp_num qb) (qp_num qa) (port_lid port) n (if wqe_imm wa then Some (w_ex wa) else None) wc.
Proof.
  intros n dest. destruct (sender_turn ahs fa ha na gb qa pda id wa ah qpn qkey port pkey Hs) as (again & ha' & tail & E1 & Ht & Hsent).
  destruct (us_lids _ _ _ _ _ _ _ _ _ _ _ _ _ _ Hs) as [Hd Hslid]. pose proof (us_pkey _ _ _ _ _ _ _ _ _ _ _ _ _ _ Hs) as Hpk.
  destruct (us_guid _ _ _ _ _ _ _ _ _ _ _ _ _ _ Hs) as [_ Hgl]. pose proof (us_ready _ _ _ _ _ _ _ _ _ _ _ _ _ _ Hs) as Hrd.
  pose proof (Zlen_payload _ _ _ _ _ _ _ _ Hrd) as Hpl. pose proof (ur_len _ _ _ _ _ _ _ _ Hrd) as Hlen. pose proof (uv_qpn _ _ _ _ _ _ _ _ _ _ _ _ Hr) as Hqpn.
  set (sa := load ha qa pda) in *. fold n in Hpl, Hlen, Hr. rewrite <-Hpl in Hr, Hlen.
  pose proof (ud_body_length sa wa qkey Hlen) as Hlb. assert (0 <= qpn < 2 ^ 24) as Hqpn' by lia.
  set (psn := a_sq_psn (qp_attr qa)). set (sol := has_flag (w_send_flags wa) IB_SEND_SOLICITED).
  pose proof (pkt_datagram ah (port_lid port) (ud_op wa) pkey qpn psn sol _ (ud_op_byte wa) Hd Hslid Hpk Hqpn' Hlb tail Ht gb Hgl Hguid) as Hdg.
  destruct (pkt_headers ah (port_lid port) (ud_op wa) pkey qpn psn sol _ (ud_op_byte wa) Hd Hslid Hpk Hqpn' Hlb) as (_ & _ & _ & Hdest & _).
  destruct (route_run g fuel s a _ _ _ _ b Hdg Hn ltac:(by rewrite Hdest) Hd) as (s' & E2 & Hs' & _).
  destruct (receive_run fb hb port_num qpn pkey qb pdb wb l cq sa wa ah qkey (port_lid port) tail gb Hr Hd Hslid Hpk Hlen Hsrc Hex Hqk Hgl Ht)
    as (hb' & qb' & cq' & wc & E3 & (M1 & M2 & M3) & H1 & H2 & H3 & H4 & H5).
  rewrite Hpl in M1, M3, H5. fold dest in M1, M3.
  eexists again, ha', s', hb', _, qb', cq', wc. split_and!; [exact E1|exact Hsent|exact E2|exact Hs'|exact E3|exact M1| |exact H1|exact H2|exact H3|exact H4|exact H5].
  intros x Hx. destruct (decide (x ∈ slice 0 GRH_SIZE (sgl_addrs pdb (rwqe_sge_array wb)))) as [Hin|Hout]; [by apply M2|by apply M3].
Qed.

(** ** Witness *)

#[local] Existing Instance demo_params.

(** Two devices with one UD queue pair each.  The sender has a request of three bytes for
    QP 7 at LID 7, which the switch leads to its port 2. *)
Definition wire_ah : ib_ah_attr :=
  {| ah_grh := ah_grh demo_ah; ah_dlid := 7; ah_sl := 0; ah_src_path_bits := 0; ah_ah_flags := 0; ah_port_num := 1 |}.
Definition wire_wqe : pib_send_wqe := (demo_swqe 101 3 PIB_SWQE_SUBMITTED 0 0 0) <| w_wr := WrUd (Some (1, 1)) 7 0 0 1 |>.
Definition wire_requester (w : pib_send_wqe) (psn : Z) : requester_t :=
  demo_requester <| rq_nr_sending := 0 |> <| rq_sending := [] |> <| rq_nr_waiting := 0 |> <| rq_waiting := [] |> <| rq_free := [0; 2; 3; 4] |>
    <| rq_swqes := <[1 := w]> demo_swqes |> <| rq_expected_psn := psn |>.
Definition wire_qp_of (ty : ib_qp_type) (attr : ib_qp_attr) (w : pib_send_wqe) (psn : Z) : pib_qp :=
  demo_qp <| qp_type := ty |> <| qp_attr := attr |> <| qp_requester := wire_requester w psn |>.
Definition wire_qp : pib_qp := wire_qp_of IB_QPT_UD demo_attr wire_wqe 10.
Definition wire_port (lid guid : Z) : State.pib_port :=
  {| port_lid := lid; port_active_mtu := IB_MTU_4096; port_pkey_table := [0xFFFF]; port_gid0_prefix := []; port_gids := [replicate 15 0 ++ [guid]] |}.
Definition wire_hca_of (q : pib_qp) (lid guid : Z) : hca :=
  demo_hca <| hc_qps := {[ 7 := q ]} |> <| hc_qp_head := [7] |>
    <| hc_st ::= fun s => s <| st_ports := {[ 1 := wire_port lid guid ]} |> <| st_sched ::= fun d => d <| qs_tree := [{| se_time := 1000; se_tid := 5; se_qp := 7 |}] |> |> |>.
Definition wire_hca (lid guid : Z) : hca := wire_hca_of wire_qp lid guid.

Lemma wire_own w psn : rq_own [0; 1; 2; 3; 4] [] (wire_requester w psn).
Proof.
  destruct demo_own as (H1 & H2 & _). split; [exact H1|]. split.
  - intros id. rewrite H2. change (rq_swqes (wire_requester w psn)) with (<[1 := w]> demo_swqes). by apply insert_some_iff with (demo_swqe 101 700 PIB_SWQE_SUBMITTED 0 0 0).
  - apply (perm_skip 0). symmetry. apply (Permutation_cons_append [2; 3; 4] 1).
Qed.

Lemma wire_member ty attr w psn lid guid : ty = IB_QPT_UD \/ ty = IB_QPT_RC -> sched_member (load (wire_hca_of (wire_qp_of ty attr w psn) lid guid) (wire_qp_of ty attr w psn) (st_pd demo_st)).
Proof. intros [-> | ->]; (split; [apply NoDup_singleton|]; split; [intros _; by left|done]). Qed.

Lemma wire_inv_of ty attr w psn lid guid : ty = IB_QPT_UD \/ ty = IB_QPT_RC -> a_timeout attr = 14 -> hca_inv (wire_hca_of (wire_qp_of ty attr w psn) lid guid).
Proof.
  intros Hty Hto. split.
  - intros i q Hq. change (({[ 7 := wire_qp_of ty attr w psn ]} : gmap Z pib_qp) !! i = Some q) in Hq. apply lookup_singleton_Some in Hq as [<- <-]. split; [by destruct Hty as [-> | ->]|].
    exists (st_pd demo_st), [0; 1; 2; 3; 4]. split; [done|]. destruct demo_wf as [(E1 & E2 & E3 & E4 & _ & E7) W2 W3 W4].
    split; [|apply wire_own|done|done]. unfold qp_env. do 4 (split; [done|]). split; [by apply wire_member|]. change (0 <= a_timeout attr < 32). lia.
  - intros i Hi. change (i ∈ [7]) in Hi. apply list_elem_of_singleton in Hi as ->. by eexists.
  - apply NoDup_singleton.
  - apply demo_hca_inv.
  - constructor.
  - intros c Hc. by apply elem_of_nil in Hc.
Qed.
Lemma wire_inv lid guid : hca_inv (wire_hca lid guid).
Proof. apply wire_inv_of; [by left|done]. Qed.

Lemma wire_sge addr n flags : 0x10000 <= addr -> 0 <= n -> addr + n <= 0x11000 -> Z.land 15 flags = flags ->
  sge_ok (st_pd demo_st) flags {| sge_addr := addr; sge_length := n; sge_lkey := 0x100000 |}.
Proof.
  intros Ha Hn Hl Hf. split; [simpl; lia|]. replace (pd_mr_table _ !! _) with (Some demo_mr) by (vm_compute; reflexivity).
  split; [exact ud_demo_mr|]. simpl. split_and!; done || lia.
Qed.

Lemma wire_sender : ud_sender {[ 1 := wire_ah ]} multi_host (wire_hca 1 0x11) 77 (replicate 7 0 ++ [0x11]) wire_qp (st_pd demo_st) 1 wire_wqe wire_ah 7 0 (wire_port 1 0x11) 0xFFFF.
Proof.
  split; [apply wire_inv|reflexivity|split; reflexivity|reflexivity|exists 7; split; reflexivity|reflexivity| | |exists demo_hport; split; reflexivity|split; reflexivity|split; split; vm_compute; congruence|split; vm_compute; congruence..].
  - exists []. split; [reflexivity..|vm_compute; congruence|vm_compute; congruence].
  - split; [eexists _, 0, 1; split; reflexivity|vm_compute; reflexivity|reflexivity|reflexivity|congruence|vm_compute; reflexivity|reflexivity| |split; vm_compute; congruence|vm_compute; congruence|by eexists].
    constructor; [apply wire_sge; done|constructor].
Qed.

Lemma wire_routed : routed demo_netd (be_combine (replicate 7 0 ++ [0x11])) 7 (SaIn 2 2).
Proof.
  split; [vm_compute; congruence|]. split; [exact demo_table_ok|]. split; [reflexivity|]. split; [exists demo_p0; split; [reflexivity|vm_compute; congruence]|].
  split; [split; vm_compute; congruence|reflexivity].
Qed.

Lemma wire_receiver : ud_receiver (wire_hca 7 0x22) 1 7 7 0 0xFFFF 3 wire_qp (st_pd demo_st) demo_rwqe [] (demo_cq 2).
Proof.
  split; [apply wire_inv|reflexivity|reflexivity|exists demo_hport; split; reflexivity|exists (wire_port 7 0x22); split_and!; reflexivity|lia|split; reflexivity|
    split_and!; reflexivity|reflexivity|split; reflexivity|split; vm_compute; congruence| |split_and!; [reflexivity|reflexivity|vm_compute; congruence]].
  split; [constructor; [apply wire_sge; done|constructor]|]. apply (bool_decide_unpack _). vm_compute. exact I.
Qed.

(** The three bytes at 0x10010 of the sender are 40 bytes behind 0x10010 of the receiver. *)
Lemma datagram_delivered_witness : exists again ha' s' hb' data,
  qp_scheduler_turn {[ 1 := wire_ah ]} multi_host (wire_hca 1 0x11) = Some (again, ha') /\ hc_sent ha' = [(77, data)]
  /\ Netd.receive_packet 0 0 [SysOk (SaIn 1 1, data)] demo_netd = Some (Next tt, s') /\ nt_sent s' = [(SaIn 2 2, data)]
  /\ process_incoming_message multi_host 1 data (wire_hca 7 0x22) = Some (tt, hb')
  /\ map (st_mem (hc_st hb')) [0x8038; 0x8039; 0x803A] = map mem_example [0x8010; 0x8011; 0x8012].
Proof.
  destruct (datagram_delivered {[ 1 := wire_ah ]} multi_host multi_host 0 0 (wire_hca 1 0x11) (wire_hca 7 0x22) demo_netd 77 (SaIn 1 1) (SaIn 2 2)
    (replicate 7 0 ++ [0x11]) wire_qp (st_pd demo_st) 1 wire_wqe wire_ah 7 0 (wire_port 1 0x11) 0xFFFF 1 wire_qp (st_pd demo_st) demo_rwqe [] (demo_cq 2)
    wire_sender ltac:(vm_compute; congruence) ltac:(split; vm_compute; congruence) ltac:(split; vm_compute; congruence) wire_routed wire_receiver
    ltac:(split; vm_compute; congruence)) as (again & ha' & s' & hb' & data & _ & _ & _ & E1 & E2 & E3 & E4 & E5 & E6 & _).
  exists again, ha', s', hb', data. split; [exact E1|]. split; [exact E2|]. split; [exact E3|]. split; [exact E4|]. split; [exact E5|exact E6].
Defined.
