(* ===== verification/RcSendThm.v ===== *)
(** * A SEND of one packet

    The requester of a reliable connection and a message of one packet: the packet in the
    send buffer, byte for byte, and the request that waits for its acknowledge behind the
    pass of the scheduler. *)

From S2P Require Import Prelude Verbs Lib ObjNum Cq Srq Mr MrSafe State Sched Qp QpInv QpThm Packet Wire Rc RcThm RcRsp RcResp RcRespThm Ud UdThm Requester RequesterThm Hca Frame HcaThm Transit UdSendThm.

Section RcSend.
Context {PP : Params}.

(** ** Building a packet *)

(** The connection: the port it leaves from, without a global route header. *)
Record connected (s : st) (port : pib_port) (pkey : Z) : Prop := {
  cn_port : st_ports s !! a_port_num (qp_attr (st_qp s)) = Some port;
  cn_grh : has_flag (ah_ah_flags (a_ah_attr (qp_attr (st_qp s)))) IB_AH_GRH = false;
  cn_pkey : port_pkey_table port !! Z.to_nat (a_pkey_index (qp_attr (st_qp s))) = Some pkey }.
Definition buffer_ok (s : st) : Prop := Zlen (th_send_buffer (st_thread s)) = PIB_PACKET_BUFFER.

Definition first_hdrs (ah : ib_ah_attr) (slid op pkey qpn psn : Z) : hdrs :=
  {| h_lrh := {| lrh_dlid := ah_dlid ah; lrh_vl_lver := 0; lrh_sl_rsv_lnh := u8 (Z.lor (Z.shiftl (ah_sl ah) 4) 2); lrh_slid := slid; lrh_pktlen := 0 |};
     h_grh := None;
     h_bth := {| bth_OpCode := op; bth_se_m_padcnt_tver := 0; bth_pkey := pkey; bth_destQP := u32 qpn; bth_psn := Z.land (u32 psn) PIB_PSN_MASK |} |}.

Lemma start_packet_run s port pkey clear psn : connected s port pkey -> buffer_ok s -> 0 <= clear <= 72 ->
  let q := st_qp s in
  exists h0 k0, start_packet clear psn s = Some (first_hdrs (a_ah_attr (qp_attr q)) (port_lid port) 0 pkey (a_dest_qp_num (qp_attr q)) psn, with_buf s (h0 ++ k0))
  /\ length h0 = 20%nat /\ length k0 = Z.to_nat 8172.
Proof.
  intros [Hport Hgrh Hpkey] Hbuf Hc q. destruct (cleared_split _ clear Hbuf Hc) as (h0 & k0 & Hb & Hh & Hk). exists h0, k0. split; [|done].
  set (b0 := th_send_buffer (st_thread s)) in *.
  unfold start_packet. rewrite (bind_run the_qp _ s q s) by reflexivity. erewrite bind_run by (unfold the_port, gets, bind, of_option; fold q in Hport; rewrite Hport; reflexivity).
  rewrite (bind_run send_buffer _ s b0 s) by reflexivity. rewrite (bind_run (put_buffer _) _ s tt (with_buf s (h0 ++ k0))) by (rewrite <-Hb; reflexivity).
  fold q in Hgrh, Hpkey. rewrite Hgrh. erewrite (bind_run (ret None)) by reflexivity. rewrite Hpkey. erewrite (bind_run (of_option _)) by reflexivity. reflexivity.
Qed.

(** A message of one packet. *)
Definition rc_op (w : pib_send_wqe) : Z := if wqe_imm w then IB_OPCODE_SEND_ONLY_WITH_IMMEDIATE else IB_OPCODE_SEND_ONLY.
Definition rc_body (s : st) (w : pib_send_wqe) : list Z := (if wqe_imm w then le_split 4 (w_ex w) else []) ++ wqe_payload s w.
Definition rc_solicited (w : pib_send_wqe) : bool := has_flag (w_send_flags w) IB_SEND_SOLICITED.

Record one_message (s : st) (w : pib_send_wqe) : Prop := {
  om_opcode : w_opcode w = IB_WR_SEND \/ w_opcode w = IB_WR_SEND_WITH_IMM;
  om_remote : w_local_only_request w = false;
  om_inline : has_flag (w_send_flags w) IB_SEND_INLINE = false;
  om_sges : Forall (sge_ok (st_pd s) 0) (w_sge_array w);
  om_len : 0 < w_total_length w <= pmtu_of (st_qp s);
  om_mtu : 1 <= a_path_mtu (qp_attr (st_qp s)) <= 5;
  om_sgl : w_total_length w <= sgl_length (w_sge_array w) }.

Lemma pmtu_max q : 1 <= a_path_mtu (qp_attr q) <= 5 -> pmtu_of q <= 4096.
Proof.
  intros Hm. rewrite pmtu_bytes by done. set (m := a_path_mtu _) in *.
  assert (m = 1 \/ m = 2 \/ m = 3 \/ m = 4 \/ m = 5) as [-> | [-> | [-> | [-> | ->]]]] by lia; done.
Qed.

Lemma Zlen_rc_payload s w : one_message s w -> Zlen (wqe_payload s w) = w_total_length w.
Proof. intros []. apply Zlen_wqe_payload; [done|lia|done]. Qed.

Lemma Zlen_rc_body s w : one_message s w -> 0 < Zlen (rc_body s w) <= 4108.
Proof.
  intros Hm. pose proof (Zlen_rc_payload s w Hm) as Hl. pose proof (om_len _ _ Hm). pose proof (pmtu_max _ (om_mtu _ _ Hm)). unfold rc_body. rewrite Zlen_app, Hl.
  destruct (wqe_imm w); [change (Zlen (le_split 4 (w_ex w))) with 4|change (Zlen []) with 0]; lia.
Qed.

Lemma build_run s w ah slid pkey qpn psn h0 k0 : one_message s w -> p_all_packets (w_processing w) = 1 -> p_sent_packets (w_processing w) = 0 ->
  length h0 = 20%nat -> length k0 = Z.to_nat 8172 ->
  exists k, build_request w (first_hdrs ah slid 0 pkey qpn psn) (with_buf s (h0 ++ k0))
            = Some (IB_WC_SUCCESS, with_buf s (pkt_of ah slid (rc_op w) pkey qpn psn (rc_solicited w) (rc_body s w) k))
  /\ Zlen (pkt_of ah slid (rc_op w) pkey qpn psn (rc_solicited w) (rc_body s w) k) = PIB_PACKET_BUFFER.
Proof.
  intros Hm Hall Hsent Hh0 Hk0. pose proof (Zlen_rc_payload s w Hm) as Hpl. pose proof (Zlen_rc_body s w Hm) as Hbl. pose proof (pmtu_max _ (om_mtu _ _ Hm)) as Hmax.
  destruct Hm as [Hop Hloc Hin Hok Hlen Hmtu Hsgl]. set (imm := wqe_imm w). set (payload := wqe_payload s w) in *. set (body := rc_body s w) in *.
  unfold build_request. rewrite Hall, Hsent. set (h := first_hdrs ah slid (rc_op w) pkey qpn psn).
  assert (request_opcode (w_opcode w) 1 0 = Some (rc_op w, false, imm, false)) as -> by (unfold imm, rc_op, wqe_imm; by destruct Hop as [-> | ->]).
  change {| h_lrh := _; h_grh := _; h_bth := _ |} with h. rewrite (bind_run _ _ _ _ _ (put_hdrs_run s (h0 ++ k0) h)). rewrite buf_write_hdr by (rewrite length_hdrs; done).
  set (hb := hdrs_bytes h). assert (Zlen hb = 20) as Hhb by done. unfold process_SEND_or_RDMA_WRITE_request.
  rewrite (proj2 (Z.ltb_ge _ _)) by (change PIB_MAX_PAYLOAD_LEN with (2 ^ 30); lia).
  rewrite (bind_run the_qp _ _ (st_qp s) (with_buf s (hb ++ k0))) by reflexivity. change (hdrs_size h) with (Zlen hb).
  rewrite (bind_run (ret _) _ _ (Zlen hb) (with_buf s (hb ++ k0))) by reflexivity.
  assert (exists ib, (if imm then put_at (Zlen hb) (le_split 4 (w_ex w)) else ret (Zlen hb)) (with_buf s (hb ++ k0))
          = Some (Zlen (hb ++ ib), with_buf s ((hb ++ ib) ++ drop (length ib) k0)) /\ ib = (if imm then le_split 4 (w_ex w) else [])) as (ib & Eib & Hib).
  { destruct imm; [exists (le_split 4 (w_ex w))|exists []]; (split; [|done]).
    - by rewrite put_at_run, buf_write_at, <-Zlen_app, <-!app_assoc.
    - by rewrite app_nil_r, drop_0. }
  rewrite (bind_run _ _ _ _ _ Eib). rewrite (bind_run (ret _) _ _ (Zlen (hb ++ ib)) (with_buf s ((hb ++ ib) ++ drop (length ib) k0))) by reflexivity.
  assert (packet_payload (st_qp s) w = (0, w_total_length w)) as ->.
  { unfold packet_payload. rewrite Hall, Hsent. change (1 - 0 =? 1) with true. change (u32 (0 * 128)) with 0. rewrite Z.shiftl_0_l. change (u32 0) with 0.
    f_equal. rewrite Z.sub_0_r. apply wrap_small. lia. }
  assert (length ib <= 4)%nat as Hil by (rewrite Hib; destruct imm; simpl; lia).
  erewrite bind_run by (apply put_payload_run; [exact Hin|exact Hok|change PIB_MAX_PAYLOAD_LEN with (2 ^ 30); lia|exact Hsgl|unfold Zlen; rewrite length_drop; lia]).
  change (st_mem s <$> _) with payload. rewrite bool_decide_eq_true_2 by done. cbn [negb].
  assert (Zlen (hb ++ ib) + w_total_length w = 20 + Zlen body) as -> by (unfold body, rc_body; fold imm; rewrite <-Hib, !Zlen_app; fold payload; rewrite Hpl, Hhb; lia).
  rewrite <-!app_assoc. rewrite (bind_run _ _ _ _ _ (finish_run s ah slid (rc_op w) pkey qpn psn (Zlen body) (rc_solicited w) _ hb ltac:(lia) ltac:(done))).
  set (k' := drop (Z.to_nat (w_total_length w)) _). exists k'.
  assert (pkt_of ah slid (rc_op w) pkey qpn psn (rc_solicited w) body k' = packet_bytes (pkt_lrh ah slid (Zlen body)) None (pkt_bth (rc_op w) pkey qpn psn (Zlen body) (rc_solicited w)) [] ++ ib ++ payload ++ k') as Hp.
  { unfold pkt_of. unfold body at 3, rc_body. fold imm payload. rewrite <-Hib. unfold packet_bytes. by rewrite <-!app_assoc, ?app_nil_r. }
  rewrite Hp. split; [reflexivity|]. set (fin := packet_bytes _ _ _ []). assert (Zlen fin = 20) as Hfin by done. rewrite !Zlen_app, Hfin, Hpl.
  unfold k', Zlen, PIB_PACKET_BUFFER. rewrite !length_drop, Hk0. lia.
Qed.

(** The thread is told where the packet in the buffer goes. *)
Definition told (s : st) (port : pib_port) (trace_id : Z) (b : list Z) : st :=
  (with_buf s b) <| st_thread ::= fun t => t <| th_port_num := a_port_num (qp_attr (st_qp s)) |> <| th_slid := port_lid port |>
    <| th_dlid := ah_dlid (a_ah_attr (qp_attr (st_qp s))) |> <| th_src_qp_num := qp_num (st_qp s) |> <| th_trace_id := trace_id |> <| th_ready_to_send := true |> |>.

Lemma told_has s port trace_id b :
  thread_has (st_thread (told s port trace_id b)) b (a_port_num (qp_attr (st_qp s))) (port_lid port) (ah_dlid (a_ah_attr (qp_attr (st_qp s)))) (qp_num (st_qp s)).
Proof. done. Qed.

Lemma ready_run s port trace_id b : st_ports s !! a_port_num (qp_attr (st_qp s)) = Some port -> ready_to_send trace_id (with_buf s b) = Some (tt, told s port trace_id b).
Proof.
  intros Hp. unfold ready_to_send. rewrite (bind_run the_qp _ _ (st_qp s) (with_buf s b)) by reflexivity.
  erewrite bind_run by (unfold the_port, gets, bind, of_option; change (st_ports (with_buf s b)) with (st_ports s); rewrite Hp; reflexivity). reflexivity.
Qed.

(** ** The requester *)

Definition sent_one (w : pib_send_wqe) : pib_send_wqe := w <| w_processing ::= fun p => p <| p_sent_packets ::= fun n => u32 (n + 1) |> |>.
Definition awaits (s : st) (w : pib_send_wqe) : pib_send_wqe :=
  w <| w_processing ::= fun p => p <| p_list_type := PIB_SWQE_WAITING |> <| p_local_ack_time := u64 (st_now s + qp_local_ack_timeout (st_qp s)) |> |>.
Definition one_contig (s : st) : st := s <| st_qp ::= fun q => q <| qp_requester ::= fun r => r <| rq_nr_contig_requests ::= Z.add 1 |> |> |>.

Lemma swqes_alt s id f w : rq_swqes (qp_requester (st_qp s)) !! id = Some w -> rq_swqes (qp_requester (st_qp (alt id f s))) !! id = Some (f w).
Proof. intros Hw. change (alter f id (rq_swqes (qp_requester (st_qp s))) !! id = Some (f w)). by rewrite lookup_alter_eq, Hw. Qed.

Lemma rc_request_run s id w port pkey : connected s port pkey -> buffer_ok s -> one_message s w -> rq_swqes (qp_requester (st_qp s)) !! id = Some w ->
  p_all_packets (w_processing w) = 1 -> p_sent_packets (w_processing w) = 0 -> 0 <= p_retry_cnt (w_processing w) -> 0 <= p_rnr_retry (w_processing w) ->
  let q := st_qp s in
  let pkt := pkt_of (a_ah_attr (qp_attr q)) (port_lid port) (rc_op w) pkey (a_dest_qp_num (qp_attr q)) (u32 (p_based_psn (w_processing w) + 0)) (rc_solicited w) (rc_body s w) in
  exists k, pib_process_rc_qp_request id s = Some (0, alt id (awaits s) (one_contig (alt id sent_one (told s port id (pkt k))))) /\ Zlen (pkt k) = PIB_PACKET_BUFFER.
Proof.
  intros Hc Hbuf Hm Hw Hall Hsent Hr1 Hr2 q pkt. unfold pib_process_rc_qp_request. rewrite (bind_run _ _ _ _ _ (get_swqe_run _ _ _ Hw)), (om_remote _ _ Hm).
  rewrite !(proj2 (Z.ltb_ge _ _)), Hsent by lia. set (psn := u32 (p_based_psn (w_processing w) + 0)) in *.
  destruct (start_packet_run s port pkey 60 psn Hc Hbuf ltac:(lia)) as (h0 & k0 & E0 & Hh0 & Hk0). rewrite (bind_run _ _ _ _ _ E0).
  destruct (build_run s w (a_ah_attr (qp_attr q)) (port_lid port) pkey (a_dest_qp_num (qp_attr q)) psn h0 k0 Hm Hall Hsent Hh0 Hk0) as (k & E1 & Hk).
  exists k. split; [|exact Hk]. rewrite (bind_run _ _ _ _ _ E1), bool_decide_eq_true_2 by done. cbn [negb].
  rewrite (bind_run _ _ _ _ _ (ready_run s port id _ (cn_port _ _ _ Hc))). fold q. fold (pkt k).
  assert ((w_opcode w =? IB_WR_RDMA_READ) = false) as -> by (by destruct (om_opcode _ _ Hm) as [-> | ->]). cbn [negb].
  set (s1 := told s port id (pkt k)). assert (rq_swqes (qp_requester (st_qp s1)) !! id = Some w) as Hw1 by exact Hw.
  rewrite (bind_run (upd_proc _ _) _ s1 tt (alt id sent_one s1)) by reflexivity. rewrite (bind_run (upd_req _) _ _ tt (one_contig (alt id sent_one s1))) by reflexivity.
  pose proof (swqes_alt s1 id sent_one w Hw1) as Hw2. erewrite bind_run by (apply get_swqe_run; exact Hw2).
  assert ((p_sent_packets (w_processing (sent_one w)) <? p_all_packets (w_processing (sent_one w))) = false) as ->.
  { change (p_sent_packets (w_processing (sent_one w))) with (u32 (p_sent_packets (w_processing w) + 1)). change (p_all_packets (w_processing (sent_one w))) with (p_all_packets (w_processing w)).
    by rewrite Hall, Hsent. }
  reflexivity.
Qed.

(** The queue pair changed by the scheduler's record of it only. *)
Definition resched (s : st) (on : bool) (t tid : Z) (d : pib_qp_sched) (f : bool) : st :=
  s <| st_qp ::= fun q => q <| qp_sched_on := on |> <| qp_sched_time := t |> <| qp_sched_tid := tid |> |> <| st_sched := d |> <| st_qp_schedule_flag := f |>.

Lemma reschedule_run s : sched_member s ->
  let rest := sched_erase (qp_id (st_qp s)) (qs_tree (st_sched s)) in
  exists on t tid d f, pib_util_reschedule_qp s = Some (tt, resched s on t tid d f) /\ sched_member (resched s on t tid d f)
  /\ forall u, schedule_time_of (st_now s) (st_qp s) = Some u ->
       qs_tree d = sched_insert {| se_time := u; se_tid := qs_master_tid (st_sched s); se_qp := qp_id (st_qp s) |} rest.
Proof.
  intros Hm rest. destruct (reschedule_spec s Hm) as (s' & E & Hm' & Hcase & _). pose proof E as E'. unfold pib_util_reschedule_qp in E'.
  rewrite (bind_run _ _ _ _ _ (sched_take_off_run s Hm)), (bind_run _ _ _ (st_qp (off_tree s)) (off_tree s)), (bind_run _ _ _ (st_now (off_tree s)) (off_tree s)) in E' by done.
  change (schedule_time_of (st_now (off_tree s)) (st_qp (off_tree s))) with (schedule_time_of (st_now s) (st_qp s)) in E'.
  destruct (schedule_time_of (st_now s) (st_qp s)) as [t|].
  - destruct (sched_put_run t (off_tree s)) as (e & tr & _ & Ep). rewrite Ep in E'. injection E' as <-. rewrite E. eexists true, t, _, _, _. split; [reflexivity|]. split; [exact Hm'|].
    intros u [= <-]. exact (proj1 Hcase).
  - injection E' as <-. rewrite E. exists false, (qp_sched_time (st_qp s)), (qp_sched_tid (st_qp s)), (st_sched (off_tree s)), (st_qp_schedule_flag s).
    assert (resched s false (qp_sched_time (st_qp s)) (qp_sched_tid (st_qp s)) (st_sched (off_tree s)) (st_qp_schedule_flag s) = off_tree s) as -> by (by destruct s as [[] ? ? ? ? ? ? ? ? ? ? ? ?]).
    by split_and!.
Qed.

(** An RC queue pair whose next request is [id], and may be sent. *)
Record rc_next (s : st) (id : Z) (sub : list Z) (w : pib_send_wqe) : Prop := {
  rn_type : qp_type (st_qp s) = IB_QPT_RC;
  rn_state : qp_state (st_qp s) = IB_QPS_RTS;
  rn_acks : rs_acks (qp_responder (st_qp s)) = [];
  rn_waiting : rq_waiting (qp_requester (st_qp s)) = [];
  rn_sending : rq_sending (qp_requester (st_qp s)) = [];
  rn_submitted : rq_submitted (qp_requester (st_qp s)) = id :: sub;
  rn_entry : rq_swqes (qp_requester (st_qp s)) !! id = Some w;
  rn_status : p_status (w_processing w) = IB_WC_SUCCESS;
  rn_free : new_send_blocked (qp_requester (st_qp s)) w = false;
  rn_contig : rq_nr_contig_requests (qp_requester (st_qp s)) <= PIB_MAX_CONTIG_REQUESTS;
  rn_retry : 0 <= a_retry_cnt (qp_attr (st_qp s)) /\ 0 <= a_rnr_retry (qp_attr (st_qp s)) }.

(** The request [id], described by [w], was sent and waits for its acknowledge. *)
Record awaiting (r r' : requester_t) (id : Z) (sub : list Z) (w : pib_send_wqe) : Prop := {
  aw_waiting : rq_waiting r' = [id];
  aw_sending : rq_sending r' = [];
  aw_submitted : rq_submitted r' = sub;
  aw_free : rq_free r' = rq_free r;
  aw_entry : exists p, rq_swqes r' !! id = Some (w <| w_processing := p |>) /\ p_status p = IB_WC_SUCCESS /\ p_based_psn p = rq_expected_psn r
             /\ p_expected_psn p = u32 (rq_expected_psn r + 1) /\ p_ack_packets p = 0 /\ p_all_packets p = 1 }.

Lemma one_rc_packet q w s : st_qp s = q -> one_message s w -> pib_get_num_of_packets IB_QPT_RC (a_path_mtu (qp_attr q)) (w_total_length w) = 1.
Proof.
  intros <- Hm. pose proof (om_mtu _ _ Hm) as Hmtu. pose proof (om_len _ _ Hm) as Hlen. pose proof (pmtu_max _ Hmtu). rewrite pmtu_bytes in * by done.
  rewrite pib_get_num_of_packets_spec by (change PIB_MAX_PAYLOAD_LEN with (2 ^ 30); lia). unfold packets_of, path_mtu_of. set (m := mtu_bytes _) in *. Z.to_euclidean_division_equations; nia.
Qed.

(** The request was sent: it is on the waiting list. *)
Definition on_waiting (id : Z) (sub : list Z) (r : requester_t) : requester_t :=
  r <| rq_submitted := sub |> <| rq_sending := [] |> <| rq_waiting := [id] |> <| rq_nr_sending ::= fun n => n - 1 |> <| rq_nr_waiting ::= Z.add 1 |>.
Lemma swqes_on_waiting id sub r : rq_swqes (on_waiting id sub r) = rq_swqes r.
Proof. done. Qed.
Lemma after_send_run s id w sub : rq_swqes (qp_requester (st_qp s)) !! id = Some w -> p_list_type (w_processing w) = PIB_SWQE_WAITING ->
  rq_sending (qp_requester (st_qp s)) = [id] -> rq_waiting (qp_requester (st_qp s)) = [] -> (id ∉ sub) -> (id ∉ rq_free (qp_requester (st_qp s))) ->
  rq_submitted (qp_requester (st_qp s)) = sub ->
  after_send id s = Some (tt, with_req s (on_waiting id sub (qp_requester (st_qp s)))).
Proof.
  intros Hw Hl Hs Hwt N1 N2 <-. unfold after_send. rewrite (bind_run _ _ _ _ _ (get_swqe_run _ _ _ Hw)), Hl.
  destruct s as [q ? ? ? ? ? ? ? ? ? ? ? ?]. destruct q as [? ? ? ? ? ? ? ? ? ? ? ? ? r ? ? ? ? ?]. destruct r. simpl in *. subst.
  unfold swqe_list_del, upd_req, upd_qp, bind, modify, with_req, on_waiting. simpl. rewrite Z.eqb_refl. simpl. by rewrite !del_notin by done.
Qed.

Lemma proc_set4 (w : pib_send_wqe) f1 f2 f3 f4 :
  w <| w_processing ::= f1 |> <| w_processing ::= f2 |> <| w_processing ::= f3 |> <| w_processing ::= f4 |> = w <| w_processing := f4 (f3 (f2 (f1 (w_processing w)))) |>.
Proof. by destruct w. Qed.

Lemma rc_pass_run ahs ids s id sub w port pkey : qp_wf ids s -> rc_next s id sub w -> one_message s w -> connected s port pkey -> buffer_ok s ->
  let q := st_qp s in
  let pkt := pkt_of (a_ah_attr (qp_attr q)) (port_lid port) (rc_op w) pkey (a_dest_qp_num (qp_attr q)) (u32 (rq_expected_psn (qp_requester q) + 0)) (rc_solicited w) (rc_body s w) in
  exists r' k on tm tid d f, let s1 := (told s port id (pkt k)) <| st_qp ::= fun q => q <| qp_requester := r' |> |> in
  process_on_qp_scheduler ahs s = Some (tt, resched s1 on tm tid d f) /\ Zlen (pkt k) = PIB_PACKET_BUFFER
  /\ sched_member (resched s1 on tm tid d f) /\ awaiting (qp_requester q) r' id sub w.
Proof.
  intros Hwf Hn Hm Hc Hbuf q pkt. pose proof (one_rc_packet q w s eq_refl Hm) as Hnp. destruct Hn as [Hty Hst Hacks Hwait Hsend Hsub Hw Hok Hb Hct [Hr1 Hr2]]. fold q in Hty, Hst, Hacks, Hr1, Hr2, Hwait, Hsend, Hsub, Hw, Hb, Hct.
  destruct (own_submitted _ _ _ _ (wf_own _ _ Hwf) Hsub) as (N1 & _ & _ & N4). fold q in N4.
  unfold process_on_qp_scheduler. rewrite (bind_run the_qp _ s q s) by reflexivity. rewrite Hty.
  assert (pib_generate_rc_qp_acknowledge s = Some (0, s)) as E0.
  { unfold pib_generate_rc_qp_acknowledge. rewrite (bind_run the_qp _ s q s) by reflexivity. rewrite Hacks. by destruct (negb _). }
  rewrite (bind_run _ _ _ _ _ E0). change (negb (0 =? 1)) with true. cbn [when].
  set (s1 := s <| st_qp ::= fun q => q <| qp_requester := taken q (st_now s) id sub w |> |>).
  set (w1 := w <| w_processing ::= start_processing q (st_now s) 1 |>).
  set (w2 := w1 <| w_processing ::= fun p => p <| p_schedule_time := st_now s |> |>).
  set (s2 := alt id (fun w => w <| w_processing ::= fun p => p <| p_schedule_time := st_now s |> |>) s1).
  assert (rq_swqes (qp_requester (st_qp s1)) !! id = Some w1) as Hw1 by (simpl; fold q; by rewrite lookup_alter_eq, Hw, Hty, Hnp).
  pose proof (swqes_alt s1 id _ w1 Hw1 : rq_swqes (qp_requester (st_qp s2)) !! id = Some w2) as Hw2.
  destruct (rc_request_run s2 id w2 port pkey) as (k & E & Hk); [destruct Hc; by split|exact Hbuf|destruct Hm; by split|exact Hw2|reflexivity|reflexivity|exact Hr1|exact Hr2|].
  change (Zlen (pkt k) = PIB_PACKET_BUFFER) in Hk. set (s3 := alt id (awaits s2) _) in E.
  assert (rq_swqes (qp_requester (st_qp s3)) !! id = Some (awaits s2 (sent_one w2))) as Hw3 by (do 2 (apply swqes_alt; unfold one_contig); exact Hw2).
  set (r' := on_waiting id sub (qp_requester (st_qp s3))).
  set (s4 := (told s port id (pkt k)) <| st_qp ::= fun q => q <| qp_requester := r' |> |>).
  assert (after_send id s3 = Some (tt, s4)) as Ea.
  { etransitivity; [apply (after_send_run s3 id _ sub Hw3); [reflexivity| | |exact N1|exact N4|reflexivity]|reflexivity].
    - change (rq_sending (qp_requester q) ++ [id] = [id]). by rewrite Hsend.
    - exact Hwait. }
  assert (send_first ahs s1 = Some (tt, s4)) as Es.
  { unfold send_first. rewrite (bind_run (gets st_now) _ s1 (st_now s) s1), (bind_run the_req _ s1 (qp_requester (st_qp s1)) s1) by reflexivity.
    change (rq_sending (qp_requester (st_qp s1))) with (rq_sending (qp_requester q) ++ [id]). rewrite Hsend. rewrite (bind_run (of_option _) _ s1 id s1) by reflexivity.
    rewrite (bind_run _ _ _ _ _ (get_swqe_run _ _ _ Hw1)).
    change (p_status (w_processing w1)) with (p_status (w_processing w)). rewrite Hok, bool_decide_eq_true_2 by done. cbn [negb andb].
    change (rq_nr_contig_requests _) with (rq_nr_contig_requests (qp_requester q)). rewrite (proj2 (Z.ltb_ge _ _)) by lia.
    change (p_schedule_time (w_processing w1)) with (st_now s). rewrite time_after_irrefl.
    rewrite (bind_run (upd_proc _ _) _ s1 tt s2) by reflexivity. rewrite (bind_run (process_send_wr ahs id) _ s2 0 s3); [exact Ea|].
    unfold process_send_wr. rewrite (bind_run the_qp _ s2 (st_qp s2) s2) by reflexivity. rewrite (bind_run _ _ _ _ _ (get_swqe_run _ _ _ Hw2)).
    rewrite (bind_run (BUG_ON _) _ s2 tt s2) by reflexivity. change (p_status (w_processing w2)) with (p_status (w_processing w)). rewrite Hok, bool_decide_eq_true_2 by done. cbn [negb].
    change (qp_type (st_qp s2)) with (qp_type q). rewrite Hty. exact E. }
  assert (requester_pass ahs s = Some (tt, s4)) as Ep.
  { unfold requester_pass, first_sending_wsqe. rewrite (bind_run the_qp _ s q s), (bind_run (gets st_now) _ s (st_now s) s) by reflexivity.
    rewrite (bool_decide_eq_true_2 _ Hst). cbn [negb andb]. rewrite Hwait. rewrite (bind_run the_req _ s (qp_requester q) s) by reflexivity. rewrite Hsend.
    rewrite (bind_run _ _ _ _ _ (process_new_run ids s id sub w (wf_own _ _ Hwf) Hst Hsub Hw Hb)). exact Es. }
  assert (sched_member s4) as Hsm by (change (sched_member s); apply (wfo_env _ _ _ Hwf)).
  destruct (reschedule_run s4 Hsm) as (on & tm & tid & d & f & E5 & Hm5 & _). exists r', k, on, tm, tid, d, f. cbv zeta. rewrite (bind_run _ _ _ _ _ Ep).
  split; [exact E5|]. split; [exact Hk|]. split; [exact Hm5|]. split; try reflexivity.
  eexists. split; [unfold r'; rewrite swqes_on_waiting; rewrite Hw3; apply f_equal, proc_set4|]. split; [exact Hok|]. by split_and!.
Qed.
End RcSend.
