(* ===== verification/RcRecvThm.v ===== *)
(** * Receiving a SEND of one packet, and its acknowledge

    The handlers of pib_rc.c on such a packet, as exact effects: the message is in memory,
    completed and an acknowledge queued; the acknowledge is built; the request is done. *)

From S2P Require Import Prelude Verbs Lib ObjNum Cq Srq Mr MrSafe State Sched Qp QpInv QpThm Packet Wire Rc RcThm RcRsp RcResp RcRespThm Ud UdThm Requester RequesterThm Hca Frame HcaThm Transit UdSendThm RcSendThm.

Section RcRecv.
Context {PP : Params}.

(** ** The responder *)

(** A completion queue that takes another completion. *)
Definition has_room (cq : pib_cq) : Prop := cq_state cq = PIB_STATE_OK /\ cq_free_cqe_head cq <> [].

Lemma wc_room_run c wc sol s cq : qp_type (st_qp s) = IB_QPT_RC -> st_cqs s !! c = Some cq -> has_room cq ->
  exists ev cq', qp_insert_wc_success c wc sol s = Some (0, s <| st_cqs ::= <[c := cq']> |> <| st_events ::= fun l => l ++ ev |>)
  /\ works_of ev = [] /\ cq_cqe_head cq' = cq_cqe_head cq ++ [wc].
Proof.
  intros Hty Hcq [Hok Hroom]. unfold qp_insert_wc_success. rewrite (bind_run the_qp _ s (st_qp s) s) by reflexivity. unfold with_cq.
  rewrite (bind_run get _ s s s) by reflexivity. rewrite Hcq. unfold smi_port_of. rewrite Hty. unfold pib_util_insert_wc_success, insert_wc. rewrite Hok. case_bool_decide; [done|].
  destruct (cq_free_cqe_head cq) as [|f fs]; [done|]. destruct (_ && _); eexists _, _; (split; [reflexivity|by split]).
Qed.

(** The numbers the two ends count the packets with agree in the 24 bits a packet carries. *)
Definition in_step (a b : Z) : Prop := Z.land a PIB_PSN_MASK = Z.land b PIB_PSN_MASK.

Lemma psn_mask_mod x : Z.land x PIB_PSN_MASK = x mod 2 ^ 24.
Proof. change PIB_PSN_MASK with (Z.ones 24). by apply Z.land_ones. Qed.

Lemma wire_psn e : Z.land (Z.land (u32 (u32 (e + 0))) PIB_PSN_MASK) PIB_PSN_MASK = e mod 2 ^ 24.
Proof. rewrite !psn_mask_mod, Z.mod_mod by done. by rewrite !u32_mod24, Z.add_0_r. Qed.

Lemma psn_diff_congr x y : x mod 2 ^ 24 = y mod 2 ^ 24 -> get_psn_diff x y = 0.
Proof.
  intros H. rewrite get_psn_diff_swrap, (swrap_mod 24 _ 0); [done|]. change (0 mod 2 ^ 24) with 0. rewrite Zminus_mod, H, Z.sub_diag. done.
Qed.

(** The end of a connection that may take the message of [n] bytes. *)
Record rc_expects (s : st) (port_num psn n : Z) (w : pib_recv_wqe) (l : list pib_recv_wqe) (cq : pib_cq) : Prop := {
  re_type : qp_type (st_qp s) = IB_QPT_RC;
  re_state : qp_state (st_qp s) = IB_QPS_RTS;
  re_port : a_port_num (qp_attr (st_qp s)) = port_num;
  re_psn : in_step (rs_psn (qp_responder (st_qp s))) psn;
  re_last : ends_message (rs_last_OpCode (qp_responder (st_qp s)));
  re_acks : rs_acks (qp_responder (st_qp s)) = [];
  re_srq : i_srq (qp_init_attr (st_qp s)) = None;
  re_recv : rs_recv_wqes (qp_responder (st_qp s)) = w :: l;
  re_len : 0 < n <= pmtu_of (st_qp s);
  re_mtu : 1 <= a_path_mtu (qp_attr (st_qp s)) <= 5;
  re_sges : Forall (sge_ok (st_pd s) IB_ACCESS_LOCAL_WRITE) (rwqe_sge_array w);
  re_disjoint : NoDup (sgl_addrs (st_pd s) (rwqe_sge_array w));
  re_fits : n <= sgl_length (rwqe_sge_array w);
  re_cq : st_cqs s !! qp_recv_cq (st_qp s) = Some cq /\ has_room cq;
  re_alloc : kmem_alloc_ok (st_allocs s) = true }.

(** What the completion tells of the message. *)
Definition send_wc (q : pib_qp) (w : pib_recv_wqe) (imm : bool) (n slid ex : Z) : ib_wc :=
  recv_wc q w IB_WC_RECV n slid (if imm then ex else 0) (if imm then IB_WC_WITH_IMM else 0).

Definition normal_ack (psn : Z) : pib_ack :=
  ack_zero <| ack_type := PIB_ACK_NORMAL |> <| ack_psn := psn |> <| ack_expected_psn := u32 (psn + 1) |> <| ack_syndrome := PIB_SYND_ACK_CODE |>.

(** The part of the message behind the immediate data is put into memory and completed. *)
Lemma payload_run psn sh lrh bth ex payload s w l cq : ss_inv sh = false -> ss_finit sh = true -> qp_type (st_qp s) = IB_QPT_RC ->
  rs_offset (qp_responder (st_qp s)) = 0 -> rs_acks (qp_responder (st_qp s)) = [] -> rs_recv_wqes (qp_responder (st_qp s)) = w :: l ->
  i_srq (qp_init_attr (st_qp s)) = None -> 0 < Zlen payload <= 4096 -> Zlen payload <= sgl_length (rwqe_sge_array w) ->
  Forall (sge_ok (st_pd s) IB_ACCESS_LOCAL_WRITE) (rwqe_sge_array w) -> NoDup (sgl_addrs (st_pd s) (rwqe_sge_array w)) ->
  st_cqs s !! qp_recv_cq (st_qp s) = Some cq -> has_room cq -> kmem_alloc_ok (st_allocs s) = true ->
  let addrs := slice 0 (Zlen payload) (sgl_addrs (st_pd s) (rwqe_sge_array w)) in
  exists m ev cq' r', receive_SEND_payload psn sh lrh bth ex 0 payload w s
    = Some (1, s <| st_mem := m |> <| st_cqs ::= <[qp_recv_cq (st_qp s) := cq']> |> <| st_events ::= fun l => l ++ ev |> <| st_allocs ::= Z.add 1 |>
                 <| st_qp ::= fun q => q <| qp_push_rcqe := true |> <| qp_responder := r' |> |>)
  /\ m <$> addrs = payload /\ (forall x, x ∉ addrs -> m x = st_mem s x) /\ works_of ev = []
  /\ cq_cqe_head cq' = cq_cqe_head cq ++ [send_wc (st_qp s) w (ss_imm sh) (Zlen payload) (lrh_slid lrh) ex]
  /\ rs_recv_wqes r' = l /\ rs_acks r' = [normal_ack psn] /\ rs_nr_contig_read_acks r' = rs_nr_contig_read_acks (qp_responder (st_qp s)).
Proof.
  intros Hinv Hfin Hty Hoff Hacks Hrecv Hsrq Hlen Hfit Hok Hnd Hcq Hroom Ha addrs. unfold receive_SEND_payload.
  rewrite (bind_run the_rsp _ s (qp_responder (st_qp s)) s) by reflexivity. rewrite Hoff, Hinv.
  destruct (scatter_effect (st_pd s) (rwqe_sge_array w) (st_mem s) payload 0 IB_ACCESS_LOCAL_WRITE) as (m & Em & Hm1 & Hm2); try done; try lia.
  { change PIB_MAX_PAYLOAD_LEN with (2 ^ 30). lia. }
  set (s1 := s <| st_mem := m |>).
  assert (copy_to_sgl (rwqe_sge_array w) payload 0 (Zlen payload) s = Some (IB_WC_SUCCESS, s1)) as E1.
  { unfold copy_to_sgl. rewrite (bind_run get _ s s s) by reflexivity. rewrite Em. reflexivity. }
  rewrite (bind_run _ _ _ _ _ E1). cbn [andb]. rewrite (bind_run (ret _) _ s1 IB_WC_SUCCESS s1) by reflexivity.
  rewrite bool_decide_eq_true_2 by done. cbn [negb]. rewrite bool_decide_eq_false_2 by done. rewrite Hfin. cbn [when].
  set (s2 := s1 <| st_qp ::= fun q => q <| qp_responder ::= fun r => r <| rs_offset ::= fun o => u32 (o + Zlen payload) |> |> |>).
  rewrite (bind_run (upd_rsp _) _ s1 tt s2) by reflexivity.
  assert (rs_offset (qp_responder (st_qp s2)) = Zlen payload) as Hoff2.
  { change (u32 (rs_offset (qp_responder (st_qp s)) + Zlen payload) = Zlen payload). rewrite Hoff. apply wrap_small. lia. }
  destruct (wc_room_run (qp_recv_cq (st_qp s)) (send_wc (st_qp s) w (ss_imm sh) (Zlen payload) (lrh_slid lrh) ex) (negb (pib_packet_bth_get_padcnt bth =? 0)) s2 cq Hty Hcq Hroom) as (ev & cq' & E2 & Hev & Hcq').
  set (s3 := s2 <| st_cqs ::= <[qp_recv_cq (st_qp s) := cq']> |> <| st_events ::= fun l => l ++ ev |>) in *.
  set (s4 := s3 <| st_qp ::= fun q => q <| qp_push_rcqe := true |> <| qp_responder ::= fun r => r <| rs_recv_wqes ::= tail |> <| rs_nr_recv_wqe ::= fun n => n - 1 |> <| rs_free_rwqes ::= fun f => f ++ [rwqe_zero] |> |> |>).
  assert (consume_recv_wqe s3 = Some (tt, s4)) as E3.
  { unfold consume_recv_wqe, pib_util_free_recv_wqe. unfold upd_rsp, upd_qp. erewrite (bind_run (modify _)) by reflexivity. erewrite (bind_run (modify _)) by reflexivity.
    erewrite (bind_run the_qp) by reflexivity. change (i_srq _) with (i_srq (qp_init_attr (st_qp s))). rewrite Hsrq. reflexivity. }
  assert (deliver_recv bth w IB_WC_RECV (lrh_slid lrh) (if ss_imm sh then ex else 0) (Z.lor (if ss_imm sh then IB_WC_WITH_IMM else 0) 0) s2 = Some (tt, s4)) as E4.
  { unfold deliver_recv. rewrite (bind_run the_qp _ s2 (st_qp s2) s2) by reflexivity. rewrite Hoff2, Z.lor_0_r. change (qp_recv_cq (st_qp s2)) with (qp_recv_cq (st_qp s)).
    erewrite (bind_run (qp_insert_wc_success _ _ _)) by exact E2. exact E3. }
  rewrite (bind_run _ _ _ _ _ E4).
  assert (push_acknowledge psn PIB_SYND_ACK_CODE s4 = Some (tt, s4 <| st_allocs ::= Z.add 1 |> <| st_qp ::= fun q => q <| qp_responder ::= fun r => r <| rs_acks ::= fun l => l ++ [normal_ack psn] |> |> |>)) as E5.
  { unfold push_acknowledge. rewrite (bind_run the_rsp _ s4 (qp_responder (st_qp s4)) s4) by reflexivity. change (rs_acks (qp_responder (st_qp s4))) with (rs_acks (qp_responder (st_qp s))). rewrite Hacks.
    cbn [coalesce last]. unfold kmem_cache_zalloc. erewrite bind_run by reflexivity. change (st_allocs s4) with (st_allocs s). rewrite Ha. reflexivity. }
  rewrite (bind_run _ _ _ _ _ E5). eexists m, ev, cq', _. split; [reflexivity|]. split; [exact Hm1|]. split; [exact Hm2|]. split; [exact Hev|]. split; [exact Hcq'|].
  split; [change (tail (rs_recv_wqes (qp_responder (st_qp s))) = l); by rewrite Hrecv|]. split; [|reflexivity].
  change (rs_acks (qp_responder (st_qp s)) ++ [normal_ack psn] = [normal_ack psn]). by rewrite Hacks.
Qed.

(** The packet of the message passes the checks; the message is received and its acknowledge queued. *)
Lemma rc_send_run s port_num lrh bth sw payload e w l cq : rc_expects s port_num e (Zlen payload) w l cq -> bth_OpCode bth = rc_op sw -> bth_psn bth = Z.land (u32 (u32 (e + 0))) PIB_PSN_MASK ->
  0 <= w_ex sw < 2 ^ 32 ->
  let addrs := slice 0 (Zlen payload) (sgl_addrs (st_pd s) (rwqe_sge_array w)) in
  exists m ev cq' r', pib_receive_rc_qp_incoming_message port_num lrh bth ((if wqe_imm sw then le_split 4 (w_ex sw) else []) ++ payload) s
    = Some (tt, s <| st_mem := m |> <| st_cqs ::= <[qp_recv_cq (st_qp s) := cq']> |> <| st_events ::= fun l => l ++ ev |> <| st_allocs ::= Z.add 1 |>
                 <| st_qp ::= fun q => q <| qp_push_rcqe := true |> <| qp_responder := r' |> |>)
  /\ m <$> addrs = payload /\ (forall x, x ∉ addrs -> m x = st_mem s x) /\ works_of ev = []
  /\ cq_cqe_head cq' = cq_cqe_head cq ++ [send_wc (st_qp s) w (wqe_imm sw) (Zlen payload) (lrh_slid lrh) (w_ex sw)]
  /\ rs_recv_wqes r' = l /\ rs_acks r' = [normal_ack (e mod 2 ^ 24)] /\ rs_nr_contig_read_acks r' = rs_nr_contig_read_acks (qp_responder (st_qp s)).
Proof.
  intros [Hty Hst Hport Hstep Hlast Hacks Hsrq Hrecv Hlen Hmtu Hok Hnd Hfit [Hcq Hroom] Ha] Hop Hpsn Hex addrs. pose proof (pmtu_max _ Hmtu) as Hmax.
  unfold pib_receive_rc_qp_incoming_message. rewrite (bind_run the_qp _ s (st_qp s) s) by reflexivity. rewrite Hst, Hport, Z.eqb_refl. cbn [pib_is_recv_ok negb].
  assert ((bth_OpCode bth =? PIB_OPCODE_CNP_SEND_NOTIFY) = false /\ pib_opcode_is_acknowledge (bth_OpCode bth) = Some false /\ is_send_opcode (bth_OpCode bth) = true
          /\ starts_b (bth_OpCode bth) = true) as (C1 & C2 & C3 & C4) by (rewrite Hop; unfold rc_op; by destruct (wqe_imm sw)).
  change (negb true) with false. rewrite C1, C2. rewrite (bind_run (of_option _) _ s false s) by reflexivity. unfold receive_request. rewrite Hpsn, wire_psn.
  rewrite (bind_run issue_comm_est _ s tt s) by (unfold issue_comm_est; rewrite (bind_run the_qp _ s (st_qp s) s) by reflexivity; by rewrite Hst).
  rewrite (bind_run the_rsp _ s (qp_responder (st_qp s)) s) by reflexivity. unfold in_step in Hstep. rewrite !psn_mask_mod in Hstep.
  rewrite psn_diff_congr by (rewrite Z.mod_mod by done; by rewrite Hstep). change (0 <? 0) with false. rewrite (in_order_start _ _ C4 Hlast).
  rewrite (bind_run (of_option _) _ s true s) by reflexivity. cbn [negb]. unfold execute_request. rewrite C3.
  set (sh := {| ss_init := true; ss_finit := true; ss_imm := wqe_imm sw; ss_inv := false; ss_min := 0; ss_max := pmtu_of (st_qp s) |}).
  set (s1 := s <| st_qp ::= fun q => q <| qp_responder ::= fun r => r <| rs_offset := 0 |> |> |>).
  assert (send_shape_of (pmtu_of (st_qp s)) (bth_OpCode bth) = Some sh) as Esh by (rewrite Hop; unfold sh, rc_op; by destruct (wqe_imm sw)).
  assert (when true (upd_rsp (fun r => r <| rs_offset := 0 |>) ;; take_srq) s = Some (tt, s1)) as E1.
  { cbn [when]. rewrite (bind_run (upd_rsp _) _ s tt s1) by reflexivity. unfold take_srq. rewrite (bind_run the_qp _ s1 (st_qp s1) s1) by reflexivity.
    change (i_srq (qp_init_attr (st_qp s1))) with (i_srq (qp_init_attr (st_qp s))). by rewrite Hsrq. }
  destruct (payload_run (e mod 2 ^ 24) sh lrh bth (if wqe_imm sw then w_ex sw else 0) payload s1 w l cq) as (m & ev & cq' & r' & E2 & H1 & H2 & H3 & H4 & H5 & H6 & H7); try done; try lia.
  set (s2 := s1 <| st_mem := m |> <| st_cqs ::= _ |> <| st_events ::= _ |> <| st_allocs ::= _ |> <| st_qp ::= _ |>) in E2. set (body := (if wqe_imm sw then le_split 4 (w_ex sw) else []) ++ payload).
  assert (receive_SEND_request (e mod 2 ^ 24) (bth_OpCode bth) lrh bth body s = Some (1, s2)) as E3.
  { unfold receive_SEND_request. rewrite (bind_run the_qp _ s (st_qp s) s) by reflexivity. rewrite Esh, (bind_run (of_option _) _ s sh s) by reflexivity. rewrite (bind_run _ _ _ _ _ E1).
    rewrite (bind_run the_rsp _ s1 (qp_responder (st_qp s1)) s1) by reflexivity. change (rs_recv_wqes (qp_responder (st_qp s1))) with (rs_recv_wqes (qp_responder (st_qp s))). rewrite Hrecv.
    cbn [ss_imm ss_inv ss_min ss_max sh andb]. pose proof (Zlen_nonneg payload).
    assert ((wqe_imm sw && (Zlen body <? 4) = false) /\ (if wqe_imm sw then le_combine (take 4 body) else 0) = (if wqe_imm sw then w_ex sw else 0) /\ (if wqe_imm sw then drop 4 body else body) = payload) as (-> & -> & ->).
    { unfold body. destruct (wqe_imm sw); [|done]. set (im := le_split 4 (w_ex sw)). split_and!.
      - apply Z.ltb_ge. rewrite Zlen_app. change (Zlen im) with 4. lia.
      - change (le_combine im = w_ex sw). unfold im. rewrite le_combine_split. by apply Z.mod_small.
      - reflexivity. }
    rewrite !(proj2 (Z.ltb_ge _ _)) by lia. exact E2. }
  rewrite (bind_run _ _ _ _ _ E3). change (0 <=? 1) with true. cbn [when]. eexists m, ev, cq', _. split; [reflexivity|]. split_and!; try done.
  rewrite H4. unfold send_wc. change (ss_imm sh) with (wqe_imm sw). by destruct (wqe_imm sw).
Qed.

(** ** The acknowledge *)

Definition ack_body : list Z := be_split 4 (u32 (Z.shiftl PIB_SYND_ACK_CODE 24)).

Lemma pack_ack_run s port pkey psn : connected s port pkey -> buffer_ok s ->
  let ah := a_ah_attr (qp_attr (st_qp s)) in
  let pkt := pkt_of ah (port_lid port) IB_OPCODE_ACKNOWLEDGE pkey (a_dest_qp_num (qp_attr (st_qp s))) psn false ack_body in
  exists h k, pack_acknowledge_packet IB_OPCODE_ACKNOWLEDGE psn true PIB_SYND_ACK_CODE false 0 s = Some (h, with_buf s (pkt k)) /\ Zlen (pkt k) = PIB_PACKET_BUFFER.
Proof.
  intros Hc Hbuf ah pkt. unfold pack_acknowledge_packet. destruct (start_packet_run s port pkey 72 psn Hc Hbuf ltac:(lia)) as (h0 & k0 & E0 & Hh0 & Hk0). cbv zeta in E0.
  rewrite (bind_run _ _ _ _ _ E0). set (h := first_hdrs _ _ _ _ _ _). change (hdrs_size h) with 20. fold ack_body.
  set (k := drop 4 k0). assert (buf_write (h0 ++ k0) 20 ack_body = h0 ++ ack_body ++ k) as Hb by (pose proof (buf_write_at h0 k0 ack_body) as H; unfold Zlen in H; by rewrite Hh0 in H).
  rewrite (bind_run _ _ _ _ _ (put_at_run s (h0 ++ k0) 20 ack_body)), Hb. change (20 + Zlen ack_body) with 24. rewrite (bind_run (ret 24) _ _ 24 (with_buf s (h0 ++ ack_body ++ k))) by reflexivity.
  set (h' := {| h_lrh := _; h_grh := _; h_bth := _ |}). rewrite (bind_run _ _ _ _ _ (put_hdrs_run s (h0 ++ ack_body ++ k) h')). rewrite buf_write_hdr by (rewrite length_hdrs; done).
  exists (h', 24), k. assert (hdrs_bytes h' ++ ack_body ++ k = pkt k) as -> by reflexivity. split; [reflexivity|].
  unfold pkt, pkt_of, packet_bytes. rewrite !Zlen_app. change (Zlen ack_body) with 4. unfold k. unfold Zlen at 4. rewrite length_drop, Hk0. done.
Qed.

(** The pass of the scheduler that answers. *)
Lemma ack_pass_run ahs s psn port pkey : connected s port pkey -> buffer_ok s -> sched_member s -> qp_type (st_qp s) = IB_QPT_RC -> pib_is_recv_ok (qp_state (st_qp s)) = true ->
  rs_acks (qp_responder (st_qp s)) = [normal_ack psn] ->
  let pkt := pkt_of (a_ah_attr (qp_attr (st_qp s))) (port_lid port) IB_OPCODE_ACKNOWLEDGE pkey (a_dest_qp_num (qp_attr (st_qp s))) psn false ack_body in
  exists k on tm tid d f, let s1 := (told s port 0 (pkt k)) <| st_qp ::= fun q => q <| qp_responder ::= fun r => r <| rs_acks := [] |> |> |> in
  process_on_qp_scheduler ahs s = Some (tt, resched s1 on tm tid d f) /\ Zlen (pkt k) = PIB_PACKET_BUFFER /\ sched_member (resched s1 on tm tid d f).
Proof.
  intros Hc Hbuf Hm Hty Hst Hacks pkt. destruct (pack_ack_run s port pkey psn Hc Hbuf) as (h & k & E & Hk). cbv zeta in E, Hk. fold pkt in E, Hk.
  set (s1 := (told s port 0 (pkt k)) <| st_qp ::= fun q => q <| qp_responder ::= fun r => r <| rs_acks := [] |> |> |>).
  assert (pib_generate_rc_qp_acknowledge s = Some (1, s1)) as E1.
  { unfold pib_generate_rc_qp_acknowledge. rewrite (bind_run the_qp _ s (st_qp s) s) by reflexivity. rewrite Hst, Hacks. cbn [negb]. change (ack_type (normal_ack psn)) with PIB_ACK_NORMAL. cbv iota.
    erewrite bind_run; [|unfold generate_Normal_or_Atomic_acknowledge; change (ack_type (normal_ack psn)) with PIB_ACK_NORMAL; cbv iota; rewrite (bind_run _ _ _ _ _ E); exact (ready_run s port 0 _ (cn_port _ _ _ Hc))].
    unfold pop_ack, upd_rsp, upd_qp. erewrite (bind_run (modify _)) by reflexivity. unfold ret. do 2 f_equal. unfold s1, set_field. simpl. by rewrite Hacks. }
  assert (sched_member s1) as Hm1 by exact Hm. destruct (reschedule_run s1 Hm1) as (on & tm & tid & d & f & E5 & Hm5 & _). exists k, on, tm, tid, d, f. cbv zeta.
  split; [|by split]. unfold process_on_qp_scheduler. rewrite (bind_run the_qp _ s (st_qp s) s) by reflexivity. rewrite Hty, (bind_run _ _ _ _ _ E1). change (negb (1 =? 1)) with false. cbn [when].
  rewrite (bind_run (ret tt) _ s1 tt s1) by reflexivity. exact E5.
Qed.

(** ** The request completes *)

Definition signaled (q : pib_qp) (w : pib_send_wqe) : bool := i_sq_sig_all (qp_init_attr q) || has_flag (w_send_flags w) IB_SEND_SIGNALED.
Definition request_wc (q : pib_qp) (w : pib_send_wqe) : ib_wc := wc_init (w_wr_id w) IB_WC_SUCCESS IB_WC_SEND (qp_num q).

Lemma complete_run s w cq : qp_type (st_qp s) = IB_QPT_RC -> st_cqs s !! qp_send_cq (st_qp s) = Some cq -> has_room cq ->
  exists ev cq' cqs, complete_swqe w (Some IB_WC_SEND) s = Some (tt, s <| st_cqs := cqs |> <| st_events ::= fun l => l ++ ev |>) /\ works_of ev = []
  /\ cqs !! qp_send_cq (st_qp s) = Some cq' /\ cq_cqe_head cq' = cq_cqe_head cq ++ (if signaled (st_qp s) w then [request_wc (st_qp s) w] else []).
Proof.
  intros Hty Hcq Hroom. unfold complete_swqe. rewrite (bind_run the_qp _ s (st_qp s) s) by reflexivity. fold (signaled (st_qp s) w). destruct (signaled (st_qp s) w); cbn [when].
  - rewrite (bind_run (of_option _) _ s IB_WC_SEND s) by reflexivity. fold (request_wc (st_qp s) w).
    destruct (wc_room_run (qp_send_cq (st_qp s)) (request_wc (st_qp s) w) false s cq Hty Hcq Hroom) as (ev & cq' & E & Hev & Hq). rewrite (bind_run _ _ _ _ _ E).
    exists ev, cq', (<[qp_send_cq (st_qp s) := cq']> (st_cqs s)). split; [reflexivity|]. split; [exact Hev|]. split; [apply lookup_insert_eq|exact Hq].
  - exists [], cq, (st_cqs s). split; [unfold ret; do 2 f_equal; destruct s; simpl; by rewrite app_nil_r|]. by rewrite app_nil_r.
Qed.

(** The requester is done with the request [id]. *)
Record finished (r r' : requester_t) (id : Z) (sub : list Z) : Prop := {
  fi_waiting : rq_waiting r' = [];
  fi_sending : rq_sending r' = [];
  fi_submitted : rq_submitted r' = sub;
  fi_free : rq_free r' = rq_free r ++ [id] }.

(** Off its list, and free. *)
Definition retire (id : Z) (r : requester_t) : requester_t := r <| rq_waiting := [] |> <| rq_nr_waiting ::= fun n => n - 1 |> <| rq_free ::= fun f => f ++ [id] |>.

Lemma retire_run s id : rq_waiting (qp_requester (st_qp s)) = [id] -> rq_sending (qp_requester (st_qp s)) = [] -> (id ∉ rq_submitted (qp_requester (st_qp s))) ->
  (id ∉ rq_free (qp_requester (st_qp s))) -> (unlink_swqe true id ;; pib_util_free_send_wqe id) s = Some (tt, with_req s (retire id (qp_requester (st_qp s)))).
Proof.
  intros Hw Hs N1 N2. destruct s as [q ? ? ? ? ? ? ? ? ? ? ? ?]. destruct q as [? ? ? ? ? ? ? ? ? ? ? ? ? r ? ? ? ? ?]. destruct r. simpl in *. subst.
  unfold unlink_swqe, swqe_list_del, pib_util_free_send_wqe, upd_req, upd_qp, bind, modify, with_req, retire. simpl. rewrite Z.eqb_refl. simpl. by rewrite !del_notin by done.
Qed.

Lemma acknowledge_run s r0 id sub w cq : qp_type (st_qp s) = IB_QPT_RC -> awaiting r0 (qp_requester (st_qp s)) id sub w -> w_opcode w = IB_WR_SEND \/ w_opcode w = IB_WR_SEND_WITH_IMM ->
  st_cqs s !! qp_send_cq (st_qp s) = Some cq -> has_room cq -> (id ∉ sub) -> (id ∉ rq_free r0) ->
  exists ev cq' cqs r', receive_ACK_response (rq_expected_psn r0 mod 2 ^ 24) s = Some (-1, (with_req s r') <| st_cqs := cqs |> <| st_events ::= fun l => l ++ ev |>)
  /\ works_of ev = [] /\ cqs !! qp_send_cq (st_qp s) = Some cq' /\ cq_cqe_head cq' = cq_cqe_head cq ++ (if signaled (st_qp s) w then [request_wc (st_qp s) w] else [])
  /\ finished r0 r' id sub.
Proof.
  intros Hty [Hw Hs Hsub Hfree (p & Hp & P1 & P2 & P3 & P4 & P5)] Hop Hcq Hroom N1 N2. set (r := qp_requester (st_qp s)) in *. set (w' := w <| w_processing := p |>) in *.
  destruct (complete_run s w' cq Hty Hcq Hroom) as (ev & cq' & cqs & E1 & Hev & Hl & Hh). set (s1 := s <| st_cqs := cqs |> <| st_events ::= fun l => l ++ ev |>) in *.
  set (s2 := with_req s1 (r <| rq_psn := Z.land (p_expected_psn p) PIB_PSN_MASK |>)). set (psn := rq_expected_psn r0 mod 2 ^ 24).
  assert (process_acknowledge id psn s = Some (RET_COMPLETE, s2)) as E2.
  { unfold process_acknowledge. rewrite (bind_run _ _ _ _ _ (get_swqe_run _ _ _ Hp)). change (w_processing w') with p. rewrite P1, bool_decide_eq_true_2 by done. cbn [negb].
    rewrite P2, P4, P5. unfold psn. rewrite psn_diff_congr by (by rewrite Z.mod_mod). change (0 <? 0) with false. change (0 + 1 <=? 0) with false. change (0 + 1 <? 1) with false.
    change (w_opcode w') with (w_opcode w). assert (pib_is_wr_opcode_rd_atomic (w_opcode w) = false /\ pib_convert_wr_opcode_to_wc_opcode (w_opcode w) = Some IB_WC_SEND) as [-> ->] by (by destruct Hop as [-> | ->]).
    rewrite (bind_run _ _ _ _ _ E1). reflexivity. }
  pose proof (retire_run s2 id Hw Hs ltac:(change (id ∉ rq_submitted r); by rewrite Hsub) ltac:(change (id ∉ rq_free r); by rewrite Hfree)) as E3.
  set (r' := retire id (qp_requester (st_qp s2))) in E3. exists ev, cq', cqs, r'. split; [|split_and!; try done; split; try done; change (rq_free r ++ [id] = rq_free r0 ++ [id]); by rewrite Hfree].
  set (s3 := with_req s2 r') in E3. assert (ack_loop true psn [id] s = Some (AckDone, s3)) as E4.
  { cbn [ack_loop]. rewrite (bind_run _ _ _ _ _ E2). cbv iota. unfold bind in E3 |- *. destruct (unlink_swqe true id s2) as [[[] s']|]; [|done]. by rewrite E3. }
  unfold receive_ACK_response. rewrite (bind_run the_req _ s r s) by reflexivity. rewrite Hw, (bind_run _ _ _ _ _ E4). rewrite (bind_run the_req _ s3 r' s3) by reflexivity.
  change (rq_sending r') with (rq_sending r). rewrite Hs. reflexivity.
Qed.

Lemma rc_ack_run s port_num lrh bth r0 id sub w cq : qp_type (st_qp s) = IB_QPT_RC -> qp_state (st_qp s) = IB_QPS_RTS -> a_port_num (qp_attr (st_qp s)) = port_num ->
  bth_OpCode bth = IB_OPCODE_ACKNOWLEDGE -> bth_psn bth = Z.land (u32 (rq_expected_psn r0 mod 2 ^ 24)) PIB_PSN_MASK ->
  awaiting r0 (qp_requester (st_qp s)) id sub w -> w_opcode w = IB_WR_SEND \/ w_opcode w = IB_WR_SEND_WITH_IMM ->
  st_cqs s !! qp_send_cq (st_qp s) = Some cq -> has_room cq -> (id ∉ sub) -> (id ∉ rq_free r0) ->
  exists ev cq' cqs r', pib_receive_rc_qp_incoming_message port_num lrh bth ack_body s = Some (tt, (with_req s r') <| st_cqs := cqs |> <| st_events ::= fun l => l ++ ev |>)
  /\ works_of ev = [] /\ cqs !! qp_send_cq (st_qp s) = Some cq' /\ cq_cqe_head cq' = cq_cqe_head cq ++ (if signaled (st_qp s) w then [request_wc (st_qp s) w] else [])
  /\ finished r0 r' id sub.
Proof.
  intros Hty Hst Hport Hop Hpsn Haw Hwop Hcq Hroom N1 N2. set (s1 := with_req s ((qp_requester (st_qp s)) <| rq_nr_contig_requests := 0 |>)).
  destruct (acknowledge_run s1 r0 id sub w cq Hty) as (ev & cq' & cqs & r' & E & H); try done; [by destruct Haw|]. exists ev, cq', cqs, r'. split; [|exact H].
  unfold pib_receive_rc_qp_incoming_message. rewrite (bind_run the_qp _ s (st_qp s) s) by reflexivity. rewrite Hst, Hport, Z.eqb_refl, Hop. cbn [pib_is_recv_ok negb].
  change (IB_OPCODE_ACKNOWLEDGE =? PIB_OPCODE_CNP_SEND_NOTIFY) with false. change (negb (pib_is_recv_ok IB_QPS_RTS)) with false. cbv iota. rewrite (bind_run (of_option _) _ s true s) by reflexivity.
  set (s2 := (with_req s1 r') <| st_cqs := cqs |> <| st_events ::= fun l => l ++ ev |>) in E.
  assert (receive_response bth ack_body s = Some (-1, s2)) as E1.
  { unfold receive_response. change (Zlen ack_body <? AETH_SIZE) with false. cbv iota. rewrite (bind_run (upd_req _) _ s tt s1) by reflexivity. rewrite Hop, Hpsn. cbv zeta.
    assert (Z.land (Z.land (u32 (rq_expected_psn r0 mod 2 ^ 24)) PIB_PSN_MASK) PIB_PSN_MASK = rq_expected_psn r0 mod 2 ^ 24) as ->.
    { rewrite !psn_mask_mod, Z.mod_mod by done. by rewrite u32_mod24, Z.mod_mod. }
    change (IB_OPCODE_ACKNOWLEDGE =? IB_OPCODE_RDMA_READ_RESPONSE_MIDDLE) with false.
    change (Z.land (Z.shiftr (be_at 0 4 ack_body) 24) PIB_SYND_CODE_MASK =? PIB_SYND_ACK_CODE) with true. cbv iota. unfold dispatch_response.
    change (IB_OPCODE_ACKNOWLEDGE =? IB_OPCODE_ACKNOWLEDGE) with true. cbv iota. rewrite (bind_run _ _ _ _ _ E). rewrite (bind_run the_qp _ s2 (st_qp s2) s2) by reflexivity.
    change (qp_state (st_qp s2)) with (qp_state (st_qp s)). rewrite Hst. reflexivity. }
  rewrite (bind_run _ _ _ _ _ E1). reflexivity.
Qed.
End RcRecv.
