(* ===== verification/MessageThm.v ===== *)
(** * A message over a reliable connection

    The scheduler of one device sends a SEND of one packet; pibnetd forwards it; the other
    device puts it into the memory of the receive and queues an acknowledge; its scheduler
    sends that, pibnetd forwards it back, and the request completes. *)

From S2P Require Import Prelude Verbs Lib ObjNum Cq Srq Mr Port SwitchSmp SwitchThm Pma Netd NetdThm State Sched Qp QpInv QpThm Packet Wire Rc RcThm RcRsp RcResp Ud UdThm Requester RequesterThm Hca Frame HcaThm Link LinkThm Demo FabricThm Transit UdSendThm DatagramThm RcSendThm RcRecvThm.

(** ** One end of the connection *)

(** What no step of the message changes in a queue pair. *)
Definition conn (q : pib_qp) := (qp_num q, qp_pd q, qp_type q, qp_state q, qp_send_cq q, qp_recv_cq q, qp_attr q, qp_init_attr q).

(** The queue pair [q], number [i], of a device, its protection domain, the port it uses
    and the partition key of its packets; [gb] is the GUID of the port, behind every packet. *)
Record rc_end (fb : fabric) (h : hca) (na : Z) (gb : list Z) (i : Z) (q : pib_qp) (pd : Mr.pib_pd) (port : State.pib_port) (pkey : Z) : Prop := {
  en_lock : hc_lock h = false;
  en_netd : fb_multi_host_mode fb = true /\ fb_netd_sockaddr fb = Some na;
  en_results : hc_results h = [];
  en_qp : hc_qps h !! i = Some q /\ 1 < i < 2 ^ 24 - 1;
  en_pd : hc_pds h !! qp_pd q = Some pd;
  en_conn : connected (load h q pd) port pkey;
  en_sched : sched_member (load h q pd);
  en_idle : th_ready_to_send (st_thread (hc_st h)) = false;
  en_active : exists p, hc_ports h !! a_port_num (qp_attr q) = Some p /\ hp_state p = Link.IB_PORT_ACTIVE;
  en_guid : Link.port_guid port = Some gb /\ length gb = 8%nat;
  en_lids : 0 < ah_dlid (a_ah_attr (qp_attr q)) < PIB_MCAST_LID_BASE /\ 0 < port_lid port < 2 ^ 16;
  en_dest : 1 < a_dest_qp_num (qp_attr q) < 2 ^ 24 - 1;
  en_pkey : 0 <= pkey < 2 ^ 16 }.

Section Steps.
Context {PP : Params} (ahs : gmap Z ib_ah_attr) (fb : fabric).

(** ** Sending *)

Lemma conn_fields q q' : conn q' = conn q -> qp_num q' = qp_num q /\ qp_pd q' = qp_pd q /\ qp_type q' = qp_type q /\ qp_state q' = qp_state q
  /\ qp_send_cq q' = qp_send_cq q /\ qp_recv_cq q' = qp_recv_cq q /\ qp_attr q' = qp_attr q /\ qp_init_attr q' = qp_init_attr q.
Proof. intros H. by injection H. Qed.

(** A pass of the queue pair that leaves a packet for the thread: the packet goes out, and
    what the pass changed in the device is there behind it. *)
Lemma end_sends h na gb i q pd port pkey s' op psn sol body k (He : rc_end fb h na gb i q pd port pkey) :
  head (se_qp <$> qs_tree (st_sched (hc_st h))) = Some i -> process_on_qp_scheduler ahs (load h q pd) = Some (tt, s') ->
  conn (st_qp s') = conn q -> st_ports s' = st_ports (hc_st h) -> st_pd s' = pd -> st_events s' = [] -> sched_member s' ->
  let pkt := pkt_of (a_ah_attr (qp_attr q)) (port_lid port) op pkey (a_dest_qp_num (qp_attr q)) psn sol body in
  thread_has (st_thread s') (pkt k) (a_port_num (qp_attr q)) (port_lid port) (ah_dlid (a_ah_attr (qp_attr q))) (qp_num q) ->
  Zlen (pkt k) = Verbs.PIB_PACKET_BUFFER -> byte_ok op -> 0 < Zlen body <= 4108 ->
  exists again h' tail, qp_scheduler_turn ahs fb h = Some (again, h') /\ Zlen tail = pad_of (Zlen body) + 4 /\ hc_sent h' = hc_sent h ++ [(na, pkt tail ++ gb)]
  /\ rc_end fb h' na gb i (st_qp s') pd port pkey /\ st_cqs (hc_st h') = st_cqs s' /\ st_mem (hc_st h') = st_mem s'.
Proof.
  intros Hhead E Hconn Hports Hpd' Hev Hm pkt Ht Hz Hop Hb.
  destruct He as [Hl [Hmh Hn] Hres [Hq Hi] Hpd Hc _ _ (p & Hp & Hact) [Hg Hgl] [Hd Hs] Hdq Hk].
  assert (with_qp i (process_on_qp_scheduler ahs) (relocked h) = Some (tt, stored i (qp_pd q) s' (relocked h))) as Hw.
  { apply with_qp_quiet with pd; [exact Hq|exact Hpd|by rewrite Hev|exact E]. }
  edestruct (turn_sends ahs fb h na gb i q pd s' (a_port_num (qp_attr q)) (a_ah_attr (qp_attr q)) (port_lid port) op pkey (a_dest_qp_num (qp_attr q)) psn sol body k)
    as (again & h' & tail & E1 & Htl & Hsent); try done; [|lia|].
  { exists p, port. split_and!; try done. exact (cn_port _ _ _ Hc). }
  destruct Hsent as (S1 & S2 & S3 & S4 & _ & _ & S7 & S8 & S9 & f & S10 & S11). exists again, h', tail. split; [exact E1|]. split; [exact Htl|]. split; [exact S1|].
  destruct (conn_fields _ _ Hconn) as (C1 & C2 & C3 & C4 & C5 & C6 & C7 & C8). split; [|rewrite S8; by split].
  split; rewrite ?C7, ?C2; [by rewrite S4|done|by rewrite S7| | | | |exact S9| |done|done|done|done].
  - rewrite S2. split; [apply lookup_insert_eq|done].
  - rewrite S3. simpl. by rewrite lookup_insert_eq, Hpd'.
  - destruct Hc as [K1 K2 K3]. split; change (st_qp (load h' (st_qp s') pd)) with (st_qp s'); rewrite ?C7; [|done|done]. unfold load. rewrite S8. simpl. by rewrite Hports.
  - unfold load. rewrite S8. exact Hm.
  - exists (f p). rewrite S10. change (th_port_num (st_thread (hc_st (stored i (qp_pd q) s' (relocked h))))) with (th_port_num (st_thread s')).
    destruct Ht as (_ & T2 & _). rewrite T2. change (hc_ports (stored i (qp_pd q) s' (relocked h))) with (hc_ports h). rewrite lookup_alter_eq, Hp. split; [done|]. by rewrite (proj1 (S11 p)).
Qed.

(** ** Receiving *)

(** A packet for the queue pair, which its handler takes. *)
Lemma end_receives h na gb i q pd port pkey ah slid op psn sol body tail gb' s' (He : rc_end fb h na gb i q pd port pkey) :
  let port_num := a_port_num (qp_attr q) in
  ah_dlid ah = port_lid port -> 0 < ah_dlid ah < PIB_MCAST_LID_BASE -> 0 < slid < 2 ^ 16 -> byte_ok op -> 0 < Zlen body <= 4108 -> Zlen tail = pad_of (Zlen body) + 4 -> length gb' = 8%nat ->
  deliver port_num (pkt_lrh ah slid (Zlen body)) None (pkt_bth op pkey i psn (Zlen body) sol) body (load h q pd) = Some (tt, s') ->
  works_of (st_events s') = [] -> st_thread s' = st_thread (hc_st h) ->
  let n := Zlen (pkt_of ah slid op pkey i psn sol body tail) + 8 in
  process_incoming_message fb port_num (pkt_of ah slid op pkey i psn sol body tail ++ gb') h = Some (tt, stored i (qp_pd q) s' (relocked (counted port_num n h))).
Proof.
  intros port_num Hlid Hd Hslid Hop Hb Ht Hgl E Hev Hth n. destruct He as [Hl _ _ [Hq Hi] Hpd Hc _ Hidle (p & Hp & Hact) _ _ _ Hk]. assert (0 <= i < 2 ^ 24) as Hi' by lia.
  pose proof (pkt_parsed ah slid op pkey i psn sol body Hop Hd Hslid Hk Hi' Hb tail Ht) as Hparse. cbv beta zeta in Hparse.
  destruct (pkt_headers ah slid op pkey i psn sol body Hop Hd Hslid Hk Hi' Hb) as (_ & _ & Hpad & Hdest & Hkey & _).
  pose proof (pkt_body ah slid op pkey i psn sol body Hop Hd Hslid Hk Hi' Hb tail Ht) as Hbody.
  set (pkt := pkt_of ah slid op pkey i psn sol body tail) in *. set (bth := pkt_bth _ _ _ _ _ _) in *. set (lrh := pkt_lrh _ _ _) in *. set (h1 := counted port_num n h).
  assert (exists p1, hc_ports h1 !! port_num = Some p1) as [p1 Hp1] by (unfold h1, counted; simpl; unfold port_num; rewrite lookup_alter_eq, Hp; eauto).
  assert (with_qp i (deliver port_num lrh None bth body) (relocked h1) = Some (tt, stored i (qp_pd q) s' (relocked h1))) as Hw by (by apply with_qp_quiet with pd).
  rewrite (incoming_run fb h port_num p pkt gb' body tail lrh bth Hp Hact Hgl Hparse eq_refl Hbody ltac:(by rewrite Hpad) ltac:(by rewrite Hdest) (proj2 Hd)), Hdest.
  apply (per_qp_run fb h1 port_num (ah_dlid ah) i lrh bth body p1 port q s'); try done; [exact (cn_port _ _ _ Hc)|rewrite Hkey; exact (cn_pkey _ _ _ Hc)|by rewrite Hth].
Qed.

Lemma end_after h na gb i q pd port pkey n s' (He : rc_end fb h na gb i q pd port pkey) : conn (st_qp s') = conn q -> st_ports s' = st_ports (hc_st h) -> st_pd s' = pd ->
  st_thread s' = st_thread (hc_st h) -> sched_member s' ->
  rc_end fb (stored i (qp_pd q) s' (relocked (counted (a_port_num (qp_attr q)) n h))) na gb i (st_qp s') pd port pkey.
Proof.
  intros Hconn Hports Hpd' Hth Hm. destruct (conn_fields _ _ Hconn) as (C1 & C2 & C3 & C4 & C5 & C6 & C7 & C8).
  destruct He as [Hl Hn Hres [Hq Hi] Hpd Hc _ Hidle (p & Hp & Hact) Hg Hlids Hdq Hk].
  split; rewrite ?C7, ?C2; [done|done|done| | | |exact Hm| | |done|done|done|done].
  - split; [apply lookup_insert_eq|done].
  - simpl. by rewrite lookup_insert_eq, Hpd'.
  - destruct Hc as [K1 K2 K3]. split; [|by simpl; rewrite C7..]. change (st_ports s' !! a_port_num (qp_attr (st_qp s')) = Some port). by rewrite Hports, C7.
  - change (th_ready_to_send (st_thread s') = false). by rewrite Hth.
  - eexists. split; [unfold stored, relocked, counted; simpl; rewrite lookup_alter_eq, Hp; reflexivity|exact Hact].
Qed.

(** ** The four steps *)

(** The end that sends: its queue pair is due, and [id] is its next request. *)
Record rc_sender (h : hca) (na : Z) (gb : list Z) (i : Z) (q : pib_qp) (pd : Mr.pib_pd) (port : State.pib_port) (pkey id : Z) (sub : list Z) (w : pib_send_wqe) (cq : pib_cq) : Prop := {
  sn_inv : hca_inv h;
  sn_end : rc_end fb h na gb i q pd port pkey;
  sn_buf : buffer_ok (hc_st h);
  sn_due : head (se_qp <$> qs_tree (st_sched (hc_st h))) = Some i;
  sn_next : rc_next (load h q pd) id sub w;
  sn_message : one_message (load h q pd) w;
  sn_ex : 0 <= w_ex w < 2 ^ 32;
  sn_cq : st_cqs (hc_st h) !! qp_send_cq q = Some cq /\ has_room cq }.

Lemma rc_op_byte w : byte_ok (rc_op w).
Proof. unfold rc_op. by destruct (wqe_imm w). Qed.

(** The packet of the request. *)
Definition message_packet (h : hca) (q : pib_qp) (pd : Mr.pib_pd) (port : State.pib_port) (pkey : Z) (w : pib_send_wqe) (tail : list Z) : list Z :=
  pkt_of (a_ah_attr (qp_attr q)) (port_lid port) (rc_op w) pkey (a_dest_qp_num (qp_attr q)) (u32 (rq_expected_psn (qp_requester q) + 0)) (rc_solicited w) (rc_body (load h q pd) w) tail.

Lemma sender_sends h na gb i q pd port pkey id sub w cq (Hs : rc_sender h na gb i q pd port pkey id sub w cq) :
  exists again h' tail q', qp_scheduler_turn ahs fb h = Some (again, h') /\ Zlen tail = pad_of (Zlen (rc_body (load h q pd) w)) + 4
  /\ hc_sent h' = hc_sent h ++ [(na, message_packet h q pd port pkey w tail ++ gb)]
  /\ rc_end fb h' na gb i q' pd port pkey /\ conn q' = conn q /\ st_cqs (hc_st h') = st_cqs (hc_st h) /\ awaiting (qp_requester q) (qp_requester q') id sub w.
Proof.
  destruct Hs as [Hi He Hbuf Hdue Hn Hm _ _]. destruct (hi_qps _ Hi i q (proj1 (en_qp _ _ _ _ _ _ _ _ _ He))) as (_ & pd0 & ids & Hpd0 & Hwf).
  assert (pd0 = pd) as -> by (pose proof (en_pd _ _ _ _ _ _ _ _ _ He); congruence).
  destruct (rc_pass_run ahs ids (load h q pd) id sub w port pkey Hwf Hn Hm (en_conn _ _ _ _ _ _ _ _ _ He) Hbuf) as (r' & k & on & tm & tid & d & f & E & Hk & Hsm & Haw). cbv zeta in E, Hsm.
  set (s' := resched _ on tm tid d f) in *.
  destruct (end_sends h na gb i q pd port pkey s' (rc_op w) (u32 (rq_expected_psn (qp_requester q) + 0)) (rc_solicited w) (rc_body (load h q pd) w) k He) as (again & h' & tail & E1 & Ht & S1 & He' & Hc & _);
    try done; [apply rc_op_byte|by apply Zlen_rc_body|].
  exists again, h', tail, (st_qp s'). split_and!; done.
Qed.

(** The end that receives: [w] is its oldest receive, and no other queue pair of its device
    is due. *)
Record rc_receiver (h : hca) (na : Z) (gb : list Z) (i : Z) (q : pib_qp) (pd : Mr.pib_pd) (port : State.pib_port) (pkey psn n : Z) (w : pib_recv_wqe) (l : list pib_recv_wqe) (cq : pib_cq) : Prop := {
  rv_inv : hca_inv h;
  rv_end : rc_end fb h na gb i q pd port pkey;
  rv_buf : buffer_ok (hc_st h);
  rv_expects : rc_expects (load h q pd) (a_port_num (qp_attr q)) psn n w l cq;
  rv_free : rs_nr_contig_read_acks (qp_responder q) < PIB_MAX_CONTIG_READ_ACKS;
  rv_now : 0 <= st_now (hc_st h) < 2 ^ 64;
  rv_due : Forall (fun e => se_qp e = i \/ time_after (se_time e) (st_now (hc_st h)) = true) (qs_tree (st_sched (hc_st h))) }.

(** A response is due now, before anything that is due later. *)
Lemma insert_first e rest now : se_time e = now -> Forall (fun x => time_after (se_time x) now = true) rest -> head (se_qp <$> sched_insert e rest) = Some (se_qp e).
Proof.
  intros <- [|x r Hx _]; [done|]. simpl. unfold sched_left. destruct (Z.eqb_spec (se_time x) (se_time e)) as [Heq|]; [|by rewrite Hx].
  exfalso. unfold time_after in Hx. by rewrite Heq, Z.sub_diag in Hx.
Qed.

Lemma response_due now q : 0 <= now < 2 ^ 64 -> qp_type q = IB_QPT_RC -> pib_is_recv_ok (qp_state q) = true -> rs_acks (qp_responder q) <> [] ->
  rs_nr_contig_read_acks (qp_responder q) < PIB_MAX_CONTIG_READ_ACKS -> schedule_time_of now q = Some now.
Proof.
  intros Hnow Hty Hst Ha Hc. unfold schedule_time_of. rewrite (bool_decide_eq_true_2 _ Hty), Hst, (bool_decide_eq_false_2 _ Ha), (proj2 (Z.ltb_lt _ _) Hc). cbn [negb andb].
  rewrite (proj2 (Z.eqb_neq _ _)); [done|]. intros H. unfold u64, wrap, PIB_SCHED_TIMEOUT in H. Z.to_euclidean_division_equations; lia.
Qed.

(** What the receiving end has of the message: the receive is taken, its memory has the
    payload and no other byte changed, and the completion tells of it. *)
Definition message_taken (h : hca) (q : pib_qp) (pd : Mr.pib_pd) (w : pib_recv_wqe) (l : list pib_recv_wqe) (cq : pib_cq) (imm : option Z) (slid : Z) (payload : list Z) (h' : hca) (q' : pib_qp) : Prop :=
  let dest := slice 0 (Zlen payload) (sgl_addrs pd (rwqe_sge_array w)) in
  rs_recv_wqes (qp_responder q') = l /\ st_mem (hc_st h') <$> dest = payload /\ (forall x, x ∉ dest -> st_mem (hc_st h') x = st_mem (hc_st h) x)
  /\ exists cq', st_cqs (hc_st h') !! qp_recv_cq q = Some cq'
     /\ cq_cqe_head cq' = cq_cqe_head cq ++ [send_wc q w (bool_decide (is_Some imm)) (Zlen payload) slid (default 0 imm)].

Lemma receiver_takes h na gb i q pd port pkey ah slid sw payload e w l cq tail gb' (Hr : rc_receiver h na gb i q pd port pkey e (Zlen payload) w l cq) :
  let body := (if wqe_imm sw then le_split 4 (w_ex sw) else []) ++ payload in
  ah_dlid ah = port_lid port -> 0 < ah_dlid ah < PIB_MCAST_LID_BASE -> 0 < slid < 2 ^ 16 -> 0 < Zlen body <= 4108 -> Zlen tail = pad_of (Zlen body) + 4 -> length gb' = 8%nat ->
  0 <= w_ex sw < 2 ^ 32 ->
  exists h' q', process_incoming_message fb (a_port_num (qp_attr q)) (pkt_of ah slid (rc_op sw) pkey i (u32 (e + 0)) (rc_solicited sw) body tail ++ gb') h = Some (tt, h')
  /\ rc_end fb h' na gb i q' pd port pkey /\ conn q' = conn q /\ buffer_ok (hc_st h') /\ head (se_qp <$> qs_tree (st_sched (hc_st h'))) = Some i
  /\ rs_acks (qp_responder q') = [normal_ack (e mod 2 ^ 24)] /\ hc_sent h' = hc_sent h
  /\ message_taken h q pd w l cq (if wqe_imm sw then Some (w_ex sw) else None) slid payload h' q'.
Proof.
  intros body Hlid Hd Hslid Hb Ht Hgl Hex. destruct Hr as [Hi He Hbuf Hx Hfree Hnow Hdue]. pose proof (en_qp _ _ _ _ _ _ _ _ _ He) as [Hq Hir]. pose proof (en_pkey _ _ _ _ _ _ _ _ _ He) as Hk.
  set (psn := u32 (e + 0)). set (bth := pkt_bth (rc_op sw) pkey i psn (Zlen body) (rc_solicited sw)). set (lrh := pkt_lrh ah slid (Zlen body)).
  destruct (pkt_headers ah slid (rc_op sw) pkey i psn (rc_solicited sw) body (rc_op_byte sw) Hd Hslid Hk ltac:(lia) Hb) as (_ & _ & _ & _ & _ & _ & Hop & Hpsn). fold bth in Hop, Hpsn.
  destruct (rc_send_run (load h q pd) (a_port_num (qp_attr q)) lrh bth sw payload e w l cq Hx Hop Hpsn Hex) as (m & ev & cq' & r' & E & M1 & M2 & Hev & Hcq & R1 & R2 & R3). cbv zeta in E.
  fold body in E. set (s1 := _ <| st_qp ::= _ |>) in E. change (qp_recv_cq (st_qp (load h q pd))) with (qp_recv_cq q) in s1.
  assert (sched_member s1) as Hm1 by exact (en_sched _ _ _ _ _ _ _ _ _ He). destruct (reschedule_run s1 Hm1) as (on & tm & tid & d & f & E5 & Hm5 & Htree).
  set (s2 := resched s1 on tm tid d f) in *. pose proof (re_type _ _ _ _ _ _ _ Hx : qp_type q = IB_QPT_RC) as Hty. pose proof (re_state _ _ _ _ _ _ _ Hx : qp_state q = IB_QPS_RTS) as Hst.
  assert (deliver (a_port_num (qp_attr q)) lrh None bth body (load h q pd) = Some (tt, s2)) as Ed.
  { unfold deliver. rewrite (bind_run the_qp _ _ q (load h q pd)) by reflexivity. rewrite Hty, (bind_run _ _ _ _ _ E). exact E5. }
  pose proof (end_receives h na gb i q pd port pkey ah slid (rc_op sw) psn (rc_solicited sw) body tail gb' s2 He Hlid Hd Hslid (rc_op_byte sw) Hb Ht Hgl Ed Hev eq_refl) as Er. cbv zeta in Er.
  set (n := Zlen (pkt_of _ _ _ _ _ _ _ _ _) + 8) in Er. eexists _, (st_qp s2). split; [exact Er|]. split; [by apply end_after|]. split; [reflexivity|]. split; [exact Hbuf|].
  split; [|split; [exact R2|split; [reflexivity|]]].
  - change (head (se_qp <$> qs_tree d) = Some i). destruct (hi_qps _ Hi i q Hq) as (Hid & _). rewrite (Htree (st_now (hc_st h))); [|apply response_due; [exact Hnow|exact Hty| | |]; [change (pib_is_recv_ok (qp_state q) = true); by rewrite Hst|change (rs_acks r' <> []); by rewrite R2|change (rs_nr_contig_read_acks r' < PIB_MAX_CONTIG_READ_ACKS); by rewrite R3]].
    change (qp_id (st_qp s1)) with (qp_id q). rewrite Hid. apply (insert_first {| se_time := _; se_tid := _; se_qp := i |} _ (st_now (hc_st h))); [reflexivity|].
    apply Forall_forall. intros x Hxin. apply elem_of_sched_erase in Hxin as [Hin Hne]. rewrite Forall_forall in Hdue. by destruct (Hdue x Hin).
  - split; [exact R1|]. split; [exact M1|]. split; [exact M2|]. exists cq'. split; [apply lookup_insert_eq|]. rewrite Hcq. change (lrh_slid lrh) with slid. by destruct (wqe_imm sw).
Qed.

Lemma receiver_answers h na gb i q pd port pkey psn (He : rc_end fb h na gb i q pd port pkey) : buffer_ok (hc_st h) -> head (se_qp <$> qs_tree (st_sched (hc_st h))) = Some i ->
  qp_type q = IB_QPT_RC -> qp_state q = IB_QPS_RTS -> rs_acks (qp_responder q) = [normal_ack psn] ->
  exists again h' tail q', qp_scheduler_turn ahs fb h = Some (again, h') /\ Zlen tail = pad_of (Zlen ack_body) + 4
  /\ hc_sent h' = hc_sent h ++ [(na, pkt_of (a_ah_attr (qp_attr q)) (port_lid port) IB_OPCODE_ACKNOWLEDGE pkey (a_dest_qp_num (qp_attr q)) psn false ack_body tail ++ gb)]
  /\ rc_end fb h' na gb i q' pd port pkey /\ conn q' = conn q /\ st_cqs (hc_st h') = st_cqs (hc_st h) /\ st_mem (hc_st h') = st_mem (hc_st h)
  /\ rs_recv_wqes (qp_responder q') = rs_recv_wqes (qp_responder q) /\ rs_acks (qp_responder q') = [].
Proof.
  intros Hbuf Hdue Hty Hst Hacks.
  destruct (ack_pass_run ahs (load h q pd) psn port pkey (en_conn _ _ _ _ _ _ _ _ _ He) Hbuf (en_sched _ _ _ _ _ _ _ _ _ He) Hty ltac:(change (pib_is_recv_ok (qp_state q) = true); by rewrite Hst) Hacks) as (k & on & tm & tid & d & f & E & Hk & Hsm).
  cbv zeta in E, Hsm. set (s' := resched _ on tm tid d f) in *.
  destruct (end_sends h na gb i q pd port pkey s' IB_OPCODE_ACKNOWLEDGE psn false ack_body k He) as (again & h' & tail & E1 & Ht & S1 & He' & Hc & Hmem); try done.
  exists again, h', tail, (st_qp s'). split_and!; done.
Qed.

Lemma sender_completes h na gb i q pd port pkey ah slid r0 id sub w cq tail gb' (He : rc_end fb h na gb i q pd port pkey) :
  ah_dlid ah = port_lid port -> 0 < ah_dlid ah < PIB_MCAST_LID_BASE -> 0 < slid < 2 ^ 16 -> Zlen tail = pad_of (Zlen ack_body) + 4 -> length gb' = 8%nat ->
  qp_type q = IB_QPT_RC -> qp_state q = IB_QPS_RTS -> awaiting r0 (qp_requester q) id sub w -> w_opcode w = IB_WR_SEND \/ w_opcode w = IB_WR_SEND_WITH_IMM ->
  st_cqs (hc_st h) !! qp_send_cq q = Some cq -> has_room cq -> (id ∉ sub) -> (id ∉ rq_free r0) ->
  exists h' q' cq', process_incoming_message fb (a_port_num (qp_attr q)) (pkt_of ah slid IB_OPCODE_ACKNOWLEDGE pkey i (rq_expected_psn r0 mod 2 ^ 24) false ack_body tail ++ gb') h = Some (tt, h')
  /\ hc_qps h' !! i = Some q' /\ finished r0 (qp_requester q') id sub /\ st_cqs (hc_st h') !! qp_send_cq q = Some cq'
  /\ cq_cqe_head cq' = cq_cqe_head cq ++ (if signaled q w then [request_wc q w] else []).
Proof.
  intros Hlid Hd Hslid Ht Hgl Hty Hst Haw Hop Hcq Hroom N1 N2. pose proof (en_qp _ _ _ _ _ _ _ _ _ He) as [Hq Hir]. pose proof (en_pkey _ _ _ _ _ _ _ _ _ He) as Hk.
  set (psn := rq_expected_psn r0 mod 2 ^ 24). set (bth := pkt_bth IB_OPCODE_ACKNOWLEDGE pkey i psn (Zlen ack_body) false). set (lrh := pkt_lrh ah slid (Zlen ack_body)).
  destruct (pkt_headers ah slid IB_OPCODE_ACKNOWLEDGE pkey i psn false ack_body ltac:(done) Hd Hslid Hk ltac:(lia) ltac:(done)) as (_ & _ & _ & _ & _ & _ & Hbop & Hpsn). fold bth in Hbop, Hpsn.
  destruct (rc_ack_run (load h q pd) (a_port_num (qp_attr q)) lrh bth r0 id sub w cq Hty Hst eq_refl Hbop Hpsn Haw Hop Hcq Hroom N1 N2) as (ev & cq' & cqs & r' & E & Hev & Hl & Hh & Hf).
  set (s1 := _ <| st_cqs := cqs |> <| st_events ::= _ |>) in E. assert (sched_member s1) as Hm1 by exact (en_sched _ _ _ _ _ _ _ _ _ He).
  destruct (reschedule_run s1 Hm1) as (on & tm & tid & d & f & E5 & _). set (s2 := resched s1 on tm tid d f) in *.
  assert (deliver (a_port_num (qp_attr q)) lrh None bth ack_body (load h q pd) = Some (tt, s2)) as Ed.
  { unfold deliver. rewrite (bind_run the_qp _ _ q (load h q pd)) by reflexivity. rewrite Hty, (bind_run _ _ _ _ _ E). exact E5. }
  pose proof (end_receives h na gb i q pd port pkey ah slid IB_OPCODE_ACKNOWLEDGE psn false ack_body tail gb' s2 He Hlid Hd Hslid ltac:(done) ltac:(done) Ht Hgl Ed Hev eq_refl) as Er. cbv zeta in Er.
  eexists _, (st_qp s2), cq'. split; [exact Er|]. split; [apply lookup_insert_eq|]. split; [exact Hf|]. split; [exact Hl|exact Hh].
Qed.
End Steps.

(** ** Theorem *)

(** The two ends of a connection name each other. *)
Record peers (i j : Z) (qa qb : pib_qp) (pa pb : State.pib_port) : Prop := {
  pe_qpa : a_dest_qp_num (qp_attr qa) = j;
  pe_qpb : a_dest_qp_num (qp_attr qb) = i;
  pe_lida : ah_dlid (a_ah_attr (qp_attr qa)) = port_lid pb;
  pe_lidb : ah_dlid (a_ah_attr (qp_attr qb)) = port_lid pa }.

(** C4. A message crosses the fabric and is acknowledged.  Two queue pairs of type RC name each
    other and count packets in step; the next request of the one is a SEND of at most one
    packet, and the other has a receive for it.  The scheduler of the first device sends one
    datagram, pibnetd forwards it as it came, and the second device puts the bytes the
    request named into the memory of the receive, changes no other byte, takes the receive
    off its queue and tells of the message in its completion queue.  The next turn of its
    scheduler sends one acknowledge, pibnetd forwards that, and the request is done: its
    entry is free again, the other requests are where they were, and the completion it asked
    for, if it did, is in the send CQ. *)
Theorem message_delivered {PP : Params} (ahs ahs' : gmap Z ib_ah_attr) (fa fb : fabric) (g g' : Z) (fuel fuel' : nat) (ha hb : hca) (s : netd) (na nb : Z)
    (a b src src' : sockaddr) (gba gbb : list Z) (i j : Z) (qa qb : pib_qp) (pda pdb : Mr.pib_pd) (pa pb : State.pib_port) (pkey id : Z) (sub : list Z)
    (wa : pib_send_wqe) (cqa : pib_cq) (wb : pib_recv_wqe) (l : list pib_recv_wqe) (cqb : pib_cq)
    (Hs : rc_sender fa ha na gba i qa pda pa pkey id sub wa cqa)
    (Hr : rc_receiver fb hb nb gbb j qb pdb pb pkey (rq_expected_psn (qp_requester qa)) (w_total_length wa) wb l cqb)
    (Hp : peers i j qa qb pa pb) (Hga : be_combine gba <> 0) (Hgb : be_combine gbb <> 0)
    (Hab : routed s (be_combine gba) (port_lid pb) b) (Hba : routed s (be_combine gbb) (port_lid pa) a) :
  let n := w_total_length wa in
  let payload := st_mem (hc_st ha) <$> slice 0 n (sgl_addrs pda (w_sge_array wa)) in
  exists again again' ha1 ha2 hb1 hb2 s1 s2 data ack qa' qb' cqa',
    qp_scheduler_turn ahs fa ha = Some (again, ha1) /\ hc_sent ha1 = hc_sent ha ++ [(na, data)]
    /\ Netd.receive_packet g fuel [SysOk (src, data)] s = Some (Next tt, s1) /\ nt_sent s1 = nt_sent s ++ [(b, data)]
    /\ process_incoming_message fb (a_port_num (qp_attr qb)) data hb = Some (tt, hb1)
    /\ qp_scheduler_turn ahs' fb hb1 = Some (again', hb2) /\ hc_sent hb2 = hc_sent hb ++ [(nb, ack)]
    /\ Netd.receive_packet g' fuel' [SysOk (src', ack)] s1 = Some (Next tt, s2) /\ nt_sent s2 = nt_sent s1 ++ [(a, ack)]
    /\ process_incoming_message fa (a_port_num (qp_attr qa)) ack ha1 = Some (tt, ha2)
    /\ hc_qps hb2 !! j = Some qb' /\ message_taken hb qb pdb wb l cqb (if wqe_imm wa then Some (w_ex wa) else None) (port_lid pa) payload hb2 qb'
    /\ hc_qps ha2 !! i = Some qa' /\ finished (qp_requester qa) (qp_requester qa') id sub
    /\ st_cqs (hc_st ha2) !! qp_send_cq qa = Some cqa' /\ cq_cqe_head cqa' = cq_cqe_head cqa ++ (if signaled qa wa then [request_wc qa wa] else []).
Proof.
  intros n payload. destruct Hp as [P1 P2 P3 P4]. pose proof (sn_end _ _ _ _ _ _ _ _ _ _ _ _ _ Hs) as Hea. pose proof (rv_end _ _ _ _ _ _ _ _ _ _ _ _ _ _ Hr) as Heb.
  destruct (en_lids _ _ _ _ _ _ _ _ _ Hea) as [Hda Hla]. destruct (en_lids _ _ _ _ _ _ _ _ _ Heb) as [Hdb Hlb]. pose proof (en_pkey _ _ _ _ _ _ _ _ _ Hea) as Hk.
  destruct (en_guid _ _ _ _ _ _ _ _ _ Hea) as [_ Hla8]. destruct (en_guid _ _ _ _ _ _ _ _ _ Heb) as [_ Hlb8].
  destruct (en_qp _ _ _ _ _ _ _ _ _ Hea) as [_ Hi]. destruct (en_qp _ _ _ _ _ _ _ _ _ Heb) as [_ Hj].
  pose proof (sn_message _ _ _ _ _ _ _ _ _ _ _ _ _ Hs) as Hm. pose proof (Zlen_rc_payload _ _ Hm : Zlen payload = n) as Hpl. pose proof (Zlen_rc_body _ _ Hm) as Hbl.
  destruct (sender_sends ahs fa ha na gba i qa pda pa pkey id sub wa cqa Hs) as (again & ha1 & tail & qa1 & E1 & Ht & S1 & Hea1 & Hca & Hcqs & Haw).
  unfold message_packet in S1. rewrite P1 in S1. set (body := rc_body (load ha qa pda) wa) in *. set (e := rq_expected_psn (qp_requester qa)) in *.
  (* to the receiver *)
  pose proof (pkt_datagram (a_ah_attr (qp_attr qa)) (port_lid pa) (rc_op wa) pkey j (u32 (e + 0)) (rc_solicited wa) body (rc_op_byte wa) Hda Hla Hk ltac:(lia) Hbl tail Ht gba Hla8 Hga) as D1.
  destruct (pkt_headers (a_ah_attr (qp_attr qa)) (port_lid pa) (rc_op wa) pkey j (u32 (e + 0)) (rc_solicited wa) body (rc_op_byte wa) Hda Hla Hk ltac:(lia) Hbl) as (_ & _ & _ & Q1 & _).
  destruct (route_run g fuel s src _ _ _ _ b D1 ltac:(simpl; by rewrite P3) ltac:(by rewrite Q1) Hda) as (s1 & E2 & S2 & Hroutes).
  fold n in Hr. rewrite <-Hpl in Hr.
  destruct (receiver_takes fb hb nb gbb j qb pdb pb pkey (a_ah_attr (qp_attr qa)) (port_lid pa) wa payload e wb l cqb tail gba Hr P3 Hda Hla Hbl Ht Hla8 (sn_ex _ _ _ _ _ _ _ _ _ _ _ _ _ Hs))
    as (hb1 & qb1 & E3 & Heb1 & Hcb & Hbuf & Hdue & Hacks & S3 & T1 & T2 & T3 & T4).
  (* back *)
  destruct (conn_fields _ _ Hcb) as (_ & _ & B3 & B4 & _ & _ & B7 & _). destruct (conn_fields _ _ Hca) as (A1 & _ & A3 & A4 & A5 & _ & A7 & A8).
  pose proof (rv_expects _ _ _ _ _ _ _ _ _ _ _ _ _ _ Hr) as Hx. pose proof (sn_next _ _ _ _ _ _ _ _ _ _ _ _ _ Hs) as Hn.
  destruct (receiver_answers ahs' fb hb1 nb gbb j qb1 pdb pb pkey (e mod 2 ^ 24) Heb1 Hbuf Hdue ltac:(rewrite B3; exact (re_type _ _ _ _ _ _ _ Hx)) ltac:(rewrite B4; exact (re_state _ _ _ _ _ _ _ Hx)) Hacks)
    as (again' & hb2 & tail' & qb2 & E4 & Ht' & S4 & Heb2 & _ & M1 & M2 & M3 & _).
  rewrite B7, P2 in S4. rewrite S3 in S4.
  pose proof (pkt_datagram (a_ah_attr (qp_attr qb)) (port_lid pb) IB_OPCODE_ACKNOWLEDGE pkey i (e mod 2 ^ 24) false ack_body ltac:(done) Hdb Hlb Hk ltac:(lia) ltac:(done) tail' Ht' gbb Hlb8 Hgb) as D2.
  destruct (pkt_headers (a_ah_attr (qp_attr qb)) (port_lid pb) IB_OPCODE_ACKNOWLEDGE pkey i (e mod 2 ^ 24) false ack_body ltac:(done) Hdb Hlb Hk ltac:(lia) ltac:(done)) as (_ & _ & _ & Q2 & _).
  destruct (route_run g' fuel' s1 src' _ _ _ _ a D2 ltac:(simpl; rewrite P4; by apply Hroutes) ltac:(by rewrite Q2) Hdb) as (s2 & E5 & S5 & _).
  destruct (sn_cq _ _ _ _ _ _ _ _ _ _ _ _ _ Hs) as [Hcq Hroom]. destruct (hi_qps _ (sn_inv _ _ _ _ _ _ _ _ _ _ _ _ _ Hs) i qa (proj1 (en_qp _ _ _ _ _ _ _ _ _ Hea))) as (_ & pd0 & ids & _ & Hwf).
  destruct (own_submitted _ _ _ _ (wf_own _ _ Hwf) (rn_submitted _ _ _ _ Hn)) as (N1 & _ & _ & N4).
  destruct (sender_completes fa ha1 na gba i qa1 pda pa pkey (a_ah_attr (qp_attr qb)) (port_lid pb) (qp_requester qa) id sub wa cqa tail' gbb Hea1 P4 Hdb Hlb Ht' Hlb8
    ltac:(rewrite A3; exact (rn_type _ _ _ _ Hn)) ltac:(rewrite A4; exact (rn_state _ _ _ _ Hn)) Haw (om_opcode _ _ Hm) ltac:(rewrite A5, Hcqs; exact Hcq) Hroom N1 N4)
    as (ha2 & qa2 & cqa' & E6 & F1 & F2 & F3 & F4).
  rewrite A7 in E6. rewrite A5 in F3. assert (signaled qa1 wa = signaled qa wa /\ request_wc qa1 wa = request_wc qa wa) as [W1 W2] by (unfold signaled, request_wc; by rewrite A8, A1). rewrite W1, W2 in F4.
  eexists again, again', ha1, ha2, hb1, hb2, s1, s2, _, _, qa2, qb2, cqa'. split; [exact E1|]. split; [exact S1|]. split; [exact E2|]. split; [exact S2|]. split; [exact E3|]. split; [exact E4|].
  split; [exact S4|]. split; [exact E5|]. split; [exact S5|]. split; [exact E6|]. split; [exact (proj1 (en_qp _ _ _ _ _ _ _ _ _ Heb2))|]. split; [|by split_and!].
  unfold message_taken in *. rewrite M1, M2, M3. by split_and!.
Qed.

(** ** Witness *)

#[local] Existing Instance demo_params.

(** The two ends have QP number 7 each; the one at LID 1 sends three bytes to the one at LID 7. *)
Definition msg_attr (dlid : Z) : ib_qp_attr := demo_attr <| a_dest_qp_num := 7 |>
  <| a_ah_attr := {| ah_grh := ah_grh demo_ah; ah_dlid := dlid; ah_sl := 0; ah_src_path_bits := 0; ah_ah_flags := 0; ah_port_num := 1 |} |>.
Definition msg_wqe : pib_send_wqe :=
  (demo_swqe 101 3 PIB_SWQE_SUBMITTED 0 0 0) <| w_sge_array := [{| sge_addr := 0x10200; sge_length := 3; sge_lkey := 0x100000 |}] |>.
Definition msg_qp (dlid : Z) : pib_qp := wire_qp_of IB_QPT_RC (msg_attr dlid) msg_wqe 20.
Definition msg_hca (lid dlid guid : Z) : hca := wire_hca_of (msg_qp dlid) lid guid.
Definition msg_netd : netd := demo_netd <| nt_sw ::= fun sw => sw <| sw_ucast_fwd_table := {[ 1 := 1; 7 := 2 ]} |> |>.
Definition msg_guid (guid : Z) : list Z := replicate 7 0 ++ [guid].

Lemma msg_end lid dlid guid : 0 < lid < PIB_MCAST_LID_BASE -> 0 < dlid < PIB_MCAST_LID_BASE ->
  rc_end multi_host (msg_hca lid dlid guid) 77 (msg_guid guid) 7 (msg_qp dlid) (st_pd demo_st) (wire_port lid guid) 0xFFFF.
Proof.
  intros Hl Hd. change PIB_MCAST_LID_BASE with 49152 in *.
  split; [reflexivity|split; reflexivity|reflexivity|split; [reflexivity|lia]|reflexivity|split; reflexivity|apply wire_member; by right|reflexivity|exists demo_hport; split; reflexivity|split; reflexivity|
    change PIB_MCAST_LID_BASE with 49152; simpl; lia|simpl; lia|lia].
Qed.

Lemma msg_message : one_message (load (msg_hca 1 7 0x11) (msg_qp 7) (st_pd demo_st)) msg_wqe.
Proof.
  split; [by left|reflexivity|reflexivity| |split; vm_compute; congruence|split; vm_compute; congruence|vm_compute; congruence].
  constructor; [apply wire_sge; done|constructor].
Qed.

Lemma msg_room n : has_room (demo_cq n).
Proof. split; [reflexivity|vm_compute; congruence]. Qed.

Lemma msg_sender : rc_sender multi_host (msg_hca 1 7 0x11) 77 (msg_guid 0x11) 7 (msg_qp 7) (st_pd demo_st) (wire_port 1 0x11) 0xFFFF 1 [] msg_wqe (demo_cq 1).
Proof.
  split; [apply wire_inv_of; [by right|reflexivity]|apply msg_end; by split|vm_compute; reflexivity|reflexivity| |exact msg_message|split; vm_compute; congruence|split; [reflexivity|apply msg_room]].
  split; [reflexivity..|vm_compute; congruence|split; vm_compute; congruence].
Qed.

Lemma msg_receiver : rc_receiver multi_host (msg_hca 7 1 0x22) 77 (msg_guid 0x22) 7 (msg_qp 1) (st_pd demo_st) (wire_port 7 0x22) 0xFFFF 20 3 demo_rwqe [] (demo_cq 2).
Proof.
  split; [apply wire_inv_of; [by right|reflexivity]|apply msg_end; by split|vm_compute; reflexivity| |vm_compute; reflexivity|split; vm_compute; congruence|by constructor; [left|constructor]].
  split; [reflexivity..| |reflexivity|reflexivity|reflexivity|split; vm_compute; congruence|split; vm_compute; congruence| | |vm_compute; congruence|split; [reflexivity|apply msg_room]|reflexivity].
  - apply ends_b_spec. reflexivity.
  - constructor; [apply wire_sge; done|constructor].
  - apply (bool_decide_unpack _). vm_compute. exact I.
Qed.

Lemma msg_routed guid lid addr : (guid = 0x11 /\ lid = 7 /\ addr = SaIn 2 2) \/ (guid = 0x22 /\ lid = 1 /\ addr = SaIn 1 1) -> routed msg_netd (be_combine (msg_guid guid)) lid addr.
Proof.
  intros H. assert (table_ok msg_netd) as Ht by exact demo_table_ok.
  destruct H as [(-> & -> & ->)|(-> & -> & ->)]; (split; [vm_compute; congruence|]; split; [exact Ht|]; split; [reflexivity|]; split; [exists demo_p0; split; [reflexivity|vm_compute; congruence]|];
    split; [split; vm_compute; congruence|reflexivity]).
Qed.

(** The three bytes are at the receiver, and the sender knows. *)
Lemma message_delivered_witness : exists again again' ha1 ha2 hb1 hb2 s1 s2 data ack,
  qp_scheduler_turn empty multi_host (msg_hca 1 7 0x11) = Some (again, ha1) /\ hc_sent ha1 = [(77, data)]
  /\ Netd.receive_packet 0 0 [SysOk (SaIn 1 1, data)] msg_netd = Some (Next tt, s1) /\ nt_sent s1 = [(SaIn 2 2, data)]
  /\ process_incoming_message multi_host 1 data (msg_hca 7 1 0x22) = Some (tt, hb1)
  /\ qp_scheduler_turn empty multi_host hb1 = Some (again', hb2) /\ hc_sent hb2 = [(77, ack)]
  /\ Netd.receive_packet 0 0 [SysOk (SaIn 2 2, ack)] s1 = Some (Next tt, s2) /\ nt_sent s2 = [(SaIn 2 2, data); (SaIn 1 1, ack)]
  /\ process_incoming_message multi_host 1 ack ha1 = Some (tt, ha2)
  /\ map (st_mem (hc_st hb2)) [0x8010; 0x8011; 0x8012] = map mem_example [0x8200; 0x8201; 0x8202].
Proof.
  destruct (message_delivered empty empty multi_host multi_host 0 0 0 0 (msg_hca 1 7 0x11) (msg_hca 7 1 0x22) msg_netd 77 77 (SaIn 1 1) (SaIn 2 2) (SaIn 1 1) (SaIn 2 2)
    (msg_guid 0x11) (msg_guid 0x22) 7 7 (msg_qp 7) (msg_qp 1) (st_pd demo_st) (st_pd demo_st) (wire_port 1 0x11) (wire_port 7 0x22) 0xFFFF 1 [] msg_wqe (demo_cq 1) demo_rwqe [] (demo_cq 2)
    msg_sender msg_receiver ltac:(split; reflexivity) ltac:(vm_compute; congruence) ltac:(vm_compute; congruence) (msg_routed 0x11 7 (SaIn 2 2) ltac:(by left)) (msg_routed 0x22 1 (SaIn 1 1) ltac:(by right)))
    as (again & again' & ha1 & ha2 & hb1 & hb2 & s1 & s2 & data & ack & _ & _ & _ & E1 & E2 & E3 & E4 & E5 & E6 & E7 & E8 & E9 & E10 & _ & (_ & M & _) & _).
  exists again, again', ha1, ha2, hb1, hb2, s1, s2, data, ack. split; [exact E1|]. split; [exact E2|]. split; [exact E3|]. split; [exact E4|]. split; [exact E5|]. split; [exact E6|]. split; [exact E7|].
  split; [exact E8|]. split; [rewrite E9, E4; reflexivity|]. split; [exact E10|exact M].
Defined.
