(* ===== verification/Names.v ===== *)
(** * Names of enumerators (driver/pib_lib.c)

    The tables of names, indexed by the value of the enumerator, and the functions that
    read them.  A table is an array: a place nobody initialised is a null pointer, [Some
    None], and beyond its end is [None].  An index given twice has the later name. *)

From S2P Require Import Prelude Verbs Text.

(** ** Tables *)

Definition name_table := list (Z * String.string).

Definition table_size (t : name_table) : Z := 1 + fold_right Z.max 0 t.*1.

Fixpoint last_name (t : name_table) (i : Z) : option (list Z) :=
  match t with
  | [] => None
  | (k, s) :: t => match last_name t i with Some s => Some s | None => if k =? i then Some (str s) else None end
  end.

Definition table_at (t : name_table) (i : Z) : option (option (list Z)) :=
  if (0 <=? i) && (i <? table_size t) then Some (last_name t i) else None.

#[local] Open Scope string_scope.
#[local] Open Scope Z_scope.

(** enum ib_qp_type *)
Definition IB_QPT_MAX : Z := 11.
Definition str_qp_type : name_table :=
  [(0, "SMI"); (1, "GSI"); (2, "RC"); (3, "UC"); (4, "UD"); (9, "XRC_INIT"); (10, "XRC_TGT")].

(** enum ib_qp_state *)
Definition str_qp_state : name_table :=
  [(0, "RESET"); (1, "INIT"); (2, "RTR"); (3, "RTS"); (4, "SQD"); (5, "SQE"); (6, "ERR")].

(** enum ib_wc_status *)
Definition str_wc_status : name_table :=
  [(0, "SUCCESS"); (1, "LOC_LEN_ERR"); (2, "LOC_QP_OP_ERR"); (3, "LOC_EEC_OP_ERR"); (4, "LOC_PROT_ERR"); (5, "WR_FLUSH_ERR"); (6, "MW_BIND_ERR");
   (7, "BAD_RESP_ERR"); (8, "LOC_ACCESS_ERR"); (9, "REM_INV_REQ_ERR"); (10, "REM_ACCESS_ERR"); (11, "REM_OP_ERR"); (12, "RETRY_EXC_ERR");
   (13, "RNR_RETRY_EXC_ERR"); (14, "LOC_RDD_VIOL_ERR"); (15, "REM_INV_RD_REQ_ERR"); (16, "REM_ABORT_ERR"); (17, "INV_EECN_ERR");
   (18, "INV_EEC_STATE_ERR"); (19, "FATAL_ERR"); (20, "RESP_TIMEOUT_ERR"); (21, "GENERAL_ERR")].

(** enum ib_event_type *)
Definition str_async_event : name_table :=
  [(0, "CQ_ERR"); (1, "QP_FATAL"); (2, "QP_REQ_ERR"); (3, "QP_ACCESS_ERR"); (4, "COMM_EST"); (5, "SQ_DRAINED"); (6, "PATH_MIG"); (7, "PATH_MIG_ERR");
   (8, "DEV_FATAL"); (9, "PORT_ACTIVE"); (10, "PORT_ERR"); (11, "LID_CHANGE"); (12, "PKEY_CHANGE"); (13, "SM_CHANGE"); (14, "SRQ_ERR");
   (15, "SRQ_LIMIT"); (16, "QP_LAST_WQE"); (17, "CLIENT_REREG"); (18, "GID_CHANGE")].

(** The commands of ib_user_verbs.h, and those of pib_trace.h from 52 on. *)
Definition str_uverbs_cmd : name_table :=
  [(0, "get_context"); (1, "query_device"); (2, "query_port"); (3, "alloc_pd"); (4, "dealloc_pd"); (5, "create_ah"); (6, "modify_ah"); (7, "query_ah");
   (8, "destroy_ah"); (9, "reg_mr"); (10, "reg_smr"); (11, "rereg_mr"); (12, "query_mr"); (13, "dereg_mr"); (14, "alloc_mw"); (15, "bind_mw");
   (16, "dealloc_mw"); (17, "create_comp_ch"); (18, "create_cq"); (19, "resize_cq"); (20, "destroy_cq"); (21, "poll_cq"); (22, "peek_cq");
   (23, "req_notify_cq"); (24, "create_qp"); (25, "query_qp"); (26, "modify_qp"); (27, "destroy_qp"); (28, "post_send"); (29, "post_recv");
   (30, "attach_mcast"); (31, "detach_mcast"); (32, "crete_srq"); (33, "modify_srq"); (34, "query_srq"); (35, "destroy_srq"); (36, "post_srq_recv");
   (37, "open_xrcd"); (38, "close_xrcd"); (39, "create_xsrq"); (40, "opeN_qp");
   (52, "dealloc_context"); (53, "modify_device"); (54, "modify_port"); (55, "modify_cq"); (56, "alloc_fast_reg_mr");
   (57, "alloc_fast_reg_page_list"); (58, "free_fast_reg_page_list")].

(** The opcodes without the bits of the service type.  The place of SEND_LAST_INV is the one
    of SEND_ONLY_INV, which comes later. *)
Definition str_trans_op : name_table :=
  [(IB_OPCODE_SEND_FIRST, "SEND_FIRST"); (IB_OPCODE_SEND_MIDDLE, "SEND_MID"); (IB_OPCODE_SEND_LAST, "SEND_LAST");
   (IB_OPCODE_SEND_LAST_WITH_IMMEDIATE, "SEND_LAST_IMM"); (IB_OPCODE_SEND_ONLY_WITH_INVALIDATE, "SEND_LAST_INV"); (IB_OPCODE_SEND_ONLY, "SEND_ONLY");
   (IB_OPCODE_SEND_ONLY_WITH_IMMEDIATE, "SEND_ONLY_IMM"); (IB_OPCODE_SEND_ONLY_WITH_INVALIDATE, "SEND_ONLY_INV");
   (IB_OPCODE_RDMA_WRITE_FIRST, "WRITE_FIRST"); (IB_OPCODE_RDMA_WRITE_MIDDLE, "WRITE_MID"); (IB_OPCODE_RDMA_WRITE_LAST, "WRITE_LAST");
   (IB_OPCODE_RDMA_WRITE_LAST_WITH_IMMEDIATE, "WRITE_LAST_IMM"); (IB_OPCODE_RDMA_WRITE_ONLY, "WRITE_ONLY");
   (IB_OPCODE_RDMA_WRITE_ONLY_WITH_IMMEDIATE, "WRITE_IMM"); (IB_OPCODE_RDMA_READ_REQUEST, "READ_REQ");
   (IB_OPCODE_RDMA_READ_RESPONSE_FIRST, "READ_RES_FIRST"); (IB_OPCODE_RDMA_READ_RESPONSE_MIDDLE, "READ_RES_MID");
   (IB_OPCODE_RDMA_READ_RESPONSE_LAST, "READ_RES_LAST"); (IB_OPCODE_RDMA_READ_RESPONSE_ONLY, "READ_RES_ONLY"); (IB_OPCODE_ACKNOWLEDGE, "ACK");
   (IB_OPCODE_ATOMIC_ACKNOWLEDGE, "ATOMIC_ACK"); (IB_OPCODE_COMPARE_SWAP, "COMPARE_SWAP"); (IB_OPCODE_FETCH_ADD, "FETCH_ADD")].

(** ** Functions *)

(** The array has IB_QPT_MAX places. *)
Definition pib_get_qp_type (type : Z) : list Z :=
  if type <? IB_QPT_MAX then default (str "unkonwn") (last_name str_qp_type type) else str "unkonwn".

Definition pib_get_qp_state (state : Z) : option (option (list Z)) := table_at str_qp_state state.
Definition pib_get_wc_status (status : Z) : option (option (list Z)) := table_at str_wc_status status.
Definition pib_get_async_event (type : Z) : option (option (list Z)) := table_at str_async_event type.
Definition pib_get_uverbs_cmd (uverbs_cmd : Z) : option (option (list Z)) := table_at str_uverbs_cmd uverbs_cmd.
Definition pib_get_trans_op (op : Z) : option (option (list Z)) := table_at str_trans_op (Z.land op 0x1F).

Definition pib_get_service_type (op : Z) : list Z :=
  let t := Z.land op 0xE0 in
  str (if t =? 0x00 then "RC" else if t =? 0x20 then "UC" else if t =? 0x40 then "RD" else if t =? 0x60 then "UD" else if t =? 0x80 then "CNP" else "UNKNOWN").

(** A switch over the cases of a table. *)
Definition switch_name (t : name_table) (unknown : String.string) (v : Z) : list Z := default (str unknown) (last_name t v).

Definition pib_get_mgmt_class (mgmt_class : Z) : list Z :=
  switch_name [(0x01, "SUBN_LID_ROUTED"); (0x81, "SUBN_DIRECTED_ROUTE"); (0x03, "SUBN_ADM"); (0x04, "PERF_MGMT"); (0x05, "BM"); (0x06, "_DEVICE_MGMT");
    (0x07, "CM"); (0x08, "SNMP"); (0x10, "DEVICE_ADM"); (0x11, "BOOT_MGMT"); (0x12, "BIS"); (0x21, "CONG_MGMT"); (0x30, "VENDOR_RANGE2_START");
    (0x4F, "VENDOR_RANGE2_END")] "Unknown" mgmt_class.

Definition pib_get_mgmt_method (method : Z) : list Z :=
  switch_name [(0x01, "GET"); (0x02, "SET"); (0x81, "GET_RESP"); (0x03, "SEND"); (0x05, "TRAP"); (0x06, "REPORT"); (0x86, "REPORT_RESP");
    (0x07, "TRAP_REPRESS"); (0x80, "RESP"); (0x12, "GET_TABLE"); (0x92, "GET_TABLE_RESP"); (0x15, "DELETE"); (0x95, "DELETE_RESP"); (0x14, "GET_MULTI");
    (0x94, "GET_MULTI_RESP"); (0x13, "GET_TRACE_TBL")] "Unknown" method.

(** [attr_id] as it is on the wire, the most significant byte first. *)
Definition pib_get_smp_attr (attr_id : Z) : list Z :=
  switch_name [(0x0002, "NOTICE"); (0x0010, "NODE_DESC"); (0x0011, "NODE_INFO"); (0x0012, "SWITCH_INFO"); (0x0014, "GUID_INFO"); (0x0015, "PORT_INFO");
    (0x0016, "PKEY_TABLE"); (0x0017, "SL_TO_VL_TABLE"); (0x0018, "V_ARB_TABLE"); (0x0019, "LINEAR_FORWARD_TABLE"); (0x001A, "RANDOM_FORWARD_TABLE");
    (0x001B, "MCAST_FORWARD_TABLE"); (0x0020, "SM_INFO"); (0x0030, "VENDOR_DIAG"); (0x0031, "lED_INFO"); (0xFF00, "VENDOR_MASK")] "Unknown" attr_id.

Definition pib_get_sa_attr (attr_id : Z) : list Z :=
  switch_name [(0x0001, "CLASS_PORTINFO"); (0x0002, "NOTICE"); (0x0003, "INFORM_INFO"); (0x0011, "NODE_REC"); (0x0012, "PORT_INFO_REC"); (0x0013, "SL2VL_REC");
    (0x0014, "SWITCH_REC"); (0x0015, "LINEAR_FDB_REC"); (0x0016, "RANDOM_FDB_REC"); (0x0017, "MCAST_FDB_REC"); (0x0018, "SM_INFO_REC"); (0x0020, "LINK_REC");
    (0x0030, "GUID_INFO_REC"); (0x0031, "SERVICE_REC"); (0x0033, "PARTITION_REC"); (0x0035, "PATH_REC"); (0x0036, "VL_ARB_REC"); (0x0038, "MC_MEMBER_REC");
    (0x0039, "TRACE_REC"); (0x003A, "MULTI_PATH_REC"); (0x003B, "SERVICE_ASSOC_REC"); (0x00F3, "INFORM_INFO_REC")] "Unknown" attr_id.

(** The values of the enumerators. *)
Definition qp_type_num (t : ib_qp_type) : Z :=
  match t with IB_QPT_SMI => 0 | IB_QPT_GSI => 1 | IB_QPT_RC => 2 | IB_QPT_UC => 3 | IB_QPT_UD => 4 | IB_QPT_OTHER => IB_QPT_MAX end.
Definition qp_state_num (s : ib_qp_state) : Z :=
  match s with IB_QPS_RESET => 0 | IB_QPS_INIT => 1 | IB_QPS_RTR => 2 | IB_QPS_RTS => 3 | IB_QPS_SQD => 4 | IB_QPS_SQE => 5 | IB_QPS_ERR => 6 end.
Definition wc_status_num (s : ib_wc_status) : Z :=
  match s with
  | IB_WC_SUCCESS => 0 | IB_WC_LOC_LEN_ERR => 1 | IB_WC_LOC_QP_OP_ERR => 2 | IB_WC_LOC_EEC_OP_ERR => 3 | IB_WC_LOC_PROT_ERR => 4 | IB_WC_WR_FLUSH_ERR => 5
  | IB_WC_MW_BIND_ERR => 6 | IB_WC_BAD_RESP_ERR => 7 | IB_WC_LOC_ACCESS_ERR => 8 | IB_WC_REM_INV_REQ_ERR => 9 | IB_WC_REM_ACCESS_ERR => 10
  | IB_WC_REM_OP_ERR => 11 | IB_WC_RETRY_EXC_ERR => 12 | IB_WC_RNR_RETRY_EXC_ERR => 13 | IB_WC_LOC_RDD_VIOL_ERR => 14 | IB_WC_REM_INV_RD_REQ_ERR => 15
  | IB_WC_REM_ABORT_ERR => 16 | IB_WC_INV_EECN_ERR => 17 | IB_WC_INV_EEC_STATE_ERR => 18 | IB_WC_FATAL_ERR => 19 | IB_WC_RESP_TIMEOUT_ERR => 20
  | IB_WC_GENERAL_ERR => 21
  end.

(** ** Lemmas *)

(** The longest name of a transport opcode, with its service type, fits the field of a line
    of the trace. *)
Lemma trans_op_length op s : pib_get_trans_op op = Some (Some s) -> (length (pib_get_service_type op ++ str "/" ++ s) < 32)%nat.
Proof.
  intros H. assert (forallb (fun i => match last_name str_trans_op i with Some s => (length s <? 15)%nat | None => true end) (seqZ 0 24) = true) as Hall by (vm_compute; reflexivity).
  unfold pib_get_trans_op, table_at in H. destruct (Z.leb_spec 0 (Z.land op 0x1F)) as [H0|]; [|done]. destruct (Z.ltb_spec (Z.land op 0x1F) (table_size str_trans_op)) as [H1|]; [|done].
  change (table_size str_trans_op) with 24 in H1. cbn [andb] in H. assert (last_name str_trans_op (Z.land op 0x1F) = Some s) as Hn by congruence. clear H. rewrite forallb_forall in Hall. specialize (Hall (Z.land op 0x1F)).
  rewrite <-list_elem_of_In, elem_of_seqZ in Hall. specialize (Hall ltac:(lia)). rewrite Hn in Hall. apply Nat.ltb_lt in Hall. rewrite !length_app.
  assert (length (pib_get_service_type op) <= 7)%nat by (unfold pib_get_service_type; repeat case_match; vm_compute; lia). change (length (str "/")) with 1%nat. lia.
Qed.

(** Every status and every state has a name of its own. *)
Lemma status_named s : exists n, pib_get_wc_status (wc_status_num s) = Some (Some n).
Proof. destruct s; eexists; vm_compute; reflexivity. Qed.
Lemma state_named s : exists n, pib_get_qp_state (qp_state_num s) = Some (Some n).
Proof. destruct s; eexists; vm_compute; reflexivity. Qed.
Lemma state_names_differ s s' : pib_get_qp_state (qp_state_num s) = pib_get_qp_state (qp_state_num s') -> s = s'.
Proof. by destruct s, s'; vm_compute. Qed.
