(* ===== verification/Inspect.v ===== *)
(** * Inspection of objects and injection of errors: the files (driver/pib_debugfs.c)

    A file per kind of object shows the objects of a device, a line each.  Opening one
    allocates records for as many objects as the device counts, then takes dev->lock and
    fills them from the list of the objects; reading it walks over the records.  The
    request written to the file inject_err names an object by what those files show.

    The text is what the calls print: [seq_printf] appends to it.  The calendar of the
    kernel, [time_to_tm], is a parameter. *)

From S2P Require Import Prelude Verbs Lib ObjNum Cq Srq Mr State Objects Text Names.

(** ** Data *)

Record timespec := { tv_sec : Z; tv_nsec : Z }.
Record tm := { tm_year : Z; tm_mon : Z; tm_mday : Z; tm_hour : Z; tm_min : Z; tm_sec : Z }.

Inductive pib_debugfs_type :=
  PIB_DEBUGFS_UCONTEXT | PIB_DEBUGFS_PD | PIB_DEBUGFS_MR | PIB_DEBUGFS_SRQ | PIB_DEBUGFS_AH | PIB_DEBUGFS_CQ | PIB_DEBUGFS_QP.
#[export] Instance pib_debugfs_type_eq_dec : EqDecision pib_debugfs_type.
Proof. solve_decision. Defined.

Definition debug_file_symbols (t : pib_debugfs_type) : list Z :=
  str (match t with
       | PIB_DEBUGFS_UCONTEXT => "ucontext" | PIB_DEBUGFS_PD => "pd" | PIB_DEBUGFS_MR => "mr" | PIB_DEBUGFS_SRQ => "srq" | PIB_DEBUGFS_AH => "ah"
       | PIB_DEBUGFS_CQ => "cq" | PIB_DEBUGFS_QP => "qp"
       end).

(** struct pib_base_record; vzalloc cleared it. *)
Record pib_base_record := { br_obj_num : Z; br_creation_time : timespec; br_is_user_handle : bool; br_user_handle : Z; br_ucontext_num : Z }.

(** The records: a base record and what the kind adds. *)
Inductive pib_record :=
| Ucontext_record (base : pib_base_record) (tgid : Z) (comm : list Z)
| Pd_record (base : pib_base_record)
| Mr_record (base : pib_base_record) (pd_num access_flags : Z) (is_dma : bool) (start length lkey rkey : Z)
| Srq_record (base : pib_base_record) (pd_num : Z) (state : pib_state) (max_wqe nr_wqe : Z)
| Ah_record (base : pib_base_record) (pd_num dlid ah_flags port_num : Z)
| Cq_record (base : pib_base_record) (state : pib_state) (max_cqe nr_cqe flag : Z) (notified : bool)
| Qp_record (base : pib_base_record) (pd_num send_cq_num recv_cq_num srq_num max_swqe nr_swqe max_rwqe nr_rwqe qp_type state : Z).

Definition record_base (r : pib_record) : pib_base_record :=
  match r with
  | Ucontext_record b _ _ | Pd_record b | Mr_record b _ _ _ _ _ _ _ | Srq_record b _ _ _ _ | Ah_record b _ _ _ _ | Cq_record b _ _ _ _ _
  | Qp_record b _ _ _ _ _ _ _ _ _ _ => b
  end.

(** struct pib_record_control: [ct_records] are the records that were filled. *)
Record pib_record_control := { ct_type : pib_debugfs_type; ct_count : Z; ct_records : list pib_record }.

(** struct ib_uobject: its id, and the number of the context it belongs to. *)
Record ib_uobject := { uo_id : Z; uo_context : option Z }.

(** What the lists of the device hold: an object with the time it was created, the handle
    user space has for it, and the number of its protection domain. *)
Record listed (A : Type) := { li_obj : A; li_time : timespec; li_uobject : option ib_uobject; li_pd : Z }.
Arguments li_obj {A} l.
Arguments li_time {A} l.
Arguments li_uobject {A} l.
Arguments li_pd {A} l.

(** The lists of struct pib_dev and its counters. *)
Record lists := {
  l_ucontext : list (listed pib_ucontext); l_pd : list (listed pib_pd); l_mr : list (listed pib_mr); l_srq : list (listed pib_srq);
  l_ah : list (listed pib_ah); l_cq : list (listed pib_cq); l_qp : list (listed pib_qp); l_nr : pib_debugfs_type -> Z }.

(** ** Opening a file *)

(** The members vzalloc cleared, the number and the time. *)
Definition base_of (obj_num : Z) (time : timespec) : pib_base_record :=
  {| br_obj_num := obj_num; br_creation_time := time; br_is_user_handle := false; br_user_handle := 0; br_ucontext_num := 0 |}.

Definition set_pid_and_handle (base_rec : pib_base_record) (uobject : option ib_uobject) : pib_base_record :=
  match uobject with
  | Some {| uo_id := id; uo_context := Some ucontext_num |} =>
      {| br_obj_num := br_obj_num base_rec; br_creation_time := br_creation_time base_rec;
         br_is_user_handle := true; br_user_handle := id; br_ucontext_num := ucontext_num |}
  | _ => base_rec
  end.

Definition user_base {A} (obj_num : Z) (l : listed A) : pib_base_record := set_pid_and_handle (base_of obj_num (li_time l)) (li_uobject l).

Definition ucontext_record (l : listed pib_ucontext) : pib_record :=
  let u := li_obj l in Ucontext_record (base_of (uc_num u) (li_time l)) (uc_tgid u) (uc_comm u).
Definition pd_record (l : listed pib_pd) : pib_record := Pd_record (user_base (pd_num (li_obj l)) l).
Definition mr_record (l : listed pib_mr) : pib_record :=
  let mr := li_obj l in
  Mr_record (user_base (mr_num mr) l) (li_pd l) (u8 (mr_access_flags mr)) (mr_is_dma mr) (mr_start mr) (mr_length mr) (mr_lkey mr) (mr_rkey mr).
Definition srq_record (l : listed pib_srq) : pib_record :=
  let srq := li_obj l in
  Srq_record (user_base (srq_num srq) l) (li_pd l) (srq_state srq) (max_wr (srq_attr srq)) (max_wr (srq_attr srq) - srq_nr_recv_wqe srq).
Definition ah_record (l : listed pib_ah) : pib_record :=
  let a := ah_attr (li_obj l) in
  Ah_record (user_base (ah_num (li_obj l)) l) (li_pd l) (ah_dlid a) (u8 (ah_ah_flags a)) (ah_port_num a).
(** The members flag and notified are not set. *)
Definition cq_record (l : listed pib_cq) : pib_record :=
  let cq := li_obj l in Cq_record (user_base (cq_num cq) l) (cq_state cq) (cq_cqe cq) (cq_nr_cqe cq) 0 false.
Definition qp_record (l : listed pib_qp) : pib_record :=
  let qp := li_obj l in
  let r := qp_requester qp in
  let cap := i_cap (qp_init_attr qp) in
  Qp_record (user_base (qp_num qp) l) (li_pd l) (qp_send_cq qp) (qp_recv_cq qp) (default 0 (i_srq (qp_init_attr qp)))
    (max_send_wr cap) (rq_nr_submitted r + rq_nr_sending r + rq_nr_waiting r) (max_recv_wr cap) (max_recv_wr cap - rs_nr_recv_wqe (qp_responder qp))
    (qp_type_num (qp_type qp)) (qp_state_num (qp_state qp)).

(** The records of the objects of a kind, in the order of their list. *)
Definition records (t : pib_debugfs_type) (d : lists) : list pib_record :=
  match t with
  | PIB_DEBUGFS_UCONTEXT => ucontext_record <$> l_ucontext d
  | PIB_DEBUGFS_PD => pd_record <$> l_pd d
  | PIB_DEBUGFS_MR => mr_record <$> l_mr d
  | PIB_DEBUGFS_SRQ => srq_record <$> l_srq d
  | PIB_DEBUGFS_AH => ah_record <$> l_ah d
  | PIB_DEBUGFS_CQ => cq_record <$> l_cq d
  | PIB_DEBUGFS_QP => qp_record <$> l_qp d
  end.

(** [before] is the device when the memory is allocated, [d] when the lock is taken.
    Writing more records than were allocated is [None].  [seq_open] is what seq_open
    returns. *)
Definition inspection_open (vzalloc_ok : bool) (seq_open : Z) (before d : lists) (type : pib_debugfs_type) : option (Z + pib_record_control) :=
  if negb vzalloc_ok then Some (inl (- ENOMEM))
  else if l_nr before type <? Zlen (records type d) then None
  else
    let control := {| ct_type := type; ct_count := Zlen (records type d); ct_records := records type d |} in
    if negb (seq_open =? 0) then Some (inl seq_open) else Some (inr control).

(** ** Reading a file *)

Section Show.
Context (time_to_tm : Z -> tm).

Definition show_timespec (t : timespec) : list Z :=
  let m := time_to_tm (tv_sec t) in
  let value := u64 (tv_nsec t) in
  let nsec := value mod 1000 in
  let value := value / 1000 in
  let usec := value mod 1000 in
  let msec := u32 (value / 1000) in
  str "[" ++ fmt_d0 4 (tm_year m + 1900) ++ str "-" ++ fmt_d0 2 (tm_mon m + 1) ++ str "-" ++ fmt_d0 2 (tm_mday m) ++ str " "
  ++ fmt_d0 2 (tm_hour m) ++ str ":" ++ fmt_d0 2 (tm_min m) ++ str ":" ++ fmt_d0 2 (tm_sec m) ++ str "."
  ++ fmt_u0 3 msec ++ str "," ++ fmt_u0 3 usec ++ str "," ++ fmt_u0 3 nsec ++ str "]".

(** The columns of a heading, each as wide as [w] says and followed by a space. *)
Definition columns (l : list (nat * String.string)) : list Z := l ≫= fun '(w, s) => fmt_s w (str s) ++ [SPACE].
(** The last column is followed by the end of the line. *)
Definition last_columns (l : list (nat * String.string)) (w : nat) (s : String.string) : list Z := columns l ++ fmt_s w (str s) ++ [NEWLINE].

Definition heading (t : pib_debugfs_type) : list Z :=
  (match t with
   | PIB_DEBUGFS_UCONTEXT => columns [(4%nat, "OID"%string); (33%nat, "CREATIONTIME"%string)]
   | PIB_DEBUGFS_AH | PIB_DEBUGFS_QP => columns [(6%nat, "OID"%string); (4%nat, "UCTX"%string); (5%nat, "UHWD"%string); (33%nat, "CREATIONTIME"%string)]
   | _ => columns [(4%nat, "OID"%string); (4%nat, "UCTX"%string); (5%nat, "UHWD"%string); (33%nat, "CREATIONTIME"%string)]
   end) ++
  (match t with
   | PIB_DEBUGFS_UCONTEXT => last_columns [(5%nat, "PID"%string)] 5 "COMM"
   | PIB_DEBUGFS_MR => last_columns [(4%nat, "PD"%string); (16%nat, "START"%string); (16%nat, "LENGTH"%string); (8%nat, "LKEY"%string); (8%nat, "RKEY"%string)] 0 "DMA AC"
   | PIB_DEBUGFS_SRQ => last_columns [(4%nat, "PD"%string); (3%nat, "S"%string); (5%nat, "MAX"%string)] 5 "CUR"
   | PIB_DEBUGFS_AH => last_columns [(4%nat, "PD"%string); (4%nat, "DLID"%string); (2%nat, "AC"%string)] 0 "PORT"
   | PIB_DEBUGFS_CQ => last_columns [(3%nat, "S"%string); (5%nat, "MAX"%string); (5%nat, "CUR"%string); (4%nat, "TYPE"%string)] 4 "NOTIFY"
   | PIB_DEBUGFS_QP =>
       last_columns [(4%nat, "PD"%string); (3%nat, "QT"%string); (5%nat, "STATE"%string); (4%nat, "S-CQ"%string); (4%nat, "R-CQ"%string); (4%nat, "SRQ"%string);
                     (5%nat, "MAX-S"%string); (5%nat, "CUR-S"%string); (5%nat, "MAX-R"%string)] 5 "CUR-R"
   | PIB_DEBUGFS_PD => [NEWLINE]
   end).

(** What is printed, and the position the walk is at, [None] at the end. *)
Definition inspection_seq_start (control : pib_record_control) (pos : Z) : list Z * option Z :=
  (if pos =? 0 then heading (ct_type control) else [], if ct_count control <=? pos then None else Some pos).

Definition inspection_seq_next (control : pib_record_control) (pos : Z) : option Z :=
  let pos := pos + 1 in
  if ct_count control <=? pos then None else Some pos.

(** The width of the number of an object. *)
Definition oid_width (t : pib_debugfs_type) : nat := match t with PIB_DEBUGFS_AH | PIB_DEBUGFS_QP => 6 | _ => 4 end.

Definition state_text (s : pib_state) : list Z := str (match s with PIB_STATE_OK => "OK" | PIB_STATE_ERR => "ERR" end).
Definition IB_CQ_SOLICITED : Z := 1.

(** What a kind adds to the line; the name of a state beyond the table is [None]. *)
Definition show_kind (r : pib_record) : option (list Z) :=
  match r with
  | Ucontext_record _ tgid comm => Some (str " " ++ fmt_u 5 tgid ++ str " " ++ comm)
  | Pd_record _ => Some []
  | Mr_record _ pd_num access_flags is_dma start length lkey rkey =>
      Some (str " " ++ fmt_x0 4 pd_num ++ str " " ++ fmt_x0 16 start ++ str " " ++ fmt_x0 16 length ++ str " " ++ fmt_x0 8 lkey ++ str " " ++ fmt_x0 8 rkey ++ str " "
            ++ str (if is_dma then "DMA" else "USR") ++ str " " ++ fmt_x access_flags)
  | Srq_record _ pd_num state max_wqe nr_wqe =>
      Some (str " " ++ fmt_x0 4 pd_num ++ str " " ++ fmt_s 3 (state_text state) ++ str " " ++ fmt_u 5 (u32 max_wqe) ++ str " " ++ fmt_u 5 (u32 nr_wqe))
  | Ah_record _ pd_num dlid ah_flags port_num =>
      Some (str " " ++ fmt_x0 4 pd_num ++ str " " ++ fmt_x0 4 dlid ++ str " " ++ fmt_u 2 ah_flags ++ str " " ++ fmt_u 0 port_num)
  | Cq_record _ state max_cqe nr_cqe flag notified =>
      Some (str " " ++ fmt_s 3 (state_text state) ++ str " " ++ fmt_u 5 (u32 max_cqe) ++ str " " ++ fmt_u 5 (u32 nr_cqe) ++ str " "
            ++ fmt_s 4 (str (if flag =? 0 then "NONE" else if flag =? IB_CQ_SOLICITED then "SOLI" else "COMP")) ++ str " "
            ++ fmt_s 4 (str (if notified then "NOTIFY" else "WAIT")))
  | Qp_record _ pd_num send_cq_num recv_cq_num srq_num max_swqe nr_swqe max_rwqe nr_rwqe qp_type state =>
      match pib_get_qp_state state with
      | None => None
      | Some state =>
          Some (str " " ++ fmt_x0 4 pd_num ++ str " " ++ fmt_s 3 (pib_get_qp_type qp_type) ++ str " " ++ fmt_s 5 (str_or_null state) ++ str " "
                ++ fmt_x0 4 send_cq_num ++ str " " ++ fmt_x0 4 recv_cq_num ++ str " " ++ fmt_x0 4 srq_num ++ str " "
                ++ fmt_u 5 (u32 max_swqe) ++ str " " ++ fmt_u 5 (u32 nr_swqe) ++ str " " ++ fmt_u 5 (u32 max_rwqe) ++ str " " ++ fmt_u 5 (u32 nr_rwqe))
      end
  end.

Definition show_record (t : pib_debugfs_type) (r : pib_record) : option (list Z) :=
  let b := record_base r in
  let user :=
    if bool_decide (t = PIB_DEBUGFS_UCONTEXT) then []
    else if br_is_user_handle b then fmt_u 4 (br_ucontext_num b) ++ str " " ++ fmt_u 5 (u32 (br_user_handle b)) ++ str " "
    else str "KERN NOHWD " in
  kind ← show_kind r;
  Some (fmt_x0 (oid_width t) (br_obj_num b) ++ str " " ++ user ++ show_timespec (br_creation_time b) ++ kind ++ [NEWLINE]).

(** The record at the position. *)
Definition inspection_seq_show (control : pib_record_control) (pos : Z) : option (list Z) :=
  r ← ct_records control !! Z.to_nat pos;
  show_record (ct_type control) r.
End Show.

(** ** Injecting an error *)

Definition to_lower (c : Z) : Z := if (65 <=? c) && (c <=? 90) then c + 32 else c.

(** strncasecmp(s, t, n) == 0, for a [t] of [n] small letters *)
Definition starts_with (t s : list Z) : bool := bool_decide (to_lower <$> take (length t) s = t).

(** What inject_err_write reads from the text: the kind of error and the object.  [None]
    makes it return -EINVAL. *)
Definition inject_err_parse (buf : list Z) : option (ib_event_type * Z) :=
  if starts_with (str "cq") buf then n ← sscanf_x (drop 2 buf); Some (IB_EVENT_CQ_ERR, n)
  else if starts_with (str "qp") buf then n ← sscanf_x (drop 2 buf); Some (IB_EVENT_QP_FATAL, n)
  else if starts_with (str "srq") buf then n ← sscanf_x (drop 3 buf); Some (IB_EVENT_SRQ_ERR, n)
  else None.

(** The text, [count] bytes of it with the end, and the position left. *)
Definition inject_err_read (count ppos : Z) : list Z * Z * Z :=
  if negb (ppos =? 0) then ([], 0, ppos)
  else
    let text := str "[CQ|QP|SRQ|] OID" ++ [NEWLINE] in
    (snprintf (Z.to_nat count) text, Zlen text, Zlen text).
