(* ===== verification/TraceText.v ===== *)
(** * The lines of the execution trace (driver/pib_debugfs.c: trace_seq_show)

    The text of a line of the file trace, for the time and the entry that [trace_seq_show]
    found.  Reading a name beyond the end of its table is [None]. *)

From S2P Require Import Prelude Verbs Cq State Packet Trace Text Names Inspect.

Section TraceText.
Context (time_to_tm : Z -> tm).

Definition str_act (act : pib_trace_act) : option (list Z) :=
  match act with
  | PIB_TRACE_ACT_NONE => None
  | PIB_TRACE_ACT_API => Some (str "API ") | PIB_TRACE_ACT_SEND => Some (str "SEND") | PIB_TRACE_ACT_RECV1 => Some (str "RCV1")
  | PIB_TRACE_ACT_RECV2 => Some (str "RCV2") | PIB_TRACE_ACT_RETRY => Some (str "RTRY") | PIB_TRACE_ACT_COMP => Some (str "COMP")
  | PIB_TRACE_ACT_ASYNC => Some (str "ASYC") | PIB_TRACE_ACT_TIMEDATE => Some (str "TIME") | PIB_TRACE_ACT_BOOKMARK => Some (str "BOOKMARK")
  end.

(** The commands on address handles and queue pairs, whose numbers have six digits:
    create_ah .. destroy_ah, create_qp .. detach_mcast *)
Definition wide_oid (cmd : Z) : bool := ((5 <=? cmd) && (cmd <=? 8)) || ((24 <=? cmd) && (cmd <=? 31)).

(** char buffer[32] *)
Definition buffer_size : nat := 32.

(** The name of a packet. *)
Definition packet_name (op : Z) : option (list Z) :=
  name ← pib_get_trans_op op;
  Some (snprintf buffer_size (match name with Some name => pib_get_service_type op ++ str "/" ++ name | None => str "UNKNOWN(" ++ fmt_u 0 op ++ str ")" end)).

(** A string that ends at the first zero; behind the message the entry is zero. *)
Fixpoint c_string (s : list Z) : list Z := match s with [] => [] | c :: s => if c =? 0 then [] else c :: c_string s end.

(** The members of the union that the kind of the entry says are there. *)
Definition show_entry (e : pib_trace_entry) : option (list Z) :=
  let op := te_op e in
  let port := str " PORT:" ++ fmt_u 0 (te_port e) in
  match te_act e, te_u e with
  | PIB_TRACE_ACT_API, U_api oid =>
      name ← pib_get_uverbs_cmd op;
      Some (fmt_s 18 (snprintf buffer_size (str_or_null name)) ++ str " OID:" ++ fmt_x0 (if wide_oid op then 6 else 4) oid)
  | PIB_TRACE_ACT_SEND, U_send len slid dlid sqpn dqpn psn trace_id =>
      name ← packet_name op;
      Some (fmt_s 18 name ++ port ++ str " PSN:" ++ fmt_x0 6 psn ++ str " LEN:" ++ fmt_u0 4 len ++ str " SLID:" ++ fmt_x0 4 slid ++ str " SQPN:" ++ fmt_x0 6 sqpn
            ++ str " DLID:" ++ fmt_x0 4 dlid ++ str " DQPN:" ++ fmt_x0 6 dqpn ++ (if 0 <? trace_id then str " #" ++ fmt_u 0 trace_id else []))
  | PIB_TRACE_ACT_RECV1, U_recv1 len slid dlid dqpn psn =>
      name ← packet_name op;
      Some (fmt_s 18 name ++ port ++ str " PSN:" ++ fmt_x0 6 psn ++ str " LEN:" ++ fmt_u0 4 len ++ str " SLID:" ++ fmt_x0 4 slid ++ str " DLID:" ++ fmt_x0 4 dlid
            ++ str " DQPN:" ++ fmt_x0 6 dqpn)
  | PIB_TRACE_ACT_RECV2, U_recv2 sqpn psn data =>
      name ← packet_name op;
      Some (fmt_s 18 name ++ port ++ str " PSN:" ++ fmt_x0 6 psn ++ str " DATA:" ++ fmt_u0 4 data ++ str " SQPN:" ++ fmt_x0 6 sqpn)
  | PIB_TRACE_ACT_RETRY, U_retry sqpn trace_id count =>
      Some (fmt_s 18 [] ++ port ++ str " SQPN:" ++ fmt_x0 6 sqpn ++ str " #" ++ fmt_u 0 trace_id ++ str " COUNT:" ++ fmt_u 0 count)
  | PIB_TRACE_ACT_COMP, U_comp oid qpn wr_id status opcode =>
      name ← pib_get_wc_status (wc_status_num status);
      Some (fmt_s 18 [] ++ str " CQ:" ++ fmt_x0 4 oid ++ str " QPN:" ++ fmt_x0 6 qpn ++ str " STATUS=" ++ str_or_null name ++ str "(" ++ fmt_u 0 (wc_status_num status)
            ++ str ") OPCODE=" ++ fmt_u 0 opcode ++ str " WRID:" ++ fmt_x0 16 wr_id)
  | PIB_TRACE_ACT_ASYNC, U_async oid =>
      name ← pib_get_async_event op;
      Some (fmt_s 18 (snprintf buffer_size (str_or_null name)) ++ str " OID:" ++ fmt_x0 6 oid)
  | PIB_TRACE_ACT_TIMEDATE, _ => Some []
  | PIB_TRACE_ACT_BOOKMARK, U_bookmark message => Some (fmt_s 16 (c_string message))
  | _, _ => None
  end.

Definition show_repeat (repeat : Z) : list Z :=
  if repeat =? 0xFF then str " (This record is repeated 256 times or more)"
  else if 0 <? repeat then str " (This record is repeated " ++ fmt_u 0 (repeat + 1) ++ str " times)"
  else [].

Definition trace_line (l : Z * Z * pib_trace_entry) : option (list Z) :=
  let '(sec, nsec, e) := l in
  act ← str_act (te_act e);
  text ← show_entry e;
  Some (show_timespec time_to_tm {| tv_sec := sec; tv_nsec := nsec |} ++ str " " ++ act ++ str " " ++ text ++ show_repeat (te_repeat e) ++ [NEWLINE]).
End TraceText.

(** ** Which lines can be shown *)

Lemma table_at_none t i : table_at t i = None <-> i < 0 \/ table_size t <= i.
Proof. unfold table_at. destruct (Z.leb_spec 0 i); destruct (Z.ltb_spec i (table_size t)); simpl; split; try done; try lia; intros; lia. Qed.

Lemma packet_name_none op : packet_name op = None <-> 24 <= Z.land op 0x1F.
Proof.
  unfold packet_name, pib_get_trans_op. assert (0 <= Z.land op 0x1F) as H by (change 0x1F with (Z.ones 5); rewrite Z.land_ones by lia; by apply Z.mod_pos_bound).
  destruct (table_at str_trans_op (Z.land op 0x1F)) as [n|] eqn:E; simpl.
  - split; [done|]. intros Hle. exfalso. assert (table_at str_trans_op (Z.land op 0x1F) = None) by (apply table_at_none; change (table_size str_trans_op) with 24; lia). congruence.
  - split; [|done]. intros _. apply table_at_none in E as [|E]; [lia|]. exact E.
Qed.

(** The entry of a packet that came in, as it is recorded. *)
Definition recv_entry (port_num opcode psn size slid dlid dqpn : Z) : pib_trace_entry :=
  entry_zero <| te_op := opcode |> <| te_port := port_num |> <| te_u := U_recv1 (u16 size) slid dlid dqpn psn |> <| te_act := PIB_TRACE_ACT_RECV1 |>.

(** The trace of a packet that came in is shown with the service type and the name of its
    operation, or with its number when the table has no name there; but the file reads
    beyond the table of names, whatever follows it in memory, exactly when the five low
    bits of the opcode are 24 or more, which the sender of the packet chooses. *)
Theorem trace_line_of_received (time_to_tm : Z -> tm) (sec nsec port_num opcode psn size slid dlid dqpn : Z) :
  let e := recv_entry port_num opcode psn size slid dlid dqpn in
  (trace_line time_to_tm (sec, nsec, e) = None <-> 24 <= Z.land opcode 0x1F)
  /\ (Z.land opcode 0x1F < 24 -> exists name, packet_name opcode = Some name
      /\ trace_line time_to_tm (sec, nsec, e)
         = Some (show_timespec time_to_tm {| tv_sec := sec; tv_nsec := nsec |} ++ str " RCV1 " ++ fmt_s 18 name ++ str " PORT:" ++ fmt_u 0 port_num
                 ++ str " PSN:" ++ fmt_x0 6 psn ++ str " LEN:" ++ fmt_u0 4 (u16 size) ++ str " SLID:" ++ fmt_x0 4 slid ++ str " DLID:" ++ fmt_x0 4 dlid
                 ++ str " DQPN:" ++ fmt_x0 6 dqpn ++ [NEWLINE])
      /\ forall n, pib_get_trans_op opcode = Some (Some n) -> name = pib_get_service_type opcode ++ str "/" ++ n).
Proof.
  intros e. pose proof (packet_name_none opcode) as Hn.
  set (X := fun name => (fmt_s 18 name ++ (str " PORT:" ++ fmt_u 0 port_num) ++ str " PSN:" ++ fmt_x0 6 psn ++ str " LEN:" ++ fmt_u0 4 (u16 size) ++ str " SLID:" ++ fmt_x0 4 slid
    ++ str " DLID:" ++ fmt_x0 4 dlid ++ str " DQPN:" ++ fmt_x0 6 dqpn)).
  assert (trace_line time_to_tm (sec, nsec, e) = (text ← (name ← packet_name opcode; Some (X name));
    Some (show_timespec time_to_tm {| tv_sec := sec; tv_nsec := nsec |} ++ str " " ++ str "RCV1" ++ str " " ++ text ++ [] ++ [NEWLINE]))) as -> by reflexivity.
  destruct (packet_name opcode) as [name|] eqn:E; cbn [mbind option_bind].
  - split; [split; [done|intros H; apply Hn in H; done]|]. intros _. exists name. split; [done|]. split.
    + f_equal. f_equal. change (str " RCV1 ") with (str " " ++ str "RCV1" ++ str " "). rewrite <-!app_assoc. do 3 f_equal. unfold X. by rewrite <-!app_assoc.
    + intros n Hop. unfold packet_name in E. rewrite Hop in E. cbn [mbind option_bind] in E. injection E as <-. unfold snprintf. apply take_ge.
      pose proof (trans_op_length opcode n Hop). unfold buffer_size. lia.
  - split; [split; [intros _; by apply Hn|done]|]. intros H. assert (24 <= Z.land opcode 0x1F) by (by apply Hn). lia.
Qed.

(** ** Witness *)

(** A line of the trace. *)
Lemma trace_line_example : trace_line (fun _ => {| tm_year := 115; tm_mon := 0; tm_mday := 2; tm_hour := 3; tm_min := 4; tm_sec := 5 |})
    (0, 6007008, recv_entry 1 0x64 9 100 1 2 7)
  = Some (str "[2015-01-02 03:04:05.006,007,008] RCV1 UD/SEND_ONLY       PORT:1 PSN:000009 LEN:0100 SLID:0001 DLID:0002 DQPN:000007" ++ [NEWLINE]).
Proof. vm_compute. reflexivity. Qed.
