(* ===== verification/Dma.v ===== *)
(** * DMA mapping (driver/pib_dma.c)

    The HCA is software: the DMA address of memory is its kernel address, and a region
    over all memory makes it accessible to work requests.  Unmapping and synchronising do
    nothing.  [page_address] is the function of the kernel: the address of a page, 0 for a
    page that has none. *)

From S2P Require Import Prelude Verbs Lib ObjNum Mr.

Section Dma.
Context {page : Type} (page_address : page -> Z) (PAGE_SIZE : Z).

Definition BAD_DMA_ADDRESS : Z := 0.

Definition pib_dma_mapping_error (dma_addr : Z) : bool := dma_addr =? BAD_DMA_ADDRESS.

Definition pib_dma_map_single (cpu_addr : Z) : Z := u64 cpu_addr.

Definition pib_dma_map_page (p : page) (offset size : Z) : Z :=
  if PAGE_SIZE <? u64 (offset + size) then BAD_DMA_ADDRESS
  else
    let addr := u64 (page_address p) in
    if negb (addr =? 0) then u64 (addr + offset) else addr.

Record scatterlist := { sg_page : page; sg_offset : Z; sg_length : Z }.

(** The entries whose pages have an address are not changed; one without gives 0. *)
Fixpoint map_sg_loop (sgl : list scatterlist) (ret : Z) : Z :=
  match sgl with
  | [] => ret
  | sg :: sgl => if u64 (page_address (sg_page sg)) =? 0 then 0 else map_sg_loop sgl ret
  end.

(** for_each_sg over [nents] entries *)
Definition pib_dma_map_sg (sgl : list scatterlist) (nents : Z) : Z := map_sg_loop (take (Z.to_nat nents) sgl) nents.

(** Before Linux 3.15 the address of an entry is computed here; from then on it is read
    from the entry, where [pib_dma_map_sg] does not put it. *)
Definition pib_dma_address (sg : scatterlist) : Z :=
  let addr := u64 (page_address (sg_page sg)) in
  if negb (addr =? 0) then u64 (addr + sg_offset sg) else addr.
Definition pib_dma_len (sg : scatterlist) : Z := sg_length sg.

(** [p]: what alloc_pages returns.  The address and what is stored as the DMA handle. *)
Definition pib_dma_alloc_coherent (p : option page) (dma_handle : bool) : Z * option Z :=
  let addr := match p with Some p => page_address p | None => 0 end in
  (addr, if dma_handle then Some (u64 addr) else None).

(** ** Lemmas *)

(** The kernel addresses of the bytes an entry describes. *)
Definition sg_bytes (sg : scatterlist) : list Z := seqZ (page_address (sg_page sg) + sg_offset sg) (sg_length sg).

(** Pages are kernel memory, and an entry does not reach the end of the address space. *)
Definition sg_ok (sg : scatterlist) : Prop :=
  0 <= page_address (sg_page sg) /\ 0 <= sg_offset sg /\ 0 <= sg_length sg
  /\ page_address (sg_page sg) + sg_offset sg + sg_length sg <= u64 (-1).

(** The key of the region for a mapped entry. *)
Definition sge_of (lkey : Z) (sg : scatterlist) : ib_sge :=
  {| sge_addr := pib_dma_address sg; sge_length := pib_dma_len sg; sge_lkey := lkey |}.

Lemma map_sg_loop_all sgl n : map_sg_loop sgl n <> 0 -> Forall (fun sg => u64 (page_address (sg_page sg)) <> 0) sgl.
Proof.
  induction sgl as [|sg sgl IH]; simpl; [done|]. destruct (Z.eqb_spec (u64 (page_address (sg_page sg))) 0); [done|]. intros H. constructor; [done|by apply IH].
Qed.

Lemma map_sg_loop_result sgl n : map_sg_loop sgl n = if decide (Forall (fun sg => u64 (page_address (sg_page sg)) <> 0) sgl) then n else 0.
Proof.
  induction sgl as [|sg sgl IH]; [done|]. simpl. destruct (Z.eqb_spec (u64 (page_address (sg_page sg))) 0) as [E|E].
  - rewrite decide_False; [done|]. intros H. by apply Forall_cons in H as [H _].
  - rewrite IH. destruct (decide (Forall _ sgl)) as [H|H].
    + rewrite decide_True; [done|]. by constructor.
    + rewrite decide_False; [done|]. intros H'. by apply Forall_cons in H' as [_ H'].
Qed.

(** A region of pib_get_dma_mr covers all memory but its last byte, with the same
    addresses. *)
Lemma dma_mr_spec rnd flags bm t pd mr bt pd' : pd_inv pd -> pib_get_dma_mr rnd true flags bm t pd = Some (inr mr, bt, pd') ->
  pd_mr_table pd' !! mr_index (mr_lkey mr) = Some mr /\ mr_wf mr /\ mr_state mr = PIB_MR_VALID /\ mr_access_flags mr = flags
  /\ mr_is_dma mr = true /\ mr_start mr = 0 /\ mr_length mr = u64 (-1).
Proof.
  intros Hi H. unfold pib_get_dma_mr in H. destruct (create_mr _ _ _ _ _ _ _ _) as [[[[e|mr0] bt0] pd0]|] eqn:E; simpl in H; [done| |done].
  apply create_mr_spec in E as [_ (i & Hl & Hr & Hnone & Ht & Hs & _)]; [|done]. injection H as <- <- <-. simpl.
  rewrite Hl, Ht, alter_insert_eq, lookup_insert_eq. split_and!; try done.
Qed.

Section Region.
Context (pd : pib_pd) (mr : pib_mr) (access : Z).
Hypothesis Hreg : pd_mr_table pd !! mr_index (mr_lkey mr) = Some mr.
Hypothesis Hwf : mr_wf mr.
Hypothesis Hvalid : mr_state mr = PIB_MR_VALID.
Hypothesis Hacc : Z.land (mr_access_flags mr) access = access.
Hypothesis Hdma : mr_is_dma mr = true.
Hypothesis Hstart : mr_start mr = 0.
Hypothesis Hlen : mr_length mr = u64 (-1).

Lemma dma_sge_ok addr len : 0 <= addr -> 0 <= len -> addr + len <= u64 (-1) ->
  sge_ok pd access {| sge_addr := addr; sge_length := len; sge_lkey := mr_lkey mr |}
  /\ sge_addrs pd {| sge_addr := addr; sge_length := len; sge_lkey := mr_lkey mr |} = seqZ addr len.
Proof.
  intros Ha Hl Hend. unfold sge_ok, sge_addrs. cbn [sge_lkey sge_length sge_addr]. rewrite Hreg. unfold mr_addrs. rewrite Hdma, Hstart, Hlen. split_and!; try done; try lia.
  f_equal. lia.
Qed.

Lemma mapped_address sg : sg_ok sg -> u64 (page_address (sg_page sg)) <> 0 -> pib_dma_address sg = page_address (sg_page sg) + sg_offset sg.
Proof.
  intros (Hp & Ho & Hl & He) Hn. change (u64 (-1)) with (2 ^ 64 - 1) in He. unfold pib_dma_address. rewrite (proj2 (Z.eqb_neq _ 0)) by done. cbn [negb].
  unfold u64. rewrite (wrap_small 64 (page_address _)) by lia. apply wrap_small. lia.
Qed.

Lemma sg_entries sgl : Forall sg_ok sgl -> Forall (fun sg => u64 (page_address (sg_page sg)) <> 0) sgl ->
  Forall (sge_ok pd access) (sge_of (mr_lkey mr) <$> sgl) /\ sgl_addrs pd (sge_of (mr_lkey mr) <$> sgl) = concat (sg_bytes <$> sgl)
  /\ sgl_length (sge_of (mr_lkey mr) <$> sgl) = fold_right (fun sg n => sg_length sg + n) 0 sgl.
Proof.
  induction sgl as [|sg sgl IH]; intros Hok Hn; [by split_and!|]. apply Forall_cons in Hok as [Hs Hok]. apply Forall_cons in Hn as [Hn1 Hn].
  destruct (IH Hok Hn) as (H1 & H2 & H3). pose proof (mapped_address sg Hs Hn1) as Ha. destruct Hs as (Hp & Ho & Hl & He).
  destruct (dma_sge_ok (page_address (sg_page sg) + sg_offset sg) (sg_length sg)) as [Hsge Hb]; [lia|done|done|].
  assert (sge_of (mr_lkey mr) sg = {| sge_addr := page_address (sg_page sg) + sg_offset sg; sge_length := sg_length sg; sge_lkey := mr_lkey mr |}) as E
    by (unfold sge_of; by rewrite Ha).
  rewrite !fmap_cons, E. split_and!; [by constructor| |simpl in *; lia]. unfold sgl_addrs in *. rewrite fmap_cons. simpl. by rewrite Hb, H2.
Qed.
End Region.

(** ** Theorems *)

(** Mapping a page fails exactly when the range leaves the page or the page has no
    address.  Bytes scattered to the address it gives, through the key of a region over all
    memory, are in the page from the offset on, and no other byte changes. *)
Theorem dma_page_written (p : page) (offset : Z) (bytes : list Z) (rnd : list Z) (flags access : Z) (bm : gset Z) (t : obj_table) (pd : pib_pd)
    (mr : pib_mr) (bt : gset Z * obj_table) (pd' : pib_pd) (m : mem) (Hpage : 0 < PAGE_SIZE) (Hp : 0 <= page_address p) (Hend : page_address p + PAGE_SIZE < 2 ^ 64)
    (Hoff : 0 <= offset) (Hb : 0 < Zlen bytes <= PIB_MAX_PAYLOAD_LEN) (Hsz : offset + Zlen bytes < 2 ^ 64)
    (Hinv : pd_inv pd) (Hget : pib_get_dma_mr rnd true flags bm t pd = Some (inr mr, bt, pd')) (Hacc : Z.land flags access = access) :
  let addr := pib_dma_map_page p offset (Zlen bytes) in
  (pib_dma_mapping_error addr = true <-> PAGE_SIZE < offset + Zlen bytes \/ page_address p = 0)
  /\ (pib_dma_mapping_error addr = false ->
      exists m', pib_util_mr_copy_data pd' [{| sge_addr := addr; sge_length := Zlen bytes; sge_lkey := mr_lkey mr |}] m bytes 0 (Zlen bytes) access PIB_MR_COPY_TO
                 = Some (IB_WC_SUCCESS, bytes, m')
      /\ m' <$> seqZ (page_address p + offset) (Zlen bytes) = bytes
      /\ forall x, ~ (page_address p <= x < page_address p + PAGE_SIZE) -> m' x = m x).
Proof.
  intros addr. assert (addr = if PAGE_SIZE <? offset + Zlen bytes then 0 else if page_address p =? 0 then 0 else page_address p + offset) as Ea.
  { unfold addr, pib_dma_map_page, u64. rewrite (wrap_small 64 (offset + _)) by lia. destruct (Z.ltb_spec PAGE_SIZE (offset + Zlen bytes)); [done|].
    rewrite (wrap_small 64 (page_address p)) by lia. destruct (Z.eqb_spec (page_address p) 0); simpl; [done|]. apply wrap_small. lia. }
  clearbody addr. subst addr. unfold pib_dma_mapping_error, BAD_DMA_ADDRESS. rewrite Z.eqb_eq, Z.eqb_neq.
  destruct (Z.ltb_spec PAGE_SIZE (offset + Zlen bytes)) as [Hlt|Hle]; [split; [by split; [left|]|done]|].
  destruct (Z.eqb_spec (page_address p) 0) as [H0|H0]; [split; [by split; [right|]|done]|]. split; [lia|]. intros _.
  destruct (dma_mr_spec _ _ _ _ _ _ _ _ Hinv Hget) as (H1 & H2 & H3 & H4 & H5 & H6 & H7).
  destruct (dma_sge_ok pd' mr access H1 H2 H3 ltac:(by rewrite H4) H5 H6 H7 (page_address p + offset) (Zlen bytes)) as [Hok Has]; [lia|lia|change (u64 (-1)) with (2 ^ 64 - 1); lia|].
  set (sge := {| sge_addr := _; sge_length := _; sge_lkey := _ |}) in *.
  assert (sgl_addrs pd' [sge] = seqZ (page_address p + offset) (Zlen bytes)) as Hsgl by (unfold sgl_addrs; simpl; by rewrite Has, app_nil_r).
  assert (slice 0 (Zlen bytes) (sgl_addrs pd' [sge]) = seqZ (page_address p + offset) (Zlen bytes)) as Hsl.
  { rewrite Hsgl. unfold slice. rewrite drop_0. apply take_ge. rewrite length_seqZ. lia. }
  destruct (scatter_effect pd' [sge] m bytes 0 access) as (m' & E & E1 & E2); [by constructor|done|done|lia|simpl; lia|rewrite Hsgl; apply NoDup_seqZ|].
  rewrite Hsl in E1, E2. exists m'. split; [exact E|]. split; [exact E1|]. intros x Hx. apply E2. rewrite elem_of_seqZ. lia.
Qed.

(** Mapping a scatter list succeeds exactly when every page has an address.  Gathering
    through the addresses of its entries and the key of a region over all memory reads the
    bytes of the pages, entry by entry. *)
Theorem dma_sg_gathered (sgl : list scatterlist) (rnd : list Z) (flags access : Z) (bm : gset Z) (t : obj_table) (pd : pib_pd)
    (mr : pib_mr) (bt : gset Z * obj_table) (pd' : pib_pd) (m : mem) (buffer : list Z) (Hok : Forall sg_ok sgl)
    (Hinv : pd_inv pd) (Hget : pib_get_dma_mr rnd true flags bm t pd = Some (inr mr, bt, pd')) (Hacc : Z.land flags access = access) :
  let size := fold_right (fun sg n => sg_length sg + n) 0 sgl in
  let r := pib_dma_map_sg sgl (Zlen sgl) in
  r = (if decide (Forall (fun sg => page_address (sg_page sg) <> 0) sgl) then Zlen sgl else 0)
  /\ (r <> 0 -> 0 < size <= PIB_MAX_PAYLOAD_LEN -> size <= Zlen buffer ->
      pib_util_mr_copy_data pd' (sge_of (mr_lkey mr) <$> sgl) m buffer 0 size access PIB_MR_COPY_FROM
      = Some (IB_WC_SUCCESS, (m <$> concat (sg_bytes <$> sgl)) ++ drop (Z.to_nat size) buffer, m)).
Proof.
  intros size r. assert (r = map_sg_loop sgl (Zlen sgl)) as Er by (unfold r, pib_dma_map_sg; by rewrite take_ge by (unfold Zlen; lia)). clearbody r. subst r. split.
  - rewrite map_sg_loop_result. apply decide_ext. rewrite !Forall_forall. unfold sg_ok in Hok. rewrite Forall_forall in Hok.
    split; intros H sg Hin; specialize (H sg Hin); specialize (Hok sg Hin); change (u64 (-1)) with (2 ^ 64 - 1) in Hok; unfold u64 in *; rewrite wrap_small in * by lia; done.
  - intros Hr Hs Hb. apply map_sg_loop_all in Hr. destruct (dma_mr_spec _ _ _ _ _ _ _ _ Hinv Hget) as (H1 & H2 & H3 & H4 & H5 & H6 & H7).
    destruct (sg_entries pd' mr access H1 H2 H3 ltac:(by rewrite H4) H5 H6 H7 sgl Hok Hr) as (E1 & E2 & E3).
    pose proof (Zlen_sgl_addrs pd' access _ E1) as Hl. rewrite (gather_exact pd' _ m buffer 0 size access E1); [|lia|done| |lia|done].
    + rewrite <-E2. unfold slice. rewrite drop_0, (take_ge _ (Z.to_nat size)); [done|]. unfold Zlen in Hl. lia.
    + change PIB_MAX_PAYLOAD_LEN with (2 ^ 30) in Hs. lia.
Qed.
End Dma.

(** ** Witnesses *)

(** Page [n] is at 0x1000 * n; page 0 has no address. *)
Definition demo_address (n : Z) : Z := 0x1000 * n.
Definition dma_mr_example : option ((Z + pib_mr) * (gset Z * obj_table) * pib_pd) := pib_get_dma_mr [1; 2] true 15 ∅ ot_empty (pd_init 1).
Lemma dma_mr_example_ok : exists mr bt pd', dma_mr_example = Some (inr mr, bt, pd') /\ mr_lkey mr = 0x100000.
Proof. eexists _, _, _. split; vm_compute; reflexivity. Qed.
Lemma pd_init_inv n : pd_inv (pd_init n).
Proof. split; [done|apply map_Forall_empty]. Qed.

(** Three bytes in page 5, from its offset 7. *)
Lemma dma_page_written_witness :
  exists pd' m', pib_dma_map_page demo_address 0x1000 5 7 3 = 0x5007
  /\ pib_util_mr_copy_data pd' [{| sge_addr := 0x5007; sge_length := 3; sge_lkey := 0x100000 |}] mem_example [1; 2; 3] 0 3 IB_ACCESS_LOCAL_WRITE PIB_MR_COPY_TO
     = Some (IB_WC_SUCCESS, [1; 2; 3], m')
  /\ m' <$> [0x5007; 0x5008; 0x5009] = [1; 2; 3].
Proof.
  destruct dma_mr_example_ok as (mr & bt & pd' & E & Hk).
  destruct (dma_page_written demo_address 0x1000 5 7 [1; 2; 3] [1; 2] 15 IB_ACCESS_LOCAL_WRITE ∅ ot_empty (pd_init 1) mr bt pd' mem_example)
    as [_ (m' & H1 & H2 & _)]; [vm_compute; done..|apply pd_init_inv|exact E|reflexivity|vm_compute; done|].
  rewrite Hk in H1. exists pd', m'. split; [reflexivity|]. split; [exact H1|exact H2].
Defined.

(** Two entries, of pages 5 and 2; a list with page 0 is refused. *)
Lemma dma_sg_gathered_witness :
  (exists pd', pib_util_mr_copy_data pd' [{| sge_addr := 0x5007; sge_length := 2; sge_lkey := 0x100000 |}; {| sge_addr := 0x2000; sge_length := 1; sge_lkey := 0x100000 |}]
     mem_example [0; 0; 0; 0] 0 3 IB_ACCESS_LOCAL_WRITE PIB_MR_COPY_FROM = Some (IB_WC_SUCCESS, [7; 8; 0; 0], mem_example))
  /\ pib_dma_map_sg demo_address [{| sg_page := 5; sg_offset := 7; sg_length := 2 |}; {| sg_page := 0; sg_offset := 0; sg_length := 1 |}] 2 = 0.
Proof.
  destruct dma_mr_example_ok as (mr & bt & pd' & E & Hk). split; [|reflexivity].
  destruct (dma_sg_gathered demo_address [{| sg_page := 5; sg_offset := 7; sg_length := 2 |}; {| sg_page := 2; sg_offset := 0; sg_length := 1 |}] [1; 2] 15 IB_ACCESS_LOCAL_WRITE
    ∅ ot_empty (pd_init 1) mr bt pd' mem_example [0; 0; 0; 0]) as [_ H]; [repeat constructor; vm_compute; done|apply pd_init_inv|exact E|reflexivity|].
  rewrite Hk in H. exists pd'. apply H; vm_compute; done.
Defined.
