(* ===== verification/Layout.v ===== *)
(** * Layout of the packet structures (pibnetd/pibnetd_packet.h, driver/pib_packet.h)

    The structures as they are declared: the members in order, with their sizes in bytes.
    The compiler puts the members of a packed structure one behind the other; the two
    structures that are not packed have their members aligned without gaps.  The places at
    which the other files access packets, and the headers they decode, are those of the
    declarations. *)

From S2P Require Import Text Prelude Verbs Lib Mr Packet Wire Port Pma SwitchSmp Netd.

#[local] Open Scope nat_scope.
#[local] Open Scope string_scope.

Definition layout := list (string * nat).
Definition size_of (s : layout) : nat := sum_list s.*2.

(** The place of a member of a structure that starts at [off]. *)
Fixpoint member_at (s : layout) (off : nat) (m : string) : option fld :=
  match s with
  | [] => None
  | (n, w) :: s => if String.eqb n m then Some (Fld off w) else member_at s (off + w) m
  end.

(** ** The structures *)

Definition struct_pib_packet_lrh : layout :=
  [("dlid", 2); ("vl_lver", 1); ("sl_rsv_lnh", 1); ("slid", 2); ("pktlen", 2)].
Definition struct_pib_grh : layout :=
  [("version_tclass_flow", 4); ("paylen", 2); ("next_hdr", 1); ("hop_limit", 1); ("sgid", 16); ("dgid", 16)].
Definition struct_pib_packet_bth : layout :=
  [("OpCode", 1); ("se_m_padcnt_tver", 1); ("pkey", 2); ("destQP", 4); ("psn", 4)].
Definition struct_pib_packet_deth : layout :=
  [("qkey", 4); ("srcQP", 4)].
Definition struct_pib_packet_link : layout :=
  [("cmd", 4)].
Definition struct_pib_mad_hdr : layout :=
  [("base_version", 1); ("mgmt_class", 1); ("class_version", 1); ("method", 1); ("status", 2); ("class_specific", 2); ("tid", 8);
   ("attr_id", 2); ("resv", 2); ("attr_mod", 4)].
Definition struct_pib_mad : layout :=
  [("mad_hdr", size_of struct_pib_mad_hdr); ("data", 232)].
Definition struct_pib_smp : layout :=
  [("base_version", 1); ("mgmt_class", 1); ("class_version", 1); ("method", 1); ("status", 2); ("hop_ptr", 1); ("hop_cnt", 1); ("tid", 8);
   ("attr_id", 2); ("resv", 2); ("attr_mod", 4); ("mkey", 8); ("dr_slid", 2); ("dr_dlid", 2); ("reserved", 28); ("data", 64);
   ("initial_path", 64); ("return_path", 64)].
Definition struct_pib_smp_node_info : layout :=
  [("base_version", 1); ("class_version", 1); ("node_type", 1); ("node_ports", 1); ("sys_image_guid", 8); ("node_guid", 8); ("port_guid", 8);
   ("partition_cap", 2); ("device_id", 2); ("revision", 4); ("local_port_num", 1); ("vendor_id", 3)].
Definition struct_pib_smp_switch_info : layout :=
  [("linear_fdb_cap", 2); ("random_fdb_cap", 2); ("multicast_fdb_cap", 2); ("linear_fdb_top", 2); ("default_port", 1);
   ("default_mcast_primary_port", 1); ("default_mcast_not_primary_port", 1); ("various1", 1); ("lids_per_port", 2);
   ("partition_enforcement_cap", 2); ("various2", 1)].
Definition struct_pib_port_info : layout :=
  [("mkey", 8); ("gid_prefix", 8); ("lid", 2); ("sm_lid", 2); ("cap_mask", 4); ("diag_code", 2); ("mkey_lease_period", 2);
   ("local_port_num", 1); ("link_width_enabled", 1); ("link_width_supported", 1); ("link_width_active", 1); ("linkspeed_portstate", 1);
   ("portphysstate_linkdown", 1); ("mkeyprot_resv_lmc", 1); ("linkspeedactive_enabled", 1); ("neighbormtu_mastersmsl", 1);
   ("vlcap_inittype", 1); ("vl_high_limit", 1); ("vl_arb_high_cap", 1); ("vl_arb_low_cap", 1); ("inittypereply_mtucap", 1);
   ("vlstallcnt_hoqlife", 1); ("operationalvl_pei_peo_fpi_fpo", 1); ("mkey_violations", 2); ("pkey_violations", 2); ("qkey_violations", 2);
   ("guid_cap", 1); ("clientrereg_resv_subnetto", 1); ("resv_resptimevalue", 1); ("localphyerrors_overrunerrors", 1); ("max_credit_hint", 2);
   ("resv", 1); ("link_roundtrip_latency", 3)].
Definition struct_pib_pma_mad : layout :=
  [("mad_hdr", size_of struct_pib_mad_hdr); ("reserved", 40); ("data", 192)].
Definition struct_pib_class_port_info : layout :=
  [("base_version", 1); ("class_version", 1); ("capability_mask", 2); ("reserved", 3); ("resp_time_value", 1); ("redirect_gid", 16);
   ("redirect_tcslfl", 4); ("redirect_lid", 2); ("redirect_pkey", 2); ("redirect_qp", 4); ("redirect_qkey", 4); ("trap_gid", 16);
   ("trap_tcslfl", 4); ("trap_lid", 2); ("trap_pkey", 2); ("trap_hlqp", 4); ("trap_qkey", 4)].
Definition struct_pib_pma_portsamplescontrol : layout :=
  [("opcode", 1); ("port_select", 1); ("tick", 1); ("counter_width", 1); ("counter_mask0_9", 4); ("counter_mask10_14", 2);
   ("sample_mechanisms", 1); ("sample_status", 1); ("option_mask", 8); ("vendor_mask", 8); ("sample_start", 4); ("sample_interval", 4);
   ("tag", 2); ("counter_select", 15 * 2); ("reserved1", 4); ("samples_only_option_mask", 8); ("reserved2", 28 * 4)].
Definition struct_pib_pma_portsamplesresult : layout :=
  [("tag", 2); ("sample_status", 2); ("counter", 15 * 4)].
Definition struct_pib_pma_portsamplesresult_ext : layout :=
  [("tag", 2); ("sample_status", 2); ("extended_width", 4); ("counter", 15 * 8)].
Definition struct_pib_pma_portcounters : layout :=
  [("reserved", 1); ("port_select", 1); ("counter_select", 2); ("symbol_error_counter", 2); ("link_error_recovery_counter", 1);
   ("link_downed_counter", 1); ("port_rcv_errors", 2); ("port_rcv_remphys_errors", 2); ("port_rcv_switch_relay_errors", 2);
   ("port_xmit_discards", 2); ("port_xmit_constraint_errors", 1); ("port_rcv_constraint_errors", 1); ("reserved1", 1);
   ("link_overrun_errors", 1); ("reserved2", 2); ("vl15_dropped", 2); ("port_xmit_data", 4); ("port_rcv_data", 4); ("port_xmit_packets", 4);
   ("port_rcv_packets", 4); ("port_xmit_wait", 4)].
Definition struct_pib_pma_portcounters_ext : layout :=
  [("reserved", 1); ("port_select", 1); ("counter_select", 2); ("reserved1", 4); ("port_xmit_data", 8); ("port_rcv_data", 8);
   ("port_xmit_packets", 8); ("port_rcv_packets", 8); ("port_unicast_xmit_packets", 8); ("port_unicast_rcv_packets", 8);
   ("port_multicast_xmit_packets", 8); ("port_multicast_rcv_packets", 8)].
Definition struct_pib_trap : layout :=
  [("generice_type_prodtype", 4); ("trapnum", 2); ("issuerlid", 2); ("toggle_count", 2); ("details", 54)].
Definition struct_pib_packet_reth : layout :=
  [("vaddr", 8); ("rkey", 4); ("dmalen", 4)].
Definition struct_pib_packet_atomiceth : layout :=
  [("vaddr", 8); ("rkey", 4); ("swap_dt", 8); ("cmp_dt", 8)].
Definition struct_pib_packet_aeth : layout :=
  [("syndrome_msn", 4)].
Definition struct_pib_packet_atomicacketh : layout :=
  [("orig_rem_dt", 8)].
Definition struct_pib_packet_ieth : layout :=
  [("rkey", 4)].

(** union pib_packet_footer: the variant pib, and the details of a trap for ntc_128 *)
Definition union_pib_packet_footer : layout := [("port_guid", 8)].
Definition trap_ntc_128 : layout := [("lidaddr", 2)].

(** ** Where the handlers access them *)

(** The member of a structure at [ac_base] of the packet, and the field used for it. *)
Record access := { ac_struct : layout; ac_base : nat; ac_member : string; ac_field : fld }.

Definition accesses : list access :=
  [{| ac_struct := struct_pib_smp; ac_base := 0; ac_member := "base_version"; ac_field := SMP_base_version |};
   {| ac_struct := struct_pib_smp; ac_base := 0; ac_member := "mgmt_class"; ac_field := SMP_mgmt_class |};
   {| ac_struct := struct_pib_smp; ac_base := 0; ac_member := "class_version"; ac_field := SMP_class_version |};
   {| ac_struct := struct_pib_smp; ac_base := 0; ac_member := "method"; ac_field := SMP_method |};
   {| ac_struct := struct_pib_smp; ac_base := 0; ac_member := "status"; ac_field := SMP_status |};
   {| ac_struct := struct_pib_smp; ac_base := 0; ac_member := "hop_ptr"; ac_field := SMP_hop_ptr |};
   {| ac_struct := struct_pib_smp; ac_base := 0; ac_member := "hop_cnt"; ac_field := SMP_hop_cnt |};
   {| ac_struct := struct_pib_smp; ac_base := 0; ac_member := "tid"; ac_field := SMP_tid |};
   {| ac_struct := struct_pib_smp; ac_base := 0; ac_member := "attr_id"; ac_field := SMP_attr_id |};
   {| ac_struct := struct_pib_smp; ac_base := 0; ac_member := "attr_mod"; ac_field := SMP_attr_mod |};
   {| ac_struct := struct_pib_smp; ac_base := 0; ac_member := "dr_slid"; ac_field := SMP_dr_slid |};
   {| ac_struct := struct_pib_smp; ac_base := 0; ac_member := "dr_dlid"; ac_field := SMP_dr_dlid |};
   {| ac_struct := struct_pib_port_info; ac_base := 64; ac_member := "mkey"; ac_field := PI_mkey |};
   {| ac_struct := struct_pib_port_info; ac_base := 64; ac_member := "gid_prefix"; ac_field := PI_gid_prefix |};
   {| ac_struct := struct_pib_port_info; ac_base := 64; ac_member := "lid"; ac_field := PI_lid |};
   {| ac_struct := struct_pib_port_info; ac_base := 64; ac_member := "sm_lid"; ac_field := PI_sm_lid |};
   {| ac_struct := struct_pib_port_info; ac_base := 64; ac_member := "cap_mask"; ac_field := PI_cap_mask |};
   {| ac_struct := struct_pib_port_info; ac_base := 64; ac_member := "mkey_lease_period"; ac_field := PI_mkey_lease_period |};
   {| ac_struct := struct_pib_port_info; ac_base := 64; ac_member := "local_port_num"; ac_field := PI_local_port_num |};
   {| ac_struct := struct_pib_port_info; ac_base := 64; ac_member := "link_width_enabled"; ac_field := PI_link_width_enabled |};
   {| ac_struct := struct_pib_port_info; ac_base := 64; ac_member := "link_width_supported"; ac_field := PI_link_width_supported |};
   {| ac_struct := struct_pib_port_info; ac_base := 64; ac_member := "link_width_active"; ac_field := PI_link_width_active |};
   {| ac_struct := struct_pib_port_info; ac_base := 64; ac_member := "linkspeed_portstate"; ac_field := PI_linkspeed_portstate |};
   {| ac_struct := struct_pib_port_info; ac_base := 64; ac_member := "portphysstate_linkdown"; ac_field := PI_portphysstate_linkdown |};
   {| ac_struct := struct_pib_port_info; ac_base := 64; ac_member := "mkeyprot_resv_lmc"; ac_field := PI_mkeyprot_resv_lmc |};
   {| ac_struct := struct_pib_port_info; ac_base := 64; ac_member := "linkspeedactive_enabled"; ac_field := PI_linkspeedactive_enabled |};
   {| ac_struct := struct_pib_port_info; ac_base := 64; ac_member := "neighbormtu_mastersmsl"; ac_field := PI_neighbormtu_mastersmsl |};
   {| ac_struct := struct_pib_port_info; ac_base := 64; ac_member := "vlcap_inittype"; ac_field := PI_vlcap_inittype |};
   {| ac_struct := struct_pib_port_info; ac_base := 64; ac_member := "inittypereply_mtucap"; ac_field := PI_inittypereply_mtucap |};
   {| ac_struct := struct_pib_port_info; ac_base := 64; ac_member := "clientrereg_resv_subnetto"; ac_field := PI_clientrereg_resv_subnetto |};
   {| ac_struct := struct_pib_port_info; ac_base := 64; ac_member := "localphyerrors_overrunerrors"; ac_field := PI_localphyerrors_overrunerrors |};
   {| ac_struct := struct_pib_smp_node_info; ac_base := 64; ac_member := "base_version"; ac_field := NI_base_version |};
   {| ac_struct := struct_pib_smp_node_info; ac_base := 64; ac_member := "class_version"; ac_field := NI_class_version |};
   {| ac_struct := struct_pib_smp_node_info; ac_base := 64; ac_member := "node_type"; ac_field := NI_node_type |};
   {| ac_struct := struct_pib_smp_node_info; ac_base := 64; ac_member := "node_ports"; ac_field := NI_node_ports |};
   {| ac_struct := struct_pib_smp_node_info; ac_base := 64; ac_member := "sys_image_guid"; ac_field := NI_sys_image_guid |};
   {| ac_struct := struct_pib_smp_node_info; ac_base := 64; ac_member := "node_guid"; ac_field := NI_node_guid |};
   {| ac_struct := struct_pib_smp_node_info; ac_base := 64; ac_member := "port_guid"; ac_field := NI_port_guid |};
   {| ac_struct := struct_pib_smp_node_info; ac_base := 64; ac_member := "partition_cap"; ac_field := NI_partition_cap |};
   {| ac_struct := struct_pib_smp_node_info; ac_base := 64; ac_member := "device_id"; ac_field := NI_device_id |};
   {| ac_struct := struct_pib_smp_node_info; ac_base := 64; ac_member := "revision"; ac_field := NI_revision |};
   {| ac_struct := struct_pib_smp_node_info; ac_base := 64; ac_member := "local_port_num"; ac_field := NI_local_port_num |};
   {| ac_struct := struct_pib_smp_node_info; ac_base := 64; ac_member := "vendor_id"; ac_field := NI_vendor_id |};
   {| ac_struct := struct_pib_smp_switch_info; ac_base := 64; ac_member := "linear_fdb_cap"; ac_field := SI_linear_fdb_cap |};
   {| ac_struct := struct_pib_smp_switch_info; ac_base := 64; ac_member := "random_fdb_cap"; ac_field := SI_random_fdb_cap |};
   {| ac_struct := struct_pib_smp_switch_info; ac_base := 64; ac_member := "multicast_fdb_cap"; ac_field := SI_multicast_fdb_cap |};
   {| ac_struct := struct_pib_smp_switch_info; ac_base := 64; ac_member := "linear_fdb_top"; ac_field := SI_linear_fdb_top |};
   {| ac_struct := struct_pib_smp_switch_info; ac_base := 64; ac_member := "default_port"; ac_field := SI_default_port |};
   {| ac_struct := struct_pib_smp_switch_info; ac_base := 64; ac_member := "default_mcast_primary_port"; ac_field := SI_default_mcast_primary_port |};
   {| ac_struct := struct_pib_smp_switch_info; ac_base := 64; ac_member := "default_mcast_not_primary_port"; ac_field := SI_default_mcast_not_primary_port |};
   {| ac_struct := struct_pib_smp_switch_info; ac_base := 64; ac_member := "various1"; ac_field := SI_various1 |};
   {| ac_struct := struct_pib_smp_switch_info; ac_base := 64; ac_member := "lids_per_port"; ac_field := SI_lids_per_port |};
   {| ac_struct := struct_pib_smp_switch_info; ac_base := 64; ac_member := "partition_enforcement_cap"; ac_field := SI_partition_enforcement_cap |};
   {| ac_struct := struct_pib_smp_switch_info; ac_base := 64; ac_member := "various2"; ac_field := SI_various2 |};
   {| ac_struct := struct_pib_class_port_info; ac_base := 64; ac_member := "base_version"; ac_field := CPI_base_version |};
   {| ac_struct := struct_pib_class_port_info; ac_base := 64; ac_member := "class_version"; ac_field := CPI_class_version |};
   {| ac_struct := struct_pib_class_port_info; ac_base := 64; ac_member := "capability_mask"; ac_field := CPI_capability_mask |};
   {| ac_struct := struct_pib_class_port_info; ac_base := 64; ac_member := "resp_time_value"; ac_field := CPI_resp_time_value |};
   {| ac_struct := struct_pib_pma_portsamplescontrol; ac_base := 64; ac_member := "port_select"; ac_field := PM_port_select |};
   {| ac_struct := struct_pib_pma_portsamplescontrol; ac_base := 64; ac_member := "opcode"; ac_field := PSC_opcode |};
   {| ac_struct := struct_pib_pma_portsamplescontrol; ac_base := 64; ac_member := "tick"; ac_field := PSC_tick |};
   {| ac_struct := struct_pib_pma_portsamplescontrol; ac_base := 64; ac_member := "counter_width"; ac_field := PSC_counter_width |};
   {| ac_struct := struct_pib_pma_portsamplescontrol; ac_base := 64; ac_member := "counter_mask0_9"; ac_field := PSC_counter_mask0_9 |};
   {| ac_struct := struct_pib_pma_portsamplescontrol; ac_base := 64; ac_member := "counter_mask10_14"; ac_field := PSC_counter_mask10_14 |};
   {| ac_struct := struct_pib_pma_portsamplescontrol; ac_base := 64; ac_member := "sample_mechanisms"; ac_field := PSC_sample_mechanisms |};
   {| ac_struct := struct_pib_pma_portsamplescontrol; ac_base := 64; ac_member := "sample_status"; ac_field := PSC_sample_status |};
   {| ac_struct := struct_pib_pma_portsamplescontrol; ac_base := 64; ac_member := "sample_start"; ac_field := PSC_sample_start |};
   {| ac_struct := struct_pib_pma_portsamplescontrol; ac_base := 64; ac_member := "sample_interval"; ac_field := PSC_sample_interval |};
   {| ac_struct := struct_pib_pma_portsamplescontrol; ac_base := 64; ac_member := "tag"; ac_field := PSC_tag |};
   {| ac_struct := struct_pib_pma_portsamplesresult; ac_base := 64; ac_member := "tag"; ac_field := PSR_tag |};
   {| ac_struct := struct_pib_pma_portsamplesresult; ac_base := 64; ac_member := "sample_status"; ac_field := PSR_sample_status |};
   {| ac_struct := struct_pib_pma_portsamplesresult_ext; ac_base := 64; ac_member := "extended_width"; ac_field := PSRX_extended_width |};
   {| ac_struct := struct_pib_pma_portcounters; ac_base := 64; ac_member := "counter_select"; ac_field := PC_counter_select |};
   {| ac_struct := struct_pib_pma_portcounters; ac_base := 64; ac_member := "symbol_error_counter"; ac_field := PC_symbol_error_counter |};
   {| ac_struct := struct_pib_pma_portcounters; ac_base := 64; ac_member := "link_error_recovery_counter"; ac_field := PC_link_error_recovery_counter |};
   {| ac_struct := struct_pib_pma_portcounters; ac_base := 64; ac_member := "link_downed_counter"; ac_field := PC_link_downed_counter |};
   {| ac_struct := struct_pib_pma_portcounters; ac_base := 64; ac_member := "port_rcv_errors"; ac_field := PC_rcv_errors |};
   {| ac_struct := struct_pib_pma_portcounters; ac_base := 64; ac_member := "port_rcv_remphys_errors"; ac_field := PC_rcv_remphys_errors |};
   {| ac_struct := struct_pib_pma_portcounters; ac_base := 64; ac_member := "port_rcv_switch_relay_errors"; ac_field := PC_rcv_switch_relay_errors |};
   {| ac_struct := struct_pib_pma_portcounters; ac_base := 64; ac_member := "port_xmit_discards"; ac_field := PC_xmit_discards |};
   {| ac_struct := struct_pib_pma_portcounters; ac_base := 64; ac_member := "port_xmit_constraint_errors"; ac_field := PC_xmit_constraint_errors |};
   {| ac_struct := struct_pib_pma_portcounters; ac_base := 64; ac_member := "port_rcv_constraint_errors"; ac_field := PC_rcv_constraint_errors |};
   {| ac_struct := struct_pib_pma_portcounters; ac_base := 64; ac_member := "link_overrun_errors"; ac_field := PC_link_overrun_errors |};
   {| ac_struct := struct_pib_pma_portcounters; ac_base := 64; ac_member := "vl15_dropped"; ac_field := PC_vl15_dropped |};
   {| ac_struct := struct_pib_pma_portcounters; ac_base := 64; ac_member := "port_xmit_data"; ac_field := PC_xmit_data |};
   {| ac_struct := struct_pib_pma_portcounters; ac_base := 64; ac_member := "port_rcv_data"; ac_field := PC_rcv_data |};
   {| ac_struct := struct_pib_pma_portcounters; ac_base := 64; ac_member := "port_xmit_packets"; ac_field := PC_xmit_packets |};
   {| ac_struct := struct_pib_pma_portcounters; ac_base := 64; ac_member := "port_rcv_packets"; ac_field := PC_rcv_packets |};
   {| ac_struct := struct_pib_pma_portcounters; ac_base := 64; ac_member := "port_xmit_wait"; ac_field := PC_xmit_wait |};
   {| ac_struct := struct_pib_pma_portcounters_ext; ac_base := 64; ac_member := "port_xmit_data"; ac_field := PCX_xmit_data |};
   {| ac_struct := struct_pib_pma_portcounters_ext; ac_base := 64; ac_member := "port_rcv_data"; ac_field := PCX_rcv_data |};
   {| ac_struct := struct_pib_pma_portcounters_ext; ac_base := 64; ac_member := "port_xmit_packets"; ac_field := PCX_xmit_packets |};
   {| ac_struct := struct_pib_pma_portcounters_ext; ac_base := 64; ac_member := "port_rcv_packets"; ac_field := PCX_rcv_packets |};
   {| ac_struct := struct_pib_pma_portcounters_ext; ac_base := 64; ac_member := "port_unicast_xmit_packets"; ac_field := PCX_unicast_xmit_packets |};
   {| ac_struct := struct_pib_pma_portcounters_ext; ac_base := 64; ac_member := "port_unicast_rcv_packets"; ac_field := PCX_unicast_rcv_packets |};
   {| ac_struct := struct_pib_pma_portcounters_ext; ac_base := 64; ac_member := "port_multicast_xmit_packets"; ac_field := PCX_multicast_xmit_packets |};
   {| ac_struct := struct_pib_pma_portcounters_ext; ac_base := 64; ac_member := "port_multicast_rcv_packets"; ac_field := PCX_multicast_rcv_packets |};
   {| ac_struct := struct_pib_packet_lrh; ac_base := 0; ac_member := "dlid"; ac_field := LRH_dlid |};
   {| ac_struct := struct_pib_packet_lrh; ac_base := 0; ac_member := "sl_rsv_lnh"; ac_field := LRH_sl_rsv_lnh |};
   {| ac_struct := struct_pib_packet_lrh; ac_base := 0; ac_member := "slid"; ac_field := LRH_slid |};
   {| ac_struct := struct_pib_packet_lrh; ac_base := 0; ac_member := "pktlen"; ac_field := LRH_pktlen |};
   {| ac_struct := struct_pib_trap; ac_base := 64; ac_member := "generice_type_prodtype"; ac_field := NTC_generic |};
   {| ac_struct := struct_pib_trap; ac_base := 64; ac_member := "trapnum"; ac_field := NTC_trapnum |};
   {| ac_struct := struct_pib_trap; ac_base := 64; ac_member := "issuerlid"; ac_field := NTC_issuerlid |}].

(** Members that are arrays: their start. *)
Definition arrays : list (layout * nat * string * nat) :=
  [(struct_pib_smp, 0, "data", SMP_data);
   (struct_pib_smp, 0, "initial_path", SMP_initial_path);
   (struct_pib_smp, 0, "return_path", SMP_return_path);
   (struct_pib_pma_portsamplescontrol, 64, "counter_select", PSC_counter_select);
   (struct_pib_pma_portsamplesresult, 64, "counter", PSR_counter);
   (struct_pib_pma_portsamplesresult_ext, 64, "counter", PSRX_counter)].

(** ** Lemmas *)

Lemma size_of_cons n w s : size_of ((n, w) :: s) = w + size_of s.
Proof. done. Qed.

Lemma member_range s : forall off m f, member_at s off m = Some f -> off <= f_off f /\ f_off f + f_len f <= off + size_of s.
Proof.
  induction s as [|[n w] s IH]; intros off m f; cbn [member_at]; [done|]. rewrite size_of_cons. destruct (String.eqb n m).
  - intros [= <-]. simpl. lia.
  - intros H. apply IH in H. lia.
Qed.

(** Different members do not overlap. *)
Lemma members_disjoint s : forall off m m' f g, m <> m' -> member_at s off m = Some f -> member_at s off m' = Some g -> fdisj g f = true.
Proof.
  assert (forall f g, f_off f + f_len f <= f_off g -> fdisj g f = true) as Hr by (intros f g H; unfold fdisj; apply orb_true_iff; right; by apply Nat.leb_le).
  assert (forall f g, f_off f + f_len f <= f_off g -> fdisj f g = true) as Hl by (intros f g H; unfold fdisj; apply orb_true_iff; left; by apply Nat.leb_le).
  induction s as [|[n w] s IH]; intros off m m' f g Hne; simpl; [done|]. destruct (String.eqb_spec n m) as [->|Hm], (String.eqb_spec m m') as [->|Hm'].
  - done.
  - intros [= <-] H. apply member_range in H. apply Hr. simpl. lia.
  - done.
  - destruct (String.eqb_spec n m') as [->|Hn']; [|by apply IH]. intros H [= <-]. apply member_range in H. apply Hl. simpl. lia.
Qed.

(** The members of a structure, in order, as big-endian numbers. *)
Fixpoint members (s : layout) (off : nat) (b : list Z) : list Z :=
  match s with [] => [] | (_, w) :: s => be_at off w b :: members s (off + w) b end.

Lemma be_at_byte p b : be_at p 1 b = byte_at p b.
Proof.
  unfold be_at, be_combine, bytes_at, byte_at. destruct (drop p b) as [|x l] eqn:E; simpl.
  - rewrite nth_overflow; [done|]. apply (f_equal length) in E. rewrite length_drop in E. simpl in E. lia.
  - assert (b !! p = Some x) as H by (rewrite <-(Nat.add_0_r p), <-lookup_drop, E; done). rewrite (nth_lookup_Some _ _ _ _ H). simpl. lia.
Qed.

(** ** Theorems *)

(** An assignment to a member of a structure inside a packet: the member reads back the
    value, as much of it as the member has room for; every other member of the structure
    and every byte outside of it are as they were. *)
Theorem member_assignment (s : layout) (base : nat) (m : string) (f : fld) (b : list Z) (v : Z) (Hm : member_at s base m = Some f) (Hb : base + size_of s <= length b) :
  length (be_set f v b) = length b
  /\ be_get f (be_set f v b) = (v mod 2 ^ (8 * Z.of_nat (f_len f)))%Z
  /\ (forall m' g, m' <> m -> member_at s base m' = Some g -> be_get g (be_set f v b) = be_get g b)
  /\ (forall i, i < base \/ base + size_of s <= i -> be_set f v b !! i = b !! i).
Proof.
  pose proof (member_range s base m f Hm) as Hr. assert (fits f (length b)) as Hf by (unfold fits; lia).
  split; [by apply length_be_set|]. split; [by apply be_get_set|]. split.
  - intros m' g Hne Hg. apply be_get_be_set_ne; [done|]. by eapply (members_disjoint s base m m').
  - intros i Hi. unfold be_set. rewrite lookup_put_bytes by (rewrite length_be_split; exact Hf). rewrite length_be_split. rewrite decide_False by lia. done.
Qed.

(** Every field the handlers use is the member of its structure as it is declared, the
    structures fit where they are put, and the headers of packets are decoded member by
    member; the P_Key alone keeps the byte order it has in the packet. *)
Theorem layouts_agree (b : list Z) :
  Forall (fun a => member_at (ac_struct a) (ac_base a) (ac_member a) = Some (ac_field a)) accesses
  /\ Forall (fun '(s, base, m, start) => f_off <$> member_at s base m = Some start) arrays
  /\ member_at trap_ntc_128 (default 0 (f_off <$> member_at struct_pib_trap SMP_data "details")) "lidaddr" = Some NTC_128_lidaddr
  /\ size_of struct_pib_smp = MAD_SIZE /\ size_of struct_pib_mad = MAD_SIZE /\ size_of struct_pib_pma_mad = MAD_SIZE
  /\ Forall (fun s => size_of s <= SMP_DATA_SIZE) [struct_pib_smp_node_info; struct_pib_smp_switch_info; struct_pib_port_info; struct_pib_trap]
  /\ Forall (fun s => PMA_data + size_of s <= MAD_SIZE)
       [struct_pib_class_port_info; struct_pib_pma_portsamplescontrol; struct_pib_pma_portsamplesresult; struct_pib_pma_portsamplesresult_ext;
        struct_pib_pma_portcounters; struct_pib_pma_portcounters_ext]
  /\ [lrh_dlid (lrh_of b); lrh_vl_lver (lrh_of b); lrh_sl_rsv_lnh (lrh_of b); lrh_slid (lrh_of b); lrh_pktlen (lrh_of b)] = members struct_pib_packet_lrh 0 b
  /\ [bth_OpCode (bth_of b); bth_se_m_padcnt_tver (bth_of b)] = members (take 2 struct_pib_packet_bth) 0 b
  /\ [bth_destQP (bth_of b); bth_psn (bth_of b)] = members (drop 3 struct_pib_packet_bth) 4 b
  /\ member_at struct_pib_packet_bth 0 "pkey" = Some (Fld 2 2) /\ bth_pkey (bth_of b) = le_get (Fld 2 2) b
  /\ [deth_qkey (deth_of b); deth_srcQP (deth_of b)] = members struct_pib_packet_deth 0 b
  /\ [reth_vaddr (reth_of b); reth_rkey (reth_of b); reth_dmalen (reth_of b)] = members struct_pib_packet_reth 0 b
  /\ [at_vaddr (atomiceth_of b); at_rkey (atomiceth_of b); at_swap_dt (atomiceth_of b); at_cmp_dt (atomiceth_of b)] = members struct_pib_packet_atomiceth 0 b
  /\ Z.of_nat <$> [size_of struct_pib_packet_lrh; size_of struct_pib_grh; size_of struct_pib_packet_bth; size_of struct_pib_packet_deth; size_of struct_pib_packet_reth;
                   size_of struct_pib_packet_atomiceth; size_of struct_pib_packet_aeth; size_of struct_pib_packet_atomicacketh]
     = [LRH_SIZE; GRH_SIZE; BTH_SIZE; DETH_SIZE; RETH_SIZE; ATOMICETH_SIZE; AETH_SIZE; ATOMICACKETH_SIZE].
Proof.
  split; [repeat constructor|]. split; [repeat constructor|]. split; [done|]. split; [done|]. split; [done|]. split; [done|].
  split; [apply (bool_decide_unpack _); reflexivity|]. split; [apply (bool_decide_unpack _); reflexivity|].
  cbn [members struct_pib_packet_lrh struct_pib_packet_bth struct_pib_packet_deth struct_pib_packet_reth struct_pib_packet_atomiceth take drop Nat.add].
  rewrite !be_at_byte. by split_and!.
Qed.

(** The structures that are not packed have no gaps: each member starts at a multiple of
    the size of its type. *)
Lemma mad_hdr_aligned : Forall (fun '(m, _) => match member_at struct_pib_mad_hdr 0 m with Some f => (f_off f mod f_len f = 0)%nat | None => False end) struct_pib_mad_hdr.
Proof. repeat constructor. Qed.

(** ** Witnesses *)

(** The LID of a port in a packet of 256 bytes. *)
Lemma member_assignment_witness :
  let b := replicate 256 7%Z in
  be_get PI_lid (be_set PI_lid 0x12345 b) = 0x2345%Z /\ be_get PI_sm_lid (be_set PI_lid 0x12345 b) = 0x707%Z.
Proof.
  intros b. destruct (member_assignment struct_pib_port_info 64 "lid" PI_lid b 0x12345) as (_ & H1 & H2 & _); [vm_compute; reflexivity|vm_compute; lia|].
  split; [rewrite H1; vm_compute; reflexivity|]. rewrite (H2 "sm_lid" PI_sm_lid); [vm_compute; reflexivity|discriminate|vm_compute; reflexivity].
Defined.
