(* ===== verification/Start.v ===== *)
(** * Starting pibnetd (pibnetd/main.c: main, init_control)

    The options and the system calls from the start to the main loop.  What getopt_long
    and the system calls return are arguments. *)

From S2P Require Import Text Prelude Verbs Lib Packet Wire Port SwitchSmp Netd NetdThm.

(** ** Options *)

(** A number with a sign in front, from the first digit on. *)
Fixpoint strtol_digits (s : list Z) (acc : Z) : Z :=
  match s with c :: s' => if (48 <=? c) && (c <=? 57) then strtol_digits s' (10 * acc + (c - 48)) else acc | [] => acc end.

(** atoi of the C library: strtol, which keeps to the range of long, converted to int. *)
Definition atoi (s : list Z) : Z :=
  let s := skip_spaces s in
  let '(neg, s) := match s with c :: s' => if c =? 45 then (true, s') else if c =? 43 then (false, s') else (false, s) | [] => (false, []) end in
  let n := strtol_digits s 0 in
  s32 (Z.max (- 2 ^ 63) (Z.min (2 ^ 63 - 1) (if neg then - n else n))).

Record options := { port_num : Z; is_daemon : bool; verbose : bool }.

Definition PIB_NETD_DEFAULT_PORT : Z := 8432.
Definition default_options : options := {| port_num := PIB_NETD_DEFAULT_PORT; is_daemon := false; verbose := false |}.

(** How the program ends before its loop: exit(EXIT_FAILURE), an assertion, a null pointer. *)
Inductive ending := ExitFailure | AssertFailure | NullPointer.

Definition letter (s : String.string) : Z := default 0 (head (str s)).

(** [l]: the values getopt_long returns, each with its argument. *)
Fixpoint parse_options (l : list (Z * list Z)) (o : options) : ending + options :=
  match l with
  | [] => inr o
  | (ch, optarg) :: l =>
      if ch =? letter "p" then
        let port_num := u32 (atoi optarg) in
        if (0 <? port_num) && (port_num <? 65536)
        then parse_options l {| port_num := port_num; is_daemon := is_daemon o; verbose := verbose o |}
        else inl AssertFailure
      else if ch =? letter "B" then parse_options l {| port_num := port_num o; is_daemon := true; verbose := verbose o |}
      else if ch =? letter "v" then parse_options l {| port_num := port_num o; is_daemon := is_daemon o; verbose := true |}
      else inl ExitFailure
  end.

(** ** Initialisation *)

(** What the calls of init_control and init_switch return. *)
Record calls := {
  malloc_buffer : bool; socket_ret : Z; getifaddrs_ret : Z; interfaces : list (option Z * list Z); bind_ret : Z; calloc_sockaddr : bool; calloc_switch : bool }.

(** The base of the GUIDs and the port the socket is bound to; htons of a port. *)
Record control := { ct_guid_base : Z; ct_sin_port : Z }.

Definition init_control (c : calls) (port_num : Z) : ending + control :=
  if negb (malloc_buffer c) then inl AssertFailure
  else if socket_ret c <? 0 then inl ExitFailure
  else if getifaddrs_ret c <? 0 then inl ExitFailure
  else if negb (bind_ret c =? 0) then inl ExitFailure
  else if negb (calloc_sockaddr c) then inl NullPointer
  else inr {| ct_guid_base := construct_hca_guid_base 0xCafeBabe0000 (interfaces c); ct_sin_port := u16 port_num |}.

(** Up to the main loop. *)
Definition startup (args : list (Z * list Z)) (c : calls) : ending + (options * control) :=
  match parse_options args default_options with
  | inl e => inl e
  | inr o => match init_control c (port_num o) with inl e => inl e | inr k => if calloc_switch c then inr (o, k) else inl AssertFailure end
  end.

(** The loop over the events the socket delivers, from the initial switch. *)
Definition main (args : list (Z * list Z)) (c : calls) (fuel : nat) (events : list event) (results : list (sysret Z))
    : ending + option (flow unit * netd) :=
  match startup args c with
  | inl e => inl e
  | inr (_, k) => inr (do_work (ct_guid_base k) fuel events ((init_netd (ct_guid_base k)) <| nt_results := results |>))
  end.

(** signal_handler: SIGTERM and the others set their bit. *)
Definition signal_handler (signum signal_flags : Z) : Z := s32 (Z.lor signal_flags (u32 (Z.shiftl 1 signum))).

(** ** Lemmas *)

(** An option the program goes on with. *)
Definition good_option (a : Z * list Z) : Prop :=
  a.1 = letter "p" /\ 0 < u32 (atoi a.2) < 65536 \/ a.1 = letter "B" \/ a.1 = letter "v".

(** The port of the last option -p. *)
Definition given_port (p : Z) (a : Z * list Z) : Z := if a.1 =? letter "p" then u32 (atoi a.2) else p.

Lemma parse_options_spec l : forall o,
  match parse_options l o with
  | inl _ => ~ Forall good_option l
  | inr o' => Forall good_option l /\ port_num o' = fold_left given_port l (port_num o)
      /\ is_daemon o' = is_daemon o || existsb (fun a => a.1 =? letter "B") l
  end.
Proof.
  assert (letter "p" <> letter "B" /\ letter "p" <> letter "v" /\ letter "B" <> letter "v") as (Hpb & Hpv & Hbv) by done.
  induction l as [|[ch arg] l IH]; intros o; simpl; [by rewrite orb_false_r|]. change (given_port (port_num o) (ch, arg)) with (if ch =? letter "p" then u32 (atoi arg) else port_num o).
  assert (forall P : Prop, (~ Forall good_option l) -> ~ Forall good_option ((ch, arg) :: l)) as Hno by (intros _ H H'; apply Forall_cons in H' as [_ H']; done).
  destruct (Z.eqb_spec ch (letter "p")) as [->|Hp].
  - rewrite (proj2 (Z.eqb_neq (letter "p") (letter "B"))) by done.
    destruct (Z.ltb_spec 0 (u32 (atoi arg))) as [H0|H0]; [destruct (Z.ltb_spec (u32 (atoi arg)) 65536) as [H1|H1]|]; simpl.
    2,3: intros H; apply Forall_cons in H as [[(_ & H)|[H|H]] _]; simpl in H; first [lia|done].
    specialize (IH {| port_num := u32 (atoi arg); is_daemon := is_daemon o; verbose := verbose o |}). destruct (parse_options l _); [by apply (Hno True)|].
    destruct IH as (H & E & E'). split; [constructor; [by left|done]|done].
  - destruct (Z.eqb_spec ch (letter "B")) as [->|Hb].
    + specialize (IH {| port_num := port_num o; is_daemon := true; verbose := verbose o |}). destruct (parse_options l _); [by apply (Hno True)|].
      destruct IH as (H & E & E'). split; [constructor; [by right; left|done]|]. split; [done|]. rewrite E'. simpl. by rewrite orb_true_r.
    + destruct (Z.eqb_spec ch (letter "v")) as [->|Hv].
      * specialize (IH {| port_num := port_num o; is_daemon := is_daemon o; verbose := true |}). destruct (parse_options l _); [by apply (Hno True)|].
        destruct IH as (H & E & E'). split; [constructor; [by right; right|done]|done].
      * intros H. apply Forall_cons in H as [[(H & _)|[H|H]] _]; done.
Qed.

Lemma fold_port l : forall p, Forall good_option l -> 0 < p < 65536 -> 0 < fold_left given_port l p < 65536.
Proof.
  induction l as [|[ch arg] l IH]; intros p Hl Hp; simpl; [done|]. apply Forall_cons in Hl as [Ha Hl]. apply IH; [done|]. unfold given_port. simpl in *.
  destruct (Z.eqb_spec ch (letter "p")) as [->|]; [|done]. destruct Ha as [[_ H]|[H|H]]; done.
Qed.

Definition calls_ok (c : calls) : bool :=
  malloc_buffer c && (0 <=? socket_ret c) && (0 <=? getifaddrs_ret c) && (bind_ret c =? 0) && calloc_sockaddr c && calloc_switch c.

(** The digits of a number are read back. *)
Lemma strtol_digits_value ds : forall acc, Forall (fun d => 0 <= d < 10) ds -> strtol_digits (hex_char <$> ds) acc = value 10 ds acc.
Proof.
  induction ds as [|d ds IH]; intros acc H; [done|]. apply Forall_cons in H as [Hd H]. cbn [fmap list_fmap strtol_digits].
  assert (hex_char d = 48 + d) as -> by (unfold hex_char; by rewrite (proj2 (Z.ltb_lt d 10)) by lia).
  rewrite (proj2 (Z.leb_le 48 _)), (proj2 (Z.leb_le _ 57)) by lia. cbn [andb]. replace (48 + d - 48) with d by lia. rewrite IH by done. done.
Qed.

Lemma atoi_number n : 0 <= n < 2 ^ 31 -> atoi (number 10 n) = n.
Proof.
  intros Hn. unfold number. assert (Forall (fun d => 0 <= d < 10) (rev (digits 64 10 n))) as Hds by (apply Forall_rev, digits_range; lia).
  assert (value 10 (rev (digits 64 10 n)) 0 = n) as Hv by (apply value_digits; [lia|]; split; [lia|]; etransitivity; [apply Hn|]; vm_compute; done).
  destruct (rev (digits 64 10 n)) as [|d ds] eqn:E; [simpl in Hv; subst; reflexivity|]. pose proof Hds as Hds'. apply Forall_cons in Hds' as [Hd _].
  unfold atoi. cbn [fmap list_fmap]. assert (hex_char d = 48 + d) as Hc by (unfold hex_char; by rewrite (proj2 (Z.ltb_lt d 10)) by lia).
  assert (skip_spaces (hex_char d :: (hex_char <$> ds)) = hex_char <$> d :: ds) as Hskip.
  { simpl. unfold isspace. rewrite Hc, (proj2 (Z.eqb_neq _ 32)), (proj2 (Z.leb_gt (48 + d) 13)), andb_false_r by lia. done. }
  change (list_fmap _ _ hex_char ds) with (hex_char <$> ds). rewrite Hskip. cbn [fmap list_fmap]. rewrite (proj2 (Z.eqb_neq (hex_char d) 45)), (proj2 (Z.eqb_neq (hex_char d) 43)) by lia.
  change (hex_char d :: list_fmap _ _ hex_char ds) with (hex_char <$> d :: ds). rewrite (strtol_digits_value (d :: ds)), Hv by done.
  rewrite Z.min_r, Z.max_r by lia. unfold s32, swrap. rewrite Z.mod_small by lia. by rewrite (proj2 (Z.ltb_lt _ _)) by lia.
Qed.

(** ** Theorems *)

(** The daemon reaches its loop exactly when every option is known, every port given is a
    port, and every call succeeds.  The socket is then bound to the port of the last
    option -p, or to 8432, and whatever the loop does the port table stays consistent. *)
Theorem pibnetd_starts (args : list (Z * list Z)) (c : calls) (fuel : nat) (events : list event) (results : list (sysret Z)) :
  match startup args c with
  | inl e => main args c fuel events results = inl e /\ ~ (Forall good_option args /\ calls_ok c = true)
  | inr (o, k) => Forall good_option args /\ calls_ok c = true
      /\ ct_sin_port k = fold_left given_port args PIB_NETD_DEFAULT_PORT /\ 0 < ct_sin_port k < 65536
      /\ is_daemon o = existsb (fun a => a.1 =? letter "B") args
      /\ exists run, main args c fuel events results = inr run /\ forall r s', run = Some (r, s') -> table_ok s'
  end.
Proof.
  unfold main. assert (forall g run, run = do_work g fuel events ((init_netd g) <| nt_results := results |>) -> forall r s', run = Some (r, s') -> table_ok s') as Hloop.
  { intros g run -> r s' H. eapply table_ok_work; [|exact H]. apply init_table_ok. }
  destruct (startup args c) as [e|[o k]] eqn:E; unfold startup in E; pose proof (parse_options_spec args default_options) as Hp; destruct (parse_options args default_options) as [e'|o'].
  - split; [done|]. by intros [H _].
  - split; [done|]. intros [_ H]. unfold init_control, calls_ok in *. rewrite !andb_true_iff, !Z.leb_le, Z.eqb_eq in H. destruct H as (((((H1 & H2) & H3) & H4) & H5) & H6).
    rewrite H1, H5, H4, H6, (proj2 (Z.ltb_ge _ _) H2), (proj2 (Z.ltb_ge _ _) H3) in E. done.
  - done.
  - destruct Hp as (Hgood & Hport & Hd). assert (0 < port_num o' < 65536) as Hr by (rewrite Hport; by apply fold_port).
    unfold init_control in E. destruct (malloc_buffer c) eqn:H1; [|done]. destruct (Z.ltb_spec (socket_ret c) 0) as [|H2]; [done|]. destruct (Z.ltb_spec (getifaddrs_ret c) 0) as [|H3]; [done|].
    destruct (Z.eqb_spec (bind_ret c) 0) as [H4|]; [|done]. destruct (calloc_sockaddr c) eqn:H5; [|done]. destruct (calloc_switch c) eqn:H6; [|done]. injection E as <- <-. simpl.
    split; [done|]. split; [unfold calls_ok; rewrite H1, H5, H6, H4, (proj2 (Z.leb_le _ _) H2), (proj2 (Z.leb_le _ _) H3); done|].
    unfold u16. rewrite wrap_small by lia. split; [done|]. split; [done|]. split; [done|]. eexists. split; [done|]. by eapply Hloop.
Qed.

(** A port given in decimal is the port the daemon listens on. *)
Lemma port_argument n c : 0 < n < 65536 -> calls_ok c = true -> exists o k, startup [(letter "p", number 10 n)] c = inr (o, k) /\ ct_sin_port k = n.
Proof.
  intros Hn Hc. assert (u32 (atoi (number 10 n)) = n) as Ha by (rewrite atoi_number by lia; apply wrap_small; lia). unfold startup. cbn [parse_options]. rewrite Z.eqb_refl, Ha.
  rewrite (proj2 (Z.ltb_lt 0 n)), (proj2 (Z.ltb_lt n 65536)) by lia. cbn [andb port_num]. unfold init_control, calls_ok in *.
  rewrite !andb_true_iff, !Z.leb_le, Z.eqb_eq in Hc. destruct Hc as (((((H1 & H2) & H3) & H4) & H5) & H6).
  rewrite H1, H5, H4, H6, (proj2 (Z.ltb_ge _ _) H2), (proj2 (Z.ltb_ge _ _) H3). simpl. eexists _, _. split; [reflexivity|]. apply wrap_small. lia.
Qed.
